(* ===== verification/_CoqProject ===== *)
-Q . S2P
Prelude.v
F64.v
Text.v
FlushControl.v
Aggregators.v
SpanDedup.v
Wire.v
Sketch.v
DataStreams.v
Stitch.v
TelemetryEvents.v
EnhancedMetrics.v
Proc.v
ContextBuffer.v
Flushing.v
FlushingService.v
LogsProcessor.v
Triggers.v
TriggerEvents.v
Configuration.v
Tags.v
SpanInferrer.v
Otlp.v
StatsConcentrator.v
TraceProcessor.v
AppSec.v
InvocationProcessor.v
InvocationProperties.v
InvocationTraces.v
InvocationRelease.v
TraceAgent.v
OtlpAgent.v
ExtensionLoop.v
RuntimeProxy.v
Environment.v
Secrets.v
Logger.v
Services.v
Servers.v
TestMode.v
Startup.v
