(* ===== verification/Prelude.v ===== *)
(** Verification of bottlecap, the Rust implementation of the Datadog Lambda extension
    ([src/bottlecap/src]).

    * The program

    The extension runs beside a Lambda function. It registers with the Extensions API and asks
    it for events; the Telemetry API posts the logs and platform records of the function to it;
    the tracer of the function posts traces, stats and other payloads to its trace agent, and an
    OpenTelemetry exporter to its OTLP receiver; the tracer, or a proxy of the Runtime API,
    reports the start and the end of each invocation. The invocation processor makes spans and
    metrics of these reports. Everything that is to be sent is queued in aggregators, from which
    the flushers send it, when the flush control of the main loop decides so.

    * The files

    Every file names the sources it models. Paths are under [src/bottlecap/src].

    Foundations
    - [Prelude]: machine integers, [outcome] (a result or a panic), shared lemmas and tactics.
    - [F64]: binary64 arithmetic. [Text]: strings and JSON values.

    When and what to flush
    - [FlushControl]: [lifecycle/flush_control.rs], [lifecycle/invocation_times.rs]. State
      [InvocationTimes.t] and [FlushControl.t].
    - [Aggregators]: the four queues ([logs/aggregator.rs], [traces/*_aggregator.rs]) and the
      services that own two of them; one Module each.
    - [Flushing], [FlushingService]: the flushers ([logs/flusher.rs], [traces/*_flusher.rs]) and
      their coordination ([flushing/]).

    Logs and platform records
    - [TelemetryEvents], [Stitch]: the records ([extension/telemetry/events.rs]) and the
      reassembly of records that were cut ([stitch.rs]).
    - [LogsProcessor]: [logs/lambda/processor.rs], [logs/processor.rs], [logs/agent.rs].
    - [EnhancedMetrics], [Proc]: the metrics of an invocation ([metrics/enhanced/]) and the
      readings of the host ([proc/mod.rs]).

    Invocations
    - [Triggers], [TriggerEvents]: the events that invoke a function
      ([lifecycle/invocation/triggers/]), decoded and recognised.
    - [SpanInferrer]: inferred spans and the extraction of trace contexts.
    - [ContextBuffer]: the contexts of invocations ([lifecycle/invocation/context.rs]).
    - [InvocationProcessor]: [lifecycle/invocation/processor.rs] and the commands of
      [processor_service.rs]; [Processor.step] is one command, [Processor.run] the service. Its
      properties are in [InvocationProperties], [InvocationTraces] and [InvocationRelease].

    Traces
    - [SpanDedup]: [traces/span_dedup.rs] and its service.
    - [StatsConcentrator]: the stats service and generator.
    - [TraceProcessor]: [traces/trace_processor.rs]; [Pipeline] is the sender with its channels.
    - [AppSec]: App and API Protection ([appsec/]), with the traces it holds for a response.
    - [TraceAgent]: [traces/trace_agent.rs]; [Forwarder] is the forwarder task with its barrier,
      [handle_traces] the handler of a request, composed of the deduplicator, the invocation
      processor, App and API Protection and the trace sender.
    - [Otlp], [OtlpAgent]: the conversion of OpenTelemetry spans and the receiver ([otlp/]).

    Data Streams Monitoring
    - [Wire], [Sketch], [DataStreams]: the encodings, the sketch and the aggregation of
      [traces/data_streams/].

    The process
    - [Configuration], [Tags], [Environment], [Secrets], [Logger]: [config/], [tags/], what the
      start of the process makes of them ([http.rs], [startup.rs], [fips/]), the API key
      ([secrets/]) and the log lines ([logger/]).
    - [ExtensionLoop]: the loops of [bin/bottlecap/main.rs] and the two APIs ([extension/]).
      [OnDemand] and [Managed] are machines over the inputs a loop can wait for; their log is
      what the loop does, and the commands in it drive the invocation processor.
    - [RuntimeProxy]: the lifecycle listener, the proxy of the Runtime API and the adapter for
      the Lambda Web Adapter ([lifecycle/listener.rs], [proxy/], [lwa/]).
    - [Services]: the handles of the services that own their state ([*_service.rs]). [Channel] is
      the machine of one service and any number of callers; [Service] is the interface it is
      proved against, of which each service is an instance.
    - [Servers]: the routers of the five HTTP servers and the limits on bodies ([http.rs]); a
      Module each, [serve] is one request, to the handlers of the files above.
    - [Startup]: the start of the extension and its idle loop ([bin/bottlecap/main.rs],
      [startup.rs]).
    - [TestMode]: [bin/bottlecap-test-mode/main.rs]. [Flushes] is the machine of its flushes,
      which share a lock, with the requests and the forwarder.

    * How the code is represented

    The crate is built in release mode: integers are [Z] with their wrap-around, an index out of
    range, a failed [expect] or a slice of a wrong length is [Panic], and a panic ends the
    process. A [HashMap] is a [gmap]; where the code iterates it, the order is a parameter. A
    channel is the list of what it holds or of what it was sent; a task is a value that runs
    later, or a machine whose steps are interleaved with those of others. Clocks, random ids and
    readings of the host are arguments. The answers of the network are arguments too, one per
    attempt, and the theorems hold for all of them.

    Code of other crates is a type class: [Externals] (texts, times, base64, environment),
    [OtlpExternals] and [OtlpDecoders], [ConcentratorOps], [TraceOps] and [TraceDecoders]
    (libdatadog), [WafOps] (libddwaf and parsers), [TraceSender] (what traces are handed to, of
    which [TraceProcessor] is the implementation), [Propagation], [ProxyOps], [ClientOps],
    [SecretOps] and [HttpOps] (axum and tower-http, with what their documentation says). A theorem that needs more of such code states it as a hypothesis, and its
    witness gives an instance for which it holds.

    * What is proved

    - Nothing is lost or repeated on the way: logs from the record to the batch
      ([logs_reach_aggregator_once], [logs_get_batch_spec], and [concurrent_logs_exactly_once] for
      any number of tasks that insert and flush at once), traces
      from the request to the aggregator ([accepted_spans_present_once],
      [held_traces_conserved], [ended_invocation_releases_trace], [barrier_covers_accepted],
      [trace_flush_drains_queue], [dedup_refines_sliding_window]), and
      [blocking_flush_reports_undelivered] for what leaves the process. In test mode an answered
      flush confirms delivery ([flush_confirms_delivery]), for which the lock is needed
      ([lock_is_needed]).
    - Concurrent callers: every run of a service with any number of callers is one in which its
      commands were served one after the other ([calls_linearized]), and every method of the
      invocation processor's handle returns a value of its type ([processor_methods_typed]).
    - The servers: the answers of the trace agent account for what it took
      ([answers_account_for_state]), the limits of the telemetry listener fit each other
      ([telemetry_limits_fit]), the runtime's requests reach the Runtime API
      ([runtime_requests_forwarded]), the end of an invocation is heard
      ([end_of_invocation_heard]), and OTLP over HTTP and over gRPC agree
      ([otlp_protocols_agree]).
    - The order of the process: [end_flush_precedes_next], [shutdown_flushes_last],
      [managed_shutdown_flushes_last], [started_tasks_stopped],
      [cancelled_flush_releases_lock], [test_mode_drains_last], with the flush decisions of
      [default_strategy_refines_history] and [flushes_are_rate_limited].
    - Invocations: each is counted once, from the answer of the Extensions API to the metric
      ([announced_invocations_counted], [invocations_counted_once]), is paired in order of
      arrival ([arrival_order_pairing]) and found by its id ([start_context_lookup]); each batch
      of spans is one trace ([batches_are_one_trace]).
    - Contents: what sampling keeps ([sampling_keeps_exactly]), who computes stats
      ([stats_computed_by_one_party]), the conversion of OTLP ([otlp_traces_grouped_by_id],
      [otlp_agrees_with_sending_step]), the sketch as an exact histogram
      ([store_is_exact_histogram]), the grouping of checkpoints ([dsm_groups_checkpoints]), the
      resolution of the settings ([settings_resolved_by_last_source]), the rate limit of the API
      security sampler ([endpoints_sampled_once_per_interval]).
    - Round trips with what reads the other end: [sketch_wire_roundtrip], [context_roundtrip],
      [split_events_rebuilds], [injected_trace_id_read_back], [escaped_text_read_back],
      [function_tags_read_back]; the signatures of requests to AWS verify
      ([secret_request_verifies], [auth_proof_verifies]); the proxy changes nothing that the
      runtime sees ([proxy_is_transparent]).
    - Where the code falls short of its purpose or of its documentation, a theorem says how:
      [barrier_misses_concurrent_payload], [end_wait_needs_metrics], [first_shutdown_ignored],
      [span_pointers_miss_root], [first_span_decides_trace], [client_spans_never_measured],
      [key_resolution_panics_only_on_ssm], [waiting_ids_never_released],
      [reparented_context_mixes_traces], [clock_regression_forces_flush] and others.

    * Bounds and fuel

    Loops that are not structural take fuel, and a theorem shows that it is enough: the writer of
    varints ten steps, for 64 bits in groups of seven; the splitting of a payload its length,
    since every turn takes at least an envelope ([split_loop_fuel]); a batching loop any number
    above the length of its queue ([get_batches_loop_total]); a sending loop the number of
    attempts of the flusher ([send_loop_spec]); the eviction of held logs any number above their
    limit ([logs_reach_aggregator_once]), except in the one state from which the code itself does
    not return ([durable_init_start_wedges_hold_log]). The sketch has 2048 bins and the context
    buffer its capacity, as in the code; no other bound is assumed.

    * Not modelled

    Sockets, connections and HTTP transport (axum, tonic, hyper, reqwest, rustls), the runtime of
    tokio and the handling of signals; the deserialization that serde derives, which is a
    parameter, except for the trigger events; the concentrator, the samplers, the obfuscation and
    the encoders of libdatadog; the firewall and its rules ([appsec/processor/ruleset.rs]); the
    aggregator and the flushers of the dogstatsd crate; the two system calls of
    [metrics/enhanced/statfs.rs] and [proc/clock.rs]; the texts of log messages. The capacity of
    channels is modelled in [Services] only: elsewhere a sender never waits. *)

From stdpp Require Export base tactics numbers list gmap strings fin_maps sets.
From Stdlib Require Export Ascii.
From Stdlib Require String.
From Stdlib Require Export ZArith Lia.

#[export] Set Default Proof Using "Type".
#[export] Set Default Goal Selector "!".

Open Scope Z_scope.

(** * Machine integers

    The crate is built in release mode without overflow checks, so unsigned
    arithmetic wraps modulo [2^w] and casts truncate. *)

Definition U8_MAX : Z := 255.
Definition U32_MAX : Z := 2 ^ 32 - 1.
Definition U64_MAX : Z := 2 ^ 64 - 1.
Definition I32_MIN : Z := - 2 ^ 31.
Definition I32_MAX : Z := 2 ^ 31 - 1.
Definition I64_MIN : Z := - 2 ^ 63.
Definition I64_MAX : Z := 2 ^ 63 - 1.

Definition is_u64 (z : Z) : Prop := 0 <= z < 2 ^ 64.
Definition is_i64 (z : Z) : Prop := - 2 ^ 63 <= z < 2 ^ 63.
Definition is_i32 (z : Z) : Prop := - 2 ^ 31 <= z < 2 ^ 31.

#[export] Instance is_u64_dec z : Decision (is_u64 z).
Proof. unfold is_u64. apply _. Defined.
#[export] Instance is_i32_dec z : Decision (is_i32 z).
Proof. unfold is_i32. apply _. Defined.

(** [z as u64], and the result of a wrapping [u64] operation. *)
Definition wrap_u64 (z : Z) : Z := z mod 2 ^ 64.
Definition wrap_u32 (z : Z) : Z := z mod 2 ^ 32.

(** [z as i64] on a 64-bit pattern: two's complement. *)
Definition wrap_i64 (z : Z) : Z := (z + 2 ^ 63) mod 2 ^ 64 - 2 ^ 63.
Definition wrap_i32 (z : Z) : Z := (z + 2 ^ 31) mod 2 ^ 32 - 2 ^ 31.

Declare Scope rust_scope.
Delimit Scope rust_scope with rust.
Notation "a -ᵤ b" := (wrap_u64 (a - b)) (at level 50, left associativity) : rust_scope.
Notation "a +ᵤ b" := (wrap_u64 (a + b)) (at level 50, left associativity) : rust_scope.
Notation "a *ᵤ b" := (wrap_u64 (a * b)) (at level 40, left associativity) : rust_scope.

(** [u64::saturating_sub]. *)
Definition saturating_sub (a b : Z) : Z := if a <? b then 0 else a - b.

(** [u64::checked_mul]. *)
Definition checked_mul_u64 (a b : Z) : option Z :=
  if a * b <=? U64_MAX then Some (a * b) else None.

(** [u64::try_from(z : i64).ok()]. *)
Definition u64_try_from (z : Z) : option Z := if z <? 0 then None else Some z.

Create HintDb rust.
Create Rewrite HintDb rust.

Lemma wrap_u64_small z : is_u64 z -> wrap_u64 z = z.
Proof. unfold is_u64, wrap_u64. intros. by apply Z.mod_small. Qed.

Lemma wrap_u64_range z : is_u64 (wrap_u64 z).
Proof. unfold is_u64, wrap_u64. apply Z.mod_pos_bound. lia. Qed.

Lemma wrap_u64_sub a b : is_u64 a -> is_u64 b ->
  wrap_u64 (a - b) = if b <=? a then a - b else 2 ^ 64 + a - b.
Proof.
  unfold is_u64, wrap_u64. intros Ha Hb. case (Z.leb_spec b a) as [H|H].
  - apply Z.mod_small; lia.
  - replace (a - b) with ((2 ^ 64 + a - b) + (-1) * 2 ^ 64) by lia.
    rewrite Z_mod_plus_full. apply Z.mod_small; lia.
Qed.

Lemma wrap_i64_small z : is_i64 z -> wrap_i64 z = z.
Proof. unfold is_i64, wrap_i64. intros. rewrite Z.mod_small; lia. Qed.

Lemma wrap_i32_small z : is_i32 z -> wrap_i32 z = z.
Proof. unfold is_i32, wrap_i32. intros. rewrite Z.mod_small; lia. Qed.

Lemma wrap_i64_range z : is_i64 (wrap_i64 z).
Proof.
  unfold is_i64, wrap_i64.
  pose proof (Z.mod_pos_bound (z + 2 ^ 63) (2 ^ 64)). lia.
Qed.

Lemma saturating_sub_spec a b : saturating_sub a b = Z.max 0 (a - b).
Proof. unfold saturating_sub. case (Z.ltb_spec a b); lia. Qed.

Lemma saturating_sub_u64 a b : is_u64 a -> is_u64 b -> is_u64 (saturating_sub a b).
Proof. rewrite saturating_sub_spec. unfold is_u64. lia. Qed.

#[export] Hint Resolve wrap_u64_range wrap_i64_range saturating_sub_u64 : rust.
#[export] Hint Rewrite wrap_u64_small wrap_i64_small wrap_i32_small
  using (unfold is_u64, is_i64, is_i32 in *; lia) : rust.

(** * Panics

    An index out of range, or a slice range out of order, aborts the process.
    Operations that can do so return [outcome]. *)

Inductive outcome (A : Type) : Type :=
| Done (a : A)
| Panic.
Arguments Done {A} a.
Arguments Panic {A}.

Definition outcome_bind {A B} (f : A -> outcome B) (m : outcome A) : outcome B :=
  match m with Done a => f a | Panic => Panic end.

#[export] Instance outcome_mbind : MBind outcome := @outcome_bind.
#[export] Instance outcome_mret : MRet outcome := @Done.

Definition unwrap {A} (o : option A) : outcome A :=
  match o with Some a => Done a | None => Panic end.

(** [v[i]] and [v[i] = x] on a [Vec] or array. *)
Definition vec_index {A} (v : list A) (i : nat) : outcome A := unwrap (v !! i).
Definition vec_store {A} (v : list A) (i : nat) (x : A) : outcome (list A) :=
  if (i <? length v)%nat then Done (<[i := x]> v) else Panic.

(** * Queues

    [VecDeque] is a list whose head is the front. *)

Definition push_back {A} (q : list A) (x : A) : list A := q ++ [x].
Definition push_front {A} (q : list A) (x : A) : list A := x :: q.
Definition pop_front {A} (q : list A) : option A * list A :=
  match q with [] => (None, []) | x :: q' => (Some x, q') end.

(** * Bytes

    [Vec<u8>], [&[u8]] and the UTF-8 bytes of a [String]. *)

Abbreviation bytes := (list ascii).
Notation "'b!' s" := (String.list_ascii_of_string s%string) (at level 5, s at level 0, only parsing)
  : rust_scope.

#[global] Arguments String.list_ascii_of_string : simpl never.

Definition blen (b : bytes) : Z := Z.of_nat (length b).

Lemma blen_app b1 b2 : blen (b1 ++ b2) = blen b1 + blen b2.
Proof. unfold blen. rewrite length_app. lia. Qed.

Lemma blen_nonneg b : 0 <= blen b.
Proof. unfold blen. lia. Qed.

#[export] Hint Rewrite blen_app : rust.
#[export] Hint Resolve blen_nonneg : rust.

(** [Vec::pop]. *)
Definition vec_pop {A} (v : list A) : list A := take (length v - 1) v.

Lemma vec_pop_snoc {A} (v : list A) x : vec_pop (v ++ [x]) = v.
Proof.
  unfold vec_pop. rewrite length_app. simpl.
  rewrite Nat.add_sub. by rewrite take_app_length.
Qed.

(** [slice.join(sep)]. *)
Fixpoint join {A} (sep : list A) (ls : list (list A)) : list A :=
  match ls with
  | [] => []
  | [l] => l
  | l :: ls' => l ++ sep ++ join sep ls'
  end.

Lemma mjoin_fmap_cons {A B} (f : A -> list B) x l :
  mjoin (f <$> x :: l) = f x ++ mjoin (f <$> l).
Proof. done. Qed.

Lemma join_cons2 {A} (sep l l' : list A) ls :
  join sep (l :: l' :: ls) = l ++ sep ++ join sep (l' :: ls).
Proof. done. Qed.

(** * Shared tactics *)

(** Case on the scrutinee of a [match] or [if] of the goal, keeping the equation. *)
Ltac break_match :=
  match goal with
  | |- context [match ?x with _ => _ end] => destruct x eqn:?
  end.

Ltac break_match_hyp :=
  match goal with
  | H : context [match ?x with _ => _ end] |- _ => destruct x eqn:?
  end.

(** Turn boolean comparisons of [Z] and [nat] into propositions. *)
Ltac bool_to_prop :=
  repeat match goal with
  | H : (_ && _) = true |- _ => apply andb_true_iff in H as [? ?]
  | H : (_ || _) = false |- _ => apply orb_false_iff in H as [? ?]
  | H : negb _ = true |- _ => apply negb_true_iff in H
  | H : negb _ = false |- _ => apply negb_false_iff in H
  | H : (_ <? _) = true |- _ => apply Z.ltb_lt in H
  | H : (_ <? _) = false |- _ => apply Z.ltb_ge in H
  | H : (_ <=? _) = true |- _ => apply Z.leb_le in H
  | H : (_ <=? _) = false |- _ => apply Z.leb_gt in H
  | H : (_ =? _) = true |- _ => apply Z.eqb_eq in H
  | H : (_ =? _) = false |- _ => apply Z.eqb_neq in H
  | H : (_ <? _)%nat = true |- _ => apply Nat.ltb_lt in H
  | H : (_ <? _)%nat = false |- _ => apply Nat.ltb_ge in H
  | H : (_ <=? _)%nat = true |- _ => apply Nat.leb_le in H
  | H : (_ <=? _)%nat = false |- _ => apply Nat.leb_gt in H
  | H : (_ =? _)%nat = true |- _ => apply Nat.eqb_eq in H
  | H : (_ =? _)%nat = false |- _ => apply Nat.eqb_neq in H
  end.
