(* ===== verification/F64.v ===== *)
(** The [f64] type of Rust: IEEE 754 binary64 with rounding to nearest even,
    on the Standard Library's executable [spec_float], and what the crate uses
    of it (arithmetic, comparison, casts, [round], [to_le_bytes]). The lemmas
    bound the result of a rounded conversion or quotient from below by an
    integer, which is how a float comparison of the code is shown to decide an
    integer inequality. *)

From S2P Require Import Prelude.
From Stdlib Require Import SpecFloat.

Definition PREC : Z := 53.
Definition EMAX : Z := 1024.

Definition f64 : Type := spec_float.

(** [n as f64] for an integer [n]. *)
Definition f64_of_Z (n : Z) : f64 := binary_normalize PREC EMAX n 0 false.

Definition fadd : f64 -> f64 -> f64 := SFadd PREC EMAX.
Definition fsub : f64 -> f64 -> f64 := SFsub PREC EMAX.
Definition fmul : f64 -> f64 -> f64 := SFmul PREC EMAX.
Definition fdiv : f64 -> f64 -> f64 := SFdiv PREC EMAX.
Definition fneg : f64 -> f64 := SFopp.
Definition flt : f64 -> f64 -> bool := SFltb.
Definition fle : f64 -> f64 -> bool := SFleb.
Definition feq : f64 -> f64 -> bool := SFeqb.

Definition f64_zero : f64 := S754_zero false.
Definition f64_one : f64 := f64_of_Z 1.

(** [f64::MAX]. *)
Definition f64_max_value : f64 := SFmax_float PREC EMAX.

(** [a.max(b)]: a NaN operand is ignored. *)
Definition fmax (a b : f64) : f64 :=
  match a, b with
  | S754_nan, _ => b
  | _, S754_nan => a
  | _, _ => if flt a b then b else a
  end.

(** [a.min(b)]. *)
Definition fmin (a b : f64) : f64 :=
  match a, b with
  | S754_nan, _ => b
  | _, S754_nan => a
  | _, _ => if flt b a then b else a
  end.

(** The integer part of [m * 2^e], rounding towards zero. *)
Definition trunc_pos (m : positive) (e : Z) : Z :=
  if 0 <=? e then Zpos m * 2 ^ e else Zpos m / 2 ^ (- e).

(** [x as i64]: truncates, saturates at the bounds, sends NaN to 0. *)
Definition f64_to_i64 (x : f64) : Z :=
  match x with
  | S754_zero _ | S754_nan => 0
  | S754_infinity s => if s then I64_MIN else I64_MAX
  | S754_finite s m e =>
      let v := trunc_pos m e in
      Z.max I64_MIN (Z.min I64_MAX (if s then - v else v))
  end.

(** [x.round()]: to the nearest integer, half-way cases away from zero. *)
Definition fround (x : f64) : f64 :=
  match x with
  | S754_finite s m e =>
      if 0 <=? e then x
      else
        let v := (Zpos m + 2 ^ (- e - 1)) / 2 ^ (- e) in
        binary_normalize PREC EMAX (if s then - v else v) 0 s
  | _ => x
  end.

(** [x.ceil()]: to the least integer not below, keeping the sign of zero. *)
Definition fceil (x : f64) : f64 :=
  match x with
  | S754_finite s m e =>
      if 0 <=? e then x
      else
        let v := if s then - (Zpos m / 2 ^ (- e)) else (Zpos m + 2 ^ (- e) - 1) / 2 ^ (- e) in
        binary_normalize PREC EMAX v 0 s
  | _ => x
  end.

(** [x as i32]. *)
Definition f64_to_i32 (x : f64) : Z :=
  match x with
  | S754_zero _ | S754_nan => 0
  | S754_infinity s => if s then I32_MIN else I32_MAX
  | S754_finite s m e =>
      let v := trunc_pos m e in
      Z.max I32_MIN (Z.min I32_MAX (if s then - v else v))
  end.

(** The 64-bit pattern of a float. *)
Definition f64_bits (x : f64) : Z :=
  let sign (s : bool) := if s then 2 ^ 63 else 0 in
  match x with
  | S754_zero s => sign s
  | S754_infinity s => sign s + 2047 * 2 ^ 52
  | S754_nan => 2047 * 2 ^ 52 + 2 ^ 51
  | S754_finite s m e =>
      if Zpos m <? 2 ^ 52 then sign s + Zpos m
      else sign s + (e + 1075) * 2 ^ 52 + (Zpos m - 2 ^ 52)
  end.

(** [to_le_bytes]: [n] bytes, least significant first. *)
Fixpoint le_bytes (n : nat) (z : Z) : list Z :=
  match n with
  | O => []
  | S n' => z mod 256 :: le_bytes n' (z / 256)
  end.

Definition f64_to_le_bytes (x : f64) : list Z := le_bytes 8 (f64_bits x).

Example f64_bits_one : f64_bits f64_one = 0x3FF0000000000000.
Proof. reflexivity. Qed.

Example fround_half : fround (fdiv (f64_of_Z 5) (f64_of_Z 2)) = f64_of_Z 3.
Proof. reflexivity. Qed.

Example f64_to_i64_neg : f64_to_i64 (fdiv (f64_of_Z (-7)) (f64_of_Z 2)) = -3.
Proof. reflexivity. Qed.

Lemma length_le_bytes n z : length (le_bytes n z) = n.
Proof. revert z. induction n; intros; simpl; auto. Qed.

(** * Lower bounds through rounding *)

(** [c <= m * 2^e]. *)
Definition at_least (c m e : Z) : Prop :=
  if 0 <=? e then c <= m * 2 ^ e else c * 2 ^ (- e) <= m.

Lemma digits2_pos_bounds p :
  2 ^ (Zpos (digits2_pos p) - 1) <= Zpos p < 2 ^ Zpos (digits2_pos p).
Proof.
  induction p; simpl digits2_pos; try rewrite Pos2Z.inj_succ; [| |simpl; lia].
  all: rewrite <- Z.add_1_r, Z.add_simpl_r, Z.pow_add_r by lia.
  all: replace (2 ^ Zpos (digits2_pos p)) with (2 * 2 ^ (Zpos (digits2_pos p) - 1))
      in * by (rewrite <- Z.pow_succ_r by lia; f_equal; lia).
  all: rewrite ?(Pos2Z.inj_xI p), ?(Pos2Z.inj_xO p); lia.
Qed.

Lemma shr_1_m mrs : 0 <= shr_m mrs -> shr_m (shr_1 mrs) = shr_m mrs / 2.
Proof.
  destruct mrs as [m r s]. simpl. intros H.
  destruct m as [|[p|p|]|p]; simpl; try lia; try reflexivity.
  - rewrite (Pos2Z.inj_xI p).
    apply (Z.div_unique_pos _ _ _ 1); lia.
  - rewrite (Pos2Z.inj_xO p).
    apply (Z.div_unique_pos _ _ _ 0); lia.
Qed.

Lemma iter_shr_1_m p : forall mrs, 0 <= shr_m mrs ->
  shr_m (iter_pos shr_1 p mrs) = shr_m mrs / 2 ^ Zpos p.
Proof.
  induction p; intros mrs H; simpl iter_pos.
  - assert (0 <= shr_m (shr_1 mrs)) by (rewrite shr_1_m by done; apply Z.div_pos; lia).
    assert (0 <= shr_m (iter_pos shr_1 p (shr_1 mrs)))
      by (rewrite IHp by done; apply Z.div_pos; lia).
    rewrite IHp, IHp, shr_1_m by done.
    rewrite !Z.div_div by lia. f_equal.
    replace (Zpos p~1) with (Zpos p + Zpos p + 1) by lia.
    rewrite !Z.pow_add_r by lia. lia.
  - assert (0 <= shr_m (iter_pos shr_1 p mrs))
      by (rewrite IHp by done; apply Z.div_pos; lia).
    rewrite IHp, IHp by done.
    rewrite Z.div_div by lia. f_equal.
    replace (Zpos p~0) with (Zpos p + Zpos p) by lia.
    rewrite Z.pow_add_r by lia. lia.
  - rewrite shr_1_m by done. f_equal.
Qed.

(** What [shr_fexp] keeps: at most 53 bits, and every integer lower bound
    below [2^53]. *)
Lemma shr_fexp_spec c m e l mrs e' :
  0 < m -> 0 < c < 2 ^ 52 -> at_least c m e ->
  shr_fexp PREC EMAX m e l = (mrs, e') ->
  at_least c (shr_m mrs) e' /\ 0 < shr_m mrs < 2 ^ 53.
Proof.
  intros Hm Hc Hal. unfold shr_fexp.
  destruct m as [|p|p]; try lia. simpl Zdigits2.
  pose proof (digits2_pos_bounds p) as [Hlo Hhi].
  set (d := Zpos (digits2_pos p)) in *.
  assert (Hd : 1 <= d) by (unfold d; lia).
  assert (Hm0 : shr_m (shr_record_of_loc (Zpos p) l) = Zpos p)
    by (destruct l as [|[]]; reflexivity).
  unfold fexp, emin, PREC, EMAX.
  destruct (Z.max (d + e - 53) (3 - 1024 - 53) - e) as [|k|k] eqn:Hk;
    simpl shr; intros [= <- <-].
  - rewrite Hm0. split; [done|]. split; [lia|].
    apply (Z.lt_le_trans _ _ _ Hhi), Z.pow_le_mono_r; lia.
  - rewrite iter_shr_1_m by (rewrite Hm0; lia). rewrite Hm0.
    assert (Hup : Zpos p / 2 ^ Zpos k < 2 ^ 53).
    { apply Z.div_lt_upper_bound; [lia|]. rewrite <- Z.pow_add_r by lia.
      apply (Z.lt_le_trans _ _ _ Hhi), Z.pow_le_mono_r; lia. }
    enough (Hgoal : at_least c (Zpos p / 2 ^ Zpos k) (e + Zpos k)).
    { split; [done|]. split; [|done].
      unfold at_least in Hgoal. destruct (0 <=? e + Zpos k) eqn:He; bool_to_prop.
      - destruct (Z.lt_trichotomy (Zpos p / 2 ^ Zpos k) 0) as [?|[H0|?]]; [|rewrite H0 in *|]; nia.
      - pose proof (Z.pow_pos_nonneg 2 (- (e + Zpos k))). nia. }
    unfold at_least in *. destruct (0 <=? e + Zpos k) eqn:He; bool_to_prop.
    + assert (Hek : 2 ^ 52 <= Zpos p / 2 ^ Zpos k \/ e + Zpos k = 0).
      { destruct (decide (e + Zpos k = 0)); [by right|left].
        apply Z.div_le_lower_bound; [lia|]. rewrite <- Z.pow_add_r by lia.
        etrans; [|apply Hlo]. apply Z.pow_le_mono_r; lia. }
      destruct Hek as [Hek|Hek].
      * pose proof (Z.pow_pos_nonneg 2 (e + Zpos k)). nia.
      * rewrite Hek. simpl. rewrite Z.mul_1_r.
        destruct (0 <=? e) eqn:?; bool_to_prop; [lia|].
        apply Z.div_le_lower_bound; [lia|].
        replace (Zpos k) with (- e) by lia. lia.
    + apply Z.div_le_lower_bound; [lia|].
      destruct (0 <=? e) eqn:?; bool_to_prop; [lia|].
      rewrite Z.mul_comm, <- Z.mul_assoc, <- Z.pow_add_r by lia.
      replace (- (e + Zpos k) + Zpos k) with (- e) by lia. lia.
  - rewrite Hm0. split; [done|]. split; [lia|].
    apply (Z.lt_le_trans _ _ _ Hhi), Z.pow_le_mono_r; lia.
Qed.

Lemma round_nearest_even_ge m l : m <= round_nearest_even m l.
Proof. destruct l as [|[]]; simpl; try destruct (Z.even m); lia. Qed.

Lemma at_least_mono c m m' e : m <= m' -> at_least c m e -> at_least c m' e.
Proof.
  unfold at_least. intros Hm. destruct (0 <=? e) eqn:?; bool_to_prop; [|lia].
  pose proof (Z.pow_pos_nonneg 2 e). nia.
Qed.

(** A float that is an integer [c] or more. *)
Definition f64_ge_int (x : f64) (c : Z) : Prop :=
  x = S754_infinity false \/
  exists m e, x = S754_finite false m e /\ Zpos m < 2 ^ 53 /\ at_least c (Zpos m) e.

Lemma binary_round_aux_ge c m e l :
  0 < m -> 0 < c < 2 ^ 52 -> at_least c m e ->
  f64_ge_int (binary_round_aux PREC EMAX false m e l) c.
Proof.
  intros Hm Hc Hal. unfold binary_round_aux.
  destruct (shr_fexp PREC EMAX m e l) as [mrs1 e1] eqn:E1.
  apply (shr_fexp_spec c) in E1 as [H1 H1']; [|done..].
  destruct (shr_fexp PREC EMAX _ e1 loc_Exact) as [mrs2 e2] eqn:E2.
  pose proof (round_nearest_even_ge (shr_m mrs1) (loc_of_shr_record mrs1)) as Hge.
  apply (shr_fexp_spec c) in E2 as [H2 H2'];
    [|lia|done|by eapply at_least_mono].
  destruct (shr_m mrs2) as [|p|p]; try lia.
  destruct (e2 <=? EMAX - PREC); [right|by left]. eauto 10 with lia.
Qed.

Lemma shl_align_at_least m e e' c m' e'' :
  shl_align m e e' = (m', e'') -> at_least c (Zpos m) e -> at_least c (Zpos m') e''.
Proof.
  unfold shl_align. destruct (e' - e) as [|d|d] eqn:Hd; intros [= <- <-] H; try done.
  assert (Hit : Zpos (Pos.iter xO m d) = Zpos m * 2 ^ Zpos d).
  { rewrite <- Z.shiftl_mul_pow2 by lia. unfold Z.shiftl.
    by rewrite <- (Pos.iter_swap_gen _ _ Zpos xO (Z.mul 2)). }
  rewrite Hit. unfold at_least in *.
  destruct (0 <=? e) eqn:?, (0 <=? e') eqn:?; bool_to_prop; try lia.
  - replace e with (e' + Zpos d) in H by lia.
    rewrite Z.pow_add_r in H by lia. lia.
  - replace (Zpos d) with (e + - e') by lia. rewrite Z.pow_add_r by lia.
    pose proof (Z.pow_pos_nonneg 2 (- e')). nia.
  - replace (- e') with (Zpos d + - e) by lia. rewrite Z.pow_add_r by lia.
    pose proof (Z.pow_pos_nonneg 2 (Zpos d)). nia.
Qed.

Lemma f64_of_Z_ge c n : 0 < c < 2 ^ 52 -> c <= n -> f64_ge_int (f64_of_Z n) c.
Proof.
  intros Hc Hn. destruct n as [|p|p]; try lia.
  unfold f64_of_Z, binary_normalize, binary_round.
  destruct (shl_align _ _ _) as [m' e'] eqn:E.
  apply binary_round_aux_ge; [lia|done|].
  eapply shl_align_at_least; [done|]. unfold at_least. simpl. lia.
Qed.

(** A quotient by a positive integer [k] whose float is [mk * 2^ek] exactly. *)
Lemma fdiv_ge c k mk ek x :
  0 < c < 2 ^ 52 -> 0 < k -> ek <= 0 -> Zpos mk = k * 2 ^ (- ek) ->
  f64_ge_int x (c * k) -> f64_ge_int (fdiv x (S754_finite false mk ek)) c.
Proof.
  intros Hc Hk Hek Hmk [->|(m & e & -> & Hm & Hal)]; [by left|].
  unfold fdiv, SFdiv, SFdiv_core_binary. simpl Zdigits2.
  pose proof (digits2_pos_bounds m) as [Hlo _].
  pose proof (digits2_pos_bounds mk) as [_ Hhi].
  set (d1 := Zpos (digits2_pos m)) in *. set (d2 := Zpos (digits2_pos mk)) in *.
  assert (1 <= d1 /\ 1 <= d2) as [Hd1 Hd2] by (unfold d1, d2; lia).
  unfold fexp at 1, emin, PREC, EMAX.
  set (e' := Z.min _ (e - ek)).
  assert (He' : e' <= e - ek) by lia.
  set (m' := match e - ek - e' with Z0 => _ | Zpos _ => _ | Zneg _ => _ end).
  assert (Hm' : m' = Zpos m * 2 ^ (e - ek - e')).
  { unfold m'. destruct (e - ek - e') eqn:E; [simpl; lia| |lia].
    by rewrite Z.shiftl_mul_pow2 by lia. }
  destruct (Z.div_eucl m' (Zpos mk)) as [q r] eqn:Hq.
  pose proof (Z_div_mod m' (Zpos mk) ltac:(lia)) as Hqr. rewrite Hq in Hqr.
  assert (Hqe : q = m' / Zpos mk) by (unfold Z.div; by rewrite Hq).
  assert (Hpk : 0 < 2 ^ (- ek)) by (apply Z.pow_pos_nonneg; lia).
  enough (Hge : at_least c q e').
  { assert (0 < q); [|by apply binary_round_aux_ge].
    unfold at_least in Hge. destruct (0 <=? e') eqn:?; bool_to_prop.
    - pose proof (Z.pow_pos_nonneg 2 e'). nia.
    - pose proof (Z.pow_pos_nonneg 2 (- e')). nia. }
  rewrite Hqe. unfold at_least in *. destruct (0 <=? e') eqn:Hz; bool_to_prop.
  - (* the quotient carries at least 53 bits, or the exponent is 0 *)
    destruct (decide (e' = 0)) as [->|Hne].
    + simpl. rewrite Z.mul_1_r. apply Z.div_le_lower_bound; [lia|].
      rewrite Hm', Hmk, Z.sub_0_r.
      replace (e - ek) with (e + - ek) by lia.
      destruct (0 <=? e) eqn:?; bool_to_prop.
      * rewrite Z.pow_add_r by lia. nia.
      * assert (Hs : 2 ^ (- ek) = 2 ^ (e + - ek) * 2 ^ (- e))
          by (rewrite <- Z.pow_add_r by lia; f_equal; lia).
        pose proof (Z.pow_pos_nonneg 2 (e + - ek)). rewrite Hs. nia.
    + assert (2 ^ 52 <= m' / Zpos mk).
      { apply Z.div_le_lower_bound; [lia|]. rewrite Hm'.
        transitivity (2 ^ d2 * 2 ^ 52); [nia|].
        transitivity (2 ^ (d1 - 1) * 2 ^ (e - ek - e')).
        - rewrite <- !Z.pow_add_r by lia. apply Z.pow_le_mono_r; lia.
        - pose proof (Z.pow_pos_nonneg 2 (e - ek - e')). nia. }
      pose proof (Z.pow_pos_nonneg 2 e'). nia.
  - apply Z.div_le_lower_bound; [lia|]. rewrite Hm', Hmk.
    destruct (0 <=? e) eqn:?; bool_to_prop.
    + replace (e - ek - e') with (e + - ek + - e') by lia.
      rewrite !Z.pow_add_r by lia.
      pose proof (Z.pow_pos_nonneg 2 (- e')). nia.
    + replace (2 ^ (- ek) * (c * 2 ^ (- e'))) with (c * 2 ^ (- ek + - e'))
        by (rewrite Z.pow_add_r by lia; lia).
      replace (k * 2 ^ (- ek) * (c * 2 ^ (- e'))) with (c * k * 2 ^ (- ek + - e'))
        by (rewrite Z.pow_add_r by lia; lia).
      replace (- ek + - e') with ((e - ek - e') + - e) by lia.
      rewrite Z.pow_add_r by lia.
      pose proof (Z.pow_pos_nonneg 2 (e - ek - e')). nia.
Qed.

(** A float at or above an integer is not below that integer's float. *)
Lemma flt_ge_int x c mc ec :
  ec <= 0 -> 2 ^ 52 <= Zpos mc -> Zpos mc = c * 2 ^ (- ec) ->
  f64_ge_int x c -> flt x (S754_finite false mc ec) = false.
Proof.
  intros Hec Hmc Hval [->|(m & e & -> & Hm & Hal)]; [done|].
  unfold flt, SFltb, SFcompare. destruct (Z.compare_spec e ec) as [->|Hlt|Hgt]; [| |done].
  - assert (Hge : Zpos mc <= Zpos m).
    { unfold at_least in Hal. destruct (0 <=? ec) eqn:?; bool_to_prop; [|lia].
      replace ec with 0 in * by lia. simpl in *. lia. }
    change (Pos.compare_cont Eq m mc) with (m ?= mc)%positive.
    by destruct (Pos.compare_spec m mc); [|lia|].
  - exfalso. unfold at_least in Hal. destruct (0 <=? e) eqn:?; bool_to_prop; [lia|].
    replace (- e) with (- ec + (ec - e)) in Hal by lia.
    rewrite Z.pow_add_r, Z.mul_assoc, <- Hval in Hal by lia.
    assert (2 ^ 1 <= 2 ^ (ec - e)) by (apply Z.pow_le_mono_r; lia). nia.
Qed.

(** * Exact integers

    An integer below [2^53] has a float, and a sum that stays below it is exact. *)
Lemma digits2_pos_unique p k :
  1 <= k -> 2 ^ (k - 1) <= Zpos p < 2 ^ k -> Zpos (digits2_pos p) = k.
Proof.
  intros Hk [Hlo Hhi]. pose proof (digits2_pos_bounds p) as [Hlo' Hhi'].
  assert (2 ^ (k - 1) < 2 ^ Zpos (digits2_pos p)) as H1 by lia.
  assert (2 ^ (Zpos (digits2_pos p) - 1) < 2 ^ k) as H2 by lia.
  apply Z.pow_lt_mono_r_iff in H1; [|lia..]. apply Z.pow_lt_mono_r_iff in H2; [|lia..]. lia.
Qed.

(** The digits of [p * 2^k]. *)
Lemma digits2_pos_shifted p q k :
  0 <= k -> Zpos q = Zpos p * 2 ^ k -> Zpos (digits2_pos q) = Zpos (digits2_pos p) + k.
Proof.
  intros Hk Hq. apply digits2_pos_unique; [lia|]. rewrite Hq.
  pose proof (digits2_pos_bounds p) as [Hlo Hhi].
  replace (Zpos (digits2_pos p) + k - 1) with (Zpos (digits2_pos p) - 1 + k) by lia.
  rewrite !Z.pow_add_r by lia. pose proof (Z.pow_pos_nonneg 2 k). nia.
Qed.

Definition exact_record (m : Z) : shr_record := {| shr_m := m; shr_r := false; shr_s := false |}.

Lemma shr_1_exact m : 0 < m -> shr_1 (exact_record (2 * m)) = exact_record m.
Proof. by destruct m. Qed.

Lemma iter_shr_1_exact k : forall m, 0 < m ->
  iter_pos shr_1 k (exact_record (m * 2 ^ Zpos k)) = exact_record m.
Proof.
  induction k as [k IH|k IH|]; intros m Hm; cbn [iter_pos].
  - replace (m * 2 ^ Zpos k~1) with (2 * (m * 2 ^ Zpos k * 2 ^ Zpos k)).
    2:{ replace (Zpos k~1) with (Zpos k + Zpos k + 1) by lia. rewrite !Z.pow_add_r by lia. lia. }
    pose proof (Z.pow_pos_nonneg 2 (Zpos k) ltac:(lia) ltac:(lia)).
    rewrite shr_1_exact, IH, IH by nia. done.
  - replace (m * 2 ^ Zpos k~0) with (m * 2 ^ Zpos k * 2 ^ Zpos k).
    2:{ replace (Zpos k~0) with (Zpos k + Zpos k) by lia. rewrite Z.pow_add_r by lia. lia. }
    pose proof (Z.pow_pos_nonneg 2 (Zpos k) ltac:(lia) ltac:(lia)).
    rewrite IH, IH by nia. done.
  - rewrite Z.pow_1_r, Z.mul_comm. by apply shr_1_exact.
Qed.

(** Shifting [p * 2^-e] to 53 digits loses nothing. *)
Lemma shr_fexp_exact p m e :
  let d := Zpos (digits2_pos p) in
  d <= 53 -> e <= d - 53 -> Zpos m = Zpos p * 2 ^ (- e) ->
  shr_fexp PREC EMAX (Zpos m) e loc_Exact = (exact_record (Zpos p * 2 ^ (53 - d)), d - 53).
Proof.
  intros d Hd He Hm. unfold shr_fexp. cbn [Zdigits2].
  rewrite (digits2_pos_shifted p m (- e)) by lia. fold d.
  assert (1 <= d) by (unfold d; lia). clearbody d.
  replace (fexp PREC EMAX (d + - e + e)) with (d - 53) by (unfold fexp, emin, PREC, EMAX; lia).
  destruct (d - 53 - e) as [|k|k] eqn:Hk; [| |lia]; cbn [shr shr_record_of_loc].
  - rewrite Hm. f_equal; [|lia]. unfold exact_record. do 2 f_equal. f_equal. lia.
  - fold (exact_record (Zpos m)). rewrite Hm.
    replace (Zpos p * 2 ^ (- e)) with (Zpos p * 2 ^ (53 - d) * 2 ^ Zpos k).
    2:{ rewrite <- Z.mul_assoc, <- Z.pow_add_r by lia. do 2 f_equal. lia. }
    rewrite iter_shr_1_exact by (pose proof (Z.pow_pos_nonneg 2 (53 - d)); lia).
    f_equal. lia.
Qed.

(** The float of the integer [p]. *)
Definition f64_int (p : positive) : f64 :=
  S754_finite false (Z.to_pos (Zpos p * 2 ^ (53 - Zpos (digits2_pos p))))
    (Zpos (digits2_pos p) - 53).

Lemma shl_align_spec m e e' m' e'' :
  shl_align m e e' = (m', e'') -> e'' = Z.min e e' /\ Zpos m' = Zpos m * 2 ^ (e - e'').
Proof.
  unfold shl_align. destruct (e' - e) as [|d|d] eqn:Hd; intros [= <- <-].
  - rewrite Z.sub_diag. split; lia.
  - rewrite Z.sub_diag. split; lia.
  - split; [lia|]. replace (e - e') with (Zpos d) by lia.
    rewrite <- Z.shiftl_mul_pow2 by lia. unfold Z.shiftl.
    by rewrite <- (Pos.iter_swap_gen _ _ Zpos xO (Z.mul 2)).
Qed.

Lemma binary_round_exact p m e :
  Zpos (digits2_pos p) <= 53 -> e <= 0 -> Zpos m = Zpos p * 2 ^ (- e) ->
  binary_round PREC EMAX false m e = f64_int p.
Proof.
  intros Hd He Hm. unfold binary_round.
  destruct (shl_align m e _) as [mz ez] eqn:Hs. apply shl_align_spec in Hs as [Hez Hmz].
  rewrite (digits2_pos_shifted p m (- e)) in Hez by lia.
  set (d := Zpos (digits2_pos p)) in *. assert (1 <= d) by (unfold d; lia).
  replace (fexp PREC EMAX (d + - e + e)) with (d - 53) in Hez
    by (unfold fexp, emin, PREC, EMAX; lia).
  assert (Zpos mz = Zpos p * 2 ^ (- ez)) as Hz.
  { rewrite Hmz, Hm, <- Z.mul_assoc, <- Z.pow_add_r by lia. do 2 f_equal. lia. }
  unfold binary_round_aux. rewrite (shr_fexp_exact p) by (done || lia). fold d.
  cbn [shr_m exact_record loc_of_shr_record round_nearest_even].
  assert (0 < Zpos p * 2 ^ (53 - d)) as Hpos by (pose proof (Z.pow_pos_nonneg 2 (53 - d)); lia).
  rewrite <- (Z2Pos.id (Zpos p * 2 ^ (53 - d))) by done.
  rewrite (shr_fexp_exact p) by (rewrite ?Z2Pos.id by done; fold d; (do 2 f_equal; lia) || lia).
  fold d. cbn [shr_m exact_record]. rewrite <- (Z2Pos.id (Zpos p * 2 ^ (53 - d))) by done.
  rewrite (proj2 (Z.leb_le _ _)) by (unfold EMAX, PREC; lia).
  unfold f64_int. fold d. done.
Qed.

Lemma digits_le_53 p : Zpos p < 2 ^ 53 -> Zpos (digits2_pos p) <= 53.
Proof.
  intros Hp. pose proof (digits2_pos_bounds p) as [Hlo _].
  assert (2 ^ (Zpos (digits2_pos p) - 1) < 2 ^ 53) as H by lia.
  apply Z.pow_lt_mono_r_iff in H; lia.
Qed.

Lemma f64_of_Z_exact p : Zpos p < 2 ^ 53 -> f64_of_Z (Zpos p) = f64_int p.
Proof.
  intros Hp. apply binary_round_exact; [by apply digits_le_53|lia|simpl; lia].
Qed.

Lemma fadd_exact a b :
  0 <= a -> 0 <= b -> a + b < 2 ^ 53 -> fadd (f64_of_Z a) (f64_of_Z b) = f64_of_Z (a + b).
Proof.
  intros Ha Hb Hab. destruct a as [|a|a]; [| |lia].
  - destruct b as [|b|b]; [done| |lia]. rewrite Z.add_0_l, (f64_of_Z_exact b) by lia. reflexivity.
  - destruct b as [|b|b]; [| |lia].
    { rewrite Z.add_0_r. rewrite (f64_of_Z_exact a) by lia. reflexivity. }
    pose proof (digits_le_53 a ltac:(lia)). pose proof (digits_le_53 b ltac:(lia)).
    rewrite (f64_of_Z_exact a), (f64_of_Z_exact b) by lia.
    unfold f64_int, fadd, SFadd.
    set (da := Zpos (digits2_pos a)) in *. set (db := Zpos (digits2_pos b)) in *.
    assert (1 <= da /\ 1 <= db) as [Hda Hdb] by (unfold da, db; lia).
    set (ez := Z.min (da - 53) (db - 53)).
    destruct (shl_align _ (da - 53) ez) as [ma ea] eqn:Hsa.
    destruct (shl_align _ (db - 53) ez) as [mb eb] eqn:Hsb.
    apply shl_align_spec in Hsa as [Hea Hma]. apply shl_align_spec in Hsb as [Heb Hmb].
    rewrite Z2Pos.id in Hma by (pose proof (Z.pow_pos_nonneg 2 (53 - da)); lia).
    rewrite Z2Pos.id in Hmb by (pose proof (Z.pow_pos_nonneg 2 (53 - db)); lia).
    replace ea with ez in * by lia. replace eb with ez in * by lia.
    rewrite <- Z.mul_assoc, <- Z.pow_add_r in Hma, Hmb by lia.
    replace (53 - da + (da - 53 - ez)) with (- ez) in Hma by lia.
    replace (53 - db + (db - 53 - ez)) with (- ez) in Hmb by lia.
    cbn [cond_Zopp fst].
    change (Zpos a + Zpos b) with (Zpos (a + b)). change (Zpos ma + Zpos mb) with (Zpos (ma + mb)).
    rewrite (f64_of_Z_exact (a + b)) by lia.
    apply binary_round_exact; [apply digits_le_53; lia|lia|].
    rewrite !Pos2Z.inj_add, Hma, Hmb. lia.
Qed.

(** * Order

    The order of the floats other than NaN, as a lexicographic order. *)

Definition is_nan (x : f64) : bool := match x with S754_nan => true | _ => false end.

Definition rank (x : f64) : Z * Z * Z :=
  match x with
  | S754_nan => (3, 0, 0)
  | S754_infinity true => (-2, 0, 0)
  | S754_finite true m e => (-1, - e, Zneg m)
  | S754_zero _ => (0, 0, 0)
  | S754_finite false m e => (1, e, Zpos m)
  | S754_infinity false => (2, 0, 0)
  end.

Definition rank_lt (a b : Z * Z * Z) : Prop :=
  let '(a1, a2, a3) := a in
  let '(b1, b2, b3) := b in
  a1 < b1 \/ a1 = b1 /\ (a2 < b2 \/ a2 = b2 /\ a3 < b3).

Lemma flt_rank x y :
  is_nan x = false -> is_nan y = false -> flt x y = true <-> rank_lt (rank x) (rank y).
Proof.
  intros Hx Hy. unfold flt, SFltb, SFcompare.
  destruct x as [sx|sx| |sx mx ex]; [| |done|]; destruct y as [sy|sy| |sy my ey]; try done;
    destruct sx; try destruct sy; simpl; try (split; (done || lia)).
  - destruct (Z.compare_spec ex ey) as [->|H|H]; simpl; [|split; (done || lia)..].
    change (Pos.compare_cont Eq mx my) with (Pos.compare mx my).
    destruct (Pos.compare_spec mx my) as [->|H|H]; simpl; split; (done || lia).
  - destruct (Z.compare_spec ex ey) as [->|H|H]; simpl; [|split; (done || lia)..].
    change (Pos.compare_cont Eq mx my) with (Pos.compare mx my).
    destruct (Pos.compare_spec mx my) as [->|H|H]; simpl; split; (done || lia).
Qed.

Lemma flt_nan_r x y : flt x y = true -> is_nan y = false.
Proof. destruct x, y; done. Qed.

(** [flt x y = false] is [y <= x] away from NaN: it is transitive and holds of
    the converse of [<]. *)
Lemma flt_false_trans x y z :
  is_nan x = false -> is_nan y = false -> flt x y = false -> flt y z = false -> flt x z = false.
Proof.
  intros Hx Hy Hxy Hyz. destruct (is_nan z) eqn:Hz; [by destruct x, z|].
  apply not_true_iff_false. apply not_true_iff_false in Hxy, Hyz.
  rewrite flt_rank in * by done. unfold rank_lt in *.
  destruct (rank x) as [[x1 x2] x3], (rank y) as [[y1 y2] y3], (rank z) as [[z1 z2] z3]. lia.
Qed.

Lemma flt_asym x y : is_nan x = false -> flt x y = true -> flt y x = false.
Proof.
  intros Hx Hxy. pose proof (flt_nan_r _ _ Hxy) as Hy. apply not_true_iff_false.
  rewrite flt_rank in * by done. unfold rank_lt in *.
  destruct (rank x) as [[x1 x2] x3], (rank y) as [[y1 y2] y3]. lia.
Qed.

Lemma flt_irrefl x : flt x x = false.
Proof.
  destruct (is_nan x) eqn:Hx; [by destruct x|]. apply not_true_iff_false.
  intros H. apply flt_rank in H; [|done..]. unfold rank_lt in H.
  destruct (rank x) as [[x1 x2] x3]. lia.
Qed.
