(* ===== verification/Text.v ===== *)
(** Strings and JSON values as the telemetry code uses them: the [str] methods
    of the standard library on UTF-8 strings, the fixed-point and debug formats,
    and the [Value] type of serde_json with its accessors. *)

From S2P Require Import Prelude F64.
From Stdlib Require Import SpecFloat.
From stdpp Require Import pretty.
#[local] Open Scope Z_scope.

(** * [str] *)

Definition starts_with (p s : string) : bool := String.prefix p s.

Fixpoint contains (needle s : string) : bool :=
  String.prefix needle s ||
  match s with EmptyString => false | String _ s => contains needle s end.

Fixpoint str_drop (n : nat) (s : string) : string :=
  match n, s with
  | S n, String _ s => str_drop n s
  | _, _ => s
  end.

Definition str_strip_prefix (p s : string) : option string :=
  if String.prefix p s then Some (str_drop (String.length p) s) else None.

(** The text before and after the first occurrence of [sep]. *)
Fixpoint split_once (sep s : string) : option (string * string) :=
  if String.prefix sep s then Some (EmptyString, str_drop (String.length sep) s)
  else match s with
       | EmptyString => None
       | String c s => '(before, after) ← split_once sep s; Some (String c before, after)
       end.

(** [s.split(sep).nth(1)]. *)
Definition split_nth1 (sep s : string) : option string :=
  '(_, after) ← split_once sep s;
  Some match split_once sep after with Some (before, _) => before | None => after end.

(** [s.splitn(2, sep)]. *)
Definition splitn2 (sep s : string) : string * option string :=
  match split_once sep s with
  | Some (before, after) => (before, Some after)
  | None => (s, None)
  end.

Definition non_empty (s : string) : option string :=
  match s with EmptyString => None | _ => Some s end.

(** [to_uppercase] on what can become ASCII: the ASCII letters, and the dotless i
    (U+0131), whose upper case is I. Other characters are kept: none of them
    becomes an ASCII letter alone. *)
Definition ascii_upper (c : ascii) : ascii :=
  let n := N_of_ascii c in
  if ((97 <=? n) && (n <=? 122))%N then ascii_of_N (n - 32) else c.

Fixpoint to_uppercase (s : string) : string :=
  match s with
  | EmptyString => EmptyString
  | String c ((String d s') as rest) =>
      if ((N_of_ascii c =? 196) && (N_of_ascii d =? 177))%N then String "I" (to_uppercase s')
      else String (ascii_upper c) (to_uppercase rest)
  | String c EmptyString => String (ascii_upper c) EmptyString
  end.

Definition QUOTE : ascii := ascii_of_nat 34.
Definition quoted (s : string) : string := String QUOTE (s +:+ String QUOTE EmptyString).

(** The pieces between the occurrences of a character: at least one. *)
Fixpoint str_split (sep : ascii) (s : string) : list string :=
  match s with
  | EmptyString => [EmptyString]
  | String c s =>
      if Ascii.eqb c sep then EmptyString :: str_split sep s
      else match str_split sep s with
           | piece :: pieces => String c piece :: pieces
           | [] => [String c EmptyString]
           end
  end.

(** [split(sep).next_back().unwrap_or_default()]. *)
Definition split_last (sep : ascii) (s : string) : string := default EmptyString (last (str_split sep s)).

(** [split(sep).nth(n).unwrap_or_default()]. *)
Definition str_split_nth (n : nat) (sep : ascii) (s : string) : string :=
  default EmptyString (str_split sep s !! n).

(** [slice.join(sep)]. *)
Definition str_join (sep : string) (pieces : list string) : string := String.concat sep pieces.

Definition str_all (p : ascii -> bool) (s : string) : bool := forallb p (String.list_ascii_of_string s).

Fixpoint trim_start_char (c : ascii) (s : string) : string :=
  match s with
  | String d s' => if Ascii.eqb c d then trim_start_char c s' else s
  | EmptyString => EmptyString
  end.

(** [trim_end_matches(c)]. *)
Fixpoint trim_end_char (c : ascii) (s : string) : string :=
  match s with
  | EmptyString => EmptyString
  | String d s =>
      match trim_end_char c s with
      | EmptyString => if Ascii.eqb c d then EmptyString else String d EmptyString
      | s' => String d s'
      end
  end.

(** [trim_matches(c)]. *)
Definition trim_char (c : ascii) (s : string) : string := trim_end_char c (trim_start_char c s).

Definition ascii_lower (c : ascii) : ascii :=
  let n := N_of_ascii c in
  if ((65 <=? n) && (n <=? 90))%N then ascii_of_N (n + 32) else c.

Fixpoint to_ascii_lowercase (s : string) : string :=
  match s with
  | EmptyString => EmptyString
  | String c s => String (ascii_lower c) (to_ascii_lowercase s)
  end.

Definition eq_ignore_ascii_case (a b : string) : bool :=
  bool_decide (to_ascii_lowercase a = to_ascii_lowercase b).

Definition is_ascii (s : string) : bool := str_all (fun c => (N_of_ascii c <? 128)%N) s.

(** [to_lowercase]; the Unicode tables are an argument, used outside ASCII. *)
Definition to_lowercase (unicode_lower : string -> string) (s : string) : string :=
  if is_ascii s then to_ascii_lowercase s else unicode_lower s.

(** A byte that is not the first of a character. *)
Definition is_continuation (c : ascii) : bool :=
  let n := N_of_ascii c in ((128 <=? n) && (n <? 192))%N.

(** [s.get(n..)]: nothing past the end or inside a character. *)
Definition get_from (n : nat) (s : string) : option string :=
  if (n <=? String.length s)%nat then
    match str_drop n s with
    | String c _ as rest => if is_continuation c then None else Some rest
    | EmptyString => Some EmptyString
    end
  else None.

(** [s.chars().take(n).collect()]. *)
Fixpoint take_chars (n : nat) (s : string) : string :=
  match s with
  | EmptyString => EmptyString
  | String c s =>
      if is_continuation c then String c (take_chars n s)
      else match n with O => EmptyString | S n => String c (take_chars n s) end
  end.

(** ** Whitespace

    The characters of the property White_Space, as the bytes of UTF-8. *)
Definition whitespace_bytes : list (list N) :=
  [[9]; [10]; [11]; [12]; [13]; [32]; [194; 133]; [194; 160]; [225; 154; 128];
   [226; 128; 128]; [226; 128; 129]; [226; 128; 130]; [226; 128; 131]; [226; 128; 132];
   [226; 128; 133]; [226; 128; 134]; [226; 128; 135]; [226; 128; 136]; [226; 128; 137];
   [226; 128; 138]; [226; 128; 168]; [226; 128; 169]; [226; 128; 175]; [226; 129; 159];
   [227; 128; 128]]%N.

Definition whitespace_chars : list string :=
  (fun ns => String.string_of_list_ascii (ascii_of_N <$> ns)) <$> whitespace_bytes.

(** The length of the whitespace character at the start. *)
Definition whitespace_at (s : string) : option nat :=
  head (omap (fun w => if String.prefix w s then Some (String.length w) else None) whitespace_chars).

(** [skip] bytes of a whitespace character remain to be passed over. *)
Fixpoint split_whitespace_from (skip : nat) (word : string) (s : string) : list string :=
  match s with
  | EmptyString => option_list (non_empty word)
  | String c s' =>
      match skip with
      | S skip => split_whitespace_from skip word s'
      | O =>
          match whitespace_at s with
          | Some n => option_list (non_empty word) ++ split_whitespace_from (n - 1) EmptyString s'
          | None => split_whitespace_from 0 (word +:+ String c EmptyString) s'
          end
      end
  end.

Definition split_whitespace (s : string) : list string := split_whitespace_from 0 EmptyString s.

(** [trim]. No whitespace character starts with a continuation byte, so the suffix
    of [trim_end] is only found at a character boundary. *)
Fixpoint trim_start_from (skip : nat) (s : string) : string :=
  match s with
  | EmptyString => EmptyString
  | String _ s' =>
      match skip with
      | S skip => trim_start_from skip s'
      | O => match whitespace_at s with
             | Some (S n) => trim_start_from n s'
             | _ => s
             end
      end
  end.

Fixpoint trim_end (s : string) : string :=
  match s with
  | EmptyString => EmptyString
  | String c s' =>
      match trim_start_from 0 s with
      | EmptyString => EmptyString
      | _ => String c (trim_end s')
      end
  end.

Definition trim (s : string) : string := trim_end (trim_start_from 0 s).

(** [s.repeat(n)]. *)
Fixpoint str_repeat (s : string) (n : nat) : string :=
  match n with O => EmptyString | S n => (s +:+ str_repeat s n)%string end.

(** [s.trim_start_matches(p)]; each round takes a non-empty [p] off. *)
Fixpoint trim_start_matches_from (fuel : nat) (p s : string) : string :=
  match fuel with
  | O => s
  | S fuel => if String.prefix p s
              then trim_start_matches_from fuel p (str_drop (String.length p) s) else s
  end.
Definition trim_start_matches (p s : string) : string :=
  trim_start_matches_from (String.length s) p s.

(** [s.strip_suffix(c)], or [s]. *)
Fixpoint strip_last (c : ascii) (s : string) : string :=
  match s with
  | EmptyString => EmptyString
  | String d EmptyString => if Ascii.eqb c d then EmptyString else s
  | String d s' => String d (strip_last c s')
  end.

(** [s.lines()]: the pieces that a newline ends, without it or a carriage return
    before it, and what is left after the last newline. *)
Definition lines (s : string) : list string :=
  match rev (str_split (ascii_of_nat 10) s) with
  | [] => []
  | rest :: ended =>
      rev (option_list (non_empty rest) ++ (strip_last (ascii_of_nat 13) <$> ended))
  end.

(** [s.replace(c, t)] with the empty [t]. *)
Fixpoint remove_char (c : ascii) (s : string) : string :=
  match s with
  | EmptyString => EmptyString
  | String d s' => if Ascii.eqb c d then remove_char c s' else String d (remove_char c s')
  end.

(** ** Numbers *)

Definition digit_value (c : ascii) : option Z :=
  let n := Z.of_N (N_of_ascii c) in
  if (48 <=? n) && (n <=? 57) then Some (n - 48)
  else if (97 <=? n) && (n <=? 122) then Some (n - 87)
  else if (65 <=? n) && (n <=? 90) then Some (n - 55)
  else None.

Definition is_ascii_digit (c : ascii) : bool :=
  let n := N_of_ascii c in ((48 <=? n) && (n <=? 57))%N.

Fixpoint digits_value (radix acc : Z) (s : string) : option Z :=
  match s with
  | EmptyString => Some acc
  | String c s =>
      d ← digit_value c;
      if d <? radix then digits_value radix (acc * radix + d) s else None
  end.

Definition unsigned_digits (radix : Z) (s : string) : option Z :=
  match s with EmptyString => None | _ => digits_value radix 0 s end.

(** [from_str_radix] of an unsigned type: one leading plus sign is accepted. *)
Definition parse_unsigned (max radix : Z) (s : string) : option Z :=
  let digits := match s with String "+" s' => s' | _ => s end in
  n ← unsigned_digits radix digits;
  if n <=? max then Some n else None.

Lemma append_cons c a b : String c a +:+ b = String c (a +:+ b).
Proof. done. Qed.

Lemma append_assoc a b c : (a +:+ b) +:+ c = a +:+ (b +:+ c).
Proof. induction a as [|x a IH]; [done|]. rewrite !append_cons. by rewrite IH. Qed.

Lemma digit_value_nonneg c d : digit_value c = Some d -> 0 <= d.
Proof. unfold digit_value. cbv zeta. repeat case_match; intros [= <-]; lia. Qed.

Lemma digits_value_nonneg radix s : forall acc n,
  0 <= radix -> 0 <= acc -> digits_value radix acc s = Some n -> 0 <= n.
Proof.
  induction s as [|c s IH]; intros acc n Hr Ha; cbn; [by intros [= <-]|].
  destruct (digit_value c) as [d|] eqn:Hd; [|done]. cbn. apply digit_value_nonneg in Hd.
  case_match; [|done]. apply IH; nia.
Qed.

Lemma parse_unsigned_range max radix s n :
  0 <= radix -> parse_unsigned max radix s = Some n -> 0 <= n <= max.
Proof.
  intros Hr. unfold parse_unsigned, unsigned_digits. cbv zeta.
  generalize (match s with String "+" s' => s' | _ => s end). intros s'.
  destruct s' as [|c s']; [done|].
  destruct (digits_value radix 0 (String c s')) as [m|] eqn:Hm; [|done]. cbn.
  destruct (m <=? max) eqn:Hle; [|done]. intros [= <-].
  apply digits_value_nonneg in Hm; [|lia..]. lia.
Qed.

Definition parse_u64 : string -> option Z := parse_unsigned U64_MAX 10.
Definition parse_u64_hex : string -> option Z := parse_unsigned U64_MAX 16.
Definition parse_u8 : string -> option Z := parse_unsigned U8_MAX 10.

Definition parse_u32 : string -> option Z := parse_unsigned U32_MAX 10.
Definition parse_u16 : string -> option Z := parse_unsigned 65535 10.

(** [parse::<bool>()]. *)
Definition parse_bool (s : string) : option bool :=
  if bool_decide (s = "true"%string) then Some true
  else if bool_decide (s = "false"%string) then Some false
  else None.

Definition parse_i64 (s : string) : option Z :=
  let '(sign, digits) :=
    match s with
    | String "+" s' => (1, s')
    | String "-" s' => (-1, s')
    | _ => (1, s)
    end in
  n ← unsigned_digits 10 digits;
  let z := sign * n in
  if (I64_MIN <=? z) && (z <=? I64_MAX) then Some z else None.

(** [parse::<f64>()]: the decimal number rounded to nearest, ties to even. *)
Definition round_ratio (sign : bool) (num den : positive) : f64 :=
  let '(m, e, l) := SFdiv_core_binary 53 1024 (Zpos num) 0 (Zpos den) 0 in
  binary_round_aux 53 1024 sign m e l.

Definition decimal (sign : bool) (mantissa exponent : Z) : f64 :=
  match mantissa with
  | Zpos m =>
      if 0 <=? exponent then round_ratio sign (m * Z.to_pos (10 ^ exponent)) 1
      else round_ratio sign m (Z.to_pos (10 ^ (- exponent)))
  | _ => S754_zero sign
  end.

(** The leading decimal digits, their value appended to [acc], and their number. *)
Fixpoint take_digits (acc count : Z) (s : string) : Z * Z * string :=
  match s with
  | String c s' =>
      if is_ascii_digit c
      then take_digits (acc * 10 + (Z.of_N (N_of_ascii c) - 48)) (count + 1) s'
      else (acc, count, s)
  | EmptyString => (acc, count, EmptyString)
  end.

Definition exponent_value (s : string) : option Z :=
  match s with
  | EmptyString => Some 0
  | String c s =>
      if Ascii.eqb (ascii_lower c) "e" then
        let '(sign, s) := match s with
                          | String "+" s' => (1, s')
                          | String "-" s' => (-1, s')
                          | _ => (1, s)
                          end in
        let '(e, n, rest) := take_digits 0 0 s in
        match rest with
        | EmptyString => if 0 <? n then Some (sign * e) else None
        | String _ _ => None
        end
      else None
  end.

Definition parse_f64 (s : string) : option f64 :=
  let '(sign, s) := match s with
                    | String "+" s' => (false, s')
                    | String "-" s' => (true, s')
                    | _ => (false, s)
                    end in
  let l := to_ascii_lowercase s in
  if bool_decide (l = "nan"%string) then Some S754_nan
  else if bool_decide (l = "inf"%string \/ l = "infinity"%string) then Some (S754_infinity sign)
  else
    let '(whole, n, rest) := take_digits 0 0 s in
    let '(mantissa, n', rest) := match rest with
                                 | String "." rest => take_digits whole 0 rest
                                 | _ => (whole, 0, rest)
                                 end in
    if n + n' =? 0 then None
    else e ← exponent_value rest; Some (decimal sign mantissa (e - n')).

(** ** UTF-8 *)

Definition ascii_Z (c : ascii) : Z := Z.of_N (N_of_ascii c).
Definition Z_ascii (b : Z) : ascii := ascii_of_N (Z.to_N b).

(** [String::from_utf8_lossy]: each maximal invalid part becomes U+FFFD. *)
Definition REPLACEMENT : list Z := [0xEF; 0xBF; 0xBD].

Definition between (lo hi b : Z) : bool := (lo <=? b) && (b <=? hi).

(** How many continuation bytes the first byte announces, and the range of the
    first of them. *)
Definition utf8_first (b : Z) : option (nat * Z * Z) :=
  if between 0 0x7F b then Some (0%nat, 0, 0)
  else if between 0xC2 0xDF b then Some (1%nat, 0x80, 0xBF)
  else if b =? 0xE0 then Some (2%nat, 0xA0, 0xBF)
  else if between 0xE1 0xEC b then Some (2%nat, 0x80, 0xBF)
  else if b =? 0xED then Some (2%nat, 0x80, 0x9F)
  else if between 0xEE 0xEF b then Some (2%nat, 0x80, 0xBF)
  else if b =? 0xF0 then Some (3%nat, 0x90, 0xBF)
  else if between 0xF1 0xF3 b then Some (3%nat, 0x80, 0xBF)
  else if b =? 0xF4 then Some (3%nat, 0x80, 0x8F)
  else None.

(** The decoder's state: the bytes of the character read so far, how many are
    missing, and the range of the next one. *)
Fixpoint utf8_lossy_from (pending : list Z) (missing : nat) (lo hi : Z) (bytes : list Z)
  : list Z :=
  match bytes with
  | [] => match missing with O => [] | S _ => REPLACEMENT end
  | b :: rest =>
      let start prefix :=
        match utf8_first b with
        | None => prefix ++ REPLACEMENT ++ utf8_lossy_from [] 0 0 0 rest
        | Some (O, _, _) => prefix ++ b :: utf8_lossy_from [] 0 0 0 rest
        | Some (S n, lo', hi') => prefix ++ utf8_lossy_from [b] (S n) lo' hi' rest
        end in
      match missing with
      | O => start []
      | S missing' =>
          if between lo hi b then
            match missing' with
            | O => pending ++ b :: utf8_lossy_from [] 0 0 0 rest
            | S _ => utf8_lossy_from (pending ++ [b]) missing' 0x80 0xBF rest
            end
          else start REPLACEMENT
      end
  end.

Definition from_utf8_lossy (bytes : list Z) : list Z := utf8_lossy_from [] 0 0 0 bytes.

Definition bytes_string (bytes : list Z) : string := String.string_of_list_ascii (Z_ascii <$> bytes).

(** [String::from_utf8(bytes).ok()]: bytes that are not UTF-8 are those the lossy
    conversion changes. *)
Definition from_utf8 (bytes : list Z) : option string :=
  if decide (from_utf8_lossy bytes = bytes) then Some (bytes_string bytes) else None.

(** ** Formats *)

Definition hex_digit (n : N) : ascii :=
  ascii_of_N (if (n <? 10)%N then n + 48 else n + 87)%N.

(** The [Debug] of a character inside a string: control characters are escaped,
    printable ones kept, those of several bytes included. *)
Definition debug_char (c : ascii) : string :=
  let n := N_of_ascii c in
  if (n =? 0)%N then "\0"
  else if (n =? 9)%N then "\t"
  else if (n =? 10)%N then "\n"
  else if (n =? 13)%N then "\r"
  else if (n =? 34)%N then String "\" (String QUOTE EmptyString)
  else if (n =? 92)%N then "\\"
  else if (n <? 16)%N then ("\u{" +:+ String (hex_digit n) "}")%string
  else if ((n <? 32) || (n =? 127))%N
  then ("\u{" +:+ String (hex_digit (n / 16)) (String (hex_digit (n mod 16)) "}"))%string
  else String c EmptyString.

(** [{:?}] of a string. *)
Definition debug_str (s : string) : string :=
  quoted (foldr (fun c acc => debug_char c +:+ acc) EmptyString (String.list_ascii_of_string s)).

(** [{:.2}] of an [f64]: the exact value rounded to two decimals, ties to even. *)
Definition round_half_even (num den : Z) : Z :=
  let q := num / den in
  let r := 2 * (num mod den) in
  if r <? den then q else if den <? r then q + 1 else if Z.even q then q else q + 1.

Definition hundredths (m : positive) (e : Z) : Z :=
  if 0 <=? e then 100 * Zpos m * 2 ^ e else round_half_even (100 * Zpos m) (2 ^ (- e)).

Definition fixed2 (n : Z) : string :=
  (pretty (n / 100) +:+ "." +:+ (if (n mod 100 <? 10)%Z then "0" else "") +:+ pretty (n mod 100))%string.

Definition fmt2 (x : f64) : string :=
  match x with
  | S754_nan => "NaN"
  | S754_infinity s => if s then "-inf" else "inf"
  | S754_zero s => if s then "-0.00" else "0.00"
  | S754_finite s m e => ((if s then "-" else "") +:+ fixed2 (hundredths m e))%string
  end.

(** [{}] of an [f64]: the shortest decimal that reads back as the value, the
    closest one if there are several, written without an exponent. Seventeen digits
    always read back. *)
Section Shortest.
Variables (sign : bool) (m : positive) (e : Z).

(** The value is [num / den]. *)
Definition shortest_num : Z := if 0 <=? e then Zpos m * 2 ^ e else Zpos m.
Definition shortest_den : Z := if 0 <=? e then 1 else 2 ^ (- e).

(** The decimal point is after digit [k]: [10 ^ (k - 1) <= value < 10 ^ k]. *)
Fixpoint point_from (fuel : nat) (k : Z) : Z :=
  match fuel with
  | O => k
  | S fuel =>
      if (if 0 <=? k then shortest_num <? 10 ^ k * shortest_den
          else shortest_num * 10 ^ (- k) <? shortest_den)
      then k else point_from fuel (k + 1)
  end.

(** [value / 10 ^ x], rounded down, and whether the rest is at least a half. *)
Definition scaled (x : Z) : Z * bool :=
  let n := if 0 <=? x then shortest_num else shortest_num * 10 ^ (- x) in
  let d := if 0 <=? x then shortest_den * 10 ^ x else shortest_den in
  (n / d, d <=? 2 * (n mod d)).

Definition reads_back (digits x : Z) : bool :=
  match decimal sign digits x with
  | S754_finite s m' e' => eqb s sign && (m' =? m)%positive && (e' =? e)
  | _ => false
  end.

Fixpoint shortest_from (fuel : nat) (k n : Z) : Z * Z :=
  let x := k - n in
  let '(down, up) := scaled x in
  match fuel with
  | O => (if up then down + 1 else down, x)
  | S fuel =>
      match reads_back down x, reads_back (down + 1) x with
      | true, true => (if up then down + 1 else down, x)
      | true, false => (down, x)
      | false, true => (down + 1, x)
      | false, false => shortest_from fuel k (n + 1)
      end
  end.

Definition shortest : Z * Z :=
  let '(digits, x) := shortest_from 16 (point_from 640 (-330)) 1 in
  if digits mod 10 =? 0 then (digits / 10, x + 1) else (digits, x).
End Shortest.

Definition zeros (n : Z) : string := str_repeat "0" (Z.to_nat n).

Definition write_decimal (digits x : Z) : string :=
  if 0 <=? x then pretty (digits * 10 ^ x)
  else
    let frac := pretty (digits mod 10 ^ (- x)) in
    (pretty (digits / 10 ^ (- x)) +:+ "." +:+
     zeros (- x - Z.of_nat (String.length frac)) +:+ frac)%string.

Definition f64_display (x : f64) : string :=
  match x with
  | S754_nan => "NaN"
  | S754_infinity s => if s then "-inf" else "inf"
  | S754_zero s => if s then "-0" else "0"
  | S754_finite s m e =>
      let '(digits, x) := shortest s m e in
      ((if s then "-" else "") +:+ write_decimal digits x)%string
  end.

(** The two decimals printed are within half a hundredth of the value. *)
Lemma round_half_even_near num den :
  0 < den -> 2 * Z.abs (round_half_even num den * den - num) <= den.
Proof.
  intros Hd. unfold round_half_even.
  pose proof (Z.div_mod num den ltac:(lia)) as Hdm. pose proof (Z.mod_pos_bound num den Hd) as Hm.
  destruct (Z.ltb_spec (2 * (num mod den)) den); [nia|].
  destruct (Z.ltb_spec den (2 * (num mod den))); [nia|].
  destruct (Z.even (num / den)); nia.
Qed.

(** * serde_json

    A [Value]; an object is its entries in the order of the map, which is that of
    its keys, all distinct. *)

Inductive Number := PosInt (n : Z) | NegInt (n : Z) | Float (x : f64).

Inductive Value :=
| VNull
| VBool (b : bool)
| VNumber (n : Number)
| VString (s : string)
| VArray (vs : list Value)
| VObject (entries : list (string * Value)).

Abbreviation Map := (list (string * Value)).

Fixpoint map_get (entries : Map) (k : string) : option Value :=
  match entries with
  | [] => None
  | (k', v) :: entries => if decide (k' = k) then Some v else map_get entries k
  end.

Definition map_remove (entries : Map) (k : string) : Map := filter (fun e => e.1 <> k) entries.

Definition as_str (v : Value) : option string :=
  match v with VString s => Some s | _ => None end.

(** [value.get(key)]: nothing on a value that is not an object. *)
Definition value_get (v : Value) (k : string) : option Value :=
  match v with VObject entries => map_get entries k | _ => None end.

(** [value.get_mut(key)] followed by an assignment through it. *)
Fixpoint map_update (entries : Map) (k : string) (v : Value) : Map :=
  match entries with
  | [] => []
  | (k', v') :: entries => if decide (k' = k) then (k', v) :: entries else (k', v') :: map_update entries k v
  end.

(** [map.insert(key, value)]. *)
Fixpoint map_insert (entries : Map) (k : string) (v : Value) : Map :=
  match entries with
  | [] => [(k, v)]
  | (k', v') :: rest =>
      if decide (k' = k) then (k, v) :: rest
      else if String.ltb k k' then (k, v) :: entries
      else (k', v') :: map_insert rest k v
  end.

Definition as_array (v : Value) : option (list Value) :=
  match v with VArray vs => Some vs | _ => None end.

Definition as_object (v : Value) : option Map :=
  match v with VObject entries => Some entries | _ => None end.

Definition as_u64 (v : Value) : option Z :=
  match v with VNumber (PosInt n) => Some n | _ => None end.

Definition as_i64 (v : Value) : option Z :=
  match v with
  | VNumber (PosInt n) => if n <=? I64_MAX then Some n else None
  | VNumber (NegInt n) => Some n
  | _ => None
  end.

(** [map.retain] on the keys. *)
Definition map_retain (entries : Map) (p : string -> bool) : Map := filter (fun e => p e.1) entries.

(** * Deserialization

    What [derive(Deserialize)] generates, on a [Value]: each field is looked up
    by its name in an object, or read in order from an array; unknown entries of
    an object are ignored, extra elements of an array are refused. *)

Inductive Presence := Missing | Present (v : Value).

(** [has_default] tells which fields carry [serde(default)]. *)
Fixpoint seq_fields (fields : list (string * bool)) (vs : list Value) : option (list Presence) :=
  match fields, vs with
  | [], [] => Some []
  | [], _ :: _ => None
  | _ :: fields, v :: vs => rest ← seq_fields fields vs; Some (Present v :: rest)
  | (_, has_default) :: fields, [] =>
      if has_default : bool then rest ← seq_fields fields []; Some (Missing :: rest) else None
  end.

Definition map_fields (fields : list (string * bool)) (entries : Map) : list Presence :=
  (fun f => match map_get entries f.1 with Some v => Present v | None => Missing end) <$> fields.

Definition struct_fields (fields : list (string * bool)) (v : Value) : option (list Presence) :=
  match v with
  | VObject entries => Some (map_fields fields entries)
  | VArray vs => seq_fields fields vs
  | _ => None
  end.

(** A struct with a flattened field is only read from an object. *)
Definition flat_fields (fields : list (string * bool)) (v : Value) : option (list Presence) :=
  match v with VObject entries => Some (map_fields fields entries) | _ => None end.

(** A required field, one with a default, and one of type [Option]. *)
Definition required {A} (de : Value -> option A) (p : Presence) : option A :=
  match p with Present v => de v | Missing => None end.
Definition defaulted {A} (d : A) (de : Value -> option A) (p : Presence) : option A :=
  match p with Present v => de v | Missing => Some d end.
Definition de_option {A} (de : Value -> option A) (v : Value) : option (option A) :=
  match v with VNull => Some None | _ => a ← de v; Some (Some a) end.
Definition optional {A} (de : Value -> option A) (p : Presence) : option (option A) :=
  match p with Present v => de_option de v | Missing => Some None end.

Definition de_string : Value -> option string := as_str.
Definition de_bool (v : Value) : option bool := match v with VBool b => Some b | _ => None end.
Definition de_value (v : Value) : option Value := Some v.
Definition de_vec {A} (de : Value -> option A) (v : Value) : option (list A) :=
  vs ← as_array v; mapM de vs.
Definition de_map {A} (de : Value -> option A) (v : Value) : option (gmap string A) :=
  entries ← as_object v;
  kvs ← mapM (fun e => a ← de e.2; Some (e.1, a)) entries;
  Some (list_to_map kvs).
Definition de_i64 : Value -> option Z := as_i64.
Definition de_i32 (v : Value) : option Z :=
  n ← as_i64 v; if (I32_MIN <=? n) && (n <=? I32_MAX) then Some n else None.
Definition de_u16 (v : Value) : option Z := n ← as_u64 v; if n <=? 65535 then Some n else None.

(** An integer is accepted where a float is expected. *)
Definition de_f64 (v : Value) : option f64 :=
  match v with
  | VNumber (PosInt n) | VNumber (NegInt n) => Some (f64_of_Z n)
  | VNumber (Float x) => Some x
  | _ => None
  end.

(** ** Numbers printed and read back *)
Lemma digit_of_pretty (d : N) : (d < 10)%N -> digit_value (pretty_N_char d) = Some (Z.of_N d).
Proof.
  intros Hd. assert (Hc : (d = 0 \/ d = 1 \/ d = 2 \/ d = 3 \/ d = 4 \/ d = 5 \/ d = 6 \/ d = 7 \/ d = 8 \/ d = 9)%N)
    by lia. by repeat (destruct Hc as [->|Hc]; [done|]); subst.
Qed.

Lemma digits_of_pretty x s : digits_value 10 0 (pretty_N_go x s) = digits_value 10 (Z.of_N x) s.
Proof.
  revert s. induction (N.lt_wf_0 x) as [x _ IH]. intros s. destruct (decide (x = 0%N)) as [->|Hx]; [done|].
  rewrite pretty_N_go_step by lia. rewrite IH by (apply N.div_lt; lia). cbn [digits_value].
  assert (Hm : (x mod 10 < 10)%N) by (apply N.mod_lt; lia).
  rewrite digit_of_pretty by done. cbn. rewrite (proj2 (Z.ltb_lt _ _)) by lia. f_equal.
  rewrite N2Z.inj_div, N2Z.inj_mod. pose proof (Z.div_mod (Z.of_N x) 10). lia.
Qed.

(** The decimal text of a number is read back as the number. *)
Lemma parse_unsigned_pretty max n : 0 <= n <= max -> parse_unsigned max 10 (pretty n) = Some n.
Proof.
  intros Hn. assert (Hd : digits_value 10 0 (pretty n) = Some n).
  { destruct n as [|p|p]; [done| |lia]. change (pretty (Zpos p)) with (pretty_N_go (Npos p) "").
    by rewrite digits_of_pretty. }
  unfold parse_unsigned. destruct (pretty n) as [|c s] eqn:Hs.
  { destruct n as [|p|p]; [done| |lia]. exfalso. cbn in Hd. by injection Hd. }
  assert (Hc : digit_value c <> None) by (intros Hc; cbn in Hd; by rewrite Hc in Hd).
  destruct c as [[] [] [] [] [] [] [] []]; try (by destruct Hc); cbn [unsigned_digits];
    rewrite Hd; cbn; by rewrite (proj2 (Z.leb_le _ _)) by lia.
Qed.
