(* ===== verification/FlushControl.v ===== *)
(** When to flush: [lifecycle/invocation_times.rs] (the ring buffer of the last
    invocation times and the strategy derived from it) and
    [lifecycle/flush_control.rs] (the decision taken at each invocation). The
    clock is an argument of every operation that reads it. *)

From S2P Require Import Prelude F64.
From Stdlib Require Import Sorting.Sorted.

(** The strategies of the configuration crate, as the code matches on them.
    Intervals are in milliseconds. *)
Record PeriodicStrategy := { interval : Z }.

Inductive FlushStrategy :=
| Default
| End_
| EndPeriodically (p : PeriodicStrategy)
| Periodically (p : PeriodicStrategy)
| Continuously (p : PeriodicStrategy).

Inductive ConcreteFlushStrategy :=
| CEnd
| CEndPeriodically (p : PeriodicStrategy)
| CPeriodically (p : PeriodicStrategy)
| CContinuously (p : PeriodicStrategy).

(** * [invocation_times.rs] *)

Definition TWENTY_SECONDS : Z := 20 * 1000.
Definition LOOKBACK_COUNT : nat := 20.
Definition ONE_TWENTY_SECONDS : f64 := f64_of_Z 120.

Module InvocationTimes.

Record t := { times : list Z; head : nat }.

Definition new : t := {| times := replicate LOOKBACK_COUNT 0; head := 0 |}.

(** [self.times[self.head]] panics when [head] is out of range: see
    [add_in_bounds]. *)
Definition add (self : t) (timestamp : Z) : t :=
  {| times := <[head self := timestamp]> (times self);
     head := (head self + 1) mod LOOKBACK_COUNT |}.

(** [(elapsed as f64 / (LOOKBACK_COUNT - 1) as f64) < ONE_TWENTY_SECONDS] *)
Definition should_adapt (elapsed : Z) : bool :=
  flt (fdiv (f64_of_Z elapsed) (f64_of_Z (Z.of_nat (LOOKBACK_COUNT - 1))))
      ONE_TWENTY_SECONDS.

Definition evaluate_concrete_strategy
    (self : t) (now flush_timeout : Z) (flush_strategy : FlushStrategy)
    : ConcreteFlushStrategy :=
  match flush_strategy with
  | Periodically p => CPeriodically p
  | End_ => CEnd
  | Continuously p => CContinuously p
  | EndPeriodically p => CEndPeriodically p
  | Default =>
      if existsb (fun time => time =? 0) (drop (head self) (times self)) then CEnd
      else
        let oldest := nth (head self) (times self) 0 in
        let elapsed := (now -ᵤ oldest)%rust in
        if should_adapt elapsed then
          if elapsed <? flush_timeout
          then CContinuously {| interval := TWENTY_SECONDS |}
          else CPeriodically {| interval := TWENTY_SECONDS |}
        else CEnd
  end.

(** ** The ring buffer holds the last [LOOKBACK_COUNT] timestamps *)

(** The state after the timestamps [h], oldest first. *)
Definition record_all (h : list Z) : t := foldl add new h.

Lemma record_all_snoc h x : record_all (h ++ [x]) = add (record_all h) x.
Proof. apply foldl_snoc. Qed.

(** Slot [j mod 20] holds timestamp [j] of the last twenty, and the slots not
    yet written hold 0. *)
Record represents (h : list Z) (s : t) : Prop := {
  rep_head : head s = (length h mod LOOKBACK_COUNT)%nat;
  rep_length : length (times s) = LOOKBACK_COUNT;
  rep_window j : (length h <= j + LOOKBACK_COUNT)%nat -> (j < length h)%nat ->
    times s !! (j mod LOOKBACK_COUNT)%nat = h !! j;
  rep_fresh i : (length h <= i < LOOKBACK_COUNT)%nat -> times s !! i = Some 0
}.

Lemma mod_window_inj (a b n : nat) :
  (a < b < a + n -> a mod n <> b mod n)%nat.
Proof.
  intros Hab Heq.
  pose proof (Nat.div_mod_eq a n) as Ha. pose proof (Nat.div_mod_eq b n) as Hb.
  rewrite Heq in Ha. destruct (Nat.le_gt_cases (b / n) (a / n)); nia.
Qed.

Lemma record_all_represents h : represents h (record_all h).
Proof.
  induction h as [|x h IH] using rev_ind; [split; [done|done|simpl; lia|]; intros i [_ Hi]; by apply lookup_replicate_2|].
  destruct IH as [Hhd Hlen Hwin Hfr]. rewrite record_all_snoc.
  assert (Hlt : (head (record_all h) < LOOKBACK_COUNT)%nat)
    by (rewrite Hhd; apply Nat.mod_upper_bound; done).
  split; cbn [times head add].
  - rewrite Hhd, length_app. cbn [length]. by rewrite Nat.Div0.add_mod_idemp_l.
  - by rewrite length_insert.
  - intros j. rewrite length_app. cbn [length]. intros Hj1 Hj2. rewrite Hhd.
    destruct (decide (j = length h)) as [->|Hne].
    + rewrite list_lookup_insert_eq by (rewrite <- Hhd; lia).
      by rewrite list_lookup_middle.
    + rewrite list_lookup_insert_ne.
      * rewrite Hwin by lia. by rewrite lookup_app_l by lia.
      * apply not_eq_sym, mod_window_inj. lia.
  - intros i. rewrite length_app. cbn [length]. intros Hi. rewrite Hhd.
    rewrite Nat.mod_small by lia.
    rewrite list_lookup_insert_ne by lia. apply Hfr. lia.
Qed.

(** The write index never leaves the array: [add] does not panic. *)
Lemma add_in_bounds h :
  (head (record_all h) < length (times (record_all h)))%nat.
Proof.
  destruct (record_all_represents h) as [Hhd Hlen _ _].
  rewrite Hhd, Hlen. by apply Nat.mod_upper_bound.
Qed.

Lemma should_adapt_small : forallb should_adapt (seqZ 0 2280) = true.
Proof. vm_compute. reflexivity. Qed.

(** The float comparison decides the average gap exactly, for every [u64]. *)
Lemma should_adapt_spec elapsed :
  is_u64 elapsed -> should_adapt elapsed = (elapsed <? 2280).
Proof.
  intros Hu. destruct (Z.ltb_spec elapsed 2280) as [Hlt|Hge].
  - pose proof should_adapt_small as H. rewrite forallb_forall in H. apply H.
    apply list_elem_of_In, elem_of_seqZ. unfold is_u64 in Hu. lia.
  - unfold should_adapt, ONE_TWENTY_SECONDS.
    apply (flt_ge_int _ 120 8444249301319680 (-46)); [lia..|].
    apply (fdiv_ge 120 19 5348024557502464 (-48)); [lia..|].
    apply f64_of_Z_ge; lia.
Qed.

(** The strategy as a function of the invocation history alone. *)
Definition default_strategy_of_history (h : list Z) (now flush_timeout : Z)
    : ConcreteFlushStrategy :=
  match drop (length h - LOOKBACK_COUNT) h with
  | oldest :: _ =>
      if (length h <? LOOKBACK_COUNT)%nat then CEnd
      else if now - oldest <? 2280 then
        if now - oldest <? flush_timeout
        then CContinuously {| interval := TWENTY_SECONDS |}
        else CPeriodically {| interval := TWENTY_SECONDS |}
      else CEnd
  | [] => CEnd
  end.

Lemma unfilled_has_zero h :
  (length h < LOOKBACK_COUNT)%nat ->
  existsb (fun time => time =? 0)
    (drop (head (record_all h)) (times (record_all h))) = true.
Proof.
  intros Hlen. destruct (record_all_represents h) as [Hhd Hl _ Hfr].
  rewrite Hhd, Nat.mod_small by done.
  erewrite drop_S by (apply Hfr; lia). done.
Qed.

Lemma filled_no_zero h :
  (LOOKBACK_COUNT <= length h)%nat -> Forall (fun time => 0 < time) h ->
  existsb (fun time => time =? 0)
    (drop (head (record_all h)) (times (record_all h))) = false.
Proof.
  intros Hlen Hpos. destruct (record_all_represents h) as [Hhd Hl Hwin _].
  apply not_true_iff_false. rewrite existsb_exists. intros (v & Hin & Hv).
  bool_to_prop. subst v.
  apply list_elem_of_In, list_elem_of_lookup in Hin as [i Hi].
  rewrite lookup_drop in Hi.
  set (k := (head (record_all h) + i)%nat) in *.
  assert (Hk : (k < LOOKBACK_COUNT)%nat) by (apply lookup_lt_Some in Hi; lia).
  set (j := (length h - 1 - (length h - 1 - k) mod LOOKBACK_COUNT)%nat).
  assert (Hjm : (j mod LOOKBACK_COUNT = k)%nat /\ (j < length h)%nat
                /\ (length h <= j + LOOKBACK_COUNT)%nat).
  { pose proof (Nat.mod_upper_bound (length h - 1 - k) LOOKBACK_COUNT ltac:(done)).
    pose proof (Nat.div_mod_eq (length h - 1 - k) LOOKBACK_COUNT).
    set (q := ((length h - 1 - k) / LOOKBACK_COUNT)%nat) in *.
    assert (Hj : j = (k + q * LOOKBACK_COUNT)%nat) by (unfold LOOKBACK_COUNT in *; lia).
    rewrite Hj. rewrite Nat.Div0.mod_add, Nat.mod_small by done.
    unfold LOOKBACK_COUNT in *. lia. }
  destruct Hjm as (Hjm & Hj1 & Hj2).
  pose proof (Hwin j Hj2 Hj1) as Hw. rewrite Hjm, Hi in Hw.
  rewrite Forall_lookup in Hpos. specialize (Hpos j 0 (eq_sym Hw)). lia.
Qed.

Lemma oldest_is_twentieth_last h d :
  (LOOKBACK_COUNT <= length h)%nat ->
  nth (head (record_all h)) (times (record_all h)) 0
  = nth (length h - LOOKBACK_COUNT) h d.
Proof.
  intros Hlen. destruct (record_all_represents h) as [Hhd Hl Hwin _].
  assert (Heq : (length h mod LOOKBACK_COUNT
                 = (length h - LOOKBACK_COUNT) mod LOOKBACK_COUNT)%nat).
  { replace (length h) with (length h - LOOKBACK_COUNT + 1 * LOOKBACK_COUNT)%nat at 1
      by lia. by rewrite Nat.Div0.mod_add. }
  specialize (Hwin (length h - LOOKBACK_COUNT)%nat ltac:(lia) ltac:(unfold LOOKBACK_COUNT in *; lia)).
  rewrite Hhd, Heq. rewrite !nth_lookup, Hwin.
  destruct (h !! _) eqn:E; [done|]. apply lookup_ge_None in E.
  unfold LOOKBACK_COUNT in *. lia.
Qed.

(** C1: under the default strategy the ring buffer computes exactly the policy
    over the whole history of invocation times: flush at the end until twenty
    invocations have been seen; then, from the gap between now and the
    twentieth last invocation, flush at the end when the average gap reaches
    120 seconds, continuously when that gap is below the flush timeout, and
    periodically otherwise. *)
Theorem default_strategy_refines_history h now flush_timeout :
  Forall (fun time => 0 < time <= now) h -> is_u64 now ->
  evaluate_concrete_strategy (record_all h) now flush_timeout Default
  = default_strategy_of_history h now flush_timeout.
Proof.
  intros Hh Hnow. unfold evaluate_concrete_strategy, default_strategy_of_history.
  destruct (decide (length h < LOOKBACK_COUNT)%nat) as [Hlt|Hge].
  { rewrite unfilled_has_zero by done.
    apply Nat.ltb_lt in Hlt. rewrite Hlt. by destruct (drop _ h). }
  rewrite filled_no_zero; [|lia|eapply Forall_impl; [done|simpl; lia]].
  rewrite (oldest_is_twentieth_last h 0) by lia.
  destruct (drop (length h - LOOKBACK_COUNT) h) as [|o r] eqn:Hd.
  { apply (f_equal length) in Hd. rewrite length_drop in Hd. simpl in Hd.
    unfold LOOKBACK_COUNT in *. lia. }
  assert (Ho : h !! (length h - LOOKBACK_COUNT)%nat = Some o)
    by (rewrite <- (Nat.add_0_r (_ - _)), <- lookup_drop, Hd; done).
  rewrite nth_lookup, Ho. simpl.
  pose proof (proj1 (Forall_lookup _ _) Hh _ _ Ho) as Hob. simpl in Hob.
  rewrite (proj2 (Nat.ltb_ge _ _)) by lia.
  rewrite wrap_u64_small by (unfold is_u64 in *; lia).
  by rewrite should_adapt_spec by (unfold is_u64 in *; lia).
Qed.

Lemma default_strategy_refines_history_witness :
  evaluate_concrete_strategy (record_all (seqZ 1 25)) 26 30 Default
  = CContinuously {| interval := TWENTY_SECONDS |}.
Proof.
  rewrite (default_strategy_refines_history (seqZ 1 25) 26 30).
  - reflexivity.
  - apply Forall_forall. intros x Hx. apply elem_of_seqZ in Hx. lia.
  - unfold is_u64. lia.
Defined.

End InvocationTimes.

(** * [flush_control.rs] *)

Definition DEFAULT_FLUSH_INTERVAL : Z := 60 * 1000.
Definition DEFAULT_CONTINUOUS_FLUSH_INTERVAL : Z := 30 * 1000.
Definition FIFTEEN_MINUTES : Z := 15 * 60 * 1000.

Inductive FlushDecision := Continuous | Periodic | End | Dont.

#[export] Instance FlushDecision_eq_dec : EqDecision FlushDecision.
Proof. solve_decision. Defined.

(** What the code sets on the timer it builds with [tokio::time::interval]. *)
Inductive MissedTickBehavior := Burst | Skip.
Record Interval := { period_ms : Z; missed_tick_behavior : MissedTickBehavior }.

(** [tokio::time::interval] panics on a zero period; ticks missed are delivered
    in a burst unless set otherwise. *)
Definition tokio_interval (ms : Z) : outcome Interval :=
  if ms =? 0 then Panic else Done {| period_ms := ms; missed_tick_behavior := Burst |}.

Definition set_missed_tick_behavior (i : Interval) (b : MissedTickBehavior) : Interval :=
  {| period_ms := period_ms i; missed_tick_behavior := b |}.

Module FlushControl.

Record t := {
  last_flush : Z;
  flush_strategy : FlushStrategy;
  invocation_times : InvocationTimes.t;
  flush_timeout : Z
}.

Definition new (flush_strategy : FlushStrategy) (flush_timeout now : Z) : t :=
  {| flush_strategy := flush_strategy;
     last_flush := now;
     invocation_times := InvocationTimes.new;
     flush_timeout := flush_timeout |}.

Definition get_flush_interval (self : t) : outcome Interval :=
  match flush_strategy self with
  | Default =>
      i ← tokio_interval DEFAULT_FLUSH_INTERVAL;
      mret (set_missed_tick_behavior i Skip)
  | Periodically p | EndPeriodically p | Continuously p =>
      i ← tokio_interval (interval p);
      mret (set_missed_tick_behavior i Skip)
  | End_ => tokio_interval FIFTEEN_MINUTES
  end.

(** [now - self.last_flush > interval / 1000], on [u64]. *)
Definition interval_passed (self : t) (now ival : Z) : bool :=
  ival / 1000 <? (now -ᵤ last_flush self)%rust.

Definition with_invocation_times (self : t) (it : InvocationTimes.t) : t :=
  {| last_flush := last_flush self; flush_strategy := flush_strategy self;
     invocation_times := it; flush_timeout := flush_timeout self |}.

Definition with_last_flush (self : t) (now : Z) : t :=
  {| last_flush := now; flush_strategy := flush_strategy self;
     invocation_times := invocation_times self; flush_timeout := flush_timeout self |}.

Definition evaluate_flush_decision (self : t) (now : Z) : FlushDecision * t :=
  let self := with_invocation_times self (InvocationTimes.add (invocation_times self) now) in
  let concrete_flush_strategy :=
    InvocationTimes.evaluate_concrete_strategy
      (invocation_times self) now (flush_timeout self) (flush_strategy self) in
  match concrete_flush_strategy with
  | CPeriodically strategy =>
      if interval_passed self now (interval strategy)
      then (Periodic, with_last_flush self now) else (Dont, self)
  | CContinuously strategy =>
      if interval_passed self now (interval strategy)
      then (Continuous, with_last_flush self now) else (Dont, self)
  | CEnd => (End, self)
  | CEndPeriodically strategy =>
      if interval_passed self now (interval strategy)
      then (End, with_last_flush self now) else (Dont, self)
  end.

(** The decisions taken at a sequence of invocations. *)
Fixpoint run (self : t) (nows : list Z) : list FlushDecision :=
  match nows with
  | [] => []
  | now :: rest =>
      let '(d, self') := evaluate_flush_decision self now in d :: run self' rest
  end.

(** The interval (in ms) that limits the rate of the decisions of a strategy. *)
Definition rate_interval (s : FlushStrategy) : Z :=
  match s with
  | Default | End_ => TWENTY_SECONDS
  | Periodically p | EndPeriodically p | Continuously p => interval p
  end.

(** Decisions that reset [last_flush]. *)
Definition rate_limited (s : FlushStrategy) (d : FlushDecision) : bool :=
  match d with
  | Periodic | Continuous => true
  | End => match s with EndPeriodically _ => true | _ => false end
  | Dont => false
  end.

Lemma interval_passed_spec self now ival :
  is_u64 now -> is_u64 (last_flush self) -> last_flush self <= now ->
  interval_passed self now ival = (ival / 1000 <? now - last_flush self).
Proof.
  intros Hn Hl Hle. unfold interval_passed. by rewrite wrap_u64_small by (unfold is_u64 in *; lia).
Qed.

(** One decision: the strategy is kept, and a rate-limited decision is taken
    exactly when it moves [last_flush] to now, which needs the interval. *)
Lemma evaluate_step self now d self' :
  is_u64 now -> is_u64 (last_flush self) -> last_flush self <= now ->
  evaluate_flush_decision self now = (d, self') ->
  flush_strategy self' = flush_strategy self /\
  (if rate_limited (flush_strategy self) d
   then last_flush self' = now /\
        rate_interval (flush_strategy self) / 1000 < now - last_flush self
   else last_flush self' = last_flush self).
Proof.
  intros Hn Hl Hle. unfold evaluate_flush_decision.
  destruct (InvocationTimes.evaluate_concrete_strategy _ _ _ _) as [|p|p|p] eqn:Hs;
    rewrite ?interval_passed_spec by done; cbn [last_flush with_invocation_times].
  all: unfold InvocationTimes.evaluate_concrete_strategy in Hs;
    cbn [flush_strategy with_invocation_times] in Hs.
  all: repeat break_match; intros [= <- <-]; cbn; simplify_eq; bool_to_prop;
    repeat break_match_hyp; simplify_eq; rewrite ?Heqf; cbn in *; auto.
Qed.

Lemma run_above_last_flush nows : forall self j now d,
  is_u64 (last_flush self) -> Forall is_u64 nows -> Sorted Z.le (last_flush self :: nows) ->
  nows !! j = Some now -> run self nows !! j = Some d ->
  rate_limited (flush_strategy self) d = true ->
  rate_interval (flush_strategy self) / 1000 < now - last_flush self.
Proof.
  induction nows as [|n nows IH]; intros self j now d Hl Hu Hs Hj Hd Hr; [done|].
  apply Forall_cons in Hu as [Hun Hu].
  apply Sorted_inv in Hs as [Hs Hhd]. inversion Hhd; subst.
  simpl in Hd. destruct (evaluate_flush_decision self n) as [d0 self'] eqn:He.
  pose proof (evaluate_step _ _ _ _ Hun Hl ltac:(done) He) as [Hfs Hstep].
  destruct j as [|j]; simpl in Hj, Hd; simplify_eq.
  { rewrite Hr in Hstep. tauto. }
  assert (Sorted Z.le (last_flush self' :: nows) /\ last_flush self <= last_flush self'
          /\ is_u64 (last_flush self')) as (Hs' & Hmono & Hu').
  { destruct (rate_limited _ d0).
    - destruct Hstep as [-> _]. done.
    - rewrite Hstep. split; [|done].
      apply Sorted_inv in Hs as [Hs1 Hs2]. constructor; [done|].
      destruct nows; constructor. inversion Hs2; subst. lia. }
  specialize (IH self' j now d Hu' Hu Hs' Hj Hd). rewrite Hfs in IH.
  specialize (IH Hr). lia.
Qed.

(** C2: flush rate limiting over any sequence of invocations with a
    non-decreasing clock: between two decisions to flush periodically,
    continuously, or at the end under an end-periodic strategy, more time than
    the strategy's interval has passed (20 seconds for the default strategy). *)
Theorem flushes_are_rate_limited nows : forall self i j ti tj di dj,
  is_u64 (last_flush self) -> Forall is_u64 nows -> Sorted Z.le (last_flush self :: nows) ->
  (i < j)%nat ->
  nows !! i = Some ti -> nows !! j = Some tj ->
  run self nows !! i = Some di -> run self nows !! j = Some dj ->
  rate_limited (flush_strategy self) di = true ->
  rate_limited (flush_strategy self) dj = true ->
  rate_interval (flush_strategy self) / 1000 < tj - ti.
Proof.
  induction nows as [|n nows IH]; intros self i j ti tj di dj Hl Hu Hs Hij Hi Hj Hdi Hdj Hri Hrj;
    [done|].
  apply Forall_cons in Hu as [Hun Hu].
  apply Sorted_inv in Hs as [Hs Hhd]. inversion Hhd; subst.
  simpl in Hdi, Hdj. destruct (evaluate_flush_decision self n) as [d0 self'] eqn:He.
  pose proof (evaluate_step _ _ _ _ Hun Hl ltac:(done) He) as [Hfs Hstep].
  destruct j as [|j]; [lia|]. simpl in Hj, Hdj.
  destruct i as [|i]; simpl in Hi, Hdi; simplify_eq.
  - rewrite Hri in Hstep. destruct Hstep as [Hlf _]. rewrite <- Hlf, <- Hfs in *.
    by eapply run_above_last_flush.
  - assert (last_flush self' <= n /\ is_u64 (last_flush self')) as [Hle Hu'].
    { destruct (rate_limited _ d0); [destruct Hstep as [-> _]|rewrite Hstep]; split; done || lia. }
    rewrite <- Hfs in *. apply (IH self' i j ti tj di dj); auto; [|lia].
    apply Sorted_inv in Hs as [Hs1 Hs2]. constructor; [done|].
    destruct nows; constructor. inversion Hs2; subst. lia.
Qed.

Lemma flushes_are_rate_limited_witness :
  run (new (Periodically {| interval := 5000 |}) 30 100) [101; 106; 110; 112]
    = [Dont; Periodic; Dont; Periodic] /\
  5000 / 1000 < 112 - 106.
Proof.
  split; [reflexivity|].
  refine (flushes_are_rate_limited [101; 106; 110; 112]
    (new (Periodically {| interval := 5000 |}) 30 100) 1 3 106 112 Periodic Periodic
    _ _ _ _ eq_refl eq_refl eq_refl eq_refl eq_refl eq_refl).
  - unfold is_u64. simpl. lia.
  - repeat constructor; unfold is_u64; lia.
  - repeat constructor; simpl; lia.
  - lia.
Defined.

(** A wall clock that steps backwards forces a flush instead of postponing
    it: the unsigned subtraction wraps to a huge gap (release build), so the
    interval counts as passed. *)
Theorem clock_regression_forces_flush self now ival :
  0 <= now < last_flush self -> last_flush self < 2 ^ 63 -> is_u64 ival ->
  interval_passed self now ival = true.
Proof.
  intros Hn Hl Hi. unfold interval_passed. rewrite wrap_u64_sub by (unfold is_u64; lia).
  destruct (Z.leb_spec (last_flush self) now); [lia|].
  apply Z.ltb_lt. unfold is_u64 in *.
  assert (ival / 1000 <= 2 ^ 64 / 1000) by (apply Z.div_le_mono; lia).
  assert (2 ^ 64 / 1000 < 2 ^ 63) by (vm_compute; reflexivity). lia.
Qed.

Lemma clock_regression_forces_flush_witness :
  interval_passed (new (Periodically {| interval := 60000 |}) 30 1000) 999 60000 = true.
Proof.
  apply (clock_regression_forces_flush
    (new (Periodically {| interval := 60000 |}) 30 1000) 999 60000);
    unfold is_u64; simpl; lia.
Defined.

End FlushControl.
