(* ===== verification/Aggregators.v ===== *)
(** The queues between the producers of telemetry and the flushers:
    [logs/aggregator.rs], [traces/trace_aggregator.rs],
    [traces/stats_aggregator.rs], [traces/proxy_aggregator.rs], and the command
    loops that own the first two ([logs/aggregator_service.rs],
    [traces/trace_aggregator_service.rs]). *)

From S2P Require Import Prelude.

(** * The interface of a batching queue

    What a command loop needs of the queue it owns: each call of [get_batch]
    hands out a front part of what is pending, in order, and an empty batch
    stands for an empty part. *)

Class BatchSource (Q Batch Item : Type) := {
  bs_get_batch : Q -> Batch * Q;
  bs_is_empty : Batch -> bool;
  bs_pending : Q -> list Item;
  bs_limits : Type;
  bs_config : Q -> bs_limits;
  bs_wf : Q -> Prop;
  bs_renders : list Item -> Batch -> Prop;
  bs_step q b q' : bs_wf q -> bs_get_batch q = (b, q') ->
    bs_wf q' /\ bs_config q' = bs_config q /\ exists items, bs_renders items b /\
      items ++ bs_pending q' = bs_pending q /\ (bs_is_empty b = true <-> items = [])
}.

(** The loop of the [GetBatches] handlers:
    [while !current_batch.is_empty() { batches.push(current_batch); ... }].
    [None] when the fuel runs out before an empty batch. *)
Fixpoint get_batches_loop `{BatchSource Q Batch Item} (fuel : nat) (q : Q)
    : option (list Batch * Q) :=
  match fuel with
  | O => None
  | S fuel =>
      let '(current_batch, q) := bs_get_batch q in
      if bs_is_empty current_batch then Some ([], q)
      else
        match get_batches_loop fuel q with
        | Some (batches, q) => Some (current_batch :: batches, q)
        | None => None
        end
  end.

Section Drain.
Context `{BatchSource Q Batch Item}.

(** The loop ends within one call more than there are pending items, hands out
    a front part of the queue in order, and stops at an empty batch. *)
Lemma get_batches_loop_total fuel : forall q,
  bs_wf q -> (length (bs_pending q) < fuel)%nat ->
  exists batches q' chunks,
    get_batches_loop fuel q = Some (batches, q') /\ bs_wf q' /\
    Forall2 bs_renders chunks batches /\
    mjoin chunks ++ bs_pending q' = bs_pending q /\
    bs_config q' = bs_config q /\
    exists q0, bs_wf q0 /\ bs_pending q0 = bs_pending q' /\ bs_config q0 = bs_config q /\
      bs_is_empty (fst (bs_get_batch q0)) = true.
Proof.
  induction fuel as [|fuel IH]; intros q Hwf Hlen; [lia|]. simpl.
  destruct (bs_get_batch q) as [b q1] eqn:Hg.
  destruct (bs_step q b q1 Hwf Hg) as (Hwf1 & Hcfg & items & Hr & Hcons & Hemp).
  destruct (bs_is_empty b) eqn:Hb.
  - exists [], q1, []. pose proof (proj1 Hemp eq_refl) as ->.
    repeat split; auto. exists q. rewrite Hg. auto.
  - assert (Hlen1 : (length (bs_pending q1) < fuel)%nat).
    { destruct items as [|i items]; [discriminate (proj2 Hemp eq_refl)|].
      apply (f_equal length) in Hcons. rewrite length_app in Hcons. simpl in Hcons. lia. }
    destruct (IH q1 Hwf1 Hlen1) as (bs & q' & chunks & -> & Hwf' & Hf & Hc & Hcfg' & Hstop).
    exists (b :: bs), q', (items :: chunks). split_and!; auto.
    + simpl. rewrite <- app_assoc, Hc. done.
    + congruence.
    + rewrite <- Hcfg. done.
Qed.

End Drain.

(** * [logs/aggregator.rs] *)

Module LogsAggregator.

Definition MAX_CONTENT_SIZE_BYTES : Z := 5 * 1024 * 1024.
Definition MAX_LOG_SIZE_BYTES : Z := 1024 * 1024.
Definition MAX_BATCH_ENTRIES_SIZE : nat := 1000.

Record t := {
  messages : list bytes;
  max_batch_entries_size : nat;
  max_content_size_bytes : Z;
  max_log_size_bytes : Z;
  buffer : bytes
}.

Definition new (max_batch_entries_size : nat) (max_content_size_bytes max_log_size_bytes : Z) : t :=
  {| messages := [];
     max_batch_entries_size := max_batch_entries_size;
     max_content_size_bytes := max_content_size_bytes;
     max_log_size_bytes := max_log_size_bytes;
     buffer := [] |}.

Definition default : t :=
  new MAX_BATCH_ENTRIES_SIZE MAX_CONTENT_SIZE_BYTES MAX_LOG_SIZE_BYTES.

Definition with_queue (self : t) (messages : list bytes) (buffer : bytes) : t :=
  {| messages := messages;
     max_batch_entries_size := max_batch_entries_size self;
     max_content_size_bytes := max_content_size_bytes self;
     max_log_size_bytes := max_log_size_bytes self;
     buffer := buffer |}.

Definition add_batch (self : t) (logs : list bytes) : t :=
  with_queue self (foldl push_back (messages self) logs) (buffer self).

(** The [for _ in 0..max_batch_entries_size] loop: queue and buffer. A log over
    [max_log_size_bytes] is only warned about. *)
Fixpoint fill (n : nat) (max_content_size_bytes : Z) (messages : list bytes) (buffer : bytes)
    : list bytes * bytes :=
  match n with
  | O => (messages, buffer)
  | S n =>
      match pop_front messages with
      | (Some log, messages) =>
          if max_content_size_bytes <? blen buffer + blen log
          then (push_front messages log, buffer)
          else fill n max_content_size_bytes messages ((buffer ++ log) ++ (b!",")%rust)
      | (None, messages) => (messages, buffer)
      end
  end.

Definition get_batch (self : t) : bytes * t :=
  let buffer := buffer self ++ (b!"[")%rust in
  let '(messages, buffer) :=
    fill (max_batch_entries_size self) (max_content_size_bytes self) (messages self) buffer in
  let buffer :=
    if 1 <? blen buffer then vec_pop buffer ++ (b!"]")%rust else vec_pop buffer in
  (buffer, with_queue self messages []).

(** The JSON array of some logs; nothing for no log. *)
Definition render (logs : list bytes) : bytes :=
  match logs with
  | [] => []
  | _ => (b!"[")%rust ++ join (b!",")%rust logs ++ (b!"]")%rust
  end.

(** Bytes in the buffer once [logs] have been added, the comma after each. *)
Definition used (logs : list bytes) : bytes :=
  (b!"[")%rust ++ mjoin ((fun log => log ++ (b!",")%rust) <$> logs).

Lemma used_snoc logs log : used (logs ++ [log]) = (used logs ++ log) ++ (b!",")%rust.
Proof.
  unfold used. rewrite fmap_app, join_app. simpl. rewrite app_nil_r, !app_assoc. done.
Qed.

Lemma fill_spec n max messages0 : forall done_,
  exists k, (k <= n)%nat /\
    fill n max messages0 (used done_)
      = (drop k messages0, used (done_ ++ take k messages0)) /\
    (forall i log, messages0 !! i = Some log -> (i < k)%nat ->
       blen (used (done_ ++ take i messages0)) + blen log <= max) /\
    (k = n \/ match messages0 !! k with
              | Some log => max < blen (used (done_ ++ take k messages0)) + blen log
              | None => True
              end).
Proof.
  revert messages0. induction n as [|n IH]; intros messages0 done_.
  { exists 0%nat. rewrite take_0, app_nil_r. split_and!; auto; lia. }
  destruct messages0 as [|log rest].
  { exists 0%nat. simpl. rewrite app_nil_r. split_and!; auto; lia. }
  cbn [fill pop_front]. destruct (max <? blen (used done_) + blen log) eqn:Hfit; bool_to_prop.
  { exists 0%nat. simpl. rewrite app_nil_r. split_and!; auto; lia. }
  rewrite <- used_snoc. destruct (IH rest (done_ ++ [log])) as (k & Hk & -> & Hall & Hstop).
  exists (S k). simpl. rewrite <- !app_assoc in *. simpl in *.
  split_and!; [lia|done| |].
  - intros [|i] l Hl Hi; simpl in *.
    + simplify_eq. rewrite app_nil_r. lia.
    + specialize (Hall i l Hl ltac:(lia)). by rewrite <- app_assoc in Hall.
  - destruct Hstop as [->|Hstop]; [by left|right]. done.
Qed.

Lemma used_nonempty logs : logs <> [] -> exists pre, used logs = pre ++ (b!",")%rust /\
  render logs = pre ++ (b!"]")%rust.
Proof.
  intros Hne. destruct logs as [|l ls]; [done|]. clear Hne. unfold used, render.
  enough (Hj : mjoin ((fun log => log ++ (b!",")%rust) <$> l :: ls)
          = join (b!",")%rust (l :: ls) ++ (b!",")%rust).
  { exists ((b!"[")%rust ++ join (b!",")%rust (l :: ls)). rewrite Hj, !app_assoc. done. }
  revert l. induction ls as [|l' ls IH]; intros l.
  - simpl. by rewrite app_nil_r.
  - rewrite mjoin_fmap_cons, IH, join_cons2. by rewrite !app_assoc.
Qed.

Lemma used_length logs : blen (used logs) = 1 + Z.of_nat (sum_list_with (fun l => S (length l)) logs).
Proof.
  unfold used. rewrite blen_app. change (blen (b!"[")%rust) with 1. f_equal.
  induction logs as [|l ls IH]; [done|].
  rewrite mjoin_fmap_cons, !blen_app, IH. unfold blen. simpl. lia.
Qed.

(** A batch is a front part of the queue: see [logs_get_batch_spec]. *)
Lemma get_batch_prefix self :
  buffer self = [] ->
  exists k, (k <= max_batch_entries_size self)%nat /\
    get_batch self =
      (render (take k (messages self)), with_queue self (drop k (messages self)) []) /\
    (forall i log, messages self !! i = Some log -> (i < k)%nat ->
       blen (used (take i (messages self))) + blen log <= max_content_size_bytes self) /\
    (k = max_batch_entries_size self \/
     match messages self !! k with
     | Some log => max_content_size_bytes self < blen (used (take k (messages self))) + blen log
     | None => True
     end).
Proof.
  intros Hb. unfold get_batch. rewrite Hb. simpl app.
  destruct (fill_spec (max_batch_entries_size self) (max_content_size_bytes self)
              (messages self) []) as (k & Hk & Hfill & Hall & Hstop).
  change (used []) with (b!"[")%rust in Hfill. simpl in Hfill. rewrite Hfill. clear Hfill.
  assert (Hr : (if 1 <? blen (used (take k (messages self)))
                then vec_pop (used (take k (messages self))) ++ (b!"]")%rust
                else vec_pop (used (take k (messages self))))
               = render (take k (messages self))).
  { destruct (take k (messages self)) as [|l ls] eqn:Ht; [done|].
    destruct (used_nonempty (l :: ls)) as (pre & Hu & ->); [done|].
    rewrite (proj2 (Z.ltb_lt _ _)) by (rewrite used_length; simpl; lia).
    rewrite Hu. by rewrite (vec_pop_snoc pre ","%char : vec_pop (pre ++ (b!",")%rust) = pre). }
  exists k. simpl in *. rewrite Hr. done.
Qed.



(** No log batch is longer than the configured content size plus one byte:
    the room check does not count the separator, which the closing bracket
    later replaces. *)
Theorem logs_batch_size_bound self :
  buffer self = [] -> 0 <= max_content_size_bytes self ->
  blen (fst (get_batch self)) <= max_content_size_bytes self + 1.
Proof.
  intros Hb Hmax. destruct (get_batch_prefix self Hb) as (k & _ & -> & Hall & _). simpl.
  destruct (decide (take k (messages self) = [])) as [->|Hne]; [unfold blen; simpl; lia|].
  destruct (used_nonempty _ Hne) as (pre & Hu & Hr). rewrite Hr.
  assert (Hlen : blen (pre ++ (b!"]")%rust) = blen (used (take k (messages self))))
    by (rewrite Hu, !blen_app; done).
  rewrite Hlen. set (ms := messages self) in *.
  destruct (decide (k <= length ms)%nat) as [Hk|Hk].
  - destruct k as [|k]; [done|].
    destruct (ms !! k) as [log|] eqn:Hlog; [|apply lookup_ge_None in Hlog; lia].
    rewrite (take_S_r _ _ _ Hlog), used_snoc, !blen_app.
    specialize (Hall k log Hlog ltac:(lia)). unfold blen at 3. simpl. lia.
  - rewrite take_ge in * by lia.
    destruct ms as [|m ms'] eqn:Hms using rev_ind; [done|]. clear IHms'.
    specialize (Hall (length ms') m ltac:(by apply list_lookup_middle)
                  ltac:(rewrite length_app in Hk; simpl in Hk; lia)).
    rewrite take_app_length in Hall. rewrite used_snoc, !blen_app.
    unfold blen at 3. simpl. lia.
Qed.

Lemma logs_batch_size_bound_witness :
  blen (fst (get_batch (add_batch (new 5 6 100) [b!"abcde"]%rust))) = 7 /\ 7 <= 6 + 1.
Proof.
  split; [reflexivity|].
  apply (logs_batch_size_bound (add_batch (new 5 6 100) [b!"abcde"]%rust)); [reflexivity|].
  simpl. lia.
Defined.

#[export] Instance logs_batch_source : BatchSource t bytes bytes.
Proof.
  refine {| bs_get_batch := get_batch;
            bs_is_empty b := match b with [] => true | _ => false end;
            bs_pending := messages;
            bs_config q := (max_batch_entries_size q, max_content_size_bytes q);
            bs_wf q := buffer q = [];
            bs_renders logs b := b = render logs |}.
  intros q b q' Hb Hg. destruct (get_batch_prefix q Hb) as (k & _ & Hg' & _).
  rewrite Hg' in Hg. injection Hg as <- <-. split; [done|]. split; [done|].
  exists (take k (messages q)). split; [done|]. split; [apply take_drop|].
  by destruct (take k (messages q)).
Defined.

(** ** [logs/aggregator_service.rs] *)

Inductive AggregatorCommand :=
| InsertBatch (logs : list bytes)
| GetBatches
| Shutdown.

(** The command loop: the batches sent back for each [GetBatches], and the
    aggregator when the channel closes or [Shutdown] is received. One call more
    than there are queued logs is fuel enough: see [logs_service_exactly_once]. *)
Fixpoint run (self : t) (commands : list AggregatorCommand) : option (list (list bytes) * t) :=
  match commands with
  | [] => Some ([], self)
  | InsertBatch logs :: rest => run (add_batch self logs) rest
  | GetBatches :: rest =>
      '(batches, self) ← get_batches_loop (S (length (messages self))) self;
      '(responses, self) ← run self rest;
      Some (batches :: responses, self)
  | Shutdown :: _ => Some ([], self)
  end.

(** The logs inserted by a command sequence, up to a [Shutdown]. *)
Fixpoint inserted (commands : list AggregatorCommand) : list bytes :=
  match commands with
  | [] | Shutdown :: _ => []
  | InsertBatch logs :: rest => logs ++ inserted rest
  | GetBatches :: rest => inserted rest
  end.

Lemma foldl_push_back {A} (l q : list A) : foldl push_back q l = q ++ l.
Proof.
  revert q. induction l as [|x l IH]; intros q; simpl; [by rewrite app_nil_r|].
  rewrite IH. unfold push_back. by rewrite <- app_assoc.
Qed.

Lemma logs_service_spec commands : forall self,
  buffer self = [] ->
  exists responses self' chunks,
    run self commands = Some (responses, self') /\
    Forall2 (Forall2 (fun logs batch => batch = render logs)) chunks responses /\
    mjoin (mjoin chunks) ++ messages self' = messages self ++ inserted commands.
Proof.
  induction commands as [|[logs| |] rest IH]; intros self Hb; cbn [run inserted].
  - exists [], self, []. simpl. rewrite app_nil_r. auto.
  - destruct (IH (add_batch self logs) Hb) as (rs & self' & ch & Hr & Hf & Hc).
    exists rs, self', ch. split; [done|]. split; [done|].
    rewrite Hc. unfold add_batch. simpl. rewrite foldl_push_back, app_assoc. done.
  - destruct (get_batches_loop_total (H := logs_batch_source) (S (length (messages self))) self Hb)
      as (bs & q' & chunks & Hl & Hwf & Hf & Hc & _); [simpl; lia|].
    destruct (IH q' Hwf) as (rs & self' & ch & Hr & Hf' & Hc').
    exists (bs :: rs), self', (chunks :: ch). change (bs_pending q') with (messages q') in Hc.
    rewrite Hl. cbn. rewrite Hr. split; [done|]. split; [by constructor|].
    change (mjoin (chunks :: ch)) with (chunks ++ mjoin ch).
    rewrite join_app, <- app_assoc.
    transitivity (mjoin chunks ++ messages q' ++ inserted rest); [by f_equal|].
    rewrite app_assoc. by f_equal.
  - exists [], self, []. simpl. rewrite app_nil_r. auto.
Qed.

(** The logs service always answers, and the batches it hands out over any
    sequence of commands are the JSON arrays of consecutive pieces of the log
    stream: every log is delivered exactly once, in the order of insertion, or
    is still queued at the end. *)
Theorem logs_service_exactly_once commands : forall self,
  buffer self = [] ->
  exists responses self' chunks,
    run self commands = Some (responses, self') /\
    Forall2 (Forall2 (fun logs batch => batch = render logs)) chunks responses /\
    mjoin (mjoin chunks) ++ messages self' = messages self ++ inserted commands.
Proof. apply logs_service_spec. Qed.

Lemma logs_service_exactly_once_witness :
  let self := new 2 100 100 in
  let commands := [InsertBatch [b!"a"; b!"b"; b!"c"]; GetBatches; InsertBatch [b!"d"]]%rust in
  option_map fst (run self commands) = Some [[b!"[a,b]"; b!"[c]"]]%rust /\
  exists responses self' chunks,
    run self commands = Some (responses, self') /\
    mjoin (mjoin chunks) ++ messages self' = [b!"a"; b!"b"; b!"c"; b!"d"]%rust.
Proof.
  intros self commands. split; [reflexivity|].
  destruct (logs_service_exactly_once commands self eq_refl) as (rs & s' & ch & Hr & _ & Hc).
  eauto.
Defined.

(** A log that fits in a batch of its own. *)
Definition fits (self : t) (log : bytes) : Prop := 1 + blen log <= max_content_size_bytes self.

(** A flush hands out everything: when every queued log fits in a batch of
    its own and batches may hold an entry, [GetBatches] leaves the queue empty. *)
Theorem logs_flush_drains_queue self :
  buffer self = [] -> (0 < max_batch_entries_size self)%nat ->
  Forall (fits self) (messages self) ->
  exists batches self' chunks,
    get_batches_loop (S (length (messages self))) self = Some (batches, self') /\
    batches = render <$> chunks /\ mjoin chunks = messages self /\ messages self' = [].
Proof.
  intros Hb Hn Hfit.
  destruct (get_batches_loop_total (H := logs_batch_source) (S (length (messages self))) self Hb)
    as (bs & q' & chunks & Hl & Hwf & Hf & Hc & Hcfg & q0 & Hwf0 & Hp0 & Hcfg0 & He);
    [simpl; lia|]. simpl in *.
  assert (Hempty : messages q' = []).
  { destruct (get_batch_prefix q0 Hwf0) as (k & _ & Hg & _ & Hstop). rewrite Hg in He.
    simpl in He. injection Hcfg0 as Hn0 Hm0.
    destruct (messages q') as [|log rest] eqn:Hq; [done|]. rewrite Hp0 in *.
    destruct k as [|k]; [|done]. destruct Hstop as [Hstop|Hstop]; [lia|]. simpl in Hstop.
    rewrite <- Hc in Hfit. apply Forall_app in Hfit as [_ Hfit].
    apply Forall_cons in Hfit as [Hfit _]. unfold fits in Hfit.
    change (blen (used [])) with 1 in Hstop. lia. }
  exists bs, q', chunks. split; [done|]. split; [|by rewrite Hempty, app_nil_r in Hc].
  clear -Hf. induction Hf; simpl; f_equal; done.
Qed.

Lemma logs_flush_drains_queue_witness :
  let self := add_batch (new 2 10 100) [b!"aaaa"; b!"bbbb"; b!"c"]%rust in
  exists batches self',
    get_batches_loop (S (length (messages self))) self = Some (batches, self') /\
    messages self' = [].
Proof.
  intros self.
  assert (Hf : Forall (fits self) (messages self))
    by (repeat constructor; unfold fits, blen; simpl; lia).
  destruct (logs_flush_drains_queue self eq_refl (Nat.lt_0_succ 1) Hf)
    as (bs & s' & ch & Hl & _ & _ & He). eauto.
Defined.

(** A log too large for a batch blocks the queue for good: while it is at
    the front, every [GetBatches] over any further commands answers with no
    batch, and no log behind it is ever delivered. *)
Theorem logs_oversized_head_blocks commands : forall self log rest,
  buffer self = [] -> messages self = log :: rest -> ~ fits self log ->
  exists responses self',
    run self commands = Some (responses, self') /\
    Forall (fun batches => batches = []) responses /\
    messages self' = messages self ++ inserted commands.
Proof.
  assert (Hstuck : forall self log rest, buffer self = [] -> messages self = log :: rest ->
            ~ fits self log -> get_batch self = ([], self)).
  { intros [ms n m lm buf] log rest Hb Hm Hf. simpl in *. subst. unfold fits in Hf. simpl in Hf.
    unfold get_batch. simpl. destruct n as [|n]; [done|]. simpl.
    change (blen (b!"[")%rust) with 1.
    destruct (Z.ltb_spec m (1 + blen log)); [done|lia]. }
  induction commands as [|[logs| |] cs IH]; intros self log rest Hb Hm Hf; simpl.
  - exists [], self. rewrite app_nil_r. auto.
  - destruct (IH (add_batch self logs) log (rest ++ logs)) as (rs & s' & Hr & Hall & Hq).
    + done.
    + unfold add_batch. simpl. rewrite foldl_push_back, Hm. done.
    + done.
    + exists rs, s'. split; [done|]. split; [done|].
      rewrite Hq. unfold add_batch. simpl. rewrite foldl_push_back, app_assoc. done.
  - rewrite (Hstuck _ _ _ Hb Hm Hf). simpl.
    destruct (IH self log rest Hb Hm Hf) as (rs & s' & -> & Hall & Hq). simpl.
    exists ([] :: rs), s'. auto.
  - exists [], self. rewrite app_nil_r. auto.
Qed.

Lemma logs_oversized_head_blocks_witness :
  let self := add_batch (new 10 8 100) [b!"0123456789"]%rust in
  exists responses self',
    run self [InsertBatch [b!"ok"]%rust; GetBatches; GetBatches] = Some (responses, self') /\
    Forall (fun batches => batches = []) responses /\
    messages self' = [b!"0123456789"; b!"ok"]%rust.
Proof.
  intros self.
  destruct (logs_oversized_head_blocks [InsertBatch [b!"ok"]%rust; GetBatches; GetBatches]
    self (b!"0123456789")%rust [] eq_refl eq_refl ltac:(unfold fits, blen; simpl; lia))
    as (rs & s' & Hr & Ha & Hm). eauto.
Defined.

End LogsAggregator.

(** * [traces/trace_aggregator.rs] *)

Module TraceAggregator.

Definition MAX_CONTENT_SIZE_BYTES : Z := 12000000.

(** [TracerHeaderTags] (borrowed) and its owned copy have the same fields; the
    generic tags are a type of the tracing library. *)
Record TracerHeaderTags (Generic : Type) := {
  b_lang : string; b_lang_version : string; b_lang_interpreter : string;
  b_lang_vendor : string; b_tracer_version : string; b_container_id : string;
  b_generic : Generic
}.
Arguments b_lang {Generic}. Arguments b_lang_version {Generic}.
Arguments b_lang_interpreter {Generic}. Arguments b_lang_vendor {Generic}.
Arguments b_tracer_version {Generic}. Arguments b_container_id {Generic}.
Arguments b_generic {Generic}.

Record OwnedTracerHeaderTags (Generic : Type) := {
  lang : string; lang_version : string; lang_interpreter : string;
  lang_vendor : string; tracer_version : string; container_id : string;
  generic : Generic
}.
Arguments lang {Generic}. Arguments lang_version {Generic}.
Arguments lang_interpreter {Generic}. Arguments lang_vendor {Generic}.
Arguments tracer_version {Generic}. Arguments container_id {Generic}.
Arguments generic {Generic}.

Definition owned_from {Generic} (tags : TracerHeaderTags Generic) : OwnedTracerHeaderTags Generic :=
  {| lang := b_lang tags; lang_version := b_lang_version tags;
     lang_interpreter := b_lang_interpreter tags; lang_vendor := b_lang_vendor tags;
     tracer_version := b_tracer_version tags; container_id := b_container_id tags;
     generic := b_generic tags |}.

Definition to_tracer_header_tags {Generic} (self : OwnedTracerHeaderTags Generic)
    : TracerHeaderTags Generic :=
  {| b_lang := lang self; b_lang_version := lang_version self;
     b_lang_interpreter := lang_interpreter self; b_lang_vendor := lang_vendor self;
     b_tracer_version := tracer_version self; b_container_id := container_id self;
     b_generic := generic self |}.

(** [SendDataBuilder] is a type of the tracing library. *)
Record SendDataBuilderInfo (Builder Generic : Type) := {
  builder : Builder;
  size : Z;
  header_tags : OwnedTracerHeaderTags Generic
}.
Arguments builder {Builder Generic}. Arguments size {Builder Generic}.
Arguments header_tags {Builder Generic}.

Section TraceAggregator.
Context {Builder Generic : Type}.
Abbreviation info := (SendDataBuilderInfo Builder Generic).

Record t := { queue : list info; max_content_size_bytes : Z; buffer : list info }.

Definition new (max_content_size_bytes : Z) : t :=
  {| queue := []; max_content_size_bytes := max_content_size_bytes; buffer := [] |}.

Definition default : t := new MAX_CONTENT_SIZE_BYTES.

Definition add (self : t) (payload_info : info) : t :=
  {| queue := push_back (queue self) payload_info;
     max_content_size_bytes := max_content_size_bytes self; buffer := buffer self |}.

(** The [while batch_size < max] loop: queue and buffer. Sizes are [usize]. *)
Fixpoint fill (max batch_size : Z) (queue buffer : list info) : list info * list info :=
  match queue with
  | [] => ([], buffer)
  | payload_info :: rest =>
      if batch_size <? max then
        if max <? (batch_size +ᵤ size payload_info)%rust then
          match buffer with
          | [] => (rest, [payload_info])
          | _ => (payload_info :: rest, buffer)
          end
        else fill max (batch_size +ᵤ size payload_info)%rust rest (push_back buffer payload_info)
      else (payload_info :: rest, buffer)
  end.

Definition get_batch (self : t) : list info * t :=
  let '(queue, buffer) := fill (max_content_size_bytes self) 0 (queue self) (buffer self) in
  (buffer, {| queue := queue; max_content_size_bytes := max_content_size_bytes self;
              buffer := [] |}).

Definition clear (self : t) : t :=
  {| queue := []; max_content_size_bytes := max_content_size_bytes self; buffer := buffer self |}.

(** ** [traces/trace_aggregator_service.rs] *)

Inductive AggregatorCommand :=
| InsertPayload (payload_info : info)
| GetBatches
| Clear
| Shutdown.

Definition total (l : list info) : Z := foldr (fun i acc => size i + acc) 0 l.

Lemma total_app l1 l2 : total (l1 ++ l2) = total l1 + total l2.
Proof. induction l1; simpl; lia. Qed.

(** Payload sizes whose sum with the limit stays within [usize]. *)
Definition sizes_ok (max : Z) (l : list info) : Prop :=
  0 <= max < 2 ^ 63 /\ Forall (fun i => 0 <= size i < 2 ^ 63) l.

Lemma trace_fill_spec max : forall q buf,
  sizes_ok max q -> 0 <= total buf <= max ->
  exists taken rest,
    fill max (total buf) q buf = (rest, buf ++ taken) /\ taken ++ rest = q /\
    (total (buf ++ taken) <= max \/ exists p, buf ++ taken = [p] /\ max < size p) /\
    (total buf < max -> q <> [] -> buf ++ taken <> []).
Proof.
  induction q as [|p q IH]; intros buf [Hmax Hall] Hb.
  { exists [], []. simpl. rewrite app_nil_r. split_and!; [done..|left; lia|done]. }
  apply Forall_cons in Hall as [Hp Hall]. simpl.
  destruct (Z.ltb_spec (total buf) max) as [Hlt|Hge].
  2: { exists [], (p :: q). rewrite app_nil_r. split_and!; [done..|left|]; lia. }
  rewrite wrap_u64_small by (unfold is_u64; lia).
  destruct (Z.ltb_spec max (total buf + size p)) as [Hover|Hfit].
  - destruct buf as [|b0 buf].
    + exists [p], q. simpl in *. split_and!; auto. right. exists p. split; [done|lia].
    + exists [], (p :: q). rewrite app_nil_r. split_and!; auto. left. lia.
  - assert (Hp' : total (push_back buf p) = total buf + size p)
      by (unfold push_back; rewrite total_app; simpl; lia).
    rewrite <- Hp'.
    destruct (IH (push_back buf p)) as (taken & rest & -> & <- & Hsz & _); [done|lia|].
    exists (p :: taken), rest. unfold push_back in *. rewrite <- app_assoc in *. simpl in *.
    split_and!; auto. intros _ _ Hnil. by destruct buf.
Qed.

Lemma get_batch_spec self b self' :
  buffer self = [] -> sizes_ok (max_content_size_bytes self) (queue self) ->
  get_batch self = (b, self') ->
  b ++ queue self' = queue self /\ buffer self' = [] /\
  max_content_size_bytes self' = max_content_size_bytes self /\
  (total b <= max_content_size_bytes self \/
   exists p, b = [p] /\ max_content_size_bytes self < size p) /\
  (0 < max_content_size_bytes self -> b = [] -> queue self = []).
Proof.
  intros Hb Hok. unfold get_batch. rewrite Hb.
  destruct (trace_fill_spec (max_content_size_bytes self) (queue self) [] Hok)
    as (taken & rest & Hf & Hq & Hsz & Hne); [destruct Hok; simpl; lia|].
  simpl in Hf, Hsz, Hne. rewrite Hf. intros [= <- <-]. simpl. split_and!; auto.
  intros Hm Ht. destruct (queue self); [done|]. by destruct (Hne Hm).
Qed.

(** A trace batch is a front part of the queue, in order; its payloads sum
    to at most the content limit, or it is a single payload that is larger than
    the limit on its own; with a positive limit it is empty only when the queue
    is. *)
Theorem trace_get_batch_spec self b self' :
  buffer self = [] -> sizes_ok (max_content_size_bytes self) (queue self) ->
  get_batch self = (b, self') ->
  b ++ queue self' = queue self /\ buffer self' = [] /\
  (total b <= max_content_size_bytes self \/
   exists p, b = [p] /\ max_content_size_bytes self < size p) /\
  (0 < max_content_size_bytes self -> b = [] -> queue self = []).
Proof.
  intros Hb Hok Hg. destruct (get_batch_spec _ _ _ Hb Hok Hg) as (? & ? & _ & ? & ?). auto.
Qed.

#[export] Instance trace_batch_source : BatchSource t (list info) info.
Proof.
  refine {| bs_get_batch := get_batch;
            bs_is_empty b := match b with [] => true | _ => false end;
            bs_pending := queue;
            bs_config := max_content_size_bytes;
            bs_wf q := buffer q = [] /\ sizes_ok (max_content_size_bytes q) (queue q);
            bs_renders items b := b = items |}.
  intros q b q' [Hb Hok] Hg.
  destruct (get_batch_spec _ _ _ Hb Hok Hg) as (Hq & Hb' & Hm & _ & _).
  split_and!; auto.
  - rewrite Hm. destruct Hok as [? Hall]. split; [done|].
    rewrite <- Hq in Hall. by apply Forall_app in Hall as [_ ?].
  - exists b. split_and!; auto. by destruct b.
Defined.

(** The command loop, as in [LogsAggregator.run]. *)
Fixpoint run (self : t) (commands : list AggregatorCommand)
    : option (list (list (list info)) * t) :=
  match commands with
  | [] => Some ([], self)
  | InsertPayload payload_info :: rest => run (add self payload_info) rest
  | GetBatches :: rest =>
      '(batches, self) ← get_batches_loop (S (length (queue self))) self;
      '(responses, self) ← run self rest;
      Some (batches :: responses, self)
  | Clear :: rest => run (clear self) rest
  | Shutdown :: _ => Some ([], self)
  end.

(** C5: a trace flush always drains the queue: whatever the payload sizes,
    including payloads over the limit, one [GetBatches] hands out every queued
    payload exactly once and in order, and leaves nothing behind. *)
Theorem trace_flush_drains_queue self :
  buffer self = [] -> sizes_ok (max_content_size_bytes self) (queue self) ->
  0 < max_content_size_bytes self ->
  exists batches self',
    run self [GetBatches] = Some ([batches], self') /\
    mjoin batches = queue self /\ queue self' = [].
Proof.
  intros Hb Hok Hm.
  destruct (get_batches_loop_total (H := trace_batch_source) (S (length (queue self))) self)
    as (bs & q' & chunks & Hl & Hwf & Hf & Hc & _ & q0 & [Hb0 Hok0] & Hp0 & Hcfg0 & He);
    [done|simpl; lia|].
  simpl in Hp0, Hcfg0, He, Hc.
  assert (Heq : chunks = bs) by (clear -Hf; induction Hf; simpl in *; congruence).
  assert (Hnil : queue q' = []).
  { rewrite <- Hp0. destruct (get_batch q0) as [b0 q1] eqn:Hg0. simpl in He.
    destruct (get_batch_spec _ _ _ Hb0 Hok0 Hg0) as (_ & _ & _ & _ & Hp).
    apply Hp; [lia|]. by destruct b0. }
  exists bs, q'. cbn [run]. rewrite Hl. cbn. subst. rewrite Hnil, app_nil_r in Hc. auto.
Qed.

End TraceAggregator.

(** Payloads of 5, 9, 20 and 1 bytes under a limit of 12. *)
Definition sample_tags : OwnedTracerHeaderTags unit :=
  {| lang := "go"; lang_version := ""; lang_interpreter := ""; lang_vendor := "";
     tracer_version := ""; container_id := ""; generic := tt |}.

Definition sample_payload (n : Z) : SendDataBuilderInfo nat unit :=
  {| builder := 0%nat; size := n; header_tags := sample_tags |}.

Definition sample_trace_queue : t :=
  foldl add (new 12) (sample_payload <$> [5; 9; 20; 1]).

Lemma sample_sizes_ok : sizes_ok (max_content_size_bytes sample_trace_queue) (queue sample_trace_queue).
Proof. split; [simpl; lia|]. repeat constructor; simpl; lia. Qed.

Lemma trace_get_batch_spec_witness :
  fst (get_batch sample_trace_queue) ++ queue (snd (get_batch sample_trace_queue))
    = queue sample_trace_queue.
Proof.
  apply (trace_get_batch_spec sample_trace_queue _ _ eq_refl sample_sizes_ok (surjective_pairing _)).
Defined.

Lemma trace_flush_drains_queue_witness :
  exists batches self',
    run sample_trace_queue [GetBatches] = Some ([batches], self') /\ queue self' = [].
Proof.
  destruct (trace_flush_drains_queue sample_trace_queue eq_refl sample_sizes_ok)
    as (bs & s & Hr & _ & Hq); [simpl; lia|eauto].
Defined.

End TraceAggregator.

(** * [traces/stats_aggregator.rs] *)

Module StatsAggregator.

Definition MAX_CONTENT_SIZE_BYTES : Z := 3 * 1024 * 1024.

Section StatsAggregator.
Context {ClientStatsPayload : Type}.
(** [size_of_val(&payload)]: the size of the struct, the same for every
    payload, whatever its vectors hold. *)
Variable struct_size : Z.

Record t := {
  queue : list ClientStatsPayload;
  max_content_size_bytes : Z;
  buffer : list ClientStatsPayload
}.

Definition new (max_content_size_bytes : Z) : t :=
  {| queue := []; max_content_size_bytes := max_content_size_bytes; buffer := [] |}.

Definition new_with_concentrator : t := new MAX_CONTENT_SIZE_BYTES.

Definition add (self : t) (payload : ClientStatsPayload) : t :=
  {| queue := push_back (queue self) payload;
     max_content_size_bytes := max_content_size_bytes self; buffer := buffer self |}.

Fixpoint fill (max batch_size : Z) (queue buffer : list ClientStatsPayload)
    : list ClientStatsPayload * list ClientStatsPayload :=
  match queue with
  | [] => ([], buffer)
  | payload :: rest =>
      if batch_size <? max then
        let payload_size := struct_size in
        if max <? (batch_size +ᵤ payload_size)%rust then (payload :: rest, buffer)
        else fill max (batch_size +ᵤ payload_size)%rust rest (push_back buffer payload)
      else (payload :: rest, buffer)
  end.

(** [flushed]: what [self.concentrator.flush(force_flush).await] returns; an
    error is only logged. *)
Definition get_batch (self : t) (flushed : option ClientStatsPayload + string)
    : list ClientStatsPayload * t :=
  let queue0 :=
    match flushed with
    | inl (Some stats) => push_back (queue self) stats
    | inl None | inr _ => queue self
    end in
  let '(queue, buffer) := fill (max_content_size_bytes self) 0 queue0 (buffer self) in
  (buffer, {| queue := queue; max_content_size_bytes := max_content_size_bytes self;
              buffer := [] |}).

Lemma fill_counts max : forall q buf n,
  0 < struct_size < 2 ^ 63 -> 0 <= max < 2 ^ 63 ->
  Z.of_nat n = max / struct_size - Z.of_nat (length buf) ->
  fill max (struct_size * Z.of_nat (length buf)) q buf = (drop n q, buf ++ take n q).
Proof.
  induction q as [|p q IH]; intros buf n Hs Hm Hn.
  { simpl. rewrite drop_nil, take_nil, app_nil_r. done. }
  pose proof (Z.mul_div_le max struct_size ltac:(lia)) as Hdiv.
  pose proof (Z.mul_succ_div_gt max struct_size ltac:(lia)) as Hdiv'.
  cbn [fill]. destruct n as [|n].
  - assert (Heq : max / struct_size = Z.of_nat (length buf)) by lia. rewrite Heq in *.
    rewrite take_0, app_nil_r, wrap_u64_small by (unfold is_u64; lia).
    destruct (Z.ltb_spec (struct_size * Z.of_nat (length buf)) max); [|done].
    destruct (Z.ltb_spec max (struct_size * Z.of_nat (length buf) + struct_size)); [done|nia].
  - rewrite wrap_u64_small by (unfold is_u64; nia).
    destruct (Z.ltb_spec (struct_size * Z.of_nat (length buf)) max); [|nia].
    destruct (Z.ltb_spec max (struct_size * Z.of_nat (length buf) + struct_size)); [nia|].
    replace (struct_size * Z.of_nat (length buf) + struct_size)
      with (struct_size * Z.of_nat (length (push_back buf p)))
      by (unfold push_back; rewrite length_app; simpl; lia).
    rewrite (IH (push_back buf p) n Hs Hm).
    + unfold push_back. rewrite <- app_assoc. done.
    + unfold push_back. rewrite length_app. simpl. lia.
Qed.

Lemma get_batch_counts self flushed :
  buffer self = [] -> 0 < struct_size < 2 ^ 63 -> 0 <= max_content_size_bytes self < 2 ^ 63 ->
  let n := Z.to_nat (max_content_size_bytes self / struct_size) in
  let queued := match flushed with
                | inl (Some stats) => queue self ++ [stats]
                | _ => queue self
                end in
  get_batch self flushed =
    (take n queued,
     {| queue := drop n queued; max_content_size_bytes := max_content_size_bytes self;
        buffer := [] |}).
Proof.
  intros Hb Hs Hm n queued. unfold get_batch. rewrite Hb.
  replace 0 with (struct_size * Z.of_nat (length (@nil ClientStatsPayload))) by (simpl; lia).
  rewrite (fill_counts _ _ [] n).
  - unfold queued, push_back. by destruct flushed as [[|]|].
  - done.
  - done.
  - unfold n. rewrite Z2Nat.id by (apply Z.div_pos; lia). simpl. lia.
Qed.

(** A stats batch is limited by a number of payloads, not by their
    content: it holds the first [max / size_of::<ClientStatsPayload>()] queued
    payloads (those just flushed by the concentrator included), however large
    each of them is, and the rest stays queued in order. *)
Theorem stats_batch_is_a_count self flushed :
  buffer self = [] -> 0 < struct_size < 2 ^ 63 -> 0 <= max_content_size_bytes self < 2 ^ 63 ->
  let n := Z.to_nat (max_content_size_bytes self / struct_size) in
  let queued := match flushed with
                | inl (Some stats) => queue self ++ [stats]
                | _ => queue self
                end in
  get_batch self flushed =
    (take n queued,
     {| queue := drop n queued; max_content_size_bytes := max_content_size_bytes self;
        buffer := [] |}).
Proof. apply get_batch_counts. Qed.

End StatsAggregator.

Lemma stats_batch_is_a_count_witness :
  get_batch 300 (add (add (new 700) 1%nat) 2%nat) (inl (Some 3%nat))
  = ([1%nat; 2%nat], {| queue := [3%nat]; max_content_size_bytes := 700; buffer := [] |}).
Proof.
  apply (stats_batch_is_a_count 300 (add (add (new 700) 1%nat) 2%nat) (inl (Some 3%nat)));
    simpl; lia || done.
Defined.

End StatsAggregator.

(** * [traces/proxy_aggregator.rs] *)

Module ProxyAggregator.
Section ProxyAggregator.
Context {HeaderMap : Type}.

Record ProxyRequest := { headers : HeaderMap; body : bytes; target_url : string }.

Record t := { queue : list ProxyRequest }.

Definition default : t := {| queue := [] |}.
Definition add (self : t) (request : ProxyRequest) : t := {| queue := queue self ++ [request] |}.
Definition get_batch (self : t) : list ProxyRequest * t := (queue self, {| queue := [] |}).
Definition clear (self : t) : t := {| queue := [] |}.

End ProxyAggregator.
Arguments ProxyRequest : clear implicits.
Arguments t : clear implicits.
End ProxyAggregator.
