(* ===== verification/SpanDedup.v ===== *)
(** Span deduplication: [traces/span_dedup.rs] (a bounded cache of recently seen
    span keys with first-in first-out eviction) and the command loop that owns
    it, [traces/span_dedup_service.rs]. *)

From S2P Require Import Prelude.

Definition DEFAULT_CAPACITY : nat := 100.

Record DedupKey := { trace_id : Z; span_id : Z }.

Definition DedupKey_new (trace_id span_id : Z) : DedupKey :=
  {| trace_id := trace_id; span_id := span_id |}.

#[export] Instance DedupKey_eq_dec : EqDecision DedupKey.
Proof. solve_decision. Defined.

#[export] Instance DedupKey_countable : Countable DedupKey.
Proof.
  refine (inj_countable' (fun k => (trace_id k, span_id k))
            (fun p => {| trace_id := p.1; span_id := p.2 |}) _).
  by intros [].
Defined.

Module Deduper.

Record t := { seen : gset DedupKey; order : list DedupKey; capacity : nat }.

Definition new (capacity : nat) : t := {| seen := ∅; order := []; capacity := capacity |}.

Definition default : t := new DEFAULT_CAPACITY.

Definition check_and_add (self : t) (key : DedupKey) : bool * t :=
  if decide (key ∈ seen self) then (false, self)
  else
    let self :=
      if (capacity self <=? length (order self))%nat then
        match pop_front (order self) with
        | (Some oldest, order) =>
            {| seen := seen self ∖ {[oldest]}; order := order; capacity := capacity self |}
        | (None, _) => self
        end
      else self in
    (true, {| seen := {[key]} ∪ seen self; order := push_back (order self) key;
              capacity := capacity self |}).

(** The commands of [DedupService::run], each answered in turn. *)
Fixpoint run (self : t) (keys : list DedupKey) : list bool * t :=
  match keys with
  | [] => ([], self)
  | key :: rest =>
      let '(was_added, self) := check_and_add self key in
      let '(responses, self) := run self rest in
      (was_added :: responses, self)
  end.

Record wf (self : t) : Prop := {
  wf_seen : seen self = list_to_set (order self);
  wf_nodup : NoDup (order self);
  wf_length : (length (order self) <= Nat.max 1 (capacity self))%nat
}.

Lemma new_wf n : wf (new n).
Proof. split; simpl; [done|constructor|lia]. Qed.

(** The list the cache keeps after adding a key. *)
Definition evict (n : nat) (order : list DedupKey) : list DedupKey :=
  if (n <=? length order)%nat then tail order else order.

Lemma check_and_add_spec self key :
  wf self ->
  let '(added, self') := check_and_add self key in
  added = bool_decide (key ∉ order self) /\ wf self' /\ capacity self' = capacity self /\
  order self' = (if added then evict (capacity self) (order self) ++ [key] else order self).
Proof.
  intros [Hs Hnd Hlen]. unfold check_and_add.
  destruct (decide (key ∈ seen self)) as [Hin|Hnin].
  { rewrite Hs, elem_of_list_to_set in Hin.
    rewrite bool_decide_eq_false_2 by naive_solver. done. }
  rewrite Hs, elem_of_list_to_set in Hnin.
  rewrite bool_decide_eq_true_2 by done. unfold evict, push_back.
  destruct (capacity self <=? length (order self))%nat eqn:Hcap; bool_to_prop.
  - destruct (order self) as [|o os] eqn:Ho; simpl.
    + split_and!; [done|split; simpl; rewrite Ho; simpl; [|apply NoDup_singleton|lia]|done|
        by rewrite Ho].
      rewrite Hs. simpl. set_solver.
    + apply NoDup_cons in Hnd as [Hno Hnd]. apply not_elem_of_cons in Hnin as [Hne Hnin].
      split_and!; [done|split; simpl|done|done].
      * rewrite Hs, list_to_set_app_L. simpl. apply set_eq. intros x.
        destruct (decide (x = o)) as [->|]; set_solver.
      * apply NoDup_app. split_and!; [done|set_solver|apply NoDup_singleton].
      * rewrite length_app. simpl in *. lia.
  - split_and!; [done|split; simpl|done|done].
    + rewrite Hs, list_to_set_app_L. simpl. set_solver.
    + apply NoDup_app. split_and!; [done|set_solver|apply NoDup_singleton].
    + rewrite length_app. simpl in *. lia.
Qed.

(** The deduplicator always stays within its capacity and its set and
    queue describe the same keys without repetition: it answers [true] exactly
    for a key that is not cached, and [false] leaves it unchanged. *)
Theorem dedup_invariant self key :
  wf self ->
  wf (snd (check_and_add self key)) /\
  (length (order (snd (check_and_add self key))) <= Nat.max 1 (capacity self))%nat /\
  fst (check_and_add self key) = bool_decide (key ∉ seen self) /\
  key ∈ seen (snd (check_and_add self key)) /\
  (fst (check_and_add self key) = false -> snd (check_and_add self key) = self).
Proof.
  intros Hwf. pose proof (check_and_add_spec self key Hwf) as H.
  destruct (check_and_add self key) as [added self'] eqn:E. simpl.
  destruct H as (-> & Hwf' & Hcap & Ho). pose proof Hwf as [Hs _ _].
  pose proof Hwf' as [Hs' _ Hl']. split_and!; auto.
  - by rewrite <- Hcap.
  - apply bool_decide_ext. rewrite Hs, elem_of_list_to_set. done.
  - rewrite Hs', Ho, elem_of_list_to_set. case_bool_decide; set_solver.
  - intros Hf. unfold check_and_add in E. destruct (decide _); [congruence|].
    rewrite bool_decide_eq_false in Hf. rewrite Hs, elem_of_list_to_set in n. tauto.
Qed.

Lemma dedup_invariant_witness :
  wf (snd (check_and_add (new 2) (DedupKey_new 1 2))) /\
  fst (check_and_add (new 2) (DedupKey_new 1 2)) = true.
Proof.
  split; [apply (dedup_invariant (new 2) (DedupKey_new 1 2)), new_wf|reflexivity].
Defined.

(** ** Refinement: a sliding window over the keys added *)

(** The last [n] elements. *)
Definition last_n {A} (n : nat) (l : list A) : list A := drop (length l - n) l.

(** The specification: the history of the keys added, without any eviction; a
    key is a duplicate when it is one of the last [n] of them. *)
Fixpoint window_run (n : nat) (added keys : list DedupKey) : list bool * list DedupKey :=
  match keys with
  | [] => ([], added)
  | key :: rest =>
      let fresh := bool_decide (key ∉ last_n n added) in
      let '(rs, added) := window_run n (if fresh then added ++ [key] else added) rest in
      (fresh :: rs, added)
  end.

Lemma last_n_snoc (n : nat) (l : list DedupKey) k :
  (0 < n)%nat -> last_n n (l ++ [k]) = evict n (last_n n l) ++ [k].
Proof.
  intros Hn. unfold last_n, evict. rewrite length_app, length_drop. simpl.
  destruct (n <=? length l - (length l - n))%nat eqn:E; bool_to_prop.
  - replace (length l + 1 - n)%nat with (S (length l - n)) by lia.
    rewrite drop_app_le by lia. f_equal.
    replace (S (length l - n)) with (length l - n + 1)%nat by lia.
    rewrite <- drop_drop. by destruct (drop (length l - n) l).
  - replace (length l + 1 - n)%nat with 0%nat by lia.
    replace (length l - n)%nat with 0%nat by lia. done.
Qed.

Lemma last_n_step n (l : list DedupKey) order0 k :
  order0 = last_n (Nat.max 1 n) l ->
  evict n order0 ++ [k] = last_n (Nat.max 1 n) (l ++ [k]).
Proof.
  intros ->. rewrite last_n_snoc by lia. f_equal. unfold evict.
  destruct n as [|n]; [|done]. simpl. by destruct (last_n 1 l).
Qed.

(** C6: over any sequence of requests the service answers exactly as the
    sliding-window specification: a span is reported as new if and only if its
    key is not among the last [capacity] keys added. *)
Theorem dedup_refines_sliding_window keys : forall self added,
  wf self -> order self = last_n (Nat.max 1 (capacity self)) added ->
  fst (run self keys) = fst (window_run (Nat.max 1 (capacity self)) added keys).
Proof.
  induction keys as [|key keys IH]; intros self added Hwf Ho; [done|].
  cbn [run window_run]. pose proof (check_and_add_spec self key Hwf) as H.
  destruct (check_and_add self key) as [b self'] eqn:E.
  destruct H as (-> & Hwf' & Hcap & Ho'). rewrite <- Ho.
  assert (Hnext : order self' = last_n (Nat.max 1 (capacity self'))
            (if bool_decide (key ∉ order self) then added ++ [key] else added)).
  { rewrite Ho', Hcap. case_bool_decide; [by apply last_n_step|done]. }
  specialize (IH self' _ Hwf' Hnext). rewrite Hcap in IH.
  destruct (run self' keys), (window_run _ _ keys). simpl in *. by f_equal.
Qed.

Lemma dedup_refines_sliding_window_witness :
  let k i := DedupKey_new 0 i in
  fst (run (new 2) [k 1; k 2; k 1; k 3; k 1]) = [true; true; false; true; true] /\
  fst (run (new 2) [k 1; k 2; k 1; k 3; k 1])
    = fst (window_run 2 [] [k 1; k 2; k 1; k 3; k 1]).
Proof.
  intros k. split; [vm_compute; reflexivity|].
  apply (dedup_refines_sliding_window [k 1; k 2; k 1; k 3; k 1] (new 2) []);
    [apply new_wf|reflexivity].
Defined.

End Deduper.
