(* ===== verification/Wire.v ===== *)
(** Wire encodings of the Data Streams code: the protobuf varint and zigzag
    writers of [traces/data_streams/sketch.rs] and the varint and zigzag readers
    and the pathway context decoder of [traces/data_streams/context.rs].

    Bytes are [Z] in [0, 256). The readers are folds over the bytes with the
    code's [result] and [shift]; the writer's loop runs at most ten times on a
    [u64], which is the fuel [write_uvarint] gives it. *)
From S2P Require Import Prelude.

Definition is_byte (b : Z) : Prop := 0 <= b < 256.

(** * Writers (sketch.rs) *)

Fixpoint write_uvarint_loop (fuel : nat) (buf : list Z) (value : Z) : list Z :=
  match fuel with
  | O => buf
  | S fuel' =>
      let byte := Z.land value 0x7f in
      let value := Z.shiftr value 7 in
      let byte := if bool_decide (value = 0) then byte else Z.lor byte 0x80 in
      let buf := buf ++ [byte] in
      if bool_decide (value = 0) then buf else write_uvarint_loop fuel' buf value
  end.

Definition write_uvarint (buf : list Z) (value : Z) : list Z :=
  write_uvarint_loop 10 buf value.

Definition WIRE_VARINT : Z := 0.
Definition WIRE_FIXED64 : Z := 1.
Definition WIRE_LEN : Z := 2.

Definition write_tag (buf : list Z) (field wire : Z) : list Z :=
  write_uvarint buf (Z.lor (wrap_u32 (Z.shiftl field 3)) wire).

Definition write_zigzag32 (buf : list Z) (value : Z) : list Z :=
  let zz := wrap_u32 (Z.lxor (wrap_i32 (Z.shiftl value 1)) (Z.shiftr value 31)) in
  write_uvarint buf zz.

(** * Readers (context.rs) *)

Fixpoint decode_uvarint_from (result shift : Z) (bytes : list Z) : option (Z * list Z) :=
  match bytes with
  | [] => None
  | byte :: rest =>
      if 64 <=? shift then None
      else
        let payload := Z.land byte 0x7f in
        let result := Z.lor result (wrap_u64 (Z.shiftl payload shift)) in
        if Z.land byte 0x80 =? 0 then Some (result, rest)
        else decode_uvarint_from result (shift + 7) rest
  end.

Definition decode_uvarint (bytes : list Z) : option (Z * list Z) :=
  decode_uvarint_from 0 0 bytes.

Definition decode_zigzag_varint (bytes : list Z) : option (Z * list Z) :=
  '(raw, rest) ← decode_uvarint bytes;
  Some (Z.lxor (wrap_i64 (Z.shiftr raw 1)) (wrap_i64 (- Z.land raw 1)), rest).

Definition MS_TO_NS : Z := 1000000.

Definition ms_to_ns (ms : Z) : option Z :=
  ms ← u64_try_from ms; checked_mul_u64 ms MS_TO_NS.

Record DsmContext := {
  hash : list Z;
  pathway_start_ns : Z;
  edge_start_ns : Z;
}.

Definition from_bytes (bytes : list Z) : option DsmContext :=
  if (length bytes <? 8)%nat then None
  else
    let hash := take 8 bytes in
    '(pathway_start_ms, rest) ← decode_zigzag_varint (drop 8 bytes);
    '(edge_start_ms, _) ← decode_zigzag_varint rest;
    pathway_start_ns ← ms_to_ns pathway_start_ms;
    edge_start_ns ← ms_to_ns edge_start_ms;
    Some {| hash := hash;
            pathway_start_ns := pathway_start_ns;
            edge_start_ns := edge_start_ns |}.

(** Base64 decoding is the [base64] crate's [STANDARD] engine. *)
Definition from_base64 (STANDARD_decode : list Z -> option (list Z)) (input : list Z)
  : option DsmContext :=
  bytes ← STANDARD_decode input; from_bytes bytes.

(** * Reference values *)

(** The number a group sequence denotes in base 128, least significant first. *)
Fixpoint leb128 (groups : list Z) : Z :=
  match groups with
  | [] => 0
  | g :: gs => g + 128 * leb128 gs
  end.

(** A varint with the given groups: every group but the last carries the
    continuation bit. *)
Fixpoint varint_bytes (groups : list Z) : list Z :=
  match groups with
  | [] => []
  | [g] => [g]
  | g :: gs => (g + 128) :: varint_bytes gs
  end.

Definition is_group (g : Z) : Prop := 0 <= g < 128.

(** Zigzag numbering of the signed integers. *)
Definition zigzag (n : Z) : Z := if 0 <=? n then 2 * n else - 2 * n - 1.

(** The context as a tracer writes it. *)
Definition encode_context (hash : list Z) (pathway_start_ms edge_start_ms : Z) : list Z :=
  write_uvarint (write_uvarint hash (zigzag pathway_start_ms)) (zigzag edge_start_ms).

(** * Bits *)
Lemma land_127 z : Z.land z 0x7f = z mod 128.
Proof. apply (Z.land_ones z 7); lia. Qed.

Lemma lor_low a b n : 0 <= n -> 0 <= a < 2 ^ n -> Z.lor a (b * 2 ^ n) = a + b * 2 ^ n.
Proof.
  intros Hn Ha. rewrite <- Z.add_lor_land.
  enough (Z.land a (b * 2 ^ n) = 0) as -> by lia.
  rewrite <- (Z.mod_small a (2 ^ n)), <- Z.land_ones, <- Z.land_assoc by lia.
  rewrite (Z.land_comm (Z.ones n)), Z.land_ones, Z.mod_mul by lia. apply Z.land_0_r.
Qed.

Lemma land_128_low g : is_group g -> Z.land g 0x80 = 0.
Proof.
  intros Hg. rewrite <- (Z.mod_small g (2 ^ 7)), <- Z.land_ones, <- Z.land_assoc by
    (unfold is_group in Hg; lia). apply Z.land_0_r.
Qed.

Lemma lor_128 g : is_group g -> Z.lor g 0x80 = g + 128.
Proof. intros Hg. apply (lor_low g 1 7); unfold is_group in Hg; lia. Qed.

Lemma land_128_high g : is_group g -> Z.land (g + 128) 0x80 = 128.
Proof.
  intros Hg. rewrite <- lor_128, Z.land_lor_distr_l, land_128_low by done. reflexivity.
Qed.

(** * Varints *)
Lemma varint_bytes_cons g gs :
  gs <> [] -> varint_bytes (g :: gs) = (g + 128) :: varint_bytes gs.
Proof. by destruct gs. Qed.

Lemma write_uvarint_loop_S fuel buf value :
  write_uvarint_loop (S fuel) buf value =
    if bool_decide (value / 128 = 0) then buf ++ [value mod 128]
    else write_uvarint_loop fuel (buf ++ [Z.lor (value mod 128) 0x80]) (value / 128).
Proof.
  cbn [write_uvarint_loop]. rewrite land_127, Z.shiftr_div_pow2 by lia.
  change (2 ^ 7) with 128. by case_bool_decide.
Qed.

Lemma write_uvarint_loop_spec fuel : forall buf value,
  0 <= value < 128 ^ Z.of_nat (S fuel) ->
  exists gs, gs <> [] /\ Forall is_group gs /\ (length gs <= S fuel)%nat /\
    leb128 gs = value /\ write_uvarint_loop (S fuel) buf value = buf ++ varint_bytes gs.
Proof.
  induction fuel as [|fuel IH]; intros buf value Hv; rewrite write_uvarint_loop_S;
    pose proof (Z.mod_pos_bound value 128 ltac:(lia)) as Hm;
    pose proof (Z.div_mod value 128 ltac:(lia)) as Hd.
  - change (128 ^ Z.of_nat 1) with 128 in Hv.
    rewrite bool_decide_true by (apply Z.div_small; lia).
    exists [value mod 128].
    split_and!; [done|by repeat constructor; lia|simpl; lia| |done].
    cbn [leb128]. rewrite Z.mod_small by lia. lia.
  - case_bool_decide as Hz.
    + exists [value mod 128].
      split_and!; [done|by repeat constructor; lia|simpl; lia|cbn [leb128]; lia|done].
    + rewrite lor_128 by done.
      destruct (IH (buf ++ [value mod 128 + 128]) (value / 128)) as (gs & Hne & Hgs & Hl & Hval & Hw).
      { rewrite Nat2Z.inj_succ, Z.pow_succ_r in Hv by lia.
        split; [apply Z.div_pos; lia | apply Z.div_lt_upper_bound; lia]. }
      exists (value mod 128 :: gs). split_and!; [done|by constructor|simpl; lia|simpl; lia|].
      rewrite Hw, varint_bytes_cons by done. by rewrite <- app_assoc.
Qed.

Lemma write_uvarint_spec buf value :
  is_u64 value ->
  exists gs, gs <> [] /\ Forall is_group gs /\ (length gs <= 10)%nat /\
    leb128 gs = value /\ write_uvarint buf value = buf ++ varint_bytes gs.
Proof.
  intros Hv. apply (write_uvarint_loop_spec 9). unfold is_u64 in Hv.
  change (128 ^ Z.of_nat 10) with 1180591620717411303424. lia.
Qed.

Lemma shifted_group result p shift :
  0 <= shift < 64 -> 0 <= result < 2 ^ shift ->
  Z.lor result (wrap_u64 (Z.shiftl p shift)) = (result + p * 2 ^ shift) mod 2 ^ 64.
Proof.
  intros Hs Hr. rewrite Z.shiftl_mul_pow2 by lia. unfold wrap_u64.
  change (U64_MAX + 1) with (2 ^ 64) in *.
  replace (2 ^ 64) with (2 ^ (64 - shift) * 2 ^ shift)
    by (rewrite <- Z.pow_add_r by lia; f_equal; lia).
  assert (0 < 2 ^ (64 - shift)) as Hp by (apply Z.pow_pos_nonneg; lia).
  rewrite Z.mul_mod_distr_r by lia. rewrite lor_low by lia.
  pose proof (Z.mod_pos_bound p (2 ^ (64 - shift)) Hp).
  rewrite (Z.div_mod p (2 ^ (64 - shift))) at 2 by lia.
  rewrite (Z.add_comm (_ * (p / _))), Z.mul_add_distr_r, Z.add_assoc.
  replace (2 ^ (64 - shift) * (p / 2 ^ (64 - shift)) * 2 ^ shift)
    with ((p / 2 ^ (64 - shift)) * (2 ^ (64 - shift) * 2 ^ shift)) by lia.
  rewrite Z.mod_add by nia. symmetry. apply Z.mod_small. nia.
Qed.

Lemma decode_uvarint_from_groups gs : forall result shift rest,
  gs <> [] -> Forall is_group gs ->
  0 <= shift -> shift + 7 * Z.of_nat (length gs) <= 70 -> 0 <= result < 2 ^ shift ->
  decode_uvarint_from result shift (varint_bytes gs ++ rest) =
    Some ((result + leb128 gs * 2 ^ shift) mod 2 ^ 64, rest).
Proof.
  induction gs as [|g gs IH]; intros result shift rest Hne Hgs Hs Hl Hr; [done|].
  apply Forall_cons in Hgs as [Hg Hgs]. simpl in Hl.
  destruct (decide (gs = [])) as [->|Hne'].
  - simpl. rewrite (proj2 (Z.leb_gt 64 shift)) by (simpl in Hl; lia).
    rewrite land_128_low, land_127, shifted_group by (done || simpl in Hl; lia).
    rewrite (Z.mod_small g) by done. by rewrite Z.add_0_r.
  - assert (0 < Z.of_nat (length gs)) by (destruct gs; [done|simpl; lia]).
    rewrite varint_bytes_cons by done. cbn [app decode_uvarint_from].
    rewrite (proj2 (Z.leb_gt 64 shift)) by lia.
    rewrite land_128_high, land_127, shifted_group by (done || lia). cbn [Z.eqb].
    replace ((g + 128) mod 128) with g.
    2:{ replace (g + 128) with (g + 1 * 128) by lia. rewrite Z.mod_add by lia.
        symmetry. by apply Z.mod_small. }
    assert (0 <= result + g * 2 ^ shift < 2 ^ (shift + 7)) as Hb.
    { rewrite Z.pow_add_r by lia. unfold is_group in Hg. change (2 ^ 7) with 128. nia. }
    assert (2 ^ (shift + 7) <= 2 ^ 64) by (apply Z.pow_le_mono_r; lia).
    rewrite Z.mod_small by lia. rewrite IH by (done || lia).
    do 3 f_equal. cbn [leb128]. rewrite Z.pow_add_r by lia. change (2 ^ 7) with 128. lia.
Qed.

Lemma decode_uvarint_from_inv bytes : forall result shift v rest,
  Forall is_byte bytes -> decode_uvarint_from result shift bytes = Some (v, rest) ->
  exists gs, gs <> [] /\ Forall is_group gs /\ bytes = varint_bytes gs ++ rest /\
    shift + 7 * Z.of_nat (length gs) < 71.
Proof.
  induction bytes as [|byte bytes IH]; intros result shift v rest Hb Hd; [done|].
  apply Forall_cons in Hb as [Hbyte Hb]. cbn [decode_uvarint_from] in Hd.
  destruct (Z.leb_spec 64 shift) as [|Hs]; [done|].
  destruct (Z.lt_ge_cases byte 128) as [Hlow|Hhigh].
  - rewrite land_128_low in Hd by (unfold is_group, is_byte in *; lia).
    cbn [Z.eqb] in Hd. injection Hd as _ <-. exists [byte].
    split_and!; [done| |done|simpl; lia]. repeat constructor; unfold is_byte in *; lia.
  - assert (is_group (byte - 128)) as Hg by (unfold is_group, is_byte in *; lia).
    pose proof (land_128_high _ Hg) as Hc. rewrite Z.sub_add in Hc. rewrite Hc in Hd.
    cbn [Z.eqb] in Hd. apply IH in Hd as (gs & Hne & Hgs & -> & Hl); [|done].
    exists (byte - 128 :: gs). split_and!; [done|by constructor| |simpl; lia].
    rewrite varint_bytes_cons by done. cbn [app]. f_equal. lia.
Qed.

Lemma decode_uvarint_from_app bytes more : forall result shift v rest,
  decode_uvarint_from result shift bytes = Some (v, rest) ->
  decode_uvarint_from result shift (bytes ++ more) = Some (v, rest ++ more).
Proof.
  induction bytes as [|byte bytes IH]; intros result shift v rest; [done|].
  cbn [app decode_uvarint_from]. destruct (64 <=? shift); [done|].
  destruct (_ =? 0); [by intros [= <- <-]|]. apply IH.
Qed.

Lemma write_decode_uvarint buf value rest :
  is_u64 value ->
  exists enc, write_uvarint buf value = buf ++ enc /\
    decode_uvarint (enc ++ rest) = Some (value, rest).
Proof.
  intros Hv. destruct (write_uvarint_spec buf value Hv) as (gs & Hne & Hgs & Hl & Hval & Hw).
  exists (varint_bytes gs). split; [done|].
  unfold decode_uvarint. rewrite decode_uvarint_from_groups by (done || lia).
  rewrite Hval. do 2 f_equal. rewrite Z.mul_1_r. by apply Z.mod_small.
Qed.

Lemma write_uvarint_loop_app fuel : forall buf value,
  write_uvarint_loop fuel buf value = buf ++ write_uvarint_loop fuel [] value.
Proof.
  induction fuel as [|fuel IH]; intros buf value; [by rewrite app_nil_r|].
  rewrite !write_uvarint_loop_S. case_bool_decide; [done|].
  rewrite IH, (IH ([] ++ _)). by rewrite <- app_assoc.
Qed.

Lemma write_uvarint_app buf value : write_uvarint buf value = buf ++ write_uvarint [] value.
Proof. apply write_uvarint_loop_app. Qed.

Lemma length_varint_bytes gs : length (varint_bytes gs) = length gs.
Proof.
  induction gs as [|g gs IH]; [done|]. destruct gs; [done|].
  rewrite varint_bytes_cons by done. simpl in *. lia.
Qed.

Lemma length_write_uvarint value : is_u64 value -> (length (write_uvarint [] value) <= 10)%nat.
Proof.
  intros Hv. destruct (write_uvarint_spec [] value Hv) as (gs & _ & _ & Hl & _ & ->).
  by rewrite app_nil_l, length_varint_bytes.
Qed.

Lemma decode_write_uvarint value rest :
  is_u64 value -> decode_uvarint (write_uvarint [] value ++ rest) = Some (value, rest).
Proof. intros Hv. by destruct (write_decode_uvarint [] value rest Hv) as (enc & -> & Hd). Qed.

(** * Zigzag *)
Lemma zigzag_range n : is_i64 n -> is_u64 (zigzag n).
Proof. unfold is_i64, is_u64, zigzag. case_match; lia. Qed.

Lemma zigzag_decode n :
  is_i64 n ->
  Z.lxor (wrap_i64 (Z.shiftr (zigzag n) 1)) (wrap_i64 (- Z.land (zigzag n) 1)) = n.
Proof.
  intros Hn. rewrite Z.shiftr_div_pow2, (Z.land_ones _ 1) by lia. change (2 ^ 1) with 2.
  unfold is_i64 in Hn. unfold zigzag. destruct (Z.leb_spec 0 n).
  - rewrite (Z.mul_comm 2), Z.div_mul, Z.mod_mul by lia.
    rewrite !wrap_i64_small by (unfold is_i64; lia). apply Z.lxor_0_r.
  - replace (-2 * n - 1) with (1 + (- n - 1) * 2) by lia.
    rewrite Z.div_add, Z.mod_add by lia. change (1 / 2) with 0. change (1 mod 2) with 1.
    rewrite !wrap_i64_small by (unfold is_i64; lia).
    change (- (1)) with (-1). rewrite Z.lxor_m1_r. unfold Z.lnot. lia.
Qed.

Lemma write_zigzag32_spec buf value :
  is_i32 value -> write_zigzag32 buf value = write_uvarint buf (zigzag value).
Proof.
  intros Hv. unfold write_zigzag32. f_equal. unfold is_i32 in Hv.
  rewrite Z.shiftl_mul_pow2, Z.shiftr_div_pow2 by lia. change (2 ^ 1) with 2.
  unfold wrap_u32, zigzag. destruct (Z.leb_spec 0 value).
  - rewrite Z.div_small, Z.lxor_0_r by lia. unfold wrap_i32.
    rewrite Zminus_mod_idemp_l, Z.add_simpl_r, Z.mod_small; lia.
  - replace (value / 2 ^ 31) with (-1) by (apply Z.div_unique with (value + 2 ^ 31); lia).
    rewrite Z.lxor_m1_r. unfold Z.lnot, wrap_i32.
    replace (Z.pred _) with ((-1 + 2 ^ 31) - (value * 2 + 2 ^ 31) mod 2 ^ 32) by lia.
    rewrite Zminus_mod_idemp_r, Z.mod_small; lia.
Qed.

Lemma decode_zigzag_write buf n rest :
  is_i64 n ->
  exists enc, write_uvarint buf (zigzag n) = buf ++ enc /\
    decode_zigzag_varint (enc ++ rest) = Some (n, rest).
Proof.
  intros Hn. destruct (write_decode_uvarint buf (zigzag n) rest) as (enc & Hw & Hd);
    [by apply zigzag_range|].
  exists enc. split; [done|]. unfold decode_zigzag_varint. rewrite Hd. simpl.
  by rewrite zigzag_decode.
Qed.

Lemma decode_zigzag_app bytes more v rest :
  decode_zigzag_varint bytes = Some (v, rest) ->
  decode_zigzag_varint (bytes ++ more) = Some (v, rest ++ more).
Proof.
  unfold decode_zigzag_varint. destruct (decode_uvarint bytes) as [[raw r]|] eqn:Hd; [|done].
  unfold decode_uvarint in *. rewrite (decode_uvarint_from_app _ more _ _ _ _ Hd). simpl.
  by intros [= <- <-].
Qed.

Lemma from_bytes_prefix bytes more c :
  from_bytes bytes = Some c ->
  exists p e r1 r2, decode_zigzag_varint (drop 8 bytes ++ more) = Some (p, r1 ++ more) /\
    decode_zigzag_varint (r1 ++ more) = Some (e, r2 ++ more).
Proof.
  unfold from_bytes. destruct (_ <? _)%nat; [done|].
  destruct (decode_zigzag_varint (drop 8 bytes)) as [[p r1]|] eqn:Hp; [|done]. simpl.
  destruct (decode_zigzag_varint r1) as [[e r2]|] eqn:He; [|done]. intros _.
  exists p, e, r1, r2. by eauto using decode_zigzag_app.
Qed.

Lemma ms_to_ns_spec ms ns :
  ms_to_ns ms = Some ns -> ns = ms * MS_TO_NS /\ is_u64 ns.
Proof.
  unfold ms_to_ns, u64_try_from, checked_mul_u64, is_u64, U64_MAX, MS_TO_NS.
  destruct (ms <? 0) eqn:Hs; simpl; [done|]. case_match; [|done]. intros [= <-].
  bool_to_prop. lia.
Qed.

(** * The properties *)

(** [decode_uvarint] is exactly LEB128 modulo [2^64]: it answers on a byte
    string precisely when the string starts with one to ten groups closed by a
    byte without the continuation bit, and the answer is the low 64 bits of the
    number they denote. In particular a tenth group above one is accepted and
    its high bits are lost, where the function's documentation announces
    [None] for a varint that overflows. *)
Theorem uvarint_decodes_mod_2_64 bytes v rest :
  Forall is_byte bytes ->
  decode_uvarint bytes = Some (v, rest) <->
  exists groups, groups <> [] /\ Forall is_group groups /\ (length groups <= 10)%nat /\
    bytes = varint_bytes groups ++ rest /\ v = leb128 groups mod 2 ^ 64.
Proof.
  intros Hb. unfold decode_uvarint. split.
  - intros Hd. destruct (decode_uvarint_from_inv _ _ _ _ _ Hb Hd) as (gs & Hne & Hgs & -> & Hl).
    rewrite decode_uvarint_from_groups in Hd by (done || lia). injection Hd as <-.
    exists gs. split_and!; auto; [lia|]. f_equal. lia.
  - intros (gs & Hne & Hgs & Hl & -> & ->).
    rewrite decode_uvarint_from_groups by (done || lia). do 3 f_equal. lia.
Qed.

(** The ten bytes [ff*9 7f] denote more than [2^64 - 1] and are accepted. *)
Lemma uvarint_decodes_mod_2_64_witness :
  2 ^ 64 <= leb128 (replicate 10 127) /\
  decode_uvarint (varint_bytes (replicate 10 127)) = Some (U64_MAX, []).
Proof.
  split; [by vm_compute|].
  apply uvarint_decodes_mod_2_64; [by repeat (apply Forall_cons; split; [done|])|].
  exists (replicate 10 127). split_and!; [done| |done|by vm_compute|by vm_compute].
  by repeat (apply Forall_cons; split; [done|]).
Defined.

(** The pathway context survives the wire: a context written with the
    varint writer and the zigzag numbering is decoded to its hash and to its
    two times in nanoseconds, whatever follows it, as long as the times fit
    [u64] nanoseconds. *)
Theorem context_roundtrip h p e rest :
  length h = 8%nat -> 0 <= p * MS_TO_NS < 2 ^ 64 -> 0 <= e * MS_TO_NS < 2 ^ 64 ->
  from_bytes (encode_context h p e ++ rest) =
    Some {| hash := h; pathway_start_ns := p * MS_TO_NS; edge_start_ns := e * MS_TO_NS |}.
Proof.
  intros Hh Hp He. unfold MS_TO_NS in Hp, He. unfold encode_context.
  destruct (decode_zigzag_write (write_uvarint h (zigzag p)) e rest) as (enc_e & -> & Hde);
    [unfold is_i64; lia|].
  destruct (decode_zigzag_write h p (enc_e ++ rest)) as (enc_p & -> & Hdp);
    [unfold is_i64; lia|].
  unfold from_bytes. rewrite !length_app, Hh. cbn [Nat.add Nat.ltb Nat.leb].
  rewrite <- !app_assoc, drop_app_length', take_app_length' by done. rewrite Hdp. simpl.
  rewrite Hde. simpl. unfold ms_to_ns, u64_try_from, checked_mul_u64, U64_MAX, MS_TO_NS.
  repeat (case_match; simpl; try lia). done.
Qed.

Lemma context_roundtrip_witness :
  from_bytes (encode_context [1; 2; 3; 4; 5; 6; 7; 8] 1700000000000 1700000000123) =
    Some {| hash := [1; 2; 3; 4; 5; 6; 7; 8];
            pathway_start_ns := 1700000000000000000; edge_start_ns := 1700000000123000000 |}.
Proof.
  pose proof (context_roundtrip [1; 2; 3; 4; 5; 6; 7; 8] 1700000000000 1700000000123 []
    eq_refl ltac:(vm_compute; split; congruence) ltac:(vm_compute; split; congruence)) as H.
  by rewrite app_nil_r in H.
Defined.

(** Decoding fails closed: every strict prefix of a written context is
    rejected, and an accepted byte string starts with the eight bytes of the
    hash and carries two times that are whole milliseconds within [u64]. *)
Theorem context_fails_closed :
  (forall h p e k, length h = 8%nat -> is_i64 p -> is_i64 e ->
     (k < length (encode_context h p e))%nat ->
     from_bytes (take k (encode_context h p e)) = None) /\
  (forall bytes c, from_bytes bytes = Some c ->
     hash c = take 8 bytes /\ length (hash c) = 8%nat /\
     is_u64 (pathway_start_ns c) /\ is_u64 (edge_start_ns c) /\
     (MS_TO_NS | pathway_start_ns c) /\ (MS_TO_NS | edge_start_ns c)).
Proof.
  split.
  - intros h p e k Hh Hp He Hk.
    destruct (from_bytes (take k _)) as [c|] eqn:Hf; [exfalso|done].
    assert (8 <= k)%nat as H8.
    { apply Nat.nlt_ge. intros Hlt. unfold from_bytes in Hf.
      rewrite length_take_le, (proj2 (Nat.ltb_lt k 8)) in Hf by lia. done. }
    apply (from_bytes_prefix _ (drop k (encode_context h p e)))
      in Hf as (p' & e' & r1 & r2 & Hd1 & Hd2).
    rewrite <- drop_app_le, take_drop in Hd1 by (rewrite length_take; lia).
    revert Hd1 Hk Hd2. unfold encode_context.
    destruct (decode_zigzag_write (write_uvarint h (zigzag p)) e []) as (enc_e & -> & Hde);
      [done|].
    destruct (decode_zigzag_write h p enc_e) as (enc_p & -> & Hdp); [done|].
    rewrite <- app_assoc, drop_app_length' by done. rewrite Hdp. intros [= _ Hr] Hk Hd2.
    rewrite app_nil_r in Hde. rewrite <- Hr, Hde in Hd2. injection Hd2 as _ Hnil.
    symmetry in Hnil. apply app_eq_nil in Hnil as [_ Hnil].
    apply (f_equal length) in Hnil. rewrite length_drop in Hnil. simpl in Hnil. lia.
  - intros bytes c. unfold from_bytes. destruct (Nat.ltb_spec (length bytes) 8); [done|].
    destruct (decode_zigzag_varint (drop 8 bytes)) as [[p r1]|]; [|done]. simpl.
    destruct (decode_zigzag_varint r1) as [[e r2]|]; [|done]. simpl.
    destruct (ms_to_ns p) as [pn|] eqn:Hp; [|done]. simpl.
    destruct (ms_to_ns e) as [en|] eqn:He; [|done]. intros [= <-]. simpl.
    apply ms_to_ns_spec in Hp as [-> Hp], He as [-> He].
    split_and!; [done|rewrite length_take; lia|done|done|apply Z.divide_factor_r..].
Qed.

Lemma context_fails_closed_witness :
  from_bytes (take 13 (encode_context [1; 2; 3; 4; 5; 6; 7; 8] 1700000000000 1700000000123)) = None
  /\ from_bytes (encode_context [1; 2; 3; 4; 5; 6; 7; 8] (-1) 5) = None.
Proof.
  split; [|by vm_compute].
  apply (proj1 context_fails_closed); [done|unfold is_i64; lia|unfold is_i64; lia|].
  by apply Nat.ltb_lt; vm_compute.
Defined.

(** The signed bin index a sketch writes is read back unchanged by the
    zigzag reader, for every [i32]. *)
Theorem zigzag32_roundtrip value rest :
  is_i32 value ->
  decode_zigzag_varint (write_zigzag32 [] value ++ rest) = Some (value, rest).
Proof.
  intros Hv. rewrite write_zigzag32_spec by done.
  destruct (decode_zigzag_write [] value rest) as (enc & -> & Hd); [|done].
  unfold is_i32, is_i64 in *. lia.
Qed.

Lemma zigzag32_roundtrip_witness :
  decode_zigzag_varint (write_zigzag32 [] (-2147483648) ++ [7]) = Some (-2147483648, [7]).
Proof. apply zigzag32_roundtrip. unfold is_i32. lia. Defined.
