(* ===== verification/Sketch.v ===== *)
(** The sketch of the Data Streams latencies: [traces/data_streams/sketch.rs].

    [CollapsingLowestDenseStore] is the dense store of at most [BIN_LIMIT] bins
    whose lowest bins are merged when the keys spread too far; [DdSketch] sends a
    value to the store of its sign and [to_proto_bytes] writes the sketch in the
    protobuf wire format.

    Keys, offsets and lengths are [i32] with their wrap-around; indexing and
    slicing a [Vec] out of range is [Panic]; bins hold [f64] weights. [log2] and
    [ln_1p] are the platform's, whose precision the language leaves open, so they
    are arguments of the mapping. *)
From S2P Require Import Prelude F64 Wire.
From Stdlib Require Import SpecFloat.

Definition BIN_LIMIT : Z := 2048.
Definition CHUNK_SIZE : Z := 128.

(** [x as usize] of an [i32]: sign extension. *)
Definition usize_of_i32 (x : Z) : Z := wrap_u64 x.

(** [v[i]] on [Vec<f64>] with a [usize] index, as an index of the list. *)
Definition in_bounds {A} (v : list A) (i : Z) : outcome nat :=
  if (0 <=? i) && (i <? Z.of_nat (length v)) then Done (Z.to_nat i) else Panic.

Module Store.

Record t := {
  bins : list f64;
  count : f64;
  min_key : Z;
  max_key : Z;
  offset : Z;
  is_collapsed : bool;
}.

Definition new : t :=
  {| bins := []; count := f64_zero; min_key := I32_MAX; max_key := I32_MIN;
     offset := 0; is_collapsed := false |}.

Definition set_bins (self : t) (b : list f64) : t :=
  {| bins := b; count := count self; min_key := min_key self; max_key := max_key self;
     offset := offset self; is_collapsed := is_collapsed self |}.
Definition set_offset (self : t) (o : Z) : t :=
  {| bins := bins self; count := count self; min_key := min_key self; max_key := max_key self;
     offset := o; is_collapsed := is_collapsed self |}.
Definition set_min_key (self : t) (k : Z) : t :=
  {| bins := bins self; count := count self; min_key := k; max_key := max_key self;
     offset := offset self; is_collapsed := is_collapsed self |}.
Definition set_max_key (self : t) (k : Z) : t :=
  {| bins := bins self; count := count self; min_key := min_key self; max_key := k;
     offset := offset self; is_collapsed := is_collapsed self |}.
Definition set_collapsed (self : t) : t :=
  {| bins := bins self; count := count self; min_key := min_key self; max_key := max_key self;
     offset := offset self; is_collapsed := true |}.
Definition set_count (self : t) (c : f64) : t :=
  {| bins := bins self; count := c; min_key := min_key self; max_key := max_key self;
     offset := offset self; is_collapsed := is_collapsed self |}.

Definition len (self : t) : Z := Z.of_nat (length (bins self)).

Definition length_ (self : t) : Z := if len self <=? I32_MAX then len self else I32_MAX.

Definition get_new_length (new_min new_max : Z) : Z :=
  let desired := wrap_i64 (wrap_i64 (new_max - new_min) + 1) in
  let chunks := Z.quot (desired + CHUNK_SIZE - 1) CHUNK_SIZE in
  let len := Z.min (CHUNK_SIZE * chunks) BIN_LIMIT in
  if len <? 0 then 0 else len.

(** [vec![0.0; n]] and the zeros [resize] appends. *)
Definition zeros (n : Z) : list f64 := replicate (Z.to_nat n) f64_zero.

Definition shift_bins (self : t) (shift : Z) : outcome t :=
  self ← (if 0 <? shift then
            let s := usize_of_i32 shift in
            let keep := wrap_u64 (len self - s) in
            if keep <=? len self
            then Done (set_bins self (zeros s ++ take (Z.to_nat keep) (bins self)))
            else Panic
          else if shift <? 0 then
            let a := usize_of_i32 (wrap_i32 (- shift)) in
            if a <=? len self
            then Done (set_bins self (drop (Z.to_nat a) (bins self) ++ zeros a))
            else Panic
          else Done self);
  Done (set_offset self (wrap_i32 (offset self - shift))).

Definition center_bins (self : t) (new_min new_max : Z) : outcome t :=
  let middle_key :=
    wrap_i32 (new_min + Z.quot (wrap_i32 (wrap_i32 (new_max - new_min) + 1)) 2) in
  let shift := wrap_i32 (wrap_i32 (offset self + Z.quot (length_ self) 2) - middle_key) in
  shift_bins self shift.

(** [bins[n..=r].iter().sum()]. *)
Definition sum_bins (b : list f64) (n r : nat) : f64 :=
  foldl fadd f64_zero (take (S r - n) (drop n b)).

(** [bins[n..r]] set to zero. *)
Definition clear_bins (b : list f64) (n r : nat) : list f64 :=
  take n b ++ replicate (r - n) f64_zero ++ drop r b.

Definition adjust (self : t) (new_min new_max : Z) : outcome t :=
  if length_ self <? wrap_i32 (wrap_i32 (new_max - new_min) + 1) then
    let collapse_min := wrap_i32 (wrap_i32 (new_max - length_ self) + 1) in
    self ← (if max_key self <=? collapse_min then
              let self := set_min_key (set_offset self collapse_min) collapse_min in
              let b := replicate (length (bins self)) f64_zero in
              b ← vec_store b 0 (count self);
              Done (set_bins self b)
            else
              let shift := wrap_i32 (offset self - collapse_min) in
              if shift <? 0 then
                let n := usize_of_i32 (wrap_i32 (min_key self - offset self)) in
                let r := usize_of_i32 (wrap_i32 (collapse_min - offset self)) in
                if (r <? len self) && (n <=? r + 1) then
                  let s := sum_bins (bins self) (Z.to_nat n) (Z.to_nat r) in
                  if n <=? r then
                    let b := clear_bins (bins self) (Z.to_nat n) (Z.to_nat r) in
                    v ← vec_index b (Z.to_nat r);
                    b ← vec_store b (Z.to_nat r) (fadd v s);
                    let self := set_min_key (set_bins self b) collapse_min in
                    shift_bins self shift
                  else Panic
                else Panic
              else
                let self := set_min_key self collapse_min in
                shift_bins self shift);
    Done (set_collapsed (set_max_key self new_max))
  else
    self ← center_bins self new_min new_max;
    Done (set_max_key (set_min_key self new_min) new_max).

Definition extend_range (self : t) (key key2 : Z) : outcome t :=
  let new_min := Z.min (Z.min key key2) (min_key self) in
  let new_max := Z.max (Z.max key key2) (max_key self) in
  if bool_decide (bins self = []) then
    let self := set_offset (set_bins self (zeros (get_new_length new_min new_max))) new_min in
    adjust self new_min new_max
  else if (min_key self <=? new_min) && (new_max <? wrap_i32 (offset self + length_ self)) then
    Done (set_max_key (set_min_key self new_min) new_max)
  else
    let new_length := get_new_length new_min new_max in
    let self :=
      if len self <? new_length
      then set_bins self (bins self ++ zeros (new_length - len self)) else self in
    adjust self new_min new_max.

Definition get_index (self : t) (key : Z) : outcome (Z * t) :=
  if key <? min_key self then
    if is_collapsed self then Done (0, self)
    else
      self ← extend_range self key key;
      if is_collapsed self then Done (0, self)
      else Done (usize_of_i32 (wrap_i32 (key - offset self)), self)
  else
    self ← (if max_key self <? key then extend_range self key key else Done self);
    Done (usize_of_i32 (wrap_i32 (key - offset self)), self).

Definition add (self : t) (key : Z) (weight : f64) : outcome t :=
  '(idx, self) ← get_index self key;
  i ← in_bounds (bins self) idx;
  v ← vec_index (bins self) i;
  b ← vec_store (bins self) i (fadd v weight);
  Done (set_count (set_bins self b) (fadd (count self) weight)).

(** Adding a sequence of keys with weight one, as [accept] does. *)
Fixpoint add_keys (self : t) (keys : list Z) : outcome t :=
  match keys with
  | [] => Done self
  | k :: ks => self ← add self k f64_one; add_keys self ks
  end.

(** * Shape of the store *)

(** Keys of finite [f64] inputs lie in about [-35500, 35500]; the theorems allow
    far more. *)
Definition KEY_BOUND : Z := 2 ^ 20.
Definition key_ok (k : Z) : Prop := - KEY_BOUND <= k <= KEY_BOUND.

(** A store that holds at least one key. *)
Record live (self : t) : Prop := {
  live_len : 0 < len self <= BIN_LIMIT;
  live_low : offset self <= min_key self;
  live_order : min_key self <= max_key self;
  live_high : max_key self < offset self + len self;
  live_max : key_ok (max_key self);
  live_min : key_ok (min_key self);
  live_collapsed : is_collapsed self = true ->
    offset self = min_key self /\ max_key self = offset self + len self - 1 /\ len self = BIN_LIMIT;
}.

Definition wf (self : t) : Prop := self = new \/ live self.

(** The weight the store holds for a key: zero outside its window. *)
Definition cell (self : t) (k : Z) : f64 :=
  if offset self <=? k then default f64_zero (bins self !! Z.to_nat (k - offset self))
  else f64_zero.

Definition in_window (self : t) (k : Z) : Prop := offset self <= k < offset self + len self.

Ltac widths :=
  unfold key_ok, KEY_BOUND, BIN_LIMIT, CHUNK_SIZE, usize_of_i32 in *;
  repeat match goal with
  | |- context [wrap_i32 ?x] => rewrite (wrap_i32_small x) by (unfold is_i32; lia)
  | |- context [wrap_i64 ?x] => rewrite (wrap_i64_small x) by (unfold is_i64; lia)
  | |- context [wrap_u64 ?x] => rewrite (wrap_u64_small x) by (unfold is_u64; lia)
  end.

Lemma length__small self : len self <= BIN_LIMIT -> length_ self = len self.
Proof. unfold length_, BIN_LIMIT, I32_MAX. intros. rewrite (proj2 (Z.leb_le _ _)); lia. Qed.

Lemma len_zeros n : 0 <= n -> Z.of_nat (length (zeros n)) = n.
Proof. intros. unfold zeros. rewrite length_replicate. lia. Qed.

Lemma zeros_lookup n i : default f64_zero (zeros n !! i) = f64_zero.
Proof.
  unfold zeros. destruct (_ !! _) as [v|] eqn:Hv; [|done].
  by apply lookup_replicate in Hv as [-> _].
Qed.

Lemma cell_eq self self' k :
  offset self <= k -> offset self' <= k ->
  bins self' !! Z.to_nat (k - offset self') = bins self !! Z.to_nat (k - offset self) ->
  cell self' k = cell self k.
Proof.
  intros H1 H2 Hb. unfold cell. rewrite !(proj2 (Z.leb_le _ _)) by lia. by rewrite Hb.
Qed.

(** What stays when the window moves. *)
Record same_store (self self' : t) : Prop := {
  ss_len : len self' = len self;
  ss_count : count self' = count self;
  ss_min : min_key self' = min_key self;
  ss_max : max_key self' = max_key self;
  ss_collapsed : is_collapsed self' = is_collapsed self;
}.

Lemma moved_window self b o :
  length b = length (bins self) ->
  (forall k, o <= k < o + len self -> default f64_zero (b !! Z.to_nat (k - o)) = cell self k) ->
  let self' := set_offset (set_bins self b) o in
  same_store self self' /\ offset self' = o /\
  (forall k, in_window self' k -> cell self' k = cell self k).
Proof.
  intros Hlen Hb self'. assert (len self' = len self) as Hl by (unfold len; simpl; lia).
  split_and!; [by constructor|done|]. intros k Hk. unfold in_window in Hk. rewrite Hl in Hk.
  simpl in Hk. unfold cell at 1. simpl. rewrite (proj2 (Z.leb_le _ _)) by lia. by apply Hb.
Qed.

Lemma shift_bins_spec self shift :
  len self <= BIN_LIMIT -> - len self <= shift <= len self ->
  - 2 ^ 30 <= offset self <= 2 ^ 30 ->
  exists self', shift_bins self shift = Done self' /\ same_store self self' /\
    offset self' = offset self - shift /\
    (forall k, in_window self' k -> cell self' k = cell self k).
Proof.
  intros Hl Hs Ho. unfold shift_bins. widths.
  destruct (Z.ltb_spec 0 shift); [|destruct (Z.ltb_spec shift 0)]; cbn [mbind outcome_mbind outcome_bind].
  - widths. rewrite (proj2 (Z.leb_le _ _)) by lia. cbn. widths.
    eexists. split; [done|]. apply moved_window.
    { unfold len in *. rewrite length_app, length_take. unfold zeros.
      rewrite length_replicate. lia. }
    intros k Hk. unfold cell, zeros. destruct (Z.leb_spec (offset self) k).
    + rewrite lookup_app_r; rewrite length_replicate; [|lia].
      rewrite lookup_take_lt by lia. do 3 f_equal. lia.
    + rewrite lookup_app_l by (rewrite length_replicate; lia).
      rewrite lookup_replicate_2 by lia. done.
  - widths. rewrite (proj2 (Z.leb_le _ _)) by lia. cbn. widths.
    eexists. split; [done|]. apply moved_window.
    { unfold len in *. rewrite length_app, length_drop. unfold zeros.
      rewrite length_replicate. lia. }
    intros k Hk. unfold cell, zeros. rewrite (proj2 (Z.leb_le _ _)) by lia.
    destruct (Z.lt_ge_cases (k - offset self) (len self)).
    + rewrite lookup_app_l by (unfold len in *; rewrite length_drop; lia).
      rewrite lookup_drop. do 3 f_equal. lia.
    + rewrite (lookup_ge_None_2 (bins self)) by (unfold len in *; lia).
      rewrite lookup_app_r by (unfold len in *; rewrite length_drop; lia).
      rewrite lookup_replicate_2; [done|]. unfold len in *; rewrite length_drop; lia.
  - cbn. replace shift with 0 by lia. widths. eexists. split; [done|].
    apply (moved_window self (bins self)); [done|]. intros k Hk. unfold cell.
    rewrite (proj2 (Z.leb_le _ _)) by lia. do 3 f_equal. lia.
Qed.

(** [adjust] when the keys fit the bins: the window moves so that it holds them
    all, and no weight moves. *)
Lemma adjust_centers self new_min new_max :
  len self <= BIN_LIMIT -> key_ok new_min -> key_ok new_max ->
  new_min <= new_max -> new_max - new_min + 1 <= len self ->
  offset self <= new_max -> new_min < offset self + len self ->
  exists self', adjust self new_min new_max = Done self' /\
    len self' = len self /\ count self' = count self /\
    is_collapsed self' = is_collapsed self /\
    min_key self' = new_min /\ max_key self' = new_max /\
    offset self' <= new_min /\ new_max < offset self' + len self' /\
    (forall k, in_window self' k -> cell self' k = cell self k).
Proof.
  intros Hl Hmin Hmax Hle Hfit Ho1 Ho2. unfold adjust, center_bins.
  rewrite length__small by done. widths. rewrite (proj2 (Z.ltb_ge _ _)) by lia.
  rewrite !Z.quot_div_nonneg by lia.
  assert (new_max - new_min + 1 = 2 * ((new_max - new_min + 1) / 2) + (new_max - new_min + 1) mod 2)
    by (apply Z.div_mod; lia).
  assert (len self = 2 * (len self / 2) + len self mod 2) by (apply Z.div_mod; lia).
  pose proof (Z.mod_pos_bound (new_max - new_min + 1) 2 ltac:(lia)).
  pose proof (Z.mod_pos_bound (len self) 2 ltac:(lia)).
  widths. set (shift := _ - _).
  destruct (shift_bins_spec self shift) as (self' & -> & [] & Ho & Hc);
    [unfold BIN_LIMIT; lia|lia|lia|].
  simpl. eexists. split; [done|]. unfold len in *. simpl.
  split_and!; [done..|lia|lia|]. intros k Hk. by apply Hc.
Qed.

(** [adjust] when they do not: the store collapses to the top of its range. *)
Lemma adjust_collapses self new_min new_max :
  live self -> len self = BIN_LIMIT -> key_ok new_min -> key_ok new_max ->
  new_min <= min_key self -> max_key self <= new_max ->
  (new_min = min_key self \/ new_max = max_key self) ->
  len self < new_max - new_min + 1 ->
  exists self', adjust self new_min new_max = Done self' /\ live self' /\
    is_collapsed self' = true /\ max_key self' = new_max /\ count self' = count self.
Proof.
  intros [Hl Hlow Hord Hhigh Hmx Hmn Hcol] Hlen Hmin Hmax Hle1 Hle2 Hone Hbig. unfold adjust.
  rewrite length__small by lia. widths. rewrite (proj2 (Z.ltb_lt _ _)) by lia.
  set (cm := new_max - len self + 1).
  assert (cm = new_max - len self + 1) as Hcm by done. clearbody cm.
  destruct (Z.leb_spec (max_key self) cm) as [Hc|Hc].
  - unfold vec_store. rewrite length_replicate. simpl.
    rewrite (proj2 (Nat.ltb_lt _ _)) by (unfold len in Hl; lia). simpl.
    eexists. split; [done|]. split; [|done].
    constructor; unfold len in *; simpl; rewrite ?length_insert, ?length_replicate; widths;
      try (intros _; split_and!); lia.
  - destruct (Z.ltb_spec (offset self - cm) 0) as [Hs|Hs].
    + widths. rewrite (proj2 (Z.ltb_lt (cm - offset self) (len self))) by lia.
      rewrite (proj2 (Z.leb_le (min_key self - offset self) (cm - offset self + 1))) by lia.
      rewrite (proj2 (Z.leb_le (min_key self - offset self) (cm - offset self))) by lia. simpl.
      set (b := clear_bins _ _ _).
      assert (length b = length (bins self)) as Hb.
      { unfold b, clear_bins. rewrite !length_app, length_take, length_replicate, length_drop.
        unfold len in *. lia. }
      unfold vec_index. destruct (lookup_lt_is_Some_2 b (Z.to_nat (cm - offset self))) as [v ->];
        [unfold len in *; lia|].
      simpl. unfold vec_store. rewrite (proj2 (Nat.ltb_lt _ _)) by (unfold len in *; lia). simpl.
      edestruct shift_bins_spec as (self' & -> & [] & Ho & _); cycle 3.
      * simpl in *. eexists. split; [done|]. unfold len in *. simpl in *. rewrite length_insert in *.
        split_and!; [|done..]. constructor; unfold len in *; simpl; widths;
          try (intros _; split_and!); lia.
      * unfold len, BIN_LIMIT in *. simpl. rewrite length_insert, Hb. lia.
      * unfold len in *. simpl. rewrite length_insert, Hb. lia.
      * simpl. lia.
    + edestruct (shift_bins_spec (set_min_key self cm)) as (self' & -> & [] & Ho & _); cycle 3.
      * simpl in *. eexists. split; [done|]. unfold len in *. simpl in *.
        split_and!; [|done..]. constructor; unfold len in *; simpl; widths;
          try (intros _; split_and!); lia.
      * unfold len, BIN_LIMIT in *. simpl. lia.
      * unfold len in *. simpl. lia.
      * simpl. lia.
Qed.

Lemma get_new_length_spec new_min new_max :
  key_ok new_min -> key_ok new_max -> new_min <= new_max ->
  let n := get_new_length new_min new_max in
  CHUNK_SIZE <= n <= BIN_LIMIT /\ Z.min (new_max - new_min + 1) BIN_LIMIT <= n.
Proof.
  intros H1 H2 H3 n. unfold n, get_new_length. widths.
  rewrite Z.quot_div_nonneg by lia.
  pose proof (Z.div_mod (new_max - new_min + 1 + 128 - 1) 128 ltac:(lia)).
  pose proof (Z.mod_pos_bound (new_max - new_min + 1 + 128 - 1) 128 ltac:(lia)).
  destruct (Z.ltb_spec (Z.min (128 * ((new_max - new_min + 1 + 128 - 1) / 128)) 2048) 0); lia.
Qed.

Lemma resize_spec self n :
  let self' := if len self <? n
               then set_bins self (bins self ++ zeros (n - len self)) else self in
  len self' = Z.max (len self) n /\ offset self' = offset self /\ count self' = count self /\
  min_key self' = min_key self /\ max_key self' = max_key self /\
  is_collapsed self' = is_collapsed self /\ (forall k, cell self' k = cell self k).
Proof.
  simpl. destruct (Z.ltb_spec (len self) n); [|split_and!; (done || lia)].
  split_and!; try done.
  - unfold len in *. simpl. rewrite length_app, Nat2Z.inj_add, len_zeros; lia.
  - intros k. unfold cell. simpl. case_match; [|done].
    destruct (Nat.lt_ge_cases (Z.to_nat (k - offset self)) (length (bins self))).
    + by rewrite lookup_app_l.
    + rewrite lookup_app_r by done. rewrite (lookup_ge_None_2 (bins self)) by done.
      by rewrite zeros_lookup.
Qed.

(** What extending the range to one more key gives. *)
Record extended (self : t) (key : Z) (self' : t) : Prop := {
  ext_live : live self';
  ext_max : max_key self' = Z.max key (max_key self);
  ext_count : count self' = count self;
  ext_min : is_collapsed self' = false -> min_key self' = Z.min key (min_key self);
  ext_was : is_collapsed self' = false -> is_collapsed self = false;
  ext_why : is_collapsed self' = true -> is_collapsed self = false ->
    BIN_LIMIT < Z.max key (max_key self) - Z.min key (min_key self) + 1;
  ext_cell : is_collapsed self' = false ->
    forall k, in_window self' k -> cell self' k = cell self k;
}.

Lemma extend_range_new key :
  key_ok key -> exists self', extend_range new key key = Done self' /\ extended new key self'.
Proof.
  intros Hk. unfold extend_range. rewrite !Z.min_id, !Z.max_id.
  rewrite bool_decide_true by done. cbn [min_key max_key new].
  replace (Z.min key I32_MAX) with key by (unfold I32_MAX; widths; lia).
  replace (Z.max key I32_MIN) with key by (unfold I32_MIN; widths; lia).
  pose proof (get_new_length_spec key key Hk Hk ltac:(lia)) as [Hn _].
  set (n := get_new_length key key) in *. unfold CHUNK_SIZE in Hn.
  set (s0 := set_offset _ _).
  assert (len s0 = n) as Hl by (unfold len; simpl; apply len_zeros; lia).
  destruct (adjust_centers s0 key key) as (s & -> & Hls & Hc & Hcol & Hmin & Hmax & Ho1 & Ho2 & Hcell);
    [lia|done|done|lia|lia|simpl; lia|simpl; lia|].
  exists s. split; [done|]. rewrite Hl in Hls. constructor; simpl.
  - constructor; widths; rewrite ?Hcol; try done; lia.
  - unfold I32_MIN. widths. lia.
  - done.
  - unfold I32_MAX. widths. lia.
  - done.
  - by rewrite Hcol.
  - intros _ k Hw. rewrite Hcell by done. unfold cell. simpl.
    rewrite zeros_lookup. by repeat case_match.
Qed.

Lemma grow_and_adjust self key :
  live self -> key_ok key ->
  (key < min_key self /\ is_collapsed self = false \/ max_key self < key) ->
  let mn := Z.min key (min_key self) in
  let mx := Z.max key (max_key self) in
  let grown := if len self <? get_new_length mn mx
               then set_bins self (bins self ++ zeros (get_new_length mn mx - len self))
               else self in
  exists self', adjust grown mn mx = Done self' /\ extended self key self'.
Proof.
  intros [Hl Hlow Hord Hhigh Hmx Hmn Hcol] Hk Hcase mn mx.
  assert (mn = Z.min key (min_key self)) as Hmn' by done. clearbody mn.
  assert (mx = Z.max key (max_key self)) as Hmx' by done. clearbody mx.
  assert (key_ok mn /\ key_ok mx) as [Hkm Hkx] by (unfold key_ok in *; lia).
  pose proof (get_new_length_spec mn mx Hkm Hkx ltac:(lia)) as [Hn Hfit].
  set (n := get_new_length mn mx) in *. clearbody n. intros grown.
  pose proof (resize_spec self n) as (Hgl & Hgo & Hgc & Hgmin & Hgmax & Hgcol & Hgcell).
  fold grown in Hgl, Hgo, Hgc, Hgmin, Hgmax, Hgcol, Hgcell. clearbody grown.
  destruct (Z.le_gt_cases (mx - mn + 1) (len grown)) as [Hw|Hw].
  - assert (is_collapsed self = false) as Hnc
      by (destruct (is_collapsed self); [|done]; destruct (Hcol eq_refl); lia).
    destruct (adjust_centers grown mn mx) as (s & -> & Hls & Hc & Hcs & Hmin & Hmax & Ho1 & Ho2 & Hcell);
      [lia|done|done|lia|lia|lia|lia|].
    exists s. split; [done|]. rewrite Hgcol, Hnc in Hcs. constructor; try congruence.
    + constructor; rewrite ?Hcs; try done; unfold key_ok in *; lia.
    + intros _ k Hwin. rewrite Hcell by done. apply Hgcell.
  - assert (live grown) as Hlive.
    { constructor; rewrite ?Hgo, ?Hgmin, ?Hgmax, ?Hgcol; try done; [lia..|].
      intros Hc. destruct (Hcol Hc) as (? & ? & ?). lia. }
    destruct (adjust_collapses grown mn mx) as (s & -> & Hls & Hcs & Hmax & Hc);
      [done|lia|done|done|lia|lia|lia|lia|].
    exists s. split; [done|]. constructor; try congruence.
    intros _ _. rewrite <- Hmn', <- Hmx'. lia.
Qed.

Lemma extend_range_live self key :
  live self -> key_ok key ->
  (key < min_key self /\ is_collapsed self = false \/ max_key self < key) ->
  exists self', extend_range self key key = Done self' /\ extended self key self'.
Proof.
  intros Hlive Hk Hcase. pose proof Hlive as [Hl Hlow Hord Hhigh Hmx Hmn Hcol].
  unfold extend_range. rewrite !Z.min_id, !Z.max_id.
  rewrite bool_decide_false by (intros He; unfold len in Hl; rewrite He in Hl; simpl in Hl; lia).
  rewrite length__small by lia. rewrite wrap_i32_small by (widths; unfold is_i32; lia).
  set (mn := Z.min key (min_key self)). set (mx := Z.max key (max_key self)).
  destruct (Z.leb_spec (min_key self) mn) as [H1|H1]; simpl;
    [destruct (Z.ltb_spec mx (offset self + len self)) as [H2|H2]|]; simpl.
  - eexists. split; [done|].
    assert (is_collapsed self = false) as Hnc by (destruct (is_collapsed self); [|done]; lia).
    constructor; simpl; try done; [|by rewrite Hnc].
    constructor; unfold len in *; simpl; try rewrite Hnc; widths; try done; lia.
  - by apply grow_and_adjust.
  - by apply grow_and_adjust.
Qed.

(** Adding a key never panics and keeps the shape. *)
Record added (self : t) (key : Z) (self' : t) : Prop := {
  add_live : live self';
  add_max : max_key self' = Z.max key (max_key self);
  add_count : count self' = fadd (count self) f64_one;
  add_min : is_collapsed self' = false -> min_key self' = Z.min key (min_key self);
  add_was : is_collapsed self' = false -> is_collapsed self = false;
  add_why : is_collapsed self' = true -> is_collapsed self = false ->
    BIN_LIMIT < Z.max key (max_key self) - Z.min key (min_key self) + 1;
  add_cell : is_collapsed self' = false ->
    cell self' key = fadd (cell self key) f64_one /\
    forall k, k <> key -> in_window self' k -> cell self' k = cell self k;
}.


Lemma extended_refl self key :
  live self -> key <= max_key self -> (is_collapsed self = false -> min_key self <= key) ->
  extended self key self.
Proof.
  intros Hl Hk Hm. constructor; try done; try lia; [|congruence].
  intros Hc. specialize (Hm Hc). lia.
Qed.

Lemma index_in_window self key :
  live self -> min_key self <= key <= max_key self ->
  0 <= key - offset self < len self /\
  usize_of_i32 (wrap_i32 (key - offset self)) = key - offset self.
Proof. intros [Hl Hlow Hord Hhigh Hmx Hmn Hcol] Hk. widths. lia. Qed.

Lemma get_index_spec self key :
  wf self -> key_ok key ->
  exists i self', get_index self key = Done (i, self') /\ extended self key self' /\
    0 <= i < len self' /\ (is_collapsed self' = false -> i = key - offset self').
Proof.
  intros Hwf Hk. unfold get_index.
  destruct (Z.ltb_spec key (min_key self)) as [Hlt|Hge].
  - destruct (is_collapsed self) eqn:Hc.
    + destruct Hwf as [->|Hlive]; [done|]. exists 0, self. pose proof Hlive as [].
      split_and!; [done| |lia|lia|congruence]. apply extended_refl; [done|lia|congruence].
    + assert (exists s', extend_range self key key = Done s' /\ extended self key s')
        as (s' & -> & Hext).
      { destruct Hwf as [->|Hlive]; [by apply extend_range_new|]. apply extend_range_live; auto. }
      simpl. pose proof (ext_live _ _ _ Hext) as Hlive. destruct (is_collapsed s') eqn:Hc'.
      * exists 0, s'. split_and!; [done|done|lia| |congruence]. by apply live_len.
      * destruct (index_in_window s' key Hlive) as [Hi ->];
          [rewrite (ext_max _ _ _ Hext), (ext_min _ _ _ Hext Hc'); lia|].
        exists (key - offset s'), s'. split_and!; auto; lia.
  - destruct Hwf as [->|Hlive];
      [simpl in Hge; unfold key_ok, KEY_BOUND, I32_MAX in *; lia|].
    destruct (Z.ltb_spec (max_key self) key) as [Hgt|Hle].
    + destruct (extend_range_live self key Hlive Hk (or_intror Hgt)) as (s' & -> & Hext). simpl.
      pose proof (ext_live _ _ _ Hext) as Hlive'. pose proof (ext_max _ _ _ Hext) as Hm.
      destruct (index_in_window s' key Hlive') as [Hi ->]; [destruct Hlive'; lia|].
      exists (key - offset s'), s'. split_and!; auto; lia.
    + simpl. destruct (index_in_window self key Hlive) as [Hi ->]; [lia|].
      exists (key - offset self), self. split_and!; auto; [|lia..]. by apply extended_refl.
Qed.

Lemma add_spec self key :
  wf self -> key_ok key ->
  exists self', add self key f64_one = Done self' /\ added self key self'.
Proof.
  intros Hwf Hk. unfold add.
  destruct (get_index_spec self key Hwf Hk) as (i & s & -> & [Hlive Hmax Hcnt Hmin Hwas Hwhy Hcell] & Hi & Hidx).
  simpl. unfold in_bounds. fold (len s).
  rewrite (proj2 (Z.leb_le _ _)), (proj2 (Z.ltb_lt _ _)) by lia. simpl.
  unfold vec_index. destruct (lookup_lt_is_Some_2 (bins s) (Z.to_nat i)) as [v Hv];
    [unfold len in Hi; lia|].
  rewrite Hv. simpl. unfold vec_store. rewrite (proj2 (Nat.ltb_lt _ _)) by (unfold len in Hi; lia).
  simpl. eexists. split; [done|]. constructor; simpl; try done.
  - destruct Hlive. by constructor; unfold len in *; simpl; rewrite ?length_insert.
  - by rewrite Hcnt.
  - intros Hc. specialize (Hidx Hc). specialize (Hcell Hc).
    assert (in_window s key) as Hin by (unfold in_window; lia). split.
    + rewrite <- Hcell by done. unfold cell. simpl. rewrite (proj2 (Z.leb_le _ _)) by lia.
      rewrite <- Hidx, Hv, list_lookup_insert_eq by (unfold len in Hi; lia). done.
    + intros k Hne Hw. unfold in_window, len in Hw. simpl in Hw. rewrite length_insert in Hw.
      rewrite <- Hcell by done. unfold cell. simpl. rewrite (proj2 (Z.leb_le _ _)) by lia.
      rewrite list_lookup_insert_ne by lia. done.
Qed.

(** [n] additions of 1.0 from 0.0. *)
Definition weight (n : nat) : f64 := Nat.iter n (fun w => fadd w f64_one) f64_zero.

Definition occ (k : Z) (keys : list Z) : nat := length (filter (fun x => x = k) keys).

Lemma occ_snoc k keys key :
  occ k (keys ++ [key]) = if decide (key = k) then S (occ k keys) else occ k keys.
Proof.
  unfold occ. rewrite filter_app, length_app. simpl. rewrite filter_cons, filter_nil.
  case_decide; simpl; lia.
Qed.

Lemma occ_absent k keys : k ∉ keys -> occ k keys = 0%nat.
Proof.
  induction keys as [|x keys IH]; intros Hk; [done|]. unfold occ in *.
  apply not_elem_of_cons in Hk as [Hne Hk]. rewrite filter_cons_False by congruence. auto.
Qed.

Lemma cell_outside self k : ~ in_window self k -> cell self k = f64_zero.
Proof.
  unfold in_window, cell, len. intros Hn. destruct (Z.leb_spec (offset self) k); [|done].
  by rewrite lookup_ge_None_2 by lia.
Qed.

(** The store after a sequence of keys. *)
Record holds (keys : list Z) (self : t) : Prop := {
  h_wf : wf self;
  h_new : keys = [] -> self = new;
  h_count : count self = weight (length keys);
  h_max : keys = [] \/ max_key self ∈ keys;
  h_top : forall x, x ∈ keys -> x <= max_key self;
  h_min : is_collapsed self = false -> keys = [] \/ min_key self ∈ keys;
  h_range : is_collapsed self = false -> forall x, x ∈ keys -> min_key self <= x <= max_key self;
  h_wide : is_collapsed self = true -> exists a b, a ∈ keys /\ b ∈ keys /\ BIN_LIMIT <= b - a;
  h_cell : is_collapsed self = false -> forall k, cell self k = weight (occ k keys);
}.

Lemma holds_new : holds [] new.
Proof.
  constructor; try done; auto; [by left|set_solver|set_solver|].
  intros _ k. unfold cell, new. simpl. by case_match.
Qed.

Lemma holds_bounds keys self key :
  holds keys self -> Forall key_ok keys -> key_ok key ->
  Z.max key (max_key self) ∈ keys ++ [key] /\
  (is_collapsed self = false -> Z.min key (min_key self) ∈ keys ++ [key]).
Proof.
  intros [Hwf Hnew _ Hmax _ Hmin _ _ _] Hks Hk. destruct (decide (keys = [])) as [->|Hne].
  - rewrite (Hnew eq_refl). unfold key_ok, KEY_BOUND in Hk. simpl. unfold I32_MIN, I32_MAX.
    rewrite Z.max_l, Z.min_l by lia. set_solver.
  - destruct Hmax as [|Hmax]; [done|]. split.
    + destruct (Z.max_spec key (max_key self)) as [[_ ->]|[_ ->]]; set_solver.
    + intros Hc. destruct (Hmin Hc) as [|Hm]; [done|].
      destruct (Z.min_spec key (min_key self)) as [[_ ->]|[_ ->]]; set_solver.
Qed.

Lemma holds_add keys self key :
  holds keys self -> Forall key_ok keys -> key_ok key ->
  exists self', add self key f64_one = Done self' /\ holds (keys ++ [key]) self'.
Proof.
  intros Hh Hks Hk. destruct (holds_bounds _ _ _ Hh Hks Hk) as [Hbmax Hbmin].
  destruct Hh as [Hwf Hnew Hcnt Hmax Htop Hmin Hrange Hwide Hcell].
  destruct (add_spec self key Hwf Hk) as (s & Hadd & [Hlive Hm Hc Hmn Hwas Hwhy Hce]).
  exists s. split; [done|].
  assert (is_collapsed s = false -> forall x, x ∈ keys ++ [key] -> min_key s <= x <= max_key s) as Hr.
  { intros Hs x Hx. rewrite Hm, (Hmn Hs). apply elem_of_app in Hx as [Hx|Hx].
    - specialize (Hrange (Hwas Hs) x Hx). lia.
    - apply list_elem_of_singleton in Hx as ->. lia. }
  constructor.
  - by right.
  - by destruct keys.
  - rewrite Hc, Hcnt, length_app, Nat.add_1_r. done.
  - right. by rewrite Hm.
  - intros x Hx. rewrite Hm. apply elem_of_app in Hx as [Hx|Hx].
    + specialize (Htop x Hx). lia.
    + apply list_elem_of_singleton in Hx as ->. lia.
  - intros Hs. right. rewrite (Hmn Hs). auto.
  - done.
  - intros Hs. destruct (is_collapsed self) eqn:Hs0.
    + destruct (Hwide eq_refl) as (a & b & ? & ? & ?). exists a, b. set_solver.
    + specialize (Hwhy Hs eq_refl). eexists _, _. split_and!; [by apply Hbmin|exact Hbmax|lia].
  - intros Hs k. destruct (Hce Hs) as [Hkey Hother]. rewrite occ_snoc. case_decide as He.
    + subst k. by rewrite Hkey, (Hcell (Hwas Hs)).
    + destruct (decide (offset s <= k < offset s + len s)) as [Hin|Hout].
      * rewrite Hother by (done || congruence). by apply Hcell, Hwas.
      * rewrite cell_outside by done. rewrite occ_absent; [done|]. intros Hx.
        specialize (Hr Hs k ltac:(set_solver)). destruct Hlive. lia.
Qed.

Lemma holds_add_keys ks : forall keys self,
  holds keys self -> Forall key_ok (keys ++ ks) ->
  exists self', add_keys self ks = Done self' /\ holds (keys ++ ks) self'.
Proof.
  induction ks as [|k ks IH]; intros keys self Hh Hok; simpl.
  - exists self. by rewrite app_nil_r.
  - pose proof Hok as Hok'. apply Forall_app in Hok as [Hks Hok].
    apply Forall_cons in Hok as [Hk Hok].
    destruct (holds_add keys self k Hh Hks Hk) as (s & -> & Hs). simpl.
    replace (keys ++ k :: ks) with ((keys ++ [k]) ++ ks) in * by (by rewrite <- app_assoc).
    by apply IH.
Qed.

Lemma weight_exact n : Z.of_nat n < 2 ^ 53 -> weight n = f64_of_Z (Z.of_nat n).
Proof.
  induction n as [|n IH]; intros Hn; [done|].
  change (weight (S n)) with (fadd (weight n) f64_one). rewrite IH by lia.
  unfold f64_one. rewrite fadd_exact by lia. f_equal. lia.
Qed.

Lemma slice_cells self n r :
  (n <= r)%nat -> Z.of_nat r < len self ->
  take (S r - n) (drop n (bins self)) =
    cell self <$> seqZ (offset self + Z.of_nat n) (Z.of_nat r - Z.of_nat n + 1).
Proof.
  intros Hnr Hr. unfold len in Hr. apply list_eq. intros i. rewrite list_lookup_fmap.
  destruct (decide (i < S r - n)%nat) as [Hi|Hi].
  - rewrite lookup_take_lt, lookup_drop, (lookup_seqZ_lt _ _ i) by lia. simpl.
    unfold cell. rewrite (proj2 (Z.leb_le _ _)) by lia.
    destruct (lookup_lt_is_Some_2 (bins self) (n + i)) as [v Hv]; [lia|]. rewrite Hv.
    replace (Z.to_nat _) with (n + i)%nat by lia. by rewrite Hv.
  - rewrite lookup_take_ge, lookup_seqZ_ge by lia. done.
Qed.

Lemma length_clear_bins b n r :
  (n <= r)%nat -> (r <= length b)%nat -> length (clear_bins b n r) = length b.
Proof.
  intros. unfold clear_bins. rewrite !length_app, length_take, length_replicate, length_drop. lia.
Qed.

(** C24: adding keys of at most [KEY_BOUND] in absolute value never panics, whatever their
    spread and order: no index or slice leaves the bins, the bins never exceed
    [BIN_LIMIT], the window holds the key range, the greatest key is exact, and the
    field [count] is the number of keys as long as that is an exact float. *)
Theorem store_never_panics keys :
  Forall key_ok keys ->
  exists s, add_keys new keys = Done s /\ len s <= BIN_LIMIT /\
    (keys <> [] -> live s /\ max_key s ∈ keys /\ Forall (fun k => k <= max_key s) keys) /\
    (Z.of_nat (length keys) < 2 ^ 53 -> count s = f64_of_Z (Z.of_nat (length keys))).
Proof.
  intros Hok. destruct (holds_add_keys keys [] new holds_new Hok) as (s & Hs & Hh).
  destruct Hh as [Hwf Hnew Hcnt Hmax Htop _ _ _ _]. exists s. split_and!; [done| | |].
  - destruct Hwf as [->|[]]; [done|lia].
  - intros Hne. destruct Hmax as [|Hmax]; [done|]. split_and!; [|done|by apply Forall_forall].
    destruct Hwf as [->|]; [|done]. exfalso. simpl in Hmax.
    apply (proj1 (Forall_forall _ _) Hok) in Hmax. unfold key_ok, KEY_BOUND, I32_MIN in Hmax. lia.
  - intros Hn. by rewrite Hcnt, weight_exact.
Qed.

Ltac sample_keys :=
  repeat (apply Forall_cons; split; [unfold key_ok, KEY_BOUND; lia|]); apply Forall_nil_2.

Lemma store_never_panics_witness :
  exists s, add_keys new [0; 53; 100; 2100; -500; 35000] = Done s /\ len s <= BIN_LIMIT.
Proof.
  assert (Forall key_ok [0; 53; 100; 2100; -500; 35000]) as Hok by sample_keys.
  destruct (store_never_panics _ Hok) as (s & Hs & Hl & _).
  exact (ex_intro _ s (conj Hs Hl)).
Defined.

(** C23: while the keys spread over at most [BIN_LIMIT] consecutive values the
    store is exactly their histogram: every bin holds the number of times its
    key was added, as an exact float, and nothing was merged. *)
Theorem store_is_exact_histogram keys :
  Forall key_ok keys -> (forall a b, a ∈ keys -> b ∈ keys -> b - a < BIN_LIMIT) ->
  Z.of_nat (length keys) < 2 ^ 53 ->
  exists s, add_keys new keys = Done s /\ is_collapsed s = false /\
    (forall k, cell s k = f64_of_Z (Z.of_nat (occ k keys))) /\
    count s = f64_of_Z (Z.of_nat (length keys)).
Proof.
  intros Hok Hspread Hn. destruct (holds_add_keys keys [] new holds_new Hok) as (s & Hs & Hh).
  destruct Hh as [_ _ Hcnt _ _ _ _ Hwide Hcell]. exists s.
  assert (is_collapsed s = false) as Hc.
  { destruct (is_collapsed s); [|done]. destruct (Hwide eq_refl) as (a & b & Ha & Hb & Hab).
    specialize (Hspread a b Ha Hb). simpl in *. lia. }
  split_and!; [done|done| |by rewrite Hcnt, weight_exact].
  intros k. rewrite (Hcell Hc). apply weight_exact. simpl.
  enough (occ k keys <= length keys)%nat by lia. apply length_filter.
Qed.

Lemma store_is_exact_histogram_witness :
  exists s, add_keys new [7; -3; 7; 2000; 7] = Done s /\ cell s 7 = f64_of_Z 3 /\
    cell s 8 = f64_of_Z 0 /\ count s = f64_of_Z 5.
Proof.
  destruct (store_is_exact_histogram [7; -3; 7; 2000; 7]) as (s & Hs & _ & Hcell & Hcnt).
  - sample_keys.
  - unfold BIN_LIMIT. set_unfold. intros a b Ha Hb. lia.
  - vm_compute. done.
  - exact (ex_intro _ s (conj Hs (conj (Hcell 7) (conj (Hcell 8) Hcnt)))).
Defined.

(** Collapsing counts the boundary bin twice: when a new greatest key
    pushes the low end of the window past the present minimum, the bin at the
    new low end receives the sum of all bins up to and including itself on top
    of the value it keeps. *)
Theorem collapse_counts_boundary_twice self key :
  live self -> len self = BIN_LIMIT -> key_ok key ->
  let low := key - BIN_LIMIT + 1 in
  offset self < low -> min_key self < low -> low < max_key self < key ->
  exists self', adjust self (min_key self) key = Done self' /\
    offset self' = low /\ min_key self' = low /\ count self' = count self /\
    cell self' low =
      fadd (cell self low)
        (foldl fadd f64_zero (cell self <$> seqZ (min_key self) (low - min_key self + 1))).
Proof.
  intros [Hl Hlow Hord Hhigh Hmx Hmn Hcol] Hlen Hk low Ho Hm Hlt. unfold adjust.
  rewrite length__small by lia. subst low. rewrite Hlen in *. widths.
  set (low := key - 2048 + 1) in *. assert (low = key - 2048 + 1) as Hlow' by done. clearbody low.
  rewrite (proj2 (Z.ltb_lt _ _)) by lia.
  rewrite (proj2 (Z.leb_gt (max_key self) low)), (proj2 (Z.ltb_lt (offset self - low) 0)) by lia.
  rewrite (proj2 (Z.ltb_lt (low - offset self) 2048)) by lia.
  rewrite (proj2 (Z.leb_le (min_key self - offset self) (low - offset self + 1))) by lia.
  rewrite (proj2 (Z.leb_le (min_key self - offset self) (low - offset self))) by lia. simpl.
  set (n := Z.to_nat (min_key self - offset self)). set (r := Z.to_nat (low - offset self)).
  unfold len in Hlen.
  destruct (lookup_lt_is_Some_2 (bins self) r) as [v Hv]; [lia|].
  assert (clear_bins (bins self) n r !! r = Some v) as Hcl.
  { unfold clear_bins. rewrite lookup_app_r; rewrite length_take; [|lia].
    rewrite lookup_app_r; rewrite length_replicate; [|lia].
    rewrite lookup_drop. rewrite <- Hv. f_equal. lia. }
  unfold vec_index. rewrite Hcl. simpl. unfold vec_store.
  rewrite (proj2 (Nat.ltb_lt _ _)) by (by eapply lookup_lt_Some). simpl.
  edestruct shift_bins_spec as (s' & -> & [] & Hoff & Hcell); cycle 3.
  - eexists. split; [done|]. simpl. rewrite Hoff, ss_min0, ss_count0. simpl.
    split_and!; [lia|done|done|].
    assert (length (<[r:=fadd v (sum_bins (bins self) n r)]> (clear_bins (bins self) n r))
      = 2048%nat) as Hlb by (rewrite length_insert, length_clear_bins; lia).
    change (cell s' low = fadd (cell self low)
      (foldl fadd f64_zero (cell self <$> seqZ (min_key self) (low - min_key self + 1)))).
    rewrite Hcell.
    2:{ unfold in_window. rewrite Hoff, ss_len0. unfold len. simpl. rewrite Hlb. lia. }
    unfold cell at 1 2. simpl. rewrite (proj2 (Z.leb_le _ _)) by lia. fold r.
    rewrite list_lookup_insert_eq by (by eapply lookup_lt_Some). rewrite Hv. simpl.
    unfold sum_bins. rewrite slice_cells by (unfold len; lia).
    do 4 f_equal; lia.
  - unfold len, BIN_LIMIT. simpl. rewrite length_insert, length_clear_bins; lia.
  - unfold len. simpl. rewrite length_insert, length_clear_bins; lia.
  - simpl. lia.
Qed.

(** With the keys 0, 53, 100, 2000 and 2100 the bins add up to six for a count
    of five. *)
Lemma collapse_counts_boundary_twice_witness :
  exists s s', add_keys new [0; 53; 100; 2000] = Done s /\
    adjust s (min_key s) 2100 = Done s' /\
    cell s' 53 = fadd (cell s 53) (foldl fadd f64_zero (cell s <$> seqZ 0 54)) /\
    (exists s'', add_keys new [0; 53; 100; 2000; 2100] = Done s'' /\
       foldl fadd f64_zero (bins s'') = f64_of_Z 6 /\ count s'' = f64_of_Z 5).
Proof.
  destruct (holds_add_keys [0; 53; 100; 2000] [] new holds_new ltac:(sample_keys))
    as (s & Hs & Hh).
  assert (match add_keys new [0; 53; 100; 2000] with
          | Done s => (len s, offset s, min_key s, max_key s) | Panic => (0, 0, 0, 0) end
          = (2048, -24, 0, 2000)) as Hshape by (vm_compute; reflexivity).
  rewrite Hs in Hshape. injection Hshape as Hl Ho Hmn Hmx.
  assert (live s) as Hlive by (destruct (h_wf _ _ Hh) as [->|]; [discriminate Hl|assumption]).
  destruct (collapse_counts_boundary_twice s 2100 Hlive Hl) as (s' & Hadj & _ & _ & _ & Hcell);
    [unfold key_ok, KEY_BOUND; lia|unfold BIN_LIMIT; lia..|].
  change (2100 - BIN_LIMIT + 1) with 53 in Hcell. rewrite Hmn in Hcell.
  refine (ex_intro _ s (ex_intro _ s' (conj Hs (conj Hadj (conj Hcell _))))).
  eexists. split; [vm_compute; reflexivity|]. split; vm_compute; reflexivity.
Defined.

End Store.

(** * The sketch *)

Module DdSketch.

Definition RELATIVE_ACCURACY : f64 := fdiv (f64_of_Z 1) (f64_of_Z 100).
(** [2^-1023]. *)
Definition JS_MIN_SAFE_FLOAT : f64 := S754_finite false (2 ^ 51) (-1074).
Definition LN_2 : f64 := S754_finite false 0x162E42FEFA39EF (-53).

(** The platform's logarithms. *)
Record libm := { log2 : f64 -> f64; ln_1p : f64 -> f64 }.

Record LogarithmicMapping := { gamma : f64; multiplier : f64; min_possible : f64 }.

Definition LogarithmicMapping_new (m : libm) (relative_accuracy : f64) : LogarithmicMapping :=
  let i := fdiv (fmul (f64_of_Z 2) relative_accuracy) (fsub (f64_of_Z 1) relative_accuracy) in
  let gamma := fadd (f64_of_Z 1) i in
  let multiplier := fdiv LN_2 (ln_1p m i) in
  let min_possible := fmul JS_MIN_SAFE_FLOAT gamma in
  {| gamma := gamma; multiplier := multiplier; min_possible := min_possible |}.

Definition key (m : libm) (self : LogarithmicMapping) (v : f64) : Z :=
  f64_to_i32 (fceil (fmul (log2 m v) (multiplier self))).

Record t := {
  mapping : LogarithmicMapping;
  store : Store.t;
  negative_store : Store.t;
  zero_count : f64;
}.

Definition new (m : libm) : t :=
  {| mapping := LogarithmicMapping_new m RELATIVE_ACCURACY;
     store := Store.new; negative_store := Store.new; zero_count := f64_zero |}.

Definition accept (m : libm) (self : t) (value : f64) : outcome t :=
  if flt (min_possible (mapping self)) value then
    let k := key m (mapping self) value in
    s ← Store.add (store self) k f64_one;
    Done {| mapping := mapping self; store := s; negative_store := negative_store self;
            zero_count := zero_count self |}
  else if flt value (fneg (min_possible (mapping self))) then
    let k := key m (mapping self) (fneg value) in
    s ← Store.add (negative_store self) k f64_one;
    Done {| mapping := mapping self; store := store self; negative_store := s;
            zero_count := zero_count self |}
  else
    Done {| mapping := mapping self; store := store self;
            negative_store := negative_store self;
            zero_count := fadd (zero_count self) f64_one |}.

Fixpoint accept_all (m : libm) (self : t) (values : list f64) : outcome t :=
  match values with
  | [] => Done self
  | v :: vs => self ← accept m self v; accept_all m self vs
  end.

(** * Serialization *)

Definition encode_store (s : Store.t) : list Z :=
  let buf := [] in
  let buf :=
    if bool_decide (Store.bins s = []) then buf
    else
      let buf := write_tag buf 2 WIRE_LEN in
      let buf := write_uvarint buf (Z.of_nat (length (Store.bins s)) * 8) in
      buf ++ mjoin (f64_to_le_bytes <$> Store.bins s) in
  let buf := write_tag buf 3 WIRE_VARINT in
  write_zigzag32 buf (Store.offset s).

Definition to_proto_bytes (self : t) : list Z :=
  let out := [] in
  let m := [] in
  let m := write_tag m 1 WIRE_FIXED64 in
  let m := m ++ f64_to_le_bytes (gamma (mapping self)) in
  let m := write_tag m 2 WIRE_FIXED64 in
  let m := m ++ f64_to_le_bytes f64_zero in
  let m := write_tag m 3 WIRE_VARINT in
  let m := m ++ [0] in
  let out := write_tag out 1 WIRE_LEN in
  let out := write_uvarint out (Z.of_nat (length m)) in
  let out := out ++ m in
  let out := write_tag out 2 WIRE_LEN in
  let pos := encode_store (store self) in
  let out := write_uvarint out (Z.of_nat (length pos)) in
  let out := out ++ pos in
  let out := write_tag out 3 WIRE_LEN in
  let neg := encode_store (negative_store self) in
  let out := write_uvarint out (Z.of_nat (length neg)) in
  let out := out ++ neg in
  let out := write_tag out 4 WIRE_FIXED64 in
  out ++ f64_to_le_bytes (zero_count self).

(** * A protobuf reader for the two messages *)

Definition from_le_bytes (bytes : list Z) : Z := foldr (fun b acc => b + 256 * acc) 0 bytes.

Definition read_tag (field wire : Z) (bytes : list Z) : option (list Z) :=
  '(tag, rest) ← decode_uvarint bytes;
  if tag =? 8 * field + wire then Some rest else None.

Definition read_fixed64 (bytes : list Z) : option (Z * list Z) :=
  if (8 <=? length bytes)%nat then Some (from_le_bytes (take 8 bytes), drop 8 bytes) else None.

Definition read_bytes (bytes : list Z) : option (list Z * list Z) :=
  '(n, rest) ← decode_uvarint bytes;
  if n <=? Z.of_nat (length rest)
  then Some (take (Z.to_nat n) rest, drop (Z.to_nat n) rest) else None.

Fixpoint read_doubles (fuel : nat) (bytes : list Z) : list Z :=
  match fuel with
  | O => []
  | S fuel' => from_le_bytes (take 8 bytes) :: read_doubles fuel' (drop 8 bytes)
  end.

(** A [Store] message: its bins as bit patterns and the index of the first one. *)
Definition read_store (bytes : list Z) : option (list Z * Z) :=
  '(packed, rest) ←
    match read_tag 2 WIRE_LEN bytes with
    | Some rest => read_bytes rest
    | None => Some ([], bytes)
    end;
  rest ← read_tag 3 WIRE_VARINT rest;
  '(offset, rest) ← decode_zigzag_varint rest;
  if bool_decide (rest = []) then Some (read_doubles (length packed / 8) packed, offset) else None.

(** A [DDSketch] message: gamma, the two stores and the zero count. *)
Definition read_sketch (bytes : list Z) : option (Z * (list Z * Z) * (list Z * Z) * Z) :=
  rest ← read_tag 1 WIRE_LEN bytes;
  '(mapping, rest) ← read_bytes rest;
  g ← read_tag 1 WIRE_FIXED64 mapping;
  '(gamma, _) ← read_fixed64 g;
  rest ← read_tag 2 WIRE_LEN rest;
  '(pos, rest) ← read_bytes rest;
  pos ← read_store pos;
  rest ← read_tag 3 WIRE_LEN rest;
  '(neg, rest) ← read_bytes rest;
  neg ← read_store neg;
  rest ← read_tag 4 WIRE_FIXED64 rest;
  '(zero_count, rest) ← read_fixed64 rest;
  if bool_decide (rest = []) then Some (gamma, pos, neg, zero_count) else None.

(** * Reading back what is written *)
Lemma from_le_bytes_le_bytes n : forall z,
  0 <= z < 256 ^ Z.of_nat n -> from_le_bytes (le_bytes n z) = z.
Proof.
  induction n as [|n IH]; intros z Hz; [simpl in *; lia|].
  rewrite Nat2Z.inj_succ, Z.pow_succ_r in Hz by lia. cbn [le_bytes]. simpl.
  unfold from_le_bytes in IH. rewrite IH.
  - pose proof (Z.div_mod z 256 ltac:(lia)). lia.
  - split; [apply Z.div_pos; lia|apply Z.div_lt_upper_bound; lia].
Qed.

Lemma from_le_bytes_f64 x : is_u64 (f64_bits x) -> from_le_bytes (f64_to_le_bytes x) = f64_bits x.
Proof. intros Hx. by apply (from_le_bytes_le_bytes 8). Qed.

Lemma read_fixed64_f64 x rest :
  is_u64 (f64_bits x) -> read_fixed64 (f64_to_le_bytes x ++ rest) = Some (f64_bits x, rest).
Proof.
  intros Hx. unfold read_fixed64.
  assert (length (f64_to_le_bytes x) = 8%nat) as Hl by apply length_le_bytes.
  rewrite length_app, (proj2 (Nat.leb_le _ _)) by lia.
  rewrite take_app_length', drop_app_length' by done. by rewrite from_le_bytes_f64.
Qed.

Lemma read_bytes_written m rest :
  Z.of_nat (length m) < 2 ^ 64 ->
  read_bytes (write_uvarint [] (Z.of_nat (length m)) ++ m ++ rest) = Some (m, rest).
Proof.
  intros Hm. unfold read_bytes. rewrite decode_write_uvarint by (unfold is_u64; lia). simpl.
  rewrite length_app, (proj2 (Z.leb_le _ _)) by lia. rewrite Nat2Z.id.
  by rewrite take_app_length, drop_app_length.
Qed.

Lemma length_doubles bins :
  length (mjoin (f64_to_le_bytes <$> bins)) = (length bins * 8)%nat.
Proof.
  induction bins as [|b bins IH]; [done|].
  rewrite mjoin_fmap_cons, length_app, IH. unfold f64_to_le_bytes. rewrite length_le_bytes.
  simpl. lia.
Qed.

Lemma read_doubles_written bins :
  Forall (fun x => is_u64 (f64_bits x)) bins ->
  read_doubles (length bins) (mjoin (f64_to_le_bytes <$> bins)) = f64_bits <$> bins.
Proof.
  induction 1 as [|b bins Hb Hbs IH]; [done|]. rewrite mjoin_fmap_cons. cbn [length read_doubles].
  assert (length (f64_to_le_bytes b) = 8%nat) as Hl by apply length_le_bytes.
  rewrite take_app_length', drop_app_length' by done. by rewrite from_le_bytes_f64, IH.
Qed.

(** What a store of the crate satisfies: an [i32] offset, at most [BIN_LIMIT]
    bins, and bins that are 64-bit floats. *)
Definition wire_ok (s : Store.t) : Prop :=
  is_i32 (Store.offset s) /\ Store.len s <= BIN_LIMIT /\
  Forall (fun x => is_u64 (f64_bits x)) (Store.bins s).

(** The tags, as the one byte they are written in. *)
Lemma write_tag_byte buf field wire :
  0 < field < 16 -> 0 <= wire < 8 -> write_tag buf field wire = buf ++ [8 * field + wire].
Proof.
  intros Hf Hw. unfold write_tag. rewrite Z.shiftl_mul_pow2 by lia. change (2 ^ 3) with 8.
  unfold wrap_u32. rewrite Z.mod_small by lia.
  rewrite Z.lor_comm. change 8 with (2 ^ 3) at 1. rewrite lor_low by lia.
  rewrite write_uvarint_app. f_equal. unfold write_uvarint.
  rewrite write_uvarint_loop_S, bool_decide_true by (apply Z.div_small; lia).
  rewrite Z.mod_small by lia. simpl. f_equal. lia.
Qed.

Lemma encode_store_eq s :
  is_i32 (Store.offset s) ->
  encode_store s =
    (if bool_decide (Store.bins s = []) then []
     else 18 :: write_uvarint [] (Z.of_nat (length (mjoin (f64_to_le_bytes <$> Store.bins s))))
          ++ mjoin (f64_to_le_bytes <$> Store.bins s))
    ++ 24 :: write_uvarint [] (zigzag (Store.offset s)).
Proof.
  intros Ho. unfold encode_store. rewrite write_zigzag32_spec by done.
  rewrite write_uvarint_app, !write_tag_byte by (unfold WIRE_VARINT, WIRE_LEN; lia).
  rewrite <- app_assoc. f_equal. case_bool_decide; [done|].
  rewrite write_uvarint_app, <- !app_assoc, length_doubles.
  simpl. do 3 f_equal. lia.
Qed.

Lemma read_tag_byte field wire field' wire' rest :
  0 < field < 16 -> 0 <= wire < 8 ->
  read_tag field' wire' (8 * field + wire :: rest) =
    if 8 * field + wire =? 8 * field' + wire' then Some rest else None.
Proof.
  intros Hf Hw. unfold read_tag, decode_uvarint.
  change (8 * field + wire :: rest) with (varint_bytes [8 * field + wire] ++ rest).
  rewrite decode_uvarint_from_groups; [|done|by repeat constructor; lia|lia|simpl; lia|lia].
  simpl. rewrite Z.mod_small by lia. by rewrite Z.mul_1_r, Z.add_0_r.
Qed.

Lemma read_store_encoded s :
  wire_ok s -> read_store (encode_store s) = Some (f64_bits <$> Store.bins s, Store.offset s).
Proof.
  intros (Ho & Hl & Hb). rewrite encode_store_eq by done. unfold read_store.
  destruct (decode_zigzag_write [] (Store.offset s) []) as (enc & Henc & Hdec);
    [unfold is_i32, is_i64 in *; lia|].
  rewrite app_nil_l in Henc. rewrite Henc. rewrite app_nil_r in Hdec.
  set (packed := mjoin _). assert (length packed = length (Store.bins s) * 8)%nat as Hp
    by apply length_doubles.
  change (24 :: enc) with (8 * 3 + WIRE_VARINT :: enc).
  case_bool_decide as He.
  - rewrite He, app_nil_l. rewrite !read_tag_byte by (unfold WIRE_VARINT; lia). simpl.
    by rewrite Hdec.
  - cbn [app]. rewrite <- app_assoc. change 18 with (8 * 2 + WIRE_LEN).
    rewrite read_tag_byte by (unfold WIRE_LEN; lia). rewrite Z.eqb_refl.
    rewrite read_bytes_written by (unfold Store.len, BIN_LIMIT in Hl; lia). cbn [mbind option_bind].
    rewrite read_tag_byte by (unfold WIRE_VARINT; lia). rewrite Z.eqb_refl.
    cbn [mbind option_bind]. rewrite Hdec. cbn [mbind option_bind].
    rewrite bool_decide_true by done. rewrite Hp, Nat.div_mul by done. by rewrite read_doubles_written.
Qed.

Lemma length_encode_store s :
  wire_ok s -> Z.of_nat (length (encode_store s)) < 2 ^ 20.
Proof.
  intros (Ho & Hl & _). rewrite encode_store_eq by done.
  pose proof (length_doubles (Store.bins s)) as Hd. unfold Store.len, BIN_LIMIT in Hl.
  pose proof (length_write_uvarint (zigzag (Store.offset s))
    (zigzag_range (Store.offset s) ltac:(unfold is_i32, is_i64 in *; lia))).
  set (packed := mjoin _) in *.
  pose proof (length_write_uvarint (Z.of_nat (length packed)) ltac:(unfold is_u64; lia)).
  rewrite length_app. case_bool_decide; simpl; rewrite ?length_app; lia.
Qed.

(** Writers append. *)
Ltac appended :=
  repeat match goal with
  | |- context [write_uvarint ?b ?v] =>
      lazymatch b with [] => fail | _ => rewrite (write_uvarint_app b v) end
  end.

(** The mapping message. *)
Definition mapping_bytes (self : t) : list Z :=
  9 :: f64_to_le_bytes (gamma (mapping self)) ++ 17 :: f64_to_le_bytes f64_zero ++ [24; 0].

Lemma length_mapping_bytes self : length (mapping_bytes self) = 20%nat.
Proof.
  unfold mapping_bytes, f64_to_le_bytes. cbn [length]. rewrite !length_app. cbn [length].
  by rewrite !length_app, !length_le_bytes.
Qed.

(** A length-delimited field. *)
Definition delimited (tag : Z) (m rest : list Z) : list Z :=
  tag :: write_uvarint [] (Z.of_nat (length m)) ++ m ++ rest.

Lemma to_proto_bytes_eq self :
  to_proto_bytes self =
    delimited 10 (mapping_bytes self)
      (delimited 18 (encode_store (store self))
         (delimited 26 (encode_store (negative_store self))
            (33 :: f64_to_le_bytes (zero_count self)))).
Proof.
  unfold to_proto_bytes.
  rewrite !(write_tag_byte _ 1), !(write_tag_byte _ 2), !(write_tag_byte _ 3), !(write_tag_byte _ 4)
    by (unfold WIRE_VARINT, WIRE_LEN, WIRE_FIXED64; lia).
  set (m := _ ++ [0]).
  assert (m = mapping_bytes self) as -> by (unfold m; by rewrite <- !app_assoc).
  appended. rewrite <- !app_assoc. unfold delimited. reflexivity.
Qed.

Lemma read_delimited field m rest (k : list Z * list Z -> option (Z * (list Z * Z) * (list Z * Z) * Z)) :
  0 < field < 16 -> Z.of_nat (length m) < 2 ^ 64 ->
  (rest ← read_tag field WIRE_LEN (delimited (8 * field + WIRE_LEN) m rest);
   r ← read_bytes rest; k r) = k (m, rest).
Proof.
  intros Hf Hm. unfold delimited. rewrite read_tag_byte by (unfold WIRE_LEN; lia).
  rewrite Z.eqb_refl. cbn [mbind option_bind]. by rewrite read_bytes_written.
Qed.

Lemma bind_some {A B} (k : A -> option B) x : (Some x ≫= k) = k x.
Proof. reflexivity. Qed.

(** C25: a protobuf reader gets back from the bytes of a sketch exactly its
    gamma, its zero count and, for both stores, every bin as its bit pattern and
    the index of the first bin. *)
Theorem sketch_wire_roundtrip self :
  wire_ok (store self) -> wire_ok (negative_store self) ->
  is_u64 (f64_bits (gamma (mapping self))) -> is_u64 (f64_bits (zero_count self)) ->
  read_sketch (to_proto_bytes self) =
    Some (f64_bits (gamma (mapping self)),
          (f64_bits <$> Store.bins (store self), Store.offset (store self)),
          (f64_bits <$> Store.bins (negative_store self), Store.offset (negative_store self)),
          f64_bits (zero_count self)).
Proof.
  intros Hp Hn Hg Hz. rewrite to_proto_bytes_eq.
  pose proof (length_encode_store _ Hp) as Hlp. pose proof (length_encode_store _ Hn) as Hln.
  pose proof (length_mapping_bytes self) as Hlm.
  unfold read_sketch.
  rewrite (read_delimited 1) by lia. unfold mapping_bytes at 1.
  rewrite (read_tag_byte 1 WIRE_FIXED64 1 WIRE_FIXED64) by (unfold WIRE_FIXED64; lia).
  rewrite Z.eqb_refl. rewrite bind_some.
  rewrite read_fixed64_f64 by exact Hg. rewrite bind_some.
  rewrite (read_delimited 2) by lia. rewrite read_store_encoded by exact Hp. rewrite bind_some.
  rewrite (read_delimited 3) by lia. rewrite read_store_encoded by exact Hn. rewrite bind_some.
  rewrite (read_tag_byte 4 WIRE_FIXED64 4 WIRE_FIXED64) by (unfold WIRE_FIXED64; lia).
  rewrite Z.eqb_refl. rewrite bind_some.
  rewrite <- (app_nil_r (f64_to_le_bytes (zero_count self))).
  rewrite read_fixed64_f64 by exact Hz.
  rewrite bind_some, bool_decide_true by reflexivity. reflexivity.
Qed.

(** A sketch of three values, with stand-ins for the two logarithms. *)
Definition sample_libm : libm := {| log2 := fun x => x; ln_1p := fun _ => f64_one |}.

Definition sample_sketch : outcome t :=
  accept_all sample_libm (new sample_libm) [f64_of_Z 3; f64_of_Z (-2); f64_zero].

Lemma sketch_wire_roundtrip_witness :
  match sample_sketch with
  | Done s => exists g, read_sketch (to_proto_bytes s) =
      Some (g, (f64_bits <$> Store.bins (store s), Store.offset (store s)),
            (f64_bits <$> Store.bins (negative_store s), Store.offset (negative_store s)),
            f64_bits f64_one)
  | Panic => False
  end.
Proof.
  destruct sample_sketch as [s|] eqn:Hs; vm_compute in Hs; [|discriminate Hs].
  injection Hs as <-. eexists. apply sketch_wire_roundtrip.
  1, 2: split_and!; [|vm_compute; congruence|].
  all: apply (bool_decide_unpack _); vm_compute; exact I.
Defined.

(** Both stores keep their shape. *)
Definition sketch_ok (self : t) : Prop :=
  Store.wf (store self) /\ Store.wf (negative_store self).

(** The keys a value can produce stay within the bound. *)
Definition sample_ok (m : libm) (mapping : LogarithmicMapping) (v : f64) : Prop :=
  Store.key_ok (key m mapping v) /\ Store.key_ok (key m mapping (fneg v)).

Lemma accept_total m self v :
  sketch_ok self -> sample_ok m (mapping self) v ->
  exists self', accept m self v = Done self' /\ sketch_ok self' /\ mapping self' = mapping self.
Proof.
  intros [Hs Hn] [Hk Hk']. unfold accept.
  destruct (flt _ v); [|destruct (flt v _)].
  - destruct (Store.add_spec _ _ Hs Hk) as (s & -> & Hadd). eexists. split; [done|].
    split; [|done]. split; [right; apply Hadd|done].
  - destruct (Store.add_spec _ _ Hn Hk') as (s & -> & Hadd). eexists. split; [done|].
    split; [|done]. split; [done|right; apply Hadd].
  - by eexists.
Qed.

Lemma new_ok m : sketch_ok (new m).
Proof. by split; left. Qed.

End DdSketch.
