(* ===== verification/DataStreams.v ===== *)
(** Data Streams Monitoring: the pathway hash ([pathway.rs],
    [propagation_hash.rs]), the consume checkpoint ([checkpoint.rs]), the
    ten-second aggregation buckets ([aggregator.rs]) and the processor that ties
    them to the proxy queue ([processor.rs]), all under [traces/data_streams].

    SHA-256, base64, gzip and the MessagePack encoder are other crates' code and
    are arguments. A [HashMap] is a [gmap]; the order in which it is drained is
    the map's, which the source leaves open. The aggregator's mutex cannot be
    poisoned, since a panic aborts the process. *)
From S2P Require Import Prelude F64 Text Wire Sketch Aggregators.
From stdpp Require Import sorting.
#[local] Open Scope Z_scope.

(** The bytes of a string. *)
Definition as_bytes (s : string) : list Z :=
  (fun a => Z.of_N (N_of_ascii a)) <$> String.list_ascii_of_string s.

(** * Propagation hash *)

Definition FNV1_64_OFFSET_BASIS : Z := 0xCBF29CE484222325.
Definition FNV1_64_PRIME : Z := 0x00000100000001B3.

Definition fnv1_64 (bytes : list Z) : Z :=
  foldl (fun hash byte => Z.lxor (wrap_u64 (hash * FNV1_64_PRIME)) byte)
    FNV1_64_OFFSET_BASIS bytes.

(** * Pathway hash *)

Definition MANUAL_CHECKPOINT_TAG : string := "manual_checkpoint:true".

Definition hex_digit (d : Z) : ascii :=
  ascii_of_N (Z.to_N (if d <? 10 then 48 + d else 87 + d)).

(** [format!("{hash:x}")] of a [u64]: at most sixteen digits. *)
Fixpoint hex_loop (fuel : nat) (acc : string) (z : Z) : string :=
  match fuel with
  | O => acc
  | S fuel' =>
      let acc := String (hex_digit (z mod 16)) acc in
      if bool_decide (z / 16 = 0) then acc else hex_loop fuel' acc (z / 16)
  end.

Definition to_hex (z : Z) : string := hex_loop 16 EmptyString z.

Section PathwayHash.
Context (sha256_digest : list Z -> list Z).

Definition sha256_first8 (bytes : list Z) : list Z := take 8 (sha256_digest bytes).

(** The string the first hash is taken of. *)
Definition base_string (service env : string) (edge_tags : list string)
    (propagation_hash : option Z) : string :=
  let tags := merge_sort String.le edge_tags in
  let joined_tags := foldr String.append EmptyString
    (filter (fun tag => tag <> MANUAL_CHECKPOINT_TAG) tags) in
  let base := String.append service (String.append env joined_tags) in
  match propagation_hash with
  | Some hash => String.append base (String.append ":" (to_hex hash))
  | None => base
  end.

Definition compute_pathway_hash (service env : string) (edge_tags : list string)
    (parent_hash : list Z) (propagation_hash : option Z) : list Z :=
  let base := base_string service env edge_tags propagation_hash in
  let current_hash := sha256_first8 (as_bytes base) in
  let combined := current_hash ++ parent_hash in
  let combined_string := from_utf8_lossy combined in
  sha256_first8 combined_string.

(** * Checkpoints *)

Definition ENTRY_PARENT_HASH : list Z := replicate 8 0.

Record Checkpoint := {
  cp_hash : list Z;
  cp_parent_hash : list Z;
  cp_edge_tags : list string;
  edge_latency_ns : Z;
  pathway_latency_ns : Z;
  current_ts_ns : Z;
}.

Definition compute_consume_checkpoint (service env : string) (edge_tags : list string)
    (ctx : option DsmContext) (now_ns : Z) (propagation_hash : option Z) : Checkpoint :=
  let '(parent_hash, pathway_start_ns, edge_start_ns) :=
    match ctx with
    | Some ctx => (Wire.hash ctx, Wire.pathway_start_ns ctx, Wire.edge_start_ns ctx)
    | None => (ENTRY_PARENT_HASH, now_ns, now_ns)
    end in
  let hash := compute_pathway_hash service env edge_tags parent_hash propagation_hash in
  let edge_latency_ns := saturating_sub now_ns edge_start_ns in
  let pathway_latency_ns := saturating_sub now_ns pathway_start_ns in
  {| cp_hash := hash; cp_parent_hash := parent_hash; cp_edge_tags := edge_tags;
     edge_latency_ns := edge_latency_ns; pathway_latency_ns := pathway_latency_ns;
     current_ts_ns := now_ns |}.

End PathwayHash.

(** * Aggregation *)

Module DsmAggregator.

Definition BUCKET_SIZE_NS : Z := 10000000000.

Record StatsPoint := {
  hash : Z;
  parent_hash : Z;
  edge_tags : list string;
  edge_latency : DdSketch.t;
  pathway_latency : DdSketch.t;
  payload_size : DdSketch.t;
}.

(** The serialized structures. *)
Record StatsPointSer := {
  ser_hash : Z;
  ser_parent_hash : Z;
  ser_edge_tags : list string;
  ser_edge_latency : list Z;
  ser_pathway_latency : list Z;
  ser_payload_size : list Z;
}.

Record StatsBucketSer := {
  start : Z;
  duration : Z;
  bucket_stats : list StatsPointSer;
  backlogs : list unit;
}.

Record StatsPayloadSer := {
  ser_env : string;
  ser_service : string;
  ser_stats : list StatsBucketSer;
  ser_tracer_version : string;
  ser_lang : string;
  ser_version : string;
  ser_tags : list string;
}.

Abbreviation StatsBucket := (gmap Z StatsPoint).

Record t := {
  service : string;
  env : string;
  tracer_version : string;
  version : string;
  tags : list string;
  buckets : gmap Z StatsBucket;
}.

Definition new (service env tracer_version version : string) (tags : list string) : t :=
  {| service := service; env := env; tracer_version := tracer_version; version := version;
     tags := tags; buckets := ∅ |}.

Definition with_buckets (self : t) (b : gmap Z StatsBucket) : t :=
  {| service := service self; env := env self; tracer_version := tracer_version self;
     version := version self; tags := tags self; buckets := b |}.

Section Aggregator.
Context (m : DdSketch.libm).

Definition StatsPoint_new (hash parent_hash : Z) (edge_tags : list string) : StatsPoint :=
  {| hash := hash; parent_hash := parent_hash; edge_tags := edge_tags;
     edge_latency := DdSketch.new m; pathway_latency := DdSketch.new m;
     payload_size := DdSketch.new m |}.

Definition seconds (ns : Z) : f64 := fdiv (f64_of_Z ns) (f64_of_Z 1000000000).

Definition StatsPoint_add (self : StatsPoint) (edge_latency_ns pathway_latency_ns : Z)
    (size : f64) : outcome StatsPoint :=
  let edge_s := seconds edge_latency_ns in
  let pathway_s := seconds pathway_latency_ns in
  e ← DdSketch.accept m (edge_latency self) edge_s;
  p ← DdSketch.accept m (pathway_latency self) pathway_s;
  s ← DdSketch.accept m (payload_size self) size;
  Done {| hash := hash self; parent_hash := parent_hash self; edge_tags := edge_tags self;
          edge_latency := e; pathway_latency := p; payload_size := s |}.

Definition bucket_start (checkpoint : Checkpoint) : Z :=
  wrap_u64 (current_ts_ns checkpoint - current_ts_ns checkpoint mod BUCKET_SIZE_NS).

Definition add (self : t) (checkpoint : Checkpoint) (size : f64) : outcome t :=
  let bucket_start := bucket_start checkpoint in
  let hash := DdSketch.from_le_bytes (cp_hash checkpoint) in
  let parent_hash := DdSketch.from_le_bytes (cp_parent_hash checkpoint) in
  let bucket := default ∅ (buckets self !! bucket_start) in
  let point := default (StatsPoint_new hash parent_hash (cp_edge_tags checkpoint))
                 (bucket !! hash) in
  point ← StatsPoint_add point (edge_latency_ns checkpoint) (pathway_latency_ns checkpoint) size;
  Done (with_buckets self (<[bucket_start := <[hash := point]> bucket]> (buckets self))).

Definition is_empty (self : t) : bool := bool_decide (buckets self = ∅).

Definition point_ser (p : StatsPoint) : StatsPointSer :=
  {| ser_hash := hash p; ser_parent_hash := parent_hash p; ser_edge_tags := edge_tags p;
     ser_edge_latency := DdSketch.to_proto_bytes (edge_latency p);
     ser_pathway_latency := DdSketch.to_proto_bytes (pathway_latency p);
     ser_payload_size := DdSketch.to_proto_bytes (payload_size p) |}.

Definition bucket_ser (entry : Z * StatsBucket) : StatsBucketSer :=
  {| start := fst entry; duration := BUCKET_SIZE_NS;
     bucket_stats := point_ser ∘ snd <$> map_to_list (snd entry); backlogs := [] |}.

Definition take_payload (to_vec_named : StatsPayloadSer -> option bytes) (self : t)
  : option bytes * t :=
  if is_empty self then (None, self)
  else
    let stats := bucket_ser <$> map_to_list (buckets self) in
    let self := with_buckets self ∅ in
    let payload :=
      {| ser_env := env self; ser_service := service self; ser_stats := stats;
         ser_tracer_version := tracer_version self; ser_lang := "rust-extension";
         ser_version := version self; ser_tags := tags self |} in
    (to_vec_named payload, self).

Fixpoint add_all (self : t) (cps : list (Checkpoint * f64)) : outcome t :=
  match cps with
  | [] => Done self
  | (c, size) :: cps => self ← add self c size; add_all self cps
  end.

(** * Grouping *)

Abbreviation sample := (Checkpoint * f64)%type.

Definition hash_of (c : sample) : Z := DdSketch.from_le_bytes (cp_hash (fst c)).

Definition in_group (b h : Z) (c : sample) : Prop :=
  bucket_start (fst c) = b /\ hash_of c = h.

#[export] Instance in_group_dec b h c : Decision (in_group b h c).
Proof. unfold in_group. apply _. Defined.

Definition point_add (p : StatsPoint) (c : sample) : outcome StatsPoint :=
  StatsPoint_add p (edge_latency_ns (fst c)) (pathway_latency_ns (fst c)) (snd c).

Fixpoint point_add_all (p : StatsPoint) (cs : list sample) : outcome StatsPoint :=
  match cs with
  | [] => Done p
  | c :: cs => p ← point_add p c; point_add_all p cs
  end.

(** The point a group of checkpoints amounts to: identified by the first of
    them, holding the samples of all of them in order. *)
Definition group_point (cs : list sample) : option (outcome StatsPoint) :=
  match cs with
  | [] => None
  | c :: _ =>
      Some (point_add_all
        (StatsPoint_new (hash_of c) (DdSketch.from_le_bytes (cp_parent_hash (fst c)))
           (cp_edge_tags (fst c))) cs)
  end.

Definition lookup_point (self : t) (b h : Z) : option StatsPoint :=
  bucket ← buckets self !! b; bucket !! h.

Definition std_mapping : DdSketch.LogarithmicMapping :=
  DdSketch.LogarithmicMapping_new m DdSketch.RELATIVE_ACCURACY.

(** The logarithm answers within the key bound on the three samples. *)
Definition checkpoint_ok (c : sample) : Prop :=
  DdSketch.sample_ok m std_mapping (seconds (edge_latency_ns (fst c))) /\
  DdSketch.sample_ok m std_mapping (seconds (pathway_latency_ns (fst c))) /\
  DdSketch.sample_ok m std_mapping (snd c).

Definition std_sketch (s : DdSketch.t) : Prop :=
  DdSketch.sketch_ok s /\ DdSketch.mapping s = std_mapping.

Definition point_ok (p : StatsPoint) : Prop :=
  std_sketch (edge_latency p) /\ std_sketch (pathway_latency p) /\ std_sketch (payload_size p).

Lemma std_accept s v :
  std_sketch s -> DdSketch.sample_ok m std_mapping v ->
  exists s', DdSketch.accept m s v = Done s' /\ std_sketch s'.
Proof.
  intros [Hs Hm] Hv. rewrite <- Hm in Hv.
  destruct (DdSketch.accept_total m s v Hs Hv) as (s' & Ha & Hok & Hm').
  exists s'. split; [done|]. split; [done|congruence].
Qed.

Lemma point_add_total p c :
  point_ok p -> checkpoint_ok c -> exists p', point_add p c = Done p' /\ point_ok p'.
Proof.
  intros (He & Hp & Hs) (Hce & Hcp & Hcs). unfold point_add, StatsPoint_add.
  destruct (std_accept _ _ He Hce) as (e & -> & He').
  destruct (std_accept _ _ Hp Hcp) as (p' & -> & Hp').
  destruct (std_accept _ _ Hs Hcs) as (s & -> & Hs'). by eexists.
Qed.

Lemma new_point_ok h ph tags : point_ok (StatsPoint_new h ph tags).
Proof. unfold point_ok. simpl. split_and!; (split; [apply DdSketch.new_ok|done]). Qed.

Lemma point_add_all_snoc cs : forall p c,
  point_add_all p (cs ++ [c]) = (p' ← point_add_all p cs; point_add p' c).
Proof.
  induction cs as [|c' cs IH]; intros p c; simpl.
  - by destruct (point_add p c).
  - destruct (point_add p c'); simpl; [apply IH|done].
Qed.

(** The aggregator holds exactly the groups of the checkpoints added so far. *)
Definition grouped (cs : list sample) (self : t) : Prop :=
  forall b h, Done <$> lookup_point self b h = group_point (filter (in_group b h) cs) /\
    (forall p, lookup_point self b h = Some p -> point_ok p).

Lemma lookup_point_insert self b h p b' h' :
  lookup_point (with_buckets self (<[b := <[h := p]> (default ∅ (buckets self !! b))]> (buckets self)))
    b' h' = if decide (b = b' /\ h = h') then Some p else lookup_point self b' h'.
Proof.
  unfold lookup_point. simpl. destruct (decide (b = b')) as [->|Hb].
  - rewrite lookup_insert_eq. simpl. destruct (decide (h = h')) as [->|Hh].
    + rewrite lookup_insert_eq, decide_True by done. done.
    + rewrite lookup_insert_ne, decide_False by tauto. by destruct (buckets self !! b').
  - rewrite lookup_insert_ne, decide_False by tauto. done.
Qed.

Lemma group_point_snoc cs c p :
  match group_point cs with
  | None => p = StatsPoint_new (hash_of c) (DdSketch.from_le_bytes (cp_parent_hash (fst c)))
                  (cp_edge_tags (fst c))
  | Some o => o = Done p
  end -> group_point (cs ++ [c]) = Some (point_add p c).
Proof.
  destruct cs as [|c0 cs]; cbn [group_point app].
  - intros ->. cbn [point_add_all]. destruct (point_add _ c); reflexivity.
  - intros Hp. change (c0 :: cs ++ [c]) with ((c0 :: cs) ++ [c]).
    rewrite point_add_all_snoc, Hp. reflexivity.
Qed.

Lemma grouped_add cs self c :
  grouped cs self -> checkpoint_ok c ->
  exists self', add self (fst c) (snd c) = Done self' /\ grouped (cs ++ [c]) self'.
Proof.
  intros Hg Hc. unfold add. set (b := bucket_start (fst c)). fold (hash_of c). set (h := hash_of c).
  replace (default ∅ (buckets self !! b) !! h) with (lookup_point self b h)
    by (unfold lookup_point; by destruct (buckets self !! b)).
  set (p0 := default _ (lookup_point self b h)).
  destruct (Hg b h) as [Hgp Hok].
  assert (point_ok p0) as Hp0.
  { unfold p0. destruct (lookup_point self b h); simpl; [by apply Hok|apply new_point_ok]. }
  destruct (point_add_total p0 c Hp0 Hc) as (p & Hp & Hpok).
  unfold point_add in Hp. rewrite Hp. simpl. eexists. split; [done|].
  intros b' h'. rewrite lookup_point_insert, filter_app.
  destruct (decide (b = b' /\ h = h')) as [[<- <-]|Hne].
  - split; [|by intros ? [= <-]].
    rewrite (filter_cons_True (in_group b h) c []) by done. rewrite filter_nil. simpl.
    rewrite (group_point_snoc _ _ p0); [by unfold point_add; rewrite Hp|].
    rewrite <- Hgp. unfold p0. by destruct (lookup_point self b h).
  - rewrite (filter_cons_False (in_group b' h') c []) by done. rewrite filter_nil, app_nil_r.
    apply Hg.
Qed.

Lemma grouped_add_all cs' : forall cs self,
  grouped cs self -> Forall checkpoint_ok cs' ->
  exists self', add_all self cs' = Done self' /\ grouped (cs ++ cs') self'.
Proof.
  induction cs' as [|[c size] cs' IH]; intros cs self Hg Hok; simpl.
  - exists self. by rewrite app_nil_r.
  - apply Forall_cons in Hok as [Hc Hok].
    destruct (grouped_add cs self (c, size) Hg Hc) as (s & Ha & Hs). simpl in Ha. rewrite Ha. simpl.
    rewrite cons_middle, app_assoc. by apply IH.
Qed.

Lemma grouped_new sv en tv v tg : grouped [] (new sv en tv v tg).
Proof. intros b h. unfold lookup_point. simpl. by rewrite lookup_empty. Qed.

End Aggregator.

(** C27: the aggregator is a group-by: adding checkpoints never fails, and
    afterwards the point of every ten-second bucket and pathway hash is the one
    its own checkpoints amount to, with the parent and the tags of the first and
    the samples of all of them in order; other pairs have no point. *)
Theorem dsm_groups_checkpoints m sv en tv v tg cs :
  Forall (checkpoint_ok m) cs ->
  exists agg, add_all m (new sv en tv v tg) cs = Done agg /\
    forall b h, Done <$> lookup_point agg b h = group_point m (filter (in_group b h) cs).
Proof.
  intros Hok. destruct (grouped_add_all m cs [] _ (grouped_new m sv en tv v tg) Hok)
    as (agg & Ha & Hg).
  exists agg. split; [done|]. intros b h. apply Hg.
Qed.

Definition sample_checkpoint (ts : Z) (h : Z) : Checkpoint :=
  {| cp_hash := le_bytes 8 h; cp_parent_hash := ENTRY_PARENT_HASH; cp_edge_tags := ["direction:in"%string];
     edge_latency_ns := 5000000; pathway_latency_ns := 7000000; current_ts_ns := ts |}.

Definition sample_checkpoints : list (Checkpoint * f64) :=
  [(sample_checkpoint 25000000000 7, f64_one); (sample_checkpoint 31000000000 7, f64_one);
   (sample_checkpoint 29999999999 7, f64_one)].

Definition sample_libm : DdSketch.libm :=
  {| DdSketch.log2 := fun _ => f64_one; DdSketch.ln_1p := fun _ => f64_one |}.

Lemma dsm_groups_checkpoints_witness :
  exists agg, add_all sample_libm (new "s" "e" "t" "v" []) sample_checkpoints = Done agg /\
    Done <$> lookup_point agg 20000000000 7 =
      group_point sample_libm
        [(sample_checkpoint 25000000000 7, f64_one); (sample_checkpoint 29999999999 7, f64_one)].
Proof.
  destruct (dsm_groups_checkpoints sample_libm "s" "e" "t" "v" [] sample_checkpoints)
    as (agg & Ha & Hg).
  - repeat (apply Forall_cons; split; [by vm_compute|]). apply Forall_nil_2.
  - exists agg. split; [exact Ha|exact (Hg 20000000000 7)].
Defined.

End DsmAggregator.

(** * The processor *)

Definition TRACE_INTAKE_ROUTE : bytes := (b!"/api/v0.2/traces")%rust.

(** [str::trim_end_matches]: the pattern is removed as long as it is there. *)
Fixpoint trim_end_loop (fuel : nat) (pat s : bytes) : bytes :=
  match fuel with
  | O => s
  | S fuel' =>
      let k := (length s - length pat)%nat in
      if (length pat <=? length s)%nat && bool_decide (drop k s = pat)
      then trim_end_loop fuel' pat (take k s) else s
  end.

Definition trim_end_matches (pat s : bytes) : bytes := trim_end_loop (length s) pat s.

Definition intake_base_url (apm_dd_url : bytes) : bytes :=
  trim_end_matches TRACE_INTAKE_ROUTE (trim_end_matches (b!"/")%rust apm_dd_url).

Definition DD_PATHWAY_CTX_BASE64_KEY : string := "dd-pathway-ctx-base64".
Definition DD_PATHWAY_CTX_KEY : string := "dd-pathway-ctx".

Module DsmProcessor.
Section Processor.
Context (m : DdSketch.libm) (sha256_digest : list Z -> list Z)
  (STANDARD_decode : list Z -> option (list Z))
  (to_vec_named : DsmAggregator.StatsPayloadSer -> option bytes)
  (gzip : bytes -> option bytes).
Context {HeaderMap : Type} (pipeline_headers : HeaderMap).

Abbreviation proxy := (@ProxyAggregator.t HeaderMap).

Record t := {
  service : string;
  env : string;
  aggregator : DsmAggregator.t;
  target_url : string;
}.

Definition new (service env tracer_version version : string) (tags : list string)
    (apm_dd_url : bytes) : t :=
  {| service := service; env := env;
     aggregator := DsmAggregator.new service env tracer_version version tags;
     target_url := String.string_of_list_ascii
       (intake_base_url apm_dd_url ++ (b!"/api/v0.1/pipeline_stats")%rust) |}.

Definition with_aggregator (self : t) (agg : DsmAggregator.t) : t :=
  {| service := service self; env := env self; aggregator := agg; target_url := target_url self |}.

Definition extract_pathway_context (carrier : gmap string string) : option DsmContext :=
  match v ← carrier !! DD_PATHWAY_CTX_BASE64_KEY; from_base64 STANDARD_decode (as_bytes v) with
  | Some ctx => Some ctx
  | None => v ← carrier !! DD_PATHWAY_CTX_KEY; from_bytes (as_bytes v)
  end.

Definition record_consume (self : t) (edge_tags : list string) (carrier : gmap string string)
    (payload_size : f64) (now_ns : Z) : outcome t :=
  let ctx := extract_pathway_context carrier in
  let checkpoint := compute_consume_checkpoint sha256_digest
    (service self) (env self) edge_tags ctx now_ns None in
  agg ← DsmAggregator.add m (aggregator self) checkpoint payload_size;
  Done (with_aggregator self agg).

(** The proxy queue is shared with the proxy flusher and passed along. *)
Definition drain_into_proxy (self : t) (proxy_aggregator : proxy) : t * proxy :=
  let '(payload, agg) := DsmAggregator.take_payload to_vec_named (aggregator self) in
  let self := with_aggregator self agg in
  match payload with
  | None => (self, proxy_aggregator)
  | Some payload =>
      match gzip payload with
      | None => (self, proxy_aggregator)
      | Some body =>
          let request := {| ProxyAggregator.headers := pipeline_headers;
                            ProxyAggregator.body := body;
                            ProxyAggregator.target_url := target_url self |} in
          (self, ProxyAggregator.add proxy_aggregator request)
      end
  end.

End Processor.
End DsmProcessor.

(** * Properties of the pathway hash *)

(** The tags that enter the hash. *)
Definition hashed_tags (tags : list string) : list string :=
  filter (fun tag => tag <> MANUAL_CHECKPOINT_TAG) (merge_sort String.le tags).

Lemma StronglySorted_filter {A} (R : relation A) (P : A -> Prop) `{forall x, Decision (P x)} l :
  StronglySorted R l -> StronglySorted R (filter P l).
Proof.
  induction 1 as [|x l Hl IH Hx]; [constructor|]. rewrite filter_cons. case_decide; [|done].
  constructor; [done|]. apply Forall_forall. intros y Hy. apply list_elem_of_filter in Hy as [_ Hy].
  by apply (proj1 (Forall_forall _ _) Hx).
Qed.

Lemma hashed_tags_permutation tags tags' :
  filter (fun tag => tag <> MANUAL_CHECKPOINT_TAG) tags ≡ₚ
    filter (fun tag => tag <> MANUAL_CHECKPOINT_TAG) tags' ->
  hashed_tags tags = hashed_tags tags'.
Proof.
  intros Hp. apply (StronglySorted_unique String.le).
  - by apply StronglySorted_filter, StronglySorted_merge_sort; apply _.
  - by apply StronglySorted_filter, StronglySorted_merge_sort; apply _.
  - unfold hashed_tags. by rewrite !merge_sort_Permutation.
Qed.

(** C26: the pathway hash depends on the edge tags only as a bag, and not on the
    manual-checkpoint marker: two tag lists that agree up to order and up to the
    marker hash alike, for every service, parent and propagation hash. *)
Theorem pathway_hash_order_independent sha256 service env tags tags' parent prop :
  filter (fun tag => tag <> MANUAL_CHECKPOINT_TAG) tags ≡ₚ
    filter (fun tag => tag <> MANUAL_CHECKPOINT_TAG) tags' ->
  compute_pathway_hash sha256 service env tags parent prop =
    compute_pathway_hash sha256 service env tags' parent prop.
Proof.
  intros Hp. unfold compute_pathway_hash, base_string.
  change (filter (fun tag => tag <> MANUAL_CHECKPOINT_TAG) (merge_sort String.le ?l))
    with (hashed_tags l).
  by rewrite (hashed_tags_permutation tags tags').
Qed.

Lemma pathway_hash_order_independent_witness :
  compute_pathway_hash (fun b => b) "svc" "prod" ["type:sqs"; MANUAL_CHECKPOINT_TAG; "direction:in"]
    ENTRY_PARENT_HASH (Some 255) =
  compute_pathway_hash (fun b => b) "svc" "prod" ["direction:in"; "type:sqs"]
    ENTRY_PARENT_HASH (Some 255).
Proof.
  apply pathway_hash_order_independent. vm_compute. apply Permutation_swap.
Defined.
