(* ===== verification/Stitch.v ===== *)
(** Reassembly of telemetry payloads that hold a log record Lambda cut into
    pieces: [extension/telemetry/stitch.rs].

    The JSON parser is [serde_json]: [from_events] parses a payload into the
    crate's events, [from_ignored] checks a value on its own; both are arguments,
    an error being its category, line and column. Clock reads are arguments in
    nanoseconds. The loop of [split_events] gets the length of the payload as
    fuel; every turn takes at least an envelope, so it never runs out
    ([split_loop_fuel]). *)
From S2P Require Import Prelude.

Definition MAX_FRAGMENT_BYTES : Z := 4 * 1024 * 1024.
Definition FRAGMENT_TTL : Z := 1000000000.
Definition QUOTE : ascii := ascii_of_N 34.
(** A JSON text written with ['] for the double quote. *)
Definition json (s : string) : bytes :=
  (fun a => if bool_decide (a = "'"%char) then QUOTE else a) <$> String.list_ascii_of_string s.
Definition RECORD_KEY : bytes := json "'record':".
Definition FRAMING : bytes := json "}]".
Definition EVENT_START : bytes := json "{'time':'".
Definition PIECE_TYPES : list bytes :=
  [json "'type':'function','record':"; json "'type':'extension','record':"].
Definition MAX_ENVELOPE_BYTES : nat := 128.
Definition MAX_SEAMS : nat := 64.

(** * Byte strings *)

Fixpoint strip_prefix (prefix s : bytes) : option bytes :=
  match prefix, s with
  | [], _ => Some s
  | p :: prefix', c :: s' => if bool_decide (p = c) then strip_prefix prefix' s' else None
  | _ :: _, [] => None
  end.

Definition ends_with (s suffix : bytes) : bool :=
  (length suffix <=? length s)%nat &&
  bool_decide (drop (length s - length suffix) s = suffix).

Definition strip_suffix (suffix s : bytes) : option bytes :=
  if ends_with s suffix then Some (take (length s - length suffix) s) else None.

Fixpoint find (haystack needle : bytes) : option nat :=
  match strip_prefix needle haystack with
  | Some _ => Some O
  | None => match haystack with [] => None | _ :: rest => S <$> find rest needle end
  end.

(** * Events of a payload *)

(** Length of an event's envelope and its type if it is a log piece. *)
Definition envelope (event : bytes) : option (nat * option bytes) :=
  let window := take (Nat.min (length event) MAX_ENVELOPE_BYTES) event in
  fields ← strip_prefix EVENT_START window;
  at_ ← find fields RECORD_KEY;
  let len := (at_ + length RECORD_KEY)%nat in
  let fields := take len fields in
  if existsb (fun b => bool_decide (b = "{"%char) || bool_decide (b = "}"%char)) fields then None
  else
    let kind := List.find (fun tail => ends_with fields tail) PIECE_TYPES in
    Some ((length EVENT_START + len)%nat, kind).

Record Event := {
  ev_envelope : bytes;
  value : bytes;
  kind : option bytes;
}.

(** At the first ["},"] that is followed by an envelope. *)
Fixpoint split_at_next_event (bytes_ : bytes) : option (bytes * bytes) :=
  match bytes_ with
  | [] => None
  | b :: rest =>
      let later := '(value, next) ← split_at_next_event rest; Some (b :: value, next) in
      match strip_prefix (json "},") bytes_ with
      | None => later
      | Some next => match envelope next with Some _ => Some ([], next) | None => later end
      end
  end.

Fixpoint split_loop (fuel : nat) (rest : bytes) (events : list Event) : option (list Event) :=
  match fuel with
  | O => None
  | S fuel' =>
      '(len, kind) ← envelope rest;
      let envelope := take len rest in
      let tail := drop len rest in
      match split_at_next_event tail with
      | None => Some (events ++ [{| ev_envelope := envelope; value := tail; kind := kind |}])
      | Some (value, next) =>
          split_loop fuel' next
            (events ++ [{| ev_envelope := envelope; value := value; kind := kind |}])
      end
  end.

Definition split_events (body : bytes) : option (list Event) :=
  rest ← strip_prefix (json "[") body;
  rest ← strip_suffix FRAMING rest;
  split_loop (S (length rest)) rest [].

Definition push_event (payload envelope value : bytes) : bytes :=
  payload ++ [if bool_decide (payload = []) then "["%char else ","%char]
    ++ envelope ++ value ++ ["}"%char].

(** * Parsing *)

Inductive Category := Io | Syntax | Data | Eof.

Record json_error := { classify : Category; line : Z; column : Z }.

Definition is_eof (e : json_error) : bool :=
  match classify e with Eof => true | _ => false end.

(** Indices of the newlines of [body], from [i]. *)
Fixpoint newlines (i : nat) (body : bytes) : list nat :=
  match body with
  | [] => []
  | b :: rest =>
      if bool_decide (b = ascii_of_N 10) then i :: newlines (S i) rest else newlines (S i) rest
  end.

(** The byte serde's one-based line and column point at. *)
Definition offset (body : bytes) (error : json_error) : Z :=
  let line_start :=
    if (line error =? 0) || (line error =? 1) then 0
    else match newlines 0 body !! Z.to_nat (line error - 2) with
         | Some i => Z.of_nat i + 1
         | None => 0
         end in
  line_start + saturating_sub (column error) 1.

Inductive RecordState := Whole | Cut | Broken.

Section Stitch.
Context {TelemetryEvent : Type}
  (from_events : bytes -> json_error + list TelemetryEvent)
  (from_ignored : bytes -> option json_error).

Definition parse_record (v : bytes) : RecordState :=
  match from_ignored v with
  | None => Whole
  | Some e => if is_eof e || (blen v <=? offset v e + 1) then Cut else Broken
  end.

(** The loop state of [drop_seams]: the payload being rebuilt, the record cut
    short with its pieces joined so far, and the number of seams dropped. *)
Record SeamState := { joined : bytes; cut : option (Event * bytes); seam_count : nat }.

(** One turn of the loop; [None] is [return false]. *)
Definition seam_step (s : SeamState) (event : Event) : option SeamState :=
  match cut s with
  | None =>
      match parse_record (value event) with
      | Whole => Some {| joined := push_event (joined s) (ev_envelope event) (value event);
                         cut := None; seam_count := seam_count s |}
      | Cut =>
          match kind event with
          | Some _ => Some {| joined := joined s; cut := Some (event, value event);
                              seam_count := seam_count s |}
          | None => None
          end
      | Broken => None
      end
  | Some (record, v) =>
      if bool_decide (kind event <> kind record) then
        match parse_record (value event) with
        | Whole => Some {| joined := push_event (joined s) (ev_envelope event) (value event);
                           cut := Some (record, v); seam_count := seam_count s |}
        | _ => None
        end
      else if bool_decide (seam_count s = MAX_SEAMS) then None
      else
        let v := v ++ value event in
        match parse_record v with
        | Whole => Some {| joined := push_event (joined s) (ev_envelope record) v;
                           cut := None; seam_count := S (seam_count s) |}
        | Cut => Some {| joined := joined s; cut := Some (record, v);
                         seam_count := S (seam_count s) |}
        | Broken => None
        end
  end.

Fixpoint seam_loop (s : SeamState) (events : list Event) : option SeamState :=
  match events with
  | [] => Some s
  | e :: es => s ← seam_step s e; seam_loop s es
  end.

(** The answer and the body afterwards. *)
Definition drop_seams (body : bytes) : bool * bytes :=
  match split_events body with
  | None => (false, body)
  | Some events =>
      match seam_loop {| joined := []; cut := None; seam_count := 0 |} events with
      | None => (false, body)
      | Some s =>
          let ends_cut := bool_decide (is_Some (cut s)) in
          let joined :=
            match cut s with
            | Some (record, v) => push_event (joined s) (ev_envelope record) v
            | None => joined s
            end in
          (ends_cut, joined ++ json "]")
      end
  end.

Record Fragment := { fbody : bytes; received : Z }.

Inductive StitchResult :=
| Complete (events : list TelemetryEvent)
| Pending
| Discarded.

Definition resumed_bytes (body : bytes) : option bytes :=
  event ← strip_prefix (json "[") body;
  '(len, kind) ← envelope event;
  match kind with
  | Some _ => if (len <=? length event)%nat then Some (drop len event) else None
  | None => None
  end.

Definition join_fragment (self : Fragment) (resumed : bytes) : bytes :=
  let body :=
    if ends_with (fbody self) FRAMING
    then take (length (fbody self) - length FRAMING) (fbody self) else fbody self in
  body ++ resumed.

(** The answer and the slot afterwards. *)
Definition parse_or_hold (slot : option Fragment) (body : bytes) (now : Z)
  : StitchResult * option Fragment :=
  let hold :=
    let '(cut, body) := drop_seams body in
    if cut && (blen body <=? MAX_FRAGMENT_BYTES)
    then (Pending, Some {| fbody := body; received := now |})
    else match from_events body with
         | inr events => (Complete events, slot)
         | inl _ => (Discarded, slot)
         end in
  match from_events body with
  | inr events => (Complete events, slot)
  | inl e => match classify e with Data => (Discarded, slot) | _ => hold end
  end.

Record FragmentBuffer := { held : option Fragment }.

Definition stitch (self : FragmentBuffer) (body : bytes) (now : Z) : StitchResult * FragmentBuffer :=
  let slot :=
    match held self with
    | Some f => if FRAGMENT_TTL <? saturating_sub now (received f) then None else Some f
    | None => None
    end in
  let rest :=
    let '(r, slot) := parse_or_hold None body now in (r, {| held := slot |}) in
  match slot with
  | None => rest
  | Some head =>
      match resumed_bytes body with
      | None => rest
      | Some resumed =>
          match parse_or_hold None (join_fragment head resumed) now with
          | (Discarded, _) => rest
          | (stitched, slot) => (stitched, {| held := slot |})
          end
      end
  end.

Fixpoint stitch_all (self : FragmentBuffer) (posts : list (bytes * Z))
  : list StitchResult * FragmentBuffer :=
  match posts with
  | [] => ([], self)
  | (body, now) :: posts =>
      let '(r, self) := stitch self body now in
      let '(rs, self) := stitch_all self posts in
      (r :: rs, self)
  end.

End Stitch.

(** * Byte strings *)
Lemma strip_prefix_spec p : forall s r, strip_prefix p s = Some r <-> s = p ++ r.
Proof.
  induction p as [|c p IH]; intros s r; simpl; [naive_solver|].
  destruct s as [|c' s]; [naive_solver|]. case_bool_decide; [subst|naive_solver].
  rewrite IH. naive_solver.
Qed.

Lemma strip_prefix_app p r : strip_prefix p (p ++ r) = Some r.
Proof. by apply strip_prefix_spec. Qed.

Lemma ends_with_spec s suffix : ends_with s suffix = true <-> exists pre, s = pre ++ suffix.
Proof.
  unfold ends_with. rewrite andb_true_iff, Nat.leb_le, bool_decide_eq_true. split.
  - intros [Hl Hd]. exists (take (length s - length suffix) s).
    transitivity (take (length s - length suffix) s ++ drop (length s - length suffix) s);
      [by rewrite take_drop|by f_equal].
  - intros [pre ->]. rewrite length_app. split; [lia|].
    rewrite Nat.add_sub. by rewrite drop_app_length.
Qed.

Lemma strip_suffix_spec suffix s r : strip_suffix suffix s = Some r <-> s = r ++ suffix.
Proof.
  unfold strip_suffix. destruct (ends_with s suffix) eqn:He.
  - apply ends_with_spec in He as [pre ->]. rewrite length_app, Nat.add_sub, take_app_length.
    split; [by intros [= ->]|]. intros Hp. f_equal. by apply app_inv_tail in Hp.
  - split; [done|]. intros ->. apply not_true_iff_false in He. destruct He.
    apply ends_with_spec. by eexists.
Qed.

Lemma find_spec needle : forall haystack i,
  find haystack needle = Some i -> exists post, haystack = take i haystack ++ needle ++ post /\
    (i + length needle <= length haystack)%nat.
Proof.
  induction haystack as [|c h IH]; intros i; cbn [find].
  - destruct (strip_prefix needle []) as [r|] eqn:Hp; [|done]. intros [= <-].
    apply strip_prefix_spec in Hp. symmetry in Hp. pose proof Hp as Hn.
    apply app_eq_nil in Hn as [-> ->]. by exists [].
  - destruct (strip_prefix needle (c :: h)) as [r|] eqn:Hp.
    + intros [= <-]. apply strip_prefix_spec in Hp. exists r. simpl. split; [done|].
      apply (f_equal length) in Hp. rewrite length_app in Hp. simpl in *. lia.
    + destruct (find h needle) as [j|] eqn:Hf; [|done]. intros [= <-].
      destruct (IH j eq_refl) as (post & Hh & Hl). exists post. simpl. split; [by f_equal|lia].
Qed.

(** * Envelopes *)

(** What [envelope] accepts: at most [MAX_ENVELOPE_BYTES] bytes from the
    opening of the time field through the record key, with no brace in between. *)
Definition is_envelope (env : bytes) : Prop :=
  (length env <= MAX_ENVELOPE_BYTES)%nat /\
  exists fields, env = EVENT_START ++ fields /\ ends_with fields RECORD_KEY = true /\
    Forall (fun b => b <> "{"%char /\ b <> "}"%char) fields.

Lemma existsb_braces fields :
  existsb (fun b => bool_decide (b = "{"%char) || bool_decide (b = "}"%char)) fields = false ->
  Forall (fun b => b <> "{"%char /\ b <> "}"%char) fields.
Proof.
  induction fields as [|b fields IH]; cbn [existsb]; [constructor|].
  rewrite !orb_false_iff, !bool_decide_eq_false. intros [[H1 H2] H3].
  constructor; [done|by apply IH].
Qed.

Lemma envelope_spec event len k :
  envelope event = Some (len, k) ->
  (length EVENT_START < len <= length event)%nat /\ is_envelope (take len event).
Proof.
  unfold envelope. set (w := take _ event).
  destruct (strip_prefix EVENT_START w) as [fields|] eqn:Hp; [|done]. cbn [mbind option_bind].
  destruct (find fields RECORD_KEY) as [at_|] eqn:Hf; [|done]. cbn [mbind option_bind].
  destruct (existsb _ _) eqn:Hb; [done|]. intros Heq.
  assert (len = length EVENT_START + (at_ + length RECORD_KEY))%nat as -> by congruence.
  clear Heq. apply strip_prefix_spec in Hp. apply find_spec in Hf as (post & Hf & Hl).
  apply existsb_braces in Hb.
  set (n := (at_ + length RECORD_KEY)%nat) in *.
  assert (length w = Nat.min (length event) MAX_ENVELOPE_BYTES) as Hw
    by (unfold w; rewrite length_take; lia).
  assert (length w = length EVENT_START + length fields)%nat as Hw' by (rewrite Hp, length_app; lia).
  assert (take (length EVENT_START + n) event = EVENT_START ++ take n fields) as Ht.
  { transitivity (take (length EVENT_START + n) w).
    - unfold w. rewrite take_take. f_equal. lia.
    - rewrite Hp, take_app_add. done. }
  assert (0 < length RECORD_KEY)%nat by (vm_compute; lia).
  assert (n = at_ + length RECORD_KEY)%nat as Hn by done.
  split; [lia|]. rewrite Ht. split.
  - rewrite length_app, length_take. lia.
  - exists (take n fields). split_and!; [done| |done]. apply ends_with_spec.
    exists (take at_ fields). unfold n. rewrite Hf at 1.
    assert (length (take at_ fields) = at_) as Hta by (rewrite length_take; lia).
    rewrite <- Hta at 1. rewrite take_app_add. by rewrite take_app_length.
Qed.

Lemma split_at_next_event_spec bytes_ : forall v next,
  split_at_next_event bytes_ = Some (v, next) ->
  bytes_ = v ++ json "}," ++ next /\ is_Some (envelope next).
Proof.
  induction bytes_ as [|b rest IH]; intros v next; [done|]. cbn [split_at_next_event].
  set (later := mbind _ _).
  assert (later = Some (v, next) -> b :: rest = v ++ json "}," ++ next /\ is_Some (envelope next))
    as Hlater.
  { unfold later. destruct (split_at_next_event rest) as [[v' n']|] eqn:Hs; [|done].
    intros [= <- <-]. destruct (IH v' n' eq_refl) as [Hr He]. split; [|done]. simpl. by f_equal. }
  destruct (strip_prefix (json "},") (b :: rest)) as [n|] eqn:Hp; [|done].
  destruct (envelope n) as [[len k]|] eqn:He; [|done]. intros [= <- <-].
  apply strip_prefix_spec in Hp. split; [done|by rewrite He].
Qed.

(** * Splitting *)

Definition mk_event (env v : bytes) (k : option bytes) : Event :=
  {| ev_envelope := env; value := v; kind := k |}.

(** The events of the bytes between the brackets. *)
Inductive splits : bytes -> list Event -> Prop :=
| splits_last rest len k :
    envelope rest = Some (len, k) -> split_at_next_event (drop len rest) = None ->
    splits rest [mk_event (take len rest) (drop len rest) k]
| splits_next rest len k v next evs :
    envelope rest = Some (len, k) -> split_at_next_event (drop len rest) = Some (v, next) ->
    splits next evs -> splits rest (mk_event (take len rest) v k :: evs).

Lemma split_shrinks rest len k v next :
  envelope rest = Some (len, k) -> split_at_next_event (drop len rest) = Some (v, next) ->
  rest = take len rest ++ v ++ json "}," ++ next /\ (length next < length rest)%nat.
Proof.
  intros He Hs. apply split_at_next_event_spec in Hs as [Hs _].
  assert (rest = take len rest ++ v ++ json "}," ++ next) as Hr
    by (rewrite <- Hs; by rewrite take_drop).
  split; [done|]. apply (f_equal length) in Hr. rewrite !length_app in Hr.
  change (length (json "},")) with 2%nat in Hr. lia.
Qed.

(** With more fuel than bytes the loop computes exactly [splits]. *)
Lemma split_loop_fuel fuel : forall rest acc evs,
  (length rest < fuel)%nat ->
  split_loop fuel rest acc = Some evs <-> exists evs', evs = acc ++ evs' /\ splits rest evs'.
Proof.
  induction fuel as [|fuel IH]; intros rest acc evs Hf; [lia|]. cbn [split_loop].
  destruct (envelope rest) as [[len k]|] eqn:He; cbn [mbind option_bind].
  2:{ split; [done|]. intros (evs' & _ & Hs). inversion Hs; congruence. }
  destruct (split_at_next_event (drop len rest)) as [[v next]|] eqn:Hs.
  - destruct (split_shrinks _ _ _ _ _ He Hs) as [_ Hlt]. rewrite IH by lia. split.
    + intros (evs' & -> & Hev). eexists. split; [by rewrite <- app_assoc|].
      by eapply splits_next.
    + intros (evs' & -> & Hev). inversion Hev as [|r len' k' v' next' evs0 He' Hs' Hev']; subst;
        [congruence|].
      rewrite He in He'. injection He' as <- <-. rewrite Hs in Hs'. injection Hs' as <- <-.
      exists evs0. by rewrite <- app_assoc.
  - split.
    + intros [= <-]. eexists. split; [done|]. by apply splits_last.
    + intros (evs' & -> & Hev). inversion Hev as [r len' k' He' Hs'|]; subst; [|congruence].
      rewrite He in He'. by injection He' as <- <-.
Qed.

Definition push (payload : bytes) (e : Event) : bytes :=
  push_event payload (ev_envelope e) (value e).

Definition rebuild (evs : list Event) : bytes := foldl push [] evs.

Lemma push_event_nonempty p env v : push_event p env v <> [].
Proof. unfold push_event. intros H. apply app_eq_nil in H as [_ H]. done. Qed.

Lemma splits_rebuild rest evs : splits rest evs -> forall p,
  foldl push p evs =
    p ++ (if bool_decide (p = []) then "["%char else ","%char) :: rest ++ json "}".
Proof.
  induction 1 as [rest len k He Hs|rest len k v next evs He Hs Hev IH]; intros p; cbn [foldl].
  - unfold push, push_event. simpl. do 2 f_equal.
    rewrite app_assoc, take_drop. done.
  - rewrite IH. rewrite bool_decide_false by apply push_event_nonempty.
    destruct (split_shrinks _ _ _ _ _ He Hs) as [Hr _]. rewrite Hr at 2.
    unfold push, push_event. simpl. rewrite <- !app_assoc. cbn [app]. by rewrite <- !app_assoc.
Qed.

Lemma split_events_spec body evs :
  split_events body = Some evs <->
  exists rest, body = json "[" ++ rest ++ FRAMING /\ splits rest evs.
Proof.
  unfold split_events. split.
  - destruct (strip_prefix (json "[") body) as [r|] eqn:Hp; [|done]. cbn [mbind option_bind].
    destruct (strip_suffix FRAMING r) as [rest|] eqn:Hq; [|done]. cbn [mbind option_bind].
    apply strip_prefix_spec in Hp as ->. apply strip_suffix_spec in Hq as ->.
    intros Hl. apply split_loop_fuel in Hl as (evs' & -> & Hev); [|lia]. by eexists.
  - intros (rest & -> & Hev). rewrite strip_prefix_app. cbn [mbind option_bind].
    rewrite (proj2 (strip_suffix_spec FRAMING _ rest) eq_refl). cbn [mbind option_bind].
    apply split_loop_fuel; [lia|]. by eexists.
Qed.

Lemma split_events_rebuild body evs :
  split_events body = Some evs -> body = rebuild evs ++ json "]".
Proof.
  intros Hs. apply split_events_spec in Hs as (rest & -> & Hev).
  unfold rebuild. rewrite (splits_rebuild _ _ Hev). simpl. by rewrite <- app_assoc.
Qed.

Lemma splits_envelopes rest evs :
  splits rest evs -> evs <> [] /\ Forall (fun e => is_envelope (ev_envelope e)) evs.
Proof.
  induction 1 as [rest len k He Hs|rest len k v next evs He Hs Hev [_ IH]]; split; try done.
  - constructor; [|constructor]. by apply envelope_spec in He as [_ ?].
  - constructor; [|done]. by apply envelope_spec in He as [_ ?].
Qed.

(** C28: splitting a payload loses nothing: [split_events] answers exactly on a
    bracketed payload that decomposes into events, the loop always terminates
    within its fuel, and writing the events back gives the payload; every
    envelope is at most 128 bytes, ends in the record key and holds no brace. *)
Theorem split_events_rebuilds body evs :
  (split_events body = Some evs <->
     exists rest, body = json "[" ++ rest ++ FRAMING /\ splits rest evs) /\
  (split_events body = Some evs ->
     body = rebuild evs ++ json "]" /\ evs <> [] /\
     Forall (fun e => is_envelope (ev_envelope e)) evs).
Proof.
  split; [apply split_events_spec|]. intros Hs. split; [by apply split_events_rebuild|].
  apply split_events_spec in Hs as (rest & _ & Hev). by eapply splits_envelopes.
Qed.

(** * Dropping seams *)

(** The record bytes of one type, in order. *)
Definition stream (k : option bytes) (evs : list Event) : bytes :=
  mjoin (value <$> filter (fun e => kind e = k) evs).

Lemma stream_app k evs1 evs2 : stream k (evs1 ++ evs2) = stream k evs1 ++ stream k evs2.
Proof. unfold stream. by rewrite filter_app, fmap_app, join_app. Qed.

Lemma stream_one k e : stream k [e] = if decide (kind e = k) then value e else [].
Proof.
  unfold stream. rewrite filter_cons, filter_nil. case_decide; [|done]. simpl. apply app_nil_r.
Qed.

Lemma rebuild_snoc evs e : rebuild (evs ++ [e]) = push_event (rebuild evs) (ev_envelope e) (value e).
Proof. unfold rebuild. by rewrite foldl_app. Qed.

Section Seams.
Context {TelemetryEvent : Type}
  (from_events : bytes -> json_error + list TelemetryEvent)
  (from_ignored : bytes -> option json_error).

Abbreviation parse := (parse_record from_ignored).

Definition cut_event (s : SeamState) : list Event :=
  match cut s with Some (r, v) => [mk_event (ev_envelope r) v (kind r)] | None => [] end.

(** After the events [seen]: the rebuilt payload holds whole records, the
    record cut short is a log piece, and no record byte is lost or changes its
    place within its type. *)
Record seam_inv (seen : list Event) (s : SeamState) (out : list Event) : Prop := {
  si_joined : joined s = rebuild out;
  si_whole : Forall (fun e => parse (value e) = Whole) out;
  si_cut : Forall (fun e => parse (value e) = Cut /\ is_Some (kind e)) (cut_event s);
  si_stream : forall k, stream k (out ++ cut_event s) = stream k seen;
}.

Lemma seam_step_inv seen s out e s' :
  seam_inv seen s out -> seam_step from_ignored s e = Some s' ->
  exists out', seam_inv (seen ++ [e]) s' out'.
Proof.
  intros [Hj Hw Hc Hst]. unfold seam_step. unfold cut_event in *.
  destruct (cut s) as [[r v]|] eqn:Hcut.
  - apply Forall_singleton in Hc as [Hcv Hck]. simpl in Hcv, Hck.
    case_bool_decide as Hk.
    + destruct (parse (value e)) eqn:Hp; [|done..]. intros [= <-].
      exists (out ++ [e]). constructor; unfold cut_event; simpl.
      * by rewrite rebuild_snoc, Hj.
      * apply Forall_app. split; [done|]. by constructor.
      * by constructor.
      * intros k. specialize (Hst k). rewrite !stream_app, !stream_one in *. simpl in *.
        rewrite <- Hst. repeat case_decide; simplify_eq; rewrite ?app_nil_r; done.
    + case_bool_decide; [done|].
      destruct (parse (v ++ value e)) eqn:Hp; [| |done]; intros [= <-].
      * exists (out ++ [mk_event (ev_envelope r) (v ++ value e) (kind r)]).
        constructor; unfold cut_event; simpl.
        -- by rewrite rebuild_snoc, Hj.
        -- apply Forall_app. split; [done|]. by constructor.
        -- constructor.
        -- intros k. specialize (Hst k). rewrite app_nil_r.
           rewrite !stream_app, !stream_one in *. simpl in *. rewrite <- Hst, Hk.
           case_decide; rewrite ?app_nil_r; [by rewrite <- app_assoc|done].
      * exists out. constructor; unfold cut_event; simpl; try done.
        -- by constructor.
        -- intros k. specialize (Hst k).
           rewrite !stream_app, !stream_one in *. simpl in *. rewrite <- Hst, Hk.
           case_decide; rewrite ?app_nil_r; [by rewrite <- app_assoc|done].
  - destruct (parse (value e)) eqn:Hp; [| |done].
    + intros [= <-]. exists (out ++ [e]). constructor; unfold cut_event; simpl.
      * by rewrite rebuild_snoc, Hj.
      * apply Forall_app. split; [done|]. by constructor.
      * constructor.
      * intros k. specialize (Hst k). rewrite app_nil_r in *. by rewrite !stream_app, Hst.
    + destruct (kind e) as [kd|] eqn:Hkd; [|done]. intros [= <-]. exists out.
      constructor; unfold cut_event; simpl; try done.
      * constructor; [|done]. simpl. by rewrite Hkd.
      * intros k. specialize (Hst k). rewrite app_nil_r in Hst.
        rewrite !stream_app, Hst, !stream_one. done.
Qed.

Lemma seam_loop_inv evs : forall seen s out s',
  seam_inv seen s out -> seam_loop from_ignored s evs = Some s' ->
  exists out', seam_inv (seen ++ evs) s' out'.
Proof.
  induction evs as [|e evs IH]; intros seen s out s' Hi; cbn [seam_loop].
  - intros [= <-]. rewrite app_nil_r. by eexists.
  - destruct (seam_step from_ignored s e) as [s1|] eqn:Hs; [|done]. cbn [mbind option_bind].
    destruct (seam_step_inv _ _ _ _ _ Hi Hs) as [out1 Hi1]. intros Hl.
    rewrite cons_middle, app_assoc. by eapply IH.
Qed.

End Seams.

Section Properties.
Context {TelemetryEvent : Type}
  (from_events : bytes -> json_error + list TelemetryEvent)
  (from_ignored : bytes -> option json_error).

Lemma drop_seams_spec body evs :
  split_events body = Some evs ->
  exists evs', snd (drop_seams from_ignored body) = rebuild evs' ++ json "]" /\
    (forall k, stream k evs' = stream k evs) /\
    (fst (drop_seams from_ignored body) = true ->
       exists init last, evs' = init ++ [last] /\
         Forall (fun e => parse_record from_ignored (value e) = Whole) init /\
         parse_record from_ignored (value last) = Cut /\ is_Some (kind last)).
Proof.
  intros Hs. unfold drop_seams. rewrite Hs.
  destruct (seam_loop from_ignored _ evs) as [s|] eqn:Hl.
  2:{ exists evs. split; [by apply split_events_rebuild|done]. }
  assert (seam_inv from_ignored [] {| joined := []; cut := None; seam_count := 0 |} []) as Hi
    by (constructor; done).
  destruct (seam_loop_inv from_ignored _ _ _ _ _ Hi Hl) as [out [Hj Hw Hc Hst]].
  exists (out ++ cut_event s). unfold cut_event in *.
  destruct (cut s) as [[r v]|]; simpl.
  - apply Forall_singleton in Hc as [Hcv Hck].
    split; [by rewrite rebuild_snoc, Hj|]. split; [done|]. intros _.
    by exists out, (mk_event (ev_envelope r) v (kind r)).
  - rewrite app_nil_r in *. split; [by rewrite Hj|]. by split.
Qed.

(** Dropping the seams keeps every byte of every record: the payload that
    comes out is again a list of events in which, for each event type, the
    record bytes are those of the payload that went in, in the same order; and
    when the answer is that it ends on a cut piece, all events before the last
    are whole and the last is an incomplete log record. *)
Theorem drop_seams_keeps_every_byte body evs :
  split_events body = Some evs ->
  exists evs', snd (drop_seams from_ignored body) = rebuild evs' ++ json "]" /\
    (forall k, stream k evs' = stream k evs) /\
    (fst (drop_seams from_ignored body) = true ->
       exists init last, evs' = init ++ [last] /\
         Forall (fun e => parse_record from_ignored (value e) = Whole) init /\
         parse_record from_ignored (value last) = Cut /\ is_Some (kind last)).
Proof. apply drop_seams_spec. Qed.

Lemma drop_seams_framed body b :
  drop_seams from_ignored body = (true, b) -> ends_with b FRAMING = true.
Proof.
  intros Hd. destruct (split_events body) as [evs|] eqn:Hs.
  - destruct (drop_seams_spec body evs Hs) as (evs' & Hb & _ & Hlast). rewrite Hd in Hb, Hlast.
    destruct (Hlast eq_refl) as (init & last & -> & _). simpl in Hb. rewrite Hb, rebuild_snoc.
    apply ends_with_spec. unfold push_event.
    exists (rebuild init ++ [if bool_decide (rebuild init = []) then "["%char else ","%char]
      ++ ev_envelope last ++ value last).
    rewrite <- !app_assoc. done.
  - unfold drop_seams in Hd. by rewrite Hs in Hd.
Qed.

(** A held fragment is bounded. *)
Definition bounded (self : FragmentBuffer) : Prop :=
  match held self with Some f => blen (fbody f) <= MAX_FRAGMENT_BYTES | None => True end.

Lemma parse_or_hold_bounded body now :
  bounded {| held := snd (parse_or_hold from_events from_ignored None body now) |}.
Proof.
  unfold parse_or_hold, bounded. cbn [held].
  destruct (from_events body) as [e|]; [|done]. destruct (classify e); simpl; try done;
    destruct (drop_seams from_ignored body) as [c b]; destruct c; simpl;
    try (destruct (Z.leb_spec (blen b) MAX_FRAGMENT_BYTES); simpl; [done|]);
    by destruct (from_events b).
Qed.

Lemma stitch_bounded self body now :
  bounded (snd (stitch from_events from_ignored self body now)).
Proof.
  unfold stitch. set (rest := let '(_, _) := parse_or_hold _ _ _ body _ in _).
  assert (bounded (snd rest)) as Hrest.
  { unfold rest. pose proof (parse_or_hold_bounded body now) as Hb.
    by destruct (parse_or_hold _ _ None body now). }
  destruct (match held self with Some f => _ | None => _ end) as [head|]; [|done].
  destruct (resumed_bytes body) as [resumed|]; [|done].
  pose proof (parse_or_hold_bounded (join_fragment head resumed) now) as Hb.
  destruct (parse_or_hold _ _ None (join_fragment head resumed) now) as [[]]; done.
Qed.

(** Whatever is posted and whenever, the buffer never holds more than
    [MAX_FRAGMENT_BYTES] bytes. *)
Theorem held_fragment_bounded posts : forall self,
  bounded self -> bounded (snd (stitch_all from_events from_ignored self posts)).
Proof.
  induction posts as [|[body now] posts IH]; intros self Hb; cbn [stitch_all]; [done|].
  pose proof (stitch_bounded self body now) as Hs.
  destruct (stitch from_events from_ignored self body now) as [r self']. simpl in Hs.
  specialize (IH self' Hs). by destruct (stitch_all from_events from_ignored self' posts).
Qed.

(** A record cut across two posts is recovered: a payload that does not
    parse and ends on a cut piece is held, and when the next post within a
    second opens with a log envelope, the answer is the parse of the two put
    together without the first one's framing and the second one's envelope. *)
Theorem split_payload_is_joined body1 now1 body2 now2 e1 b env rest k events :
  from_events body1 = inl e1 -> classify e1 <> Data ->
  drop_seams from_ignored body1 = (true, b) -> blen b <= MAX_FRAGMENT_BYTES ->
  body2 = json "[" ++ env ++ rest -> envelope (env ++ rest) = Some (length env, Some k) ->
  saturating_sub now2 now1 <= FRAGMENT_TTL ->
  from_events (take (length b - 2) b ++ rest) = inr events ->
  stitch_all from_events from_ignored {| held := None |} [(body1, now1); (body2, now2)] =
    ([Pending; Complete events], {| held := None |}).
Proof.
  intros He1 Hcl Hd Hlen -> Henv Httl Hj. cbn [stitch_all].
  assert (stitch from_events from_ignored {| held := None |} body1 now1 =
    (Pending, {| held := Some {| fbody := b; received := now1 |} |})) as ->.
  { unfold stitch, parse_or_hold. cbn [held]. rewrite He1, Hd.
    rewrite (proj2 (Z.leb_le _ _)) by done. by destruct (classify e1). }
  assert (resumed_bytes (json "[" ++ env ++ rest) = Some rest) as Hr.
  { unfold resumed_bytes. rewrite strip_prefix_app. cbn [mbind option_bind]. rewrite Henv.
    cbn [mbind option_bind]. rewrite length_app, (proj2 (Nat.leb_le _ _)) by lia.
    by rewrite drop_app_length. }
  unfold stitch. cbn [held received]. rewrite (proj2 (Z.ltb_ge _ _)) by done.
  rewrite Hr. unfold join_fragment. cbn [fbody]. rewrite (drop_seams_framed _ _ Hd).
  change (length FRAMING) with 2%nat. unfold parse_or_hold. by rewrite Hj.
Qed.

End Properties.

(** * Concrete payloads *)

(** A record is the string [ab]; everything else runs out. *)
Definition sample_eof : json_error := {| classify := Eof; line := 1; column := 1 |}.

Definition sample_ignored (v : bytes) : option json_error :=
  if bool_decide (v = json "'ab'") then None else Some sample_eof.

Definition sample_envelope : bytes := json "{'time':'1','type':'function','record':".

Definition sample_head : bytes := json "[" ++ sample_envelope ++ json "'a}]".
Definition sample_tail : bytes := json "[" ++ sample_envelope ++ json "b'}]".
Definition sample_whole : bytes := json "[" ++ sample_envelope ++ json "'ab'}]".

Definition sample_events (b : bytes) : json_error + list nat :=
  if bool_decide (b = sample_whole) then inr [7%nat] else inl sample_eof.

Lemma drop_seams_keeps_every_byte_witness :
  exists evs', snd (drop_seams sample_ignored sample_head) = rebuild evs' ++ json "]" /\
    fst (drop_seams sample_ignored sample_head) = true.
Proof.
  destruct (split_events sample_head) as [evs|] eqn:Hs; [|vm_compute in Hs; discriminate Hs].
  destruct (drop_seams_keeps_every_byte sample_ignored sample_head evs Hs) as (evs' & Hb & _).
  exists evs'. split; [exact Hb|by vm_compute].
Defined.

Lemma held_fragment_bounded_witness :
  bounded (snd (stitch_all sample_events sample_ignored {| held := None |} [(sample_head, 0)])).
Proof. apply held_fragment_bounded. exact I. Defined.

Lemma split_payload_is_joined_witness :
  stitch_all sample_events sample_ignored {| held := None |}
    [(sample_head, 5); (sample_tail, 1000000000)] = ([Pending; Complete [7%nat]], {| held := None |}).
Proof.
  apply (split_payload_is_joined _ _ _ _ _ _ sample_eof sample_head sample_envelope (json "b'}]")
    (json "'type':'function','record':")); by vm_compute.
Defined.
