(* ===== verification/TelemetryEvents.v ===== *)
(** The records of the Telemetry API: [extension/telemetry/events.rs]. A time is
    in nanoseconds since the epoch; [Value] is the JSON value type of serde. *)
From S2P Require Import Prelude F64.

Record TelemetrySpan := { span_name : string; span_start : Z; span_duration_ms : f64 }.

Inductive InitType :=
| InitOnDemand
| ProvisionedConcurrency
| SnapStart
| InitManagedInstance.

Definition LAMBDA_MANAGED_INSTANCES_INIT_TYPE : string := "lambda-managed-instances".

(** [Display]. *)
Definition InitType_to_string (t : InitType) : string :=
  match t with
  | InitOnDemand => "on-demand"
  | ProvisionedConcurrency => "provisioned-concurrency"
  | SnapStart => "SnapStart"
  | InitManagedInstance => LAMBDA_MANAGED_INSTANCES_INIT_TYPE
  end.

Inductive InitPhase := Init | Invoke.

Inductive Status := Success | Error | Failure | Timeout.

#[export] Instance Status_eq_dec : EqDecision Status.
Proof. solve_decision. Defined.

Record InitReportMetrics := { init_report_duration_ms : f64 }.

Record RestoreReportMetrics := { restore_report_duration_ms : f64 }.

Record RuntimeDoneMetrics := { rd_duration_ms : f64; produced_bytes : option Z }.

Record OnDemandReportMetrics := {
  od_duration_ms : f64;
  billed_duration_ms : Z;
  memory_size_mb : Z;
  max_memory_used_mb : Z;
  init_duration_ms : option f64;
  restore_duration_ms : option f64;
}.

Record ManagedInstanceReportMetrics := { mi_duration_ms : f64 }.

Inductive ReportMetrics :=
| OnDemand (metrics : OnDemandReportMetrics)
| ManagedInstance (metrics : ManagedInstanceReportMetrics).

Definition duration_ms (self : ReportMetrics) : f64 :=
  match self with
  | OnDemand metrics => od_duration_ms metrics
  | ManagedInstance metrics => mi_duration_ms metrics
  end.

Inductive TelemetryRecord (Value : Type) :=
| Function (v : Value)
| Extension (v : Value)
| PlatformInitStart (initialization_type : InitType) (phase : InitPhase)
    (runtime_version runtime_version_arn : option string)
| PlatformInitRuntimeDone (initialization_type : InitType) (phase : option InitPhase)
    (status : Status) (error_type : option string)
| PlatformInitReport (initialization_type : InitType) (phase : InitPhase)
    (metrics : InitReportMetrics)
| PlatformStart (request_id : string) (version : option string)
| PlatformRuntimeDone (request_id : string) (status : Status) (error_type : option string)
    (metrics : option RuntimeDoneMetrics)
| PlatformReport (request_id : string) (status : Status) (error_type : option string)
    (metrics : ReportMetrics) (spans : option (list TelemetrySpan))
| PlatformExtension (name state : string) (events : list string)
| PlatformTelemetrySubscription (name state : string) (types : list string)
| PlatformLogsDropped (reason : string) (dropped_records dropped_bytes : Z)
| PlatformRestoreStart
| PlatformRestoreReport (status : Status) (error_type : option string)
    (metrics : option RestoreReportMetrics)
| PlatformRestoreRuntimeDone (status : Status) (error_type : option string).
Arguments Function {Value} v.
Arguments Extension {Value} v.
Arguments PlatformInitStart {Value} initialization_type phase runtime_version runtime_version_arn.
Arguments PlatformInitRuntimeDone {Value} initialization_type phase status error_type.
Arguments PlatformInitReport {Value} initialization_type phase metrics.
Arguments PlatformStart {Value} request_id version.
Arguments PlatformRuntimeDone {Value} request_id status error_type metrics.
Arguments PlatformReport {Value} request_id status error_type metrics spans.
Arguments PlatformExtension {Value} name state events.
Arguments PlatformTelemetrySubscription {Value} name state types.
Arguments PlatformLogsDropped {Value} reason dropped_records dropped_bytes.
Arguments PlatformRestoreStart {Value}.
Arguments PlatformRestoreReport {Value} status error_type metrics.
Arguments PlatformRestoreRuntimeDone {Value} status error_type.

Record TelemetryEvent (Value : Type) := { time : Z; record : TelemetryRecord Value }.
Arguments time {Value} t.
Arguments record {Value} t.
