(* ===== verification/EnhancedMetrics.v ===== *)
(** Enhanced Lambda metrics: the usage-metrics service of
    [metrics/enhanced/usage_metrics.rs] and the emitter of
    [metrics/enhanced/lambda.rs] with its constants.

    The DogStatsD aggregator is another crate's: its state here is the list of
    batches handed to [insert_batch], and [SortedTags::parse] is an argument. The
    readings of /proc and of statfs, and clock reads, are arguments, [None] being
    an error. The usage service receives its commands over a channel: the state
    holds the commands sent and not yet received. A spawned task is a value that
    runs later. *)
From S2P Require Import Prelude F64 TelemetryEvents.
#[local] Open Scope Z_scope.

(** * Constants *)

(** A decimal literal [n / d]; correctly rounded since both are exact floats. *)
Definition dec (n d : Z) : f64 := fdiv (f64_of_Z n) (f64_of_Z d).

Definition BASE_LAMBDA_INVOCATION_PRICE : f64 := dec 2 10000000.
Definition X86_LAMBDA_PRICE_PER_GB_SECOND : f64 := dec 166667 10000000000.
Definition ARM_LAMBDA_PRICE_PER_GB_SECOND : f64 := dec 133334 10000000000.
Definition MS_TO_SEC : f64 := dec 1 1000.
Definition MB_TO_GB : f64 := f64_of_Z 1024.

Definition MAX_MEMORY_USED_METRIC : string := "aws.lambda.enhanced.max_memory_used".
Definition MEMORY_SIZE_METRIC : string := "aws.lambda.enhanced.memorysize".
Definition RUNTIME_DURATION_METRIC : string := "aws.lambda.enhanced.runtime_duration".
Definition BILLED_DURATION_METRIC : string := "aws.lambda.enhanced.billed_duration".
Definition DURATION_METRIC : string := "aws.lambda.enhanced.duration".
Definition POST_RUNTIME_DURATION_METRIC : string := "aws.lambda.enhanced.post_runtime_duration".
Definition ESTIMATED_COST_METRIC : string := "aws.lambda.enhanced.estimated_cost".
Definition INIT_DURATION_METRIC : string := "aws.lambda.enhanced.init_duration".
Definition SNAPSTART_RESTORE_DURATION_METRIC : string :=
  "aws.lambda.enhanced.snapstart_restore_duration".
Definition PRODUCED_BYTES_METRIC : string := "aws.lambda.enhanced.produced_bytes".
Definition OUT_OF_MEMORY_METRIC : string := "aws.lambda.enhanced.out_of_memory".
Definition TIMEOUTS_METRIC : string := "aws.lambda.enhanced.timeouts".
Definition ERRORS_METRIC : string := "aws.lambda.enhanced.errors".
Definition INVOCATIONS_METRIC : string := "aws.lambda.enhanced.invocations".
Definition RX_BYTES_METRIC : string := "aws.lambda.enhanced.rx_bytes".
Definition TX_BYTES_METRIC : string := "aws.lambda.enhanced.tx_bytes".
Definition TOTAL_NETWORK_METRIC : string := "aws.lambda.enhanced.total_network".
Definition CPU_SYSTEM_TIME_METRIC : string := "aws.lambda.enhanced.cpu_system_time".
Definition CPU_USER_TIME_METRIC : string := "aws.lambda.enhanced.cpu_user_time".
Definition CPU_TOTAL_TIME_METRIC : string := "aws.lambda.enhanced.cpu_total_time".
Definition CPU_TOTAL_UTILIZATION_PCT_METRIC : string :=
  "aws.lambda.enhanced.cpu_total_utilization_pct".
Definition CPU_TOTAL_UTILIZATION_METRIC : string := "aws.lambda.enhanced.cpu_total_utilization".
Definition NUM_CORES_METRIC : string := "aws.lambda.enhanced.num_cores".
Definition CPU_MAX_UTILIZATION_METRIC : string := "aws.lambda.enhanced.cpu_max_utilization".
Definition CPU_MIN_UTILIZATION_METRIC : string := "aws.lambda.enhanced.cpu_min_utilization".
Definition TMP_MAX_METRIC : string := "aws.lambda.enhanced.tmp_max".
Definition TMP_USED_METRIC : string := "aws.lambda.enhanced.tmp_used".
Definition TMP_FREE_METRIC : string := "aws.lambda.enhanced.tmp_free".
Definition FD_MAX_METRIC : string := "aws.lambda.enhanced.fd_max".
Definition FD_USE_METRIC : string := "aws.lambda.enhanced.fd_use".
Definition THREADS_MAX_METRIC : string := "aws.lambda.enhanced.threads_max".
Definition THREADS_USE_METRIC : string := "aws.lambda.enhanced.threads_use".
Definition SHUTDOWNS_METRIC : string := "aws.lambda.enhanced.shutdowns".
Definition UNUSED_INIT : string := "aws.lambda.enhanced.unused_init".

(** * The usage-metrics service *)

Module Usage.

Record UsageMetrics := { tmp_used : f64; fd_use : f64; threads_use : f64 }.

Definition new : UsageMetrics :=
  {| tmp_used := f64_zero; fd_use := f64_zero; threads_use := f64_zero |}.

(** [if let Some(v) = sample && v > cur { cur = v }]. *)
Definition raise (cur : f64) (sample : option f64) : f64 :=
  match sample with Some v => if flt cur v then v else cur | None => cur end.

Definition update (self : UsageMetrics) (tmp fd threads : option f64) : UsageMetrics :=
  {| tmp_used := raise (tmp_used self) tmp; fd_use := raise (fd_use self) fd;
     threads_use := raise (threads_use self) threads |}.

Definition reset (self : UsageMetrics) : UsageMetrics :=
  {| tmp_used := f64_zero; fd_use := f64_zero; threads_use := f64_zero |}.

Inductive Command :=
| Update (tmp fd threads : option f64)
| Reset
| Get
| Shutdown.

(** The service's loop over the commands received: the answers to the [Get]s and
    the metrics at the end. *)
Fixpoint run (self : UsageMetrics) (commands : list Command) : list UsageMetrics * UsageMetrics :=
  match commands with
  | [] => ([], self)
  | Update tmp fd threads :: cs => run (update self tmp fd threads) cs
  | Reset :: cs => run (reset self) cs
  | Get :: cs => let '(answers, self') := run self cs in (self :: answers, self')
  | Shutdown :: _ => ([], self)
  end.

(** [EnhancedMetricsHandle]: the sending side and the monitoring flag, together
    with the service behind it, which stops at the first [Shutdown]. *)
Record Handle := {
  service : UsageMetrics;
  running : bool;
  queue : list Command;
  monitoring_state : bool;
}.

Definition handle_new : Handle :=
  {| service := new; running := true; queue := []; monitoring_state := false |}.

(** Sending to a stopped service is an error the callers only log. *)
Definition send (self : Handle) (c : Command) : Handle :=
  {| service := service self; running := running self;
     queue := if running self then queue self ++ [c] else queue self;
     monitoring_state := monitoring_state self |}.

Definition update_metrics (self : Handle) (tmp fd threads : option f64) : Handle :=
  send self (Update tmp fd threads).
Definition reset_metrics (self : Handle) : Handle := send self Reset.
Definition set_monitoring (self : Handle) (b : bool) : Handle :=
  {| service := service self; running := running self; queue := queue self;
     monitoring_state := b |}.
Definition pause_monitoring (self : Handle) : Handle := set_monitoring self false.
Definition resume_monitoring (self : Handle) : Handle := set_monitoring self true.
Definition shutdown (self : Handle) : Handle := send self Shutdown.

Definition is_shutdown (c : Command) : bool := match c with Shutdown => true | _ => false end.

(** [get_metrics]: the answer waits for every command sent before it. *)
Definition get_metrics (self : Handle) : option UsageMetrics * Handle :=
  if running self then
    let commands := queue self ++ [Get] in
    let '(answers, metrics) := run (service self) commands in
    let stopped := existsb is_shutdown commands in
    (if stopped then None else last answers,
     {| service := metrics; running := negb stopped; queue := [];
        monitoring_state := monitoring_state self |})
  else (None, self).

(** One tick of the monitoring task, with the readings at that moment. *)
Definition tick (self : Handle) (tmp fd threads : option f64) : Handle :=
  if monitoring_state self then update_metrics self tmp fd threads else self.

(** * Running maximum *)

Abbreviation sample := (option f64 * option f64 * option f64)%type.

(** The samples since the last reset. *)
Fixpoint since_reset (seen : list sample) (commands : list Command) : list sample :=
  match commands with
  | [] => seen
  | Update tmp fd threads :: cs => since_reset (seen ++ [(tmp, fd, threads)]) cs
  | Reset :: cs => since_reset [] cs
  | _ :: cs => since_reset seen cs
  end.

Definition maxima (samples : list sample) : UsageMetrics :=
  {| tmp_used := foldl raise f64_zero ((fun s => fst (fst s)) <$> samples);
     fd_use := foldl raise f64_zero ((fun s => snd (fst s)) <$> samples);
     threads_use := foldl raise f64_zero (snd <$> samples) |}.

Lemma maxima_snoc samples tmp fd threads :
  maxima (samples ++ [(tmp, fd, threads)]) = update (maxima samples) tmp fd threads.
Proof. unfold maxima, update. by rewrite !fmap_app, !foldl_app. Qed.

Lemma run_maxima commands : forall seen,
  Forall (fun c => is_shutdown c = false) commands ->
  snd (run (maxima seen) commands) = maxima (since_reset seen commands).
Proof.
  induction commands as [|c cs IH]; intros seen Hc; [done|].
  apply Forall_cons in Hc as [Hc Hcs]. destruct c; cbn [run since_reset]; try done.
  - by rewrite <- maxima_snoc, IH.
  - apply (IH [] Hcs).
  - specialize (IH seen Hcs). by destruct (run (maxima seen) cs).
Qed.

(** The greatest of a list of samples, absent ones and NaN left out. *)
Lemma raise_is_max samples : forall cur,
  is_nan cur = false ->
  let r := foldl raise cur samples in
  (r = cur \/ Some r ∈ samples) /\ flt r cur = false /\ is_nan r = false /\
  (forall x, Some x ∈ samples -> flt r x = false).
Proof.
  induction samples as [|s samples IH]; intros cur Hn r.
  - split_and!; [by left|apply flt_irrefl|done|set_solver].
  - cbn [foldl] in r. destruct s as [v|]; cbn [raise] in r; [destruct (flt cur v) eqn:Hv|].
    + pose proof (flt_nan_r _ _ Hv) as Hnv.
      destruct (IH v Hnv) as (Hin & Hle & Hr & Hmax). fold r in Hin, Hle, Hr, Hmax.
      split_and!; [right; apply elem_of_cons; destruct Hin as [->|Hin]; auto| |done|].
      * by apply (flt_false_trans _ v); [..|apply flt_asym].
      * intros x Hx. apply elem_of_cons in Hx as [[= ->]|Hx]; auto.
    + destruct (IH cur Hn) as (Hin & Hle & Hr & Hmax). fold r in Hin, Hle, Hr, Hmax.
      split_and!; [destruct Hin as [->|Hin]; [by left|right; apply elem_of_cons; auto]|done|done|].
      intros x Hx. apply elem_of_cons in Hx as [[= ->]|Hx]; [|auto].
      by apply (flt_false_trans _ cur).
    + destruct (IH cur Hn) as (Hin & Hle & Hr & Hmax). fold r in Hin, Hle, Hr, Hmax.
      split_and!; [destruct Hin as [->|Hin]; [by left|right; apply elem_of_cons; auto]|done|done|].
      intros x Hx. apply elem_of_cons in Hx as [|Hx]; [done|auto].
Qed.

Lemma run_app cs1 cs2 : forall m,
  Forall (fun c => is_shutdown c = false) cs1 ->
  run m (cs1 ++ cs2) =
    (fst (run m cs1) ++ fst (run (snd (run m cs1)) cs2), snd (run (snd (run m cs1)) cs2)).
Proof.
  induction cs1 as [|c cs1 IH]; intros m Hc; [simpl; by destruct (run m cs2)|].
  apply Forall_cons in Hc as [Hc Hcs]. destruct c; cbn [app run]; try done; try by rewrite IH.
  rewrite IH by done. by destruct (run m cs1).
Qed.

Definition update_of (s : sample) : Command := Update (fst (fst s)) (snd (fst s)) (snd s).

Lemma since_reset_updates samples : forall seen,
  since_reset seen (update_of <$> samples) = seen ++ samples.
Proof.
  induction samples as [|[[a b] c] samples IH]; intros seen; [by rewrite app_nil_r|].
  cbn. rewrite IH, <- app_assoc. done.
Qed.

(** Between a reset and the answer only the updates in between count. *)
Lemma get_after_reset h samples q :
  running h = true -> queue h = q ++ Reset :: (update_of <$> samples) ->
  Forall (fun c => is_shutdown c = false) q ->
  fst (get_metrics h) = Some (maxima samples).
Proof.
  intros Hr Hq Hs. unfold get_metrics. rewrite Hr, Hq.
  assert (Forall (fun c => is_shutdown c = false) (update_of <$> samples)) as Hu
    by (by apply Forall_fmap, Forall_true).
  assert (existsb is_shutdown ((q ++ Reset :: (update_of <$> samples)) ++ [Get]) = false) as He.
  { apply not_true_iff_false. rewrite existsb_exists. intros (c & Hin & Hc).
    apply list_elem_of_In in Hin. rewrite !elem_of_app, elem_of_cons in Hin.
    assert (is_shutdown c = false); [|congruence].
    destruct Hin as [[Hin|[->|Hin]]|Hin]; [|done| |].
    - by apply (proj1 (Forall_forall _ _) Hs).
    - by apply (proj1 (Forall_forall _ _) Hu).
    - by apply list_elem_of_singleton in Hin as ->. }
  rewrite He, <- app_assoc. rewrite run_app by done. cbn [app run].
  rewrite (run_app (update_of <$> samples) [Get]) by done. cbn [fst snd run].
  assert (snd (run (reset (snd (run (service h) q))) (update_of <$> samples)) = maxima samples) as ->.
  { pose proof (run_maxima (update_of <$> samples) [] Hu) as Hm.
    by rewrite since_reset_updates in Hm. }
  by rewrite app_assoc, last_snoc.
Qed.

(** The usage service keeps the running maximum since the last reset: what
    it holds after any commands is, for each of the three usages, zero or one of
    the samples received since the last reset, and no such sample exceeds it. *)
Theorem usage_is_running_max commands :
  Forall (fun c => is_shutdown c = false) commands ->
  let m := snd (run new commands) in
  let samples := since_reset [] commands in
  let is_max (r : f64) (xs : list (option f64)) :=
    (r = f64_zero \/ Some r ∈ xs) /\ flt r f64_zero = false /\ is_nan r = false /\
    (forall x, Some x ∈ xs -> flt r x = false) in
  is_max (tmp_used m) ((fun s => fst (fst s)) <$> samples) /\
  is_max (fd_use m) ((fun s => snd (fst s)) <$> samples) /\
  is_max (threads_use m) (snd <$> samples).
Proof.
  intros Hc m samples is_max.
  assert (m = maxima samples) as -> by apply (run_maxima commands [] Hc).
  split_and!; by apply raise_is_max.
Qed.

Lemma usage_is_running_max_witness :
  let commands := [Update (Some (f64_of_Z 9)) None None; Reset;
                   Update (Some (f64_of_Z 3)) None (Some (f64_of_Z 1));
                   Update (Some (f64_of_Z 2)) (Some (f64_of_Z 5)) None] in
  tmp_used (snd (run new commands)) = f64_of_Z 3 /\
  (forall x, Some x ∈ [Some (f64_of_Z 3); Some (f64_of_Z 2)] -> flt (f64_of_Z 3) x = false).
Proof.
  split; [by vm_compute|].
  exact (proj2 (proj2 (proj2 (proj1 (usage_is_running_max
    [Update (Some (f64_of_Z 9)) None None; Reset;
     Update (Some (f64_of_Z 3)) None (Some (f64_of_Z 1));
     Update (Some (f64_of_Z 2)) (Some (f64_of_Z 5)) None]
    ltac:(repeat (apply Forall_cons; split; [done|]); apply Forall_nil_2)))))).
Defined.

End Usage.

(** * The emitter *)

Record NetworkData := { rx_bytes : f64; tx_bytes : f64 }.

Record CPUData := {
  total_user_time_ms : f64;
  total_system_time_ms : f64;
  total_idle_time_ms : f64;
  individual_cpu_idle_times : gmap string f64;
}.

Record EnhancedMetricData := {
  network_offset : option NetworkData;
  cpu_offset : option CPUData;
  uptime_offset : option f64;
}.

Module Lambda.
Section Lambda.
Context {SortedTags : Type} (parse_tags : string -> option SortedTags).

Record Metric := { name : string; value : f64; tags : option SortedTags; timestamp : Z }.

Record t := {
  enhanced_metrics : bool;
  dynamic_value_tags : gmap string string;
  invoked_received : bool;
  handle : Usage.Handle;
  inserted : list (list Metric);
}.

Definition new (enhanced_metrics : bool) : t :=
  {| enhanced_metrics := enhanced_metrics; dynamic_value_tags := ∅; invoked_received := false;
     handle := Usage.handle_new; inserted := [] |}.

Definition with_tags (self : t) (d : gmap string string) : t :=
  {| enhanced_metrics := enhanced_metrics self; dynamic_value_tags := d;
     invoked_received := invoked_received self; handle := handle self;
     inserted := inserted self |}.
Definition with_handle (self : t) (h : Usage.Handle) : t :=
  {| enhanced_metrics := enhanced_metrics self; dynamic_value_tags := dynamic_value_tags self;
     invoked_received := invoked_received self; handle := h; inserted := inserted self |}.
Definition insert_batch (self : t) (batch : list Metric) : t :=
  {| enhanced_metrics := enhanced_metrics self; dynamic_value_tags := dynamic_value_tags self;
     invoked_received := invoked_received self; handle := handle self;
     inserted := inserted self ++ [batch] |}.

(** * Tags *)

Definition bool_to_string (b : bool) : string := if b then "true" else "false".

Definition set_init_tags (self : t) (proactive_initialization cold_start : bool) : t :=
  let d := delete "proactive_initialization"%string
             (delete "cold_start"%string (dynamic_value_tags self)) in
  let d := <["cold_start"%string := bool_to_string cold_start]> d in
  let d := if proactive_initialization
           then <["proactive_initialization"%string := "true"%string]> d else d in
  with_tags self d.

Definition set_runtime_tag (self : t) (runtime : string) : t :=
  with_tags self (<["runtime"%string := runtime]> (dynamic_value_tags self)).

Definition set_durable_function_tag (self : t) : t :=
  with_tags self (<["durable_function"%string := "true"%string]> (dynamic_value_tags self)).

Definition get_dynamic_value_tags (self : t) : option SortedTags :=
  let vec_tags := (fun kv => String.append (fst kv) (String.append ":" (snd kv)))
                    <$> map_to_list (dynamic_value_tags self) in
  parse_tags (String.concat "," vec_tags).

(** * Single metrics *)

Definition metric (self : t) (name : string) (value : f64) (timestamp : Z) : Metric :=
  {| name := name; value := value; tags := get_dynamic_value_tags self; timestamp := timestamp |}.

Definition insert_metric (self : t) (name : string) (value : f64) (timestamp : Z) : t :=
  insert_batch self [metric self name value timestamp].

Definition increment_metric (self : t) (metric_name : string) (timestamp : Z) : t :=
  if enhanced_metrics self then insert_metric self metric_name f64_one timestamp else self.

Definition increment_invocation_metric (self : t) (timestamp : Z) : t :=
  increment_metric self INVOCATIONS_METRIC timestamp.
Definition increment_errors_metric (self : t) (timestamp : Z) : t :=
  increment_metric self ERRORS_METRIC timestamp.
Definition increment_timeout_metric (self : t) (timestamp : Z) : t :=
  increment_metric self TIMEOUTS_METRIC timestamp.
Definition increment_oom_metric (self : t) (timestamp : Z) : t :=
  increment_metric self OUT_OF_MEMORY_METRIC timestamp.

Definition set_init_duration_metric (self : t) (init_type : InitType) (init_duration_ms : f64)
    (timestamp : Z) : t :=
  if enhanced_metrics self then
    let self := with_tags self
      (<["init_type"%string := InitType_to_string init_type]> (dynamic_value_tags self)) in
    insert_metric self INIT_DURATION_METRIC (fmul init_duration_ms MS_TO_SEC) timestamp
  else self.

Definition set_snapstart_restore_duration_metric (self : t) (restore_duration_ms : f64)
    (timestamp : Z) : t :=
  if enhanced_metrics self then
    insert_metric self SNAPSTART_RESTORE_DURATION_METRIC (fmul restore_duration_ms MS_TO_SEC) timestamp
  else self.

Definition set_invoked_received (self : t) : t :=
  {| enhanced_metrics := enhanced_metrics self; dynamic_value_tags := dynamic_value_tags self;
     invoked_received := true; handle := handle self; inserted := inserted self |}.

Definition set_runtime_done_metrics (self : t) (metrics : RuntimeDoneMetrics) (timestamp : Z) : t :=
  if enhanced_metrics self then
    let self := insert_metric self RUNTIME_DURATION_METRIC (rd_duration_ms metrics) timestamp in
    match produced_bytes metrics with
    | Some b => insert_metric self PRODUCED_BYTES_METRIC (f64_of_Z b) timestamp
    | None => self
    end
  else self.

Definition set_shutdown_metric (self : t) (timestamp : Z) : t :=
  if enhanced_metrics self then increment_metric self SHUTDOWNS_METRIC timestamp else self.

Definition set_unused_init_metric (self : t) (timestamp : Z) : t :=
  if invoked_received self then self else increment_metric self UNUSED_INIT timestamp.

Definition set_post_runtime_duration_metric (self : t) (duration_ms : f64) (timestamp : Z) : t :=
  if enhanced_metrics self
  then insert_metric self POST_RUNTIME_DURATION_METRIC duration_ms timestamp else self.

(** * Network and CPU *)

(** The metrics of one call, each inserted in a batch of its own, with the tags
    and the time of the call. *)
Definition insert_each (self : t) (tags : option SortedTags) (now : Z)
    (metrics : list (string * f64)) : t :=
  foldl (fun self nv =>
    insert_batch self [{| name := fst nv; value := snd nv; tags := tags; timestamp := now |}])
    self metrics.

Definition generate_network_enhanced_metrics (self : t) (offset end_ : NetworkData)
    (tags : option SortedTags) (now : Z) : t :=
  let rx := fsub (rx_bytes end_) (rx_bytes offset) in
  let tx := fsub (tx_bytes end_) (tx_bytes offset) in
  let total_network := fadd rx tx in
  insert_each self tags now
    [(RX_BYTES_METRIC, rx); (TX_BYTES_METRIC, tx); (TOTAL_NETWORK_METRIC, total_network)].

Definition set_network_enhanced_metrics (self : t) (network_offset : option NetworkData)
    (network_data : option NetworkData) (now : Z) : t :=
  if enhanced_metrics self then
    match network_offset with
    | Some offset =>
        match network_data with
        | Some data =>
            generate_network_enhanced_metrics self offset data (get_dynamic_value_tags self) now
        | None => self
        end
    | None => self
    end
  else self.

Definition generate_cpu_time_enhanced_metrics (self : t) (offset end_ : CPUData)
    (tags : option SortedTags) (now : Z) : t :=
  let cpu_user_time := fsub (total_user_time_ms end_) (total_user_time_ms offset) in
  let cpu_system_time := fsub (total_system_time_ms end_) (total_system_time_ms offset) in
  let cpu_total_time := fadd cpu_user_time cpu_system_time in
  insert_each self tags now
    [(CPU_USER_TIME_METRIC, cpu_user_time); (CPU_SYSTEM_TIME_METRIC, cpu_system_time);
     (CPU_TOTAL_TIME_METRIC, cpu_total_time)].

Definition set_cpu_time_enhanced_metrics (self : t) (cpu_offset cpu_data : option CPUData)
    (now : Z) : t :=
  if enhanced_metrics self then
    match cpu_offset, cpu_data with
    | Some cpu_offset, Some cpu_data =>
        generate_cpu_time_enhanced_metrics self cpu_offset cpu_data (get_dynamic_value_tags self) now
    | _, _ => self
    end
  else self.

(** One core of the idle-time loop: the maximum and the minimum so far. *)
Definition idle_step (offsets : gmap string f64) (acc : f64 * f64) (core : string * f64)
  : f64 * f64 :=
  let '(max_idle_time, min_idle_time) := acc in
  match offsets !! fst core with
  | None => acc
  | Some off =>
      let idle_time := fmax (fsub (snd core) off) f64_zero in
      (if flt max_idle_time idle_time then idle_time else max_idle_time,
       if flt idle_time min_idle_time then idle_time else min_idle_time)
  end.

Definition idle_times (offset end_ : CPUData) : f64 * f64 :=
  foldl (idle_step (individual_cpu_idle_times offset)) (f64_zero, f64_max_value)
    (map_to_list (individual_cpu_idle_times end_)).

(** [None] when the uptime did not advance and nothing is reported. *)
Definition cpu_utilization (offset end_ : CPUData) (uptime_offset uptime_end : f64)
  : option (list (string * f64)) :=
  let num_cores := f64_of_Z (Z.of_nat (size (individual_cpu_idle_times end_))) in
  let uptime := fsub uptime_end uptime_offset in
  let total_idle_time := fsub (total_idle_time_ms end_) (total_idle_time_ms offset) in
  if fle uptime f64_zero then None
  else
    let '(max_idle_time, min_idle_time) := idle_times offset end_ in
    let pct idle := fmax (fmul (fdiv (fsub uptime idle) uptime) (f64_of_Z 100)) f64_zero in
    let cpu_max_utilization := pct min_idle_time in
    let cpu_min_utilization := pct max_idle_time in
    let all := fmul uptime num_cores in
    let cpu_total_utilization_decimal := fmax (fdiv (fsub all total_idle_time) all) f64_zero in
    let cpu_total_utilization_pct := fmul cpu_total_utilization_decimal (f64_of_Z 100) in
    let cpu_total_utilization := fmul cpu_total_utilization_decimal num_cores in
    Some [(CPU_TOTAL_UTILIZATION_PCT_METRIC, cpu_total_utilization_pct);
          (CPU_TOTAL_UTILIZATION_METRIC, cpu_total_utilization);
          (NUM_CORES_METRIC, num_cores);
          (CPU_MAX_UTILIZATION_METRIC, cpu_max_utilization);
          (CPU_MIN_UTILIZATION_METRIC, cpu_min_utilization)].

Definition generate_cpu_utilization_enhanced_metrics (self : t) (offset end_ : CPUData)
    (uptime_offset uptime_end : f64) (tags : option SortedTags) (now : Z) : t :=
  match cpu_utilization offset end_ uptime_offset uptime_end with
  | None => self
  | Some metrics =>
      insert_batch self
        ((fun nv => {| name := fst nv; value := snd nv; tags := tags; timestamp := now |})
           <$> metrics)
  end.

Definition set_cpu_utilization_enhanced_metrics (self : t) (cpu_offset : option CPUData)
    (uptime_offset : option f64) (cpu_data : option CPUData) (uptime_data : option f64)
    (now : Z) : t :=
  if enhanced_metrics self then
    match cpu_offset, cpu_data, uptime_offset, uptime_data with
    | Some cpu_offset, Some cpu_data, Some uptime_offset, Some uptime_data =>
        generate_cpu_utilization_enhanced_metrics self cpu_offset cpu_data uptime_offset
          uptime_data (get_dynamic_value_tags self) now
    | _, _, _, _ => self
    end
  else self.

(** * Reports *)

(** [ARCH] is the compile-time architecture. *)
Definition calculate_estimated_cost_usd (ARCH : string) (billed_duration_ms memory_size_mb : Z)
  : f64 :=
  let gb_seconds := fmul (fmul (f64_of_Z billed_duration_ms) MS_TO_SEC)
                         (fdiv (f64_of_Z memory_size_mb) MB_TO_GB) in
  let cost price_per_gb :=
    let e12 := f64_of_Z 1000000000000 in
    fdiv (fround (fmul (fadd BASE_LAMBDA_INVOCATION_PRICE (fmul gb_seconds price_per_gb)) e12)) e12 in
  if bool_decide (ARCH = "x86_64"%string) then cost X86_LAMBDA_PRICE_PER_GB_SECOND
  else if bool_decide (ARCH = "aarch64"%string) then cost ARM_LAMBDA_PRICE_PER_GB_SECOND
  else f64_zero.

Definition set_report_log_metrics (ARCH : string) (self : t) (metrics : ReportMetrics)
    (timestamp : Z) : t :=
  if enhanced_metrics self then
    let self := insert_metric self DURATION_METRIC (fmul (duration_ms metrics) MS_TO_SEC) timestamp in
    match metrics with
    | ManagedInstance _ => self
    | OnDemand metrics =>
        let self := insert_metric self BILLED_DURATION_METRIC
          (fmul (f64_of_Z (billed_duration_ms metrics)) MS_TO_SEC) timestamp in
        let self := insert_metric self MAX_MEMORY_USED_METRIC
          (f64_of_Z (max_memory_used_mb metrics)) timestamp in
        let self := insert_metric self MEMORY_SIZE_METRIC
          (f64_of_Z (memory_size_mb metrics)) timestamp in
        let cost_usd := calculate_estimated_cost_usd ARCH
          (billed_duration_ms metrics) (memory_size_mb metrics) in
        insert_metric self ESTIMATED_COST_METRIC cost_usd timestamp
    end
  else self.

(** * Usage *)

Definition restart_usage_metrics_monitoring (self : t) : t :=
  if enhanced_metrics self
  then with_handle self (Usage.resume_monitoring (Usage.reset_metrics (handle self))) else self.

Definition resume_usage_metrics_monitoring (self : t) : t :=
  if enhanced_metrics self then with_handle self (Usage.resume_monitoring (handle self)) else self.

Definition pause_usage_metrics_monitoring (self : t) : t :=
  if enhanced_metrics self then with_handle self (Usage.pause_monitoring (handle self)) else self.

(** The task of [start_usage_metrics_task] at one tick of its interval. *)
Definition usage_tick (self : t) (tmp_used fd_use threads_use : option f64) : t :=
  if enhanced_metrics self
  then with_handle self (Usage.tick (handle self) tmp_used fd_use threads_use) else self.

(** The reporting task: it carries the tags of the moment it was spawned. *)
Record UsageTask := { task_tags : option SortedTags }.

Definition set_usage_enhanced_metrics (self : t) : t * option UsageTask :=
  if enhanced_metrics self then
    let self := with_handle self (Usage.pause_monitoring (handle self)) in
    (self, Some {| task_tags := get_dynamic_value_tags self |})
  else (self, None).

(** What the task reports. *)
Definition usage_report (metrics : Usage.UsageMetrics) (tmp_max : option f64)
  : list (string * f64) :=
  (if flt f64_zero (Usage.tmp_used metrics) then
     (TMP_USED_METRIC, Usage.tmp_used metrics) ::
     match tmp_max with
     | Some tmp_max => [(TMP_MAX_METRIC, tmp_max);
                        (TMP_FREE_METRIC, fsub tmp_max (Usage.tmp_used metrics))]
     | None => []
     end
   else []) ++
  (if flt f64_zero (Usage.fd_use metrics) then [(FD_USE_METRIC, Usage.fd_use metrics)] else []) ++
  (if flt f64_zero (Usage.threads_use metrics)
   then [(THREADS_USE_METRIC, Usage.threads_use metrics)] else []).

Definition run_usage_task (self : t) (task : UsageTask) (tmp_max : option f64) (now : Z) : t :=
  let '(metrics, h) := Usage.get_metrics (handle self) in
  let self := with_handle self h in
  match metrics with
  | Some metrics => insert_each self (task_tags task) now (usage_report metrics tmp_max)
  | None => self
  end.

Definition set_max_enhanced_metrics (self : t) (fd_max threads_max : f64) (now : Z) : t :=
  if enhanced_metrics self then
    insert_each self (get_dynamic_value_tags self) now
      [(FD_MAX_METRIC, fd_max); (THREADS_MAX_METRIC, threads_max)]
  else self.

End Lambda.
(** * Usage of one invocation *)

Section UsageReport.
Context {SortedTags : Type} (parse_tags : string -> option SortedTags).

Definition tick_sample (self : @t SortedTags) (s : Usage.sample) : t :=
  usage_tick self (fst (fst s)) (snd (fst s)) (snd s).

Lemma active_ticks ticks : forall self : @t SortedTags,
  enhanced_metrics self = true -> Usage.running (handle self) = true ->
  Usage.monitoring_state (handle self) = true ->
  foldl tick_sample self ticks =
    with_handle self
      {| Usage.service := Usage.service (handle self); Usage.running := true;
         Usage.queue := Usage.queue (handle self) ++ (Usage.update_of <$> ticks);
         Usage.monitoring_state := true |}.
Proof.
  induction ticks as [|tk ticks IH]; intros self He Hr Hm; cbn [foldl].
  - rewrite app_nil_r. destruct self as [en d i h ins], h as [sv rn q ms]. simpl in *. by subst.
  - assert (tick_sample self tk =
      with_handle self (Usage.send (handle self) (Usage.update_of tk))) as ->.
    { unfold tick_sample, usage_tick, Usage.tick. by rewrite He, Hm. }
    rewrite IH by (simpl; rewrite ?He; done). unfold with_handle. simpl. rewrite Hr.
    by rewrite <- app_assoc.
Qed.

Lemma paused_ticks ticks : forall self : @t SortedTags,
  Usage.monitoring_state (handle self) = false -> foldl tick_sample self ticks = self.
Proof.
  induction ticks as [|tk ticks IH]; intros self Hm; cbn [foldl]; [done|].
  assert (tick_sample self tk = self) as ->; [|auto].
  unfold tick_sample, usage_tick, Usage.tick. rewrite Hm.
  destruct self. simpl. by case_match.
Qed.

Lemma insert_each_inserted metrics tags now : forall self : @t SortedTags,
  inserted (insert_each self tags now metrics) =
    inserted self ++
    ((fun nv => [{| name := fst nv; value := snd nv; tags := tags; timestamp := now |}]) <$> metrics).
Proof.
  induction metrics as [|nv metrics IH]; intros self; simpl; [by rewrite app_nil_r|].
  unfold insert_each in *. simpl. rewrite IH. simpl. by rewrite <- app_assoc.
Qed.

(** On demand, the usage reported for an invocation is the maximum of the
    samples taken between its invoke event and its runtime-done event: samples
    of earlier invocations do not leak in, and readings after monitoring was
    paused are not counted, provided the reporting task runs before the next
    invoke event. *)
Theorem usage_reported_per_invocation self ticks late tmp_max now task :
  enhanced_metrics self = true -> Usage.running (handle self) = true ->
  Forall (fun c => Usage.is_shutdown c = false) (Usage.queue (handle self)) ->
  let invoked := restart_usage_metrics_monitoring self in
  let done_ := set_usage_enhanced_metrics parse_tags (foldl tick_sample invoked ticks) in
  snd done_ = Some task ->
  inserted (run_usage_task (foldl tick_sample (fst done_) late) task tmp_max now) =
    inserted self ++
    ((fun nv => [{| name := fst nv; value := snd nv; tags := task_tags task; timestamp := now |}])
       <$> usage_report (Usage.maxima ticks) tmp_max).
Proof.
  intros He Hr Hq invoked done_ Htask. unfold done_ in *. clear done_.
  unfold invoked, restart_usage_metrics_monitoring in *. clear invoked. rewrite He in *.
  rewrite (active_ticks ticks) in Htask |- * by done. unfold set_usage_enhanced_metrics in *.
  set (s2 := with_handle (with_handle self _) _) in *.
  assert (enhanced_metrics s2 = true) as He2 by exact He.
  rewrite He2 in *. cbn [fst snd] in *. rewrite paused_ticks by reflexivity.
  unfold run_usage_task.
  set (h := handle _).
  pose proof (Usage.get_after_reset h ticks (Usage.queue (handle self))) as Hg.
  destruct (Usage.get_metrics h) as [m h']. cbn [fst] in Hg. rewrite Hg.
  - by rewrite insert_each_inserted.
  - done.
  - unfold h. simpl. rewrite Hr. by rewrite <- app_assoc.
  - done.
Qed.

End UsageReport.

Lemma usage_reported_per_invocation_witness :
  let old := usage_tick (restart_usage_metrics_monitoring (new true))
               (Some (f64_of_Z 50)) None None in
  inserted (run_usage_task (set_usage_enhanced_metrics (fun _ => Some tt)
      (tick_sample (restart_usage_metrics_monitoring old) (Some (f64_of_Z 4), None, None))).1
      {| task_tags := Some tt |} (Some (f64_of_Z 10)) 7) =
    [[{| name := TMP_USED_METRIC; value := f64_of_Z 4; tags := Some tt; timestamp := 7 |}];
     [{| name := TMP_MAX_METRIC; value := f64_of_Z 10; tags := Some tt; timestamp := 7 |}];
     [{| name := TMP_FREE_METRIC; value := fsub (f64_of_Z 10) (f64_of_Z 4); tags := Some tt;
         timestamp := 7 |}]].
Proof.
  exact (usage_reported_per_invocation (fun _ => Some tt)
    (usage_tick (restart_usage_metrics_monitoring (new true)) (Some (f64_of_Z 50)) None None)
    [(Some (f64_of_Z 4), None, None)] [] (Some (f64_of_Z 10)) 7 {| task_tags := Some tt |}
    eq_refl eq_refl ltac:(repeat (apply Forall_cons; split; [done|]); apply Forall_nil_2) eq_refl).
Defined.

End Lambda.
