(* ===== verification/Proc.v ===== *)
(** Host readings: the parsers of [proc/mod.rs].

    A file is the list of its lines, a line that cannot be read being [None]; a file
    that cannot be opened, and a directory that cannot be listed, is [None]. The
    regular expressions are an argument: the text of the first group of the first
    match. *)
From S2P Require Import Prelude F64 Text EnhancedMetrics.
#[local] Open Scope Z_scope.

Abbreviation File := (option (list (option string))).

(** [io::ErrorKind]; [Io] is an error of the system. *)
Inductive ErrorKind := NotFound | InvalidData | Io.
Abbreviation io_result A := (A + ErrorKind)%type.

(** * Process list *)

Record DirEntry := {
  (** [file_type().ok()], as whether it is a directory *)
  entry_is_dir : option bool;
  (** [file_name().to_str()] *)
  entry_name : option string;
}.

(** An entry that cannot be read is [None]. *)
Definition get_pid_list_from_path (entries : option (list (option DirEntry))) : list Z :=
  match entries with
  | None => []
  | Some entries =>
      omap (fun entry =>
        e ← entry;
        is_dir ← entry_is_dir e;
        if is_dir : bool then name ← entry_name e; parse_i64 name else None) entries
  end.

(** * Network *)

Definition LAMBDA_NETWORK_INTERFACE : string := "vinternal_1".
Definition LAMBDA_RUNTIME_NETWORK_INTERFACE : string := "vint_runtime".
Definition MANAGED_INSTANCE_NETWORK_INTERFACE : string := "Ceth1".

Definition is_lambda_interface (interface_name : string) : bool :=
  starts_with LAMBDA_NETWORK_INTERFACE interface_name
  || starts_with LAMBDA_RUNTIME_NETWORK_INTERFACE interface_name
  || starts_with MANAGED_INSTANCE_NETWORK_INTERFACE interface_name.

Fixpoint network_lines (lines : list (option string)) : io_result NetworkData :=
  match lines with
  | [] => inr NotFound
  | None :: _ => inr Io
  | Some line :: lines =>
      match split_whitespace line with
      | interface_name :: values =>
          if is_lambda_interface interface_name then
            match head values ≫= parse_f64, drop 1 values !! 7%nat ≫= parse_f64 with
            | Some rx_val, Some tx_val => inl {| rx_bytes := rx_val; tx_bytes := tx_val |}
            | _, _ => inr NotFound
            end
          else network_lines lines
      | [] => network_lines lines
      end
  end.

Definition get_network_data_from_path (file : File) : io_result NetworkData :=
  match file with Some lines => network_lines lines | None => inr Io end.

(** * CPU *)

Definition CPUData_zero : CPUData :=
  {| total_user_time_ms := f64_zero; total_system_time_ms := f64_zero;
     total_idle_time_ms := f64_zero; individual_cpu_idle_times := ∅ |}.

(** Ticks to milliseconds. *)
Definition ticks_to_ms (clktck ticks : f64) : f64 := fmul (fdiv ticks clktck) (f64_of_Z 1000).

Definition cpu_line (clktck : f64) (cpu_data : CPUData) (line : string) : io_result CPUData :=
  match split_whitespace line with
  | [] => inl cpu_data
  | label :: values =>
      let value n := values !! n ≫= parse_f64 in
      if decide (label = "cpu"%string) then
        match value 0%nat, value 2%nat, value 3%nat with
        | Some user_val, Some system_val, Some idle_val =>
            inl {| total_user_time_ms := ticks_to_ms clktck user_val;
                   total_system_time_ms := ticks_to_ms clktck system_val;
                   total_idle_time_ms := ticks_to_ms clktck idle_val;
                   individual_cpu_idle_times := individual_cpu_idle_times cpu_data |}
        | _, _, _ => inr InvalidData
        end
      else if starts_with "cpu" label then
        match value 3%nat with
        | Some idle_val =>
            inl {| total_user_time_ms := total_user_time_ms cpu_data;
                   total_system_time_ms := total_system_time_ms cpu_data;
                   total_idle_time_ms := total_idle_time_ms cpu_data;
                   individual_cpu_idle_times :=
                     <[label := ticks_to_ms clktck idle_val]> (individual_cpu_idle_times cpu_data) |}
        | None => inr InvalidData
        end
      else inl cpu_data
  end.

Fixpoint cpu_lines (clktck : f64) (cpu_data : CPUData) (lines : list (option string)) :
    io_result CPUData :=
  match lines with
  | [] => if decide (individual_cpu_idle_times cpu_data = ∅) then inr NotFound else inl cpu_data
  | None :: _ => inr Io
  | Some line :: lines =>
      match cpu_line clktck cpu_data line with
      | inl cpu_data => cpu_lines clktck cpu_data lines
      | inr e => inr e
      end
  end.

(** [clk_tck] is the clock frequency of the system, if it can be read. *)
Definition get_cpu_data_from_path (clk_tck : option Z) (file : File) : io_result CPUData :=
  match file, clk_tck with
  | Some lines, Some clktck => cpu_lines (f64_of_Z clktck) CPUData_zero lines
  | _, _ => inr Io
  end.

(** * Uptime *)

Definition get_uptime_from_path (file : File) : io_result f64 :=
  match file with
  | None => inr Io
  | Some [] => inr NotFound
  | Some (None :: _) => inr Io
  | Some (Some line :: _) =>
      let values := split_whitespace line in
      match values !! 0%nat ≫= parse_f64, values !! 1%nat ≫= parse_f64 with
      | Some uptime_val, Some _ => inl (fmul uptime_val (f64_of_Z 1000))
      | _, _ => inr InvalidData
      end
  end.

(** * File descriptors and threads *)

Section Limits.
(** [Regex::new(re).captures(line)], as the text of group 1. *)
Variable captures : string -> string -> option string.

Definition MAX_OPEN_FILES_RE : string := "^Max open files\s+(\d+)".
Definition MAX_PROCESSES_RE : string := "^Max processes\s+(\d+)".
Definition LAMBDA_FILE_DESCRIPTORS_DEFAULT_LIMIT : f64 := f64_of_Z 1024.
Definition LAMBDA_EXECUTION_PROCESSES_DEFAULT_LIMIT : f64 := f64_of_Z 1024.

(** The first line that matches; reading stops at an error. *)
Fixpoint limit_line (re : string) (lines : list (option string)) : option string :=
  match lines with
  | Some line :: lines =>
      match captures re line with Some text => Some text | None => limit_line re lines end
  | _ => None
  end.

Definition lower_limit (re : string) (limit : f64) (file : File) : f64 :=
  match (file ≫= limit_line re) ≫= parse_f64 with
  | Some limit_pid => fmin limit limit_pid
  | None => limit
  end.

(** [limits] is the limits file of each process. *)
Definition get_fd_max_data_from_path (limits : list File) : f64 :=
  foldl (lower_limit MAX_OPEN_FILES_RE) LAMBDA_FILE_DESCRIPTORS_DEFAULT_LIMIT limits.

Definition get_threads_max_data_from_path (limits : list File) : f64 :=
  foldl (lower_limit MAX_PROCESSES_RE) LAMBDA_EXECUTION_PROCESSES_DEFAULT_LIMIT limits.
End Limits.

(** The number of entries of the [fd] directory of each process. *)
Definition get_fd_use_data_from_path (fds : list (option nat)) : f64 :=
  f64_of_Z (Z.of_nat (sum_list (default 0%nat <$> fds))).

(** The entries of the [task] directory of each process, an entry being whether it
    is a directory. *)
Definition get_threads_use_data_from_path (tasks : list (option (list (option bool)))) : io_result f64 :=
  match mapM id tasks with
  | None => inr InvalidData
  | Some tasks =>
      inl (f64_of_Z (Z.of_nat (sum_list
        ((fun task => length (filter (fun d => d = Some true) task)) <$> tasks))))
  end.

(** * The reported limit is the smallest

    [flt a b = false] with neither a NaN is [b <= a]. *)

Definition at_most (x a : f64) : Prop := is_nan x = false /\ flt a x = false.

Lemma fmin_least a b : is_nan a = false ->
  at_most (fmin a b) a /\ (is_nan b = false -> at_most (fmin a b) b) /\
  (fmin a b = a \/ fmin a b = b).
Proof.
  intros Ha. unfold at_most. destruct (is_nan b) eqn:Hb.
  - assert (Hf : fmin a b = a) by (by destruct a, b). rewrite Hf, flt_irrefl. split_and!; (done || by left).
  - assert (Hf : fmin a b = if flt b a then b else a) by (by destruct a, b).
    rewrite Hf. destruct (flt b a) eqn:Hlt; rewrite flt_irrefl; auto using flt_asym.
Qed.

Section LimitProperties.
Variable captures : string -> string -> option string.

(** The limit that a file states. *)
Definition stated_limit (re : string) (file : File) : option f64 :=
  (file ≫= limit_line captures re) ≫= parse_f64.

(** Starting from a number, the fold gives a number that is no greater than the start
    or any number stated, and is one of them. *)
Lemma limits_are_least re limits : forall start,
  is_nan start = false ->
  let limit := foldl (lower_limit captures re) start limits in
  at_most limit start /\
  (forall file x, file ∈ limits -> stated_limit re file = Some x -> is_nan x = false -> at_most limit x) /\
  (limit = start \/ exists file, file ∈ limits /\ stated_limit re file = Some limit).
Proof.
  induction limits as [|file limits IH]; intros start Hs; cbn.
  { unfold at_most. rewrite flt_irrefl. set_solver. }
  set (start1 := lower_limit captures re start file).
  assert (H1 : at_most start1 start /\
    (forall x, stated_limit re file = Some x -> is_nan x = false -> at_most start1 x) /\
    (start1 = start \/ stated_limit re file = Some start1)).
  { subst start1. unfold lower_limit. fold (stated_limit re file).
    destruct (stated_limit re file) as [x|] eqn:Hx.
    - destruct (fmin_least start x Hs) as (Ha & Hb & Hc).
      split; [done|]. split; [by intros ? [= <-]|]. destruct Hc as [->| ->]; auto.
    - unfold at_most. rewrite flt_irrefl. split_and!; (done || by left). }
  destruct H1 as ((Hn1 & Hle1) & Hfile & Hone). specialize (IH start1 Hn1) as ((Hn & Hle) & Hall & Hin).
  assert (Htrans : forall a, is_nan a = false -> at_most start1 a ->
    at_most (foldl (lower_limit captures re) start1 limits) a).
  { intros a Ha [_ Hs1]. split; [done|]. by apply flt_false_trans with start1. }
  split; [by apply Htrans|]. split.
  - intros f x [->|Hf]%elem_of_cons Hx Hxn; [|by eapply Hall]. apply Htrans; auto.
  - destruct Hin as [Heq|(f & Hf & Hx)]; [|set_solver].
    destruct Hone as [H1|H1]; rewrite Heq; [auto|right; exists file; set_solver].
Qed.
End LimitProperties.
