(* ===== verification/ContextBuffer.v ===== *)
(** The buffer of invocation contexts: [lifecycle/invocation/context.rs], with the
    inferred-span data a context carries ([lifecycle/invocation/span_inferrer.rs])
    and the empty span of [lifecycle/invocation/mod.rs].

    [Span] is the protobuf message of libdd, with the fields the crate reads and
    writes; [SpanContext] (propagation) and [Value] (serde) are type arguments. A
    [VecDeque] is a list with its front at the head and the capacity it was
    created with; [HashMap]s are [gmap]s. Clock reads are arguments. *)
From S2P Require Import Prelude F64 EnhancedMetrics.
#[local] Open Scope Z_scope.

Record Span := {
  service : string;
  name : string;
  resource : string;
  trace_id : Z;
  span_id : Z;
  parent_id : Z;
  start : Z;
  duration : Z;
  error : Z;
  meta : gmap string string;
  metrics : gmap string f64;
  type_ : string;
  meta_struct : gmap string bytes;
}.

Definition Span_default : Span :=
  {| service := ""; name := ""; resource := ""; trace_id := 0; span_id := 0; parent_id := 0;
     start := 0; duration := 0; error := 0; meta := ∅; metrics := ∅; type_ := "";
     meta_struct := ∅ |}.

Definition with_meta (s : Span) (m : gmap string string) : Span :=
  {| service := service s; name := name s; resource := resource s; trace_id := trace_id s;
     span_id := span_id s; parent_id := parent_id s; start := start s; duration := duration s;
     error := error s; meta := m; metrics := metrics s; type_ := type_ s;
     meta_struct := meta_struct s |}.
Definition with_start (s : Span) (v : Z) : Span :=
  {| service := service s; name := name s; resource := resource s; trace_id := trace_id s;
     span_id := span_id s; parent_id := parent_id s; start := v; duration := duration s;
     error := error s; meta := meta s; metrics := metrics s; type_ := type_ s;
     meta_struct := meta_struct s |}.
Definition with_duration (s : Span) (v : Z) : Span :=
  {| service := service s; name := name s; resource := resource s; trace_id := trace_id s;
     span_id := span_id s; parent_id := parent_id s; start := start s; duration := v;
     error := error s; meta := meta s; metrics := metrics s; type_ := type_ s;
     meta_struct := meta_struct s |}.
Definition with_parent_id (s : Span) (v : Z) : Span :=
  {| service := service s; name := name s; resource := resource s; trace_id := trace_id s;
     span_id := span_id s; parent_id := v; start := start s; duration := duration s;
     error := error s; meta := meta s; metrics := metrics s; type_ := type_ s;
     meta_struct := meta_struct s |}.

(** [map.extend(other)]: the entries of [other] win. *)
Definition extend {A} (m other : gmap string A) : gmap string A := other ∪ m.

Definition create_empty_span (span_name span_resource span_service : string) : Span :=
  {| service := span_service; name := span_name; resource := span_resource; trace_id := 0;
     span_id := 0; parent_id := 0; start := 0; duration := 0; error := 0;
     meta := <["span.kind"%string := "server"%string]> ∅; metrics := ∅; type_ := "serverless";
     meta_struct := ∅ |}.

Record SpanPointer := { ptr_hash : string; ptr_kind : string }.

Module Inferred.
Section Inferred.
Context {SpanContext : Type}.

Record t := {
  inferred_span : option Span;
  wrapped_inferred_span : option Span;
  is_async_span : bool;
  generated_span_context : option SpanContext;
  trigger_tags : option (gmap string string);
  span_pointers : option (list SpanPointer);
}.

Definition default : t :=
  {| inferred_span := None; wrapped_inferred_span := None; is_async_span := false;
     generated_span_context := None; trigger_tags := None; span_pointers := None |}.

Definition map_span (f : Span -> Span) (self : t) : t :=
  {| inferred_span := f <$> inferred_span self;
     wrapped_inferred_span := wrapped_inferred_span self; is_async_span := is_async_span self;
     generated_span_context := generated_span_context self; trigger_tags := trigger_tags self;
     span_pointers := span_pointers self |}.

Definition set_parent_id (self : t) (parent_id : Z) : t :=
  map_span (fun s => with_parent_id s parent_id) self.

Definition extend_meta (self : t) (iter : gmap string string) : t :=
  map_span (fun s => with_meta s (extend (meta s) iter)) self.

Definition set_status_code (self : t) (status_code : string) : t :=
  map_span (fun s => with_meta s (<["http.status_code"%string := status_code]> (meta s))) self.

Definition get_trigger_tags (self : t) : option (gmap string string) := trigger_tags self.

End Inferred.
End Inferred.

Module Buffer.
Section Buffer.
Context {SpanContext Value : Type}.

Definition MS_TO_NS : f64 := f64_of_Z 1000000.

Record Context_ := {
  created_at : Z;
  request_id : string;
  runtime_duration_ms : f64;
  enhanced_metric_data : option EnhancedMetricData;
  invocation_span : Span;
  runtime_done_received : bool;
  tracer_span : option Span;
  cold_start_span : option Span;
  snapstart_restore_span : option Span;
  extracted_span_context : option SpanContext;
  oom_emitted : bool;
  client_computed_stats : bool;
  inferred : @Inferred.t SpanContext;
}.

Record ReparentingInfo := {
  info_request_id : string;
  invocation_span_id : Z;
  parent_id_to_reparent : Z;
  guessed_trace_id : Z;
  needs_trace_id : bool;
}.

(** [now] in nanoseconds. *)
Definition Context_default (now : Z) : Context_ :=
  {| created_at := now; request_id := ""; runtime_duration_ms := f64_zero;
     enhanced_metric_data := None; invocation_span := Span_default;
     runtime_done_received := false; tracer_span := None; cold_start_span := None;
     snapstart_restore_span := None; extracted_span_context := None; oom_emitted := false;
     client_computed_stats := false; inferred := Inferred.default |}.

Definition set_request_id (c : Context_) (v : string) : Context_ :=
  {| created_at := created_at c; request_id := v; runtime_duration_ms := runtime_duration_ms c;
     enhanced_metric_data := enhanced_metric_data c; invocation_span := invocation_span c;
     runtime_done_received := runtime_done_received c; tracer_span := tracer_span c;
     cold_start_span := cold_start_span c; snapstart_restore_span := snapstart_restore_span c;
     extracted_span_context := extracted_span_context c; oom_emitted := oom_emitted c;
     client_computed_stats := client_computed_stats c; inferred := inferred c |}.
Definition set_invocation_span (c : Context_) (v : Span) : Context_ :=
  {| created_at := created_at c; request_id := request_id c;
     runtime_duration_ms := runtime_duration_ms c;
     enhanced_metric_data := enhanced_metric_data c; invocation_span := v;
     runtime_done_received := runtime_done_received c; tracer_span := tracer_span c;
     cold_start_span := cold_start_span c; snapstart_restore_span := snapstart_restore_span c;
     extracted_span_context := extracted_span_context c; oom_emitted := oom_emitted c;
     client_computed_stats := client_computed_stats c; inferred := inferred c |}.
Definition set_runtime_duration (c : Context_) (v : f64) : Context_ :=
  {| created_at := created_at c; request_id := request_id c; runtime_duration_ms := v;
     enhanced_metric_data := enhanced_metric_data c; invocation_span := invocation_span c;
     runtime_done_received := runtime_done_received c; tracer_span := tracer_span c;
     cold_start_span := cold_start_span c; snapstart_restore_span := snapstart_restore_span c;
     extracted_span_context := extracted_span_context c; oom_emitted := oom_emitted c;
     client_computed_stats := client_computed_stats c; inferred := inferred c |}.
Definition set_enhanced_metric_data (c : Context_) (v : option EnhancedMetricData) : Context_ :=
  {| created_at := created_at c; request_id := request_id c;
     runtime_duration_ms := runtime_duration_ms c; enhanced_metric_data := v;
     invocation_span := invocation_span c;
     runtime_done_received := runtime_done_received c; tracer_span := tracer_span c;
     cold_start_span := cold_start_span c; snapstart_restore_span := snapstart_restore_span c;
     extracted_span_context := extracted_span_context c; oom_emitted := oom_emitted c;
     client_computed_stats := client_computed_stats c; inferred := inferred c |}.
Definition set_tracer_span (c : Context_) (v : Span) (stats : bool) : Context_ :=
  {| created_at := created_at c; request_id := request_id c;
     runtime_duration_ms := runtime_duration_ms c;
     enhanced_metric_data := enhanced_metric_data c; invocation_span := invocation_span c;
     runtime_done_received := runtime_done_received c; tracer_span := Some v;
     cold_start_span := cold_start_span c; snapstart_restore_span := snapstart_restore_span c;
     extracted_span_context := extracted_span_context c; oom_emitted := oom_emitted c;
     client_computed_stats := stats; inferred := inferred c |}.

Definition from_request_id (now : Z) (rid : string) : Context_ :=
  set_request_id (Context_default now) rid.

Record UniversalInstrumentationData := { headers : gmap string string; payload_value : Value }.

Record UniversalInstrumentationDataWithRequestId := {
  rid_request_id : string;
  rid_headers : gmap string string;
  rid_payload_value : Value;
}.

Record t := {
  buffer : list Context_;
  capacity : nat;
  invoke_events_request_ids : list string;
  platform_runtime_done_events_request_ids : list string;
  universal_instrumentation_start_events : list UniversalInstrumentationData;
  universal_instrumentation_end_events : list UniversalInstrumentationData;
  universal_instrumentation_start_events_with_id :
    gmap string UniversalInstrumentationDataWithRequestId;
  universal_instrumentation_end_events_with_id :
    gmap string UniversalInstrumentationDataWithRequestId;
  sorted_reparenting_info : list ReparentingInfo;
}.

Definition with_capacity (capacity : nat) : t :=
  {| buffer := []; capacity := capacity; invoke_events_request_ids := [];
     platform_runtime_done_events_request_ids := [];
     universal_instrumentation_start_events := []; universal_instrumentation_end_events := [];
     universal_instrumentation_start_events_with_id := ∅;
     universal_instrumentation_end_events_with_id := ∅; sorted_reparenting_info := [] |}.

Definition default : t := with_capacity 500.

Definition set_buffer (self : t) (b : list Context_) : t :=
  {| buffer := b; capacity := capacity self;
     invoke_events_request_ids := invoke_events_request_ids self;
     platform_runtime_done_events_request_ids := platform_runtime_done_events_request_ids self;
     universal_instrumentation_start_events := universal_instrumentation_start_events self;
     universal_instrumentation_end_events := universal_instrumentation_end_events self;
     universal_instrumentation_start_events_with_id :=
       universal_instrumentation_start_events_with_id self;
     universal_instrumentation_end_events_with_id :=
       universal_instrumentation_end_events_with_id self;
     sorted_reparenting_info := sorted_reparenting_info self |}.
Definition set_invokes (self : t) (ids : list string) : t :=
  {| buffer := buffer self; capacity := capacity self;
     invoke_events_request_ids := ids;
     platform_runtime_done_events_request_ids := platform_runtime_done_events_request_ids self;
     universal_instrumentation_start_events := universal_instrumentation_start_events self;
     universal_instrumentation_end_events := universal_instrumentation_end_events self;
     universal_instrumentation_start_events_with_id :=
       universal_instrumentation_start_events_with_id self;
     universal_instrumentation_end_events_with_id :=
       universal_instrumentation_end_events_with_id self;
     sorted_reparenting_info := sorted_reparenting_info self |}.
Definition set_dones (self : t) (ids : list string) : t :=
  {| buffer := buffer self; capacity := capacity self;
     invoke_events_request_ids := invoke_events_request_ids self;
     platform_runtime_done_events_request_ids := ids;
     universal_instrumentation_start_events := universal_instrumentation_start_events self;
     universal_instrumentation_end_events := universal_instrumentation_end_events self;
     universal_instrumentation_start_events_with_id :=
       universal_instrumentation_start_events_with_id self;
     universal_instrumentation_end_events_with_id :=
       universal_instrumentation_end_events_with_id self;
     sorted_reparenting_info := sorted_reparenting_info self |}.
Definition set_starts (self : t) (evs : list UniversalInstrumentationData) : t :=
  {| buffer := buffer self; capacity := capacity self;
     invoke_events_request_ids := invoke_events_request_ids self;
     platform_runtime_done_events_request_ids := platform_runtime_done_events_request_ids self;
     universal_instrumentation_start_events := evs;
     universal_instrumentation_end_events := universal_instrumentation_end_events self;
     universal_instrumentation_start_events_with_id :=
       universal_instrumentation_start_events_with_id self;
     universal_instrumentation_end_events_with_id :=
       universal_instrumentation_end_events_with_id self;
     sorted_reparenting_info := sorted_reparenting_info self |}.
Definition set_ends (self : t) (evs : list UniversalInstrumentationData) : t :=
  {| buffer := buffer self; capacity := capacity self;
     invoke_events_request_ids := invoke_events_request_ids self;
     platform_runtime_done_events_request_ids := platform_runtime_done_events_request_ids self;
     universal_instrumentation_start_events := universal_instrumentation_start_events self;
     universal_instrumentation_end_events := evs;
     universal_instrumentation_start_events_with_id :=
       universal_instrumentation_start_events_with_id self;
     universal_instrumentation_end_events_with_id :=
       universal_instrumentation_end_events_with_id self;
     sorted_reparenting_info := sorted_reparenting_info self |}.
Definition set_starts_with_id (self : t)
    (m : gmap string UniversalInstrumentationDataWithRequestId) : t :=
  {| buffer := buffer self; capacity := capacity self;
     invoke_events_request_ids := invoke_events_request_ids self;
     platform_runtime_done_events_request_ids := platform_runtime_done_events_request_ids self;
     universal_instrumentation_start_events := universal_instrumentation_start_events self;
     universal_instrumentation_end_events := universal_instrumentation_end_events self;
     universal_instrumentation_start_events_with_id := m;
     universal_instrumentation_end_events_with_id :=
       universal_instrumentation_end_events_with_id self;
     sorted_reparenting_info := sorted_reparenting_info self |}.
Definition set_ends_with_id (self : t)
    (m : gmap string UniversalInstrumentationDataWithRequestId) : t :=
  {| buffer := buffer self; capacity := capacity self;
     invoke_events_request_ids := invoke_events_request_ids self;
     platform_runtime_done_events_request_ids := platform_runtime_done_events_request_ids self;
     universal_instrumentation_start_events := universal_instrumentation_start_events self;
     universal_instrumentation_end_events := universal_instrumentation_end_events self;
     universal_instrumentation_start_events_with_id :=
       universal_instrumentation_start_events_with_id self;
     universal_instrumentation_end_events_with_id := m;
     sorted_reparenting_info := sorted_reparenting_info self |}.

(** * Contexts *)

Definition size (self : t) : nat := length (buffer self).
Definition is_empty (self : t) : bool := bool_decide (buffer self = []).

(** The position of the first context that satisfies [P]. *)
Definition position (P : Context_ -> Prop) `{forall c, Decision (P c)} (self : t) : option nat :=
  fst <$> list_find P (buffer self).

Definition get (self : t) (rid : string) : option Context_ :=
  snd <$> list_find (fun c => request_id c = rid) (buffer self).

(** A mutable reference to the context at [i], used by [f]. *)
Definition update_at (self : t) (i : nat) (f : Context_ -> Context_) : t :=
  set_buffer self (alter f i (buffer self)).

(** [get_mut(request_id)] followed by a change. *)
Definition update_first (self : t) (rid : string) (f : Context_ -> Context_) : t :=
  match position (fun c => request_id c = rid) self with
  | Some i => update_at self i f
  | None => self
  end.

Definition remove (self : t) (rid : string) : option Context_ * t :=
  match list_find (fun c => request_id c = rid) (buffer self) with
  | Some (i, c) => (Some c, set_buffer self (take i (buffer self) ++ drop (S i) (buffer self)))
  | None => (None, self)
  end.

Definition insert (self : t) (context : Context_) : t :=
  if bool_decide (size self = capacity self) then
    set_buffer self (push_back (snd (pop_front (buffer self))) context)
  else
    let self :=
      match get self (request_id context) with
      | Some _ => snd (remove self (request_id context))
      | None => self
      end in
    set_buffer self (push_back (buffer self) context).

(** [i64::abs] in release: the least integer is its own absolute value. *)
Definition abs_i64 (z : Z) : Z := wrap_i64 (Z.abs z).

(** One turn of the loop: the index of the context, the closest so far and its
    distance. *)
Definition closest_step (timestamp : Z) (acc : nat * option nat * Z) (context : Context_)
  : nat * option nat * Z :=
  let '(i, closest, min_diff) := acc in
  let diff := abs_i64 (wrap_i64 (created_at context - timestamp)) in
  if diff <? min_diff then (S i, Some i, diff) else (S i, closest, min_diff).

(** [get_closest_mut]: the position of the context it refers to. *)
Definition get_closest (self : t) (timestamp : Z) : option nat :=
  snd (fst (foldl (closest_step timestamp) (0%nat, None, I64_MAX) (buffer self))).

(** * Pairing in arrival order *)

Definition pair_invoke_event (self : t) (rid : string)
  : option (gmap string string * Value) * t :=
  match universal_instrumentation_start_events self with
  | ev :: evs => (Some (headers ev, payload_value ev), set_starts self evs)
  | [] => (None, set_invokes self (push_back (invoke_events_request_ids self) rid))
  end.

Definition pair_universal_instrumentation_start_event (self : t)
    (h : gmap string string) (p : Value) : option string * t :=
  match invoke_events_request_ids self with
  | rid :: ids => (Some rid, set_invokes self ids)
  | [] => (None, set_starts self (push_back (universal_instrumentation_start_events self)
                                    {| headers := h; payload_value := p |}))
  end.

Definition pair_universal_instrumentation_end_event (self : t)
    (h : gmap string string) (p : Value) : option string * t :=
  match platform_runtime_done_events_request_ids self with
  | rid :: ids => (Some rid, set_dones self ids)
  | [] => (None, set_ends self (push_back (universal_instrumentation_end_events self)
                                  {| headers := h; payload_value := p |}))
  end.

Definition pair_platform_runtime_done_event (self : t) (rid : string)
  : option (gmap string string * Value) * t :=
  match universal_instrumentation_end_events self with
  | ev :: evs => (Some (headers ev, payload_value ev), set_ends self evs)
  | [] => (None, set_dones self (push_back (platform_runtime_done_events_request_ids self) rid))
  end.

(** * Pairing by request id *)

(** Removes the first occurrence. *)
Definition remove_first (rid : string) (ids : list string) : option (list string) :=
  '(i, _) ← list_find (fun id => id = rid) ids; Some (take i ids ++ drop (S i) ids).

Definition pair_universal_instrumentation_start_with_request_id (self : t) (rid : string)
    (h : gmap string string) (p : Value) : bool * t :=
  match remove_first rid (invoke_events_request_ids self) with
  | Some ids => (true, set_invokes self ids)
  | None =>
      (false, set_starts_with_id self
         (<[rid := {| rid_request_id := rid; rid_headers := h; rid_payload_value := p |}]>
            (universal_instrumentation_start_events_with_id self)))
  end.

Definition take_universal_instrumentation_start_for_request_id (self : t) (rid : string)
  : option UniversalInstrumentationDataWithRequestId * t :=
  (universal_instrumentation_start_events_with_id self !! rid,
   set_starts_with_id self (delete rid (universal_instrumentation_start_events_with_id self))).

Definition pair_universal_instrumentation_end_with_request_id (self : t) (rid : string)
    (h : gmap string string) (p : Value) : bool * t :=
  match remove_first rid (platform_runtime_done_events_request_ids self) with
  | Some ids => (true, set_dones self ids)
  | None =>
      (false, set_ends_with_id self
         (<[rid := {| rid_request_id := rid; rid_headers := h; rid_payload_value := p |}]>
            (universal_instrumentation_end_events_with_id self)))
  end.

Definition take_universal_instrumentation_end_for_request_id (self : t) (rid : string)
  : option UniversalInstrumentationDataWithRequestId * t :=
  (universal_instrumentation_end_events_with_id self !! rid,
   set_ends_with_id self (delete rid (universal_instrumentation_end_events_with_id self))).

(** * Changes of a context *)

Definition tag_request_id (rid : string) (s : Span) : Span :=
  with_meta s (<["request_id"%string := rid]> (meta s)).

Definition start_context (self : t) (now : Z) (rid : string) (span : Span) : t :=
  let context := from_request_id now rid in
  let context := set_invocation_span context (tag_request_id rid span) in
  insert self context.

Definition update_empty_context_request_id (self : t) (rid : string) : bool * t :=
  match position (fun c => request_id c = EmptyString) self with
  | Some i =>
      (true, update_at self i (fun c =>
         set_invocation_span (set_request_id c rid) (tag_request_id rid (invocation_span c))))
  | None => (false, self)
  end.

Definition add_start_time (self : t) (rid : string) (start_time : Z) : t :=
  update_first self rid (fun c =>
    set_invocation_span c (with_start (invocation_span c) start_time)).

Definition add_runtime_duration (self : t) (rid : string) (ms : f64) : t :=
  update_first self rid (fun c =>
    let c := set_runtime_duration c ms in
    set_invocation_span c
      (with_duration (invocation_span c) (f64_to_i64 (fround (fmul ms MS_TO_NS))))).

Definition add_enhanced_metric_data (self : t) (rid : string) (d : option EnhancedMetricData) : t :=
  update_first self rid (fun c => set_enhanced_metric_data c d).

Definition merge_tracer_span (s tracer : Span) : Span :=
  {| service := service s; name := name s; resource := resource s; trace_id := trace_id s;
     span_id := span_id s; parent_id := parent_id s; start := start s; duration := duration s;
     error := error s; meta := extend (meta s) (meta tracer);
     metrics := extend (metrics s) (metrics tracer); type_ := type_ s;
     meta_struct := extend (meta_struct s) (meta_struct tracer) |}.

Definition add_tracer_span (self : t) (rid : string) (tracer : Span) (stats : bool) : t :=
  update_first self rid (fun c =>
    set_tracer_span (set_invocation_span c (merge_tracer_span (invocation_span c) tracer))
      tracer stats).

Definition get_context_with_cold_start (self : t) : option nat :=
  position (fun c => is_Some (cold_start_span c)) self.

(** * Lookup by request id *)

Definition ids (self : t) : list string := request_id <$> buffer self.

Definition lookup_id (rid : string) (l : list Context_) : option Context_ :=
  snd <$> list_find (fun c => request_id c = rid) l.

Lemma get_lookup_id self rid : get self rid = lookup_id rid (buffer self).
Proof. reflexivity. Qed.

Lemma lookup_id_cons rid c l :
  lookup_id rid (c :: l) = if decide (request_id c = rid) then Some c else lookup_id rid l.
Proof.
  unfold lookup_id. simpl. case_decide; [done|].
  by destruct (list_find _ l) as [[]|].
Qed.

Lemma lookup_id_app rid l1 l2 :
  lookup_id rid (l1 ++ l2) =
    match lookup_id rid l1 with Some c => Some c | None => lookup_id rid l2 end.
Proof.
  induction l1 as [|c l1 IH]; [done|]. simpl. rewrite !lookup_id_cons. by case_decide.
Qed.

Lemma lookup_id_None rid l : lookup_id rid l = None <-> rid ∉ request_id <$> l.
Proof.
  induction l as [|c l IH]; [set_solver|]. rewrite lookup_id_cons, fmap_cons, not_elem_of_cons.
  case_decide; naive_solver.
Qed.

(** [remove] takes out the first context with the id. *)
Lemma remove_splits self rid :
  match lookup_id rid (buffer self) with
  | None => remove self rid = (None, self)
  | Some c => exists l1 l2, buffer self = l1 ++ c :: l2 /\ request_id c = rid /\
      rid ∉ request_id <$> l1 /\ remove self rid = (Some c, set_buffer self (l1 ++ l2))
  end.
Proof.
  unfold lookup_id, remove. destruct (list_find _ (buffer self)) as [[i c]|] eqn:Hf; [|done]. simpl.
  apply list_find_Some in Hf as (Hi & Hc & Hbefore).
  exists (take i (buffer self)), (drop (S i) (buffer self)).
  split_and!; [by rewrite take_drop_middle|done| |done].
  intros (c' & Hc' & Hin)%list_elem_of_fmap. apply elem_of_take in Hin as (j & Hj & Hlt).
  by apply (Hbefore j c').
Qed.

(** A context inserted into a buffer that is not full replaces the one of its
    id. *)
Lemma insert_not_full self c :
  (size self < capacity self)%nat -> NoDup (ids self) ->
  exists l, buffer (insert self c) = l ++ [c] /\ request_id c ∉ request_id <$> l /\
    NoDup (request_id <$> l) /\ (length l <= size self)%nat /\
    capacity (insert self c) = capacity self /\
    (forall rid, rid <> request_id c -> lookup_id rid l = lookup_id rid (buffer self)).
Proof.
  intros Hsz Hnd. unfold insert. rewrite bool_decide_false by lia.
  pose proof (remove_splits self (request_id c)) as Hr.
  unfold get. fold (lookup_id (request_id c) (buffer self)).
  destruct (lookup_id (request_id c) (buffer self)) as [c'|] eqn:Hl.
  - destruct Hr as (l1 & l2 & Hb & Hc' & Hn1 & ->). exists (l1 ++ l2). simpl.
    unfold ids, size in *. rewrite Hb, fmap_app, fmap_cons in Hnd. rewrite Hb.
    apply NoDup_app in Hnd as (Hnd1 & Hdis & Hnd2). apply NoDup_cons in Hnd2 as [Hn2 Hnd2].
    rewrite Hc' in Hn2. split_and!; [done| | | |done|].
    + rewrite fmap_app, not_elem_of_app. done.
    + rewrite fmap_app. apply NoDup_app. split_and!; [done| |done]. set_solver.
    + rewrite !length_app. simpl. lia.
    + intros rid Hne. rewrite !lookup_id_app, lookup_id_cons.
      rewrite decide_False by congruence. done.
  - exists (buffer self). apply lookup_id_None in Hl. split_and!; done.
Qed.

Lemma insert_full self c c0 rest :
  size self = capacity self -> buffer self = c0 :: rest ->
  buffer (insert self c) = rest ++ [c] /\ capacity (insert self c) = capacity self.
Proof. intros Hsz Hb. unfold insert. rewrite bool_decide_true by done. by rewrite Hb. Qed.

Definition started (now : Z) (rid : string) (span : Span) : Context_ :=
  set_invocation_span (from_request_id now rid) (tag_request_id rid span).

(** A full buffer gives up its oldest context; an id it holds elsewhere is then held twice. *)
Lemma start_context_full self now rid span c0 rest :
  size self = capacity self -> buffer self = c0 :: rest ->
  buffer (start_context self now rid span) = rest ++ [started now rid span] /\
  capacity (start_context self now rid span) = capacity self.
Proof.
  intros Hsz Hbuf. unfold start_context. fold (started now rid span). by apply (insert_full self _ c0 rest).
Qed.

(** C17: starting an invocation makes its context the one its id refers to and
    leaves the others alone, with one exception. In a buffer whose ids are
    distinct the buffer stays within its capacity and every other id finds what
    it found before, except that a full buffer gives up its oldest context. The
    new context is found under its id, and ids stay distinct, unless the buffer
    is full and the id is held by a context other than the oldest: then the id
    keeps finding that one, with the new context behind it. *)
Theorem start_context_lookup self now rid span :
  (0 < capacity self)%nat -> (size self <= capacity self)%nat -> NoDup (ids self) ->
  let self' := start_context self now rid span in
  (size self' <= capacity self')%nat /\ capacity self' = capacity self /\
  started now rid span ∈ buffer self' /\
  (forall rid', rid' <> rid ->
     (size self < capacity self)%nat \/ head (ids self) <> Some rid' ->
     get self' rid' = get self rid') /\
  if decide ((size self < capacity self)%nat \/ rid ∉ tail (ids self))
  then NoDup (ids self') /\ get self' rid = Some (started now rid span)
  else get self' rid = get self rid.
Proof.
  intros Hcap Hsz Hnd self'. unfold self'.
  destruct (decide (size self < capacity self)%nat) as [Hlt|Hge].
  - rewrite decide_True by auto. unfold start_context. fold (started now rid span).
    set (c := started now rid span). assert (request_id c = rid) as Hc by done. clearbody c.
    rewrite get_lookup_id. destruct (insert_not_full self c Hlt Hnd) as (l & Hb & Hn & Hndl & Hlen & Hcp & Hlook).
    unfold ids. unfold size at 1. rewrite Hb, Hcp, length_app, fmap_app. rewrite Hc in *.
    split_and!; [simpl; lia|done|set_solver| | |].
    + intros rid' Hne _. rewrite !get_lookup_id, Hb, lookup_id_app, lookup_id_cons, Hlook by done.
      rewrite decide_False by congruence. by destruct (lookup_id rid' (buffer self)).
    + apply NoDup_app. split_and!; [done|set_solver|apply NoDup_singleton].
    + rewrite lookup_id_app, (proj2 (lookup_id_None rid l)) by done. rewrite lookup_id_cons.
      by rewrite decide_True.
  - destruct (buffer self) as [|c0 rest] eqn:Hbuf; [unfold size in *; rewrite Hbuf in *; simpl in *; lia|].
    destruct (start_context_full self now rid span c0 rest) as [Hb Hcp]; [lia|done|].
    set (c := started now rid span) in *. assert (request_id c = rid) as Hc by done. clearbody c.
    assert (ids self = request_id c0 :: (request_id <$> rest)) as Hids by (unfold ids; by rewrite Hbuf).
    rewrite Hids in *. cbn [head tail]. apply NoDup_cons in Hnd as [Hn0 Hnd].
    assert (forall rid', get (start_context self now rid span) rid' =
      match lookup_id rid' rest with Some x => Some x | None => lookup_id rid' [c] end) as Hget.
    { intros rid'. rewrite get_lookup_id, Hb, lookup_id_app. by destruct (lookup_id rid' rest). }
    split_and!.
    + unfold size in *. rewrite Hb, Hcp, length_app, Hbuf in *. cbn in *. lia.
    + done.
    + rewrite Hb. set_solver.
    + intros rid' Hne [|Hh]; [lia|]. rewrite Hget, lookup_id_cons, decide_False by congruence.
      rewrite get_lookup_id, Hbuf, lookup_id_cons, decide_False by congruence. by destruct (lookup_id rid' rest).
    + destruct (decide _) as [[?|Hn]|Hn]; [lia| |].
      * split; [|by rewrite Hget, (proj2 (lookup_id_None rid rest)), lookup_id_cons, decide_True by done].
        unfold ids. rewrite Hb, fmap_app. apply NoDup_app. split_and!; [done|set_solver|apply NoDup_singleton].
      * assert (rid ∈ request_id <$> rest) as Hin by (apply dec_stable; intros Hx; apply Hn; by right).
        destruct (lookup_id rid rest) as [x|] eqn:Hl; [|by apply lookup_id_None in Hl].
        rewrite Hget, Hl, get_lookup_id, Hbuf, lookup_id_cons, decide_False; [done|]. intros Heq. by rewrite Heq in Hn0.
Qed.

(** A full buffer keeps answering with a stale context: when the buffer is
    full and the id is already held by a context other than the oldest, the new
    context is appended next to it, so the id occurs twice and lookups return
    the old one. *)
Theorem full_buffer_keeps_stale_context self now rid span old :
  size self = capacity self -> NoDup (ids self) ->
  head (ids self) <> Some rid -> get self rid = Some old ->
  let self' := start_context self now rid span in
  get self' rid = Some old /\ ~ NoDup (ids self') /\ started now rid span ∈ buffer self'.
Proof.
  intros Hsz Hnd Hh Hget self'. unfold self', start_context. fold (started now rid span).
  set (c := started now rid span). unfold get in *.
  destruct (buffer self) as [|c0 rest] eqn:Hbuf; [done|].
  destruct (insert_full self c c0 rest Hsz Hbuf) as [Hb _].
  fold (lookup_id rid (c0 :: rest)) in Hget. fold (lookup_id rid (buffer (insert self c))).
  unfold ids in *. rewrite Hbuf in Hh. simpl in Hh. rewrite Hb.
  rewrite lookup_id_cons, decide_False in Hget by congruence.
  rewrite lookup_id_app, Hget. split_and!; [done| |set_solver].
  rewrite fmap_app, NoDup_app. intros (_ & Hdis & _).
  apply (Hdis rid); [|simpl; set_solver].
  destruct (decide (rid ∈ request_id <$> rest)) as [|Hn]; [done|].
  apply lookup_id_None in Hn. congruence.
Qed.

(** * The closest context *)

Definition distance (timestamp : Z) (c : Context_) : Z := Z.abs (created_at c - timestamp).

(** What the loop holds after a prefix of the buffer: its length, and the first
    of its contexts at the least distance. *)
Definition closest_of (timestamp : Z) (l : list Context_) (acc : nat * option nat * Z) : Prop :=
  let '(i, closest, min_diff) := acc in
  i = length l /\
  match closest with
  | None => l = [] /\ min_diff = I64_MAX
  | Some k => exists c, l !! k = Some c /\ min_diff = distance timestamp c /\
      (forall j c', l !! j = Some c' -> distance timestamp c <= distance timestamp c') /\
      (forall j c', l !! j = Some c' -> (j < k)%nat -> distance timestamp c < distance timestamp c')
  end.

Lemma abs_i64_small z : Z.abs z < I64_MAX -> abs_i64 (wrap_i64 z) = Z.abs z.
Proof.
  unfold abs_i64, I64_MAX. intros H. rewrite (wrap_i64_small z) by (unfold is_i64; lia).
  apply wrap_i64_small. unfold is_i64; lia.
Qed.

Lemma closest_step_of timestamp l c acc :
  distance timestamp c < I64_MAX -> closest_of timestamp l acc ->
  closest_of timestamp (l ++ [c]) (closest_step timestamp acc c).
Proof.
  destruct acc as [[i closest] min_diff]. intros Hd [-> Hacc]. unfold closest_step.
  rewrite abs_i64_small by done. fold (distance timestamp c).
  assert (forall j c', (l ++ [c]) !! j = Some c' -> l !! j = Some c' \/ j = length l /\ c' = c) as Hsnoc.
  { intros j c' [Hj|[Hge Hj]]%lookup_app_Some; [by left|].
    apply list_lookup_singleton_Some in Hj as [Hj ->]. right. split; [lia|done]. }
  destruct (Z.ltb_spec (distance timestamp c) min_diff) as [Hlt|Hge]; simpl.
  - split; [rewrite length_app; simpl; lia|]. exists c.
    assert (forall j c', l !! j = Some c' -> distance timestamp c < distance timestamp c') as Hall.
    { intros j c' Hj. destruct closest as [k|]; [|destruct Hacc as [-> _]; done].
      destruct Hacc as (c0 & _ & -> & Hmin & _). pose proof (Hmin j c' Hj). lia. }
    split_and!; [apply list_lookup_middle; done|done| |].
    + intros j c' [Hj|[_ ->]]%Hsnoc; [apply Z.lt_le_incl; eauto|lia].
    + intros j c' [Hj|[-> _]]%Hsnoc ?; [eauto|lia].
  - split; [rewrite length_app; simpl; lia|].
    destruct closest as [k|]; [|destruct Hacc as [_ ->]; lia].
    destruct Hacc as (c0 & Hk & -> & Hmin & Hfirst). exists c0.
    pose proof (lookup_lt_Some _ _ _ Hk) as Hlt.
    split_and!; [by apply lookup_app_l_Some|done| |].
    + intros j c' [Hj|[_ ->]]%Hsnoc; [eauto|done].
    + intros j c' [Hj|[-> _]]%Hsnoc ?; [eauto|lia].
Qed.

Lemma closest_fold timestamp l1 l2 acc :
  Forall (fun c => distance timestamp c < I64_MAX) l2 -> closest_of timestamp l1 acc ->
  closest_of timestamp (l1 ++ l2) (foldl (closest_step timestamp) acc l2).
Proof.
  revert l1 acc. induction l2 as [|c l2 IH]; intros l1 acc Hf Hacc; [by rewrite app_nil_r|].
  apply Forall_cons in Hf as [Hc Hf]. rewrite cons_middle, (assoc_L (++)). simpl.
  apply IH; [done|]. by apply closest_step_of.
Qed.

(** [get_closest_mut] returns the first of the contexts created nearest to
    the timestamp, and nothing only when the buffer is empty, for creation
    times and timestamps less than the whole [i64] range apart. *)
Theorem closest_is_first_nearest self timestamp :
  Forall (fun c => distance timestamp c < I64_MAX) (buffer self) ->
  match get_closest self timestamp with
  | None => buffer self = []
  | Some k => exists c, buffer self !! k = Some c /\
      (forall j c', buffer self !! j = Some c' -> distance timestamp c <= distance timestamp c') /\
      (forall j c', buffer self !! j = Some c' -> (j < k)%nat -> distance timestamp c < distance timestamp c')
  end.
Proof.
  intros Hf. unfold get_closest.
  pose proof (closest_fold timestamp [] (buffer self) (0%nat, None, I64_MAX) Hf) as H.
  destruct (foldl _ _ _) as [[i [k|]] m]; simpl in *.
  - destruct H as (_ & c & Hk & _ & Hmin & Hfirst); [done|]. eauto.
  - destruct H as (_ & -> & _); done.
Qed.

(** * Arrival-order pairing as a whole *)

(** Two streams of events in some interleaving. *)
Inductive half := Left_ (rid : string) | Right_ (data : gmap string string * Value).

Definition lefts (evs : list half) : list string :=
  omap (fun e => match e with Left_ rid => Some rid | Right_ _ => None end) evs.
Definition rights (evs : list half) : list (gmap string string * Value) :=
  omap (fun e => match e with Left_ _ => None | Right_ d => Some d end) evs.

(** Invoke events and instrumentation-start events. *)
Definition start_step (self : t) (e : half) : option (string * (gmap string string * Value)) * t :=
  match e with
  | Left_ rid => let '(d, self) := pair_invoke_event self rid in ((pair rid) <$> d, self)
  | Right_ d =>
      let '(rid, self) := pair_universal_instrumentation_start_event self (fst d) (snd d) in
      ((fun rid => (rid, d)) <$> rid, self)
  end.

(** Runtime-done events and instrumentation-end events. *)
Definition end_step (self : t) (e : half) : option (string * (gmap string string * Value)) * t :=
  match e with
  | Left_ rid => let '(d, self) := pair_platform_runtime_done_event self rid in ((pair rid) <$> d, self)
  | Right_ d =>
      let '(rid, self) := pair_universal_instrumentation_end_event self (fst d) (snd d) in
      ((fun rid => (rid, d)) <$> rid, self)
  end.

Fixpoint run_pairing (step : t -> half -> option (string * (gmap string string * Value)) * t)
    (self : t) (evs : list half) : list (string * (gmap string string * Value)) * t :=
  match evs with
  | [] => ([], self)
  | e :: evs =>
      let '(p, self) := step self e in
      let '(ps, self) := run_pairing step self evs in
      (option_list p ++ ps, self)
  end.

Definition data_of (d : UniversalInstrumentationData) : gmap string string * Value :=
  (headers d, payload_value d).

(** After the events [seen] the two queues hold what is left of the longer
    stream. *)
Definition queues_of (ids : list string) (data : list UniversalInstrumentationData)
    (seen : list half) : Prop :=
  ids = drop (length (rights seen)) (lefts seen) /\
  data_of <$> data = drop (length (lefts seen)) (rights seen).

Lemma lefts_app e1 e2 : lefts (e1 ++ e2) = lefts e1 ++ lefts e2.
Proof. apply omap_app. Qed.
Lemma rights_app e1 e2 : rights (e1 ++ e2) = rights e1 ++ rights e2.
Proof. apply omap_app. Qed.

Lemma drop_nil_inv {A} n (l : list A) : drop n l = [] -> (length l <= n)%nat.
Proof. intros H. apply (f_equal length) in H. rewrite length_drop in H. simpl in H. lia. Qed.

Lemma drop_cons_inv {A} n (l : list A) x k :
  drop n l = x :: k -> (n < length l)%nat /\ k = drop (S n) l.
Proof.
  intros H. split.
  - apply (f_equal length) in H. rewrite length_drop in H. simpl in H. lia.
  - apply (f_equal (drop 1)) in H. rewrite drop_drop, Nat.add_1_r in H. by rewrite H.
Qed.

Lemma zip_snoc_l {A B} (l : list A) (k : list B) x y rest :
  drop (length l) k = y :: rest -> zip (l ++ [x]) k = zip l k ++ [(x, y)].
Proof.
  revert k. induction l as [|a l IH]; intros [|b k] H; simpl in *; try done.
  - injection H as -> ->. by destruct rest.
  - f_equal. by apply IH.
Qed.

Lemma zip_snoc_r {A B} (l : list A) (k : list B) x y rest :
  drop (length k) l = x :: rest -> zip l (k ++ [y]) = zip l k ++ [(x, y)].
Proof.
  revert k. induction l as [|a l IH]; intros [|b k] H; simpl in *; try done.
  - injection H as -> ->. by destruct rest.
  - f_equal. by apply IH.
Qed.

Lemma zip_short_l {A B} (l l' : list A) (k : list B) :
  (length k <= length l)%nat -> zip (l ++ l') k = zip l k.
Proof.
  revert k. induction l as [|a l IH]; intros [|b k] H; simpl in *; try done; try lia.
  - by destruct l'.
  - f_equal. apply IH. lia.
Qed.

Lemma zip_short_r {A B} (l : list A) (k k' : list B) :
  (length l <= length k)%nat -> zip l (k ++ k') = zip l k.
Proof.
  revert k. induction l as [|a l IH]; intros [|b k] H; simpl in *; try done; try lia.
  f_equal. apply IH. lia.
Qed.

(** A step that pops the other queue or pushes its own keeps the two queues and
    emits the next pair of the zip. *)
Lemma queues_step ids data seen e :
  queues_of ids data seen ->
  match e with
  | Left_ rid =>
      match data with
      | d :: data' => queues_of ids data' (seen ++ [e]) /\
          zip (lefts (seen ++ [e])) (rights (seen ++ [e])) =
            zip (lefts seen) (rights seen) ++ [(rid, data_of d)]
      | [] => queues_of (ids ++ [rid]) [] (seen ++ [e]) /\
          zip (lefts (seen ++ [e])) (rights (seen ++ [e])) = zip (lefts seen) (rights seen)
      end
  | Right_ d =>
      match ids with
      | rid :: ids' => queues_of ids' data (seen ++ [e]) /\
          zip (lefts (seen ++ [e])) (rights (seen ++ [e])) =
            zip (lefts seen) (rights seen) ++ [(rid, d)]
      | [] => queues_of [] (data ++ [{| headers := fst d; payload_value := snd d |}]) (seen ++ [e]) /\
          zip (lefts (seen ++ [e])) (rights (seen ++ [e])) = zip (lefts seen) (rights seen)
      end
  end.
Proof.
  intros [Hi Hd]. unfold queues_of. destruct e as [rid|d]; rewrite lefts_app, rights_app;
    cbn [lefts rights omap list_omap]; rewrite app_nil_r; rewrite length_app; cbn [length];
    rewrite Nat.add_1_r; set (L := lefts seen) in *; set (R := rights seen) in *.
  - destruct data as [|d data].
    + symmetry in Hd. apply drop_nil_inv in Hd as Hle.
      split; [split|by apply zip_short_l].
      * by rewrite drop_app_le, Hi.
      * by rewrite drop_ge by lia.
    + symmetry in Hd. pose proof (drop_cons_inv _ _ _ _ Hd) as [Hlt Htl].
      split; [split|by eapply zip_snoc_l].
      * rewrite Hi, !drop_ge by (rewrite ?length_app; simpl; lia). done.
      * done.
  - destruct ids as [|rid ids].
    + symmetry in Hi. apply drop_nil_inv in Hi as Hle.
      split; [split|by apply zip_short_r].
      * by rewrite drop_ge by lia.
      * rewrite drop_app_le, <- Hd, fmap_app by done. simpl. by destruct d.
    + symmetry in Hi. pose proof (drop_cons_inv _ _ _ _ Hi) as [Hlt Htl].
      split; [split|by eapply zip_snoc_r].
      * done.
      * rewrite Hd, !drop_ge by (rewrite ?length_app; simpl; lia). done.
Qed.

Lemma run_pairing_spec step (ids : t -> list string) (data : t -> list UniversalInstrumentationData) :
  (forall self e seen, queues_of (ids self) (data self) seen ->
     let '(p, self') := step self e in
     queues_of (ids self') (data self') (seen ++ [e]) /\
     zip (lefts (seen ++ [e])) (rights (seen ++ [e])) =
       zip (lefts seen) (rights seen) ++ option_list p) ->
  forall evs seen self, queues_of (ids self) (data self) seen ->
    let '(ps, self') := run_pairing step self evs in
    queues_of (ids self') (data self') (seen ++ evs) /\
    zip (lefts (seen ++ evs)) (rights (seen ++ evs)) = zip (lefts seen) (rights seen) ++ ps.
Proof.
  intros Hstep. induction evs as [|e evs IH]; intros seen self Hq; cbn [run_pairing].
  - by rewrite !app_nil_r.
  - specialize (Hstep self e seen Hq). destruct (step self e) as [p self'].
    destruct Hstep as [Hq' Hz]. specialize (IH _ _ Hq').
    destruct (run_pairing step self' evs) as [ps self'']. destruct IH as [Hq'' Hz''].
    rewrite <- app_assoc in Hq'', Hz''. cbn [app] in Hq'', Hz''. split; [done|]. by rewrite Hz'', Hz, <- app_assoc.
Qed.

Lemma start_step_queues self e seen :
  queues_of (invoke_events_request_ids self) (universal_instrumentation_start_events self) seen ->
  let '(p, self') := start_step self e in
  queues_of (invoke_events_request_ids self') (universal_instrumentation_start_events self')
    (seen ++ [e]) /\
  zip (lefts (seen ++ [e])) (rights (seen ++ [e])) = zip (lefts seen) (rights seen) ++ option_list p.
Proof.
  intros Hq. pose proof (queues_step _ _ _ e Hq) as Hs. destruct e as [rid|d]; simpl.
  - unfold pair_invoke_event. destruct (universal_instrumentation_start_events self) as [|ev evs] eqn:He;
      simpl; [|done]. by rewrite He, app_nil_r.
  - unfold pair_universal_instrumentation_start_event.
    destruct (invoke_events_request_ids self) as [|rid ids] eqn:He; simpl; [|done].
    by rewrite He, app_nil_r.
Qed.

Lemma end_step_queues self e seen :
  queues_of (platform_runtime_done_events_request_ids self)
    (universal_instrumentation_end_events self) seen ->
  let '(p, self') := end_step self e in
  queues_of (platform_runtime_done_events_request_ids self')
    (universal_instrumentation_end_events self') (seen ++ [e]) /\
  zip (lefts (seen ++ [e])) (rights (seen ++ [e])) = zip (lefts seen) (rights seen) ++ option_list p.
Proof.
  intros Hq. pose proof (queues_step _ _ _ e Hq) as Hs. destruct e as [rid|d]; simpl.
  - unfold pair_platform_runtime_done_event.
    destruct (universal_instrumentation_end_events self) as [|ev evs] eqn:He; simpl; [|done].
    by rewrite He, app_nil_r.
  - unfold pair_universal_instrumentation_end_event.
    destruct (platform_runtime_done_events_request_ids self) as [|rid ids] eqn:He; simpl; [|done].
    by rewrite He, app_nil_r.
Qed.

(** C18: pairing in arrival order is exact under every interleaving: however the
    invoke events and the instrumentation-start events of a fresh buffer are
    interleaved, the pairs made are the first invoke with the first start, the
    second with the second and so on, and what is not paired yet is still
    queued; likewise for runtime-done and instrumentation-end events. *)
Theorem arrival_order_pairing n evs :
  (let '(pairs, self) := run_pairing start_step (with_capacity n) evs in
   pairs = zip (lefts evs) (rights evs) /\
   queues_of (invoke_events_request_ids self) (universal_instrumentation_start_events self) evs) /\
  (let '(pairs, self) := run_pairing end_step (with_capacity n) evs in
   pairs = zip (lefts evs) (rights evs) /\
   queues_of (platform_runtime_done_events_request_ids self)
     (universal_instrumentation_end_events self) evs).
Proof.
  split.
  - pose proof (run_pairing_spec start_step _ _ start_step_queues evs [] (with_capacity n)
      ltac:(done)) as H.
    destruct (run_pairing start_step (with_capacity n) evs) as [ps self]. destruct H as [Hq Hz]. by split.
  - pose proof (run_pairing_spec end_step _ _ end_step_queues evs [] (with_capacity n)
      ltac:(done)) as H.
    destruct (run_pairing end_step (with_capacity n) evs) as [ps self]. destruct H as [Hq Hz]. by split.
Qed.

End Buffer.

(** * Witnesses *)

Definition sample_span : Span := create_empty_span "aws.lambda" "fn" "svc".

(** A buffer of two places that has seen invocations a then b. *)
Definition sample_full : @t unit unit :=
  start_context (start_context (with_capacity 2) 10 "a" sample_span) 20 "b" sample_span.

Lemma start_context_lookup_witness :
  let self' := start_context sample_full 30 "c" sample_span in
  NoDup (ids self') /\ get self' "c" = Some (started 30 "c" sample_span) /\
  get self' "b" = get sample_full "b".
Proof.
  assert (NoDup (ids sample_full)) as Hnd by (apply (bool_decide_unpack _); vm_compute; exact I).
  destruct (start_context_lookup sample_full 30 "c" sample_span) as (_ & _ & _ & H3 & H4).
  - vm_compute. lia.
  - vm_compute. lia.
  - exact Hnd.
  - rewrite decide_True in H4 by (right; apply (bool_decide_unpack _); vm_compute; exact I).
    destruct H4 as [H1 H2]. split_and!; [exact H1|exact H2|].
    apply H3; [discriminate|right; vm_compute; congruence].
Defined.

Lemma full_buffer_keeps_stale_context_witness :
  get (start_context sample_full 30 "b" sample_span) "b" = Some (started 20 "b" sample_span).
Proof.
  apply (full_buffer_keeps_stale_context sample_full 30 "b" sample_span (started 20 "b" sample_span)).
  - reflexivity.
  - apply (bool_decide_unpack _); vm_compute; exact I.
  - vm_compute. congruence.
  - vm_compute. reflexivity.
Defined.

Lemma closest_is_first_nearest_witness :
  get_closest sample_full 16 = Some 1%nat /\
  exists c, buffer sample_full !! 1%nat = Some c /\
    forall j c', buffer sample_full !! j = Some c' -> distance 16 c <= distance 16 c'.
Proof.
  assert (get_closest sample_full 16 = Some 1%nat) as Hk by (vm_compute; reflexivity).
  split; [exact Hk|].
  pose proof (closest_is_first_nearest sample_full 16) as H. rewrite Hk in H.
  destruct H as (c & Hc & Hmin & _).
  - apply (bool_decide_unpack _); vm_compute; exact I.
  - exact (ex_intro _ c (conj Hc Hmin)).
Defined.
End Buffer.
