(* ===== verification/Flushing.v ===== *)
(** Getting telemetry out: the flushers of logs ([logs/flusher.rs]), traces
    ([traces/trace_flusher.rs]), stats ([traces/stats_flusher.rs]) and proxied
    requests ([traces/proxy_flusher.rs]).

    The network is not a fixed function: every send has its own answers, one
    per attempt, and concurrent sends complete in any order. Both are arguments,
    and the theorems hold for all of them. *)

From S2P Require Import Prelude Aggregators DataStreams.
From stdpp Require Import pretty.

#[local] Open Scope Z_scope.


(** [lib.rs]. *)
Definition FLUSH_RETRY_COUNT : nat := 3.
Definition S_TO_MS : Z := 1000.

(** * The HTTP libraries

    What an attempt to send a request comes back with: a status, a transport
    error, or nothing within the timeout. *)

Inductive Response :=
| Status (code : Z)
| TransportError
| TimedOut.

(** [StatusCode::is_success] and [is_server_error]. *)
Definition is_success (code : Z) : bool := (200 <=? code) && (code <? 300).
Definition is_server_error (code : Z) : bool := (500 <=? code) && (code <? 600).

(** The operations of [HeaderMap] the flushers use, with what its documentation
    promises: names are compared without regard to case, [insert] and [extend]
    replace the values of a name, and parsing a header value fails on characters
    a header cannot hold. *)
Definition ascii_lower (c : ascii) : ascii :=
  let n := N_of_ascii c in
  if ((65 <=? n) && (n <=? 90))%N then ascii_of_N (n + 32) else c.
Definition lower (s : string) : string :=
  String.string_of_list_ascii (ascii_lower <$> String.list_ascii_of_string s).

Class HeaderMapOps (HeaderMap HeaderValue : Type) := {
  hm_new : HeaderMap;
  hm_get : HeaderMap -> string -> option HeaderValue;
  hm_insert : HeaderMap -> string -> HeaderValue -> HeaderMap;
  hm_remove : HeaderMap -> string -> HeaderMap;
  hm_extend : HeaderMap -> HeaderMap -> HeaderMap;
  hv_parse : string -> option HeaderValue;
  hm_get_insert h k v k' :
    hm_get (hm_insert h k v) k' = if decide (lower k = lower k') then Some v else hm_get h k';
  hm_get_remove h k k' :
    hm_get (hm_remove h k) k' = if decide (lower k = lower k') then None else hm_get h k';
  hm_get_extend h h' k :
    hm_get (hm_extend h h') k = match hm_get h' k with Some v => Some v | None => hm_get h k end
}.

(** [reqwest::RequestBuilder]: built by [post] with its timeout, headers and
    body; [try_clone] fails only on a streamed body. *)
Class RequestOps (HeaderMap RequestBuilder : Type) := {
  rb_post : string -> Z -> HeaderMap -> bytes -> RequestBuilder;
  rb_try_clone : RequestBuilder -> option RequestBuilder;
  rb_headers : RequestBuilder -> HeaderMap;
  rb_clone_buffered url timeout headers body :
    rb_try_clone (rb_post url timeout headers body) = Some (rb_post url timeout headers body);
  rb_headers_post url timeout headers body : rb_headers (rb_post url timeout headers body) = headers
}.

(** [str.parse().expect(..)] of a header value. *)
Definition parse_header `{HeaderMapOps HeaderMap HeaderValue} (s : string) : outcome HeaderValue :=
  unwrap (hv_parse s).

(** [OnceCell::get_or_init]: the first initialisation is kept. *)
Definition get_or_init {A} (cell : option A) (init : outcome A) : outcome (A * option A) :=
  match cell with
  | Some a => Done (a, cell)
  | None => a ← init; Done (a, Some a)
  end.

Lemma omap_fmap_list {A B C} (f : B -> option C) (g : A -> B) (l : list A) :
  omap f (g <$> l) = omap (fun x => f (g x)) l.
Proof. induction l as [|x l IH]; [done|]. cbn. rewrite <- IH. reflexivity. Qed.

(** * Concurrent tasks

    [JoinSet::join_all] and [join_next] hand out the results in the order of
    completion, a permutation of the order of spawning. *)

Definition completion_order (order : list nat) (n : nat) : Prop := order ≡ₚ seq 0 n.

Definition join_all {A} (order : list nat) (results : list A) : list A :=
  omap (fun i => results !! i) order.

(** * The retry loop of [logs/flusher.rs] and [traces/proxy_flusher.rs]

    [loop { attempts += 1; .. }]: [None] when the fuel runs out; the result
    comes with the number of attempts made. *)

Inductive SendError (RequestBuilder : Type) :=
| FailedRequest (request : RequestBuilder)
| CannotClone.
Arguments FailedRequest {RequestBuilder} request.
Arguments CannotClone {RequestBuilder}.

Section SendLoop.
Context `{RequestOps HeaderMap RequestBuilder}.
(** The statuses that end the loop with [Ok(())]. *)
Variable accepts : Z -> bool.

Fixpoint send_loop (fuel attempts : nat) (answer : nat -> Response) (req : RequestBuilder)
    : option ((unit + SendError RequestBuilder) * nat) :=
  match fuel with
  | O => None
  | S fuel =>
      let attempts := S attempts in
      match rb_try_clone req with
      | None => Some (inr CannotClone, attempts)
      | Some _ =>
          match answer attempts with
          | Status status =>
              if accepts status then Some (inl tt, attempts)
              else if (FLUSH_RETRY_COUNT <=? attempts)%nat then Some (inr (FailedRequest req), attempts)
              else send_loop fuel attempts answer req
          | TransportError | TimedOut =>
              if (FLUSH_RETRY_COUNT <=? attempts)%nat then Some (inr (FailedRequest req), attempts)
              else send_loop fuel attempts answer req
          end
      end
  end.

(** Some attempt of the first [FLUSH_RETRY_COUNT] is answered with an accepted
    status. *)
Definition accepted (answer : nat -> Response) : bool :=
  existsb (fun k => match answer k with Status s => accepts s | _ => false end)
    (seq 1 FLUSH_RETRY_COUNT).

(** The loop ends within [FLUSH_RETRY_COUNT] attempts: it succeeds when one of
    them is accepted, and otherwise hands the request back after the last. *)
Lemma send_loop_spec answer req :
  rb_try_clone req = Some req ->
  exists attempts, (1 <= attempts <= FLUSH_RETRY_COUNT)%nat /\
    send_loop FLUSH_RETRY_COUNT 0 answer req =
      Some (if accepted answer then inl tt else inr (FailedRequest req), attempts).
Proof.
  intros Hc. unfold accepted, FLUSH_RETRY_COUNT. cbn [send_loop seq existsb]. rewrite Hc.
  destruct (answer 1%nat) as [s1| |]; [destruct (accepts s1)|..]; cbn [orb];
    try (eexists; split; [|reflexivity]; lia); cbn [Nat.leb];
  (destruct (answer 2%nat) as [s2| |]; [destruct (accepts s2)|..]; cbn [orb];
    try (eexists; split; [|reflexivity]; lia); cbn [Nat.leb];
  (destruct (answer 3%nat) as [s3| |]; [destruct (accepts s3)|..]; cbn [orb];
    (eexists; split; [|reflexivity]; lia))).
Qed.
End SendLoop.

Lemma join_all_in_order {A} (results pre : list A) :
  join_all (seq (length pre) (length results)) (pre ++ results) = results.
Proof.
  revert pre. induction results as [|r results IH]; intros pre; [done|].
  unfold join_all. cbn [length seq omap list_omap].
  rewrite (list_lookup_middle pre results r (length pre)) by done. f_equal.
  rewrite cons_middle, (assoc_L (++)). specialize (IH (pre ++ [r])).
  rewrite length_app, Nat.add_1_r in IH. exact IH.
Qed.

Lemma join_all_perm {A} order (results : list A) :
  completion_order order (length results) -> join_all order results ≡ₚ results.
Proof.
  intros Ho. etrans; [|apply reflexive_eq, (join_all_in_order results [])].
  unfold join_all. by rewrite Ho.
Qed.

(** The fields of the configuration the flushers read. *)
Record LogsEndpoint := { host : string; port : Z; endpoint_api_key : string }.

Record Config := {
  observability_pipelines_worker_logs_enabled : bool;
  observability_pipelines_worker_logs_url : string;
  logs_config_logs_dd_url : string;
  logs_config_additional_endpoints : list LogsEndpoint;
  logs_config_use_compression : bool;
  logs_config_compression_level : Z;
  apm_additional_endpoints : list (string * list string);
  flush_timeout : Z
}.

(** Requests to send, each with the answers it will get: the results of the
    spawned sends in spawn order. A loop that did not end would be no result,
    which [send_loop_spec] excludes. *)
Section SendAll.
Context `{RequestOps HeaderMap RequestBuilder}.
Variable accepts : Z -> bool.

Definition send_with (answer : nat -> Response) (req : RequestBuilder)
    : outcome (unit + SendError RequestBuilder) :=
  '(result, _) ← unwrap (send_loop accepts FLUSH_RETRY_COUNT 0 answer req); Done result.

Fixpoint send_all (answers : nat -> nat -> Response) (reqs : list RequestBuilder)
    : outcome (list (unit + SendError RequestBuilder)) :=
  match reqs with
  | [] => Done []
  | req :: reqs =>
      result ← send_with (answers 0%nat) req;
      results ← send_all (fun i => answers (S i)) reqs;
      Done (result :: results)
  end.

Definition cloneable (req : RequestBuilder) : Prop := rb_try_clone req = Some req.

(** What a send of the [i]-th request ends with. *)
Definition verdict (answers : nat -> nat -> Response) (i : nat) (req : RequestBuilder)
    : unit + SendError RequestBuilder :=
  if accepted accepts (answers i) then inl tt else inr (FailedRequest req).

(** The requests of which no attempt was accepted. *)
Definition undelivered (answers : nat -> nat -> Response) (reqs : list RequestBuilder)
    : list RequestBuilder :=
  omap (fun r => match r with inr (FailedRequest req) => Some req | _ => None end)
    (imap (verdict answers) reqs).

Lemma send_with_spec answer req :
  cloneable req ->
  send_with answer req = Done (if accepted accepts answer then inl tt else inr (FailedRequest req)).
Proof.
  intros Hc. unfold send_with.
  destruct (send_loop_spec accepts answer req Hc) as (n & _ & ->). reflexivity.
Qed.

Lemma send_all_spec reqs : forall answers,
  Forall cloneable reqs -> send_all answers reqs = Done (imap (verdict answers) reqs).
Proof.
  induction reqs as [|req reqs IH]; intros answers Hf; [done|].
  apply Forall_cons in Hf as [Hc Hf]. cbn [send_all].
  rewrite send_with_spec, IH by done. reflexivity.
Qed.

Lemma undelivered_subseteq answers reqs req :
  req ∈ undelivered answers reqs -> req ∈ reqs.
Proof.
  unfold undelivered. intros (r & Hr & Hs)%list_elem_of_omap.
  apply elem_of_lookup_imap in Hr as (i & req' & -> & Hi). unfold verdict in Hs.
  destruct (accepted _ _); simplify_eq. by eapply list_elem_of_lookup_2.
Qed.

(** A request is delivered or handed back: nothing else happens to it. *)
Lemma undelivered_nil answers reqs :
  undelivered answers reqs = [] <->
  forall i req, reqs !! i = Some req -> accepted accepts (answers i) = true.
Proof.
  split.
  - intros Hn i req Hi. destruct (accepted accepts (answers i)) eqn:Ha; [done|].
    assert (req ∈ undelivered answers reqs) as Hin; [|rewrite Hn in Hin; by apply not_elem_of_nil in Hin].
    apply list_elem_of_omap. exists (inr (FailedRequest req)). split; [|done].
    apply elem_of_lookup_imap. exists i, req. unfold verdict. by rewrite Ha.
  - intros Hall. apply elem_of_nil_inv. intros req (r & Hr & Hs)%list_elem_of_omap.
    apply elem_of_lookup_imap in Hr as (i & req' & -> & Hi). unfold verdict in Hs.
    by rewrite (Hall i req' Hi) in Hs.
Qed.
(** When nothing is accepted, everything is handed back. *)
Lemma undelivered_all reqs : forall answers,
  (forall i, accepted accepts (answers i) = false) -> undelivered answers reqs = reqs.
Proof.
  induction reqs as [|req reqs IH]; intros answers Hrej; [done|].
  unfold undelivered. rewrite imap_cons. cbn [omap list_omap]. unfold verdict at 1. rewrite Hrej. f_equal.
  apply (IH (fun i => answers (S i))). intros i. apply Hrej.
Qed.
End SendAll.

(** * [logs/flusher.rs] *)

Module Logs.
Section Logs.
Context `{HeaderMapOps HeaderMap HeaderValue} `{RequestOps HeaderMap RequestBuilder}.
(** The zstd encoder at a level. *)
Variable zstd : Z -> bytes -> option bytes.

(** The key factory of a flusher is asked at each flush: its answer is an
    argument. *)
Record Flusher := { endpoint : string; config : Config; headers : option HeaderMap }.

Definition Flusher_new (endpoint : string) (config : Config) : Flusher :=
  {| endpoint := endpoint; config := config; headers := None |}.

(** The initialiser of [get_headers]. *)
Definition init_headers (self : Flusher) (api_key : string) : outcome HeaderMap :=
  let opw := observability_pipelines_worker_logs_enabled (config self) in
  key ← parse_header api_key;
  let headers := hm_insert hm_new "DD-API-KEY" key in
  headers ← (if negb opw then
               v ← parse_header "agent-json"; Done (hm_insert headers "DD-PROTOCOL" v)
             else Done headers);
  v ← parse_header "application/json";
  let headers := hm_insert headers "Content-Type" v in
  if logs_config_use_compression (config self) && negb opw then
    v ← parse_header "zstd"; Done (hm_insert headers "Content-Encoding" v)
  else Done headers.

Definition get_headers (self : Flusher) (api_key : string) : outcome (HeaderMap * Flusher) :=
  '(h, cell) ← get_or_init (headers self) (init_headers self api_key);
  Done (h, {| endpoint := endpoint self; config := config self; headers := cell |}).

Definition url (self : Flusher) : string :=
  if observability_pipelines_worker_logs_enabled (config self) then endpoint self
  else (endpoint self +:+ "/api/v2/logs")%string.

Definition create_request (self : Flusher) (data : bytes) (api_key : string)
    : outcome (RequestBuilder * Flusher) :=
  '(headers, self) ← get_headers self api_key;
  Done (rb_post (url self) (flush_timeout (config self)) headers data, self).

(** A 403 ends the loop as a success does. *)
Definition accepts (status : Z) : bool := (status =? 403) || is_success status.

Definition send : (nat -> Response) -> RequestBuilder -> outcome (unit + SendError RequestBuilder) :=
  send_with accepts.

(** The loop over the batches: the requests of the non-empty ones. *)
Fixpoint create_requests (self : Flusher) (batches : list bytes) (api_key : string)
    : outcome (list RequestBuilder * Flusher) :=
  match batches with
  | [] => Done ([], self)
  | batch :: batches =>
      match batch with
      | [] => create_requests self batches api_key
      | _ =>
          '(req, self) ← create_request self batch api_key;
          '(reqs, self) ← create_requests self batches api_key;
          Done (req :: reqs, self)
      end
  end.

(** The loop over the results: the requests to send again later. *)
Fixpoint failed_requests (results : list (unit + SendError RequestBuilder))
    : outcome (list RequestBuilder) :=
  match results with
  | [] => Done []
  | inr (FailedRequest request) :: results =>
      request ← unwrap (rb_try_clone request);
      rest ← failed_requests results;
      Done (request :: rest)
  | _ :: results => failed_requests results
  end.

Definition Flusher_flush (self : Flusher) (batches : option (list bytes)) (api_key : option string)
    (answers : nat -> nat -> Response) (order : list nat)
    : outcome (list RequestBuilder * Flusher) :=
  match api_key with
  | None => Done ([], self)
  | Some api_key =>
      '(reqs, self) ← (match batches with
                       | Some logs_batches => create_requests self logs_batches api_key
                       | None => Done ([], self)
                       end);
      results ← send_all accepts answers reqs;
      failed ← failed_requests (join_all order results);
      Done (failed, self)
  end.

Record LogsFlusher := { lf_config : Config; flushers : list Flusher }.

Definition additional_endpoint (endpoint : LogsEndpoint) : string :=
  ("https://" +:+ host endpoint +:+ ":" +:+ pretty (port endpoint))%string.

Definition new (config : Config) : LogsFlusher :=
  let endpoint :=
    if observability_pipelines_worker_logs_enabled config
    then observability_pipelines_worker_logs_url config
    else logs_config_logs_dd_url config in
  {| lf_config := config;
     flushers := Flusher_new endpoint config ::
       ((fun e => Flusher_new (additional_endpoint e) config) <$>
          logs_config_additional_endpoints config) |}.

Definition encode (self : LogsFlusher) (data : bytes) : option bytes :=
  zstd (logs_config_compression_level (lf_config self)) data.

Definition compress (self : LogsFlusher) (data : bytes) : bytes :=
  if negb (logs_config_use_compression (lf_config self))
     || observability_pipelines_worker_logs_enabled (lf_config self)
  then data
  else match encode self data with Some compressed_data => compressed_data | None => data end.

(** The flushers run concurrently, each on a clone of itself: what a clone
    caches is dropped with it. *)
Fixpoint flush_each (flushers : list Flusher) (batches : list bytes) (keys : nat -> option string)
    (answers : nat -> nat -> nat -> Response) (orders : nat -> list nat)
    : outcome (list RequestBuilder) :=
  match flushers with
  | [] => Done []
  | flusher :: flushers =>
      '(failed, _) ← Flusher_flush flusher (Some batches) (keys 0%nat) (answers 0%nat) (orders 0%nat);
      rest ← flush_each flushers batches (fun i => keys (S i)) (fun i => answers (S i))
               (fun i => orders (S i));
      Done (failed ++ rest)
  end.

(** [got]: the answer of the aggregator service to [GetBatches]; [None] when the
    service is gone. *)
Definition flush (self : LogsFlusher) (retry_request : option RequestBuilder)
    (got : option (list bytes)) (keys : nat -> option string)
    (answers : nat -> nat -> nat -> Response) (orders : nat -> list nat)
    : outcome (list RequestBuilder) :=
  match retry_request with
  | Some req =>
      match rb_try_clone req with
      | None => Done []
      | Some req_clone =>
          result ← send (answers 0%nat 0%nat) req_clone;
          failed_requests [result]
      end
  | None =>
      let logs_batches := match got with Some batches => compress self <$> batches | None => [] end in
      flush_each (flushers self) logs_batches keys answers orders
  end.

(** ** What a flush does with the batches *)

(** The headers the requests of a flusher carry with a key. *)
Definition headers_resolve (self : Flusher) (api_key : string) (h : HeaderMap) : Prop :=
  headers self = Some h \/ headers self = None /\ init_headers self api_key = Done h.

Definition requests_of (self : Flusher) (h : HeaderMap) (batches : list bytes) : list RequestBuilder :=
  rb_post (url self) (flush_timeout (config self)) h <$> filter (fun b => b <> []) batches.

Lemma requests_cloneable self h batches : Forall cloneable (requests_of self h batches).
Proof.
  unfold requests_of. apply Forall_fmap, Forall_true. intros b. apply rb_clone_buffered.
Qed.

Lemma logs_create_requests_spec batches : forall self api_key h,
  headers_resolve self api_key h ->
  exists self', create_requests self batches api_key = Done (requests_of self h batches, self').
Proof.
  induction batches as [|batch batches IH]; intros self api_key h Hr; [by exists self|].
  destruct batch as [|c batch].
  { destruct (IH self api_key h Hr) as [self' Hs]. exists self'. exact Hs. }
  set (self1 := {| endpoint := endpoint self; config := config self; headers := Some h |}).
  destruct (IH self1 api_key h) as [self' Hs]; [by left|]. exists self'.
  cbn [create_requests]. unfold create_request, get_headers.
  assert (get_or_init (headers self) (init_headers self api_key) = Done (h, Some h)) as ->.
  { destruct Hr as [->|[-> ->]]; reflexivity. }
  cbn [mbind outcome_mbind outcome_bind]. fold self1. rewrite Hs. reflexivity.
Qed.

Lemma failed_requests_spec results :
  Forall (fun r => match r with inr (FailedRequest req) => cloneable req | _ => True end) results ->
  failed_requests results =
    Done (omap (fun r => match r with inr (FailedRequest req) => Some req | _ => None end) results).
Proof.
  induction 1 as [|r results Hr _ IH]; [done|].
  destruct r as [[]|[req|]]; cbn [failed_requests]; [exact IH| |exact IH].
  rewrite Hr. cbn [unwrap mbind outcome_mbind outcome_bind]. rewrite IH. reflexivity.
Qed.

Lemma verdicts_cloneable answers reqs :
  Forall cloneable reqs ->
  Forall (fun r => match r with inr (FailedRequest req) => cloneable req | _ => True end)
    (imap (verdict accepts answers) reqs).
Proof.
  rewrite !Forall_forall. intros Hf r (i & req & -> & Hi)%elem_of_lookup_imap.
  unfold verdict. destruct (accepted _ _); [done|]. eauto using list_elem_of_lookup_2.
Qed.

Lemma Flusher_flush_spec self batches api_key h answers order :
  headers_resolve self api_key h ->
  completion_order order (length (requests_of self h batches)) ->
  exists failed self',
    Flusher_flush self (Some batches) (Some api_key) answers order = Done (failed, self') /\
    failed ≡ₚ undelivered accepts answers (requests_of self h batches).
Proof.
  intros Hr Ho. destruct (logs_create_requests_spec batches self api_key h Hr) as [self' Hc].
  pose proof (requests_cloneable self h batches) as Hcl.
  set (reqs := requests_of self h batches) in *.
  set (results := imap (verdict accepts answers) reqs).
  assert (join_all order results ≡ₚ results) as Hj.
  { apply join_all_perm. unfold results. by rewrite length_imap. }
  exists (omap (fun r => match r with inr (FailedRequest req) => Some req | _ => None end)
            (join_all order results)), self'.
  split; [|unfold undelivered; by rewrite Hj].
  unfold Flusher_flush. rewrite Hc. cbn [mbind outcome_mbind outcome_bind].
  rewrite send_all_spec by done. cbn [mbind outcome_mbind outcome_bind]. fold results.
  rewrite failed_requests_spec; [done|].
  rewrite Hj. by apply verdicts_cloneable.
Qed.

(** What a flush of all the flushers needs: keys that resolve to headers [hs i]
    and sends that complete in some order. *)
Definition flush_ready (flushers : list Flusher) (batches : list bytes) (keys : nat -> option string)
    (orders : nat -> list nat) (hs : nat -> HeaderMap) : Prop :=
  forall i flusher, flushers !! i = Some flusher ->
    exists key, keys i = Some key /\ headers_resolve flusher key (hs i) /\
      completion_order (orders i) (length (requests_of flusher (hs i) batches)).

Lemma flush_each_spec flushers : forall batches keys answers orders hs,
  flush_ready flushers batches keys orders hs ->
  exists failed, flush_each flushers batches keys answers orders = Done failed /\
    failed ≡ₚ mjoin (imap (fun i f => undelivered accepts (answers i) (requests_of f (hs i) batches)) flushers).
Proof.
  induction flushers as [|f flushers IH]; intros batches keys answers orders hs Hr; [by exists []|].
  destruct (Hr 0%nat f eq_refl) as (key & Hk & Hh & Ho).
  destruct (Flusher_flush_spec f batches key (hs 0%nat) (answers 0%nat) (orders 0%nat) Hh Ho)
    as (failed & f' & Hf & Hp).
  destruct (IH batches (fun i => keys (S i)) (fun i => answers (S i)) (fun i => orders (S i))
              (fun i => hs (S i))) as (rest & Hrest & Hp').
  { intros i g Hg. exact (Hr (S i) g Hg). }
  exists (failed ++ rest). cbn [flush_each]. rewrite Hk, Hf.
  cbn [mbind outcome_mbind outcome_bind]. rewrite Hrest. split; [done|].
  rewrite imap_cons. cbn [mjoin list_join]. by rewrite Hp, Hp'.
Qed.

Lemma logs_flush_spec self batches keys answers orders hs :
  flush_ready (flushers self) (compress self <$> batches) keys orders hs ->
  exists failed, flush self None (Some batches) keys answers orders = Done failed /\
    failed ≡ₚ mjoin (imap (fun i f => undelivered accepts (answers i)
                         (requests_of f (hs i) (compress self <$> batches))) (flushers self)).
Proof. apply flush_each_spec. Qed.

(** Without keys a flush still takes the batches and hands nothing back. *)
Lemma flush_each_no_key flushers batches answers orders : forall keys,
  (forall i, keys i = None) -> flush_each flushers batches keys answers orders = Done [].
Proof.
  revert answers orders. induction flushers as [|f flushers IH]; intros answers orders keys Hk; [done|].
  cbn [flush_each]. rewrite Hk. cbn [Flusher_flush mbind outcome_mbind outcome_bind].
  rewrite IH; [done|]. intros i. apply Hk.
Qed.

End Logs.
End Logs.

(** * [traces/proxy_flusher.rs] *)

Module Proxy.
Section Proxy.
Context `{HeaderMapOps HeaderMap HeaderValue} `{RequestOps HeaderMap RequestBuilder}.

Abbreviation aggregator := (ProxyAggregator.t HeaderMap).

Definition DD_ADDITIONAL_TAGS_HEADER : string := "X-Datadog-Additional-Tags".

(** [canonical_resource_name]: what [tags_provider.get_canonical_resource_name()]
    returns. The aggregator is shared and passed along. *)
Record Flusher := {
  canonical_resource_name : option string;
  config : Config;
  headers : option HeaderMap
}.

Definition new (canonical_resource_name : option string) (config : Config) : Flusher :=
  {| canonical_resource_name := canonical_resource_name; config := config; headers := None |}.

Definition init_headers (self : Flusher) (api_key : string) : outcome HeaderMap :=
  key ← parse_header api_key;
  let headers := hm_insert hm_new "DD-API-KEY" key in
  let additional_tags :=
    ("_dd.origin:lambda;functionname:" +:+ default EmptyString (canonical_resource_name self))%string in
  tags ← parse_header additional_tags;
  Done (hm_insert headers DD_ADDITIONAL_TAGS_HEADER tags).

Definition get_headers (self : Flusher) (api_key : string) : outcome (HeaderMap * Flusher) :=
  '(h, cell) ← get_or_init (headers self) (init_headers self api_key);
  Done (h, {| canonical_resource_name := canonical_resource_name self; config := config self;
              headers := cell |}).

Definition create_request (self : Flusher) (request : ProxyAggregator.ProxyRequest HeaderMap)
    (api_key : string) : outcome (RequestBuilder * Flusher) :=
  let headers := hm_remove (ProxyAggregator.headers request) "host" in
  let headers := hm_remove headers "content-length" in
  '(own, self) ← get_headers self api_key;
  let headers := hm_extend headers own in
  Done (rb_post (ProxyAggregator.target_url request) (flush_timeout (config self)) headers
          (ProxyAggregator.body request), self).

Definition accepts (status : Z) : bool := (status =? 202) || (status =? 200).

Definition send : (nat -> Response) -> RequestBuilder -> outcome (unit + SendError RequestBuilder) :=
  send_with accepts.

Fixpoint create_requests (self : Flusher) (batch : list (ProxyAggregator.ProxyRequest HeaderMap))
    (api_key : string) : outcome (list RequestBuilder * Flusher) :=
  match batch with
  | [] => Done ([], self)
  | pr :: batch =>
      '(req, self) ← create_request self pr api_key;
      '(reqs, self) ← create_requests self batch api_key;
      Done (req :: reqs, self)
  end.

Definition get_failed_requests (results : list (unit + SendError RequestBuilder))
    : option (list RequestBuilder) :=
  let failed_requests :=
    omap (fun r => match r with inr (FailedRequest req) => rb_try_clone req | _ => None end) results in
  match failed_requests with [] => None | _ => Some failed_requests end.

Definition flush (self : Flusher) (aggregator : aggregator)
    (retry_requests : option (list RequestBuilder)) (api_key : option string)
    (answers : nat -> nat -> Response) (order : list nat)
    : outcome (option (list RequestBuilder) * Flusher * ProxyAggregator.t HeaderMap) :=
  match api_key with
  | None => Done (None, self, ProxyAggregator.clear aggregator)
  | Some api_key =>
      '(requests, self, aggregator) ←
        (match retry_requests with
         | Some ((_ :: _) as retries) => Done (retries, self, aggregator)
         | _ =>
             let '(batch, aggregator) := ProxyAggregator.get_batch aggregator in
             '(requests, self) ← create_requests self batch api_key;
             Done (requests, self, aggregator)
         end);
      results ← send_all accepts answers requests;
      Done (get_failed_requests (join_all order results), self, aggregator)
  end.

(** ** What a flush does with the queue *)

Definition headers_resolve (self : Flusher) (api_key : string) (h : HeaderMap) : Prop :=
  headers self = Some h \/ headers self = None /\ init_headers self api_key = Done h.

Definition with_headers (self : Flusher) (h : HeaderMap) : Flusher :=
  {| canonical_resource_name := canonical_resource_name self; config := config self;
     headers := Some h |}.

Definition request_of (self : Flusher) (h : HeaderMap) (pr : ProxyAggregator.ProxyRequest HeaderMap)
    : RequestBuilder :=
  rb_post (ProxyAggregator.target_url pr) (flush_timeout (config self))
    (hm_extend (hm_remove (hm_remove (ProxyAggregator.headers pr) "host") "content-length") h)
    (ProxyAggregator.body pr).

Lemma request_of_cloneable self h pr : cloneable (request_of self h pr).
Proof. apply rb_clone_buffered. Qed.

(** The first request fixes the headers of all later ones. *)
Lemma proxy_create_requests_spec batch : forall self api_key h,
  headers_resolve self api_key h ->
  create_requests self batch api_key =
    Done (request_of self h <$> batch, match batch with [] => self | _ => with_headers self h end).
Proof.
  induction batch as [|pr batch IH]; intros self api_key h Hr; [done|].
  cbn [create_requests]. unfold create_request, get_headers.
  assert (get_or_init (headers self) (init_headers self api_key) = Done (h, Some h)) as ->.
  { destruct Hr as [->|[-> ->]]; reflexivity. }
  cbn [mbind outcome_mbind outcome_bind]. fold (with_headers self h).
  rewrite (IH (with_headers self h) api_key h) by (by left).
  cbn [mbind outcome_mbind outcome_bind]. by destruct batch.
Qed.

Lemma get_failed_requests_spec answers order reqs :
  Forall cloneable reqs -> completion_order order (length reqs) ->
  match get_failed_requests (join_all order (imap (verdict accepts answers) reqs)) with
  | None => undelivered accepts answers reqs = []
  | Some failed => failed <> [] /\ failed ≡ₚ undelivered accepts answers reqs
  end.
Proof.
  intros Hc Ho. set (results := imap (verdict accepts answers) reqs).
  assert (join_all order results ≡ₚ results) as Hj.
  { apply join_all_perm. unfold results. by rewrite length_imap. }
  assert (omap (fun r => match r with inr (FailedRequest req) => rb_try_clone req | _ => None end)
            (join_all order results) ≡ₚ undelivered accepts answers reqs) as Hp.
  { rewrite Hj. unfold undelivered. fold results. apply reflexive_eq, list_omap_ext, Forall_Forall2_diag.
    unfold results. rewrite Forall_forall. intros r (i & req & -> & Hi)%elem_of_lookup_imap.
    unfold verdict. destruct (accepted _ _); [done|].
    rewrite Forall_forall in Hc. by apply Hc, list_elem_of_lookup_2 with i. }
  unfold get_failed_requests. destruct (omap _ (join_all order results)) as [|req failed].
  - by apply Permutation_nil_l in Hp.
  - by split.
Qed.

(** The requests a flush sends: those to retry, or else the queue. *)
Definition to_send (self : Flusher) (h : HeaderMap) (aggregator : aggregator)
    (retry_requests : option (list RequestBuilder)) : list RequestBuilder :=
  match retry_requests with
  | Some ((_ :: _) as retries) => retries
  | _ => request_of self h <$> ProxyAggregator.queue aggregator
  end.

Lemma proxy_flush_spec self aggregator retry_requests api_key h answers order :
  headers_resolve self api_key h ->
  Forall cloneable (default [] retry_requests) ->
  completion_order order (length (to_send self h aggregator retry_requests)) ->
  exists failed self' aggregator',
    flush self aggregator retry_requests (Some api_key) answers order = Done (failed, self', aggregator') /\
    (aggregator' = aggregator /\ default [] retry_requests <> [] \/
     ProxyAggregator.queue aggregator' = [] /\ default [] retry_requests = []) /\
    match failed with
    | None => undelivered accepts answers (to_send self h aggregator retry_requests) = []
    | Some failed => failed <> [] /\
        failed ≡ₚ undelivered accepts answers (to_send self h aggregator retry_requests)
    end.
Proof.
  intros Hr Hc Ho.
  assert (Forall cloneable (to_send self h aggregator retry_requests)) as Hcl.
  { destruct retry_requests as [[|req reqs]|]; [|exact Hc|];
      apply Forall_fmap, Forall_true; intros; apply request_of_cloneable. }
  pose proof (get_failed_requests_spec answers order _ Hcl Ho) as Hf.
  unfold flush. destruct retry_requests as [[|req reqs]|]; cbn [ProxyAggregator.get_batch].
  2: { cbn [mbind outcome_mbind outcome_bind]. rewrite send_all_spec by done.
       eexists _, _, _. split; [reflexivity|]. split; [by left|exact Hf]. }
  all: rewrite proxy_create_requests_spec with (h := h) by done; cbn [mbind outcome_mbind outcome_bind];
    rewrite send_all_spec by done; eexists _, _, _; (split; [reflexivity|]); (split; [by right|exact Hf]).
Qed.

(** The proxy flusher never picks up a new API key: once a flush has sent
    a request with a key, every request it creates afterwards carries that key,
    whatever key the factory returns by then. *)
Theorem proxy_keeps_first_api_key self aggregator k1 v1 h answers order :
  headers self = None -> ProxyAggregator.queue aggregator <> [] ->
  hv_parse k1 = Some v1 -> init_headers self k1 = Done h ->
  completion_order order (length (ProxyAggregator.queue aggregator)) ->
  exists failed self' aggregator',
    flush self aggregator None (Some k1) answers order = Done (failed, self', aggregator') /\
    forall k2 batch, exists reqs self'',
      create_requests self' batch k2 = Done (reqs, self'') /\ length reqs = length batch /\
      Forall (fun req => hm_get (rb_headers req) "DD-API-KEY" = Some v1) reqs.
Proof.
  intros Hn Hq Hv Hh Ho.
  assert (headers_resolve self k1 h) as Hr by (by right).
  assert (hm_get h "DD-API-KEY" = Some v1) as Hget.
  { unfold init_headers, parse_header in Hh. rewrite Hv in Hh. cbn [unwrap mbind outcome_mbind outcome_bind] in Hh.
    destruct (hv_parse ("_dd.origin:lambda;functionname:" +:+ _)) as [v|]; cbn [unwrap mbind outcome_mbind outcome_bind] in Hh; [|done].
    injection Hh as <-.
    by rewrite !hm_get_insert, decide_False, decide_True. }
  unfold flush. cbn [ProxyAggregator.get_batch].
  rewrite proxy_create_requests_spec with (h := h) by done. cbn [mbind outcome_mbind outcome_bind].
  rewrite send_all_spec by (apply Forall_fmap, Forall_true; intros; apply request_of_cloneable).
  eexists _, _, _. split; [reflexivity|]. intros k2 batch.
  destruct (ProxyAggregator.queue aggregator) as [|pr q]; [done|].
  rewrite (proxy_create_requests_spec batch (with_headers self h) k2 h) by (by left).
  eexists _, _. split; [reflexivity|]. split; [apply length_fmap|].
  apply Forall_fmap, Forall_true. intros x. cbn. unfold request_of.
  by rewrite rb_headers_post, hm_get_extend, Hget.
Qed.

End Proxy.
End Proxy.

(** * [traces/stats_flusher.rs] *)

Module Stats.

Definition BACKOFF_BASE_MS : Z := 50.

Inductive Classification := CSuccess | CRetriable | CPermanent.

(** The detail strings of the source's constructors only reach log lines. *)
Inductive SendOutcome := OSuccess | ORetriable | OPermanent.

#[export] Instance SendOutcome_eq_dec : EqDecision SendOutcome.
Proof. solve_decision. Defined.

Inductive SendResult := Delivered | Retriable | Permanent.

Definition classify_status (status : Z) : Classification :=
  if is_success status then CSuccess
  else if (status =? 408) || (status =? 425) || (status =? 429) || is_server_error status
  then CRetriable
  else CPermanent.

(** [Duration] in nanoseconds. *)
Definition DURATION_MAX : Z := U64_MAX * 1000000000 + 999999999.
Definition from_millis (ms : Z) : Z := ms * 1000000.

Module Backoff.
Record t := { base : Z }.

Definition upper_bound (self : t) (retry : Z) : Z :=
  let factor := Z.min (2 ^ saturating_sub retry 1) U32_MAX in
  Z.min (base self * factor) DURATION_MAX.

(** [draw upper]: what [rng.gen_range(0..=upper)] returns. *)
Definition delay (self : t) (draw : Z -> Z) (retry : Z) : Z :=
  let upper_ms := Z.min (upper_bound self retry / 1000000) U64_MAX in
  from_millis (draw upper_ms).
End Backoff.

Section Stats.
Context {ClientStatsPayload Uri HttpRequest : Type}.
(** [serialize_stats_payload(construct_stats_payload(stats))] of libdatadog, and
    the parsing and building of the http crate. *)
Variable serialize : list ClientStatsPayload -> option bytes.
Variable parse_uri : string -> option Uri.
Variable http_post : Uri -> list (string * string) -> bytes -> option HttpRequest.
(** [size_of::<ClientStatsPayload>()]. *)
Variable struct_size : Z.

Record Endpoint := { url : Uri; timeout_ms : Z }.

Record t := { stats_url : string; config : Config; endpoint : option Endpoint }.

Definition new (config : Config) (stats_url : string) : t :=
  {| stats_url := stats_url; config := config; endpoint := None |}.

Definition send_stats_payload (target : Endpoint) (api_key : string) (data : bytes)
    (answer : Response) : SendOutcome :=
  match http_post (url target)
          [("Content-Type", "application/msgpack"); ("Content-Encoding", "gzip");
           ("DD-API-KEY", api_key)]%string data with
  | None => OPermanent
  | Some _ =>
      match answer with
      | TimedOut | TransportError => ORetriable
      | Status status =>
          match classify_status status with
          | CSuccess => OSuccess
          | CRetriable => ORetriable
          | CPermanent => OPermanent
          end
      end
  end.

(** [for attempt in 1..=FLUSH_RETRY_COUNT], with [n] attempts left: the result
    and the delays slept. *)
Fixpoint attempt_loop (n attempt : nat) (target : Endpoint) (api_key : string) (data : bytes)
    (backoff : Backoff.t) (answer : nat -> Response) (draw : nat -> Z -> Z) : SendResult * list Z :=
  match n with
  | O => (Retriable, [])
  | S n =>
      match send_stats_payload target api_key data (answer attempt) with
      | OSuccess => (Delivered, [])
      | OPermanent => (Permanent, [])
      | ORetriable =>
          let slept :=
            if (attempt <? FLUSH_RETRY_COUNT)%nat
            then [Backoff.delay backoff (draw attempt) (Z.of_nat attempt)] else [] in
          let '(result, delays) := attempt_loop n (S attempt) target api_key data backoff answer draw in
          (result, slept ++ delays)
      end
  end.

Definition send_with_retry (target : Endpoint) (api_key : string) (data : bytes)
    (backoff : Backoff.t) (answer : nat -> Response) (draw : nat -> Z -> Z) : SendResult * list Z :=
  attempt_loop FLUSH_RETRY_COUNT 1 target api_key data backoff answer draw.

Definition init_endpoint (self : t) : outcome Endpoint :=
  uri ← unwrap (parse_uri (stats_url self));
  Done {| url := uri; timeout_ms := (flush_timeout (config self) *ᵤ S_TO_MS)%rust |}.

Definition send (self : t) (stats : list ClientStatsPayload) (api_key : option string)
    (answer : nat -> Response) (draw : nat -> Z -> Z)
    : outcome (option (list ClientStatsPayload) * t) :=
  match stats, api_key with
  | [], _ => Done (None, self)
  | _, None => Done (None, self)
  | _, Some api_key =>
      '(target, cell) ← get_or_init (endpoint self) (init_endpoint self);
      let self := {| stats_url := stats_url self; config := config self; endpoint := cell |} in
      match serialize stats with
      | None => Done (None, self)
      | Some data =>
          match fst (send_with_retry target api_key data {| Backoff.base := from_millis BACKOFF_BASE_MS |}
                       answer draw) with
          | Retriable => Done (Some stats, self)
          | Delivered | Permanent => Done (None, self)
          end
      end
  end.

(** The loop that takes the batches under the lock: [flushed k] is what the
    concentrator answers to the [k]-th call. *)
Fixpoint take_batches (fuel : nat) (aggregator : StatsAggregator.t)
    (flushed : nat -> option ClientStatsPayload + string)
    : option (list (list ClientStatsPayload) * StatsAggregator.t) :=
  match fuel with
  | O => None
  | S fuel =>
      let '(stats, aggregator) := StatsAggregator.get_batch struct_size aggregator (flushed 0%nat) in
      match stats with
      | [] => Some ([], aggregator)
      | _ =>
          '(batches, aggregator) ← take_batches fuel aggregator (fun k => flushed (S k));
          Some (stats :: batches, aggregator)
      end
  end.

(** [for stats in batches]. *)
Fixpoint send_batches (self : t) (batches : list (list ClientStatsPayload))
    (keys : nat -> option string) (answers : nat -> nat -> Response) (draws : nat -> nat -> Z -> Z)
    : outcome (list ClientStatsPayload * t) :=
  match batches with
  | [] => Done ([], self)
  | stats :: batches =>
      '(failed, self) ← send self stats (keys 0%nat) (answers 0%nat) (draws 0%nat);
      '(rest, self) ← send_batches self batches (fun i => keys (S i)) (fun i => answers (S i))
                        (fun i => draws (S i));
      Done (default [] failed ++ rest, self)
  end.

(** The first send of a flush is that of the stats to retry, if any. *)
Definition flush (fuel : nat) (self : t) (aggregator : StatsAggregator.t)
    (flushed : nat -> option ClientStatsPayload + string)
    (failed_stats : option (list ClientStatsPayload))
    (keys : nat -> option string) (answers : nat -> nat -> Response) (draws : nat -> nat -> Z -> Z)
    : outcome (option (list ClientStatsPayload) * t * StatsAggregator.t) :=
  '(retried, self) ←
    (match failed_stats with
     | Some ((_ :: _) as retry_stats) =>
         '(still_failed, self) ← send self retry_stats (keys 0%nat) (answers 0%nat) (draws 0%nat);
         Done (default [] still_failed, self)
     | _ => Done ([], self)
     end);
  '(batches, aggregator) ← unwrap (take_batches fuel aggregator flushed);
  '(failed, self) ← send_batches self batches (fun i => keys (S i)) (fun i => answers (S i))
                      (fun i => draws (S i));
  let all_failed := retried ++ failed in
  Done (match all_failed with [] => None | _ => Some all_failed end, self, aggregator).

(** ** What a flush does with the queue *)

(** What an attempt answered so is worth, once the request is built. *)
Definition outcome_of (answer : Response) : SendOutcome :=
  match answer with
  | TimedOut | TransportError => ORetriable
  | Status status =>
      match classify_status status with
      | CSuccess => OSuccess
      | CRetriable => ORetriable
      | CPermanent => OPermanent
      end
  end.

(** What the first [FLUSH_RETRY_COUNT] answers come to. *)
Definition verdict (answer : nat -> Response) : SendResult :=
  match filter (fun o => o <> ORetriable) ((fun k => outcome_of (answer k)) <$> seq 1 FLUSH_RETRY_COUNT) with
  | OSuccess :: _ => Delivered
  | OPermanent :: _ => Permanent
  | _ => Retriable
  end.

Hypothesis builds : forall uri headers data, http_post uri headers data <> None.

Lemma send_stats_payload_outcome target api_key data answer :
  send_stats_payload target api_key data answer = outcome_of answer.
Proof using builds.
  unfold send_stats_payload. destruct (http_post _ _ _) eqn:E; [done|]. by apply builds in E.
Qed.

(** The retry loop takes the first answer that settles the matter, and sleeps
    between attempts for at most the base delay, then at most twice of it. *)
Lemma send_with_retry_spec target api_key data answer draw :
  (forall k u, 0 <= u -> 0 <= draw k u <= u) ->
  let '(result, delays) :=
    send_with_retry target api_key data {| Backoff.base := from_millis BACKOFF_BASE_MS |} answer draw in
  result = verdict answer /\
  delays `prefix_of` [Backoff.delay {| Backoff.base := from_millis BACKOFF_BASE_MS |} (draw 1%nat) 1;
                      Backoff.delay {| Backoff.base := from_millis BACKOFF_BASE_MS |} (draw 2%nat) 2] /\
  0 <= foldr Z.add 0 delays <= from_millis (3 * BACKOFF_BASE_MS).
Proof using builds.
  intros Hd. unfold send_with_retry, verdict. unfold FLUSH_RETRY_COUNT at 1.
  cbn [attempt_loop seq fmap list_fmap FLUSH_RETRY_COUNT]. rewrite !send_stats_payload_outcome.
  pose proof (Hd 1%nat 50 ltac:(lia)) as H1. pose proof (Hd 2%nat 100 ltac:(lia)) as H2.
  assert (Backoff.delay {| Backoff.base := from_millis BACKOFF_BASE_MS |} (draw 1%nat) 1
          = draw 1%nat 50 * 1000000) as E1 by reflexivity.
  assert (Backoff.delay {| Backoff.base := from_millis BACKOFF_BASE_MS |} (draw 2%nat) 2
          = draw 2%nat 100 * 1000000) as E2 by reflexivity.
  change (Z.of_nat 1) with 1. change (Z.of_nat 2) with 2. rewrite E1, E2.
  destruct (outcome_of (answer 1%nat)), (outcome_of (answer 2%nat)), (outcome_of (answer 3%nat));
    cbn [FLUSH_RETRY_COUNT Nat.ltb Nat.leb app foldr]; unfold from_millis, BACKOFF_BASE_MS;
    (split_and!; [reflexivity| |lia|lia]);
    first [apply prefix_nil | apply prefix_cons, prefix_nil | reflexivity].
Qed.

(** The endpoint is resolved once, from a URL that parses. *)
Definition endpoint_ok (self : t) : Prop :=
  endpoint self <> None \/ parse_uri (stats_url self) <> None.

Definition still_failed (stats : list ClientStatsPayload) (answer : nat -> Response)
    : list ClientStatsPayload :=
  match verdict answer with Retriable => stats | Delivered | Permanent => [] end.

Hypothesis serializes : forall stats, serialize stats <> None.

Lemma send_spec self stats api_key answer draw :
  endpoint_ok self -> (forall k u, 0 <= u -> 0 <= draw k u <= u) ->
  exists failed self', send self stats (Some api_key) answer draw = Done (failed, self') /\
    endpoint_ok self' /\ default [] failed = still_failed stats answer.
Proof using builds serializes.
  intros He Hd. destruct stats as [|x stats].
  { exists None, self. unfold still_failed. split_and!; [reflexivity|done|].
    by destruct (verdict answer). }
  unfold send.
  assert (exists target, get_or_init (endpoint self) (init_endpoint self) = Done (target, Some target))
    as (target & ->).
  { unfold get_or_init, init_endpoint. unfold endpoint_ok in He. destruct (endpoint self) as [e|]; [by exists e|].
    destruct He as [He|He]; [done|]. destruct (parse_uri (stats_url self)); [|done]. by eexists. }
  cbn [mbind outcome_mbind outcome_bind].
  destruct (serialize (x :: stats)) as [data|] eqn:Hs; [|by apply serializes in Hs].
  pose proof (send_with_retry_spec target api_key data answer draw Hd) as Hr.
  destruct (send_with_retry _ _ _ _ _ _) as [result delays]. destruct Hr as (-> & _ & _).
  unfold still_failed. cbn [fst].
  destruct (verdict answer); eexists _, _; (split_and!; [reflexivity|by left|reflexivity]).
Qed.

Lemma send_batches_spec batches : forall self keys answers draws,
  endpoint_ok self -> (forall i k u, 0 <= u -> 0 <= draws i k u <= u) ->
  (forall i, keys i <> None) ->
  exists self', send_batches self batches keys answers draws =
    Done (mjoin (imap (fun i stats => still_failed stats (answers i)) batches), self') /\ endpoint_ok self'.
Proof using builds serializes.
  induction batches as [|stats batches IH]; intros self keys answers draws He Hd Hk; [by exists self|].
  cbn [send_batches]. destruct (keys 0%nat) as [key|] eqn:Hk0; [|by apply Hk in Hk0].
  destruct (send_spec self stats key (answers 0%nat) (draws 0%nat) He (Hd 0%nat)) as (failed & self1 & -> & He1 & Hf).
  cbn [mbind outcome_mbind outcome_bind].
  destruct (IH self1 (fun i => keys (S i)) (fun i => answers (S i)) (fun i => draws (S i)))
    as (self' & -> & He'); [done|intros; by apply Hd|intros; apply Hk|].
  exists self'. cbn [mbind outcome_mbind outcome_bind]. by rewrite Hf, imap_cons.
Qed.

(** The payload a call of the concentrator added to the queue. *)
Definition added (flushed : option ClientStatsPayload + string) : option ClientStatsPayload :=
  match flushed with inl o => o | inr _ => None end.

(** Once the concentrator has nothing more to give, the loop ends with the queue
    empty, each payload in exactly one batch and in order. *)
Lemma take_batches_spec fuel : forall aggregator flushed n,
  StatsAggregator.buffer aggregator = [] -> 0 < struct_size ->
  struct_size <= StatsAggregator.max_content_size_bytes aggregator < 2 ^ 63 ->
  (forall k, (n <= k)%nat -> added (flushed k) = None) ->
  (length (StatsAggregator.queue aggregator) + n < fuel)%nat ->
  exists batches aggregator',
    take_batches fuel aggregator flushed = Some (batches, aggregator') /\
    StatsAggregator.queue aggregator' = [] /\ Forall (fun stats => stats <> []) batches /\
    mjoin batches = StatsAggregator.queue aggregator ++
      omap (fun k => added (flushed k)) (seq 0 (S (length batches))).
Proof.
  induction fuel as [|fuel IH]; intros agg flushed n Hb Hs Hm Hn Hlt; [lia|].
  cbn [take_batches]. rewrite StatsAggregator.get_batch_counts by (done || lia).
  set (c := Z.to_nat (StatsAggregator.max_content_size_bytes agg / struct_size)).
  assert (1 <= c)%nat as Hc.
  { unfold c. assert (1 <= StatsAggregator.max_content_size_bytes agg / struct_size); [|lia].
    apply Z.div_le_lower_bound; lia. }
  set (queued := match flushed 0%nat with inl (Some stats) => _ | _ => _ end).
  assert (queued = StatsAggregator.queue agg ++ option_list (added (flushed 0%nat))) as Hq.
  { unfold queued, added. destruct (flushed 0%nat) as [[x|]|]; simpl; by rewrite ?app_nil_r. }
  destruct (take c queued) as [|x batch] eqn:Ht.
  - assert (queued = []) as Hnil by (destruct queued, c; [done|done|lia|done]).
    rewrite Hnil in Hq. symmetry in Hq. apply app_eq_nil in Hq as [Hq1 Hq2].
    eexists [], _. split; [reflexivity|]. cbn [StatsAggregator.queue]. rewrite Hnil, drop_nil, Hq1.
    split; [done|]. split; [done|]. cbn. by destruct (added (flushed 0%nat)).
  - destruct (IH {| StatsAggregator.queue := drop c queued;
                    StatsAggregator.max_content_size_bytes := StatsAggregator.max_content_size_bytes agg;
                    StatsAggregator.buffer := [] |} (fun k => flushed (S k)) (pred n))
      as (batches & agg' & -> & Hq' & Hne & Hj); [done|done|done| | |].
    + intros k Hk. apply Hn. lia.
    + cbn [StatsAggregator.queue]. rewrite length_drop, Hq, length_app.
      destruct n; [rewrite Hn by lia; simpl|destruct (added (flushed 0%nat)); simpl];
        rewrite ?Nat.add_0_r; try lia.
      all: assert (length queued <> 0)%nat by (destruct queued; [by destruct c|done]).
      all: rewrite Hq, length_app, ?Hn in * by lia; simpl in *; lia.
    + eexists _, agg'. split; [reflexivity|]. split; [done|]. split; [by constructor|].
      change (mjoin ((x :: batch) :: batches)) with ((x :: batch) ++ mjoin batches).
      cbn [length]. rewrite Hj, <- Ht. cbn [StatsAggregator.queue]. rewrite (assoc_L (++)), take_drop, Hq, <- (assoc_L (++)).
      f_equal. change (seq 0 (S (S (length batches)))) with (0%nat :: seq 1 (S (length batches))).
      cbn [omap list_omap]. rewrite <- (fmap_S_seq 0), omap_fmap_list.
      by destruct (added (flushed 0%nat)).
Qed.

Lemma stats_flush_spec fuel self aggregator flushed n failed_stats keys answers draws :
  StatsAggregator.buffer aggregator = [] -> 0 < struct_size ->
  struct_size <= StatsAggregator.max_content_size_bytes aggregator < 2 ^ 63 ->
  (forall k, (n <= k)%nat -> added (flushed k) = None) ->
  (length (StatsAggregator.queue aggregator) + n < fuel)%nat ->
  endpoint_ok self -> (forall i k u, 0 <= u -> 0 <= draws i k u <= u) -> (forall i, keys i <> None) ->
  exists batches result self' aggregator',
    flush fuel self aggregator flushed failed_stats keys answers draws = Done (result, self', aggregator') /\
    StatsAggregator.queue aggregator' = [] /\ Forall (fun stats => stats <> []) batches /\
    mjoin batches = StatsAggregator.queue aggregator ++
      omap (fun k => added (flushed k)) (seq 0 (S (length batches))) /\
    result <> Some [] /\
    default [] result = still_failed (default [] failed_stats) (answers 0%nat) ++
      mjoin (imap (fun i stats => still_failed stats (answers (S i))) batches).
Proof using builds serializes.
  intros Hb Hs Hm Hn Hf He Hd Hk.
  destruct (take_batches_spec fuel aggregator flushed n Hb Hs Hm Hn Hf)
    as (batches & agg' & Ht & Hq & Hne & Hj).
  assert (exists self1,
    (match failed_stats with
     | Some ((_ :: _) as retry_stats) =>
         '(still_failed, self) ← send self retry_stats (keys 0%nat) (answers 0%nat) (draws 0%nat);
         Done (default [] still_failed, self)
     | _ => Done ([], self)
     end) = Done (still_failed (default [] failed_stats) (answers 0%nat), self1) /\ endpoint_ok self1)
    as (self1 & Hretry & He1).
  { assert (Done ([], self) = Done (still_failed [] (answers 0%nat), self)) as Hnil
      by (unfold still_failed; by destruct (verdict _)).
    destruct failed_stats as [[|x l]|]; [exists self; by split| |exists self; by split].
    destruct (keys 0%nat) as [key|] eqn:Hk0; [|by apply Hk in Hk0].
    destruct (send_spec self (x :: l) key (answers 0%nat) (draws 0%nat) He (Hd 0%nat))
      as (failed & self1 & -> & He1 & Hx).
    exists self1. cbn [mbind outcome_mbind outcome_bind]. by rewrite Hx. }
  unfold flush. rewrite Hretry, Ht. cbn [mbind outcome_mbind outcome_bind unwrap].
  destruct (send_batches_spec batches self1 (fun i => keys (S i)) (fun i => answers (S i))
    (fun i => draws (S i)) He1) as (self' & -> & _); [intros; by apply Hd|intros; apply Hk|].
  cbn [mbind outcome_mbind outcome_bind]. exists batches. eexists _, _, _.
  split; [reflexivity|]. split; [done|]. split; [exact Hne|]. split; [exact Hj|].
  destruct (still_failed _ _ ++ _) as [|x l]; [by split|by split].
Qed.

End Stats.
End Stats.

(** * [traces/trace_flusher.rs] *)

Module Trace.
Section Trace.
(** The types and functions of libdatadog: a payload builder, the payload to
    send, the tags, and the coalescing of payloads. *)
Context {Builder Generic SendData Payloads Uri : Type}.
Variable build : Builder -> string -> SendData.
Variable coalesce_send_data : list SendData -> list SendData.
(** [get_payloads]: the V07 payloads, if that is what the payload holds. *)
Variable get_payloads : SendData -> option Payloads.
Variable len : SendData -> Z.
Variable trace_intake_url_prefixed : string -> string.
Variable parse_uri : string -> option Uri.

Record Endpoint := { url : Uri; api_key : string; timeout_ms : Z }.

(** [SendData::new] with the shared retry strategy set. *)
Variable SendData_new :
  Z -> Payloads -> TraceAggregator.TracerHeaderTags Generic -> Endpoint -> SendData.

Abbreviation info := (TraceAggregator.SendDataBuilderInfo Builder Generic).

Record t := { config : Config; additional_endpoints : list Endpoint }.

(** The nested loops of [new]: an endpoint per URL and key. *)
Fixpoint endpoints_of (config : Config) (pairs : list (string * string)) : outcome (list Endpoint) :=
  match pairs with
  | [] => Done []
  | (endpoint_url, api_key) :: pairs =>
      uri ← unwrap (parse_uri (trace_intake_url_prefixed endpoint_url));
      rest ← endpoints_of config pairs;
      Done ({| url := uri; api_key := api_key;
               timeout_ms := (flush_timeout config *ᵤ S_TO_MS)%rust |} :: rest)
  end.

Definition new (config : Config) : outcome t :=
  let pairs := mjoin ((fun '(endpoint_url, api_keys) => (fun k => (endpoint_url, k)) <$> api_keys)
                        <$> apm_additional_endpoints config) in
  endpoints ← endpoints_of config pairs;
  Done {| config := config; additional_endpoints := endpoints |}.

(** The loop over the coalesced payloads; [ok i]: the [i]-th send ends well. *)
Fixpoint all_sent (traces : list SendData) (ok : nat -> bool) : bool :=
  match traces with
  | [] => true
  | _ :: traces => if ok 0%nat then all_sent traces (fun i => ok (S i)) else false
  end.

Definition send_traces (traces : list SendData) (ok : nat -> bool) : option (list SendData) :=
  match traces with
  | [] => None
  | _ =>
      let coalesced_traces := coalesce_send_data traces in
      if all_sent coalesced_traces ok then None else Some coalesced_traces
  end.

(** The copies of a batch for an additional endpoint. *)
Definition additional_traces (traces_with_tags : list (SendData * TraceAggregator.OwnedTracerHeaderTags Generic))
    (endpoint : Endpoint) : list SendData :=
  omap (fun '(trace, tags) =>
          payloads ← get_payloads trace;
          Some (SendData_new (len trace) payloads (TraceAggregator.to_tracer_header_tags tags) endpoint))
    traces_with_tags.

(** The tasks spawned for a batch. *)
Definition batch_tasks (self : t) (api_key : string) (trace_builders : list info) : list (list SendData) :=
  let traces_with_tags :=
    (fun i => (build (TraceAggregator.builder i) api_key, TraceAggregator.header_tags i)) <$> trace_builders in
  (additional_traces traces_with_tags <$> additional_endpoints self) ++ [fst <$> traces_with_tags].

(** The result comes with the commands sent to the aggregator service. [got]: its
    answer to [GetBatches]; [None] when the service is gone. *)
Definition flush (self : t) (api_key : option string) (failed_traces : option (list SendData))
    (got : option (list (list info))) (retry_ok : nat -> bool) (oks : nat -> nat -> bool)
    (order : list nat)
    : option (list SendData) * list (@TraceAggregator.AggregatorCommand Builder Generic) :=
  match api_key with
  | None => (None, [TraceAggregator.Clear])
  | Some api_key =>
      let retry_result :=
        match failed_traces with
        | Some ((_ :: _) as traces) => send_traces traces retry_ok
        | _ => None
        end in
      match retry_result with
      | Some failed => (Some failed, [])
      | None =>
          match got with
          | None => (None, [TraceAggregator.GetBatches])
          | Some all_batches =>
              let tasks := mjoin (batch_tasks self api_key <$> all_batches) in
              let results := imap (fun i task => send_traces task (oks i)) tasks in
              let failed_batch := mjoin (default [] <$> join_all order results) in
              (match failed_batch with [] => None | _ => Some failed_batch end,
               [TraceAggregator.GetBatches])
          end
      end
  end.

(** ** What a flush does with the batches *)
Lemma all_sent_spec traces : forall ok,
  all_sent traces ok = true <-> forall i, (i < length traces)%nat -> ok i = true.
Proof.
  induction traces as [|x traces IH]; intros ok; cbn [all_sent length]; [split; [lia|done]|].
  destruct (ok 0%nat) eqn:H0.
  - rewrite IH. split; intros Hall i Hi; [|apply Hall; lia].
    destruct i; [done|]. apply Hall. lia.
  - split; [done|]. intros Hall. rewrite <- H0. apply Hall. lia.
Qed.

(** What a task hands back: nothing when every send ended well, and otherwise
    all its payloads, those already sent included. *)
Definition handed_back (task : list SendData) (ok : nat -> bool) : list SendData :=
  default [] (send_traces task ok).

Lemma trace_flush_spec self api_key failed_traces all_batches retry_ok oks order :
  let tasks := mjoin (batch_tasks self api_key <$> all_batches) in
  completion_order order (length tasks) ->
  (forall l, failed_traces = Some l -> l <> [] -> all_sent (coalesce_send_data l) retry_ok = true) ->
  exists result,
    flush self (Some api_key) failed_traces (Some all_batches) retry_ok oks order =
      (result, [TraceAggregator.GetBatches]) /\
    result <> Some [] /\
    default [] result ≡ₚ mjoin (imap (fun i task => handed_back task (oks i)) tasks).
Proof.
  intros tasks Ho Hretry. unfold flush. fold tasks.
  assert ((match failed_traces with
           | Some ((_ :: _) as traces) => send_traces traces retry_ok
           | _ => None
           end) = None) as ->.
  { destruct failed_traces as [[|x l]|]; [done| |done]. unfold send_traces. by rewrite Hretry. }
  set (results := imap (fun i task => send_traces task (oks i)) tasks).
  assert (mjoin (default [] <$> join_all order results) ≡ₚ
          mjoin (imap (fun i task => handed_back task (oks i)) tasks)) as Hp.
  { rewrite join_all_perm by (unfold results; by rewrite length_imap).
    unfold results. rewrite fmap_imap. done. }
  destruct (mjoin (default [] <$> join_all order results)) as [|x l];
    eexists; (split; [reflexivity|]); (split; [done|]); exact Hp.
Qed.

End Trace.
End Trace.

(** * Witnesses

    Headers as a map from lower-case names, requests as records. *)

Module Sample.

Definition printable (s : string) : bool :=
  forallb (fun c => let n := N_of_ascii c in ((32 <=? n) && (n <=? 126))%N) (String.list_ascii_of_string s).

#[export] Instance sample_headers : HeaderMapOps (gmap string string) string.
Proof.
  refine {| hm_new := ∅;
            hm_get h k := h !! lower k;
            hm_insert h k v := <[lower k := v]> h;
            hm_remove h k := delete (lower k) h;
            hm_extend h h' := h' ∪ h;
            hv_parse s := if printable s then Some s else None |}.
  - intros h k v k'. destruct (decide (lower k = lower k')) as [->|Hne].
    + apply lookup_insert_eq.
    + by rewrite lookup_insert_ne.
  - intros h k k'. destruct (decide (lower k = lower k')) as [->|Hne].
    + apply lookup_delete_eq.
    + by rewrite lookup_delete_ne.
  - intros h h' k. destruct (h' !! lower k) as [v|] eqn:Hk.
    + by apply lookup_union_Some_l.
    + by rewrite lookup_union_r.
Defined.

Record Request := {
  req_url : string; req_timeout : Z; req_headers : gmap string string; req_body : bytes
}.

#[export] Instance sample_requests : RequestOps (gmap string string) Request.
Proof.
  refine {| rb_post u t h b := {| req_url := u; req_timeout := t; req_headers := h; req_body := b |};
            rb_try_clone r := Some r; rb_headers := req_headers |}; done.
Defined.

Definition config : Config :=
  {| observability_pipelines_worker_logs_enabled := false;
     observability_pipelines_worker_logs_url := "";
     logs_config_logs_dd_url := "https://logs"; logs_config_additional_endpoints := [];
     logs_config_use_compression := false; logs_config_compression_level := 6;
     apm_additional_endpoints := []; flush_timeout := 5 |}.

Definition proxy_request : ProxyAggregator.ProxyRequest (gmap string string) :=
  {| ProxyAggregator.headers := <["host"%string := "localhost"%string]> ∅;
     ProxyAggregator.body := (b!"{}")%rust; ProxyAggregator.target_url := "https://intake" |}.

Definition proxy_queue : ProxyAggregator.t (gmap string string) :=
  ProxyAggregator.add ProxyAggregator.default proxy_request.

Definition proxy_flusher : @Proxy.Flusher (gmap string string) := Proxy.new (Some "fn"%string) config.

(** The headers of the first request, with key k1. *)
Definition proxy_headers : gmap string string :=
  hm_insert (hm_insert hm_new "DD-API-KEY" "k1")%string Proxy.DD_ADDITIONAL_TAGS_HEADER
    "_dd.origin:lambda;functionname:fn"%string.

Lemma proxy_headers_init : Proxy.init_headers proxy_flusher "k1" = Done proxy_headers.
Proof. reflexivity. Qed.

End Sample.

Section Witness.
Import Sample.

Lemma proxy_keeps_first_api_key_witness :
  exists failed self' aggregator',
    Proxy.flush proxy_flusher proxy_queue None (Some "k1"%string)
      (fun _ _ => Status 202) [0%nat] = Done (failed, self', aggregator') /\
    forall k2 batch, exists reqs self'',
      Proxy.create_requests self' batch k2 = Done (reqs, self'') /\ length reqs = length batch /\
      Forall (fun req => hm_get (rb_headers req) "DD-API-KEY" = Some "k1"%string) reqs.
Proof.
  apply (Proxy.proxy_keeps_first_api_key proxy_flusher proxy_queue "k1" "k1"
    proxy_headers (fun _ _ => Status 202) [0%nat]).
  - reflexivity.
  - discriminate.
  - reflexivity.
  - exact proxy_headers_init.
  - exact (Permutation_refl [0%nat]).
Defined.

End Witness.
