(* ===== verification/FlushingService.v ===== *)
(** The coordination of the flushers: [flushing/service.rs] and
    [flushing/handles.rs].

    A spawned task is run at the point where it is spawned, and its handle holds
    what joining it will give; the tasks that [await_handles] spawns are run in
    any order, each with its own answers from the network. The metrics
    aggregator and flushers are another crate's code: what they return is part
    of the inputs. *)

From S2P Require Import Prelude Aggregators DataStreams Flushing.
#[local] Open Scope Z_scope.

(** * [flushing/handles.rs] *)

(** [tokio::task::JoinHandle]: whether the task has finished, and what joining
    it gives, nothing standing for a [JoinError]. *)
Record JoinHandle (A : Type) := { is_finished : bool; joined : option A }.
Arguments is_finished {A}. Arguments joined {A}.

Definition spawned {A} (result : A) : JoinHandle A := {| is_finished := false; joined := Some result |}.

Record MetricsRetryBatch (Series Sketch : Type) := {
  flusher_id : nat;
  series : list Series;
  sketches : list Sketch
}.
Arguments flusher_id {Series Sketch}. Arguments series {Series Sketch}. Arguments sketches {Series Sketch}.

Record FlushHandles (SendData RequestBuilder Series Sketch ClientStatsPayload : Type) := {
  trace_flush_handles : list (JoinHandle (list SendData));
  log_flush_handles : list (JoinHandle (list RequestBuilder));
  metric_flush_handles : list (JoinHandle (MetricsRetryBatch Series Sketch));
  proxy_flush_handles : list (JoinHandle (list RequestBuilder));
  stats_flush_handles : list (JoinHandle (list ClientStatsPayload))
}.
Arguments trace_flush_handles {SendData RequestBuilder Series Sketch ClientStatsPayload}.
Arguments log_flush_handles {SendData RequestBuilder Series Sketch ClientStatsPayload}.
Arguments metric_flush_handles {SendData RequestBuilder Series Sketch ClientStatsPayload}.
Arguments proxy_flush_handles {SendData RequestBuilder Series Sketch ClientStatsPayload}.
Arguments stats_flush_handles {SendData RequestBuilder Series Sketch ClientStatsPayload}.

Module Handles.
Section Handles.
Context {SendData RequestBuilder Series Sketch ClientStatsPayload : Type}.
Abbreviation t := (FlushHandles SendData RequestBuilder Series Sketch ClientStatsPayload).

Definition new : t :=
  {| trace_flush_handles := []; log_flush_handles := []; metric_flush_handles := [];
     proxy_flush_handles := []; stats_flush_handles := [] |}.

Definition any_pending {A} (handles : list (JoinHandle A)) : bool :=
  existsb (fun h => negb (is_finished h)) handles.

Definition has_pending (self : t) : bool :=
  any_pending (trace_flush_handles self) || any_pending (log_flush_handles self)
  || any_pending (metric_flush_handles self) || any_pending (proxy_flush_handles self)
  || any_pending (stats_flush_handles self).

Definition is_nil {A} (l : list A) : bool := match l with [] => true | _ => false end.

Definition is_empty (self : t) : bool :=
  is_nil (trace_flush_handles self) && is_nil (log_flush_handles self)
  && is_nil (metric_flush_handles self) && is_nil (proxy_flush_handles self)
  && is_nil (stats_flush_handles self).
End Handles.
End Handles.

Abbreviation is_nil := Handles.is_nil.

(** * [flushing/service.rs] *)

Module Service.
Section Service.
Context `{HeaderMapOps HeaderMap HeaderValue} `{RequestOps HeaderMap RequestBuilder}.
Context {Builder Generic SendData Payloads Uri ClientStatsPayload HttpRequest Series Sketch : Type}.
Context (zstd : Z -> bytes -> option bytes)
  (build : Builder -> string -> SendData) (coalesce_send_data : list SendData -> list SendData)
  (get_payloads : SendData -> option Payloads) (len : SendData -> Z)
  (SendData_new : Z -> Payloads -> TraceAggregator.TracerHeaderTags Generic ->
                  @Trace.Endpoint Uri -> SendData)
  (serialize : list ClientStatsPayload -> option bytes) (parse_uri : string -> option Uri)
  (http_post : Uri -> list (string * string) -> bytes -> option HttpRequest) (struct_size : Z)
  (to_vec_named : DsmAggregator.StatsPayloadSer -> option bytes) (gzip : bytes -> option bytes)
  (pipeline_headers : HeaderMap).

Abbreviation handles_t := (FlushHandles SendData RequestBuilder Series Sketch ClientStatsPayload).

(** The queues of stats and of proxied requests are shared with their producers
    and are part of the state; those of logs and traces belong to services that
    answer over a channel. *)
Record t := {
  logs_flusher : @Logs.LogsFlusher HeaderMap;
  trace_flusher : @Trace.t Uri;
  stats_flusher : @Stats.t Uri;
  proxy_flusher : @Proxy.Flusher HeaderMap;
  metrics_flushers : nat;
  dsm_processor : option DsmProcessor.t;
  handles : handles_t;
  stats_aggregator : @StatsAggregator.t ClientStatsPayload;
  proxy_aggregator : ProxyAggregator.t HeaderMap
}.

Definition new (logs_flusher : Logs.LogsFlusher) (trace_flusher : Trace.t)
    (stats_flusher : Stats.t) (proxy_flusher : Proxy.Flusher) (metrics_flushers : nat)
    (dsm_processor : option DsmProcessor.t)
    (stats_aggregator : StatsAggregator.t) (proxy_aggregator : ProxyAggregator.t HeaderMap) : t :=
  {| logs_flusher := logs_flusher; trace_flusher := trace_flusher; stats_flusher := stats_flusher;
     proxy_flusher := proxy_flusher; metrics_flushers := metrics_flushers;
     dsm_processor := dsm_processor; handles := Handles.new;
     stats_aggregator := stats_aggregator; proxy_aggregator := proxy_aggregator |}.

Definition has_pending_handles (self : t) : bool := Handles.has_pending (handles self).

Definition with_handles (self : t) (handles : handles_t) : t :=
  {| logs_flusher := logs_flusher self; trace_flusher := trace_flusher self;
     stats_flusher := stats_flusher self; proxy_flusher := proxy_flusher self;
     metrics_flushers := metrics_flushers self; dsm_processor := dsm_processor self;
     handles := handles; stats_aggregator := stats_aggregator self;
     proxy_aggregator := proxy_aggregator self |}.

Definition with_stats (self : t) (flusher : Stats.t) (aggregator : StatsAggregator.t) : t :=
  {| logs_flusher := logs_flusher self; trace_flusher := trace_flusher self;
     stats_flusher := flusher; proxy_flusher := proxy_flusher self;
     metrics_flushers := metrics_flushers self; dsm_processor := dsm_processor self;
     handles := handles self; stats_aggregator := aggregator;
     proxy_aggregator := proxy_aggregator self |}.

Definition with_proxy (self : t) (flusher : Proxy.Flusher) (aggregator : ProxyAggregator.t HeaderMap) : t :=
  {| logs_flusher := logs_flusher self; trace_flusher := trace_flusher self;
     stats_flusher := stats_flusher self; proxy_flusher := flusher;
     metrics_flushers := metrics_flushers self; dsm_processor := dsm_processor self;
     handles := handles self; stats_aggregator := stats_aggregator self;
     proxy_aggregator := aggregator |}.

(** [if let Some(dsm) = &self.dsm_processor { dsm.drain_into_proxy().await; }] *)
Definition drain_dsm (self : t) : t :=
  match dsm_processor self with
  | None => self
  | Some dsm =>
      let '(dsm, proxy) :=
        DsmProcessor.drain_into_proxy to_vec_named gzip pipeline_headers dsm (proxy_aggregator self) in
      {| logs_flusher := logs_flusher self; trace_flusher := trace_flusher self;
         stats_flusher := stats_flusher self; proxy_flusher := proxy_flusher self;
         metrics_flushers := metrics_flushers self; dsm_processor := Some dsm;
         handles := handles self; stats_aggregator := stats_aggregator self;
         proxy_aggregator := proxy |}
  end.

(** What the surroundings answer during one flush: the aggregator services and
    the concentrator, the key factories, the network and the scheduler.
    [stats_flushed force k]: the concentrator's [k]-th answer to
    [flush(force)]. *)
Record Inputs := {
  logs_got : option (list bytes);
  logs_keys : nat -> option string;
  logs_answers : nat -> nat -> nat -> Response;
  logs_orders : nat -> list nat;
  trace_key : option string;
  trace_got : option (list (list (TraceAggregator.SendDataBuilderInfo Builder Generic)));
  trace_retry_ok : nat -> bool;
  trace_oks : nat -> nat -> bool;
  trace_order : list nat;
  metrics_got : option (list Series * list Sketch);
  metrics_results : nat -> list Series -> list Sketch -> option (list Series * list Sketch);
  stats_fuel : nat;
  stats_flushed : bool -> nat -> option ClientStatsPayload + string;
  stats_keys : nat -> option string;
  stats_answers : nat -> nat -> Response;
  stats_draws : nat -> nat -> Z -> Z;
  proxy_key : option string;
  proxy_answers : nat -> nat -> Response;
  proxy_order : list nat
}.

(** The four flushers of the crate, with the inputs of a flush. *)
Definition flush_logs (self : t) (retry : option RequestBuilder) (i : Inputs)
    : outcome (list RequestBuilder) :=
  Logs.flush zstd (logs_flusher self) retry (logs_got i) (logs_keys i) (logs_answers i) (logs_orders i).

Definition flush_traces (self : t) (retry : option (list SendData)) (i : Inputs)
    : option (list SendData) :=
  fst (Trace.flush build coalesce_send_data get_payloads len SendData_new (trace_flusher self)
         (trace_key i) retry (trace_got i) (trace_retry_ok i) (trace_oks i) (trace_order i)).

Definition flush_stats (self : t) (force : bool) (retry : option (list ClientStatsPayload)) (i : Inputs)
    : outcome (option (list ClientStatsPayload) * t) :=
  '(failed, flusher, aggregator) ←
    Stats.flush serialize parse_uri http_post struct_size (stats_fuel i) (stats_flusher self)
      (stats_aggregator self) (stats_flushed i force) retry (stats_keys i) (stats_answers i) (stats_draws i);
  Done (failed, with_stats self flusher aggregator).

Definition flush_proxy (self : t) (retry : option (list RequestBuilder)) (i : Inputs)
    : outcome (option (list RequestBuilder) * t) :=
  '(failed, flusher, aggregator) ←
    Proxy.flush (proxy_flusher self) (proxy_aggregator self) retry (proxy_key i) (proxy_answers i)
      (proxy_order i);
  Done (failed, with_proxy self flusher aggregator).

(** A metrics flush that failed: what to send again, and by which flusher. *)
Definition metrics_task (i : Inputs) (series : list Series) (sketches : list Sketch) (idx : nat)
    : MetricsRetryBatch Series Sketch :=
  let '(retry_series, retry_sketches) := default ([], []) (metrics_results i idx series sketches) in
  {| flusher_id := idx; series := retry_series; sketches := retry_sketches |}.

(** The metrics handle is expected to answer: the process aborts otherwise. *)
Definition spawn_non_blocking (self : t) (i : Inputs) : outcome t :=
  logs ← flush_logs self None i;
  let traces := default [] (flush_traces self None i) in
  '(series, sketches) ← unwrap (metrics_got i);
  let metrics := metrics_task i series sketches <$> seq 0 (metrics_flushers self) in
  '(stats, self) ← flush_stats self false None i;
  let self := drain_dsm self in
  '(proxy, self) ← flush_proxy self None i;
  let h := handles self in
  Done (with_handles self
    {| trace_flush_handles := trace_flush_handles h ++ [spawned traces];
       log_flush_handles := log_flush_handles h ++ [spawned logs];
       metric_flush_handles := metric_flush_handles h ++ (spawned <$> metrics);
       proxy_flush_handles := proxy_flush_handles h ++ [spawned (default [] proxy)];
       stats_flush_handles := stats_flush_handles h ++ [spawned (default [] stats)] |}).

(** The tasks [await_handles] spawns. *)
Inductive Redrive :=
| RStats (retry : list ClientStatsPayload)
| RTraces (retry : list SendData)
| RLog (item : RequestBuilder)
| RMetrics (batch : MetricsRetryBatch Series Sketch)
| RProxy (batch : list RequestBuilder).

(** The five loops over the drained handles. *)
Definition redrive_stats (h : JoinHandle (list ClientStatsPayload)) : list Redrive :=
  match joined h with
  | Some ((_ :: _) as retry) => [RStats retry]
  | _ => []
  end.

Definition redrive_traces (h : JoinHandle (list SendData)) : list Redrive :=
  match joined h with
  | Some ((_ :: _) as retry) => [RTraces retry]
  | _ => []
  end.

Definition redrive_logs (h : JoinHandle (list RequestBuilder)) : list Redrive :=
  match joined h with
  | Some retry => omap (fun item => RLog <$> rb_try_clone item) retry
  | None => []
  end.

Definition redrive_metrics (h : JoinHandle (MetricsRetryBatch Series Sketch)) : list Redrive :=
  match joined h with
  | Some retry_batch =>
      if negb (is_nil (series retry_batch)) || negb (is_nil (sketches retry_batch))
      then [RMetrics retry_batch] else []
  | None => []
  end.

Definition redrive_proxy (h : JoinHandle (list RequestBuilder)) : list Redrive :=
  match joined h with
  | Some batch => [RProxy batch]
  | None => []
  end.

Definition redrives (h : handles_t) : list Redrive :=
  mjoin (redrive_stats <$> stats_flush_handles h) ++
  mjoin (redrive_traces <$> trace_flush_handles h) ++
  mjoin (redrive_logs <$> log_flush_handles h) ++
  mjoin (redrive_metrics <$> metric_flush_handles h) ++
  mjoin (redrive_proxy <$> proxy_flush_handles h).

(** Only the joining of a stats handle sets the flag. *)
Definition stats_join_error (h : handles_t) : bool :=
  existsb (fun h => match joined h with None => true | Some _ => false end) (stats_flush_handles h).

(** The body of a spawned redrive: what the flush returns is dropped. *)
Definition run_redrive (self : t) (r : Redrive) (i : Inputs) : outcome t :=
  match r with
  | RStats retry => '(_, self) ← flush_stats self false (Some retry) i; Done self
  | RTraces retry => let _ := flush_traces self (Some retry) i in Done self
  | RLog item => _ ← flush_logs self (Some item) i; Done self
  | RMetrics batch =>
      let _ := (if (flusher_id batch <? metrics_flushers self)%nat
                then metrics_results i (flusher_id batch) (series batch) (sketches batch) else None) in
      Done self
  | RProxy batch => '(_, self) ← flush_proxy self (Some batch) i; Done self
  end.

(** The redrives in the order in which the runtime runs them, [inputs k] for the
    [k]-th spawned. *)
Fixpoint run_redrives (self : t) (rs : list (nat * Redrive)) (inputs : nat -> Inputs) : outcome t :=
  match rs with
  | [] => Done self
  | (k, r) :: rs => self ← run_redrive self r (inputs k); run_redrives self rs inputs
  end.

(** [panicked k]: joining the [k]-th redrive gives a [JoinError]. *)
Definition await_handles (self : t) (inputs : nat -> Inputs) (order : list nat)
    (panicked : nat -> bool) : outcome (bool * t) :=
  let rs := imap pair (redrives (handles self)) in
  let flush_error := stats_join_error (handles self) in
  self ← run_redrives (with_handles self Handles.new) (join_all order rs) inputs;
  Done (flush_error || existsb panicked (seq 0 (length rs)), self).

(** Whether the metrics handle failed or a metrics flusher handed data back. *)
Definition metrics_flag (self : t) (i : Inputs) : bool :=
  let '(flushed_series, flushed_sketches, metrics_handle_failed) :=
    match metrics_got i with
    | Some (series, sketches) => (series, sketches, false)
    | None => ([], [], true)
    end in
  metrics_handle_failed ||
  existsb (fun retry => match retry with
                        | Some (series, sketches) => negb (is_nil series) || negb (is_nil sketches)
                        | None => false
                        end)
    ((fun idx => metrics_results i idx flushed_series flushed_sketches) <$> seq 0 (metrics_flushers self)).

Definition flush_blocking_inner (self : t) (force_stats : bool) (i : Inputs) : outcome (bool * t) :=
  let metrics := metrics_flag self i in
  let self := drain_dsm self in
  logs ← flush_logs self None i;
  let traces := flush_traces self None i in
  '(stats, self) ← flush_stats self force_stats None i;
  '(proxy, self) ← flush_proxy self None i;
  let undelivered :=
    [negb (is_nil logs); metrics;
     match traces with Some t => negb (is_nil t) | None => false end;
     match stats with Some s => negb (is_nil s) | None => false end;
     match proxy with Some p => negb (is_nil p) | None => false end] in
  Done (existsb id undelivered, self).

Definition flush_blocking (self : t) (i : Inputs) : outcome (bool * t) :=
  flush_blocking_inner self false i.

Definition flush_blocking_final (self : t) (i : Inputs) : outcome (bool * t) :=
  flush_blocking_inner self true i.






Hypothesis builds : forall uri headers data, http_post uri headers data <> None.
Hypothesis serializes : forall stats, serialize stats <> None.









(** Awaiting the handles loses the requests proxied in the meantime: when
    the earlier proxy flush handed nothing back, [await_handles] nevertheless
    flushes the proxy queue again and drops what that flush hands back, so
    requests no attempt of which was accepted are neither queued, nor kept for a
    retry, nor reported. *)
Theorem proxy_redrive_drops_requests self inputs panicked pkey ph :
  redrives (handles self) = [RProxy []] -> stats_join_error (handles self) = false ->
  panicked 0%nat = false ->
  proxy_key (inputs 0%nat) = Some pkey -> Proxy.headers_resolve (proxy_flusher self) pkey ph ->
  completion_order (proxy_order (inputs 0%nat)) (length (ProxyAggregator.queue (proxy_aggregator self))) ->
  (forall k, accepted Proxy.accepts (proxy_answers (inputs 0%nat) k) = false) ->
  exists self',
    await_handles self inputs [0%nat] panicked = Done (false, self') /\
    handles self' = Handles.new /\ ProxyAggregator.queue (proxy_aggregator self') = [] /\
    undelivered Proxy.accepts (proxy_answers (inputs 0%nat))
      (Proxy.request_of (proxy_flusher self) ph <$> ProxyAggregator.queue (proxy_aggregator self))
    = (Proxy.request_of (proxy_flusher self) ph <$> ProxyAggregator.queue (proxy_aggregator self)).
Proof.
  intros Hrs Hse Hpan Hk Hh Ho Hrej. unfold await_handles. rewrite Hrs, Hse.
  cbn [imap]. change (join_all [0%nat] [(0%nat, RProxy [])]) with [(0%nat, RProxy [])].
  cbn [run_redrives run_redrive]. unfold flush_proxy.
  change (proxy_flusher (with_handles self Handles.new)) with (proxy_flusher self).
  change (proxy_aggregator (with_handles self Handles.new)) with (proxy_aggregator self). rewrite Hk.
  destruct (Proxy.proxy_flush_spec (proxy_flusher self) (proxy_aggregator self) (Some []) pkey ph
    (proxy_answers (inputs 0%nat)) (proxy_order (inputs 0%nat)))
    as (failed & flusher & agg & -> & Hagg & _); [done|by constructor| |].
  { cbn [Proxy.to_send]. by rewrite length_fmap. }
  cbn [mbind outcome_mbind outcome_bind]. eexists. split; [cbn; by rewrite Hpan|].
  split; [done|]. split; [by destruct Hagg as [[_ Hx]|[Hx _]]|].
  by apply undelivered_all.
Qed.
End Service.

(** ** Witnesses *)

Section Witness.
Import Flushing.Sample.

Abbreviation service := (@t (gmap string string) Request nat string string nat nat).

(** A service with one log endpoint, one payload of stats and one proxied request
    queued. *)
Definition sample_service : service :=
  new (Logs.new config) {| Trace.config := config; Trace.additional_endpoints := [] |}
    (Stats.new config "https://stats") proxy_flusher 1 None
    (StatsAggregator.add (StatsAggregator.new 700) "s"%string) proxy_queue.

(** A batch of logs to send, and the same answer for every attempt. *)
Definition sample_inputs (answer : Response) : @Inputs nat unit string nat nat :=
  {| logs_got := Some [(b!"[1]")%rust]; logs_keys := fun _ => Some "k1"%string;
     logs_answers := fun _ _ _ => answer; logs_orders := fun _ => [0%nat];
     trace_key := Some "k1"%string; trace_got := Some []; trace_retry_ok := fun _ => true;
     trace_oks := fun _ _ => true; trace_order := [];
     metrics_got := Some ([], []); metrics_results := fun _ _ _ => None;
     stats_fuel := 3; stats_flushed := fun _ _ => inl None; stats_keys := fun _ => Some "k1"%string;
     stats_answers := fun _ _ => answer; stats_draws := fun _ _ _ => 0;
     proxy_key := Some "k1"%string; proxy_answers := fun _ _ => answer; proxy_order := [0%nat] |}.


Abbreviation sample_flush :=
  (flush_blocking_inner (H := sample_headers) (H0 := sample_requests) (Uri := string) (HttpRequest := unit)
     (Payloads := unit) (fun _ b => Some b) (fun b _ => b) (fun l => l) (fun _ => None) (fun _ => 1)
     (fun _ _ _ _ => 0%nat) (fun _ => Some []) Some (fun _ _ _ => Some tt) 300 (fun _ => None) Some ∅).



Lemma proxy_redrive_drops_requests_witness :
  exists self', ProxyAggregator.queue (proxy_aggregator self') = [] /\
    await_handles (H := sample_headers) (H0 := sample_requests) (Uri := string) (HttpRequest := unit)
      (Payloads := unit) (fun _ b => Some b) (fun b _ => b) (fun l => l) (fun _ => None) (fun _ => 1)
      (fun _ _ _ _ => 0%nat) (fun _ => Some []) Some (fun _ _ _ => Some tt) 300
      (with_handles sample_service
         {| trace_flush_handles := []; log_flush_handles := []; metric_flush_handles := [];
            proxy_flush_handles := [spawned []]; stats_flush_handles := [] |})
      (fun _ => sample_inputs TransportError) [0%nat] (fun _ => false) = Done (false, self').
Proof.
  destruct (proxy_redrive_drops_requests (H := sample_headers) (H0 := sample_requests) (Payloads := unit)
     (fun _ b => Some b) (fun b _ => b) (fun l => l) (fun _ => None) (fun _ => 1)
     (fun _ _ _ _ => 0%nat) (fun _ => Some []) Some (fun _ _ _ => Some tt) 300
     (with_handles sample_service
         {| trace_flush_handles := []; log_flush_handles := []; metric_flush_handles := [];
            proxy_flush_handles := [spawned []]; stats_flush_handles := [] |})
     (fun _ => sample_inputs TransportError) (fun _ => false) "k1" proxy_headers)
    as (self' & Hf & _ & Hq & _).
  - reflexivity.
  - reflexivity.
  - reflexivity.
  - reflexivity.
  - right. split; [reflexivity|exact proxy_headers_init].
  - exact (Permutation_refl [0%nat]).
  - reflexivity.
  - exists self'. split; [exact Hq|exact Hf].
Defined.

End Witness.
End Service.
