(* ===== verification/LogsProcessor.v ===== *)
(** Telemetry events to log entries: [logs/lambda/processor.rs] with the records
    of [logs/lambda/mod.rs], the rules and the dispatch of [logs/processor.rs],
    the record filter of [logger/mod.rs] and the agent loop of [logs/agent.rs].

    The serializers of serde_json and the regex crate are arguments. Loops that
    do not end structurally take fuel and return [None] when it runs out. *)

From S2P Require Import Prelude F64 Text TelemetryEvents.
From stdpp Require Import pretty.
#[local] Open Scope Z_scope.

(** * [logs/lambda/mod.rs] *)

Record DurableContextUpdate := {
  upd_request_id : string;
  upd_execution_id : string;
  upd_execution_name : string;
  upd_first_invocation : option bool;
  upd_execution_status : option string
}.

Record DurableExecutionContext := {
  execution_id : string;
  execution_name : string;
  ctx_first_invocation : option bool;
  execution_status : option string
}.

Record Lambda := {
  arn : string;
  request_id : option string;
  durable_execution_id : option string;
  durable_execution_name : option string;
  first_invocation : option bool;
  durable_execution_status : option string
}.

Record Message := { message : string; lambda : Lambda; timestamp : Z; status : string }.

Record IntakeLog := { msg : Message; hostname : string; service : string; tags : string; source : string }.

Definition Message_new (message : string) (request_id : option string) (function_arn : string)
    (timestamp : Z) (status : option string) : Message :=
  {| message := message;
     lambda := {| arn := function_arn; request_id := request_id; durable_execution_id := None;
                  durable_execution_name := None; first_invocation := None;
                  durable_execution_status := None |};
     timestamp := timestamp; status := default "info"%string status |}.

Definition with_lambda (m : Message) (l : Lambda) : Message :=
  {| message := message m; lambda := l; timestamp := timestamp m; status := status m |}.

Definition with_message (m : Message) (s : string) : Message :=
  {| message := s; lambda := lambda m; timestamp := timestamp m; status := status m |}.

Definition with_msg (log : IntakeLog) (m : Message) : IntakeLog :=
  {| msg := m; hostname := hostname log; service := service log; tags := tags log; source := source log |}.

Definition with_request_id (l : Lambda) (rid : option string) : Lambda :=
  {| arn := arn l; request_id := rid; durable_execution_id := durable_execution_id l;
     durable_execution_name := durable_execution_name l; first_invocation := first_invocation l;
     durable_execution_status := durable_execution_status l |}.

(** The four fields of the durable execution. *)
Definition with_durable (l : Lambda) (id name : option string) (first : option bool)
    (status : option string) : Lambda :=
  {| arn := arn l; request_id := request_id l; durable_execution_id := id;
     durable_execution_name := name; first_invocation := first; durable_execution_status := status |}.

Definition log_request_id (log : IntakeLog) : option string := request_id (lambda (msg log)).

Definition set_log_request_id (log : IntakeLog) (rid : option string) : IntakeLog :=
  with_msg log (with_lambda (msg log) (with_request_id (lambda (msg log)) rid)).

(** * Constants and pure helpers of [logs/lambda/processor.rs] *)

(** [lib.rs]. *)
Definition LAMBDA_RUNTIME_SLUG : string := "lambda".

Definition DURABLE_CONTEXT_MAP_CAPACITY : nat := 500.

Definition OOM_ERRORS : list string :=
  ["fatal error: runtime: out of memory"; "java.lang.OutOfMemoryError"; "JavaScript heap out of memory";
   "Runtime exited with error: signal: killed"; "MemoryError"; "failed to allocate memory (NoMemoryError)";
   "OutOfMemoryException"]%string.

Definition is_oom_error (error_msg : string) : bool :=
  existsb (fun oom_str => contains oom_str error_msg) OOM_ERRORS.

Definition is_platform_log (message : string) : bool :=
  starts_with "START RequestId:" message || starts_with "END RequestId:" message
  || starts_with "REPORT RequestId:" message.

(** Execution id and name. *)
Definition parse_durable_execution_arn (arn : string) : option (string * string) :=
  durable_part ← split_nth1 "/durable-execution/" arn;
  let '(first, second) := splitn2 "/" durable_part in
  exec_name ← non_empty first;
  exec_id ← second ≫= non_empty;
  Some (exec_id, exec_name).

Definition map_log_level_to_status (level : string) : option string :=
  let l := to_uppercase level in
  let among s := bool_decide (l = s) in
  if among "FATAL"%string || among "CRITICAL"%string then Some "critical"%string
  else if among "ERROR"%string || among "ERR"%string then Some "error"%string
  else if among "WARN"%string || among "WARNING"%string then Some "warn"%string
  else if among "INFO"%string || among "INFORMATION"%string then Some "info"%string
  else if among "DEBUG"%string then Some "debug"%string
  else if among "TRACE"%string then Some "trace"%string
  else None.

(** * [logger/mod.rs] *)

Definition MESSAGE_PREFIX : string := "DD_EXTENSION | ".
Definition HTTP_LIBRARY_LINE_PREFIX : string := ("{" +:+ quoted "target" +:+ ":" +:+ String QUOTE EmptyString)%string.

Definition is_http_library_record (record : Value) : bool :=
  match record with
  | VString line =>
      starts_with HTTP_LIBRARY_LINE_PREFIX line
      && contains ("," +:+ quoted "message" +:+ ":" +:+ String QUOTE MESSAGE_PREFIX)%string line
  | VObject obj =>
      match map_get obj "target" with Some _ => true | None => false end
      && match map_get obj "message" ≫= as_str with
         | Some message => starts_with MESSAGE_PREFIX message
         | None => false
         end
  | _ => false
  end.

(** * [event_bus] *)

Inductive Event :=
| Telemetry (event : TelemetryEvent Value)
| OutOfMemory (request_id : option string) (timestamp : Z)
| Tombstone.

(** * The rules of [logs/processor.rs] *)

Inductive Kind := ExcludeAtMatch | IncludeAtMatch | MaskSequences.

Record ProcessingRule := { rule_kind : Kind; pattern : string; replace_placeholder : option string }.

Record Rule (Regex : Type) := { kind : Kind; regex : Regex; placeholder : string }.
Arguments kind {Regex}. Arguments regex {Regex}. Arguments placeholder {Regex}.

Section Rules.
Context {Regex : Type} (Regex_new : string -> option Regex) (is_match : Regex -> string -> bool)
  (replace_all : Regex -> string -> string -> string).

(** The loop over the rules: whether the message is kept, and the message. *)
Fixpoint apply_each (rules : list (Rule Regex)) (message : string) : bool * string :=
  match rules with
  | [] => (true, message)
  | rule :: rules =>
      match kind rule with
      | ExcludeAtMatch =>
          if is_match (regex rule) message then (false, message) else apply_each rules message
      | IncludeAtMatch =>
          if negb (is_match (regex rule) message) then (false, message) else apply_each rules message
      | MaskSequences => apply_each rules (replace_all (regex rule) message (placeholder rule))
      end
  end.

Definition apply_rules (rules : option (list (Rule Regex))) (message : string) : bool * string :=
  match rules with
  | None => (true, message)
  | Some rules => apply_each rules message
  end.

Definition compile_rules (rules : option (list ProcessingRule)) : option (list (Rule Regex)) :=
  match rules with
  | None => None
  | Some [] => None
  | Some rules =>
      Some (omap (fun rule =>
              regex ← Regex_new (pattern rule);
              Some {| kind := rule_kind rule; regex := regex;
                      placeholder := default EmptyString (replace_placeholder rule) |}) rules)
  end.
End Rules.

(** * [LambdaProcessor] *)

Module LambdaProcessor.
Section LambdaProcessor.
Context {Regex : Type} (Regex_new : string -> option Regex) (is_match : Regex -> string -> bool)
  (replace_all : Regex -> string -> string -> string).
(** [serde_json::to_string] of a log and of an object, the text of a value, and
    [serde_json::from_str]. *)
Context (log_to_string : IntakeLog -> option string) (object_to_string : Map -> option string)
  (value_to_string : Value -> string) (from_str : string -> option Value).

(** Of the invocation context only the request id and the runtime duration are
    used. [event_bus] holds the events sent, oldest first. *)
Record t := {
  function_arn : string;
  lp_service : string;
  lp_tags : string;
  rules : option (list (Rule Regex));
  ic_request_id : string;
  ic_runtime_duration_ms : f64;
  orphan_logs : list IntakeLog;
  ready_logs : list string;
  event_bus : list Event;
  logs_enabled : bool;
  is_managed_instance_mode : bool;
  is_durable_function : option bool;
  held_logs : gmap string (list IntakeLog);
  held_logs_order : list string;
  durable_context_map : gmap string DurableExecutionContext;
  durable_context_order : list string;
  lambda_durable_function_log_buffer_size : nat
}.

(** [service]: the configured service, in lower case. *)
Definition new (service tags function_arn : string) (processing_rules : option (list ProcessingRule))
    (logs_enabled : bool) (buffer_size : nat) (is_managed_instance_mode : bool) : t :=
  {| function_arn := function_arn; lp_service := service; lp_tags := tags;
     rules := compile_rules Regex_new processing_rules;
     ic_request_id := EmptyString; ic_runtime_duration_ms := f64_zero;
     orphan_logs := []; ready_logs := []; event_bus := []; logs_enabled := logs_enabled;
     is_managed_instance_mode := is_managed_instance_mode; is_durable_function := None;
     held_logs := ∅; held_logs_order := []; durable_context_map := ∅; durable_context_order := [];
     lambda_durable_function_log_buffer_size := buffer_size |}.

Definition current_request_id (self : t) : option string := non_empty (ic_request_id self).

Definition set_context (self : t) (rid : string) (runtime_duration_ms : f64) : t :=
  {| function_arn := function_arn self; lp_service := lp_service self; lp_tags := lp_tags self;
     rules := rules self; ic_request_id := rid; ic_runtime_duration_ms := runtime_duration_ms;
     orphan_logs := orphan_logs self; ready_logs := ready_logs self; event_bus := event_bus self;
     logs_enabled := logs_enabled self; is_managed_instance_mode := is_managed_instance_mode self;
     is_durable_function := is_durable_function self; held_logs := held_logs self;
     held_logs_order := held_logs_order self; durable_context_map := durable_context_map self;
     durable_context_order := durable_context_order self;
     lambda_durable_function_log_buffer_size := lambda_durable_function_log_buffer_size self |}.

Definition set_orphans (self : t) (orphans : list IntakeLog) : t :=
  {| function_arn := function_arn self; lp_service := lp_service self; lp_tags := lp_tags self;
     rules := rules self; ic_request_id := ic_request_id self;
     ic_runtime_duration_ms := ic_runtime_duration_ms self;
     orphan_logs := orphans; ready_logs := ready_logs self; event_bus := event_bus self;
     logs_enabled := logs_enabled self; is_managed_instance_mode := is_managed_instance_mode self;
     is_durable_function := is_durable_function self; held_logs := held_logs self;
     held_logs_order := held_logs_order self; durable_context_map := durable_context_map self;
     durable_context_order := durable_context_order self;
     lambda_durable_function_log_buffer_size := lambda_durable_function_log_buffer_size self |}.

Definition set_logs (self : t) (ready : list string) (held : gmap string (list IntakeLog))
    (order : list string) : t :=
  {| function_arn := function_arn self; lp_service := lp_service self; lp_tags := lp_tags self;
     rules := rules self; ic_request_id := ic_request_id self;
     ic_runtime_duration_ms := ic_runtime_duration_ms self;
     orphan_logs := orphan_logs self; ready_logs := ready; event_bus := event_bus self;
     logs_enabled := logs_enabled self; is_managed_instance_mode := is_managed_instance_mode self;
     is_durable_function := is_durable_function self; held_logs := held;
     held_logs_order := order; durable_context_map := durable_context_map self;
     durable_context_order := durable_context_order self;
     lambda_durable_function_log_buffer_size := lambda_durable_function_log_buffer_size self |}.

Definition set_durable (self : t) (is_durable : option bool)
    (contexts : gmap string DurableExecutionContext) (order : list string) : t :=
  {| function_arn := function_arn self; lp_service := lp_service self; lp_tags := lp_tags self;
     rules := rules self; ic_request_id := ic_request_id self;
     ic_runtime_duration_ms := ic_runtime_duration_ms self;
     orphan_logs := orphan_logs self; ready_logs := ready_logs self; event_bus := event_bus self;
     logs_enabled := logs_enabled self; is_managed_instance_mode := is_managed_instance_mode self;
     is_durable_function := is_durable; held_logs := held_logs self;
     held_logs_order := held_logs_order self; durable_context_map := contexts;
     durable_context_order := order;
     lambda_durable_function_log_buffer_size := lambda_durable_function_log_buffer_size self |}.

(** [event_bus.send]: a failure is only logged. *)
Definition send_event (self : t) (event : Event) : t :=
  {| function_arn := function_arn self; lp_service := lp_service self; lp_tags := lp_tags self;
     rules := rules self; ic_request_id := ic_request_id self;
     ic_runtime_duration_ms := ic_runtime_duration_ms self;
     orphan_logs := orphan_logs self; ready_logs := ready_logs self;
     event_bus := event_bus self ++ [event];
     logs_enabled := logs_enabled self; is_managed_instance_mode := is_managed_instance_mode self;
     is_durable_function := is_durable_function self; held_logs := held_logs self;
     held_logs_order := held_logs_order self; durable_context_map := durable_context_map self;
     durable_context_order := durable_context_order self;
     lambda_durable_function_log_buffer_size := lambda_durable_function_log_buffer_size self |}.

(** ** Ready and held logs *)

(** [if let Ok(s) = to_string(&log) { self.ready_logs.push(s); }] *)
Definition push_ready (self : t) (log : IntakeLog) : t :=
  match log_to_string log with
  | Some s => set_logs self (ready_logs self ++ [s]) (held_logs self) (held_logs_order self)
  | None => self
  end.

Definition decorate (managed : bool) (log : IntakeLog) (ctx : DurableExecutionContext) : IntakeLog :=
  let l := lambda (msg log) in
  let text := message (msg log) in
  let first := if is_platform_log text then ctx_first_invocation ctx else first_invocation l in
  let status :=
    if starts_with "END RequestId:" text || (managed && starts_with "REPORT RequestId:" text)
    then execution_status ctx else durable_execution_status l in
  with_msg log (with_lambda (msg log)
    (with_durable l (Some (execution_id ctx)) (Some (execution_name ctx)) first status)).

Definition set_durable_context_and_mark_ready (self : t) (log : IntakeLog)
    (ctx : DurableExecutionContext) : t :=
  push_ready self (decorate (is_managed_instance_mode self) log ctx).

Definition mark_all_ready (self : t) (logs : list IntakeLog) (ctx : DurableExecutionContext) : t :=
  foldl (fun self log => set_durable_context_and_mark_ready self log ctx) self logs.

Definition push_all_ready (self : t) (logs : list IntakeLog) : t := foldl push_ready self logs.

(** The [while] loop of [hold_log]. *)
Fixpoint evict (fuel : nat) (self : t) : option t :=
  match fuel with
  | O => None
  | S fuel =>
      if (lambda_durable_function_log_buffer_size self <=? size (held_logs self))%nat then
        match pop_front (held_logs_order self) with
        | (Some oldest, order) =>
            let self := set_logs self (ready_logs self) (held_logs self) order in
            match held_logs self !! oldest with
            | Some evicted =>
                let self := set_logs self (ready_logs self) (delete oldest (held_logs self)) order in
                evict fuel (push_all_ready self evicted)
            | None => evict fuel self
            end
        | (None, _) => evict fuel self
        end
      else Some self
  end.

Definition hold_log (fuel : nat) (self : t) (rid : string) (log : IntakeLog) : option t :=
  if (lambda_durable_function_log_buffer_size self =? 0)%nat then Some self
  else
    self ← match held_logs self !! rid with
           | Some _ => Some self
           | None =>
               self ← evict fuel self;
               Some (set_logs self (ready_logs self) (held_logs self) (push_back (held_logs_order self) rid))
           end;
    let held := default [] (held_logs self !! rid) in
    Some (set_logs self (ready_logs self) (<[rid := held ++ [log]]> (held_logs self)) (held_logs_order self)).

Definition queue_log_after_rules (fuel : nat) (self : t) (log : IntakeLog) : option t :=
  match durable_execution_id (lambda (msg log)) with
  | Some _ => Some (push_ready self log)
  | None =>
      if (lambda_durable_function_log_buffer_size self =? 0)%nat then Some (push_ready self log)
      else
        match is_durable_function self with
        | None =>
            match log_request_id log with
            | Some rid => hold_log fuel self rid log
            | None => Some (push_ready self log)
            end
        | Some false => Some (push_ready self log)
        | Some true =>
            match rid ← log_request_id log; durable_context_map self !! rid with
            | Some ctx => Some (set_durable_context_and_mark_ready self log ctx)
            | None =>
                match log_request_id log with
                | Some rid => hold_log fuel self rid log
                | None => Some (push_ready self log)
                end
            end
        end
  end.

Definition process_and_queue_log (fuel : nat) (self : t) (log : IntakeLog) : option t :=
  if logs_enabled self then
    match apply_rules is_match replace_all (rules self) (message (msg log)) with
    | (true, text) => queue_log_after_rules fuel self (with_msg log (with_message (msg log) text))
    | (false, _) => Some self
    end
  else Some self.

Definition drain_held_logs_for_request_id (self : t) (rid : string) : t :=
  match held_logs self !! rid with
  | None => self
  | Some held =>
      let self := set_logs self (ready_logs self) (delete rid (held_logs self))
                    (filter (fun r => r <> rid) (held_logs_order self)) in
      match durable_context_map self !! rid with
      | Some ctx => mark_all_ready self held ctx
      | None => self
      end
  end.

(** The map is drained in its own order, which the source leaves open. *)
Definition resolve_one (self : t) (entry : string * list IntakeLog) : t :=
  let '(rid, logs) := entry in
  match durable_context_map self !! rid with
  | Some ctx => mark_all_ready self logs ctx
  | None => set_logs self (ready_logs self) (<[rid := logs]> (held_logs self)) (held_logs_order self)
  end.

Definition resolve_held_logs_on_durable_function_set (self : t) (is_durable : bool) : t :=
  let held := map_to_list (held_logs self) in
  let self := set_logs self (ready_logs self) ∅ [] in
  if is_durable then foldl resolve_one self held
  else foldl (fun self entry => push_all_ready self entry.2) self held.

Definition drain_held_logs (self : t) : t :=
  let held := map_to_list (held_logs self) in
  let self := set_logs self (ready_logs self) ∅ [] in
  foldl (fun self entry => push_all_ready self entry.2) self held.

Definition take_ready_logs (self : t) : list string * t :=
  (ready_logs self, set_logs self [] (held_logs self) (held_logs_order self)).

Definition insert_to_durable_context_map (self : t) (rid exec_id exec_name : string)
    (first : option bool) (exec_status : option string) : t :=
  match durable_context_map self !! rid with
  | Some _ => self
  | None =>
      let '(contexts, order) :=
        if (DURABLE_CONTEXT_MAP_CAPACITY <=? length (durable_context_order self))%nat then
          match pop_front (durable_context_order self) with
          | (Some oldest, order) => (delete oldest (durable_context_map self), order)
          | (None, order) => (durable_context_map self, order)
          end
        else (durable_context_map self, durable_context_order self) in
      let ctx := {| execution_id := exec_id; execution_name := exec_name;
                    ctx_first_invocation := first; execution_status := exec_status |} in
      let self := set_durable self (is_durable_function self) (<[rid := ctx]> contexts) (push_back order rid) in
      drain_held_logs_for_request_id self rid
  end.

(** ** From an event to a message *)

(** [time.timestamp()] and [time.timestamp_millis()]. *)
Definition time_secs (event : TelemetryEvent Value) : Z := time event / 1000000000.
Definition time_millis (event : TelemetryEvent Value) : Z := time event / 1000000.

Definition make_message (self : t) (event : TelemetryEvent Value) (text : string) (rid : option string)
    (status : option string) : Message :=
  Message_new text rid (function_arn self) (time_millis event) status.

(** The [Function] arm: request id, message and durable execution of the record. *)
Definition function_parts (v : Value) : option string * option string * option (string * string) :=
  match v with
  | VObject obj =>
      let rid := match map_get obj "requestId" with
                 | Some v => as_str v
                 | None => map_get obj "AWSRequestId" ≫= as_str
                 end in
      let durable_ctx := (map_get obj "executionArn" ≫= as_str) ≫= parse_durable_execution_arn in
      (rid, Some (default EmptyString (object_to_string obj)), durable_ctx)
  | VString s => (None, Some s, None)
  | _ => (None, None, None)
  end.

Definition function_message (self : t) (event : TelemetryEvent Value) (v : Value) : option Message * t :=
  let '(rid, text, durable_ctx) := function_parts v in
  match text with
  | None => (None, self)
  | Some text =>
      let self :=
        if is_oom_error text then
          let oom_request_id := match rid with Some r => Some r | None => current_request_id self end in
          send_event self (OutOfMemory oom_request_id (time_secs event))
        else self in
      let m := make_message self event text rid None in
      let m := match durable_ctx with
               | Some (exec_id, exec_name) =>
                   with_lambda m (with_durable (lambda m) (Some exec_id) (Some exec_name)
                     (first_invocation (lambda m)) (durable_execution_status (lambda m)))
               | None => m
               end in
      (Some m, self)
  end.

Definition extension_message (self : t) (event : TelemetryEvent Value) (v : Value) : option Message * t :=
  if is_http_library_record v then (None, self)
  else
    let text := match v with
                | VObject obj => Some (default EmptyString (object_to_string obj))
                | VString s => Some s
                | _ => None
                end in
    match text with
    | None => (None, self)
    | Some text =>
        let self :=
          if is_oom_error text
          then send_event self (OutOfMemory (current_request_id self) (time_secs event)) else self in
        (Some (make_message self event text None None), self)
    end.

Definition init_start_message (self : t) (event : TelemetryEvent Value)
    (runtime_version runtime_version_arn : option string) : option Message * t :=
  let self := send_event self (Telemetry event) in
  let rv := default "?"%string runtime_version in
  let rv_arn := default "?"%string runtime_version_arn in
  let is_durable := contains "DurableFunction" rv in
  let self := set_durable self (Some is_durable) (durable_context_map self) (durable_context_order self) in
  let self := resolve_held_logs_on_durable_function_set self is_durable in
  (Some (make_message self event
     ("INIT_START Runtime Version: " +:+ rv +:+ " Runtime Version ARN: " +:+ rv_arn)%string None None), self).

Definition start_message (self : t) (event : TelemetryEvent Value) (rid : string) (version : option string)
    : option Message * t :=
  let self := send_event self (Telemetry event) in
  let self := set_context self rid (ic_runtime_duration_ms self) in
  let version := default "$LATEST"%string version in
  (Some (make_message self event
     ("START RequestId: " +:+ rid +:+ " Version: " +:+ version)%string (Some rid) None), self).

Definition runtime_done_message (self : t) (event : TelemetryEvent Value) (rid : string) (status : Status)
    (error_type : option string) (metrics : option RuntimeDoneMetrics) : option Message * t :=
  let self := send_event self (Telemetry event) in
  let text := ("END RequestId: " +:+ rid)%string in
  let '(text, result_status, runtime_duration_ms) :=
    match metrics with
    | Some metrics =>
        let d := rd_duration_ms metrics in
        match status with
        | Timeout =>
            ((text +:+ " Task timed out after " +:+ fmt2 (fdiv d (f64_of_Z 1000)) +:+ " seconds")%string,
             "error"%string, d)
        | Error =>
            ((text +:+ " Task failed: " +:+ debug_str (default EmptyString error_type))%string,
             "error"%string, d)
        | _ => (text, "info"%string, d)
        end
    | None =>
        match status with
        | Timeout => ((text +:+ " Task timed out")%string, "error"%string, ic_runtime_duration_ms self)
        | _ => (text, "info"%string, ic_runtime_duration_ms self)
        end
    end in
  let self := set_context self EmptyString runtime_duration_ms in
  (Some (make_message self event text (Some rid) (Some result_status)), self).

(** The report of a managed instance: status and text. *)
Definition managed_report (rid : string) (status : Status) (error_type : option string) (d : f64)
    : string * string :=
  let text := ("REPORT RequestId: " +:+ rid +:+ " Runtime Duration: " +:+ fmt2 d +:+ " ms")%string in
  match status with
  | Timeout =>
      ("error", text +:+ " Task timed out after " +:+ fmt2 (fdiv d (f64_of_Z 1000)) +:+ " seconds")%string
  | Error =>
      ("error", text +:+ match error_type with
                         | None => " Task failed with an unknown error"
                         | Some e => " Task failed: " +:+ e
                         end)%string
  | _ => ("info", text)%string
  end.

(** The report of an on-demand function: status and text. *)
Definition on_demand_report (rid : string) (status : Status) (error_type : option string)
    (runtime_duration_ms : f64) (metrics : OnDemandReportMetrics) : option string * string :=
  let post_runtime_duration_ms :=
    if flt f64_zero runtime_duration_ms then fsub (od_duration_ms metrics) runtime_duration_ms
    else f64_zero in
  let text :=
    ("REPORT RequestId: " +:+ rid +:+ " Duration: " +:+ fmt2 (od_duration_ms metrics)
     +:+ " ms Runtime Duration: " +:+ fmt2 runtime_duration_ms
     +:+ " ms Post Runtime Duration: " +:+ fmt2 post_runtime_duration_ms
     +:+ " ms Billed Duration: " +:+ pretty (billed_duration_ms metrics)
     +:+ " ms Memory Size: " +:+ pretty (memory_size_mb metrics)
     +:+ " MB Max Memory Used: " +:+ pretty (max_memory_used_mb metrics) +:+ " MB")%string in
  let text := match init_duration_ms metrics with
              | Some d => (text +:+ " Init Duration: " +:+ fmt2 d +:+ " ms")%string
              | None => text
              end in
  let with_error_type text := match error_type with
                              | Some e => (text +:+ " Error Type: " +:+ e)%string
                              | None => text
                              end in
  match status with
  | Timeout => (Some "error"%string, (text +:+ " Status: timeout")%string)
  | Error => (Some "error"%string, with_error_type (text +:+ " Status: error")%string)
  | Failure => (Some "error"%string, with_error_type (text +:+ " Status: failure")%string)
  | Success => (None, text)
  end.

Definition report_message (self : t) (event : TelemetryEvent Value) (rid : string) (status : Status)
    (error_type : option string) (metrics : ReportMetrics) : option Message * t :=
  let self := send_event self (Telemetry event) in
  match metrics with
  | ManagedInstance metrics =>
      let '(result_status, text) := managed_report rid status error_type (mi_duration_ms metrics) in
      let self := set_context self EmptyString (mi_duration_ms metrics) in
      (Some (make_message self event text (Some rid) (Some result_status)), self)
  | OnDemand metrics =>
      let '(result_status, text) :=
        on_demand_report rid status error_type (ic_runtime_duration_ms self) metrics in
      (Some (make_message self event text (Some rid) result_status), self)
  end.

(** [None] stands for the errors of the source, whose text is not used. *)
Definition get_message (self : t) (event : TelemetryEvent Value) : option Message * t :=
  match record event with
  | Function v => function_message self event v
  | Extension v => extension_message self event v
  | PlatformInitStart _ _ runtime_version runtime_version_arn =>
      init_start_message self event runtime_version runtime_version_arn
  | PlatformInitReport _ _ _ => (None, send_event self (Telemetry event))
  | PlatformStart rid version => start_message self event rid version
  | PlatformRuntimeDone rid status error_type metrics =>
      runtime_done_message self event rid status error_type metrics
  | PlatformReport rid status error_type metrics _ =>
      report_message self event rid status error_type metrics
  | PlatformRestoreStart => (None, send_event self (Telemetry event))
  | PlatformRestoreReport _ _ _ => (None, send_event self (Telemetry event))
  | _ => (None, self)
  end.

(** ** From a message to a log *)

(** The tags and the message text once the tags of the object are taken out. *)
Definition extract_tags_and_get_message (json_obj : Map) (tags original_message : string)
    : Map * string * string :=
  match map_get json_obj "ddtags" with
  | Some (VString message_tags) =>
      let json_obj := map_remove json_obj "ddtags" in
      (json_obj, (tags +:+ "," +:+ message_tags)%string, default original_message (object_to_string json_obj))
  | _ =>
      match map_get json_obj "message" with
      | Some inner_message =>
          match value_get inner_message "ddtags" with
          | Some (VString message_tags) =>
              let inner_message :=
                match inner_message with
                | VObject inner_obj => VObject (map_remove inner_obj "ddtags")
                | v => v
                end in
              (map_update json_obj "message" inner_message, (tags +:+ "," +:+ message_tags)%string,
               value_to_string inner_message)
          | _ => (json_obj, tags, original_message)
          end
      | None => (json_obj, tags, original_message)
      end
  end.

Definition get_intake_log (self : t) (lambda_message : Message) : option IntakeLog * t :=
  let rid :=
    match request_id (lambda lambda_message) with
    | Some rid => Some rid
    | None =>
        if bool_decide (ic_request_id self = EmptyString) || is_managed_instance_mode self then None
        else Some (ic_request_id self)
    end in
  let m := with_lambda lambda_message (with_request_id (lambda lambda_message) rid) in
  let log :=
    match from_str (message m) with
    | Some (VObject json_obj) =>
        let '(json_obj, tags, final_message) :=
          extract_tags_and_get_message json_obj (lp_tags self) (message m) in
        let level := match map_get json_obj "level" with
                     | Some v => Some v
                     | None => map_get json_obj "status"
                     end in
        let status := default (status m) ((level ≫= as_str) ≫= map_log_level_to_status) in
        {| msg := {| message := final_message; lambda := lambda m; timestamp := timestamp m;
                     status := status |};
           hostname := function_arn self; service := lp_service self; tags := tags;
           source := LAMBDA_RUNTIME_SLUG |}
    | _ =>
        {| msg := m; hostname := function_arn self; service := lp_service self; tags := lp_tags self;
           source := LAMBDA_RUNTIME_SLUG |}
    end in
  match rid with
  | Some _ => (Some log, self)
  | None =>
      if is_managed_instance_mode self then (Some log, self)
      else (None, set_orphans self (orphan_logs self ++ [log]))
  end.

Definition make_log (self : t) (event : TelemetryEvent Value) : option IntakeLog * t :=
  match get_message self event with
  | (Some lambda_message, self) => get_intake_log self lambda_message
  | (None, self) => (None, self)
  end.

(** [for mut orphan_log in orphan_logs]. *)
Fixpoint queue_orphans (fuel : nat) (self : t) (orphans : list IntakeLog) : option t :=
  match orphans with
  | [] => Some self
  | orphan :: orphans =>
      self ← process_and_queue_log fuel self (set_log_request_id orphan (Some (ic_request_id self)));
      queue_orphans fuel self orphans
  end.

(** The batch given to the aggregator, if any, and the state. *)
Definition process (fuel : nat) (self : t) (event : TelemetryEvent Value) : option (list string * t) :=
  self ← match make_log self event with
         | (Some log, self) =>
             self ← process_and_queue_log fuel self log;
             let orphans := orphan_logs self in
             queue_orphans fuel (set_orphans self []) orphans
         | (None, self) => Some self
         end;
  Some (take_ready_logs self).

(** ** Where the logs go *)

Hypothesis serializes : forall log, log_to_string log <> None.

Definition text_of (log : IntakeLog) : string := default EmptyString (log_to_string log).

(** A log without the fields that the durable context fills in later. *)
Definition core (log : IntakeLog) : IntakeLog :=
  with_msg log (with_lambda (msg log) (with_durable (lambda (msg log)) None None None None)).

Lemma core_decorate managed log ctx : core (decorate managed log ctx) = core log.
Proof. reflexivity. Qed.

(** The logs a map holds. *)
Definition logs_of (held : gmap string (list IntakeLog)) : list IntakeLog :=
  mjoin (snd <$> map_to_list held).

Lemma logs_of_empty : logs_of ∅ = [].
Proof. unfold logs_of. by rewrite map_to_list_empty. Qed.

Lemma logs_of_insert held k l :
  held !! k = None -> logs_of (<[k := l]> held) ≡ₚ l ++ logs_of held.
Proof. intros Hk. unfold logs_of. by rewrite map_to_list_insert. Qed.

Lemma logs_of_delete held k l :
  held !! k = Some l -> logs_of held ≡ₚ l ++ logs_of (delete k held).
Proof.
  intros Hk. rewrite <- (insert_delete_id held k l Hk) at 1.
  apply logs_of_insert, lookup_delete_eq.
Qed.

Lemma logs_of_append held k log :
  logs_of (<[k := default [] (held !! k) ++ [log]]> held) ≡ₚ logs_of held ++ [log].
Proof.
  destruct (held !! k) as [l|] eqn:Hk; cbn [default from_option].
  - rewrite <- insert_delete_eq, logs_of_insert by apply lookup_delete_eq.
    rewrite (logs_of_delete held k l Hk). change (id l) with l. solve_Permutation.
  - rewrite logs_of_insert by done. simpl. solve_Permutation.
Qed.

(** From [self] to [self'] the logs in [added] come in; those in [out] become
    ready, decorated or not; the rest is held; nothing else changes. *)
Definition moves (self self' : t) (added : list IntakeLog) : Prop :=
  exists out held order,
    self' = set_logs self (ready_logs self ++ (text_of <$> out)) held order /\
    core <$> (out ++ logs_of held) ≡ₚ core <$> (logs_of (held_logs self) ++ added).

Lemma set_logs_id self : set_logs self (ready_logs self) (held_logs self) (held_logs_order self) = self.
Proof. by destruct self. Qed.

Lemma moves_refl self : moves self self [].
Proof.
  exists [], (held_logs self), (held_logs_order self).
  split; [simpl; by rewrite app_nil_r, set_logs_id|]. by rewrite app_nil_r.
Qed.

Lemma moves_trans self1 self2 self3 added1 added2 :
  moves self1 self2 added1 -> moves self2 self3 added2 -> moves self1 self3 (added1 ++ added2).
Proof.
  intros (out1 & held1 & order1 & -> & Hp1) (out2 & held2 & order2 & -> & Hp2).
  exists (out1 ++ out2), held2, order2. cbn in *. split.
  - unfold set_logs. cbn. by rewrite fmap_app, (assoc_L (++)).
  - rewrite <- (assoc_L (++)), fmap_app, Hp2, (assoc_L (++)), fmap_app, fmap_app, (assoc_L (++)).
    rewrite <- fmap_app, Hp1, <- fmap_app. done.
Qed.

Lemma push_ready_moves self log : moves self (push_ready self log) [log].
Proof using serializes.
  unfold push_ready. destruct (log_to_string log) as [s|] eqn:Hs; [|by apply serializes in Hs].
  exists [log], (held_logs self), (held_logs_order self). split.
  - simpl. unfold text_of. by rewrite Hs.
  - by rewrite Permutation_app_comm.
Qed.

Lemma foldl_moves {A} (f : t -> A -> t) (added : A -> list IntakeLog) xs : forall self,
  (forall self x, moves self (f self x) (added x)) -> moves self (foldl f self xs) (mjoin (added <$> xs)).
Proof.
  induction xs as [|x xs IH]; intros self Hf; [apply moves_refl|].
  eapply moves_trans; [apply Hf|]. by apply IH.
Qed.

Lemma mjoin_singletons {A} (l : list A) : mjoin ((fun x => [x]) <$> l) = l.
Proof. induction l as [|x l IH]; [done|]. cbn. f_equal. exact IH. Qed.

Lemma push_all_ready_moves self logs : moves self (push_all_ready self logs) logs.
Proof using serializes.
  rewrite <- (mjoin_singletons logs) at 2. apply foldl_moves. intros. apply push_ready_moves.
Qed.

(** What is moved may be stated up to [core]. *)
Lemma moves_core self self' added added' :
  moves self self' added -> core <$> added ≡ₚ core <$> added' -> moves self self' added'.
Proof.
  intros (out & held & order & -> & Hp) Ha. exists out, held, order. split; [done|].
  rewrite Hp, !fmap_app, Ha. done.
Qed.

Lemma mark_ready_moves self log ctx :
  moves self (set_durable_context_and_mark_ready self log ctx) [log].
Proof using serializes.
  eapply moves_core; [apply push_ready_moves|]. by rewrite !list_fmap_singleton, core_decorate.
Qed.

Lemma mark_all_ready_moves self logs ctx : moves self (mark_all_ready self logs ctx) logs.
Proof using serializes.
  rewrite <- (mjoin_singletons logs) at 2.
  apply (foldl_moves (fun self log => set_durable_context_and_mark_ready self log ctx)).
  intros. apply mark_ready_moves.
Qed.

(** Taking logs out of the map before moving them. *)
Lemma moves_after_set self held order self' added added' :
  moves (set_logs self (ready_logs self) held order) self' added ->
  core <$> (logs_of held ++ added) ≡ₚ core <$> (logs_of (held_logs self) ++ added') ->
  moves self self' added'.
Proof.
  intros (out & held' & order' & -> & Hp) Ha. exists out, held', order'.
  split; [by destruct self|]. cbn in Hp. by rewrite Hp.
Qed.

(** ** The held logs *)

Definition stale (self : t) : gset string := dom (held_logs self) ∖ list_to_set (held_logs_order self).

(** The order lists held keys once; the held keys stay within the limit; and
    fewer than the limit are missing from the order. *)
Record held_ok (self : t) : Prop := {
  order_nodup : NoDup (held_logs_order self);
  order_held k : k ∈ held_logs_order self -> k ∈ dom (held_logs self);
  held_bound : (size (held_logs self) <= lambda_durable_function_log_buffer_size self)%nat;
  stale_bound : (size (stale self) < lambda_durable_function_log_buffer_size self)%nat
}.

Lemma order_length self : held_ok self ->
  (length (held_logs_order self) <= lambda_durable_function_log_buffer_size self)%nat.
Proof.
  intros [Hnd Ho Hb _]. rewrite <- (size_list_to_set (C := gset string)) by done.
  etrans; [|exact Hb]. rewrite <- size_dom. apply subseteq_size. intros k Hk.
  apply elem_of_list_to_set in Hk. by apply Ho.
Qed.

(** What [evict] keeps: the parts of the state other than the logs. *)
Lemma set_logs_set_logs self r1 h1 o1 r2 h2 o2 :
  set_logs (set_logs self r1 h1 o1) r2 h2 o2 = set_logs self r2 h2 o2.
Proof. reflexivity. Qed.

Lemma push_all_ready_held self logs :
  held_logs (push_all_ready self logs) = held_logs self /\
  held_logs_order (push_all_ready self logs) = held_logs_order self /\
  lambda_durable_function_log_buffer_size (push_all_ready self logs)
    = lambda_durable_function_log_buffer_size self.
Proof.
  unfold push_all_ready. revert self. induction logs as [|log logs IH]; intros self; [done|].
  simpl. destruct (IH (push_ready self log)) as (-> & -> & ->).
  unfold push_ready. by destruct (log_to_string log).
Qed.

Lemma held_ok_ext self self' :
  held_logs self' = held_logs self -> held_logs_order self' = held_logs_order self ->
  lambda_durable_function_log_buffer_size self' = lambda_durable_function_log_buffer_size self ->
  held_ok self -> held_ok self'.
Proof.
  intros H1 H2 H3 [Hnd Ho Hb Hs]. constructor; unfold stale in *; rewrite ?H1, ?H2, ?H3; done.
Qed.

(** Removing a key from the map and from the front of the order. *)
Lemma held_ok_pop self oldest order logs :
  held_ok self -> held_logs_order self = oldest :: order -> held_logs self !! oldest = Some logs ->
  held_ok (set_logs self (ready_logs self) (delete oldest (held_logs self)) order).
Proof.
  intros [Hnd Ho Hb Hs] Horder Hl. rewrite Horder in *. apply NoDup_cons in Hnd as [Hni Hnd].
  constructor; unfold stale in *; cbn.
  - done.
  - intros k Hk. rewrite dom_delete, elem_of_difference, elem_of_singleton.
    split; [apply Ho; by right|]. by intros ->.
  - rewrite map_size_delete, Hl. lia.
  - eapply Nat.le_lt_trans; [|exact Hs]. apply subseteq_size. rewrite dom_delete_L, Horder. clear. set_solver.
Qed.

Lemma evict_spec fuel : forall self,
  held_ok self -> (length (held_logs_order self) < fuel)%nat ->
  exists self', evict fuel self = Some self' /\ moves self self' [] /\ held_ok self' /\
    (size (held_logs self') < lambda_durable_function_log_buffer_size self')%nat /\
    held_logs self' ⊆ held_logs self.
Proof using serializes.
  induction fuel as [|fuel IH]; intros self Hok Hf; [lia|]. cbn [evict].
  destruct (Nat.leb_spec (lambda_durable_function_log_buffer_size self) (size (held_logs self))) as [Hle|Hlt].
  2: { exists self. split_and!; auto using moves_refl. }
  destruct (held_logs_order self) as [|oldest order] eqn:Horder; cbn [pop_front].
  { exfalso. destruct Hok as [_ _ _ Hs]. unfold stale in Hs. rewrite Horder in Hs. cbn in Hs.
    rewrite difference_empty_L, size_dom in Hs. lia. }
  assert (oldest ∈ dom (held_logs self)) as [logs Hl]%elem_of_dom.
  { apply (order_held _ Hok). rewrite Horder. by left. }
  change (held_logs (set_logs self (ready_logs self) (held_logs self) order)) with (held_logs self).
  rewrite Hl. pose proof (held_ok_pop self oldest order logs Hok Horder Hl) as Hok1.
  set (self1 := set_logs self (ready_logs self) (delete oldest (held_logs self)) order) in *.
  match goal with |- context [evict fuel (push_all_ready ?x logs)] => change x with self1 end.
  destruct (push_all_ready_held self1 logs) as (Hh & Ho & Hs).
  destruct (IH (push_all_ready self1 logs)) as (self' & -> & Hm & Hok' & Hlt & Hsub).
  { by apply (held_ok_ext self1). }
  { rewrite Ho. cbn in *. lia. }
  exists self'. split; [done|]. split_and!; [|done|done|].
  - eapply moves_after_set with (added := logs ++ []).
    + eapply moves_trans; [apply push_all_ready_moves|exact Hm].
    + rewrite !app_nil_r. apply fmap_Permutation. rewrite (logs_of_delete _ _ _ Hl).
      apply Permutation_app_comm.
  - rewrite Hh in Hsub. etrans; [exact Hsub|]. cbn. apply delete_subseteq.
Qed.

Lemma hold_append self order rid log :
  moves self (set_logs self (ready_logs self)
    (<[rid := default [] (held_logs self !! rid) ++ [log]]> (held_logs self)) order) [log].
Proof.
  exists [], (<[rid := default [] (held_logs self !! rid) ++ [log]]> (held_logs self)), order.
  split; [by rewrite fmap_nil, app_nil_r|]. rewrite app_nil_l. apply fmap_Permutation, logs_of_append.
Qed.

(** A held key keeps the order; a new one enters it last. *)
Lemma held_ok_append self rid logs :
  held_ok self -> rid ∈ dom (held_logs self) ->
  held_ok (set_logs self (ready_logs self) (<[rid := logs]> (held_logs self)) (held_logs_order self)).
Proof.
  intros [Hnd Ho Hb Hs] Hin. assert (dom (<[rid := logs]> (held_logs self)) = dom (held_logs self)) as Hd.
  { rewrite dom_insert_L. apply subseteq_union_1_L. intros k ->%elem_of_singleton. exact Hin. }
  constructor; unfold stale in *; cbn; rewrite ?Hd; auto.
  by rewrite <- size_dom, Hd, size_dom.
Qed.

Lemma held_ok_new self rid logs :
  held_ok self -> rid ∉ dom (held_logs self) ->
  (size (held_logs self) < lambda_durable_function_log_buffer_size self)%nat ->
  held_ok (set_logs self (ready_logs self) (<[rid := logs]> (held_logs self))
             (push_back (held_logs_order self) rid)).
Proof.
  intros [Hnd Ho Hb Hs] Hni Hlt. unfold push_back. constructor; unfold stale in *; cbn.
  - apply NoDup_app. split_and!; [done| |apply NoDup_singleton].
    intros k Hk ->%list_elem_of_singleton. by apply Hni, Ho.
  - intros k. rewrite elem_of_app, list_elem_of_singleton, dom_insert, elem_of_union, elem_of_singleton.
    intros [Hk| ->]; [right; by apply Ho|by left].
  - rewrite map_size_insert_None by (by apply not_elem_of_dom). lia.
  - eapply Nat.le_lt_trans; [|exact Hs]. apply subseteq_size.
    rewrite dom_insert_L, list_to_set_app_L. clear. set_solver.
Qed.

Lemma hold_log_spec fuel self rid log :
  held_ok self -> (lambda_durable_function_log_buffer_size self < fuel)%nat ->
  exists self', hold_log fuel self rid log = Some self' /\ moves self self' [log] /\ held_ok self'.
Proof using serializes.
  intros Hok Hf. pose proof (stale_bound _ Hok) as Hb. unfold hold_log.
  destruct (Nat.eqb_spec (lambda_durable_function_log_buffer_size self) 0) as [H0|_]; [lia|].
  destruct (held_logs self !! rid) as [l|] eqn:Hl.
  - cbn [mbind option_bind]. eexists. split; [reflexivity|]. split; [apply hold_append|].
    apply held_ok_append; [done|]. apply elem_of_dom. by eexists.
  - destruct (evict_spec fuel self Hok) as (self1 & -> & Hm & Hok1 & Hlt & Hsub).
    { pose proof (order_length _ Hok). lia. }
    cbn [mbind option_bind]. eexists. split; [reflexivity|].
    assert (held_logs self1 !! rid = None) as Hn.
    { destruct (held_logs self1 !! rid) eqn:E; [|done].
      rewrite (lookup_weaken _ _ _ _ E Hsub) in Hl. done. }
    split.
    + eapply (moves_trans _ self1 _ [] [log]); [exact Hm|].
      exact (hold_append self1 (push_back (held_logs_order self1) rid) rid log).
    + apply (held_ok_new self1); [done|by apply not_elem_of_dom|done].
Qed.

Lemma moves_fields self self' added : moves self self' added ->
  is_durable_function self' = is_durable_function self /\
  lambda_durable_function_log_buffer_size self' = lambda_durable_function_log_buffer_size self /\
  logs_enabled self' = logs_enabled self /\ rules self' = rules self /\
  orphan_logs self' = orphan_logs self /\ ic_request_id self' = ic_request_id self /\
  is_managed_instance_mode self' = is_managed_instance_mode self.
Proof. by intros (out & held & order & -> & _). Qed.

Lemma push_ready_ok self log : held_ok self -> held_ok (push_ready self log).
Proof. unfold push_ready. destruct (log_to_string log); [|done]. by apply held_ok_ext. Qed.

Lemma queue_log_spec fuel self log :
  held_ok self -> (lambda_durable_function_log_buffer_size self < fuel)%nat ->
  exists self', queue_log_after_rules fuel self log = Some self' /\ moves self self' [log] /\ held_ok self'.
Proof using serializes.
  intros Hok Hf. unfold queue_log_after_rules.
  assert (exists self', Some (push_ready self log) = Some self' /\ moves self self' [log] /\ held_ok self') as Hready.
  { eexists. split; [reflexivity|]. auto using push_ready_moves, push_ready_ok. }
  destruct (durable_execution_id _); [exact Hready|].
  destruct (_ =? 0)%nat; [exact Hready|].
  destruct (is_durable_function self) as [[]|].
  - destruct (log_request_id log) as [rid|]; [|exact Hready]. cbn [mbind option_bind].
    destruct (durable_context_map self !! rid) as [ctx|]; [|by apply hold_log_spec].
    eexists. split; [reflexivity|]. split; [apply mark_ready_moves|]. by apply push_ready_ok.
  - exact Hready.
  - destruct (log_request_id log) as [rid|]; [|exact Hready]. by apply hold_log_spec.
Qed.

(** The log as it leaves the rules, if it does. *)
Definition filtered (self : t) (log : IntakeLog) : list IntakeLog :=
  if logs_enabled self then
    match apply_rules is_match replace_all (rules self) (message (msg log)) with
    | (true, text) => [with_msg log (with_message (msg log) text)]
    | (false, _) => []
    end
  else [].

Lemma process_and_queue_spec fuel self log :
  held_ok self -> (lambda_durable_function_log_buffer_size self < fuel)%nat ->
  exists self', process_and_queue_log fuel self log = Some self' /\
    moves self self' (filtered self log) /\ held_ok self'.
Proof using serializes.
  intros Hok Hf. unfold process_and_queue_log, filtered.
  destruct (logs_enabled self); [|exists self; auto using moves_refl].
  destruct (apply_rules _ _ _ _) as [[] text]; [by apply queue_log_spec|].
  exists self; auto using moves_refl.
Qed.

Lemma queue_orphans_spec fuel orphans : forall self,
  held_ok self -> (lambda_durable_function_log_buffer_size self < fuel)%nat ->
  exists self', queue_orphans fuel self orphans = Some self' /\
    moves self self' (mjoin ((fun o => filtered self (set_log_request_id o (Some (ic_request_id self)))) <$> orphans))
    /\ held_ok self'.
Proof using serializes.
  induction orphans as [|o orphans IH]; intros self Hok Hf; [exists self; auto using moves_refl|].
  cbn [queue_orphans].
  destruct (process_and_queue_spec fuel self (set_log_request_id o (Some (ic_request_id self))) Hok Hf)
    as (self1 & -> & Hm & Hok1). cbn [mbind option_bind].
  destruct (moves_fields _ _ _ Hm) as (_ & Hsize & Hen & Hru & _ & Hrid & _).
  destruct (IH self1 Hok1 ltac:(lia)) as (self' & -> & Hm' & Hok'). exists self'.
  split; [done|]. split; [|done]. eapply moves_trans; [exact Hm|].
  revert Hm'. unfold filtered. by rewrite Hen, Hru, Hrid.
Qed.

(** ** The durable context *)
Lemma mark_all_ready_held self logs ctx :
  held_logs (mark_all_ready self logs ctx) = held_logs self /\
  held_logs_order (mark_all_ready self logs ctx) = held_logs_order self /\
  lambda_durable_function_log_buffer_size (mark_all_ready self logs ctx)
    = lambda_durable_function_log_buffer_size self.
Proof.
  unfold mark_all_ready. revert self. induction logs as [|log logs IH]; intros self; [done|].
  simpl. destruct (IH (set_durable_context_and_mark_ready self log ctx)) as (-> & -> & ->).
  unfold set_durable_context_and_mark_ready, push_ready. by destruct (log_to_string _).
Qed.

Lemma resolve_one_spec self rid logs :
  held_logs self !! rid = None ->
  moves self (resolve_one self (rid, logs)) logs /\
  held_logs_order (resolve_one self (rid, logs)) = held_logs_order self /\
  dom (held_logs (resolve_one self (rid, logs))) ⊆ dom (held_logs self) ∪ {[rid]}.
Proof using serializes.
  intros Hn. unfold resolve_one. destruct (durable_context_map self !! rid) as [ctx|].
  - destruct (mark_all_ready_held self logs ctx) as (-> & -> & _).
    split_and!; [apply mark_all_ready_moves|done|]. clear. set_solver.
  - split_and!; [|done|cbn; rewrite dom_insert; clear; set_solver].
    exists [], (<[rid := logs]> (held_logs self)), (held_logs_order self).
    split; [by rewrite fmap_nil, app_nil_r|]. apply fmap_Permutation.
    rewrite app_nil_l, logs_of_insert by done. apply Permutation_app_comm.
Qed.

Lemma resolve_all_spec entries : forall self,
  NoDup entries.*1 -> (forall k, k ∈ entries.*1 -> held_logs self !! k = None) ->
  let self' := foldl resolve_one self entries in
  moves self self' (mjoin (snd <$> entries)) /\ held_logs_order self' = held_logs_order self /\
  dom (held_logs self') ⊆ dom (held_logs self) ∪ list_to_set entries.*1.
Proof using serializes.
  induction entries as [|[rid logs] entries IH]; intros self Hnd Hfresh self'.
  { split_and!; [apply moves_refl|done|]. unfold self'. cbn. clear. set_solver. }
  rewrite fmap_cons in Hnd, Hfresh. apply NoDup_cons in Hnd as [Hni Hnd].
  destruct (resolve_one_spec self rid logs) as (Hm & Ho & Hd); [apply Hfresh; by left|].
  destruct (IH (resolve_one self (rid, logs))) as (Hm' & Ho' & Hd'); [done| |].
  { intros k Hk. destruct (held_logs (resolve_one self (rid, logs)) !! k) eqn:E; [|done].
    assert (k ∈ dom (held_logs self) ∪ {[rid]}) as Hin by (apply Hd, elem_of_dom; by eexists).
    apply elem_of_union in Hin as [[l' Hin]%elem_of_dom| ->%elem_of_singleton]; [|done].
    rewrite (Hfresh k) in Hin by (by right). done. }
  split_and!; [exact (moves_trans _ _ _ _ _ Hm Hm')|unfold self'; cbn [foldl]; congruence|].
  unfold self'. cbn [foldl]. etrans; [exact Hd'|]. revert Hd. rewrite fmap_cons, list_to_set_cons.
  clear. cbn [fst]. set_solver.
Qed.

Lemma foldl_push_all_held (entries : list (string * list IntakeLog)) : forall self,
  let self' := foldl (fun self entry => push_all_ready self entry.2) self entries in
  held_logs self' = held_logs self /\ held_logs_order self' = held_logs_order self.
Proof.
  induction entries as [|[k l] entries IH]; intros self; [done|]. simpl.
  destruct (IH (push_all_ready self l)) as [-> ->]. by destruct (push_all_ready_held self l) as (-> & -> & _).
Qed.

Lemma drain_held_moves self :
  let entries := map_to_list (held_logs self) in
  moves self (foldl (fun self entry => push_all_ready self entry.2)
                (set_logs self (ready_logs self) ∅ []) entries) [].
Proof using serializes.
  intros entries. eapply moves_after_set with (added := logs_of (held_logs self)).
  - unfold logs_of. apply (foldl_moves (fun self entry => push_all_ready self entry.2)).
    intros. apply push_all_ready_moves.
  - by rewrite logs_of_empty, app_nil_r.
Qed.

Lemma held_ok_empty self :
  held_logs self = ∅ -> held_logs_order self = [] ->
  (0 < lambda_durable_function_log_buffer_size self)%nat -> held_ok self.
Proof.
  intros Hh Ho Hb. constructor; unfold stale; rewrite ?Hh, ?Ho.
  - constructor.
  - intros k Hk. by apply not_elem_of_nil in Hk.
  - rewrite map_size_empty. lia.
  - rewrite list_to_set_nil, difference_empty_L, dom_empty_L, size_empty. lia.
Qed.

Lemma resolve_spec self is_durable :
  held_ok self ->
  (is_durable = true -> (size (held_logs self) < lambda_durable_function_log_buffer_size self)%nat) ->
  let self' := resolve_held_logs_on_durable_function_set self is_durable in
  moves self self' [] /\ held_ok self'.
Proof using serializes.
  intros Hok Hd. pose proof (stale_bound _ Hok) as Hb.
  unfold resolve_held_logs_on_durable_function_set. destruct is_durable.
  - destruct (resolve_all_spec (map_to_list (held_logs self)) (set_logs self (ready_logs self) ∅ []))
      as (Hm & Ho & Hdom); [apply NoDup_fst_map_to_list|intros; apply lookup_empty|].
    set (self' := foldl resolve_one _ _) in *. split.
    { eapply moves_after_set; [exact Hm|]. by rewrite logs_of_empty, app_nil_r. }
    cbn in Ho. destruct (moves_fields _ _ _ Hm) as (_ & Hs & _). cbn in Hs.
    assert (size (dom (held_logs self')) <= size (held_logs self))%nat as Hsize.
    { rewrite <- size_dom. apply subseteq_size. etrans; [exact Hdom|]. cbn.
      rewrite dom_empty_L, union_empty_l_L. intros k Hk%elem_of_list_to_set.
      apply list_elem_of_fmap in Hk as ([k' l] & -> & Hk). apply elem_of_map_to_list in Hk.
      apply elem_of_dom. by eexists. }
    specialize (Hd eq_refl). constructor; unfold stale; rewrite ?Ho, ?Hs.
    + constructor.
    + intros k Hk. by apply not_elem_of_nil in Hk.
    + rewrite size_dom in Hsize. lia.
    + cbn. rewrite difference_empty_L. lia.
  - split; [apply drain_held_moves|].
    destruct (foldl_push_all_held (map_to_list (held_logs self)) (set_logs self (ready_logs self) ∅ [])) as [Hh Ho].
    destruct (moves_fields _ _ _ (drain_held_moves self)) as (_ & Hs & _).
    apply held_ok_empty; [exact Hh|exact Ho|]. cbn in Hs. rewrite Hs. lia.
Qed.

Lemma held_ok_remove self rid :
  held_ok self ->
  held_ok (set_logs self (ready_logs self) (delete rid (held_logs self))
             (filter (fun r => r <> rid) (held_logs_order self))).
Proof.
  intros [Hnd Ho Hb Hs]. constructor; unfold stale in *; cbn.
  - by apply NoDup_filter.
  - intros k [Hne Hk]%list_elem_of_filter. rewrite dom_delete, elem_of_difference, elem_of_singleton.
    split; [by apply Ho|done].
  - rewrite map_size_delete. destruct (held_logs self !! rid); cbn; lia.
  - eapply Nat.le_lt_trans; [|exact Hs]. apply subseteq_size. rewrite dom_delete_L.
    intros k. rewrite !elem_of_difference, !elem_of_list_to_set, list_elem_of_filter, elem_of_singleton.
    clear. tauto.
Qed.

(** ** The agent: [logs/processor.rs] and [logs/agent.rs] *)

Definition process_durable_context_update (self : t) (update : DurableContextUpdate) : list string * t :=
  take_ready_logs
    (insert_to_durable_context_map self (upd_request_id update) (upd_execution_id update)
       (upd_execution_name update) (upd_first_invocation update) (upd_execution_status update)).

Definition LogsProcessor_drain_held_logs (self : t) : list string * t :=
  take_ready_logs (drain_held_logs self).

(** What the agent takes from its two channels. *)
Inductive Step :=
| SEvent (event : TelemetryEvent Value)
| SUpdate (update : DurableContextUpdate).

Definition step (fuel : nat) (self : t) (s : Step) : option (list string * t) :=
  match s with
  | SEvent event => process fuel self event
  | SUpdate update => Some (process_durable_context_update self update)
  end.

(** The logs inserted into the aggregator, in order. *)
Fixpoint run (fuel : nat) (self : t) (steps : list Step) : option (list string * t) :=
  match steps with
  | [] => Some ([], self)
  | s :: steps =>
      '(batch, self) ← step fuel self s;
      '(batches, self) ← run fuel self steps;
      Some (batch ++ batches, self)
  end.

(** [spin]: events and updates in any interleaving until the cancellation, then
    the events still to come until the channel closes or times out, then the
    updates pending, then the held logs and the tombstone. *)
Definition spin (fuel : nat) (self : t) (steps : list Step) (late : list (TelemetryEvent Value))
    (updates : list DurableContextUpdate) : option (list string * t) :=
  '(inserted, self) ← run fuel self (steps ++ (SEvent <$> late) ++ (SUpdate <$> updates));
  let '(batch, self) := LogsProcessor_drain_held_logs self in
  Some (inserted ++ batch, send_event self Tombstone).

(** *** What the events say *)

(** The request and the duration that the messages after an event refer to. *)
Definition next_context (context : string * f64) (event : TelemetryEvent Value) : string * f64 :=
  match record event with
  | PlatformStart rid _ => (rid, context.2)
  | PlatformRuntimeDone _ _ _ metrics =>
      (EmptyString, match metrics with Some metrics => rd_duration_ms metrics | None => context.2 end)
  | PlatformReport _ _ _ (ManagedInstance metrics) _ => (EmptyString, mi_duration_ms metrics)
  | _ => context
  end.

(** The log of an event, which an on-demand function without a request keeps as an orphan. *)
Definition event_logs (self : t) (event : TelemetryEvent Value) : list IntakeLog :=
  match make_log self event with
  | (Some log, _) => [log]
  | (None, self') => drop (length (orphan_logs self)) (orphan_logs self')
  end.

(** The logs of a sequence of events that pass the rules: each event is read on its own, with
    only the request and the duration carried along. *)
Fixpoint logs_of_events (self : t) (context : string * f64) (events : list (TelemetryEvent Value)) :
    list IntakeLog :=
  match events with
  | [] => []
  | event :: events =>
      mjoin (filtered self <$> event_logs (set_context self context.1 context.2) event)
      ++ logs_of_events self (next_context context event) events
  end.

Definition events_of (steps : list Step) : list (TelemetryEvent Value) :=
  omap (fun s => match s with SEvent event => Some event | SUpdate _ => None end) steps.

(** A log is sent as it was read, but for the durable fields, and for the request of a log
    that came without one. *)
Definition sent_for (sent log : IntakeLog) : Prop :=
  core sent = core log \/
  log_request_id log = None /\ exists rid, core sent = core (set_log_request_id log rid).

(** The logs of [sent] are those of [logs], each once. *)
Definition delivers (sent logs : list IntakeLog) : Prop :=
  exists logs', logs' ≡ₚ logs /\ Forall2 sent_for sent logs'.

(** The logs that wait for a request and pass the rules. *)
Definition waiting (self : t) : list IntakeLog := mjoin (filtered self <$> orphan_logs self).

(** *** What the processor takes in *)

(** The logs an event adds to those to be sent: its own and the orphans it
    releases, as they leave the rules. *)
Definition accepted_logs (self : t) (event : TelemetryEvent Value) : list IntakeLog :=
  match make_log self event with
  | (Some log, self1) =>
      filtered self1 log ++
      mjoin ((fun o => filtered self1 (set_log_request_id o (Some (ic_request_id self1)))) <$> orphan_logs self1)
  | (None, _) => []
  end.

(** What the messages and the rules depend on. *)
Definition producer (self : t) :=
  (function_arn self, lp_service self, lp_tags self, (rules self, logs_enabled self, is_managed_instance_mode self)).
Definition context (self : t) : string * f64 := (ic_request_id self, ic_runtime_duration_ms self).

Definition keeps (self self' : t) : Prop :=
  producer self' = producer self /\ context self' = context self /\ orphan_logs self' = orphan_logs self.

Lemma keeps_trans self1 self2 self3 : keeps self1 self2 -> keeps self2 self3 -> keeps self1 self3.
Proof. unfold keeps. intros (? & ? & ?) (? & ? & ?). split_and!; congruence. Qed.

Lemma moves_keeps self self' added : moves self self' added -> keeps self self'.
Proof. by intros (out & held & order & -> & _). Qed.

Lemma foldl_keeps_logs {A} (f : t -> A -> t) xs : (forall self x, keeps self (f self x)) -> forall self, keeps self (foldl f self xs).
Proof.
  intros Hf. induction xs as [|x xs IH]; intros self; [done|]. cbn. eapply keeps_trans; [apply Hf|apply IH].
Qed.

Lemma push_ready_keeps self log : keeps self (push_ready self log).
Proof. unfold push_ready. by destruct (log_to_string log). Qed.

Lemma mark_all_ready_keeps self logs ctx : keeps self (mark_all_ready self logs ctx).
Proof. apply foldl_keeps_logs. intros self' log. apply push_ready_keeps. Qed.

Lemma resolve_keeps self is_durable : keeps self (resolve_held_logs_on_durable_function_set self is_durable).
Proof.
  unfold resolve_held_logs_on_durable_function_set. set (self1 := set_logs _ _ _ _).
  apply (keeps_trans _ self1); [done|]. destruct is_durable; apply foldl_keeps_logs.
  - intros self' [rid logs]. cbn. destruct (durable_context_map self' !! rid); [apply mark_all_ready_keeps|done].
  - intros self' entry. apply foldl_keeps_logs, push_ready_keeps.
Qed.

Lemma insert_context_keeps self rid exec_id exec_name first exec_status :
  keeps self (insert_to_durable_context_map self rid exec_id exec_name first exec_status).
Proof.
  unfold insert_to_durable_context_map. destruct (durable_context_map self !! rid); [done|].
  match goal with |- context [let '(_, _) := ?p in _] => destruct p as [contexts order] end.
  set (self1 := set_durable _ _ _ _). apply (keeps_trans _ self1); [done|]. clearbody self1.
  unfold drain_held_logs_for_request_id. destruct (held_logs self1 !! rid); [|done].
  set (self2 := set_logs _ _ _ _). apply (keeps_trans _ self2); [done|].
  destruct (durable_context_map self2 !! rid); [apply mark_all_ready_keeps|done].
Qed.

(** A message depends on nothing else, and only moves the context on. *)
Lemma get_message_reads self self0 event :
  producer self = producer self0 -> context self = context self0 ->
  (get_message self event).1 = (get_message self0 event).1 /\
  producer (get_message self event).2 = producer self /\
  context (get_message self event).2 = next_context (context self) event /\
  orphan_logs (get_message self event).2 = orphan_logs self.
Proof.
  intros Hp Hc. unfold get_message, next_context. unfold producer, context in Hp, Hc |- *.
  injection Hp as Harn Hsv Htg Hru Hen Hmg. injection Hc as Hrid Hd.
  destruct (record event); try done.
  - unfold function_message. destruct (function_parts v) as [[rid [text|]] dctx]; [|done].
    unfold make_message. destruct (is_oom_error text); cbn; by rewrite Harn.
  - unfold extension_message. destruct (is_http_library_record v); [done|].
    unfold make_message. destruct v; try done; destruct (is_oom_error _); cbn; by rewrite Harn.
  - unfold init_start_message. cbn [fst snd]. set (self1 := set_durable _ _ _ _). set (self2 := set_durable _ _ _ _).
    destruct (resolve_keeps self1 (contains "DurableFunction" (default "?"%string runtime_version))) as (Hp1 & Hc1 & Ho1).
    destruct (resolve_keeps self2 (contains "DurableFunction" (default "?"%string runtime_version))) as (Hp2 & _ & _).
    unfold producer in Hp1, Hp2. unfold context in Hc1. rewrite Ho1, Hp1, Hc1. unfold make_message.
    injection Hp1 as -> _ _ _ _ _. injection Hp2 as -> _ _ _ _ _. cbn. by rewrite Harn.
  - unfold start_message, make_message. cbn. by rewrite Harn.
  - unfold runtime_done_message, make_message. cbn. rewrite Hd. destruct metrics as [m|], status0; cbn; by rewrite Harn.
  - unfold report_message, make_message. cbn. destruct metrics as [m|m].
    + rewrite Hd. destruct (on_demand_report _ _ _ _ _). cbn. by rewrite Harn, Hd.
    + destruct (managed_report _ _ _ _). cbn. by rewrite Harn.
Qed.

(** A log is made of its message, and becomes an orphan when it has no request. *)
Lemma get_intake_log_reads self self0 m :
  producer self = producer self0 -> context self = context self0 ->
  exists log, match get_intake_log self m with
    | (Some log', self') => log' = log /\ self' = self
    | (None, self') => log_request_id log = None /\ self' = set_orphans self (orphan_logs self ++ [log])
    end /\
    match get_intake_log self0 m with
    | (Some log', self') => log' = log /\ self' = self0
    | (None, self') => self' = set_orphans self0 (orphan_logs self0 ++ [log])
    end.
Proof.
  intros Hp Hc. unfold producer, context in Hp, Hc. injection Hp as Harn Hsv Htg Hru Hen Hmg. injection Hc as Hrid Hd.
  unfold get_intake_log. rewrite Harn, Hsv, Htg, Hmg, Hrid.
  set (rid := match request_id (lambda m) with Some _ => _ | None => _ end).
  set (m' := with_lambda m _). set (log := match from_str (message m') with Some _ => _ | None => _ end).
  assert (log_request_id log = rid) as Hlog.
  { unfold log. destruct (from_str _) as [[]|]; try reflexivity.
    by destruct (extract_tags_and_get_message _ _ _) as [[? ?] ?]. }
  exists log. clearbody log. destruct rid; [done|]. by destruct (is_managed_instance_mode self0).
Qed.

Lemma make_log_reads self self0 event :
  producer self = producer self0 -> context self = context self0 ->
  event_logs self event = event_logs self0 event /\
  producer (make_log self event).2 = producer self /\
  context (make_log self event).2 = next_context (context self) event /\
  match make_log self event with
  | (Some log, self') => event_logs self event = [log] /\ orphan_logs self' = orphan_logs self
  | (None, self') => orphan_logs self' = orphan_logs self ++ event_logs self event /\
      Forall (fun log => log_request_id log = None) (event_logs self event)
  end.
Proof.
  intros Hp Hc. destruct (get_message_reads self self0 event Hp Hc) as (Hm & Hp1 & Hc1 & Ho1).
  destruct (get_message_reads self0 self event (eq_sym Hp) (eq_sym Hc)) as (_ & Hp2 & Hc2 & Ho2).
  unfold event_logs, make_log. destruct (get_message self event) as [om self1].
  destruct (get_message self0 event) as [om' self2]. cbn [fst snd] in *. subst om'.
  destruct om as [m|]; [|by rewrite Ho1, Ho2, !drop_all, app_nil_r].
  destruct (get_intake_log_reads self1 self2 m) as (log & Hl1 & Hl2); [congruence|congruence|].
  destruct (get_intake_log_reads self2 self1 m) as (log' & Hl1' & Hl2'); [congruence|congruence|].
  destruct (get_intake_log self1 m) as [[l1|] self1'], (get_intake_log self2 m) as [[l2|] self2'].
  - destruct Hl1 as [-> ->], Hl2 as [-> ->]. by split_and!.
  - destruct Hl1 as [-> ->], Hl1' as [Hn Hs], Hl2' as [<- _]. subst self2'. cbn. rewrite Ho2, drop_app_length. done.
  - destruct Hl1 as [Hn ->], Hl2 as [-> ->]. cbn. rewrite Ho1, drop_app_length. by repeat constructor.
  - destruct Hl1 as [Hn ->]. subst self2'. cbn. rewrite Ho1, Ho2, !drop_app_length. by repeat constructor.
Qed.

(** ** Every log is accounted for *)
Lemma filtered_reads self self0 log : producer self = producer self0 -> filtered self log = filtered self0 log.
Proof.
  unfold producer. intros Hp. injection Hp as _ _ _ Hru Hen _. unfold filtered. by rewrite Hru, Hen.
Qed.

Lemma filtered_request self log rid :
  filtered self (set_log_request_id log rid) = (fun l => set_log_request_id l rid) <$> filtered self log.
Proof. unfold filtered. destruct (logs_enabled self); [|done]. cbn. by destruct (apply_rules _ _ _ _) as [[] text]. Qed.

Lemma filtered_orphan self log : log_request_id log = None -> Forall (fun l => log_request_id l = None) (filtered self log).
Proof.
  intros Hn. unfold filtered. destruct (logs_enabled self); [|done].
  destruct (apply_rules _ _ _ _) as [[] text]; by repeat constructor.
Qed.

Lemma sent_for_refl l : Forall2 sent_for l l.
Proof. induction l; constructor; [by left|done]. Qed.

(** Orphans leave with the request of the event that releases them. *)
Lemma orphans_sent self rid orphans :
  Forall (fun log => log_request_id log = None) orphans ->
  Forall2 sent_for (mjoin ((fun o => filtered self (set_log_request_id o (Some rid))) <$> orphans))
    (mjoin (filtered self <$> orphans)).
Proof.
  induction 1 as [|o orphans Ho _ IH]; cbn; [constructor|]. apply Forall2_app; [|exact IH].
  rewrite filtered_request. pose proof (filtered_orphan self o Ho) as Hf. clear IH.
  induction (filtered self o) as [|l ls IH]; [constructor|]. apply Forall_cons in Hf as [Hl Hf].
  constructor; [|by apply IH]. right. eauto.
Qed.

Lemma delivers_app sent1 logs1 sent2 logs2 :
  delivers sent1 logs1 -> delivers sent2 logs2 -> delivers (sent1 ++ sent2) (logs1 ++ logs2).
Proof.
  intros (l1 & Hp1 & Hf1) (l2 & Hp2 & Hf2). exists (l1 ++ l2). split; [by apply Permutation_app|by apply Forall2_app].
Qed.

Lemma delivers_perm sent logs logs' : delivers sent logs -> logs ≡ₚ logs' -> delivers sent logs'.
Proof. intros (l & Hp & Hf) Hq. exists l. split; [by etrans|done]. Qed.

Lemma sent_for_core sent sent' log : core sent = core sent' -> sent_for sent' log -> sent_for sent log.
Proof. unfold sent_for. by intros ->. Qed.

Lemma delivers_core sent sent' logs : core <$> sent ≡ₚ core <$> sent' -> delivers sent' logs -> delivers sent logs.
Proof.
  intros Hp (l & Hl & Hf). apply Permutation_map_inv in Hp as (sent2 & Hc & Hs).
  destruct (Permutation_Forall2 Hs Hf) as (l2 & Hl2 & Hf2).
  exists l2. split; [by rewrite <- Hl2|]. clear Hl2 Hs Hf Hl. revert sent Hc.
  induction Hf2 as [|x y xs ys Hxy _ IH]; intros [|z zs] Hc; try discriminate Hc; [constructor|].
  constructor; [|by apply IH, (f_equal tail Hc)].
  eapply sent_for_core; [|exact Hxy]. apply (inj Some). exact (f_equal head Hc).
Qed.

Lemma delivers_refl l : delivers l l.
Proof. exists l. split; [done|apply sent_for_refl]. Qed.

Lemma set_request_core log rid log' rid' :
  core log = core (set_log_request_id log' rid) ->
  core (set_log_request_id log rid') = core (set_log_request_id log' rid').
Proof.
  intros Hc. change (core (set_log_request_id log rid')) with (set_log_request_id (core log) rid').
  by rewrite Hc.
Qed.

Lemma sent_for_trans a b c : sent_for a b -> sent_for b c -> sent_for a c.
Proof.
  intros [Hab|[Hb (r & Hab)]] [Hbc|[Hc (r' & Hbc)]].
  - left. congruence.
  - right. split; [done|]. exists r'. congruence.
  - right. split; [|exists r; rewrite Hab].
    + change (log_request_id (core c) = None). by rewrite <- Hbc.
    + change (set_log_request_id (core b) r = set_log_request_id (core c) r). by rewrite Hbc.
  - right. split; [done|]. exists r. rewrite Hab. by eapply set_request_core.
Qed.

Lemma delivers_trans l1 l2 l3 : delivers l1 l2 -> delivers l2 l3 -> delivers l1 l3.
Proof.
  intros (m2 & Hp2 & Hf1) (m3 & Hp3 & Hf2). symmetry in Hp2.
  destruct (Permutation_Forall2 Hp2 Hf2) as (m3' & Hp3' & Hf3).
  exists m3'. split; [by rewrite <- Hp3'|]. eapply Forall2_trans; [|exact Hf1|exact Hf3]. apply sent_for_trans.
Qed.

(** The orphans left after an event. *)
Definition orphans_after (self : t) (event : TelemetryEvent Value) : list IntakeLog :=
  match make_log self event with
  | (Some _, _) => []
  | (None, self') => orphan_logs self'
  end.

Lemma event_delivers self self0 event :
  producer self = producer self0 -> Forall (fun log => log_request_id log = None) (orphan_logs self) ->
  delivers (accepted_logs self event ++ mjoin (filtered self <$> orphans_after self event))
    (waiting self ++ mjoin (filtered self0 <$> event_logs (set_context self0 (context self).1 (context self).2) event)) /\
  Forall (fun log => log_request_id log = None) (orphans_after self event).
Proof.
  intros Hp Ho. set (s0 := set_context self0 _ _).
  destruct (make_log_reads self s0 event) as (<- & Hp1 & _ & Hm); [done|by unfold context|].
  assert (filtered self0 <$> event_logs self event = filtered self <$> event_logs self event) as ->
    by (apply list_fmap_ext; intros; by apply filtered_reads).
  unfold accepted_logs, orphans_after, waiting.
  destruct (make_log self event) as [[log|] self1]; cbn [fst snd] in *; destruct Hm as [He Ho1].
  - rewrite He, Ho1. split; [|constructor]. cbn. rewrite !app_nil_r. rewrite (filtered_reads self1 self log Hp1).
    eapply delivers_perm; [|apply Permutation_app_comm]. apply delivers_app; [apply delivers_refl|].
    assert (filtered self <$> orphan_logs self = filtered self1 <$> orphan_logs self) as ->
      by (apply list_fmap_ext; intros; symmetry; by apply filtered_reads).
    eexists. split; [reflexivity|by apply orphans_sent].
  - rewrite He, fmap_app, join_app. cbn [app]. split; [apply delivers_refl|by apply Forall_app].
Qed.

(** As [moves], for steps that change other parts of the state as well. *)
Definition flows (self self' : t) (added : list IntakeLog) : Prop :=
  lambda_durable_function_log_buffer_size self' = lambda_durable_function_log_buffer_size self /\
  exists out, ready_logs self' = ready_logs self ++ (text_of <$> out) /\
    core <$> (out ++ logs_of (held_logs self')) ≡ₚ core <$> (logs_of (held_logs self) ++ added).

Lemma moves_flows self self' added : moves self self' added -> flows self self' added.
Proof. intros (out & held & order & -> & Hp). split; [done|]. by exists out. Qed.

Lemma flows_trans self1 self2 self3 added1 added2 :
  flows self1 self2 added1 -> flows self2 self3 added2 -> flows self1 self3 (added1 ++ added2).
Proof.
  intros (Hb1 & out1 & Hr1 & Hp1) (Hb2 & out2 & Hr2 & Hp2). split; [congruence|].
  exists (out1 ++ out2). split; [by rewrite Hr2, Hr1, fmap_app, (assoc_L (++))|].
  rewrite <- (assoc_L (++)), fmap_app, Hp2, (assoc_L (++)), fmap_app, fmap_app, (assoc_L (++)).
  rewrite <- fmap_app, Hp1, <- fmap_app. done.
Qed.

(** Steps that leave the logs alone. *)
Lemma flows_same self self' :
  lambda_durable_function_log_buffer_size self' = lambda_durable_function_log_buffer_size self ->
  ready_logs self' = ready_logs self -> held_logs self' = held_logs self -> flows self self' [].
Proof.
  intros Hb Hr Hh. split; [done|]. exists []. by rewrite Hr, Hh, !app_nil_r.
Qed.

Definition is_init_start (event : TelemetryEvent Value) : bool :=
  match record event with PlatformInitStart _ _ _ _ => true | _ => false end.

Lemma init_start_spec self event rv rv_arn :
  held_ok self -> (size (held_logs self) < lambda_durable_function_log_buffer_size self)%nat ->
  let self' := snd (init_start_message self event rv rv_arn) in
  flows self self' [] /\ held_ok self'.
Proof using serializes.
  intros Hok Hlt. unfold init_start_message. cbn [snd]. set (is_durable := contains _ _).
  set (self1 := set_durable _ _ _ _).
  destruct (resolve_spec self1 is_durable) as [Hm Hok']; [by apply (held_ok_ext self)|by intros _|].
  split; [|done]. apply (flows_trans _ self1 _ [] []); [by apply flows_same|by apply moves_flows].
Qed.

Lemma get_message_spec self event :
  held_ok self ->
  (is_init_start event = true -> (size (held_logs self) < lambda_durable_function_log_buffer_size self)%nat) ->
  flows self (get_message self event).2 [] /\ held_ok (get_message self event).2.
Proof using serializes.
  intros Hok Hinit.
  assert (forall self', lambda_durable_function_log_buffer_size self' = lambda_durable_function_log_buffer_size self ->
    ready_logs self' = ready_logs self -> held_logs self' = held_logs self ->
    held_logs_order self' = held_logs_order self -> flows self self' [] /\ held_ok self') as Hsame.
  { intros self' Hb Hr Hh Ho. split; [by apply flows_same|by apply (held_ok_ext self)]. }
  unfold get_message. unfold is_init_start in Hinit.
  destruct (record event); try (by apply Hsame); [| | | |].
  - unfold function_message. destruct (function_parts v) as [[rid [text|]] dctx]; [|by apply Hsame].
    destruct (is_oom_error text); by apply Hsame.
  - unfold extension_message. destruct (is_http_library_record v); [by apply Hsame|].
    destruct v; try (by apply Hsame); (destruct (is_oom_error _); by apply Hsame).
  - by apply init_start_spec; auto.
  - unfold runtime_done_message. destruct metrics as [m|], status0; by apply Hsame.
  - unfold report_message. destruct metrics as [m|m].
    + destruct (on_demand_report _ _ _ _ _). by apply Hsame.
    + destruct (managed_report _ _ _ _). by apply Hsame.
Qed.

Lemma make_log_spec self event :
  held_ok self ->
  (is_init_start event = true -> (size (held_logs self) < lambda_durable_function_log_buffer_size self)%nat) ->
  flows self (make_log self event).2 [] /\ held_ok (make_log self event).2.
Proof using serializes.
  intros Hok Hinit. destruct (get_message_spec self event Hok Hinit) as [Hfl Hok1]. unfold make_log.
  destruct (get_message self event) as [[m|] self1]; [|done]. cbn [snd] in *.
  assert (flows self1 (get_intake_log self1 m).2 [] /\ held_ok (get_intake_log self1 m).2) as [Hfl2 Hok2].
  { unfold get_intake_log.
    match goal with |- context [match ?r with Some _ => _ | None => _ end] => destruct r end;
      [|destruct (is_managed_instance_mode self1)];
      (split; [by apply flows_same|by apply (held_ok_ext self1)]). }
  split; [exact (flows_trans _ _ _ [] [] Hfl Hfl2)|exact Hok2].
Qed.

Lemma process_spec fuel self event :
  held_ok self -> (lambda_durable_function_log_buffer_size self < fuel)%nat ->
  (is_init_start event = true -> (size (held_logs self) < lambda_durable_function_log_buffer_size self)%nat) ->
  exists batch self1, process fuel self event = Some (batch, set_logs self1 [] (held_logs self1) (held_logs_order self1)) /\
    batch = ready_logs self1 /\ flows self self1 (accepted_logs self event) /\ held_ok self1 /\
    producer self1 = producer self /\ context self1 = next_context (context self) event /\
    orphan_logs self1 = orphans_after self event.
Proof using serializes.
  intros Hok Hf Hinit. destruct (make_log_spec self event Hok Hinit) as [Hfl Hok1].
  destruct (make_log_reads self self event eq_refl eq_refl) as (_ & Hp1 & Hc1 & _).
  unfold process, accepted_logs, orphans_after. destruct (make_log self event) as [[log|] self1]; cbn [snd] in *.
  2: { eexists _, self1. split; [reflexivity|]. done. }
  destruct Hfl as [Hb Hfl]. destruct (process_and_queue_spec fuel self1 log Hok1) as (self2 & -> & Hm2 & Hok2); [lia|].
  destruct (moves_fields _ _ _ Hm2) as (_ & Hs & Hen & Hru & Hor & Hrid & _).
  cbn [mbind option_bind]. rewrite Hor.
  destruct (queue_orphans_spec fuel (orphan_logs self1) (set_orphans self2 [])) as (self3 & -> & Hm3 & Hok3).
  { by apply (held_ok_ext self2). }
  { cbn. lia. }
  cbn [mbind option_bind]. eexists _, self3. split; [reflexivity|]. split; [done|].
  destruct (moves_keeps _ _ _ Hm2) as (Hp2 & Hc2 & _), (moves_keeps _ _ _ Hm3) as (Hp3 & Hc3 & Ho3).
  split; [|split; [done|split_and!; [by rewrite Hp3, <- Hp1, <- Hp2|by rewrite Hc3, <- Hc1, <- Hc2|done]]].
  eapply (flows_trans _ self1 _ [] _); [by split|].
  eapply flows_trans; [exact (moves_flows _ _ _ Hm2)|].
  eapply (flows_trans _ (set_orphans self2 []) _ [] _); [by apply flows_same|].
  apply moves_flows. revert Hm3. unfold filtered. cbn. by rewrite Hen, Hru, Hrid.
Qed.

Lemma update_spec self rid exec_id exec_name first exec_status :
  held_ok self ->
  let self' := insert_to_durable_context_map self rid exec_id exec_name first exec_status in
  flows self self' [] /\ held_ok self'.
Proof using serializes.
  intros Hok. unfold insert_to_durable_context_map.
  destruct (durable_context_map self !! rid); [split; [by apply flows_same|done]|].
  match goal with |- context [let '(_, _) := ?p in _] => destruct p as [contexts order] end.
  set (ctx := {| execution_id := exec_id |}).
  set (self1 := set_durable self _ _ _). unfold drain_held_logs_for_request_id.
  change (held_logs self1) with (held_logs self).
  destruct (held_logs self !! rid) as [held|] eqn:Hl.
  2: { split; [by apply flows_same|by apply (held_ok_ext self)]. }
  set (self2 := set_logs self1 _ _ _).
  assert (durable_context_map self2 !! rid = Some ctx) as -> by apply lookup_insert_eq.
  assert (held_ok self2) as Hok2 by (apply (held_ok_remove self1), (held_ok_ext self); done).
  split.
  - apply (flows_trans _ self1 _ [] []); [by apply flows_same|]. apply moves_flows.
    eapply moves_after_set; [apply mark_all_ready_moves|]. rewrite app_nil_r.
    apply fmap_Permutation. change (held_logs self1) with (held_logs self).
    rewrite (logs_of_delete _ _ _ Hl). apply Permutation_app_comm.
  - destruct (mark_all_ready_held self2 held ctx) as (? & ? & ?). by apply (held_ok_ext self2).
Qed.

Definition no_init_start (steps : list Step) : Prop :=
  Forall (fun s => match s with SEvent event => is_init_start event = false | SUpdate _ => True end) steps.

(** What is kept between steps, with respect to the state whose rules and settings are used. *)
Record ok (self0 self : t) : Prop := {
  ok_held : held_ok self;
  ok_ready : ready_logs self = [];
  ok_size : lambda_durable_function_log_buffer_size self = lambda_durable_function_log_buffer_size self0;
  ok_producer : producer self = producer self0;
  ok_orphans : Forall (fun log => log_request_id log = None) (orphan_logs self);
}.

(** What the processor has taken in and not sent. *)
Definition pending (self : t) : list IntakeLog := logs_of (held_logs self) ++ waiting self.

Lemma flow_delivers self self1 out added logs :
  core <$> (out ++ logs_of (held_logs self1)) ≡ₚ core <$> (logs_of (held_logs self) ++ added) ->
  delivers (added ++ waiting self1) (waiting self ++ logs) ->
  delivers (out ++ pending self1) (pending self ++ logs).
Proof.
  intros Hp Hd. unfold pending. rewrite !(assoc_L (++)).
  apply (delivers_core _ ((logs_of (held_logs self) ++ added) ++ waiting self1)).
  { rewrite !fmap_app in *. by rewrite Hp. }
  rewrite <- !(assoc_L (++)). by apply delivers_app; [apply delivers_refl|].
Qed.

Definition step_events (s : Step) : list (TelemetryEvent Value) :=
  match s with SEvent event => [event] | SUpdate _ => [] end.

Lemma step_spec fuel self0 self s :
  ok self0 self -> (lambda_durable_function_log_buffer_size self0 < fuel)%nat ->
  (forall event, s = SEvent event -> is_init_start event = true ->
     (size (held_logs self) < lambda_durable_function_log_buffer_size self)%nat) ->
  exists out self', step fuel self s = Some (text_of <$> out, self') /\ ok self0 self' /\
    context self' = foldl next_context (context self) (step_events s) /\
    delivers (out ++ pending self') (pending self ++ logs_of_events self0 (context self) (step_events s)).
Proof using serializes.
  intros [Hok Hr Hsz Hpr Hor] Hf Hinit. destruct s as [event|update]; cbn [step step_events foldl logs_of_events].
  - destruct (process_spec fuel self event Hok) as
      (batch & self1 & -> & -> & (Hb & out & Hro & Hp) & Hok1 & Hp1 & Hc1 & Ho1); [lia|by eauto|].
    destruct (event_delivers self self0 event Hpr Hor) as [Hd Hnone].
    exists out. eexists. rewrite Hro, Hr. split; [reflexivity|]. split_and!.
    + split; cbn; [by apply (held_ok_ext self1)|done|congruence|by rewrite <- Hpr, <- Hp1|by rewrite Ho1].
    + exact Hc1.
    + rewrite app_nil_r. eapply flow_delivers; [exact Hp|].
      assert (waiting (set_logs self1 [] (held_logs self1) (held_logs_order self1)) =
        mjoin (filtered self <$> orphans_after self event)) as ->; [|exact Hd].
      unfold waiting. cbn [orphan_logs set_logs]. rewrite Ho1. f_equal. apply list_fmap_ext. intros.
      by apply filtered_reads.
  - unfold process_durable_context_update, take_ready_logs.
    set (self1 := insert_to_durable_context_map _ _ _ _ _ _).
    destruct (update_spec self (upd_request_id update) (upd_execution_id update) (upd_execution_name update)
      (upd_first_invocation update) (upd_execution_status update) Hok) as [(Hb & out & Hro & Hp) Hok1].
    destruct (insert_context_keeps self (upd_request_id update) (upd_execution_id update) (upd_execution_name update)
      (upd_first_invocation update) (upd_execution_status update)) as (Hp1 & Hc1 & Ho1).
    fold self1 in Hb, Hro, Hp, Hok1, Hp1, Hc1, Ho1. exists out. eexists. rewrite Hro, Hr. split; [reflexivity|].
    split_and!.
    + split; cbn; [by apply (held_ok_ext self1)|done|congruence|by rewrite <- Hpr, <- Hp1|by rewrite Ho1].
    + exact Hc1.
    + eapply flow_delivers; [exact Hp|]. rewrite app_nil_r. cbn [app].
      assert (waiting (set_logs self1 [] (held_logs self1) (held_logs_order self1)) = waiting self) as ->;
        [|apply delivers_refl].
      unfold waiting. cbn [orphan_logs set_logs]. rewrite Ho1. f_equal. apply list_fmap_ext. intros.
      by apply filtered_reads.
Qed.

Lemma logs_of_events_app self0 ctx events events' :
  logs_of_events self0 ctx (events ++ events') =
  logs_of_events self0 ctx events ++ logs_of_events self0 (foldl next_context ctx events) events'.
Proof. revert ctx. induction events as [|e events IH]; intros ctx; [done|]. cbn. by rewrite IH, (assoc_L (++)). Qed.

Lemma events_of_cons s steps : events_of (s :: steps) = step_events s ++ events_of steps.
Proof. by destruct s. Qed.

(** Two parts of a run. *)
Lemma delivers_run out1 out2 self self1 self2 logs1 logs2 :
  delivers (out1 ++ pending self1) (pending self ++ logs1) ->
  delivers (out2 ++ pending self2) (pending self1 ++ logs2) ->
  delivers ((out1 ++ out2) ++ pending self2) (pending self ++ logs1 ++ logs2).
Proof.
  intros H1 H2. rewrite <- (assoc_L (++)). apply (delivers_trans _ (out1 ++ pending self1 ++ logs2)).
  - by apply delivers_app; [apply delivers_refl|].
  - rewrite !(assoc_L (++)). by apply delivers_app; [|apply delivers_refl].
Qed.

Lemma run_spec fuel self0 steps : forall self,
  ok self0 self -> (lambda_durable_function_log_buffer_size self0 < fuel)%nat -> no_init_start steps ->
  exists out self', run fuel self steps = Some (text_of <$> out, self') /\ ok self0 self' /\
    delivers (out ++ pending self') (pending self ++ logs_of_events self0 (context self) (events_of steps)).
Proof using serializes.
  induction steps as [|s steps IH]; intros self Hok Hf Hni.
  { exists [], self. split_and!; [done..|]. rewrite app_nil_r. apply delivers_refl. }
  apply Forall_cons in Hni as [Hs Hni].
  destruct (step_spec fuel self0 self s Hok Hf) as (out1 & self1 & Hst & Hok1 & Hc1 & Hd1).
  { intros event -> He. by rewrite He in Hs. }
  destruct (IH self1 Hok1 Hf Hni) as (out2 & self2 & Hru & Hok2 & Hd2).
  cbn [run]. rewrite Hst. cbn [mbind option_bind]. rewrite Hru. cbn [mbind option_bind].
  exists (out1 ++ out2), self2. rewrite fmap_app. split_and!; [done..|].
  rewrite events_of_cons, logs_of_events_app, <- Hc1. by eapply delivers_run.
Qed.

(** C30: no log is lost or sent twice. For every interleaving of telemetry events and durable
    context updates in which [PlatformInitStart] comes first if at all, and with a positive
    limit on held logs, the agent runs to its end. Each log that its events give and that
    passes the rules has then been inserted into the aggregator exactly once, or is one that
    came without a request and still waits for one; it is as the event gave it, but for the
    durable fields, and for the request that a log without one is given. No log is left held,
    and the tombstone is the last event sent. *)
Theorem logs_reach_aggregator_once fuel self s steps late updates :
  held_logs self = ∅ -> held_logs_order self = [] -> ready_logs self = [] -> orphan_logs self = [] ->
  (0 < lambda_durable_function_log_buffer_size self < fuel)%nat ->
  no_init_start (steps ++ (SEvent <$> late)) ->
  exists out self',
    spin fuel self (s :: steps) late updates = Some (text_of <$> out, self') /\
    delivers (out ++ waiting self') (logs_of_events self (context self) (events_of (s :: steps) ++ late)) /\
    held_logs self' = ∅ /\ last (event_bus self') = Some Tombstone.
Proof using serializes.
  intros Hh Ho Hr Horph Hb Hni.
  assert (ok self self) as Hok by (split; [by apply held_ok_empty; [..|lia]|done|done|done|by rewrite Horph]).
  destruct (step_spec fuel self self s Hok ltac:(lia)) as (out1 & self1 & Hst & Hok1 & Hc1 & Hd1).
  { intros _ _ _. rewrite Hh, map_size_empty. lia. }
  set (rest := steps ++ (SEvent <$> late) ++ (SUpdate <$> updates)).
  destruct (run_spec fuel self rest self1 Hok1 ltac:(lia)) as (out2 & self2 & Hru & [_ Hr2 _ _ _] & Hd2).
  { unfold rest. rewrite (assoc_L (++)). apply Forall_app. split; [done|]. apply Forall_fmap, Forall_true. done. }
  pose proof (delivers_run _ _ _ _ _ _ _ Hd1 Hd2) as Hd. rewrite Hc1, <- logs_of_events_app in Hd.
  assert (events_of (s :: steps) ++ late = step_events s ++ events_of rest) as ->.
  { rewrite events_of_cons, <- (assoc_L (++)). f_equal. unfold rest, events_of. rewrite !omap_app. f_equal.
    assert (forall l, omap (fun s => match s with SEvent event => Some event | SUpdate _ => None end) (SEvent <$> l) = l)
      as -> by (induction l as [|e l IHl]; cbn; [done|by rewrite IHl]).
    assert (forall l, omap (fun s => match s with SEvent event => Some event | SUpdate _ => None end) (SUpdate <$> l) = [])
      as -> by (induction l as [|u l IHl]; cbn; [done|by rewrite IHl]).
    by rewrite app_nil_r. }
  destruct (drain_held_moves self2) as (out3 & held & order & Hdr & Hp3).
  destruct (foldl_push_all_held (map_to_list (held_logs self2)) (set_logs self2 (ready_logs self2) ∅ [])) as [Hh3 _].
  rewrite Hdr in Hh3. cbn in Hh3. subst held.
  unfold spin. cbn [app run]. fold rest. rewrite Hst. cbn [mbind option_bind]. rewrite Hru. cbn [mbind option_bind].
  unfold LogsProcessor_drain_held_logs, drain_held_logs, take_ready_logs. rewrite Hdr.
  exists ((out1 ++ out2) ++ out3). eexists. split.
  { cbn [ready_logs set_logs]. rewrite Hr2, app_nil_l, !fmap_app. reflexivity. }
  split_and!; [|done|cbn; apply last_snoc].
  unfold pending in Hd. rewrite Hh, logs_of_empty, app_nil_l in Hd. unfold waiting in Hd at 2. rewrite Horph in Hd.
  cbn [fmap list_fmap mjoin list_join app] in Hd. rewrite (assoc_L (++)) in Hd.
  eapply delivers_core; [|exact Hd]. change (waiting _) with (waiting self2).
  rewrite logs_of_empty, !app_nil_r in Hp3. rewrite !fmap_app. by rewrite Hp3.
Qed.

(** ** A limit that wedges the processor *)

(** With nothing left in the order and the map at its limit, the loop never
    ends. *)
Lemma evict_stuck fuel : forall self,
  held_logs_order self = [] ->
  (lambda_durable_function_log_buffer_size self <= size (held_logs self))%nat ->
  evict fuel self = None.
Proof.
  induction fuel as [|fuel IH]; intros self Ho Hs; [done|]. cbn [evict].
  rewrite (proj2 (Nat.leb_le _ _) Hs), Ho. cbn [pop_front]. by apply IH.
Qed.

Lemma resolve_keeps_unknown entries : forall self,
  (forall k, k ∈ entries.*1 -> durable_context_map self !! k = None) ->
  foldl resolve_one self entries =
    set_logs self (ready_logs self) (list_to_map (reverse entries) ∪ held_logs self) (held_logs_order self).
Proof.
  induction entries as [|[k l] entries IH]; intros self Hn.
  { rewrite reverse_nil, list_to_map_nil, map_empty_union. by rewrite set_logs_id. }
  cbn [foldl]. unfold resolve_one at 2. rewrite Hn by (by left).
  rewrite IH by (intros k' Hk'; apply Hn; by right).
  rewrite reverse_cons, list_to_map_app, <- (assoc_L (∪)), list_to_map_cons, list_to_map_nil.
  rewrite insert_empty, <- insert_union_singleton_l. reflexivity.
Qed.

(** A durable function's [PlatformInitStart] can wedge log processing for
    good: when the held logs are at their limit and none of their requests has a
    durable context, the flag's arrival keeps them but forgets their order, and
    the next log of a new request loops for ever looking for a key to evict. *)
Theorem durable_init_start_wedges_hold_log fuel self rid log :
  (0 < lambda_durable_function_log_buffer_size self <= size (held_logs self))%nat ->
  (forall k, k ∈ dom (held_logs self) -> durable_context_map self !! k = None) ->
  held_logs self !! rid = None ->
  hold_log fuel (resolve_held_logs_on_durable_function_set self true) rid log = None.
Proof.
  intros Hb Hctx Hrid. unfold resolve_held_logs_on_durable_function_set.
  set (self0 := set_logs self (ready_logs self) ∅ []).
  rewrite (resolve_keeps_unknown (map_to_list (held_logs self)) self0).
  2: { intros k ([k' l] & -> & Hk)%list_elem_of_fmap. apply elem_of_map_to_list in Hk.
       apply Hctx, elem_of_dom. by eexists. }
  assert (list_to_map (reverse (map_to_list (held_logs self))) ∪ held_logs self0 = held_logs self) as ->.
  { change (held_logs self0) with (∅ : gmap string (list IntakeLog)). rewrite map_union_empty.
    etrans; [|apply list_to_map_to_list].
    apply list_to_map_proper; [rewrite reverse_Permutation; apply NoDup_fst_map_to_list|].
    by rewrite reverse_Permutation. }
  unfold hold_log. destruct (Nat.eqb_spec (lambda_durable_function_log_buffer_size self) 0) as [H0|_]; [lia|].
  cbn [lambda_durable_function_log_buffer_size set_logs self0 held_logs].
  destruct (Nat.eqb_spec (lambda_durable_function_log_buffer_size self) 0) as [H0|_]; [lia|].
  rewrite Hrid. rewrite evict_stuck; [done|done|cbn; lia].
Qed.

(** ** Logs between two invocations *)
Lemma push_ready_text self log :
  push_ready self log = set_logs self (ready_logs self ++ [text_of log]) (held_logs self) (held_logs_order self).
Proof using serializes.
  unfold push_ready, text_of. destruct (log_to_string log) eqn:Hs; [done|]. by apply serializes in Hs.
Qed.

Lemma queue_not_durable fuel self log :
  is_durable_function self = Some false -> queue_log_after_rules fuel self log = Some (push_ready self log).
Proof.
  intros Hd. unfold queue_log_after_rules. rewrite Hd.
  destruct (durable_execution_id _); [done|]. by destruct (_ =? 0)%nat.
Qed.

Lemma with_msg_id log : with_msg log (with_message (msg log) (message (msg log))) = log.
Proof. by destruct log as [[] ? ? ? ?]. Qed.

Lemma process_plain fuel self log :
  logs_enabled self = true -> rules self = None -> is_durable_function self = Some false ->
  process_and_queue_log fuel self log =
    Some (set_logs self (ready_logs self ++ [text_of log]) (held_logs self) (held_logs_order self)).
Proof using serializes.
  intros He Hr Hd. unfold process_and_queue_log. rewrite He, Hr. cbn [apply_rules].
  by rewrite with_msg_id, queue_not_durable, push_ready_text.
Qed.

(** A log written between the end of an invocation and its report is sent
    with an empty request id: the report is the first log with an id, so it
    releases the waiting logs, but the id they are given is that of the context,
    which the end of the invocation has cleared. *)
Theorem orphan_log_gets_empty_request_id fuel self event rid status error_type metrics spans orphan :
  logs_enabled self = true -> rules self = None -> is_durable_function self = Some false ->
  is_managed_instance_mode self = false ->
  record event = PlatformReport rid status error_type (OnDemand metrics) spans ->
  ic_request_id self = EmptyString -> orphan_logs self = [orphan] ->
  exists report self',
    process fuel self event =
      Some (ready_logs self ++ [text_of report; text_of (set_log_request_id orphan (Some EmptyString))], self') /\
    log_request_id report = Some rid /\ orphan_logs self' = [].
Proof using serializes.
  intros He Hr Hd Hm Hev Hrid Ho. unfold process, make_log, get_message. rewrite Hev.
  unfold report_message. destruct (on_demand_report _ _ _ _ _) as [st text].
  set (self1 := send_event self (Telemetry event)).
  unfold get_intake_log. set (m := make_message self1 event text (Some rid) st).
  change (request_id (lambda m)) with (Some rid). cbv beta zeta iota.
  match goal with |- context [process_and_queue_log fuel self1 ?l] => set (log := l) end.
  assert (log_request_id log = Some rid) as Hlog.
  { unfold log. destruct (from_str _) as [[]|]; try reflexivity.
    by destruct (extract_tags_and_get_message _ _ _) as [[? ?] ?]. }
  rewrite process_plain by done. cbn [mbind option_bind].
  change (orphan_logs (set_logs self1 _ _ _)) with (orphan_logs self). rewrite Ho. cbn [queue_orphans].
  rewrite process_plain by done. cbn [mbind option_bind].
  unfold take_ready_logs. cbn [ready_logs set_logs set_orphans ic_request_id self1 send_event].
  rewrite Hrid, <- (assoc_L (++)).
  exists log. eexists. split; [reflexivity|by split].
Qed.

End LambdaProcessor.

(** * Witnesses *)

Definition witness_to_string (log : IntakeLog) : option string :=
  Some (default "none" (log_request_id log) +:+ "|" +:+ message (msg log))%string.

Abbreviation sample := (new (fun _ : string => Some tt) "svc" "env:test" "arn" None true 1 false).

Definition function_event (rid text : string) : TelemetryEvent Value :=
  {| time := 0; record := Function (VObject [("requestId", VString rid); ("m", VString text)]%string) |}.

Definition init_event : TelemetryEvent Value :=
  {| time := 0; record := PlatformInitStart InitOnDemand Init (Some "python:3.13.DurableFunction.v1"%string) None |}.

Abbreviation sample_spin :=
  (spin (fun _ _ => true) (fun _ s _ => s) witness_to_string (fun _ => Some "x"%string)
     (fun _ => "v"%string) (fun _ => None)).

Lemma logs_reach_aggregator_once_witness :
  exists out self', sample_spin 5 sample
    [SEvent init_event; SEvent (function_event "a" "1"); SEvent (function_event "b" "2")]
    [function_event "b" "3"] [] =
      Some (text_of witness_to_string <$> out, self') /\ held_logs self' = ∅ /\
    length (out ++ waiting (fun _ _ => true) (fun _ s _ => s) self') = 4%nat.
Proof.
  destruct (logs_reach_aggregator_once (fun _ _ => true) (fun _ s _ => s) witness_to_string
    (fun _ => Some "x"%string) (fun _ => "v"%string) (fun _ => None) ltac:(discriminate) 5 sample
    (SEvent init_event) [SEvent (function_event "a" "1"); SEvent (function_event "b" "2")]
    [function_event "b" "3"] [])
    as (out & self' & Hs & Hp & Hh & _).
  - reflexivity.
  - reflexivity.
  - reflexivity.
  - reflexivity.
  - cbn. lia.
  - repeat (apply Forall_cons; split; [reflexivity|]). apply Forall_nil_2.
  - exists out, self'. split; [exact Hs|]. split; [exact Hh|].
    destruct Hp as (logs & Hp & Hf). rewrite (Forall2_length _ _ _ Hf), Hp. vm_compute. reflexivity.
Defined.

(** The state after one log held for request a. *)
Definition sample_held : @t unit :=
  match process (fun _ _ => true) (fun _ s _ => s) witness_to_string (fun _ => Some "x"%string)
          (fun _ => "v"%string) (fun _ => None) 5 sample (function_event "a" "1") with
  | Some (_, self) => self
  | None => sample
  end.

Definition sample_log : IntakeLog :=
  {| msg := Message_new "m" (Some "b"%string) "arn" 0 None; hostname := "h"; service := "s"; tags := "";
     source := LAMBDA_RUNTIME_SLUG |}.

Lemma durable_init_start_wedges_hold_log_witness :
  hold_log witness_to_string 1000
    (resolve_held_logs_on_durable_function_set witness_to_string sample_held true) "b" sample_log = None.
Proof.
  apply (durable_init_start_wedges_hold_log witness_to_string 1000 sample_held "b" sample_log).
  - vm_compute. lia.
  - intros k _. reflexivity.
  - vm_compute. reflexivity.
Defined.

Definition report_event : TelemetryEvent Value :=
  {| time := 0; record := PlatformReport "r1" Success None
       (OnDemand {| od_duration_ms := f64_one; billed_duration_ms := 1; memory_size_mb := 128;
                    max_memory_used_mb := 64; init_duration_ms := None; restore_duration_ms := None |}) None |}.

Definition sample_orphan : @t unit :=
  set_orphans (set_durable sample (Some false) ∅ []) [set_log_request_id sample_log None].

Lemma orphan_log_gets_empty_request_id_witness :
  exists self', process (fun _ _ => true) (fun _ s _ => s) witness_to_string (fun _ => Some "x"%string)
    (fun _ => "v"%string) (fun _ => None) 5 sample_orphan report_event =
    Some (["r1|REPORT RequestId: r1 Duration: 1.00 ms Runtime Duration: 0.00 ms Post Runtime Duration: 0.00 ms Billed Duration: 1 ms Memory Size: 128 MB Max Memory Used: 64 MB";
           "|m"]%string, self').
Proof.
  destruct (orphan_log_gets_empty_request_id (fun _ _ => true) (fun _ s _ => s) witness_to_string
    (fun _ => Some "x"%string) (fun _ => "v"%string) (fun _ => None) ltac:(discriminate) 5 sample_orphan
    report_event "r1" Success None
    {| od_duration_ms := f64_one; billed_duration_ms := 1; memory_size_mb := 128;
       max_memory_used_mb := 64; init_duration_ms := None; restore_duration_ms := None |} None
    (set_log_request_id sample_log None)) as (report & self' & Hp & _ & _).
  - reflexivity.
  - reflexivity.
  - reflexivity.
  - reflexivity.
  - reflexivity.
  - reflexivity.
  - reflexivity.
  - eexists. vm_compute. reflexivity.
Defined.

End LambdaProcessor.
