(* ===== verification/Triggers.v ===== *)
(** Event sources: [lifecycle/invocation/triggers/mod.rs], [body.rs],
    [serde_utils.rs] and the data of the thirteen events recognised
    ([triggers/*_event.rs]), with their deserialization, the span pointers of
    [traces/span_pointers.rs] and [config/aws.rs].

    The text form of JSON, base64, SHA-256, RFC 3339 times, the Unicode case
    tables, the iteration order of a [HashMap] and the environment are fields of
    [Externals]. A time is in nanoseconds since the epoch. *)
From S2P Require Import Prelude F64 DataStreams Text EnhancedMetrics ContextBuffer.
From stdpp Require Import sorting pretty.
#[local] Open Scope Z_scope.

(** * Constants *)

Definition DATADOG_CARRIER_KEY : string := "_datadog".
Definition FUNCTION_TRIGGER_EVENT_SOURCE_TAG : string := "function_trigger.event_source".
Definition FUNCTION_TRIGGER_EVENT_SOURCE_ARN_TAG : string := "function_trigger.event_source_arn".
Definition DATADOG_HIGHER_ORDER_TRACE_ID_BITS_KEY : string := "_dd.p.tid".
Definition MS_TO_NS : f64 := f64_of_Z 1000000.
Definition S_TO_NS : f64 := f64_of_Z 1000000000.

(** [HashMap::from] of entries with distinct keys. *)
Definition tags_of (entries : list (string * string)) : gmap string string := list_to_map entries.

(** [config/aws.rs]. *)
Definition get_aws_partition_by_region (region : string) : string :=
  if starts_with "us-gov-" region then "aws-us-gov"
  else if starts_with "cn-" region then "aws-cn"
  else "aws".

(** * Data

    [Body] is flattened into the events that have one. *)

Record Body := { body_body : option string; is_base64_encoded : bool }.

Module HttpEvent.
Record RequestContextHTTP := {
  method : string; path : string; protocol : string; source_ip : string; user_agent : string;
}.
Record RequestContext := {
  stage : string; request_id : string; api_id : string; domain_name : string;
  time_epoch : Z; http : RequestContextHTTP;
}.
Record APIGatewayHttpEvent := {
  route_key : string;
  cookies : option (list string);
  headers : gmap string string;
  request_context : RequestContext;
  path_parameters : gmap string string;
  query_string_parameters : gmap string string;
  body : Body;
}.
End HttpEvent.

Module RestEvent.
Record Identity := { source_ip : string; user_agent : string }.
Record RequestContext := {
  stage : string; request_id : string; api_id : string; domain_name : string;
  time_epoch : Z; method : string; resource_path : string; path : string; protocol : string;
  identity : Identity;
}.
Record APIGatewayRestEvent := {
  headers : gmap string string;
  multi_value_headers : gmap string (list string);
  query_parameters : gmap string (list string);
  path_parameters : gmap string string;
  request_context : RequestContext;
  body : Body;
}.
End RestEvent.

Module WebSocketEvent.
Record Identity := { source_ip : option string }.
Record RequestContext := {
  route_key : string; domain_name : string; time_epoch : Z; request_id : string;
  http_method : option string; api_id : string; stage : string; connection_id : string;
  event_type : string; message_direction : string; identity : Identity;
}.
Record APIGatewayWebSocketEvent := {
  path : option string;
  headers : gmap string string;
  multi_value_headers : gmap string (list string);
  query_parameters : gmap string (list string);
  path_parameters : gmap string string;
  request_context : RequestContext;
  body : Body;
}.
End WebSocketEvent.

Module AlbEvent.
Record Elb := { target_group_arn : string }.
Record RequestContext := { elb : Elb }.
Record ALBEvent := {
  request_context : RequestContext;
  http_method : string;
  path : option string;
  headers : gmap string string;
  multi_value_headers : gmap string (list string);
  query_parameters : gmap string string;
  multi_value_query_parameters : gmap string (list string);
  body : Body;
}.
End AlbEvent.

Module UrlEvent.
Record Http := {
  method : string; path : string; protocol : string; source_ip : string; user_agent : string;
}.
Record RequestContext := {
  http : Http; account_id : string; domain_name : string; time_epoch : Z;
  request_id : string; api_id : string;
}.
Record LambdaFunctionUrlEvent := {
  headers : gmap string string;
  cookies : option (list string);
  query_string_parameters : gmap string string;
  request_context : RequestContext;
  body : Body;
}.
End UrlEvent.

Module MskEvent.
Record MSKRecord := { topic : string; partition : Z; timestamp : f64; headers : Value }.
Record MSKEvent := {
  event_source : string;
  event_source_arn : string;
  records : gmap string (list MSKRecord);
}.
End MskEvent.

Module SqsEvent.
Record Attributes := {
  approximate_first_receive_timestamp : string;
  approximate_receive_count : string;
  sent_timestamp : string;
  sender_id : string;
  aws_trace_header : option string;
}.
Record MessageAttribute := {
  string_value : option string;
  binary_value : option string;
  string_list_values : option (list string);
  binary_list_values : option (list string);
  data_type : string;
}.
Record SqsRecord := {
  message_id : string;
  receipt_handle : string;
  attributes : Attributes;
  message_attributes : gmap string MessageAttribute;
  md5_of_body : string;
  event_source : string;
  event_source_arn : string;
  aws_region : string;
  body : string;
}.
End SqsEvent.

Module SnsEvent.
Record MessageAttribute := { type_ : string; value : string }.
Record SnsEntity := {
  message_id : string;
  entity_type : string;
  topic_arn : string;
  message_attributes : gmap string MessageAttribute;
  timestamp : Z;
  subject : option string;
  message : option string;
}.
Record SnsRecord := { sns : SnsEntity; event_subscription_arn : option string }.
End SnsEvent.

Module DynamoDbEvent.
Inductive AttributeValue := S (v : string) | N (v : string) | B (v : string).
Record DynamoDbEntity := {
  approximate_creation_date_time : f64;
  size_bytes : Z;
  stream_view_type : string;
  keys : gmap string AttributeValue;
}.
Record DynamoDbRecord := {
  dynamodb : DynamoDbEntity;
  event_id : string;
  event_name : string;
  event_version : string;
  event_source_arn : string;
}.
End DynamoDbEvent.

Module S3Event.
Record S3Object := { key : string; size : Z; e_tag : string }.
Record S3Bucket := { name : string; arn : string }.
Record S3Entity := { bucket : S3Bucket; object : S3Object }.
Record S3Record := { event_source : string; event_time : Z; event_name : string; s3 : S3Entity }.
End S3Event.

Module EventBridge.
Record EventBridgeEvent := {
  id : string;
  version : string;
  account : string;
  time : Z;
  region : string;
  resources : list string;
  source : string;
  detail_type : string;
  detail : Value;
  replay_name : option string;
}.
End EventBridge.

Module KinesisEvent.
Record KinesisEntity := {
  approximate_arrival_timestamp : f64; partition_key : string; data : string;
}.
Record KinesisRecord := {
  event_id : string;
  event_name : string;
  event_source_arn : string;
  event_version : string;
  kinesis : KinesisEntity;
}.
End KinesisEvent.

Module StepFunction.
Record Execution := { id : string; redrive_count : Z }.
Record State := { name : string; entered_time : string; retry_count : Z }.
Record StateMachine := { machine_id : string }.
Record StepFunctionEvent := {
  execution : Execution;
  state : State;
  state_machine : option StateMachine;
  trace_id : option string;
  trace_tags : option string;
  root_execution_id : option string;
  serverless_version : option string;
}.
End StepFunction.

(** * External code *)

Class Externals := {
  (** the case tables of Unicode, outside ASCII *)
  unicode_lower : string -> string;
  (** [base64::general_purpose::STANDARD.decode] *)
  b64_decode : string -> option (list Z);
  (** [serde_json::from_str] at the types it is used at, [from_slice] likewise *)
  value_from_str : string -> option Value;
  sns_entity_from_str : string -> option SnsEvent.SnsEntity;
  event_bridge_from_str : string -> option EventBridge.EventBridgeEvent;
  string_map_from_str : string -> option (gmap string string);
  value_map_from_slice : list Z -> option (gmap string Value);
  (** [serde_json::to_string] of a value *)
  value_to_string : Value -> option string;
  (** the shortest decimal text of a float *)
  f64_to_string : f64 -> string;
  (** [chrono]: a time in RFC 3339 *)
  parse_datetime : string -> option Z;
  (** [sha2::Sha256::digest] *)
  sha256_digest : list Z -> list Z;
  (** the order in which a [HashMap] is iterated *)
  hash_iter : forall {A}, gmap string A -> list (string * A);
  (** [std::env::var] *)
  env_var : string -> option string;
}.

Section Decode.
Context `{Externals}.

Definition lowercase (s : string) : string := to_lowercase unicode_lower s.

(** [lowercase_key]: with two keys that differ only in case, the one iterated
    last is kept. *)
Definition lowercase_key {V} (de : Value -> option V) (v : Value) : option (gmap string V) :=
  map ← de_map de v;
  Some (foldl (fun m kv => <[lowercase kv.1 := kv.2]> m) ∅ (hash_iter map)).

Definition nullable_map {V} (de : Value -> option V) (v : Value) : option (gmap string V) :=
  maybe ← de_option (de_map de) v; Some (default ∅ maybe).

(** The flattened [Body] of an event. *)
Definition de_body (v : Value) : option Body :=
  match flat_fields [("body", false); ("isBase64Encoded", true)]%string v with
  | Some [b; e] =>
      body ← optional de_string b;
      is_base64_encoded ← defaulted false de_bool e;
      Some {| body_body := body; is_base64_encoded := is_base64_encoded |}
  | _ => None
  end.

Section HttpDecode.
Import HttpEvent.

Definition de_http (v : Value) : option RequestContextHTTP :=
  match struct_fields [("method", false); ("path", true); ("protocol", true);
                       ("sourceIp", true); ("userAgent", true)]%string v with
  | Some [m; p; pr; ip; ua] =>
      method ← required de_string m;
      path ← defaulted EmptyString de_string p;
      protocol ← defaulted EmptyString de_string pr;
      source_ip ← defaulted EmptyString de_string ip;
      user_agent ← defaulted EmptyString de_string ua;
      Some {| method := method; path := path; protocol := protocol; source_ip := source_ip;
              user_agent := user_agent |}
  | _ => None
  end.

Definition de_http_context (v : Value) : option RequestContext :=
  match struct_fields [("stage", true); ("requestId", true); ("apiId", true);
                       ("domainName", true); ("timeEpoch", true); ("http", false)]%string v with
  | Some [st; rid; api; dn; t; h] =>
      stage ← defaulted EmptyString de_string st;
      request_id ← defaulted EmptyString de_string rid;
      api_id ← defaulted EmptyString de_string api;
      domain_name ← defaulted EmptyString de_string dn;
      time_epoch ← defaulted 0 de_i64 t;
      http ← required de_http h;
      Some {| stage := stage; request_id := request_id; api_id := api_id;
              domain_name := domain_name; time_epoch := time_epoch; http := http |}
  | _ => None
  end.

Definition de_http_event (v : Value) : option APIGatewayHttpEvent :=
  match flat_fields [("routeKey", true); ("cookies", false); ("headers", true);
                     ("requestContext", false); ("pathParameters", true);
                     ("queryStringParameters", true)]%string v with
  | Some [rk; ck; hs; rc; pp; qp] =>
      route_key ← defaulted EmptyString de_string rk;
      cookies ← optional (de_vec de_string) ck;
      headers ← defaulted ∅ (lowercase_key de_string) hs;
      request_context ← required de_http_context rc;
      path_parameters ← defaulted ∅ (de_map de_string) pp;
      query_string_parameters ← defaulted ∅ (de_map de_string) qp;
      body ← de_body v;
      Some {| route_key := route_key; cookies := cookies; headers := headers;
              request_context := request_context; path_parameters := path_parameters;
              query_string_parameters := query_string_parameters; body := body |}
  | _ => None
  end.
End HttpDecode.

Section RestDecode.
Import RestEvent.

Definition de_rest_identity (v : Value) : option Identity :=
  match struct_fields [("sourceIp", false); ("userAgent", false)]%string v with
  | Some [ip; ua] =>
      source_ip ← required de_string ip;
      user_agent ← required de_string ua;
      Some {| source_ip := source_ip; user_agent := user_agent |}
  | _ => None
  end.

Definition de_rest_context (v : Value) : option RequestContext :=
  match struct_fields [("stage", false); ("requestId", false); ("apiId", false);
                       ("domainName", false); ("requestTimeEpoch", false); ("httpMethod", false);
                       ("resourcePath", false); ("path", false); ("protocol", false);
                       ("identity", false)]%string v with
  | Some [st; rid; api; dn; t; m; rp; p; pr; idt] =>
      stage ← required de_string st;
      request_id ← required de_string rid;
      api_id ← required de_string api;
      domain_name ← required de_string dn;
      time_epoch ← required de_i64 t;
      method ← required de_string m;
      resource_path ← required de_string rp;
      path ← required de_string p;
      protocol ← required de_string pr;
      identity ← required de_rest_identity idt;
      Some {| stage := stage; request_id := request_id; api_id := api_id;
              domain_name := domain_name; time_epoch := time_epoch; method := method;
              resource_path := resource_path; path := path; protocol := protocol;
              identity := identity |}
  | _ => None
  end.

Definition de_rest_event (v : Value) : option APIGatewayRestEvent :=
  match flat_fields [("headers", false); ("multiValueHeaders", false);
                     ("multiValueQueryStringParameters", true); ("pathParameters", true);
                     ("requestContext", false)]%string v with
  | Some [hs; mh; qp; pp; rc] =>
      headers ← required (lowercase_key de_string) hs;
      multi_value_headers ← required (lowercase_key (de_vec de_string)) mh;
      query_parameters ← defaulted ∅ (nullable_map (de_vec de_string)) qp;
      path_parameters ← defaulted ∅ (nullable_map de_string) pp;
      request_context ← required de_rest_context rc;
      body ← de_body v;
      Some {| headers := headers; multi_value_headers := multi_value_headers;
              query_parameters := query_parameters; path_parameters := path_parameters;
              request_context := request_context; body := body |}
  | _ => None
  end.
End RestDecode.

Section WebSocketDecode.
Import WebSocketEvent.

Definition de_ws_identity (v : Value) : option Identity :=
  match struct_fields [("sourceIp", false)]%string v with
  | Some [ip] => source_ip ← optional de_string ip; Some {| source_ip := source_ip |}
  | _ => None
  end.

Definition de_ws_context (v : Value) : option RequestContext :=
  match struct_fields [("routeKey", false); ("domainName", false); ("requestTimeEpoch", false);
                       ("requestId", false); ("httpMethod", false); ("apiId", false);
                       ("stage", false); ("connectionId", false); ("eventType", false);
                       ("messageDirection", false); ("identity", false)]%string v with
  | Some [rk; dn; t; rid; m; api; st; cid; et; md; idt] =>
      route_key ← required de_string rk;
      domain_name ← required de_string dn;
      time_epoch ← required de_i64 t;
      request_id ← required de_string rid;
      http_method ← optional de_string m;
      api_id ← required de_string api;
      stage ← required de_string st;
      connection_id ← required de_string cid;
      event_type ← required de_string et;
      message_direction ← required de_string md;
      identity ← required de_ws_identity idt;
      Some {| route_key := route_key; domain_name := domain_name; time_epoch := time_epoch;
              request_id := request_id; http_method := http_method; api_id := api_id;
              stage := stage; connection_id := connection_id; event_type := event_type;
              message_direction := message_direction; identity := identity |}
  | _ => None
  end.

Definition de_ws_event (v : Value) : option APIGatewayWebSocketEvent :=
  match flat_fields [("path", false); ("headers", true); ("multiValueHeaders", true);
                     ("multiValueQueryStringParameters", true); ("pathParameters", true);
                     ("requestContext", false)]%string v with
  | Some [p; hs; mh; qp; pp; rc] =>
      path ← optional de_string p;
      headers ← defaulted ∅ (lowercase_key de_string) hs;
      multi_value_headers ← defaulted ∅ (lowercase_key (de_vec de_string)) mh;
      query_parameters ← defaulted ∅ (de_map (de_vec de_string)) qp;
      path_parameters ← defaulted ∅ (de_map de_string) pp;
      request_context ← required de_ws_context rc;
      body ← de_body v;
      Some {| path := path; headers := headers; multi_value_headers := multi_value_headers;
              query_parameters := query_parameters; path_parameters := path_parameters;
              request_context := request_context; body := body |}
  | _ => None
  end.
End WebSocketDecode.

Section AlbDecode.
Import AlbEvent.

Definition de_elb (v : Value) : option Elb :=
  match struct_fields [("targetGroupArn", false)]%string v with
  | Some [a] => arn ← required de_string a; Some {| target_group_arn := arn |}
  | _ => None
  end.

Definition de_alb_context (v : Value) : option RequestContext :=
  match struct_fields [("elb", false)]%string v with
  | Some [e] => elb ← required de_elb e; Some {| elb := elb |}
  | _ => None
  end.

Definition de_alb_event (v : Value) : option ALBEvent :=
  match flat_fields [("requestContext", false); ("httpMethod", false); ("path", false);
                     ("headers", true); ("multiValueHeaders", true); ("queryParameters", true);
                     ("multiValueQueryParameters", true)]%string v with
  | Some [rc; m; p; hs; mh; qp; mq] =>
      request_context ← required de_alb_context rc;
      http_method ← required de_string m;
      path ← optional de_string p;
      headers ← defaulted ∅ (de_map de_string) hs;
      multi_value_headers ← defaulted ∅ (de_map (de_vec de_string)) mh;
      query_parameters ← defaulted ∅ (de_map de_string) qp;
      multi_value_query_parameters ← defaulted ∅ (de_map (de_vec de_string)) mq;
      body ← de_body v;
      Some {| request_context := request_context; http_method := http_method; path := path;
              headers := headers; multi_value_headers := multi_value_headers;
              query_parameters := query_parameters;
              multi_value_query_parameters := multi_value_query_parameters; body := body |}
  | _ => None
  end.
End AlbDecode.

Section UrlDecode.
Import UrlEvent.

Definition de_url_http (v : Value) : option Http :=
  match struct_fields [("method", false); ("path", false); ("protocol", false);
                       ("sourceIp", false); ("userAgent", false)]%string v with
  | Some [m; p; pr; ip; ua] =>
      method ← required de_string m;
      path ← required de_string p;
      protocol ← required de_string pr;
      source_ip ← required de_string ip;
      user_agent ← required de_string ua;
      Some {| method := method; path := path; protocol := protocol; source_ip := source_ip;
              user_agent := user_agent |}
  | _ => None
  end.

Definition de_url_context (v : Value) : option RequestContext :=
  match struct_fields [("http", false); ("accountId", false); ("domainName", false);
                       ("timeEpoch", false); ("requestId", false); ("apiId", false)]%string v with
  | Some [h; acc; dn; t; rid; api] =>
      http ← required de_url_http h;
      account_id ← required de_string acc;
      domain_name ← required de_string dn;
      time_epoch ← required de_i64 t;
      request_id ← required de_string rid;
      api_id ← required de_string api;
      Some {| http := http; account_id := account_id; domain_name := domain_name;
              time_epoch := time_epoch; request_id := request_id; api_id := api_id |}
  | _ => None
  end.

Definition de_url_event (v : Value) : option LambdaFunctionUrlEvent :=
  match flat_fields [("headers", false); ("cookies", false); ("queryStringParameters", true);
                     ("requestContext", false)]%string v with
  | Some [hs; ck; qp; rc] =>
      headers ← required (lowercase_key de_string) hs;
      cookies ← optional (de_vec de_string) ck;
      query_string_parameters ← defaulted ∅ (de_map de_string) qp;
      request_context ← required de_url_context rc;
      body ← de_body v;
      Some {| headers := headers; cookies := cookies;
              query_string_parameters := query_string_parameters;
              request_context := request_context; body := body |}
  | _ => None
  end.
End UrlDecode.

Section MskDecode.
Import MskEvent.

Definition de_msk_record (v : Value) : option MSKRecord :=
  match struct_fields [("topic", false); ("partition", false); ("timestamp", false);
                       ("headers", true)]%string v with
  | Some [tp; pt; ts; hs] =>
      topic ← required de_string tp;
      partition ← required de_i32 pt;
      timestamp ← required de_f64 ts;
      headers ← defaulted VNull de_value hs;
      Some {| topic := topic; partition := partition; timestamp := timestamp;
              headers := headers |}
  | _ => None
  end.

Definition de_msk_event (v : Value) : option MSKEvent :=
  match struct_fields [("eventSource", false); ("eventSourceArn", false);
                       ("records", false)]%string v with
  | Some [es; arn; rs] =>
      event_source ← required de_string es;
      event_source_arn ← required de_string arn;
      records ← required (de_map (de_vec de_msk_record)) rs;
      Some {| event_source := event_source; event_source_arn := event_source_arn;
              records := records |}
  | _ => None
  end.
End MskDecode.

Section SqsDecode.
Import SqsEvent.

Definition de_sqs_attributes (v : Value) : option Attributes :=
  match struct_fields [("ApproximateFirstReceiveTimestamp", false);
                       ("ApproximateReceiveCount", false); ("SentTimestamp", false);
                       ("SenderId", false); ("AWSTraceHeader", false)]%string v with
  | Some [fr; rc; st; sid; th] =>
      first_receive ← required de_string fr;
      receive_count ← required de_string rc;
      sent_timestamp ← required de_string st;
      sender_id ← required de_string sid;
      aws_trace_header ← optional de_string th;
      Some {| approximate_first_receive_timestamp := first_receive;
              approximate_receive_count := receive_count; sent_timestamp := sent_timestamp;
              sender_id := sender_id; aws_trace_header := aws_trace_header |}
  | _ => None
  end.

Definition de_sqs_message_attribute (v : Value) : option MessageAttribute :=
  match struct_fields [("stringValue", false); ("binaryValue", false); ("stringListValues", false);
                       ("binaryListValues", false); ("dataType", false)]%string v with
  | Some [sv; bv; sl; bl; dt] =>
      string_value ← optional de_string sv;
      binary_value ← optional de_string bv;
      string_list_values ← optional (de_vec de_string) sl;
      binary_list_values ← optional (de_vec de_string) bl;
      data_type ← required de_string dt;
      Some {| string_value := string_value; binary_value := binary_value;
              string_list_values := string_list_values; binary_list_values := binary_list_values;
              data_type := data_type |}
  | _ => None
  end.

Definition de_sqs_record (v : Value) : option SqsRecord :=
  match struct_fields [("messageId", false); ("receiptHandle", false); ("attributes", false);
                       ("messageAttributes", false); ("md5OfBody", false); ("eventSource", false);
                       ("eventSourceARN", false); ("awsRegion", false); ("body", false)]%string v with
  | Some [mid; rh; at_; ma; md; es; arn; rg; b] =>
      message_id ← required de_string mid;
      receipt_handle ← required de_string rh;
      attributes ← required de_sqs_attributes at_;
      message_attributes ← required (de_map de_sqs_message_attribute) ma;
      md5_of_body ← required de_string md;
      event_source ← required de_string es;
      event_source_arn ← required de_string arn;
      aws_region ← required de_string rg;
      body ← required de_string b;
      Some {| message_id := message_id; receipt_handle := receipt_handle;
              attributes := attributes; message_attributes := message_attributes;
              md5_of_body := md5_of_body; event_source := event_source;
              event_source_arn := event_source_arn; aws_region := aws_region; body := body |}
  | _ => None
  end.
End SqsDecode.

Section SnsDecode.
Import SnsEvent.

Definition de_sns_message_attribute (v : Value) : option MessageAttribute :=
  match struct_fields [("Type", false); ("Value", false)]%string v with
  | Some [ty; vl] =>
      type_ ← required de_string ty;
      value ← required de_string vl;
      Some {| type_ := type_; value := value |}
  | _ => None
  end.

Definition de_datetime (v : Value) : option Z := s ← as_str v; parse_datetime s.

Definition de_sns_entity (v : Value) : option SnsEntity :=
  match struct_fields [("MessageId", false); ("Type", false); ("TopicArn", false);
                       ("MessageAttributes", false); ("Timestamp", false); ("Subject", false);
                       ("Message", false)]%string v with
  | Some [mid; ty; arn; ma; ts; sj; ms] =>
      message_id ← required de_string mid;
      entity_type ← required de_string ty;
      topic_arn ← required de_string arn;
      message_attributes ← required (de_map de_sns_message_attribute) ma;
      timestamp ← required de_datetime ts;
      subject ← optional de_string sj;
      message ← optional de_string ms;
      Some {| message_id := message_id; entity_type := entity_type; topic_arn := topic_arn;
              message_attributes := message_attributes; timestamp := timestamp;
              subject := subject; message := message |}
  | _ => None
  end.

Definition de_sns_record (v : Value) : option SnsRecord :=
  match struct_fields [("Sns", false); ("EventSubscriptionArn", false)]%string v with
  | Some [e; arn] =>
      sns ← required de_sns_entity e;
      event_subscription_arn ← optional de_string arn;
      Some {| sns := sns; event_subscription_arn := event_subscription_arn |}
  | _ => None
  end.
End SnsDecode.

Section DynamoDbDecode.
Import DynamoDbEvent.

(** An externally tagged variant: an object with one entry. *)
Definition de_attribute_value (v : Value) : option AttributeValue :=
  match v with
  | VObject [(tag, VString s)] =>
      if bool_decide (tag = "S"%string) then Some (S s)
      else if bool_decide (tag = "N"%string) then Some (N s)
      else if bool_decide (tag = "B"%string) then Some (B s)
      else None
  | _ => None
  end.

Definition de_dynamodb_entity (v : Value) : option DynamoDbEntity :=
  match struct_fields [("ApproximateCreationDateTime", false); ("SizeBytes", false);
                       ("StreamViewType", false); ("Keys", false)]%string v with
  | Some [t; sz; sv; ks] =>
      creation ← required de_f64 t;
      size_bytes ← required de_i64 sz;
      stream_view_type ← required de_string sv;
      keys ← required (de_map de_attribute_value) ks;
      Some {| approximate_creation_date_time := creation; size_bytes := size_bytes;
              stream_view_type := stream_view_type; keys := keys |}
  | _ => None
  end.

Definition de_dynamodb_record (v : Value) : option DynamoDbRecord :=
  match struct_fields [("dynamodb", false); ("eventID", false); ("eventName", false);
                       ("eventVersion", false); ("eventSourceARN", false)]%string v with
  | Some [d; eid; en; ev; arn] =>
      dynamodb ← required de_dynamodb_entity d;
      event_id ← required de_string eid;
      event_name ← required de_string en;
      event_version ← required de_string ev;
      event_source_arn ← required de_string arn;
      Some {| dynamodb := dynamodb; event_id := event_id; event_name := event_name;
              event_version := event_version; event_source_arn := event_source_arn |}
  | _ => None
  end.
End DynamoDbDecode.

Section S3Decode.
Import S3Event.

Definition de_s3_object (v : Value) : option S3Object :=
  match struct_fields [("key", false); ("size", false); ("eTag", false)]%string v with
  | Some [k; sz; et] =>
      key ← required de_string k;
      size ← required de_i64 sz;
      e_tag ← required de_string et;
      Some {| key := key; size := size; e_tag := e_tag |}
  | _ => None
  end.

Definition de_s3_bucket (v : Value) : option S3Bucket :=
  match struct_fields [("name", false); ("arn", false)]%string v with
  | Some [n; a] =>
      name ← required de_string n;
      arn ← required de_string a;
      Some {| name := name; arn := arn |}
  | _ => None
  end.

Definition de_s3_entity (v : Value) : option S3Entity :=
  match struct_fields [("bucket", false); ("object", false)]%string v with
  | Some [b; o] =>
      bucket ← required de_s3_bucket b;
      object ← required de_s3_object o;
      Some {| bucket := bucket; object := object |}
  | _ => None
  end.

Definition de_s3_record (v : Value) : option S3Record :=
  match struct_fields [("eventSource", false); ("eventTime", false); ("eventName", false);
                       ("s3", false)]%string v with
  | Some [es; t; en; s] =>
      event_source ← required de_string es;
      event_time ← required de_datetime t;
      event_name ← required de_string en;
      s3 ← required de_s3_entity s;
      Some {| event_source := event_source; event_time := event_time; event_name := event_name;
              s3 := s3 |}
  | _ => None
  end.
End S3Decode.

Section EventBridgeDecode.
Import EventBridge.

Definition de_event_bridge (v : Value) : option EventBridgeEvent :=
  match struct_fields [("id", false); ("version", false); ("account", false); ("time", false);
                       ("region", false); ("resources", false); ("source", false);
                       ("detail-type", false); ("detail", false); ("replay-name", false)]%string v with
  | Some [i; ve; ac; t; rg; rs; so; dt; de; rn] =>
      id ← required de_string i;
      version ← required de_string ve;
      account ← required de_string ac;
      time ← required de_datetime t;
      region ← required de_string rg;
      resources ← required (de_vec de_string) rs;
      source ← required de_string so;
      detail_type ← required de_string dt;
      detail ← required de_value de;
      replay_name ← optional de_string rn;
      Some {| id := id; version := version; account := account; time := time; region := region;
              resources := resources; source := source; detail_type := detail_type;
              detail := detail; replay_name := replay_name |}
  | _ => None
  end.
End EventBridgeDecode.

Section KinesisDecode.
Import KinesisEvent.

Definition de_kinesis_entity (v : Value) : option KinesisEntity :=
  match struct_fields [("approximateArrivalTimestamp", false); ("partitionKey", false);
                       ("data", false)]%string v with
  | Some [t; pk; d] =>
      arrival ← required de_f64 t;
      partition_key ← required de_string pk;
      data ← required de_string d;
      Some {| approximate_arrival_timestamp := arrival; partition_key := partition_key;
              data := data |}
  | _ => None
  end.

Definition de_kinesis_record (v : Value) : option KinesisRecord :=
  match struct_fields [("eventID", false); ("eventName", false); ("eventSourceARN", false);
                       ("eventVersion", false); ("kinesis", false)]%string v with
  | Some [eid; en; arn; ev; k] =>
      event_id ← required de_string eid;
      event_name ← required de_string en;
      event_source_arn ← required de_string arn;
      event_version ← required de_string ev;
      kinesis ← required de_kinesis_entity k;
      Some {| event_id := event_id; event_name := event_name; event_source_arn := event_source_arn;
              event_version := event_version; kinesis := kinesis |}
  | _ => None
  end.
End KinesisDecode.

Section StepFunctionDecode.
Import StepFunction.

Definition de_execution (v : Value) : option Execution :=
  match struct_fields [("Id", false); ("RedriveCount", false)]%string v with
  | Some [i; r] =>
      id ← required de_string i;
      redrive_count ← required de_u16 r;
      Some {| id := id; redrive_count := redrive_count |}
  | _ => None
  end.

Definition de_state (v : Value) : option State :=
  match struct_fields [("Name", false); ("EnteredTime", false); ("RetryCount", false)]%string v with
  | Some [n; t; r] =>
      name ← required de_string n;
      entered_time ← required de_string t;
      retry_count ← required de_u16 r;
      Some {| name := name; entered_time := entered_time; retry_count := retry_count |}
  | _ => None
  end.

Definition de_state_machine (v : Value) : option StateMachine :=
  match struct_fields [("Id", false)]%string v with
  | Some [i] => id ← required de_string i; Some {| machine_id := id |}
  | _ => None
  end.

Definition de_step_function (v : Value) : option StepFunctionEvent :=
  match struct_fields [("Execution", false); ("State", false); ("StateMachine", false);
                       ("x-datadog-trace-id", false); ("x-datadog-tags", false);
                       ("RootExecutionId", false); ("serverless-version", false)]%string v with
  | Some [ex; st; sm; ti; tg; re; sv] =>
      execution ← required de_execution ex;
      state ← required de_state st;
      state_machine ← optional de_state_machine sm;
      trace_id ← optional de_string ti;
      trace_tags ← optional de_string tg;
      root_execution_id ← optional de_string re;
      serverless_version ← optional de_string sv;
      Some {| execution := execution; state := state; state_machine := state_machine;
              trace_id := trace_id; trace_tags := trace_tags;
              root_execution_id := root_execution_id; serverless_version := serverless_version |}
  | _ => None
  end.
End StepFunctionDecode.

End Decode.

(** * Identifier segments of a path *)

Definition is_hex_digit (c : ascii) : bool :=
  let n := N_of_ascii c in
  ((48 <=? n) && (n <=? 57) || (97 <=? n) && (n <=? 102) || (65 <=? n) && (n <=? 70))%N.

Definition is_crockford (c : ascii) : bool :=
  existsb (Ascii.eqb c) (String.list_ascii_of_string "0123456789ABCDEFGHJKMNPQRSTVWXYZ").

(** [n] characters of a class at the start, and the rest. *)
Fixpoint class_prefix (p : ascii -> bool) (n : nat) (s : string) : option string :=
  match n, s with
  | O, _ => Some s
  | S n, String c s => if p c then class_prefix p n s else None
  | S _, EmptyString => None
  end.

Definition dash (s : string) : option string :=
  match s with String "-" s => Some s | _ => None end.

Definition uuid_at (s : string) : bool :=
  let hex n s := class_prefix is_hex_digit n s in
  bool_decide (is_Some
    (s ← hex 8%nat s; s ← dash s; s ← hex 4%nat s; s ← dash s; s ← hex 4%nat s; s ← dash s;
     s ← hex 4%nat s; s ← dash s; hex 12%nat s)).

Definition ulid_at (s : string) : bool := bool_decide (is_Some (class_prefix is_crockford 26 s)).

(** [ULID_UUID_GUID.is_match]: the expression is not anchored. *)
Fixpoint ULID_UUID_GUID (s : string) : bool :=
  (uuid_at s || ulid_at s) ||
  match s with EmptyString => false | String _ s => ULID_UUID_GUID s end.

Definition looks_like_id (part : string) : bool := str_all is_ascii_digit part || ULID_UUID_GUID part.

(** The segment [part] at index [i], [previous] being the one before it. *)
Definition parameterize_part (i : nat) (previous part : string) : string :=
  if looks_like_id part then
    let param_name :=
      if (1 <? i)%nat && negb (bool_decide (previous = EmptyString)) then
        let singular := trim_end_char "s" previous in
        if bool_decide (singular = "id"%string) then singular else (singular +:+ "_id")%string
      else "id"%string in
    ("{" +:+ param_name +:+ "}")%string
  else part.

(** The loop over the segments from index [i] on. *)
Fixpoint parameterize_parts (i : nat) (previous : string) (parts : list string) : list string :=
  match parts with
  | [] => []
  | part :: parts =>
      let rest := parameterize_parts (S i) part parts in
      if bool_decide (part = EmptyString) then rest
      else parameterize_part i previous part :: rest
  end.

Definition parameterize_api_resource (resource : string) : string :=
  if contains "{" resource && contains "}" resource then resource
  else
    let parts := str_split "/" resource in
    str_join "/" (EmptyString ::
      parameterize_parts 1 (default EmptyString (head parts)) (tail parts)).

Definition get_default_service_name (instance_name fallback : string)
    (aws_service_representation_enabled : bool) : string :=
  if aws_service_representation_enabled then instance_name else fallback.

(** * The traits *)

Record DsmCheckpointInput := {
  edge_tags : list string;
  carrier : gmap string string;
  payload_size_bytes : f64;
}.

Class ServiceNameResolver (T : Type) := {
  get_specific_identifier : T -> string;
  get_generic_identifier : T -> string;
}.

(** [new] can index an empty array. *)
Class Trigger (T : Type) `{ServiceNameResolver T} := {
  new : Value -> outcome (option T);
  is_match : Value -> bool;
  enrich_span : T -> Span -> gmap string string -> bool -> Span;
  get_tags : T -> gmap string string;
  get_arn : T -> string -> string;
  get_carrier : T -> gmap string string;
  is_async : T -> bool;
  get_dsm_edge_tags : T -> option (list string);
  get_payload_size_bytes : T -> f64;
  get_dsm_checkpoints : T -> Value -> list DsmCheckpointInput;
  get_dd_resource_key : T -> string -> option string;
}.

Section Defaults.
Context {T : Type} `{ServiceNameResolver T}.

Definition has_service_mapping_entry (self : T) (service_mapping : gmap string string) : bool :=
  bool_decide (is_Some (service_mapping !! get_specific_identifier self)) ||
  bool_decide (is_Some (service_mapping !! get_generic_identifier self)).

Definition resolve_service_name (self : T) (service_mapping : gmap string string)
    (instance_name fallback : string) (aws_service_representation_enabled : bool) : string :=
  match service_mapping !! get_specific_identifier self with
  | Some s => s
  | None =>
      match service_mapping !! get_generic_identifier self with
      | Some s => s
      | None => get_default_service_name instance_name fallback aws_service_representation_enabled
      end
  end.
End Defaults.

(** The default bodies of [get_dsm_checkpoints] and the one of batched events. *)
Definition dsm_checkpoint_of (edge_tags : option (list string)) (carrier : gmap string string)
    (size : f64) : option DsmCheckpointInput :=
  edge_tags ← edge_tags;
  Some {| edge_tags := edge_tags; carrier := carrier; payload_size_bytes := size |}.

Definition dsm_checkpoints_from_records {T} (de : Value -> option T)
    (checkpoint : T -> option DsmCheckpointInput) (payload : Value) : list DsmCheckpointInput :=
  match value_get payload "Records" ≫= as_array with
  | None => []
  | Some records => omap (fun r => record ← de r; checkpoint record) records
  end.

(** The record a batched event is identified by. *)
Definition first_record (payload : Value) : option Value :=
  (value_get payload "Records" ≫= as_array) ≫= head.

Definition new_from_records {T} (de : Value -> option T) (payload : Value) : outcome (option T) :=
  match value_get payload "Records" ≫= as_array with
  | Some records => r ← vec_index records 0; Done (de r)
  | None => Done None
  end.

(** * Span pointers *)

Definition SPAN_POINTER_HASH_LENGTH : nat := 32.

Definition hex_byte (b : Z) : string := String (DataStreams.hex_digit (b / 16)) (String (DataStreams.hex_digit (b mod 16)) EmptyString).

Definition generate_span_pointer_hash `{Externals} (components : list string) : string :=
  let result := sha256_digest (as_bytes (str_join "|" components)) in
  String.substring 0 SPAN_POINTER_HASH_LENGTH
    (foldr (fun b acc => hex_byte b +:+ acc) EmptyString result).

(** * Trace context *)

(** [SpanContext] of the propagation crate, with the fields the crate reads and
    writes; the sampling priority is the crate's type. *)
Record SpanContext {SamplingPriority : Type} := {
  sc_trace_id : Z;
  sc_span_id : Z;
  sc_priority : option SamplingPriority;
  sc_origin : option string;
  sc_tags : gmap string string;
}.
Arguments SpanContext SamplingPriority : clear implicits.

Definition PROPAGATION_TAG_PREFIX : string := "_dd.p.".

(** A repeated key keeps its last value. *)
Definition extract_propagation_tags (tags_str : string) : gmap string string :=
  foldl (fun m kv => <[kv.1 := kv.2]> m) ∅
    (omap (fun pair =>
       '(k, v) ← split_once "=" pair;
       if starts_with PROPAGATION_TAG_PREFIX k then Some (k, v) else None)
     (str_split "," tags_str)).

(** [base64_to_string(s).ok()]. *)
Definition base64_to_string `{Externals} (s : string) : option string :=
  bytes ← b64_decode s; Some (bytes_string (from_utf8_lossy bytes)).
