(* ===== verification/TriggerEvents.v ===== *)
(** The implementations of the [Trigger] trait for the thirteen event sources
    ([lifecycle/invocation/triggers/*_event.rs]) and the recognition of an event
    ([IdentifiedTrigger]). *)
From S2P Require Import Prelude F64 DataStreams Text EnhancedMetrics ContextBuffer Triggers.
From stdpp Require Import sorting pretty.
#[local] Open Scope Z_scope.

(** What [enrich_span] assigns: the entries of [m] extend the meta of the span. *)
Definition enriched (s : Span) (nm svc res ty : string) (st : Z) (m : list (string * string)) : Span :=
  {| service := svc; name := nm; resource := res; trace_id := trace_id s; span_id := span_id s;
     parent_id := parent_id s; start := st; duration := duration s; error := error s;
     meta := extend (meta s) (tags_of m); metrics := metrics s; type_ := ty;
     meta_struct := meta_struct s |}.

(** [(ms as f64 * MS_TO_NS) as i64]. *)
Definition ms_to_ns (ms : Z) : Z := f64_to_i64 (fmul (f64_of_Z ms) MS_TO_NS).

(** [time.timestamp_nanos_opt().unwrap_or((time.timestamp_millis() as f64 * scale) as i64)]. *)
Definition nanos_or_millis (scale : f64) (time : Z) : Z :=
  if decide (is_i64 time) then time else f64_to_i64 (fmul (f64_of_Z (time / 1000000)) scale).

Definition insert_some (k : string) (v : option string) (m : gmap string string) : gmap string string :=
  match v with Some v => <[k := v]> m | None => m end.

(** [headers.get("x-amz-invocation-type").is_some_and(|v| v == "Event")]. *)
Definition event_invocation (headers : gmap string string) : bool :=
  bool_decide (headers !! "x-amz-invocation-type"%string = Some "Event"%string).

Definition is_some {A} (o : option A) : bool := match o with Some _ => true | None => false end.

Section Events.
Context `{Externals}.

(** * Request events *)

Section HttpImpl.
Import HttpEvent.
#[local] Abbreviation rc := request_context.

Definition APIGatewayHttpEvent_resolver : ServiceNameResolver APIGatewayHttpEvent :=
  {| get_specific_identifier := fun self => api_id (rc self);
     get_generic_identifier := fun _ => "lambda_api_gateway"%string |}.
#[local] Existing Instance APIGatewayHttpEvent_resolver.

Definition http_url (self : APIGatewayHttpEvent) : string :=
  ("https://" +:+ domain_name (rc self) +:+ path (http (rc self)))%string.

Definition APIGatewayHttpEvent_enrich_span (self : APIGatewayHttpEvent) (span : Span)
    (service_mapping : gmap string string) (aws_service_representation_enabled : bool) : Span :=
  let h := http (rc self) in
  let resource := (method h +:+ " " +:+ parameterize_api_resource (path h))%string in
  let start_time := ms_to_ns (time_epoch (rc self)) in
  let service_name := resolve_service_name self service_mapping
    (domain_name (rc self)) (domain_name (rc self)) aws_service_representation_enabled in
  enriched span "aws.httpapi" service_name resource "web" start_time
    [("endpoint", path h); ("http.url", http_url self); ("http.method", method h);
     ("http.protocol", protocol h); ("http.source_ip", source_ip h);
     ("http.user_agent", user_agent h); ("request_id", request_id (rc self))]%string.

Definition APIGatewayHttpEvent_get_tags (self : APIGatewayHttpEvent) : gmap string string :=
  let h := http (rc self) in
  let tags := tags_of
    [("http.url", http_url self); ("http.url_details.path", path h); ("http.method", method h);
     (FUNCTION_TRIGGER_EVENT_SOURCE_TAG, "api-gateway")]%string in
  let tags :=
    if bool_decide (route_key self = EmptyString) then tags
    else <["http.route"%string :=
             default (route_key self) (last (split_whitespace (route_key self)))]> tags in
  let tags := insert_some "http.referer" (headers self !! "referer"%string) tags in
  insert_some "http.user_agent" (headers self !! "user-agent"%string) tags.

Definition APIGatewayHttpEvent_Trigger : Trigger APIGatewayHttpEvent :=
  {| new := fun payload => Done (de_http_event payload);
     is_match := fun payload =>
       let domain_name := value_get payload "requestContext" ≫= fun d => value_get d "domainName" in
       match value_get payload "version" with
       | Some (VString v) => bool_decide (v = "2.0"%string)
       | _ => false
       end &&
       is_some (value_get payload "rawQueryString") &&
       match domain_name with
       | Some d => match as_str d with Some s => negb (contains "lambda-url" s) | None => true end
       | None => false
       end;
     enrich_span := APIGatewayHttpEvent_enrich_span;
     get_tags := APIGatewayHttpEvent_get_tags;
     get_arn := fun self region =>
       ("arn:" +:+ get_aws_partition_by_region region +:+ ":apigateway:" +:+ region +:+
        "::/restapis/" +:+ api_id (rc self) +:+ "/stages/" +:+ stage (rc self))%string;
     get_carrier := headers;
     is_async := fun self => event_invocation (headers self);
     get_dsm_edge_tags := fun _ => None;
     get_payload_size_bytes := fun _ => f64_zero;
     get_dsm_checkpoints := fun self _ => [];
     get_dd_resource_key := fun self region =>
       if bool_decide (api_id (rc self) = EmptyString) then None
       else Some ("arn:" +:+ get_aws_partition_by_region region +:+ ":apigateway:" +:+ region +:+
                  "::/apis/" +:+ api_id (rc self))%string |}.
End HttpImpl.

Section RestImpl.
Import RestEvent.
#[local] Abbreviation rc := request_context.

Definition APIGatewayRestEvent_resolver : ServiceNameResolver APIGatewayRestEvent :=
  {| get_specific_identifier := fun self => api_id (rc self);
     get_generic_identifier := fun _ => "lambda_api_gateway"%string |}.
#[local] Existing Instance APIGatewayRestEvent_resolver.

Definition rest_url (self : APIGatewayRestEvent) : string :=
  ("https://" +:+ domain_name (rc self) +:+ path (rc self))%string.

Definition APIGatewayRestEvent_enrich_span (self : APIGatewayRestEvent) (span : Span)
    (service_mapping : gmap string string) (aws_service_representation_enabled : bool) : Span :=
  let resource := (method (rc self) +:+ " " +:+ parameterize_api_resource (path (rc self)))%string in
  let start_time := ms_to_ns (time_epoch (rc self)) in
  let service_name := resolve_service_name self service_mapping
    (domain_name (rc self)) (domain_name (rc self)) aws_service_representation_enabled in
  enriched span "aws.apigateway" service_name resource "web" start_time
    [("endpoint", path (rc self)); ("http.url", rest_url self); ("http.method", method (rc self));
     ("http.protocol", protocol (rc self)); ("http.source_ip", source_ip (identity (rc self)));
     ("http.user_agent", user_agent (identity (rc self))); ("request_id", request_id (rc self));
     ("http.route", resource_path (rc self))]%string.

Definition APIGatewayRestEvent_Trigger : Trigger APIGatewayRestEvent :=
  {| new := fun payload => Done (de_rest_event payload);
     is_match := fun payload =>
       is_some (value_get payload "requestContext" ≫= fun v => value_get v "stage") &&
       is_some (value_get payload "httpMethod") && is_some (value_get payload "resource");
     enrich_span := APIGatewayRestEvent_enrich_span;
     get_tags := fun self =>
       insert_some "http.referer" (headers self !! "referer"%string) (tags_of
         [("http.url", rest_url self); ("http.url_details.path", path (rc self));
          ("http.method", method (rc self)); ("http.route", resource_path (rc self));
          ("http.user_agent", user_agent (identity (rc self)));
          (FUNCTION_TRIGGER_EVENT_SOURCE_TAG, "api-gateway")]%string);
     get_arn := fun self region =>
       ("arn:" +:+ get_aws_partition_by_region region +:+ ":apigateway:" +:+ region +:+
        "::/restapis/" +:+ api_id (rc self) +:+ "/stages/" +:+ stage (rc self))%string;
     get_carrier := headers;
     is_async := fun self => event_invocation (headers self);
     get_dsm_edge_tags := fun _ => None;
     get_payload_size_bytes := fun _ => f64_zero;
     get_dsm_checkpoints := fun self _ => [];
     get_dd_resource_key := fun self region =>
       if bool_decide (api_id (rc self) = EmptyString) then None
       else Some ("arn:" +:+ get_aws_partition_by_region region +:+ ":apigateway:" +:+ region +:+
                  "::/restapis/" +:+ api_id (rc self))%string |}.
End RestImpl.

Section WebSocketImpl.
Import WebSocketEvent.
#[local] Abbreviation rc := request_context.

Definition APIGatewayWebSocketEvent_resolver : ServiceNameResolver APIGatewayWebSocketEvent :=
  {| get_specific_identifier := fun self => api_id (rc self);
     get_generic_identifier := fun _ => "lambda_api_gateway"%string |}.
#[local] Existing Instance APIGatewayWebSocketEvent_resolver.

Definition ws_url (self : APIGatewayWebSocketEvent) : string :=
  ("https://" +:+ domain_name (rc self) +:+ route_key (rc self))%string.

Definition APIGatewayWebSocketEvent_Trigger : Trigger APIGatewayWebSocketEvent :=
  {| new := fun payload => Done (de_ws_event payload);
     is_match := fun payload =>
       is_some (value_get payload "requestContext" ≫= fun v => value_get v "messageDirection");
     enrich_span := fun self span service_mapping aws_service_representation_enabled =>
       let start_time := ms_to_ns (time_epoch (rc self)) in
       let service_name := resolve_service_name self service_mapping
         (domain_name (rc self)) "api_gateway_websocket" aws_service_representation_enabled in
       enriched span "aws.apigateway" service_name (route_key (rc self)) "web" start_time
         [("endpoint", route_key (rc self)); ("resource_names", route_key (rc self));
          ("http.url", ws_url self); ("request_id", request_id (rc self));
          ("apiid", api_id (rc self)); ("stage", stage (rc self));
          ("connection_id", connection_id (rc self)); ("event_type", event_type (rc self));
          ("message_direction", message_direction (rc self))]%string;
     get_tags := fun self =>
       insert_some "http.referer" (headers self !! "referer"%string) (tags_of
         [("http.url", ws_url self); ("http.url_details.path", route_key (rc self));
          (FUNCTION_TRIGGER_EVENT_SOURCE_TAG, "api-gateway")]%string);
     get_arn := fun self region =>
       ("arn:" +:+ get_aws_partition_by_region region +:+ ":apigateway:" +:+ region +:+
        "::/apis/" +:+ api_id (rc self) +:+ "/stages/" +:+ stage (rc self))%string;
     get_carrier := headers;
     is_async := fun _ => true;
     get_dsm_edge_tags := fun _ => None;
     get_payload_size_bytes := fun _ => f64_zero;
     get_dsm_checkpoints := fun self _ => [];
     get_dd_resource_key := fun _ _ => None |}.
End WebSocketImpl.

Section AlbImpl.
Import AlbEvent.

Definition ALBEvent_resolver : ServiceNameResolver ALBEvent :=
  {| get_specific_identifier := fun self =>
       str_split_nth 1 "/" (target_group_arn (elb (request_context self)));
     get_generic_identifier := fun _ => "lambda_application_load_balancer"%string |}.
#[local] Existing Instance ALBEvent_resolver.

Definition ALBEvent_Trigger : Trigger ALBEvent :=
  {| new := fun payload => Done (de_alb_event payload);
     is_match := fun payload =>
       is_some ((value_get payload "requestContext" ≫= fun v => value_get v "elb") ≫=
                fun v => value_get v "targetGroupArn");
     enrich_span := fun _ span _ _ => span;
     get_tags := fun self => tags_of
       [("http.method", http_method self);
        (FUNCTION_TRIGGER_EVENT_SOURCE_TAG, "application-load-balancer")]%string;
     get_arn := fun self _ => target_group_arn (elb (request_context self));
     get_carrier := fun self =>
       if bool_decide (headers self = ∅) then
         foldl (fun flat_map kv => match head kv.2 with
                                   | Some first_val => <[lowercase kv.1 := first_val]> flat_map
                                   | None => flat_map
                                   end) ∅ (hash_iter (multi_value_headers self))
       else headers self;
     is_async := fun _ => true;
     get_dsm_edge_tags := fun _ => None;
     get_payload_size_bytes := fun _ => f64_zero;
     get_dsm_checkpoints := fun self _ => [];
     get_dd_resource_key := fun _ _ => None |}.
End AlbImpl.

Section UrlImpl.
Import UrlEvent.
#[local] Abbreviation rc := request_context.

Definition LambdaFunctionUrlEvent_resolver : ServiceNameResolver LambdaFunctionUrlEvent :=
  {| get_specific_identifier := fun self => api_id (rc self);
     get_generic_identifier := fun _ => "lambda_url"%string |}.
#[local] Existing Instance LambdaFunctionUrlEvent_resolver.

Definition function_url (self : LambdaFunctionUrlEvent) : string :=
  ("https://" +:+ domain_name (rc self) +:+ path (http (rc self)))%string.

Definition LambdaFunctionUrlEvent_Trigger : Trigger LambdaFunctionUrlEvent :=
  {| new := fun payload => Done (de_url_event payload);
     is_match := fun payload =>
       match (value_get payload "requestContext" ≫= fun d => value_get d "domainName") ≫= as_str with
       | Some dn => contains "lambda-url" dn
       | None => false
       end;
     enrich_span := fun self span service_mapping aws_service_representation_enabled =>
       let h := http (rc self) in
       let resource := (method h +:+ " " +:+ path h)%string in
       let start_time := ms_to_ns (time_epoch (rc self)) in
       let service_name := resolve_service_name self service_mapping
         (domain_name (rc self)) (domain_name (rc self)) aws_service_representation_enabled in
       enriched span "aws.lambda.url" service_name resource "http" start_time
         [("endpoint", path h); ("http.url", function_url self); ("http.method", method h);
          ("http.user_agent", user_agent h); ("http.source_ip", source_ip h);
          ("http.protocol", protocol h); ("operation_name", "aws.lambda.url");
          ("request_id", request_id (rc self))]%string;
     get_tags := fun self =>
       let h := http (rc self) in
       insert_some "http.referer" (headers self !! "referer"%string) (tags_of
         [("http.url", function_url self); ("http.url_details.path", path h);
          ("http.method", method h); ("http.user_agent", user_agent h);
          (FUNCTION_TRIGGER_EVENT_SOURCE_TAG, "lambda-function-url")]%string);
     get_arn := fun self region =>
       let function_name := default EmptyString (env_var "AWS_LAMBDA_FUNCTION_NAME") in
       ("arn:" +:+ get_aws_partition_by_region region +:+ ":lambda:" +:+ region +:+ ":" +:+
        account_id (rc self) +:+ ":url:" +:+ function_name)%string;
     get_carrier := headers;
     is_async := fun self => event_invocation (headers self);
     get_dsm_edge_tags := fun _ => None;
     get_payload_size_bytes := fun _ => f64_zero;
     get_dsm_checkpoints := fun self _ => [];
     get_dd_resource_key := fun _ _ => None |}.
End UrlImpl.

(** * Messages *)

Section EventBridgeImpl.
Import EventBridge.

Definition DATADOG_START_TIME_KEY : string := "x-datadog-start-time".
Definition DATADOG_RESOURCE_NAME_KEY : string := "x-datadog-resource-name".

(** A carrier that is not a map of strings counts as empty. *)
Definition carrier_of_value (v : Value) : gmap string string := default ∅ (de_map de_string v).

Definition EventBridgeEvent_get_carrier (self : EventBridgeEvent) : gmap string string :=
  match de_map de_value (detail self) ≫= fun detail => detail !! DATADOG_CARRIER_KEY with
  | Some carrier => carrier_of_value carrier
  | None => ∅
  end.

Definition EventBridgeEvent_resolver : ServiceNameResolver EventBridgeEvent :=
  {| get_specific_identifier := fun self =>
       default (source self) (EventBridgeEvent_get_carrier self !! DATADOG_RESOURCE_NAME_KEY);
     get_generic_identifier := fun _ => "lambda_eventbridge"%string |}.
#[local] Existing Instance EventBridgeEvent_resolver.

(** The bus of the first rule ARN that names one. *)
Definition event_bus_name (self : EventBridgeEvent) : option string :=
  head (omap (fun arn =>
    rest ← split_nth1 ":rule/" arn;
    match str_split "/" rest with
    | first :: _ :: _ => non_empty first
    | _ => None
    end) (resources self)).

Definition EventBridgeEvent_get_dsm_edge_tags (self : EventBridgeEvent) : option (list string) :=
  Some (["direction:in"; "type:eventbridge"]%string ++
        option_list ((fun bus => "exchange:" +:+ bus)%string <$> event_bus_name self) ++
        ["topic:" +:+ detail_type self]%string).

Definition EventBridgeEvent_payload_size (self : EventBridgeEvent) : f64 :=
  match value_to_string (detail self) with
  | Some s => f64_of_Z (Z.of_nat (String.length s))
  | None => f64_zero
  end.

Definition EventBridgeEvent_enrich_span (self : EventBridgeEvent) (span : Span)
    (service_mapping : gmap string string) (aws_service_representation_enabled : bool) : Span :=
  let start_time_seconds := nanos_or_millis S_TO_NS (time self) in
  let carrier := EventBridgeEvent_get_carrier self in
  let resource_name := get_specific_identifier self in
  let start_time :=
    match carrier !! DATADOG_START_TIME_KEY ≫= parse_f64 with
    | Some s => f64_to_i64 (fmul s MS_TO_NS)
    | None => start_time_seconds
    end in
  let service_name := resolve_service_name self service_mapping
    (get_specific_identifier self) "eventbridge" aws_service_representation_enabled in
  enriched span "aws.eventbridge" service_name resource_name "web" start_time
    [("operation_name", "aws.eventbridge"); ("detail_type", detail_type self)]%string.

Definition EventBridgeEvent_Trigger : Trigger EventBridgeEvent :=
  {| new := fun payload => Done (de_event_bridge payload);
     is_match := fun payload =>
       is_some (value_get payload "detail-type") &&
       match value_get payload "source" ≫= as_str with
       | Some s => negb (bool_decide (s = "aws.events"%string))
       | None => false
       end;
     enrich_span := EventBridgeEvent_enrich_span;
     get_tags := fun _ => tags_of [(FUNCTION_TRIGGER_EVENT_SOURCE_TAG, "eventbridge"%string)];
     get_arn := fun self _ => source self;
     get_carrier := EventBridgeEvent_get_carrier;
     is_async := fun _ => true;
     get_dsm_edge_tags := EventBridgeEvent_get_dsm_edge_tags;
     get_payload_size_bytes := EventBridgeEvent_payload_size;
     get_dsm_checkpoints := fun self _ => option_list
       (dsm_checkpoint_of (EventBridgeEvent_get_dsm_edge_tags self)
          (EventBridgeEvent_get_carrier self) (EventBridgeEvent_payload_size self));
     get_dd_resource_key := fun _ _ => None |}.
End EventBridgeImpl.

Section SnsImpl.
Import SnsEvent.

Definition SnsRecord_resolver : ServiceNameResolver SnsRecord :=
  {| get_specific_identifier := fun self => split_last ":" (topic_arn (sns self));
     get_generic_identifier := fun _ => "lambda_sns"%string |}.
#[local] Existing Instance SnsRecord_resolver.

Definition SnsRecord_get_carrier (self : SnsRecord) : gmap string string :=
  match message_attributes (sns self) !! DATADOG_CARRIER_KEY with
  | Some ma =>
      if bool_decide (type_ ma = "String"%string) then default ∅ (string_map_from_str (value ma))
      else if bool_decide (type_ ma = "Binary"%string) then
        match base64_to_string (value ma) with
        | Some carrier => default ∅ (string_map_from_str carrier)
        | None => ∅
        end
      else ∅
  | None =>
      match message (sns self) ≫= event_bridge_from_str with
      | Some event => EventBridgeEvent_get_carrier event
      | None => ∅
      end
  end.

Definition SnsRecord_enrich_span (self : SnsRecord) (span : Span)
    (service_mapping : gmap string string) (aws_service_representation_enabled : bool) : Span :=
  let resource_name := get_specific_identifier self in
  let start_time := nanos_or_millis MS_TO_NS (timestamp (sns self)) in
  let service_name := resolve_service_name self service_mapping
    (get_specific_identifier self) "sns" aws_service_representation_enabled in
  let span := enriched span "aws.sns" service_name resource_name "web" start_time
    [("operation_name", "aws.sns"); ("topicname", resource_name);
     ("topic_arn", topic_arn (sns self)); ("message_id", message_id (sns self));
     ("type", entity_type (sns self))]%string in
  with_meta span (insert_some "event_subscription_arn" (event_subscription_arn self)
    (insert_some "subject" (subject (sns self)) (meta span))).

Definition SnsRecord_get_dsm_edge_tags (self : SnsRecord) : option (list string) :=
  Some ["direction:in"; ("topic:" +:+ topic_arn (sns self)); "type:sns"]%string.

Definition SnsRecord_payload_size (self : SnsRecord) : f64 :=
  match message (sns self) with
  | Some m => f64_of_Z (Z.of_nat (String.length m))
  | None => f64_zero
  end.

Definition SnsRecord_Trigger : Trigger SnsRecord :=
  {| new := new_from_records de_sns_record;
     is_match := fun payload =>
       match first_record payload with Some r => is_some (value_get r "Sns") | None => false end;
     enrich_span := SnsRecord_enrich_span;
     get_tags := fun _ => tags_of [(FUNCTION_TRIGGER_EVENT_SOURCE_TAG, "sns"%string)];
     get_arn := fun self _ => topic_arn (sns self);
     get_carrier := SnsRecord_get_carrier;
     is_async := fun _ => true;
     get_dsm_edge_tags := SnsRecord_get_dsm_edge_tags;
     get_payload_size_bytes := SnsRecord_payload_size;
     get_dsm_checkpoints := fun _ => dsm_checkpoints_from_records de_sns_record (fun record =>
       dsm_checkpoint_of (SnsRecord_get_dsm_edge_tags record) (SnsRecord_get_carrier record)
         (SnsRecord_payload_size record));
     get_dd_resource_key := fun _ _ => None |}.
End SnsImpl.

Section SqsImpl.
Import SqsEvent.

Definition SqsRecord_resolver : ServiceNameResolver SqsRecord :=
  {| get_specific_identifier := fun self => split_last ":" (event_source_arn self);
     get_generic_identifier := fun _ => "lambda_sqs"%string |}.
#[local] Existing Instance SqsRecord_resolver.

(** The carrier of an attribute, when it settles the question. *)
Definition attribute_carrier (ma : MessageAttribute) : option (gmap string string) :=
  if starts_with "String" (data_type ma) then
    s ← string_value ma; Some (default ∅ (string_map_from_str s))
  else if starts_with "Binary" (data_type ma) then
    b ← binary_value ma; carrier ← base64_to_string b; Some (default ∅ (string_map_from_str carrier))
  else None.

Definition sns_of (entity : SnsEvent.SnsEntity) : SnsEvent.SnsRecord :=
  {| SnsEvent.sns := entity; SnsEvent.event_subscription_arn := None |}.

Definition SqsRecord_get_carrier (self : SqsRecord) : gmap string string :=
  match message_attributes self !! DATADOG_CARRIER_KEY ≫= attribute_carrier with
  | Some carrier => carrier
  | None =>
      match sns_entity_from_str (body self) with
      | Some entity => SnsRecord_get_carrier (sns_of entity)
      | None =>
          match event_bridge_from_str (body self) with
          | Some event => EventBridgeEvent_get_carrier event
          | None => ∅
          end
      end
  end.

Definition SqsRecord_enrich_span (self : SqsRecord) (span : Span)
    (service_mapping : gmap string string) (aws_service_representation_enabled : bool) : Span :=
  let resource := get_specific_identifier self in
  let start_time := ms_to_ns (default 0 (parse_i64 (sent_timestamp (attributes self)))) in
  let service_name := resolve_service_name self service_mapping
    (get_specific_identifier self) "sqs" aws_service_representation_enabled in
  enriched span "aws.sqs" service_name resource "web" start_time
    [("operation_name", "aws.sqs"); ("receipt_handle", receipt_handle self);
     ("retry_count", approximate_receive_count (attributes self));
     ("sender_id", sender_id (attributes self)); ("source_arn", event_source_arn self);
     ("aws_region", aws_region self)]%string.

Definition SqsRecord_get_dsm_edge_tags (self : SqsRecord) : option (list string) :=
  Some ["direction:in"; ("topic:" +:+ split_last ":" (event_source_arn self)); "type:sqs"]%string.

Definition SqsRecord_payload_size (self : SqsRecord) : f64 :=
  f64_of_Z (Z.of_nat (String.length (body self))).

Definition SqsRecord_Trigger : Trigger SqsRecord :=
  {| new := new_from_records de_sqs_record;
     is_match := fun payload =>
       match first_record payload with
       | Some r => bool_decide (value_get r "eventSource" ≫= as_str = Some "aws:sqs"%string)
       | None => false
       end;
     enrich_span := SqsRecord_enrich_span;
     get_tags := fun self => tags_of
       [("retry_count", approximate_receive_count (attributes self));
        ("sender_id", sender_id (attributes self)); ("source_arn", event_source_arn self);
        ("aws_region", aws_region self); (FUNCTION_TRIGGER_EVENT_SOURCE_TAG, "sqs")]%string;
     get_arn := fun self region =>
       match str_split ":" (event_source_arn self) with
       | [_; _; _; _; account; queue_name] =>
           ("arn:" +:+ get_aws_partition_by_region region +:+ ":sqs:" +:+ region +:+ ":" +:+
            account +:+ ":" +:+ queue_name)%string
       | _ => EmptyString
       end;
     get_carrier := SqsRecord_get_carrier;
     is_async := fun _ => true;
     get_dsm_edge_tags := SqsRecord_get_dsm_edge_tags;
     get_payload_size_bytes := SqsRecord_payload_size;
     get_dsm_checkpoints := fun _ => dsm_checkpoints_from_records de_sqs_record (fun record =>
       dsm_checkpoint_of (SqsRecord_get_dsm_edge_tags record) (SqsRecord_get_carrier record)
         (SqsRecord_payload_size record));
     get_dd_resource_key := fun _ _ => None |}.
End SqsImpl.

Section KinesisImpl.
Import KinesisEvent.

Definition KinesisRecord_resolver : ServiceNameResolver KinesisRecord :=
  {| get_specific_identifier := fun self => split_last "/" (event_source_arn self);
     get_generic_identifier := fun _ => "lambda_kinesis"%string |}.
#[local] Existing Instance KinesisRecord_resolver.

Definition KinesisRecord_get_carrier (self : KinesisRecord) : gmap string string :=
  match (b64_decode (data (kinesis self)) ≫= value_map_from_slice) ≫=
        fun m => m !! DATADOG_CARRIER_KEY with
  | Some carrier => carrier_of_value carrier
  | None => ∅
  end.

(** The meta of the span is replaced, not extended. *)
Definition KinesisRecord_enrich_span (self : KinesisRecord) (span : Span)
    (service_mapping : gmap string string) (aws_service_representation_enabled : bool) : Span :=
  let stream_name := get_specific_identifier self in
  let shard_id := str_split_nth 0 ":" (event_id self) in
  let service_name := resolve_service_name self service_mapping
    stream_name "kinesis" aws_service_representation_enabled in
  let start_time := f64_to_i64 (fmul (approximate_arrival_timestamp (kinesis self)) S_TO_NS) in
  let span := enriched span "aws.kinesis" service_name stream_name "web" start_time [] in
  with_meta span (tags_of
    [("operation_name", "aws.kinesis"); ("stream_name", stream_name); ("shard_id", shard_id);
     ("event_source_arn", event_source_arn self); ("event_id", event_id self);
     ("event_name", event_name self); ("event_version", event_version self);
     ("partition_key", partition_key (kinesis self))]%string).

Definition KinesisRecord_get_dsm_edge_tags (self : KinesisRecord) : option (list string) :=
  let stream := split_last "/" (event_source_arn self) in
  if bool_decide (stream = EmptyString) then Some ["direction:in"; "type:kinesis"]%string
  else Some ["direction:in"; ("topic:" +:+ stream); "type:kinesis"]%string.

Definition KinesisRecord_payload_size (self : KinesisRecord) : f64 :=
  match b64_decode (data (kinesis self)) with
  | Some b => f64_of_Z (Z.of_nat (length b))
  | None => f64_zero
  end.

Definition KinesisRecord_Trigger : Trigger KinesisRecord :=
  {| new := new_from_records de_kinesis_record;
     is_match := fun payload =>
       match first_record payload with Some r => is_some (value_get r "kinesis") | None => false end;
     enrich_span := KinesisRecord_enrich_span;
     get_tags := fun _ => tags_of [(FUNCTION_TRIGGER_EVENT_SOURCE_TAG, "kinesis"%string)];
     get_arn := fun self _ => event_source_arn self;
     get_carrier := KinesisRecord_get_carrier;
     is_async := fun _ => true;
     get_dsm_edge_tags := KinesisRecord_get_dsm_edge_tags;
     get_payload_size_bytes := KinesisRecord_payload_size;
     get_dsm_checkpoints := fun _ => dsm_checkpoints_from_records de_kinesis_record (fun record =>
       dsm_checkpoint_of (KinesisRecord_get_dsm_edge_tags record)
         (KinesisRecord_get_carrier record) (KinesisRecord_payload_size record));
     get_dd_resource_key := fun _ _ => None |}.
End KinesisImpl.

Section DynamoDbImpl.
Import DynamoDbEvent.

Definition DynamoDbRecord_resolver : ServiceNameResolver DynamoDbRecord :=
  {| get_specific_identifier := fun self => str_split_nth 1 "/" (event_source_arn self);
     get_generic_identifier := fun _ => "lambda_dynamodb"%string |}.
#[local] Existing Instance DynamoDbRecord_resolver.

Definition AttributeValue_to_string (self : AttributeValue) : option string :=
  match self with
  | S string_value => Some string_value
  | N number_value => Some number_value
  | B binary_value => bytes ← b64_decode binary_value; from_utf8 bytes
  end.

Definition DynamoDbRecord_Trigger : Trigger DynamoDbRecord :=
  {| new := new_from_records de_dynamodb_record;
     is_match := fun payload =>
       match first_record payload with Some r => is_some (value_get r "dynamodb") | None => false end;
     enrich_span := fun self span service_mapping aws_service_representation_enabled =>
       let table_name := get_specific_identifier self in
       let resource := (event_name self +:+ " " +:+ table_name)%string in
       let start_time :=
         f64_to_i64 (fmul (approximate_creation_date_time (dynamodb self)) S_TO_NS) in
       let service_name := resolve_service_name self service_mapping
         table_name "dynamodb" aws_service_representation_enabled in
       enriched span "aws.dynamodb" service_name resource "web" start_time
         [("operation_name", "aws.dynamodb"); ("event_id", event_id self);
          ("event_name", event_name self); ("event_version", event_version self);
          ("event_source_arn", event_source_arn self);
          ("size_bytes", pretty (size_bytes (dynamodb self)));
          ("stream_view_type", stream_view_type (dynamodb self));
          ("table_name", table_name)]%string;
     get_tags := fun _ => tags_of [(FUNCTION_TRIGGER_EVENT_SOURCE_TAG, "dynamodb"%string)];
     get_arn := fun self _ => event_source_arn self;
     get_carrier := fun _ => ∅;
     is_async := fun _ => true;
     get_dsm_edge_tags := fun _ => None;
     get_payload_size_bytes := fun _ => f64_zero;
     get_dsm_checkpoints := fun _ _ => [];
     get_dd_resource_key := fun _ _ => None |}.

(** One key, or the first two in order. *)
Definition DynamoDbRecord_get_span_pointers (self : DynamoDbRecord) : option (list SpanPointer) :=
  let keys := keys (dynamodb self) in
  let value k := keys !! k ≫= AttributeValue_to_string in
  let table_name := get_specific_identifier self in
  parts ← match merge_sort String.le (fst <$> map_to_list keys) with
          | [] => None
          | [key] => v ← value key; Some [table_name; key; v; EmptyString; EmptyString]
          | k1 :: k2 :: _ => v1 ← value k1; v2 ← value k2; Some [table_name; k1; v1; k2; v2]
          end;
  Some [{| ptr_hash := generate_span_pointer_hash parts; ptr_kind := "aws.dynamodb.item" |}].
End DynamoDbImpl.

Section S3Impl.
Import S3Event.

Definition S3Record_resolver : ServiceNameResolver S3Record :=
  {| get_specific_identifier := fun self => name (bucket (s3 self));
     get_generic_identifier := fun _ => "lambda_s3"%string |}.
#[local] Existing Instance S3Record_resolver.

Definition S3Record_Trigger : Trigger S3Record :=
  {| new := new_from_records de_s3_record;
     is_match := fun payload =>
       match first_record payload with Some r => is_some (value_get r "s3") | None => false end;
     enrich_span := fun self span service_mapping aws_service_representation_enabled =>
       let bucket_name := get_specific_identifier self in
       let start_time := nanos_or_millis MS_TO_NS (event_time self) in
       let service_name := resolve_service_name self service_mapping
         bucket_name "s3" aws_service_representation_enabled in
       enriched span "aws.s3" service_name bucket_name "web" start_time
         [("operation_name", "aws.s3"); ("event_name", event_name self);
          ("bucketname", bucket_name); ("bucket_arn", arn (bucket (s3 self)));
          ("object_key", key (object (s3 self))); ("object_size", pretty (size (object (s3 self))));
          ("object_etag", e_tag (object (s3 self)))]%string;
     get_tags := fun _ => tags_of [(FUNCTION_TRIGGER_EVENT_SOURCE_TAG, "s3"%string)];
     get_arn := fun self _ => event_source self;
     get_carrier := fun _ => ∅;
     is_async := fun _ => true;
     get_dsm_edge_tags := fun _ => None;
     get_payload_size_bytes := fun _ => f64_zero;
     get_dsm_checkpoints := fun _ _ => [];
     get_dd_resource_key := fun _ _ => None |}.

Definition S3Record_get_span_pointers (self : S3Record) : option (list SpanPointer) :=
  let bucket_name := name (bucket (s3 self)) in
  let key := key (object (s3 self)) in
  let e_tag := trim_char QUOTE (e_tag (object (s3 self))) in
  if bool_decide (bucket_name = EmptyString) || bool_decide (key = EmptyString) ||
     bool_decide (e_tag = EmptyString) then None
  else Some [{| ptr_hash := generate_span_pointer_hash [bucket_name; key; e_tag];
                ptr_kind := "aws.s3.object" |}].
End S3Impl.

Section MskImpl.
Import MskEvent.

(** Stable, by the first component. *)
Fixpoint insert_by_key (p : Z * Z) (l : list (Z * Z)) : list (Z * Z) :=
  match l with
  | [] => [p]
  | q :: l => if fst p <=? fst q then p :: q :: l else q :: insert_by_key p l
  end.
Definition sort_by_key (l : list (Z * Z)) : list (Z * Z) := foldr insert_by_key [] l.

Definition u8_of_u64 (n : Z) : option Z := if n <=? U8_MAX then Some n else None.

Definition bytes_from_header_value (val : Value) : option (list Z) :=
  match val with
  | VArray arr =>
      mapM (fun v => match v with
                     | VNumber _ => as_u64 v ≫= u8_of_u64
                     | VString s => parse_u8 s
                     | _ => None
                     end) arr
  | VObject obj =>
      let pairs := omap (fun kv => k ← parse_u64 kv.1; s ← as_str kv.2; b ← parse_u8 s; Some (k, b)) obj in
      Some (snd <$> sort_by_key pairs)
  | _ => None
  end.

Definition is_trace_context_entry (entry : Value) : bool :=
  match entry with
  | VObject header_map =>
      existsb (fun kv => eq_ignore_ascii_case kv.1 "x-datadog-trace-id" ||
                         eq_ignore_ascii_case kv.1 "traceparent") header_map
  | _ => false
  end.

Definition headers_has_trace_context (headers : Value) : bool :=
  match headers with
  | VArray arr => existsb is_trace_context_entry arr
  | VObject obj => existsb is_trace_context_entry (snd <$> obj)
  | _ => false
  end.

(** The records of a group, an array or an object with numeric keys. *)
Definition group_records (group : Value) : list Value :=
  match group with VArray arr => arr | VObject obj => snd <$> obj | _ => [] end.

Definition has_trace_context (record : Value) : bool :=
  match value_get record "headers" with
  | Some headers => headers_has_trace_context headers
  | None => false
  end.

Definition find_record_with_trace_context (records_map : Map) : option (string * Value) :=
  head (mjoin ((fun kg => pair kg.1 <$> filter (fun r => has_trace_context r) (group_records kg.2))
                 <$> records_map)).

Definition insert_headers (carrier : gmap string string) (entry : Value) : gmap string string :=
  match entry with
  | VObject header_map =>
      foldl (fun carrier kv =>
        match bytes_from_header_value kv.2 ≫= from_utf8 with
        | Some s => <[lowercase kv.1 := s]> carrier
        | None => carrier
        end) carrier header_map
  | _ => carrier
  end.

Definition headers_to_string_map (headers : Value) : gmap string string :=
  foldl insert_headers ∅ (group_records headers).

(** [*records_map = ...; payload["records"] = records_map]. *)
Definition set_records (payload : Value) (records_map : Map) : Value :=
  match payload with
  | VObject entries => VObject (map_update entries "records" (VObject records_map))
  | _ => payload
  end.

Definition MSKEvent_new (payload : Value) : option MSKEvent :=
  let records := value_get payload "records" ≫= as_object in
  records_map ← records;
  records_map ←
    match find_record_with_trace_context records_map with
    | Some (chosen_key, chosen_record) =>
        let kept := map_retain records_map (fun k => bool_decide (k = chosen_key)) in
        Some (map_update kept chosen_key (VArray [chosen_record]))
    | None =>
        first_key ← head (fst <$> records_map);
        let kept := map_retain records_map (fun k => bool_decide (k = first_key)) in
        match map_get kept first_key with
        | Some (VArray arr) => Some (map_update kept first_key (VArray (take 1 arr)))
        | Some (VObject obj) =>
            first ← head (snd <$> obj); Some (map_update kept first_key (VArray [first]))
        | Some _ => None
        | None => Some kept
        end
    end;
  de_msk_event (set_records payload records_map).

Definition MSKEvent_resolver : ServiceNameResolver MSKEvent :=
  {| get_specific_identifier := fun self => str_split_nth 1 "/" (event_source_arn self);
     get_generic_identifier := fun _ => "lambda_msk"%string |}.
#[local] Existing Instance MSKEvent_resolver.

(** [self.records.values().find_map(|arr| arr.first())]. *)
Definition first_msk_record (self : MSKEvent) : option MSKRecord :=
  head (omap (fun kv => head kv.2) (hash_iter (records self))).

Definition MSKEvent_enrich_span (self : MSKEvent) (span : Span)
    (service_mapping : gmap string string) (aws_service_representation_enabled : bool) : Span :=
  let service_name := resolve_service_name self service_mapping
    (get_specific_identifier self) "msk" aws_service_representation_enabled in
  match first_msk_record self with
  | Some first_value =>
      enriched span "aws.msk" service_name (topic first_value) "web"
        (f64_to_i64 (fmul (timestamp first_value) MS_TO_NS))
        [("operation_name", "aws.msk"); ("topic", topic first_value);
         ("partition", pretty (partition first_value)); ("event_source", event_source self);
         ("event_source_arn", event_source_arn self)]%string
  | None => enriched span "aws.msk" service_name (resource span) "web" (start span) []
  end.

Definition MSKEvent_get_dsm_checkpoints (payload : Value) : list DsmCheckpointInput :=
  match value_get payload "records" ≫= as_object with
  | None => []
  | Some records_map =>
      omap (fun record =>
        topic ← value_get record "topic" ≫= as_str;
        Some {| edge_tags := ["direction:in"; ("topic:" +:+ topic); "type:kafka"]%string;
                carrier := match value_get record "headers" with
                           | Some headers => headers_to_string_map headers
                           | None => ∅
                           end;
                payload_size_bytes :=
                  match (value_get record "value" ≫= as_str) ≫= b64_decode with
                  | Some b => f64_of_Z (Z.of_nat (length b))
                  | None => f64_zero
                  end |})
        (mjoin ((fun kg => group_records kg.2) <$> records_map))
  end.

Definition MSKEvent_Trigger : Trigger MSKEvent :=
  {| new := fun payload => Done (MSKEvent_new payload);
     is_match := fun payload =>
       let first_record_group :=
         (value_get payload "records" ≫= as_object) ≫= fun map => head (snd <$> map) in
       let first_record :=
         match first_record_group with
         | Some (VArray arr) => head arr
         | Some (VObject obj) => head (snd <$> obj)
         | _ => None
         end in
       match first_record with Some rec => is_some (value_get rec "topic") | None => false end;
     enrich_span := MSKEvent_enrich_span;
     get_tags := fun _ => tags_of [(FUNCTION_TRIGGER_EVENT_SOURCE_TAG, "msk"%string)];
     get_arn := fun self _ => event_source_arn self;
     get_carrier := fun self => match first_msk_record self with
                                | Some record => headers_to_string_map (headers record)
                                | None => ∅
                                end;
     is_async := fun _ => true;
     get_dsm_edge_tags := fun _ => None;
     get_payload_size_bytes := fun _ => f64_zero;
     get_dsm_checkpoints := fun _ => MSKEvent_get_dsm_checkpoints;
     get_dd_resource_key := fun _ _ => None |}.
End MskImpl.

(** * Step Functions *)

Section StepFunctionImpl.
Import StepFunction.
Context {SamplingPriority : Type} (parse_priority : string -> option SamplingPriority).

Definition DATADOG_LEGACY_LAMBDA_PAYLOAD : string := "Payload".

Definition StepFunctionEvent_resolver : ServiceNameResolver StepFunctionEvent :=
  {| get_specific_identifier := fun _ => EmptyString;
     get_generic_identifier := fun _ => "lambda_stepfunction"%string |}.
#[local] Existing Instance StepFunctionEvent_resolver.

(** The object the event is read from. *)
Definition step_function_payload (payload : Value) : Value :=
  let p := default payload (value_get payload DATADOG_LEGACY_LAMBDA_PAYLOAD) in
  default p (value_get p DATADOG_CARRIER_KEY).

Definition StepFunctionEvent_Trigger : Trigger StepFunctionEvent :=
  {| new := fun payload => Done (de_step_function (step_function_payload payload));
     is_match := fun payload =>
       let p := step_function_payload payload in
       let execution_id := (value_get p "Execution" ≫= as_object) ≫= fun e => map_get e "Id" in
       let state := value_get p "State" ≫= as_object in
       let name := state ≫= fun s => map_get s "Name" in
       let entered_time := state ≫= fun s => map_get s "EnteredTime" in
       is_some execution_id && is_some name && is_some entered_time;
     enrich_span := fun _ span _ _ => span;
     get_tags := fun _ => tags_of [(FUNCTION_TRIGGER_EVENT_SOURCE_TAG, "states"%string)];
     get_arn := fun self _ =>
       match state_machine self with Some sm => machine_id sm | None => EmptyString end;
     get_carrier := fun _ => ∅;
     is_async := fun _ => true;
     get_dsm_edge_tags := fun _ => None;
     get_payload_size_bytes := fun _ => f64_zero;
     get_dsm_checkpoints := fun _ _ => [];
     get_dd_resource_key := fun _ _ => None |}.

Definition get_positive_u64 (hash_bytes : list Z) : Z :=
  let result := foldl (fun acc byte => wrap_u64 (wrap_u64 (Z.shiftl acc 8) + byte)) 0
                  (take 8 hash_bytes) in
  let result := Z.land result (Z.lxor U64_MAX (Z.shiftl 1 63)) in
  if result =? 0 then 1 else result.

Definition generate_parent_id (execution_id state_name state_entered_time : string)
    (retry_count redrive_count : Z) : Z :=
  let unique_string := (execution_id +:+ "#" +:+ state_name +:+ "#" +:+ state_entered_time)%string in
  let unique_string :=
    if negb (retry_count =? 0) || negb (redrive_count =? 0)
    then (unique_string +:+ "#" +:+ pretty retry_count +:+ "#" +:+ pretty redrive_count)%string
    else unique_string in
  get_positive_u64 (take 8 (sha256_digest (as_bytes unique_string))).

(** The low and the high 64 bits. *)
Definition generate_trace_id (execution_arn : string) : Z * Z :=
  let hash := sha256_digest (as_bytes execution_arn) in
  (get_positive_u64 (take 8 (drop 8 hash)), get_positive_u64 (take 8 hash)).

Definition StepFunctionEvent_get_span_context (self : StepFunctionEvent) : SpanContext SamplingPriority :=
  let '(lo_tid, tags) :=
    match trace_id self, trace_tags self with
    | Some trace_id, Some trace_tags =>
        (default (generate_trace_id (id (execution self))).1 (parse_u64 trace_id),
         extract_propagation_tags trace_tags)
    | _, _ =>
        let execution_arn := default (id (execution self)) (root_execution_id self) in
        let '(lo_tid, hi_tid) := generate_trace_id execution_arn in
        (lo_tid, tags_of [(DATADOG_HIGHER_ORDER_TRACE_ID_BITS_KEY, to_hex hi_tid)])
    end in
  let parent_id := generate_parent_id (id (execution self)) (name (state self))
    (entered_time (state self)) (retry_count (state self)) (redrive_count (execution self)) in
  {| sc_trace_id := lo_tid; sc_span_id := parent_id; sc_priority := parse_priority "1";
     sc_origin := Some "states"%string; sc_tags := tags |}.

(** * The AWS trace header of an SQS message *)

Record TraceHeader := {
  th_trace_id : string; th_parent_id : string; th_sampled : string; datadog_planted : bool;
}.

(** One part of the header; nothing when the root is too short. *)
Definition trace_header_part (st : TraceHeader) (part : string) : option TraceHeader :=
  if starts_with "Root=" part then
    id_section ← get_from 16 part;
    Some {| th_trace_id := default EmptyString (get_from 8 id_section);
            th_parent_id := th_parent_id st; th_sampled := th_sampled st;
            datadog_planted := starts_with "00000000" id_section |}
  else match str_strip_prefix "Parent=" part with
  | Some parent_part =>
      Some {| th_trace_id := th_trace_id st; th_parent_id := parent_part;
              th_sampled := th_sampled st; datadog_planted := datadog_planted st |}
  | None =>
      if starts_with "Sampled=" part && bool_decide (th_sampled st = EmptyString) then
        Some {| th_trace_id := th_trace_id st; th_parent_id := th_parent_id st;
                th_sampled := str_drop 8 part; datadog_planted := datadog_planted st |}
      else Some st
  end.

Fixpoint trace_header_parts (st : TraceHeader) (parts : list string) : option TraceHeader :=
  match parts with
  | [] => Some st
  | part :: parts =>
      st ← trace_header_part st part;
      if negb (bool_decide (th_trace_id st = EmptyString)) &&
         negb (bool_decide (th_parent_id st = EmptyString)) &&
         negb (bool_decide (th_sampled st = EmptyString))
      then Some st else trace_header_parts st parts
  end.

Definition sampling_decision (st : TraceHeader) : option string :=
  if bool_decide (th_sampled st = "1"%string) then Some "1"%string
  else if datadog_planted st && bool_decide (th_sampled st = "0"%string) then Some "0"%string
  else None.

Definition extract_trace_context_from_aws_trace_header (headers_string : option string)
  : option (SpanContext SamplingPriority) :=
  value ← headers_string;
  if negb (starts_with "Root=" value) then None
  else
    st ← trace_header_parts {| th_trace_id := EmptyString; th_parent_id := EmptyString;
                               th_sampled := EmptyString; datadog_planted := false |}
           (str_split ";" value);
    trace_id ← parse_u64_hex (th_trace_id st);
    parent_id ← parse_u64_hex (th_parent_id st);
    if (trace_id =? 0) || (parent_id =? 0) then None
    else Some {| sc_trace_id := trace_id; sc_span_id := parent_id;
                 sc_priority := sampling_decision st ≫= parse_priority;
                 sc_origin := None; sc_tags := ∅ |}.
End StepFunctionImpl.

End Events.

#[export] Existing Instances APIGatewayHttpEvent_resolver APIGatewayHttpEvent_Trigger
  APIGatewayRestEvent_resolver APIGatewayRestEvent_Trigger
  APIGatewayWebSocketEvent_resolver APIGatewayWebSocketEvent_Trigger
  ALBEvent_resolver ALBEvent_Trigger LambdaFunctionUrlEvent_resolver
  LambdaFunctionUrlEvent_Trigger MSKEvent_resolver MSKEvent_Trigger
  SqsRecord_resolver SqsRecord_Trigger SnsRecord_resolver SnsRecord_Trigger
  DynamoDbRecord_resolver DynamoDbRecord_Trigger S3Record_resolver S3Record_Trigger
  EventBridgeEvent_resolver EventBridgeEvent_Trigger KinesisRecord_resolver
  KinesisRecord_Trigger StepFunctionEvent_resolver StepFunctionEvent_Trigger.

(** * Recognition of an event *)

Inductive IdentifiedTrigger :=
| APIGatewayHttpEvent_ (t : HttpEvent.APIGatewayHttpEvent)
| APIGatewayRestEvent_ (t : RestEvent.APIGatewayRestEvent)
| APIGatewayWebSocketEvent_ (t : WebSocketEvent.APIGatewayWebSocketEvent)
| ALBEvent_ (t : AlbEvent.ALBEvent)
| LambdaFunctionUrlEvent_ (t : UrlEvent.LambdaFunctionUrlEvent)
| MSKEvent_ (t : MskEvent.MSKEvent)
| SqsRecord_ (t : SqsEvent.SqsRecord)
| SnsRecord_ (t : SnsEvent.SnsRecord)
| DynamoDbRecord_ (t : DynamoDbEvent.DynamoDbRecord)
| S3Record_ (t : S3Event.S3Record)
| EventBridgeEvent_ (t : EventBridge.EventBridgeEvent)
| KinesisRecord_ (t : KinesisEvent.KinesisRecord)
| StepFunctionEvent_ (t : StepFunction.StepFunctionEvent)
| Unknown.

Section Identify.
Context `{Externals}.

(** One arm of [from_value]: an event that matches and cannot be read is
    [Unknown], without trying the later arms. *)
Definition arm {T} `{Trigger T} (case : T -> IdentifiedTrigger) (payload : Value)
    (otherwise : outcome IdentifiedTrigger) : outcome IdentifiedTrigger :=
  if is_match payload
  then o ← new payload; Done (match o with Some t => case t | None => Unknown end)
  else otherwise.

Definition from_value (payload : Value) : outcome IdentifiedTrigger :=
  arm APIGatewayHttpEvent_ payload
  (arm APIGatewayRestEvent_ payload
  (arm APIGatewayWebSocketEvent_ payload
  (arm ALBEvent_ payload
  (arm LambdaFunctionUrlEvent_ payload
  (arm MSKEvent_ payload
  (arm SqsRecord_ payload
  (arm SnsRecord_ payload
  (arm DynamoDbRecord_ payload
  (arm S3Record_ payload
  (arm EventBridgeEvent_ payload
  (arm KinesisRecord_ payload
  (arm StepFunctionEvent_ payload
  (Done Unknown))))))))))))).
End Identify.

(** * Recognition never panics *)

Section IdentifySafe.
Context `{Externals}.

Lemma new_from_records_total {T} (de : Value -> option T) payload r :
  first_record payload = Some r -> exists o, new_from_records de payload = Done o.
Proof.
  unfold first_record, new_from_records. intros Hr.
  destruct (value_get payload "Records" ≫= as_array) as [[|v vs]|]; [done| |done]. by eexists.
Qed.

Lemma arm_total {T} `{Trigger T} (case : T -> IdentifiedTrigger) payload otherwise :
  (is_match payload = true -> exists o, new payload = Done o) ->
  (exists t, otherwise = Done t) -> exists t, arm case payload otherwise = Done t.
Proof.
  intros Hnew Ho. unfold arm. destruct (is_match payload); [|done].
  destruct (Hnew eq_refl) as [o ->]. by eexists.
Qed.

Lemma from_value_total payload : exists t, from_value payload = Done t.
Proof.
  unfold from_value.
  repeat (apply arm_total;
    [cbn; first [by eexists
                | destruct (first_record payload) eqn:Hr; [|done];
                  intros _; by eapply new_from_records_total] |]).
  by eexists.
Qed.

(** Recognising the event of an invocation never panics: whatever JSON
    document the runtime sends, one of the thirteen triggers or none is found. *)
Theorem recognition_never_panics payload : from_value payload <> Panic.
Proof. destruct (from_value_total payload) as [t ->]. discriminate. Qed.

End IdentifySafe.

(** * Parameterized paths *)
Lemma Forall_filtered {A} (P Q : A -> Prop) `{forall x, Decision (Q x)} l :
  Forall P l -> Forall P (filter Q l).
Proof. rewrite !Forall_forall. intros HP x [_ Hx]%list_elem_of_filter. auto. Qed.

Fixpoint chars (s : string) : list ascii :=
  match s with EmptyString => [] | String c s => c :: chars s end.

Lemma append_nil a : a +:+ EmptyString = a.
Proof. induction a as [|x a IH]; [done|]. rewrite append_cons. by rewrite IH. Qed.

Lemma chars_app a b : chars (a +:+ b) = chars a ++ chars b.
Proof. induction a as [|c a IH]; [done|]. rewrite append_cons. cbn. by rewrite IH. Qed.

Lemma contains_char c s : contains (String c EmptyString) s = true <-> c ∈ chars s.
Proof.
  induction s as [|d s IH]; cbn.
  - split; [done|]. by intros ?%elem_of_nil.
  - rewrite elem_of_cons, <- IH. destruct (ascii_dec c d) as [->|Hne]; cbn.
    + destruct s; cbn; naive_solver.
    + naive_solver.
Qed.

Lemma str_split_no_sep sep s : Forall (fun p => sep ∉ chars p) (str_split sep s).
Proof.
  induction s as [|c s IH]; cbn.
  - constructor; [|constructor]. by intros ?%elem_of_nil.
  - destruct (Ascii.eqb_spec c sep) as [->|Hne].
    + constructor; [|done]. by intros ?%elem_of_nil.
    + destruct (str_split sep s) as [|p ps]; [constructor; [|constructor]|].
      * intros [->|?%elem_of_nil]%elem_of_cons; done.
      * apply Forall_cons in IH as [Hp Hps]. constructor; [|done].
        intros [->|?]%elem_of_cons; done.
Qed.

Lemma str_split_nonempty sep s : str_split sep s <> [].
Proof. destruct s as [|c s]; cbn; [done|]. by destruct (Ascii.eqb c sep), (str_split sep s). Qed.

Lemma str_split_piece sep p s :
  sep ∉ chars p -> str_split sep (p +:+ String sep s) = p :: str_split sep s.
Proof.
  induction p as [|c p IH]; intros Hp.
  - change (EmptyString +:+ String sep s) with (String sep s). cbn. by rewrite Ascii.eqb_refl.
  - rewrite append_cons. apply not_elem_of_cons in Hp as [Hc Hp]. cbn.
    destruct (Ascii.eqb_spec c sep) as [->|_]; [done|]. by rewrite IH.
Qed.

Lemma str_split_single sep p : sep ∉ chars p -> str_split sep p = [p].
Proof.
  induction p as [|c p IH]; cbn; intros Hp; [done|].
  apply not_elem_of_cons in Hp as [Hc Hp].
  destruct (Ascii.eqb_spec c sep) as [->|_]; [done|]. by rewrite IH.
Qed.

Lemma str_split_join sep pieces :
  pieces <> [] -> Forall (fun p => sep ∉ chars p) pieces ->
  str_split sep (str_join (String sep EmptyString) pieces) = pieces.
Proof.
  unfold str_join. intros Hne Hf. induction Hf as [|p ps Hp Hf IH]; [done|].
  destruct ps as [|p' ps]; [by apply str_split_single|].
  change (String.concat _ (p :: p' :: ps)) with
    (p +:+ String sep EmptyString +:+ String.concat (String sep EmptyString) (p' :: ps)).
  rewrite append_cons. change (EmptyString +:+ ?s) with s. rewrite str_split_piece by done. by rewrite IH.
Qed.

Lemma chars_join_piece c sep p pieces :
  p ∈ pieces -> c ∈ chars p -> c ∈ chars (str_join sep pieces).
Proof.
  unfold str_join. intros Hin Hc. induction pieces as [|q [|q' qs] IH]; [by apply elem_of_nil in Hin| |].
  - by apply list_elem_of_singleton in Hin as ->.
  - change (String.concat sep (q :: q' :: qs)) with (q +:+ sep +:+ String.concat sep (q' :: qs)).
    rewrite !chars_app, !elem_of_app. apply elem_of_cons in Hin as [->|Hin]; [by left|].
    right. right. by apply IH.
Qed.

(** A path without identifiers only loses its empty segments. *)
Lemma parameterize_parts_plain parts : forall i previous,
  Forall (fun p => p = EmptyString \/ looks_like_id p = false) parts ->
  parameterize_parts i previous parts = filter (fun p => p <> EmptyString) parts.
Proof.
  induction parts as [|p parts IH]; intros i previous Hf; [done|].
  apply Forall_cons in Hf as [Hp Hf]. cbn [parameterize_parts]. rewrite filter_cons, IH by done.
  destruct (decide (p = EmptyString)) as [->|Hne]; [done|].
  rewrite bool_decide_false, decide_True by done. unfold parameterize_part.
  destruct Hp as [Hp|Hp]; [done|by rewrite Hp].
Qed.

(** An identifier becomes a segment in braces. *)
Lemma parameterize_parts_id parts : forall i previous,
  Exists (fun p => p <> EmptyString /\ looks_like_id p = true) parts ->
  exists s, ("{" +:+ s +:+ "}")%string ∈ parameterize_parts i previous parts.
Proof.
  induction parts as [|p parts IH]; intros i previous Hex; [by apply Exists_nil in Hex|].
  cbn [parameterize_parts]. apply Exists_cons in Hex as [[Hne Hid]|Hex].
  - rewrite bool_decide_false by done. unfold parameterize_part. rewrite Hid.
    eexists. apply elem_of_cons. by left.
  - destruct (IH (S i) p Hex) as [s Hs]. exists s. case_bool_decide; [done|]. apply elem_of_cons. by right.
Qed.

Lemma ids_dec parts :
  Exists (fun p => p <> EmptyString /\ looks_like_id p = true) parts \/
  Forall (fun p => p = EmptyString \/ looks_like_id p = false) parts.
Proof.
  induction parts as [|p parts IH]; [right; constructor|].
  destruct (decide (p = EmptyString)) as [He|Hne].
  - destruct IH as [IH|IH]; [left; by right|right; constructor; auto].
  - destruct (looks_like_id p) eqn:Hid; [left; left; done|].
    destruct IH as [IH|IH]; [left; by right|right; constructor; auto].
Qed.

(** An identifier segment is replaced once: a path that was already parameterized
    is left alone. *)
Theorem parameterize_api_resource_idempotent resource :
  parameterize_api_resource (parameterize_api_resource resource) = parameterize_api_resource resource.
Proof.
  unfold parameterize_api_resource at 2 3.
  destruct (contains "{" resource && contains "}" resource) eqn:Hb.
  { unfold parameterize_api_resource. by rewrite Hb. }
  set (parts := str_split "/" resource).
  assert (Forall (fun p => "/"%char ∉ chars p) (tail parts)) as Hsep.
  { pose proof (str_split_no_sep "/" resource) as Hs. fold parts in Hs.
    destruct parts; [done|]. by apply Forall_cons in Hs as [_ ?]. }
  generalize (default EmptyString (head parts)). intros previous. revert Hsep.
  generalize (tail parts). clear parts Hb. intros parts Hsep.
  unfold parameterize_api_resource.
  destruct (ids_dec parts) as [Hex|Hall].
  - destruct (parameterize_parts_id parts 1 previous Hex) as [s Hs].
    set (res := parameterize_parts 1 previous parts) in *.
    assert (forall c, c = "{"%char \/ c = "}"%char ->
      contains (String c EmptyString) (str_join "/" (EmptyString :: res)) = true) as Hc.
    { intros c Hc. apply contains_char, (chars_join_piece _ _ _ _ ltac:(apply elem_of_cons; right; exact Hs)).
      rewrite !chars_app, !elem_of_app. destruct Hc as [->| ->]; [left|right; right]; apply elem_of_cons; by left. }
    by rewrite !Hc by auto.
  - rewrite (parameterize_parts_plain parts 1 previous Hall).
    set (res := filter (fun p => p <> EmptyString) parts).
    destruct (_ && _); [done|].
    assert (Forall (fun p => "/"%char ∉ chars p) (EmptyString :: res)) as Hf.
    { constructor; [by intros ?%elem_of_nil|]. by apply Forall_filtered. }
    rewrite str_split_join by done. cbn [head tail default].
    rewrite parameterize_parts_plain.
    + unfold res. by rewrite list_filter_filter_l by done.
    + by apply Forall_filtered.
Qed.

(** * Generated trace contexts *)
Lemma get_positive_u64_range bs : 0 < get_positive_u64 bs < 2 ^ 63.
Proof.
  unfold get_positive_u64. set (r := foldl _ _ _).
  change (Z.lxor U64_MAX (Z.shiftl 1 63)) with (Z.ones 63). rewrite Z.land_ones by lia.
  pose proof (Z.mod_pos_bound r (2 ^ 63)). destruct (Z.eqb_spec (r mod 2 ^ 63) 0); lia.
Qed.

Section Generated.
Context `{Externals} {SamplingPriority : Type} (parse_priority : string -> option SamplingPriority).

(** The execution a trace is generated from, when the event brings no context of
    its own. *)
Definition trace_execution (ev : StepFunction.StepFunctionEvent) : option string :=
  match StepFunction.trace_id ev, StepFunction.trace_tags ev with
  | Some _, Some _ => None
  | _, _ => Some (default (StepFunction.id (StepFunction.execution ev)) (StepFunction.root_execution_id ev))
  end.

Lemma step_function_ids ev :
  let sc := StepFunctionEvent_get_span_context parse_priority ev in
  0 < sc_span_id sc < 2 ^ 63 /\ 0 <= sc_trace_id sc < 2 ^ 64.
Proof.
  assert (forall arn, 0 <= (generate_trace_id arn).1 < 2 ^ 64) as Htid.
  { intros arn. cbn [generate_trace_id fst]. pose proof (get_positive_u64_range
      (take 8 (drop 8 (sha256_digest (as_bytes arn))))). lia. }
  unfold StepFunctionEvent_get_span_context.
  destruct (StepFunction.trace_id ev) as [tid|], (StepFunction.trace_tags ev);
    cbn [sc_span_id sc_trace_id]; (split; [apply get_positive_u64_range|]); try apply Htid.
  destruct (parse_u64 tid) as [z|] eqn:Hz; cbn [default]; [|apply Htid].
  apply parse_unsigned_range in Hz; [|lia]. change U64_MAX with (2 ^ 64 - 1) in Hz. unfold id. lia.
Qed.

Lemma generated_context ev arn :
  trace_execution ev = Some arn ->
  let sc := StepFunctionEvent_get_span_context parse_priority ev in
  sc_trace_id sc = (generate_trace_id arn).1 /\
  sc_tags sc = tags_of [(DATADOG_HIGHER_ORDER_TRACE_ID_BITS_KEY, to_hex (generate_trace_id arn).2)].
Proof.
  unfold trace_execution, StepFunctionEvent_get_span_context.
  destruct (StepFunction.trace_id ev), (StepFunction.trace_tags ev); intros [= <-]; by cbn.
Qed.

End Generated.

(** * The AWS trace header *)

Fixpoint hex_fixed (n : nat) (z : Z) : string :=
  match n with
  | O => EmptyString
  | S n => String (DataStreams.hex_digit (z / 16 ^ Z.of_nat n mod 16)) (hex_fixed n z)
  end.

Lemma digit_value_hex d : 0 <= d < 16 -> digit_value (DataStreams.hex_digit d) = Some d.
Proof.
  intros Hd. assert (d ∈ seqZ 0 16) as Hin by (apply elem_of_seqZ; lia).
  clear Hd. revert d Hin. apply Forall_forall. apply (bool_decide_unpack _). vm_compute. exact I.
Qed.

Lemma hex_fixed_value n z : forall acc,
  digits_value 16 acc (hex_fixed n z) = Some (acc * 16 ^ Z.of_nat n + z mod 16 ^ Z.of_nat n).
Proof.
  induction n as [|n IH]; intros acc; cbn [hex_fixed digits_value].
  - rewrite Z.mod_1_r. f_equal. lia.
  - set (d := z / 16 ^ Z.of_nat n mod 16).
    assert (0 <= d < 16) as Hd by (apply Z.mod_pos_bound; lia).
    rewrite digit_value_hex by done. cbn. rewrite (proj2 (Z.ltb_lt d 16)) by lia. rewrite IH.
    f_equal. rewrite Nat2Z.inj_succ, Z.pow_succ_r by lia.
    rewrite (Z.mul_comm 16 (16 ^ _)), Z.rem_mul_r by lia. fold d. lia.
Qed.

Lemma parse_hex_fixed z : 0 <= z < 2 ^ 64 -> parse_u64_hex (hex_fixed 16 z) = Some z.
Proof.
  intros Hz. unfold parse_u64_hex, parse_unsigned.
  assert (match hex_fixed 16 z with String "+" s' => s' | _ => hex_fixed 16 z end = hex_fixed 16 z) as ->.
  { cbn [hex_fixed]. set (d := (z / _) mod 16). assert (0 <= d < 16) as Hd by (apply Z.mod_pos_bound; lia).
    pose proof (digit_value_hex d Hd) as Hv. destruct (DataStreams.hex_digit d) as [[] [] [] [] [] [] [] []]; done. }
  unfold unsigned_digits. change (match hex_fixed 16 z with EmptyString => None | _ => digits_value 16 0 (hex_fixed 16 z) end)
    with (digits_value 16 0 (hex_fixed 16 z)).
  rewrite hex_fixed_value. cbn [mbind option_bind].
  change (16 ^ Z.of_nat 16) with (2 ^ 64). rewrite Z.mod_small by lia. cbn.
  unfold U64_MAX. rewrite (proj2 (Z.leb_le _ _)) by lia. done.
Qed.

Lemma str_drop_app a b : str_drop (String.length a) (a +:+ b) = b.
Proof. induction a as [|c a IH]; [done|]. rewrite append_cons. exact IH. Qed.

Lemma str_length_app a b : String.length (a +:+ b) = (String.length a + String.length b)%nat.
Proof. induction a as [|c a IH]; [done|]. rewrite append_cons. cbn. by rewrite IH. Qed.

Lemma prefix_same_length p w x :
  String.length p = String.length w -> String.prefix p (w +:+ x) = bool_decide (p = w).
Proof.
  revert w. induction p as [|c p IH]; intros [|d w]; intros Hl; try done; [by destruct x|].
  rewrite append_cons. cbn. injection Hl as Hl. destruct (ascii_dec c d) as [->|Hne].
  - rewrite IH by done. apply bool_decide_ext. split; [by intros ->|by intros [= ->]].
  - symmetry. apply bool_decide_false. congruence.
Qed.

(** A string of [n] hexadecimal digits. *)
Definition hex_string (n : nat) (s : string) : Prop :=
  String.length s = n /\ Forall (fun c => is_hex_digit c = true) (chars s).

Lemma hex_digit_plain c : is_hex_digit c = true -> c <> ";"%char /\ is_continuation c = false.
Proof. intros Hc. destruct c as [[] [] [] [] [] [] [] []]; by split. Qed.

Lemma hex_string_no_sep n s : hex_string n s -> ";"%char ∉ chars s.
Proof. intros [_ Hf] Hin. eapply Forall_forall in Hf; [|exact Hin]. by apply hex_digit_plain in Hf as []. Qed.

Lemma hex_fixed_hex n z : hex_string n (hex_fixed n z).
Proof.
  induction n as [|n [IHl IHf]]; [by repeat constructor|]. split; cbn [hex_fixed].
  - cbn [String.length]. by rewrite IHl.
  - cbn [chars]. constructor; [|done].
    set (d := (z / _) mod 16). assert (d ∈ seqZ 0 16) as Hin.
    { apply elem_of_seqZ. pose proof (Z.mod_pos_bound (z / 16 ^ Z.of_nat n) 16). lia. }
    revert Hin. generalize d. apply Forall_forall. apply (bool_decide_unpack _). vm_compute. exact I.
Qed.

Lemma get_from_app a w x :
  w +:+ x <> EmptyString -> (forall c s, w +:+ x = String c s -> is_continuation c = false) ->
  get_from (String.length a) (a +:+ (w +:+ x)) = Some (w +:+ x).
Proof.
  intros Hne Hc. unfold get_from. rewrite str_length_app, (proj2 (Nat.leb_le _ _)) by lia.
  rewrite str_drop_app. destruct (w +:+ x) as [|c s]; [done|]. by rewrite (Hc c s).
Qed.

Lemma hex_string_get_from a n w x :
  hex_string (S n) w -> get_from (String.length a) (a +:+ (w +:+ x)) = Some (w +:+ x).
Proof.
  intros [Hl Hf]. destruct w as [|c w]; [done|]. apply Forall_cons in Hf as [Hc _].
  apply get_from_app; rewrite append_cons; [done|]. intros ? ? [= <- _]. by apply hex_digit_plain.
Qed.

(** A header as X-Ray and dd-trace-java write it: an epoch, an identifier of 24
    digits of which the last sixteen are the Datadog trace id, the parent and the
    sampling decision. *)
Definition aws_root (epoch high : string) (t : Z) : string :=
  (("Root=1-" +:+ epoch +:+ "-") +:+ (high +:+ hex_fixed 16 t))%string.
Definition aws_trace_header (epoch high : string) (t p : Z) (sampled : string) : string :=
  (aws_root epoch high t +:+ ";Parent=" +:+ hex_fixed 16 p +:+ ";Sampled=" +:+ sampled)%string.

Lemma aws_header_split epoch high t p sampled :
  hex_string 8 epoch -> hex_string 8 high -> ";"%char ∉ chars sampled ->
  str_split ";" (aws_trace_header epoch high t p sampled) =
    [aws_root epoch high t; ("Parent=" +:+ hex_fixed 16 p)%string; ("Sampled=" +:+ sampled)%string].
Proof.
  intros He Hh Hs. pose proof (hex_string_no_sep _ _ (hex_fixed_hex 16 t)) as Ht.
  pose proof (hex_string_no_sep _ _ (hex_fixed_hex 16 p)) as Hp.
  apply hex_string_no_sep in He. apply hex_string_no_sep in Hh.
  unfold aws_trace_header. change (";Parent=" +:+ ?x) with (String ";" ("Parent=" +:+ x)).
  rewrite str_split_piece.
  2:{ unfold aws_root. rewrite !chars_app, !not_elem_of_app. split_and!; try done;
      apply (bool_decide_unpack _); vm_compute; exact I. }
  f_equal. rewrite <- append_assoc.
  change (";Sampled=" +:+ sampled) with (String ";" ("Sampled=" +:+ sampled)).
  rewrite str_split_piece by (rewrite chars_app, not_elem_of_app; split;
    [apply (bool_decide_unpack _); vm_compute; exact I|done]).
  f_equal. apply str_split_single. rewrite chars_app, not_elem_of_app. split; [|done].
  apply (bool_decide_unpack _); vm_compute; exact I.
Qed.

Section TraceHeader.
Context {SamplingPriority : Type} (parse_priority : string -> option SamplingPriority).

(** The decision a header carries, [high] being the first eight digits of its
    identifier. *)
Definition header_priority (high sampled : string) : option SamplingPriority :=
  if bool_decide (sampled = "1"%string) then parse_priority "1"
  else if bool_decide (high = "00000000"%string /\ sampled = "0"%string) then parse_priority "0"
  else None.

Lemma root_part epoch high t st :
  hex_string 8 epoch -> hex_string 8 high ->
  trace_header_part st (aws_root epoch high t) =
    Some {| th_trace_id := hex_fixed 16 t; th_parent_id := th_parent_id st;
            th_sampled := th_sampled st; datadog_planted := bool_decide (high = "00000000"%string) |}.
Proof.
  intros [He _] Hh. pose proof Hh as [Hl _]. unfold trace_header_part.
  change (starts_with "Root=" (aws_root epoch high t)) with true. cbn iota. unfold aws_root.
  assert (String.length ("Root=1-" +:+ epoch +:+ "-") = 16%nat) as Hlen
    by (rewrite !str_length_app, He; done).
  pose proof (hex_string_get_from ("Root=1-" +:+ epoch +:+ "-") _ _ (hex_fixed 16 t) Hh) as Hg.
  rewrite Hlen in Hg. rewrite Hg. cbn [mbind option_bind].
  pose proof (hex_string_get_from high _ _ EmptyString (hex_fixed_hex 16 t)) as Hg8.
  rewrite Hl, append_nil in Hg8. rewrite Hg8. unfold starts_with.
  rewrite prefix_same_length by done. cbn [default]. do 2 f_equal. by apply bool_decide_ext.
Qed.

Lemma sampled_part st sampled :
  th_sampled st = EmptyString ->
  trace_header_part st ("Sampled=" +:+ sampled) =
    Some {| th_trace_id := th_trace_id st; th_parent_id := th_parent_id st;
            th_sampled := sampled; datadog_planted := datadog_planted st |}.
Proof. destruct st. cbn [th_sampled]. intros ->. by destruct sampled. Qed.

Lemma aws_header_parts epoch high t p sampled :
  hex_string 8 epoch -> hex_string 8 high ->
  trace_header_parts {| th_trace_id := EmptyString; th_parent_id := EmptyString;
                        th_sampled := EmptyString; datadog_planted := false |}
    [aws_root epoch high t; ("Parent=" +:+ hex_fixed 16 p)%string; ("Sampled=" +:+ sampled)%string] =
    Some {| th_trace_id := hex_fixed 16 t; th_parent_id := hex_fixed 16 p; th_sampled := sampled;
            datadog_planted := bool_decide (high = "00000000"%string) |}.
Proof.
  intros He Hh. cbn [trace_header_parts]. rewrite root_part by done.
  cbn [mbind option_bind th_trace_id th_parent_id th_sampled datadog_planted].
  rewrite (bool_decide_true (EmptyString = EmptyString)) by done. rewrite andb_false_r.
  change (trace_header_part ?st ("Parent=" +:+ hex_fixed 16 p)) with
    (Some {| th_trace_id := th_trace_id st; th_parent_id := hex_fixed 16 p;
             th_sampled := th_sampled st; datadog_planted := datadog_planted st |}).
  cbn [mbind option_bind th_trace_id th_parent_id th_sampled datadog_planted].
  rewrite (bool_decide_true (EmptyString = EmptyString)) by done. rewrite andb_false_r.
  rewrite sampled_part by done.
  cbn [mbind option_bind th_trace_id th_parent_id th_sampled datadog_planted].
  by destruct (_ && _).
Qed.

(** The trace context of an AWS trace header is read exactly: the trace and the
    parent id are the ones written, and a drop is believed only of a header that
    Datadog planted. *)
Theorem aws_trace_header_read epoch high t p sampled :
  hex_string 8 epoch -> hex_string 8 high -> 0 < t < 2 ^ 64 -> 0 < p < 2 ^ 64 ->
  ";"%char ∉ chars sampled ->
  extract_trace_context_from_aws_trace_header parse_priority
    (Some (aws_trace_header epoch high t p sampled)) =
    Some {| sc_trace_id := t; sc_span_id := p; sc_priority := header_priority high sampled;
            sc_origin := None; sc_tags := ∅ |}.
Proof.
  intros He Hh Ht Hp Hs. unfold extract_trace_context_from_aws_trace_header. cbn [mbind option_bind].
  change (starts_with "Root=" (aws_trace_header epoch high t p sampled)) with true. cbn [negb].
  rewrite aws_header_split, aws_header_parts by done.
  cbn [mbind option_bind th_trace_id th_parent_id].
  rewrite !parse_hex_fixed by lia. cbn [mbind option_bind].
  rewrite (proj2 (Z.eqb_neq t 0)), (proj2 (Z.eqb_neq p 0)) by lia. cbn [orb].
  do 2 f_equal. unfold sampling_decision, header_priority. cbn [th_sampled datadog_planted].
  rewrite bool_decide_and. destruct (bool_decide (sampled = "1"%string)); [done|]. by destruct (_ && _).
Qed.

End TraceHeader.

Lemma aws_trace_header_read_witness :
  extract_trace_context_from_aws_trace_header parse_i64
    (Some "Root=1-65f0a1b2-00000000000000000000007b;Parent=00000000000001c8;Sampled=0"%string) =
    Some {| sc_trace_id := 123; sc_span_id := 456; sc_priority := Some 0;
            sc_origin := None; sc_tags := ∅ |}.
Proof.
  apply (aws_trace_header_read parse_i64 "65f0a1b2" "00000000" 123 456 "0").
  - split; [reflexivity|]. vm_compute. repeat constructor.
  - split; [reflexivity|]. vm_compute. repeat constructor.
  - lia.
  - lia.
  - apply (bool_decide_unpack _). vm_compute. exact I.
Defined.
