(* ===== verification/Configuration.v ===== *)
(** The configuration: [config/mod.rs].

    [Config] is the configuration of the [datadog_agent_config] crate with the
    Lambda settings under [ext]; of the crate's own fields it has those the
    modelled code reads. The crate reads the sources (the YAML file, then the
    environment) and calls [merge_from] once per source, in that order: the list of
    deserialized sources is an argument of [get_config]. Durations are in
    nanoseconds. *)
From S2P Require Import Prelude FlushControl.
#[local] Open Scope Z_scope.

Abbreviation Duration := Z (only parsing).
Definition from_millis (ms : Z) : Duration := ms * 10 ^ 6.
Definition from_secs (s : Z) : Duration := s * 10 ^ 9.

Record LambdaConfig := {
  api_key_secret_arn : string;
  kms_api_key : string;
  api_key_ssm_arn : string;
  serverless_logs_enabled : bool;
  serverless_flush_strategy : FlushStrategy;
  enhanced_metrics : bool;
  lambda_proc_enhanced_metrics : bool;
  capture_lambda_payload : bool;
  capture_lambda_payload_max_depth : Z;
  lambda_extension_compute_stats : bool;
  serverless_error_sampler_enabled : bool;
  span_dedup_timeout : option Duration;
  api_key_secret_reload_interval : option Duration;
  serverless_appsec_enabled : bool;
  appsec_rules : option string;
  appsec_waf_timeout : Duration;
  api_security_enabled : bool;
  api_security_sample_delay : Duration;
  custom_metrics_exclude_tags : list string;
  trace_remove_integration_service_names_enabled : bool;
  lambda_durable_function_log_buffer_size : Z;
  dsm_consume_enabled : bool;
  dsm_exchange_name : option string;
  dsm_kafka_group : option string;
  trace_experimental_features_enabled : bool;
  additional_metric_tags : list string;
  additional_metric_tags_cardinality_limit : option Z;
}.

Definition LambdaConfig_default : LambdaConfig :=
  {| api_key_secret_arn := EmptyString;
     kms_api_key := EmptyString;
     api_key_ssm_arn := EmptyString;
     serverless_logs_enabled := true;
     serverless_flush_strategy := Default;
     enhanced_metrics := true;
     lambda_proc_enhanced_metrics := true;
     capture_lambda_payload := false;
     capture_lambda_payload_max_depth := 10;
     lambda_extension_compute_stats := false;
     serverless_error_sampler_enabled := false;
     span_dedup_timeout := None;
     api_key_secret_reload_interval := None;
     serverless_appsec_enabled := false;
     appsec_rules := None;
     appsec_waf_timeout := from_millis 5;
     api_security_enabled := true;
     api_security_sample_delay := from_secs 30;
     custom_metrics_exclude_tags := [];
     trace_remove_integration_service_names_enabled := false;
     lambda_durable_function_log_buffer_size := 5;
     dsm_consume_enabled := false;
     dsm_exchange_name := None;
     dsm_kafka_group := None;
     trace_experimental_features_enabled := false;
     additional_metric_tags := [];
     additional_metric_tags_cardinality_limit := None |}.

(** Deserialized settings of one source; a malformed field is an absent one. *)
Module Source.

Record t := {
  api_key_secret_arn : option string;
  kms_api_key : option string;
  api_key_ssm_arn : option string;
  serverless_logs_enabled : option bool;
  logs_enabled : option bool;
  serverless_flush_strategy : option FlushStrategy;
  enhanced_metrics : option bool;
  lambda_proc_enhanced_metrics : option bool;
  capture_lambda_payload : option bool;
  capture_lambda_payload_max_depth : option Z;
  lambda_extension_compute_stats : option bool;
  serverless_error_sampler_enabled : option bool;
  span_dedup_timeout : option Duration;
  api_key_secret_reload_interval : option Duration;
  serverless_appsec_enabled : option bool;
  appsec_rules : option string;
  appsec_waf_timeout : option Duration;
  api_security_enabled : option bool;
  api_security_sample_delay : option Duration;
  lambda_customer_metrics_exclude_tags : list string;
  trace_remove_integration_service_names_enabled : option bool;
  lambda_durable_function_log_buffer_size : option Z;
  data_streams_enabled : option bool;
  dsm_exchange_name : option string;
  dsm_kafka_group : option string;
  trace_experimental_features_enabled : option bool;
  trace_stats_additional_tags : list string;
  trace_stats_additional_tags_cardinality_limit : option Z;
}.

(** A source that sets two switches at most: who computes stats, and App & API Protection. *)
Definition switches (stats appsec : option bool) : t :=
  {| api_key_secret_arn := None;
     kms_api_key := None;
     api_key_ssm_arn := None;
     serverless_logs_enabled := None;
     logs_enabled := None;
     serverless_flush_strategy := None;
     enhanced_metrics := None;
     lambda_proc_enhanced_metrics := None;
     capture_lambda_payload := None;
     capture_lambda_payload_max_depth := None;
     lambda_extension_compute_stats := stats;
     serverless_error_sampler_enabled := None;
     span_dedup_timeout := None;
     api_key_secret_reload_interval := None;
     serverless_appsec_enabled := appsec;
     appsec_rules := None;
     appsec_waf_timeout := None;
     api_security_enabled := None;
     api_security_sample_delay := None;
     lambda_customer_metrics_exclude_tags := [];
     trace_remove_integration_service_names_enabled := None;
     lambda_durable_function_log_buffer_size := None;
     data_streams_enabled := None;
     dsm_exchange_name := None;
     dsm_kafka_group := None;
     trace_experimental_features_enabled := None;
     trace_stats_additional_tags := [];
     trace_stats_additional_tags_cardinality_limit := None |}.

(** [LambdaConfigSource::default()]: nothing set. *)
Definition empty : t := switches None None.

End Source.

(** [merge_string!], [merge_option_to_value!] and [merge_option!]: a value of the
    source replaces the current one. *)
Definition merge_value {A} (value : A) (source : option A) : A := default value source.
Definition merge_option {A} (value source : option A) : option A :=
  match source with Some v => Some v | None => value end.
(** [if !source.is_empty() { self.clone_from(&source) }]. *)
Definition merge_list {A} (value source : list A) : list A :=
  match source with [] => value | _ => source end.

Definition merge_from (self : LambdaConfig) (source : Source.t) : LambdaConfig :=
  {| api_key_secret_arn :=
       merge_value (self.(api_key_secret_arn)) (source.(Source.api_key_secret_arn));
     kms_api_key := merge_value (self.(kms_api_key)) (source.(Source.kms_api_key));
     api_key_ssm_arn := merge_value (self.(api_key_ssm_arn)) (source.(Source.api_key_ssm_arn));
     serverless_logs_enabled :=
       match source.(Source.serverless_logs_enabled), source.(Source.logs_enabled) with
       | None, None => self.(serverless_logs_enabled)
       | a, b => default false a || default false b
       end;
     serverless_flush_strategy :=
       merge_value (self.(serverless_flush_strategy)) (source.(Source.serverless_flush_strategy));
     enhanced_metrics := merge_value (self.(enhanced_metrics)) (source.(Source.enhanced_metrics));
     lambda_proc_enhanced_metrics :=
       merge_value (self.(lambda_proc_enhanced_metrics)) (source.(Source.lambda_proc_enhanced_metrics));
     capture_lambda_payload :=
       merge_value (self.(capture_lambda_payload)) (source.(Source.capture_lambda_payload));
     capture_lambda_payload_max_depth :=
       merge_value (self.(capture_lambda_payload_max_depth)) (source.(Source.capture_lambda_payload_max_depth));
     lambda_extension_compute_stats :=
       merge_value (self.(lambda_extension_compute_stats)) (source.(Source.lambda_extension_compute_stats));
     serverless_error_sampler_enabled :=
       merge_value (self.(serverless_error_sampler_enabled)) (source.(Source.serverless_error_sampler_enabled));
     span_dedup_timeout :=
       merge_option (self.(span_dedup_timeout)) (source.(Source.span_dedup_timeout));
     api_key_secret_reload_interval :=
       merge_option (self.(api_key_secret_reload_interval)) (source.(Source.api_key_secret_reload_interval));
     serverless_appsec_enabled :=
       merge_value (self.(serverless_appsec_enabled)) (source.(Source.serverless_appsec_enabled));
     appsec_rules := merge_option (self.(appsec_rules)) (source.(Source.appsec_rules));
     appsec_waf_timeout :=
       merge_value (self.(appsec_waf_timeout)) (source.(Source.appsec_waf_timeout));
     api_security_enabled :=
       merge_value (self.(api_security_enabled)) (source.(Source.api_security_enabled));
     api_security_sample_delay :=
       merge_value (self.(api_security_sample_delay)) (source.(Source.api_security_sample_delay));
     custom_metrics_exclude_tags :=
       merge_list (self.(custom_metrics_exclude_tags))
         (source.(Source.lambda_customer_metrics_exclude_tags));
     trace_remove_integration_service_names_enabled :=
       merge_value (self.(trace_remove_integration_service_names_enabled)) (source.(Source.trace_remove_integration_service_names_enabled));
     lambda_durable_function_log_buffer_size :=
       merge_value (self.(lambda_durable_function_log_buffer_size)) (source.(Source.lambda_durable_function_log_buffer_size));
     dsm_consume_enabled :=
       merge_value (self.(dsm_consume_enabled)) (source.(Source.data_streams_enabled));
     dsm_exchange_name :=
       merge_option (self.(dsm_exchange_name)) (source.(Source.dsm_exchange_name));
     dsm_kafka_group := merge_option (self.(dsm_kafka_group)) (source.(Source.dsm_kafka_group));
     trace_experimental_features_enabled :=
       merge_value (self.(trace_experimental_features_enabled)) (source.(Source.trace_experimental_features_enabled));
     additional_metric_tags :=
       merge_list (self.(additional_metric_tags)) (source.(Source.trace_stats_additional_tags));
     additional_metric_tags_cardinality_limit :=
       merge_option (self.(additional_metric_tags_cardinality_limit))
         (source.(Source.trace_stats_additional_tags_cardinality_limit)) |}.

Definition apply_experimental_features_gate (self : LambdaConfig) : LambdaConfig :=
  if self.(trace_experimental_features_enabled) then self else
  {| api_key_secret_arn := self.(api_key_secret_arn);
     kms_api_key := self.(kms_api_key);
     api_key_ssm_arn := self.(api_key_ssm_arn);
     serverless_logs_enabled := self.(serverless_logs_enabled);
     serverless_flush_strategy := self.(serverless_flush_strategy);
     enhanced_metrics := self.(enhanced_metrics);
     lambda_proc_enhanced_metrics := self.(lambda_proc_enhanced_metrics);
     capture_lambda_payload := self.(capture_lambda_payload);
     capture_lambda_payload_max_depth := self.(capture_lambda_payload_max_depth);
     lambda_extension_compute_stats := self.(lambda_extension_compute_stats);
     serverless_error_sampler_enabled := self.(serverless_error_sampler_enabled);
     span_dedup_timeout := self.(span_dedup_timeout);
     api_key_secret_reload_interval := self.(api_key_secret_reload_interval);
     serverless_appsec_enabled := self.(serverless_appsec_enabled);
     appsec_rules := self.(appsec_rules);
     appsec_waf_timeout := self.(appsec_waf_timeout);
     api_security_enabled := self.(api_security_enabled);
     api_security_sample_delay := self.(api_security_sample_delay);
     custom_metrics_exclude_tags := self.(custom_metrics_exclude_tags);
     trace_remove_integration_service_names_enabled := self.(trace_remove_integration_service_names_enabled);
     lambda_durable_function_log_buffer_size := self.(lambda_durable_function_log_buffer_size);
     dsm_consume_enabled := self.(dsm_consume_enabled);
     dsm_exchange_name := self.(dsm_exchange_name);
     dsm_kafka_group := self.(dsm_kafka_group);
     trace_experimental_features_enabled := self.(trace_experimental_features_enabled);
     additional_metric_tags := [];
     additional_metric_tags_cardinality_limit := None |}.

(** The part of [get_config] that concerns the Lambda settings. *)
Definition resolve (sources : list Source.t) : LambdaConfig :=
  apply_experimental_features_gate (foldl merge_from LambdaConfig_default sources).

(** The configuration the code reads: fields of the crate, and [ext]. *)
Record Config := {
  cfg_service : option string;
  cfg_env : option string;
  cfg_version : option string;
  cfg_tags : gmap string string;
  service_mapping : gmap string string;
  trace_aws_service_representation_enabled : bool;
  trace_propagation_http_baggage_enabled : bool;
  apm_filter_tags_require : option (list string);
  apm_filter_tags_reject : option (list string);
  apm_filter_tags_regex_require : option (list string);
  apm_filter_tags_regex_reject : option (list string);
  apm_features : list string;
  cfg_site : string;
  cfg_apm_dd_url : string;
  cfg_flush_timeout : Z;
  apm_config_compression_level : Z;
  otlp_config_traces_enabled : bool;
  otlp_config_receiver_protocols_http_endpoint : option string;
  otlp_config_receiver_protocols_grpc_endpoint : option string;
  otlp_config_receiver_protocols_grpc_max_recv_msg_size_mib : option Z;
  otlp_config_ignore_missing_datadog_fields : bool;
  otlp_config_traces_span_name_as_resource_name : bool;
  otlp_config_traces_span_name_remappings : gmap string string;
  ext :> LambdaConfig;
}.

Definition get_config (core : LambdaConfig -> Config) (sources : list Source.t) : Config :=
  core (resolve sources).

(** * How a setting is resolved *)

(** The value of the last source that sets it. *)
Definition last_set {A} (get : Source.t -> option A) (sources : list Source.t) : option A :=
  foldl (fun acc s => merge_option acc (get s)) None sources.

(** A list that is not empty. *)
Definition nonempty {A} (l : list A) : option (list A) :=
  match l with [] => None | _ => Some l end.

(** The logs switch of one source. *)
Definition logs_switch (s : Source.t) : option bool :=
  match s.(Source.serverless_logs_enabled), s.(Source.logs_enabled) with
  | None, None => None
  | a, b => Some (default false a || default false b)
  end.

Section Resolution.
Context {A : Type} (proj : LambdaConfig -> A) (get : Source.t -> option A).
Hypothesis Hmerge : forall c s, proj (merge_from c s) = merge_value (proj c) (get s).

Lemma merged_setting sources c :
  proj (foldl merge_from c sources) = default (proj c) (last_set get sources).
Proof using Hmerge.
  unfold last_set. revert c.
  induction sources as [|s sources IH] using rev_ind; intros c; [done|].
  rewrite !foldl_app. cbn. rewrite Hmerge, IH. unfold merge_value, merge_option.
  by destruct (get s).
Qed.
End Resolution.

Lemma merge_option_value {A} (v s : option A) :
  merge_option v s = merge_value v (Some <$> s).
Proof. by destruct s. Qed.

Lemma merge_list_value {A} (v s : list A) : merge_list v s = merge_value v (nonempty s).
Proof. by destruct s. Qed.

Lemma last_set_some {A} (get : Source.t -> option A) sources :
  last_set (fun s => Some <$> get s) sources = Some <$> last_set get sources.
Proof.
  unfold last_set. induction sources as [|s sources IH] using rev_ind; [done|].
  rewrite !foldl_app. cbn. rewrite IH. by destruct (get s).
Qed.

Lemma merge_logs c s :
  (merge_from c s).(serverless_logs_enabled) =
  merge_value c.(serverless_logs_enabled) (logs_switch s).
Proof.
  unfold logs_switch; cbn.
  by destruct (Source.serverless_logs_enabled s), (Source.logs_enabled s).
Qed.

(** The resolved settings depend on the sources only through, for each setting,
    the last source that sets it. The additional stats tags and their cardinality
    limit are kept exactly when the last source that sets the experimental switch
    turns it on, whether that source comes before or after the ones that set the
    tags; the logs switch is the disjunction of the two variables of the last source
    that sets either, and on when none does. *)
Theorem settings_resolved_by_last_source sources :
  let on := default false (last_set Source.trace_experimental_features_enabled sources) in
  let c := resolve sources in
  c.(additional_metric_tags) =
    (if on then default [] (last_set (nonempty ∘ Source.trace_stats_additional_tags) sources)
     else []) /\
  c.(additional_metric_tags_cardinality_limit) =
    (if on then last_set Source.trace_stats_additional_tags_cardinality_limit sources
     else None) /\
  c.(trace_experimental_features_enabled) = on /\
  c.(serverless_logs_enabled) = default true (last_set logs_switch sources) /\
  c.(span_dedup_timeout) = last_set Source.span_dedup_timeout sources /\
  c.(lambda_extension_compute_stats) =
    default false (last_set Source.lambda_extension_compute_stats sources) /\
  c.(dsm_consume_enabled) = default false (last_set Source.data_streams_enabled sources).
Proof.
  intros on c. set (m := foldl merge_from LambdaConfig_default sources).
  assert (Hon : m.(trace_experimental_features_enabled) = on)
    by (apply (merged_setting trace_experimental_features_enabled _ ltac:(done))).
  assert (Hgate : c = if on then m else apply_experimental_features_gate m).
  { subst c. unfold resolve. fold m. destruct on; [|done].
    unfold apply_experimental_features_gate. by rewrite Hon. }
  assert (Htags : m.(additional_metric_tags) =
      default [] (last_set (nonempty ∘ Source.trace_stats_additional_tags) sources)).
  { apply (merged_setting additional_metric_tags). intros. apply merge_list_value. }
  assert (Hopt : forall A (proj : LambdaConfig -> option A) get,
      (forall c s, proj (merge_from c s) = merge_option (proj c) (get s)) ->
      proj LambdaConfig_default = None -> proj m = last_set get sources).
  { intros A proj get Hm Hd. subst m.
    rewrite (merged_setting proj (fun s => Some <$> get s)), last_set_some, Hd.
    - by destruct (last_set get sources).
    - intros. by rewrite Hm, merge_option_value. }
  unfold apply_experimental_features_gate in Hgate. rewrite Hon in Hgate.
  rewrite Hgate. destruct on; cbn; rewrite ?Htags, ?Hon;
    repeat split; try (by apply Hopt);
    (apply (merged_setting serverless_logs_enabled); apply merge_logs)
    || (apply (merged_setting lambda_extension_compute_stats); done)
    || (apply (merged_setting dsm_consume_enabled); done).
Qed.
