(* ===== verification/Tags.v ===== *)
(** Function tags: [tags/lambda/tags.rs] and [tags/provider.rs].

    The environment, the case tables and the iteration order of a [HashMap] are those
    of [Externals]; the architecture the crate is built for is an argument. The
    entries of [/proc] and the text of the release file are arguments of
    [resolve_runtime_from_proc]. *)
From S2P Require Import Prelude F64 DataStreams Text ContextBuffer Triggers Configuration.
#[local] Open Scope Z_scope.

Definition QUALIFIER_ENV_VAR : string := "AWS_LAMBDA_FUNCTION_VERSION".
Definition RUNTIME_VAR : string := "AWS_EXECUTION_ENV".
Definition MEMORY_SIZE_VAR : string := "AWS_LAMBDA_FUNCTION_MEMORY_SIZE".
Definition INIT_TYPE : string := "AWS_LAMBDA_INITIALIZATION_TYPE".
Definition FUNCTION_ARN_KEY : string := "function_arn".
Definition FUNCTION_NAME_KEY : string := "functionname".
Definition COMPUTE_STATS_KEY : string := "_dd.compute_stats".
Definition FUNCTION_TAGS_KEY : string := "_dd.tags.function".
Definition EXTENSION_VERSION : string := "103-next".
Definition LAMBDA_RUNTIME_SLUG : string := "lambda".

Definition identify_runtime_family (runtime : string) : option string :=
  if starts_with "nodejs" runtime then Some "nodejs"%string
  else if starts_with "python" runtime then Some "python"%string
  else if starts_with "java" runtime then Some "jvm"%string
  else if starts_with "dotnet" runtime then Some "dotnet"%string
  else if starts_with "ruby" runtime then Some "ruby"%string
  else None.

Definition arch_to_platform (arch : string) : string :=
  if decide (arch = "aarch64"%string) then "arm64" else arch.

(** [map.insert(key, value)] when there is a value. *)
Definition put_some (k : string) (v : option string) (m : gmap string string) : gmap string string :=
  match v with Some v => <[k := v]> m | None => m end.

Section Tags.
Context `{Externals}.
Variable arch : string.

(** The tags read off the function's ARN. *)
Definition arn_tags (arn : string) (tags_map : gmap string string) : gmap string string :=
  let parts := str_split ":" arn in
  let tags_map :=
    match parts !! 3%nat, parts !! 4%nat, parts !! 6%nat with
    | Some region, Some account, Some name =>
        let tags_map :=
          <["resource"%string := name]> (<[FUNCTION_NAME_KEY := name]>
            (<["aws_account"%string := account]> (<["account_id"%string := account]>
               (<["region"%string := region]> tags_map)))) in
        match env_var QUALIFIER_ENV_VAR with
        | Some qualifier =>
            if decide (qualifier = "$LATEST"%string) then tags_map
            else <["executedversion"%string := qualifier]>
                   (<["resource"%string := (name +:+ ":" +:+ qualifier)%string]> tags_map)
        | None => tags_map
        end
    | _, _, _ => tags_map
    end in
  <[FUNCTION_ARN_KEY := lowercase arn]> tags_map.

Definition tags_from_env (tags_map : gmap string string) (config : Config)
    (metadata : gmap string string) : gmap string string :=
  let tags_map := match metadata !! FUNCTION_ARN_KEY with
                  | Some arn => arn_tags arn tags_map
                  | None => tags_map
                  end in
  let tags_map := put_some "version" (cfg_version config) tags_map in
  let tags_map := put_some "env" (cfg_env config) tags_map in
  let tags_map := put_some "service" (lowercase <$> cfg_service config) tags_map in
  let tags_map := put_some "init_type" (env_var INIT_TYPE) tags_map in
  let tags_map := put_some "memorysize" (env_var MEMORY_SIZE_VAR) tags_map in
  let tags_map :=
    match env_var RUNTIME_VAR with
    | Some runtime =>
        let tags_map :=
          put_some "_dd.runtime_family"
            (if serverless_appsec_enabled config then identify_runtime_family runtime else None)
            tags_map in
        <["runtime"%string := runtime]> tags_map
    | None => tags_map
    end in
  let tags_map := <["architecture"%string := arch_to_platform arch]> tags_map in
  let tags_map := <["dd_extension_version"%string := EXTENSION_VERSION]> tags_map in
  cfg_tags config ∪ tags_map.

(** [Lambda], the one kind of provider. *)
Record Provider := { tags_map : gmap string string }.

Definition new_from_config (config : Config) (metadata : gmap string string) : Provider :=
  {| tags_map := tags_from_env ∅ config metadata |}.

(** [Provider::new]: another runtime panics. *)
Definition new (config : Config) (runtime : string) (metadata : gmap string string) :
    outcome Provider :=
  if decide (runtime = LAMBDA_RUNTIME_SLUG) then Done (new_from_config config metadata) else Panic.

Definition get_tags_vec (self : Provider) : list string :=
  (fun kv => (kv.1 +:+ ":" +:+ kv.2)%string) <$> hash_iter (tags_map self).

Definition get_tags_string (self : Provider) : string := str_join "," (get_tags_vec self).

Definition get_canonical_id (self : Provider) : option string := tags_map self !! FUNCTION_ARN_KEY.

Definition get_canonical_resource_name (self : Provider) : option string :=
  tags_map self !! FUNCTION_NAME_KEY.

Definition get_function_tags_map (self : Provider) : gmap string string :=
  {[ FUNCTION_TAGS_KEY := get_tags_string self ]}.

(** * The runtime of the function's process *)

Record ProcEntry := {
  is_dir : bool;
  (** [file_name().into_string().ok()] *)
  file_name : option string;
  (** the bytes of [environ], if it can be read *)
  environ : option (list Z);
}.

(** [c.is_numeric()] of every character. *)
Definition all_numeric (unicode_numeric : string -> bool) (s : string) : bool :=
  if is_ascii s then str_all is_ascii_digit s else unicode_numeric s.

Fixpoint split_bytes (sep : Z) (bytes : list Z) : list (list Z) :=
  match bytes with
  | [] => [[]]
  | b :: bytes =>
      if b =? sep then [] :: split_bytes sep bytes
      else match split_bytes sep bytes with
           | piece :: pieces => (b :: piece) :: pieces
           | [] => [[b]]
           end
  end.

Definition mentions_runtime (bytes : list Z) : bool :=
  match from_utf8 bytes with Some s => contains RUNTIME_VAR s | None => false end.

Definition runtime_from_environ (environ_bytes : list Z) : option string :=
  line ← List.find (contains RUNTIME_VAR) (omap from_utf8 (split_bytes 0 environ_bytes));
  Some (split_last "_" line).

Definition provided_al (release : option string) : option string :=
  content ← release;
  line ← List.find (starts_with "PRETTY_NAME=") (lines content);
  let line := remove_char QUOTE line in
  if decide (line = "PRETTY_NAME=Amazon Linux 2"%string) then Some "provided.al2"%string
  else if starts_with "PRETTY_NAME=Amazon Linux 2023" line then Some "provided.al2023"%string
  else None.

(** [proc] is what the directory holds, entries that cannot be read left out. *)
Definition resolve_runtime_from_proc (unicode_numeric : string -> bool)
    (proc : option (list ProcEntry)) (release : option string) : string :=
  let search :=
    entries ← proc;
    let environs := omap (fun entry =>
      if is_dir entry
         && match file_name entry with Some n => all_numeric unicode_numeric n | None => false end
         && negb (bool_decide (file_name entry = Some "1"%string))
      then environ entry else None) entries in
    environ_bytes ← List.find mentions_runtime environs;
    runtime_from_environ environ_bytes in
  match search with
  | Some runtime => remove_char QUOTE runtime
  | None => default "unknown"%string (provided_al release)
  end.

(** * Properties *)

(** The keys that the function itself sets. *)
Definition OWN_KEYS : list string :=
  [FUNCTION_ARN_KEY; FUNCTION_NAME_KEY; "region"; "account_id"; "aws_account"; "resource";
   "executedversion"; "version"; "env"; "service"; "init_type"; "memorysize";
   "_dd.runtime_family"; "runtime"; "architecture"; "dd_extension_version"]%string.

Lemma lookup_put_some_ne k k' v m : k <> k' -> put_some k v m !! k' = m !! k'.
Proof. intros. destruct v; [|done]. by apply lookup_insert_ne. Qed.

Lemma lookup_arn_tags_ne arn m k : k ∉ OWN_KEYS -> arn_tags arn m !! k = m !! k.
Proof.
  intros Hk. unfold OWN_KEYS in Hk. unfold arn_tags.
  repeat case_match; rewrite !lookup_insert_ne by set_solver; done.
Qed.

Lemma lookup_tags_from_env config metadata m k :
  k ∉ OWN_KEYS -> tags_from_env m config metadata !! k =
    match cfg_tags config !! k with Some v => Some v | None => m !! k end.
Proof.
  intros Hk. unfold tags_from_env. rewrite lookup_union.
  match goal with |- _ ∪ ?t = _ => assert (Ht : t = m !! k) end.
  - pose proof Hk as Hk'. unfold OWN_KEYS in Hk'.
    rewrite !lookup_insert_ne by set_solver.
    destruct (env_var RUNTIME_VAR); rewrite ?lookup_insert_ne by set_solver;
      rewrite !lookup_put_some_ne by set_solver;
      destruct (metadata !! FUNCTION_ARN_KEY); by rewrite ?lookup_arn_tags_ne.
  - rewrite Ht. destruct (cfg_tags config !! k), (m !! k); done.
Qed.
End Tags.

(** The directive to compute stats is only in the tags when the user put it there. *)
Lemma compute_stats_not_in_tags `{Externals} arch config metadata :
  cfg_tags config !! COMPUTE_STATS_KEY = None ->
  tags_map (new_from_config arch config metadata) !! COMPUTE_STATS_KEY = None.
Proof.
  intros Hc. cbn. rewrite lookup_tags_from_env, Hc; [done|].
  unfold OWN_KEYS. set_solver.
Qed.

(** The values AWS gives the variable name no family: they start with another prefix. *)
Lemma runtime_family_of_aws_value r : identify_runtime_family ("AWS_Lambda_" +:+ r)%string = None.
Proof. reflexivity. Qed.
