(* ===== verification/SpanInferrer.v ===== *)
(** Inferred spans and trace-context extraction:
    [lifecycle/invocation/span_inferrer.rs], the propagator wrapper of
    [traces/propagation] and the payload tags of [lifecycle/invocation/mod.rs].

    The propagators of dd-trace-rs and the extractor of a [HashMap] are arguments
    ([Propagation]). Generated span ids are arguments. [IdentifiedTrigger::from_value]
    does not panic ([from_value_total]), so its result is used directly. *)
From S2P Require Import Prelude F64 DataStreams Text EnhancedMetrics ContextBuffer Triggers.
From S2P Require Import TriggerEvents.
From S2P Require Import Configuration.
From stdpp Require Import pretty.
#[local] Open Scope Z_scope.

(** * Payload tags *)

Section Metadata.
Context `{Externals}.

Definition MAX_TAG_CHARS : nat := 4096.
Definition REDACTABLE_KEYS : list string :=
  ["password"; "passwd"; "pwd"; "secret"; "token"; "authorization"; "x-authorization"; "api_key"].

Definition redact_value (key value : string) : string :=
  if bool_decide (split_last "." key ∈ REDACTABLE_KEYS) then "redacted" else value.

Definition number_to_string (n : Number) : string :=
  match n with PosInt z | NegInt z => pretty z | Float x => f64_to_string x end.

(** [fuel] is how far [depth] is from [max_depth]. *)
Fixpoint metadata (fuel : nat) (key : string) (value : Value) : gmap string string :=
  match value with
  | VNull => {[ key := "null"%string ]}
  | _ =>
      match fuel with
      | O => match value_to_string value with
             | Some s => {[ key := take_chars MAX_TAG_CHARS s ]}
             | None => ∅
             end
      | S fuel =>
          match value with
          | VNull => ∅
          | VString s =>
              match value_from_str s with
              | Some p => metadata fuel key p
              | None => {[ key := redact_value key (take_chars MAX_TAG_CHARS s) ]}
              end
          | VNumber n => {[ key := number_to_string n ]}
          | VBool b => {[ key := if b then "true" else "false" ]}%string
          | VObject map =>
              foldl (fun m kv => extend m (metadata fuel (key +:+ "." +:+ kv.1) kv.2)) ∅ map
          | VArray [] => {[ key := "[]"%string ]}
          | VArray a =>
              foldl (fun m iv => extend m (metadata fuel (key +:+ "." +:+ pretty iv.1) iv.2)) ∅
                (imap (fun i v => (N.of_nat i, v)) a)
          end
      end
  end.

Definition get_metadata_from_value (key : string) (value : Value) (depth max_depth : Z)
  : gmap string string :=
  metadata (Z.to_nat (max_depth - depth)) key value.

(** A captured payload hides the text under a sensitive key, but only text that
    is not itself JSON and lies above the depth limit: a numeric secret is tagged
    as it is, and so is everything below the limit. *)
Theorem redaction_needs_plain_text key depth max_depth s :
  split_last "." key ∈ REDACTABLE_KEYS -> 0 <= depth < max_depth ->
  (value_from_str s = None ->
     get_metadata_from_value key (VString s) depth max_depth = {[ key := "redacted"%string ]}) /\
  (forall n, value_from_str s = Some (VNumber n) -> depth + 1 < max_depth ->
     get_metadata_from_value key (VString s) depth max_depth = {[ key := number_to_string n ]}) /\
  (forall text, value_to_string (VString s) = Some text ->
     get_metadata_from_value key (VString s) max_depth max_depth =
       {[ key := take_chars MAX_TAG_CHARS text ]}).
Proof.
  intros Hk Hd. unfold get_metadata_from_value.
  assert (Z.to_nat (max_depth - depth) = S (Z.to_nat (max_depth - depth - 1))) as Hs by lia.
  split_and!.
  - intros Hp. rewrite Hs. cbn [metadata]. rewrite Hp. unfold redact_value.
    by rewrite bool_decide_true.
  - intros n Hp Hlt. rewrite Hs. cbn [metadata]. rewrite Hp.
    assert (Z.to_nat (max_depth - depth - 1) = S (Z.to_nat (max_depth - depth - 2))) as -> by lia.
    done.
  - intros text Ht. rewrite Z.sub_diag. change (Z.to_nat 0) with 0%nat. cbn [metadata]. by rewrite Ht.
Qed.

End Metadata.

(** * Propagation *)

(** A carrier. *)
Record Extractor := { ex_get : string -> option string; ex_keys : list string }.

Inductive ExtractResult (SpanContext : Type) :=
| Continue (context : SpanContext)
| Passthrough
| Ignore
| Restart (context : SpanContext).
Arguments Continue {SpanContext} context.
Arguments Passthrough {SpanContext}.
Arguments Ignore {SpanContext}.
Arguments Restart {SpanContext} context.

Class Propagation (SamplingPriority : Type) := {
  (** the composite propagator of dd-trace-rs, for the configured styles *)
  inner_extract : Extractor -> ExtractResult (SpanContext SamplingPriority);
  (** the carrier of a [HashMap] *)
  hashmap_extractor : gmap string string -> Extractor;
  (** [str::parse::<SamplingPriority>().ok()] *)
  parse_priority : string -> option SamplingPriority;
}.

Section Propagator.
Context `{Externals} `{Propagation SamplingPriority}.

Definition BAGGAGE_PREFIX : string := "ot-baggage-".

Definition with_tags (sc : SpanContext SamplingPriority) (tags : gmap string string) :=
  {| sc_trace_id := sc_trace_id sc; sc_span_id := sc_span_id sc; sc_priority := sc_priority sc;
     sc_origin := sc_origin sc; sc_tags := tags |}.

Definition preserve_high_order_trace_id_bits (context : SpanContext SamplingPriority) :=
  let high := wrap_u64 (Z.shiftr (sc_trace_id context) 64) in
  if negb (high =? 0) &&
     bool_decide (sc_tags context !! DATADOG_HIGHER_ORDER_TRACE_ID_BITS_KEY = None)
  then with_tags context
         (<[DATADOG_HIGHER_ORDER_TRACE_ID_BITS_KEY := hex_fixed 16 high]> (sc_tags context))
  else context.

Definition attach_baggage (context : SpanContext SamplingPriority) (carrier : Extractor) :=
  foldl (fun context key =>
    match str_strip_prefix BAGGAGE_PREFIX (to_ascii_lowercase key) with
    | Some stripped =>
        with_tags context (<[stripped := default EmptyString (ex_get carrier key)]> (sc_tags context))
    | None => context
    end) context (ex_keys carrier).

Definition extract (config : Config) (carrier : Extractor) : option (SpanContext SamplingPriority) :=
  match inner_extract carrier with
  | Continue context =>
      let context := preserve_high_order_trace_id_bits context in
      Some (if trace_propagation_http_baggage_enabled config
            then attach_baggage context carrier else context)
  | Passthrough | Ignore | Restart _ => None
  end.

Definition JsonCarrier (v : Value) : Extractor :=
  {| ex_get := fun key => match v with
                          | VObject map => map_get map (lowercase key) ≫= as_str
                          | _ => None
                          end;
     ex_keys := match v with VObject map => fst <$> map | _ => [] end |}.

End Propagator.

(** * Triggers behind the trait *)

(** [Box<dyn Trigger>]. *)
Inductive DynTrigger : Type :=
| Dyn {T : Type} `{Trigger T} (t : T).

Section SpanInferrer.
Context `{Externals} `{Propagation SamplingPriority}.

Abbreviation InferredSpanData := (@Inferred.t (SpanContext SamplingPriority)).

Definition identify (payload : Value) : IdentifiedTrigger :=
  match from_value payload with Done t => t | Panic => Unknown end.

Definition with_service (s : Span) (svc : string) : Span :=
  {| service := svc; name := name s; resource := resource s; trace_id := trace_id s;
     span_id := span_id s; parent_id := parent_id s; start := start s; duration := duration s;
     error := error s; meta := meta s; metrics := metrics s; type_ := type_ s;
     meta_struct := meta_struct s |}.
Definition with_span_id (s : Span) (v : Z) : Span :=
  {| service := service s; name := name s; resource := resource s; trace_id := trace_id s;
     span_id := v; parent_id := parent_id s; start := start s; duration := duration s;
     error := error s; meta := meta s; metrics := metrics s; type_ := type_ s;
     meta_struct := meta_struct s |}.
Definition with_trace_id (s : Span) (v : Z) : Span :=
  {| service := service s; name := name s; resource := resource s; trace_id := v;
     span_id := span_id s; parent_id := parent_id s; start := start s; duration := duration s;
     error := error s; meta := meta s; metrics := metrics s; type_ := type_ s;
     meta_struct := meta_struct s |}.
Definition with_error (s : Span) (v : Z) : Span :=
  {| service := service s; name := name s; resource := resource s; trace_id := trace_id s;
     span_id := span_id s; parent_id := parent_id s; start := start s; duration := duration s;
     error := v; meta := meta s; metrics := metrics s; type_ := type_ s;
     meta_struct := meta_struct s |}.
Definition with_metrics (s : Span) (m : gmap string f64) : Span :=
  {| service := service s; name := name s; resource := resource s; trace_id := trace_id s;
     span_id := span_id s; parent_id := parent_id s; start := start s; duration := duration s;
     error := error s; meta := meta s; metrics := m; type_ := type_ s;
     meta_struct := meta_struct s |}.

Definition apply_base_service_override {T} `{ServiceNameResolver T} (span : Span) (trigger : T)
    (config : Config) : Span :=
  if trace_remove_integration_service_names_enabled config then
    match cfg_service config with
    | Some service =>
        if bool_decide (service = EmptyString) ||
           has_service_mapping_entry trigger (service_mapping config) then span
        else with_service span (lowercase service)
    | None => span
    end
  else span.

Definition get_trigger_type (identified_trigger : IdentifiedTrigger) : option DynTrigger :=
  match identified_trigger with
  | APIGatewayHttpEvent_ t => Some (Dyn t)
  | APIGatewayRestEvent_ t => Some (Dyn t)
  | APIGatewayWebSocketEvent_ t => Some (Dyn t)
  | ALBEvent_ t => Some (Dyn t)
  | LambdaFunctionUrlEvent_ t => Some (Dyn t)
  | MSKEvent_ t => Some (Dyn t)
  | SqsRecord_ t => Some (Dyn t)
  | SnsRecord_ t => Some (Dyn t)
  | DynamoDbRecord_ t => Some (Dyn t)
  | S3Record_ t => Some (Dyn t)
  | EventBridgeEvent_ t => Some (Dyn t)
  | KinesisRecord_ t => Some (Dyn t)
  | StepFunctionEvent_ t => Some (Dyn t)
  | Unknown => None
  end.

Definition should_enrich_span (identified_trigger : IdentifiedTrigger) : bool :=
  match identified_trigger with
  | ALBEvent_ _ | StepFunctionEvent_ _ | Unknown => false
  | _ => true
  end.

Definition extract_generated_span_context (identified_trigger : IdentifiedTrigger)
  : option (SpanContext SamplingPriority) :=
  match identified_trigger with
  | StepFunctionEvent_ t => Some (StepFunctionEvent_get_span_context parse_priority t)
  | SqsRecord_ t =>
      extract_trace_context_from_aws_trace_header parse_priority
        (SqsEvent.aws_trace_header (SqsEvent.attributes t))
  | _ => None
  end.

(** The ids of every trace context made from an event fit their 64-bit
    fields, and the parent id is never zero: it always names a span. *)
Theorem generated_ids_in_range trigger sc :
  extract_generated_span_context trigger = Some sc ->
  0 < sc_span_id sc < 2 ^ 64 /\ 0 <= sc_trace_id sc < 2 ^ 64.
Proof.
  destruct trigger as [| | | | | |t| | | | | |t|]; try done; cbn [extract_generated_span_context].
  - unfold extract_trace_context_from_aws_trace_header.
    destruct (SqsEvent.aws_trace_header _) as [v|]; [|done]. cbn [mbind option_bind].
    destruct (negb _); [done|]. destruct (trace_header_parts _ _) as [st|]; [|done]. cbn [mbind option_bind].
    destruct (parse_u64_hex (th_trace_id st)) as [t'|] eqn:Ht; [|done]. cbn [mbind option_bind].
    destruct (parse_u64_hex (th_parent_id st)) as [p|] eqn:Hp; [|done]. cbn [mbind option_bind].
    apply parse_unsigned_range in Ht, Hp; [|lia..]. change U64_MAX with (2 ^ 64 - 1) in *.
    destruct (_ || _) eqn:Hz; [done|]. apply orb_false_iff in Hz as [Hz1 Hz2].
    intros [= <-]. cbn. lia.
  - intros [= <-]. destruct (step_function_ids parse_priority t). split; [lia|done].
Qed.

(** The span of an event found inside the message [outer] was inferred from, and
    the outer span with the tags of the inner event. *)
Definition wrapped_span {T} `{Trigger T} (wrapped_trigger : T) (new_id : Z) (inferred_span : Span)
    (config : Config) : Span * Span :=
  let ws := with_span_id Span_default new_id in
  let ws := enrich_span wrapped_trigger ws (service_mapping config)
    (trace_aws_service_representation_enabled config) in
  let ws := apply_base_service_override ws wrapped_trigger config in
  let inferred_span := with_meta inferred_span (extend (meta inferred_span) (get_tags wrapped_trigger)) in
  let ws := with_duration ws (wrap_i64 (start inferred_span - start ws)) in
  let ws := with_meta ws (<["_inferred_span.synchronicity"%string := "async"%string]>
    (<["_inferred_span.tag_source"%string := "self"%string]> (meta ws))) in
  (ws, inferred_span).

Definition get_wrapped_inferred_span (identified_trigger : IdentifiedTrigger) (new_id : Z)
    (inferred_span : Span) (config : Config) : option Span * Span :=
  match identified_trigger with
  | SqsRecord_ t =>
      match sns_entity_from_str (SqsEvent.body t) with
      | Some sns_entity =>
          let '(ws, s) := wrapped_span (sns_of sns_entity) new_id inferred_span config in (Some ws, s)
      | None =>
          match event_bridge_from_str (SqsEvent.body t) with
          | Some event => let '(ws, s) := wrapped_span event new_id inferred_span config in (Some ws, s)
          | None => (None, inferred_span)
          end
      end
  | SnsRecord_ t =>
      match SnsEvent.message (SnsEvent.sns t) ≫= event_bridge_from_str with
      | Some event => let '(ws, s) := wrapped_span event new_id inferred_span config in (Some ws, s)
      | None => (None, inferred_span)
      end
  | _ => (None, inferred_span)
  end.

Definition get_span_pointers (identified_trigger : IdentifiedTrigger) : option (list SpanPointer) :=
  match identified_trigger with
  | DynamoDbRecord_ t => DynamoDbRecord_get_span_pointers t
  | S3Record_ t => S3Record_get_span_pointers t
  | _ => None
  end.

Definition should_skip_inferred_span (identified_trigger : IdentifiedTrigger) : bool :=
  match identified_trigger with
  | ALBEvent_ _ => true
  | StepFunctionEvent_ _ => is_some (extract_generated_span_context identified_trigger)
  | _ => false
  end.

(** [region] is the one of the AWS configuration; [id] and [wrapped_id] are the
    generated span ids. *)
Definition infer_span (config : Config) (region : string) (id wrapped_id : Z) (payload_value : Value)
  : InferredSpanData :=
  let inferred_span := with_span_id Span_default id in
  let identified_trigger := identify payload_value in
  let '(wrapped_inferred_span, inferred_span) :=
    get_wrapped_inferred_span identified_trigger wrapped_id inferred_span config in
  let span_pointers := get_span_pointers identified_trigger in
  match get_trigger_type identified_trigger with
  | None => Inferred.default
  | Some (Dyn t) =>
      let inferred_span :=
        if should_enrich_span identified_trigger then
          apply_base_service_override
            (enrich_span t inferred_span (service_mapping config)
               (trace_aws_service_representation_enabled config)) t config
        else inferred_span in
      let inferred_span := with_meta inferred_span
        (insert_some "dd_resource_key" (get_dd_resource_key t region) (meta inferred_span)) in
      let synchronicity := if is_async t then "async"%string else "sync"%string in
      {| Inferred.inferred_span :=
           if should_skip_inferred_span identified_trigger then None
           else Some (with_meta inferred_span
                  (<["_inferred_span.synchronicity"%string := synchronicity]>
                     (<["_inferred_span.tag_source"%string := "self"%string]> (meta inferred_span))));
         Inferred.wrapped_inferred_span := wrapped_inferred_span;
         Inferred.is_async_span := is_async t;
         Inferred.generated_span_context := None;
         Inferred.trigger_tags :=
           Some (<[FUNCTION_TRIGGER_EVENT_SOURCE_ARN_TAG := get_arn t region]> (get_tags t));
         Inferred.span_pointers := span_pointers |}
  end.

(** * Completion *)

Definition propagate_appsec (serverless_appsec_enabled : bool) (invocation_span target_span : Span)
  : Span :=
  let has_appsec :=
    match metrics invocation_span !! "_dd.appsec.enabled"%string with
    | Some enabled => Some enabled
    | None => if serverless_appsec_enabled then Some f64_one else None
    end in
  let target_span :=
    match has_appsec with
    | Some enabled =>
        with_metrics target_span (<["_dd.appsec.enabled"%string := enabled]> (metrics target_span))
    | None => target_span
    end in
  with_meta target_span
    (insert_some "_dd.appsec.json" (meta invocation_span !! "_dd.appsec.json"%string) (meta target_span)).

(** What both inferred spans take from the invocation span; [peer] is the
    service they call. *)
Definition take_invocation (invocation_span : Span) (peer : string) (s : Span) : Span :=
  let s := with_error (with_trace_id s (trace_id invocation_span)) (error invocation_span) in
  with_meta s (<["peer.service"%string := peer]> (meta s)).

Definition complete_wrapped (config : Config) (is_async_span : bool) (invocation_span s ws : Span) : Span :=
  let ws := take_invocation invocation_span (service s) ws in
  let ws := propagate_appsec (serverless_appsec_enabled config) invocation_span ws in
  let ws := with_parent_id ws (parent_id s) in
  if is_async_span && negb (duration ws =? 0) then ws
  else with_duration ws (wrap_i64 (start s - start ws)).

Definition complete_inferred (config : Config) (invocation_span s : Span) : Span :=
  let s := take_invocation invocation_span (service invocation_span) s in
  let s := with_meta s (<["span.kind"%string := "server"%string]> (meta s)) in
  propagate_appsec (serverless_appsec_enabled config) invocation_span s.

Definition inferred_duration (is_async_span : bool) (invocation_span s : Span) : Span :=
  if is_async_span then
    if duration s =? 0 then with_duration s (wrap_i64 (start invocation_span - start s)) else s
  else with_duration s
         (wrap_i64 (wrap_i64 (start invocation_span + duration invocation_span) - start s)).

Definition complete_inferred_spans (config : Config) (data : InferredSpanData) (invocation_span : Span)
  : InferredSpanData :=
  let is_async_span := Inferred.is_async_span data in
  match Inferred.inferred_span data with
  | None => data
  | Some s =>
      let s := complete_inferred config invocation_span s in
      let ws := complete_wrapped config is_async_span invocation_span s <$>
                  Inferred.wrapped_inferred_span data in
      let s := match ws with Some ws => with_parent_id s (span_id ws) | None => s end in
      {| Inferred.inferred_span := Some (inferred_duration is_async_span invocation_span s);
         Inferred.wrapped_inferred_span := ws;
         Inferred.is_async_span := is_async_span;
         Inferred.generated_span_context := Inferred.generated_span_context data;
         Inferred.trigger_tags := Inferred.trigger_tags data;
         Inferred.span_pointers := Inferred.span_pointers data |}
  end.

(** * Trace context of an event *)

Definition extract_span_context (config : Config) (payload_value : Value)
  : option (SpanContext SamplingPriority) :=
  let identified_trigger := identify payload_value in
  let generated_span_context := extract_generated_span_context identified_trigger in
  match get_trigger_type identified_trigger with
  | None => None
  | Some (Dyn t) =>
      match extract config (hashmap_extractor (get_carrier t)) with
      | Some sc => Some sc
      | None => generated_span_context
      end
  end.

(** * Spans of one trace *)

(** A wrapped span is only inferred for an asynchronous event, and its duration
    is computed while the outer span has no start yet. *)
Lemma infer_span_wrapped config region id wrapped_id payload ws :
  let data := infer_span config region id wrapped_id payload in
  Inferred.wrapped_inferred_span data = Some ws ->
  duration ws = wrap_i64 (- start ws) /\ Inferred.is_async_span data = true /\
  is_Some (Inferred.inferred_span data).
Proof.
  unfold infer_span.
  destruct (get_wrapped_inferred_span (identify payload) wrapped_id (with_span_id Span_default id) config)
    as [ws' s] eqn:Hw.
  destruct (identify payload) as [| | | | | |t|t| | | | | |]; cbn in Hw; try (injection Hw as <- <-; done);
    cbn [get_trigger_type Inferred.wrapped_inferred_span Inferred.is_async_span Inferred.inferred_span
         should_skip_inferred_span]; intros ->.
  - destruct (sns_entity_from_str _); [|destruct (event_bridge_from_str _); [|done]];
      injection Hw as <- <-; split_and!; eauto.
  - destruct (_ ≫= event_bridge_from_str); [|done]. injection Hw as <- <-; split_and!; eauto.
Qed.

(** The span of an event wrapped in a queue or topic message ends before it
    starts: whatever happens to the outer span in between, the completed inner
    span has the negation of its start time as duration. *)
Theorem wrapped_span_duration_negative config region id wrapped_id payload f invocation_span ws :
  let data := infer_span config region id wrapped_id payload in
  Inferred.wrapped_inferred_span data = Some ws -> 0 < start ws < 2 ^ 63 ->
  exists ws',
    Inferred.wrapped_inferred_span
      (complete_inferred_spans config (Inferred.map_span f data) invocation_span) = Some ws' /\
    start ws' = start ws /\ duration ws' = - start ws.
Proof.
  intros data Hws Hstart.
  destruct (infer_span_wrapped config region id wrapped_id payload ws Hws) as (Hd & Ha & [s Hs]).
  fold data in Ha, Hs. rewrite wrap_i64_small in Hd by (unfold is_i64; lia).
  eexists. unfold complete_inferred_spans. cbn [Inferred.map_span Inferred.inferred_span
    Inferred.wrapped_inferred_span Inferred.is_async_span]. rewrite Hs, Hws, Ha. cbn [fmap option_fmap option_map].
  split; [reflexivity|]. unfold complete_wrapped, propagate_appsec. cbv zeta.
  assert (duration ws =? 0 = false) as Hz by (apply Z.eqb_neq; lia).
  repeat case_match; cbn in *; by rewrite ?Hz in *.
Qed.

End SpanInferrer.

(** * Concrete runs *)

(** A host on which every document is the same SNS notification and no other
    text can be decoded. *)
Module Sample.

Definition notification : SnsEvent.SnsEntity :=
  {| SnsEvent.message_id := "m"; SnsEvent.entity_type := "Notification";
     SnsEvent.topic_arn := "arn:aws:sns:us-east-1:1:topic"; SnsEvent.message_attributes := ∅;
     SnsEvent.timestamp := 1700000000000000000; SnsEvent.subject := None; SnsEvent.message := None |}.

#[export] Instance externals : Externals :=
  {| unicode_lower := fun s => s; b64_decode := fun _ => None; value_from_str := fun _ => None;
     sns_entity_from_str := fun _ => Some notification; event_bridge_from_str := fun _ => None;
     string_map_from_str := fun _ => None; value_map_from_slice := fun _ => None;
     value_to_string := fun _ => None; f64_to_string := fun _ => "0"%string;
     parse_datetime := fun _ => None; sha256_digest := fun _ => [];
     hash_iter := fun _ m => map_to_list m; env_var := fun _ => None |}.

#[export] Instance propagation : Propagation Z :=
  {| inner_extract := fun _ => Passthrough;
     hashmap_extractor := fun m => {| ex_get := fun k => m !! k; ex_keys := (map_to_list m).*1 |};
     parse_priority := parse_i64 |}.

Definition config_with (ext : LambdaConfig) : Config :=
  {| cfg_service := Some "svc"%string; cfg_env := None; cfg_version := None; cfg_tags := ∅;
     service_mapping := ∅;
     trace_aws_service_representation_enabled := true;
     trace_propagation_http_baggage_enabled := false;
     apm_filter_tags_require := None; apm_filter_tags_reject := None;
     apm_filter_tags_regex_require := None; apm_filter_tags_regex_reject := None;
     apm_features := [];
     cfg_site := "datadoghq.com"; cfg_apm_dd_url := "https://trace.agent.datadoghq.com";
     cfg_flush_timeout := 30; apm_config_compression_level := 6;
     otlp_config_traces_enabled := true;
     otlp_config_receiver_protocols_http_endpoint := None;
     otlp_config_receiver_protocols_grpc_endpoint := None;
     otlp_config_receiver_protocols_grpc_max_recv_msg_size_mib := None;
     otlp_config_ignore_missing_datadog_fields := false;
     otlp_config_traces_span_name_as_resource_name := false;
     otlp_config_traces_span_name_remappings := ∅;
     ext := ext |}.

Definition config : Config := config_with LambdaConfig_default.

(** A message of a queue subscribed to the topic. *)
Definition sqs_event : Value :=
  VObject [("Records"%string, VArray [VObject
    [("messageId"%string, VString "id"); ("receiptHandle"%string, VString "h");
     ("attributes"%string, VObject
        [("ApproximateFirstReceiveTimestamp"%string, VString "1700000000002");
         ("ApproximateReceiveCount"%string, VString "1");
         ("SentTimestamp"%string, VString "1700000000001"); ("SenderId"%string, VString "s")]);
     ("messageAttributes"%string, VObject []); ("md5OfBody"%string, VString "0");
     ("eventSource"%string, VString "aws:sqs");
     ("eventSourceARN"%string, VString "arn:aws:sqs:us-east-1:1:queue");
     ("awsRegion"%string, VString "us-east-1"); ("body"%string, VString "{}")]])].

End Sample.
#[local] Existing Instances Sample.externals Sample.propagation.

Lemma wrapped_span_duration_negative_witness :
  match Inferred.wrapped_inferred_span
          (complete_inferred_spans Sample.config
             (Inferred.map_span id (infer_span Sample.config "us-east-1" 7 8 Sample.sqs_event))
             Span_default) with
  | Some ws => start ws = 1700000000000000000 /\ duration ws = -1700000000000000000
  | None => False
  end.
Proof.
  edestruct (wrapped_span_duration_negative Sample.config "us-east-1" 7 8 Sample.sqs_event id Span_default)
    as (ws & Hw & Hs & Hd); [vm_compute; reflexivity|vm_compute; split; reflexivity|].
  rewrite Hw, Hs, Hd. vm_compute. split; reflexivity.
Defined.

Lemma generated_ids_in_range_witness :
  match extract_generated_span_context
          (SqsRecord_ {| SqsEvent.message_id := "m"; SqsEvent.receipt_handle := "h";
             SqsEvent.attributes :=
               {| SqsEvent.approximate_first_receive_timestamp := "1";
                  SqsEvent.approximate_receive_count := "1"; SqsEvent.sent_timestamp := "1";
                  SqsEvent.sender_id := "s"; SqsEvent.aws_trace_header := Some
                    "Root=1-65f0a1b2-00000000000000000000007b;Parent=00000000000001c8;Sampled=1"%string |};
             SqsEvent.message_attributes := ∅; SqsEvent.md5_of_body := "0";
             SqsEvent.event_source := "aws:sqs"; SqsEvent.event_source_arn := "arn";
             SqsEvent.aws_region := "us-east-1"; SqsEvent.body := "{}" |}) with
  | Some sc => 0 < sc_span_id sc < 2 ^ 64 /\ 0 <= sc_trace_id sc < 2 ^ 64
  | None => False
  end.
Proof.
  destruct (extract_generated_span_context _) as [sc|] eqn:Hsc; [|vm_compute in Hsc; discriminate].
  exact (generated_ids_in_range _ sc Hsc).
Defined.
