(* ===== verification/Otlp.v ===== *)
(** OpenTelemetry traces: [otlp/transform.rs] and [otlp/processor.rs].

    The types of the [opentelemetry_proto] crate are the ones below; a span carries
    the kind that its getter decodes. The tag normalizers of libdatadog, the texts of
    serde_json, the hex encoder, the names of the semantic conventions and of the
    span kinds, and the order in which a [HashMap] of traces is iterated are fields of
    [OtlpExternals]. *)
From S2P Require Import Prelude F64 DataStreams Text ContextBuffer Triggers.
From S2P Require Import Configuration SpanInferrer.
From stdpp Require Import pretty.
#[local] Open Scope Z_scope.

(** * The OTLP types *)

Inductive OtelValue :=
| StringValue (s : string)
| BoolValue (b : bool)
| IntValue (i : Z)
| DoubleValue (d : f64)
| BytesValue (b : list Z)
| ArrayValue (values : list (option OtelValue))
| KvlistValue (values : list (string * option (option OtelValue)))
| StringValueStrindex (i : Z).

(** [AnyValue] is a message with one optional field. *)
Abbreviation AnyValue := (option OtelValue).
(** A key and its value, if any. *)
Abbreviation KeyValue := (string * option AnyValue)%type.

Inductive SpanKind := Unspecified | Internal | Server | Client | Producer | Consumer.

#[export] Instance SpanKind_eq_dec : EqDecision SpanKind.
Proof. solve_decision. Defined.

Module Otel.
Record Event := {
  time_unix_nano : Z;
  ev_name : string;
  ev_attributes : list KeyValue;
  ev_dropped_attributes_count : Z;
}.

Record Link := {
  ln_trace_id : list Z;
  ln_span_id : list Z;
  ln_trace_state : string;
  ln_attributes : list KeyValue;
  ln_dropped_attributes_count : Z;
}.

Record Status := { message : string; code : Z }.

Record Span := {
  trace_id : list Z;
  span_id : list Z;
  trace_state : string;
  parent_span_id : list Z;
  name : string;
  kind : SpanKind;
  start_time_unix_nano : Z;
  end_time_unix_nano : Z;
  attributes : list KeyValue;
  events : list Event;
  links : list Link;
  status : option Status;
}.

(** [Resource] and [InstrumentationScope]. *)
Record Resource := { res_attributes : list KeyValue }.
Record Scope := { scope_name : string; version : string; scope_attributes : list KeyValue }.

Record ScopeSpans := { scope : option Scope; spans : list Span }.
Record ResourceSpans := { resource : option Resource; scope_spans : list ScopeSpans }.
End Otel.

(** * External code *)

Class OtlpExternals := {
  normalize_tag : string -> string;
  normalize_name : string -> string;
  normalize_service : string -> string;
  (** [serde_json::to_string] and [from_str] at the types they are used at *)
  strings_to_json : list string -> option string;
  string_map_to_json : list (string * string) -> option string;
  any_value_to_json : AnyValue -> option string;
  i32_from_json : string -> option Z;
  (** [hex::encode] *)
  hex_encode : list Z -> string;
  (** [SpanKind::as_str_name] and [StatusCode::Error as i32] *)
  as_str_name : SpanKind -> string;
  STATUS_CODE_ERROR : Z;
  (** the order of the traces of a [HashMap<u64, Vec<Span>>] *)
  traces_iter : gmap Z (list Span) -> list (Z * list Span);
  (** the semantic conventions *)
  SERVICE_NAME : string; SERVICE_VERSION : string; DEPLOYMENT_ENVIRONMENT_NAME : string;
  DB_QUERY_SUMMARY : string; DB_QUERY_TEXT : string; DB_COLLECTION_NAME : string;
  DB_STORED_PROCEDURE_NAME : string; DB_NAMESPACE : string; DB_OPERATION_NAME : string;
  DB_SYSTEM_NAME : string; SERVER_ADDRESS : string; SERVER_PORT : string;
  MESSAGING_SYSTEM : string; MESSAGING_OPERATION_TYPE : string;
  MESSAGING_DESTINATION_NAME : string; RPC_SYSTEM : string; RPC_SERVICE : string;
  RPC_METHOD : string; FAAS_INVOKED_PROVIDER : string; FAAS_INVOKED_NAME : string;
  FAAS_TRIGGER : string; GRAPHQL_OPERATION_TYPE : string; GRAPHQL_OPERATION_NAME : string;
  HTTP_ROUTE : string; HTTP_RESPONSE_STATUS_CODE : string; OTEL_SCOPE_NAME : string;
  OTEL_SCOPE_VERSION : string; OTEL_STATUS_CODE : string; OTEL_STATUS_DESCRIPTION : string;
  EXCEPTION_MESSAGE : string; EXCEPTION_TYPE : string; EXCEPTION_STACKTRACE : string;
}.

(** * Constants *)

Definition KEY_DATADOG_SERVICE : string := "datadog.service".
Definition KEY_DATADOG_NAME : string := "datadog.name".
Definition KEY_DATADOG_RESOURCE : string := "datadog.resource".
Definition KEY_DATADOG_TYPE : string := "datadog.type".
Definition KEY_DATADOG_SPAN_KIND : string := "datadog.span.kind".
Definition KEY_DATADOG_ERROR : string := "datadog.error".
Definition KEY_DATADOG_ERROR_MSG : string := "datadog.error.msg".
Definition KEY_DATADOG_ERROR_TYPE : string := "datadog.error.type".
Definition KEY_DATADOG_ERROR_STACK : string := "datadog.error.stack".
Definition KEY_DATADOG_VERSION : string := "datadog.version".
Definition KEY_DATADOG_HTTP_STATUS_CODE : string := "datadog.http_status_code".
Definition KEY_DATADOG_ENVIRONMENT : string := "datadog.env".
Definition KEY_SAMPLING_RATE_EVENT_EXTRACTION : string := "_dd1.sr.eausr".
Definition KEY_SAMPLING_PRIORITY_V1 : string := "_sampling_priority_v1".
Definition AWS_LAMBDA_INSTRUMENTATION_SCOPE : string :=
  "opentelemetry.instrumentation.aws_lambda".

Definition DD_SEMANTIC_KEYS_TO_META_KEYS : list (string * string) :=
  [(KEY_DATADOG_ENVIRONMENT, "env"); (KEY_DATADOG_VERSION, "version");
   (KEY_DATADOG_HTTP_STATUS_CODE, "http.status_code"); (KEY_DATADOG_ERROR_MSG, "error.msg");
   (KEY_DATADOG_ERROR_TYPE, "error.type"); (KEY_DATADOG_ERROR_STACK, "error.stack")]%string.

Definition META_KEYS_TO_DD_SEMANTIC_KEYS : gmap string string :=
  list_to_map ((fun kv => (kv.2, kv.1)) <$> DD_SEMANTIC_KEYS_TO_META_KEYS).

(** * Updates of a span *)

Definition with_name (s : Span) (v : string) : Span :=
  {| service := service s; name := v; resource := resource s; trace_id := trace_id s;
     span_id := span_id s; parent_id := parent_id s; start := start s; duration := duration s;
     error := error s; meta := meta s; metrics := metrics s; type_ := type_ s;
     meta_struct := meta_struct s |}.
Definition with_resource (s : Span) (v : string) : Span :=
  {| service := service s; name := name s; resource := v; trace_id := trace_id s;
     span_id := span_id s; parent_id := parent_id s; start := start s; duration := duration s;
     error := error s; meta := meta s; metrics := metrics s; type_ := type_ s;
     meta_struct := meta_struct s |}.
Definition with_type (s : Span) (v : string) : Span :=
  {| service := service s; name := name s; resource := resource s; trace_id := trace_id s;
     span_id := span_id s; parent_id := parent_id s; start := start s; duration := duration s;
     error := error s; meta := meta s; metrics := metrics s; type_ := v;
     meta_struct := meta_struct s |}.
Definition put_meta (k v : string) (s : Span) : Span := with_meta s (<[k := v]> (meta s)).
Definition put_metric (k : string) (v : f64) (s : Span) : Span :=
  with_metrics s (<[k := v]> (metrics s)).
Definition has_meta (k : string) (s : Span) : bool := bool_decide (is_Some (meta s !! k)).
Definition has_metric (k : string) (s : Span) : bool := bool_decide (is_Some (metrics s !! k)).

(** [opt.or_else(|| other)]. *)
Definition or_else {A} (opt other : option A) : option A :=
  match opt with Some _ => opt | None => other end.

Section Transform.
Context `{Externals} `{OtlpExternals}.

(** * Attributes *)

Fixpoint get_otel_attribute_value (attributes : list KeyValue) (key : string) : option AnyValue :=
  match attributes with
  | [] => None
  | (k, value) :: attributes =>
      if decide (k = key) then value else get_otel_attribute_value attributes key
  end.

Fixpoint otel_value_to_string (value : OtelValue) : string :=
  match value with
  | StringValue s => s
  | BoolValue b => if b then "true" else "false"
  | IntValue i => pretty i
  | DoubleValue d => f64_display d
  | BytesValue b => hex_encode b
  | ArrayValue values =>
      let array := (fix strings values :=
        match values with
        | [] => []
        | Some v :: values => otel_value_to_string v :: strings values
        | None :: values => strings values
        end) values in
      default EmptyString (strings_to_json array)
  | KvlistValue values =>
      let entries := (fix entries values :=
        match values with
        | [] => []
        | (key, Some (Some v)) :: values => (key, otel_value_to_string v) :: entries values
        | _ :: values => entries values
        end) values in
      let hashmap : gmap string string := foldl (fun m kv => <[kv.1 := kv.2]> m) ∅ entries in
      default EmptyString (string_map_to_json (hash_iter hashmap))
  | StringValueStrindex _ => EmptyString
  end.

(** The first attribute with the key that has a value. *)
Fixpoint first_value (attributes : list KeyValue) (key : string) : option OtelValue :=
  match attributes with
  | [] => None
  | (k, value) :: attributes =>
      if decide (k = key) then
        match value with Some (Some v) => Some v | _ => first_value attributes key end
      else first_value attributes key
  end.

Definition get_otel_attribute_value_as_string (attributes : list KeyValue) (key : string)
    (normalize : bool) : string :=
  let value := match first_value attributes key with
               | Some v => otel_value_to_string v
               | None => EmptyString
               end in
  if normalize then normalize_tag value else value.

Definition get_otel_attribute_value_as_string_from_resource_or_span (otel_res : Otel.Resource)
    (otel_span : Otel.Span) (key : string) (normalize : bool) : string :=
  match non_empty (get_otel_attribute_value_as_string (Otel.res_attributes otel_res) key normalize) with
  | Some value => value
  | None => get_otel_attribute_value_as_string (Otel.attributes otel_span) key normalize
  end.

(** * Identifiers *)

(** [u64::from_be_bytes]. *)
Definition from_be_bytes (bytes : list Z) : Z := foldl (fun acc b => acc * 256 + b) 0 bytes.

(** [v[a..b]]. *)
Definition slice {A} (v : list A) (a b : nat) : outcome (list A) :=
  if ((a <=? b) && (b <=? length v))%nat then Done (take (b - a) (drop a v)) else Panic.

Definition otel_trace_id_to_dd_id (trace_id : list Z) : outcome (Z * Z) :=
  low ← slice trace_id 8 16;
  high ← slice trace_id 0 8;
  Done (from_be_bytes low, from_be_bytes high).

Definition otel_span_id_to_u64 (span_id : list Z) : Z :=
  if decide (length span_id = 8%nat) then from_be_bytes span_id else 0.

(** * Names *)

Definition otel_operation_and_resource_v2_enabled (config : Config) : bool :=
  negb (otlp_config_traces_span_name_as_resource_name config)
  && bool_decide (otlp_config_traces_span_name_remappings config = ∅)
  && negb (bool_decide ("disable_operation_and_resource_name_logic_v2"%string ∈ apm_features config)).

Definition get_otel_service (otel_res : Otel.Resource) (normalize : bool) : string :=
  let service := get_otel_attribute_value_as_string (Otel.res_attributes otel_res) SERVICE_NAME
                   normalize in
  let service := default "otlpresourcenoservicename"%string (non_empty service) in
  if normalize then normalize_service service else service.

Definition get_dd_span_kind_from_otel_kind (otel_span : Otel.Span) : string :=
  match Otel.kind otel_span with
  | Server => "server"
  | Client => "client"
  | Consumer => "consumer"
  | Producer => "producer"
  | Internal => "internal"
  | Unspecified => "unspecified"
  end.

Definition get_otel_operation_name_v1 (otel_span : Otel.Span) (lib : Otel.Scope)
    (span_name_as_resource_name : bool) (span_name_remappings : gmap string string)
    (normalize : bool) : string :=
  let operation_name := get_otel_attribute_value_as_string (Otel.attributes otel_span)
                          "operation.name" false in
  let operation_name :=
    match operation_name with
    | EmptyString =>
        if span_name_as_resource_name then Otel.name otel_span
        else
          let span_kind_name := get_dd_span_kind_from_otel_kind otel_span in
          match Otel.scope_name lib with
          | EmptyString => ("opentelemetry." +:+ span_kind_name)%string
          | scope_name => (scope_name +:+ "." +:+ span_kind_name)%string
          end
    | _ => operation_name
    end in
  let operation_name := default operation_name (span_name_remappings !! operation_name) in
  if normalize then normalize_name operation_name else operation_name.

(** The first of the candidates that applies. *)
Fixpoint first_of (candidates : list (option string)) (otherwise : string) : string :=
  match candidates with
  | [] => otherwise
  | Some name :: _ => name
  | None :: candidates => first_of candidates otherwise
  end.

Definition get_otel_operation_name_v2 (otel_span : Otel.Span) (lib : Otel.Scope) : string :=
  let attribute k normalize :=
    get_otel_attribute_value_as_string (Otel.attributes otel_span) k normalize in
  let get k := non_empty (attribute k true) in
  let kind := Otel.kind otel_span in
  let is_client := bool_decide (kind = Client) in
  let is_server := bool_decide (kind = Server) in
  let target :=
    or_else (get DB_COLLECTION_NAME)
      (or_else (get DB_STORED_PROCEDURE_NAME)
         (or_else (get DB_NAMESPACE)
            (addr ← get SERVER_ADDRESS; port ← get SERVER_PORT;
             Some (addr +:+ ":" +:+ port)%string))) in
  let rpc_system := get RPC_SYSTEM in
  let is_aws := bool_decide (rpc_system = Some "aws-api"%string) in
  let protocol := get "network.protocol.name"%string in
  first_of
    [ non_empty (attribute "operation.name"%string false);
      (if is_server && bool_decide (Otel.scope_name lib = AWS_LAMBDA_INSTRUMENTATION_SCOPE)
       then Some "aws.lambda"%string else None);
      (_ ← non_empty (attribute "http.request.method"%string false);
       if is_server then Some "http.server.request"%string
       else if is_client then Some "http.client.request"%string else None);
      get DB_QUERY_SUMMARY;
      (target ← target;
       match target, attribute DB_OPERATION_NAME true with
       | EmptyString, _ => None
       | _, EmptyString => Some target
       | _, db_operation => Some (db_operation +:+ " " +:+ target)%string
       end);
      get DB_SYSTEM_NAME;
      (messaging_system ← get MESSAGING_SYSTEM;
       messaging_operation ← get MESSAGING_OPERATION_TYPE;
       match kind with
       | Client | Server | Consumer | Producer =>
           Some (messaging_system +:+ "." +:+ messaging_operation)%string
       | _ => None
       end);
      (if is_aws && is_client then
         Some match get RPC_SERVICE with
              | Some service => ("aws." +:+ service +:+ ".request")%string
              | None => "aws.client.request"%string
              end
       else None);
      (rpc_system ← rpc_system;
       if is_client then Some (rpc_system +:+ ".client.request")%string
       else if is_server then Some (rpc_system +:+ ".server.request")%string else None);
      (provider ← get FAAS_INVOKED_PROVIDER;
       invoked_name ← get FAAS_INVOKED_NAME;
       if is_client then Some (provider +:+ "." +:+ invoked_name +:+ ".invoke")%string else None);
      (trigger ← get FAAS_TRIGGER;
       if is_server then Some (trigger +:+ ".invoke")%string else None);
      (_ ← get "graphql.operation.type"%string; Some "graphql.server.request"%string);
      (if is_server then
         Some match protocol with
              | Some protocol => (protocol +:+ ".server.request")%string
              | None => "server.request"%string
              end
       else if is_client then
         Some match protocol with
              | Some protocol => (protocol +:+ ".client.request")%string
              | None => "client.request"%string
              end
       else None);
      (if bool_decide (kind <> Unspecified) then Some (as_str_name kind) else None) ]
    (as_str_name Internal).

Definition get_otel_resource (otel_span : Otel.Span) (otel_res : Otel.Resource) : string :=
  let get k := non_empty
    (get_otel_attribute_value_as_string_from_resource_or_span otel_res otel_span k false) in
  let paired first second :=
    Some match second with Some s => (first +:+ " " +:+ s)%string | None => first end in
  first_of
    [ get "resource.name"%string;
      (method ← get "http.request.method"%string;
       let method := if bool_decide (method = "_OTHER"%string) then "HTTP"%string else method in
       paired method (if bool_decide (Otel.kind otel_span = Server) then get HTTP_ROUTE else None));
      (operation ← get MESSAGING_OPERATION_TYPE; paired operation (get MESSAGING_DESTINATION_NAME));
      (rpc_method ← get RPC_METHOD;
       Some match get RPC_SERVICE with
            | Some service => (service +:+ " " +:+ rpc_method)%string
            | None => rpc_method
            end);
      (operation_type ← get GRAPHQL_OPERATION_TYPE; paired operation_type (get GRAPHQL_OPERATION_NAME));
      (system ← get DB_SYSTEM_NAME; Some (default system (get DB_QUERY_TEXT))) ]
    (Otel.name otel_span).

Definition get_dd_span_type_from_otel_kind (otel_span : Otel.Span) (otel_res : Otel.Resource) : string :=
  match Otel.kind otel_span with
  | Server => "web"
  | Client =>
      match get_otel_attribute_value_as_string_from_resource_or_span otel_res otel_span
              DB_SYSTEM_NAME true with
      | EmptyString => "http"
      | db_system =>
          if bool_decide (db_system = "redis"%string \/ db_system = "memcached"%string)
          then "cache" else "db"
      end
  | _ => "custom"
  end.

Definition get_otel_status_code (otel_span : Otel.Span) : Z :=
  let code k := parse_u32 (get_otel_attribute_value_as_string (Otel.attributes otel_span) k false) in
  default 0 (or_else (code "http.response.status_code"%string) (code HTTP_RESPONSE_STATUS_CODE)).

(** * Setters *)

Definition set_top_level_dd_span (span : Span) (is_top_level : bool) : Span :=
  if is_top_level then put_metric "_top_level" f64_one span
  else with_metrics span (delete "_top_level"%string (metrics span)).

Definition set_measured_dd_span (span : Span) (measured : bool) : Span :=
  if measured then with_metrics span (delete "_dd.measured"%string (metrics span))
  else put_metric "_dd.measured" f64_one span.

Definition is_datadog_apm_convention_key (k : string) : bool :=
  bool_decide (k ∈ ["service.name"; "operation.name"; "resource.name"; "span.type"]%string)
  || starts_with "datadog." k.

Definition get_dd_key_for_otlp_attribute (k : string) : string :=
  if starts_with "http.request.header." k then
    ("http.request.headers." +:+ trim_start_matches "http.request.header." k)%string
  else if negb (is_datadog_apm_convention_key k) then k
  else EmptyString.

Definition set_otlp_meta (span : Span) (k v : string) : Span :=
  if decide (k = "operation.name"%string) then with_name span v
  else if decide (k = "service.name"%string) then with_service span v
  else if decide (k = "resource.name"%string) then with_resource span v
  else if decide (k = "span.type"%string) then with_type span v
  else if decide (k = "analytics.event"%string) then
    match parse_bool v with
    | Some b => put_metric KEY_SAMPLING_RATE_EVENT_EXTRACTION (if b then f64_one else f64_zero) span
    | None => span
    end
  else put_meta k v span.

Definition set_otlp_metrics (span : Span) (k : string) (v : f64) : Span :=
  if decide (k = "sampling.priority"%string) then put_metric KEY_SAMPLING_PRIORITY_V1 v span
  else put_metric k v span.

Definition set_otlp_meta_with_semantic_convention_mappings (span : Span) (k v : string)
    (ignore_missing_datadog_fields : bool) : Span :=
  match get_dd_key_for_otlp_attribute k with
  | EmptyString => span
  | _ =>
      if bool_decide (is_Some (META_KEYS_TO_DD_SEMANTIC_KEYS !! k))
         && (has_meta k span || ignore_missing_datadog_fields)
      then span else set_otlp_meta span k v
  end.

Definition set_otlp_metrics_with_semantic_convention_mappings (span : Span) (k : string) (v : f64)
    (ignore_missing_datadog_fields : bool) : Span :=
  match get_dd_key_for_otlp_attribute k with
  | EmptyString => span
  | _ =>
      if bool_decide (is_Some (META_KEYS_TO_DD_SEMANTIC_KEYS !! k))
         && (has_metric k span || ignore_missing_datadog_fields)
      then span else set_otlp_metrics span k v
  end.

(** * Events and links *)

Definition json_attributes (attributes : list KeyValue) : Value :=
  VObject (foldl (fun attrs kv =>
    match kv with
    | (key, Some (Some value)) => map_insert attrs key (VString (otel_value_to_string value))
    | _ => attrs
    end) [] attributes).

Definition nonzero (n : Z) : option Value := if n =? 0 then None else Some (VNumber (PosInt n)).
Definition put_json (k : string) (v : option Value) (obj : Map) : Map :=
  match v with Some v => map_insert obj k v | None => obj end.
Definition attributes_object (attributes : list KeyValue) : option Value :=
  match attributes with [] => None | _ => Some (json_attributes attributes) end.

Definition marshal_events (events : list Otel.Event) : string :=
  default EmptyString (value_to_string (VArray ((fun event =>
    VObject
      (put_json "dropped_attributes_count" (nonzero (Otel.ev_dropped_attributes_count event))
         (put_json "attributes" (attributes_object (Otel.ev_attributes event))
            (put_json "name" (VString <$> non_empty (Otel.ev_name event))
               (put_json "time_unix_nano" (nonzero (Otel.time_unix_nano event)) []))))) <$> events))).

Definition marshal_links (links : list Otel.Link) : string :=
  default EmptyString (value_to_string (VArray ((fun link =>
    VObject
      (put_json "dropped_attributes_count" (nonzero (Otel.ln_dropped_attributes_count link))
         (put_json "attributes" (attributes_object (Otel.ln_attributes link))
            (put_json "tracestate" (VString <$> non_empty (Otel.ln_trace_state link))
               (put_json "span_id" (Some (VString (hex_encode (Otel.ln_span_id link))))
                  (put_json "trace_id" (Some (VString (hex_encode (Otel.ln_trace_id link)))) []))))))
    <$> links))).

Definition is_exception (event : Otel.Event) : bool :=
  bool_decide (Otel.ev_name event = "exception"%string).

Definition set_span_events_has_exception (dd_span : Span) (otel_span : Otel.Span) : Span :=
  if existsb is_exception (Otel.events otel_span)
  then put_meta "_dd.span_events.has_exception" "true" dd_span
  else dd_span.

Definition put_nonempty (k v : string) (s : Span) : Span :=
  match v with EmptyString => s | _ => put_meta k v s end.

Definition set_exception_meta (dd_span : Span) (event : Otel.Event) : Span :=
  if negb (is_exception event) then dd_span
  else
    let get k := get_otel_attribute_value_as_string (Otel.ev_attributes event) k false in
    put_nonempty "error.stack" (get EXCEPTION_STACKTRACE)
      (put_nonempty "error.type" (get EXCEPTION_TYPE)
         (put_nonempty "error.msg" (get EXCEPTION_MESSAGE) dd_span)).

Definition set_span_error_from_otel_span (dd_span : Span) (otel_span : Otel.Span) : Span :=
  let status := Otel.status otel_span in
  if match status with Some s => negb (Otel.code s =? STATUS_CODE_ERROR) | None => false end
  then dd_span
  else
    let dd_span := foldl set_exception_meta dd_span (Otel.events otel_span) in
    if has_meta "error.msg" dd_span then dd_span
    else
      match status with
      | Some status => put_meta "error.msg" (Otel.message status) dd_span
      | None =>
          match meta dd_span !! "http.response.status_code"%string with
          | Some status_code => put_meta "error.msg" status_code dd_span
          | None => dd_span
          end
      end.

(** * Spans *)

(** The fields a span starts from. *)
Definition initial_dd_span (otel_span : Otel.Span) (otel_res : Otel.Resource) : outcome Span :=
  '(low, high) ← otel_trace_id_to_dd_id (Otel.trace_id otel_span);
  let get k := get_otel_attribute_value_as_string (Otel.attributes otel_span) k true in
  Done {| service := get KEY_DATADOG_SERVICE; name := get KEY_DATADOG_NAME;
          resource := get_otel_attribute_value_as_string (Otel.res_attributes otel_res)
                        KEY_DATADOG_RESOURCE true;
          type_ := get KEY_DATADOG_TYPE;
          trace_id := low;
          span_id := otel_span_id_to_u64 (Otel.span_id otel_span);
          parent_id := otel_span_id_to_u64 (Otel.parent_span_id otel_span);
          start := wrap_i64 (Otel.start_time_unix_nano otel_span);
          duration := wrap_i64 (Otel.end_time_unix_nano otel_span
                                -ᵤ Otel.start_time_unix_nano otel_span)%rust;
          error := 0;
          meta := {[ DATADOG_HIGHER_ORDER_TRACE_ID_BITS_KEY := pretty high ]};
          metrics := ∅;
          meta_struct := ∅ |}.

Definition otel_error (otel_span : Otel.Span) : Z :=
  match get_otel_attribute_value (Otel.attributes otel_span) KEY_DATADOG_ERROR with
  | Some error_value =>
      default 0 (i32_from_json (default EmptyString (any_value_to_json error_value)))
  | None =>
      match Otel.status otel_span with
      | Some s => if Otel.code s =? STATUS_CODE_ERROR then 1 else 0
      | None => 0
      end
  end.

(** The fields derived when the attributes of Datadog are absent. *)
Definition set_missing_fields (dd_span : Span) (otel_span : Otel.Span) (otel_res : Otel.Resource)
    (lib : Otel.Scope) (config : Config) : Span :=
  let s := match service dd_span with
           | EmptyString => with_service dd_span (get_otel_service otel_res true)
           | _ => dd_span
           end in
  let s := with_name s
    (if otel_operation_and_resource_v2_enabled config then get_otel_operation_name_v2 otel_span lib
     else get_otel_operation_name_v1 otel_span lib
            (otlp_config_traces_span_name_as_resource_name config)
            (otlp_config_traces_span_name_remappings config) true) in
  let s := match resource s with
           | EmptyString => with_resource s (get_otel_resource otel_span otel_res)
           | _ => s
           end in
  let s := match type_ s with
           | EmptyString =>
               with_type s (default (get_dd_span_type_from_otel_kind otel_span otel_res)
                 (non_empty (get_otel_attribute_value_as_string_from_resource_or_span otel_res
                               otel_span "span.type" true)))
           | _ => s
           end in
  let s := if has_meta "span.type" s then s
           else put_meta "span.type" (get_dd_span_kind_from_otel_kind otel_span) s in
  let http_status_code :=
    match get_otel_attribute_value_as_string (Otel.attributes otel_span)
            KEY_DATADOG_HTTP_STATUS_CODE false with
    | EmptyString => get_otel_status_code otel_span
    | text => default 0 (parse_u32 text)
    end in
  let s := if http_status_code =? 0 then s
           else put_metric "http.status_code" (f64_of_Z http_status_code) s in
  if has_meta "env" s then s
  else put_nonempty "env" (get_otel_attribute_value_as_string (Otel.res_attributes otel_res)
                             DEPLOYMENT_ENVIRONMENT_NAME true) s.

Definition set_sampling_marks (dd_span : Span) (otel_span : Otel.Span) (config : Config) : Span :=
  let kind := Otel.kind otel_span in
  let top_level_by_kind :=
    bool_decide ("enable_otlp_compute_top_level_by_span_kind"%string ∈ apm_features config) in
  let is_top_level :=
    top_level_by_kind && (bool_decide (Otel.parent_span_id otel_span = [])
                          || bool_decide (kind = Server) || bool_decide (kind = Consumer)) in
  let s := if is_top_level then set_top_level_dd_span dd_span true else dd_span in
  let is_measured := bool_decide (get_otel_attribute_value_as_string (Otel.attributes otel_span)
                                    "_dd.measured" false = "1"%string) in
  if is_measured || bool_decide (kind = Client) || bool_decide (kind = Producer)
  then set_measured_dd_span s true else s.

Definition set_semantic_key (otel_span : Otel.Span) (s : Span) (keys : string * string) : Span :=
  put_nonempty keys.2 (get_otel_attribute_value_as_string (Otel.attributes otel_span) keys.1 false) s.

Definition set_resource_attribute (ignore : bool) (s : Span) (kv : KeyValue) : Span :=
  match kv with
  | (key, Some (Some v)) =>
      match otel_value_to_string v with
      | EmptyString => s
      | value => set_otlp_meta_with_semantic_convention_mappings s key value ignore
      end
  | _ => s
  end.

Definition set_scope_attribute (s : Span) (kv : KeyValue) : Span :=
  match kv with
  | (key, Some (Some v)) => put_nonempty key (otel_value_to_string v) s
  | _ => s
  end.

Definition set_span_attribute (ignore : bool) (s : Span) (kv : KeyValue) : Span :=
  if starts_with "datadog." kv.1 then s
  else
    match kv with
    | (key, Some (Some v)) =>
        match v with
        | DoubleValue v => set_otlp_metrics_with_semantic_convention_mappings s key v ignore
        | IntValue v => set_otlp_metrics_with_semantic_convention_mappings s key (f64_of_Z v) ignore
        | _ => set_otlp_meta_with_semantic_convention_mappings s key (otel_value_to_string v) ignore
        end
    | _ => s
    end.

(** What is read off the span itself between the attributes of the scope and its
    own attributes. *)
Definition set_span_texts (s : Span) (otel_span : Otel.Span) (otel_res : Otel.Resource) : Span :=
  let s := put_meta "otel.trace_id" (hex_encode (Otel.trace_id otel_span)) s in
  let s := if has_meta "version" s
           then put_nonempty "version" (get_otel_attribute_value_as_string
                  (Otel.res_attributes otel_res) SERVICE_VERSION false) s
           else s in
  let s := set_span_events_has_exception s otel_span in
  let s := match Otel.events otel_span with
           | [] => s
           | events => put_meta "events" (marshal_events events) s
           end in
  match Otel.links otel_span with
  | [] => s
  | links => put_meta "_dd.span_links" (marshal_links links) s
  end.

Definition set_scope_and_status (s : Span) (otel_span : Otel.Span) (lib : Otel.Scope) : Span :=
  let s := put_nonempty "w3c.trace_state" (Otel.trace_state otel_span) s in
  let s := put_nonempty OTEL_SCOPE_NAME (Otel.scope_name lib) s in
  let s := put_nonempty OTEL_SCOPE_VERSION (Otel.version lib) s in
  match Otel.status otel_span with
  | Some status =>
      put_meta OTEL_STATUS_DESCRIPTION (Otel.message status)
        (put_meta OTEL_STATUS_CODE (pretty (Otel.code status)) s)
  | None => s
  end.

(** Everything after the initial fields. *)
Definition fill_dd_span (dd_span : Span) (otel_span : Otel.Span) (otel_res : Otel.Resource)
    (lib : Otel.Scope) (config : Config) : Span :=
  let ignore := otlp_config_ignore_missing_datadog_fields config in
  let s := with_error dd_span (otel_error otel_span) in
  let s := put_nonempty "span.kind" (get_otel_attribute_value_as_string
             (Otel.attributes otel_span) KEY_DATADOG_SPAN_KIND true) s in
  let s := if ignore then s else set_missing_fields s otel_span otel_res lib config in
  let s := set_sampling_marks s otel_span config in
  let s := foldl (set_semantic_key otel_span) s DD_SEMANTIC_KEYS_TO_META_KEYS in
  let s := foldl (set_resource_attribute ignore) s (Otel.res_attributes otel_res) in
  let s := foldl set_scope_attribute s (Otel.scope_attributes lib) in
  let s := set_span_texts s otel_span otel_res in
  let s := foldl (set_span_attribute ignore) s (Otel.attributes otel_span) in
  let s := set_scope_and_status s otel_span lib in
  if ignore && (negb (has_meta "error.msg" s) || negb (has_meta "error.type" s)
                || negb (has_meta "error.stack" s))
  then set_span_error_from_otel_span s otel_span else s.

Definition otel_span_to_dd_span (otel_span : Otel.Span) (otel_res : Otel.Resource)
    (lib : Otel.Scope) (config : Config) : outcome Span :=
  dd_span ← initial_dd_span otel_span otel_res;
  Done (fill_dd_span dd_span otel_span otel_res lib config).

(** * Traces *)

Fixpoint group_spans (otel_res : Otel.Resource) (lib : Otel.Scope) (config : Config)
    (otel_spans : list Otel.Span) (traces_by_id : gmap Z (list Span)) : outcome (gmap Z (list Span)) :=
  match otel_spans with
  | [] => Done traces_by_id
  | otel_span :: otel_spans =>
      '(trace_id_lower, _) ← otel_trace_id_to_dd_id (Otel.trace_id otel_span);
      dd_span ← otel_span_to_dd_span otel_span otel_res lib config;
      let group := default [] (traces_by_id !! trace_id_lower) in
      group_spans otel_res lib config otel_spans
        (<[trace_id_lower := group ++ [dd_span]]> traces_by_id)
  end.

Fixpoint group_scopes (otel_res : Otel.Resource) (config : Config)
    (scope_spans : list Otel.ScopeSpans) (traces_by_id : gmap Z (list Span)) :
    outcome (gmap Z (list Span)) :=
  match scope_spans with
  | [] => Done traces_by_id
  | ss :: scope_spans =>
      traces_by_id ← match Otel.scope ss with
                     | Some lib => group_spans otel_res lib config (Otel.spans ss) traces_by_id
                     | None => Done traces_by_id
                     end;
      group_scopes otel_res config scope_spans traces_by_id
  end.

Definition otel_resource_spans_to_dd_spans (resource_spans : Otel.ResourceSpans) (config : Config) :
    outcome (list (list Span)) :=
  match Otel.resource resource_spans with
  | None => Done []
  | Some otel_res =>
      traces_by_id ← group_scopes otel_res config (Otel.scope_spans resource_spans) ∅;
      Done (snd <$> traces_iter traces_by_id)
  end.
End Transform.

(** * [processor.rs] *)

Definition TIMESTAMP_FIELDS : list string :=
  ["startTimeUnixNano"; "endTimeUnixNano"; "timeUnixNano"; "observedTimeUnixNano"]%string.

Definition normalize_timestamp_value (value : Value) : Value :=
  match value with
  | VNumber n =>
      match as_u64 value with
      | Some i => VString (pretty i)
      | None => match as_i64 value with Some i => VString (pretty i) | None => value end
      end
  | VObject map =>
      match map_get map "low" ≫= as_u64, map_get map "high" ≫= as_u64 with
      | Some low, Some high =>
          VString (pretty (Z.lor (wrap_u64 (Z.shiftl high 32)) (Z.land low 0xFFFFFFFF)))
      | _, _ => value
      end
  | _ => value
  end.

Fixpoint normalize_timestamps (value : Value) : Value :=
  match value with
  | VObject map =>
      VObject ((fix entries map :=
        match map with
        | [] => []
        | (key, val) :: map =>
            (key, if bool_decide (key ∈ TIMESTAMP_FIELDS) then normalize_timestamp_value val
                  else normalize_timestamps val) :: entries map
        end) map)
  | VArray arr =>
      VArray ((fix items arr :=
        match arr with
        | [] => []
        | item :: arr => normalize_timestamps item :: items arr
        end) arr)
  | _ => value
  end.

Inductive OtlpEncoding := Protobuf | Json.

Definition from_content_type (content_type : option string) : OtlpEncoding :=
  match content_type with
  | Some ct => if starts_with "application/json" ct then Json else Protobuf
  | None => Protobuf
  end.

Definition content_type (self : OtlpEncoding) : string :=
  match self with Json => "application/json" | Protobuf => "application/x-protobuf" end.

(** The decoders of serde_json and prost for a request, which is its resource spans. *)
Class OtlpDecoders := {
  value_from_slice : bytes -> option Value;
  request_from_value : Value -> option (list Otel.ResourceSpans);
  request_decode : bytes -> option (list Otel.ResourceSpans);
}.

Section Processor.
Context `{Externals} `{OtlpExternals} `{OtlpDecoders}.

Fixpoint process_request (config : Config) (request : list Otel.ResourceSpans) :
    outcome (list (list Span)) :=
  match request with
  | [] => Done []
  | resource_spans :: request =>
      spans ← otel_resource_spans_to_dd_spans resource_spans config;
      rest ← process_request config request;
      Done (spans ++ rest)
  end.

(** The inner [None] is a request that cannot be decoded. *)
Definition process (config : Config) (body : bytes) (encoding : OtlpEncoding) :
    outcome (option (list (list Span))) :=
  let request :=
    match encoding with
    | Json => json_value ← value_from_slice body; request_from_value (normalize_timestamps json_value)
    | Protobuf => request_decode body
    end in
  match request with
  | Some request => traces ← process_request config request; Done (Some traces)
  | None => Done None
  end.
End Processor.

(** * The identity of a span

    Its ids, times and error flag, which no attribute changes. *)

Definition identity (s : Span) : Z * Z * Z * Z * Z * Z :=
  (trace_id s, span_id s, parent_id s, start s, duration s, error s).

Lemma foldl_keeps {A B C} (f : A -> C) (g : A -> B -> A) (l : list B) :
  (forall s x, f (g s x) = f s) -> forall s, f (foldl g s l) = f s.
Proof. intros Hg. induction l as [|x l IH]; intros s; [done|]. cbn. by rewrite IH, Hg. Qed.

Create Rewrite HintDb identity.

Section Identity.
Context `{Externals} `{OtlpExternals}.

Lemma identity_put_meta k v s : identity (put_meta k v s) = identity s.
Proof. done. Qed.

Lemma identity_put_nonempty k v s : identity (put_nonempty k v s) = identity s.
Proof. by destruct v. Qed.

Lemma identity_set_otlp_meta s k v : identity (set_otlp_meta s k v) = identity s.
Proof. unfold set_otlp_meta. by repeat case_match. Qed.

Lemma identity_set_meta s k v b :
  identity (set_otlp_meta_with_semantic_convention_mappings s k v b) = identity s.
Proof.
  unfold set_otlp_meta_with_semantic_convention_mappings.
  case_match; [done|]. case_match; [done|]. apply identity_set_otlp_meta.
Qed.

Lemma identity_set_metrics s k v b :
  identity (set_otlp_metrics_with_semantic_convention_mappings s k v b) = identity s.
Proof. unfold set_otlp_metrics_with_semantic_convention_mappings, set_otlp_metrics. by repeat case_match. Qed.
End Identity.
#[export] Hint Rewrite @identity_put_meta @identity_put_nonempty @identity_set_otlp_meta @identity_set_meta
  @identity_set_metrics : identity.

Ltac same_identity :=
  intros; repeat case_match; autorewrite with identity; reflexivity.

Section Spans.
Context `{Externals} `{OtlpExternals}.

Lemma identity_missing_fields s o r lib c :
  identity (set_missing_fields s o r lib c) = identity s.
Proof.
  unfold set_missing_fields. destruct (otel_operation_and_resource_v2_enabled c).
  all: destruct (service s), (resource _), (type_ _), (has_meta "span.type" _), (_ =? 0),
    (has_meta "env" _); autorewrite with identity; reflexivity.
Qed.

Lemma identity_sampling_marks s o c : identity (set_sampling_marks s o c) = identity s.
Proof. unfold set_sampling_marks, set_top_level_dd_span, set_measured_dd_span. same_identity. Qed.

Lemma identity_resource_attribute b s kv : identity (set_resource_attribute b s kv) = identity s.
Proof. unfold set_resource_attribute. same_identity. Qed.

Lemma identity_scope_attribute s kv : identity (set_scope_attribute s kv) = identity s.
Proof. unfold set_scope_attribute. same_identity. Qed.

Lemma identity_span_attribute b s kv : identity (set_span_attribute b s kv) = identity s.
Proof. unfold set_span_attribute. same_identity. Qed.

Lemma identity_semantic_key o s kv : identity (set_semantic_key o s kv) = identity s.
Proof. apply identity_put_nonempty. Qed.

Lemma identity_span_texts s o r : identity (set_span_texts s o r) = identity s.
Proof.
  unfold set_span_texts, set_span_events_has_exception.
  destruct (Otel.links o), (Otel.events o), (existsb _ _), (has_meta _ _); same_identity.
Qed.

Lemma identity_scope_and_status s o lib : identity (set_scope_and_status s o lib) = identity s.
Proof. unfold set_scope_and_status. same_identity. Qed.

Lemma identity_exception_meta s ev : identity (set_exception_meta s ev) = identity s.
Proof. unfold set_exception_meta. same_identity. Qed.

Lemma identity_span_error s o : identity (set_span_error_from_otel_span s o) = identity s.
Proof.
  unfold set_span_error_from_otel_span. case_match; [done|].
  assert (Hf := foldl_keeps identity set_exception_meta (Otel.events o) identity_exception_meta s).
  rewrite <- Hf. by repeat case_match.
Qed.

(** The ids of a span. *)
Definition low_id (id : list Z) : Z := from_be_bytes (take 8 (drop 8 id)).

Lemma trace_id_slices id :
  otel_trace_id_to_dd_id id =
  if decide (16 <= length id)%nat then Done (low_id id, from_be_bytes (take 8 id)) else Panic.
Proof.
  unfold otel_trace_id_to_dd_id, slice.
  destruct (decide (16 <= length id)%nat) as [Hl|Hl].
  - rewrite (proj2 (Nat.leb_le 16 (length id)) Hl), (proj2 (Nat.leb_le 8 (length id)) ltac:(lia)).
    done.
  - by rewrite (proj2 (Nat.leb_gt 16 (length id)) ltac:(lia)).
Qed.

Definition otel_identity (o : Otel.Span) : Z * Z * Z * Z * Z * Z :=
  (low_id (Otel.trace_id o), otel_span_id_to_u64 (Otel.span_id o),
   otel_span_id_to_u64 (Otel.parent_span_id o), wrap_i64 (Otel.start_time_unix_nano o),
   wrap_i64 (Otel.end_time_unix_nano o -ᵤ Otel.start_time_unix_nano o)%rust, otel_error o).

Lemma identity_fill s o r lib c :
  identity (fill_dd_span s o r lib c) = identity (with_error s (otel_error o)).
Proof.
  unfold fill_dd_span. cbv zeta.
  match goal with |- identity (if _ then _ else ?t) = _ => transitivity (identity t) end.
  { case_match; [apply identity_span_error|done]. }
  rewrite identity_scope_and_status, (foldl_keeps identity _ _ (identity_span_attribute _)),
    identity_span_texts, (foldl_keeps identity _ _ identity_scope_attribute),
    (foldl_keeps identity _ _ (identity_resource_attribute _)),
    (foldl_keeps identity _ _ (identity_semantic_key _)), identity_sampling_marks.
  case_match; rewrite ?identity_missing_fields, identity_put_nonempty; reflexivity.
Qed.

(** A conversion panics when the trace id is short, and otherwise keeps the identity. *)
Lemma converted_identity o r lib c :
  match otel_span_to_dd_span o r lib c with
  | Done s => (16 <= length (Otel.trace_id o))%nat /\ identity s = otel_identity o
  | Panic => (length (Otel.trace_id o) < 16)%nat
  end.
Proof.
  unfold otel_span_to_dd_span, initial_dd_span. rewrite trace_id_slices.
  destruct (decide (16 <= length (Otel.trace_id o))%nat);
    cbn -[identity otel_identity fill_dd_span]; [|lia].
  split; [done|]. by rewrite identity_fill.
Qed.
End Spans.

(** * Traces are the spans grouped by trace id *)

(** The spans that have an instrumentation scope, in order. *)
Definition scoped (rs : Otel.ResourceSpans) : list (Otel.Span * Otel.Scope) :=
  ss ← Otel.scope_spans rs;
  match Otel.scope ss with Some lib => (fun o => (o, lib)) <$> Otel.spans ss | None => [] end.

Definition with_trace (id : Z) (spans : list Span) : list Span :=
  filter (fun s => trace_id s = id) spans.

(** [m] holds the spans, each under its trace id. *)
Definition grouped (spans : list Span) (m : gmap Z (list Span)) : Prop :=
  forall id, m !! id = nonempty (with_trace id spans).

Lemma with_trace_app id l k : with_trace id (l ++ k) = with_trace id l ++ with_trace id k.
Proof. apply filter_app. Qed.

Lemma grouped_push spans m s :
  grouped spans m ->
  grouped (spans ++ [s])
    (<[trace_id s := default [] (m !! trace_id s) ++ [s]]> m).
Proof.
  intros Hg id. rewrite with_trace_app. unfold with_trace at 2. rewrite filter_cons, filter_nil.
  destruct (decide (trace_id s = id)) as [<-|Hne].
  - rewrite lookup_insert_eq, Hg. by destruct (with_trace _ _).
  - by rewrite lookup_insert_ne, app_nil_r, Hg.
Qed.

Lemma grouped_traces spans m :
  grouped spans m ->
  map_to_list m ≡ₚ (fun id => (id, with_trace id spans)) <$> remove_dups (trace_id <$> spans).
Proof.
  intros Hg. apply NoDup_Permutation.
  - apply NoDup_map_to_list.
  - apply NoDup_fmap; [by intros ? ? [=]|]. apply NoDup_remove_dups.
  - intros [id l]. rewrite elem_of_map_to_list, Hg, list_elem_of_fmap. split.
    + intros Hl. exists id. destruct (with_trace id spans) as [|s l'] eqn:Hw; [done|].
      injection Hl as <-. split; [done|]. apply elem_of_remove_dups, list_elem_of_fmap.
      assert (Hin : s ∈ with_trace id spans) by (rewrite Hw; left).
      apply list_elem_of_filter in Hin as [<- Hin]. eauto.
    + intros (id' & [= -> ->] & Hin). apply elem_of_remove_dups, list_elem_of_fmap in Hin
        as (s & -> & Hs).
      destruct (with_trace (trace_id s) spans) eqn:Hw; [|done]. exfalso.
      eapply (not_elem_of_nil s). rewrite <- Hw. by apply list_elem_of_filter.
Qed.

Section Grouping.
Context `{Externals} `{OtlpExternals}.
Variables (res : Otel.Resource) (config : Config).

Definition converts (p : Otel.Span * Otel.Scope) (s : Span) : Prop :=
  otel_span_to_dd_span p.1 res p.2 config = Done s /\ identity s = otel_identity p.1.

Definition short (p : Otel.Span * Otel.Scope) : Prop := (length (Otel.trace_id p.1) < 16)%nat.

(** What grouping [pairs] into [m] gives, when [m] already holds [spans]. *)
Definition groups (pairs : list (Otel.Span * Otel.Scope)) (spans : list Span)
    (r : outcome (gmap Z (list Span))) : Prop :=
  match r with
  | Panic => Exists short pairs
  | Done m => exists more, Forall2 converts pairs more /\ grouped (spans ++ more) m
  end.

Lemma group_spans_groups lib os : forall spans m,
  grouped spans m ->
  groups ((fun o => (o, lib)) <$> os) spans (group_spans res lib config os m).
Proof.
  induction os as [|o os IH]; intros spans m Hg.
  { exists []. split; [constructor|]. by rewrite app_nil_r. }
  cbn. rewrite trace_id_slices. pose proof (converted_identity o res lib config) as Hc.
  destruct (decide (16 <= length (Otel.trace_id o))%nat); [|by apply Exists_cons_hd, Nat.nle_gt].
  cbn. destruct (otel_span_to_dd_span o res lib config) as [s|] eqn:Hs; [|lia].
  destruct Hc as [_ Hid]. cbn.
  assert (Hlow : low_id (Otel.trace_id o) = trace_id s) by (by injection Hid).
  rewrite Hlow. specialize (IH _ _ (grouped_push spans m s Hg)). cbn in IH.
  destruct (group_spans _ _ _ _ _); cbn in *; [|by apply Exists_cons_tl].
  destruct IH as (more & Hf & Hm). exists (s :: more). split; [by constructor|].
  by rewrite <- app_assoc in Hm.
Qed.

Lemma group_scopes_groups sss : forall spans m,
  grouped spans m ->
  groups (scoped {| Otel.resource := Some res; Otel.scope_spans := sss |}) spans
    (group_scopes res config sss m).
Proof.
  induction sss as [|ss sss IH]; intros spans m Hg.
  { exists []. split; [constructor|]. by rewrite app_nil_r. }
  unfold scoped in *. cbn in *. destruct (Otel.scope ss) as [lib|]; cbn; [|by apply IH].
  pose proof (group_spans_groups lib (Otel.spans ss) spans m Hg) as Hs.
  destruct (group_spans _ _ _ _ _) as [m1|]; cbn in *; [|by apply Exists_app; left].
  destruct Hs as (more & Hf & Hm). specialize (IH _ _ Hm).
  destruct (group_scopes _ _ _ _) as [m2|]; cbn in *; [|by apply Exists_app; right].
  destruct IH as (more' & Hf' & Hm'). exists (more ++ more').
  split; [by apply Forall2_app|]. by rewrite app_assoc.
Qed.

(** Every span, with the instrumentation scope it is under, if any. *)
Definition every_span (rs : Otel.ResourceSpans) : list (Otel.Span * option Otel.Scope) :=
  ss ← Otel.scope_spans rs; (fun o => (o, Otel.scope ss)) <$> Otel.spans ss.

(** What becomes of a span: it is converted, or left out if it has no scope. *)
Definition becomes (p : Otel.Span * option Otel.Scope) (r : option Span) : Prop :=
  match p.2, r with
  | Some lib, Some s => converts (p.1, lib) s
  | None, None => True
  | _, _ => False
  end.

Definition has_scope (p : Otel.Span * option Otel.Scope) : option (Otel.Span * Otel.Scope) :=
  (fun lib => (p.1, lib)) <$> p.2.

Lemma scoped_spans rs : scoped rs = omap has_scope (every_span rs).
Proof.
  unfold scoped, every_span. induction (Otel.scope_spans rs) as [|ss sss IH]; [done|]. cbn. rewrite omap_app, <- IH. f_equal.
  clear IH. induction (Otel.spans ss) as [|o os IH]; cbn; [by destruct (Otel.scope ss)|].
  unfold has_scope at 1. cbn. destruct (Otel.scope ss) as [lib|]; cbn; [f_equal|]; exact IH.
Qed.

Lemma becomes_all l : forall spans, Forall2 converts (omap has_scope l) spans ->
  exists results, Forall2 becomes l results /\ omap id results = spans.
Proof.
  induction l as [|[o [lib|]] l IH]; cbn; intros spans Hf.
  - apply Forall2_nil_inv_l in Hf as ->. by exists [].
  - apply Forall2_cons_inv_l in Hf as (s & spans' & Hs & Hf & ->). destruct (IH _ Hf) as (results & Hb & Hr).
    exists (Some s :: results). split; [by constructor|]. cbn. by rewrite Hr.
  - destruct (IH _ Hf) as (results & Hb & Hr). exists (None :: results). split; [by constructor|done].
Qed.

(** C35: Converting the spans of a resource panics exactly when some span that is under an
    instrumentation scope has a trace id of fewer than sixteen bytes. Otherwise each span
    that is under a scope is converted once, with the low half of its trace id, its span
    and parent ids, its times and its error flag unchanged by any attribute, each span
    that is under none is left out, and the traces are the converted spans grouped by trace
    id, each in order. *)
Theorem otlp_traces_grouped_by_id rs :
  Otel.resource rs = Some res ->
  (forall m, traces_iter m ≡ₚ map_to_list m) ->
  match otel_resource_spans_to_dd_spans rs config with
  | Panic => exists o lib, (o, Some lib) ∈ every_span rs /\ short (o, lib)
  | Done traces =>
      (forall o lib, (o, Some lib) ∈ every_span rs -> ~ short (o, lib)) /\
      exists results, Forall2 becomes (every_span rs) results /\
        traces ≡ₚ (fun id => with_trace id (omap (fun r => r) results)) <$>
                  remove_dups (trace_id <$> omap (fun r => r) results)
  end.
Proof.
  intros Hres Hiter. unfold otel_resource_spans_to_dd_spans. rewrite Hres.
  assert (Hnil : grouped [] ∅) by (intros id; by rewrite lookup_empty).
  pose proof (group_scopes_groups (Otel.scope_spans rs) [] ∅ Hnil) as Hg.
  change (scoped _) with (scoped rs) in Hg. rewrite scoped_spans in Hg.
  assert (forall o lib, (o, Some lib) ∈ every_span rs -> (o, lib) ∈ omap has_scope (every_span rs)) as Hin.
  { intros o lib Ho. apply list_elem_of_omap. by exists (o, Some lib). }
  destruct (group_scopes _ _ _ _) as [m|]; cbn in *.
  - destruct Hg as (spans & Hf & Hm). split.
    + intros o lib Hp%Hin Hshort. apply list_elem_of_lookup in Hp as [i Hi].
      destruct (Forall2_lookup_l _ _ _ _ _ Hf Hi) as (s & _ & Hs & _).
      pose proof (converted_identity o res lib config) as Hc. cbn in Hs. rewrite Hs in Hc.
      unfold short in Hshort. cbn in Hshort. lia.
    + destruct (becomes_all _ _ Hf) as (results & Hb & Hr). exists results. split; [done|].
      change (omap id results = spans) with (omap (fun r => r) results = spans) in Hr. rewrite Hr.
      rewrite Hiter, (grouped_traces spans m Hm). by rewrite <- list_fmap_compose.
  - apply Exists_exists in Hg as ([o lib] & Hp & Hshort). apply list_elem_of_omap in Hp as ([o' [lib'|]] & Hp & Hl); [|done].
    injection Hl as -> ->. eauto.
Qed.
End Grouping.

(** * Spans are never marked as measured *)

Definition unmeasured (s : Span) : Prop := metrics s !! "_dd.measured"%string = None.

(** A number under the key of the mark, which is copied to the metrics. *)
Definition numeric_mark (kv : KeyValue) : Prop :=
  match kv with
  | (key, Some (Some (IntValue _))) | (key, Some (Some (DoubleValue _))) => key = "_dd.measured"%string
  | _ => False
  end.

Lemma unmeasured_put_metric k v s :
  k <> "_dd.measured"%string -> unmeasured s -> unmeasured (put_metric k v s).
Proof. intros Hk Hs. unfold unmeasured. cbn. by rewrite lookup_insert_ne. Qed.

Lemma foldl_inv {A B} (P : A -> Prop) (Q : B -> Prop) (f : A -> B -> A) l :
  (forall s x, Q x -> P s -> P (f s x)) -> Forall Q l -> forall s, P s -> P (foldl f s l).
Proof. intros Hf Hl. induction Hl; intros s Hs; cbn; eauto. Qed.

Section Measured.
Context `{Externals} `{OtlpExternals}.

Lemma unmeasured_put_nonempty k v s : unmeasured s -> unmeasured (put_nonempty k v s).
Proof. by destruct v. Qed.
Hint Resolve unmeasured_put_nonempty : core.

Lemma unmeasured_set_otlp_meta s k v : unmeasured s -> unmeasured (set_otlp_meta s k v).
Proof. unfold set_otlp_meta. intros. repeat case_match; try done; by apply unmeasured_put_metric. Qed.

Lemma unmeasured_set_meta s k v b :
  unmeasured s -> unmeasured (set_otlp_meta_with_semantic_convention_mappings s k v b).
Proof.
  unfold set_otlp_meta_with_semantic_convention_mappings. intros.
  case_match; [done|]. case_match; [done|]. by apply unmeasured_set_otlp_meta.
Qed.

Lemma unmeasured_set_metrics s k v b : k <> "_dd.measured"%string ->
  unmeasured s -> unmeasured (set_otlp_metrics_with_semantic_convention_mappings s k v b).
Proof.
  unfold set_otlp_metrics_with_semantic_convention_mappings, set_otlp_metrics. intros.
  repeat case_match; try done; by apply unmeasured_put_metric.
Qed.

Lemma unmeasured_span_attribute b s kv :
  ~ numeric_mark kv -> unmeasured s -> unmeasured (set_span_attribute b s kv).
Proof.
  unfold set_span_attribute, numeric_mark. intros Hn Hs.
  repeat case_match; simplify_eq/=; try done;
    (by apply unmeasured_set_meta) || (by apply unmeasured_set_metrics).
Qed.

Lemma metrics_keep_unmeasured s s' : metrics s' = metrics s -> unmeasured s -> unmeasured s'.
Proof. unfold unmeasured. by intros ->. Qed.

Lemma unmeasured_missing_fields s o r lib c :
  unmeasured s -> unmeasured (set_missing_fields s o r lib c).
Proof.
  intros Hs. unfold set_missing_fields.
  destruct (has_meta "env" _); [|apply unmeasured_put_nonempty].
  all: destruct (_ =? 0); [|apply unmeasured_put_metric; [done|]].
  all: destruct (has_meta "span.type" _), (type_ _), (resource _), (service s); exact Hs.
Qed.

Lemma unmeasured_sampling_marks s o c : unmeasured s -> unmeasured (set_sampling_marks s o c).
Proof.
  intros Hs. unfold set_sampling_marks, set_top_level_dd_span, set_measured_dd_span.
  assert (Ht : unmeasured (put_metric "_top_level" f64_one s)) by (by apply unmeasured_put_metric).
  destruct (bool_decide (_ ∈ _) && _), (bool_decide (_ = "1"%string) || _ || _);
    try done; unfold unmeasured; cbn; apply lookup_delete_eq.
Qed.

Lemma unmeasured_span_error s o :
  unmeasured s -> unmeasured (set_span_error_from_otel_span s o).
Proof.
  apply metrics_keep_unmeasured. unfold set_span_error_from_otel_span. case_match; [done|].
  transitivity (metrics (foldl set_exception_meta s (Otel.events o))).
  - by repeat case_match.
  - apply foldl_keeps. intros s' ev. unfold set_exception_meta. destruct (negb (is_exception ev)); [done|].
    by destruct (get_otel_attribute_value_as_string _ EXCEPTION_STACKTRACE _),
      (get_otel_attribute_value_as_string _ EXCEPTION_TYPE _),
      (get_otel_attribute_value_as_string _ EXCEPTION_MESSAGE _).
Qed.

Lemma metrics_put_nonempty k v s : metrics (put_nonempty k v s) = metrics s.
Proof. by destruct v. Qed.

Lemma metrics_span_texts s o r : metrics (set_span_texts s o r) = metrics s.
Proof.
  unfold set_span_texts, set_span_events_has_exception.
  destruct (Otel.links o), (Otel.events o), (existsb _ _), (has_meta _ _);
    cbn -[put_nonempty]; by rewrite ?metrics_put_nonempty.
Qed.

Lemma metrics_scope_and_status s o lib : metrics (set_scope_and_status s o lib) = metrics s.
Proof. unfold set_scope_and_status. case_match; cbn; by rewrite !metrics_put_nonempty. Qed.

Lemma unmeasured_fill s o r lib c :
  Forall (fun kv => ~ numeric_mark kv) (Otel.attributes o) ->
  unmeasured s -> unmeasured (fill_dd_span s o r lib c).
Proof.
  intros Ha Hs. unfold fill_dd_span. cbv zeta.
  match goal with |- unmeasured (if _ then _ else ?t) => assert (Ht : unmeasured t) end.
  - apply (metrics_keep_unmeasured _ _ (metrics_scope_and_status _ _ _)).
    apply (foldl_inv _ _ _ _ (unmeasured_span_attribute _) Ha).
    apply (metrics_keep_unmeasured _ _ (metrics_span_texts _ _ _)).
    apply (foldl_inv unmeasured (fun _ => True)); [|by apply Forall_true|].
    { intros ? [? [[]|]] _ ?; [by apply unmeasured_put_nonempty|done..]. }
    apply (foldl_inv unmeasured (fun _ => True)); [|by apply Forall_true|].
    { intros ? [? [[]|]] _ ?; cbn; try done. case_match; [done|]. by apply unmeasured_set_meta. }
    apply (foldl_inv unmeasured (fun _ => True)); [|by apply Forall_true|].
    { intros. by apply unmeasured_put_nonempty. }
    apply unmeasured_sampling_marks.
    case_match; [|apply unmeasured_missing_fields]; by apply unmeasured_put_nonempty.
  - destruct (_ && _); [by apply unmeasured_span_error|done].
Qed.

(** The mark that asks for the stats of a span is taken off where it is meant to
    be put on: a span of any kind, client and producer included, is converted without
    it unless a numeric attribute of the span carries it already. *)
Theorem client_spans_never_measured o r lib c s :
  Forall (fun kv => ~ numeric_mark kv) (Otel.attributes o) ->
  otel_span_to_dd_span o r lib c = Done s ->
  metrics s !! "_dd.measured"%string = None.
Proof.
  intros Ha. unfold otel_span_to_dd_span, initial_dd_span. rewrite trace_id_slices.
  destruct (decide _); [|done]. intros Hs. injection Hs as <-. by apply unmeasured_fill.
Qed.
End Measured.

(** * Timestamps *)

(** The encodings of a 64-bit time that a request may use. *)
Inductive encodes (t : Z) : Value -> Prop :=
| enc_text : encodes t (VString (pretty t))
| enc_integer : encodes t (VNumber (PosInt t))
| enc_split m low high :
    map_get m "low" = Some (VNumber (PosInt low)) ->
    map_get m "high" = Some (VNumber (PosInt high)) ->
    0 <= low < 2 ^ 32 -> 0 <= high < 2 ^ 32 -> t = high * 2 ^ 32 + low ->
    encodes t (VObject m).

(** Two documents that differ only in the encodings of their times. *)
Inductive same_times : Value -> Value -> Prop :=
| st_refl v : same_times v v
| st_array l k : Forall2 same_times l k -> same_times (VArray l) (VArray k)
| st_object m m' : Forall2 same_entry m m' -> same_times (VObject m) (VObject m')
with same_entry : string * Value -> string * Value -> Prop :=
| se_time k t v w : k ∈ TIMESTAMP_FIELDS -> encodes t v -> encodes t w -> same_entry (k, v) (k, w)
| se_value k v w : k ∉ TIMESTAMP_FIELDS -> same_times v w -> same_entry (k, v) (k, w).

Lemma lor_halves high low :
  0 <= low < 2 ^ 32 -> 0 <= high < 2 ^ 32 ->
  Z.lor (wrap_u64 (Z.shiftl high 32)) (Z.land low 0xFFFFFFFF) = high * 2 ^ 32 + low.
Proof.
  intros Hl Hh. rewrite Z.shiftl_mul_pow2 by lia.
  rewrite wrap_u64_small by (unfold is_u64; lia).
  change 0xFFFFFFFF with (Z.ones 32). rewrite Z.land_ones, Z.mod_small by lia.
  assert (Hland : Z.land (high * 2 ^ 32) low = 0).
  { apply Z.bits_inj'. intros i Hi. rewrite Z.land_spec, Z.bits_0.
    destruct (Z.ltb_spec i 32).
    - by rewrite Z.mul_pow2_bits_low.
    - rewrite (Z.bits_above_log2 low i), andb_false_r; [done|lia|].
      destruct (decide (low = 0)) as [->|]; [cbn; lia|].
      apply Z.log2_lt_pow2; [lia|]. apply Z.lt_le_trans with (2 ^ 32); [lia|].
      by apply Z.pow_le_mono_r. }
  by rewrite <- Z.lxor_lor, <- Z.add_nocarry_lxor.
Qed.

Lemma normalized_time t v : encodes t v -> normalize_timestamp_value v = VString (pretty t).
Proof.
  intros [| |m low high Hlow Hhigh Hl Hh ->]; [done..|].
  cbn. rewrite Hlow, Hhigh. cbn. by rewrite lor_halves.
Qed.

(** However a request encodes its times - as text, as an integer or as two 32-bit
    halves - the document handed to the decoder is the same: times at any depth become
    decimal text, and nothing else changes. *)
Theorem timestamp_encodings_agree v w :
  same_times v w -> normalize_timestamps v = normalize_timestamps w.
Proof.
  revert v w. fix IH 3. intros v w [v'|l k Hf|m m' Hf]; [done| |]; cbn; f_equal.
  - induction Hf as [|x y l k Hxy Hf IHf]; [done|]. by rewrite (IH x y Hxy), IHf.
  - induction Hf as [|x y m m' Hxy Hf IHf]; [done|]. rewrite IHf.
    destruct Hxy as [key t a b Hkey Ha Hb|key a b Hkey Hab]; do 2 f_equal.
    + by rewrite bool_decide_true, (normalized_time t a Ha), (normalized_time t b Hb).
    + rewrite bool_decide_false by done. apply (IH a b Hab).
Qed.

(** * Concrete traces *)

Module OtlpSample.

#[export] Instance otlp_externals : OtlpExternals :=
  {| normalize_tag := fun s => s; normalize_name := fun s => s; normalize_service := fun s => s;
     strings_to_json := fun _ => None; string_map_to_json := fun _ => None;
     any_value_to_json := fun _ => None; i32_from_json := fun _ => None;
     hex_encode := fun _ => EmptyString;
     as_str_name := fun k => match k with Internal => "SPAN_KIND_INTERNAL" | _ => "SPAN_KIND" end%string;
     STATUS_CODE_ERROR := 2;
     traces_iter := map_to_list;
     SERVICE_NAME := "service.name"; SERVICE_VERSION := "service.version";
     DEPLOYMENT_ENVIRONMENT_NAME := "deployment.environment.name";
     DB_QUERY_SUMMARY := "db.query.summary"; DB_QUERY_TEXT := "db.query.text";
     DB_COLLECTION_NAME := "db.collection.name";
     DB_STORED_PROCEDURE_NAME := "db.stored_procedure.name"; DB_NAMESPACE := "db.namespace";
     DB_OPERATION_NAME := "db.operation.name"; DB_SYSTEM_NAME := "db.system.name";
     SERVER_ADDRESS := "server.address"; SERVER_PORT := "server.port";
     MESSAGING_SYSTEM := "messaging.system";
     MESSAGING_OPERATION_TYPE := "messaging.operation.type";
     MESSAGING_DESTINATION_NAME := "messaging.destination.name"; RPC_SYSTEM := "rpc.system";
     RPC_SERVICE := "rpc.service"; RPC_METHOD := "rpc.method";
     FAAS_INVOKED_PROVIDER := "faas.invoked_provider"; FAAS_INVOKED_NAME := "faas.invoked_name";
     FAAS_TRIGGER := "faas.trigger"; GRAPHQL_OPERATION_TYPE := "graphql.operation.type";
     GRAPHQL_OPERATION_NAME := "graphql.operation.name"; HTTP_ROUTE := "http.route";
     HTTP_RESPONSE_STATUS_CODE := "http.response.status_code"; OTEL_SCOPE_NAME := "otel.scope.name";
     OTEL_SCOPE_VERSION := "otel.scope.version"; OTEL_STATUS_CODE := "otel.status_code";
     OTEL_STATUS_DESCRIPTION := "otel.status_description"; EXCEPTION_MESSAGE := "exception.message";
     EXCEPTION_TYPE := "exception.type"; EXCEPTION_STACKTRACE := "exception.stacktrace" |}%string.

Definition otel_span (trace : Z) (kind : SpanKind) : Otel.Span :=
  {| Otel.trace_id := replicate 15 0 ++ [trace]; Otel.span_id := replicate 7 0 ++ [9];
     Otel.trace_state := EmptyString; Otel.parent_span_id := []; Otel.name := "op"%string;
     Otel.kind := kind; Otel.start_time_unix_nano := 5; Otel.end_time_unix_nano := 8;
     Otel.attributes := [("http.request.method"%string, Some (Some (StringValue "GET")))];
     Otel.events := []; Otel.links := []; Otel.status := None |}.

Definition scope : Otel.Scope :=
  {| Otel.scope_name := "lib"%string; Otel.version := EmptyString; Otel.scope_attributes := [] |}.

Definition resource_of : Otel.Resource := {| Otel.res_attributes := [] |}.

Definition resource_spans : Otel.ResourceSpans :=
  {| Otel.resource := Some resource_of;
     Otel.scope_spans :=
       [{| Otel.scope := Some scope;
           Otel.spans := [otel_span 1 Client; otel_span 2 Server; otel_span 1 Internal] |};
        {| Otel.scope := None; Otel.spans := [otel_span 3 Client] |}] |}.

End OtlpSample.

Section Witnesses.
#[local] Existing Instances Sample.externals OtlpSample.otlp_externals.

Lemma otlp_traces_grouped_by_id_witness :
  match otel_resource_spans_to_dd_spans OtlpSample.resource_spans Sample.config with
  | Panic => False
  | Done traces =>
      sum_list (length <$> traces) = 3%nat /\
      exists results, Forall2 (becomes OtlpSample.resource_of Sample.config)
                        (every_span OtlpSample.resource_spans) results /\ length results = 4%nat
  end.
Proof.
  pose proof (otlp_traces_grouped_by_id OtlpSample.resource_of Sample.config
    OtlpSample.resource_spans ltac:(reflexivity) ltac:(intros; reflexivity)) as Hg.
  assert (Hlen : match otel_resource_spans_to_dd_spans OtlpSample.resource_spans Sample.config with
                 | Done traces => Some (sum_list (length <$> traces)) | Panic => None end = Some 3%nat)
    by (vm_compute; reflexivity).
  destruct (otel_resource_spans_to_dd_spans _ _) as [traces|]; [|discriminate].
  split; [by injection Hlen|]. destruct Hg as (_ & results & Hf & _). exists results. split; [exact Hf|].
  apply Forall2_length in Hf. rewrite <- Hf. vm_compute. reflexivity.
Defined.

Lemma client_spans_never_measured_witness :
  exists s, otel_span_to_dd_span (OtlpSample.otel_span 1 Client) OtlpSample.resource_of
              OtlpSample.scope Sample.config = Done s /\
    metrics s !! "_dd.measured"%string = None.
Proof.
  destruct (otel_span_to_dd_span (OtlpSample.otel_span 1 Client) OtlpSample.resource_of
              OtlpSample.scope Sample.config) as [s|] eqn:Hs; [|vm_compute in Hs; discriminate].
  exists s. split; [done|].
  apply (client_spans_never_measured (OtlpSample.otel_span 1 Client) OtlpSample.resource_of
           OtlpSample.scope Sample.config); [|done].
  repeat constructor; by intros [].
Defined.

Lemma timestamp_encodings_agree_witness :
  normalize_timestamps (VArray [VObject [("startTimeUnixNano"%string, VNumber (PosInt 4294967298))]]) =
  normalize_timestamps (VArray [VObject [("startTimeUnixNano"%string,
    VObject [("high"%string, VNumber (PosInt 1)); ("low"%string, VNumber (PosInt 2))])]]).
Proof.
  apply timestamp_encodings_agree, st_array. constructor; [|constructor].
  apply st_object. constructor; [|constructor]. apply (se_time _ 4294967298); [set_solver|constructor|].
  by apply (enc_split _ _ 2 1).
Defined.
End Witnesses.
