(* ===== verification/StatsConcentrator.v ===== *)
(** Trace stats: [traces/stats_concentrator_service.rs] and
    [traces/stats_generator.rs].

    The span concentrator of libdatadog is an interface ([ConcentratorOps]): its
    state, what it does with a span, and what a flush returns. Commands are handled in
    the order they are sent. The warnings the service logs are collected in its state;
    each flush is given the clock. *)
From S2P Require Import Prelude F64 DataStreams Text ContextBuffer Triggers Configuration SpanInferrer.
From stdpp Require Import sorting.
#[local] Open Scope Z_scope.

(** * The protobuf types, as far as the code reads them *)

Module Pb.
Record TraceChunk := {
  priority : Z;
  origin : string;
  spans : list Span;
  tags : gmap string string;
  dropped_trace : bool;
}.

Record TracerPayload := {
  container_id : string;
  language_name : string;
  language_version : string;
  tracer_version : string;
  runtime_id : string;
  chunks : list TraceChunk;
  tp_tags : gmap string string;
  env : string;
  tp_hostname : string;
  app_version : string;
}.

Record ClientGroupedStats := {
  service : string;
  resource : string;
  http_endpoint : string;
  peer_tags : list string;
  additional_metric_tags : list string;
}.
End Pb.

(** [CardinalityLimitConfig]. *)
Record CardinalityLimitConfig := {
  whole_key_limit : Z;
  resource_limit : Z;
  http_endpoint_limit : Z;
  peer_tags_limit : Z;
  additional_tags_limit : Z;
}.

(** What the service needs of the span concentrator. *)
Class ConcentratorOps (C Bucket : Type) := {
  default_limits : CardinalityLimitConfig;
  concentrator_new : Z -> CardinalityLimitConfig -> list string -> C;
  add_span : C -> Span -> C;
  (** the obfuscated buckets, the others, and the number of collapsed spans *)
  concentrator_flush : C -> Z -> bool -> (list Bucket * list Bucket * Z) * C;
  additional_metric_tag_keys : C -> list string;
  bucket_stats : Bucket -> list Pb.ClientGroupedStats;
}.

Definition TRACER_BLOCKED_VALUE : string := "tracer_blocked_value".

(** * Collapsed fields

    A bitset in a byte. *)

Module CollapsedFields.
Abbreviation t := Z (only parsing).
Definition RESOURCE : Z := Z.shiftl 1 0.
Definition HTTP_ENDPOINT : Z := Z.shiftl 1 1.
Definition PEER_TAGS : Z := Z.shiftl 1 2.
Definition ADDITIONAL_TAGS : Z := Z.shiftl 1 3.
Definition CORE_FIELDS : Z := Z.lor (Z.lor RESOURCE HTTP_ENDPOINT) PEER_TAGS.

Definition possible (additional_tags_enabled : bool) : t :=
  if additional_tags_enabled then Z.lor CORE_FIELDS ADDITIONAL_TAGS else CORE_FIELDS.
Definition add (self : t) (field : Z) : t := Z.lor self field.
Definition contains_all (self fields : t) : bool := Z.land self fields =? fields.
Definition contains (self : t) (field : Z) : bool := negb (Z.land self field =? 0).

(** The bit, the noun and the limit of each field; the remedy is not modelled. *)
Definition reportable (limits : CardinalityLimitConfig) : list (Z * string * Z) :=
  [(RESOURCE, "resource names"%string, resource_limit limits);
   (HTTP_ENDPOINT, "HTTP endpoints"%string, http_endpoint_limit limits);
   (PEER_TAGS, "peer tag sets"%string, peer_tags_limit limits);
   (ADDITIONAL_TAGS, "additional metric tag sets"%string, additional_tags_limit limits)].
End CollapsedFields.

Definition is_sentinel_tag (tag : string) : bool :=
  bool_decide (match split_once ":" tag with Some (key, _) => key | None => tag end
               = TRACER_BLOCKED_VALUE).

(** The fields of one entry that were collapsed. *)
Definition observe_stats (observed : CollapsedFields.t) (stats : Pb.ClientGroupedStats) :
    CollapsedFields.t :=
  if bool_decide (Pb.service stats = TRACER_BLOCKED_VALUE) then observed
  else
    let mark (b : bool) field observed := if b then CollapsedFields.add observed field else observed in
    mark (existsb is_sentinel_tag (Pb.additional_metric_tags stats)) CollapsedFields.ADDITIONAL_TAGS
      (mark (existsb is_sentinel_tag (Pb.peer_tags stats)) CollapsedFields.PEER_TAGS
         (mark (bool_decide (Pb.http_endpoint stats = TRACER_BLOCKED_VALUE))
               CollapsedFields.HTTP_ENDPOINT
            (mark (bool_decide (Pb.resource stats = TRACER_BLOCKED_VALUE))
                  CollapsedFields.RESOURCE observed))).

(** * Warnings *)

Inductive Warning :=
| WholeKeyCollapse (limit collapsed_spans : Z)
| FieldCollapse (field : Z) (noun : string) (limit : Z)
| LimitZero (default_limit : Z)
| LimitClamped (limit max_effective_limit : Z)
| ExcessKeys (kept dropped : list string).

Record TracerMetadata := {
  language : string;
  md_tracer_version : string;
  md_runtime_id : string;
  md_container_id : string;
}.

Definition TracerMetadata_default : TracerMetadata :=
  {| language := ""; md_tracer_version := ""; md_runtime_id := ""; md_container_id := "" |}.

Record ClientStatsPayload (Bucket : Type) := {
  csp_env : string;
  csp_version : string;
  csp_lang : string;
  csp_tracer_version : string;
  csp_runtime_id : string;
  csp_service : string;
  csp_container_id : string;
  csp_stats : list Bucket;
}.
Arguments csp_env {_}. Arguments csp_version {_}. Arguments csp_lang {_}.
Arguments csp_tracer_version {_}. Arguments csp_runtime_id {_}. Arguments csp_service {_}.
Arguments csp_container_id {_}. Arguments csp_stats {_}.

(** A flush carries the clock it reads. *)
Inductive ConcentratorCommand :=
| SetTracerMetadata (tracer_metadata : TracerMetadata)
| Add (span : Span)
| Flush (force_flush : bool) (now : Z).

(** * The handle: the sending half of the channel

    [sent] is what the service has been sent; sending fails once it has ended. *)
Module StatsHandle.

Record t := { sent : list ConcentratorCommand; closed : bool; is_tracer_metadata_set : bool }.

Definition new : t := {| sent := []; closed := false; is_tracer_metadata_set := false |}.

Definition send (self : t) (command : ConcentratorCommand) : t * bool :=
  if closed self then (self, false)
  else ({| sent := sent self ++ [command]; closed := closed self;
           is_tracer_metadata_set := is_tracer_metadata_set self |}, true).

Definition set_tracer_metadata (self : t) (trace : Pb.TracerPayload) : t * bool :=
  if is_tracer_metadata_set self then (self, true)
  else
    send {| sent := sent self; closed := closed self; is_tracer_metadata_set := true |}
      (SetTracerMetadata
         {| language := Pb.language_name trace; md_tracer_version := Pb.tracer_version trace;
            md_runtime_id := Pb.runtime_id trace; md_container_id := Pb.container_id trace |}).

Definition add (self : t) (span : Span) : t * bool := send self (Add span).
End StatsHandle.

(** * The generator *)
Module StatsGenerator.

Fixpoint send_spans (self : StatsHandle.t) (spans : list Span) : StatsHandle.t * bool :=
  match spans with
  | [] => (self, true)
  | span :: spans =>
      let '(self, ok) := StatsHandle.add self span in
      if ok : bool then send_spans self spans else (self, false)
  end.

Definition chunk_spans (trace : Pb.TracerPayload) : list Span :=
  chunk ← Pb.chunks trace; Pb.spans chunk.

(** [false] is [ConcentratorCommandError]. *)
Fixpoint send (self : StatsHandle.t) (traces : list Pb.TracerPayload) : StatsHandle.t * bool :=
  match traces with
  | [] => (self, true)
  | trace :: traces =>
      let '(self, ok) := StatsHandle.set_tracer_metadata self trace in
      if ok : bool then
        let '(self, ok) := send_spans self (chunk_spans trace) in
        if ok : bool then send self traces else (self, false)
      else (self, false)
  end.
End StatsGenerator.

(** * The service *)
Module StatsService.
Section Service.
Context `{Externals} {C Bucket : Type} `{ConcentratorOps C Bucket}.

Definition BUCKET_DURATION_NS : Z := 10 * 1000000000.

Record t := {
  concentrator : C;
  tracer_metadata : TracerMetadata;
  config : Config;
  cardinality_limits : CardinalityLimitConfig;
  whole_key_collapse_reported : bool;
  reported_collapsed_fields : CollapsedFields.t;
  possible_collapsed_fields : CollapsedFields.t;
  warnings : list Warning;
}.

Definition observe_collapsed_fields (buckets : list Bucket) : CollapsedFields.t :=
  foldl observe_stats 0 (b ← buckets; bucket_stats b).

Definition with_additional_tags_limit (limits : CardinalityLimitConfig) (limit : Z) :=
  {| whole_key_limit := whole_key_limit limits; resource_limit := resource_limit limits;
     http_endpoint_limit := http_endpoint_limit limits;
     peer_tags_limit := peer_tags_limit limits; additional_tags_limit := limit |}.

Definition resolve_cardinality_limits (configured_limit : option Z) :
    option CardinalityLimitConfig * list Warning :=
  let defaults := default_limits in
  let max_effective_limit := saturating_sub (whole_key_limit defaults) 1 in
  match configured_limit with
  | None => (None, [])
  | Some limit =>
      if limit =? 0 then (None, [LimitZero (additional_tags_limit defaults)])
      else if max_effective_limit <? limit then
        (Some (with_additional_tags_limit defaults max_effective_limit),
         [LimitClamped limit max_effective_limit])
      else (Some (with_additional_tags_limit defaults limit), [])
  end.

(** [sort_unstable] and [dedup] on strings. *)
Definition string_le (a b : string) : Prop := String.leb a b = true.
#[local] Instance string_le_dec a b : Decision (string_le a b) := decide (String.leb a b = true).

Definition warn_on_excess_additional_metric_tag_keys (requested kept : list string) : list Warning :=
  match filter (fun key => key ∉ kept) requested with
  | [] => []
  | dropped => [ExcessKeys kept (merge_sort string_le (remove_dups dropped))]
  end.

Definition new (config : Config) (now : Z) : t :=
  let '(limits, warned) := resolve_cardinality_limits
                             (additional_metric_tags_cardinality_limit config) in
  let limits := default default_limits limits in
  let keys := Configuration.additional_metric_tags config in
  let concentrator := concentrator_new now limits keys in
  {| concentrator := concentrator;
     tracer_metadata := TracerMetadata_default;
     config := config;
     cardinality_limits := limits;
     whole_key_collapse_reported := false;
     reported_collapsed_fields := 0;
     possible_collapsed_fields := CollapsedFields.possible (negb (bool_decide (keys = [])));
     warnings := warned ++ warn_on_excess_additional_metric_tag_keys keys
                             (additional_metric_tag_keys concentrator) |}.

Definition set_reports (self : t) (whole_key : bool) (fields : CollapsedFields.t)
    (warned : list Warning) : t :=
  {| concentrator := concentrator self; tracer_metadata := tracer_metadata self;
     config := config self; cardinality_limits := cardinality_limits self;
     whole_key_collapse_reported := whole_key; reported_collapsed_fields := fields;
     possible_collapsed_fields := possible_collapsed_fields self;
     warnings := warnings self ++ warned |}.

(** One round of the loop over [reportable]. *)
Definition report_field (observed : CollapsedFields.t) (self : t) (entry : Z * string * Z) : t :=
  let '(field, noun, limit) := entry in
  if negb (CollapsedFields.contains observed field)
     || CollapsedFields.contains (reported_collapsed_fields self) field
  then self
  else set_reports self (whole_key_collapse_reported self)
         (CollapsedFields.add (reported_collapsed_fields self) field)
         [FieldCollapse field noun limit].

Definition report_collapse (self : t) (buckets : list Bucket) (collapsed_spans : Z) : t :=
  let self :=
    if (0 <? collapsed_spans) && negb (whole_key_collapse_reported self)
    then set_reports self true (reported_collapsed_fields self)
           [WholeKeyCollapse (whole_key_limit (cardinality_limits self)) collapsed_spans]
    else self in
  if CollapsedFields.contains_all (reported_collapsed_fields self) (possible_collapsed_fields self)
  then self
  else foldl (report_field (observe_collapsed_fields buckets)) self
         (CollapsedFields.reportable (cardinality_limits self)).

Definition with_concentrator (self : t) (c : C) : t :=
  {| concentrator := c; tracer_metadata := tracer_metadata self; config := config self;
     cardinality_limits := cardinality_limits self;
     whole_key_collapse_reported := whole_key_collapse_reported self;
     reported_collapsed_fields := reported_collapsed_fields self;
     possible_collapsed_fields := possible_collapsed_fields self; warnings := warnings self |}.

Definition with_metadata (self : t) (md : TracerMetadata) : t :=
  {| concentrator := concentrator self; tracer_metadata := md; config := config self;
     cardinality_limits := cardinality_limits self;
     whole_key_collapse_reported := whole_key_collapse_reported self;
     reported_collapsed_fields := reported_collapsed_fields self;
     possible_collapsed_fields := possible_collapsed_fields self; warnings := warnings self |}.

Definition stats_payload (self : t) (stats_buckets : list Bucket) : ClientStatsPayload Bucket :=
  {| csp_env := default "unknown-env"%string (cfg_env (config self));
     csp_version := default EmptyString (cfg_version (config self));
     csp_lang := language (tracer_metadata self);
     csp_tracer_version := md_tracer_version (tracer_metadata self);
     csp_runtime_id := md_runtime_id (tracer_metadata self);
     csp_service := lowercase (default EmptyString (cfg_service (config self)));
     csp_container_id := md_container_id (tracer_metadata self);
     csp_stats := stats_buckets |}.

(** The service after a flush and what it responds. *)
Definition handle_flush (self : t) (force_flush : bool) (now : Z) :
    t * option (ClientStatsPayload Bucket) :=
  let '((obfuscated, unobfuscated, collapsed_spans), c) :=
    concentrator_flush (concentrator self) now force_flush in
  let stats_buckets := unobfuscated ++ obfuscated in
  let self := report_collapse (with_concentrator self c) stats_buckets collapsed_spans in
  (self, match stats_buckets with [] => None | _ => Some (stats_payload self stats_buckets) end).

Definition step (self : t) (command : ConcentratorCommand) :
    t * list (option (ClientStatsPayload Bucket)) :=
  match command with
  | SetTracerMetadata md => (with_metadata self md, [])
  | Add span => (with_concentrator self (add_span (concentrator self) span), [])
  | Flush force_flush now => let '(self, r) := handle_flush self force_flush now in (self, [r])
  end.

(** The loop of [run]: the commands in order, with the responses to the flushes. *)
Fixpoint run (self : t) (commands : list ConcentratorCommand) :
    t * list (option (ClientStatsPayload Bucket)) :=
  match commands with
  | [] => (self, [])
  | command :: commands =>
      let '(self, responses) := step self command in
      let '(self, rest) := run self commands in
      (self, responses ++ rest)
  end.
End Service.
End StatsService.

(** * Bits *)

Module CollapsedBits.
Import CollapsedFields.

Definition FIELDS : list Z := [RESOURCE; HTTP_ENDPOINT; PEER_TAGS; ADDITIONAL_TAGS].

Lemma contains_bit x i : 0 <= i -> contains x (Z.shiftl 1 i) = Z.testbit x i.
Proof.
  intros Hi. unfold contains. rewrite Z.shiftl_1_l. destruct (Z.testbit x i) eqn:Hb.
  - apply negb_true_iff, Z.eqb_neq. intros H0.
    assert (Hl : Z.testbit (Z.land x (2 ^ i)) i = true)
      by (by rewrite Z.land_spec, Hb, Z.pow2_bits_true).
    by rewrite H0, Z.bits_0 in Hl.
  - apply negb_false_iff, Z.eqb_eq, Z.bits_inj'. intros j Hj.
    rewrite Z.land_spec, Z.pow2_bits_eqb, Z.bits_0 by done.
    destruct (Z.eqb_spec i j) as [<-|]; [by rewrite Hb|apply andb_false_r].
Qed.

Lemma field_bit f : f ∈ FIELDS -> exists i, 0 <= i /\ f = Z.shiftl 1 i.
Proof.
  unfold FIELDS, RESOURCE, HTTP_ENDPOINT, PEER_TAGS, ADDITIONAL_TAGS.
  rewrite !elem_of_cons, elem_of_nil.
  intros [->|[->|[->|[->|[]]]]]; [exists 0|exists 1|exists 2|exists 3]; (split; [lia|done]).
Qed.

Lemma contains_add x f g : f ∈ FIELDS -> g ∈ FIELDS ->
  contains (add x f) g = contains x g || bool_decide (f = g).
Proof.
  intros (i & Hi & ->)%field_bit (j & Hj & ->)%field_bit. rewrite !contains_bit by done.
  unfold add. rewrite Z.lor_spec, Z.shiftl_1_l, Z.pow2_bits_eqb, Z.shiftl_1_l by done. f_equal.
  destruct (Z.eqb_spec i j) as [->|Hne]; [by rewrite bool_decide_true|].
  rewrite bool_decide_false; [done|]. intros He%Z.pow_inj_r; lia.
Qed.

Lemma contains_of_all x ys f : f ∈ FIELDS ->
  contains_all x ys = true -> contains ys f = true -> contains x f = true.
Proof.
  intros (i & Hi & ->)%field_bit. rewrite !contains_bit by done. unfold contains_all.
  intros He%Z.eqb_eq Hy. rewrite <- He, Z.land_spec in Hy. by apply andb_true_iff in Hy as [? _].
Qed.
End CollapsedBits.

(** * Each collapse is warned about once *)

Definition is_field_warning (f : Z) (w : Warning) : bool :=
  match w with FieldCollapse g _ _ => f =? g | _ => false end.
Definition is_whole_key_warning (w : Warning) : bool :=
  match w with WholeKeyCollapse _ _ => true | _ => false end.
Definition count (p : Warning -> bool) (ws : list Warning) : nat := length (filter (fun w => p w) ws).

Lemma count_app p ws ws' : count p (ws ++ ws') = (count p ws + count p ws')%nat.
Proof. unfold count. by rewrite filter_app, length_app. Qed.

Lemma count_none p ws : Forall (fun w => p w = false) ws -> count p ws = 0%nat.
Proof.
  induction 1 as [|w ws Hw _ IH]; [done|]. unfold count in *. rewrite filter_cons, Hw. done.
Qed.

Definition once (b : bool) : nat := if b then 1 else 0.

Lemma count_one p w : count p [w] = once (p w).
Proof. unfold count. rewrite filter_cons. by destruct (p w). Qed.

Module StatsReports.
Import CollapsedFields CollapsedBits StatsService.
Section Reports.
Context `{Externals} {C Bucket : Type} `{ConcentratorOps C Bucket}.
Abbreviation service := (@StatsService.t C) (only parsing).

(** What each flush of a run returns: its buckets, and the number of collapsed spans. *)
Fixpoint flushes (self : service) (commands : list ConcentratorCommand) : list (list Bucket * Z) :=
  match commands with
  | [] => []
  | command :: commands =>
      match command with
      | Flush force_flush now =>
          let '((obfuscated, unobfuscated, n), _) :=
            concentrator_flush (concentrator self) now force_flush in
          [(unobfuscated ++ obfuscated, n)]
      | _ => []
      end ++ flushes (step self command).1 commands
  end.

Definition shows (f : Z) (r : list Bucket * Z) : bool := contains (observe_collapsed_fields r.1) f.
Definition overflows (r : list Bucket * Z) : bool := 0 <? r.2.

(** The concentrator only collapses fields it aggregates on. *)
Definition only_possible (possible : CollapsedFields.t) (r : list Bucket * Z) : Prop :=
  forall f, f ∈ FIELDS -> shows f r = true -> contains possible f = true.

(** The warnings of a service agree with its record of them. *)
Definition recorded (self : service) : Prop :=
  (forall f, f ∈ FIELDS ->
     count (is_field_warning f) (warnings self) = once (contains (reported_collapsed_fields self) f)) /\
  count is_whole_key_warning (warnings self) = once (whole_key_collapse_reported self).

Lemma report_field_spec observed self entry :
  entry.1.1 ∈ FIELDS -> recorded self ->
  let self' := report_field observed self entry in
  recorded self' /\
  (forall f, f ∈ FIELDS -> contains (reported_collapsed_fields self') f =
     contains (reported_collapsed_fields self) f || (contains observed f && bool_decide (entry.1.1 = f))) /\
  whole_key_collapse_reported self' = whole_key_collapse_reported self /\
  possible_collapsed_fields self' = possible_collapsed_fields self.
Proof.
  destruct entry as [[g noun] limit]. intros Hg [Hf Hw]. cbn in Hg. cbn -[contains count add].
  destruct (contains observed g) eqn:Ho; cbn -[contains count add].
  2: { split_and!; [by split| |done|done]. intros f _.
       destruct (bool_decide_reflect (g = f)) as [<-|]; by rewrite ?Ho, ?andb_false_r, orb_false_r. }
  destruct (contains (reported_collapsed_fields self) g) eqn:Hr; cbn -[contains count add].
  { split_and!; [by split| |done|done]. intros f _.
    destruct (bool_decide_reflect (g = f)) as [<-|]; [by rewrite Hr|].
    by rewrite andb_false_r, orb_false_r. }
  split_and!; [split|..]; cbn -[contains count add]; try done.
  - intros f HfF. rewrite count_app, count_one, Hf, contains_add by done. cbn -[contains].
    destruct (bool_decide_reflect (g = f)) as [<-|Hne].
    + by rewrite Hr, Z.eqb_refl.
    + rewrite (proj2 (Z.eqb_neq f g)) by done. by rewrite orb_false_r, Nat.add_0_r.
  - rewrite count_app, count_one, Hw. cbn. lia.
  - intros f HfF. rewrite contains_add by done.
    destruct (bool_decide_reflect (g = f)) as [<-|]; by rewrite ?Ho, ?andb_false_r.
Qed.
(** The whole loop: a field is on record if it was or is observed. *)
Lemma report_fields_spec observed entries : forall self,
  Forall (fun e => e.1.1 ∈ FIELDS) entries -> recorded self ->
  let self' := foldl (report_field observed) self entries in
  recorded self' /\
  (forall f, f ∈ FIELDS -> contains (reported_collapsed_fields self') f =
     contains (reported_collapsed_fields self) f
     || (contains observed f && existsb (fun e => bool_decide (e.1.1 = f)) entries)) /\
  whole_key_collapse_reported self' = whole_key_collapse_reported self /\
  possible_collapsed_fields self' = possible_collapsed_fields self.
Proof.
  induction entries as [|e entries IH]; intros self Hall Hrec; cbn -[contains].
  { split_and!; try done. intros. by rewrite andb_false_r, orb_false_r. }
  apply Forall_cons in Hall as [He Hall].
  destruct (report_field_spec observed self e He Hrec) as (Hr1 & Hf1 & Hw1 & Hp1).
  destruct (IH _ Hall Hr1) as (Hr2 & Hf2 & Hw2 & Hp2).
  split_and!; [done| |congruence|congruence].
  intros f Hf. rewrite Hf2, Hf1 by done.
  by destruct (contains _ f), (contains observed f), (bool_decide _), (existsb _ _).
Qed.

Lemma reportable_fields limits :
  Forall (fun e => e.1.1 ∈ FIELDS) (reportable limits) /\
  forall f, f ∈ FIELDS -> existsb (fun e => bool_decide (e.1.1 = f)) (reportable limits) = true.
Proof.
  split; [repeat constructor; unfold FIELDS; set_solver|].
  intros f Hf. unfold FIELDS in Hf. rewrite !elem_of_cons, elem_of_nil in Hf.
  by destruct Hf as [->|[->|[->|[->|[]]]]].
Qed.

Lemma report_collapse_spec self buckets n :
  recorded self -> only_possible (possible_collapsed_fields self) (buckets, n) ->
  let self' := report_collapse self buckets n in
  recorded self' /\
  (forall f, f ∈ FIELDS -> contains (reported_collapsed_fields self') f =
     contains (reported_collapsed_fields self) f || shows f (buckets, n)) /\
  whole_key_collapse_reported self' = whole_key_collapse_reported self || overflows (buckets, n) /\
  possible_collapsed_fields self' = possible_collapsed_fields self.
Proof.
  intros [Hf Hw] Hpos. unfold report_collapse.
  set (self1 := if _ && _ then _ else _).
  assert (H1 : recorded self1 /\ reported_collapsed_fields self1 = reported_collapsed_fields self /\
    whole_key_collapse_reported self1 = whole_key_collapse_reported self || overflows (buckets, n) /\
    possible_collapsed_fields self1 = possible_collapsed_fields self).
  { subst self1. unfold overflows. cbn [snd].
    destruct (0 <? n), (whole_key_collapse_reported self) eqn:Hk; cbn -[count contains];
      split_and!; try done; try (by split; rewrite ?Hw, ?Hk).
    split; cbn -[count contains]; [intros f HF|]; rewrite count_app, count_one, ?Hf, ?Hw by done;
      cbn; lia. }
  destruct H1 as (Hr1 & He1 & Hw1 & Hp1). clearbody self1. cbn zeta.
  rewrite <- He1, <- Hw1, <- Hp1 in *. clear Hf Hw He1 Hw1 Hp1 self.
  destruct (contains_all _ _) eqn:Hall.
  - split_and!; try done. intros f HF. unfold shows. cbn [fst].
    destruct (contains (observe_collapsed_fields buckets) f) eqn:Ho; [|by rewrite orb_false_r].
    by rewrite (contains_of_all _ _ f HF Hall (Hpos f HF Ho)).
  - destruct (reportable_fields (cardinality_limits self1)) as [HF Hex].
    destruct (report_fields_spec (observe_collapsed_fields buckets) _ self1 HF Hr1)
      as (Hr & Hf & Hw & Hp).
    split_and!; try done. intros f HfF. by rewrite Hf, Hex, andb_true_r.
Qed.

Lemma run_reports_spec commands : forall self,
  recorded self -> Forall (only_possible (possible_collapsed_fields self)) (flushes self commands) ->
  let self' := (run self commands).1 in
  recorded self' /\
  (forall f, f ∈ FIELDS -> contains (reported_collapsed_fields self') f =
     contains (reported_collapsed_fields self) f || existsb (shows f) (flushes self commands)) /\
  whole_key_collapse_reported self' =
    whole_key_collapse_reported self || existsb overflows (flushes self commands).
Proof.
  induction commands as [|c commands IH]; intros self Hrec Hall; cbn -[contains].
  { split_and!; try done; intros; by rewrite orb_false_r. }
  destruct c as [md|span|force now]; cbn -[contains] in *.
  - specialize (IH (with_metadata self md) Hrec Hall). by destruct (run _ _).
  - specialize (IH (with_concentrator self (add_span (concentrator self) span)) Hrec Hall).
    by destruct (run _ _).
  - unfold handle_flush. revert Hall.
    destruct (concentrator_flush (concentrator self) now force) as [[[ob un] n] c'] eqn:Hfl.
    intros [Hp Hall]%Forall_cons.
    destruct (report_collapse_spec (with_concentrator self c') (un ++ ob) n Hrec Hp)
      as (Hr1 & Hf1 & Hw1 & Hp1).
    unfold handle_flush in *. rewrite Hfl in *. cbn -[contains] in *.
    rewrite <- Hp1 in Hall.
    destruct (IH _ Hr1 Hall) as (Hr2 & Hf2 & Hw2).
    destruct (run (report_collapse _ _ _) commands); cbn -[contains] in *.
    split_and!; [done| |by rewrite Hw2, Hw1, orb_assoc].
    intros f HF. by rewrite Hf2, Hf1, orb_assoc.
Qed.

Lemma new_recorded config now : recorded (new config now).
Proof.
  unfold recorded, new.
  destruct (resolve_cardinality_limits _) as [limits ws] eqn:Hl. cbn -[count contains].
  assert (Hnone : forall p, (forall k d, p (ExcessKeys k d) = false) -> (forall l, p (LimitZero l) = false) ->
    (forall l m, p (LimitClamped l m) = false) ->
    count p (ws ++ warn_on_excess_additional_metric_tag_keys (Configuration.additional_metric_tags config)
      (additional_metric_tag_keys (concentrator_new now (default default_limits limits)
        (Configuration.additional_metric_tags config)))) = 0%nat).
  { intros p H1 H2 H3. apply count_none, Forall_app. split.
    - unfold resolve_cardinality_limits in Hl. repeat case_match; simplify_eq; auto.
    - unfold warn_on_excess_additional_metric_tag_keys. case_match; auto. }
  split; [intros f HF|]; by rewrite Hnone.
Qed.

(** Over the life of the service each kind of collapse is warned about exactly
    once if some flush shows it, and never otherwise: a field whose values were
    replaced by the sentinel, and the overflow of whole keys. Skipping the scan once
    every possible field has been reported loses no warning. *)
Theorem collapse_warned_once (config : Config) now commands f :
  f ∈ FIELDS ->
  let self := new config now in
  Forall (only_possible (possible_collapsed_fields self)) (flushes self commands) ->
  let ws := warnings (run self commands).1 in
  count (is_field_warning f) ws = once (existsb (shows f) (flushes self commands)) /\
  count is_whole_key_warning ws = once (existsb overflows (flushes self commands)).
Proof.
  intros HF self Hall.
  destruct (run_reports_spec commands self (new_recorded config now) Hall) as ([Hf Hw] & Hrf & Hrw).
  cbn zeta. rewrite Hf, Hw, Hrf, Hrw by done. subst self. unfold new.
  destruct (resolve_cardinality_limits _) as [limits ws']. cbn -[contains].
  by unfold contains; rewrite Z.land_0_l.
Qed.

(** The limit in force is the default, or lies between one and the limit of whole keys. *)
Lemma limit_in_range (config : Config) now :
  2 <= whole_key_limit default_limits ->
  (forall limit, additional_metric_tags_cardinality_limit config = Some limit -> 0 <= limit) ->
  let limits := cardinality_limits (new config now) in
  limits = default_limits \/
  (1 <= additional_tags_limit limits < whole_key_limit limits /\
   limits = with_additional_tags_limit default_limits (additional_tags_limit limits)).
Proof.
  intros Hk Hc. unfold new, resolve_cardinality_limits.
  destruct (additional_metric_tags_cardinality_limit config) as [limit|]; [|by left].
  specialize (Hc limit eq_refl).
  destruct (Z.eqb_spec limit 0); cbn; [by left|]. rewrite saturating_sub_spec.
  destruct (Z.ltb_spec (Z.max 0 (whole_key_limit default_limits - 1)) limit); cbn; right; lia || (split; [lia|done]).
Qed.
End Reports.
End StatsReports.

(** A concentrator that reports every span under one collapsed resource. *)
Module StatsSample.

Definition collapsed (s : Span) : Pb.ClientGroupedStats :=
  {| Pb.service := service s; Pb.resource := TRACER_BLOCKED_VALUE; Pb.http_endpoint := EmptyString;
     Pb.peer_tags := []; Pb.additional_metric_tags := [] |}.

#[export] Instance ops : ConcentratorOps (list Span) (list Pb.ClientGroupedStats) :=
  {| default_limits := {| whole_key_limit := 7000; resource_limit := 1024;
                          http_endpoint_limit := 512; peer_tags_limit := 512;
                          additional_tags_limit := 100 |};
     concentrator_new := fun _ _ _ => [];
     add_span := fun c s => c ++ [s];
     concentrator_flush := fun c _ _ => (([], [collapsed <$> c], 0), []);
     additional_metric_tag_keys := fun _ => [];
     bucket_stats := fun b => b |}.

Definition commands : list ConcentratorCommand :=
  [Add Span_default; Flush true 1; Add Span_default; Flush true 2].

End StatsSample.

Section StatsWitness.
#[local] Existing Instances Sample.externals StatsSample.ops.

Lemma collapse_warned_once_witness :
  let ws := StatsService.warnings
    (StatsService.run (StatsService.new Sample.config 0) StatsSample.commands).1 in
  count (is_field_warning CollapsedFields.RESOURCE) ws = 1%nat /\
  count is_whole_key_warning ws = 0%nat.
Proof.
  destruct (StatsReports.collapse_warned_once Sample.config 0 StatsSample.commands
              CollapsedFields.RESOURCE) as [Hf Hw].
  - unfold CollapsedBits.FIELDS. set_solver.
  - repeat constructor; intros f Hf; unfold CollapsedBits.FIELDS in Hf;
      rewrite !elem_of_cons, elem_of_nil in Hf;
      destruct Hf as [->|[->|[->|[->|[]]]]]; vm_compute; intros; (reflexivity || discriminate).
  - split; [etransitivity; [apply Hf|]|etransitivity; [apply Hw|]]; vm_compute; reflexivity.
Defined.
End StatsWitness.
