(* ===== verification/TraceProcessor.v ===== *)
(** The trace processor: [traces/trace_processor.rs] and the span links of
    [traces/span_pointers.rs].

    The code of libdatadog and of the sampler crate is [TraceOps]: the regular
    expressions, the obfuscator, the search of the root span, the collection of
    traces into payloads, the encoded length of a payload and the error sampler with
    its state. A [SendDataBuilder] is the arguments it is built from. The channel to
    the trace aggregator and the one to the stats concentrator are lists of what they
    were sent. *)
From S2P Require Import Prelude F64 DataStreams Text Aggregators ContextBuffer Triggers.
From S2P Require Import Configuration SpanInferrer Tags StatsConcentrator.
#[local] Open Scope Z_scope.

(** * Types *)

Inductive StatsComputedBy := Backend | Extension | Tracer.

#[export] Instance StatsComputedBy_eq_dec : EqDecision StatsComputedBy.
Proof. solve_decision. Defined.

Definition resolve (compute_on_extension client_computed_stats : bool) : StatsComputedBy :=
  match compute_on_extension, client_computed_stats with
  | _, true => Tracer
  | true, false => Extension
  | false, false => Backend
  end.

(** What the sampler sees of a span and of a trace. *)
Record SpanView := {
  sv_service : string;
  sv_name : string;
  sv_resource : string;
  sv_error : bool;
  sv_http_status_code : option string;
  sv_error_type : option string;
}.

Record TraceView := {
  tv_env : string;
  tv_trace_id : Z;
  tv_root_index : nat;
  tv_root_global_sample_rate : f64;
  tv_spans : list SpanView;
}.

Inductive SampleDecision := Keep (errors_sr : f64) | Drop.

Record SpanLink := {
  link_trace_id : Z;
  link_trace_id_high : Z;
  link_span_id : Z;
  link_attributes : gmap string string;
  link_tracestate : string;
  link_flags : Z;
}.

Inductive TracerPayloadCollection := V07 (payloads : list Pb.TracerPayload) | OtherPayloads.

(** The tags of a request that the code reads, and the others. *)
Record GenericTags := { client_computed_stats : bool; client_computed_top_level : bool }.
Abbreviation HeaderTags := (TraceAggregator.TracerHeaderTags GenericTags).

Class TraceOps (Sampler Uri : Type) := {
  (** [Regex::new], and [is_match] of it *)
  regex : string -> option (string -> bool);
  obfuscate_pb_span : Span -> Span;
  get_root_span_index : list Span -> option nat;
  (** the collection of traces, given what is done with each chunk and the index of its root *)
  collect_pb_trace_chunks :
    list (list Span) -> HeaderTags -> (Pb.TraceChunk -> nat -> Pb.TraceChunk) ->
    option TracerPayloadCollection;
  encoded_len : Pb.TracerPayload -> Z;
  uri_from_str : string -> option Uri;
  (** [ErrorsSampler] in the mode [AlwaysKeep] *)
  sampler_new : bool -> Sampler;
  is_disabled : Sampler -> bool;
  sample : Sampler -> Z -> TraceView -> SampleDecision * Sampler;
  (** serde_json at the type of span links *)
  links_from_str : string -> option (list SpanLink);
  links_to_string : list SpanLink -> option string;
}.

Record Endpoint (Uri : Type) := { ep_url : Uri; ep_timeout_ms : Z }.
Arguments ep_url {_}. Arguments ep_timeout_ms {_}.

Record SendDataBuilder (Uri : Type) := {
  sd_size : Z;
  sd_payload : TracerPayloadCollection;
  sd_header_tags : HeaderTags;
  sd_endpoint : Endpoint Uri;
  sd_compression_level : Z;
}.
Arguments sd_size {_}. Arguments sd_payload {_}. Arguments sd_header_tags {_}.
Arguments sd_endpoint {_}. Arguments sd_compression_level {_}.

(** * Constants *)

Definition ERROR_RARE_SAMPLE_TRACER_DROP : string := "error_rare_sample_tracer_drop".
Definition DECISION_MAKER_TAG : string := "_dd.p.dm".
Definition MANUAL_SAMPLING_DECISION_MAKER : string := "-4".
Definition USER_DROP_PRIORITY : Z := -1.
(** [SamplerPriority::None as i32]. *)
Definition PRIORITY_NONE : Z := -128.
Definition LAMBDA_RUNTIME_URL_PREFIX : string := "http://127.0.0.1:9001".
Definition LAMBDA_EXTENSION_URL_PREFIX : string := "http://127.0.0.1:8124".
Definition LAMBDA_STATSD_URL_PREFIX : string := "http://127.0.0.1:8125".
Definition DNS_NON_ROUTABLE_ADDRESS_URL_PREFIX : string := "0.0.0.0".
Definition DNS_LOCAL_HOST_ADDRESS_URL_PREFIX : string := "127.0.0.1".
Definition AWS_XRAY_DAEMON_ADDRESS_URL_PREFIX : string := "169.254.79.129".
Definition INVOCATION_SPAN_RESOURCE : string := "dd-tracer-serverless-span".

Definition error_rare_sample_tracer_drop_enabled (config : Config) : bool :=
  bool_decide (ERROR_RARE_SAMPLE_TRACER_DROP ∈ apm_features config).

Definition put_span_meta (k v : string) (s : Span) : Span := with_meta s (<[k := v]> (meta s)).

Section Filters.
Context {Sampler Uri : Type} `{TraceOps Sampler Uri}.

(** * Filters *)

(** The fields of a span that a key may name. *)
Definition span_property (span : Span) (key : string) : option string :=
  if decide (key = "name"%string) then Some (name span)
  else if decide (key = "service"%string) then Some (service span)
  else if decide (key = "resource"%string) then Some (resource span)
  else if decide (key = "type"%string) then Some (type_ span)
  else None.

Definition span_matches (p : string -> bool) (span : Span) (key : string) : bool :=
  match meta span !! key with Some v => p v | None => false end
  || match span_property span key with Some v => p v | None => false end.

Definition span_matches_tag_exact (span : Span) (key value : string) : bool :=
  span_matches (fun v => bool_decide (v = value)) span key.

Definition span_matches_tag_regex (span : Span) (key value : string) : bool :=
  match regex value with
  | None => false
  | Some is_match => span_matches is_match span key
  end.

Definition span_has_key (span : Span) (key : string) : bool :=
  bool_decide (is_Some (meta span !! key))
  || match span_property span key with Some EmptyString | None => false | Some _ => true end.

Definition span_matches_filter (matches : Span -> string -> string -> bool) (span : Span)
    (filter : string) : bool :=
  match splitn2 ":" filter with
  | (key, Some value) => matches span (trim key) (trim value)
  | (key, None) => span_has_key span (trim key)
  end.

Definition span_matches_tag_exact_filter : Span -> string -> bool :=
  span_matches_filter span_matches_tag_exact.

Definition span_matches_tag_regex_filter : Span -> string -> bool :=
  span_matches_filter span_matches_tag_regex.

(** An absent list and an empty one impose nothing. *)
Definition filter_span_by_tags (span : Span) (config : Config) : bool :=
  let required (matches : Span -> string -> bool) tags :=
    negb (forallb (matches span) (default [] tags)) in
  let rejected (matches : Span -> string -> bool) tags :=
    existsb (matches span) (default [] tags) in
  required span_matches_tag_exact_filter (apm_filter_tags_require config)
  || required span_matches_tag_regex_filter (apm_filter_tags_regex_require config)
  || rejected span_matches_tag_exact_filter (apm_filter_tags_reject config)
  || rejected span_matches_tag_regex_filter (apm_filter_tags_regex_reject config).

Definition is_lambda_url (url : string) : bool :=
  starts_with LAMBDA_RUNTIME_URL_PREFIX url || starts_with LAMBDA_EXTENSION_URL_PREFIX url
  || starts_with LAMBDA_STATSD_URL_PREFIX url.

Definition filter_span_from_lambda_library_or_runtime (span : Span) : bool :=
  match meta span !! "http.url"%string with Some url => is_lambda_url url | None => false end
  || match meta span !! "tcp.remote.host"%string, meta span !! "tcp.remote.port"%string with
     | Some tcp_host, Some tcp_port =>
         is_lambda_url ("http://" +:+ tcp_host +:+ ":" +:+ tcp_port)%string
     | _, _ => false
     end
  || match meta span !! "dns.address"%string with
     | Some dns_address =>
         starts_with DNS_NON_ROUTABLE_ADDRESS_URL_PREFIX dns_address
         || starts_with DNS_LOCAL_HOST_ADDRESS_URL_PREFIX dns_address
         || starts_with AWS_XRAY_DAEMON_ADDRESS_URL_PREFIX dns_address
     | None => false
     end
  || bool_decide (resource span = INVOCATION_SPAN_RESOURCE)
  || bool_decide (name span = "dns.lookup"%string)
  || bool_decide (resource span = DNS_LOCAL_HOST_ADDRESS_URL_PREFIX)
  || bool_decide (resource span = DNS_NON_ROUTABLE_ADDRESS_URL_PREFIX).

(** * Span pointers *)

Definition pointer_link (sp : SpanPointer) : SpanLink :=
  {| link_trace_id := 0; link_trace_id_high := 0; link_span_id := 0; link_tracestate := EmptyString;
     link_flags := 0;
     link_attributes := list_to_map
       [("link.kind", "span-pointer"); ("ptr.dir", "u"); ("ptr.hash", ptr_hash sp);
        ("ptr.kind", ptr_kind sp)]%string |}.

Definition attach_span_pointers_to_meta (meta : gmap string string)
    (span_pointers : option (list SpanPointer)) : gmap string string :=
  match span_pointers with
  | None | Some [] => meta
  | Some pointers =>
      let existing := default [] (meta !! "_dd.span_links"%string ≫= links_from_str) in
      match links_to_string (existing ++ (pointer_link <$> pointers)) with
      | Some json => <["_dd.span_links"%string := json]> meta
      | None => meta
      end
  end.

(** * Chunks *)

Record ChunkProcessor := {
  cp_config : Config;
  cp_tags_provider : Provider;
  cp_span_pointers : option (list SpanPointer);
  cp_stats_computed_by : StatsComputedBy;
}.

Definition with_spans (chunk : Pb.TraceChunk) (spans : list Span) : Pb.TraceChunk :=
  {| Pb.priority := Pb.priority chunk; Pb.origin := Pb.origin chunk; Pb.spans := spans;
     Pb.tags := Pb.tags chunk; Pb.dropped_trace := Pb.dropped_trace chunk |}.

(** The decision maker of the first span that has one, unless the chunk has it. *)
Definition promote_decision_maker (chunk : Pb.TraceChunk) : Pb.TraceChunk :=
  match Pb.tags chunk !! DECISION_MAKER_TAG,
        head (omap (fun span => meta span !! DECISION_MAKER_TAG) (Pb.spans chunk)) with
  | None, Some decision_maker =>
      {| Pb.priority := Pb.priority chunk; Pb.origin := Pb.origin chunk; Pb.spans := Pb.spans chunk;
         Pb.tags := <[DECISION_MAKER_TAG := decision_maker]> (Pb.tags chunk);
         Pb.dropped_trace := Pb.dropped_trace chunk |}
  | _, _ => chunk
  end.

Definition enrich_span (self : ChunkProcessor) (span : Span) : Span :=
  let tags := tags_map (cp_tags_provider self) in
  let config := cp_config self in
  let span :=
    if bool_decide (service span = "aws.lambda"%string) then
      match tags !! "service"%string with
      | Some service => with_service span service
      | None => span
      end
    else span in
  let span :=
    if bool_decide (is_Some (meta span !! "_inferred_span.tag_source"%string))
       && negb (bool_decide (is_Some (meta span !! "_dd.base_service"%string))) then
      let resolved := match cfg_service config with
                      | Some service => Some service
                      | None => get_canonical_resource_name (cp_tags_provider self)
                      end in
      put_span_meta "_dd.base_service"
        (get_default_service_name (default "aws.lambda"%string resolved) "aws.lambda"
           (trace_aws_service_representation_enabled config)) span
    else span in
  let span := with_meta span (tags ∪ meta span) in
  let span := if decide (cp_stats_computed_by self = Backend)
              then put_span_meta COMPUTE_STATS_KEY "1" span else span in
  let span := put_span_meta "origin" "lambda" span in
  let span := put_span_meta "_dd.origin" "lambda" span in
  obfuscate_pb_span span.

Definition update_at {A} (f : A -> A) (i : nat) (l : list A) : list A :=
  match l !! i with Some x => <[i := f x]> l | None => l end.

Definition process (self : ChunkProcessor) (chunk : Pb.TraceChunk) (root_span_index : nat) :
    Pb.TraceChunk :=
  let chunk := promote_decision_maker chunk in
  if match Pb.spans chunk !! root_span_index with
     | Some root_span => filter_span_by_tags root_span (cp_config self)
     | None => false
     end
  then with_spans chunk []
  else
    let spans := filter (fun s => filter_span_from_lambda_library_or_runtime s = false)
                   (Pb.spans chunk) in
    let spans := enrich_span self <$> spans in
    with_spans chunk
      (update_at (fun s => with_meta s (attach_span_pointers_to_meta (meta s) (cp_span_pointers self)))
         root_span_index spans).

(** * Sampling *)

Definition span_view (span : Span) : SpanView :=
  {| sv_service := service span; sv_name := name span; sv_resource := resource span;
     sv_error := negb (error span =? 0);
     sv_http_status_code := meta span !! "http.status_code"%string;
     sv_error_type := meta span !! "error.type"%string |}.

Definition is_manual_tracer_drop (chunk : Pb.TraceChunk) : bool :=
  (Pb.priority chunk =? USER_DROP_PRIORITY)
  && bool_decide (Pb.tags chunk !! DECISION_MAKER_TAG = Some MANUAL_SAMPLING_DECISION_MAKER).

Definition put_errors_sr (errors_sr : f64) (s : Span) : Span :=
  with_metrics s (<["_dd.errors_sr"%string := errors_sr]> (metrics s)).

(** Whether the chunk is kept, the chunk and the sampler. An index that is out of
    range panics. *)
Definition rescue_error_chunk (sampler : Sampler) (chunk : Pb.TraceChunk) (env : string)
    (now_secs : Z) : outcome (bool * Pb.TraceChunk * Sampler) :=
  if negb (existsb (fun s => negb (error s =? 0)) (Pb.spans chunk)) then Done (false, chunk, sampler)
  else
    match get_root_span_index (Pb.spans chunk) with
    | None => Done (false, chunk, sampler)
    | Some root_idx =>
        root ← vec_index (Pb.spans chunk) root_idx;
        let trace :=
          {| tv_env := env; tv_trace_id := trace_id root; tv_root_index := root_idx;
             tv_root_global_sample_rate := default f64_one (metrics root !! "_sample_rate"%string);
             tv_spans := span_view <$> Pb.spans chunk |} in
        match sample sampler now_secs trace with
        | (Keep errors_sr, sampler) =>
            Done (true, with_spans chunk (update_at (put_errors_sr errors_sr) root_idx
                                            (Pb.spans chunk)), sampler)
        | (Drop, sampler) => Done (false, chunk, sampler)
        end
    end.

(** The closure given to [retain_mut]. *)
Definition retain_chunk (tracer_drop rescue_enabled : bool) (env : string) (now_secs : Z)
    (sampler : Sampler) (chunk : Pb.TraceChunk) : outcome (bool * Pb.TraceChunk * Sampler) :=
  if (0 <? Pb.priority chunk) || (Pb.priority chunk =? PRIORITY_NONE) then Done (true, chunk, sampler)
  else if (Pb.priority chunk <? 0) && (negb tracer_drop || is_manual_tracer_drop chunk)
  then Done (false, chunk, sampler)
  else if negb rescue_enabled then Done (false, chunk, sampler)
  else rescue_error_chunk sampler chunk env now_secs.

Fixpoint retain_chunks (tracer_drop rescue_enabled : bool) (env : string) (now_secs : Z)
    (sampler : Sampler) (chunks : list Pb.TraceChunk) : outcome (list Pb.TraceChunk * Sampler) :=
  match chunks with
  | [] => Done ([], sampler)
  | chunk :: chunks =>
      '(kept, chunk, sampler) ← retain_chunk tracer_drop rescue_enabled env now_secs sampler chunk;
      '(rest, sampler) ← retain_chunks tracer_drop rescue_enabled env now_secs sampler chunks;
      Done (if kept : bool then chunk :: rest else rest, sampler)
  end.

Definition with_chunks (tp : Pb.TracerPayload) (chunks : list Pb.TraceChunk) : Pb.TracerPayload :=
  {| Pb.container_id := Pb.container_id tp; Pb.language_name := Pb.language_name tp;
     Pb.language_version := Pb.language_version tp; Pb.tracer_version := Pb.tracer_version tp;
     Pb.runtime_id := Pb.runtime_id tp; Pb.chunks := chunks; Pb.tp_tags := Pb.tp_tags tp;
     Pb.env := Pb.env tp; Pb.tp_hostname := Pb.tp_hostname tp; Pb.app_version := Pb.app_version tp |}.

Definition with_tp_tags (tp : Pb.TracerPayload) (tags : gmap string string) : Pb.TracerPayload :=
  {| Pb.container_id := Pb.container_id tp; Pb.language_name := Pb.language_name tp;
     Pb.language_version := Pb.language_version tp; Pb.tracer_version := Pb.tracer_version tp;
     Pb.runtime_id := Pb.runtime_id tp; Pb.chunks := Pb.chunks tp; Pb.tp_tags := tags;
     Pb.env := Pb.env tp; Pb.tp_hostname := Pb.tp_hostname tp; Pb.app_version := Pb.app_version tp |}.

Fixpoint retain_payloads (tracer_drop rescue_enabled : bool) (now_secs : Z) (sampler : Sampler)
    (payloads : list Pb.TracerPayload) : outcome (list Pb.TracerPayload * Sampler) :=
  match payloads with
  | [] => Done ([], sampler)
  | tp :: payloads =>
      '(chunks, sampler) ← retain_chunks tracer_drop rescue_enabled (Pb.env tp) now_secs sampler
                             (Pb.chunks tp);
      '(rest, sampler) ← retain_payloads tracer_drop rescue_enabled now_secs sampler payloads;
      Done (with_chunks tp chunks :: rest, sampler)
  end.

(** [error_rare_sample_tracer_drop] is a field of the processor; the clock is only
    read when errors may be rescued. *)
Definition drop_sampled_out_chunks (tracer_drop : bool) (sampler : Sampler) (now_secs : Z)
    (payloads : list Pb.TracerPayload) : outcome (list Pb.TracerPayload * Sampler) :=
  let rescue_enabled := negb (is_disabled sampler) in
  '(payloads, sampler) ← retain_payloads tracer_drop rescue_enabled
                           (if rescue_enabled then now_secs else 0) sampler payloads;
  Done (filter (fun tp => Pb.chunks tp <> []) payloads, sampler).

(** * Processing of traces *)

Definition S_TO_MS : Z := 1000.

Abbreviation Info := (TraceAggregator.SendDataBuilderInfo (SendDataBuilder Uri) GenericTags).

Definition chunk_processor (config : Config) (tags_provider : Provider) (header_tags : HeaderTags)
    (span_pointers : option (list SpanPointer)) : ChunkProcessor :=
  {| cp_config := config; cp_tags_provider := tags_provider; cp_span_pointers := span_pointers;
     cp_stats_computed_by :=
       resolve (lambda_extension_compute_stats config)
         (client_computed_stats (TraceAggregator.b_generic header_tags)) |}.
End Filters.

Section Processing.
Context `{Externals} {Sampler Uri : Type} `{TraceOps Sampler Uri}.

(** What is sent, the payloads that stats are computed from, and the sampler. *)
Definition process_traces (tracer_drop : bool) (sampler : Sampler) (now_secs : Z) (config : Config)
    (tags_provider : Provider) (header_tags : HeaderTags) (traces : list (list Span))
    (body_size : Z) (span_pointers : option (list SpanPointer)) :
    outcome (option (TraceAggregator.SendDataBuilderInfo (SendDataBuilder Uri) GenericTags)
             * TracerPayloadCollection * Sampler) :=
  let cp := chunk_processor config tags_provider header_tags span_pointers in
  let payload := default (V07 []) (collect_pb_trace_chunks traces header_tags (process cp)) in
  let payload :=
    match payload with
    | V07 collection =>
        V07 ((fun tp => with_tp_tags tp (get_function_tags_map tags_provider ∪ Pb.tp_tags tp))
               <$> collection)
    | OtherPayloads => OtherPayloads
    end in
  url ← unwrap (uri_from_str (cfg_apm_dd_url config));
  let endpoint := {| ep_url := url; ep_timeout_ms := (cfg_flush_timeout config *ᵤ S_TO_MS)%rust |} in
  let payloads_for_stats := match payload with V07 payloads => V07 payloads | OtherPayloads => V07 [] end in
  '(payload, sampler) ←
    match payload with
    | V07 payloads =>
        if decide (cp_stats_computed_by cp = Backend) then Done (Some payload, sampler)
        else
          '(payloads, sampler) ← drop_sampled_out_chunks tracer_drop sampler now_secs payloads;
          Done (match payloads with [] => None | _ => Some (V07 payloads) end, sampler)
    | OtherPayloads => Done (Some payload, sampler)
    end;
  match payload with
  | None => Done (None, payloads_for_stats, sampler)
  | Some payload =>
      let body_size := match payload with
                       | V07 payloads => foldr Z.add 0 (encoded_len <$> payloads)
                       | OtherPayloads => body_size
                       end in
      let builder :=
        {| sd_size := body_size; sd_payload := payload; sd_header_tags := header_tags;
           sd_endpoint := endpoint; sd_compression_level := apm_config_compression_level config |} in
      Done (Some {| TraceAggregator.builder := builder; TraceAggregator.size := body_size;
                    TraceAggregator.header_tags := TraceAggregator.owned_from header_tags |},
            payloads_for_stats, sampler)
  end.
End Processing.

(** * The pipeline: what [SendingTraceProcessor] sends to *)

Module Pipeline.
Section Pipeline.
Context `{Externals} {Sampler Uri : Type} `{TraceOps Sampler Uri}.

Record t := {
  (** the feature flag and the sampler of the processor *)
  tracer_drop : bool;
  error_sampler : Sampler;
  (** what the trace channel was sent, and whether the receiver is gone *)
  trace_tx : list (TraceAggregator.SendDataBuilderInfo (SendDataBuilder Uri) GenericTags);
  trace_rx_closed : bool;
  stats : StatsHandle.t;
}.

Definition with_sampler (self : t) (s : Sampler) : t :=
  {| tracer_drop := tracer_drop self; error_sampler := s; trace_tx := trace_tx self;
     trace_rx_closed := trace_rx_closed self; stats := stats self |}.
Definition with_stats (self : t) (h : StatsHandle.t) : t :=
  {| tracer_drop := tracer_drop self; error_sampler := error_sampler self; trace_tx := trace_tx self;
     trace_rx_closed := trace_rx_closed self; stats := h |}.

(** [trace_tx.send]: fails when the receiver is gone. *)
Definition send_trace (self : t)
    (payload : TraceAggregator.SendDataBuilderInfo (SendDataBuilder Uri) GenericTags) : t * bool :=
  if trace_rx_closed self then (self, false)
  else ({| tracer_drop := tracer_drop self; error_sampler := error_sampler self;
           trace_tx := trace_tx self ++ [payload]; trace_rx_closed := trace_rx_closed self;
           stats := stats self |}, true).

(** [StatsGenerator::send]; an error is only logged. *)
Definition generate_stats (self : t) (processed : TracerPayloadCollection) : t :=
  match processed with
  | V07 payloads => with_stats self (StatsGenerator.send (stats self) payloads).1
  | OtherPayloads => self
  end.

(** [send_processed_traces] without the App & API Protection processor; [false] is an
    error of the trace channel. *)
Definition send_processed_traces (self : t) (now_secs : Z) (config : Config) (tags_provider : Provider)
    (header_tags : HeaderTags) (traces : list (list Span)) (body_size : Z)
    (span_pointers : option (list SpanPointer)) : outcome (t * bool) :=
  match traces with
  | [] => Done (self, true)
  | _ =>
      '(payload, processed, sampler) ←
        process_traces (tracer_drop self) (error_sampler self) now_secs config tags_provider
          header_tags traces body_size span_pointers;
      let self := with_sampler self sampler in
      let self :=
        if decide (resolve (lambda_extension_compute_stats config)
                     (client_computed_stats (TraceAggregator.b_generic header_tags)) = Extension)
        then generate_stats self processed else self in
      Done match payload with
           | Some payload => send_trace self payload
           | None => (self, true)
           end
  end.
End Pipeline.
End Pipeline.

(** * What the stats concentrator is sent *)

Definition metadata_of (trace : Pb.TracerPayload) : TracerMetadata :=
  {| language := Pb.language_name trace; md_tracer_version := Pb.tracer_version trace;
     md_runtime_id := Pb.runtime_id trace; md_container_id := Pb.container_id trace |}.

Definition payload_spans (payloads : list Pb.TracerPayload) : list Span :=
  tp ← payloads; StatsGenerator.chunk_spans tp.

(** The metadata of the first payload, once, then every span. *)
Definition stats_commands (set : bool) (payloads : list Pb.TracerPayload) : list ConcentratorCommand :=
  (if set then [] else SetTracerMetadata <$> (metadata_of <$> option_list (head payloads)))
  ++ (Add <$> payload_spans payloads).

Lemma send_spans_open spans : forall h,
  StatsHandle.closed h = false ->
  StatsGenerator.send_spans h spans =
    ({| StatsHandle.sent := StatsHandle.sent h ++ (Add <$> spans); StatsHandle.closed := false;
        StatsHandle.is_tracer_metadata_set := StatsHandle.is_tracer_metadata_set h |}, true).
Proof.
  induction spans as [|s spans IH]; intros [sent closed set] Hc; cbn in *; subst.
  - by rewrite app_nil_r.
  - unfold StatsHandle.add, StatsHandle.send. cbn. rewrite IH by done. cbn. by rewrite <- app_assoc.
Qed.

Lemma generator_sends payloads : forall h,
  StatsHandle.closed h = false ->
  StatsGenerator.send h payloads =
    ({| StatsHandle.sent := StatsHandle.sent h ++
          stats_commands (StatsHandle.is_tracer_metadata_set h) payloads;
        StatsHandle.closed := false;
        StatsHandle.is_tracer_metadata_set :=
          StatsHandle.is_tracer_metadata_set h || negb (bool_decide (payloads = [])) |}, true).
Proof.
  induction payloads as [|tp payloads IH]; intros [sent closed set] Hc; cbn in *; subst.
  { unfold stats_commands. cbn. by destruct set; rewrite app_nil_r. }
  unfold StatsHandle.set_tracer_metadata, StatsHandle.send. cbn.
  destruct set; cbn; rewrite send_spans_open by done; cbn; rewrite IH by done;
    unfold stats_commands, payload_spans; cbn; by rewrite fmap_app, <- !app_assoc.
Qed.

(** Nothing is sent once the service is gone. *)
Lemma send_spans_closed spans h : StatsHandle.closed h = true -> (StatsGenerator.send_spans h spans).1 = h.
Proof. intros Hc. destruct spans; cbn; [done|]. unfold StatsHandle.add, StatsHandle.send. by rewrite Hc. Qed.

Lemma generator_closed payloads : forall h,
  StatsHandle.closed h = true ->
  StatsHandle.sent (StatsGenerator.send h payloads).1 = StatsHandle.sent h.
Proof.
  induction payloads as [|tp payloads IH]; intros h Hc; [done|]. cbn.
  unfold StatsHandle.set_tracer_metadata, StatsHandle.send. cbn.
  destruct (StatsHandle.is_tracer_metadata_set h); [|by rewrite Hc].
  pose proof (send_spans_closed (StatsGenerator.chunk_spans tp) h Hc) as Hs.
  destruct (StatsGenerator.send_spans h _) as [h' []]; cbn in Hs; subst h'; [by apply IH|done].
Qed.

(** * Sampling keeps exactly the chunks it should *)

Definition explicitly_kept (chunk : Pb.TraceChunk) : bool :=
  (0 <? Pb.priority chunk) || (Pb.priority chunk =? PRIORITY_NONE).

Definition errored (chunk : Pb.TraceChunk) : bool :=
  existsb (fun s => negb (error s =? 0)) (Pb.spans chunk).

Section Sampling.
Context {Sampler Uri : Type} `{TraceOps Sampler Uri}.

(** An enabled sampler in the mode [AlwaysKeep] keeps every trace, and stays enabled. *)
Hypothesis always_keeps : forall s now trace, is_disabled s = false ->
  exists sr s', sample s now trace = (Keep sr, s') /\ is_disabled s' = false.
(** The index of the root is that of a span. *)
Hypothesis root_in_range : forall spans i, get_root_span_index spans = Some i -> (i < length spans)%nat.

Variable tracer_drop : bool.

(** A sampled-out chunk that may be rescued. *)
Definition rescuable (chunk : Pb.TraceChunk) : bool :=
  negb ((Pb.priority chunk <? 0) && (negb tracer_drop || is_manual_tracer_drop chunk))
  && errored chunk && bool_decide (is_Some (get_root_span_index (Pb.spans chunk))).

Definition to_keep (rescue_enabled : bool) (chunk : Pb.TraceChunk) : bool :=
  explicitly_kept chunk || (rescue_enabled && rescuable chunk).

(** The chunk as it is sent: a rescued one has the rate on its root. *)
Definition sent_as (sent chunk : Pb.TraceChunk) : Prop :=
  if explicitly_kept chunk then sent = chunk
  else exists i sr, get_root_span_index (Pb.spans chunk) = Some i /\
    sent = with_spans chunk (update_at (put_errors_sr sr) i (Pb.spans chunk)).

Lemma retain_chunk_spec en env now s chunk :
  (en = true -> is_disabled s = false) ->
  exists chunk' s', retain_chunk tracer_drop en env now s chunk = Done (to_keep en chunk, chunk', s') /\
    (to_keep en chunk = true -> sent_as chunk' chunk) /\ (en = true -> is_disabled s' = false).
Proof using always_keeps root_in_range.
  intros Hen. unfold retain_chunk, to_keep, sent_as, rescuable. fold (explicitly_kept chunk).
  destruct (explicitly_kept chunk) eqn:He; cbn [orb]; [by eauto|].
  destruct (_ && (_ || _)); cbn [negb andb].
  { exists chunk, s. rewrite andb_false_r. by split. }
  destruct en; cbn [negb andb]; [|by exists chunk, s].
  unfold rescue_error_chunk. fold (errored chunk).
  destruct (errored chunk); cbn [negb andb]; [|by exists chunk, s].
  destruct (get_root_span_index (Pb.spans chunk)) as [i|] eqn:Hi; [|by exists chunk, s].
  destruct (lookup_lt_is_Some_2 _ _ (root_in_range _ _ Hi)) as [root Hr].
  unfold vec_index. rewrite Hr. cbn.
  match goal with |- context [sample s now ?t] => 
    destruct (always_keeps s now t (Hen eq_refl)) as (sr & s' & -> & Hs') end.
  eexists _, _. split; [done|]. eauto.
Qed.

Lemma retain_chunks_spec en env now chunks : forall s,
  (en = true -> is_disabled s = false) ->
  exists kept s', retain_chunks tracer_drop en env now s chunks = Done (kept, s') /\
    Forall2 sent_as kept (filter (fun c => to_keep en c) chunks) /\
    (en = true -> is_disabled s' = false).
Proof using always_keeps root_in_range.
  induction chunks as [|c chunks IH]; intros s Hen; cbn [retain_chunks].
  { exists [], s. split; [done|]. by split; [constructor|]. }
  rewrite filter_cons.
  destruct (retain_chunk_spec en env now s c Hen) as (c' & s1 & -> & Hc & Hen1). cbn -[filter].
  destruct (IH s1 Hen1) as (kept & s2 & -> & Hk & Hen2). cbn -[filter].
  destruct (to_keep en c); eexists _, _; (split; [done|]); [|done].
  rewrite decide_True by done. split; [constructor; auto|done].
Qed.

Definition all_chunks (payloads : list Pb.TracerPayload) : list Pb.TraceChunk :=
  tp ← payloads; Pb.chunks tp.

Lemma retain_payloads_spec en now payloads : forall s,
  (en = true -> is_disabled s = false) ->
  exists kept s', retain_payloads tracer_drop en now s payloads = Done (kept, s') /\
    Forall2 sent_as (all_chunks kept) (filter (fun c => to_keep en c) (all_chunks payloads)).
Proof using always_keeps root_in_range.
  induction payloads as [|tp payloads IH]; intros s Hen; cbn [retain_payloads].
  { eexists _, _. split; [done|]. constructor. }
  destruct (retain_chunks_spec en (Pb.env tp) now (Pb.chunks tp) s Hen)
    as (chunks & s1 & -> & Hc & Hen1). cbn.
  destruct (IH s1 Hen1) as (kept & s2 & -> & Hk). cbn. eexists _, _. split; [done|].
  unfold all_chunks in *. cbn. rewrite filter_app. by apply Forall2_app.
Qed.

Lemma all_chunks_filter payloads :
  all_chunks (filter (fun tp => Pb.chunks tp <> []) payloads) = all_chunks payloads.
Proof.
  induction payloads as [|tp payloads IH]; [done|]. rewrite filter_cons. unfold all_chunks in *.
  destruct (decide (Pb.chunks tp <> [])) as [_|Hn]; cbn; rewrite IH; [done|].
  by destruct (Pb.chunks tp); [|destruct Hn].
Qed.

Lemma drop_sampled_out_spec s now payloads :
  exists kept s', drop_sampled_out_chunks tracer_drop s now payloads = Done (kept, s') /\
    Forall (fun tp => Pb.chunks tp <> []) kept /\
    Forall2 sent_as (all_chunks kept)
      (filter (fun c => to_keep (negb (is_disabled s)) c) (all_chunks payloads)).
Proof using always_keeps root_in_range.
  unfold drop_sampled_out_chunks.
  destruct (retain_payloads_spec (negb (is_disabled s)) (if negb (is_disabled s) then now else 0)
              payloads s (proj1 (negb_true_iff _))) as (kept & s' & -> & Hk).
  cbn. eexists _, _. split; [done|]. split; [|by rewrite all_chunks_filter].
  apply Forall_forall. by intros tp [? _]%list_elem_of_filter.
Qed.

(** C15: Dropping the sampled-out chunks returns, and keeps exactly the chunks the
    tracer decided to keep or left undecided, unchanged, and, when the error sampler
    is enabled, the errored chunks with a root that were sampled out other than by a
    decision of the tracer that must be honored, marked on their root; in order, with
    no empty payload left. *)
Theorem sampling_keeps_exactly s now payloads :
  exists kept s', drop_sampled_out_chunks tracer_drop s now payloads = Done (kept, s') /\
    Forall (fun tp => Pb.chunks tp <> []) kept /\
    Forall2 sent_as (all_chunks kept)
      (filter (fun c => to_keep (negb (is_disabled s)) c) (all_chunks payloads)).
Proof using always_keeps root_in_range. apply drop_sampled_out_spec. Qed.
End Sampling.

(** * One party computes the stats *)
Lemma lookup_attach_ne {Sampler Uri} `{TraceOps Sampler Uri} m pointers k :
  k <> "_dd.span_links"%string -> attach_span_pointers_to_meta m pointers !! k = m !! k.
Proof.
  intros Hk. unfold attach_span_pointers_to_meta.
  repeat case_match; try done; by rewrite lookup_insert_ne.
Qed.

Lemma Forall_update_at {A} (P : A -> Prop) f i l :
  Forall P l -> (forall x, P x -> P (f x)) -> Forall P (update_at f i l).
Proof.
  intros Hl Hf. unfold update_at. destruct (l !! i) as [x|] eqn:Hx; [|done].
  apply Forall_insert; [done|]. by apply Hf, (Forall_lookup_1 _ _ _ _ Hl Hx).
Qed.

Section OneParty.
Context `{Externals} {Sampler Uri : Type} `{TraceOps Sampler Uri}.

Hypothesis always_keeps : forall s now trace, is_disabled s = false ->
  exists sr s', sample s now trace = (Keep sr, s') /\ is_disabled s' = false.
Hypothesis root_in_range : forall spans i, get_root_span_index spans = Some i -> (i < length spans)%nat.
(** The obfuscator does not touch the directive. *)
Hypothesis obfuscation_keeps : forall s,
  meta (obfuscate_pb_span s) !! COMPUTE_STATS_KEY = meta s !! COMPUTE_STATS_KEY.
(** Traces are collected in the form [V07]; each chunk is processed, after a
    normalization that does not touch the directive. *)
Hypothesis collects : forall traces tags f p, collect_pb_trace_chunks traces tags f = Some p ->
  exists payloads, p = V07 payloads /\
    Forall (fun chunk => exists c i, chunk = f c i /\
      Forall (fun s => exists s0, s0 ∈ mjoin traces /\
        meta s !! COMPUTE_STATS_KEY = meta s0 !! COMPUTE_STATS_KEY) (Pb.spans c))
      (all_chunks payloads).

(** What a span that is sent says of who computes the stats: the directive when the backend
    does; otherwise what it came in with, or the tag of the function of that name. *)
Definition directed (party : StatsComputedBy) (tags : gmap string string) (incoming : list Span) (s : Span) : Prop :=
  if decide (party = Backend) then meta s !! COMPUTE_STATS_KEY = Some "1"%string
  else exists s0, s0 ∈ incoming /\
    meta s !! COMPUTE_STATS_KEY = tags !! COMPUTE_STATS_KEY ∪ meta s0 !! COMPUTE_STATS_KEY.

Lemma directed_meta party tags incoming s s' :
  meta s' !! COMPUTE_STATS_KEY = meta s !! COMPUTE_STATS_KEY ->
  directed party tags incoming s -> directed party tags incoming s'.
Proof. unfold directed. by intros ->. Qed.

Lemma enriched_directive cp incoming s s0 :
  s0 ∈ incoming -> meta s !! COMPUTE_STATS_KEY = meta s0 !! COMPUTE_STATS_KEY ->
  directed (cp_stats_computed_by cp) (tags_map (cp_tags_provider cp)) incoming (enrich_span cp s).
Proof using obfuscation_keeps.
  intros Hin Hs. unfold directed, enrich_span. rewrite obfuscation_keeps.
  unfold put_span_meta, with_meta; cbn [meta].
  rewrite !(lookup_insert_ne _ _ COMPUTE_STATS_KEY) by done.
  destruct (decide (cp_stats_computed_by cp = Backend)); [apply lookup_insert_eq|].
  exists s0. split; [done|]. cbn [meta]. rewrite lookup_union, <- Hs. f_equal.
  set (s1 := if bool_decide (service s = _) then _ else _).
  assert (Hm : meta s1 = meta s) by (subst s1; by repeat case_match).
  destruct (_ && _); cbn; [rewrite lookup_insert_ne by done|]; by rewrite Hm.
Qed.

Lemma processed_directive cp incoming c i :
  Forall (fun s => exists s0, s0 ∈ incoming /\
    meta s !! COMPUTE_STATS_KEY = meta s0 !! COMPUTE_STATS_KEY) (Pb.spans c) ->
  Forall (directed (cp_stats_computed_by cp) (tags_map (cp_tags_provider cp)) incoming) (Pb.spans (process cp c i)).
Proof using obfuscation_keeps.
  intros Hc. unfold process.
  assert (Hp : Pb.spans (promote_decision_maker c) = Pb.spans c)
    by (unfold promote_decision_maker; by repeat case_match).
  rewrite Hp. destruct (match _ !! i with Some _ => _ | None => _ end); cbn; [constructor|].
  apply Forall_update_at.
  - apply Forall_fmap, Forall_forall. intros s [_ Hin]%list_elem_of_filter. cbn.
    apply (proj1 (Forall_forall _ _) Hc) in Hin as (s0 & Hin & Hs). by eapply enriched_directive.
  - intros s Hs. eapply directed_meta; [|exact Hs]. unfold with_meta; cbn. by rewrite lookup_attach_ne.
Qed.

(** A directive that comes in is not taken off: the backend computes the stats of such a span
    whichever party is to. *)
Lemma incoming_directive_kept cp s v :
  cp_stats_computed_by cp <> Backend -> tags_map (cp_tags_provider cp) !! COMPUTE_STATS_KEY = None ->
  meta s !! COMPUTE_STATS_KEY = Some v -> meta (enrich_span cp s) !! COMPUTE_STATS_KEY = Some v.
Proof using obfuscation_keeps.
  intros Hp Ht Hs. pose proof (enriched_directive cp [s] s s (proj2 (list_elem_of_singleton s s) eq_refl) eq_refl) as Hd.
  unfold directed in Hd. rewrite decide_False in Hd by done. destruct Hd as (s0 & ->%list_elem_of_singleton & ->).
  by rewrite Ht, Hs.
Qed.

(** The payloads that a request is collected into. *)
Definition collected_payloads (config : Config) (provider : Provider) (tags : HeaderTags)
    (traces : list (list Span)) (pointers : option (list SpanPointer)) : list Pb.TracerPayload :=
  match default (V07 []) (collect_pb_trace_chunks traces tags
                            (process (chunk_processor config provider tags pointers))) with
  | V07 payloads =>
      (fun tp => with_tp_tags tp (get_function_tags_map provider ∪ Pb.tp_tags tp)) <$> payloads
  | OtherPayloads => []
  end.

Lemma all_chunks_tagged f payloads :
  all_chunks ((fun tp => with_tp_tags tp (f tp)) <$> payloads) = all_chunks payloads.
Proof. unfold all_chunks. induction payloads as [|tp ps IH]; cbn in *; [done|]. by rewrite IH. Qed.

Lemma payload_spans_chunks payloads : payload_spans payloads = chunk ← all_chunks payloads; Pb.spans chunk.
Proof.
  unfold payload_spans, all_chunks, StatsGenerator.chunk_spans.
  induction payloads as [|tp ps IH]; cbn in *; [done|]. by rewrite IH, bind_app.
Qed.

Definition chunk_directed (party : StatsComputedBy) (tags : gmap string string) (incoming : list Span)
    (chunk : Pb.TraceChunk) : Prop :=
  Forall (directed party tags incoming) (Pb.spans chunk).

Lemma spans_directed party tags incoming payloads :
  Forall (chunk_directed party tags incoming) (all_chunks payloads) ->
  Forall (directed party tags incoming) (payload_spans payloads).
Proof.
  rewrite payload_spans_chunks. induction 1; cbn; [constructor|]. by apply Forall_app.
Qed.

Lemma sent_as_directed party tags incoming sent chunk :
  sent_as sent chunk -> chunk_directed party tags incoming chunk -> chunk_directed party tags incoming sent.
Proof.
  unfold sent_as. destruct (explicitly_kept chunk); [by intros ->|].
  intros (i & sr & _ & ->) Hc. cbn. apply Forall_update_at; [done|]. intros s. by apply directed_meta.
Qed.

Lemma collected_directed (config : Config) provider tags (traces : list (list Span)) pointers :
  let party := resolve (lambda_extension_compute_stats config)
                 (client_computed_stats (TraceAggregator.b_generic tags)) in
  Forall (chunk_directed party (tags_map provider) (mjoin traces))
    (all_chunks (collected_payloads config provider tags traces pointers)).
Proof using collects obfuscation_keeps.
  intros party. unfold collected_payloads.
  destruct (collect_pb_trace_chunks _ _ _) as [p|] eqn:Hc; [|constructor].
  destruct (collects _ _ _ _ Hc) as (payloads & -> & Hall). cbn. rewrite all_chunks_tagged.
  eapply Forall_impl; [exact Hall|]. intros chunk (c & i & -> & Hsp).
  by apply (processed_directive (chunk_processor config provider tags pointers)).
Qed.

(** What [process_traces] returns. *)
Lemma process_traces_spec drop sampler now (config : Config) provider tags (traces : list (list Span))
    size pointers sent stats s' :
  let party := resolve (lambda_extension_compute_stats config)
                 (client_computed_stats (TraceAggregator.b_generic tags)) in
  process_traces drop sampler now config provider tags traces size pointers = Done (sent, stats, s') ->
  stats = V07 (collected_payloads config provider tags traces pointers) /\
  (forall info, sent = Some info -> exists payloads,
     sd_payload (TraceAggregator.builder info) = V07 payloads /\
     Forall (directed party (tags_map provider) (mjoin traces)) (payload_spans payloads)).
Proof using always_keeps root_in_range collects obfuscation_keeps.
  intros party. pose proof (collected_directed config provider tags traces pointers) as Hdir.
  fold party in Hdir. unfold process_traces.
  assert (Hv : exists payloads, default (V07 []) (collect_pb_trace_chunks traces tags
      (process (chunk_processor config provider tags pointers))) = V07 payloads).
  { destruct (collect_pb_trace_chunks _ _ _) as [p|] eqn:Hc; [|by exists []].
    destruct (collects _ _ _ _ Hc) as (ps & -> & _). by exists ps. }
  unfold collected_payloads in *. destruct Hv as [ps Hv]. rewrite Hv in Hdir |- *. cbv zeta iota.
  set (qs := _ <$> ps) in *. destruct (uri_from_str _) as [url|]; [|done]. cbn [unwrap].
  cbn -[drop_sampled_out_chunks decide]. fold party.
  destruct (decide (party = Backend)).
  - cbn. intros [= <- <- <-]. split; [done|]. intros info [= <-]. exists qs. split; [done|].
    by apply spans_directed.
  - destruct (drop_sampled_out_spec always_keeps root_in_range drop sampler now qs)
      as (kept & s1 & -> & _ & Hk). cbn.
    destruct kept as [|tp kept]; cbn; intros [= <- <- <-]; (split; [done|]); [done|].
    intros info [= <-]. eexists. split; [done|]. apply spans_directed.
    apply Forall_forall. intros c Hc. apply list_elem_of_lookup in Hc as [i Hi].
    destruct (Forall2_lookup_l _ _ _ _ _ Hk Hi) as (c0 & Hc0 & Hsent).
    eapply sent_as_directed; [exact Hsent|].
    apply (proj1 (Forall_forall _ _) Hdir). apply list_elem_of_lookup_2 in Hc0.
    by apply list_elem_of_filter in Hc0 as [_ ?].
Qed.

(** C14: one party is told to compute the stats of a request. When the backend is to, every
    span sent carries the directive and the concentrator of the extension is sent nothing; when
    the extension or the tracer is to, the extension puts the directive on no span: one that
    carries it came in with it, or the function has a tag of that name; and only when the
    extension is to, its concentrator is sent every span of the request once, those of the
    chunks that are sampled out included, unless the concentrator is gone. *)
Theorem stats_computed_by_one_party self now (config : Config) provider tags
    (traces : list (list Span)) size pointers self' ok :
  let party := resolve (lambda_extension_compute_stats config)
                 (client_computed_stats (TraceAggregator.b_generic tags)) in
  traces <> [] ->
  Pipeline.send_processed_traces self now config provider tags traces size pointers = Done (self', ok) ->
  StatsHandle.sent (Pipeline.stats self') = StatsHandle.sent (Pipeline.stats self) ++
    (if decide (party = Extension /\ StatsHandle.closed (Pipeline.stats self) = false)
     then stats_commands (StatsHandle.is_tracer_metadata_set (Pipeline.stats self))
            (collected_payloads config provider tags traces pointers)
     else []) /\
  exists new, Pipeline.trace_tx self' = Pipeline.trace_tx self ++ new /\
    Forall (fun info => exists payloads, sd_payload (TraceAggregator.builder info) = V07 payloads /\
      Forall (directed party (tags_map provider) (mjoin traces)) (payload_spans payloads)) new.
Proof using always_keeps root_in_range collects obfuscation_keeps.
  intros party Htr. unfold Pipeline.send_processed_traces.
  destruct traces as [|tr traces]; [done|]. fold party.
  destruct (process_traces _ _ _ _ _ _ _ _ _) as [[[sent stats] s']|] eqn:Hp; [|done].
  destruct (process_traces_spec _ _ _ _ _ _ _ _ _ _ _ _ Hp) as [-> Hsent]. fold party in Hsent.
  cbn -[decide StatsGenerator.send].
  set (self1 := if decide (party = Extension) then _ else _).
  assert (H1 : StatsHandle.sent (Pipeline.stats self1) = StatsHandle.sent (Pipeline.stats self) ++
      (if decide (party = Extension /\ StatsHandle.closed (Pipeline.stats self) = false)
       then stats_commands (StatsHandle.is_tracer_metadata_set (Pipeline.stats self))
              (collected_payloads config provider tags (tr :: traces) pointers) else []) /\
    Pipeline.trace_tx self1 = Pipeline.trace_tx self).
  { subst self1. destruct (decide (party = Extension)); cbn -[StatsGenerator.send decide].
    - destruct (StatsHandle.closed (Pipeline.stats self)) eqn:Hc.
      + rewrite decide_False by naive_solver. rewrite generator_closed by done. by rewrite app_nil_r.
      + rewrite decide_True by done. rewrite generator_sends by done. by split.
    - rewrite decide_False by naive_solver. by rewrite app_nil_r. }
  destruct H1 as [Hst Htx]. clearbody self1. rewrite <- Hst, <- Htx.
  destruct sent as [info|]; [|intros [= <- <-]; split; [done|]; exists []; by rewrite app_nil_r].
  unfold Pipeline.send_trace. destruct (Pipeline.trace_rx_closed self1); intros [= <- <-].
  - split; [done|]. exists []. by rewrite app_nil_r.
  - split; [done|]. exists [info]. split; [done|]. repeat constructor. by apply Hsent.
Qed.

(** The pointers of an invocation are attached by the position the root span had
    before the spans of the library and the runtime are taken out. When one of those
    precedes the root of a trace of two spans, the root is sent without its pointers. *)
Theorem span_pointers_miss_root cp chunk noise root :
  Pb.spans chunk = [noise; root] ->
  filter_span_from_lambda_library_or_runtime noise = true ->
  filter_span_from_lambda_library_or_runtime root = false ->
  filter_span_by_tags root (cp_config cp) = false ->
  Pb.spans (process cp chunk 1) = [enrich_span cp root].
Proof.
  intros Hs Hn Hr Ht. unfold process.
  assert (Hp : Pb.spans (promote_decision_maker chunk) = Pb.spans chunk)
    by (unfold promote_decision_maker; by repeat case_match).
  rewrite Hp, Hs. cbn [lookup list_lookup]. rewrite Ht. cbn -[filter].
  rewrite !filter_cons, filter_nil, Hn, Hr. cbn. done.
Qed.
End OneParty.

(** * What the trace channel is sent *)

Section Sending.
Context `{Externals} {Sampler Uri : Type} `{TraceOps Sampler Uri}.

Hypothesis always_keeps : forall s now trace, is_disabled s = false ->
  exists sr s', sample s now trace = (Keep sr, s') /\ is_disabled s' = false.
Hypothesis root_in_range : forall spans i, get_root_span_index spans = Some i -> (i < length spans)%nat.
Hypothesis collects_v07 : forall traces tags f p, collect_pb_trace_chunks traces tags f = Some p ->
  exists payloads, p = V07 payloads.

(** The chunks of what is sent. *)
Definition info_chunks (infos : list (TraceAggregator.SendDataBuilderInfo (SendDataBuilder Uri) GenericTags)) :
    list Pb.TraceChunk :=
  info ← infos;
  match sd_payload (TraceAggregator.builder info) with V07 payloads => all_chunks payloads | OtherPayloads => [] end.

(** What the chunks that are sent are, given those that were collected. *)
Definition sent_of (party : StatsComputedBy) (tracer_drop rescue_enabled : bool)
    (sent collected : list Pb.TraceChunk) : Prop :=
  if decide (party = Backend) then sent = collected
  else Forall2 sent_as sent (filter (fun c => to_keep tracer_drop rescue_enabled c) collected).

Lemma process_traces_sends drop sampler now (config : Config) provider tags (traces : list (list Span)) size
    pointers url :
  let party := resolve (lambda_extension_compute_stats config)
                 (client_computed_stats (TraceAggregator.b_generic tags)) in
  uri_from_str (cfg_apm_dd_url config) = Some url ->
  exists sent stats s', process_traces drop sampler now config provider tags traces size pointers = Done (sent, stats, s') /\
    sent_of party drop (negb (is_disabled sampler)) (info_chunks (option_list sent))
      (all_chunks (collected_payloads config provider tags traces pointers)).
Proof using always_keeps root_in_range collects_v07.
  intros party Hu. unfold process_traces, collected_payloads. rewrite Hu. cbn [unwrap].
  assert (Hv : exists payloads, default (V07 []) (collect_pb_trace_chunks traces tags
      (process (chunk_processor config provider tags pointers))) = V07 payloads).
  { destruct (collect_pb_trace_chunks _ _ _) as [p|] eqn:Hc; [|by exists []].
    destruct (collects_v07 _ _ _ _ Hc) as [ps ->]. by exists ps. }
  destruct Hv as [ps ->]. cbv zeta iota. set (qs := _ <$> ps).
  cbn -[drop_sampled_out_chunks decide]. fold party. unfold sent_of.
  destruct (decide (party = Backend)).
  - cbn. eexists _, _, _. split; [done|]. cbn. by rewrite app_nil_r.
  - destruct (drop_sampled_out_spec always_keeps root_in_range drop sampler now qs) as (kept & s1 & -> & _ & Hk). cbn.
    destruct kept as [|tp kept]; cbn; eexists _, _, _; (split; [done|]); [exact Hk|].
    cbn. by rewrite app_nil_r.
Qed.

(** A request is sent as at most one payload while the receiver is there. *)
Lemma pipeline_sends self now (config : Config) provider tags (traces : list (list Span)) size pointers url :
  let party := resolve (lambda_extension_compute_stats config)
                 (client_computed_stats (TraceAggregator.b_generic tags)) in
  uri_from_str (cfg_apm_dd_url config) = Some url -> Pipeline.trace_rx_closed self = false ->
  exists self' sent,
    Pipeline.send_processed_traces self now config provider tags traces size pointers = Done (self', true) /\
    Pipeline.trace_tx self' = Pipeline.trace_tx self ++ sent /\ (length sent <= 1)%nat /\
    sent_of party (Pipeline.tracer_drop self) (negb (is_disabled (Pipeline.error_sampler self))) (info_chunks sent)
      (if decide (traces = []) then [] else all_chunks (collected_payloads config provider tags traces pointers)).
Proof using always_keeps root_in_range collects_v07.
  intros party Hu Hopen. unfold Pipeline.send_processed_traces. destruct traces as [|tr traces].
  { exists self, []. split_and!; [done|by rewrite app_nil_r|cbn; lia|]. cbn. unfold sent_of. by case_decide. }
  destruct (process_traces_sends (Pipeline.tracer_drop self) (Pipeline.error_sampler self) now config provider
    tags (tr :: traces) size pointers url Hu) as (sent & stats & s' & -> & Hs). fold party in Hs |- *.
  cbn -[decide StatsGenerator.send]. set (self1 := if decide (party = Extension) then _ else _).
  assert (Pipeline.trace_tx self1 = Pipeline.trace_tx self /\ Pipeline.trace_rx_closed self1 = false) as [Htx Hrx].
  { subst self1. destruct (decide (party = Extension)); [|by split]. unfold Pipeline.generate_stats. by destruct stats. }
  clearbody self1. exists (match sent with Some info => (Pipeline.send_trace self1 info).1 | None => self1 end),
    (option_list sent). rewrite <- Htx.
  destruct sent as [info|]; cbn in Hs |- *; [unfold Pipeline.send_trace; rewrite Hrx|]; split_and!; try done; try lia.
  by rewrite app_nil_r.
Qed.
End Sending.

(** * A collector of one payload *)

Module TraceSample.

Definition chunk_of (trace : list Span) : Pb.TraceChunk :=
  {| Pb.priority := 0; Pb.origin := EmptyString; Pb.spans := trace; Pb.tags := ∅;
     Pb.dropped_trace := false |}.

Definition payload_of (chunks : list Pb.TraceChunk) : Pb.TracerPayload :=
  {| Pb.container_id := EmptyString; Pb.language_name := "go"%string; Pb.language_version := EmptyString;
     Pb.tracer_version := EmptyString; Pb.runtime_id := EmptyString; Pb.chunks := chunks;
     Pb.tp_tags := ∅; Pb.env := EmptyString; Pb.tp_hostname := EmptyString;
     Pb.app_version := EmptyString |}.

(** The sampler is whether it is enabled. *)
#[export] Instance ops : TraceOps bool string :=
  {| regex := fun _ => None; obfuscate_pb_span := fun s => s;
     get_root_span_index := fun spans => match spans with [] => None | _ => Some 0%nat end;
     collect_pb_trace_chunks := fun traces _ f =>
       Some (V07 [payload_of ((fun trace => f (chunk_of trace) 0%nat) <$> traces)]);
     encoded_len := fun _ => 1; uri_from_str := Some; sampler_new := id; is_disabled := negb;
     sample := fun s _ _ => (Keep f64_one, s);
     links_from_str := fun _ => None; links_to_string := fun _ => None |}.

Lemma keeps s now trace : is_disabled s = false ->
  exists sr s', sample s now trace = (Keep sr, s') /\ is_disabled s' = false.
Proof. cbn. eauto. Qed.

Lemma in_range spans i : get_root_span_index spans = Some i -> (i < length spans)%nat.
Proof. destruct spans; cbn; intros [= <-]. lia. Qed.

Lemma collects traces tags f p : collect_pb_trace_chunks traces tags f = Some p ->
  exists payloads, p = V07 payloads /\
    Forall (fun chunk => exists c i, chunk = f c i /\
      Forall (fun s => exists s0, s0 ∈ mjoin traces /\
        meta s !! COMPUTE_STATS_KEY = meta s0 !! COMPUTE_STATS_KEY) (Pb.spans c))
      (all_chunks payloads).
Proof.
  cbn. intros [= <-]. eexists. split; [done|]. unfold all_chunks. cbn. rewrite app_nil_r.
  apply Forall_fmap, Forall_forall. intros trace Hin. cbn. eexists _, _. split; [done|]. cbn.
  apply Forall_forall. intros s Hs. exists s. split; [|done]. apply list_elem_of_join. eauto.
Qed.

(** A request whose trace is sampled out. *)
Definition traces : list (list Span) := [[Span_default]].

Definition tags : HeaderTags :=
  {| TraceAggregator.b_lang := "go"; TraceAggregator.b_lang_version := "";
     TraceAggregator.b_lang_interpreter := ""; TraceAggregator.b_lang_vendor := "";
     TraceAggregator.b_tracer_version := ""; TraceAggregator.b_container_id := "";
     TraceAggregator.b_generic := {| client_computed_stats := false;
                                     client_computed_top_level := false |} |}%string.

Definition provider : Provider := {| tags_map := {[ "service"%string := "svc"%string ]} |}.

Definition stats_config : Config :=
  Sample.config_with (Configuration.resolve [Source.switches (Some true) None]).

Definition pipeline : @Pipeline.t bool string :=
  {| Pipeline.tracer_drop := false; Pipeline.error_sampler := true; Pipeline.trace_tx := [];
     Pipeline.trace_rx_closed := false; Pipeline.stats := StatsHandle.new |}.

(** A call of the runtime, and the root after it. *)
Definition noise : Span :=
  with_meta Span_default {[ "http.url"%string := "http://127.0.0.1:9001/next"%string ]}.
End TraceSample.

Section TraceWitnesses.
#[local] Existing Instances Sample.externals TraceSample.ops.

Lemma sampling_keeps_exactly_witness :
  exists kept s', drop_sampled_out_chunks false true 0
      [TraceSample.payload_of [TraceSample.chunk_of [with_error Span_default 1];
                               TraceSample.chunk_of [Span_default]]] = Done (kept, s') /\
    length (all_chunks kept) = 1%nat.
Proof.
  destruct (sampling_keeps_exactly TraceSample.keeps TraceSample.in_range false true 0
    [TraceSample.payload_of [TraceSample.chunk_of [with_error Span_default 1];
                             TraceSample.chunk_of [Span_default]]]) as (kept & s' & Hd & _ & Hk).
  exists kept, s'. split; [done|]. apply Forall2_length in Hk. rewrite Hk. vm_compute. reflexivity.
Defined.

Lemma stats_computed_by_one_party_witness :
  exists self' ok,
    Pipeline.send_processed_traces TraceSample.pipeline 0 TraceSample.stats_config
      TraceSample.provider TraceSample.tags TraceSample.traces 1 None = Done (self', ok) /\
    Pipeline.trace_tx self' = [] /\
    length (StatsHandle.sent (Pipeline.stats self')) = 2%nat.
Proof.
  destruct (Pipeline.send_processed_traces TraceSample.pipeline 0 TraceSample.stats_config
      TraceSample.provider TraceSample.tags TraceSample.traces 1 None) as [[self' ok]|] eqn:Hs;
    [|vm_compute in Hs; discriminate].
  destruct (stats_computed_by_one_party TraceSample.keeps TraceSample.in_range ltac:(reflexivity)
      TraceSample.collects TraceSample.pipeline 0 TraceSample.stats_config TraceSample.provider
      TraceSample.tags TraceSample.traces 1 None self' ok) as [Hst _]; try done.
  exists self', ok. split; [done|]. split.
  - vm_compute in Hs. by injection Hs as <- <-.
  - rewrite Hst. vm_compute. reflexivity.
Defined.

Lemma span_pointers_miss_root_witness :
  let cp := chunk_processor Sample.config TraceSample.provider TraceSample.tags
              (Some [{| ptr_hash := "h"; ptr_kind := "k" |}]) in
  Pb.spans (process cp (TraceSample.chunk_of [TraceSample.noise; Span_default]) 1) =
  [enrich_span cp Span_default].
Proof.
  apply (span_pointers_miss_root _ _ TraceSample.noise Span_default); vm_compute; reflexivity.
Defined.
End TraceWitnesses.
