(* ===== verification/AppSec.v ===== *)
(** App & API Protection: [appsec/mod.rs], [appsec/processor/mod.rs], [context.rs],
    [response.rs] and [apisec.rs], and the part of [SendingTraceProcessor] that holds
    traces.

    The web application firewall and the crates that parse bodies, content types and
    cookies are [WafOps]; the clock is an argument. What traces are handed to is an
    interface ([TraceSender]), so that the properties do not depend on it. *)
From S2P Require Import Prelude F64 DataStreams Text Aggregators ContextBuffer Triggers.
From S2P Require Import TriggerEvents Configuration SpanInferrer Tags TraceProcessor.
From stdpp Require Import pretty.
#[local] Open Scope Z_scope.

(** [is_standalone] of [appsec/mod.rs]. *)
Definition is_standalone `{Externals} : bool :=
  match env_var "DD_APM_TRACING_ENABLED" with
  | Some s => bool_decide (lowercase s = "true"%string)
  | None => false
  end.

(** * Payloads *)

Inductive ExpectedResponseFormat := ApiGatewayResponse_ | Raw | UnknownFormat.

(** [InvocationPayload]: what each of its methods returns. *)
Record InvocationPayload := {
  corresponding_response_format : ExpectedResponseFormat;
  raw_uri : option string;
  method : option string;
  route : option string;
  client_ip : option string;
  request_headers_no_cookies : gmap string (list string);
  request_cookies : gmap string (list string);
  query_params : gmap string (list string);
  path_params : gmap string string;
  request_body : option bytes;
  response_status_code : option Z;
  response_headers_no_cookies : gmap string (list string);
  response_body : option bytes;
}.

(** The bodies that the trait gives its methods. *)
Definition default_payload (format : ExpectedResponseFormat) : InvocationPayload :=
  {| corresponding_response_format := format; raw_uri := None; method := None; route := None;
     client_ip := None; request_headers_no_cookies := ∅; request_cookies := ∅; query_params := ∅;
     path_params := ∅; request_body := None; response_status_code := None;
     response_headers_no_cookies := ∅; response_body := None |}.

(** A parsed content type. *)
Record Mime := {
  mime_type : string;
  mime_subtype : string;
  mime_suffix : option string;
  mime_boundary : option string;
}.

(** An attribute or event that the firewall reports; [None] where its conversion fails. *)
Record RunOutput := {
  ro_duration : Z;
  ro_timeout : bool;
  ro_keep : bool;
  ro_attributes : option (list (option string * option string));
  ro_events : option (list (option Value));
}.

(** The objects given to the firewall. *)
Inductive Address (Obj : Type) :=
| AString (s : string)
| AInt (i : Z)
| ASingle (m : gmap string string)
| AMulti (m : gmap string (list string))
| ABody (o : Obj)
| AExtractSchema.
Arguments AString {_}. Arguments AInt {_}. Arguments ASingle {_}. Arguments AMulti {_}.
Arguments ABody {_}. Arguments AExtractSchema {_}.

Class WafOps (W Obj : Type) := {
  waf_version : string;
  new_waf_context : W;
  (** the output, or an error, within the time budget *)
  waf_run : W -> list (string * Address Obj) -> Z -> option RunOutput * W;
  obj_default : Obj;
  obj_string : string -> Obj;
  obj_map : list (string * Obj) -> Obj;
  (** [serde_json], [serde_html_form], [multipart] and [mime] *)
  obj_from_json : bytes -> option Obj;
  form_from_reader : bytes -> option (list (string * string));
  (** the entries up to the first that cannot be read: name, content type, data *)
  multipart_entries : bytes -> string -> list (string * option Mime * option bytes);
  parse_mime : string -> option Mime;
  (** [Cookie::split_parse], the cookies that can be read *)
  split_parse : string -> list (string * string);
  (** [Value::to_string] *)
  json_text : Value -> string;
  (** a response whose fields are not repeated *)
  response_value : bytes -> option Value;
  (** the FNV-1a hash of bytes *)
  fnv_hash : bytes -> Z;
}.

Section Payloads.
Context `{Externals} {W Obj : Type} `{WafOps W Obj}.

(** [Body::reader], an error being nothing. *)
Definition body_reader (b : Body) : option bytes :=
  match body_body b with
  | None | Some EmptyString => None
  | Some text =>
      if is_base64_encoded b then (zs ← b64_decode text; Some (map Z_ascii zs))
      else Some (String.list_ascii_of_string text)
  end.

(** [chunk_by] on the names, then a map of the groups: of two groups of a name that are
    not adjacent the last is kept. *)
Fixpoint chunk_pairs (pairs : list (string * string)) : list (string * list string) :=
  match pairs with
  | [] => []
  | (k, v) :: pairs =>
      match chunk_pairs pairs with
      | (k', vs) :: groups =>
          if decide (k = k') then (k, v :: vs) :: groups else (k, [v]) :: (k', vs) :: groups
      | [] => [(k, [v])]
      end
  end.

Definition collect_pairs {A} (entries : list (string * A)) : gmap string A :=
  foldl (fun m kv => <[kv.1 := kv.2]> m) ∅ entries.

Definition cookies_of (pairs : list (string * string)) : gmap string (list string) :=
  collect_pairs (chunk_pairs pairs).

Definition cookie_list (cookies : option (list string)) : gmap string (list string) :=
  cookies_of (omap (split_once "=") (default [] cookies)).

Definition cookie_headers (headers : option (list string)) : gmap string (list string) :=
  cookies_of (h ← default [] headers; split_parse h).

Definition multi (m : gmap string string) : gmap string (list string) := (fun v => [v]) <$> m.
Definition without_cookie {A} (m : gmap string A) : gmap string A := delete "cookie"%string m.

(** The header of the multi-valued map, else the one of the other map. *)
Definition cookie_header (m : gmap string (list string)) (headers : gmap string string) :
    option (list string) :=
  match m !! "cookie"%string with
  | Some vs => Some vs
  | None => (fun v => [v]) <$> headers !! "cookie"%string
  end.

Definition http_payload (t : HttpEvent.APIGatewayHttpEvent) : InvocationPayload :=
  let rc := HttpEvent.request_context t in
  let http := HttpEvent.http rc in
  {| corresponding_response_format := ApiGatewayResponse_;
     raw_uri := Some (HttpEvent.domain_name rc +:+ HttpEvent.path http)%string;
     method := Some (HttpEvent.method http);
     route := Some (HttpEvent.route_key t);
     client_ip := Some (HttpEvent.source_ip http);
     request_headers_no_cookies := multi (HttpEvent.headers t);
     request_cookies := cookie_list (HttpEvent.cookies t);
     query_params := str_split "," <$> HttpEvent.query_string_parameters t;
     path_params := HttpEvent.path_parameters t;
     request_body := body_reader (HttpEvent.body t);
     response_status_code := None; response_headers_no_cookies := ∅; response_body := None |}.

Definition rest_payload (t : RestEvent.APIGatewayRestEvent) : InvocationPayload :=
  let rc := RestEvent.request_context t in
  {| corresponding_response_format := ApiGatewayResponse_;
     raw_uri := Some (RestEvent.domain_name rc +:+ RestEvent.path rc)%string;
     method := Some (RestEvent.method rc);
     route := Some (RestEvent.method rc +:+ " " +:+ RestEvent.resource_path rc)%string;
     client_ip := Some (RestEvent.source_ip (RestEvent.identity rc));
     request_headers_no_cookies := without_cookie (RestEvent.multi_value_headers t);
     request_cookies :=
       cookie_headers (cookie_header (RestEvent.multi_value_headers t) (RestEvent.headers t));
     query_params := RestEvent.query_parameters t;
     path_params := RestEvent.path_parameters t;
     request_body := body_reader (RestEvent.body t);
     response_status_code := None; response_headers_no_cookies := ∅; response_body := None |}.

(** The dollar before the stage is the source's. *)
Definition web_socket_payload (t : WebSocketEvent.APIGatewayWebSocketEvent) : InvocationPayload :=
  let rc := WebSocketEvent.request_context t in
  let path := default EmptyString (WebSocketEvent.path t) in
  let stage := WebSocketEvent.stage rc in
  {| corresponding_response_format := Raw;
     raw_uri := Some
       (if bool_decide (stage = EmptyString \/ stage = "$default"%string)
        then (WebSocketEvent.domain_name rc +:+ path)%string
        else (WebSocketEvent.domain_name rc +:+ "/$" +:+ stage +:+ path)%string);
     method := WebSocketEvent.http_method rc;
     route := Some (WebSocketEvent.route_key rc);
     client_ip := WebSocketEvent.source_ip (WebSocketEvent.identity rc);
     request_headers_no_cookies := without_cookie (WebSocketEvent.multi_value_headers t);
     request_cookies := cookie_headers (WebSocketEvent.multi_value_headers t !! "cookie"%string);
     query_params := WebSocketEvent.query_parameters t;
     path_params := WebSocketEvent.path_parameters t;
     request_body := body_reader (WebSocketEvent.body t);
     response_status_code := None; response_headers_no_cookies := ∅; response_body := None |}.

Definition alb_payload (t : AlbEvent.ALBEvent) : InvocationPayload :=
  {| corresponding_response_format := ApiGatewayResponse_;
     raw_uri := None;
     method := Some (AlbEvent.http_method t);
     route := Some (AlbEvent.http_method t +:+ " " +:+ default EmptyString (AlbEvent.path t))%string;
     client_ip := None;
     request_headers_no_cookies :=
       if decide (AlbEvent.multi_value_headers t = ∅) then multi (without_cookie (AlbEvent.headers t))
       else without_cookie (AlbEvent.multi_value_headers t);
     request_cookies :=
       cookie_headers (cookie_header (AlbEvent.multi_value_headers t) (AlbEvent.headers t));
     query_params :=
       if decide (AlbEvent.multi_value_query_parameters t = ∅) then multi (AlbEvent.query_parameters t)
       else AlbEvent.multi_value_query_parameters t;
     path_params := ∅;
     request_body := body_reader (AlbEvent.body t);
     response_status_code := None; response_headers_no_cookies := ∅; response_body := None |}.

Definition url_payload (t : UrlEvent.LambdaFunctionUrlEvent) : InvocationPayload :=
  let rc := UrlEvent.request_context t in
  let http := UrlEvent.http rc in
  {| corresponding_response_format := ApiGatewayResponse_;
     raw_uri := Some (UrlEvent.domain_name rc +:+ UrlEvent.path http)%string;
     method := Some (UrlEvent.method http);
     route := Some (UrlEvent.method http +:+ " " +:+ UrlEvent.path http)%string;
     client_ip := Some (UrlEvent.source_ip http);
     request_headers_no_cookies := multi (UrlEvent.headers t);
     request_cookies := cookie_list (UrlEvent.cookies t);
     query_params := multi (UrlEvent.query_string_parameters t);
     path_params := ∅;
     request_body := body_reader (UrlEvent.body t);
     response_status_code := None; response_headers_no_cookies := ∅; response_body := None |}.

Definition trigger_payload (t : IdentifiedTrigger) : InvocationPayload :=
  match t with
  | APIGatewayHttpEvent_ t => http_payload t
  | APIGatewayRestEvent_ t => rest_payload t
  | APIGatewayWebSocketEvent_ t => web_socket_payload t
  | ALBEvent_ t => alb_payload t
  | LambdaFunctionUrlEvent_ t => url_payload t
  | _ => default_payload UnknownFormat
  end.

(** * Responses *)

Record ApiGatewayResponse := {
  status_code : Z;
  resp_headers : gmap string string;
  resp_multi_value_headers : gmap string (list string);
  resp_body : Body;
}.

Definition nullable_lowercase_key {V} (de : Value -> option V) (v : Value) : option (gmap string V) :=
  maybe ← de_option (de_map de) v;
  Some (foldl (fun m kv => <[lowercase kv.1 := kv.2]> m) ∅ (hash_iter (default ∅ maybe))).

Definition de_response (v : Value) : option ApiGatewayResponse :=
  match flat_fields [("statusCode", false); ("headers", false); ("multiValueHeaders", false)]%string v with
  | Some [sc; hs; mv] =>
      status_code ← defaulted 0 de_i64 sc;
      headers ← defaulted ∅ (nullable_lowercase_key de_string) hs;
      multi_value_headers ← defaulted ∅ (nullable_lowercase_key (de_vec de_string)) mv;
      body ← de_body v;
      Some {| status_code := status_code; resp_headers := headers;
              resp_multi_value_headers := multi_value_headers; resp_body := body |}
  | _ => None
  end.

Definition response_payload (r : ApiGatewayResponse) : InvocationPayload :=
  {| corresponding_response_format := ApiGatewayResponse_; raw_uri := None; method := None;
     route := None; client_ip := None; request_headers_no_cookies := ∅; request_cookies := ∅;
     query_params := ∅; path_params := ∅; request_body := None;
     response_status_code := Some (status_code r);
     response_headers_no_cookies :=
       if decide (resp_multi_value_headers r = ∅)
       then multi (delete "set-cookie"%string (resp_headers r))
       else resp_multi_value_headers r;
     response_body := body_reader (resp_body r) |}.

Definition raw_payload (data : bytes) : InvocationPayload :=
  {| corresponding_response_format := Raw; raw_uri := None; method := None; route := None;
     client_ip := None; request_headers_no_cookies := ∅; request_cookies := ∅; query_params := ∅;
     path_params := ∅; request_body := None; response_status_code := None;
     response_headers_no_cookies := ∅;
     response_body := match data with [] => None | _ => Some data end |}.

(** An error is [None], a format with no payload [Some None]. *)
Definition parse_response (self : ExpectedResponseFormat) (payload : bytes) :
    option (option InvocationPayload) :=
  match self with
  | ApiGatewayResponse_ => r ← response_value payload ≫= de_response; Some (Some (response_payload r))
  | Raw => Some (Some (raw_payload payload))
  | UnknownFormat => Some None
  end.

(** * Bodies *)

Definition is_json_mime (m : Mime) : bool :=
  (bool_decide (mime_type m = "text"%string \/ mime_type m = "application"%string)
   && bool_decide (mime_subtype m = "json"%string) && bool_decide (mime_suffix m = None))
  || (bool_decide (mime_type m = "application"%string)
      && bool_decide (mime_subtype m = "vnd.api"%string)
      && bool_decide (mime_suffix m = Some "json"%string)).

Definition is_mime (t sub : string) (m : Mime) : bool :=
  bool_decide (mime_type m = t /\ mime_subtype m = sub /\ mime_suffix m = None).

Definition TEXT_PLAIN : Mime :=
  {| mime_type := "text"; mime_subtype := "plain"; mime_suffix := None; mime_boundary := None |}.

(** [fuel] bounds the nesting of multipart bodies. *)
Fixpoint try_parse_body_with_mime (fuel : nat) (body : bytes) (m : Mime) : option Obj :=
  if is_json_mime m then obj_from_json body
  else if is_mime "application" "x-www-form-urlencoded" m then
    pairs ← form_from_reader body;
    Some (obj_map ((fun kv => (kv.1, obj_string kv.2)) <$> pairs))
  else if is_mime "multipart" "form-data" m then
    match fuel, mime_boundary m with
    | S fuel, Some boundary =>
        items ← mapM (fun entry =>
          let '(name, mime, data) := entry in
          data ← data;
          Some (name, default obj_default
                        (try_parse_body_with_mime fuel data (default TEXT_PLAIN mime))))
          (multipart_entries body boundary);
        Some (obj_map items)
    | _, _ => None
    end
  else if is_mime "text" "plain" m then
    obj_string <$> from_utf8 (ascii_Z <$> body)
  else None.

Definition try_parse_body (body : bytes) (content_type : string) : option Obj :=
  m ← parse_mime content_type; try_parse_body_with_mime (S (length body)) body m.

(** * Addresses *)

Definition body_address (name : string) (body : option bytes) (headers : gmap string (list string)) :
    list (string * Address Obj) :=
  match body with
  | None => []
  | Some body =>
      let content_type := default "application/json"%string
                            (headers !! "content-type"%string ≫= last) in
      match try_parse_body body content_type with
      | Some o => [(name, ABody o)]
      | None => []
      end
  end.

Definition option_address {A} (name : string) (f : A -> Address Obj) (v : option A) :
    list (string * Address Obj) :=
  match v with Some v => [(name, f v)] | None => [] end.

Definition map_address {A} (name : string) (f : gmap string A -> Address Obj) (m : gmap string A) :
    list (string * Address Obj) :=
  if decide (m = ∅) then [] else [(name, f m)].

Definition to_address_data (p : InvocationPayload) : option (list (string * Address Obj)) :=
  let addresses :=
    option_address "server.request.uri.raw" AString (raw_uri p)
    ++ option_address "http.client_ip" AString (client_ip p)
    ++ map_address "server.request.headers.no_cookies" AMulti (request_headers_no_cookies p)
    ++ map_address "server.request.cookies" AMulti (request_cookies p)
    ++ map_address "server.request.query" AMulti (query_params p)
    ++ map_address "server.request.path_params" ASingle (path_params p)
    ++ body_address "server.request.body" (request_body p) (request_headers_no_cookies p)
    ++ option_address "server.response.status" AInt (response_status_code p)
    ++ map_address "server.response.headers.no_cookies" AMulti (response_headers_no_cookies p)
    ++ body_address "server.response.body" (response_body p) (response_headers_no_cookies p) in
  match addresses with [] => None | _ => Some addresses end.
End Payloads.

(** * Tags *)

Inductive TagName :=
| AppsecEnabled | AppsecEvent | AppsecEventRulesVersion | AppsecJson | AppsecWafDuration
| AppsecWafTimeouts | AppsecWafVersion | Origin | HttpUrl | HttpMethod | HttpRoute
| HttpStatusCode | NetworkClientIp | SamplingPriorityV1
| Dynamic (name : string).

#[export] Instance TagName_eq_dec : EqDecision TagName.
Proof. solve_decision. Defined.

Definition STATIC_TAGS : list TagName :=
  [AppsecEnabled; AppsecEvent; AppsecEventRulesVersion; AppsecJson; AppsecWafDuration;
   AppsecWafTimeouts; AppsecWafVersion; Origin; HttpUrl; HttpMethod; HttpRoute; HttpStatusCode;
   NetworkClientIp; SamplingPriorityV1].

Definition tag_index (t : TagName) : nat :=
  match t with
  | AppsecEnabled => 0 | AppsecEvent => 1 | AppsecEventRulesVersion => 2 | AppsecJson => 3
  | AppsecWafDuration => 4 | AppsecWafTimeouts => 5 | AppsecWafVersion => 6 | Origin => 7
  | HttpUrl => 8 | HttpMethod => 9 | HttpRoute => 10 | HttpStatusCode => 11
  | NetworkClientIp => 12 | SamplingPriorityV1 => 13 | Dynamic _ => 14
  end.

#[export] Instance TagName_countable : Countable TagName.
Proof.
  refine (inj_countable' (fun t => (tag_index t, match t with Dynamic n => n | _ => EmptyString end))
    (fun p => match STATIC_TAGS !! p.1 with Some t => t | None => Dynamic p.2 end) _).
  by intros [].
Defined.

Definition as_str (t : TagName) : string :=
  match t with
  | AppsecEnabled => "_dd.appsec.enabled"
  | AppsecEvent => "appsec.event"
  | AppsecEventRulesVersion => "_dd.appsec.event_rules.version"
  | AppsecJson => "_dd.appsec.json"
  | AppsecWafDuration => "_dd.appsec.waf.duration"
  | AppsecWafTimeouts => "_dd.appsec.waf.timeouts"
  | AppsecWafVersion => "_dd.appsec.waf.version"
  | Origin => "_dd.origin"
  | HttpUrl => "http.url"
  | HttpMethod => "http.method"
  | HttpRoute => "http.route"
  | HttpStatusCode => "http.status_code"
  | NetworkClientIp => "network.client.ip"
  | SamplingPriorityV1 => "_sampling_priority_v1"
  | Dynamic name => name
  end.

Inductive TagValue :=
| Always (s : string)
| OnEvent (v : Value)
| AppSecEvents (triggers : list Value)
| Metric (x : f64).

(** The arguments of a trace that is held. *)
Record HoldArguments := {
  ha_config : Config;
  ha_tags_provider : Provider;
  ha_body_size : Z;
  ha_span_pointers : option (list SpanPointer);
  ha_header_tags : TraceAggregator.OwnedTracerHeaderTags GenericTags;
}.

(** [SendingTraceProcessor] without this processor; [false] is an error. *)
Class TraceSender (P : Type) := {
  send_traces : P -> Z -> HoldArguments -> list (list Span) -> outcome (P * bool);
}.

#[export] Instance pipeline_sender `{Externals} {Sampler Uri} `{TraceOps Sampler Uri} :
  TraceSender (@Pipeline.t Sampler Uri) :=
  {| send_traces self now args traces :=
       Pipeline.send_processed_traces self now (ha_config args) (ha_tags_provider args)
         (TraceAggregator.to_tracer_header_tags (ha_header_tags args)) traces (ha_body_size args)
         (ha_span_pointers args) |}.

(** * Endpoint sampler *)

Module ApiSecSampler.

(** The entries from the oldest to the most recent; [capacity] is that of the table. *)
Record t := { interval : Z; data : list (Z * Z); capacity : nat }.

Definition with_interval (interval : Z) (capacity : nat) : t :=
  {| interval := interval; data := []; capacity := capacity |}.

Definition endpoint_bytes (method route status_code : string) : bytes :=
  let b := String.list_ascii_of_string in
  b method ++ [ascii_of_nat 0] ++ b route ++ [ascii_of_nat 0] ++ b status_code.

(** [now] is the monotonic clock. *)
Definition decision_for_hash (self : t) (hash now : Z) : bool * t :=
  let others := filter (fun e => e.1 <> hash) (data self) in
  let with_data d := {| interval := interval self; data := d; capacity := capacity self |} in
  match List.find (fun e => e.1 =? hash) (data self) with
  | Some (_, last_sample) =>
      if interval self <=? now - last_sample then (true, with_data (others ++ [(hash, now)]))
      else (false, with_data (others ++ [(hash, last_sample)]))
  | None =>
      let data := if (capacity self <=? length (data self))%nat then tail (data self) else data self in
      (true, with_data (data ++ [(hash, now)]))
  end.

Definition decision_for {W Obj} `{WafOps W Obj} (self : t) (method route status_code : string) (now : Z) :
    bool * t :=
  decision_for_hash self (fnv_hash (endpoint_bytes method route status_code)) now.
End ApiSecSampler.

(** * Contexts *)

Definition REQUEST_HEADERS_ON_EVENT : list string :=
  ["x-forwarded-for"; "x-real-ip"; "true-client-ip"; "x-client-ip"; "x-forwarded"; "forwarded-for";
   "x-cluster-client-ip"; "fastly-client-ip"; "cf-connecting-ip"; "cf-connecting-ipv6"; "forwarded";
   "via"; "content-length"; "content-encoding"; "content-language"; "host"; "accept-encoding";
   "accept-language"]%string.
Definition REQUEST_HEADERS_ALWAYS : list string :=
  ["content-type"; "user-agent"; "accept"; "x-amzn-trace-id"; "cloudfront-viewer-ja3-fingerprint";
   "cf-ray"; "x-cloud-trace-context"; "x-appgw-trace-id"; "x-sigsci-requestid"; "x-sigsci-tags";
   "akamai-user-risk"]%string.
Definition RESPONSE_HEADERS_ALWAYS : list string :=
  ["content-length"; "content-type"; "content-encoding"; "content-language"]%string.

Abbreviation Tags := (gmap TagName TagValue).

Section Context_.
Context `{Externals} {W Obj : Type} `{WafOps W Obj} {P : Type} `{TraceSender P}.
(** The order in which a map of tags is iterated. *)
Variable tags_iter : Tags -> list (TagName * TagValue).

Record Context := {
  rid : string;
  expected_response_format : ExpectedResponseFormat;
  waf : W;
  waf_timeout : Z;
  waf_duration : Z;
  waf_timed_out_occurrences : Z;
  has_events : bool;
  trace_tags : Tags;
  response_seen : bool;
  held_trace : option (list Span * HoldArguments);
}.

Definition Context_new (rid_ ruleset_version : string) (timeout : Z) : Context :=
  let tags : Tags := {[ AppsecEnabled := Metric f64_one; AppsecWafVersion := Always waf_version ]} in
  {| rid := rid_; expected_response_format := UnknownFormat; waf := new_waf_context;
     waf_timeout := timeout; waf_duration := 0; waf_timed_out_occurrences := 0; has_events := false;
     trace_tags := match ruleset_version with
                   | EmptyString => tags
                   | _ => <[AppsecEventRulesVersion := Always ruleset_version]> tags
                   end;
     response_seen := false; held_trace := None |}.

Definition is_pending_response (self : Context) : bool := negb (response_seen self).

(** Updates of the fields that belong together. *)
Definition set_analysis (self : Context) (f : ExpectedResponseFormat) (w : W) (timeout duration occ : Z)
    (events : bool) (tags : Tags) : Context :=
  {| rid := rid self; expected_response_format := f; waf := w; waf_timeout := timeout;
     waf_duration := duration; waf_timed_out_occurrences := occ; has_events := events;
     trace_tags := tags; response_seen := response_seen self; held_trace := held_trace self |}.
Definition set_held (self : Context) (seen : bool) (held : option (list Span * HoldArguments)) : Context :=
  {| rid := rid self; expected_response_format := expected_response_format self; waf := waf self;
     waf_timeout := waf_timeout self; waf_duration := waf_duration self;
     waf_timed_out_occurrences := waf_timed_out_occurrences self; has_events := has_events self;
     trace_tags := trace_tags self; response_seen := seen; held_trace := held |}.
Definition set_tags (self : Context) (tags : Tags) : Context :=
  set_analysis self (expected_response_format self) (waf self) (waf_timeout self) (waf_duration self)
    (waf_timed_out_occurrences self) (has_events self) tags.
Definition set_waf (self : Context) (w : W) : Context :=
  set_analysis self (expected_response_format self) w (waf_timeout self) (waf_duration self)
    (waf_timed_out_occurrences self) (has_events self) (trace_tags self).

(** ** Tags of a span *)

Definition put_tag (events : bool) (span : Span) (tag : TagName * TagValue) : Span :=
  let '(key, value) := tag in
  match value with
  | Always v => put_span_meta (as_str key) v span
  | AppSecEvents triggers =>
      put_span_meta (as_str key) (json_text (VObject [("triggers"%string, VArray triggers)])) span
  | OnEvent v =>
      if events then
        put_span_meta (as_str key) (match v with VString s => s | _ => json_text v end) span
      else span
  | Metric x => with_metrics span (<[as_str key := x]> (metrics span))
  end.

Definition process_span (self : Context) (span : Span) : Span :=
  let span := foldl (put_tag (has_events self)) span (tags_iter (trace_tags self)) in
  let put k x s := with_metrics s (<[as_str k := x]> (metrics s)) in
  let span := put AppsecWafDuration (f64_of_Z (waf_duration self / 1000)) span in
  let span := put AppsecWafTimeouts (f64_of_Z (waf_timed_out_occurrences self)) span in
  if bool_decide (is_Some (meta span !! as_str Origin)) then span
  else put_span_meta (as_str Origin) "appsec" span.

(** The first [aws.lambda] span that is not a placeholder, and its update. *)
Definition is_service_entry (span : Span) : bool :=
  bool_decide (name span = "aws.lambda"%string)
  && negb (bool_decide (resource span = INVOCATION_SPAN_RESOURCE)).

Fixpoint update_service_entry (f : Span -> Span) (trace : list Span) : list Span :=
  match trace with
  | [] => []
  | span :: trace =>
      if is_service_entry span then f span :: trace else span :: update_service_entry f trace
  end.

(** ** Responses *)

Definition set_response_seen (self : Context) (sender : P) (now : Z) : outcome (Context * P) :=
  if response_seen self then Done (self, sender)
  else
    match held_trace self with
    | Some (trace, args) =>
        let trace := update_service_entry (process_span self) trace in
        '(sender, _) ← send_traces sender now args [trace];
        Done (set_held self true None, sender)
    | None => Done (set_held self true None, sender)
    end.

Definition hold_trace (self : Context) (trace : list Span) (args : HoldArguments) : Context :=
  if is_pending_response self then set_held self (response_seen self) (Some (trace, args)) else self.

(** ** Evaluation *)

Definition put_option (k : TagName) (v : option TagValue) (tags : Tags) : Tags :=
  match v with Some v => <[k := v]> tags | None => tags end.

Definition header_tags (prefix : string) (wrap : string -> TagValue) (names : list string)
    (headers : gmap string (list string)) (tags : Tags) : Tags :=
  foldl (fun tags name =>
    match headers !! name with
    | Some values => <[Dynamic (prefix +:+ name)%string := wrap (str_join "," values)]> tags
    | None => tags
    end) tags names.

Definition collect_span_tags (p : InvocationPayload) (tags : Tags) : Tags :=
  let on_event v := OnEvent (VString v) in
  let tags := put_option HttpUrl (Always <$> raw_uri p) tags in
  let tags := put_option HttpMethod (Always <$> method p) tags in
  let tags := put_option HttpRoute (on_event <$> route p) tags in
  let tags := put_option NetworkClientIp (on_event <$> client_ip p) tags in
  let tags := put_option HttpStatusCode ((fun z => Always (pretty z)) <$> response_status_code p) tags in
  let tags := header_tags "http.request.headers." Always REQUEST_HEADERS_ALWAYS
                (request_headers_no_cookies p) tags in
  let tags := header_tags "http.request.headers." on_event REQUEST_HEADERS_ON_EVENT
                (request_headers_no_cookies p) tags in
  header_tags "http.response.headers." Always RESPONSE_HEADERS_ALWAYS
    (response_headers_no_cookies p) tags.

Definition put_attribute (tags : Tags) (item : option string * option string) : Tags :=
  match item with
  | (Some name, Some value) => <[Dynamic name := Always value]> tags
  | _ => tags
  end.

(** The events join those of an earlier run; the entry always holds events. *)
Definition put_events (events : list (option Value)) (tags : Tags) : Tags :=
  let tags := <[AppsecEvent := Always "true"]> tags in
  let triggers := match tags !! AppsecJson with Some (AppSecEvents l) => l | _ => [] end in
  <[AppsecJson := AppSecEvents (triggers ++ omap id events)]> tags.

Definition process_result (self : Context) (result : RunOutput) : Context :=
  let timeout := saturating_sub (waf_timeout self) (ro_duration result) in
  let duration := waf_duration self + ro_duration result in
  let occ := if ro_timeout result then waf_timed_out_occurrences self + 1
             else waf_timed_out_occurrences self in
  let tags := if ro_keep result then <[SamplingPriorityV1 := Metric (f64_of_Z 2)]> (trace_tags self)
              else trace_tags self in
  let tags := foldl put_attribute tags (default [] (ro_attributes result)) in
  match ro_events result with
  | Some ((_ :: _) as events) =>
      set_analysis self (expected_response_format self) (waf self) timeout duration occ true
        (put_events events tags)
  | _ =>
      set_analysis self (expected_response_format self) (waf self) timeout duration occ
        (has_events self) tags
  end.

Definition run_waf (self : Context) (data : list (string * Address Obj)) : Context :=
  let '(result, w) := waf_run (waf self) data (waf_timeout self) in
  let self := set_waf self w in
  match result with Some result => process_result self result | None => self end.

Definition run (self : Context) (payload : InvocationPayload) : Context :=
  if waf_timeout self =? 0 then
    set_analysis self (expected_response_format self) (waf self) (waf_timeout self) (waf_duration self)
      (waf_timed_out_occurrences self + 1) (has_events self) (trace_tags self)
  else
    let format := match expected_response_format self with
                  | UnknownFormat => corresponding_response_format payload
                  | f => f
                  end in
    let self := set_analysis self format (waf self) (waf_timeout self) (waf_duration self)
                  (waf_timed_out_occurrences self) (has_events self)
                  (collect_span_tags payload (trace_tags self)) in
    match to_address_data payload with
    | None => self
    | Some data => run_waf self data
    end.

Definition extract_schemas (self : Context) : Context :=
  run_waf self [("waf.context.processor"%string, AExtractSchema)].

Definition tag_text (v : TagValue) : string :=
  match v with
  | Always s => s
  | OnEvent v => json_text v
  | AppSecEvents triggers =>
      ("{ " +:+ quoted "triggers" +:+ ": " +:+ json_text (VArray triggers) +:+ " }")%string
  | Metric x => f64_display x
  end.

Definition endpoint_info (self : Context) : string * string * string :=
  let get k := match trace_tags self !! k with Some v => tag_text v | None => EmptyString end in
  (get HttpMethod, get HttpRoute, get HttpStatusCode).

(** * The processor *)

Record Processor := {
  ruleset_version : string;
  proc_waf_timeout : Z;
  api_sec_sampler : option ApiSecSampler.t;
  context_buffer : list Context;
  (** the capacity of the queue *)
  buffer_capacity : nat;
}.

Definition set_buffer (self : Processor) (b : list Context) : Processor :=
  {| ruleset_version := ruleset_version self; proc_waf_timeout := proc_waf_timeout self;
     api_sec_sampler := api_sec_sampler self; context_buffer := b;
     buffer_capacity := buffer_capacity self |}.
Definition set_sampler (self : Processor) (s : option ApiSecSampler.t) : Processor :=
  {| ruleset_version := ruleset_version self; proc_waf_timeout := proc_waf_timeout self;
     api_sec_sampler := s; context_buffer := context_buffer self;
     buffer_capacity := buffer_capacity self |}.

(** Errors of the constructor; loading the rules is an argument: the version of the
    ruleset, or the error. *)
Inductive Error :=
| FeatureDisabled | WafBuilderCreationFailed | AppsecRulesError | WafRulesetParseError
| WafRulesetLoadingError | WafInitializationFailed.

Definition with_capacity (load_rules : option string -> string + Error) (cfg : Config)
    (capacity sampler_capacity : nat) : Processor + Error :=
  if negb (serverless_appsec_enabled cfg) then inr FeatureDisabled
  else
    match load_rules (appsec_rules cfg) with
    | inr e => inr e
    | inl version =>
        inl {| ruleset_version := version; proc_waf_timeout := appsec_waf_timeout cfg;
               api_sec_sampler :=
                 if api_security_enabled cfg
                 then Some (ApiSecSampler.with_interval (api_security_sample_delay cfg) sampler_capacity)
                 else None;
               context_buffer := []; buffer_capacity := capacity |}
    end.

Definition position (r : string) (b : list Context) : option nat :=
  fst <$> list_find (fun c => rid c = r) b.

Definition get_context (self : Processor) (r : string) : option Context :=
  List.find (fun c => bool_decide (rid c = r)) (context_buffer self).

(** [get_context_mut] followed by an update. *)
Fixpoint update_first (r : string) (f : Context -> Context) (b : list Context) : list Context :=
  match b with
  | [] => []
  | c :: b => if decide (rid c = r) then f c :: b else c :: update_first r f b
  end.

Definition remove_at {A} (i : nat) (l : list A) : list A := take i l ++ drop (S i) l.

Definition delete_context (self : Processor) (r : string) : Processor :=
  match position r (context_buffer self) with
  | Some i => set_buffer self (remove_at i (context_buffer self))
  | None => self
  end.

(** The context that must go, and the rest of the buffer. *)
Definition make_room (self : Processor) (r : string) : option Context * list Context :=
  let b := context_buffer self in
  match position r b with
  | Some i => (b !! i, remove_at i b)
  | None =>
      if bool_decide (length b = buffer_capacity self) then pop_front b else (None, b)
  end.

Definition new_context (self : Processor) (sender : P) (now : Z) (r : string) : outcome (Processor * P) :=
  let '(dropped, b) := make_room self r in
  sender ← match dropped with
           | Some ctx => '(_, sender) ← set_response_seen ctx sender now; Done sender
           | None => Done sender
           end;
  Done (set_buffer self (b ++ [Context_new r (ruleset_version self) (proc_waf_timeout self)]), sender).

Definition is_unknown (t : IdentifiedTrigger) : bool := match t with Unknown => true | _ => false end.

Definition process_invocation_next (self : Processor) (sender : P) (now : Z) (r : string)
    (payload : IdentifiedTrigger) : outcome (Processor * P) :=
  if is_unknown payload then Done (self, sender)
  else
    '(self, sender) ← new_context self sender now r;
    Done (set_buffer self (update_first r (fun c => run c (trigger_payload payload)) (context_buffer self)),
          sender).

(** The analysis of a response, up to its being marked as seen. *)
Definition analyse_response (self : Processor) (ctx : Context) (payload : bytes) (instant : Z) :
    Context * option ApiSecSampler.t :=
  let ctx := match parse_response (expected_response_format ctx) payload with
             | Some (Some p) => run ctx p
             | _ => ctx
             end in
  let '(method, route, status_code) := endpoint_info ctx in
  match api_sec_sampler self with
  | None => (ctx, None)
  | Some sampler =>
      let '(sampled, sampler) := ApiSecSampler.decision_for sampler method route status_code instant in
      (if sampled : bool then extract_schemas ctx else ctx, Some sampler)
  end.

Definition process_invocation_result (self : Processor) (sender : P) (now instant : Z) (r : string)
    (payload : bytes) : outcome (Processor * P) :=
  match get_context self r with
  | None => Done (self, sender)
  | Some ctx =>
      let '(ctx, sampler) := analyse_response self ctx payload instant in
      '(ctx, sender) ← set_response_seen ctx sender now;
      Done (set_sampler (set_buffer self (update_first r (fun _ => ctx) (context_buffer self))) sampler,
            sender)
  end.

(** What [Processor::process_span] tells the caller to do with the trace. *)
Inductive SpanVerdict := Finalized | Pending (r : string).

Definition proc_process_span (self : Processor) (span : Span) : SpanVerdict * Span * Processor :=
  match meta span !! "request_id"%string with
  | None => (Finalized, span, self)
  | Some r =>
      match get_context self r with
      | None => (Finalized, span, self)
      | Some ctx =>
          let span := process_span ctx span in
          if is_pending_response ctx then (Pending r, span, self)
          else (Finalized, span, delete_context self r)
      end
  end.

(** * Sending with the processor *)

(** One trace of [send_processed_traces]: the trace if it is not held. *)
Definition hold_or_pass (args : HoldArguments) (self : Processor) (trace : list Span) :
    option (list Span) * Processor :=
  match List.find is_service_entry trace with
  | None => (Some trace, self)
  | Some span =>
      let '(verdict, span, self) := proc_process_span self span in
      let trace := update_service_entry (fun _ => span) trace in
      match verdict with
      | Finalized => (Some trace, self)
      | Pending r =>
          (None, set_buffer self (update_first r (fun c => hold_trace c trace args) (context_buffer self)))
      end
  end.

Fixpoint hold_traces (args : HoldArguments) (self : Processor) (traces : list (list Span)) :
    list (list Span) * Processor :=
  match traces with
  | [] => ([], self)
  | trace :: traces =>
      let '(passed, self) := hold_or_pass args self trace in
      let '(rest, self) := hold_traces args self traces in
      (option_list passed ++ rest, self)
  end.

Definition send_processed_traces (appsec : option Processor) (sender : P) (now : Z)
    (args : HoldArguments) (traces : list (list Span)) : outcome (option Processor * P * bool) :=
  let '(traces, appsec) :=
    match appsec with
    | Some p => let '(traces, p) := hold_traces args p traces in (traces, Some p)
    | None => (traces, None)
    end in
  '(sender, ok) ← send_traces sender now args traces;
  Done (appsec, sender, ok).
End Context_.

(** * Held traces

    The properties are stated with a sender that records the traces it is given. *)

#[export] Instance log_sender : TraceSender (list (list Span)) :=
  {| send_traces log now args traces := Done (log ++ traces, true) |}.

Module Holding.
Section Holding.
Context `{Externals} {W Obj : Type} `{WafOps W Obj}.
Variable tags_iter : Tags -> list (TagName * TagValue).
Abbreviation Ctx := (@Context W) (only parsing).
Abbreviation Proc := (@Processor W) (only parsing).

(** What identifies a trace: the ids of its spans. *)
Definition ids (trace : list Span) : list (Z * Z) := (fun s => (trace_id s, span_id s)) <$> trace.

Definition held (b : list Ctx) : list (list (Z * Z)) :=
  omap (fun c => (fun h => ids h.1) <$> held_trace c) b.

Lemma ids_put_tag ev s tag : (trace_id (put_tag ev s tag), span_id (put_tag ev s tag)) = (trace_id s, span_id s).
Proof. destruct tag as [k []]; cbn; by repeat case_match. Qed.

Lemma process_span_ids (c : Ctx) s :
  (trace_id (process_span tags_iter c s), span_id (process_span tags_iter c s)) = (trace_id s, span_id s).
Proof.
  unfold process_span. generalize (tags_iter (trace_tags c)) as l.
  intros l. rewrite <- (ids_put_tag (has_events c) s (AppsecEvent, Metric f64_one)) at 1.
  set (s' := foldl _ s l).
  assert (Hs : (trace_id s', span_id s') = (trace_id s, span_id s)).
  { subst s'. revert s. induction l as [|t l IH]; intros s; [done|]. cbn [foldl]. by rewrite IH, ids_put_tag. }
  rewrite ids_put_tag, <- Hs. by case_match.
Qed.

Lemma update_entry_ids f trace :
  (forall s, (trace_id (f s), span_id (f s)) = (trace_id s, span_id s)) ->
  ids (update_service_entry f trace) = ids trace.
Proof.
  intros Hf. induction trace as [|s trace IH]; cbn; [done|].
  destruct (is_service_entry s); cbn; [by rewrite Hf|]. by f_equal.
Qed.

Lemma replace_entry_ids trace span span' :
  List.find is_service_entry trace = Some span ->
  (trace_id span', span_id span') = (trace_id span, span_id span) ->
  ids (update_service_entry (fun _ => span') trace) = ids trace.
Proof.
  intros Hf Hs. induction trace as [|s trace IH]; cbn in *; [done|].
  destruct (is_service_entry s); cbn; [injection Hf as ->; by rewrite Hs|].
  f_equal. by apply IH.
Qed.

(** A context holds nothing once its response has been seen. *)
Definition ctx_ok (c : Ctx) : Prop := response_seen c = true -> held_trace c = None.

(** An analysis keeps what a context holds. *)
Definition same_hold (c c' : Ctx) : Prop :=
  rid c' = rid c /\ response_seen c' = response_seen c /\ held_trace c' = held_trace c.

Lemma same_hold_trans c c1 c2 : same_hold c c1 -> same_hold c1 c2 -> same_hold c c2.
Proof. unfold same_hold. intuition congruence. Qed.

Lemma run_waf_same (c : Ctx) data : same_hold c (run_waf c data).
Proof.
  unfold run_waf. destruct (waf_run _ _ _) as [[r|] w]; [|done].
  unfold process_result. by repeat case_match.
Qed.

Lemma run_same (c : Ctx) p : same_hold c (run c p).
Proof.
  unfold run. case_match; [done|]. case_match; [|done].
  eapply same_hold_trans; [|apply run_waf_same]. done.
Qed.

Lemma analyse_same (p : Proc) c payload instant :
  same_hold c (analyse_response p c payload instant).1.
Proof.
  unfold analyse_response. set (c1 := match parse_response _ _ with Some _ => _ | None => _ end).
  assert (H1 : same_hold c c1) by (subst c1; repeat case_match; try done; apply run_same).
  destruct (endpoint_info c1) as [[m r] s]. destruct (api_sec_sampler p); [|done].
  destruct (ApiSecSampler.decision_for _ _ _ _ _) as [[] sm]; [|done].
  eapply same_hold_trans; [exact H1|apply run_waf_same].
Qed.

(** ** The buffer *)

Definition wf (p : Proc) : Prop :=
  NoDup (rid <$> context_buffer p) /\ Forall ctx_ok (context_buffer p) /\
  (0 < buffer_capacity p)%nat /\ (length (context_buffer p) <= buffer_capacity p)%nat.

Lemma get_context_split (p : Proc) r c :
  get_context p r = Some c ->
  exists b1 b2, context_buffer p = b1 ++ c :: b2 /\ rid c = r /\
    forall f, update_first r f (context_buffer p) = b1 ++ f c :: b2.
Proof.
  unfold get_context. induction (context_buffer p) as [|c0 b IH]; cbn; [done|].
  destruct (bool_decide_reflect (rid c0 = r)) as [Hr|Hr].
  - intros [= ->]. exists [], b. split; [done|]. split; [done|]. intros f. by rewrite decide_True.
  - intros Hc. destruct (IH Hc) as (b1 & b2 & -> & Hrc & Hu). exists (c0 :: b1), b2.
    split; [done|]. split; [done|]. intros f. rewrite decide_False by done. cbn. by rewrite Hu.
Qed.

Lemma position_split r (b : list Ctx) i :
  position r b = Some i -> exists c, b !! i = Some c /\ rid c = r /\
    b = take i b ++ c :: drop (S i) b /\ r ∉ rid <$> take i b.
Proof.
  unfold position. destruct (list_find _ b) as [[j c]|] eqn:Hf; cbn; [|done]. intros [= ->].
  apply list_find_Some in Hf as (Hi & Hr & Hlt). exists c. split; [done|]. split; [done|]. split.
  - symmetry. by apply take_drop_middle.
  - intros (c' & Heq & Hin)%list_elem_of_fmap. apply list_elem_of_lookup in Hin as [k Hk].
    apply lookup_take_Some in Hk as [Hk Hki]. by apply (Hlt k c' Hk).
Qed.

Lemma position_None r (b : list Ctx) : position r b = None -> r ∉ rid <$> b.
Proof.
  unfold position. destruct (list_find _ b) as [[]|] eqn:Hf; [done|]. intros _.
  apply list_find_None in Hf. intros (c & -> & Hin)%list_elem_of_fmap.
  by apply (proj1 (Forall_forall _ _) Hf c Hin).
Qed.

Lemma held_app (b1 b2 : list Ctx) : held (b1 ++ b2) = held b1 ++ held b2.
Proof. apply omap_app. Qed.

Lemma held_cons (c : Ctx) b : held (c :: b) = option_list ((fun h => ids h.1) <$> held_trace c) ++ held b.
Proof. unfold held. cbn. by destruct (held_trace c). Qed.

(** The context that makes room leaves the buffer, and the rest keeps its order. *)
Lemma make_room_spec (p : Proc) r dropped b :
  wf p -> make_room p r = (dropped, b) ->
  (exists b1 b2, context_buffer p = b1 ++ option_list dropped ++ b2 /\ b = b1 ++ b2) /\
  r ∉ rid <$> b /\ (length b < buffer_capacity p)%nat.
Proof.
  intros (Hnd & Hok & Hcap & Hlen). unfold make_room.
  destruct (position r (context_buffer p)) as [i|] eqn:Hp.
  - destruct (position_split _ _ _ Hp) as (c & Hi & Hr & Hb & Hnin). rewrite Hi. intros [= <- <-].
    split; [by exists (take i (context_buffer p)), (drop (S i) (context_buffer p))|].
    rewrite Hb in Hnd, Hlen. rewrite fmap_app, fmap_cons in Hnd. unfold remove_at. split.
    + rewrite fmap_app, elem_of_app. intros [?|Hin]; [done|].
      apply NoDup_app in Hnd as (_ & _ & [Hn _]%NoDup_cons). by rewrite Hr in Hn.
    + rewrite length_app in *. cbn in Hlen. lia.
  - apply position_None in Hp. case_bool_decide as Hl.
    + destruct (context_buffer p) as [|c b'] eqn:Hb; cbn in *; [lia|]. intros [= <- <-].
      split; [by exists [], b'|]. split; [set_solver|lia].
    + intros [= <- <-]. split; [by exists [], (context_buffer p)|]. split; [done|lia].
Qed.

Lemma seen_spec (c : Ctx) (log : list (list Span)) now :
  ctx_ok c -> exists log', set_response_seen tags_iter c log now = Done (set_held c true None, log') /\
    ids <$> log' = (ids <$> log) ++ option_list ((fun h => ids h.1) <$> held_trace c).
Proof.
  intros Hok. unfold set_response_seen. destruct (response_seen c) eqn:Hs.
  - exists log. rewrite (Hok Hs), app_nil_r. split; [|done]. do 2 f_equal.
    specialize (Hok Hs). destruct c; cbn in *. unfold set_held; cbn. by subst.
  - destruct (held_trace c) as [[trace args]|] eqn:Hh; cbn; [|exists log; by rewrite app_nil_r].
    eexists. split; [done|]. rewrite fmap_app. cbn. by rewrite update_entry_ids by apply process_span_ids.
Qed.

(** ** Operations *)

Inductive Op :=
| Next (r : string) (payload : IdentifiedTrigger)
| Result (r : string) (payload : bytes) (instant : Z)
| Traces (args : HoldArguments) (traces : list (list Span)).

Definition step (p : Proc) (log : list (list Span)) (op : Op) : outcome (Proc * list (list Span)) :=
  match op with
  | Next r payload => process_invocation_next tags_iter p log 0 r payload
  | Result r payload instant => process_invocation_result tags_iter p log 0 instant r payload
  | Traces args traces =>
      '(p', log, _) ← send_processed_traces tags_iter (Some p) log 0 args traces;
      Done (default p p', log)
  end.

Fixpoint steps (p : Proc) (log : list (list Span)) (ops : list Op) : outcome (Proc * list (list Span)) :=
  match ops with
  | [] => Done (p, log)
  | op :: ops => '(p, log) ← step p log op; steps p log ops
  end.

Definition op_traces (op : Op) : list (list Span) :=
  match op with Traces _ traces => traces | _ => [] end.

(** The request of the span that security information is attached to. *)
Definition request_of (trace : list Span) : option string :=
  s ← List.find is_service_entry trace; meta s !! "request_id"%string.

(** The requests for which a trace is held. *)
Definition holding (p : Proc) : list string :=
  omap (fun c => (fun _ => rid c) <$> held_trace c) (context_buffer p).

(** What every operation keeps: the buffer, and each trace in the log or held. *)
Record kept (p : Proc) (log traces : list (list Span)) (p' : Proc) (log' : list (list Span)) : Prop := {
  kept_wf : wf p';
  kept_traces : (ids <$> log') ++ held (context_buffer p') ≡ₚ
                (ids <$> log) ++ held (context_buffer p) ++ (ids <$> traces);
  kept_holding : forall r, r ∈ holding p' -> r ∈ holding p \/ r ∈ omap request_of traces;
  kept_capacity : buffer_capacity p' = buffer_capacity p;
}.

Lemma holding_lookup (p : Proc) r :
  r ∈ holding p <-> exists c, c ∈ context_buffer p /\ rid c = r /\ held_trace c <> None.
Proof.
  unfold holding. rewrite list_elem_of_omap. split.
  - intros (c & Hc & Hr). exists c. destruct (held_trace c); [|done]. by injection Hr.
  - intros (c & Hc & <- & Hh). exists c. split; [done|]. by destruct (held_trace c).
Qed.

Lemma new_context_kept p log r :
  wf p -> exists p' log', new_context tags_iter p log 0 r = Done (p', log') /\ kept p log [] p' log' /\
    exists b, context_buffer p' = b ++ [Context_new r (ruleset_version p) (proc_waf_timeout p)].
Proof.
  intros Hwf. unfold new_context. destruct (make_room p r) as [dropped b] eqn:Hm.
  destruct (make_room_spec _ _ _ _ Hwf Hm) as ((b1 & b2 & Hb & ->) & Hnin & Hlt).
  pose proof Hwf as (Hnd & Hok & Hcap & Hlen).
  assert (Hflush : exists log', (match dropped with
      | Some ctx => '(_, sender) ← set_response_seen tags_iter ctx log 0; Done sender
      | None => Done log end) = Done log' /\
      ids <$> log' = (ids <$> log) ++ held (option_list dropped)).
  { destruct dropped as [c|]; [|exists log; by rewrite app_nil_r].
    assert (Hc : ctx_ok c) by (rewrite Hb in Hok; by apply Forall_app in Hok as [_ [? _]%Forall_cons]).
    destruct (seen_spec c log 0 Hc) as (log' & -> & Hl). exists log'. split; [done|].
    rewrite Hl. by f_equal. }
  destruct Hflush as (log' & -> & Hl). cbn. eexists _, _. split; [done|].
  split; [|by eexists]. rewrite Hb in Hnd, Hok, Hlen. split.
  - unfold wf. cbn. split; [|split; [|split; [exact Hcap|rewrite length_app; cbn; lia]]].
    + rewrite fmap_app. apply NoDup_app. split; [|split; [set_solver|apply NoDup_singleton]].
      rewrite !fmap_app in Hnd. rewrite fmap_app.
      apply NoDup_app in Hnd as (Hn1 & Hn2 & (Hn3 & Hn4 & Hn5)%NoDup_app). apply NoDup_app. set_solver.
    + apply Forall_app in Hok as [Hb1 [_ Hb2]%Forall_app]. rewrite !Forall_app, Forall_singleton. done.
  - cbn. rewrite Hl, Hb, !held_app, app_nil_r. cbn. rewrite app_nil_r. solve_Permutation.
  - intros r' (c & Hc & Hr & Hh)%holding_lookup. left. apply holding_lookup. exists c.
    split; [|done]. cbn in Hc. rewrite Hb. set_unfold. destruct Hc as [?|[->|[]]]; [tauto|done].
  - done.
Qed.

Lemma kept_refl p log : wf p -> kept p log [] p log.
Proof. intros Hwf. split; [done|by rewrite app_nil_r|tauto|done]. Qed.

Lemma kept_trans p log t1 p1 log1 t2 p2 log2 :
  kept p log t1 p1 log1 -> kept p1 log1 t2 p2 log2 -> kept p log (t1 ++ t2) p2 log2.
Proof.
  intros [_ Ht1 Hh1 Hc1] [Hwf Ht2 Hh2 Hc2]. split; [done| | |congruence].
  - rewrite Ht2, fmap_app, !app_assoc, Ht1. solve_Permutation.
  - intros r Hr. rewrite omap_app, elem_of_app. destruct (Hh2 r Hr) as [Hr'|?]; [|tauto].
    destruct (Hh1 r Hr'); tauto.
Qed.

(** An operation that replaces one context [c] by [c'] in its place. *)
Lemma replace_kept p p' b1 c c' b2 log log' traces :
  wf p -> context_buffer p = b1 ++ c :: b2 -> context_buffer p' = b1 ++ c' :: b2 ->
  buffer_capacity p' = buffer_capacity p -> rid c' = rid c -> ctx_ok c' ->
  (ids <$> log') ++ held [c'] ≡ₚ (ids <$> log) ++ held [c] ++ (ids <$> traces) ->
  (held_trace c' <> None -> held_trace c <> None \/ rid c ∈ omap request_of traces) ->
  kept p log traces p' log'.
Proof.
  intros (Hnd & Hok & Hcap & Hlen) Hb Hb' Hc Hr Hok' Ht Hh. rewrite Hb in *. split.
  - unfold wf. rewrite Hb', Hc. split; [|split; [|split; [done|]]].
    + rewrite fmap_app, fmap_cons, Hr. by rewrite fmap_app, fmap_cons in Hnd.
    + apply Forall_app in Hok as [? [_ ?]%Forall_cons]. apply Forall_app. by rewrite Forall_cons.
    + rewrite length_app in *. cbn in *. lia.
  - rewrite Hb', Hb. change (c' :: b2) with ([c'] ++ b2). change (c :: b2) with ([c] ++ b2). rewrite !held_app.
    transitivity (held b1 ++ held b2 ++ (ids <$> log') ++ held [c']); [solve_Permutation|].
    rewrite Ht. solve_Permutation.
  - intros r (x & Hx & <- & Hn)%holding_lookup. rewrite Hb' in Hx. rewrite holding_lookup, Hb.
    assert (Hc3 : x = c' \/ x ∈ b1 ++ c :: b2) by set_solver. destruct Hc3 as [->|?]; [|by eauto].
    rewrite Hr. destruct (Hh Hn); [|tauto]. left. exists c. set_solver.
  - done.
Qed.

Lemma same_hold_kept p b1 c c' b2 p' log :
  wf p -> context_buffer p = b1 ++ c :: b2 -> context_buffer p' = b1 ++ c' :: b2 ->
  buffer_capacity p' = buffer_capacity p -> same_hold c c' -> kept p log [] p' log.
Proof.
  intros Hwf Hb Hb' Hcap (Hr & Hs & Hh). eapply replace_kept; [done|done|done|done|done| | |].
  - destruct Hwf as (_ & Hok & _). rewrite Hb in Hok.
    apply Forall_app in Hok as [_ [Hc _]%Forall_cons]. unfold ctx_ok in *. by rewrite Hs, Hh.
  - cbn. unfold held. cbn. rewrite Hh. by rewrite app_nil_r.
  - rewrite Hh. tauto.
Qed.

Lemma next_kept p log r payload :
  wf p -> exists p' log', process_invocation_next tags_iter p log 0 r payload = Done (p', log') /\
    kept p log [] p' log'.
Proof.
  intros Hwf. unfold process_invocation_next. destruct (is_unknown payload); [by eauto using kept_refl|].
  destruct (new_context_kept p log r Hwf) as (p1 & log1 & -> & Hk & b & Hb). cbn.
  eexists _, _. split; [done|]. destruct (get_context p1 r) as [c|] eqn:Hg.
  - destruct (get_context_split _ _ _ Hg) as (b1 & b2 & Hb1 & _ & Hu).
    apply (kept_trans _ _ [] _ _ [] _ _ Hk). eapply same_hold_kept; [apply Hk|exact Hb1| |done|apply run_same].
    cbn. by rewrite Hu.
  - exfalso. unfold get_context in Hg.
    assert (Hin : Context_new r (ruleset_version p) (proc_waf_timeout p) ∈ context_buffer p1) by
      (rewrite Hb; set_solver).
    apply list_elem_of_In in Hin. apply (List.find_none _ _ Hg) in Hin. by rewrite bool_decide_eq_true_2 in Hin.
Qed.

(** Once the response of a request is in, its trace is no longer held. *)
Lemma result_kept p log r payload instant :
  wf p -> exists p' log', process_invocation_result tags_iter p log 0 instant r payload = Done (p', log') /\
    kept p log [] p' log' /\ r ∉ holding p'.
Proof.
  intros Hwf. unfold process_invocation_result. destruct (get_context p r) as [c|] eqn:Hg.
  - destruct (get_context_split _ _ _ Hg) as (b1 & b2 & Hb & Hr & Hu).
    pose proof (analyse_same p c payload instant) as Hs.
    destruct (analyse_response p c payload instant) as [c1 sampler]. cbn in Hs.
    destruct Hs as (Hr1 & Hs1 & Hh1). pose proof Hwf as (Hnd & Hok & _). rewrite Hb in Hnd, Hok.
    apply Forall_app in Hok as [_ [Hc _]%Forall_cons].
    destruct (seen_spec c1 log 0) as (log' & -> & Hl); [unfold ctx_ok in *; by rewrite Hs1, Hh1|]. cbn.
    eexists _, _. split; [done|]. split.
    + eapply replace_kept with (c' := set_held c1 true None); [done|exact Hb|cbn; by rewrite Hu|done|done|done| |done].
      rewrite Hl, Hh1, held_cons. cbn. by rewrite !app_nil_r.
    + intros (x & Hx & Hxr & Hn)%holding_lookup. cbn in Hx. rewrite Hu in Hx.
      rewrite fmap_app, fmap_cons in Hnd. apply NoDup_app in Hnd as (_ & Hd & [Hd2 _]%NoDup_cons).
      rewrite <- Hxr in Hr. set_unfold. destruct Hx as [Hx|[->|Hx]]; [|done|]; naive_solver.
  - exists p, log. split; [done|]. split; [by apply kept_refl|].
    intros (x & Hx & Hxr & _)%holding_lookup. unfold get_context in Hg.
    apply list_elem_of_In in Hx. apply (List.find_none _ _ Hg) in Hx. by rewrite bool_decide_eq_true_2 in Hx.
Qed.

(** A context that holds nothing may be dropped. *)
Lemma delete_kept p r log :
  wf p -> (forall c, get_context p r = Some c -> held_trace c = None) -> kept p log [] (delete_context p r) log.
Proof.
  intros Hwf Hn. unfold delete_context.
  destruct (position r (context_buffer p)) as [i|] eqn:Hp; [|by apply kept_refl].
  destruct (position_split _ _ _ Hp) as (c & Hi & Hr & Hb & Hnin). unfold remove_at.
  set (b1 := take i (context_buffer p)) in *. set (b2 := drop (S i) (context_buffer p)) in *.
  assert (Hg : get_context p r = Some c).
  { unfold get_context. rewrite Hb. clear -Hnin Hr. induction b1 as [|x b1 IH]; cbn in *.
    - by rewrite bool_decide_eq_true_2.
    - rewrite bool_decide_eq_false_2 by set_solver. apply IH. set_solver. }
  apply Hn in Hg. destruct Hwf as (Hnd & Hok & Hcap & Hlen). rewrite Hb in Hnd, Hok, Hlen.
  rewrite fmap_app, fmap_cons in Hnd. apply NoDup_app in Hnd as (Hn1 & Hn2 & [Hn3 Hn4]%NoDup_cons).
  apply Forall_app in Hok as [? [_ ?]%Forall_cons]. split.
  - unfold wf. cbn. split; [|split; [by apply Forall_app|split; [done|]]].
    + rewrite fmap_app. apply NoDup_app. set_solver.
    + rewrite length_app in *. cbn in Hlen. lia.
  - cbn. rewrite Hb, !held_app, held_cons, Hg. cbn. by rewrite app_nil_r.
  - intros r' (x & Hx & Hr' & Hh)%holding_lookup. left. apply holding_lookup. exists x. cbn in Hx.
    rewrite Hb. set_solver.
  - done.
Qed.

Lemma pass_kept p log trace trace' :
  wf p -> ids trace' = ids trace -> kept p log [trace] p (log ++ [trace']).
Proof.
  intros Hwf Hids. split; [done| |tauto|done]. rewrite fmap_app. cbn. rewrite Hids. solve_Permutation.
Qed.

(** A trace is passed on, or held by a context that held none. *)
Lemma hold_or_pass_kept args p log trace :
  wf p -> (forall r, request_of trace = Some r -> r ∉ holding p) ->
  let '(passed, p') := hold_or_pass tags_iter args p trace in
  kept p log [trace] p' (log ++ option_list passed).
Proof.
  intros Hwf Hreq. unfold hold_or_pass. unfold request_of in Hreq.
  destruct (List.find is_service_entry trace) as [span|] eqn:Hf; [|by apply pass_kept].
  cbn in Hreq. unfold proc_process_span.
  destruct (meta span !! "request_id"%string) as [r|] eqn:Hm; [|by eapply pass_kept, replace_entry_ids].
  destruct (get_context p r) as [c|] eqn:Hg; [|by eapply pass_kept, replace_entry_ids].
  assert (Hids : ids (update_service_entry (fun _ => process_span tags_iter c span) trace) = ids trace)
    by (by eapply replace_entry_ids, process_span_ids).
  destruct (get_context_split _ _ _ Hg) as (b1 & b2 & Hb & Hr & Hu).
  assert (Hnone : held_trace c = None).
  { apply eq_None_not_Some. intros [h Hh]. apply (Hreq r eq_refl), holding_lookup. exists c.
    rewrite Hb, Hh. set_solver. }
  destruct (is_pending_response c) eqn:Hp; cbn.
  - rewrite app_nil_r. eapply replace_kept; [done|exact Hb|cbn; by rewrite Hu|done| | | |].
    + unfold hold_trace. by rewrite Hp.
    + unfold hold_trace, ctx_ok. rewrite Hp. cbn. unfold is_pending_response in Hp. by destruct (response_seen c).
    + unfold hold_trace. rewrite Hp. unfold held. cbn. rewrite Hnone. cbn. by rewrite <- Hids.
    + intros _. right. cbn. unfold request_of. rewrite Hf. cbn. rewrite Hm. cbn. set_solver.
  - assert (Hk : kept p log [] (delete_context p r) log) by (apply delete_kept; [done|congruence]).
    apply (kept_trans _ _ [] _ _ [trace] _ _ Hk). by apply pass_kept; [apply Hk|].
Qed.

Lemma hold_traces_kept args traces p log :
  wf p -> NoDup (omap request_of traces) -> (forall r, r ∈ omap request_of traces -> r ∉ holding p) ->
  let '(rest, p') := hold_traces tags_iter args p traces in
  kept p log traces p' (log ++ rest).
Proof.
  revert p log. induction traces as [|trace traces IH]; intros p log Hwf Hnd Hdis; cbn.
  { rewrite app_nil_r. by apply kept_refl. }
  assert (Hcons : omap request_of (trace :: traces) = option_list (request_of trace) ++ omap request_of traces)
    by (cbn; by destruct (request_of trace)).
  rewrite Hcons in Hnd, Hdis. apply NoDup_app in Hnd as (_ & Hnin & Hnd).
  pose proof (hold_or_pass_kept args p log trace Hwf) as Hk.
  destruct (hold_or_pass tags_iter args p trace) as [passed p1].
  assert (Hk1 : kept p log [trace] p1 (log ++ option_list passed)).
  { apply Hk. intros r Hr. apply Hdis. rewrite Hr. set_solver. }
  specialize (IH p1 (log ++ option_list passed) (kept_wf _ _ _ _ _ Hk1) Hnd).
  destruct (hold_traces tags_iter args p1 traces) as [rest p2]. rewrite app_assoc.
  apply (kept_trans _ _ [trace] _ _ _ _ _ Hk1), IH. intros r Hr Hh.
  destruct (kept_holding _ _ _ _ _ Hk1 r Hh) as [?|Hin]; [set_solver|].
  apply (Hnin r); [|done]. cbn in Hin. destruct (request_of trace); set_solver.
Qed.

Lemma step_kept p log op :
  wf p -> NoDup (omap request_of (op_traces op)) ->
  (forall r, r ∈ omap request_of (op_traces op) -> r ∉ holding p) ->
  exists p' log', step p log op = Done (p', log') /\ kept p log (op_traces op) p' log'.
Proof.
  intros Hwf Hnd Hdis. destruct op as [r payload|r payload instant|args traces]; cbn.
  - by apply next_kept.
  - destruct (result_kept p log r payload instant Hwf) as (p' & log' & ? & ? & _). by eauto.
  - pose proof (hold_traces_kept args traces p log Hwf Hnd Hdis) as Hk. unfold send_processed_traces.
    destruct (hold_traces tags_iter args p traces) as [rest p']. cbn. by eauto.
Qed.

Lemma steps_kept ops p log :
  wf p -> NoDup (omap request_of (mjoin (op_traces <$> ops))) ->
  (forall r, r ∈ omap request_of (mjoin (op_traces <$> ops)) -> r ∉ holding p) ->
  exists p' log', steps p log ops = Done (p', log') /\ kept p log (mjoin (op_traces <$> ops)) p' log'.
Proof.
  revert p log. induction ops as [|op ops IH]; intros p log Hwf Hnd Hdis; cbn in *.
  { by eauto using kept_refl. }
  rewrite omap_app in Hnd, Hdis. apply NoDup_app in Hnd as (Hnd1 & Hnin & Hnd2).
  destruct (step_kept p log op Hwf Hnd1) as (p1 & log1 & -> & Hk1); [set_solver|]. cbn.
  destruct (IH p1 log1 (kept_wf _ _ _ _ _ Hk1) Hnd2) as (p2 & log2 & -> & Hk2).
  { intros r Hr Hh. destruct (kept_holding _ _ _ _ _ Hk1 r Hh); set_solver. }
  exists p2, log2. split; [done|]. by eapply kept_trans.
Qed.

Lemma get_context_update (p : Proc) r c f :
  get_context p r = Some c -> rid (f c) = rid c ->
  get_context (set_buffer p (update_first r f (context_buffer p))) r = Some (f c).
Proof.
  unfold get_context. cbn. induction (context_buffer p) as [|c0 b IH]; cbn; [done|].
  destruct (bool_decide_reflect (rid c0 = r)) as [Hr|Hr].
  - intros [= ->] Hf. rewrite decide_True by done. cbn. rewrite bool_decide_eq_true_2; [done|congruence].
  - intros Hc Hf. rewrite decide_False by done. cbn. rewrite bool_decide_eq_false_2 by done. by apply IH.
Qed.

(** While its response is pending, the context of a request holds the last trace given to it. *)
Lemma pending_holds_trace args (p : Proc) r c trace :
  get_context p r = Some c -> is_pending_response c = true -> request_of trace = Some r ->
  exists p' trace', hold_or_pass tags_iter args p trace = (None, p') /\
    get_context p' r = Some (set_held c (response_seen c) (Some (trace', args))) /\ ids trace' = ids trace.
Proof.
  unfold request_of, hold_or_pass. intros Hg Hp Hreq.
  destruct (List.find is_service_entry trace) as [span|] eqn:Hf; cbn in Hreq; [|done].
  unfold proc_process_span. rewrite Hreq, Hg, Hp. eexists _, _. split; [done|]. split.
  - rewrite (get_context_update _ _ _ _ Hg); unfold hold_trace; by rewrite Hp.
  - by eapply replace_entry_ids, process_span_ids.
Qed.

(** The hypothesis below is needed: the second trace of a pending request replaces the
    first, which is neither handed over nor held. *)
Lemma second_trace_replaces args (p : Proc) r c t1 t2 :
  get_context p r = Some c -> is_pending_response c = true ->
  request_of t1 = Some r -> request_of t2 = Some r ->
  exists p' c' trace', hold_traces tags_iter args p [t1; t2] = ([], p') /\ get_context p' r = Some c' /\
    held_trace c' = Some (trace', args) /\ ids trace' = ids t2.
Proof.
  intros Hg Hp Hr1 Hr2. cbn.
  destruct (pending_holds_trace args p r c t1 Hg Hp Hr1) as (p1 & t1' & -> & Hg1 & _).
  destruct (pending_holds_trace args p1 r _ t2 Hg1 Hp Hr2) as (p2 & t2' & -> & Hg2 & Hids).
  by eexists _, _, t2'.
Qed.

(** C8: traces wait for the response of their request without loss. Whatever the order of
    invocations, responses and traces, and whichever contexts a full buffer drops, every trace
    received is handed over once or held once, provided that no request has two. A trace is
    only held for a request whose response is pending, which the response releases; and the
    buffer never exceeds its capacity. *)
Theorem held_traces_conserved load_rules cfg capacity sampler_capacity p ops :
  with_capacity load_rules cfg capacity sampler_capacity = inl p -> (0 < capacity)%nat ->
  NoDup (omap request_of (mjoin (op_traces <$> ops))) ->
  exists (p' : Proc) log, steps p [] ops = Done (p', log) /\
    (ids <$> log) ++ held (context_buffer p') ≡ₚ ids <$> mjoin (op_traces <$> ops) /\
    (forall c, c ∈ context_buffer p' -> held_trace c <> None -> is_pending_response c = true) /\
    (length (context_buffer p') <= capacity)%nat /\
    forall r payload instant, exists p'' log'',
      step p' log (Result r payload instant) = Done (p'', log'') /\ r ∉ holding p''.
Proof.
  intros Hp Hcap Hnd. unfold with_capacity in Hp.
  destruct (serverless_appsec_enabled cfg); cbn in Hp; [|done].
  destruct (load_rules (appsec_rules cfg)) as [version|]; [|done]. injection Hp as <-.
  set (p := Build_Processor _ _ _ _ _).
  assert (Hwf : wf p) by (split; [apply NoDup_nil_2|split; [by apply Forall_nil|split; cbn; lia]]).
  destruct (steps_kept ops p [] Hwf Hnd) as (p' & log & Hs & Hk); [set_solver|].
  exists p', log. split; [done|]. destruct Hk as [Hwf' Ht _ Hc]. split; [by rewrite Ht|].
  pose proof Hwf' as (_ & Hok & _ & Hlen). split; [|split].
  - intros c Hin Hh. apply (proj1 (Forall_forall _ _) Hok) in Hin. unfold is_pending_response, ctx_ok in *.
    destruct (response_seen c); [|done]. by specialize (Hin eq_refl).
  - by rewrite Hc in Hlen.
  - intros r payload instant. destruct (result_kept p' log r payload instant Hwf') as (p2 & log2 & ? & _ & ?).
    by exists p2, log2.
Qed.
End Holding.
End Holding.

(** * Sampling of endpoints *)

Module Sampling.
Import ApiSecSampler.

(** The decisions for a sequence of endpoints, by their hash and the time of the request. *)
Fixpoint decisions (self : t) (reqs : list (Z * Z)) : list bool :=
  match reqs with
  | [] => []
  | (hash, now) :: reqs =>
      let '(sampled, self) := decision_for_hash self hash now in sampled :: decisions self reqs
  end.

(** What they should be: an endpoint is sampled unless it was within the interval. *)
Fixpoint due (interval : Z) (last : gmap Z Z) (reqs : list (Z * Z)) : list bool :=
  match reqs with
  | [] => []
  | (hash, now) :: reqs =>
      let sampled := match last !! hash with Some t => interval <=? now - t | None => true end in
      sampled :: due interval (if sampled then <[hash := now]> last else last) reqs
  end.

(** The table knows the last sample of each endpoint of a set. *)
Definition knows (self : t) (last : gmap Z Z) (hashes : gset Z) : Prop :=
  NoDup (data self).*1 /\ (forall h x, (h, x) ∈ data self <-> last !! h = Some x) /\
  dom last ⊆ hashes /\ (size hashes <= capacity self)%nat.

Lemma find_entry (d : list (Z * Z)) h :
  match List.find (fun e => e.1 =? h) d with
  | Some (h', x) => h' = h /\ (h, x) ∈ d
  | None => forall x, (h, x) ∉ d
  end.
Proof.
  induction d as [|[h0 x0] d IH]; cbn; [set_solver|]. destruct (Z.eqb_spec h0 h) as [->|Hne]; [set_solver|].
  destruct (List.find _ d) as [[h' x]|]; set_solver.
Qed.

Lemma others_all (d : list (Z * Z)) h : (forall x, (h, x) ∉ d) -> filter (fun e => e.1 <> h) d = d.
Proof.
  induction d as [|[h0 x0] d IH]; intros Hn; [done|].
  rewrite filter_cons_True; [f_equal; apply IH; set_solver|]. intros <-. apply (Hn x0). set_solver.
Qed.

(** Moving an entry to the back with a time updates the map at its key. *)
Lemma touch_entry (d : list (Z * Z)) (last : gmap Z Z) h x :
  NoDup d.*1 -> (forall h x, (h, x) ∈ d <-> last !! h = Some x) ->
  NoDup (filter (fun e => e.1 <> h) d ++ [(h, x)]).*1 /\
  (forall h' y, (h', y) ∈ filter (fun e => e.1 <> h) d ++ [(h, x)] <-> <[h := x]> last !! h' = Some y).
Proof.
  intros Hnd Hl. split.
  - rewrite fmap_app. apply NoDup_app. split; [|split; [|apply NoDup_singleton]].
    + clear Hl. induction d as [|[h0 x0] d IH]; [constructor|]. cbn in Hnd. apply NoDup_cons in Hnd as [Hn Hnd].
      rewrite filter_cons. case_decide; [|by apply IH]. rewrite fmap_cons. apply NoDup_cons. split; [|by apply IH].
      cbn. intros (e & He & [_ Hin]%list_elem_of_filter)%list_elem_of_fmap. apply Hn. rewrite He. by apply list_elem_of_fmap_2.
    + intros h' (e & -> & [Hne _]%list_elem_of_filter)%list_elem_of_fmap. set_solver.
  - intros h' y. rewrite elem_of_app, list_elem_of_filter, list_elem_of_singleton, Hl.
    destruct (decide (h' = h)) as [->|Hne]; [rewrite lookup_insert_eq|rewrite lookup_insert_ne by done];
      cbn; naive_solver.
Qed.

Lemma knows_room self last hashes h :
  knows self last hashes -> last !! h = None -> h ∈ hashes -> (length (data self) < capacity self)%nat.
Proof.
  intros (Hnd & Hl & Hdom & Hcap) Hn Hin.
  rewrite <- (length_fmap fst), <- (size_list_to_set (C := gset Z) (data self).*1 Hnd).
  eapply Nat.lt_le_trans; [|exact Hcap]. apply subset_size.
  assert (h ∉ (list_to_set (data self).*1 : gset Z)).
  { rewrite elem_of_list_to_set. intros ([h' x] & -> & Hx)%list_elem_of_fmap.
    apply Hl in Hx. cbn in Hn. by rewrite Hn in Hx. }
  assert ((list_to_set (data self).*1 : gset Z) ⊆ hashes); [|set_solver].
  intros h' Hh'. rewrite elem_of_list_to_set in Hh'. apply list_elem_of_fmap in Hh' as ([? x] & -> & Hx).
  apply Hl in Hx. apply Hdom. cbn. by apply elem_of_dom_2 in Hx.
Qed.

Lemma decision_knows self last hashes h now :
  knows self last hashes -> h ∈ hashes ->
  let sampled := match last !! h with Some t => interval self <=? now - t | None => true end in
  exists self', decision_for_hash self h now = (sampled, self') /\ interval self' = interval self /\
    knows self' (if sampled then <[h := now]> last else last) hashes.
Proof.
  intros Hk Hin. pose proof Hk as (Hnd & Hl & Hdom & Hcap). unfold decision_for_hash.
  pose proof (find_entry (data self) h) as Hf. destruct (List.find _ (data self)) as [[h' x]|].
  - destruct Hf as [-> Hx]. apply Hl in Hx. rewrite Hx. cbn.
    destruct (interval self <=? now - x); eexists; (split; [done|]); (split; [done|]).
    + destruct (touch_entry _ _ h now Hnd Hl) as [? ?]. split; [done|]. split; [done|]. set_solver.
    + destruct (touch_entry _ _ h x Hnd Hl) as [? Ht]. rewrite insert_id in Ht by done. by split.
  - assert (Hn : last !! h = None).
    { apply eq_None_not_Some. intros [x Hx%Hl]. by apply (Hf x). }
    rewrite Hn. pose proof (knows_room _ _ _ _ Hk Hn Hin). rewrite (proj2 (Nat.leb_gt _ _)) by done.
    eexists. split; [done|]. split; [done|]. destruct (touch_entry _ _ h now Hnd Hl) as [Ht1 Ht2].
    rewrite others_all in Ht1, Ht2 by done.
    split; [done|]. split; [done|]. set_solver.
Qed.

Lemma decisions_due self last hashes reqs :
  knows self last hashes -> (forall e, e ∈ reqs -> e.1 ∈ hashes) ->
  decisions self reqs = due (interval self) last reqs.
Proof.
  revert self last. induction reqs as [|[h now] reqs IH]; intros self last Hk Hin; cbn; [done|].
  destruct (decision_knows self last hashes h now Hk) as (self' & -> & <- & Hk').
  { apply (Hin (h, now)). set_solver. }
  f_equal. apply IH; [done|]. set_solver.
Qed.

(** C37: the table of the API-security sampler implements per-endpoint rate limiting.
    While no more endpoints are in use than the table has room for, an endpoint is sampled
    exactly when it was not sampled within the interval before. *)
Theorem endpoints_sampled_once_per_interval interval capacity reqs :
  (size (list_to_set reqs.*1 : gset Z) <= capacity)%nat ->
  decisions (with_interval interval capacity) reqs = due interval ∅ reqs.
Proof.
  intros Hcap. apply (decisions_due (with_interval interval capacity) ∅ (list_to_set reqs.*1)).
  - split; [constructor|]. split; [intros h x; rewrite lookup_empty; cbn; set_solver|]. split; [set_solver|done].
  - intros e He. apply elem_of_list_to_set. by apply list_elem_of_fmap_2.
Qed.

Lemma endpoints_sampled_once_per_interval_witness :
  decisions (with_interval 30 2) [(1, 0); (2, 5); (1, 15); (1, 30); (2, 31)] = [true; true; false; true; false].
Proof.
  rewrite (endpoints_sampled_once_per_interval 30 2 [(1, 0); (2, 5); (1, 15); (1, 30); (2, 31)]);
    [reflexivity|vm_compute; lia].
Defined.
End Sampling.

Module AppSecSample.

(** A firewall that reports nothing. *)
#[export] Instance waf_ops : WafOps unit unit :=
  {| waf_version := "1.0.0"; new_waf_context := tt; waf_run := fun w _ _ => (None, w); obj_default := tt;
     obj_string := fun _ => tt; obj_map := fun _ => tt; obj_from_json := fun _ => None;
     form_from_reader := fun _ => None; multipart_entries := fun _ _ => []; parse_mime := fun _ => None;
     split_parse := fun _ => []; json_text := fun _ => EmptyString; response_value := fun _ => None;
     fnv_hash := fun _ => 0 |}.

Definition config : Config := Sample.config_with (Configuration.resolve [Source.switches None (Some true)]).

Definition args : HoldArguments :=
  {| ha_config := config; ha_tags_provider := TraceSample.provider; ha_body_size := 1;
     ha_span_pointers := None;
     ha_header_tags := TraceAggregator.owned_from TraceSample.tags |}.

(** The span of an invocation. *)
Definition entry (id : Z) (r : string) : Span :=
  {| service := "svc"; name := "aws.lambda"; resource := "fn"; trace_id := id; span_id := id;
     parent_id := 0; start := 0; duration := 1; error := 0; meta := {[ "request_id"%string := r ]};
     metrics := ∅; type_ := "serverless"; meta_struct := ∅ |}%string.

(** The second invocation takes the place of the first, whose trace waits. *)
Definition ops (trigger : IdentifiedTrigger) : list Holding.Op :=
  [Holding.Next "a" trigger; Holding.Traces args [[entry 1 "a"]; [Span_default]];
   Holding.Next "b" trigger; Holding.Traces args [[entry 2 "b"]]]%string.

Definition sns : IdentifiedTrigger := SnsRecord_ {| SnsEvent.sns := Sample.notification; SnsEvent.event_subscription_arn := None |}.
End AppSecSample.
#[local] Existing Instances Sample.externals AppSecSample.waf_ops.

Lemma held_traces_conserved_witness :
  exists p p' log,
    with_capacity (fun _ => inl "1"%string) AppSecSample.config 1 1 = inl p /\
    Holding.steps map_to_list p [] (AppSecSample.ops AppSecSample.sns) = Done (p', log) /\
    (Holding.ids <$> log) ++ Holding.held (context_buffer p') ≡ₚ [[(1, 1)]; [(0, 0)]; [(2, 2)]].
Proof.
  destruct (with_capacity (W := unit) (fun _ => inl "1"%string) AppSecSample.config 1 1) as [p|] eqn:Hp;
    [|vm_compute in Hp; discriminate].
  destruct (Holding.held_traces_conserved map_to_list (fun _ => inl "1"%string) AppSecSample.config 1 1 p
    (AppSecSample.ops AppSecSample.sns)) as (p' & log & Hs & Ht & _).
  - exact Hp.
  - lia.
  - vm_compute. repeat constructor; set_solver.
  - exists p, p', log. split; [done|]. split; [exact Hs|exact Ht].
Defined.
