(* ===== verification/InvocationProcessor.v ===== *)
(** The invocation processor: [lifecycle/invocation/processor.rs].

    The processor's state is [Processor.t]; every public handler is a definition
    on it. What it hands to other components is kept in the state in the order it
    was handed over: the span batches given to the trace sender ([sent]), the
    checkpoints given to the Data Streams processor ([consumed]), the durable
    contexts forwarded to the logs agent ([forwarded]) and the reporting tasks
    spawned ([usage_tasks]). What a handler reads from the host while it runs
    (clocks, /proc, generated span ids) is its argument [r : Readings]; instants
    and times are in nanoseconds. A handler that can panic returns [outcome]. *)
From S2P Require Import Prelude F64 DataStreams Text TelemetryEvents LogsProcessor EnhancedMetrics.
From S2P Require Import ContextBuffer Triggers TriggerEvents Configuration SpanInferrer.
From stdpp Require Import pretty.
#[local] Open Scope Z_scope.

(** * Constants and inputs *)

Definition PROACTIVE_INITIALIZATION_THRESHOLD_MS : Z := 10000.
Definition DATADOG_INVOCATION_ERROR_MESSAGE_KEY : string := "x-datadog-invocation-error-msg".
Definition DATADOG_INVOCATION_ERROR_TYPE_KEY : string := "x-datadog-invocation-error-type".
Definition DATADOG_INVOCATION_ERROR_STACK_KEY : string := "x-datadog-invocation-error-stack".
Definition DATADOG_INVOCATION_ERROR_KEY : string := "x-datadog-invocation-error".
Definition DATADOG_SPAN_ID_KEY : string := "x-datadog-span-id".
Definition TAG_SAMPLING_PRIORITY : string := "_sampling_priority_v1".

(** The header names of the propagation crate. *)
Definition DATADOG_TRACE_ID_KEY : string := "x-datadog-trace-id".
Definition DATADOG_PARENT_ID_KEY : string := "x-datadog-parent-id".
Definition DATADOG_SAMPLING_PRIORITY_KEY : string := "x-datadog-sampling-priority".
Definition DATADOG_TAGS_KEY : string := "x-datadog-tags".

(** [config/aws.rs]. *)
Record AwsConfig := { region : string; sandbox_init_time : Z; initialization_type : string }.

Definition SNAP_START_VALUE : string := "snap-start".

Definition is_managed_instance_mode (self : AwsConfig) : bool :=
  bool_decide (initialization_type self = LAMBDA_MANAGED_INSTANCES_INIT_TYPE).
Definition is_snapstart (self : AwsConfig) : bool :=
  bool_decide (initialization_type self = SNAP_START_VALUE).

Record Readings := {
  clock_ns : Z;
  clock_s : Z;
  instant : Z;
  proc_runtime : string;
  invoke_network : option NetworkData;
  invoke_cpu : option CPUData;
  invoke_uptime : option f64;
  done_cpu : option CPUData;
  done_uptime : option f64;
  report_network : option NetworkData;
  report_cpu : option CPUData;
  fd_max : f64;
  threads_max : f64;
  inferred_id : Z;
  wrapped_id : Z;
  fresh_trace_id : Z;
  fresh_span_id : Z;
}.

Inductive FirstInvocationMetricStatus :=
| Pending
| InitStartSeen
| HeldBack (timestamp : Z)
| Resolved.

(** One call of [send_processed_traces]. *)
Record SentSpans := {
  spans : list Span;
  body_size : Z;
  sent_client_computed_stats : bool;
  sent_span_pointers : option (list SpanPointer);
}.

(** [u64::try_into::<i64>().unwrap_or_default()], likewise from [u128]. *)
Definition i64_or_default (z : Z) : Z := if z <=? I64_MAX then z else 0.

(** [SystemTime::from(time).duration_since(UNIX_EPOCH).expect(..).as_nanos()] as [i64]. *)
Definition start_time_of (time : Z) : outcome Z :=
  if time <? 0 then Panic else Done (i64_or_default time).

Module Processor.
Section Processor.
Context `{Externals} `{Propagation SamplingPriority}.
Context {SortedTags : Type} (parse_tags : string -> option SortedTags) (ARCH : string)
  (size_of_Span : Z).

Abbreviation ContextBuffer := (@Buffer.t (SpanContext SamplingPriority) Value).
Abbreviation Context_ := (@Buffer.Context_ (SpanContext SamplingPriority)).
Abbreviation Metrics := (@Lambda.t SortedTags).
Abbreviation UsageTask := (@Lambda.UsageTask SortedTags).

Record t := {
  context_buffer : ContextBuffer;
  enhanced_metrics : Metrics;
  aws_config : AwsConfig;
  tracer_detected : bool;
  runtime : option string;
  config : Config;
  service_ : string;
  resource_ : string;
  dynamic_tags : gmap string string;
  active_invocations : Z;
  awaiting_first_invocation : bool;
  restore_time : option Z;
  init_duration_metric_emitted : bool;
  dsm_processor : bool;
  dsm_processed_request_ids : gset string;
  first_invocation_metric_status : FirstInvocationMetricStatus;
  sent : list SentSpans;
  consumed : list DsmCheckpointInput;
  forwarded : list DurableContextUpdate;
  usage_tasks : list UsageTask;
}.

Definition set_buffer (self : t) (v : ContextBuffer) : t :=
  {| context_buffer := v; enhanced_metrics := enhanced_metrics self;
     aws_config := aws_config self; tracer_detected := tracer_detected self;
     runtime := runtime self; config := config self; service_ := service_ self;
     resource_ := resource_ self; dynamic_tags := dynamic_tags self;
     active_invocations := active_invocations self;
     awaiting_first_invocation := awaiting_first_invocation self;
     restore_time := restore_time self;
     init_duration_metric_emitted := init_duration_metric_emitted self;
     dsm_processor := dsm_processor self;
     dsm_processed_request_ids := dsm_processed_request_ids self;
     first_invocation_metric_status := first_invocation_metric_status self; sent := sent self;
     consumed := consumed self; forwarded := forwarded self; usage_tasks := usage_tasks self |}.
Definition set_metrics (self : t) (v : Metrics) : t :=
  {| context_buffer := context_buffer self; enhanced_metrics := v; aws_config := aws_config self;
     tracer_detected := tracer_detected self; runtime := runtime self; config := config self;
     service_ := service_ self; resource_ := resource_ self; dynamic_tags := dynamic_tags self;
     active_invocations := active_invocations self;
     awaiting_first_invocation := awaiting_first_invocation self;
     restore_time := restore_time self;
     init_duration_metric_emitted := init_duration_metric_emitted self;
     dsm_processor := dsm_processor self;
     dsm_processed_request_ids := dsm_processed_request_ids self;
     first_invocation_metric_status := first_invocation_metric_status self; sent := sent self;
     consumed := consumed self; forwarded := forwarded self; usage_tasks := usage_tasks self |}.
Definition set_tracer_detected (self : t) (v : bool) : t :=
  {| context_buffer := context_buffer self; enhanced_metrics := enhanced_metrics self;
     aws_config := aws_config self; tracer_detected := v; runtime := runtime self;
     config := config self; service_ := service_ self; resource_ := resource_ self;
     dynamic_tags := dynamic_tags self; active_invocations := active_invocations self;
     awaiting_first_invocation := awaiting_first_invocation self;
     restore_time := restore_time self;
     init_duration_metric_emitted := init_duration_metric_emitted self;
     dsm_processor := dsm_processor self;
     dsm_processed_request_ids := dsm_processed_request_ids self;
     first_invocation_metric_status := first_invocation_metric_status self; sent := sent self;
     consumed := consumed self; forwarded := forwarded self; usage_tasks := usage_tasks self |}.
Definition set_runtime (self : t) (v : option string) : t :=
  {| context_buffer := context_buffer self; enhanced_metrics := enhanced_metrics self;
     aws_config := aws_config self; tracer_detected := tracer_detected self; runtime := v;
     config := config self; service_ := service_ self; resource_ := resource_ self;
     dynamic_tags := dynamic_tags self; active_invocations := active_invocations self;
     awaiting_first_invocation := awaiting_first_invocation self;
     restore_time := restore_time self;
     init_duration_metric_emitted := init_duration_metric_emitted self;
     dsm_processor := dsm_processor self;
     dsm_processed_request_ids := dsm_processed_request_ids self;
     first_invocation_metric_status := first_invocation_metric_status self; sent := sent self;
     consumed := consumed self; forwarded := forwarded self; usage_tasks := usage_tasks self |}.
Definition set_dynamic_tags (self : t) (v : gmap string string) : t :=
  {| context_buffer := context_buffer self; enhanced_metrics := enhanced_metrics self;
     aws_config := aws_config self; tracer_detected := tracer_detected self;
     runtime := runtime self; config := config self; service_ := service_ self;
     resource_ := resource_ self; dynamic_tags := v;
     active_invocations := active_invocations self;
     awaiting_first_invocation := awaiting_first_invocation self;
     restore_time := restore_time self;
     init_duration_metric_emitted := init_duration_metric_emitted self;
     dsm_processor := dsm_processor self;
     dsm_processed_request_ids := dsm_processed_request_ids self;
     first_invocation_metric_status := first_invocation_metric_status self; sent := sent self;
     consumed := consumed self; forwarded := forwarded self; usage_tasks := usage_tasks self |}.
Definition set_active_invocations (self : t) (v : Z) : t :=
  {| context_buffer := context_buffer self; enhanced_metrics := enhanced_metrics self;
     aws_config := aws_config self; tracer_detected := tracer_detected self;
     runtime := runtime self; config := config self; service_ := service_ self;
     resource_ := resource_ self; dynamic_tags := dynamic_tags self; active_invocations := v;
     awaiting_first_invocation := awaiting_first_invocation self;
     restore_time := restore_time self;
     init_duration_metric_emitted := init_duration_metric_emitted self;
     dsm_processor := dsm_processor self;
     dsm_processed_request_ids := dsm_processed_request_ids self;
     first_invocation_metric_status := first_invocation_metric_status self; sent := sent self;
     consumed := consumed self; forwarded := forwarded self; usage_tasks := usage_tasks self |}.
Definition set_awaiting_first_invocation (self : t) (v : bool) : t :=
  {| context_buffer := context_buffer self; enhanced_metrics := enhanced_metrics self;
     aws_config := aws_config self; tracer_detected := tracer_detected self;
     runtime := runtime self; config := config self; service_ := service_ self;
     resource_ := resource_ self; dynamic_tags := dynamic_tags self;
     active_invocations := active_invocations self; awaiting_first_invocation := v;
     restore_time := restore_time self;
     init_duration_metric_emitted := init_duration_metric_emitted self;
     dsm_processor := dsm_processor self;
     dsm_processed_request_ids := dsm_processed_request_ids self;
     first_invocation_metric_status := first_invocation_metric_status self; sent := sent self;
     consumed := consumed self; forwarded := forwarded self; usage_tasks := usage_tasks self |}.
Definition set_restore_time (self : t) (v : option Z) : t :=
  {| context_buffer := context_buffer self; enhanced_metrics := enhanced_metrics self;
     aws_config := aws_config self; tracer_detected := tracer_detected self;
     runtime := runtime self; config := config self; service_ := service_ self;
     resource_ := resource_ self; dynamic_tags := dynamic_tags self;
     active_invocations := active_invocations self;
     awaiting_first_invocation := awaiting_first_invocation self; restore_time := v;
     init_duration_metric_emitted := init_duration_metric_emitted self;
     dsm_processor := dsm_processor self;
     dsm_processed_request_ids := dsm_processed_request_ids self;
     first_invocation_metric_status := first_invocation_metric_status self; sent := sent self;
     consumed := consumed self; forwarded := forwarded self; usage_tasks := usage_tasks self |}.
Definition set_init_duration_metric_emitted (self : t) (v : bool) : t :=
  {| context_buffer := context_buffer self; enhanced_metrics := enhanced_metrics self;
     aws_config := aws_config self; tracer_detected := tracer_detected self;
     runtime := runtime self; config := config self; service_ := service_ self;
     resource_ := resource_ self; dynamic_tags := dynamic_tags self;
     active_invocations := active_invocations self;
     awaiting_first_invocation := awaiting_first_invocation self;
     restore_time := restore_time self; init_duration_metric_emitted := v;
     dsm_processor := dsm_processor self;
     dsm_processed_request_ids := dsm_processed_request_ids self;
     first_invocation_metric_status := first_invocation_metric_status self; sent := sent self;
     consumed := consumed self; forwarded := forwarded self; usage_tasks := usage_tasks self |}.
Definition set_dsm_processor (self : t) (v : bool) : t :=
  {| context_buffer := context_buffer self; enhanced_metrics := enhanced_metrics self;
     aws_config := aws_config self; tracer_detected := tracer_detected self;
     runtime := runtime self; config := config self; service_ := service_ self;
     resource_ := resource_ self; dynamic_tags := dynamic_tags self;
     active_invocations := active_invocations self;
     awaiting_first_invocation := awaiting_first_invocation self;
     restore_time := restore_time self;
     init_duration_metric_emitted := init_duration_metric_emitted self; dsm_processor := v;
     dsm_processed_request_ids := dsm_processed_request_ids self;
     first_invocation_metric_status := first_invocation_metric_status self; sent := sent self;
     consumed := consumed self; forwarded := forwarded self; usage_tasks := usage_tasks self |}.
Definition set_dsm_processed_request_ids (self : t) (v : gset string) : t :=
  {| context_buffer := context_buffer self; enhanced_metrics := enhanced_metrics self;
     aws_config := aws_config self; tracer_detected := tracer_detected self;
     runtime := runtime self; config := config self; service_ := service_ self;
     resource_ := resource_ self; dynamic_tags := dynamic_tags self;
     active_invocations := active_invocations self;
     awaiting_first_invocation := awaiting_first_invocation self;
     restore_time := restore_time self;
     init_duration_metric_emitted := init_duration_metric_emitted self;
     dsm_processor := dsm_processor self; dsm_processed_request_ids := v;
     first_invocation_metric_status := first_invocation_metric_status self; sent := sent self;
     consumed := consumed self; forwarded := forwarded self; usage_tasks := usage_tasks self |}.
Definition set_first_invocation_metric_status (self : t) (v : FirstInvocationMetricStatus) : t :=
  {| context_buffer := context_buffer self; enhanced_metrics := enhanced_metrics self;
     aws_config := aws_config self; tracer_detected := tracer_detected self;
     runtime := runtime self; config := config self; service_ := service_ self;
     resource_ := resource_ self; dynamic_tags := dynamic_tags self;
     active_invocations := active_invocations self;
     awaiting_first_invocation := awaiting_first_invocation self;
     restore_time := restore_time self;
     init_duration_metric_emitted := init_duration_metric_emitted self;
     dsm_processor := dsm_processor self;
     dsm_processed_request_ids := dsm_processed_request_ids self;
     first_invocation_metric_status := v; sent := sent self; consumed := consumed self;
     forwarded := forwarded self; usage_tasks := usage_tasks self |}.
Definition set_sent (self : t) (v : list SentSpans) : t :=
  {| context_buffer := context_buffer self; enhanced_metrics := enhanced_metrics self;
     aws_config := aws_config self; tracer_detected := tracer_detected self;
     runtime := runtime self; config := config self; service_ := service_ self;
     resource_ := resource_ self; dynamic_tags := dynamic_tags self;
     active_invocations := active_invocations self;
     awaiting_first_invocation := awaiting_first_invocation self;
     restore_time := restore_time self;
     init_duration_metric_emitted := init_duration_metric_emitted self;
     dsm_processor := dsm_processor self;
     dsm_processed_request_ids := dsm_processed_request_ids self;
     first_invocation_metric_status := first_invocation_metric_status self; sent := v;
     consumed := consumed self; forwarded := forwarded self; usage_tasks := usage_tasks self |}.
Definition set_consumed (self : t) (v : list DsmCheckpointInput) : t :=
  {| context_buffer := context_buffer self; enhanced_metrics := enhanced_metrics self;
     aws_config := aws_config self; tracer_detected := tracer_detected self;
     runtime := runtime self; config := config self; service_ := service_ self;
     resource_ := resource_ self; dynamic_tags := dynamic_tags self;
     active_invocations := active_invocations self;
     awaiting_first_invocation := awaiting_first_invocation self;
     restore_time := restore_time self;
     init_duration_metric_emitted := init_duration_metric_emitted self;
     dsm_processor := dsm_processor self;
     dsm_processed_request_ids := dsm_processed_request_ids self;
     first_invocation_metric_status := first_invocation_metric_status self; sent := sent self;
     consumed := v; forwarded := forwarded self; usage_tasks := usage_tasks self |}.
Definition set_forwarded (self : t) (v : list DurableContextUpdate) : t :=
  {| context_buffer := context_buffer self; enhanced_metrics := enhanced_metrics self;
     aws_config := aws_config self; tracer_detected := tracer_detected self;
     runtime := runtime self; config := config self; service_ := service_ self;
     resource_ := resource_ self; dynamic_tags := dynamic_tags self;
     active_invocations := active_invocations self;
     awaiting_first_invocation := awaiting_first_invocation self;
     restore_time := restore_time self;
     init_duration_metric_emitted := init_duration_metric_emitted self;
     dsm_processor := dsm_processor self;
     dsm_processed_request_ids := dsm_processed_request_ids self;
     first_invocation_metric_status := first_invocation_metric_status self; sent := sent self;
     consumed := consumed self; forwarded := v; usage_tasks := usage_tasks self |}.
Definition set_usage_tasks (self : t) (v : list UsageTask) : t :=
  {| context_buffer := context_buffer self; enhanced_metrics := enhanced_metrics self;
     aws_config := aws_config self; tracer_detected := tracer_detected self;
     runtime := runtime self; config := config self; service_ := service_ self;
     resource_ := resource_ self; dynamic_tags := dynamic_tags self;
     active_invocations := active_invocations self;
     awaiting_first_invocation := awaiting_first_invocation self;
     restore_time := restore_time self;
     init_duration_metric_emitted := init_duration_metric_emitted self;
     dsm_processor := dsm_processor self;
     dsm_processed_request_ids := dsm_processed_request_ids self;
     first_invocation_metric_status := first_invocation_metric_status self; sent := sent self;
     consumed := consumed self; forwarded := forwarded self; usage_tasks := v |}.

Definition on_buffer (f : ContextBuffer -> ContextBuffer) (self : t) : t :=
  set_buffer self (f (context_buffer self)).
Definition on_metrics (f : Metrics -> Metrics) (self : t) : t :=
  set_metrics self (f (enhanced_metrics self)).

(** Assignments to a context. *)
Definition set_cold_start_span (c : Context_) (v : option Span) : Context_ :=
  {| Buffer.created_at := Buffer.created_at c; Buffer.request_id := Buffer.request_id c;
     Buffer.runtime_duration_ms := Buffer.runtime_duration_ms c;
     Buffer.enhanced_metric_data := Buffer.enhanced_metric_data c;
     Buffer.invocation_span := Buffer.invocation_span c;
     Buffer.runtime_done_received := Buffer.runtime_done_received c;
     Buffer.tracer_span := Buffer.tracer_span c; Buffer.cold_start_span := v;
     Buffer.snapstart_restore_span := Buffer.snapstart_restore_span c;
     Buffer.extracted_span_context := Buffer.extracted_span_context c;
     Buffer.oom_emitted := Buffer.oom_emitted c;
     Buffer.client_computed_stats := Buffer.client_computed_stats c;
     Buffer.inferred := Buffer.inferred c |}.
Definition set_snapstart_restore_span (c : Context_) (v : option Span) : Context_ :=
  {| Buffer.created_at := Buffer.created_at c; Buffer.request_id := Buffer.request_id c;
     Buffer.runtime_duration_ms := Buffer.runtime_duration_ms c;
     Buffer.enhanced_metric_data := Buffer.enhanced_metric_data c;
     Buffer.invocation_span := Buffer.invocation_span c;
     Buffer.runtime_done_received := Buffer.runtime_done_received c;
     Buffer.tracer_span := Buffer.tracer_span c; Buffer.cold_start_span := Buffer.cold_start_span c;
     Buffer.snapstart_restore_span := v;
     Buffer.extracted_span_context := Buffer.extracted_span_context c;
     Buffer.oom_emitted := Buffer.oom_emitted c;
     Buffer.client_computed_stats := Buffer.client_computed_stats c;
     Buffer.inferred := Buffer.inferred c |}.
Definition set_inferred (c : Context_) (v : @Inferred.t (SpanContext SamplingPriority)) : Context_ :=
  {| Buffer.created_at := Buffer.created_at c; Buffer.request_id := Buffer.request_id c;
     Buffer.runtime_duration_ms := Buffer.runtime_duration_ms c;
     Buffer.enhanced_metric_data := Buffer.enhanced_metric_data c;
     Buffer.invocation_span := Buffer.invocation_span c;
     Buffer.runtime_done_received := Buffer.runtime_done_received c;
     Buffer.tracer_span := Buffer.tracer_span c; Buffer.cold_start_span := Buffer.cold_start_span c;
     Buffer.snapstart_restore_span := Buffer.snapstart_restore_span c;
     Buffer.extracted_span_context := Buffer.extracted_span_context c;
     Buffer.oom_emitted := Buffer.oom_emitted c;
     Buffer.client_computed_stats := Buffer.client_computed_stats c;
     Buffer.inferred := v |}.
Definition set_extracted (c : Context_) (v : option (SpanContext SamplingPriority)) : Context_ :=
  {| Buffer.created_at := Buffer.created_at c; Buffer.request_id := Buffer.request_id c;
     Buffer.runtime_duration_ms := Buffer.runtime_duration_ms c;
     Buffer.enhanced_metric_data := Buffer.enhanced_metric_data c;
     Buffer.invocation_span := Buffer.invocation_span c;
     Buffer.runtime_done_received := Buffer.runtime_done_received c;
     Buffer.tracer_span := Buffer.tracer_span c; Buffer.cold_start_span := Buffer.cold_start_span c;
     Buffer.snapstart_restore_span := Buffer.snapstart_restore_span c;
     Buffer.extracted_span_context := v;
     Buffer.oom_emitted := Buffer.oom_emitted c;
     Buffer.client_computed_stats := Buffer.client_computed_stats c;
     Buffer.inferred := Buffer.inferred c |}.
Definition set_oom_emitted (c : Context_) : Context_ :=
  {| Buffer.created_at := Buffer.created_at c; Buffer.request_id := Buffer.request_id c;
     Buffer.runtime_duration_ms := Buffer.runtime_duration_ms c;
     Buffer.enhanced_metric_data := Buffer.enhanced_metric_data c;
     Buffer.invocation_span := Buffer.invocation_span c;
     Buffer.runtime_done_received := Buffer.runtime_done_received c;
     Buffer.tracer_span := Buffer.tracer_span c; Buffer.cold_start_span := Buffer.cold_start_span c;
     Buffer.snapstart_restore_span := Buffer.snapstart_restore_span c;
     Buffer.extracted_span_context := Buffer.extracted_span_context c;
     Buffer.oom_emitted := true;
     Buffer.client_computed_stats := Buffer.client_computed_stats c;
     Buffer.inferred := Buffer.inferred c |}.
Definition set_runtime_done_received (c : Context_) : Context_ :=
  {| Buffer.created_at := Buffer.created_at c; Buffer.request_id := Buffer.request_id c;
     Buffer.runtime_duration_ms := Buffer.runtime_duration_ms c;
     Buffer.enhanced_metric_data := Buffer.enhanced_metric_data c;
     Buffer.invocation_span := Buffer.invocation_span c;
     Buffer.runtime_done_received := true;
     Buffer.tracer_span := Buffer.tracer_span c; Buffer.cold_start_span := Buffer.cold_start_span c;
     Buffer.snapstart_restore_span := Buffer.snapstart_restore_span c;
     Buffer.extracted_span_context := Buffer.extracted_span_context c;
     Buffer.oom_emitted := Buffer.oom_emitted c;
     Buffer.client_computed_stats := Buffer.client_computed_stats c;
     Buffer.inferred := Buffer.inferred c |}.
Definition on_span (f : Span -> Span) (c : Context_) : Context_ :=
  Buffer.set_invocation_span c (f (Buffer.invocation_span c)).
Definition extend_span_meta (tags : gmap string string) (s : Span) : Span :=
  with_meta s (extend (meta s) tags).
Definition insert_span_meta (k v : string) (s : Span) : Span := with_meta s (<[k := v]> (meta s)).

(** * Construction *)

(** [canonical_resource_name] is the function name of the tags provider. *)
Definition new (canonical_resource_name : option string) (config : Config) (aws_config : AwsConfig)
    (enhanced_metrics : Metrics) : t :=
  let resource := default "aws.lambda"%string canonical_resource_name in
  let service := lowercase (get_default_service_name (default resource (cfg_service config))
    "aws.lambda" (trace_aws_service_representation_enabled config)) in
  {| context_buffer := Buffer.default; enhanced_metrics := enhanced_metrics;
     aws_config := aws_config; tracer_detected := false; runtime := None; config := config;
     service_ := service; resource_ := resource; dynamic_tags := ∅; active_invocations := 0;
     awaiting_first_invocation := false; restore_time := None;
     init_duration_metric_emitted := false; dsm_processor := false;
     dsm_processed_request_ids := ∅; first_invocation_metric_status := Pending;
     sent := []; consumed := []; forwarded := []; usage_tasks := [] |}.

Definition attach_dsm_processor (self : t) : t := set_dsm_processor self true.

Definition managed (self : t) : bool := is_managed_instance_mode (aws_config self).

(** [Processor::is_managed_instance_mode]. *)
Definition processor_is_managed_instance_mode (self : t) : bool := managed self.

Definition empty_invocation_span (self : t) : Span :=
  create_empty_span "aws.lambda" (resource_ self) (service_ self).

(** * Initialization *)

Definition millis_since (now earlier : Z) : Z := Z.max 0 (now - earlier) / 1000000.

(** Whether a first invocation is proactive; a cold start otherwise. *)
Definition is_proactive (r : Readings) (self : t) : bool :=
  if is_snapstart (aws_config self) then
    match restore_time self with
    | None => false
    | Some restore_time =>
        PROACTIVE_INITIALIZATION_THRESHOLD_MS <? millis_since (instant r) restore_time
    end
  else PROACTIVE_INITIALIZATION_THRESHOLD_MS
         <? millis_since (instant r) (sandbox_init_time (aws_config self)).

Definition set_init_tags (r : Readings) (self : t) : t :=
  let first := Buffer.is_empty (context_buffer self) in
  let proactive_initialization := first && is_proactive r self in
  let cold_start := first && negb (is_proactive r self) in
  let self := if first then set_runtime self (Some (proc_runtime r)) else self in
  let self :=
    if managed self then self
    else set_dynamic_tags self
           (<["cold_start"%string := Lambda.bool_to_string cold_start]> (dynamic_tags self)) in
  let self :=
    if proactive_initialization
    then set_dynamic_tags self
           (<["proactive_initialization"%string := "true"%string]> (dynamic_tags self))
    else self in
  let self :=
    match runtime self with
    | Some runtime =>
        on_metrics (fun m => Lambda.set_runtime_tag m runtime)
          (set_dynamic_tags self (<["runtime"%string := runtime]> (dynamic_tags self)))
    | None => self
    end in
  on_metrics (fun m => Lambda.set_init_tags m proactive_initialization cold_start) self.

Definition start_context (r : Readings) (request_id : string) (self : t) : t :=
  let invocation_span := empty_invocation_span self in
  let self := set_init_tags r self in
  on_buffer (fun b => Buffer.start_context b (clock_ns r) request_id invocation_span) self.

Definition flush_pending_first_invocation_metric (self : t) : t :=
  match first_invocation_metric_status self with
  | HeldBack timestamp =>
      set_first_invocation_metric_status
        (on_metrics (fun m => Lambda.increment_invocation_metric parse_tags m timestamp) self) Resolved
  | _ => self
  end.

Definition on_platform_init_start (r : Readings) (self : t) (time : Z)
    (runtime_version : option string) : outcome t :=
  let self :=
    match runtime_version with
    | Some rv => if contains "DurableFunction" rv
                 then on_metrics Lambda.set_durable_function_tag self else self
    | None => self
    end in
  let self :=
    match first_invocation_metric_status self with
    | Pending => set_first_invocation_metric_status self InitStartSeen
    | _ => self
    end in
  let self := flush_pending_first_invocation_metric self in
  start_time ← start_time_of time;
  Done
    (if managed self then
       set_awaiting_first_invocation (start_context r EmptyString self) true
     else
       match Buffer.get_closest (context_buffer self) start_time with
       | None => self
       | Some i =>
           let cold_start_span :=
             create_empty_span "aws.lambda.cold_start" (resource_ self) (service_ self) in
           let cold_start_span := with_start (with_span_id cold_start_span (fresh_span_id r)) start_time in
           on_buffer (fun b => Buffer.update_at b i
             (fun c => set_cold_start_span c (Some cold_start_span))) self
       end).

Definition on_platform_init_report (self : t) (init_type : InitType) (duration_ms : f64)
    (timestamp : Z) : t :=
  let self :=
    if init_duration_metric_emitted self then self
    else set_init_duration_metric_emitted
           (on_metrics (fun m => Lambda.set_init_duration_metric parse_tags m init_type duration_ms timestamp)
              self) true in
  let with_duration_ (c : Context_) :=
    set_cold_start_span c
      ((fun s => with_duration s (f64_to_i64 (fmul duration_ms MS_TO_NS))) <$> Buffer.cold_start_span c) in
  if managed self then on_buffer (fun b => Buffer.update_first b EmptyString with_duration_) self
  else
    match Buffer.get_closest (context_buffer self) timestamp with
    | Some i => on_buffer (fun b => Buffer.update_at b i with_duration_) self
    | None => self
    end.

Definition on_platform_restore_start (r : Readings) (self : t) (time : Z) : outcome t :=
  let self := set_restore_time self (Some (instant r)) in
  start_time ← start_time_of time;
  Done
    match Buffer.get_closest (context_buffer self) start_time with
    | None => self
    | Some i =>
        let span := create_empty_span "aws.lambda.snapstart_restore" (resource_ self) (service_ self) in
        let span := with_start (with_span_id span (fresh_span_id r)) start_time in
        on_buffer (fun b => Buffer.update_at b i (fun c => set_snapstart_restore_span c (Some span))) self
    end.

Definition on_platform_restore_report (self : t) (duration_ms : f64) (timestamp : Z) : t :=
  let self := on_metrics (fun m =>
    Lambda.set_snapstart_restore_duration_metric parse_tags m duration_ms timestamp) self in
  match Buffer.get_closest (context_buffer self) timestamp with
  | None => self
  | Some i =>
      on_buffer (fun b => Buffer.update_at b i (fun c =>
        set_snapstart_restore_span c
          ((fun s => with_duration s (f64_to_i64 (fmul duration_ms MS_TO_NS)))
             <$> Buffer.snapstart_restore_span c))) self
  end.

(** * Data Streams checkpoints *)

Definition resolve_dsm_eventbridge_exchange (edge_tags : list string) (configured : option string)
  : list string :=
  if existsb (fun t => bool_decide (t = "type:eventbridge"%string)) edge_tags then
    let payload_exchange := head (omap (str_strip_prefix "exchange:") edge_tags) in
    let exchange :=
      match configured with
      | Some c => c
      | None => default "default"%string payload_exchange
      end in
    filter (fun t => negb (starts_with "exchange:" t)) edge_tags ++ ["exchange:" +:+ exchange]%string
  else edge_tags.

Definition apply_dsm_kafka_group_fallback (edge_tags : list string) (group : option string)
  : list string :=
  match group with
  | Some group =>
      if existsb (fun t => bool_decide (t = "type:kafka"%string)) edge_tags &&
         negb (existsb (starts_with "group:") edge_tags)
      then edge_tags ++ ["group:" +:+ group]%string else edge_tags
  | None => edge_tags
  end.

Definition resolve_checkpoint (config : Config) (c : DsmCheckpointInput) : DsmCheckpointInput :=
  {| edge_tags := apply_dsm_kafka_group_fallback
       (resolve_dsm_eventbridge_exchange (edge_tags c) (dsm_exchange_name config))
       (dsm_kafka_group config);
     carrier := carrier c; payload_size_bytes := payload_size_bytes c |}.

Definition event_checkpoints (payload_value : Value) : list DsmCheckpointInput :=
  match get_trigger_type (identify payload_value) with
  | Some (Dyn trigger) => get_dsm_checkpoints trigger payload_value
  | None => []
  end.

Definition record_dsm_consume_from_payload (self : t) (request_id : string) (payload_value : Value) : t :=
  if dsm_processor self then
    if bool_decide (request_id ∈ dsm_processed_request_ids self) then self
    else
      let self := set_dsm_processed_request_ids self ({[ request_id ]} ∪ dsm_processed_request_ids self) in
      set_consumed self
        (consumed self ++ (resolve_checkpoint (config self) <$> event_checkpoints payload_value))
  else self.

(** * Universal instrumentation: start *)

(** [Processor::extract_span_context]: from the event, then from the headers it
    carries, then from the headers of the request. *)
Definition extract_context (config : Config) (headers : gmap string string) (payload_value : Value)
  : option (SpanContext SamplingPriority) :=
  match extract_span_context config payload_value with
  | Some sc => Some sc
  | None =>
      match (value_get payload_value "request" ≫= fun req => value_get req "headers")
              ≫= fun headers => extract config (JsonCarrier headers) with
      | Some sc => Some sc
      | None =>
          match value_get payload_value "headers"
                  ≫= fun payload_headers => extract config (JsonCarrier payload_headers) with
          | Some sc => Some sc
          | None => extract config (hashmap_extractor headers)
          end
      end
  end.

(** What the start of an instrumented invocation changes in its context. *)
Definition start_instrumented (config : Config) (inferred : @Inferred.t (SpanContext SamplingPriority))
    (headers : gmap string string) (payload_value : Value) (context : Context_) : Context_ :=
  let context := set_inferred context inferred in
  let context :=
    if capture_lambda_payload config then
      on_span (extend_span_meta (get_metadata_from_value "function.request" payload_value 0
                                   (capture_lambda_payload_max_depth config))) context
    else context in
  let context := set_extracted context (extract_context config headers payload_value) in
  let context :=
    match Buffer.extracted_span_context context with
    | Some sc =>
        let context := on_span (fun s =>
          with_parent_id (with_trace_id s (wrap_u64 (sc_trace_id sc))) (sc_span_id sc)) context in
        match Inferred.inferred_span (Buffer.inferred context) with
        | Some _ =>
            set_inferred context (Inferred.extend_meta
              (Inferred.set_parent_id (Buffer.inferred context) (sc_span_id sc)) (sc_tags sc))
        | None => on_span (extend_span_meta (sc_tags sc)) context
        end
    | None => context
    end in
  match Inferred.inferred_span (Buffer.inferred context) with
  | Some inferred_span => on_span (fun s => with_parent_id s (span_id inferred_span)) context
  | None => context
  end.

Definition process_on_universal_instrumentation_start (r : Readings) (self : t) (request_id : string)
    (headers : gmap string string) (payload_value : Value) : t :=
  let inferred := infer_span (config self) (region (aws_config self)) (inferred_id r) (wrapped_id r)
                    payload_value in
  match Buffer.get (context_buffer self) request_id with
  | None => self
  | Some _ =>
      let self := on_buffer (fun b => Buffer.update_first b request_id
        (start_instrumented (config self) inferred headers payload_value)) self in
      record_dsm_consume_from_payload self request_id payload_value
  end.

Definition on_universal_instrumentation_start (r : Readings) (self : t)
    (headers : gmap string string) (payload_value : Value) (request_id : option string) : t :=
  let self := set_tracer_detected self true in
  match request_id with
  | Some req_id =>
      if managed self && is_some (Buffer.get (context_buffer self) req_id)
      then process_on_universal_instrumentation_start r self req_id headers payload_value
      else
        let '(paired, b) := Buffer.pair_universal_instrumentation_start_with_request_id
          (context_buffer self) req_id headers payload_value in
        let self := set_buffer self b in
        if paired : bool
        then process_on_universal_instrumentation_start r self req_id headers payload_value
        else self
  | None =>
      let '(rid, b) := Buffer.pair_universal_instrumentation_start_event
        (context_buffer self) headers payload_value in
      let self := set_buffer self b in
      match rid with
      | Some rid => process_on_universal_instrumentation_start r self rid headers payload_value
      | None => self
      end
  end.

(** * Invocation *)

(** The context of an invocation: the one made at init start, or a new one. *)
Definition begin_context (r : Readings) (request_id : string) (self : t) : t :=
  if managed self && awaiting_first_invocation self then
    let '(found, b) := Buffer.update_empty_context_request_id (context_buffer self) request_id in
    let self := if found : bool then set_buffer self b else start_context r request_id self in
    set_awaiting_first_invocation self false
  else start_context r request_id self.

(** Monitoring and offsets of the system metrics. *)
Definition begin_monitoring (r : Readings) (request_id : string) (self : t) : t :=
  if lambda_proc_enhanced_metrics (config self) then
    let self :=
      if managed self then
        let self := set_active_invocations self (wrap_u64 (active_invocations self + 1)) in
        if active_invocations self =? 1 then on_metrics Lambda.resume_usage_metrics_monitoring self
        else self
      else on_metrics Lambda.restart_usage_metrics_monitoring self in
    on_buffer (fun b => Buffer.add_enhanced_metric_data b request_id
      (Some {| network_offset := invoke_network r; cpu_offset := invoke_cpu r;
               uptime_offset := invoke_uptime r |})) self
  else self.

(** The invocation metric, held back until the durable tag is known. *)
Definition count_invocation (r : Readings) (self : t) : t :=
  let timestamp := i64_or_default (clock_s r) in
  let increment self :=
    on_metrics (fun m => Lambda.increment_invocation_metric parse_tags m timestamp) self in
  match managed self, first_invocation_metric_status self with
  | false, Pending => set_first_invocation_metric_status self (HeldBack timestamp)
  | false, InitStartSeen => set_first_invocation_metric_status (increment self) Resolved
  | _, _ => increment self
  end.

Definition on_invoke_event (r : Readings) (self : t) (request_id : string) : t :=
  let self := begin_context r request_id self in
  let self := begin_monitoring r request_id self in
  let self := count_invocation r self in
  let self := on_metrics Lambda.set_invoked_received self in
  let '(buffered, b) := Buffer.take_universal_instrumentation_start_for_request_id
    (context_buffer self) request_id in
  let self := set_buffer self b in
  match buffered with
  | Some ev =>
      process_on_universal_instrumentation_start r self request_id
        (Buffer.rid_headers ev) (Buffer.rid_payload_value ev)
  | None =>
      if managed self then self
      else
        let '(paired, b) := Buffer.pair_invoke_event (context_buffer self) request_id in
        let self := set_buffer self b in
        match paired with
        | Some (headers, payload_value) =>
            process_on_universal_instrumentation_start r self request_id headers payload_value
        | None => self
        end
  end.

Definition on_platform_start (r : Readings) (self : t) (request_id : string) (time : Z) : outcome t :=
  let self := if managed self then on_invoke_event r self request_id else self in
  start_time ← start_time_of time;
  Done (on_buffer (fun b => Buffer.add_start_time b request_id start_time) self).

(** * Universal instrumentation: end *)

Definition decoded (s : string) : string := default s (base64_to_string s).

Definition get_error_tags_from_headers (headers : gmap string string) (has_error : bool)
  : option (gmap string string) :=
  let message := headers !! DATADOG_INVOCATION_ERROR_MESSAGE_KEY in
  let type := headers !! DATADOG_INVOCATION_ERROR_TYPE_KEY in
  let stack := headers !! DATADOG_INVOCATION_ERROR_STACK_KEY in
  let is_error :=
    match headers !! DATADOG_INVOCATION_ERROR_KEY with
    | Some v => bool_decide (lowercase v = "true"%string)
    | None => false
    end || is_some message || is_some stack || is_some type || has_error in
  if is_error then
    Some (insert_some "error.stack" (decoded <$> stack)
            (insert_some "error.type" (decoded <$> type)
               (insert_some "error.msg" (decoded <$> message) ∅)))
  else None.

(** The status code of the response. *)
Definition tag_status_code (payload_value : Value) (context : Context_) : Context_ :=
  match value_get payload_value "statusCode" ≫= as_i64 with
  | None => context
  | Some status_code =>
      let text := pretty status_code in
      let context := on_span (insert_span_meta "http.status_code" text) context in
      let context :=
        if (String.length text =? 3)%nat && starts_with "5" text
        then on_span (fun s => with_error s 1) context else context in
      set_inferred context (Inferred.set_status_code (Buffer.inferred context) text)
  end.

(** The trace context of the tracer, from the end-invocation headers: trace id,
    parent id, tags, and the span with its sampling priority. *)
Definition context_from_headers (headers : gmap string string) (parent_id : Z) (s : Span)
  : Z * Z * gmap string string * Span :=
  let id key otherwise :=
    match headers !! key with Some h => default 0 (parse_u64 h) | None => otherwise end in
  let s :=
    match headers !! DATADOG_SAMPLING_PRIORITY_KEY ≫= parse_f64 with
    | Some priority => with_metrics s (<[TAG_SAMPLING_PRIORITY := priority]> (metrics s))
    | None => s
    end in
  (id DATADOG_TRACE_ID_KEY 0, id DATADOG_PARENT_ID_KEY parent_id,
   extract_propagation_tags (default EmptyString (headers !! DATADOG_TAGS_KEY)), s).

Definition end_instrumented (config : Config) (headers : gmap string string) (payload_value : Value)
    (context : Context_) : Context_ :=
  let context :=
    if capture_lambda_payload config then
      on_span (extend_span_meta (get_metadata_from_value "function.response" payload_value 0
                                   (capture_lambda_payload_max_depth config))) context
    else context in
  let context := tag_status_code payload_value context in
  let '(trace_id_, parent_id_, tags) :=
    match Buffer.extracted_span_context context with
    | Some sc => (wrap_u64 (sc_trace_id sc), sc_span_id sc, sc_tags sc)
    | None => (0, 0, ∅)
    end in
  let '(trace_id_, parent_id_, tags, span) :=
    if trace_id_ =? 0
    then context_from_headers headers parent_id_ (Buffer.invocation_span context)
    else (trace_id_, parent_id_, tags, Buffer.invocation_span context) in
  let span :=
    match headers !! DATADOG_SPAN_ID_KEY with
    | Some header => with_span_id span (default 0 (parse_u64 header))
    | None => span
    end in
  let trace_id_ := if trace_id_ =? 0 then trace_id span else trace_id_ in
  let context := Buffer.set_invocation_span context (with_trace_id span trace_id_) in
  let context :=
    match Inferred.inferred_span (Buffer.inferred context) with
    | Some _ => set_inferred context (Inferred.extend_meta (Buffer.inferred context) tags)
    | None => on_span (fun s => extend_span_meta tags (with_parent_id s parent_id_)) context
    end in
  match get_error_tags_from_headers headers (error (Buffer.invocation_span context) =? 1) with
  | Some error_tags => on_span (fun s => with_error (extend_span_meta error_tags s) 1) context
  | None => context
  end.

Definition process_on_universal_instrumentation_end (r : Readings) (self : t) (request_id : string)
    (headers : gmap string string) (payload_value : Value) : t :=
  match Buffer.get (context_buffer self) request_id with
  | None => self
  | Some context =>
      let context := end_instrumented (config self) headers payload_value context in
      let self := on_buffer (fun b => Buffer.update_first b request_id (fun _ => context)) self in
      if error (Buffer.invocation_span context) =? 1
      then on_metrics (fun m =>
             Lambda.increment_errors_metric parse_tags m (i64_or_default (clock_s r))) self
      else self
  end.

Definition on_universal_instrumentation_end (r : Readings) (self : t)
    (headers : gmap string string) (payload_value : Value) (request_id : option string) : t :=
  match request_id with
  | Some req_id =>
      let '(paired, b) := Buffer.pair_universal_instrumentation_end_with_request_id
        (context_buffer self) req_id headers payload_value in
      let self := set_buffer self b in
      if paired : bool
      then process_on_universal_instrumentation_end r self req_id headers payload_value
      else self
  | None =>
      let '(rid, b) := Buffer.pair_universal_instrumentation_end_event
        (context_buffer self) headers payload_value in
      let self := set_buffer self b in
      match rid with
      | Some rid => process_on_universal_instrumentation_end r self rid headers payload_value
      | None => self
      end
  end.

(** * Out of memory *)

Definition try_increment_oom_metric (self : t) (request_id : option string) (timestamp : Z) : t :=
  let emit self := on_metrics (fun m => Lambda.increment_oom_metric parse_tags m timestamp) self in
  match request_id with
  | Some rid =>
      match Buffer.get (context_buffer self) rid with
      | Some ctx =>
          if Buffer.oom_emitted ctx then self
          else emit (on_buffer (fun b => Buffer.update_first b rid set_oom_emitted) self)
      | None => emit self
      end
  | None => emit self
  end.

Definition on_out_of_memory_error (self : t) (request_id : option string) (timestamp : Z) : t :=
  try_increment_oom_metric self request_id timestamp.

(** * Spans *)

Definition send_spans (self : t) (traces : list Span) (size : Z) (stats : bool)
    (pointers : option (list SpanPointer)) : t :=
  set_sent self (sent self ++ [{| spans := traces; body_size := size;
                                  sent_client_computed_stats := stats;
                                  sent_span_pointers := pointers |}]).

Definition get_ctx_spans (context : Context_) : list Span * Z :=
  let traces :=
    Buffer.invocation_span context ::
    option_list (Inferred.inferred_span (Buffer.inferred context)) ++
    option_list (Inferred.wrapped_inferred_span (Buffer.inferred context)) ++
    match Buffer.snapstart_restore_span context with
    | Some snapstart_restore_span => [snapstart_restore_span]
    | None => option_list (Buffer.cold_start_span context)
    end in
  (traces, size_of_Span * Z.of_nat (length traces)).

Definition send_ctx_spans (self : t) (context : Context_) : t :=
  let '(traces, body_size) := get_ctx_spans context in
  send_spans self traces body_size (Buffer.client_computed_stats context)
    (Inferred.span_pointers (Buffer.inferred context)).

(** The first context with a cold start span, its position and the span. *)
Definition cold_start (self : t) : option (nat * Span) :=
  i ← Buffer.get_context_with_cold_start (context_buffer self);
  c ← Buffer.buffer (context_buffer self) !! i;
  s ← Buffer.cold_start_span c;
  Some (i, s).

Definition set_cold_start_span_trace_id (self : t) (trace_id_ : Z) : option Z * t :=
  match cold_start self with
  | Some (i, s) =>
      let s' := if trace_id s =? 0 then with_trace_id s trace_id_ else s in
      (Some (span_id s),
       on_buffer (fun b => Buffer.update_at b i (fun c => set_cold_start_span c (Some s'))) self)
  | None => (None, self)
  end.

Definition send_cold_start_span (self : t) : t :=
  match cold_start self with
  | Some (_, s) => if trace_id s =? 0 then self else send_spans self [s] size_of_Span false None
  | None => self
  end.

(** * Runtime done *)

Definition mark_timeout (r : Readings) (s : Span) : Span :=
  let s := if trace_id s =? 0 then with_trace_id s (fresh_trace_id r) else s in
  let s := if span_id s =? 0 then with_span_id s (fresh_span_id r) else s in
  insert_span_meta "error.type" "Timeout"
    (insert_span_meta "error.msg" "Datadog detected a Timeout" (with_error s 1)).

(** [entry(..).or_insert(1.0)]. *)
Definition enable_appsec (s : Span) : Span :=
  match metrics s !! "_dd.appsec.enabled"%string with
  | Some _ => s
  | None => with_metrics s (<["_dd.appsec.enabled"%string := f64_one]> (metrics s))
  end.

(** A span of the initialization joins the trace of the invocation. *)
Definition join_trace (invocation_span s : Span) : Span :=
  with_parent_id (with_trace_id s (trace_id invocation_span)) (parent_id invocation_span).

Definition enrich_context (r : Readings) (self : t) (status : Status) (context : Context_) : Context_ :=
  let context := set_runtime_done_received context in
  let context := if bool_decide (status = Timeout) then on_span (mark_timeout r) context else context in
  let context := on_span (extend_span_meta (dynamic_tags self)) context in
  let context :=
    match Inferred.get_trigger_tags (Buffer.inferred context) with
    | Some trigger_tags => on_span (extend_span_meta trigger_tags) context
    | None => context
    end in
  let context :=
    if serverless_appsec_enabled (config self) then on_span enable_appsec context else context in
  let span := Buffer.invocation_span context in
  let context := set_inferred context
    (complete_inferred_spans (config self) (Buffer.inferred context) span) in
  let context :=
    if negb (trace_id span =? 0) && tracer_detected self
    then set_cold_start_span context (join_trace span <$> Buffer.cold_start_span context)
    else context in
  if negb (trace_id span =? 0)
  then set_snapstart_restore_span context (join_trace span <$> Buffer.snapstart_restore_span context)
  else context.

Definition enrich_ctx_at_platform_done (r : Readings) (self : t) (request_id : string)
    (status : Status) : option Context_ * t :=
  match Buffer.get (context_buffer self) request_id with
  | None => (None, self)
  | Some context =>
      let context := enrich_context r self status context in
      let self :=
        match Buffer.enhanced_metric_data context with
        | Some offsets =>
            on_metrics (fun m => Lambda.set_cpu_utilization_enhanced_metrics parse_tags m
              (cpu_offset offsets) (uptime_offset offsets) (done_cpu r) (done_uptime r) (clock_s r)) self
        | None => self
        end in
      (Some context, on_buffer (fun b => Buffer.update_first b request_id (fun _ => context)) self)
  end.

Definition process_on_platform_runtime_done (r : Readings) (self : t) (request_id : string)
    (status : Status) : t :=
  let '(context, self) := enrich_ctx_at_platform_done r self request_id status in
  if tracer_detected self then
    match context with
    | Some ctx =>
        if negb (trace_id (Buffer.invocation_span ctx) =? 0) &&
           negb (span_id (Buffer.invocation_span ctx) =? 0)
        then send_ctx_spans self ctx else self
    | None => self
    end
  else send_cold_start_span self.

(** The limits of the system, and a task that reports the usage. *)
Definition emit_usage (r : Readings) (self : t) : t :=
  let self := on_metrics (fun m =>
    Lambda.set_max_enhanced_metrics parse_tags m (fd_max r) (threads_max r) (clock_s r)) self in
  let '(m, task) := Lambda.set_usage_enhanced_metrics parse_tags (enhanced_metrics self) in
  set_usage_tasks (set_metrics self m) (usage_tasks self ++ option_list task).

Definition on_platform_runtime_done (r : Readings) (self : t) (request_id : string)
    (metrics : RuntimeDoneMetrics) (status : Status) (error_type : option string) (timestamp : Z) : t :=
  let self := on_metrics (fun m => Lambda.set_runtime_done_metrics parse_tags m metrics timestamp) self in
  let self :=
    if bool_decide (status = Success) then self
    else
      let self := on_metrics (fun m => Lambda.increment_errors_metric parse_tags m timestamp) self in
      let self :=
        if bool_decide (status = Timeout)
        then on_metrics (fun m => Lambda.increment_timeout_metric parse_tags m timestamp) self
        else self in
      if bool_decide (status = Error) && bool_decide (error_type = Some "Runtime.OutOfMemory"%string)
      then try_increment_oom_metric self (Some request_id) timestamp else self in
  let self := if managed self then self else emit_usage r self in
  let self := on_buffer (fun b => Buffer.add_runtime_duration b request_id (rd_duration_ms metrics)) self in
  let '(buffered, b) := Buffer.take_universal_instrumentation_end_for_request_id
    (context_buffer self) request_id in
  let self := set_buffer self b in
  let self :=
    match buffered with
    | Some ev =>
        process_on_universal_instrumentation_end r self request_id
          (Buffer.rid_headers ev) (Buffer.rid_payload_value ev)
    | None =>
        if managed self then self
        else
          let '(paired, b) := Buffer.pair_platform_runtime_done_event (context_buffer self) request_id in
          let self := set_buffer self b in
          match paired with
          | Some (headers, payload) =>
              process_on_universal_instrumentation_end r self request_id headers payload
          | None => self
          end
    end in
  process_on_platform_runtime_done r self request_id status.

(** * Report *)

Definition set_reparenting (b : ContextBuffer) (l : list Buffer.ReparentingInfo) : ContextBuffer :=
  {| Buffer.buffer := Buffer.buffer b; Buffer.capacity := Buffer.capacity b;
     Buffer.invoke_events_request_ids := Buffer.invoke_events_request_ids b;
     Buffer.platform_runtime_done_events_request_ids :=
       Buffer.platform_runtime_done_events_request_ids b;
     Buffer.universal_instrumentation_start_events := Buffer.universal_instrumentation_start_events b;
     Buffer.universal_instrumentation_end_events := Buffer.universal_instrumentation_end_events b;
     Buffer.universal_instrumentation_start_events_with_id :=
       Buffer.universal_instrumentation_start_events_with_id b;
     Buffer.universal_instrumentation_end_events_with_id :=
       Buffer.universal_instrumentation_end_events_with_id b;
     Buffer.sorted_reparenting_info := l |}.

Definition release_invocation_context (self : t) (request_id : string) : t :=
  let self := on_buffer (fun b => snd (Buffer.remove b request_id)) self in
  let self := set_dsm_processed_request_ids self (dsm_processed_request_ids self ∖ {[ request_id ]}) in
  on_buffer (fun b => set_reparenting b
    (filter (fun info => Buffer.info_request_id info <> request_id)
       (Buffer.sorted_reparenting_info b))) self.

Definition response_latency (spans : option (list TelemetrySpan)) : option f64 :=
  spans ← spans;
  '(_, span) ← list_find (fun span => span_name span = "responseLatency"%string) spans;
  Some (span_duration_ms span).

Definition handle_managed_instance_report (r : Readings) (self : t) (request_id : string)
    (metric : ManagedInstanceReportMetrics) (timestamp : Z) (status : Status)
    (error_type : option string) (spans : option (list TelemetrySpan)) : t :=
  let runtime_done_metrics :=
    {| rd_duration_ms := default (mi_duration_ms metric) (response_latency spans);
       produced_bytes := None |} in
  let self :=
    if 0 <? active_invocations self
    then set_active_invocations self (active_invocations self - 1) else self in
  let self :=
    if active_invocations self =? 0 then on_metrics Lambda.pause_usage_metrics_monitoring self
    else self in
  match Buffer.get (context_buffer self) request_id with
  | Some _ =>
      on_platform_runtime_done r self request_id runtime_done_metrics status error_type timestamp
  | None => self
  end.

Definition handle_ondemand_report (self : t) (request_id : string) (metrics : OnDemandReportMetrics)
    (timestamp : Z) : t :=
  let self :=
    if max_memory_used_mb metrics =? memory_size_mb metrics
    then try_increment_oom_metric self (Some request_id) timestamp else self in
  let self :=
    match Buffer.get (context_buffer self) request_id with
    | Some context =>
        if feq (Buffer.runtime_duration_ms context) f64_zero then self
        else on_metrics (fun m => Lambda.set_post_runtime_duration_metric parse_tags m
               (fsub (od_duration_ms metrics) (Buffer.runtime_duration_ms context)) timestamp) self
    | None => self
    end in
  if init_duration_metric_emitted self then self
  else
    match init_duration_ms metrics with
    | Some ms =>
        set_init_duration_metric_emitted
          (on_metrics (fun m => Lambda.set_init_duration_metric parse_tags m InitOnDemand ms timestamp)
             self) true
    | None => self
    end.

Definition on_platform_report (r : Readings) (self : t) (request_id : string) (metrics : ReportMetrics)
    (timestamp : Z) (status : Status) (error_type : option string)
    (spans : option (list TelemetrySpan)) : t :=
  let self := on_metrics (fun m => Lambda.set_report_log_metrics parse_tags ARCH m metrics timestamp) self in
  let self :=
    match metrics with
    | ManagedInstance metric =>
        handle_managed_instance_report r self request_id metric timestamp status error_type spans
    | OnDemand metrics => handle_ondemand_report self request_id metrics timestamp
    end in
  let self :=
    match Buffer.get (context_buffer self) request_id ≫= Buffer.enhanced_metric_data with
    | Some offsets =>
        on_metrics (fun m =>
          Lambda.set_cpu_time_enhanced_metrics parse_tags
            (Lambda.set_network_enhanced_metrics parse_tags m (network_offset offsets)
               (report_network r) (clock_s r))
            (cpu_offset offsets) (report_cpu r) (clock_s r)) self
    | None => self
    end in
  release_invocation_context self request_id.

(** * Shutdown *)

(** [clock_s] does not fit an [i64]: the conversion is unwrapped. *)
Definition on_shutdown_event (r : Readings) (self : t) : outcome t :=
  let self := flush_pending_first_invocation_metric self in
  if I64_MAX <? clock_s r then Panic
  else
    let self := on_metrics (fun m =>
      Lambda.set_unused_init_metric parse_tags (Lambda.set_shutdown_metric parse_tags m (clock_s r))
        (clock_s r)) self in
    Done (if managed self then emit_usage r self else self).

(** * Tracer spans, reparenting and durable contexts *)

Definition add_reparenting (self : t) (request_id : string) (span_id parent_id : Z) : t :=
  let infos := Buffer.sorted_reparenting_info (context_buffer self) in
  if existsb (fun info => bool_decide (Buffer.info_request_id info = request_id)) infos then self
  else
    let infos :=
      if bool_decide (length infos = Buffer.capacity (context_buffer self))
      then snd (pop_front infos) else infos in
    on_buffer (fun b => set_reparenting b (push_back infos
      {| Buffer.info_request_id := request_id; Buffer.invocation_span_id := span_id;
         Buffer.parent_id_to_reparent := parent_id; Buffer.guessed_trace_id := 0;
         Buffer.needs_trace_id := true |})) self.

Definition get_reparenting_info (self : t) : list Buffer.ReparentingInfo :=
  Buffer.sorted_reparenting_info (context_buffer self).

(** The invocation span takes the ids it has not got. *)
Definition reparent_context (rep_info : Buffer.ReparentingInfo) (c : Context_) : Context_ :=
  on_span (fun s =>
    let s := if span_id s =? 0 then with_span_id s (Buffer.invocation_span_id rep_info) else s in
    if trace_id s =? 0 then with_trace_id s (Buffer.guessed_trace_id rep_info) else s) c.

Definition ready_to_send (before after : Context_) : bool :=
  let s := Buffer.invocation_span before in
  let s' := Buffer.invocation_span after in
  ((span_id s =? 0) || (trace_id s =? 0)) && negb (span_id s' =? 0) && negb (trace_id s' =? 0) &&
  Buffer.runtime_done_received after.

(** The first entry of the request takes what was guessed. *)
Fixpoint update_info (rep_info : Buffer.ReparentingInfo) (infos : list Buffer.ReparentingInfo)
  : list Buffer.ReparentingInfo :=
  match infos with
  | [] => []
  | info :: infos =>
      if bool_decide (Buffer.info_request_id info = Buffer.info_request_id rep_info) then
        {| Buffer.info_request_id := Buffer.info_request_id info;
           Buffer.invocation_span_id := Buffer.invocation_span_id info;
           Buffer.parent_id_to_reparent := Buffer.parent_id_to_reparent info;
           Buffer.guessed_trace_id := Buffer.guessed_trace_id rep_info;
           Buffer.needs_trace_id := Buffer.needs_trace_id rep_info |} :: infos
      else info :: update_info rep_info infos
  end.

Definition update_reparenting_one (acc : list Context_ * t) (rep_info : Buffer.ReparentingInfo)
  : list Context_ * t :=
  let '(ctx_to_send, self) := acc in
  let rid := Buffer.info_request_id rep_info in
  let '(ctx_to_send, self) :=
    match Buffer.get (context_buffer self) rid with
    | Some ctx =>
        let ctx' := reparent_context rep_info ctx in
        (if ready_to_send ctx ctx' then ctx_to_send ++ [ctx'] else ctx_to_send,
         on_buffer (fun b => Buffer.update_first b rid (fun _ => ctx')) self)
    | None => (ctx_to_send, self)
    end in
  (ctx_to_send, on_buffer (fun b => set_reparenting b
     (update_info rep_info (Buffer.sorted_reparenting_info b))) self).

Definition update_reparenting (self : t) (reparenting_info : list Buffer.ReparentingInfo)
  : list Context_ * t :=
  foldl update_reparenting_one ([], self) reparenting_info.

Definition add_tracer_span (self : t) (span : Span) (client_computed_stats : bool) : t :=
  match meta span !! "request_id"%string with
  | Some request_id =>
      on_buffer (fun b => Buffer.add_tracer_span b request_id span client_computed_stats) self
  | None => self
  end.

Definition forward_durable_context (self : t) (request_id execution_id execution_name : string)
    (first_invocation : option bool) (execution_status : option string) : t :=
  set_forwarded self (forwarded self ++
    [{| upd_request_id := request_id; upd_execution_id := execution_id;
        upd_execution_name := execution_name; upd_first_invocation := first_invocation;
        upd_execution_status := execution_status |}]).

(** * The service *)

(** [ProcessorCommand], without the handles and the reply channels. *)
Inductive ProcessorCommand :=
| InvokeEvent (request_id : string)
| CPlatformInitStart (time : Z) (runtime_version : option string)
| CPlatformInitReport (init_type : InitType) (duration_ms : f64) (timestamp : Z)
| CPlatformRestoreStart (time : Z)
| CPlatformRestoreReport (duration_ms : f64) (timestamp : Z)
| CPlatformStart (request_id : string) (time : Z)
| CPlatformRuntimeDone (request_id : string) (metrics : RuntimeDoneMetrics) (status : Status)
    (error_type : option string) (timestamp : Z)
| CPlatformReport (request_id : string) (metrics : ReportMetrics) (timestamp : Z) (status : Status)
    (error_type : option string) (spans : option (list TelemetrySpan))
| UniversalInstrumentationStart (headers : gmap string string) (payload_value : Value)
    (request_id : option string)
| RecordDsmConsumeFromPayload (request_id : string) (payload_value : Value)
| UniversalInstrumentationEnd (headers : gmap string string) (payload_value : Value)
    (request_id : option string)
| AddReparenting (request_id : string) (span_id parent_id : Z)
| GetReparentingInfo
| UpdateReparenting (reparenting_info : list Buffer.ReparentingInfo)
| SetColdStartSpanTraceId (trace_id : Z)
| AddTracerSpan (span : Span) (client_computed_stats : bool)
| ForwardDurableContext (request_id execution_id execution_name : string)
    (first_invocation : option bool) (execution_status : option string)
| OnOutOfMemoryError (request_id : option string) (timestamp : Z)
| OnShutdownEvent
| SendCtxSpans (context : Context_)
| Shutdown.

(** What is answered on the reply channel of a command that has one. *)
Inductive Reply :=
| Acknowledged
| ReparentingInfoReply (infos : list Buffer.ReparentingInfo)
| ContextsToSend (contexts : list Context_)
| ColdStartSpanId (span_id : option Z).

Definition step (r : Readings) (self : t) (command : ProcessorCommand) : outcome (option Reply * t) :=
  match command with
  | InvokeEvent request_id => Done (None, on_invoke_event r self request_id)
  | CPlatformInitStart time runtime_version =>
      self ← on_platform_init_start r self time runtime_version; Done (None, self)
  | CPlatformInitReport init_type duration_ms timestamp =>
      Done (None, on_platform_init_report self init_type duration_ms timestamp)
  | CPlatformRestoreStart time => self ← on_platform_restore_start r self time; Done (None, self)
  | CPlatformRestoreReport duration_ms timestamp =>
      Done (None, on_platform_restore_report self duration_ms timestamp)
  | CPlatformStart request_id time =>
      self ← on_platform_start r self request_id time; Done (None, self)
  | CPlatformRuntimeDone request_id metrics status error_type timestamp =>
      Done (Some Acknowledged,
            on_platform_runtime_done r self request_id metrics status error_type timestamp)
  | CPlatformReport request_id metrics timestamp status error_type spans =>
      Done (Some Acknowledged,
            on_platform_report r self request_id metrics timestamp status error_type spans)
  | UniversalInstrumentationStart headers payload_value request_id =>
      Done (None, on_universal_instrumentation_start r self headers payload_value request_id)
  | RecordDsmConsumeFromPayload request_id payload_value =>
      Done (None, record_dsm_consume_from_payload self request_id payload_value)
  | UniversalInstrumentationEnd headers payload_value request_id =>
      Done (None, on_universal_instrumentation_end r self headers payload_value request_id)
  | AddReparenting request_id span_id parent_id =>
      Done (None, add_reparenting self request_id span_id parent_id)
  | GetReparentingInfo => Done (Some (ReparentingInfoReply (get_reparenting_info self)), self)
  | UpdateReparenting reparenting_info =>
      let '(contexts, self) := update_reparenting self reparenting_info in
      Done (Some (ContextsToSend contexts), self)
  | SetColdStartSpanTraceId trace_id =>
      let '(id, self) := set_cold_start_span_trace_id self trace_id in
      Done (Some (ColdStartSpanId id), self)
  | AddTracerSpan span client_computed_stats =>
      Done (None, add_tracer_span self span client_computed_stats)
  | ForwardDurableContext request_id execution_id execution_name first_invocation execution_status =>
      Done (None, forward_durable_context self request_id execution_id execution_name
                    first_invocation execution_status)
  | OnOutOfMemoryError request_id timestamp =>
      Done (None, on_out_of_memory_error self request_id timestamp)
  | OnShutdownEvent => self ← on_shutdown_event r self; Done (None, self)
  | SendCtxSpans context => Done (None, send_ctx_spans self context)
  | Shutdown => Done (None, self)
  end.

(** The loop of the service, over the commands it receives until it stops. *)
Fixpoint run (self : t) (commands : list (Readings * ProcessorCommand))
  : outcome (list Reply * t) :=
  match commands with
  | [] => Done ([], self)
  | (_, Shutdown) :: _ => Done ([], self)
  | (r, command) :: commands =>
      '(reply, self) ← step r self command;
      '(replies, self) ← run self commands;
      Done (option_list reply ++ replies, self)
  end.

End Processor.
End Processor.
