(* ===== verification/InvocationProperties.v ===== *)
(** Properties of the invocation processor under any sequence of commands: which
    metrics it emits, which traces it sends, and what it forgets about an
    invocation that has ended. *)
From S2P Require Import Prelude F64 DataStreams Text TelemetryEvents LogsProcessor EnhancedMetrics.
From S2P Require Import ContextBuffer Triggers TriggerEvents Configuration SpanInferrer InvocationProcessor.
#[local] Open Scope Z_scope.

(** * Emitted metrics *)

Section Names.
Context {SortedTags : Type} (parse_tags : string -> option SortedTags).
Import Lambda.

Definition names (m : @Lambda.t SortedTags) : list string := Lambda.name <$> mjoin (inserted m).

(** The metrics [m'] has more than [m] satisfy [P]. *)
Definition emits (P : string -> Prop) (m m' : @Lambda.t SortedTags) : Prop :=
  exists l, names m' = names m ++ l /\ Forall P l /\
    Lambda.enhanced_metrics m' = Lambda.enhanced_metrics m.

Lemma emits_refl P m : emits P m m.
Proof. exists []. rewrite app_nil_r. repeat split; constructor. Qed.

Lemma emits_trans P m1 m2 m3 : emits P m1 m2 -> emits P m2 m3 -> emits P m1 m3.
Proof.
  intros (l1 & H1 & F1 & E1) (l2 & H2 & F2 & E2). exists (l1 ++ l2).
  rewrite H2, H1, E2, E1, <- app_assoc. split_and!; [done|by apply Forall_app|done].
Qed.

Lemma names_insert_batch m batch : names (insert_batch m batch) = names m ++ (Lambda.name <$> batch).
Proof. unfold names. cbn [inserted insert_batch]. rewrite join_app, fmap_app. cbn [mjoin list_join]. by rewrite app_nil_r. Qed.

Lemma emits_insert_batch (P : string -> Prop) m m' batch :
  Forall P (Lambda.name <$> batch) -> emits P m m' -> emits P m (insert_batch m' batch).
Proof.
  intros Hb He. eapply emits_trans; [exact He|]. eexists. split; [apply names_insert_batch|done].
Qed.

Lemma emits_insert_metric (P : string -> Prop) m m' n v ts :
  P n -> emits P m m' -> emits P m (insert_metric parse_tags m' n v ts).
Proof. intros Hn. apply emits_insert_batch. by constructor. Qed.

Lemma emits_increment (P : string -> Prop) m m' n ts :
  P n -> emits P m m' -> emits P m (increment_metric parse_tags m' n ts).
Proof.
  intros Hn He. unfold increment_metric. destruct (enhanced_metrics m'); [|done].
  by apply emits_insert_metric.
Qed.

Lemma emits_insert_each (P : string -> Prop) tags now metrics : forall m m',
  Forall P (fst <$> metrics) -> emits P m m' -> emits P m (insert_each m' tags now metrics).
Proof.
  induction metrics as [|nv metrics IH]; intros m m' Hf He; [done|].
  apply Forall_cons in Hf as [Hn Hf]. apply IH; [done|]. apply emits_insert_batch; [by constructor|done].
Qed.

Lemma emits_with_tags (P : string -> Prop) m m' d : emits P m m' -> emits P m (with_tags m' d).
Proof. done. Qed.
Lemma emits_with_handle (P : string -> Prop) m m' h : emits P m m' -> emits P m (with_handle m' h).
Proof. done. Qed.
Lemma emits_invoked (P : string -> Prop) m m' : emits P m m' -> emits P m (set_invoked_received m').
Proof. done. Qed.

End Names.

#[local] Hint Resolve emits_refl : emits.

(** Every metric but the two whose number is counted below. *)
Definition other (n : string) : Prop := n <> INVOCATIONS_METRIC /\ n <> INIT_DURATION_METRIC.

#[local] Ltac other_name := split; intros Heq; vm_compute in Heq; discriminate Heq.
#[local] Ltac other_names :=
  first [other_name | cbn [fmap list_fmap fst Lambda.name];
         repeat (apply Forall_cons; split; [other_name|]); apply Forall_nil_2].

#[local] Ltac emits_tac :=
  repeat first
    [ assumption
    | match goal with
      | |- emits _ _ (Lambda.with_tags _ _) => apply emits_with_tags
      | |- emits _ _ (Lambda.with_handle _ _) => apply emits_with_handle
      | |- emits _ _ (Lambda.set_invoked_received _) => apply emits_invoked
      | |- emits _ _ (Lambda.increment_metric _ _ _ _) => apply emits_increment; [other_names|]
      | |- emits _ _ (Lambda.insert_metric _ _ _ _ _) => apply emits_insert_metric; [other_names|]
      | |- emits _ _ (Lambda.insert_each _ _ _ _) => apply emits_insert_each; [other_names|]
      | |- emits _ _ (match ?x with _ => _ end) => destruct x
      end ].

Section OtherMetrics.
Context {SortedTags : Type} (parse_tags : string -> option SortedTags).
Import Lambda.
Implicit Types m : @Lambda.t SortedTags.

Lemma emits_runtime_tag m m' r : emits other m m' -> emits other m (set_runtime_tag m' r).
Proof. done. Qed.
Lemma emits_init_tags m m' a b : emits other m m' -> emits other m (set_init_tags m' a b).
Proof. done. Qed.
Lemma emits_durable m m' : emits other m m' -> emits other m (set_durable_function_tag m').
Proof. done. Qed.
Lemma emits_errors m m' ts : emits other m m' -> emits other m (increment_errors_metric parse_tags m' ts).
Proof. intros. unfold increment_errors_metric. emits_tac. Qed.
Lemma emits_timeouts m m' ts : emits other m m' -> emits other m (increment_timeout_metric parse_tags m' ts).
Proof. intros. unfold increment_timeout_metric. emits_tac. Qed.
Lemma emits_oom m m' ts : emits other m m' -> emits other m (increment_oom_metric parse_tags m' ts).
Proof. intros. unfold increment_oom_metric. emits_tac. Qed.
Lemma emits_restore m m' d ts :
  emits other m m' -> emits other m (set_snapstart_restore_duration_metric parse_tags m' d ts).
Proof. intros. unfold set_snapstart_restore_duration_metric. emits_tac. Qed.
Lemma emits_runtime_done m m' rd ts :
  emits other m m' -> emits other m (set_runtime_done_metrics parse_tags m' rd ts).
Proof. intros. unfold set_runtime_done_metrics. emits_tac. Qed.
Lemma emits_shutdown m m' ts : emits other m m' -> emits other m (set_shutdown_metric parse_tags m' ts).
Proof. intros. unfold set_shutdown_metric. emits_tac. Qed.
Lemma emits_unused m m' ts : emits other m m' -> emits other m (set_unused_init_metric parse_tags m' ts).
Proof. intros. unfold set_unused_init_metric. emits_tac. Qed.
Lemma emits_post_runtime m m' d ts :
  emits other m m' -> emits other m (set_post_runtime_duration_metric parse_tags m' d ts).
Proof. intros. unfold set_post_runtime_duration_metric. emits_tac. Qed.
Lemma emits_network m m' o d ts :
  emits other m m' -> emits other m (set_network_enhanced_metrics parse_tags m' o d ts).
Proof. intros. unfold set_network_enhanced_metrics, generate_network_enhanced_metrics. emits_tac. Qed.
Lemma emits_cpu_time m m' o d ts :
  emits other m m' -> emits other m (set_cpu_time_enhanced_metrics parse_tags m' o d ts).
Proof. intros. unfold set_cpu_time_enhanced_metrics, generate_cpu_time_enhanced_metrics. emits_tac. Qed.
Lemma emits_report ARCH m m' rm ts :
  emits other m m' -> emits other m (set_report_log_metrics parse_tags ARCH m' rm ts).
Proof. intros. unfold set_report_log_metrics. emits_tac. Qed.
Lemma emits_max m m' a b ts :
  emits other m m' -> emits other m (set_max_enhanced_metrics parse_tags m' a b ts).
Proof. intros. unfold set_max_enhanced_metrics. emits_tac. Qed.
Lemma emits_restart m m' : emits other m m' -> emits other m (restart_usage_metrics_monitoring m').
Proof. intros. unfold restart_usage_metrics_monitoring. emits_tac. Qed.
Lemma emits_resume m m' : emits other m m' -> emits other m (resume_usage_metrics_monitoring m').
Proof. intros. unfold resume_usage_metrics_monitoring. emits_tac. Qed.
Lemma emits_pause m m' : emits other m m' -> emits other m (pause_usage_metrics_monitoring m').
Proof. intros. unfold pause_usage_metrics_monitoring. emits_tac. Qed.
Lemma emits_usage m m' :
  emits other m m' -> emits other m (set_usage_enhanced_metrics parse_tags m').1.
Proof. intros. unfold set_usage_enhanced_metrics. by destruct (enhanced_metrics m'). Qed.

Lemma cpu_utilization_names o e u v metrics :
  cpu_utilization o e u v = Some metrics -> Forall other (fst <$> metrics).
Proof.
  unfold cpu_utilization. destruct (fle _ _); [done|]. destruct (idle_times o e).
  intros [= <-]. cbn [fmap list_fmap fst]. other_names.
Qed.

Lemma emits_cpu_utilization m m' o u d v ts :
  emits other m m' -> emits other m (set_cpu_utilization_enhanced_metrics parse_tags m' o u d v ts).
Proof.
  intros He. unfold set_cpu_utilization_enhanced_metrics, generate_cpu_utilization_enhanced_metrics.
  destruct (enhanced_metrics m'), o as [o|], d as [d|], u as [u|], v as [v|]; try done.
  destruct (cpu_utilization o d u v) as [metrics|] eqn:Hc; [|done].
  apply emits_insert_batch; [|done]. rewrite <- list_fmap_compose. by apply cpu_utilization_names in Hc.
Qed.

End OtherMetrics.

(** * What a handler leaves alone *)

Module Properties.
Import Processor.

Section Properties.
Context `{Externals} `{Propagation SamplingPriority}.
Context {SortedTags : Type} (parse_tags : string -> option SortedTags) (ARCH : string)
  (size_of_Span : Z).
Abbreviation t := (@Processor.t SamplingPriority SortedTags).
Implicit Types self s x : t.

(** Metrics other than the counted ones may be emitted; the flags that count
    them are unchanged. *)
Record quiet (self self' : t) : Prop := {
  q_emits : emits other (enhanced_metrics self) (enhanced_metrics self');
  q_status : first_invocation_metric_status self' = first_invocation_metric_status self;
  q_init : init_duration_metric_emitted self' = init_duration_metric_emitted self;
  q_aws : aws_config self' = aws_config self;
}.

Lemma quiet_refl s : quiet s s.
Proof. split; [apply emits_refl|done..]. Qed.

Lemma quiet_trans s1 s2 s3 : quiet s1 s2 -> quiet s2 s3 -> quiet s1 s3.
Proof. intros [] []. split; [by eapply emits_trans|congruence..]. Qed.

Lemma quiet_set_buffer s x b : quiet s x -> quiet s (set_buffer x b).
Proof. by intros []. Qed.
Lemma quiet_on_buffer s x f : quiet s x -> quiet s (on_buffer f x).
Proof. by intros []. Qed.
Lemma quiet_set_metrics s x m :
  emits other (enhanced_metrics s) m -> quiet s x -> quiet s (set_metrics x m).
Proof. by intros ? []. Qed.
Lemma quiet_on_metrics s x f :
  (forall m m', emits other m m' -> emits other m (f m')) -> quiet s x -> quiet s (on_metrics f x).
Proof. intros Hf []. split; try done. by apply Hf. Qed.
Lemma quiet_tracer s x v : quiet s x -> quiet s (set_tracer_detected x v).
Proof. by intros []. Qed.
Lemma quiet_runtime s x v : quiet s x -> quiet s (set_runtime x v).
Proof. by intros []. Qed.
Lemma quiet_dynamic_tags s x v : quiet s x -> quiet s (set_dynamic_tags x v).
Proof. by intros []. Qed.
Lemma quiet_active s x v : quiet s x -> quiet s (set_active_invocations x v).
Proof. by intros []. Qed.
Lemma quiet_awaiting s x v : quiet s x -> quiet s (set_awaiting_first_invocation x v).
Proof. by intros []. Qed.
Lemma quiet_restore s x v : quiet s x -> quiet s (set_restore_time x v).
Proof. by intros []. Qed.
Lemma quiet_dsm_ids s x v : quiet s x -> quiet s (set_dsm_processed_request_ids x v).
Proof. by intros []. Qed.
Lemma quiet_sent s x v : quiet s x -> quiet s (set_sent x v).
Proof. by intros []. Qed.
Lemma quiet_consumed s x v : quiet s x -> quiet s (set_consumed x v).
Proof. by intros []. Qed.
Lemma quiet_forwarded s x v : quiet s x -> quiet s (set_forwarded x v).
Proof. by intros []. Qed.
Lemma quiet_tasks s x v : quiet s x -> quiet s (set_usage_tasks x v).
Proof. by intros []. Qed.

#[local] Hint Resolve emits_runtime_tag emits_init_tags emits_durable emits_errors emits_timeouts
  emits_oom emits_restore emits_runtime_done emits_shutdown emits_unused emits_post_runtime
  emits_network emits_cpu_time emits_report emits_max emits_restart emits_resume emits_pause
  emits_cpu_utilization emits_invoked : emits.

#[local] Hint Resolve quiet_refl quiet_set_buffer quiet_on_buffer quiet_tracer quiet_runtime
  quiet_dynamic_tags quiet_active quiet_awaiting quiet_restore quiet_dsm_ids quiet_sent
  quiet_consumed quiet_forwarded quiet_tasks : quiet.
#[local] Hint Extern 1 (quiet _ (on_metrics _ _)) =>
  apply quiet_on_metrics; [intros; eauto 6 with emits|] : quiet.
#[local] Hint Extern 2 (quiet _ (match ?x with _ => _ end)) => destruct x : quiet.

(** Peel the assignments and the handlers already treated off the new state,
    splitting on the code's branches. *)
Ltac peel := cbv zeta; eauto 300 with quiet.

Lemma quiet_set_init_tags s x r : quiet s x -> quiet s (set_init_tags r x).
Proof. intros. unfold set_init_tags. peel. Qed.
#[local] Hint Resolve quiet_set_init_tags : quiet.

Lemma quiet_start_context s x r rid : quiet s x -> quiet s (start_context r rid x).
Proof. intros. unfold start_context. peel. Qed.
#[local] Hint Resolve quiet_start_context : quiet.

Lemma quiet_record_dsm s x rid p : quiet s x -> quiet s (record_dsm_consume_from_payload x rid p).
Proof. intros. unfold record_dsm_consume_from_payload. peel. Qed.
#[local] Hint Resolve quiet_record_dsm : quiet.

Lemma quiet_process_start s x r rid h p :
  quiet s x -> quiet s (process_on_universal_instrumentation_start r x rid h p).
Proof. intros. unfold process_on_universal_instrumentation_start. peel. Qed.
#[local] Hint Resolve quiet_process_start : quiet.

Lemma quiet_start s x r h p rid :
  quiet s x -> quiet s (on_universal_instrumentation_start r x h p rid).
Proof.
  intros. unfold on_universal_instrumentation_start. cbv zeta. destruct rid as [rid|].
  - match goal with |- quiet _ (if ?b then _ else _) => destruct b end; [peel|].
    destruct (Buffer.pair_universal_instrumentation_start_with_request_id _ _ _ _) as [[] b]; peel.
  - destruct (Buffer.pair_universal_instrumentation_start_event _ _ _) as [[rid|] b]; peel.
Qed.

Lemma quiet_begin_context s x r rid : quiet s x -> quiet s (begin_context r rid x).
Proof.
  intros. unfold begin_context. destruct (_ && _); [|peel].
  destruct (Buffer.update_empty_context_request_id _ _) as [[] b]; peel.
Qed.
#[local] Hint Resolve quiet_begin_context : quiet.

Lemma quiet_begin_monitoring s x r rid : quiet s x -> quiet s (begin_monitoring r rid x).
Proof. intros. unfold begin_monitoring. peel. Qed.
#[local] Hint Resolve quiet_begin_monitoring : quiet.

Lemma quiet_process_end s x r rid h p :
  quiet s x -> quiet s (process_on_universal_instrumentation_end parse_tags r x rid h p).
Proof. intros. unfold process_on_universal_instrumentation_end. peel. Qed.
#[local] Hint Resolve quiet_process_end : quiet.

Lemma quiet_end s x r h p rid :
  quiet s x -> quiet s (on_universal_instrumentation_end parse_tags r x h p rid).
Proof.
  intros. unfold on_universal_instrumentation_end. cbv zeta. destruct rid as [rid|].
  - destruct (Buffer.pair_universal_instrumentation_end_with_request_id _ _ _ _) as [[] b]; peel.
  - destruct (Buffer.pair_universal_instrumentation_end_event _ _ _) as [[rid|] b]; peel.
Qed.

Lemma quiet_oom s x rid ts : quiet s x -> quiet s (try_increment_oom_metric parse_tags x rid ts).
Proof. intros. unfold try_increment_oom_metric. peel. Qed.
#[local] Hint Resolve quiet_oom : quiet.

Lemma quiet_send_spans s x a b c d : quiet s x -> quiet s (send_spans x a b c d).
Proof. intros. unfold send_spans. peel. Qed.
#[local] Hint Resolve quiet_send_spans : quiet.

Lemma quiet_send_ctx s x c : quiet s x -> quiet s (send_ctx_spans size_of_Span x c).
Proof. intros. unfold send_ctx_spans. destruct (get_ctx_spans _ _). peel. Qed.
#[local] Hint Resolve quiet_send_ctx : quiet.

Lemma quiet_send_cold_start s x : quiet s x -> quiet s (send_cold_start_span size_of_Span x).
Proof. intros. unfold send_cold_start_span. peel. Qed.
#[local] Hint Resolve quiet_send_cold_start : quiet.

Lemma quiet_enrich s x r rid st :
  quiet s x -> quiet s (enrich_ctx_at_platform_done parse_tags r x rid st).2.
Proof.
  intros. unfold enrich_ctx_at_platform_done. destruct (Buffer.get _ _); [|done]. cbn [snd]. peel.
Qed.

Lemma quiet_process_done s x r rid st :
  quiet s x -> quiet s (process_on_platform_runtime_done parse_tags size_of_Span r x rid st).
Proof.
  intros. unfold process_on_platform_runtime_done.
  destruct (enrich_ctx_at_platform_done _ _ _ _ _) as [c x'] eqn:He.
  assert (quiet s x') by (replace x' with (enrich_ctx_at_platform_done parse_tags r x rid st).2
    by (by rewrite He); by apply quiet_enrich). peel.
Qed.
#[local] Hint Resolve quiet_process_done : quiet.

Lemma quiet_emit_usage s x r : quiet s x -> quiet s (emit_usage parse_tags r x).
Proof.
  intros [? ? ? ?]. unfold emit_usage. cbv zeta.
  destruct (Lambda.set_usage_enhanced_metrics parse_tags _) as [m task] eqn:Hu.
  apply quiet_tasks. split; [|done..]. cbn.
  match type of Hu with Lambda.set_usage_enhanced_metrics _ ?y = _ => set (m' := y) in Hu end.
  replace m with (Lambda.set_usage_enhanced_metrics parse_tags m').1 by (by rewrite Hu).
  by apply emits_usage, emits_max.
Qed.
#[local] Hint Resolve quiet_emit_usage : quiet.

Lemma quiet_runtime_done s x r rid rm st et ts :
  quiet s x ->
  quiet s (on_platform_runtime_done parse_tags size_of_Span r x rid rm st et ts).
Proof.
  intros. unfold on_platform_runtime_done. cbv zeta.
  destruct (Buffer.take_universal_instrumentation_end_for_request_id _ _) as [buffered b].
  apply quiet_process_done. destruct buffered; [peel|].
  match goal with |- quiet _ (if ?b then _ else _) => destruct b end; [peel|].
  destruct (Buffer.pair_platform_runtime_done_event _ _) as [[[]|] b']; peel.
Qed.
#[local] Hint Resolve quiet_runtime_done : quiet.

Lemma quiet_init_report_rest s x (ts : Z) f :
  quiet s x ->
  quiet s (if managed x then on_buffer (fun b => Buffer.update_first b EmptyString f) x
           else match Buffer.get_closest (context_buffer x) ts with
                | Some i => on_buffer (fun b => Buffer.update_at b i f) x
                | None => x
                end).
Proof. intros. peel. Qed.

Lemma quiet_restore_report s x d ts :
  quiet s x -> quiet s (on_platform_restore_report parse_tags x d ts).
Proof. intros. unfold on_platform_restore_report. peel. Qed.

Lemma quiet_restore_start s x r time x' :
  quiet s x -> on_platform_restore_start r x time = Done x' -> quiet s x'.
Proof.
  intros Hq. unfold on_platform_restore_start, start_time_of. destruct (time <? 0); [done|].
  intros [= <-]. peel.
Qed.

Lemma quiet_release s x rid : quiet s x -> quiet s (release_invocation_context x rid).
Proof. intros. unfold release_invocation_context. peel. Qed.
#[local] Hint Resolve quiet_release : quiet.

Lemma quiet_managed_report s x r rid m ts st et sp :
  quiet s x ->
  quiet s (handle_managed_instance_report parse_tags size_of_Span r x rid m ts st et sp).
Proof. intros. unfold handle_managed_instance_report. peel. Qed.
#[local] Hint Resolve quiet_managed_report : quiet.

Lemma quiet_add_reparenting s x rid a b : quiet s x -> quiet s (add_reparenting x rid a b).
Proof. intros. unfold add_reparenting. peel. Qed.

Lemma quiet_update_reparenting infos : forall s acc,
  quiet s acc.2 -> quiet s (foldl update_reparenting_one acc infos).2.
Proof.
  induction infos as [|info infos IH]; intros s [cs x] Hq; [done|]. apply IH. cbn [snd] in *.
  unfold update_reparenting_one. destruct (Buffer.get _ _); cbn [snd]; peel.
Qed.

Lemma quiet_cold_start_id s x i : quiet s x -> quiet s (set_cold_start_span_trace_id x i).2.
Proof. intros. unfold set_cold_start_span_trace_id. destruct (cold_start x) as [[]|]; cbn [snd]; peel. Qed.

Lemma quiet_add_tracer_span s x sp b : quiet s x -> quiet s (Processor.add_tracer_span x sp b).
Proof. intros. unfold Processor.add_tracer_span. peel. Qed.

(** * Counting *)

Definition counted (n : string) (self : t) : nat :=
  length (filter (fun m => m = n) (names (enhanced_metrics self))).
Definition enabled (self : t) : bool := Lambda.enhanced_metrics (enhanced_metrics self).

(** Invocations whose metric is held back. *)
Definition held (self : t) : nat :=
  match first_invocation_metric_status self with HeldBack _ => 1 | _ => 0 end.

(** From [self] to [self'], [k] invocations were accounted for, and an init
    duration was reported or not. *)
Record accounts (k : nat) (init : bool) (self self' : t) : Prop := {
  a_inv : enabled self = true ->
    (counted INVOCATIONS_METRIC self' + held self' = counted INVOCATIONS_METRIC self + held self + k)%nat;
  a_init : enabled self = true ->
    (counted INIT_DURATION_METRIC self' + Nat.b2n (init_duration_metric_emitted self) =
     counted INIT_DURATION_METRIC self + Nat.b2n (init_duration_metric_emitted self'))%nat;
  a_flag : init_duration_metric_emitted self' = init_duration_metric_emitted self || init;
  a_enabled : enabled self' = enabled self;
  a_aws : aws_config self' = aws_config self;
}.

Lemma accounts_trans k1 k2 i1 i2 s1 s2 s3 :
  accounts k1 i1 s1 s2 -> accounts k2 i2 s2 s3 -> accounts (k1 + k2) (i1 || i2) s1 s3.
Proof.
  intros [A1 B1 C1 D1 E1] [A2 B2 C2 D2 E2]. rewrite D1 in A2, B2. split; try congruence.
  - intros He. specialize (A1 He). specialize (A2 He). lia.
  - intros He. specialize (B1 He). specialize (B2 He). lia.
  - rewrite C2, C1. by destruct (init_duration_metric_emitted s1), i1, i2.
Qed.

Lemma filter_others n l :
  n = INVOCATIONS_METRIC \/ n = INIT_DURATION_METRIC -> Forall other l ->
  filter (fun m => m = n) l = [].
Proof.
  intros Hn Hf. induction Hf as [|m l [H1' H2'] Hf IH]; [done|].
  rewrite filter_cons_False; [done|]. intros ->. by destruct Hn.
Qed.

Lemma emits_counted n self self' :
  n = INVOCATIONS_METRIC \/ n = INIT_DURATION_METRIC ->
  emits other (enhanced_metrics self) (enhanced_metrics self') -> counted n self' = counted n self.
Proof.
  intros Hn (l & Hl & Hf & _). unfold counted. rewrite Hl, filter_app, (filter_others n l) by done.
  by rewrite app_nil_r.
Qed.

Lemma quiet_accounts s s' : quiet s s' -> accounts 0 false s s'.
Proof.
  intros [He Hs Hi Ha]. pose proof He as (_ & _ & _ & Hen).
  split; [intros _|intros _|by rewrite orb_false_r|done|done].
  - unfold held. rewrite Hs, (emits_counted INVOCATIONS_METRIC s s') by auto. lia.
  - rewrite Hi, (emits_counted INIT_DURATION_METRIC s s') by auto. lia.
Qed.

(** One metric named [n] when metrics are on. *)
Definition emits_one (n : string) (m m' : @Lambda.t SortedTags) : Prop :=
  Lambda.enhanced_metrics m' = Lambda.enhanced_metrics m /\
  names m' = names m ++ (if Lambda.enhanced_metrics m then [n] else []).

Lemma increment_emits_one n m ts : emits_one n m (Lambda.increment_metric parse_tags m n ts).
Proof.
  unfold Lambda.increment_metric, emits_one.
  destruct (Lambda.enhanced_metrics m) eqn:He; [|by rewrite app_nil_r].
  split; [done|]. apply names_insert_batch.
Qed.

Lemma init_duration_emits_one m ty d ts :
  emits_one INIT_DURATION_METRIC m (Lambda.set_init_duration_metric parse_tags m ty d ts).
Proof.
  unfold Lambda.set_init_duration_metric, emits_one.
  destruct (Lambda.enhanced_metrics m) eqn:He; [|by rewrite app_nil_r].
  split; [done|]. unfold Lambda.insert_metric. by rewrite names_insert_batch.
Qed.

Lemma counted_one n n' self self' :
  emits_one n (enhanced_metrics self) (enhanced_metrics self') -> enabled self = true ->
  counted n' self' = (counted n' self + if decide (n = n') then 1 else 0)%nat.
Proof.
  intros [_ Hn] He. unfold counted. unfold enabled in He. rewrite Hn, He, filter_app, length_app.
  f_equal. rewrite filter_cons. by destruct (decide (n = n')).
Qed.

Lemma count_invocation_accounts r s : accounts 1 false s (count_invocation parse_tags r s).
Proof.
  set (ts := i64_or_default (clock_s r)).
  pose proof (increment_emits_one INVOCATIONS_METRIC (enhanced_metrics s) ts) as Hone.
  assert (forall s', enhanced_metrics s' = Lambda.increment_invocation_metric parse_tags (enhanced_metrics s) ts ->
    held s' = held s -> init_duration_metric_emitted s' = init_duration_metric_emitted s ->
    aws_config s' = aws_config s -> accounts 1 false s s') as Hinc.
  { intros s' Hm Hh Hi Ha. unfold Lambda.increment_invocation_metric in Hm. rewrite <- Hm in Hone.
    split; [intros He|intros He|by rewrite Hi, orb_false_r|by destruct Hone|done].
    - rewrite (counted_one _ _ _ _ Hone He), decide_True, Hh by done. lia.
    - rewrite (counted_one _ _ _ _ Hone He), decide_False, Hi by done. lia. }
  unfold count_invocation. fold ts.
  destruct (managed s); [by apply Hinc|].
  destruct (first_invocation_metric_status s) eqn:Hst; try (apply Hinc; unfold held; cbn; by rewrite ?Hst).
  split; try done; [intros _|by rewrite orb_false_r]. unfold held. cbn. rewrite Hst.
  change (counted INVOCATIONS_METRIC (set_first_invocation_metric_status s (HeldBack ts)))
    with (counted INVOCATIONS_METRIC s). lia.
Qed.

Lemma flush_accounts s : accounts 0 false s (flush_pending_first_invocation_metric parse_tags s).
Proof.
  unfold flush_pending_first_invocation_metric.
  destruct (first_invocation_metric_status s) as [| |ts|] eqn:Hst; try apply quiet_accounts, quiet_refl.
  pose proof (increment_emits_one INVOCATIONS_METRIC (enhanced_metrics s) ts) as Hone.
  set (s' := set_first_invocation_metric_status _ _).
  change (Lambda.increment_metric parse_tags (enhanced_metrics s) INVOCATIONS_METRIC ts)
    with (enhanced_metrics s') in Hone.
  split; [intros He|intros He|by rewrite orb_false_r|by destruct Hone|done].
  - rewrite (counted_one _ _ _ _ Hone He), decide_True by done. unfold held. rewrite Hst. cbn. lia.
  - rewrite (counted_one _ _ _ _ Hone He), decide_False by done. cbn. lia.
Qed.

Lemma flush_held s : held (flush_pending_first_invocation_metric parse_tags s) = 0%nat.
Proof.
  unfold flush_pending_first_invocation_metric, held.
  by destruct (first_invocation_metric_status s) eqn:Hst; cbn; rewrite ?Hst.
Qed.

(** An init duration reported: the metric is emitted unless it was before. *)
Lemma init_reported_accounts s ty d ts :
  accounts 0 true s
    (if init_duration_metric_emitted s then s
     else set_init_duration_metric_emitted
            (on_metrics (fun m => Lambda.set_init_duration_metric parse_tags m ty d ts) s) true).
Proof.
  destruct (init_duration_metric_emitted s) eqn:Hi.
  { destruct (quiet_accounts _ _ (quiet_refl s)). split; try done. by rewrite Hi. }
  pose proof (init_duration_emits_one (enhanced_metrics s) ty d ts) as Hone.
  set (s' := set_init_duration_metric_emitted _ _).
  change (Lambda.set_init_duration_metric parse_tags (enhanced_metrics s) ty d ts)
    with (enhanced_metrics s') in Hone.
  split; [intros He|intros He|by rewrite Hi|by destruct Hone|done].
  - rewrite (counted_one _ _ _ _ Hone He), decide_False by done. unfold held. cbn. lia.
  - rewrite (counted_one _ _ _ _ Hone He), decide_True, Hi by done. cbn. lia.
Qed.

Lemma accounts_quiet k i s1 s2 s3 : accounts k i s1 s2 -> quiet s2 s3 -> accounts k i s1 s3.
Proof.
  intros Ha Hq%quiet_accounts. pose proof (accounts_trans _ _ _ _ _ _ _ Ha Hq) as Hc.
  by rewrite Nat.add_0_r, orb_false_r in Hc.
Qed.

Lemma quiet_accounts_trans k i s1 s2 s3 : quiet s1 s2 -> accounts k i s2 s3 -> accounts k i s1 s3.
Proof. intros Hq%quiet_accounts Ha. exact (accounts_trans _ _ _ _ _ _ _ Hq Ha). Qed.

Lemma invoke_accounts r s rid : accounts 1 false s (on_invoke_event parse_tags r s rid).
Proof.
  unfold on_invoke_event. cbv zeta.
  set (s1 := begin_monitoring r rid (begin_context r rid s)).
  assert (quiet s s1) as H1 by (unfold s1; peel).
  eapply accounts_quiet; [eapply quiet_accounts_trans; [exact H1|apply (count_invocation_accounts r)]|].
  set (s2 := count_invocation parse_tags r s1).
  destruct (Buffer.take_universal_instrumentation_start_for_request_id _ _) as [[ev|] b]; [peel|].
  match goal with |- quiet _ (if ?b then _ else _) => destruct b end; [peel|].
  destruct (Buffer.pair_invoke_event _ _) as [[[]|] b']; peel.
Qed.

Lemma init_start_accounts r s time rv s' :
  on_platform_init_start parse_tags r s time rv = Done s' -> accounts 0 false s s'.
Proof.
  unfold on_platform_init_start. cbv zeta. destruct (start_time_of time) as [st|]; [|done].
  cbn [mbind outcome_mbind outcome_bind].
  set (s1 := match rv with Some _ => _ | None => _ end).
  assert (quiet s s1) as H1 by (unfold s1; peel).
  set (s2 := match first_invocation_metric_status s1 with Pending => _ | _ => _ end).
  assert (accounts 0 false s1 s2) as H2.
  { unfold s2. destruct (first_invocation_metric_status s1) eqn:Hst; try apply quiet_accounts, quiet_refl.
    split; try done; [|by rewrite orb_false_r]. intros _. unfold held. cbn. rewrite Hst. unfold counted. cbn. lia. }
  pose proof (flush_accounts s2) as H3. set (s3 := flush_pending_first_invocation_metric parse_tags s2) in *.
  intros [= <-].
  eapply accounts_quiet; [eapply quiet_accounts_trans; [exact H1|exact (accounts_trans _ _ _ _ _ _ _ H2 H3)]|].
  peel.
Qed.

Lemma init_report_accounts s ty d ts :
  accounts 0 true s (on_platform_init_report parse_tags s ty d ts).
Proof.
  unfold on_platform_init_report. cbv zeta.
  eapply accounts_quiet; [apply (init_reported_accounts s ty d ts)|]. apply quiet_init_report_rest, quiet_refl.
Qed.

Lemma ondemand_report_accounts s rid m ts :
  accounts 0 (is_some (init_duration_ms m)) s (handle_ondemand_report parse_tags s rid m ts).
Proof.
  unfold handle_ondemand_report. cbv zeta.
  set (s1 := if max_memory_used_mb m =? memory_size_mb m then _ else _).
  set (s2 := match Buffer.get (context_buffer s1) rid with Some _ => _ | None => _ end).
  assert (quiet s s2) as Hq by (unfold s2, s1; peel).
  eapply quiet_accounts_trans; [exact Hq|]. clearbody s2. clear Hq s1.
  pose proof (quiet_accounts s2 s2 (quiet_refl s2)) as Hsame.
  destruct (init_duration_ms m) as [ms|] eqn:Hms; cbn [is_some].
  - apply (init_reported_accounts s2 InitOnDemand ms ts).
  - by destruct (init_duration_metric_emitted s2).
Qed.

Definition invocations_of (managed : bool) (command : @ProcessorCommand SamplingPriority) : nat :=
  match command with
  | InvokeEvent _ => 1
  | CPlatformStart _ _ => Nat.b2n managed
  | _ => 0
  end.

(** Commands that bring an init duration. *)
Definition reports_init (command : @ProcessorCommand SamplingPriority) : bool :=
  match command with
  | CPlatformInitReport _ _ _ => true
  | CPlatformReport _ (OnDemand m) _ _ _ _ => is_some (init_duration_ms m)
  | _ => false
  end.

Lemma report_accounts r s rid m ts st et sp :
  accounts 0 (reports_init (CPlatformReport rid m ts st et sp)) s
    (on_platform_report parse_tags ARCH size_of_Span r s rid m ts st et sp).
Proof.
  unfold on_platform_report. cbv zeta.
  set (s1 := on_metrics _ s). assert (quiet s s1) as H1 by (unfold s1; peel). clearbody s1.
  eapply quiet_accounts_trans; [exact H1|]. clear H1. cbn [reports_init].
  set (s2 := match m with
             | OnDemand metrics => handle_ondemand_report parse_tags s1 rid metrics ts
             | ManagedInstance metric =>
                 handle_managed_instance_report parse_tags size_of_Span r s1 rid metric ts st et sp
             end).
  assert (accounts 0 match m with OnDemand m => is_some (init_duration_ms m) | _ => false end s1 s2) as H2.
  { unfold s2. destruct m as [m|m]; [apply ondemand_report_accounts|].
    apply quiet_accounts. peel. }
  eapply accounts_quiet; [exact H2|]. clearbody s2. peel.
Qed.

Lemma shutdown_accounts r s s' :
  on_shutdown_event parse_tags r s = Done s' -> accounts 0 false s s' /\ held s' = 0%nat.
Proof.
  unfold on_shutdown_event. cbv zeta. destruct (I64_MAX <? clock_s r); [done|].
  pose proof (flush_accounts s) as H1. pose proof (flush_held s) as Hh.
  set (s1 := flush_pending_first_invocation_metric parse_tags s) in *. intros [= <-].
  match goal with |- accounts _ _ _ ?x /\ _ => assert (quiet s1 x) as Hq end.
  { assert (quiet s1 (on_metrics (fun m => Lambda.set_unused_init_metric parse_tags
      (Lambda.set_shutdown_metric parse_tags m (clock_s r)) (clock_s r)) s1)) by peel. peel. }
  split; [by eapply accounts_quiet|]. unfold held in *. by rewrite (q_status _ _ Hq).
Qed.

Lemma step_accounts r s command reply s' :
  step parse_tags ARCH size_of_Span r s command = Done (reply, s') ->
  accounts (invocations_of (managed s) command) (reports_init command) s s'.
Proof.
  destruct command; cbn [step invocations_of reports_init];
    try (intros [= <- <-]; apply quiet_accounts; peel; fail).
  - intros [= <- <-]. apply invoke_accounts.
  - destruct (on_platform_init_start _ _ _ _ _) eqn:He; [|done]. intros [= <- <-]. by eapply init_start_accounts.
  - intros [= <- <-]. apply init_report_accounts.
  - destruct (on_platform_restore_start _ _ _) eqn:He; [|done]. intros [= <- <-].
    eapply quiet_accounts, quiet_restore_start, He. apply quiet_refl.
  - intros [= <- <-]. apply quiet_accounts, quiet_restore_report, quiet_refl.
  - unfold on_platform_start. cbv zeta. destruct (start_time_of _) as [st|]; [|done]. intros [= <- <-].
    eapply accounts_quiet; [|apply quiet_on_buffer, quiet_refl].
    destruct (managed s); [apply invoke_accounts|apply quiet_accounts, quiet_refl].
  - intros [= <- <-]. apply report_accounts.
  - intros [= <- <-]. apply quiet_accounts, quiet_start, quiet_refl.
  - intros [= <- <-]. apply quiet_accounts, quiet_end, quiet_refl.
  - intros [= <- <-]. apply quiet_accounts, quiet_add_reparenting, quiet_refl.
  - pose proof (quiet_update_reparenting reparenting_info s ([], s) (quiet_refl s)) as Hq.
    unfold update_reparenting. destruct (foldl _ _ _). intros [= <- <-]. by apply quiet_accounts.
  - pose proof (quiet_cold_start_id s s trace_id (quiet_refl s)) as Hq.
    destruct (set_cold_start_span_trace_id s trace_id). intros [= <- <-]. by apply quiet_accounts.
  - intros [= <- <-]. apply quiet_accounts, quiet_add_tracer_span, quiet_refl.
  - intros [= <- <-]. apply quiet_accounts. unfold forward_durable_context. peel.
  - destruct (on_shutdown_event _ _ _) eqn:He; [|done]. intros [= <- <-]. by eapply shutdown_accounts.
Qed.

(** The commands the service takes before it stops. *)
Fixpoint received (commands : list (Readings * @ProcessorCommand SamplingPriority))
  : list ProcessorCommand :=
  match commands with
  | [] => []
  | (_, Shutdown) :: _ => []
  | (_, command) :: commands => command :: received commands
  end.

Lemma run_cons r c commands s :
  (c = Shutdown /\ received ((r, c) :: commands) = [] /\
   run parse_tags ARCH size_of_Span s ((r, c) :: commands) = Done ([], s)) \/
  (received ((r, c) :: commands) = c :: received commands /\
   run parse_tags ARCH size_of_Span s ((r, c) :: commands) =
     ('(reply, s) ← step parse_tags ARCH size_of_Span r s c;
      '(replies, s) ← run parse_tags ARCH size_of_Span s commands;
      Done (option_list reply ++ replies, s))).
Proof. destruct c; (right; done) || (left; done). Qed.

Lemma run_accounts commands : forall s replies s',
  run parse_tags ARCH size_of_Span s commands = Done (replies, s') ->
  accounts (sum_list_with (invocations_of (managed s)) (received commands))
    (existsb reports_init (received commands)) s s' /\
  (last (received commands) = Some OnShutdownEvent -> held s' = 0%nat).
Proof.
  induction commands as [|[r c] commands IH]; intros s replies s' Hr.
  { injection Hr as _ <-. split; [apply quiet_accounts, quiet_refl|done]. }
  destruct (run_cons r c commands s) as [(_ & -> & Hrun)|[-> Hrun]]; rewrite Hrun in Hr.
  { injection Hr as _ <-. split; [apply quiet_accounts, quiet_refl|done]. }
  destruct (step _ _ _ r s c) as [[reply s1]|] eqn:Hs; [|done]. cbn in Hr.
  destruct (run _ _ _ s1 commands) as [[replies' s2]|] eqn:Hr'; [|done]. cbn in Hr.
  injection Hr as _ <-. pose proof (step_accounts _ _ _ _ _ Hs) as H1.
  destruct (IH _ _ _ Hr') as [H2 Hlast].
  assert (managed s1 = managed s) as Hm by (unfold managed; by rewrite (a_aws _ _ _ _ H1)).
  rewrite Hm in H2. split; [exact (accounts_trans _ _ _ _ _ _ _ H1 H2)|].
  destruct (received commands) as [|c' cs] eqn:Hrec; [|exact Hlast].
  intros [= ->]. cbn in Hs. destruct (on_shutdown_event _ _ _) eqn:He; [|done].
  injection Hs as _ <-. apply shutdown_accounts in He as [_ Hh].
  specialize (H2). destruct commands as [|[r' c'] commands]; [by injection Hr' as _ <-|].
  destruct (run_cons r' c' commands a) as [(_ & _ & Hrun')|[Hrec' _]]; [|congruence].
  rewrite Hrun' in Hr'. by injection Hr' as _ <-.
Qed.

Lemma counted_new n resource cfg aws :
  counted n (Processor.new resource cfg aws (Lambda.new true)) = 0%nat.
Proof. done. Qed.

(** C19: every invocation is counted once in the invocations metric, whatever
    the order in which the platform events, the tracer and the agents reach the
    processor: the metrics emitted and the one held back for the durable tag add
    up to the invocations received, and none is held back after the shutdown
    event. *)
Theorem invocations_counted_once resource cfg aws commands replies self :
  run parse_tags ARCH size_of_Span (Processor.new resource cfg aws (Lambda.new true)) commands = Done (replies, self) ->
  (counted INVOCATIONS_METRIC self + held self =
     sum_list_with (invocations_of (is_managed_instance_mode aws)) (received commands))%nat /\
  (last (received commands) = Some OnShutdownEvent -> held self = 0%nat).
Proof.
  intros Hr. destruct (run_accounts _ _ _ _ Hr) as [[Ha _ _ _ _] Hh]. split; [|done].
  by rewrite (Ha eq_refl), counted_new.
Qed.

(** The init duration of a sandbox is emitted exactly once if anything
    reports it, however often and in whatever order the init report and the
    invocation reports carry it. *)
Theorem init_duration_emitted_once resource cfg aws commands replies self :
  run parse_tags ARCH size_of_Span (Processor.new resource cfg aws (Lambda.new true)) commands = Done (replies, self) ->
  counted INIT_DURATION_METRIC self = Nat.b2n (existsb reports_init (received commands)).
Proof.
  intros Hr. destruct (run_accounts _ _ _ _ Hr) as [[_ Hi Hf _ _] _].
  specialize (Hi eq_refl). rewrite Hf, counted_new in Hi. cbn in Hi. lia.
Qed.

End Properties.
End Properties.

(** * Concrete runs *)

Module SampleRun.
Import Processor.

Definition readings : Readings :=
  {| clock_ns := 1700000000000000000; clock_s := 1700000000; instant := 5; proc_runtime := "python3.12";
     invoke_network := None; invoke_cpu := None; invoke_uptime := None; done_cpu := None;
     done_uptime := None; report_network := None; report_cpu := None; fd_max := f64_one;
     threads_max := f64_one; inferred_id := 7; wrapped_id := 8; fresh_trace_id := 9;
     fresh_span_id := 10 |}.

Definition aws : AwsConfig :=
  {| region := "us-east-1"; sandbox_init_time := 0; initialization_type := "on-demand" |}.

Definition done_metrics : RuntimeDoneMetrics := {| rd_duration_ms := f64_one; produced_bytes := None |}.

Definition report : OnDemandReportMetrics :=
  {| od_duration_ms := f64_one; billed_duration_ms := 2; memory_size_mb := 128;
     max_memory_used_mb := 64; init_duration_ms := Some f64_one; restore_duration_ms := None |}.

(** An invocation of [rid]; the sandbox reports its initialization late. *)
Definition invocation (rid : string) : list (Readings * @ProcessorCommand Z) :=
  [(readings, InvokeEvent rid);
   (readings, CPlatformRuntimeDone rid done_metrics Success None 1700000000);
   (readings, CPlatformReport rid (OnDemand report) 1700000000 Success None None)].

Definition commands : list (Readings * @ProcessorCommand Z) :=
  invocation "a" ++
  [(readings, CPlatformInitStart 1700000000000000000 None);
   (readings, CPlatformInitReport InitOnDemand f64_one 1700000000000000000)] ++
  invocation "b" ++ [(readings, OnShutdownEvent)].

Definition parse_tags (s : string) : option string := Some s.

Definition start : @Processor.t Z string :=
  @Processor.new Sample.externals Z string None Sample.config aws (Lambda.new true).

End SampleRun.

Section Witnesses.
#[local] Existing Instances Sample.externals Sample.propagation.
Import SampleRun.

Lemma invocations_counted_once_witness :
  match Processor.run parse_tags "amd64" 200 start commands with
  | Done (_, self) => Properties.counted INVOCATIONS_METRIC self = 2%nat
  | Panic => False
  end.
Proof.
  destruct (Processor.run _ _ _ start commands) as [[replies self]|] eqn:Hr;
    [|vm_compute in Hr; discriminate].
  destruct (Properties.invocations_counted_once _ _ _ _ _ _ _ _ _ Hr) as [Hc Hh].
  rewrite Hh in Hc by reflexivity. rewrite Nat.add_0_r in Hc. rewrite Hc. reflexivity.
Defined.

Lemma init_duration_emitted_once_witness :
  match Processor.run parse_tags "amd64" 200 start commands with
  | Done (_, self) => Properties.counted INIT_DURATION_METRIC self = 1%nat
  | Panic => False
  end.
Proof.
  destruct (Processor.run _ _ _ start commands) as [[replies self]|] eqn:Hr;
    [|vm_compute in Hr; discriminate].
  rewrite (Properties.init_duration_emitted_once _ _ _ _ _ _ _ _ _ Hr). reflexivity.
Defined.

End Witnesses.
