(* ===== verification/InvocationTraces.v ===== *)
(** The spans the invocation processor sends: the spans of a batch belong to one
    trace, whatever the order of the commands; the contexts the trace agent has
    completed after the end of their invocation are the exception. *)
From S2P Require Import Prelude F64 DataStreams Text TelemetryEvents LogsProcessor EnhancedMetrics.
From S2P Require Import ContextBuffer Triggers TriggerEvents Configuration SpanInferrer InvocationProcessor.
From S2P Require Import InvocationProperties.
#[local] Open Scope Z_scope.

(** There are spans, and they carry one trace id that is set. *)
Definition one_trace (l : list Span) : Prop :=
  match l with
  | [] => False
  | s :: l => trace_id s <> 0 /\ Forall (fun y => trace_id y = trace_id s) l
  end.

Module Traces.
Import Processor.
Section Traces.
Context `{Externals} `{Propagation SamplingPriority}.
Context {SortedTags : Type} (parse_tags : string -> option SortedTags) (ARCH : string)
  (size_of_Span : Z).
Abbreviation t := (@Processor.t SamplingPriority SortedTags).
Abbreviation ContextBuffer := (@Buffer.t (SpanContext SamplingPriority) Value).
Abbreviation Context_ := (@Buffer.Context_ (SpanContext SamplingPriority)).
Implicit Types self x : t.
Implicit Types b : ContextBuffer.
Implicit Types c : Context_.

(** * Contexts *)

(** A span wrapped in the inferred span only exists beside it. *)
Definition sound c : Prop :=
  is_Some (Inferred.wrapped_inferred_span (Buffer.inferred c)) ->
  is_Some (Inferred.inferred_span (Buffer.inferred c)).

Definition sounds b : Prop := Forall sound (Buffer.buffer b).

Lemma sounds_update_at b i f :
  (forall c, sound c -> sound (f c)) -> sounds b -> sounds (Buffer.update_at b i f).
Proof. intros Hf Hb. apply Forall_alter; [done|]. intros c _ Hc. by apply Hf. Qed.

Lemma sounds_update_first b rid f :
  (forall c, sound c -> sound (f c)) -> sounds b -> sounds (Buffer.update_first b rid f).
Proof.
  intros Hf Hb. unfold Buffer.update_first. destruct (Buffer.position _ _); [|done].
  by apply sounds_update_at.
Qed.

Lemma sounds_get b rid c : sounds b -> Buffer.get b rid = Some c -> sound c.
Proof.
  unfold sounds, Buffer.get. intros Hb. destruct (list_find _ _) as [[i c']|] eqn:Hf; [|done].
  intros [= ->]. apply list_find_Some in Hf as [Hi _]. by eapply Forall_lookup_1.
Qed.

Lemma sounds_remove b rid : sounds b -> sounds (Buffer.remove b rid).2.
Proof.
  intros Hb. unfold Buffer.remove. destruct (list_find _ _) as [[i c]|]; [|done].
  apply Forall_app. split; [by apply Forall_take|by apply Forall_drop].
Qed.

Lemma sounds_insert b c : sound c -> sounds b -> sounds (Buffer.insert b c).
Proof.
  intros Hc Hb. unfold Buffer.insert. case_bool_decide.
  - apply Forall_app. split; [|by constructor]. unfold sounds in Hb.
    by destruct (Buffer.buffer b); [|inversion Hb].
  - destruct (Buffer.get b _); apply Forall_app; (split; [|by constructor]); [|done].
    by apply sounds_remove.
Qed.

Lemma sounds_start_context b now rid s : sounds b -> sounds (Buffer.start_context b now rid s).
Proof. intros. by apply sounds_insert; [intros []|]. Qed.

Lemma sound_infer config region i w p c :
  sound (set_inferred c (infer_span config region i w p)).
Proof. intros [ws Hw]. by destruct (infer_span_wrapped config region i w p ws Hw) as (_ & _ & ?). Qed.

Lemma sound_map c f : sound c -> sound (set_inferred c (Inferred.map_span f (Buffer.inferred c))).
Proof. unfold sound. cbn. rewrite fmap_is_Some. auto. Qed.

Lemma sound_start_instrumented config inferred h p c :
  sound (set_inferred c inferred) -> sound (start_instrumented config inferred h p c).
Proof.
  intros Hc. unfold start_instrumented. cbv zeta.
  repeat case_match; first [exact Hc|exact (sound_map _ _ Hc)|exact (sound_map _ _ (sound_map _ _ Hc))].
Qed.

Lemma sound_tag_status_code p c : sound c -> sound (tag_status_code p c).
Proof. intros Hc. unfold tag_status_code. repeat case_match; first [exact Hc|exact (sound_map _ _ Hc)]. Qed.

Lemma sound_end_instrumented config h p c : sound c -> sound (end_instrumented config h p c).
Proof.
  intros Hc. unfold end_instrumented. cbv zeta.
  match goal with |- context [tag_status_code p ?y] =>
    assert (sound (tag_status_code p y)) as Hy by (apply sound_tag_status_code; by case_match);
    generalize dependent (tag_status_code p y) end. clear c Hc. intros c Hc.
  match goal with |- sound (let '(_, _) := ?y in _) => destruct y as [[? ?] ?] end.
  match goal with |- sound (let '(_, _) := ?y in _) => destruct y as [[[? ?] ?] ?] end.
  match goal with |- context [get_error_tags_from_headers h (error (Buffer.invocation_span ?y) =? 1)] =>
    assert (sound y) as Hy; [|set (c' := y) in *] end.
  - destruct (Inferred.inferred_span _); [exact (sound_map _ _ Hc)|exact Hc].
  - clearbody c'. by case_match.
Qed.

Lemma sound_complete config s c :
  sound c -> sound (set_inferred c (complete_inferred_spans config (Buffer.inferred c) s)).
Proof.
  unfold sound, complete_inferred_spans. cbn. intros Hc.
  destruct (Inferred.inferred_span (Buffer.inferred c)) as [s'|] eqn:Hs; [by eauto|].
  rewrite Hs. done.
Qed.

Lemma sound_enrich r self status c : sound c -> sound (enrich_context r self status c).
Proof.
  intros Hc. unfold enrich_context. cbv zeta. repeat case_match;
    match goal with |- context [complete_inferred_spans ?cfg _ ?s] =>
      exact (sound_complete cfg s c Hc) end.
Qed.

(** * Batches *)
Lemma propagate_appsec_trace e s y : trace_id (propagate_appsec e s y) = trace_id y.
Proof. unfold propagate_appsec. by repeat case_match. Qed.

Lemma complete_wrapped_trace config a s y z : trace_id (complete_wrapped config a s y z) = trace_id s.
Proof. unfold complete_wrapped. cbv zeta. case_match; exact (propagate_appsec_trace _ s (take_invocation s (service y) z)). Qed.

Lemma complete_inferred_trace config s y : trace_id (complete_inferred config s y) = trace_id s.
Proof. unfold complete_inferred. by rewrite propagate_appsec_trace. Qed.

Lemma inferred_duration_trace a s y : trace_id (inferred_duration a s y) = trace_id y.
Proof. unfold inferred_duration. by repeat case_match. Qed.

(** The spans around the invocation take its trace when it is completed. *)
Lemma complete_traces config s (data : @Inferred.t (SpanContext SamplingPriority)) :
  (is_Some (Inferred.wrapped_inferred_span data) -> is_Some (Inferred.inferred_span data)) ->
  let data := complete_inferred_spans config data s in
  Forall (fun y => trace_id y = trace_id s)
    (option_list (Inferred.inferred_span data) ++ option_list (Inferred.wrapped_inferred_span data)).
Proof.
  intros Hd. unfold complete_inferred_spans.
  destruct (Inferred.inferred_span data) as [y|] eqn:Hx; cbn zeta.
  - cbn. constructor.
    + rewrite inferred_duration_trace. case_match; apply complete_inferred_trace.
    + destruct (Inferred.wrapped_inferred_span data); cbn; [|done].
      constructor; [apply complete_wrapped_trace|done].
  - rewrite Hx. destruct (Inferred.wrapped_inferred_span data); [|constructor].
    by destruct (Hd ltac:(eauto)).
Qed.

(** What the end of the runtime makes of a context. *)
Lemma enrich_shape r self status c :
  let c' := enrich_context r self status c in
  let s := Buffer.invocation_span c' in
  Buffer.runtime_done_received c' = true /\
  Buffer.inferred c' = complete_inferred_spans (config self) (Buffer.inferred c) s /\
  (trace_id s <> 0 -> tracer_detected self = true ->
   Buffer.cold_start_span c' = (join_trace s <$> Buffer.cold_start_span c) /\
   Buffer.snapstart_restore_span c' = (join_trace s <$> Buffer.snapstart_restore_span c)).
Proof.
  intros c' s. subst s c'. unfold enrich_context. cbv zeta.
  match goal with |- context [complete_inferred_spans _ (Buffer.inferred ?y) _] => set (c1 := y) end.
  assert (Buffer.runtime_done_received c1 = true /\ Buffer.inferred c1 = Buffer.inferred c /\
    Buffer.cold_start_span c1 = Buffer.cold_start_span c /\
    Buffer.snapstart_restore_span c1 = Buffer.snapstart_restore_span c) as (H1 & <- & <- & <-)
    by (subst c1; by repeat case_match).
  clearbody c1. destruct (trace_id (Buffer.invocation_span c1) =? 0) eqn:Hz; cbn [andb negb].
  - split_and!; [done..|]. intros Hid. exfalso. by apply Hid, Z.eqb_eq.
  - destruct (tracer_detected self); by split_and!.
Qed.

(** What is sent for an invocation whose runtime is done. *)
Lemma enriched_one_trace r self status c :
  let c' := enrich_context r self status c in
  sound c -> tracer_detected self = true -> trace_id (Buffer.invocation_span c') <> 0 ->
  one_trace (get_ctx_spans size_of_Span c').1.
Proof.
  intros c' Hc Ht Hid. split; [done|].
  destruct (enrich_shape r self status c) as (_ & Hi & Hjoin). destruct (Hjoin Hid Ht) as [Hcs Hss].
  fold c' in Hi, Hcs, Hss.
  pose proof (complete_traces (config self) (Buffer.invocation_span c') _ Hc) as Htr.
  cbv zeta in Htr. rewrite <- Hi in Htr. rewrite app_assoc. apply Forall_app. split; [exact Htr|]. rewrite Hcs, Hss.
  destruct (Buffer.snapstart_restore_span c), (Buffer.cold_start_span c); repeat constructor.
Qed.

(** * The invariant *)

Definition ctx_batch c : SentSpans :=
  {| spans := (get_ctx_spans size_of_Span c).1; body_size := (get_ctx_spans size_of_Span c).2;
     sent_client_computed_stats := Buffer.client_computed_stats c;
     sent_span_pointers := Inferred.span_pointers (Buffer.inferred c) |}.

(** [asked]: the batches other components ask for. *)
Record traced (asked : SentSpans -> Prop) self : Prop := {
  tr_contexts : sounds (context_buffer self);
  tr_sent : Forall (fun batch => one_trace (spans batch) \/ asked batch) (sent self);
}.

Context (asked : SentSpans -> Prop).

Lemma traced_on_buffer x f : (forall b, sounds b -> sounds (f b)) -> traced asked x -> traced asked (on_buffer f x).
Proof. intros Hf []. split; [by apply Hf|done]. Qed.

Lemma traced_set_buffer x b : sounds b -> traced asked x -> traced asked (set_buffer x b).
Proof. by intros ? []. Qed.

Lemma traced_send x l size stats p :
  one_trace l -> traced asked x -> traced asked (send_spans x l size stats p).
Proof. intros Hl []. split; [done|]. apply Forall_app. split; [done|]. constructor; [by left|done]. Qed.

Lemma traced_metrics x m : traced asked x -> traced asked (set_metrics x m).
Proof. by intros []. Qed.
Lemma traced_on_metrics x f : traced asked x -> traced asked (on_metrics f x).
Proof. by intros []. Qed.
Lemma traced_tracer x v : traced asked x -> traced asked (set_tracer_detected x v).
Proof. by intros []. Qed.
Lemma traced_runtime x v : traced asked x -> traced asked (set_runtime x v).
Proof. by intros []. Qed.
Lemma traced_dynamic_tags x v : traced asked x -> traced asked (set_dynamic_tags x v).
Proof. by intros []. Qed.
Lemma traced_active x v : traced asked x -> traced asked (set_active_invocations x v).
Proof. by intros []. Qed.
Lemma traced_awaiting x v : traced asked x -> traced asked (set_awaiting_first_invocation x v).
Proof. by intros []. Qed.
Lemma traced_restore x v : traced asked x -> traced asked (set_restore_time x v).
Proof. by intros []. Qed.
Lemma traced_init x v : traced asked x -> traced asked (set_init_duration_metric_emitted x v).
Proof. by intros []. Qed.
Lemma traced_status x v : traced asked x -> traced asked (set_first_invocation_metric_status x v).
Proof. by intros []. Qed.
Lemma traced_dsm_ids x v : traced asked x -> traced asked (set_dsm_processed_request_ids x v).
Proof. by intros []. Qed.
Lemma traced_consumed x v : traced asked x -> traced asked (set_consumed x v).
Proof. by intros []. Qed.
Lemma traced_forwarded x v : traced asked x -> traced asked (set_forwarded x v).
Proof. by intros []. Qed.
Lemma traced_tasks x v : traced asked x -> traced asked (set_usage_tasks x v).
Proof. by intros []. Qed.

Lemma sounds_reparenting b l : sounds b -> sounds (set_reparenting b l).
Proof. done. Qed.

(** The changes that leave the inferred spans alone. *)
#[local] Hint Extern 0 (forall c, sound c -> sound _) => (intros ? Hsound; exact Hsound) : traced.
#[local] Hint Resolve sounds_update_at sounds_update_first sounds_remove sounds_start_context
  sounds_reparenting tr_contexts : traced.
#[local] Hint Extern 1 (sounds (Buffer.set_invokes ?b _)) => change (sounds b) : traced.
#[local] Hint Extern 1 (sounds (Buffer.set_dones ?b _)) => change (sounds b) : traced.
#[local] Hint Extern 1 (sounds (Buffer.set_starts ?b _)) => change (sounds b) : traced.
#[local] Hint Extern 1 (sounds (Buffer.set_ends ?b _)) => change (sounds b) : traced.
#[local] Hint Extern 1 (sounds (Buffer.set_starts_with_id ?b _)) => change (sounds b) : traced.
#[local] Hint Extern 1 (sounds (Buffer.set_ends_with_id ?b _)) => change (sounds b) : traced.
#[local] Hint Extern 1 (sounds (Buffer.add_start_time _ _ _)) => apply sounds_update_first : traced.
#[local] Hint Extern 1 (sounds (Buffer.add_runtime_duration _ _ _)) =>
  apply sounds_update_first : traced.
#[local] Hint Extern 1 (sounds (Buffer.add_enhanced_metric_data _ _ _)) =>
  apply sounds_update_first : traced.
#[local] Hint Extern 1 (sounds (Buffer.add_tracer_span _ _ _ _)) =>
  apply sounds_update_first : traced.
#[local] Hint Resolve traced_set_buffer traced_send traced_metrics traced_on_metrics traced_tracer
  traced_runtime traced_dynamic_tags traced_active traced_awaiting traced_restore traced_init
  traced_status traced_dsm_ids traced_consumed traced_forwarded traced_tasks : traced.
#[local] Hint Extern 1 (traced _ (on_buffer _ _)) =>
  apply traced_on_buffer; [intros ? ?; eauto 12 with traced|] : traced.
#[local] Hint Extern 2 (traced _ (match ?x with _ => _ end)) => destruct x : traced.

Ltac keep := cbv zeta; eauto 300 with traced.

Lemma traced_set_init_tags x r : traced asked x -> traced asked (set_init_tags r x).
Proof. intros. unfold set_init_tags. keep. Qed.
#[local] Hint Resolve traced_set_init_tags : traced.

Lemma traced_start_context x r rid : traced asked x -> traced asked (start_context r rid x).
Proof. intros. unfold start_context. keep. Qed.
#[local] Hint Resolve traced_start_context : traced.

Lemma traced_record_dsm x rid p :
  traced asked x -> traced asked (record_dsm_consume_from_payload x rid p).
Proof. intros. unfold record_dsm_consume_from_payload. keep. Qed.
#[local] Hint Resolve traced_record_dsm : traced.

Lemma traced_process_start x r rid h p :
  traced asked x -> traced asked (process_on_universal_instrumentation_start r x rid h p).
Proof.
  intros. unfold process_on_universal_instrumentation_start. cbv zeta.
  destruct (Buffer.get _ _); [|done]. apply traced_record_dsm, traced_on_buffer; [|done].
  intros b Hb. apply sounds_update_first; [|done]. intros c' _.
  apply sound_start_instrumented, sound_infer.
Qed.
#[local] Hint Resolve traced_process_start : traced.

Lemma traced_begin_context x r rid : traced asked x -> traced asked (begin_context r rid x).
Proof.
  intros Hx. unfold begin_context. destruct (_ && _); [|keep].
  unfold Buffer.update_empty_context_request_id. destruct (Buffer.position _ _); keep.
Qed.
#[local] Hint Resolve traced_begin_context : traced.

Lemma traced_begin_monitoring x r rid : traced asked x -> traced asked (begin_monitoring r rid x).
Proof. intros. unfold begin_monitoring. keep. Qed.
#[local] Hint Resolve traced_begin_monitoring : traced.

Lemma traced_count x r : traced asked x -> traced asked (count_invocation parse_tags r x).
Proof. intros. unfold count_invocation. keep. Qed.
#[local] Hint Resolve traced_count : traced.

Lemma traced_flush x : traced asked x -> traced asked (flush_pending_first_invocation_metric parse_tags x).
Proof. intros. unfold flush_pending_first_invocation_metric. keep. Qed.
#[local] Hint Resolve traced_flush : traced.


Lemma traced_start x r h p rid :
  traced asked x -> traced asked (on_universal_instrumentation_start r x h p rid).
Proof.
  intros Hx. unfold on_universal_instrumentation_start. cbv zeta.
  unfold Buffer.pair_universal_instrumentation_start_with_request_id,
    Buffer.pair_universal_instrumentation_start_event.
  repeat case_match; simplify_eq/=; keep.
Qed.

Lemma traced_invoke x r rid : traced asked x -> traced asked (on_invoke_event parse_tags r x rid).
Proof.
  intros Hx. unfold on_invoke_event. cbv zeta.
  set (y := on_metrics _ _). assert (traced asked y) as Hy by (subst y; keep). clearbody y.
  unfold Buffer.take_universal_instrumentation_start_for_request_id, Buffer.pair_invoke_event.
  repeat case_match; simplify_eq/=; keep.
Qed.
#[local] Hint Resolve traced_invoke : traced.

Lemma traced_process_end x r rid h p :
  traced asked x -> traced asked (process_on_universal_instrumentation_end parse_tags r x rid h p).
Proof.
  intros Hx. unfold process_on_universal_instrumentation_end. cbv zeta.
  destruct (Buffer.get _ _) as [c|] eqn:Hg; [|done].
  assert (sound (end_instrumented (config x) h p c)) as Hc
    by (eapply sound_end_instrumented, sounds_get; [apply Hx|done]).
  case_match; keep.
Qed.
#[local] Hint Resolve traced_process_end : traced.

Lemma traced_end x r h p rid :
  traced asked x -> traced asked (on_universal_instrumentation_end parse_tags r x h p rid).
Proof.
  intros Hx. unfold on_universal_instrumentation_end. cbv zeta.
  unfold Buffer.pair_universal_instrumentation_end_with_request_id,
    Buffer.pair_universal_instrumentation_end_event.
  repeat case_match; simplify_eq/=; keep.
Qed.

Lemma traced_oom x rid ts : traced asked x -> traced asked (try_increment_oom_metric parse_tags x rid ts).
Proof. intros. unfold try_increment_oom_metric. keep. Qed.
#[local] Hint Resolve traced_oom : traced.

Lemma traced_send_cold_start x : traced asked x -> traced asked (send_cold_start_span size_of_Span x).
Proof.
  intros Hx. unfold send_cold_start_span. destruct (cold_start x) as [[i s]|]; [|done].
  destruct (trace_id s =? 0) eqn:Hz; [done|]. apply traced_send; [|done].
  split; [by apply Z.eqb_neq|constructor].
Qed.
#[local] Hint Resolve traced_send_cold_start : traced.

(** The runtime is done: the context completed and what is sent of it. *)
Lemma traced_process_done x r rid st :
  traced asked x -> traced asked (process_on_platform_runtime_done parse_tags size_of_Span r x rid st).
Proof.
  intros Hx. unfold process_on_platform_runtime_done, enrich_ctx_at_platform_done.
  destruct (Buffer.get _ _) as [c|] eqn:Hg; [|by case_match; keep].
  assert (sound c) as Hc by (eapply sounds_get; [apply Hx|done]).
  pose proof (sound_enrich r x st c Hc) as Hc'.
  pose proof (enriched_one_trace r x st c Hc) as Hone. cbv zeta in Hone |- *.
  set (c' := enrich_context r x st c) in *.
  match goal with |- context [if tracer_detected (on_buffer ?f ?y) then _ else _] =>
    assert (traced asked (on_buffer f y)) as Hy by keep;
    assert (tracer_detected (on_buffer f y) = tracer_detected x) as -> by (by case_match);
    set (z := on_buffer f y) in * end.
  destruct (tracer_detected x) eqn:Ht; [|keep].
  destruct (_ && _) eqn:Hids; [|done].
  apply andb_true_iff in Hids as [Hid _]. apply traced_send; [|done].
  apply Hone; [done|]. by apply negb_true_iff, Z.eqb_neq in Hid.
Qed.
#[local] Hint Resolve traced_process_done : traced.

Lemma traced_emit_usage x r : traced asked x -> traced asked (emit_usage parse_tags r x).
Proof. intros. unfold emit_usage. cbv zeta. destruct (Lambda.set_usage_enhanced_metrics _ _). keep. Qed.
#[local] Hint Resolve traced_emit_usage : traced.

Lemma traced_runtime_done x r rid rm st et ts :
  traced asked x ->
  traced asked (on_platform_runtime_done parse_tags size_of_Span r x rid rm st et ts).
Proof.
  intros Hx. unfold on_platform_runtime_done. cbv zeta.
  set (y := on_buffer _ _). assert (traced asked y) as Hy by (subst y; keep). clearbody y.
  unfold Buffer.take_universal_instrumentation_end_for_request_id,
    Buffer.pair_platform_runtime_done_event.
  repeat case_match; simplify_eq/=; keep.
Qed.
#[local] Hint Resolve traced_runtime_done : traced.

Lemma traced_release x rid : traced asked x -> traced asked (release_invocation_context x rid).
Proof. intros. unfold release_invocation_context. keep. Qed.
#[local] Hint Resolve traced_release : traced.

Lemma traced_report x r rid m ts st et sp :
  traced asked x ->
  traced asked (on_platform_report parse_tags ARCH size_of_Span r x rid m ts st et sp).
Proof.
  intros. unfold on_platform_report, handle_managed_instance_report, handle_ondemand_report. keep.
Qed.

Lemma traced_update_reparenting infos : forall acc : list Context_ * t,
  traced asked acc.2 -> traced asked (foldl update_reparenting_one acc infos).2.
Proof.
  induction infos as [|info infos IH]; intros [cs x] Hx; [done|]. apply IH. cbn [snd] in *.
  unfold update_reparenting_one. destruct (Buffer.get _ _) as [c|] eqn:Hg; cbn [snd]; [|keep].
  assert (sound (reparent_context info c)) by exact (sounds_get _ _ _ (tr_contexts _ _ Hx) Hg). keep.
Qed.

Lemma traced_cold_start_id x i : traced asked x -> traced asked (set_cold_start_span_trace_id x i).2.
Proof.
  intros. unfold set_cold_start_span_trace_id. destruct (cold_start x) as [[]|]; cbn [snd]; keep.
Qed.

Lemma traced_init_report x it d ts :
  traced asked x -> traced asked (on_platform_init_report parse_tags x it d ts).
Proof. intros. unfold on_platform_init_report. keep. Qed.

Lemma traced_init_start x r time rv x' :
  traced asked x -> on_platform_init_start parse_tags r x time rv = Done x' -> traced asked x'.
Proof.
  intros Hx. unfold on_platform_init_start, start_time_of. cbv zeta. destruct (time <? 0); [done|].
  intros [= <-]. keep.
Qed.

Lemma traced_restore_start x r time x' :
  traced asked x -> on_platform_restore_start r x time = Done x' -> traced asked x'.
Proof.
  intros Hx. unfold on_platform_restore_start, start_time_of. cbv zeta. destruct (time <? 0); [done|].
  intros [= <-]. keep.
Qed.

Lemma traced_restore_report x d ts :
  traced asked x -> traced asked (on_platform_restore_report parse_tags x d ts).
Proof. intros. unfold on_platform_restore_report. keep. Qed.

Lemma traced_step r self command reply self' :
  (forall c, command = SendCtxSpans c -> asked (ctx_batch c)) ->
  traced asked self -> step parse_tags ARCH size_of_Span r self command = Done (reply, self') ->
  traced asked self'.
Proof.
  intros Hasked Hx. destruct command; cbn [step].
  all: try (intros [= <- <-]; eauto using traced_invoke, traced_init_report, traced_restore_report,
    traced_runtime_done, traced_report, traced_start, traced_record_dsm, traced_end, traced_oom; fail).
  - destruct (on_platform_init_start _ _ _ _ _) eqn:He; [|done]. intros [= <- <-].
    by eapply traced_init_start.
  - destruct (on_platform_restore_start _ _ _) eqn:He; [|done]. intros [= <- <-].
    by eapply traced_restore_start.
  - unfold on_platform_start. cbv zeta. destruct (start_time_of _); [|done]. intros [= <- <-]. keep.
  - intros [= <- <-]. unfold add_reparenting. keep.
  - pose proof (traced_update_reparenting reparenting_info ([], self) Hx) as Hy.
    unfold update_reparenting. destruct (foldl _ _ _). by intros [= <- <-].
  - pose proof (traced_cold_start_id self trace_id Hx) as Hy.
    destruct (set_cold_start_span_trace_id _ _). by intros [= <- <-].
  - intros [= <- <-]. unfold Processor.add_tracer_span. keep.
  - intros [= <- <-]. unfold forward_durable_context. keep.
  - unfold on_shutdown_event. cbv zeta. destruct (_ <? _); [done|]. intros [= <- <-]. keep.
  - intros [= <- <-]. destruct Hx as [Hc Hs]. split; [done|]. apply Forall_app. split; [done|].
    constructor; [|done]. right. by apply Hasked.
Qed.

Lemma traced_run commands : forall self replies self',
  (forall c, SendCtxSpans c ∈ Properties.received commands -> asked (ctx_batch c)) ->
  traced asked self -> run parse_tags ARCH size_of_Span self commands = Done (replies, self') ->
  traced asked self'.
Proof.
  induction commands as [|[r command] commands IH]; intros self replies self' Hasked Hx Hr.
  { by injection Hr as _ <-. }
  destruct (Properties.run_cons parse_tags ARCH size_of_Span r command commands self)
    as [(_ & _ & Hrun)|[Hrec Hrun]]; rewrite Hrun in Hr; [by injection Hr as _ <-|].
  destruct (step _ _ _ r self command) as [[reply s1]|] eqn:Hs; [|done]. cbn in Hr.
  destruct (run _ _ _ s1 commands) as [[replies' s2]|] eqn:Hr'; [|done]. injection Hr as _ <-.
  rewrite Hrec in Hasked. eapply IH; [|eapply traced_step; [|exact Hx|exact Hs]|exact Hr'].
  - intros c Hin. apply Hasked. by right.
  - intros c ->. apply Hasked. by left.
Qed.

End Traces.

Section Claims.
Context `{Externals} `{Propagation SamplingPriority}.
Context {SortedTags : Type} (parse_tags : string -> option SortedTags) (ARCH : string)
  (size_of_Span : Z).

(** C22: every batch of spans the processor sends by itself belongs to one trace:
    it is not empty, its spans carry the same trace id, and that id is not zero.
    The other batches are those of contexts the service was handed back to send. *)
Theorem batches_are_one_trace resource cfg aws metrics commands replies self :
  run parse_tags ARCH size_of_Span (Processor.new resource cfg aws metrics) commands
    = Done (replies, self) ->
  Forall (fun batch => one_trace (spans batch) \/
            exists c, SendCtxSpans c ∈ Properties.received commands /\ batch = ctx_batch size_of_Span c)
    (sent self).
Proof.
  intros Hr. refine (tr_sent _ _ (traced_run parse_tags ARCH size_of_Span _ _ _ _ _ _ _ Hr)).
  - eauto.
  - split; constructor.
Qed.

(** A context completed at the end of the runtime without a trace id, and
    given one afterwards by the trace agent, is handed back with spans of two
    traces: the invocation span has the guessed trace id, the inferred span keeps
    the zero id. *)
Theorem reparented_context_mixes_traces (self x : @Processor.t SamplingPriority SortedTags)
    r status c info :
  let c' := enrich_context r x status c in
  Buffer.get (context_buffer self) (Buffer.info_request_id info) = Some c' ->
  is_Some (Inferred.inferred_span (Buffer.inferred c)) ->
  trace_id (Buffer.invocation_span c') = 0 -> span_id (Buffer.invocation_span c') = 0 ->
  Buffer.invocation_span_id info <> 0 -> Buffer.guessed_trace_id info <> 0 ->
  exists handed self',
    update_reparenting self [info] = ([handed], self') /\
    trace_id (Buffer.invocation_span handed) = Buffer.guessed_trace_id info /\
    ~ one_trace (spans (ctx_batch size_of_Span handed)).
Proof.
  intros c' Hget [s Hs] Ht Hid Hspan Hguess.
  destruct (enrich_shape r x status c) as (Hdone & Hinf & _). fold c' in Hdone, Hinf.
  pose proof (complete_traces (config x) (Buffer.invocation_span c') (Buffer.inferred c)
    ltac:(eauto)) as Htr. cbv zeta in Htr. rewrite <- Hinf in Htr.
  assert (exists s', Inferred.inferred_span (Buffer.inferred c') = Some s') as [s' Hs'].
  { rewrite Hinf. unfold complete_inferred_spans. rewrite Hs. by eexists. }
  rewrite Hs' in Htr. apply Forall_cons in Htr as [Htr _]. clearbody c'.
  unfold update_reparenting. cbn [foldl]. unfold update_reparenting_one. rewrite Hget.
  assert (ready_to_send c' (reparent_context info c') = true) as ->.
  { unfold ready_to_send, reparent_context, on_span. cbn -[Z.eqb]. rewrite Hid, Ht, Hdone.
    change (0 =? 0) with true. cbn -[Z.eqb]. rewrite Ht. change (0 =? 0) with true. cbn -[Z.eqb].
    by rewrite (proj2 (Z.eqb_neq _ _) Hspan), (proj2 (Z.eqb_neq _ _) Hguess). }
  eexists _, _. split; [reflexivity|]. unfold reparent_context, on_span. rewrite Hid. cbn. rewrite Ht.
  split; [done|]. rewrite Hs'. intros [_ Hall]. cbn in Hall. apply Forall_cons in Hall as [Heq _]. congruence.
Qed.

End Claims.
End Traces.

(** * Concrete runs *)

Section Witnesses.
#[local] Existing Instances Sample.externals Sample.propagation.
Import Processor SampleRun.

(** An invocation by a queue message, ended by the tracer. *)
Definition traced_commands : list (Readings * @ProcessorCommand Z) :=
  [(readings, InvokeEvent "a");
   (readings, UniversalInstrumentationStart ∅ Sample.sqs_event None);
   (readings, UniversalInstrumentationEnd
      {[ DATADOG_TRACE_ID_KEY := "11"%string; DATADOG_SPAN_ID_KEY := "12"%string ]} VNull None);
   (readings, CPlatformRuntimeDone "a" done_metrics Success None 1700000000)].

Lemma batches_are_one_trace_witness :
  match run parse_tags "amd64" 200 start traced_commands with
  | Done (_, self) =>
      Forall (fun batch => one_trace (spans batch) \/
        exists c, SendCtxSpans c ∈ Properties.received traced_commands /\ batch = Traces.ctx_batch 200 c)
        (sent self)
  | Panic => False
  end.
Proof.
  destruct (run _ _ _ start traced_commands) as [[replies self]|] eqn:Hr;
    [|vm_compute in Hr; discriminate].
  exact (Traces.batches_are_one_trace _ _ _ _ _ _ _ _ _ _ Hr).
Defined.

(** The batch of that run: the invocation, the queue and the topic. *)
Example traced_commands_batch :
  match run parse_tags "amd64" 200 start traced_commands with
  | Done (_, self) => map (fun batch => map trace_id (spans batch)) (sent self) = [[11; 11; 11]]
  | Panic => False
  end.
Proof. vm_compute. reflexivity. Qed.

(** Before the runtime is done, and after it was done without a trace id. *)
Definition started : @Processor.t Z string :=
  on_universal_instrumentation_start readings
    (on_invoke_event parse_tags readings start "a") ∅ Sample.sqs_event None.
Definition started_context : @Buffer.Context_ (SpanContext Z) :=
  default (Buffer.Context_default 0) (Buffer.get (context_buffer started) "a").
Definition ended : @Processor.t Z string :=
  process_on_platform_runtime_done parse_tags 200 readings started "a" Success.
Definition guess : Buffer.ReparentingInfo :=
  {| Buffer.info_request_id := "a"; Buffer.invocation_span_id := 12; Buffer.parent_id_to_reparent := 13;
     Buffer.guessed_trace_id := 14; Buffer.needs_trace_id := false |}.

Lemma reparented_context_mixes_traces_witness :
  exists handed self', update_reparenting ended [guess] = ([handed], self') /\
    trace_id (Buffer.invocation_span handed) = 14 /\
    ~ one_trace (spans (Traces.ctx_batch 200 handed)).
Proof.
  apply (Traces.reparented_context_mixes_traces 200 ended started readings Success started_context guess).
  - vm_compute. reflexivity.
  - vm_compute. eexists. reflexivity.
  - vm_compute. reflexivity.
  - vm_compute. reflexivity.
  - vm_compute. discriminate.
  - vm_compute. discriminate.
Defined.

End Witnesses.
