(* ===== verification/InvocationRelease.v ===== *)
(** What the invocation processor keeps of an invocation that has ended. *)
From S2P Require Import Prelude F64 DataStreams Text TelemetryEvents LogsProcessor EnhancedMetrics.
From S2P Require Import ContextBuffer Triggers TriggerEvents Configuration SpanInferrer InvocationProcessor.
From S2P Require Import InvocationProperties.
#[local] Open Scope Z_scope.

Module Release.
Import Processor.
Section Release.
Context `{Externals} `{Propagation SamplingPriority}.
Context {SortedTags : Type} (parse_tags : string -> option SortedTags) (ARCH : string)
  (size_of_Span : Z).
Abbreviation t := (@Processor.t SamplingPriority SortedTags).
Abbreviation ContextBuffer := (@Buffer.t (SpanContext SamplingPriority) Value).
Implicit Types self x : t.
Implicit Types b : ContextBuffer.

(** The buffer: the contexts it has, the ids waiting for an event of the tracer
    at the start and at the end of an invocation, and no event waiting. *)
Record holds b (contexts waiting_start waiting_end : list string) : Prop := {
  h_ids : Buffer.ids b = contexts;
  h_invokes : Buffer.invoke_events_request_ids b = waiting_start;
  h_dones : Buffer.platform_runtime_done_events_request_ids b = waiting_end;
  h_capacity : Buffer.capacity b <> 0%nat;
  h_starts : Buffer.universal_instrumentation_start_events b = [];
  h_ends : Buffer.universal_instrumentation_end_events b = [];
  h_starts_with_id : Buffer.universal_instrumentation_start_events_with_id b = ∅;
  h_ends_with_id : Buffer.universal_instrumentation_end_events_with_id b = ∅;
  h_reparenting : Buffer.sorted_reparenting_info b = [];
}.

(** An on-demand sandbox whose buffer is as described. *)
Record keeps (contexts waiting_start waiting_end : list string) self : Prop := {
  k_buffer : holds (context_buffer self) contexts waiting_start waiting_end;
  k_managed : managed self = false;
  k_dsm : dsm_processed_request_ids self = ∅;
}.

Section Changes.
Context (cs ws we : list string).

Lemma holds_update_first b rid f :
  (forall c, Buffer.get b rid = Some c -> Buffer.request_id (f c) = Buffer.request_id c) ->
  holds b cs ws we -> holds (Buffer.update_first b rid f) cs ws we.
Proof.
  intros Hf [<- ? ? ? ? ? ? ? ?]. unfold Buffer.update_first, Buffer.position, Buffer.get in *.
  destruct (list_find _ _) as [[i c]|] eqn:Hc; [|done]. cbn. split; try done.
  apply list_find_Some in Hc as (Hi & _). specialize (Hf c eq_refl).
  unfold Buffer.ids. cbn. apply list_eq. intros j. rewrite !list_lookup_fmap.
  destruct (decide (i = j)) as [<-|Hne]; [|by rewrite list_lookup_alter_ne].
  rewrite list_lookup_alter_eq, Hi. cbn. by rewrite Hf.
Qed.

Lemma keeps_update x rid f :
  (forall c, Buffer.get (context_buffer x) rid = Some c -> Buffer.request_id (f c) = Buffer.request_id c) ->
  keeps cs ws we x -> keeps cs ws we (on_buffer (fun b => Buffer.update_first b rid f) x).
Proof. intros Hf []. split; [by apply holds_update_first|done..]. Qed.

Lemma keeps_metrics x m : keeps cs ws we x -> keeps cs ws we (set_metrics x m).
Proof. by intros []. Qed.
Lemma keeps_on_metrics x f : keeps cs ws we x -> keeps cs ws we (on_metrics f x).
Proof. by intros []. Qed.
Lemma keeps_runtime x v : keeps cs ws we x -> keeps cs ws we (set_runtime x v).
Proof. by intros []. Qed.
Lemma keeps_dynamic_tags x v : keeps cs ws we x -> keeps cs ws we (set_dynamic_tags x v).
Proof. by intros []. Qed.
Lemma keeps_status x v : keeps cs ws we x -> keeps cs ws we (set_first_invocation_metric_status x v).
Proof. by intros []. Qed.
Lemma keeps_init x v : keeps cs ws we x -> keeps cs ws we (set_init_duration_metric_emitted x v).
Proof. by intros []. Qed.
Lemma keeps_sent x v : keeps cs ws we x -> keeps cs ws we (set_sent x v).
Proof. by intros []. Qed.
Lemma keeps_tasks x v : keeps cs ws we x -> keeps cs ws we (set_usage_tasks x v).
Proof. by intros []. Qed.

#[local] Hint Resolve keeps_metrics keeps_on_metrics keeps_runtime keeps_dynamic_tags keeps_status
  keeps_init keeps_sent keeps_tasks : keeps.
#[local] Hint Extern 1 (keeps _ _ _ (on_buffer (fun b => Buffer.update_first b _ _) _)) =>
  apply keeps_update; [intros; reflexivity|] : keeps.
#[local] Hint Extern 1 (keeps _ _ _ (on_buffer (fun b => Buffer.add_enhanced_metric_data b _ _) _)) =>
  apply keeps_update; [intros; reflexivity|] : keeps.
#[local] Hint Extern 1 (keeps _ _ _ (on_buffer (fun b => Buffer.add_runtime_duration b _ _) _)) =>
  apply keeps_update; [intros; reflexivity|] : keeps.
#[local] Hint Extern 2 (keeps _ _ _ (match ?x with _ => _ end)) => destruct x : keeps.

Ltac stays := cbv zeta; eauto 300 with keeps.

Lemma keeps_set_init_tags x r : keeps cs ws we x -> keeps cs ws we (set_init_tags r x).
Proof. intros. unfold set_init_tags. stays. Qed.

Lemma keeps_begin_monitoring x r rid : keeps cs ws we x -> keeps cs ws we (begin_monitoring r rid x).
Proof. intros Hx. unfold begin_monitoring. rewrite (k_managed _ _ _ _ Hx). stays. Qed.

Lemma keeps_count x r : keeps cs ws we x -> keeps cs ws we (count_invocation parse_tags r x).
Proof. intros. unfold count_invocation. stays. Qed.

Lemma keeps_oom x rid ts : keeps cs ws we x -> keeps cs ws we (try_increment_oom_metric parse_tags x rid ts).
Proof. intros. unfold try_increment_oom_metric. stays. Qed.
#[local] Hint Resolve keeps_oom : keeps.

Lemma keeps_emit_usage x r : keeps cs ws we x -> keeps cs ws we (emit_usage parse_tags r x).
Proof. intros. unfold emit_usage. cbv zeta. destruct (Lambda.set_usage_enhanced_metrics _ _). stays. Qed.
#[local] Hint Resolve keeps_emit_usage : keeps.

Lemma enrich_request_id r x st c : Buffer.request_id (enrich_context r x st c) = Buffer.request_id c.
Proof. unfold enrich_context. cbv zeta. by repeat case_match. Qed.

Lemma keeps_process_done x r rid st :
  keeps cs ws we x -> keeps cs ws we (process_on_platform_runtime_done parse_tags size_of_Span r x rid st).
Proof.
  intros Hx. unfold process_on_platform_runtime_done, enrich_ctx_at_platform_done, send_ctx_spans,
    send_cold_start_span, send_spans.
  destruct (Buffer.get _ _) as [c|] eqn:Hg; [|stays]. cbv zeta.
  match goal with |- context [if tracer_detected (on_buffer ?f ?y) then _ else _] =>
    assert (keeps cs ws we (on_buffer f y)) as Hy; [|generalize dependent (on_buffer f y); intros; stays] end.
  case_match; (apply keeps_update; [|stays]); cbn; intros c' Hc';
    rewrite Hg in Hc'; injection Hc' as <-; apply enrich_request_id.
Qed.

Lemma keeps_ondemand x rid m ts :
  keeps cs ws we x -> keeps cs ws we (handle_ondemand_report parse_tags x rid m ts).
Proof. intros. unfold handle_ondemand_report. stays. Qed.

End Changes.

(** * One invocation *)
Lemma holds_start b ws we now rid s :
  holds b [] ws we -> holds (Buffer.start_context b now rid s) [rid] ws we.
Proof.
  intros [Hids ? ? Hcap ? ? ? ? ?]. unfold Buffer.ids in Hids. apply fmap_nil_inv in Hids.
  unfold Buffer.start_context, Buffer.insert, Buffer.size, Buffer.get. rewrite Hids.
  rewrite bool_decide_false by (cbn; congruence). cbn [list_find fmap option_fmap option_map].
  split; try done. unfold Buffer.ids. cbn. by rewrite Hids.
Qed.

(** Nothing to pair with: the id waits. *)
Lemma pair_invoke_waits b rid :
  Buffer.universal_instrumentation_start_events b = [] ->
  Buffer.pair_invoke_event b rid =
    (None, Buffer.set_invokes b (Buffer.invoke_events_request_ids b ++ [rid])).
Proof. unfold Buffer.pair_invoke_event. by intros ->. Qed.

Lemma pair_done_waits b rid :
  Buffer.universal_instrumentation_end_events b = [] ->
  Buffer.pair_platform_runtime_done_event b rid =
    (None, Buffer.set_dones b (Buffer.platform_runtime_done_events_request_ids b ++ [rid])).
Proof. unfold Buffer.pair_platform_runtime_done_event. by intros ->. Qed.

(** No event of the tracer waits for the id, and it waits for one. *)
Lemma take_start_empty b cs ws we rid :
  holds b cs ws we ->
  let '(buffered, b) := Buffer.take_universal_instrumentation_start_for_request_id b rid in
  buffered = None /\
  let '(paired, b) := Buffer.pair_invoke_event b rid in
  paired = None /\ holds b cs (ws ++ [rid]) we.
Proof.
  intros [H1 <- H3 H4 Hs H6 Hsi H8 H9].
  unfold Buffer.take_universal_instrumentation_start_for_request_id.
  rewrite Hsi, lookup_empty, delete_empty. split; [done|]. rewrite pair_invoke_waits by exact Hs.
  split; [done|]. by split.
Qed.

Lemma take_end_empty b cs ws we rid :
  holds b cs ws we ->
  let '(buffered, b) := Buffer.take_universal_instrumentation_end_for_request_id b rid in
  buffered = None /\
  let '(paired, b) := Buffer.pair_platform_runtime_done_event b rid in
  paired = None /\ holds b cs ws (we ++ [rid]).
Proof.
  intros [H1 H2 <- H4 H5 Hs H7 Hsi H9].
  unfold Buffer.take_universal_instrumentation_end_for_request_id.
  rewrite Hsi, lookup_empty, delete_empty. split; [done|]. rewrite pair_done_waits by exact Hs.
  split; [done|]. by split.
Qed.

Lemma invoke_keeps x r rid ws we :
  keeps [] ws we x -> keeps [rid] (ws ++ [rid]) we (on_invoke_event parse_tags r x rid).
Proof.
  intros Hx. unfold on_invoke_event. cbv zeta. set (y := on_metrics Lambda.set_invoked_received _).
  assert (keeps [rid] ws we y) as [Hb Hm Hd].
  { subst y. apply keeps_on_metrics, keeps_count, keeps_begin_monitoring.
    unfold begin_context, start_context. rewrite (k_managed _ _ _ _ Hx).
    destruct (keeps_set_init_tags _ _ _ x r Hx) as [? ? ?]. split; [by apply holds_start|done..]. }
  clearbody y. apply (take_start_empty _ _ _ _ rid) in Hb.
  destruct (Buffer.take_universal_instrumentation_start_for_request_id _ _) as [? b'].
  destruct Hb as [-> Hb]. assert (managed (set_buffer y b') = false) as -> by exact Hm.
  assert (context_buffer (set_buffer y b') = b') as -> by done.
  destruct (Buffer.pair_invoke_event b' rid) as [? b'']. by destruct Hb as [-> Hb].
Qed.

Lemma runtime_done_keeps x r rid rm st et ts ws we :
  keeps [rid] ws we x ->
  keeps [rid] ws (we ++ [rid]) (on_platform_runtime_done parse_tags size_of_Span r x rid rm st et ts).
Proof.
  intros Hx. unfold on_platform_runtime_done. cbv zeta. set (y := on_buffer _ _).
  assert (keeps [rid] ws we y) as [Hb Hm Hd].
  { subst y. apply keeps_update; [intros; reflexivity|].
    assert (forall z, keeps [rid] ws we z ->
      keeps [rid] ws we (if managed z then z else emit_usage parse_tags r z)) as He.
    { intros z Hz. destruct (managed z); [done|]. by apply keeps_emit_usage. }
    apply He. repeat case_match; eauto 10 using keeps_on_metrics, keeps_oom. }
  clearbody y. apply (take_end_empty _ _ _ _ rid) in Hb.
  destruct (Buffer.take_universal_instrumentation_end_for_request_id _ _) as [? b'].
  destruct Hb as [-> Hb]. assert (managed (set_buffer y b') = false) as -> by exact Hm.
  assert (context_buffer (set_buffer y b') = b') as -> by done.
  destruct (Buffer.pair_platform_runtime_done_event b' rid) as [? b'']. destruct Hb as [-> Hb].
  by apply keeps_process_done.
Qed.

Lemma report_keeps x r rid m ts st et sp ws we :
  keeps [rid] ws we x ->
  keeps [] ws we (on_platform_report parse_tags ARCH size_of_Span r x rid (OnDemand m) ts st et sp).
Proof.
  intros Hx. unfold on_platform_report. cbv zeta.
  match goal with |- keeps _ _ _ (release_invocation_context ?z _) =>
    assert (keeps [rid] ws we z) as [Hb Hm Hd] by
      (case_match; eauto using keeps_on_metrics, keeps_ondemand); generalize dependent z end.
  intros y Hb Hm Hd. destruct Hb as [Hids ? ? ? ? ? ? ? Hr].
  destruct (Buffer.buffer (context_buffer y)) as [|c [|]] eqn:Hbuf;
    unfold Buffer.ids in Hids; rewrite Hbuf in Hids; try done. injection Hids as Hid.
  split; [|done|].
  - unfold release_invocation_context, on_buffer, Buffer.remove. cbn. rewrite Hbuf. cbn.
    rewrite decide_True by done. split; cbn; try done. by rewrite Hr.
  - cbn. rewrite Hd. set_solver.
Qed.

(** * A function without a tracer *)

(** The commands of an on-demand invocation no tracer takes part in. *)
Inductive untraced (rid : string) : list (Readings * @ProcessorCommand SamplingPriority) -> Prop :=
| Untraced r1 r2 r3 done_metrics status error_type done_time report report_time report_status
    report_error spans :
    untraced rid
      [(r1, InvokeEvent rid);
       (r2, CPlatformRuntimeDone rid done_metrics status error_type done_time);
       (r3, CPlatformReport rid (OnDemand report) report_time report_status report_error spans)].

Lemma untraced_runs rids : forall invocations ws we x,
  Forall2 untraced rids invocations -> keeps [] ws we x ->
  exists replies x', run parse_tags ARCH size_of_Span x (concat invocations) = Done (replies, x') /\
    keeps [] (ws ++ rids) (we ++ rids) x'.
Proof.
  induction rids as [|rid rids IH]; intros invocations ws we x Hinv Hx.
  { inversion Hinv; subst. exists [], x. by rewrite !app_nil_r. }
  inversion Hinv as [|? l ? ls [r1 r2 r3 m1 st et ts m2 ts2 st2 et2 sp] Hrest]; subst.
  set (x1 := on_invoke_event parse_tags r1 x rid).
  set (x2 := on_platform_runtime_done parse_tags size_of_Span r2 x1 rid m1 st et ts).
  set (x3 := on_platform_report parse_tags ARCH size_of_Span r3 x2 rid (OnDemand m2) ts2 st2 et2 sp).
  assert (keeps [] (ws ++ [rid]) (we ++ [rid]) x3) as H3
    by (apply report_keeps, runtime_done_keeps, invoke_keeps, Hx).
  destruct (IH ls _ _ x3 Hrest H3) as (replies & x' & Hrun & Hk).
  rewrite <- !app_assoc in Hk. eexists _, x'. split; [|exact Hk].
  cbn [concat app run step]. fold x1. cbn [mbind outcome_mbind outcome_bind]. fold x2 x3.
  rewrite Hrun. reflexivity.
Qed.

End Release.

(** Without a tracer, every invocation of an on-demand sandbox leaves its
    request id in the two queues that wait for the tracer's start and end events:
    after any number of invocations the contexts are released and both queues
    hold all the ids. *)
Theorem waiting_ids_never_released `{Externals} `{Propagation SamplingPriority} {SortedTags : Type}
    (parse_tags : string -> option SortedTags) (ARCH : string) (size_of_Span : Z)
    resource cfg aws metrics rids invocations :
  is_managed_instance_mode aws = false -> Forall2 untraced rids invocations ->
  exists replies self,
    run parse_tags ARCH size_of_Span (Processor.new resource cfg aws metrics) (concat invocations)
      = Done (replies, self) /\
    Buffer.buffer (context_buffer self) = [] /\
    Buffer.invoke_events_request_ids (context_buffer self) = rids /\
    Buffer.platform_runtime_done_events_request_ids (context_buffer self) = rids.
Proof.
  intros Hm Hinv.
  destruct (untraced_runs parse_tags ARCH size_of_Span rids invocations [] []
    (Processor.new resource cfg aws metrics) Hinv) as (replies & self & Hrun & [[Hids ? ? ? ? ? ? ? ?] _ _]).
  { split; [|done..]. by split. }
  exists replies, self. split_and!; [done| |done..]. by apply fmap_nil_inv in Hids.
Qed.

End Release.

Section Witnesses.
#[local] Existing Instances Sample.externals Sample.propagation.
Import Processor SampleRun.

Lemma waiting_ids_never_released_witness :
  exists replies self,
    run parse_tags "amd64" 200 start (concat [invocation "a"; invocation "b"; invocation "c"])
      = Done (replies, self) /\
    Buffer.buffer (context_buffer self) = [] /\
    Buffer.invoke_events_request_ids (context_buffer self) = ["a"; "b"; "c"]%string /\
    Buffer.platform_runtime_done_events_request_ids (context_buffer self) = ["a"; "b"; "c"]%string.
Proof.
  apply (Release.waiting_ids_never_released parse_tags "amd64" 200 None Sample.config aws (Lambda.new true)).
  - vm_compute. reflexivity.
  - repeat constructor.
Defined.

End Witnesses.
