(* ===== verification/TraceAgent.v ===== *)
(** The trace agent: [traces/trace_agent.rs] (the routes, the handlers of traces, stats and
    proxied requests, the forwarders and their barrier) and [traces/stats_processor.rs].

    A request is its headers and what reading its body gave; the decoders of libdatadog are
    [TraceDecoders]. The services that a handler talks to are the fields of [Agent]: a service
    that is gone is [None]. Requests are handled one after the other, and the forwarder with
    every interleaving of its polls and of the handlers. *)
From S2P Require Import Prelude F64 DataStreams Text Aggregators SpanDedup ContextBuffer Triggers.
From S2P Require Import TriggerEvents Configuration SpanInferrer InvocationProcessor.
From S2P Require Import InvocationProperties Tags StatsConcentrator TraceProcessor AppSec.
#[local] Open Scope Z_scope.

(** * The forwarders and their barrier *)

Module Forwarder.
Section Forwarder.
Context {T : Type}.

(** Where the task is: before the poll of the payload channel, after a poll that found it
    empty, or out of its loop. *)
Inductive Phase := PollPayloads | PollBarrier | Stopped.

#[export] Instance Phase_eq_dec : EqDecision Phase.
Proof. solve_decision. Defined.

(** A request of the barrier is the number of payloads accepted before it. *)
Record t := {
  rx : list T;
  barrier_rx : list nat;
  closed : bool;
  phase : Phase;
  (** what reached the aggregator *)
  aggregated : list T;
  (** what the handlers accepted, and the requests that were acknowledged *)
  accepted : list T;
  acknowledged : list nat;
}.

Definition init : t :=
  {| rx := []; barrier_rx := []; closed := false; phase := PollPayloads; aggregated := [];
     accepted := []; acknowledged := [] |}.

(** One poll of a branch of [run_forwarder]; [ok] is the answer of [on_payload]. *)
Definition poll (self : t) (ok : bool) : t :=
  match phase self with
  | PollPayloads =>
      match rx self with
      | payload :: rx' =>
          {| rx := rx'; barrier_rx := barrier_rx self; closed := closed self;
             phase := if ok then PollPayloads else Stopped;
             aggregated := if ok then aggregated self ++ [payload] else aggregated self;
             accepted := accepted self; acknowledged := acknowledged self |}
      | [] =>
          {| rx := []; barrier_rx := barrier_rx self; closed := closed self;
             phase := if closed self then Stopped else PollBarrier;
             aggregated := aggregated self; accepted := accepted self;
             acknowledged := acknowledged self |}
      end
  | PollBarrier =>
      {| rx := rx self; barrier_rx := tail (barrier_rx self); closed := closed self;
         phase := PollPayloads; aggregated := aggregated self; accepted := accepted self;
         acknowledged := acknowledged self ++ option_list (head (barrier_rx self)) |}
  | Stopped => self
  end.

(** A handler hands over a payload; a caller of [wait_for] hands over its request. *)
Definition accept (self : t) (payload : T) : t :=
  {| rx := rx self ++ [payload]; barrier_rx := barrier_rx self; closed := closed self;
     phase := phase self; aggregated := aggregated self; accepted := accepted self ++ [payload];
     acknowledged := acknowledged self |}.
Definition wait_for (self : t) : t :=
  {| rx := rx self; barrier_rx := barrier_rx self ++ [length (accepted self)];
     closed := closed self; phase := phase self; aggregated := aggregated self;
     accepted := accepted self; acknowledged := acknowledged self |}.
(** The last sender of payloads is dropped. *)
Definition close (self : t) : t :=
  {| rx := rx self; barrier_rx := barrier_rx self; closed := true; phase := phase self;
     aggregated := aggregated self; accepted := accepted self; acknowledged := acknowledged self |}.

Inductive Event := Accept (payload : T) | WaitFor | Close | Poll (ok : bool).

(** The others act between two polls of the same iteration only if they run on another
    thread. A task that stopped has dropped its receivers. *)
Definition step (threads : bool) (self : t) (e : Event) : option t :=
  let others := negb (bool_decide (phase self = Stopped)) && negb (closed self) &&
                (threads || negb (bool_decide (phase self = PollBarrier))) in
  match e with
  | Accept payload => if others then Some (accept self payload) else None
  | WaitFor => if others then Some (wait_for self) else None
  | Close => if others then Some (close self) else None
  | Poll ok => Some (poll self ok)
  end.

Fixpoint run (threads : bool) (self : t) (events : list Event) : option t :=
  match events with
  | [] => Some self
  | e :: events => self ← step threads self e; run threads self events
  end.

(** ** Properties *)

(** What holds at every point if nothing runs between two polls. *)
Record inv (self : t) : Prop := {
  inv_accepted : phase self <> Stopped -> accepted self = aggregated self ++ rx self;
  inv_prefix : aggregated self `prefix_of` accepted self;
  inv_barrier : Forall (fun n => (n <= length (accepted self))%nat) (barrier_rx self);
  inv_empty : phase self = PollBarrier -> rx self = [];
  inv_acknowledged : Forall (fun n => (n <= length (aggregated self))%nat) (acknowledged self);
}.

Lemma poll_inv self ok : inv self -> inv (poll self ok).
Proof.
  intros [Ha Hp Hb He Hk]. unfold poll. destruct (phase self) eqn:Hph; [| |by split; rewrite ?Hph].
  - specialize (Ha ltac:(done)). destruct (rx self) as [|x rx'] eqn:Hrx.
    + split; cbn; done.
    + destruct ok; split; cbn; try done.
      * intros _. by rewrite Ha, <- app_assoc.
      * rewrite Ha. exists rx'. by rewrite <- app_assoc.
      * eapply Forall_impl; [exact Hk|]. cbn. intros n Hn. rewrite length_app. lia.
  - specialize (Ha ltac:(done)). specialize (He eq_refl). rewrite He in Ha.
    split; cbn; try done; [by rewrite He| |].
    + destruct (barrier_rx self); [done|]. by apply Forall_cons in Hb as [_ ?].
    + apply Forall_app. split; [done|]. destruct (barrier_rx self) as [|n b]; cbn; [constructor|].
      apply Forall_cons in Hb as [Hn _]. rewrite Ha, app_nil_r in Hn. by constructor.
Qed.

Lemma step_inv self e self' : inv self -> step false self e = Some self' -> inv self'.
Proof.
  intros Hi. pose proof Hi as [Ha Hp Hb He Hk]. unfold step. cbn [orb].
  destruct e as [x| | |ok]; [| | |intros [= <-]; by apply poll_inv];
    (destruct (_ && _) eqn:Hg; [|done]); intros [= <-];
    apply andb_true_iff in Hg as [_ Hph%negb_true_iff%bool_decide_eq_false_1]; split; cbn; try done.
  - intros Hs. by rewrite (Ha Hs), app_assoc.
  - by apply prefix_app_r.
  - eapply Forall_impl; [exact Hb|]. cbn. intros n Hn. rewrite length_app. lia.
  - apply Forall_app. split; [done|]. by constructor.
Qed.

(** C9: the barrier of the trace agent. When the handlers do not run between the two polls
    of a forwarder's iteration, an acknowledged request finds every payload accepted before
    it in the aggregator; a payload that is lost stops the forwarder, and no request made
    after it is acknowledged. *)
Theorem barrier_covers_accepted events self :
  run false init events = Some self ->
  aggregated self `prefix_of` accepted self /\
  Forall (fun n => (n <= length (aggregated self))%nat) (acknowledged self).
Proof.
  assert (Hi : inv init) by (split; cbn; done || constructor). revert Hi. generalize init as s.
  induction events as [|e events IH]; intros s Hi; cbn.
  - intros [= <-]. split; apply Hi.
  - destruct (step false s e) as [s'|] eqn:Hs; cbn; [|done]. by apply IH, (step_inv _ _ _ Hi Hs).
Qed.

(** On a runtime with several threads the guarantee fails: a payload and a request may
    both arrive after the forwarder found the payload channel empty and before it polls the
    barrier channel, and the request is acknowledged with the payload still queued. *)
Theorem barrier_misses_concurrent_payload (payload : T) :
  exists events self, run true init events = Some self /\
    accepted self = [payload] /\ acknowledged self = [1%nat] /\ aggregated self = [].
Proof.
  exists [Poll true; Accept payload; WaitFor; Poll true]. eexists. split; [reflexivity|]. done.
Qed.

(** Once the handlers are quiet, every pending request is acknowledged. *)
Fixpoint quiet (self : t) (n : nat) : t :=
  match n with O => self | S n => quiet (poll self true) n end.

(** A bound on the polls that takes. *)
Definition polls (self : t) : nat :=
  2 * length (rx self) + 2 * length (barrier_rx self) +
  match phase self with PollPayloads => 1 | _ => 0 end.

Lemma poll_progress self :
  phase self <> Stopped -> closed self = false -> barrier_rx self <> [] ->
  let self' := poll self true in
  phase self' <> Stopped /\ closed self' = false /\ (polls self' < polls self)%nat /\
  acknowledged self' ++ barrier_rx self' = acknowledged self ++ barrier_rx self.
Proof.
  intros Hph Hc Hb. unfold poll, polls. destruct (phase self) eqn:Hp; [| |done].
  - destruct (rx self) as [|x rx']; cbn; [rewrite Hc; cbn|]; split_and!; (done || lia).
  - destruct (barrier_rx self) as [|n b]; [done|]. cbn. rewrite <- app_assoc. split_and!; (done || lia).
Qed.

(** Waiting for the barrier ends once ingest is quiet: a forwarder that has not stopped
    acknowledges every pending request, in order, within a bounded number of polls. *)
Theorem quiet_barrier_acknowledged self :
  phase self <> Stopped -> closed self = false ->
  exists n, (n <= polls self)%nat /\ barrier_rx (quiet self n) = [] /\
    acknowledged (quiet self n) = acknowledged self ++ barrier_rx self.
Proof.
  remember (polls self) as m eqn:Hm. revert self Hm.
  induction (Nat.lt_wf_0 m) as [m _ IH]. intros self -> Hph Hc.
  destruct (decide (barrier_rx self = [])) as [Hb|Hb].
  { exists O. rewrite Hb, app_nil_r. cbn. split_and!; (done || lia). }
  destruct (poll_progress self Hph Hc Hb) as (Hph' & Hc' & Hlt & Heq).
  destruct (IH _ Hlt _ eq_refl Hph' Hc') as (n & Hn & Hq & Ha).
  exists (S n). cbn [quiet]. split; [lia|]. split; [done|]. by rewrite Ha.
Qed.
End Forwarder.
Arguments t : clear implicits.
Arguments Event : clear implicits.
End Forwarder.

Lemma barrier_covers_accepted_witness :
  exists self, Forwarder.run false Forwarder.init
      [Forwarder.Accept 7; Forwarder.WaitFor; Forwarder.Poll true; Forwarder.Poll true; Forwarder.Poll true] =
      Some self /\
    Forwarder.acknowledged self = [1%nat] /\
    Forall (fun n => (n <= length (Forwarder.aggregated self))%nat) (Forwarder.acknowledged self).
Proof.
  eexists. split; [reflexivity|]. split; [reflexivity|].
  exact (proj2 (Forwarder.barrier_covers_accepted
    [Forwarder.Accept 7; Forwarder.WaitFor; Forwarder.Poll true; Forwarder.Poll true; Forwarder.Poll true] _ eq_refl)).
Defined.

Lemma quiet_barrier_acknowledged_witness :
  exists n, (n <= 5)%nat /\
    Forwarder.acknowledged (Forwarder.quiet (Forwarder.wait_for (Forwarder.accept Forwarder.init 7)) n) = [1%nat].
Proof.
  destruct (Forwarder.quiet_barrier_acknowledged (Forwarder.wait_for (Forwarder.accept Forwarder.init 7))
    ltac:(done) eq_refl) as (n & Hn & _ & Ha).
  exists n. split; [exact Hn|exact Ha].
Defined.

(** * Routes *)

Definition V4_TRACE_ENDPOINT_PATH : string := "/v0.4/traces".
Definition V5_TRACE_ENDPOINT_PATH : string := "/v0.5/traces".
Definition STATS_ENDPOINT_PATH : string := "/v0.6/stats".
Definition DSM_AGENT_PATH : string := "/v0.1/pipeline_stats".
Definition PROFILING_ENDPOINT_PATH : string := "/profiling/v1/input".
Definition LLM_OBS_EVAL_METRIC_ENDPOINT_PATH : string :=
  "/evp_proxy/v2/api/intake/llm-obs/v1/eval-metric".
Definition LLM_OBS_EVAL_METRIC_ENDPOINT_PATH_V2 : string :=
  "/evp_proxy/v2/api/intake/llm-obs/v2/eval-metric".
Definition LLM_OBS_SPANS_ENDPOINT_PATH : string := "/evp_proxy/v2/api/v2/llmobs".
Definition INFO_ENDPOINT_PATH : string := "/info".
Definition V1_DEBUGGER_ENDPOINT_PATH : string := "/debugger/v1/input".
Definition V2_DEBUGGER_ENDPOINT_PATH : string := "/debugger/v2/input".
Definition DEBUGGER_DIAGNOSTICS_ENDPOINT_PATH : string := "/debugger/v1/diagnostics".
Definition INSTRUMENTATION_ENDPOINT_PATH : string := "/telemetry/proxy/api/v2/apmtelemetry".

Definition TRACE_REQUEST_BODY_LIMIT : Z := 50 * 1024 * 1024.
Definition DEFAULT_REQUEST_BODY_LIMIT : Z := 2 * 1024 * 1024.
Definition MAX_CONTENT_LENGTH : Z := 50 * 1024 * 1024.
Definition LAMBDA_LOAD_SPAN : string := "aws.lambda.load".

Inductive Method := GET | POST | PUT | OtherMethod.

#[export] Instance Method_eq_dec : EqDecision Method.
Proof. solve_decision. Defined.

Inductive ApiVersion := V04 | V05.

(** The handlers; a proxy has the domain and the path of its intake. *)
Inductive Handler :=
| Traces (version : ApiVersion)
| Stats
| Proxy (backend_domain backend_path : string)
| Info.

(** A route takes any method if it names none, and bounds the body if it has a limit. *)
Record Route := {
  route_path : string;
  route_methods : option (list Method);
  route_handler : Handler;
  route_limit : option Z;
}.

Definition proxy_route (path backend_domain backend_path : string) : Route :=
  {| route_path := path; route_methods := Some [POST];
     route_handler := Proxy backend_domain backend_path;
     route_limit := Some DEFAULT_REQUEST_BODY_LIMIT |}.

Definition make_router : list Route :=
  [{| route_path := V4_TRACE_ENDPOINT_PATH; route_methods := Some [POST; PUT];
      route_handler := Traces V04; route_limit := Some TRACE_REQUEST_BODY_LIMIT |};
   {| route_path := V5_TRACE_ENDPOINT_PATH; route_methods := Some [POST; PUT];
      route_handler := Traces V05; route_limit := Some TRACE_REQUEST_BODY_LIMIT |};
   {| route_path := STATS_ENDPOINT_PATH; route_methods := Some [POST; PUT];
      route_handler := Stats; route_limit := Some DEFAULT_REQUEST_BODY_LIMIT |};
   proxy_route DSM_AGENT_PATH "trace.agent" "/api/v0.1/pipeline_stats";
   proxy_route PROFILING_ENDPOINT_PATH "intake.profile" "/api/v2/profile";
   proxy_route LLM_OBS_EVAL_METRIC_ENDPOINT_PATH "api" "/api/intake/llm-obs/v1/eval-metric";
   proxy_route LLM_OBS_EVAL_METRIC_ENDPOINT_PATH_V2 "api" "/api/intake/llm-obs/v2/eval-metric";
   proxy_route LLM_OBS_SPANS_ENDPOINT_PATH "llmobs-intake" "/api/v2/llmobs";
   proxy_route V1_DEBUGGER_ENDPOINT_PATH "http-intake.logs" "/api/v2/logs";
   proxy_route V2_DEBUGGER_ENDPOINT_PATH "debugger-intake" "/api/v2/debugger";
   proxy_route DEBUGGER_DIAGNOSTICS_ENDPOINT_PATH "debugger-intake" "/api/v2/debugger";
   proxy_route INSTRUMENTATION_ENDPOINT_PATH "instrumentation-telemetry-intake"
     "/api/v2/apmtelemetry";
   {| route_path := INFO_ENDPOINT_PATH; route_methods := None; route_handler := Info;
      route_limit := None |}].

(** The endpoints that [info] lists. *)
Definition info : list string :=
  [V4_TRACE_ENDPOINT_PATH; V5_TRACE_ENDPOINT_PATH; STATS_ENDPOINT_PATH; DSM_AGENT_PATH;
   PROFILING_ENDPOINT_PATH; INFO_ENDPOINT_PATH; LLM_OBS_EVAL_METRIC_ENDPOINT_PATH;
   LLM_OBS_EVAL_METRIC_ENDPOINT_PATH_V2; LLM_OBS_SPANS_ENDPOINT_PATH; V1_DEBUGGER_ENDPOINT_PATH;
   V2_DEBUGGER_ENDPOINT_PATH; DEBUGGER_DIAGNOSTICS_ENDPOINT_PATH].

(** Every endpoint is listed but the one of the instrumentation telemetry. *)
Lemma info_omits_instrumentation path :
  path ∈ route_path <$> make_router <-> path ∈ info \/ path = INSTRUMENTATION_ENDPOINT_PATH.
Proof. cbn. set_solver. Qed.

(** * Handlers *)

(** [HeaderValue::to_str]: visible characters, spaces and tabs. *)
Definition to_str (v : string) : option string :=
  if forallb (fun c => let n := N_of_ascii c in ((32 <=? n) && (n <? 127) || (n =? 9))%N)
       (String.list_ascii_of_string v)
  then Some v else None.

(** The headers, and the body if it could be read. *)
Record Request := { req_headers : gmap string string; req_body : option bytes }.

(** The length announced, if it is too large. *)
Definition too_large (request : Request) : option Z :=
  h ← req_headers request !! "content-length"%string;
  h ← to_str h;
  l ← parse_u64 h;
  if MAX_CONTENT_LENGTH <? l then Some l else None.

(** ** Proxied requests *)

Definition handle_proxy (config : Config) (self : ProxyAggregator.t (gmap string string))
    (request : Request) (backend_domain backend_path : string) :
    Z * ProxyAggregator.t (gmap string string) :=
  match req_body request with
  | None => (500, self)
  | Some body =>
      (200, ProxyAggregator.add self
        {| ProxyAggregator.headers := req_headers request; ProxyAggregator.body := body;
           ProxyAggregator.target_url :=
             ("https://" +:+ backend_domain +:+ "." +:+ cfg_site config +:+ backend_path)%string |})
  end.

(** ** Stats *)

Section StatsProcessor.
(** The other fields of a bucket and of a payload. *)
Context {Bucket Fields : Type} (get_stats_from_request_body : bytes -> option (list (Z * Bucket) * Fields)).

(** The channel to the forwarder of stats, and whether it is closed. The clock is in
    nanoseconds since the epoch. *)
Definition process_stats (request : Request) (tx : list (list (Z * Bucket) * Fields)) (tx_closed : bool)
    (now : Z) : Z * list (list (Z * Bucket) * Fields) :=
  match req_body request with
  | None => (400, tx)
  | Some body =>
      match too_large request with
      | Some _ => (413, tx)
      | None =>
          match get_stats_from_request_body body with
          | None => (500, tx)
          | Some ([], _) => (202, tx)
          | Some ((_, first_bucket) :: buckets, fields) =>
              let timestamp := Z.max 0 now in
              if U64_MAX <? timestamp then (500, tx)
              else if tx_closed then (500, tx)
              else (202, tx ++ [((timestamp, first_bucket) :: buckets, fields)])
          end
      end
  end.

(** A payload is buffered only with an accepted response, and is what was sent but for the
    time of its first bucket. *)
Lemma process_stats_buffers request tx tx_closed now status tx' :
  process_stats request tx tx_closed now = (status, tx') ->
  tx' = tx \/ (status = 202 /\ exists body buckets fields buckets',
    req_body request = Some body /\ get_stats_from_request_body body = Some (buckets, fields) /\
    tx' = tx ++ [(buckets', fields)] /\ buckets'.*2 = buckets.*2 /\ tail buckets' = tail buckets).
Proof.
  unfold process_stats. intros Hp.
  destruct (req_body request) as [body|] eqn:Hb; [|by injection Hp as <- <-; left].
  destruct (too_large request); [by injection Hp as <- <-; left|].
  destruct (get_stats_from_request_body body) as [[[|[start b] buckets] fields]|] eqn:Hg;
    [by injection Hp as <- <-; left| |by injection Hp as <- <-; left].
  destruct (U64_MAX <? _); [by injection Hp as <- <-; left|].
  destruct tx_closed; injection Hp as <- <-; [by left|]. right. split; [done|].
  by eexists body, _, fields, _.
Qed.
End StatsProcessor.

(** ** Traces *)

Class TraceDecoders := {
  (** the tags of a request, from its headers *)
  header_tags_of : gmap string string -> HeaderTags;
  (** the size of the body and its traces *)
  get_traces_from_request_body : bytes -> option (Z * list (list Span));
  get_v05_traces_from_request_body : bytes -> option (Z * list (list Span));
}.

Definition guess (trace_id : Z) (info : Buffer.ReparentingInfo) : Buffer.ReparentingInfo :=
  if Buffer.needs_trace_id info then
    {| Buffer.info_request_id := Buffer.info_request_id info;
       Buffer.invocation_span_id := Buffer.invocation_span_id info;
       Buffer.parent_id_to_reparent := Buffer.parent_id_to_reparent info;
       Buffer.guessed_trace_id := trace_id; Buffer.needs_trace_id := false |}
  else info.

Fixpoint handle_reparenting (reparenting_info : list Buffer.ReparentingInfo) (span : Span) :
    list Buffer.ReparentingInfo * Span :=
  match reparenting_info with
  | [] => ([], span)
  | rep_info :: rest =>
      let rep_info := guess (trace_id span) rep_info in
      let span :=
        if (trace_id span =? Buffer.guessed_trace_id rep_info) &&
           (parent_id span =? Buffer.parent_id_to_reparent rep_info)
        then with_parent_id span (Buffer.invocation_span_id rep_info) else span in
      let '(rest, span) := handle_reparenting rest span in
      (rep_info :: rest, span)
  end.

Section Agent.
Context `{Externals} `{Propagation SamplingPriority} {SortedTags : Type}.
Context {W Obj : Type} `{WafOps W Obj} {P : Type} `{TraceSender P} `{TraceDecoders}.
Variable tags_iter : Tags -> list (TagName * TagValue).
Variable size_of_Span : Z.
(** Whether the answer to the n-th question to the deduplicator is in time. *)
Variable timely : nat -> bool.

Abbreviation Invocations := (@Processor.t SamplingPriority SortedTags).

Record Agent := {
  invocations : option Invocations;
  deduper : option Deduper.t;
  asked : nat;
  appsec : option (@Processor W);
  trace_sender : P;
}.

Definition set_invocations (self : Agent) (v : option Invocations) : Agent :=
  {| invocations := v; deduper := deduper self; asked := asked self; appsec := appsec self;
     trace_sender := trace_sender self |}.
Definition on_invocations (f : Invocations -> Invocations) (self : Agent) : Agent :=
  set_invocations self (f <$> invocations self).

(** [DedupHandle::check_and_add], and what the handler makes of its answer: a span whose
    check fails is kept. *)
Definition should_keep (config : Config) (self : Agent) (key : DedupKey) : bool * Agent :=
  match deduper self with
  | None => (true, self)
  | Some d =>
      let '(was_added, d) := Deduper.check_and_add d key in
      let answered := match span_dedup_timeout config with
                      | Some _ => timely (asked self)
                      | None => true
                      end in
      (if answered then was_added else true,
       {| invocations := invocations self; deduper := Some d; asked := S (asked self);
          appsec := appsec self; trace_sender := trace_sender self |})
  end.

Definition set_cold_start (self : Agent) (span : Span) : Span * Agent :=
  if decide (name span = LAMBDA_LOAD_SPAN) then
    match invocations self with
    | None => (span, self)
    | Some p =>
        let '(cold_start_span_id, p) := Processor.set_cold_start_span_trace_id p (trace_id span) in
        (match cold_start_span_id with Some id => with_parent_id span id | None => span end,
         set_invocations self (Some p))
    end
  else (span, self).

Definition add_placeholder (tags : HeaderTags) (self : Agent) (span : Span) : Agent :=
  if decide (resource span = INVOCATION_SPAN_RESOURCE) then
    on_invocations (fun p => Processor.add_tracer_span p span
      (client_computed_stats (TraceAggregator.b_generic tags))) self
  else self.

Definition forward_durable (self : Agent) (span : Span) : Agent :=
  if decide (name span = "aws.lambda"%string) then
    match meta span !! "request_id"%string, meta span !! "aws.durable.execution_id"%string,
          meta span !! "aws.durable.execution_name"%string with
    | Some request_id, Some execution_id, Some execution_name =>
        let first_invocation :=
          (fun v => bool_decide (v = "true"%string)) <$> meta span !! "aws.durable.first_invocation"%string in
        let execution_status := meta span !! "aws.durable.execution_status"%string in
        on_invocations (fun p => Processor.forward_durable_context p request_id execution_id
          execution_name first_invocation execution_status) self
    | _, _, _ => self
    end
  else self.

(** The body of the loop over the spans: the span if it is kept. *)
Definition handle_span (config : Config) (tags : HeaderTags)
    (acc : list Buffer.ReparentingInfo * Agent) (span : Span) :
    option Span * (list Buffer.ReparentingInfo * Agent) :=
  let '(infos, self) := acc in
  let '(keep, self) := should_keep config self (DedupKey_new (trace_id span) (span_id span)) in
  if keep : bool then
    let '(span, self) := set_cold_start self span in
    let self := add_placeholder tags self span in
    let self := forward_durable self span in
    let '(infos, span) := handle_reparenting infos span in
    (Some span, (infos, self))
  else (None, (infos, self)).

Fixpoint handle_chunk (config : Config) (tags : HeaderTags)
    (acc : list Buffer.ReparentingInfo * Agent) (chunk : list Span) :
    list Span * (list Buffer.ReparentingInfo * Agent) :=
  match chunk with
  | [] => ([], acc)
  | span :: chunk =>
      let '(kept, acc) := handle_span config tags acc span in
      let '(chunk, acc) := handle_chunk config tags acc chunk in
      (option_list kept ++ chunk, acc)
  end.

Fixpoint handle_chunks (config : Config) (tags : HeaderTags)
    (acc : list Buffer.ReparentingInfo * Agent) (traces : list (list Span)) :
    list (list Span) * (list Buffer.ReparentingInfo * Agent) :=
  match traces with
  | [] => ([], acc)
  | chunk :: traces =>
      let '(chunk, acc) := handle_chunk config tags acc chunk in
      let '(traces, acc) := handle_chunks config tags acc traces in
      (chunk :: traces, acc)
  end.

(** The contexts that the reparenting completes are sent. *)
Definition finish_reparenting (infos : list Buffer.ReparentingInfo) (self : Agent) : Agent :=
  on_invocations (fun p =>
    let '(contexts_to_send, p) := Processor.update_reparenting p infos in
    foldl (Processor.send_ctx_spans size_of_Span) p contexts_to_send) self.

(** What the handler makes of the traces of a request, before they are sent. *)
Definition prepare_traces (config : Config) (tags : HeaderTags) (self : Agent)
    (traces : list (list Span)) : list (list Span) * Agent :=
  let infos := match invocations self with
               | Some p => Processor.get_reparenting_info p
               | None => []
               end in
  let '(traces, (infos, self)) := handle_chunks config tags (infos, self) traces in
  (filter (fun chunk => chunk <> []) traces, finish_reparenting infos self).

Definition decode (version : ApiVersion) : bytes -> option (Z * list (list Span)) :=
  match version with
  | V04 => get_traces_from_request_body
  | V05 => get_v05_traces_from_request_body
  end.

Definition handle_traces (config : Config) (tags_provider : Provider) (self : Agent) (now : Z)
    (request : Request) (version : ApiVersion) : outcome (Z * Agent) :=
  match req_body request with
  | None => Done (500, self)
  | Some body =>
      match too_large request with
      | Some _ => Done (413, self)
      | None =>
          let tags := header_tags_of (req_headers request) in
          match decode version body with
          | None => Done (500, self)
          | Some (body_size, traces) =>
              let '(traces, self) := prepare_traces config tags self traces in
              let args := {| ha_config := config; ha_tags_provider := tags_provider;
                             ha_body_size := body_size; ha_span_pointers := None;
                             ha_header_tags := TraceAggregator.owned_from tags |} in
              '(appsec', sender, ok) ←
                send_processed_traces tags_iter (appsec self) (trace_sender self) now args traces;
              Done (if ok : bool then 200 else 500,
                    {| invocations := invocations self; deduper := deduper self;
                       asked := asked self; appsec := appsec'; trace_sender := sender |})
          end
      end
  end.
End Agent.

(** * Properties *)

Module AgentProperties.

Definition key_of (span : Span) : DedupKey := DedupKey_new (trace_id span) (span_id span).

(** A span but for its parent, the only field that the handler changes. *)
Definition strip (span : Span) : Span := with_parent_id span 0.

(** The spans that a list of answers keeps. *)
Fixpoint kept_by (answers : list bool) (spans : list Span) : list Span :=
  match answers, spans with
  | keep :: answers, span :: spans =>
      if keep : bool then span :: kept_by answers spans else kept_by answers spans
  | _, _ => []
  end.

(** The trace id that the first span of a list makes the invocations guess. *)
Definition guessed (spans : list Span) (infos : list Buffer.ReparentingInfo) :
    list Buffer.ReparentingInfo :=
  match spans with [] => infos | span :: _ => guess (trace_id span) <$> infos end.

Lemma guess_twice t t' (infos : list Buffer.ReparentingInfo) : guess t <$> (guess t' <$> infos) = guess t' <$> infos.
Proof.
  induction infos as [|info infos IH]; [done|]. cbn. f_equal; [|done].
  unfold guess. by destruct (Buffer.needs_trace_id info) eqn:Hn; cbn; rewrite ?Hn.
Qed.

Lemma guessed_app spans spans' infos : guessed (spans ++ spans') infos = guessed spans' (guessed spans infos).
Proof. destruct spans; [done|]. cbn. destruct spans'; [done|]. cbn. by rewrite guess_twice. Qed.

Lemma handle_reparenting_spec infos span :
  (handle_reparenting infos span).1 = guess (trace_id span) <$> infos /\
  strip (handle_reparenting infos span).2 = strip span.
Proof.
  revert span. induction infos as [|info infos IH]; intros span; cbn; [done|].
  set (span' := if _ && _ then _ else span).
  assert (Ht : trace_id span' = trace_id span /\ strip span' = strip span) by (subst span'; by case_match).
  destruct Ht as [Ht Hs]. specialize (IH span'). rewrite Ht in IH.
  destruct (handle_reparenting infos span') as [rest span'']. cbn in *. destruct IH as [-> ->]. done.
Qed.

Lemma run_requests_cons d k keys :
  Deduper.run d (k :: keys) =
  let '(added, d) := Deduper.check_and_add d k in
  (added :: (Deduper.run d keys).1, (Deduper.run d keys).2).
Proof. cbn. destruct (Deduper.check_and_add d k). by destruct (Deduper.run _ keys). Qed.

Lemma run_requests_app d keys keys' :
  Deduper.run d (keys ++ keys') =
  ((Deduper.run d keys).1 ++ (Deduper.run (Deduper.run d keys).2 keys').1,
   (Deduper.run (Deduper.run d keys).2 keys').2).
Proof.
  revert d. induction keys as [|k keys IH]; intros d; [by cbn; destruct (Deduper.run d keys')|].
  rewrite <- app_comm_cons, !run_requests_cons. destruct (Deduper.check_and_add d k) as [added d']. by rewrite IH.
Qed.

Lemma run_length d keys : length (Deduper.run d keys).1 = length keys.
Proof.
  revert d. induction keys as [|k keys IH]; intros d; [done|]. rewrite run_requests_cons.
  destruct (Deduper.check_and_add d k). cbn. by rewrite IH.
Qed.

Lemma kept_by_app a a' l l' :
  length a = length l -> kept_by (a ++ a') (l ++ l') = kept_by a l ++ kept_by a' l'.
Proof.
  revert l. induction a as [|b a IH]; intros [|x l] Hlen; try done.
  injection Hlen as Hlen. cbn. rewrite IH by done. by destruct b.
Qed.

Lemma join_nonempty (traces : list (list Span)) : mjoin (filter (fun chunk => chunk <> []) traces) = mjoin traces.
Proof.
  induction traces as [|[|s c] traces IH]; [done|rewrite filter_cons_False by tauto; exact IH|].
  rewrite filter_cons_True by done. exact (f_equal (app (s :: c)) IH).
Qed.

Section AgentProperties.
Context `{Externals} `{Propagation SamplingPriority} {SortedTags : Type}.
Context {W Obj : Type} `{WafOps W Obj} {P : Type} `{TraceSender P} `{TraceDecoders}.
Variable tags_iter : Tags -> list (TagName * TagValue).
Variable size_of_Span : Z.
Variable timely : nat -> bool.
Variable config : Config.
Abbreviation A := (@Agent SamplingPriority SortedTags W P) (only parsing).

(** The deduplicator always answers: no time is set, or every answer is in time. *)
Hypothesis answers : span_dedup_timeout config = None \/ forall n, timely n = true.

(** What the handling of a span leaves alone. *)
Definition same_sender (self self' : A) : Prop :=
  appsec self' = appsec self /\ trace_sender self' = trace_sender self.

Lemma set_cold_start_spec (self : A) span :
  let '(span', self') := set_cold_start self span in
  strip span' = strip span /\ trace_id span' = trace_id span /\ same_sender self self' /\
  deduper self' = deduper self.
Proof.
  unfold set_cold_start. case_decide; [|done]. destruct (invocations self); [|done].
  destruct (Processor.set_cold_start_span_trace_id _ _) as [[id|] p]; done.
Qed.

Lemma add_placeholder_spec tags (self : A) span :
  same_sender self (add_placeholder tags self span) /\ deduper (add_placeholder tags self span) = deduper self.
Proof. unfold add_placeholder. by case_decide. Qed.

Lemma forward_durable_spec (self : A) span :
  same_sender self (forward_durable self span) /\ deduper (forward_durable self span) = deduper self.
Proof. unfold forward_durable. case_decide; [|done]. by repeat case_match. Qed.

Lemma same_sender_trans self1 self2 self3 :
  same_sender self1 self2 -> same_sender self2 self3 -> same_sender self1 self3.
Proof. intros [Ha1 Hs1] [Ha2 Hs2]. exact (conj (eq_trans Ha2 Ha1) (eq_trans Hs2 Hs1)). Qed.

Lemma handle_span_spec tags infos (self : A) span d :
  deduper self = Some d ->
  let '(kept, (infos', self')) := handle_span timely config tags (infos, self) span in
  let '(added, d') := Deduper.check_and_add d (key_of span) in
  strip <$> kept = (if added then Some (strip span) else None) /\
  infos' = guessed (if added then [span] else []) infos /\
  deduper self' = Some d' /\ same_sender self self'.
Proof using answers.
  intros Hd. unfold handle_span, should_keep. rewrite Hd. fold (key_of span).
  destruct (Deduper.check_and_add d (key_of span)) as [added d'].
  assert (Hans : (match span_dedup_timeout config with Some _ => timely (asked self) | None => true end) = true)
    by (destruct answers as [->| ->]; [done|]; by case_match).
  rewrite Hans. destruct added; [|done]. set (self1 := Build_Agent _ _ _ _ _).
  pose proof (set_cold_start_spec self1 span) as Hcs.
  destruct (set_cold_start self1 span) as [span2 self2]. destruct Hcs as (Hs2 & Ht2 & Hss2 & Hd2).
  pose proof (add_placeholder_spec tags self2 span2) as [Hss3 Hd3].
  pose proof (forward_durable_spec (add_placeholder tags self2 span2) span2) as [Hss4 Hd4].
  pose proof (handle_reparenting_spec infos span2) as [Hi Hs].
  destruct (handle_reparenting infos span2) as [infos' span']. cbn in *.
  rewrite Hs, Hs2, Hi, Ht2, Hd4, Hd3, Hd2. split; [done|]. split; [done|]. split; [done|].
  exact (same_sender_trans _ _ _ (same_sender_trans _ _ _ Hss2 Hss3) Hss4).
Qed.

(** What handling a list of spans gives, from what the deduplicator answers. *)
Definition handled (d : Deduper.t) (spans : list Span) (infos : list Buffer.ReparentingInfo) (self : A)
    (spans' : list Span) (infos' : list Buffer.ReparentingInfo) (self' : A) : Prop :=
  let kept := kept_by (Deduper.run d (key_of <$> spans)).1 spans in
  strip <$> spans' = strip <$> kept /\ infos' = guessed kept infos /\
  deduper self' = Some (Deduper.run d (key_of <$> spans)).2 /\ same_sender self self'.

Lemma handled_app d l l' infos self k i1 s1 k' i2 s2 :
  handled d l infos self k i1 s1 -> handled (Deduper.run d (key_of <$> l)).2 l' i1 s1 k' i2 s2 ->
  handled d (l ++ l') infos self (k ++ k') i2 s2.
Proof.
  intros (Hk & Hi & Hd & Hs) (Hk' & Hi' & Hd' & Hs'). unfold handled.
  rewrite (fmap_app key_of), run_requests_app. cbn [fst snd]. rewrite kept_by_app by by rewrite run_length, length_fmap.
  rewrite !fmap_app, Hk, Hk', guessed_app, <- Hi. by eauto using same_sender_trans.
Qed.

Lemma handle_chunk_spec tags chunk infos (self : A) d :
  deduper self = Some d ->
  let '(chunk', (infos', self')) := handle_chunk timely config tags (infos, self) chunk in
  handled d chunk infos self chunk' infos' self'.
Proof using answers.
  revert infos self d. induction chunk as [|span chunk IH]; intros infos self d Hd; [done|]. cbn [handle_chunk].
  pose proof (handle_span_spec tags infos self span d Hd) as Hspan.
  destruct (handle_span timely config tags (infos, self) span) as [kept [infos1 self1]].
  destruct (Deduper.check_and_add d (key_of span)) as [added d1] eqn:Hadd.
  destruct Hspan as (Hk & Hi & Hd1 & Hs). specialize (IH infos1 self1 d1 Hd1).
  destruct (handle_chunk timely config tags (infos1, self1) chunk) as [chunk' [infos' self']].
  apply (handled_app d [span] chunk infos self _ infos1 self1).
  - unfold handled. cbn. rewrite Hadd. cbn. rewrite Hd1. subst infos1.
    split; [|done]. destruct added, kept as [s|]; cbn [fmap option_fmap option_map] in Hk; try discriminate Hk; [|done].
    apply (inj Some) in Hk. cbn [option_list]. cbn -[strip]. by rewrite Hk.
  - cbn. by rewrite Hadd.
Qed.

Lemma handle_chunks_spec tags traces infos (self : A) d :
  deduper self = Some d ->
  let '(traces', (infos', self')) := handle_chunks timely config tags (infos, self) traces in
  handled d (mjoin traces) infos self (mjoin traces') infos' self'.
Proof using answers.
  revert infos self d. induction traces as [|chunk traces IH]; intros infos self d Hd; [done|]. cbn [handle_chunks].
  pose proof (handle_chunk_spec tags chunk infos self d Hd) as Hc.
  destruct (handle_chunk timely config tags (infos, self) chunk) as [chunk' [infos1 self1]].
  specialize (IH infos1 self1 _ (proj1 (proj2 (proj2 Hc)))).
  destruct (handle_chunks timely config tags (infos1, self1) traces) as [traces' [infos' self']].
  exact (handled_app _ _ _ _ _ _ _ _ _ _ _ Hc IH).
Qed.

Lemma prepare_traces_spec tags (self : A) traces d :
  deduper self = Some d ->
  let '(traces', self') := prepare_traces size_of_Span timely config tags self traces in
  strip <$> mjoin traces' = strip <$> kept_by (Deduper.run d (key_of <$> mjoin traces)).1 (mjoin traces) /\
  deduper self' = Some (Deduper.run d (key_of <$> mjoin traces)).2 /\ same_sender self self'.
Proof using answers.
  intros Hd. unfold prepare_traces. set (infos := match invocations self with Some p => _ | None => _ end).
  pose proof (handle_chunks_spec tags traces infos self d Hd) as Hc.
  destruct (handle_chunks timely config tags (infos, self) traces) as [traces' [infos' self']].
  rewrite join_nonempty. by destruct Hc as (Hk & _ & Hd' & Hs).
Qed.

(** A request hands on exactly the spans that the deduplicator lets through: in their
    order, unchanged but for their parent, and without the chunks that are left empty. *)
Theorem request_spans_deduplicated tags (self : A) traces d :
  deduper self = Some d ->
  let '(traces', self') := prepare_traces size_of_Span timely config tags self traces in
  let '(answers, d') := Deduper.run d (key_of <$> mjoin traces) in
  strip <$> mjoin traces' = strip <$> kept_by answers (mjoin traces) /\ [] ∉ traces' /\
  deduper self' = Some d' /\ appsec self' = appsec self /\ trace_sender self' = trace_sender self.
Proof using answers.
  intros Hd. pose proof (prepare_traces_spec tags self traces d Hd) as Hp.
  assert (Hne : [] ∉ (prepare_traces size_of_Span timely config tags self traces).1).
  { unfold prepare_traces. destruct (handle_chunks _ _ _ _ traces) as [traces' [infos' self']].
    intros Hin. by apply list_elem_of_filter in Hin as [? _]. }
  destruct (prepare_traces size_of_Span timely config tags self traces) as [traces' self'].
  destruct (Deduper.run d _) as [ans d']. destruct Hp as (Hk & Hd' & Ha & Hs). done.
Qed.

(** The trace of the first span that a request hands on is taken as that of every
    invocation that waits for a trace id, whichever invocation the span belongs to; the
    others keep theirs. *)
Theorem first_span_decides_trace tags (self : A) infos traces d :
  deduper self = Some d ->
  let kept := kept_by (Deduper.run d (key_of <$> mjoin traces)).1 (mjoin traces) in
  (handle_chunks timely config tags (infos, self) traces).2.1 =
  match kept with
  | [] => infos
  | span :: _ => guess (trace_id span) <$> infos
  end.
Proof using answers.
  intros Hd kept. pose proof (handle_chunks_spec tags traces infos self d Hd) as Hc.
  destruct (handle_chunks timely config tags (infos, self) traces) as [traces' [infos' self']].
  by destruct Hc as (_ & -> & _).
Qed.
End AgentProperties.

(** ** Traces that are accepted *)

Section Accepted.
Context `{Externals} `{Propagation SamplingPriority} {SortedTags : Type}.
Context {W Obj : Type} `{WafOps W Obj} {Sampler Uri : Type} `{TraceOps Sampler Uri} `{TraceDecoders}.
Variable tags_iter : Tags -> list (TagName * TagValue).
Variable size_of_Span : Z.
Variable timely : nat -> bool.
Variable config : Config.
Abbreviation A := (@Agent SamplingPriority SortedTags W (@Pipeline.t Sampler Uri)) (only parsing).

Definition id_of (span : Span) : Z * Z := (trace_id span, span_id span).
Definition chunk_ids (chunk : Pb.TraceChunk) : list (Z * Z) := id_of <$> Pb.spans chunk.

(** The deduplicator answers in time. *)
Hypothesis answers : span_dedup_timeout config = None \/ forall n, timely n = true.
(** The error sampler and the root are as in [TraceProcessor]; the obfuscator keeps the ids. *)
Hypothesis always_keeps : forall s now trace, is_disabled s = false ->
  exists sr s', sample s now trace = (Keep sr, s') /\ is_disabled s' = false.
Hypothesis root_in_range : forall spans i, get_root_span_index spans = Some i -> (i < length spans)%nat.
Hypothesis obfuscation_ids : forall s, id_of (obfuscate_pb_span s) = id_of s.
(** Each trace is collected in one chunk, with its spans, in their order; one that cannot be
    normalized is left out. *)
Hypothesis collects_ids : forall traces tags f p, collect_pb_trace_chunks traces tags f = Some p ->
  exists payloads chunks, p = V07 payloads /\
    Forall2 (fun chunk c => exists i, chunk = f c i) (all_chunks payloads) chunks /\
    sublist (chunk_ids <$> chunks) (Holding.ids <$> traces).

(** The spans that wait for a response. *)
Definition waiting (self : A) : list (Z * Z) :=
  mjoin (default [] (Holding.held <$> (context_buffer <$> appsec self))).

(** No request gets a second trace while one is held for it. *)
Definition one_trace_per_request (p : option (@Processor W)) (traces : list (list Span)) : Prop :=
  match p with
  | None => True
  | Some p => Holding.wf p /\ NoDup (omap Holding.request_of traces) /\
      forall r, r ∈ omap Holding.request_of traces -> r ∉ Holding.holding p
  end.

Lemma strip_ids (spans spans' : list Span) : strip <$> spans = strip <$> spans' -> id_of <$> spans = id_of <$> spans'.
Proof using.
  intros Hs. apply (f_equal (fmap id_of)) in Hs. rewrite <- !list_fmap_compose in Hs. exact Hs.
Qed.

Lemma join_ids (traces : list (list Span)) : mjoin (Holding.ids <$> traces) = id_of <$> mjoin traces.
Proof using. induction traces as [|c traces IH]; [done|]. cbn. rewrite fmap_app. by f_equal. Qed.

(** *** The chunks that are sent have the spans of the request *)
Lemma sublist_map {B C} (f : B -> C) l l' : sublist l l' -> sublist (f <$> l) (f <$> l').
Proof using. induction 1; cbn; by constructor. Qed.

Lemma update_at_ids f i (l : list Span) : (forall s, id_of (f s) = id_of s) -> id_of <$> update_at f i l = id_of <$> l.
Proof using.
  intros Hf. unfold update_at. destruct (l !! i) as [x|] eqn:Hx; [|done].
  rewrite list_fmap_insert, Hf, <- (list_fmap_insert id_of). by rewrite list_insert_id.
Qed.

Lemma enrich_ids cp s : id_of (enrich_span cp s) = id_of s.
Proof using obfuscation_ids.
  unfold enrich_span. rewrite obfuscation_ids. unfold id_of. cbn.
  repeat (destruct (decide _) || destruct (bool_decide _) || case_match; cbn); done.
Qed.

Lemma process_ids cp c i : (id_of <$> Pb.spans (process cp c i)) `sublist_of` (id_of <$> Pb.spans c).
Proof using obfuscation_ids.
  unfold process.
  assert (Pb.spans (promote_decision_maker c) = Pb.spans c) as Hp
    by (unfold promote_decision_maker; by repeat case_match).
  rewrite Hp. destruct (match _ !! i with Some _ => _ | None => _ end); cbn; [apply sublist_nil_l|].
  rewrite update_at_ids by done. rewrite <- list_fmap_compose.
  rewrite (list_fmap_ext (id_of ∘ enrich_span cp) id_of) by (intros; apply enrich_ids).
  apply sublist_map, sublist_filter.
Qed.

Lemma bind_ids (chunks : list Pb.TraceChunk) :
  id_of <$> (chunk ← chunks; Pb.spans chunk) = mjoin (chunk_ids <$> chunks).
Proof using. induction chunks as [|c chunks IH]; [done|]. cbn. rewrite fmap_app, IH. done. Qed.

Lemma sublist_join {B} (l l' : list (list B)) : l `sublist_of` l' -> mjoin l `sublist_of` mjoin l'.
Proof using. induction 1; cbn; [done|by apply sublist_app|by apply sublist_inserts_l]. Qed.

Lemma Forall2_sublist_join {B C} (f : B -> list C) l l' :
  Forall2 (fun x y => f x `sublist_of` f y) l l' -> mjoin (f <$> l) `sublist_of` mjoin (f <$> l').
Proof using. induction 1; cbn; [done|by apply sublist_app]. Qed.

Lemma collected_ids provider tags (traces : list (list Span)) pointers :
  (id_of <$> (chunk ← all_chunks (collected_payloads config provider tags traces pointers); Pb.spans chunk))
    `sublist_of` (id_of <$> mjoin traces).
Proof using obfuscation_ids collects_ids.
  unfold collected_payloads. destruct (collect_pb_trace_chunks _ _ _) as [p|] eqn:Hc; cbn; [|apply sublist_nil_l].
  destruct (collects_ids _ _ _ _ Hc) as (payloads & chunks & -> & Hf & Hs). cbn. rewrite all_chunks_tagged, bind_ids.
  etrans; [|rewrite <- join_ids; apply sublist_join, Hs]. apply Forall2_sublist_join.
  eapply Forall2_impl; [exact Hf|]. intros chunk c [i ->]. apply process_ids.
Qed.

Lemma sent_as_ids sent chunk : sent_as sent chunk -> id_of <$> Pb.spans sent = id_of <$> Pb.spans chunk.
Proof using.
  unfold sent_as. destruct (explicitly_kept chunk); [by intros ->|]. intros (i & sr & _ & ->). cbn.
  by rewrite update_at_ids.
Qed.

Lemma sent_ids party drop en sent collected :
  sent_of party drop en sent collected ->
  (id_of <$> (chunk ← sent; Pb.spans chunk)) `sublist_of` (id_of <$> (chunk ← collected; Pb.spans chunk)).
Proof using.
  unfold sent_of. case_decide; [by intros ->|]. intros Hf. rewrite !bind_ids.
  transitivity (mjoin (chunk_ids <$> filter (fun c => to_keep drop en c) collected)).
  - apply Forall2_sublist_join. eapply Forall2_impl; [exact Hf|]. intros c c' Hc. unfold chunk_ids. by rewrite (sent_as_ids _ _ Hc).
  - apply sublist_join, sublist_map, sublist_filter.
Qed.

(** What is not held is passed on. *)
Lemma passed_on (p : option (@Processor W)) args traces :
  one_trace_per_request p traces ->
  exists rest p', (forall (sender : @Pipeline.t Sampler Uri) now,
      send_processed_traces tags_iter p sender now args traces =
        ('(sender, ok) ← send_traces sender now args rest; Done (p', sender, ok))) /\
    (Holding.ids <$> rest) ++ default [] (Holding.held <$> (context_buffer <$> p')) ≡ₚ
    default [] (Holding.held <$> (context_buffer <$> p)) ++ (Holding.ids <$> traces).
Proof using.
  unfold send_processed_traces. destruct p as [p|]; cbn.
  - intros (Hwf & Hnd & Hdis). pose proof (Holding.hold_traces_kept tags_iter args traces p [] Hwf Hnd Hdis) as Hk.
    destruct (hold_traces tags_iter args p traces) as [rest p']. exists rest, (Some p'). split; [done|].
    exact (Holding.kept_traces _ _ _ _ _ Hk).
  - intros _. exists traces, None. split; [done|]. cbn. by rewrite app_nil_r.
Qed.

(** C7: a request that can be read is answered with success, and each of its spans that is
    not a duplicate is handed to the trace processor or held for a response, exactly once;
    what was held before stays or is handed over. Of what is handed over the trace aggregator is
    sent one payload at most: the chunks that were collected, less those that are sampled
    out when the backend does not compute the stats; no span that was not handed over, and none
    twice. This is while the deduplicator answers in time, the aggregator receives, and no
    request gets a second trace while its first is held. *)
Theorem accepted_spans_present_once provider (self : A) now request version body size traces d url :
  let tags := header_tags_of (req_headers request) in
  req_body request = Some body -> too_large request = None -> decode version body = Some (size, traces) ->
  deduper self = Some d -> uri_from_str (cfg_apm_dd_url config) = Some url ->
  Pipeline.trace_rx_closed (trace_sender self) = false ->
  one_trace_per_request (appsec self) (prepare_traces size_of_Span timely config tags self traces).1 ->
  exists self' rest sent,
    handle_traces tags_iter size_of_Span timely config provider self now request version = Done (200, self') /\
    (id_of <$> mjoin rest) ++ waiting self' ≡ₚ
      waiting self ++ (id_of <$> kept_by (Deduper.run d (key_of <$> mjoin traces)).1 (mjoin traces)) /\
    Pipeline.trace_tx (trace_sender self') = Pipeline.trace_tx (trace_sender self) ++ sent /\
    (length sent <= 1)%nat /\
    sent_of (resolve (lambda_extension_compute_stats config) (client_computed_stats (TraceAggregator.b_generic tags)))
      (Pipeline.tracer_drop (trace_sender self)) (negb (is_disabled (Pipeline.error_sampler (trace_sender self))))
      (info_chunks sent)
      (if decide (rest = []) then [] else all_chunks (collected_payloads config provider tags rest None)) /\
    (id_of <$> (chunk ← info_chunks sent; Pb.spans chunk)) `sublist_of` (id_of <$> mjoin rest).
Proof using answers always_keeps root_in_range obfuscation_ids collects_ids.
  intros tags Hb Hl Hdec Hd Hu Hopen Hone. unfold handle_traces. rewrite Hb, Hl, Hdec. fold tags.
  pose proof (prepare_traces_spec size_of_Span timely config answers tags self traces d Hd) as Hp.
  destruct (prepare_traces _ _ _ _ self traces) as [traces' self1]. cbn in Hone.
  destruct Hp as (Hk & _ & Ha & Hs). rewrite <- Ha in Hone.
  set (args := Build_HoldArguments _ _ _ _ _).
  destruct (passed_on (appsec self1) args traces' Hone) as (rest & p' & -> & Hperm).
  assert (TraceAggregator.to_tracer_header_tags (ha_header_tags args) = tags) as Htags by (by destruct tags).
  assert (forall traces tags f p, collect_pb_trace_chunks traces tags f = Some p -> exists ps, p = V07 ps) as Hv07.
  { intros ? ? ? ? Hc. destruct (collects_ids _ _ _ _ Hc) as (ps & _ & -> & _). eauto. }
  destruct (pipeline_sends always_keeps root_in_range Hv07 (trace_sender self1) now config provider tags rest size
    None url Hu) as (sender' & sent & Hsend & Htx & Hlen & Hsent); [by rewrite Hs|].
  cbn [send_traces pipeline_sender]. rewrite Htags. cbn [ha_config ha_tags_provider ha_body_size ha_span_pointers args].
  rewrite Hsend. cbn. eexists _, rest, sent. split; [done|]. cbn. rewrite Hs in Htx, Hsent. split_and!; try done.
  - unfold waiting. cbn. rewrite <- join_ids, <- join_app, Hperm, Ha, join_app, join_ids. by rewrite (strip_ids _ _ Hk).
  - etrans; [by eapply sent_ids|]. case_decide as Hr; [subst rest; done|]. apply collected_ids.
Qed.
End Accepted.
End AgentProperties.

Module AgentSample.

(** Two requests of the same execution environment; the second span is sent twice. *)
Definition traces : list (list Span) :=
  [[AppSecSample.entry 1 "a"; AppSecSample.entry 2 "a"]; [AppSecSample.entry 2 "a"]].

#[export] Instance decoders : TraceDecoders :=
  {| header_tags_of := fun _ => TraceSample.tags;
     get_traces_from_request_body := fun _ => Some (1, traces);
     get_v05_traces_from_request_body := fun _ => Some (1, traces ++ [[AppSecSample.entry 3 "b"]]) |}.

Definition request : Request := {| req_headers := ∅; req_body := Some [] |}.

Definition agent : @Agent Z string unit (list (list Span)) :=
  {| invocations := Some SampleRun.start; deduper := Some (Deduper.new 2); asked := 0; appsec := None;
     trace_sender := [] |}.

(** An agent whose security processor waits for the response to the request [a]. *)
Definition protected : @Agent Z string unit (@Pipeline.t bool string) :=
  {| invocations := Some SampleRun.start; deduper := Some (Deduper.new 3); asked := 0;
     appsec := Some {| ruleset_version := "1"; proc_waf_timeout := 5; api_sec_sampler := None;
                       context_buffer := [Context_new (H0 := AppSecSample.waf_ops) "a" "1" 5];
                       buffer_capacity := 2 |};
     trace_sender := TraceSample.pipeline |}.

(** Two invocations whose trace is not known. *)
Definition waiting (request_id : string) : Buffer.ReparentingInfo :=
  {| Buffer.info_request_id := request_id; Buffer.invocation_span_id := 5;
     Buffer.parent_id_to_reparent := 0; Buffer.guessed_trace_id := 0; Buffer.needs_trace_id := true |}.
End AgentSample.

Section AgentWitnesses.
#[local] Existing Instances Sample.externals Sample.propagation AppSecSample.waf_ops AgentSample.decoders TraceSample.ops.
Import AgentProperties.

Lemma request_spans_deduplicated_witness :
  let '(traces', _) := prepare_traces 200 (fun _ => true) Sample.config TraceSample.tags AgentSample.agent
                         AgentSample.traces in
  (span_id <$> (strip <$> mjoin traces')) = [1; 2].
Proof.
  pose proof (request_spans_deduplicated 200 (fun _ => true) Sample.config (or_introl eq_refl)
    TraceSample.tags AgentSample.agent AgentSample.traces (Deduper.new 2) eq_refl) as Hd.
  destruct (prepare_traces _ _ _ _ AgentSample.agent AgentSample.traces) as [traces' self'].
  destruct Hd as [Hd _]. rewrite Hd. vm_compute. reflexivity.
Defined.

Lemma first_span_decides_trace_witness :
  Buffer.guessed_trace_id <$>
    (handle_chunks (fun _ => true) Sample.config TraceSample.tags
       ([AgentSample.waiting "a"; AgentSample.waiting "b"], AgentSample.agent) AgentSample.traces).2.1 = [1; 1].
Proof.
  rewrite (first_span_decides_trace (fun _ => true) Sample.config (or_introl eq_refl) TraceSample.tags
    AgentSample.agent [AgentSample.waiting "a"; AgentSample.waiting "b"] AgentSample.traces (Deduper.new 2) eq_refl).
  vm_compute. reflexivity.
Defined.

Lemma sample_collects_ids traces tags f p : collect_pb_trace_chunks traces tags f = Some p ->
  exists payloads chunks, p = V07 payloads /\
    Forall2 (fun chunk c => exists i, chunk = f c i) (all_chunks payloads) chunks /\
    sublist (chunk_ids <$> chunks) (Holding.ids <$> traces).
Proof.
  cbn. intros [= <-]. eexists _, (TraceSample.chunk_of <$> traces). split; [done|]. split.
  - unfold all_chunks. cbn. rewrite app_nil_r. apply Forall2_fmap. apply Forall_Forall2_diag, Forall_true. eauto.
  - by rewrite <- list_fmap_compose.
Qed.

(** The spans of [a] are held, the one of [b] is sent. *)
Lemma accepted_spans_present_once_witness :
  exists self' rest,
    handle_traces map_to_list 200 (fun _ => true) Sample.config TraceSample.provider AgentSample.protected 0
      AgentSample.request V05 = Done (200, self') /\
    (id_of <$> mjoin rest) ++ waiting self' ≡ₚ [(1, 1); (2, 2); (3, 3)] /\ waiting self' = [(1, 1); (2, 2)].
Proof.
  destruct (accepted_spans_present_once map_to_list 200 (fun _ => true) Sample.config (or_introl eq_refl)
    TraceSample.keeps TraceSample.in_range (fun _ => eq_refl) sample_collects_ids
    TraceSample.provider AgentSample.protected 0 AgentSample.request V05 [] 1
    (AgentSample.traces ++ [[AppSecSample.entry 3 "b"]]) (Deduper.new 3) _
    eq_refl eq_refl (eq_refl : @decode AgentSample.decoders V05 [] = _) eq_refl eq_refl eq_refl)
    as (self' & rest & sent & Hh & Hp & _).
  - split; [|split].
    + split; [vm_compute; repeat constructor; set_solver|]. split; [by repeat constructor|]. split; cbn; lia.
    + vm_compute. repeat constructor; set_solver.
    + intros r _ Hr. vm_compute in Hr. inversion Hr.
  - exists self', rest. split; [exact Hh|]. split; [exact Hp|].
    vm_compute in Hh. injection Hh as <-. vm_compute. reflexivity.
Defined.
End AgentWitnesses.
