(* ===== verification/OtlpAgent.v ===== *)
(** The OTLP receiver: [otlp/agent.rs] and [otlp/mod.rs]. The spans it accepts go through
    the trace processor ([TraceProcessor.Pipeline]); a request that panics does so in the
    task of its connection. *)
From S2P Require Import Prelude F64 DataStreams Text Aggregators ContextBuffer Triggers Configuration.
From S2P Require Import TriggerEvents SpanInferrer Tags StatsConcentrator TraceProcessor Otlp AppSec TraceAgent.
#[local] Open Scope Z_scope.

Definition should_enable_otlp_agent (config : Config) : bool :=
  otlp_config_traces_enabled config &&
  (is_some (otlp_config_receiver_protocols_http_endpoint config) ||
   is_some (otlp_config_receiver_protocols_grpc_endpoint config)).

(** * Settings *)

Definition OTLP_AGENT_HTTP_PORT : Z := 4318.
Definition OTLP_AGENT_GRPC_PORT : Z := 4317.
Definition DEFAULT_MAX_RECV_MSG_SIZE : Z := 4 * 1024 * 1024.
Definition MAX_RECV_MSG_SIZE_CAP : Z := 50 * 1024 * 1024.

Definition parse_port (endpoint : option string) (default_port : Z) : Z :=
  match endpoint with
  | None => default_port
  | Some endpoint =>
      let without_scheme :=
        match str_strip_prefix "http://" endpoint with
        | Some s => s
        | None => default endpoint (str_strip_prefix "https://" endpoint)
        end in
      default default_port (parse_u16 (split_last ":" without_scheme))
  end.

(** The ports of the agent that [Agent::new] builds. *)
Definition http_port (config : Config) : option Z :=
  (fun ep => parse_port (Some ep) OTLP_AGENT_HTTP_PORT) <$> otlp_config_receiver_protocols_http_endpoint config.
Definition grpc_port (config : Config) : option Z :=
  (fun ep => parse_port (Some ep) OTLP_AGENT_GRPC_PORT) <$> otlp_config_receiver_protocols_grpc_endpoint config.

Definition resolve_grpc_max_msg_size (config : Config) : Z :=
  match otlp_config_receiver_protocols_grpc_max_recv_msg_size_mib config with
  | None => DEFAULT_MAX_RECV_MSG_SIZE
  | Some mib =>
      if mib <=? 0 then DEFAULT_MAX_RECV_MSG_SIZE
      else
        let size := wrap_u64 (mib * 1024 * 1024) in
        if MAX_RECV_MSG_SIZE_CAP <? size then MAX_RECV_MSG_SIZE_CAP else size
  end.

(** Whatever is configured, messages of a mebibyte are taken and none above the cap. *)
Lemma grpc_size_bounded config mib :
  otlp_config_receiver_protocols_grpc_max_recv_msg_size_mib config = Some mib -> mib < 2 ^ 31 ->
  1024 * 1024 <= resolve_grpc_max_msg_size config <= MAX_RECV_MSG_SIZE_CAP.
Proof.
  intros Hm Hr. unfold resolve_grpc_max_msg_size. rewrite Hm.
  destruct (Z.leb_spec mib 0); [unfold DEFAULT_MAX_RECV_MSG_SIZE, MAX_RECV_MSG_SIZE_CAP; lia|].
  assert (Hw : wrap_u64 (mib * 1024 * 1024) = mib * 1024 * 1024) by (apply Z.mod_small; lia).
  rewrite Hw. destruct (Z.ltb_spec MAX_RECV_MSG_SIZE_CAP (mib * 1024 * 1024)); unfold MAX_RECV_MSG_SIZE_CAP in *; lia.
Qed.

(** * Requests *)

Section Receiver.
Context `{Externals} `{OtlpExternals} `{OtlpDecoders} {Sampler Uri : Type} `{TraceOps Sampler Uri}.
Abbreviation Pipe := (@Pipeline.t Sampler Uri).

(** [false] is an error. *)
Definition process_and_send_traces (self : Pipe) (now : Z) (config : Config) (tags_provider : Provider)
    (tags : HeaderTags) (traces : list (list Span)) (body_size : Z) : outcome (Pipe * bool) :=
  if forallb (fun trace => bool_decide (trace = [])) traces then Done (self, false)
  else
    '(payload, processed, sampler) ←
      process_traces (Pipeline.tracer_drop self) (Pipeline.error_sampler self) now config tags_provider
        tags traces body_size None;
    let self := Pipeline.with_sampler self sampler in
    let '(self, sent) := match payload with
                         | Some payload => Pipeline.send_trace self payload
                         | None => (self, true)
                         end in
    if sent then
      Done (if decide (resolve (lambda_extension_compute_stats config)
                         (client_computed_stats (TraceAggregator.b_generic tags)) = Extension)
            then Pipeline.generate_stats self processed else self, true)
    else Done (self, false).

(** [TracerHeaderTags::default()]. *)
Definition default_tags : HeaderTags :=
  {| TraceAggregator.b_lang := EmptyString; TraceAggregator.b_lang_version := EmptyString;
     TraceAggregator.b_lang_interpreter := EmptyString; TraceAggregator.b_lang_vendor := EmptyString;
     TraceAggregator.b_tracer_version := EmptyString; TraceAggregator.b_container_id := EmptyString;
     TraceAggregator.b_generic := {| client_computed_stats := false; client_computed_top_level := false |} |}.

(** gRPC: [false] is an internal error. *)
Definition export (self : Pipe) (now : Z) (config : Config) (tags_provider : Provider)
    (request : list Otel.ResourceSpans) (body_size : Z) : outcome (Pipe * bool) :=
  traces ← process_request config request;
  process_and_send_traces self now config tags_provider default_tags traces body_size.

(** HTTP: the status of the response and the encoding of its body. *)
Definition v1_traces `{TraceDecoders} (self : Pipe) (now : Z) (config : Config)
    (tags_provider : Provider) (request : Request) : outcome (Z * OtlpEncoding * Pipe) :=
  let encoding := from_content_type (req_headers request !! "content-type"%string ≫= to_str) in
  match req_body request with
  | None => Done (400, encoding, self)
  | Some body =>
      processed ← Otlp.process config body encoding;
      match processed with
      | None => Done (500, encoding, self)
      | Some traces =>
          '(self, ok) ← process_and_send_traces self now config tags_provider
                          (header_tags_of (req_headers request)) traces (Z.of_nat (length body));
          Done (if ok : bool then 200 else 500, encoding, self)
      end
  end.

(** An export without spans, which the protocol allows, is answered with an error, and
    so is one whose traces are all empty; nothing is sent in either case. *)
Theorem empty_export_rejected (self : Pipe) now config tags_provider request body_size traces :
  process_request config request = Done traces -> Forall (fun trace => trace = []) traces ->
  export self now config tags_provider request body_size = Done (self, false).
Proof.
  intros Hp Hf. unfold export. rewrite Hp. cbn. unfold process_and_send_traces.
  assert (Hb : forallb (fun trace : list Span => bool_decide (trace = [])) traces = true); [|by rewrite Hb].
  apply forallb_forall. intros trace Hin. apply bool_decide_eq_true. apply list_elem_of_In in Hin.
  by apply (proj1 (Forall_forall _ _) Hf).
Qed.

(** C36: traces that come through OTLP are processed and sent as by the sending step of the
    trace agent without App & API Protection ([Pipeline.send_processed_traces]): the same
    payload, the same sampling, the same stats and the same error. One thing differs: when the
    trace aggregator is gone, that step has already sent the stats, and the receiver sends
    none. The deduplication and the reparenting that the trace agent does before that step are
    not done here. *)
Theorem otlp_agrees_with_sending_step (self : Pipe) now config tags_provider tags traces body_size :
  Exists (fun trace => trace <> []) traces ->
  process_and_send_traces self now config tags_provider tags traces body_size =
  match Pipeline.send_processed_traces self now config tags_provider tags traces body_size None with
  | Done (self', true) => Done (self', true)
  | Done (self', false) => Done (Pipeline.with_stats self' (Pipeline.stats self), false)
  | Panic => Panic
  end.
Proof.
  intros Hex. unfold process_and_send_traces, Pipeline.send_processed_traces.
  assert (Hb : forallb (fun trace : list Span => bool_decide (trace = [])) traces = false).
  { apply not_true_is_false. intros Ht. apply Exists_exists in Hex as (trace & Hin & Hne).
    apply list_elem_of_In in Hin. apply (proj1 (forallb_forall _ _) Ht) in Hin. by apply bool_decide_eq_true in Hin. }
  rewrite Hb. destruct traces as [|t traces]; [done|].
  destruct (process_traces _ _ _ _ _ _ _ _ _) as [[[payload processed] sampler]|]; [|done]. cbn.
  destruct (decide _); destruct payload as [payload|]; cbn; unfold Pipeline.send_trace, Pipeline.generate_stats; cbn;
    destruct processed; cbn; destruct (Pipeline.trace_rx_closed self); try done; by destruct self.
Qed.
End Receiver.

(** * Concrete runs *)

Section AgentWitnesses.
#[local] Existing Instances Sample.externals OtlpSample.otlp_externals TraceSample.ops.

(** A resource without spans. *)
Lemma empty_export_rejected_witness :
  export TraceSample.pipeline 0 Sample.config TraceSample.provider
    [{| Otel.resource := Some OtlpSample.resource_of; Otel.scope_spans := [] |}] 10 =
  Done (TraceSample.pipeline, false).
Proof.
  apply (empty_export_rejected _ _ _ _ _ _ []); [vm_compute; reflexivity|constructor].
Defined.

Lemma otlp_agrees_with_sending_step_witness :
  exists self', process_and_send_traces TraceSample.pipeline 0 TraceSample.stats_config TraceSample.provider
    default_tags TraceSample.traces 1 = Done (self', true) /\
  Pipeline.send_processed_traces TraceSample.pipeline 0 TraceSample.stats_config TraceSample.provider
    default_tags TraceSample.traces 1 None = Done (self', true).
Proof.
  rewrite (otlp_agrees_with_sending_step TraceSample.pipeline 0 TraceSample.stats_config TraceSample.provider
    default_tags TraceSample.traces 1) by (by constructor).
  eexists. split; vm_compute; reflexivity.
Defined.
End AgentWitnesses.
