(* ===== verification/ExtensionLoop.v ===== *)
(** The extension process: the main loops of [bin/bottlecap/main.rs], the answers of the
    Extensions API ([extension/mod.rs]), the subscription to the Telemetry API
    ([extension/telemetry/mod.rs]) and its listener ([extension/telemetry/listener.rs]).

    A loop is a machine over the inputs it waits for: an event of the bus, a tick of the flush
    interval, the answer to a call of [/next], a timeout. Every branch that a [select!] can
    take is an input; its order of preference is not modelled, so that the properties hold for
    every order. What a loop does is its log of actions. *)
From S2P Require Import Prelude F64 Text DataStreams FlushControl TelemetryEvents Stitch.
From S2P Require Import EnhancedMetrics ContextBuffer LogsProcessor Triggers Configuration.
From S2P Require Import SpanInferrer InvocationProcessor InvocationProperties Tags.
From stdpp Require Import pretty.
#[local] Open Scope Z_scope.

(** * The Extensions API *)

Inductive NextEventResponse :=
| NextInvoke (deadline_ms : Z) (request_id invoked_function_arn : string)
| NextShutdown (shutdown_reason : string) (deadline_ms : Z).

(** [transient] is whether an HTTP error is a timeout or a failure to connect. *)
Inductive ExtensionError :=
| HttpError (transient : bool)
| JsonError
| RegistrationFailed (reason : string)
| MissingExtensionIdHeader
| InvalidExtensionIdHeader
| ResponseBodyReadError
| HttpStatusError (status : Z).

Definition EXTENSION_ROUTE : string := "2020-01-01/extension".
Definition base_url (route runtime_api : string) : string :=
  ("http://" +:+ runtime_api +:+ "/" +:+ route)%string.

Definition get_subscription_event_types (managed_instance_mode : bool) : list string :=
  if managed_instance_mode then ["SHUTDOWN"%string] else ["INVOKE"; "SHUTDOWN"]%string.

(** An HTTP response: its status, its headers and its body if it could be read. *)
Record HttpResponse := {
  resp_status : Z;
  resp_headers : gmap string string;
  resp_body : option bytes;
}.

(** [register], from the answer to its request; [None] is no answer. The account id is what
    the body gives. *)
Definition register (account_id_of : bytes -> option (option string)) (answer : option HttpResponse) :
    (string * option string) + ExtensionError :=
  match answer with
  | None => inr (HttpError false)
  | Some response =>
      if negb (resp_status response =? 200) then inr (HttpStatusError (resp_status response))
      else
        match resp_headers response !! "lambda-extension-identifier"%string with
        | None => inr MissingExtensionIdHeader
        | Some extension_id =>
            if forallb (fun c => let n := N_of_ascii c in ((32 <=? n) && (n <? 127) || (n =? 9))%N)
                 (String.list_ascii_of_string extension_id)
            then match resp_body response ≫= account_id_of with
                 | Some account_id => inl (extension_id, account_id)
                 | None => inr (HttpError false)
                 end
            else inr InvalidExtensionIdHeader
        end
  end.

(** [next_event], from the answer to its request or the error of the client. *)
Definition next_event (from_str : bytes -> option NextEventResponse)
    (answer : HttpResponse + bool) : NextEventResponse + ExtensionError :=
  match answer with
  | inr transient => inr (HttpError transient)
  | inl response =>
      match resp_body response with
      | None => inr ResponseBodyReadError
      | Some text =>
          if negb ((200 <=? resp_status response) && (resp_status response <? 300))
          then inr (HttpStatusError (resp_status response))
          else match from_str text with Some e => inl e | None => inr JsonError end
      end
  end.

(** * The Telemetry API *)

Definition subscription_types (logs_enabled : bool) : list string :=
  if logs_enabled then ["platform"; "extension"; "function"]%string else ["platform"%string].

(** The body of the request of [subscribe]. *)
Definition subscription (destination_port : Z) (logs_enabled managed_instance_mode : bool) : Value :=
  let text s := VString s in
  let number z := VNumber (PosInt z) in
  VObject
    [("buffering"%string, VObject
        [("maxBytes"%string, number (1024 * 1024)); ("maxItems"%string, number 1000);
         ("timeoutMs"%string, number 25)]);
     ("destination"%string, VObject
        [("URI"%string, text ("http://sandbox:" +:+ pretty destination_port +:+ "/")%string);
         ("protocol"%string, text "HTTP"%string)]);
     ("schemaVersion"%string,
      text (if managed_instance_mode then "2025-01-29" else "2022-12-13")%string);
     ("types"%string, VArray (VString <$> subscription_types logs_enabled))].

(** [TelemetryListener::handle]: the status, the events sent on, what is held. The channel to
    the logs agent takes [room] more events before it closes, or any number. *)
Section TelemetryListener.
Context {TelemetryEvent : Type} (from_events : bytes -> json_error + list TelemetryEvent)
  (from_ignored : bytes -> option json_error).

Definition forward (room : option nat) (events : list TelemetryEvent) : Z * list TelemetryEvent :=
  match room with
  | Some n => if (length events <=? n)%nat then (200, events) else (503, take n events)
  | None => (200, events)
  end.

Definition handle (fragments : FragmentBuffer) (body : option bytes) (now : Z) (room : option nat) :
    Z * list TelemetryEvent * FragmentBuffer :=
  match body with
  | None => (500, [], fragments)
  | Some body =>
      match from_events body with
      | inr events => (forward room events, fragments)
      | inl _ =>
          match stitch from_events from_ignored fragments body now with
          | (Complete events, fragments) => (forward room events, fragments)
          | (_, fragments) => (200, [], fragments)
          end
      end
  end.
End TelemetryListener.

(** * Events of the bus *)

Section Loops.
Context {SamplingPriority : Type}.
Abbreviation Command_ := (@Processor.ProcessorCommand SamplingPriority).

(** The command that an event becomes, and whether the event is given back to the caller. *)
Definition handle_event_bus_event (event : Event) : option Command_ * option (TelemetryEvent Value) :=
  match event with
  | OutOfMemory request_id timestamp => (Some (Processor.OnOutOfMemoryError request_id timestamp), None)
  | Telemetry event =>
      let timestamp := time event / 10 ^ 9 in
      match record event with
      | PlatformInitStart _ _ runtime_version _ =>
          (Some (Processor.CPlatformInitStart (time event) runtime_version), None)
      | PlatformInitReport initialization_type _ metrics =>
          (Some (Processor.CPlatformInitReport initialization_type
                   (init_report_duration_ms metrics) timestamp), None)
      | PlatformRestoreStart => (Some (Processor.CPlatformRestoreStart (time event)), None)
      | PlatformRestoreReport _ _ metrics =>
          ((fun m => Processor.CPlatformRestoreReport (restore_report_duration_ms m) timestamp) <$> metrics,
           None)
      | PlatformStart request_id _ => (Some (Processor.CPlatformStart request_id (time event)), None)
      | PlatformRuntimeDone request_id status error_type (Some metrics) =>
          (Some (Processor.CPlatformRuntimeDone request_id metrics status error_type timestamp),
           Some event)
      | PlatformReport request_id status error_type metrics spans =>
          (Some (Processor.CPlatformReport request_id metrics timestamp status error_type spans),
           Some event)
      | _ => (None, None)
      end
  | Tombstone => (None, None)
  end.

Definition is_runtime_done (event : TelemetryEvent Value) : bool :=
  match record event with PlatformRuntimeDone _ _ _ _ => true | _ => false end.

(** The command that the answer of [/next] becomes, and the answer that the loop goes on with. *)
Definition handle_next_invocation (next_response : NextEventResponse + ExtensionError) :
    option Command_ * NextEventResponse :=
  match next_response with
  | inl (NextInvoke _ request_id _ as e) => (Some (Processor.InvokeEvent request_id), e)
  | inl (NextShutdown _ _ as e) => (Some Processor.OnShutdownEvent, e)
  | inr _ => (None, NextShutdown "panic" 0)
  end.

(** * Setup *)

Definition resolve_dsm_service (configured_service canonical_resource_name : option string) : string :=
  default "aws.lambda"%string
    (match configured_service with Some s => Some s | None => canonical_resource_name end).

Definition get_flush_strategy_for_mode (aws_config : AwsConfig) (configured_strategy : FlushStrategy) :
    FlushStrategy :=
  if negb (is_managed_instance_mode aws_config) then configured_strategy
  else
    match configured_strategy with
    | Continuously _ => configured_strategy
    | _ => Continuously {| interval := DEFAULT_CONTINUOUS_FLUSH_INTERVAL |}
    end.

(** The tags that [start_dogstatsd] adds to custom metrics. *)
Definition enrichment_tags (exclude : list string) (tags : list string) : string :=
  match exclude with
  | [] => str_join "," tags
  | _ => str_join ","
           (filter (fun tag => (splitn2 ":" tag).1 ∉ exclude) tags)
  end.

(** * The loop on demand *)

(** What is stopped by a token. *)
Inductive BackgroundService :=
| TelemetryListener | LogsAgent | RuntimeProxy | OtlpAgent | TraceAgent | Dogstatsd | LifecycleListener.

Inductive Action :=
| Command (command : Command_)
| Decided (decision : FlushDecision)
| CallNext
| FlushBlocking
| SpawnNonBlocking
| ResetInterval
| AwaitHandles
| Cancel (service : BackgroundService)
| FlushBlockingFinal
| ShutdownLogsAggregator
| ShutdownTraceAggregator.

(** [proxy] and [otlp] are whether these agents were started. *)
Definition cancel_background_services (proxy otlp : bool) : list Action :=
  (if proxy then [Cancel RuntimeProxy] else []) ++ (if otlp then [Cancel OtlpAgent] else []) ++
  [Cancel TraceAgent; Cancel Dogstatsd; Cancel TelemetryListener; Cancel LifecycleListener].

Definition commands_of (command : option Command_) : list Action := Command <$> option_list command.
End Loops.

Module OnDemand.
Section OnDemand.
Context {SamplingPriority : Type}.
Abbreviation Action_ := (@Action SamplingPriority).

(** Where the loop waits: for its decision, in ['flush_end], for the answer of [/next] alone,
    in ['next_invocation], in [wait_for_tombstone_event]; or it has returned. *)
Inductive Phase := Deciding | FlushEnd | AwaitNext | NextInvocation | AwaitTombstone | Returned.

Record t := { flush_control : FlushControl.t; first : bool; phase : Phase; log : list Action_ }.

(** What the loop waits for. A decision reads the clock and whether flushes are pending. *)
Inductive Input :=
| Decide (now : Z) (pending : bool)
| Bus (event : Event)
| Tick
| Next (response : NextEventResponse + ExtensionError)
| IdleTimeout.

(** Before the loop, [/next] is called and its answer awaited. *)
Definition start (control : FlushControl.t) : t :=
  {| flush_control := control; first := true; phase := AwaitNext; log := [CallNext] |}.

Definition go (self : t) (control : FlushControl.t) (p : Phase) (actions : list Action_) : t :=
  {| flush_control := control; first := false; phase := p; log := log self ++ actions |}.

Definition stay (self : t) (actions : list Action_) : t :=
  {| flush_control := flush_control self; first := first self; phase := phase self;
     log := log self ++ actions |}.

(** The flush at the top of an iteration that does not wait for the end of the invocation. *)
Definition top_flush (decision : FlushDecision) (pending : bool) : list Action_ :=
  match decision with
  | Continuous => if pending then [] else [SpawnNonBlocking; ResetInterval]
  | Periodic => [FlushBlocking; ResetInterval]
  | _ => []
  end.

Definition decide_ (self : t) (now : Z) (pending : bool) : t :=
  let '(decision, control) := FlushControl.evaluate_flush_decision (flush_control self) now in
  match decision with
  | End => go self control FlushEnd [Decided End]
  | _ => go self control NextInvocation (Decided decision :: top_flush decision pending ++ [CallNext])
  end.

(** The answer of the first call is not looked at. *)
Definition on_next (self : t) (response : NextEventResponse + ExtensionError) : t :=
  let '(command, answer) := handle_next_invocation response in
  match answer, first self with
  | NextShutdown _ _, false =>
      go self (flush_control self) AwaitTombstone
        (commands_of command ++ [Cancel TelemetryListener; Cancel LogsAgent; AwaitHandles])
  | _, _ => go self (flush_control self) Deciding (commands_of command)
  end.

Definition finish (proxy otlp : bool) (self : t) : t :=
  go self (flush_control self) Returned
    (cancel_background_services proxy otlp ++
     [FlushBlockingFinal; ResetInterval; ShutdownLogsAggregator; ShutdownTraceAggregator]).

Definition is_default (s : FlushStrategy) : bool := match s with Default => true | _ => false end.

(** One input; [None] where the loop does not wait for it. *)
Definition step (proxy otlp : bool) (self : t) (i : Input) : option t :=
  match phase self, i with
  | Deciding, Decide now pending => Some (decide_ self now pending)
  | FlushEnd, Bus event =>
      let '(command, returned) := handle_event_bus_event event in
      Some (if existsb is_runtime_done (option_list returned)
            then go self (flush_control self) AwaitNext
                   (commands_of command ++ [FlushBlocking; ResetInterval; CallNext])
            else stay self (commands_of command))
  | FlushEnd, Tick => Some (stay self [FlushBlocking; ResetInterval])
  | AwaitNext, Next response => Some (on_next self response)
  | NextInvocation, Next response => Some (on_next self response)
  | NextInvocation, Bus event => Some (stay self (commands_of (fst (handle_event_bus_event event))))
  | NextInvocation, Tick =>
      Some (if is_default (FlushControl.flush_strategy (flush_control self))
            then stay self [FlushBlocking; ResetInterval] else self)
  | AwaitTombstone, Bus Tombstone => Some (finish proxy otlp self)
  | AwaitTombstone, Bus event => Some (stay self (commands_of (fst (handle_event_bus_event event))))
  | AwaitTombstone, IdleTimeout => Some (finish proxy otlp self)
  | _, _ => None
  end.

Fixpoint run (proxy otlp : bool) (self : t) (inputs : list Input) : option t :=
  match inputs with
  | [] => Some self
  | i :: inputs => self ← step proxy otlp self i; run proxy otlp self inputs
  end.
End OnDemand.
End OnDemand.

(** * Properties of the loop on demand *)

Module OnDemandProperties.
Import OnDemand.
Section OnDemandProperties.
Context {SamplingPriority : Type}.
Abbreviation Action_ := (@Action SamplingPriority).
Abbreviation Loop := (@OnDemand.t SamplingPriority).
Implicit Types (self : Loop) (actions : list Action_).

Definition decision_of (a : Action_) : option FlushDecision :=
  match a with Decided d => Some d | _ => None end.
Definition command_of (a : Action_) : option (@Processor.ProcessorCommand SamplingPriority) :=
  match a with Command c => Some c | _ => None end.

(** The decision that the loop acts on. *)
Definition last_decision (actions : list Action_) : option FlushDecision := last (omap decision_of actions).

(** The end of the function was reported, and everything was flushed after that. *)
Definition flushed_at_end (actions : list Action_) : Prop :=
  exists before request_id metrics status error_type timestamp,
    actions = before ++ [Command (Processor.CPlatformRuntimeDone request_id metrics status error_type timestamp);
                         FlushBlocking; ResetInterval].

Definition next_ok (actions : list Action_) : Prop :=
  forall pre post, actions = pre ++ CallNext :: post -> last_decision pre = Some End -> flushed_at_end pre.

Lemma next_ok_app actions chunk :
  next_ok actions ->
  (forall pre post, chunk = pre ++ CallNext :: post -> last_decision (actions ++ pre) = Some End ->
    flushed_at_end (actions ++ pre)) ->
  next_ok (actions ++ chunk).
Proof.
  intros Hok Hc pre post Heq Hd. apply app_eq_inv in Heq as [(k & -> & Hk)|(k & -> & Hk)]; [|by eauto].
  destruct k as [|a k]; cbn in Hk.
  - rewrite app_nil_r in Hok. specialize (Hc [] post (eq_sym Hk)). rewrite !app_nil_r in Hc. by apply Hc.
  - injection Hk as <- ->. by apply (Hok pre k).
Qed.

Lemma next_ok_quiet actions chunk : next_ok actions -> CallNext ∉ chunk -> next_ok (actions ++ chunk).
Proof. intros Hok Hn. apply next_ok_app; [done|]. intros pre post -> _. set_solver. Qed.

(** Only a report of the end of the function that has metrics is given back as such. *)
Lemma runtime_done_command event command returned :
  handle_event_bus_event event = (command, returned) ->
  existsb is_runtime_done (option_list returned) = true ->
  exists request_id metrics status error_type timestamp,
    command = Some (@Processor.CPlatformRuntimeDone SamplingPriority request_id metrics status error_type timestamp).
Proof.
  destruct event as [event| |]; cbn; [|by intros [= <- <-]..]. destruct (record event) eqn:Hr; try by intros [= <- <-].
  - destruct metrics as [m|]; intros [= <- <-]; [by eauto 6|done].
  - intros [= <- <-]. cbn. unfold is_runtime_done. by rewrite Hr.
Qed.

(** What a step adds to the log, from one phase to the next. *)
Inductive chunk (proxy otlp : bool) : Phase -> Phase -> list Action_ -> Prop :=
| chunk_stay p actions :
    Forall (fun a => a = FlushBlocking \/ a = ResetInterval \/ is_Some (command_of a)) actions ->
    p = FlushEnd \/ p = NextInvocation -> chunk proxy otlp p p actions
| chunk_drain c : chunk proxy otlp AwaitTombstone AwaitTombstone (commands_of c)
| chunk_end : chunk proxy otlp Deciding FlushEnd [Decided End]
| chunk_top d pending :
    d <> End ->
    chunk proxy otlp Deciding NextInvocation (Decided d :: top_flush d pending ++ [CallNext])
| chunk_done request_id metrics status error_type timestamp :
    chunk proxy otlp FlushEnd AwaitNext
      [Command (Processor.CPlatformRuntimeDone request_id metrics status error_type timestamp);
       FlushBlocking; ResetInterval; CallNext]
| chunk_next p c : p = AwaitNext \/ p = NextInvocation -> chunk proxy otlp p Deciding (commands_of c)
| chunk_shutdown p c :
    p = AwaitNext \/ p = NextInvocation ->
    chunk proxy otlp p AwaitTombstone
      (commands_of c ++ [Cancel TelemetryListener; Cancel LogsAgent; AwaitHandles])
| chunk_finish :
    chunk proxy otlp AwaitTombstone Returned
      (cancel_background_services proxy otlp ++
       [FlushBlockingFinal; ResetInterval; ShutdownLogsAggregator; ShutdownTraceAggregator]).

Lemma commands_are_commands (c : option (@Processor.ProcessorCommand SamplingPriority)) :
  Forall (fun a => is_Some (command_of a)) (commands_of c).
Proof. destruct c; cbn; repeat constructor. by eexists. Qed.

Lemma commands_stay c :
  Forall (fun a : Action_ => a = FlushBlocking \/ a = ResetInterval \/ is_Some (command_of a)) (commands_of c).
Proof. eapply Forall_impl; [apply commands_are_commands|]. cbn. tauto. Qed.

Lemma on_next_chunk proxy otlp self response :
  phase self = AwaitNext \/ phase self = NextInvocation ->
  exists actions, log (on_next self response) = log self ++ actions /\
    chunk proxy otlp (phase self) (phase (on_next self response)) actions.
Proof.
  intros Hp. unfold on_next. destruct (handle_next_invocation response) as [c []], (first self);
    (eexists; split; [reflexivity|]); by constructor.
Qed.

Lemma step_chunk proxy otlp self i self' :
  step proxy otlp self i = Some self' ->
  exists actions, log self' = log self ++ actions /\ chunk proxy otlp (phase self) (phase self') actions.
Proof.
  unfold step. destruct (phase self) eqn:Hp, i as [now pending|event| |response|]; try done.
  - intros [= <-]. unfold decide_. destruct (FlushControl.evaluate_flush_decision _ _) as [d control].
    destruct d; (eexists; split; [reflexivity|]); by constructor.
  - destruct (handle_event_bus_event event) as [c returned] eqn:He. intros [= <-].
    destruct (existsb is_runtime_done (option_list returned)) eqn:Hd.
    + destruct (runtime_done_command _ _ _ He Hd) as (? & ? & ? & ? & ? & ->).
      eexists. split; [reflexivity|]. constructor.
    + eexists. split; [reflexivity|]. cbn. rewrite Hp. constructor; [apply commands_stay|tauto].
  - intros [= <-]. eexists. split; [reflexivity|]. cbn. rewrite Hp. constructor; [|tauto]. repeat constructor; tauto.
  - intros [= <-]. rewrite <- Hp. apply on_next_chunk. tauto.
  - intros [= <-]. eexists. split; [reflexivity|]. cbn. rewrite Hp. constructor; [apply commands_stay|tauto].
  - intros [= <-]. destruct (is_default _).
    + eexists. split; [reflexivity|]. cbn. rewrite Hp. constructor; [|tauto]. repeat constructor; tauto.
    + exists []. rewrite app_nil_r, Hp. split; [done|]. constructor; [constructor|tauto].
  - intros [= <-]. rewrite <- Hp. apply on_next_chunk. tauto.
  - destruct event; intros [= <-]; (eexists; split; [reflexivity|]); unfold stay; cbn [phase finish go];
      rewrite ?Hp; (apply chunk_drain || apply chunk_finish).
  - intros [= <-]. eexists. split; [reflexivity|]. apply chunk_finish.
Qed.

(** Rule induction over the runs of the loop. *)
Lemma run_chunks (P : Phase -> list Action_ -> Prop) proxy otlp :
  (forall p p' actions new, P p actions -> chunk proxy otlp p p' new -> P p' (actions ++ new)) ->
  forall inputs self self', P (phase self) (log self) -> run proxy otlp self inputs = Some self' ->
  P (phase self') (log self').
Proof.
  intros Hstep inputs. induction inputs as [|i inputs IH]; intros self self' HP; cbn; [by intros [= <-]|].
  destruct (step proxy otlp self i) as [s|] eqn:Hs; cbn; [|done].
  destruct (step_chunk _ _ _ _ _ Hs) as (new & Hl & Hc). apply IH. rewrite Hl. by eapply Hstep.
Qed.

Lemma one_next actions pre post :
  CallNext ∉ actions -> actions ++ [CallNext] = pre ++ CallNext :: post -> pre = actions.
Proof.
  revert pre. induction actions as [|a actions IH]; intros [|b pre] Hn Heq; cbn in Heq; simplify_eq; try done.
  - by destruct pre.
  - set_solver.
  - f_equal. apply IH; [set_solver|done].
Qed.

Lemma last_decision_top actions d pending pre post :
  Decided d :: top_flush d pending ++ [CallNext] = pre ++ CallNext :: post ->
  last_decision (actions ++ pre) = Some d.
Proof.
  intros Heq. apply (one_next (Decided d :: top_flush d pending)) in Heq as ->;
    [|destruct d, pending; cbn; set_solver].
  unfold last_decision. rewrite omap_app.
  replace (omap decision_of (Decided d :: top_flush d pending)) with [d] by by destruct d, pending.
  apply last_snoc.
Qed.

Lemma chunk_next_ok proxy otlp p p' actions new :
  next_ok actions -> chunk proxy otlp p p' new -> next_ok (actions ++ new).
Proof.
  intros Hok Hc. apply next_ok_app; [done|].
  assert (Hcmd : forall c, CallNext ∉ @commands_of SamplingPriority c) by (intros []; cbn; set_solver).
  destruct Hc as [p new Hf _| | |d pending Hd|request_id metrics status error_type timestamp| | |]; intros pre post Heq.
  - exfalso. assert (Hin : CallNext ∈ new) by (rewrite Heq; set_solver).
    apply (proj1 (Forall_forall _ _) Hf) in Hin as [|[|[]]]; done.
  - exfalso. apply (Hcmd c). rewrite Heq. set_solver.
  - destruct pre as [|? [|]]; discriminate Heq.
  - rewrite (last_decision_top _ _ _ _ _ Heq). congruence.
  - intros _. apply (one_next [_; _; _]) in Heq as ->; [|set_solver].
    by exists actions, request_id, metrics, status, error_type, timestamp.
  - exfalso. apply (Hcmd c). rewrite Heq. set_solver.
  - exfalso. assert (CallNext ∈ @commands_of SamplingPriority c ++ [Cancel TelemetryListener; Cancel LogsAgent; AwaitHandles])
      as [?|?]%elem_of_app by (rewrite Heq; set_solver); [by apply (Hcmd c)|set_solver].
  - exfalso. assert (Hin : CallNext ∈ @cancel_background_services SamplingPriority proxy otlp ++
      [FlushBlockingFinal; ResetInterval; ShutdownLogsAggregator; ShutdownTraceAggregator]) by (rewrite Heq; set_solver).
    destruct proxy, otlp; cbn in Hin; set_solver.
Qed.

(** C11: under the strategy that flushes at the end of an invocation, the extension asks for
    the next event, which lets the sandbox be frozen, only right after a blocking flush that
    follows the report of the end of the function. *)
Theorem end_flush_precedes_next proxy otlp control inputs self pre post :
  run proxy otlp (start control) inputs = Some self ->
  log self = pre ++ CallNext :: post -> last_decision pre = Some End -> flushed_at_end pre.
Proof.
  intros Hr. revert pre post.
  refine (run_chunks (fun _ actions => next_ok actions) proxy otlp _ inputs (start control) self _ Hr).
  - intros p p' actions new Hok Hc. by eapply chunk_next_ok.
  - intros pre post Heq. destruct pre as [|? [|]]; try discriminate Heq. done.
Qed.

(** ** Shutdown *)

(** What the loop does before it is told to stop. *)
Definition running (a : Action_) : bool :=
  match a with
  | Cancel _ | AwaitHandles | FlushBlockingFinal | ShutdownLogsAggregator | ShutdownTraceAggregator => false
  | _ => true
  end.
Definition is_command (a : Action_) : bool := match a with Command _ => true | _ => false end.

Definition stopping (pre drained : list Action_) : list Action_ :=
  pre ++ [Cancel TelemetryListener; Cancel LogsAgent; AwaitHandles] ++ drained.

Definition shutdown_shape (proxy otlp : bool) (p : Phase) (actions : list Action_) : Prop :=
  match p with
  | AwaitTombstone => exists pre drained,
      actions = stopping pre drained /\ Forall running pre /\ Forall is_command drained
  | Returned => exists pre drained,
      actions = stopping pre drained ++ cancel_background_services proxy otlp ++
        [FlushBlockingFinal; ResetInterval; ShutdownLogsAggregator; ShutdownTraceAggregator] /\
      Forall running pre /\ Forall is_command drained
  | _ => Forall running actions
  end.

Lemma commands_running c : Forall running (@commands_of SamplingPriority c).
Proof. destruct c; repeat constructor. Qed.

Lemma chunk_shutdown_shape proxy otlp p p' actions new :
  shutdown_shape proxy otlp p actions -> chunk proxy otlp p p' new -> shutdown_shape proxy otlp p' (actions ++ new).
Proof.
  intros Hs Hc. destruct Hc as [p new Hf [-> | ->]|c| |d pending _| |p c [-> | ->]|p c [-> | ->]|]; cbn in *;
    try (apply Forall_app; split; [done|]); try apply commands_running.
  - eapply Forall_impl; [exact Hf|]. intros a Ha. destruct a; try done; by destruct Ha as [|[|[]]].
  - eapply Forall_impl; [exact Hf|]. intros a Ha. destruct a; try done; by destruct Ha as [|[|[]]].
  - destruct Hs as (pre & drained & -> & Hpre & Hd). exists pre, (drained ++ commands_of c).
    unfold stopping. rewrite <- !app_assoc. split; [done|]. split; [done|]. apply Forall_app. split; [done|].
    destruct c; repeat constructor.
  - repeat constructor.
  - destruct d, pending; repeat constructor.
  - repeat constructor.
  - exists (actions ++ commands_of c), []. unfold stopping. rewrite app_nil_r, <- app_assoc.
    split; [done|]. split; [|constructor]. apply Forall_app. split; [done|apply commands_running].
  - exists (actions ++ commands_of c), []. unfold stopping. rewrite app_nil_r, <- app_assoc.
    split; [done|]. split; [|constructor]. apply Forall_app. split; [done|apply commands_running].
  - destruct Hs as (pre & drained & -> & Hpre & Hd). by exists pre, drained.
Qed.

(** The log of a loop that has returned. *)
Lemma finished_log proxy otlp control inputs self :
  run proxy otlp (start control) inputs = Some self -> phase self = Returned ->
  exists pre drained,
    log self = pre ++ [Cancel TelemetryListener; Cancel LogsAgent; AwaitHandles] ++ drained ++
      cancel_background_services proxy otlp ++
      [FlushBlockingFinal; ResetInterval; ShutdownLogsAggregator; ShutdownTraceAggregator] /\
    Forall running pre /\ Forall is_command drained.
Proof.
  intros Hr Hp.
  assert (Hs : shutdown_shape proxy otlp (phase self) (log self)).
  { refine (run_chunks _ proxy otlp _ inputs (start control) self _ Hr); [|by repeat constructor].
    intros. by eapply chunk_shutdown_shape. }
  rewrite Hp in Hs. destruct Hs as (pre & drained & -> & Hpre & Hd). exists pre, drained.
  unfold stopping. by rewrite <- !app_assoc.
Qed.

(** C12: the order of a shutdown. The extension stops the telemetry listener and the logs
    agent, waits for the flushes in flight, handles what is left on the bus, stops the other
    services and only then makes its final flush; until it is told to stop it makes none of
    these, and after the final flush it only stops the aggregators. *)
Theorem shutdown_flushes_last proxy otlp control inputs self :
  run proxy otlp (start control) inputs = Some self -> phase self = Returned ->
  exists pre drained,
    log self = pre ++ [Cancel TelemetryListener; Cancel LogsAgent; AwaitHandles] ++ drained ++
      cancel_background_services proxy otlp ++
      [FlushBlockingFinal; ResetInterval; ShutdownLogsAggregator; ShutdownTraceAggregator] /\
    Forall running pre /\ Forall is_command drained.
Proof. apply finished_log. Qed.

(** ** What the loop tells the invocation processor *)

Definition told (actions : list Action_) : list (@Processor.ProcessorCommand SamplingPriority) :=
  omap command_of actions.

Definition is_invoke (i : Input) : nat :=
  match i with Next (inl (NextInvoke _ _ _)) => 1 | _ => 0 end.

Definition invoked (cs : list (@Processor.ProcessorCommand SamplingPriority)) : nat :=
  sum_list_with (Properties.invocations_of false) cs.

Lemma told_app a b : told (a ++ b) = told a ++ told b.
Proof. apply omap_app. Qed.

Lemma told_commands c : told (commands_of c) = option_list c.
Proof. by destruct c. Qed.

(** An event of the bus is no invocation, and never stops the processor. *)
Lemma event_command event :
  let c := fst (@handle_event_bus_event SamplingPriority event) in
  invoked (option_list c) = 0%nat /\ Processor.Shutdown ∉ option_list c.
Proof.
  destruct event as [event| |]; cbn; [|set_solver..]. destruct (record event); cbn; try set_solver.
  - destruct metrics; cbn; set_solver.
  - destruct metrics; cbn; set_solver.
Qed.

Lemma next_command response :
  let c := fst (@handle_next_invocation SamplingPriority response) in
  invoked (option_list c) = is_invoke (Next response) /\ Processor.Shutdown ∉ option_list c.
Proof. destruct response as [[]|]; cbn; set_solver. Qed.

(** The commands that an input adds. *)
Lemma step_told proxy otlp self i self' :
  step proxy otlp self i = Some self' ->
  exists cs, told (log self') = told (log self) ++ cs /\ invoked cs = is_invoke i /\ Processor.Shutdown ∉ cs.
Proof.
  assert (Hev : forall event, exists cs, told (commands_of (fst (@handle_event_bus_event SamplingPriority event))) = cs /\
    invoked cs = is_invoke (Bus event) /\ Processor.Shutdown ∉ cs).
  { intros event. eexists. split; [apply told_commands|]. apply event_command. }
  assert (Hnext : forall response, exists cs, told (log (on_next self response)) = told (log self) ++ cs /\
    invoked cs = is_invoke (Next response) /\ Processor.Shutdown ∉ cs).
  { intros response. exists (option_list (fst (handle_next_invocation response))).
    split; [|apply next_command]. unfold on_next.
    destruct (handle_next_invocation response) as [c []], (first self); cbn;
      by rewrite ?told_app, told_commands, ?app_nil_r. }
  unfold step. destruct (phase self), i as [now pending|event| |response|]; try done;
    try (intros [= <-]; by apply Hnext).
  - intros [= <-]. exists []. unfold decide_. destruct (FlushControl.evaluate_flush_decision _ _) as [d control].
    destruct d, pending; cbn; rewrite told_app; cbn; set_solver.
  - destruct (Hev event) as (cs & Ht & Hi & Hs). destruct (handle_event_bus_event event) as [c returned].
    intros [= <-]. exists cs. destruct (existsb _ _); cbn in *; rewrite ?told_app, Ht; cbn; by rewrite ?app_nil_r.
  - intros [= <-]. exists []. cbn. rewrite told_app. set_solver.
  - intros [= <-]. destruct (Hev event) as (cs & Ht & Hi & Hs). exists cs. cbn. by rewrite told_app, Ht.
  - intros [= <-]. exists []. destruct (is_default _); cbn; rewrite ?told_app, ?app_nil_r; set_solver.
  - destruct (Hev event) as (cs & Ht & Hi & Hs). destruct event; intros Hq; apply (inj Some) in Hq as <-.
    + exists cs. unfold stay. cbn [log]. by rewrite told_app, Ht.
    + exists cs. unfold stay. cbn [log]. by rewrite told_app, Ht.
    + exists []. destruct proxy, otlp; cbn; rewrite told_app; cbn; set_solver.
  - intros [= <-]. exists []. destruct proxy, otlp; cbn; rewrite told_app; cbn; set_solver.
Qed.

Lemma run_told proxy otlp inputs self self' :
  run proxy otlp self inputs = Some self' -> Processor.Shutdown ∉ told (log self) ->
  invoked (told (log self')) = (invoked (told (log self)) + sum_list_with is_invoke inputs)%nat /\
  Processor.Shutdown ∉ told (log self').
Proof.
  revert self. induction inputs as [|i inputs IH]; intros self; cbn; [intros [= <-]; by rewrite Nat.add_0_r|].
  destruct (step proxy otlp self i) as [s|] eqn:Hs; cbn; [|done]. intros Hr Hn.
  destruct (step_told _ _ _ _ _ Hs) as (cs & Ht & Hi & Hc).
  destruct (IH s Hr) as [Hcount Hn']; [rewrite Ht; set_solver|]. split; [|done].
  rewrite Hcount, Ht. unfold invoked in *. rewrite sum_list_with_app. lia.
Qed.
Lemma received_all (tagged : list (Readings * @Processor.ProcessorCommand SamplingPriority)) :
  Processor.Shutdown ∉ tagged.*2 -> Properties.received tagged = tagged.*2.
Proof.
  induction tagged as [|[r c] tagged IH]; intros Hn; [done|]. cbn in *. rewrite IH by set_solver.
  destruct c; try done. exfalso. set_solver.
Qed.

End OnDemandProperties.

(** ** With the invocation processor *)

Section Composition.
Context `{Externals} `{Propagation SamplingPriority} {SortedTags : Type}.
Context (parse_tags : string -> option SortedTags) (ARCH : string) (size_of_Span : Z).

(** C20: the invocations that the platform announces are the ones that are counted. When the
    processor of an on-demand sandbox takes the commands of the loop, the invocations metrics
    it emits, with the one it may hold back, are as many as the invoke events of [/next],
    whatever other events arrive and in whatever order. *)
Theorem announced_invocations_counted proxy otlp control inputs
    (self : @OnDemand.t SamplingPriority) resource cfg aws tagged replies p :
  run proxy otlp (start control) inputs = Some self -> is_managed_instance_mode aws = false ->
  tagged.*2 = told (log self) ->
  Processor.run parse_tags ARCH size_of_Span (Processor.new resource cfg aws (Lambda.new true)) tagged =
    Done (replies, p) ->
  (Properties.counted INVOCATIONS_METRIC p + Properties.held p = sum_list_with is_invoke inputs)%nat.
Proof.
  intros Hr Hm Ht Hp. destruct (run_told _ _ _ _ _ Hr) as [Hc Hn]; [set_solver|].
  destruct (Properties.run_accounts _ _ _ _ _ _ _ Hp) as [[Ha _ _ _ _] _].
  rewrite received_all, Ht in Ha by by rewrite Ht. rewrite (Ha eq_refl), Properties.counted_new.
  unfold Processor.managed. cbn [Processor.aws_config Processor.new]. rewrite Hm. exact Hc.
Qed.
End Composition.

(** ** Where it waits too long *)

Section Stuck.
Context {SamplingPriority : Type}.
Implicit Types self : @OnDemand.t SamplingPriority.

(** An event that ends the wait for the end of the function. *)
Definition ends_function (i : Input) : bool :=
  match i with
  | Bus (Telemetry {| record := PlatformRuntimeDone _ _ _ (Some _) |}) => true
  | _ => false
  end.

(** The wait for the end of the function ends only with a report of it that has metrics:
    one without, which the platform may send, is not taken for it, and neither is the report
    of the invocation; the loop then never asks for the next event, and never learns of a
    shutdown. *)
Theorem end_wait_needs_metrics proxy otlp inputs self self' :
  phase self = FlushEnd -> Forall (fun i => ends_function i = false) inputs ->
  run proxy otlp self inputs = Some self' ->
  phase self' = FlushEnd /\ exists actions, log self' = log self ++ actions /\ CallNext ∉ actions.
Proof.
  revert self. induction inputs as [|i inputs IH]; intros self Hp Hf; cbn.
  { intros [= <-]. split; [done|]. exists []. rewrite app_nil_r. set_solver. }
  apply Forall_cons in Hf as [Hi Hf]. destruct (step proxy otlp self i) as [s|] eqn:Hs; cbn; [|done].
  intros Hr. assert (Hstay : exists actions, s = stay self actions /\ CallNext ∉ actions).
  { unfold step in Hs. rewrite Hp in Hs. destruct i as [| event | | |]; try done.
    - destruct (handle_event_bus_event event) as [c returned] eqn:He.
      destruct (existsb is_runtime_done (option_list returned)) eqn:Hd.
      + exfalso. destruct event as [[t r]| |]; try (injection He as <- <-; done).
        destruct r; try (injection He as <- <-; done). destruct metrics; [done|]. by injection He as <- <-.
      + injection Hs as <-. eexists. split; [done|]. destruct c; cbn; set_solver.
    - injection Hs as <-. eexists. split; [done|]. set_solver. }
  destruct Hstay as (actions & -> & Hn). destruct (IH (stay self actions) Hp Hf Hr) as (Hp' & more & Hl & Hm).
  split; [done|]. exists (actions ++ more). cbn in Hl. rewrite Hl, app_assoc. set_solver.
Qed.

(** The answer to the first call of [/next] is not looked at: a shutdown of a sandbox
    that was never invoked does not stop the loop, which with the default strategies waits for
    the end of a function that does not run. *)
Theorem first_shutdown_ignored proxy otlp control reason deadline now pending :
  fst (FlushControl.evaluate_flush_decision control now) = End ->
  exists self : @OnDemand.t SamplingPriority,
    run proxy otlp (start control) [Next (inl (NextShutdown reason deadline)); Decide now pending] = Some self /\
    phase self = FlushEnd /\ log self = [CallNext; Command Processor.OnShutdownEvent; Decided End].
Proof.
  intros Hd. eexists. split; [reflexivity|]. unfold decide_. cbn.
  destruct (FlushControl.evaluate_flush_decision control now) as [d c]. cbn in Hd. by subst d.
Qed.
End Stuck.
End OnDemandProperties.

(** * Managed instances *)

Module Managed.
Section Managed.
Context {SamplingPriority : Type}.
Abbreviation Action_ := (@Action SamplingPriority).

(** The main task handles events, drains the bus or waits for the flusher; the flusher ticks
    until the token of the telemetry listener is cancelled; the third task waits for
    [/next]. *)
Inductive Phase := Running | Draining | AwaitFlusher | Returned.

Record t := {
  phase : Phase;
  (** the token that the third task cancels, and whether that task ended *)
  shutdown_cancelled : bool;
  waiting : bool;
  flusher_done : bool;
  log : list Action_;
}.

Definition start : t :=
  {| phase := Running; shutdown_cancelled := false; waiting := true; flusher_done := false; log := [] |}.

Definition add (self : t) (p : Phase) (actions : list Action_) : t :=
  {| phase := p; shutdown_cancelled := shutdown_cancelled self; waiting := waiting self;
     flusher_done := flusher_done self; log := log self ++ actions |}.

Inductive Input :=
| Next (response : NextEventResponse + ExtensionError)
| Bus (event : Event)
| ShutdownSeen
| IdleTimeout
| Tick (pending : bool)
| FlusherCancelled
| FlusherJoined.

(** The task that waits for the shutdown event. *)
Definition on_next (self : t) (response : NextEventResponse + ExtensionError) : t :=
  match response with
  | inr (HttpError true) => self
  | _ =>
      {| phase := phase self; shutdown_cancelled := true; waiting := false;
         flusher_done := flusher_done self;
         log := log self ++ match response with
                            | inl (NextShutdown _ _) => [Command Processor.OnShutdownEvent]
                            | _ => []
                            end |}
  end.

(** The flusher, when its token is cancelled. *)
Definition final_flush (self : t) : t :=
  {| phase := phase self; shutdown_cancelled := shutdown_cancelled self; waiting := waiting self;
     flusher_done := true; log := log self ++ [AwaitHandles; FlushBlockingFinal] |}.

Definition telemetry_cancelled (self : t) : bool :=
  match phase self with AwaitFlusher | Returned => true | _ => false end.

Definition step (proxy otlp : bool) (self : t) (i : Input) : option t :=
  match i with
  | Next response => if waiting self then Some (on_next self response) else None
  | Tick pending =>
      if flusher_done self then None
      else Some (add self (phase self) (if pending : bool then [] else [SpawnNonBlocking]))
  | FlusherCancelled =>
      if negb (flusher_done self) && telemetry_cancelled self then Some (final_flush self) else None
  | FlusherJoined =>
      match phase self with
      | AwaitFlusher => if flusher_done self then Some (add self Returned []) else None
      | _ => None
      end
  | ShutdownSeen =>
      match phase self with
      | Running => if shutdown_cancelled self then Some (add self Draining []) else None
      | _ => None
      end
  | Bus event =>
      match phase self, event with
      | Draining, Tombstone => Some (add self AwaitFlusher (cancel_background_services proxy otlp))
      | (Running | Draining) as p, _ =>
          Some (add self p (commands_of (fst (handle_event_bus_event event))))
      | _, _ => None
      end
  | IdleTimeout =>
      match phase self with
      | Draining => Some (add self AwaitFlusher (cancel_background_services proxy otlp))
      | _ => None
      end
  end.

Fixpoint run (proxy otlp : bool) (self : t) (inputs : list Input) : option t :=
  match inputs with
  | [] => Some self
  | i :: inputs => self ← step proxy otlp self i; run proxy otlp self inputs
  end.

(** ** Properties *)

(** What may precede the end of the services. *)
Definition before_cancel (a : Action_) : bool :=
  match a with Cancel _ | FlushBlockingFinal | AwaitHandles => false | _ => true end.

Definition final (self : t) : list Action_ :=
  if flusher_done self then [AwaitHandles; FlushBlockingFinal] else [].

Definition cancelled_shape (proxy otlp : bool) (self : t) : Prop :=
  shutdown_cancelled self = true /\ exists pre ticks,
    log self = pre ++ cancel_background_services proxy otlp ++ ticks ++ final self /\
    Forall before_cancel pre /\ Forall (fun a => a = SpawnNonBlocking) ticks.

Definition shape (proxy otlp : bool) (self : t) : Prop :=
  waiting self = negb (shutdown_cancelled self) /\
  match phase self with
  | Running => flusher_done self = false /\ Forall before_cancel (log self)
  | Draining => flusher_done self = false /\ Forall before_cancel (log self) /\ shutdown_cancelled self = true
  | AwaitFlusher => cancelled_shape proxy otlp self
  | Returned => cancelled_shape proxy otlp self /\ flusher_done self = true
  end.

Lemma commands_before_cancel c : Forall before_cancel (@commands_of SamplingPriority c).
Proof. destruct c; repeat constructor. Qed.

Lemma before_cancel_app (self : t) new :
  Forall before_cancel (log self) -> Forall before_cancel new -> Forall before_cancel (log self ++ new).
Proof. intros. by apply Forall_app. Qed.

Lemma tick_shape proxy otlp self pending :
  flusher_done self = false -> shape proxy otlp self ->
  shape proxy otlp (add self (phase self) (if pending : bool then [] else [SpawnNonBlocking])).
Proof.
  intros Hf [Hw Hs]. split; [done|].
  assert (Ht : forall ticks, Forall (fun a : Action_ => a = SpawnNonBlocking) ticks ->
    Forall (fun a => a = SpawnNonBlocking) (ticks ++ if pending then [] else [SpawnNonBlocking])).
  { intros ticks Hticks. apply Forall_app. split; [done|]. by destruct pending; repeat constructor. }
  assert (Hc : cancelled_shape proxy otlp self ->
    cancelled_shape proxy otlp (add self (phase self) (if pending then [] else [SpawnNonBlocking]))).
  { intros (Hc & pre & ticks & Hl & Hp & Hticks). split; [done|]. exists pre, (ticks ++ if pending then [] else [SpawnNonBlocking]).
    split; [|by auto]. unfold final in *. cbn [log add flusher_done]. rewrite Hl, Hf, !app_nil_r, <- !app_assoc. done. }
  assert (Hn : Forall before_cancel (if pending then [] else [SpawnNonBlocking])) by (destruct pending; repeat constructor).
  cbn [phase add]. destruct (phase self); cbn [log add flusher_done shutdown_cancelled];
    intuition (auto using before_cancel_app).
Qed.

(** The third task is over once the token is cancelled. *)
Lemma waiting_running proxy otlp self :
  waiting self = true -> shape proxy otlp self ->
  phase self = Running /\ flusher_done self = false /\ Forall before_cancel (log self).
Proof.
  intros Hwait [Hw Hs]. rewrite Hwait in Hw. symmetry in Hw. apply negb_true_iff in Hw.
  destruct (phase self); [done|..]; exfalso.
  - destruct Hs as (_ & _ & Hc). congruence.
  - destruct Hs as [Hc _]. congruence.
  - destruct Hs as [[Hc _] _]. congruence.
Qed.

Lemma next_shape proxy otlp self response :
  waiting self = true -> shape proxy otlp self -> shape proxy otlp (on_next self response).
Proof.
  intros Hwait Hs. destruct (waiting_running _ _ _ Hwait Hs) as (Hp & Hf & Hl).
  assert (Hn : forall new, Forall before_cancel new ->
    shape proxy otlp {| phase := phase self; shutdown_cancelled := true; waiting := false;
                        flusher_done := flusher_done self; log := log self ++ new |}).
  { intros new Hnew. split; [done|]. cbn. rewrite Hp. split; [done|]. by apply before_cancel_app. }
  unfold on_next. destruct response as [[]|[[]| | | | | |]]; try done; apply Hn; repeat constructor.
Qed.

Lemma cancel_shape proxy otlp self :
  shutdown_cancelled self = true -> waiting self = false -> flusher_done self = false ->
  Forall before_cancel (log self) ->
  shape proxy otlp (add self AwaitFlusher (cancel_background_services proxy otlp)).
Proof.
  intros Hc Hw Hf Hl. split; [cbn; by rewrite Hc|]. split; [done|]. exists (log self), []. unfold final. cbn [flusher_done add].
  rewrite Hf. cbn [log add app]. rewrite app_nil_r. repeat split; (done || constructor).
Qed.

Lemma final_shape proxy otlp self :
  flusher_done self = false -> telemetry_cancelled self = true -> shape proxy otlp self ->
  shape proxy otlp (final_flush self).
Proof.
  intros Hf Ht [Hw Hs]. split; [done|].
  assert (Hc : cancelled_shape proxy otlp self -> cancelled_shape proxy otlp (final_flush self)).
  { intros (Hc & pre & ticks & Hl & Hp & Hticks). split; [done|]. exists pre, ticks. unfold final in *.
    cbn [log final_flush flusher_done]. rewrite Hl, Hf, app_nil_r, <- !app_assoc. done. }
  unfold telemetry_cancelled in Ht. cbn [phase final_flush]. destruct (phase self); [done|done| |].
  - by apply Hc.
  - split; [|done]. by apply Hc, Hs.
Qed.

Lemma step_shape proxy otlp self i self' :
  shape proxy otlp self -> step proxy otlp self i = Some self' -> shape proxy otlp self'.
Proof.
  intros Hs. pose proof Hs as [Hw Hph]. destruct i as [response|event| | |pending| |]; cbn.
  - destruct (waiting self) eqn:Hwait; [|done]. intros [= <-]. by apply next_shape.
  - pose proof (commands_before_cancel (fst (@handle_event_bus_event SamplingPriority event))) as Hcmd.
    destruct (phase self) eqn:Hp; [| |done|done].
    + intros Hq. assert (self' = add self Running (commands_of (fst (handle_event_bus_event event)))) as ->
        by (by destruct event; injection Hq as <-).
      split; [done|]. cbn. split; [by apply Hph|]. by apply before_cancel_app; [apply Hph|].
    + destruct Hph as (Hf & Hl & Hc). rewrite Hc in Hw. destruct event as [e| |]; intros Hq;
        apply (inj Some) in Hq as <-; [| |by apply cancel_shape];
        (split; [cbn; by rewrite Hc|]); cbn [phase add log flusher_done shutdown_cancelled];
        (split; [done|]); (split; [by apply before_cancel_app|done]).
  - destruct (phase self) eqn:Hp; [|done..]. destruct (shutdown_cancelled self) eqn:Hc; [|done].
    intros [= <-]. split; [cbn; by rewrite Hc|]. cbn. rewrite app_nil_r. by destruct Hph.
  - destruct (phase self) eqn:Hp; try done. destruct Hph as (Hf & Hl & Hc). rewrite Hc in Hw.
    intros [= <-]. by apply cancel_shape.
  - destruct (flusher_done self) eqn:Hf; [done|]. intros [= <-]. by apply tick_shape.
  - destruct (flusher_done self) eqn:Hf; [done|]. destruct (telemetry_cancelled self) eqn:Ht; [|done].
    intros [= <-]. by apply final_shape.
  - destruct (phase self) eqn:Hp; try done. destruct (flusher_done self) eqn:Hf; [|done]. intros [= <-].
    split; [done|]. cbn [phase add]. split; [|done]. destruct Hph as (Hc & pre & ticks & Hl & Hrest).
    split; [done|]. exists pre, ticks. cbn [log add]. by rewrite app_nil_r.
Qed.

(** The shutdown of a managed instance. The main task returns only after the shutdown
    was signalled, the bus drained and the services stopped, and after the periodic flusher
    has waited for the flushes in flight and made its final flush, which comes after all of
    that; whatever the order in which the three tasks run. *)
Theorem managed_shutdown_flushes_last proxy otlp inputs self :
  run proxy otlp start inputs = Some self -> phase self = Returned ->
  exists pre ticks,
    log self = pre ++ cancel_background_services proxy otlp ++ ticks ++ [AwaitHandles; FlushBlockingFinal] /\
    Forall before_cancel pre /\ Forall (fun a => a = SpawnNonBlocking) ticks /\ shutdown_cancelled self = true.
Proof.
  assert (H0 : shape proxy otlp start) by (repeat split; constructor). revert H0. generalize start as s.
  induction inputs as [|i inputs IH]; intros s Hs; cbn.
  - intros [= <-] Hp. destruct Hs as [_ Hs]. rewrite Hp in Hs. destruct Hs as [(Hc & pre & ticks & Hl & Hpre & Ht) Hf].
    exists pre, ticks. unfold final in Hl. by rewrite Hf in Hl.
  - destruct (step proxy otlp s i) as [s'|] eqn:He; cbn; [|done]. by apply IH, (step_shape _ _ _ _ _ Hs He).
Qed.
End Managed.
End Managed.

(** * Concrete runs *)

Module LoopSample.

Definition control : FlushControl.t := FlushControl.new Default 30 1700000000.

Definition done_event (metrics : option RuntimeDoneMetrics) : Event :=
  Telemetry {| time := 1700000001000000000; record := PlatformRuntimeDone "a" Success None metrics |}.

Definition metrics : RuntimeDoneMetrics := {| rd_duration_ms := f64_one; produced_bytes := None |}.

(** An invocation, then a shutdown. *)
Definition inputs : list OnDemand.Input :=
  [OnDemand.Next (inl (NextInvoke 0 "a" "arn")); OnDemand.Decide 1700000000 false;
   OnDemand.Bus (done_event (Some metrics)); OnDemand.Next (inl (NextShutdown "SPINDOWN" 0));
   OnDemand.Bus Tombstone].

Definition loop (inputs : list OnDemand.Input) : option (@OnDemand.t Z) :=
  OnDemand.run false false (OnDemand.start control) inputs.
End LoopSample.

Section LoopWitnesses.
Import LoopSample.
#[local] Existing Instances Sample.externals Sample.propagation.

Lemma end_flush_precedes_next_witness :
  exists self pre post, loop inputs = Some self /\ OnDemand.log self = pre ++ CallNext :: post /\
    length pre = 6%nat /\ OnDemandProperties.flushed_at_end pre.
Proof.
  destruct (loop inputs) as [self|] eqn:Hr; [|vm_compute in Hr; discriminate].
  exists self, (take 6 (OnDemand.log self)), (drop 7 (OnDemand.log self)).
  assert (Hl : OnDemand.log self = take 6 (OnDemand.log self) ++ CallNext :: drop 7 (OnDemand.log self))
    by (vm_compute in Hr; injection Hr as <-; reflexivity).
  split; [reflexivity|]. split; [exact Hl|]. split; [vm_compute in Hr; injection Hr as <-; reflexivity|].
  apply (OnDemandProperties.end_flush_precedes_next false false control inputs self _ _ Hr Hl).
  vm_compute in Hr. injection Hr as <-. reflexivity.
Defined.

Lemma shutdown_flushes_last_witness :
  exists self pre drained, loop inputs = Some self /\
    OnDemand.log self = pre ++ [Cancel TelemetryListener; Cancel LogsAgent; AwaitHandles] ++ drained ++
      cancel_background_services false false ++
      [FlushBlockingFinal; ResetInterval; ShutdownLogsAggregator; ShutdownTraceAggregator].
Proof.
  destruct (loop inputs) as [self|] eqn:Hr; [|vm_compute in Hr; discriminate].
  destruct (OnDemandProperties.shutdown_flushes_last false false control inputs self Hr) as (pre & drained & Hl & _).
  { vm_compute in Hr. injection Hr as <-. reflexivity. }
  exists self, pre, drained. split; [reflexivity|exact Hl].
Defined.

Lemma announced_invocations_counted_witness :
  exists self replies p, loop inputs = Some self /\
    Processor.run SampleRun.parse_tags "amd64" 200 SampleRun.start
      (pair SampleRun.readings <$> OnDemandProperties.told (OnDemand.log self)) = Done (replies, p) /\
    (Properties.counted INVOCATIONS_METRIC p + Properties.held p = 1)%nat.
Proof.
  destruct (loop inputs) as [self|] eqn:Hr; [|vm_compute in Hr; discriminate].
  destruct (Processor.run SampleRun.parse_tags "amd64" 200 SampleRun.start
      (pair SampleRun.readings <$> OnDemandProperties.told (OnDemand.log self))) as [[replies p]|] eqn:Hp.
  - exists self, replies, p. split; [reflexivity|]. split; [exact Hp|].
    apply (OnDemandProperties.announced_invocations_counted SampleRun.parse_tags "amd64" 200 false false control
      inputs self None Sample.config SampleRun.aws
      (pair SampleRun.readings <$> OnDemandProperties.told (OnDemand.log self)) replies p Hr eq_refl); [|exact Hp].
    rewrite <- list_fmap_compose. apply list_fmap_id.
  - exfalso. vm_compute in Hr. injection Hr as <-. vm_compute in Hp. discriminate.
Defined.

Lemma end_wait_needs_metrics_witness :
  exists self, loop [OnDemand.Next (inl (NextInvoke 0 "a" "arn")); OnDemand.Decide 1700000000 false] = Some self /\
    forall self', OnDemand.run false false self [OnDemand.Bus (done_event None); OnDemand.Tick] = Some self' ->
      OnDemand.phase self' = OnDemand.FlushEnd.
Proof.
  eexists. split; [reflexivity|]. intros self' Hr.
  refine (proj1 (OnDemandProperties.end_wait_needs_metrics false false
    [OnDemand.Bus (done_event None); OnDemand.Tick] _ self' _ _ Hr)); [reflexivity|by repeat constructor].
Defined.

Lemma first_shutdown_ignored_witness :
  exists self : @OnDemand.t Z,
    loop [OnDemand.Next (inl (NextShutdown "SPINDOWN" 0)); OnDemand.Decide 1700000000 false] = Some self /\
    OnDemand.phase self = OnDemand.FlushEnd.
Proof.
  destruct (@OnDemandProperties.first_shutdown_ignored Z false false control "SPINDOWN" 0 1700000000 false
    ltac:(vm_compute; reflexivity)) as (self & Hr & Hp & _).
  exists self. split; [exact Hr|exact Hp].
Defined.

Lemma managed_shutdown_flushes_last_witness :
  exists (self : @Managed.t Z) pre ticks,
    Managed.run true false Managed.start
      [Managed.Tick false; Managed.Next (inl (NextShutdown "SPINDOWN" 0)); Managed.ShutdownSeen;
       Managed.IdleTimeout; Managed.Tick true; Managed.FlusherCancelled; Managed.FlusherJoined] = Some self /\
    Managed.log self = pre ++ cancel_background_services true false ++ ticks ++ [AwaitHandles; FlushBlockingFinal].
Proof.
  destruct (@Managed.run Z true false Managed.start
      [Managed.Tick false; Managed.Next (inl (NextShutdown "SPINDOWN" 0)); Managed.ShutdownSeen;
       Managed.IdleTimeout; Managed.Tick true; Managed.FlusherCancelled; Managed.FlusherJoined]) as [self|] eqn:Hr;
    [|vm_compute in Hr; discriminate].
  destruct (Managed.managed_shutdown_flushes_last true false _ self Hr) as (pre & ticks & Hl & _).
  { vm_compute in Hr. injection Hr as <-. reflexivity. }
  exists self, pre, ticks. split; [reflexivity|exact Hl].
Defined.
End LoopWitnesses.
