(* ===== verification/RuntimeProxy.v ===== *)
(** What stands between the runtime and the extension: the lifecycle listener
    ([lifecycle/listener.rs]), the proxy of the Runtime API ([proxy/mod.rs],
    [proxy/interceptor.rs], [proxy/tee_body.rs]) and the instrumentation that it drives
    ([lwa/mod.rs]).

    The tasks that a handler spawns are the effects it returns: commands of the invocation
    processor and calls of the App & API Protection processor. The Runtime API is the answer
    to the request that is proxied. The crates that parse URIs, header names and JSON are
    [ProxyOps]. *)
From S2P Require Import Prelude F64 Text DataStreams ContextBuffer Triggers TriggerEvents.
From S2P Require Import Configuration SpanInferrer InvocationProcessor InvocationProperties.
From S2P Require Import Tags StatsConcentrator TraceProcessor AppSec TraceAgent.
From stdpp Require Import pretty.
#[local] Open Scope Z_scope.

(** * The body that is copied *)

Module TeeBody.

(** What was read so far, and what was sent to the receiver. *)
Record t := { buffer : bytes; completed : option bytes }.

Definition new : t := {| buffer := []; completed := None |}.

(** What the body that is wrapped gives: data, and whether it is the last; a frame without
    data; the end; an error. *)
Inductive Frame := Data (b : bytes) (is_end_stream : bool) | Trailers (is_end_stream : bool) | EndOfBody | Failed.

(** The receiver gets the buffer once. *)
Definition send_completion (self : t) : t :=
  match completed self with
  | None => {| buffer := buffer self; completed := Some (buffer self) |}
  | Some _ => self
  end.

Definition poll_frame (self : t) (f : Frame) : t :=
  match f with
  | Data b is_end_stream =>
      let self := {| buffer := buffer self ++ b; completed := completed self |} in
      if is_end_stream then send_completion self else self
  | Trailers is_end_stream => if is_end_stream then send_completion self else self
  | EndOfBody | Failed => send_completion self
  end.

Definition payload (f : Frame) : bytes := match f with Data b _ => b | _ => [] end.
Definition ends (f : Frame) : bool :=
  match f with Data _ e | Trailers e => e | EndOfBody | Failed => true end.

(** The frames of a body up to its end: what the receiver gets is what the reader of the body
    got, and nothing is received before the end. *)
Lemma tee_receives_body frames last_frame more :
  Forall (fun f => ends f = false) frames -> ends last_frame = true ->
  completed (foldl poll_frame new frames) = None /\
  completed (foldl poll_frame new (frames ++ last_frame :: more)) =
    Some (mjoin (payload <$> (frames ++ [last_frame]))).
Proof.
  intros Hf Hl.
  assert (Hpre : forall self, completed self = None -> foldl poll_frame self frames =
    {| buffer := buffer self ++ mjoin (payload <$> frames); completed := None |}).
  { induction Hf as [|f frames Hf _ IH]; intros self Hc; cbn.
    - destruct self; cbn in *. by rewrite Hc, app_nil_r.
    - rewrite IH; destruct f as [b []|[]| |]; cbn in *; try done; by rewrite ?app_assoc. }
  assert (Hpost : forall self b, completed self = Some b -> completed (foldl poll_frame self more) = Some b).
  { induction more as [|f more IH]; intros self b Hc; cbn; [done|]. apply IH.
    destruct f as [? []|[]| |]; cbn; unfold send_completion; cbn; by rewrite ?Hc. }
  rewrite foldl_app, Hpre by done. split; [done|]. cbn [foldl]. apply Hpost.
  rewrite fmap_app, join_app. cbn. destruct last_frame as [b []|[]| |]; cbn in *; try done; by rewrite ?app_nil_r.
Qed.
End TeeBody.

(** * Headers *)

(** [headers_to_map] of [http.rs]: a value that is not text is empty. *)
Definition headers_to_map (headers : gmap string string) : gmap string string :=
  (fun v => default EmptyString (to_str v)) <$> headers.

Definition extract_request_id_from_headers (headers : gmap string string) : option string :=
  headers !! "lambda-runtime-aws-request-id"%string.

Definition HOP_BY_HOP : list string :=
  ["connection"; "upgrade"; "proxy-connection"; "proxy-authenticate"; "proxy-authorization"; "te"]%string.

Definition clean_proxy_headers (headers : gmap string string) : gmap string string :=
  foldr delete headers HOP_BY_HOP.

Class ProxyOps (SamplingPriority : Type) := {
  (** [serde_json] *)
  slice_to_value : bytes -> option Value;
  value_to_vec : Value -> option bytes;
  (** the host and the port of a URI; whether a URI is valid; a socket address *)
  uri_host_port : string -> option (option string * option Z);
  uri_valid : string -> bool;
  socket_from_str : string -> option (string * Z);
  (** [HeaderName::from_bytes], [HeaderValue::from_str] *)
  header_name : string -> option string;
  header_value : string -> option string;
  (** the text of a sampling priority *)
  priority_to_string : SamplingPriority -> string;
}.

(** * Effects *)

Section Proxy.
Context `{Externals} `{Propagation SamplingPriority} `{ProxyOps SamplingPriority}.
Abbreviation Command_ := (@Processor.ProcessorCommand SamplingPriority).

Inductive Effect :=
| Command (c : Command_)
| AppSecNext (request_id : string) (trigger : IdentifiedTrigger)
| AppSecResult (request_id : string) (body : bytes).

(** * The lifecycle listener *)

Definition body_value (body : bytes) : Value := default (VObject []) (slice_to_value body).

Definition universal_instrumentation_start (headers : gmap string string) (payload_value : Value) : Effect :=
  Command (Processor.UniversalInstrumentationStart headers payload_value
             (extract_request_id_from_headers headers)).

Definition universal_instrumentation_end (headers : gmap string string) (body : bytes) : Effect :=
  let headers := headers_to_map headers in
  Command (Processor.UniversalInstrumentationEnd headers (body_value body)
             (extract_request_id_from_headers headers)).

(** The trace id of the tracer is the lower half. *)
Definition inject_span_context_to_headers (headers : gmap string string)
    (span_context : SpanContext SamplingPriority) : gmap string string :=
  let headers := <[DATADOG_TRACE_ID_KEY := pretty (wrap_u64 (sc_trace_id span_context))]> headers in
  let headers := match sc_priority span_context with
                 | Some priority => <[DATADOG_SAMPLING_PRIORITY_KEY := priority_to_string priority]> headers
                 | None => headers
                 end in
  match sc_tags span_context !! DATADOG_HIGHER_ORDER_TRACE_ID_BITS_KEY with
  | Some bits =>
      <[DATADOG_TAGS_KEY := (DATADOG_HIGHER_ORDER_TRACE_ID_BITS_KEY +:+ "=" +:+ bits)%string]> headers
  | None => headers
  end.

(** A body that cannot be read is empty. *)
Definition body_or_empty (request : Request) : bytes := default [] (req_body request).

(** The headers of the response, and the task. *)
Definition handle_start_invocation (config : Config) (request : Request) :
    gmap string string * list Effect :=
  let headers := headers_to_map (req_headers request) in
  let payload_value := body_value (body_or_empty request) in
  (match Processor.extract_context config headers payload_value with
   | Some sp => inject_span_context_to_headers ∅ sp
   | None => ∅
   end,
   [universal_instrumentation_start headers payload_value]).

Definition handle_end_invocation (request : Request) : list Effect :=
  [universal_instrumentation_end (req_headers request) (body_or_empty request)].

(** * Lambda Web Adapter *)

Definition get_lwa_proxy_socket_address (uri_str : string) : option (string * Z) :=
  '(host, port) ← uri_host_port uri_str;
  host ← host; port ← port;
  if bool_decide (host = "localhost"%string) then None
  else socket_from_str (host +:+ ":" +:+ pretty port)%string.

(** [generated] is the span id that is made up for the invocation. *)
Definition lwa_invocation_next (config : Config) (generated : Z) (headers : gmap string string)
    (body_bytes : bytes) : list Effect :=
  let inner_payload := body_value body_bytes in
  let body := default [] (value_to_vec inner_payload) in
  let headers := headers_to_map headers in
  let payload_value := body_value body in
  let extracted_span_context := Processor.extract_context config headers payload_value in
  let parent_id := match extracted_span_context with Some sp => sc_span_id sp | None => 0 end in
  universal_instrumentation_start headers payload_value ::
  match headers !! "lambda-runtime-aws-request-id"%string with
  | Some request_id => [Command (Processor.AddReparenting request_id generated parent_id)]
  | None => []
  end.

Definition inner_header (inner_payload : Value) : gmap string string :=
  match value_get inner_payload "headers" with
  | Some body => default ∅ (de_map de_string body)
  | None => ∅
  end.

(** Headers that are not valid are kept under another name or without their value. *)
Definition put_header (headers : gmap string string) (kv : string * string) : gmap string string :=
  <[default "x-unknown-header"%string (header_name kv.1) := default EmptyString (header_value kv.2)]> headers.

Definition lwa_invocation_response (waited_intercepted_body : bytes) : list Effect :=
  let inner_payload := body_value waited_intercepted_body in
  let body_bytes := match value_get inner_payload "body" with
                    | Some body => default [] (value_to_vec body)
                    | None => []
                    end in
  let headers := foldl put_header ∅ (hash_iter (inner_header inner_payload)) in
  [universal_instrumentation_end headers body_bytes].

(** * The proxy of the Runtime API *)

(** The settings of [AwsConfig] that the proxy reads. *)
Record ProxyConfig := {
  aws_lwa_proxy_lambda_runtime_api : option string;
  exec_wrapper : option string;
  runtime_api : string;
}.

Definition should_start_proxy (config : Config) (aws_config : ProxyConfig) : bool :=
  let lwa_proxy_set := is_some (aws_lwa_proxy_lambda_runtime_api aws_config) in
  let datadog_wrapper_set := bool_decide (exec_wrapper aws_config = Some "/opt/datadog_wrapper"%string) in
  let experimental_proxy_enabled :=
    match env_var "DD_EXPERIMENTAL_ENABLE_PROXY" with
    | Some v => bool_decide (lowercase v = "true"%string)
    | None => false
    end in
  lwa_proxy_set ||
  (datadog_wrapper_set &&
   (serverless_appsec_enabled config || dsm_consume_enabled config || experimental_proxy_enabled)).

Inductive InvocationNextProcessingMode := UniversalInstrumentation | DsmOnly | NoProcessing.

Definition get_invocation_next_processing_mode (aws_config : ProxyConfig)
    (experimental_proxy_enabled dsm_enabled : bool) : InvocationNextProcessingMode :=
  if is_some (aws_lwa_proxy_lambda_runtime_api aws_config) || experimental_proxy_enabled
  then UniversalInstrumentation
  else if dsm_enabled then DsmOnly else NoProcessing.

Definition get_proxy_socket_address (lwa_proxy : option string) : string * Z :=
  match lwa_proxy ≫= get_lwa_proxy_socket_address with
  | Some socket_addr => socket_addr
  | None => ("0.0.0.0"%string, 9000)
  end.

Definition request_id_of (headers : gmap string string) : option string :=
  h ← headers !! "lambda-runtime-aws-request-id"%string; to_str h.

Definition record_dsm_consume_from_invocation_next (headers : gmap string string) (body : bytes) : list Effect :=
  match request_id_of headers with
  | Some request_id => [Command (Processor.RecordDsmConsumeFromPayload request_id (body_value body))]
  | None => []
  end.

(** A request or a response that is proxied. *)
Record Message := { msg_headers : gmap string string; msg_body : bytes }.

(** The target is the path of the request on the Runtime API. *)
Definition build_proxy_request (aws_config : ProxyConfig) (path : string) (m : Message) :
    option (string * Message) :=
  let target_uri := ("http://" +:+ runtime_api aws_config +:+ path)%string in
  if uri_valid target_uri
  then Some (target_uri, {| msg_headers := clean_proxy_headers (msg_headers m); msg_body := msg_body m |})
  else None.

Definition build_forward_response (m : Message) : Message :=
  {| msg_headers := clean_proxy_headers (msg_headers m); msg_body := msg_body m |}.

(** [passthrough_proxy]; the Runtime API is its answer to a request, or none. *)
Definition proxy_exchange (aws_config : ProxyConfig) (answer : string -> Message -> option (Z * Message))
    (path : string) (m : Message) : Z * Message + Z :=
  match build_proxy_request aws_config path m with
  | None => inr 500
  | Some (uri, m) =>
      match answer uri m with
      | None => inr 500
      | Some (status, response) => inl (status, build_forward_response response)
      end
  end.

(** Whether the client reads the whole body of the response, so that its copy completes. *)
Definition invocation_next_proxy (config : Config) (aws_config : ProxyConfig) (appsec : bool)
    (generated : Z) (read : bool) (answer : string -> Message -> option (Z * Message))
    (path : string) (m : Message) : (Z * Message + Z) * list Effect :=
  let experimental_proxy_enabled :=
    match env_var "DD_EXPERIMENTAL_ENABLE_PROXY" with
    | Some v => bool_decide (String.string_of_list_ascii (ascii_lower <$> String.list_ascii_of_string v) = "true"%string)
    | None => false
    end in
  match build_proxy_request aws_config path m with
  | None => (inr 500, [])
  | Some (uri, m) =>
      match answer uri m with
      | None => (inr 500, [])
      | Some (status, response) =>
          let headers := msg_headers response in
          let body := msg_body response in
          let security :=
            match request_id_of headers, slice_to_value body with
            | Some request_id, Some value =>
                if appsec then [AppSecNext request_id (identify value)] else []
            | _, _ => []
            end in
          let instrumentation :=
            match get_invocation_next_processing_mode aws_config experimental_proxy_enabled
                    (dsm_consume_enabled config) with
            | UniversalInstrumentation => lwa_invocation_next config generated headers body
            | DsmOnly => record_dsm_consume_from_invocation_next headers body
            | NoProcessing => []
            end in
          (inl (status, build_forward_response response),
           if read then security ++ instrumentation else [])
      end
  end.

(** [sent] is whether the client of the proxy takes the whole body of the request. *)
Definition invocation_response_proxy (aws_config : ProxyConfig) (appsec : bool) (sent : bool)
    (answer : string -> Message -> option (Z * Message)) (request_id path : string) (m : Message) :
    (Z * Message + Z) * list Effect :=
  (proxy_exchange aws_config answer path m,
   if sent && is_some (build_proxy_request aws_config path m) then
     (if appsec then [AppSecResult request_id (msg_body m)] else []) ++
     (if is_some (aws_lwa_proxy_lambda_runtime_api aws_config)
      then lwa_invocation_response (msg_body m) else [])
   else []).

Definition invocation_error_proxy (aws_config : ProxyConfig) (appsec : bool)
    (answer : string -> Message -> option (Z * Message)) (request_id path : string) (m : Message) :
    (Z * Message + Z) * list Effect :=
  (proxy_exchange aws_config answer path m,
   if appsec then [AppSecResult request_id (String.list_ascii_of_string "{}")] else []).
End Proxy.

(** * Properties *)

Section ProxyProperties.
Context `{Externals} `{Propagation SamplingPriority} `{ProxyOps SamplingPriority}.

Lemma clean_lookup headers k :
  clean_proxy_headers headers !! k = if decide (k ∈ HOP_BY_HOP) then None else headers !! k.
Proof.
  unfold clean_proxy_headers. induction HOP_BY_HOP as [|h hop IH]; cbn; [by rewrite decide_False by set_solver|].
  destruct (decide (k = h)) as [->|Hne]; [rewrite lookup_delete_eq, decide_True by set_solver; done|].
  rewrite lookup_delete_ne by done. rewrite IH. destruct (decide (k ∈ hop)), (decide (k ∈ h :: hop)); set_solver.
Qed.

(** C32: the proxy is transparent. Whatever it does with a response on the side, the runtime
    gets the status and the body of the Runtime API and every header of it that is not about
    the connection; and the Runtime API gets the body and the headers of the runtime, at the
    path it asked for. *)
Theorem proxy_is_transparent config aws_config appsec generated read answer path m status response :
  fst (invocation_next_proxy config aws_config appsec generated read answer path m) = inl (status, response) ->
  exists sent original,
    answer ("http://" +:+ runtime_api aws_config +:+ path)%string sent = Some (status, original) /\
    msg_body response = msg_body original /\ msg_body sent = msg_body m /\
    forall k,
      msg_headers response !! k = (if decide (k ∈ HOP_BY_HOP) then None else msg_headers original !! k) /\
      msg_headers sent !! k = (if decide (k ∈ HOP_BY_HOP) then None else msg_headers m !! k).
Proof.
  unfold invocation_next_proxy, build_proxy_request. destruct (uri_valid _) eqn:Hu; [|done].
  destruct (answer _ _) as [[st original]|] eqn:Ha; [|done]. intros [= <- <-]. eexists _, original.
  split; [exact Ha|]. split; [done|]. split; [done|].
  intros k. cbn [msg_headers build_forward_response]. by rewrite !clean_lookup.
Qed.

(** A tracer that takes over the trace context of an invocation gets the trace id of
    the span context, of which its protocol carries the lower half, exactly. *)
Theorem injected_trace_id_read_back config request sp :
  Processor.extract_context config (headers_to_map (req_headers request))
    (body_value (body_or_empty request)) = Some sp ->
  exists text, fst (handle_start_invocation config request) !! DATADOG_TRACE_ID_KEY = Some text /\
    parse_u64 text = Some (wrap_u64 (sc_trace_id sp)).
Proof.
  intros Hsp. exists (pretty (wrap_u64 (sc_trace_id sp))). unfold handle_start_invocation. cbn. rewrite Hsp.
  unfold inject_span_context_to_headers. split.
  - destruct (sc_priority sp), (sc_tags sp !! _); cbn; by simplify_map_eq.
  - apply parse_unsigned_pretty. unfold wrap_u64, U64_MAX. pose proof (Z.mod_pos_bound (sc_trace_id sp) (2 ^ 64)). lia.
Qed.

Definition is_command (P : @Processor.ProcessorCommand SamplingPriority -> bool) (e : Effect) : bool :=
  match e with Command c => P c | _ => false end.
Definition instruments (c : @Processor.ProcessorCommand SamplingPriority) : bool :=
  match c with
  | Processor.UniversalInstrumentationStart _ _ _ | Processor.AddReparenting _ _ _ => true
  | _ => false
  end.
Definition ends_invocation (c : @Processor.ProcessorCommand SamplingPriority) : bool :=
  match c with Processor.UniversalInstrumentationEnd _ _ _ => true | _ => false end.

Lemma security_only (P : @Processor.ProcessorCommand SamplingPriority -> bool) appsec rid value :
  existsb (is_command P) (match rid, value with
    | Some request_id, Some v => if appsec : bool then [AppSecNext request_id (identify v)] else []
    | _, _ => [] end) = false.
Proof. by destruct rid, value, appsec. Qed.

(** Without the web adapter or the experimental switch, the proxy never starts an invocation
    nor makes up a span id for it. *)
Lemma dsm_proxy_never_instruments config aws_config appsec generated read answer path m :
  aws_lwa_proxy_lambda_runtime_api aws_config = None -> env_var "DD_EXPERIMENTAL_ENABLE_PROXY" = None ->
  existsb (is_command instruments)
    (snd (invocation_next_proxy config aws_config appsec generated read answer path m)) = false.
Proof.
  intros Hl He. unfold invocation_next_proxy, get_invocation_next_processing_mode. rewrite Hl, He. cbn [is_some orb].
  destruct (build_proxy_request _ _ _) as [[uri m']|]; [|done]. destruct (answer uri m') as [[status response]|]; [|done].
  cbn [snd]. destruct read; [|done]. rewrite existsb_app, security_only. cbn [orb].
  destruct (dsm_consume_enabled config); [|done]. unfold record_dsm_consume_from_invocation_next. by case_match.
Qed.

(** With the experimental switch and without the web adapter the instrumentation is one
    sided: an invocation that the proxy reads is started, but no response that it passes on
    ever ends one. *)
Theorem experimental_proxy_never_ends config aws_config appsec generated answer path m status response v
    appsec' sent answer' request_id path' m' :
  aws_lwa_proxy_lambda_runtime_api aws_config = None ->
  env_var "DD_EXPERIMENTAL_ENABLE_PROXY" = Some v ->
  String.string_of_list_ascii (ascii_lower <$> String.list_ascii_of_string v) = "true"%string ->
  fst (invocation_next_proxy config aws_config appsec generated true answer path m) = inl (status, response) ->
  existsb (is_command instruments)
    (snd (invocation_next_proxy config aws_config appsec generated true answer path m)) = true /\
  existsb (is_command ends_invocation)
    (snd (invocation_response_proxy aws_config appsec' sent answer' request_id path' m')) = false.
Proof.
  intros Hl He Hv. unfold invocation_next_proxy, get_invocation_next_processing_mode. rewrite Hl, He.
  rewrite (bool_decide_eq_true_2 _ Hv). cbn [is_some orb].
  destruct (build_proxy_request _ path m) as [[uri m1]|]; [|done]. destruct (answer uri m1) as [[st original]|]; [|done].
  cbn [fst snd]. intros _. split.
  - rewrite existsb_app. apply orb_true_iff. right. done.
  - unfold invocation_response_proxy. rewrite Hl. cbn [snd is_some]. destruct (_ && _); [|done]. by destruct appsec'.
Qed.
End ProxyProperties.

(** ** Security contexts *)

Section Security.
Context `{Externals} `{Propagation SamplingPriority} `{ProxyOps SamplingPriority}.
Context {W Obj : Type} `{WafOps W Obj}.
Variable tags_iter : Tags -> list (TagName * TagValue).

(** The effects on the App & API Protection processor, in turn. *)
Fixpoint apply_security (p : @Processor W) (log : list (list Span)) (now instant : Z)
    (effects : list (@Effect SamplingPriority)) : outcome (@Processor W * list (list Span)) :=
  match effects with
  | [] => Done (p, log)
  | e :: effects =>
      '(p, log) ← match e with
                  | Command _ => Done (p, log)
                  | AppSecNext request_id trigger => process_invocation_next tags_iter p log now request_id trigger
                  | AppSecResult request_id body =>
                      process_invocation_result tags_iter p log now instant request_id body
                  end;
      apply_security p log now instant effects
  end.

Lemma security_skips p log now instant (effects effects' : list (@Effect SamplingPriority)) :
  Forall (fun e => match e with Command _ => True | _ => False end) effects' ->
  apply_security p log now instant (effects ++ effects') = apply_security p log now instant effects.
Proof.
  intros Hf. revert p log. induction effects as [|e effects IH]; intros p log; cbn.
  - induction Hf as [|[] effects' Hc _ IH']; try done.
  - destruct (match e with Command _ => _ | _ => _ end) as [[p' log']|]; cbn; [apply IH|done].
Qed.

(** C34: an invocation that the runtime ends through the proxy, with a response or with an
    error, releases the trace that is held for it: none stays held, and no trace is lost. *)
Theorem ended_invocation_releases_trace aws_config answer request_id path m instant (p : @Processor W) log failed :
  Holding.wf p -> is_some (build_proxy_request aws_config path m) = true ->
  let effects := snd (if failed : bool then invocation_error_proxy aws_config true answer request_id path m
                      else invocation_response_proxy aws_config true true answer request_id path m) in
  exists p' log', apply_security p log 0 instant effects = Done (p', log') /\
    request_id ∉ Holding.holding p' /\
    (Holding.ids <$> log') ++ Holding.held (context_buffer p') ≡ₚ
    (Holding.ids <$> log) ++ Holding.held (context_buffer p).
Proof.
  intros Hwf Hb. cbn zeta.
  assert (Heff : exists body rest, snd (if failed then invocation_error_proxy aws_config true answer request_id path m
      else invocation_response_proxy aws_config true true answer request_id path m) = [AppSecResult request_id body] ++ rest /\
    Forall (fun e : @Effect SamplingPriority => match e with Command _ => True | _ => False end) rest).
  { destruct failed; cbn; [eexists _, []; by split; [|constructor]|]. rewrite Hb. eexists _, _. split; [done|].
    destruct (is_some (aws_lwa_proxy_lambda_runtime_api aws_config)); [|constructor].
    unfold lwa_invocation_response. apply Forall_singleton. done. }
  destruct Heff as (body & rest & -> & Hrest). rewrite security_skips by done. cbn.
  destruct (Holding.result_kept tags_iter p log request_id body instant Hwf) as (p' & log' & -> & Hk & Hn).
  exists p', log'. split; [done|]. split; [done|]. pose proof (Holding.kept_traces _ _ _ _ _ Hk) as Ht.
  by rewrite app_nil_r in Ht.
Qed.
End Security.

(** * Concrete runs *)

(** A host where the experimental switch is on and every invocation continues a trace. *)
Module ProxySample.

Definition upstream : SpanContext Z :=
  {| sc_trace_id := 2 ^ 64 + 7; sc_span_id := 3; sc_priority := Some 1; sc_origin := None; sc_tags := ∅ |}.

#[export] Instance proxy_ops : ProxyOps Z :=
  {| slice_to_value := fun _ => Some (VObject []); value_to_vec := fun _ => Some [];
     uri_host_port := fun _ => None; uri_valid := fun _ => true; socket_from_str := fun _ => None;
     header_name := Some; header_value := Some; priority_to_string := pretty |}.

#[export] Instance propagation : Propagation Z :=
  {| inner_extract := fun _ => Continue upstream;
     hashmap_extractor := fun m => {| ex_get := fun k => m !! k; ex_keys := (map_to_list m).*1 |};
     parse_priority := parse_i64 |}.

#[export] Instance experimental : Externals :=
  {| unicode_lower := fun s => s; b64_decode := fun _ => None; value_from_str := fun _ => None;
     sns_entity_from_str := fun _ => None; event_bridge_from_str := fun _ => None;
     string_map_from_str := fun _ => None; value_map_from_slice := fun _ => None;
     value_to_string := fun _ => None; f64_to_string := fun _ => "0"%string;
     parse_datetime := fun _ => None; sha256_digest := fun _ => [];
     hash_iter := fun _ m => map_to_list m; env_var := fun _ => Some "True"%string |}.

Definition aws_config : ProxyConfig :=
  {| aws_lwa_proxy_lambda_runtime_api := None; exec_wrapper := Some "/opt/datadog_wrapper"%string;
     runtime_api := "127.0.0.1:9001"%string |}.

Definition next : string := "/2018-06-01/runtime/invocation/next".

(** The Runtime API answers every request with the same invocation. *)
Definition invocation : Message :=
  {| msg_headers := {[ "lambda-runtime-aws-request-id"%string := "a"%string; "te"%string := "trailers"%string ]};
     msg_body := String.list_ascii_of_string "{}" |}.
Definition answer (_ : string) (_ : Message) : option (Z * Message) := Some (200, invocation).
Definition get : Message := {| msg_headers := ∅; msg_body := [] |}.

(** A trace is held for the invocation. *)
Definition holding_a : @Processor unit :=
  {| ruleset_version := "1"%string; proc_waf_timeout := 5000; api_sec_sampler := None;
     context_buffer := [set_held (Context_new (Obj := unit) (H0 := AppSecSample.waf_ops) "a" "1" 5000) false
                          (Some ([AppSecSample.entry 1 "a"], AppSecSample.args))];
     buffer_capacity := 1 |}.
End ProxySample.

Section ProxyWitnesses.
#[local] Existing Instances ProxySample.experimental ProxySample.propagation ProxySample.proxy_ops
  AppSecSample.waf_ops.
Import ProxySample.

Lemma next_answered :
  fst (invocation_next_proxy Sample.config aws_config false 9 true answer next get) =
  inl (200, build_forward_response invocation).
Proof. vm_compute. reflexivity. Defined.

Lemma proxy_is_transparent_witness :
  let '(result, _) := invocation_next_proxy Sample.config aws_config false 9 true answer next get in
  result = inl (200, build_forward_response invocation) /\
  msg_headers (build_forward_response invocation) !! "te"%string = None /\
  msg_headers (build_forward_response invocation) !! "lambda-runtime-aws-request-id"%string = Some "a"%string.
Proof.
  destruct (proxy_is_transparent Sample.config aws_config false 9 true answer next get 200
    (build_forward_response invocation) next_answered) as (sent & original & Ha & _ & _ & Hk).
  injection Ha as <-. rewrite !(proj1 (Hk _)).
  destruct (invocation_next_proxy _ _ _ _ _ _ _ _) as [result effects] eqn:Hn.
  split; [change (fst (result, effects) = inl (200, build_forward_response invocation)); rewrite <- Hn; exact next_answered|].
  by split.
Defined.

Lemma injected_trace_id_read_back_witness :
  exists text, fst (handle_start_invocation Sample.config AgentSample.request) !! DATADOG_TRACE_ID_KEY = Some text /\
    parse_u64 text = Some 7.
Proof. exact (injected_trace_id_read_back Sample.config AgentSample.request _ eq_refl). Defined.

Lemma experimental_proxy_never_ends_witness :
  existsb (is_command instruments)
    (snd (invocation_next_proxy Sample.config aws_config false 9 true answer next get)) = true /\
  existsb (is_command ends_invocation)
    (snd (invocation_response_proxy aws_config false true answer "a" next get)) = false.
Proof.
  exact (experimental_proxy_never_ends Sample.config aws_config false 9 answer next get 200
    (build_forward_response invocation) "True" false true answer "a" next get eq_refl eq_refl eq_refl next_answered).
Defined.

(** The trace of an invocation is held, and its response passes. *)
Lemma ended_invocation_releases_trace_witness :
  exists p' log',
    apply_security map_to_list holding_a [] 0 5
      (snd (invocation_response_proxy aws_config true true answer "a" "/response" get)) = Done (p', log') /\
    "a"%string ∉ Holding.holding p' /\
    (Holding.ids <$> log') ++ Holding.held (context_buffer p') ≡ₚ [[(1, 1)]].
Proof.
  refine (ended_invocation_releases_trace map_to_list aws_config answer "a" "/response" get 5 holding_a [] false _ eq_refl).
  split; [apply NoDup_singleton|]. split; [apply Forall_singleton; discriminate|]. cbn. lia.
Defined.
End ProxyWitnesses.
