(* ===== verification/Environment.v ===== *)
(** What the extension sets up from its environment before it runs: the settings and the
    credentials of AWS ([config/aws.rs]), the tags of the function ([setup_tag_provider] of
    [main.rs]), the hosts of a FIPS build ([fips/mod.rs]), the styles of the propagator
    ([config/propagation_wrapper.rs]), the HTTP clients ([http.rs], [traces/http_client.rs]),
    the obfuscation rules and the trace client of [startup.rs], and the flushers of metrics. *)
From S2P Require Import Prelude Text Triggers TriggerEvents Configuration Tags InvocationProcessor.
From S2P Require Import SpanInferrer TraceProcessor RuntimeProxy.
#[local] Open Scope Z_scope.

(** * The settings of AWS *)

(** [AwsConfig]; the instant is the start of the process. *)
Record AwsSettings := {
  aws_region : string;
  lwa_proxy : option string;
  function_name : string;
  aws_runtime_api : string;
  init_time : Z;
  aws_exec_wrapper : option string;
  init_type : string;
}.

(** The fields the invocation processor reads, and those of the proxy. *)
Definition processor_settings (self : AwsSettings) : AwsConfig :=
  {| region := aws_region self; sandbox_init_time := init_time self;
     initialization_type := init_type self |}.
Definition proxy_settings (self : AwsSettings) : ProxyConfig :=
  {| aws_lwa_proxy_lambda_runtime_api := lwa_proxy self; exec_wrapper := aws_exec_wrapper self;
     runtime_api := aws_runtime_api self |}.

Record AwsCredentials := {
  aws_access_key_id : string;
  aws_secret_access_key : string;
  aws_session_token : string;
  aws_container_credentials_full_uri : string;
  aws_container_authorization_token : string;
}.

Definition get_aws_partition_by_region (region : string) : string :=
  if starts_with "us-gov-" region then "aws-us-gov"
  else if starts_with "cn-" region then "aws-cn" else "aws".

Definition build_lambda_function_arn (account_id region function_name : string) : string :=
  "arn:" +:+ get_aws_partition_by_region region +:+ ":lambda:" +:+ region +:+ ":" +:+ account_id +:+
  ":function:" +:+ function_name.

(** The service with FIPS endpoints in a FIPS build. *)
Definition compute_aws_api_host (fips : bool) (service region domain : string) : string :=
  service +:+ (if fips then "-fips." else ".") +:+ region +:+ "." +:+ domain.

Section Aws.
Context `{Externals}.

Definition env_or_empty (key : string) : string := default EmptyString (env_var key).

Definition AwsConfig_from_env (start_time : Z) : AwsSettings :=
  {| aws_region := default "us-east-1"%string (env_var "AWS_DEFAULT_REGION");
     lwa_proxy := env_var "AWS_LWA_LAMBDA_RUNTIME_API_PROXY";
     function_name := env_or_empty "AWS_LAMBDA_FUNCTION_NAME";
     aws_runtime_api := env_or_empty "AWS_LAMBDA_RUNTIME_API";
     init_time := start_time;
     aws_exec_wrapper := env_var "AWS_LAMBDA_EXEC_WRAPPER";
     init_type := env_or_empty "AWS_LAMBDA_INITIALIZATION_TYPE" |}.

Definition AwsCredentials_from_env : AwsCredentials :=
  {| aws_access_key_id := env_or_empty "AWS_ACCESS_KEY_ID";
     aws_secret_access_key := env_or_empty "AWS_SECRET_ACCESS_KEY";
     aws_session_token := env_or_empty "AWS_SESSION_TOKEN";
     aws_container_credentials_full_uri := env_or_empty "AWS_CONTAINER_CREDENTIALS_FULL_URI";
     aws_container_authorization_token := env_or_empty "AWS_CONTAINER_AUTHORIZATION_TOKEN" |}.

Definition runtime_layer_would_enable_fips_mode (region : string) : bool :=
  match env_var "DD_LAMBDA_FIPS_MODE" with
  | Some val => bool_decide (lowercase val = "true"%string)
  | None => starts_with "us-gov-" region
  end.

(** [arch] is the architecture of the build. *)
Definition setup_tag_provider (arch : string) (aws_config : AwsSettings) (config : Config)
    (account_id : string) : outcome Provider :=
  let function_arn :=
    build_lambda_function_arn account_id (aws_region aws_config) (function_name aws_config) in
  new arch config LAMBDA_RUNTIME_SLUG {[ FUNCTION_ARN_KEY := function_arn ]}.
End Aws.

(** * Propagation styles *)

(** The styles of the configuration crate, and those of the propagation crate, which are the
    same. *)
Inductive TracePropagationStyle := Datadog | TraceContext | Baggage | B3Multi | B3SingleHeader | NoStyle.

Record PropConfig := {
  pc_style : list TracePropagationStyle;
  pc_style_extract : list TracePropagationStyle;
  pc_extract_first : bool;
}.

Definition or_none {A} (styles : list A) : option (list A) :=
  match styles with [] => None | _ => Some styles end.

Definition trace_propagation_style (self : PropConfig) : option (list TracePropagationStyle) :=
  or_none (pc_style self).
Definition trace_propagation_style_extract (self : PropConfig) : option (list TracePropagationStyle) :=
  or_none (pc_style_extract self).
Definition trace_propagation_style_inject (self : PropConfig) : option (list TracePropagationStyle) := None.
Definition trace_propagation_extract_first (self : PropConfig) : bool := pc_extract_first self.
Definition datadog_tags_max_length (self : PropConfig) : Z := 512.

(** * HTTP clients *)

(** The settings of the configuration that the clients read. *)
Record ClientConfig := {
  flush_timeout : Z;
  skip_ssl_validation : bool;
  http_protocol : option string;
  tls_cert_file : option string;
  proxy_https : option string;
}.

(** Certificates of a file, which are decoded when they are used, and proxies. *)
Class ClientOps (Pem Certificate : Type) := {
  (** [File::open] followed by [rustls_pemfile::certs] *)
  read_pem : string -> option (list Pem);
  (** [reqwest::Certificate::from_der]; [RootCertStore::add] *)
  from_der : Pem -> option Certificate;
  root_store_add : Pem -> option Certificate;
  (** [reqwest::Proxy::https]; a [Uri] for [hyper_http_proxy] *)
  proxy_url : string -> bool;
  proxy_uri : string -> bool;
}.

Inductive Protocol := Http1 | Http2PriorKnowledge.

Section Clients.
Context `{ClientOps Pem Certificate}.

(** What a client trusts: the roots of its build and others, certain roots alone, or anyone. *)
Inductive Trust := DefaultAnd (extra : list Certificate) | Only (roots : list Certificate) | Anyone.

(** The client of [reqwest]. Without a limit it keeps idle connections; without prior
    knowledge it negotiates its protocol. *)
Record Client := {
  timeout_s : option Z;
  pool_max_idle_per_host : option nat;
  protocol : Protocol;
  trust : Trust;
  client_proxy : option string;
}.

(** [reqwest::Client::new()]. *)
Definition plain_client : Client :=
  {| timeout_s := None; pool_max_idle_per_host := None; protocol := Http1; trust := DefaultAnd [];
     client_proxy := None |}.

Definition load_custom_cert (cert_path : string) : option (list Certificate) :=
  certs ← read_pem cert_path;
  match certs with [] => None | _ => mapM from_der certs end.

(** None when the proxy is not valid. *)
Definition build_client (config : ClientConfig) : option Client :=
  let should_use_http1 := match http_protocol config with
                          | Some val => bool_decide (val = "http1"%string)
                          | None => is_some (proxy_https config)
                          end in
  let certs := match tls_cert_file config with
               | Some cert_path => default [] (load_custom_cert cert_path)
               | None => []
               end in
  let client :=
    {| timeout_s := Some (flush_timeout config); pool_max_idle_per_host := Some 0%nat;
       protocol := if should_use_http1 then Http1 else Http2PriorKnowledge;
       trust := if skip_ssl_validation config then Anyone else DefaultAnd certs;
       client_proxy := proxy_https config |} in
  match proxy_https config with
  | Some https_uri => if proxy_url https_uri then Some client else None
  | None => Some client
  end.

Definition get_client (config : ClientConfig) : Client := default plain_client (build_client config).

(** The client of the trace and stats flushers. *)
Record TraceClient := { tc_trust : Trust; tc_proxy : option string }.

Definition create_client (proxy_https tls_cert_file : option string) (skip_ssl_validation : bool) :
    option TraceClient :=
  trust ← (if skip_ssl_validation then Some Anyone
           else match tls_cert_file with
                | Some ca_cert_path => certs ← read_pem ca_cert_path; Only <$> mapM root_store_add certs
                | None => Some (DefaultAnd [])
                end);
  match proxy_https with
  | Some proxy =>
      if proxy_uri proxy then Some {| tc_trust := trust; tc_proxy := Some proxy |} else None
  | None => Some {| tc_trust := trust; tc_proxy := None |}
  end.

(** The client that [build_trace_agent] makes, or panics. *)
Definition trace_http_client (config : ClientConfig) : outcome TraceClient :=
  unwrap (create_client (proxy_https config) (tls_cert_file config) (skip_ssl_validation config)).
End Clients.

(** * Obfuscation rules *)

Record ReplaceRule {Regex : Type} := { rule_name : string; re : Regex; repl : string; no_expansion : bool }.
Arguments ReplaceRule Regex : clear implicits.

(** The name, the pattern and the replacement of each rule. A replacement without references to
    groups needs no expansion. *)
Definition build_tag_replace_rules {Regex} (regex_new : string -> option Regex)
    (plain_replacement : string -> bool) (apm_replace_tags : option (list (string * string * string))) :
    outcome (list (ReplaceRule Regex)) :=
  foldr (fun '(name, pattern, replacement) acc =>
           re ← unwrap (regex_new pattern);
           rules ← acc;
           Done ({| rule_name := name; re := re; repl := replacement;
                    no_expansion := plain_replacement replacement |} :: rules))
    (Done []) (default [] apm_replace_tags).

(** * Flushers of metrics *)

(** The key of a flusher: the key of the function, or one of an additional endpoint. *)
Inductive KeySource := FunctionKey | AdditionalKey (key : string).
Inductive IntakePrefix := DdDdUrlPrefix (url : string) | DdUrlPrefix (url : string) | SitePrefix (site : string).
Record MetricsFlusher := { key_source : KeySource; intake : IntakePrefix }.

Section MetricsFlushers.
(** The texts that the URL and site types of the metrics crate accept. *)
Context (dd_dd_url dd_url metrics_site : string -> bool).

Definition FALLBACK_URL : string := "https://app.datadoghq.com".

Definition additional_flushers (endpoint : string * list string) : outcome (list MetricsFlusher) :=
  let '(endpoint_url, api_keys) := endpoint in
  url ← (if dd_url endpoint_url then Done endpoint_url
         else if dd_url FALLBACK_URL then Done FALLBACK_URL else Panic);
  Done ((fun key => {| key_source := AdditionalKey key; intake := DdUrlPrefix url |}) <$> api_keys).

Fixpoint all_additional (additional : list (string * list string)) : outcome (list MetricsFlusher) :=
  match additional with
  | [] => Done []
  | endpoint :: additional =>
      flushers ← additional_flushers endpoint;
      rest ← all_additional additional;
      Done (flushers ++ rest)
  end.

(** [additional] is the order in which the additional endpoints are iterated. *)
Definition start_metrics_flushers (dd_url_ url_ site : string) (additional : list (string * list string)) :
    outcome (list MetricsFlusher) :=
  prefix ← (match dd_url_, url_ with
            | String _ _, _ => if dd_dd_url dd_url_ then Done (DdDdUrlPrefix dd_url_) else Panic
            | EmptyString, String _ _ => if dd_url url_ then Done (DdUrlPrefix url_) else Panic
            | EmptyString, EmptyString => if metrics_site site then Done (SitePrefix site) else Panic
            end);
  others ← all_additional additional;
  Done ({| key_source := FunctionKey; intake := prefix |} :: others).
End MetricsFlushers.

(** * Properties *)

(** ** The tags of the function *)

Definition no_colon (s : string) : Prop := ":"%char ∉ String.list_ascii_of_string s.

Lemma str_split_cons sep c s :
  str_split sep (String c s) =
  if Ascii.eqb c sep then EmptyString :: str_split sep s
  else match str_split sep s with
       | piece :: pieces => String c piece :: pieces
       | [] => [String c EmptyString]
       end.
Proof. reflexivity. Qed.

Lemma split_app_sep sep a b :
  sep ∉ String.list_ascii_of_string a ->
  str_split sep (a +:+ String sep b) = a :: str_split sep b.
Proof.
  induction a as [|c a IH]; intros Hn.
  - change (EmptyString +:+ String sep b) with (String sep b). by rewrite str_split_cons, Ascii.eqb_refl.
  - change (String c a +:+ String sep b) with (String c (a +:+ String sep b)).
    apply not_elem_of_cons in Hn as [Hc Hn]. rewrite str_split_cons, (IH Hn).
    by destruct (Ascii.eqb_spec c sep) as [->|_].
Qed.

Lemma split_no_sep sep a :
  sep ∉ String.list_ascii_of_string a -> str_split sep a = [a].
Proof.
  induction a as [|c a IH]; intros Hn; [done|]. apply not_elem_of_cons in Hn as [Hc Hn].
  rewrite str_split_cons, (IH Hn). by destruct (Ascii.eqb_spec c sep) as [->|_].
Qed.

Lemma arn_parts account region name :
  no_colon account -> no_colon region -> no_colon name ->
  str_split ":" (build_lambda_function_arn account region name) =
  ["arn"; get_aws_partition_by_region region; "lambda"; region; account; "function"; name]%string.
Proof.
  intros Ha Hr Hn. unfold build_lambda_function_arn.
  assert (Hp : no_colon (get_aws_partition_by_region region)).
  { unfold get_aws_partition_by_region, no_colon. repeat case_match; by apply (bool_decide_unpack _). }
  change (str_split ":" ("arn" +:+ String ":" (get_aws_partition_by_region region +:+ String ":" ("lambda" +:+
    String ":" (region +:+ String ":" (account +:+ String ":" ("function" +:+ String ":" name)))))) =
    ["arn"; get_aws_partition_by_region region; "lambda"; region; account; "function"; name]%string).
  rewrite !split_app_sep, split_no_sep; try done; by apply (bool_decide_unpack _).
Qed.

Lemma put_some_ne k k' v m : k <> k' -> put_some k v m !! k' = m !! k'.
Proof. intros Hk. destruct v; cbn; [by apply lookup_insert_ne|done]. Qed.

Lemma arn_tags_function `{Externals} account region name k v m :
  no_colon account -> no_colon region -> no_colon name ->
  (k, v) ∈ [("region", region); ("account_id", account); ("aws_account", account); (FUNCTION_NAME_KEY, name)]%string ->
  arn_tags (build_lambda_function_arn account region name) m !! k = Some v.
Proof.
  intros Ha Hr Hn Hin. unfold arn_tags. rewrite arn_parts by done. cbn [lookup list_lookup].
  repeat (apply elem_of_cons in Hin as [[= -> ->]|Hin]); [..|by apply elem_of_nil in Hin];
    (rewrite lookup_insert_ne by done; destruct (env_var QUALIFIER_ENV_VAR); [case_decide|]; by simplify_map_eq).
Qed.

(** The tags that name the function are those of its environment, unless they are configured. *)
Theorem function_tags_read_back `{Externals} arch (aws_config : AwsSettings) config account :
  no_colon account -> no_colon (aws_region aws_config) -> no_colon (function_name aws_config) ->
  exists p, setup_tag_provider arch aws_config config account = Done p /\
    forall k v, (k, v) ∈ [("region", aws_region aws_config); ("account_id", account); ("aws_account", account);
                          (FUNCTION_NAME_KEY, function_name aws_config)]%string ->
      tags_map p !! k = Some (default v (cfg_tags config !! k)).
Proof.
  intros Ha Hr Hn. unfold setup_tag_provider, new. rewrite decide_True by done. eexists. split; [done|].
  intros k v Hin. unfold new_from_config, tags_from_env. cbn [tags_map]. rewrite lookup_singleton_eq.
  pose proof (arn_tags_function account _ _ k v ∅ Ha Hr Hn Hin) as Hk.
  destruct (cfg_tags config !! k) as [c|] eqn:Hc; [by rewrite (lookup_union_Some_l _ _ _ _ Hc)|rewrite lookup_union_r by done].
  assert (Hne : k ∉ ["dd_extension_version"; "architecture"; "runtime"; "_dd.runtime_family"; "memorysize";
                     "init_type"; "service"; "env"; "version"]%string).
  { repeat (apply elem_of_cons in Hin as [[= -> ->]|Hin]); [..|by apply elem_of_nil in Hin];
      by apply (bool_decide_unpack _). }
  rewrite !lookup_insert_ne by set_solver.
  destruct (env_var RUNTIME_VAR); rewrite ?lookup_insert_ne by set_solver; rewrite !put_some_ne by set_solver; exact Hk.
Qed.

(** ** Settings of the clients *)

(** A certificate file that cannot be read, or a proxy that is not valid, is only reported by
    the clients of logs and metrics, which go on without it; the client of traces and stats ends
    the extension. *)
Theorem bad_client_settings_end_startup `{ClientOps Pem Certificate} config :
  skip_ssl_validation config = false ->
  (exists path, tls_cert_file config = Some path /\ read_pem path = None) \/
  (exists proxy, proxy_https config = Some proxy /\ proxy_uri proxy = false /\ proxy_url proxy = false) ->
  trace_http_client config = Panic /\ trust (get_client config) = DefaultAnd [] /\
  (tls_cert_file config = None -> get_client config = plain_client).
Proof.
  intros Hs Hbad. unfold trace_http_client, create_client, get_client, build_client. rewrite Hs.
  destruct Hbad as [(path & Hp & Hr)|(proxy & Hp & Hu & Hv)]; rewrite Hp.
  - unfold load_custom_cert. rewrite Hr. split; [done|]. split; [|done].
    destruct (proxy_https config) as [proxy|]; [destruct (proxy_url proxy)|]; done.
  - rewrite Hu, Hv. split; [|done]. destruct (tls_cert_file config); [|done]. cbn. destruct (read_pem _); [|done].
    cbn. by destruct (mapM _ _).
Qed.

(** A certificate file without certificates is refused by the first client and leaves the second
    without a root to trust. *)
Lemma empty_certificate_file `{ClientOps Pem Certificate} path proxy :
  read_pem path = Some [] ->
  load_custom_cert path = None /\
  create_client None (Some path) false = Some {| tc_trust := Only []; tc_proxy := None |} /\
  (proxy_uri proxy = true ->
   create_client (Some proxy) (Some path) false = Some {| tc_trust := Only []; tc_proxy := Some proxy |}).
Proof. intros Hp. unfold load_custom_cert, create_client. rewrite Hp. cbn. repeat split. by intros ->. Qed.

(** ** Flushers *)

(** There is a flusher for the function and one for each key of each additional endpoint. *)
Lemma metrics_flushers_per_key dd_dd_url dd_url metrics_site a b site additional flushers :
  start_metrics_flushers dd_dd_url dd_url metrics_site a b site additional = Done flushers ->
  key_source <$> flushers = FunctionKey :: (AdditionalKey <$> mjoin additional.*2).
Proof.
  unfold start_metrics_flushers. intros Hf.
  destruct (match a with EmptyString => _ | _ => _ end) as [prefix|]; [|done]. cbn in Hf.
  destruct (all_additional dd_url additional) as [others|] eqn:Ho; [|done]. injection Hf as <-. cbn. f_equal.
  revert others Ho. induction additional as [|[url keys] additional IH]; intros others Ho; cbn in Ho.
  - by injection Ho as <-.
  - destruct (if dd_url url then _ else _) as [u|]; [|done]. cbn in Ho.
    destruct (all_additional dd_url additional) as [rest|]; [|done]. injection Ho as <-. cbn.
    rewrite !fmap_app, (IH rest eq_refl), <- list_fmap_compose. done.
Qed.

(** * Concrete runs *)

(** No certificate file can be read. *)
Module ClientSample.

#[export] Instance ops : ClientOps unit unit :=
  {| read_pem := fun _ => None; from_der := Some; root_store_add := Some;
     proxy_url := fun _ => true; proxy_uri := fun _ => true |}.

Definition config : ClientConfig :=
  {| flush_timeout := 30; skip_ssl_validation := false; http_protocol := None;
     tls_cert_file := Some "/opt/ca.pem"%string; proxy_https := None |}.
End ClientSample.

Section EnvironmentWitnesses.
#[local] Existing Instances Sample.externals ClientSample.ops.

Lemma function_tags_read_back_witness :
  exists p, setup_tag_provider "x86_64" (AwsConfig_from_env 0) Sample.config "123" = Done p /\
    tags_map p !! "region"%string = Some "us-east-1"%string.
Proof.
  destruct (function_tags_read_back "x86_64" (AwsConfig_from_env 0) Sample.config "123") as (p & Hp & Ht);
    [by apply (bool_decide_unpack _)..|].
  exists p. split; [done|]. apply (Ht "region"%string "us-east-1"%string). by left.
Defined.

Lemma bad_client_settings_end_startup_witness :
  trace_http_client ClientSample.config = Panic /\ trust (get_client ClientSample.config) = DefaultAnd [] /\
  (tls_cert_file ClientSample.config = None -> get_client ClientSample.config = plain_client).
Proof. apply bad_client_settings_end_startup; [reflexivity|left; by exists "/opt/ca.pem"%string]. Defined.
End EnvironmentWitnesses.
