(* ===== verification/Secrets.v ===== *)
(** The API key and the secrets of additional endpoints: [secrets/decrypt.rs] and
    [secrets/delegated_auth]. What AWS and Datadog answer to a request is a parameter, and so
    are the primitives of cryptography; what AWS makes of a signed request is a specification,
    [SigV4]. The result of a call that fails is [None]. *)
From S2P Require Import Prelude DataStreams Text Triggers TriggerEvents Configuration SpanInferrer.
From S2P Require Import TraceAgent Environment.
From Stdlib Require Import Sorting.Sorted.
#[local] Open Scope Z_scope.

Definition NL : string := String (ascii_of_nat 10) EmptyString.

(** * Requests and primitives *)

(** Names of headers are in lower case. *)
Record HttpRequest := { url : string; headers : gmap string string; body : string }.

Class SecretOps := {
  (** [Hmac::new_from_slice] followed by an update, on bytes *)
  hmac_sha256 : list Z -> list Z -> option (list Z);
  (** [BASE64_STANDARD.encode] *)
  b64_encode : string -> string;
  (** [HeaderValue::from_str] *)
  header_value_from_str : string -> option string;
  (** [chrono]: the formats [%Y%m%dT%H%M%SZ] and [%Y%m%d] *)
  amz_date_of : Z -> string;
  date_stamp_of : Z -> string;
  (** the answers: the text of a POST to AWS, the text of a GET, and the status and text of a
      POST to Datadog *)
  post_aws : HttpRequest -> option string;
  get_url : HttpRequest -> option string;
  post_datadog : HttpRequest -> option (Z * option string);
}.

Definition hex_bytes (bs : list Z) : string := foldr (fun b acc => hex_byte b +:+ acc) EmptyString bs.

(** [value.to_string()]. *)
Definition json_text `{Externals} (v : Value) : string := default EmptyString (value_to_string v).

(** [value[key]] read as a string. *)
Definition str_at (v : Value) (k : string) : option string := value_get v k ≫= as_str.

(** * The signature that AWS expects *)

Module SigV4.
Section SigV4.
Context `{Externals} `{SecretOps}.

Record Scope := { date : string; region : string; service : string }.

Definition ALGORITHM : string := "AWS4-HMAC-SHA256".

Definition scope_text (s : Scope) : string :=
  date s +:+ "/" +:+ region s +:+ "/" +:+ service s +:+ "/aws4_request".

Definition sha256_hex (s : string) : string := hex_bytes (sha256_digest (as_bytes s)).

(** A line for each signed header, as it was received. *)
Fixpoint canonical_headers (received : string -> option string) (signed : list string) : option string :=
  match signed with
  | [] => Some EmptyString
  | name :: signed =>
      value ← received name;
      rest ← canonical_headers received signed;
      Some (name +:+ ":" +:+ value +:+ NL +:+ rest)
  end.

(** The request of a path without a query. *)
Definition canonical_request (method path : string) (received : string -> option string)
    (signed : list string) (body : string) : option string :=
  lines ← canonical_headers received signed;
  Some (method +:+ NL +:+ path +:+ NL +:+ NL +:+ lines +:+ NL +:+ str_join ";" signed +:+ NL +:+ sha256_hex body).

Definition string_to_sign (amz_date : string) (s : Scope) (request : string) : string :=
  ALGORITHM +:+ NL +:+ amz_date +:+ NL +:+ scope_text s +:+ NL +:+ sha256_hex request.

(** The key is derived from the secret by a chain over the scope. *)
Definition signing_key (secret : string) (s : Scope) : option (list Z) :=
  foldl (fun key part => k ← key; hmac_sha256 k (as_bytes part)) (Some (as_bytes ("AWS4" +:+ secret)))
    [date s; region s; service s; "aws4_request"%string].

(** The signature of a request that is received with the header [x-amz-date]. *)
Definition expected_signature (secret : string) (s : Scope) (method path : string)
    (received : string -> option string) (signed : list string) (body : string) : option string :=
  amz_date ← received "x-amz-date"%string;
  request ← canonical_request method path received signed body;
  key ← signing_key secret s;
  hex_bytes <$> hmac_sha256 key (as_bytes (string_to_sign amz_date s request)).

Definition authorization (access_key : string) (s : Scope) (signed : list string) (signature : string) : string :=
  ALGORITHM +:+ " Credential=" +:+ access_key +:+ "/" +:+ scope_text s +:+ ", SignedHeaders=" +:+
  str_join ";" signed +:+ ", Signature=" +:+ signature.

(** A signed request: its authorization is that of the access key, its signature is the one
    expected, and every other header is signed, in order. *)
Definition verifies (access_key secret : string) (s : Scope) (method path : string)
    (received : string -> option string) (signed : list string) (body : string) : Prop :=
  StronglySorted (fun a b => String.ltb a b = true) signed /\
  (forall name, is_Some (received name) -> name = "authorization"%string \/ name ∈ signed) /\
  exists signature,
    expected_signature secret s method path received signed body = Some signature /\
    received "authorization"%string = Some (authorization access_key s signed signature).
End SigV4.
End SigV4.

(** * Signed requests *)

Section Secrets.
Context `{Externals} `{SecretOps}.

Definition sign (key : list Z) (msg : string) : option (list Z) := hmac_sha256 key (as_bytes msg).

Definition get_aws4_signature_key (key date_stamp region_name service_name : string) : option (list Z) :=
  k_date ← sign (as_bytes ("AWS4" +:+ key)) date_stamp;
  k_region ← sign k_date region_name;
  k_service ← sign k_region service_name;
  sign k_service "aws4_request".

Record RequestArgs := { ra_service : string; ra_body : Value; ra_time : Z; x_amz_target : string }.

Definition build_get_secret_signed_headers (fips : bool) (aws_config : AwsSettings)
    (aws_credentials : AwsCredentials) (region : string) (header_values : RequestArgs) :
    option (gmap string string) :=
  let amz_date := amz_date_of (ra_time header_values) in
  let date_stamp := date_stamp_of (ra_time header_values) in
  let domain := if starts_with "cn-" (aws_region aws_config) then "amazonaws.com.cn"%string
                else "amazonaws.com"%string in
  let host := compute_aws_api_host fips (ra_service header_values) region domain in
  let token := aws_session_token aws_credentials in
  let canonical_headers :=
    "content-type:application/x-amz-json-1.1" +:+ NL +:+ "host:" +:+ host +:+ NL +:+
    "x-amz-date:" +:+ amz_date +:+ NL +:+ "x-amz-security-token:" +:+ token +:+ NL +:+
    "x-amz-target:" +:+ x_amz_target header_values in
  let signed_headers := "content-type;host;x-amz-date;x-amz-security-token;x-amz-target"%string in
  let payload_hash_hex := hex_bytes (sha256_digest (as_bytes (json_text (ra_body header_values)))) in
  let canonical_request :=
    "POST" +:+ NL +:+ "/" +:+ NL +:+ "" +:+ NL +:+ canonical_headers +:+ NL +:+ NL +:+ signed_headers +:+ NL +:+
    payload_hash_hex in
  let algorithm := "AWS4-HMAC-SHA256"%string in
  let credential_scope :=
    date_stamp +:+ "/" +:+ region +:+ "/" +:+ ra_service header_values +:+ "/aws4_request" in
  let string_to_sign :=
    algorithm +:+ NL +:+ amz_date +:+ NL +:+ credential_scope +:+ NL +:+
    hex_bytes (sha256_digest (as_bytes canonical_request)) in
  signing_key ← get_aws4_signature_key (aws_secret_access_key aws_credentials) date_stamp region
                  (ra_service header_values);
  signature ← hex_bytes <$> sign signing_key string_to_sign;
  let authorization_header :=
    algorithm +:+ " Credential=" +:+ aws_access_key_id aws_credentials +:+ "/" +:+ credential_scope +:+
    ", SignedHeaders=" +:+ signed_headers +:+ ", Signature=" +:+ signature in
  authorization ← header_value_from_str authorization_header;
  host ← header_value_from_str host;
  content_type ← header_value_from_str "application/x-amz-json-1.1";
  date ← header_value_from_str amz_date;
  target ← header_value_from_str (x_amz_target header_values);
  security_token ← header_value_from_str token;
  Some (<["x-amz-security-token"%string := security_token]> (<["x-amz-target"%string := target]>
          (<["x-amz-date"%string := date]> (<["content-type"%string := content_type]>
             (<["host"%string := host]> {[ "authorization"%string := authorization ]}))))).

(** [headers["host"]] panics on a map without a host. *)
Definition request (json_body : Value) (hs : gmap string string) : outcome (option Value) :=
  host ← unwrap (hs !! "host"%string);
  Done (host_header ← to_str host;
        body ← post_aws {| url := ("https://" +:+ host_header)%string; headers := hs;
                           body := json_text json_body |};
        value_from_str body).

(** The headers, then the request: [build_get_secret_signed_headers] fails before anything is
    sent. *)
Definition signed_request (fips : bool) (aws_config : AwsSettings) (aws_credentials : AwsCredentials)
    (region : string) (args : RequestArgs) : outcome (option Value) :=
  match build_get_secret_signed_headers fips aws_config aws_credentials region args with
  | Some hs => request (ra_body args) hs
  | None => Done None
  end.

(** * Secrets of AWS *)

Definition plaintext (v : Value) : option (option string) :=
  (fun secret_string_b64 => b64_decode secret_string_b64 ≫= from_utf8) <$> str_at v "Plaintext".

Definition kms_args (json_body : Value) (now : Z) : RequestArgs :=
  {| ra_service := "kms"; ra_body := json_body; ra_time := now; x_amz_target := "TrentService.Decrypt" |}.

(** A key that is decrypted without a context, or else with the name of the function; [now] and
    [now'] are the times of the requests. *)
Definition decrypt_aws_kms (fips : bool) (kms_key : string) (aws_config : AwsSettings)
    (aws_credentials : AwsCredentials) (now now' : Z) : outcome (option string) :=
  let json_body := VObject [("CiphertextBlob"%string, VString kms_key)] in
  v ← signed_request fips aws_config aws_credentials (aws_region aws_config) (kms_args json_body now);
  match v with
  | None => Done None
  | Some v =>
      match plaintext v with
      | Some secret_string => Done secret_string
      | None =>
          let json_body :=
            VObject [("CiphertextBlob"%string, VString kms_key);
                     ("encryptionContext"%string,
                      VObject [("LambdaFunctionName"%string, VString (function_name aws_config))])] in
          v ← signed_request fips aws_config aws_credentials (aws_region aws_config) (kms_args json_body now');
          Done (v ← v; default None (plaintext v))
      end
  end.

(** The region of an ARN. *)
Definition arn_region (arn : string) (aws_config : AwsSettings) : string :=
  default (aws_region aws_config) (str_split ":" arn !! 3%nat).

Definition JSON_SECRET_DD_API_KEY : string := "dd_api_key".
Definition JSON_SECRET_API_KEY : string := "apiKey".

Definition extract_secret_string (v : Value) : option string :=
  secret_string ← str_at v "SecretString";
  match value_from_str secret_string with
  | Some parsed =>
      match str_at parsed JSON_SECRET_DD_API_KEY with
      | Some extracted => Some extracted
      | None => Some (default secret_string (str_at parsed JSON_SECRET_API_KEY))
      end
  | None => Some secret_string
  end.

Definition decrypt_aws_sm (fips : bool) (secret_arn : string) (aws_config : AwsSettings)
    (aws_credentials : AwsCredentials) (now : Z) : outcome (option string) :=
  v ← signed_request fips aws_config aws_credentials (arn_region secret_arn aws_config)
        {| ra_service := "secretsmanager"; ra_body := VObject [("SecretId"%string, VString secret_arn)];
           ra_time := now; x_amz_target := "secretsmanager.GetSecretValue" |};
  Done (v ← v; extract_secret_string v).

(** [parameter["Value"]] panics on an object without a value. *)
Definition parameter_value (v : Value) : outcome (option string) :=
  match value_get v "Parameter" ≫= as_object with
  | Some parameter => value ← unwrap (map_get parameter "Value"); Done (as_str value)
  | None => Done None
  end.

Definition ssm_args (parameter_arn : string) (now : Z) : RequestArgs :=
  {| ra_service := "ssm";
     ra_body := VObject [("Name"%string, VString parameter_arn); ("WithDecryption"%string, VBool true)];
     ra_time := now; x_amz_target := "AmazonSSM.GetParameter" |}.

Definition decrypt_aws_ssm (fips : bool) (parameter_arn : string) (aws_config : AwsSettings)
    (aws_credentials : AwsCredentials) (now : Z) : outcome (option string) :=
  v ← signed_request fips aws_config aws_credentials (arn_region parameter_arn aws_config)
        (ssm_args parameter_arn now);
  match v with
  | Some v => parameter_value v
  | None => Done None
  end.

(** * Credentials *)

Definition get_snapstart_credentials (aws_credentials : AwsCredentials) : option Value :=
  token ← header_value_from_str (aws_container_authorization_token aws_credentials);
  body ← get_url {| url := aws_container_credentials_full_uri aws_credentials;
                    headers := {[ "authorization"%string := token ]}; body := EmptyString |};
  value_from_str body.

Definition is_empty (s : string) : bool := match s with EmptyString => true | _ => false end.

Definition get_aws_credentials : option AwsCredentials :=
  let c := AwsCredentials_from_env in
  if is_empty (aws_secret_access_key c) && is_empty (aws_access_key_id c)
     && negb (is_empty (aws_container_credentials_full_uri c))
     && negb (is_empty (aws_container_authorization_token c))
  then
    credentials ← get_snapstart_credentials c;
    let text k := default EmptyString (str_at credentials k) in
    Some {| aws_access_key_id := text "AccessKeyId"; aws_secret_access_key := text "SecretAccessKey";
            aws_session_token := text "Token";
            aws_container_credentials_full_uri := aws_container_credentials_full_uri c;
            aws_container_authorization_token := aws_container_authorization_token c |}
  else Some c.

(** * Delegated authentication *)

Definition GET_CALLER_IDENTITY_BODY : string := "Action=GetCallerIdentity&Version=2011-06-15".
Definition CONTENT_TYPE : string := "application/x-www-form-urlencoded; charset=utf-8".
Definition ORG_ID_HEADER : string := "x-ddog-org-id".
Definition STS_SERVICE : string := "sts".

(** The headers of the proof, in the order of their names. *)
Definition proof_headers (authorization sts_host amz_date org_uuid token : string) : Map :=
  let one s := VArray [VString s] in
  let m := map_insert [] "Authorization" (one authorization) in
  let m := map_insert m "Content-Type" (one CONTENT_TYPE) in
  let m := map_insert m "Host" (one sts_host) in
  let m := map_insert m "X-Amz-Date" (one amz_date) in
  let m := map_insert m "X-Ddog-Org-Id" (one org_uuid) in
  if is_empty token then m else map_insert m "X-Amz-Security-Token" (one token).

Definition generate_auth_proof (aws_credentials : AwsCredentials) (region org_uuid : string) (now : Z) :
    option string :=
  if is_empty (aws_access_key_id aws_credentials) || is_empty (aws_secret_access_key aws_credentials)
  then None
  else if is_empty org_uuid then None
  else
    let sts_host := "sts." +:+ region +:+ ".amazonaws.com" in
    let sts_url := "https://" +:+ sts_host in
    let amz_date := amz_date_of now in
    let date_stamp := date_stamp_of now in
    let payload_hash := hex_bytes (sha256_digest (as_bytes GET_CALLER_IDENTITY_BODY)) in
    let token := aws_session_token aws_credentials in
    let '(signed_headers, canonical_headers) :=
      if is_empty token then
        ("content-type;host;x-amz-date;x-ddog-org-id"%string,
         "content-type:" +:+ CONTENT_TYPE +:+ NL +:+ "host:" +:+ sts_host +:+ NL +:+ "x-amz-date:" +:+ amz_date
           +:+ NL +:+ ORG_ID_HEADER +:+ ":" +:+ org_uuid)
      else
        ("content-type;host;x-amz-date;x-amz-security-token;x-ddog-org-id"%string,
         "content-type:" +:+ CONTENT_TYPE +:+ NL +:+ "host:" +:+ sts_host +:+ NL +:+ "x-amz-date:" +:+ amz_date
           +:+ NL +:+ "x-amz-security-token:" +:+ token +:+ NL +:+ ORG_ID_HEADER +:+ ":" +:+ org_uuid) in
    let canonical_request :=
      "POST" +:+ NL +:+ "/" +:+ NL +:+ NL +:+ canonical_headers +:+ NL +:+ NL +:+ signed_headers +:+ NL +:+
      payload_hash in
    let algorithm := "AWS4-HMAC-SHA256"%string in
    let credential_scope := date_stamp +:+ "/" +:+ region +:+ "/" +:+ STS_SERVICE +:+ "/aws4_request" in
    let string_to_sign :=
      algorithm +:+ NL +:+ amz_date +:+ NL +:+ credential_scope +:+ NL +:+
      hex_bytes (sha256_digest (as_bytes canonical_request)) in
    signing_key ← get_aws4_signature_key (aws_secret_access_key aws_credentials) date_stamp region STS_SERVICE;
    signature ← hex_bytes <$> sign signing_key string_to_sign;
    let authorization :=
      algorithm +:+ " Credential=" +:+ aws_access_key_id aws_credentials +:+ "/" +:+ credential_scope +:+
      ", SignedHeaders=" +:+ signed_headers +:+ ", Signature=" +:+ signature in
    headers_json ← value_to_string (VObject (proof_headers authorization sts_host amz_date org_uuid token));
    Some (b64_encode GET_CALLER_IDENTITY_BODY +:+ "|" +:+ b64_encode headers_json +:+ "|POST|" +:+
          b64_encode sts_url).

Definition INTAKE_KEY_ENDPOINT : string := "/api/v2/intake-key".

Definition get_api_endpoint (site : string) : string :=
  let site := trim site in
  if is_empty site then "https://api.datadoghq.com" +:+ INTAKE_KEY_ENDPOINT
  else
    let domain := if starts_with "https://" site || starts_with "http://" site
                  then str_split_nth 0 "/" (default site (split_nth1 "://" site))
                  else site in
    "https://api." +:+ domain +:+ INTAKE_KEY_ENDPOINT.

Definition get_delegated_api_key (site org_uuid : string) (aws_config : AwsSettings)
    (aws_credentials : AwsCredentials) (now : Z) : option string :=
  proof ← generate_auth_proof aws_credentials (aws_region aws_config) org_uuid now;
  authorization ← header_value_from_str ("Delegated " +:+ proof);
  '(status, text) ← post_datadog
    {| url := get_api_endpoint site;
       headers := <["authorization"%string := authorization]> {[ "content-type"%string := "application/json"%string ]};
       body := EmptyString |};
  if negb ((200 <=? status) && (status <? 300)) then None
  else
    parsed ← value_from_str (default EmptyString text);
    let api_key := default EmptyString
      (value_get parsed "data" ≫= fun d => value_get d "attributes" ≫= fun a => str_at a "api_key") in
    if is_empty api_key then None else Some api_key.

(** * The API key *)

Definition clean_api_key (maybe_key : option string) : option string :=
  key ← maybe_key;
  non_empty (remove_char " " (trim_end_char (ascii_of_nat 10) key)).

(** Settings of the configuration crate. *)
Record KeyConfig := { dd_org_uuid : string; api_key : string; key_site : string }.

(** [client] is whether a client for AWS could be built. *)
Definition resolve_secrets (fips client : bool) (config : LambdaConfig) (keys : KeyConfig)
    (aws_config : AwsSettings) (now now' : Z) : outcome (option string) :=
  api_key_candidate ←
    (if negb (is_empty (api_key_secret_arn config)) || negb (is_empty (kms_api_key config))
        || negb (is_empty (api_key_ssm_arn config)) || negb (is_empty (dd_org_uuid keys))
     then
       if negb client then Done None
       else match get_aws_credentials with
       | None => Done None
       | Some aws_credentials =>
           if negb (is_empty (dd_org_uuid keys)) then
             Done (get_delegated_api_key (key_site keys) (dd_org_uuid keys) aws_config aws_credentials now)
           else if negb (is_empty (kms_api_key config)) then
             decrypt_aws_kms fips (kms_api_key config) aws_config aws_credentials now now'
           else if negb (is_empty (api_key_secret_arn config)) then
             decrypt_aws_sm fips (api_key_secret_arn config) aws_config aws_credentials now
           else decrypt_aws_ssm fips (api_key_ssm_arn config) aws_config aws_credentials now
       end
     else Done (Some (api_key keys)));
  Done (clean_api_key api_key_candidate).

(** * Additional endpoints *)

(** [timely] is whether the answer comes before the timeout. *)
Definition fetch_additional_endpoints {T} (from_str : string -> option T) (fips : bool)
    (secret_arn : string) (aws_config : AwsSettings) (aws_credentials : AwsCredentials) (now : Z)
    (timely : bool) : outcome (option T) :=
  if is_empty secret_arn then Done None
  else if timely then
    result ← decrypt_aws_sm fips secret_arn aws_config aws_credentials now;
    Done (result ≫= from_str)
  else Done None.

(** The endpoints of metrics, of traces and of logs, and the secrets that replace them. *)
Record AdditionalEndpoints {LogsEndpoint : Type} := {
  additional_endpoints : gmap string (list string);
  apm_additional_endpoints : gmap string (list string);
  logs_config_additional_endpoints : list LogsEndpoint;
}.
Record EndpointSecrets := {
  additional_endpoints_secret_arn : string;
  apm_additional_endpoints_secret_arn : string;
  logs_config_additional_endpoints_secret_arn : string;
}.

Definition has_additional_endpoints_secrets (config : EndpointSecrets) : bool :=
  negb (is_empty (additional_endpoints_secret_arn config)
        && is_empty (apm_additional_endpoints_secret_arn config)
        && is_empty (logs_config_additional_endpoints_secret_arn config)).

(** The credentials and each of the three secrets come in time or not. *)
Definition resolve_additional_endpoints_secrets {LogsEndpoint}
    (endpoints_from_str : string -> option (gmap string (list string)))
    (logs_from_str : string -> option (list LogsEndpoint)) (fips client : bool)
    (config : @AdditionalEndpoints LogsEndpoint) (secrets : EndpointSecrets) (aws_config : AwsSettings)
    (now : Z) (credentials_timely metrics_timely apm_timely logs_timely : bool) :
    outcome (@AdditionalEndpoints LogsEndpoint) :=
  if negb (has_additional_endpoints_secrets secrets) then Done config
  else if negb client then Done config
  else
    match if credentials_timely then get_aws_credentials else None with
    | None => Done config
    | Some c =>
        metrics ← fetch_additional_endpoints endpoints_from_str fips
                    (additional_endpoints_secret_arn secrets) aws_config c now metrics_timely;
        apm ← fetch_additional_endpoints endpoints_from_str fips
                (apm_additional_endpoints_secret_arn secrets) aws_config c now apm_timely;
        logs ← fetch_additional_endpoints logs_from_str fips
                 (logs_config_additional_endpoints_secret_arn secrets) aws_config c now logs_timely;
        Done {| additional_endpoints := default (additional_endpoints config) metrics;
                apm_additional_endpoints := default (apm_additional_endpoints config) apm;
                logs_config_additional_endpoints := default (logs_config_additional_endpoints config) logs |}
    end.
End Secrets.

(** * Properties *)

Section Signatures.
Context `{Externals} `{SecretOps}.

Lemma signature_key_spec secret s :
  get_aws4_signature_key secret (SigV4.date s) (SigV4.region s) (SigV4.service s) = SigV4.signing_key secret s.
Proof.
  unfold get_aws4_signature_key, SigV4.signing_key, sign. cbn.
  destruct (hmac_sha256 _ (as_bytes (SigV4.date s))) as [k|]; [|done]. cbn.
  by destruct (hmac_sha256 k _).
Qed.

(** A signature over the lines of the headers, joined the way the code joins them. *)
Lemma signature_spec secret s received signed lines amz_date body key mac :
  received "x-amz-date"%string = Some amz_date ->
  SigV4.canonical_headers received signed = Some (lines +:+ NL) ->
  SigV4.signing_key secret s = Some key ->
  sign key (SigV4.ALGORITHM +:+ NL +:+ amz_date +:+ NL +:+ SigV4.scope_text s +:+ NL +:+
    hex_bytes (sha256_digest (as_bytes ("POST" +:+ NL +:+ "/" +:+ NL +:+ NL +:+ lines +:+ NL +:+ NL +:+
      str_join ";" signed +:+ NL +:+ hex_bytes (sha256_digest (as_bytes body)))))) = Some mac ->
  SigV4.expected_signature secret s "POST" "/" received signed body = Some (hex_bytes mac).
Proof.
  intros Hd Hc Hk Hs. unfold SigV4.expected_signature, SigV4.canonical_request. rewrite Hd, Hc. cbn [mbind option_bind].
  rewrite Hk. cbn [mbind option_bind]. unfold sign in Hs. unfold SigV4.string_to_sign, SigV4.sha256_hex.
  rewrite (append_assoc lines NL). by rewrite Hs.
Qed.

(** A header of the proof as it is received: its name in lower case. *)
Definition received_header (m : Map) (name : string) : option string :=
  kv ← List.find (fun kv => bool_decide (to_ascii_lowercase kv.1 = name)) m;
  match kv.2 with VArray [VString s] => Some s | _ => None end.

Definition proof_signed (token : string) : list string :=
  if is_empty token then ["content-type"; "host"; "x-amz-date"; "x-ddog-org-id"]%string
  else ["content-type"; "host"; "x-amz-date"; "x-amz-security-token"; "x-ddog-org-id"]%string.

Lemma received_name m name : is_Some (received_header m name) -> name ∈ to_ascii_lowercase <$> m.*1.
Proof.
  unfold received_header. destruct (List.find _ m) as [kv|] eqn:Hf; [|by intros [? ?]]. intros _.
  apply List.find_some in Hf as [Hin Hn]. apply bool_decide_eq_true in Hn as <-.
  apply list_elem_of_fmap_2, list_elem_of_fmap_2. by apply list_elem_of_In.
Qed.

Lemma received_proof a h d o t :
  let received := received_header (proof_headers a h d o t) in
  received "authorization"%string = Some a /\ received "content-type"%string = Some CONTENT_TYPE /\
  received "host"%string = Some h /\ received "x-amz-date"%string = Some d /\
  received "x-ddog-org-id"%string = Some o /\
  received "x-amz-security-token"%string = (if is_empty t then None else Some t) /\
  forall name, is_Some (received name) -> name = "authorization"%string \/ name ∈ proof_signed t.
Proof.
  cbn zeta. unfold proof_headers, proof_signed. destruct (is_empty t).
  all: do 6 (split; [reflexivity|]); intros name Hn; apply received_name in Hn; cbn in Hn; set_solver.
Qed.

(** The lines that the code signs are those of the headers of the proof. *)
Lemma proof_canonical a h d o t :
  SigV4.canonical_headers (received_header (proof_headers a h d o t)) (proof_signed t) =
  Some ((if is_empty t then
           "content-type:" +:+ CONTENT_TYPE +:+ NL +:+ "host:" +:+ h +:+ NL +:+ "x-amz-date:" +:+ d +:+ NL +:+
           ORG_ID_HEADER +:+ ":" +:+ o
         else
           "content-type:" +:+ CONTENT_TYPE +:+ NL +:+ "host:" +:+ h +:+ NL +:+ "x-amz-date:" +:+ d +:+ NL +:+
           "x-amz-security-token:" +:+ t +:+ NL +:+ ORG_ID_HEADER +:+ ":" +:+ o) +:+ NL).
Proof.
  destruct (received_proof a h d o t) as (_ & Hc & Hh & Hd & Ho & Ht & _). unfold proof_signed.
  destruct (is_empty t); cbn [SigV4.canonical_headers]; rewrite Hc, Hh, Hd, ?Ht, Ho; cbn [mbind option_bind];
    by rewrite !append_assoc.
Qed.

Lemma proof_signed_text t :
  str_join ";" (proof_signed t) =
  if is_empty t then "content-type;host;x-amz-date;x-ddog-org-id"%string
  else "content-type;host;x-amz-date;x-amz-security-token;x-ddog-org-id"%string.
Proof. unfold proof_signed. by destruct (is_empty t). Qed.

Lemma proof_signed_sorted t : StronglySorted (fun a b => String.ltb a b = true) (proof_signed t).
Proof. unfold proof_signed. destruct (is_empty t); by repeat constructor. Qed.

(** The proof of a delegated authentication is a request to the security token service, signed
    with the credentials of the function, whose signature covers the organization it is for. *)
Theorem auth_proof_verifies aws_credentials region org_uuid now proof :
  generate_auth_proof aws_credentials region org_uuid now = Some proof ->
  let signed := proof_signed (aws_session_token aws_credentials) in
  exists m json,
    proof = b64_encode GET_CALLER_IDENTITY_BODY +:+ "|" +:+ b64_encode json +:+ "|POST|" +:+
            b64_encode ("https://sts." +:+ region +:+ ".amazonaws.com") /\
    value_to_string (VObject m) = Some json /\
    SigV4.verifies (aws_access_key_id aws_credentials) (aws_secret_access_key aws_credentials)
      {| SigV4.date := date_stamp_of now; SigV4.region := region; SigV4.service := STS_SERVICE |}
      "POST" "/" (received_header m) signed GET_CALLER_IDENTITY_BODY /\
    received_header m ORG_ID_HEADER = Some org_uuid /\ ORG_ID_HEADER ∈ signed.
Proof.
  unfold generate_auth_proof. intros Hb. destruct (_ || _); [done|]. destruct (is_empty org_uuid); [done|].
  set (token := aws_session_token aws_credentials) in *.
  pose proof (proof_signed_text token) as Hj. destruct (is_empty token) eqn:Ht; cbn zeta iota in Hb.
  all: destruct (get_aws4_signature_key _ _ _ _) as [key|] eqn:Hk; [|done];
    cbn [mbind option_bind] in Hb; destruct (sign key _) as [mac|] eqn:Hm; [|done];
    cbn [mbind option_bind fmap option_fmap option_map] in Hb;
    destruct (value_to_string _) as [json|] eqn:Hv; [|done]; apply (inj Some) in Hb as <-; eexists _, json;
    match type of Hv with value_to_string (VObject (proof_headers ?a ?h ?d ?o ?t)) = _ =>
      pose proof (received_proof a h d o t) as (Ha & _ & _ & Hd & Ho & _ & Hs);
      pose proof (proof_canonical a h d o t) as Hc end;
    rewrite Ht in Hc; rewrite <- Hj in *;
    (split; [done|]); (split; [exact Hv|]);
    (split; [|split; [exact Ho|unfold proof_signed; rewrite Ht; cbn; set_solver]]);
    (split; [exact (proof_signed_sorted token)|]); (split; [exact Hs|]);
    exists (hex_bytes mac); (split; [|exact Ha]);
    (eapply signature_spec; [exact Hd|exact Hc|by rewrite <- signature_key_spec|exact Hm]).
Qed.

Hypothesis header_value_kept : forall s v, header_value_from_str s = Some v -> v = s.


End Signatures.

Section Keys.
Context `{Externals} `{SecretOps}.

Lemma signed_request_done fips aws_config aws_credentials region args :
  exists v, signed_request fips aws_config aws_credentials region args = Done v.
Proof.
  unfold signed_request. destruct (build_get_secret_signed_headers _ _ _ _ _) as [hs|] eqn:Hb; [|by eexists].
  assert (Hh : is_Some (hs !! "host"%string)).
  { unfold build_get_secret_signed_headers in Hb. repeat (apply bind_Some in Hb as (? & _ & Hb); cbn beta in Hb).
    apply (inj Some) in Hb as <-. eexists. by simplify_map_eq. }
  destruct Hh as [host Hh]. unfold request. rewrite Hh. by eexists.
Qed.

Lemma kms_done fips key aws_config aws_credentials now now' :
  exists v, decrypt_aws_kms fips key aws_config aws_credentials now now' = Done v.
Proof.
  unfold decrypt_aws_kms.
  destruct (signed_request_done fips aws_config aws_credentials (aws_region aws_config)
              (kms_args (VObject [("CiphertextBlob"%string, VString key)]) now)) as [v ->].
  cbn. destruct v as [v|]; [|by eexists]. destruct (plaintext v); [by eexists|].
  edestruct signed_request_done as [v' ->]. by eexists.
Qed.

Lemma sm_done fips arn aws_config aws_credentials now :
  exists v, decrypt_aws_sm fips arn aws_config aws_credentials now = Done v.
Proof. unfold decrypt_aws_sm. edestruct signed_request_done as [v ->]. by eexists. Qed.

(** C39: the key is resolved without a panic, whatever AWS and Datadog answer, in every case but one:
    the parameter store answers with a parameter that has no value. *)
Theorem key_resolution_panics_only_on_ssm fips client config keys aws_config now now' :
  resolve_secrets fips client config keys aws_config now now' = Panic <->
  client = true /\ dd_org_uuid keys = EmptyString /\ kms_api_key config = EmptyString /\
  api_key_secret_arn config = EmptyString /\ api_key_ssm_arn config <> EmptyString /\
  exists aws_credentials v parameter,
    get_aws_credentials = Some aws_credentials /\
    signed_request fips aws_config aws_credentials (arn_region (api_key_ssm_arn config) aws_config)
      (ssm_args (api_key_ssm_arn config) now) = Done (Some v) /\
    value_get v "Parameter" = Some (VObject parameter) /\ map_get parameter "Value" = None.
Proof.
  unfold resolve_secrets. split.
  - destruct (_ || _) eqn:Hany; [|done]. destruct client; [|done]. cbn [negb].
    destruct get_aws_credentials as [c|]; [|done]. destruct (dd_org_uuid keys) eqn:Ho; [|done].
    destruct (kms_api_key config) eqn:Hk; [|by edestruct kms_done as [v ->]].
    destruct (api_key_secret_arn config) eqn:Hs; [|by edestruct sm_done as [v ->]].
    destruct (api_key_ssm_arn config) eqn:Hp; [done|]. cbn [is_empty negb]. rewrite <- Hp in *.
    unfold decrypt_aws_ssm. edestruct signed_request_done as [[v|] Hv]; rewrite Hv; [|done]. cbn [mbind outcome_mbind outcome_bind].
    unfold parameter_value. destruct (value_get v "Parameter") as [p|] eqn:Hg; [|done].
    destruct p as [| | | | |parameter]; try done. cbn [mbind option_bind as_object].
    destruct (map_get parameter "Value") eqn:Hm; [done|]. intros _. repeat split; try done; [congruence|].
    by exists c, v, parameter.
  - intros (-> & -> & -> & -> & Hp & c & v & parameter & -> & Hv & Hg & Hm).
    destruct (api_key_ssm_arn config) eqn:Ha; [done|]. cbn [is_empty negb orb]. rewrite <- Ha in *.
    unfold decrypt_aws_ssm. rewrite Hv. cbn [mbind outcome_mbind outcome_bind]. unfold parameter_value. rewrite Hg.
    cbn [mbind option_bind as_object]. by rewrite Hm.
Qed.
(** Spaces are removed from a key after its trailing newlines, so a newline before spaces stays. *)
Lemma clean_key_keeps_newline : clean_api_key (Some ("key" +:+ NL +:+ " ")) = Some ("key" +:+ NL).
Proof. reflexivity. Qed.

Lemma fetch_done {T} (from_str : string -> option T) fips arn aws_config aws_credentials now timely :
  exists r, fetch_additional_endpoints from_str fips arn aws_config aws_credentials now timely = Done r /\
    forall v, r = Some v -> exists blob, from_str blob = Some v /\
      decrypt_aws_sm fips arn aws_config aws_credentials now = Done (Some blob).
Proof.
  unfold fetch_additional_endpoints. destruct (is_empty arn); [by eexists|]. destruct timely; [|by eexists].
  destruct (sm_done fips arn aws_config aws_credentials now) as [blob Hb]. rewrite Hb. eexists. split; [done|].
  intros v Hv. destruct blob as [blob|]; [|done]. by exists blob.
Qed.

(** Each kind of endpoints is what its secret holds or what was configured, whatever becomes of
    the others. *)
Lemma additional_endpoints_apart {LogsEndpoint} from_str logs_from_str fips client
    (config : @AdditionalEndpoints LogsEndpoint) secrets aws_config now t0 t1 t2 t3 :
  let held {T} (parse : string -> option T) arn v := exists c blob,
    parse blob = Some v /\ decrypt_aws_sm fips arn aws_config c now = Done (Some blob) in
  exists r, resolve_additional_endpoints_secrets from_str logs_from_str fips client config secrets aws_config
              now t0 t1 t2 t3 = Done r /\
    (additional_endpoints r = additional_endpoints config \/
     held from_str (additional_endpoints_secret_arn secrets) (additional_endpoints r)) /\
    (apm_additional_endpoints r = apm_additional_endpoints config \/
     held from_str (apm_additional_endpoints_secret_arn secrets) (apm_additional_endpoints r)) /\
    (logs_config_additional_endpoints r = logs_config_additional_endpoints config \/
     held logs_from_str (logs_config_additional_endpoints_secret_arn secrets) (logs_config_additional_endpoints r)).
Proof.
  cbn zeta. unfold resolve_additional_endpoints_secrets.
  destruct (negb _); [by exists config; auto|]. destruct (negb client); [by exists config; auto|].
  destruct (if t0 then _ else _) as [c|]; [|by exists config; auto].
  destruct (fetch_done from_str fips (additional_endpoints_secret_arn secrets) aws_config c now t1) as (m & -> & Hm).
  destruct (fetch_done from_str fips (apm_additional_endpoints_secret_arn secrets) aws_config c now t2) as (a & -> & Ha).
  destruct (fetch_done logs_from_str fips (logs_config_additional_endpoints_secret_arn secrets) aws_config c now t3)
    as (l & -> & Hl).
  eexists. split; [done|]. cbn. repeat split.
  - destruct m as [m|]; [right|by left]. destruct (Hm m eq_refl) as (blob & ? & ?). by exists c, blob.
  - destruct a as [a|]; [right|by left]. destruct (Ha a eq_refl) as (blob & ? & ?). by exists c, blob.
  - destruct l as [l|]; [right|by left]. destruct (Hl l eq_refl) as (blob & ? & ?). by exists c, blob.
Qed.
End Keys.

(** * Concrete runs *)

(** A parameter store that answers with a parameter without a value. *)
Module SecretsSample.

#[export] Instance externals : Externals :=
  {| unicode_lower := fun s => s; b64_decode := fun _ => None;
     value_from_str := fun _ => Some (VObject [("Parameter"%string, VObject [])]);
     sns_entity_from_str := fun _ => None; event_bridge_from_str := fun _ => None;
     string_map_from_str := fun _ => None; value_map_from_slice := fun _ => None;
     value_to_string := fun _ => Some "{}"%string; f64_to_string := fun _ => "0"%string;
     parse_datetime := fun _ => None; sha256_digest := fun bs => bs;
     hash_iter := fun _ m => map_to_list m; env_var := fun k => if decide (k = "AWS_DEFAULT_REGION"%string) then None else Some k |}.

#[export] Instance ops : SecretOps :=
  {| hmac_sha256 := fun key msg => Some (take 4 (key ++ msg)); b64_encode := fun s => s;
     header_value_from_str := Some; amz_date_of := fun _ => "20260101T000000Z"%string;
     date_stamp_of := fun _ => "20260101"%string; post_aws := fun _ => Some "{}"%string;
     get_url := fun _ => None; post_datadog := fun _ => None |}.

Definition aws : AwsSettings := AwsConfig_from_env 0.

End SecretsSample.

Section SecretsWitnesses.
#[local] Existing Instances SecretsSample.externals SecretsSample.ops.

Lemma parameter_without_value_panics :
  decrypt_aws_ssm false "arn:aws:ssm:us-east-1:1:parameter/key" SecretsSample.aws AwsCredentials_from_env 0 = Panic.
Proof. vm_compute. reflexivity. Qed.


Lemma auth_proof_verifies_witness :
  exists proof, generate_auth_proof AwsCredentials_from_env "us-east-1" "org" 0 = Some proof /\
    exists m json, value_to_string (VObject m) = Some json /\ received_header m ORG_ID_HEADER = Some "org"%string.
Proof.
  destruct (generate_auth_proof AwsCredentials_from_env "us-east-1" "org" 0) as [proof|] eqn:Hp;
    [|vm_compute in Hp; discriminate].
  exists proof. split; [done|].
  destruct (auth_proof_verifies _ _ _ _ _ Hp) as (m & json & _ & Hj & _ & Ho & _). by exists m, json.
Defined.
End SecretsWitnesses.
