(* ===== verification/Logger.v ===== *)
(** The log lines of the extension: [logger/mod.rs] and [logger/cold_start.rs]. A line is one
    JSON object; what reads it back is a specification, [read_string]. The lines of the HTTP
    libraries are those that the logs processor leaves out ([is_http_library_record]). *)
From S2P Require Import Prelude F64 Text LogsProcessor Triggers.
From Stdlib Require Import SpecFloat.
#[local] Open Scope Z_scope.

Definition BACKSLASH : ascii := ascii_of_nat 92.

(** * Escapes *)

(** An upper case digit of [{:04X}]. *)
Definition upper_hex_digit (n : N) : ascii :=
  ascii_of_N (if (n <? 10)%N then n + 48 else n + 55)%N.

(** Characters of several bytes are written as they are. *)
Definition escaped_char (c : ascii) : string :=
  let n := N_of_ascii c in
  if Ascii.eqb c QUOTE then String BACKSLASH (String QUOTE EmptyString)
  else if Ascii.eqb c BACKSLASH then String BACKSLASH (String BACKSLASH EmptyString)
  else if (n =? 10)%N then String BACKSLASH "n"
  else if (n =? 13)%N then String BACKSLASH "r"
  else if (n =? 9)%N then String BACKSLASH "t"
  else if (n <? 32)%N
  then String BACKSLASH ("u00" +:+ String (upper_hex_digit (n / 16)) (String (upper_hex_digit (n mod 16)) EmptyString))
  else String c EmptyString.

Fixpoint write_json_escaped (s : string) : string :=
  match s with
  | EmptyString => EmptyString
  | String c s => escaped_char c +:+ write_json_escaped s
  end.

(** * Fields *)

(** A field of an event, as it is recorded: a number, or the text of its value. *)
Inductive Recorded := RecordF64 (name : string) (value : f64) | RecordText (name : string) (value : string).

Record FieldVisitor := { message : string; fields : list (string * f64); other_fields : string }.

Definition is_finite (x : f64) : bool :=
  match x with S754_zero _ | S754_finite _ _ _ => true | _ => false end.

Definition record (self : FieldVisitor) (field : Recorded) : FieldVisitor :=
  match field with
  | RecordF64 name value =>
      if is_finite value
      then {| message := message self; fields := fields self ++ [(name, value)]; other_fields := other_fields self |}
      else self
  | RecordText name value =>
      if decide (name = "message"%string)
      then {| message := value; fields := fields self; other_fields := other_fields self |}
      else {| message := message self; fields := fields self;
              other_fields := other_fields self +:+ " " +:+ name +:+ "=" +:+ value |}
  end.

Definition FieldVisitor_default : FieldVisitor :=
  {| message := EmptyString; fields := []; other_fields := EmptyString |}.

(** A field of a group that is not an object is dropped. *)
Definition add_field (members : Map) (field : string * f64) : Map :=
  let '(name, value) := field in
  match split_once "." name with
  | None => map_insert members name (VNumber (Float value))
  | Some (group, key) =>
      match map_get members group with
      | None => map_insert members group (VObject [(key, VNumber (Float value))])
      | Some (VObject entries) => map_update members group (VObject (map_insert entries key (VNumber (Float value))))
      | Some _ => members
      end
  end.

Definition fields_to_json (fields : list (string * f64)) : Map := foldl add_field [] fields.

(** * Lines *)

Definition HTTP_LIBRARY_TARGETS : list string := ["h2"; "hyper"; "reqwest"; "rustls"]%string.

Definition is_http_library_target (target : string) : bool :=
  existsb (fun library => starts_with library target) HTTP_LIBRARY_TARGETS.

(** A span that an event is in: its name and its formatted fields. *)
Record LogSpan := { span_name : string; formatted_fields : option string }.

Definition span_prefix (scope : list LogSpan) : string :=
  foldr (fun span acc =>
           span_name span +:+
           match formatted_fields span with
           | Some (String _ _ as fields) => "{" +:+ fields +:+ "}"
           | _ => EmptyString
           end +:+ ": " +:+ acc) EmptyString scope.

Definition quote (s : string) : string := String QUOTE s.

Section Lines.
Context `{Externals}.

Definition member (kv : string * Value) : string :=
  let text v := default EmptyString (value_to_string v) in
  "," +:+ text (VString kv.1) +:+ ":" +:+ text kv.2.

(** [scope] is from the root. *)
Definition format_event (target level : string) (scope : list LogSpan) (event : list Recorded) : string :=
  let visitor := foldl record FieldVisitor_default event in
  let is_http_library := is_http_library_target target in
  let message :=
    MESSAGE_PREFIX +:+ level +:+ " | " +:+ span_prefix scope +:+ message visitor +:+
    (if is_http_library then other_fields visitor else EmptyString) in
  "{" +:+
  (if is_http_library
   then quoted "target" +:+ ":" +:+ quote (write_json_escaped target +:+ quote ",") else EmptyString) +:+
  quoted "status" +:+ ":" +:+ quote (level +:+ quote ("," +:+ quoted "message" +:+ ":" +:+
  quote (write_json_escaped message +:+ quote
  (foldr (fun kv acc => member kv +:+ acc) EmptyString (fields_to_json (fields visitor)) +:+
   "}" +:+ String (ascii_of_nat 10) EmptyString)))).
End Lines.

(** * The steps of a cold start *)

Record ColdStartDurations := {
  enable_logging_ms : f64;
  load_aws_config_ms : f64;
  create_extensions_api_client_ms : f64;
  register_extension_ms : f64;
  load_config_ms : f64;
  resolve_additional_endpoint_secrets_ms : option f64;
  wait_for_register_ms : f64;
  start_dogstatsd_ms : f64;
  create_appsec_processor_ms : option f64;
  start_telemetry_listener_ms : f64;
}.

Definition ColdStartDurations_new : ColdStartDurations :=
  {| enable_logging_ms := f64_zero; load_aws_config_ms := f64_zero;
     create_extensions_api_client_ms := f64_zero; register_extension_ms := f64_zero;
     load_config_ms := f64_zero; resolve_additional_endpoint_secrets_ms := None;
     wait_for_register_ms := f64_zero; start_dogstatsd_ms := f64_zero;
     create_appsec_processor_ms := None; start_telemetry_listener_ms := f64_zero |}.

(** Milliseconds with two decimals; [secs] is the time since the start. *)
Definition elapsed_ms (secs : f64) : f64 := fdiv (fround (fmul secs (f64_of_Z 100000))) (f64_of_Z 100).

(** The event of [log]; a step that was not taken records nothing. *)
Definition log (self : ColdStartDurations) (total_ms : f64) : list Recorded :=
  let some name value := match value with Some v => [RecordF64 name v] | None => [] end in
  [RecordText "message" "Cold start step durations"; RecordF64 "cold_start.total_ms" total_ms;
   RecordF64 "cold_start.enable_logging_ms" (enable_logging_ms self);
   RecordF64 "cold_start.load_aws_config_ms" (load_aws_config_ms self);
   RecordF64 "cold_start.create_extensions_api_client_ms" (create_extensions_api_client_ms self);
   RecordF64 "cold_start.register_extension_ms" (register_extension_ms self);
   RecordF64 "cold_start.load_config_ms" (load_config_ms self)] ++
  some "cold_start.resolve_additional_endpoint_secrets_ms"%string (resolve_additional_endpoint_secrets_ms self) ++
  [RecordF64 "cold_start.wait_for_register_ms" (wait_for_register_ms self);
   RecordF64 "cold_start.start_dogstatsd_ms" (start_dogstatsd_ms self)] ++
  some "cold_start.create_appsec_processor_ms"%string (create_appsec_processor_ms self) ++
  [RecordF64 "cold_start.start_telemetry_listener_ms" (start_telemetry_listener_ms self)].

(** * What reads a line *)

Definition hex_value (c : ascii) : option N :=
  let n := N_of_ascii c in
  if ((48 <=? n) && (n <=? 57))%N then Some (n - 48)%N
  else if ((65 <=? n) && (n <=? 70))%N then Some (n - 55)%N
  else if ((97 <=? n) && (n <=? 102))%N then Some (n - 87)%N
  else None.

(** A JSON string up to its closing quote, and what follows: a control character is not
    accepted. Escapes of code points above one byte are not read. *)
Fixpoint read_string (s : string) : option (string * string) :=
  let keep c r := '(text, rest) ← r; Some (String c text, rest) in
  match s with
  | EmptyString => None
  | String c s =>
      if Ascii.eqb c QUOTE then Some (EmptyString, s)
      else if Ascii.eqb c BACKSLASH then
        match s with
        | String e s =>
            if Ascii.eqb e QUOTE || Ascii.eqb e BACKSLASH || Ascii.eqb e "/" then keep e (read_string s)
            else if Ascii.eqb e "n" then keep (ascii_of_nat 10) (read_string s)
            else if Ascii.eqb e "r" then keep (ascii_of_nat 13) (read_string s)
            else if Ascii.eqb e "t" then keep (ascii_of_nat 9) (read_string s)
            else if Ascii.eqb e "b" then keep (ascii_of_nat 8) (read_string s)
            else if Ascii.eqb e "f" then keep (ascii_of_nat 12) (read_string s)
            else if Ascii.eqb e "u" then
              match s with
              | String "0" (String "0" (String h (String l s))) =>
                  high ← hex_value h; low ← hex_value l;
                  if (high <? 8)%N then keep (ascii_of_N (high * 16 + low)) (read_string s) else None
              | _ => None
              end
            else None
        | EmptyString => None
        end
      else if (N_of_ascii c <? 32)%N then None
      else keep c (read_string s)
  end.

(** * Properties *)
Lemma read_escaped_char c s :
  read_string (escaped_char c +:+ s) = ('(text, rest) ← read_string s; Some (String c text, rest)).
Proof. destruct c as [[] [] [] [] [] [] [] []]; reflexivity. Qed.

(** Any text is read back from its escaped form, and nothing in it ends the string early. *)
Theorem escaped_text_read_back s rest :
  read_string (write_json_escaped s +:+ quote rest) = Some (s, rest).
Proof.
  induction s as [|c s IH]; [done|]. cbn [write_json_escaped]. rewrite append_assoc, read_escaped_char, IH. done.
Qed.

Lemma prefix_append (p s : string) : String.prefix p (p +:+ s) = true.
Proof.
  induction p as [|c p IH]; [by destruct s|].
  rewrite append_cons. cbn [String.prefix].
  destruct (ascii_dec c c); [apply IH|done].
Qed.

Lemma contains_here needle s : contains needle (needle +:+ s) = true.
Proof. destruct (needle +:+ s) eqn:E; cbn [contains]; rewrite <- E, prefix_append; done. Qed.

Lemma contains_skip needle a s : contains needle s = true -> contains needle (a +:+ s) = true.
Proof.
  intros Hs. induction a as [|c a IH]; [done|].
  rewrite append_cons. cbn [contains]. rewrite IH. apply orb_true_r.
Qed.

Lemma contains_quote needle s : contains needle s = true -> contains needle (quote s) = true.
Proof. exact (contains_skip needle (String QUOTE EmptyString) s). Qed.

Section LineProperties.
Context `{Externals}.

(** The logs processor leaves out exactly the lines of the HTTP libraries: a line of the
    formatter is taken for one of them exactly when its target is one of them, whatever its
    level, spans, message and fields. *)
Theorem http_library_lines_recognised target level scope event :
  is_http_library_record (VString (format_event target level scope event)) = is_http_library_target target.
Proof.
  unfold is_http_library_record, format_event. destruct (is_http_library_target target); [|reflexivity].
  apply andb_true_intro. split.
  - rewrite !append_assoc. exact (prefix_append HTTP_LIBRARY_LINE_PREFIX _).
  - do 6 (rewrite ?append_assoc; apply contains_skip).
    apply contains_quote, contains_skip, contains_quote. exact (contains_here _ _).
Qed.

End LineProperties.
