(* ===== verification/Services.v ===== *)
(** The services that own their state and answer commands over a channel, and the handles through
    which other tasks call them: [logs/aggregator_service.rs], [traces/trace_aggregator_service.rs],
    [traces/span_dedup_service.rs], [traces/stats_concentrator_service.rs] and
    [lifecycle/invocation/processor_service.rs].

    [Channel.step] interleaves the calls of any number of handles with the loop of the service; a
    call is numbered by its place among the commands that were sent. *)
From S2P Require Import Prelude Text F64 SpanDedup Aggregators StatsConcentrator TelemetryEvents ContextBuffer Triggers SpanInferrer EnhancedMetrics InvocationProcessor InvocationProperties.
#[local] Open Scope Z_scope.

(** * Services *)

(** [serve] handles one command, with its reply if the command has a reply channel; [None] when
    it does not return. [stops] is the command that ends the loop. *)
Class Service (St Cmd Rep : Type) := {
  serve : St -> Cmd -> option (option Rep * St);
  stops : Cmd -> bool;
  expects_reply : Cmd -> bool;
  serve_replies s c r s' : serve s c = Some (r, s') -> stops c = false ->
    is_Some r <-> expects_reply c = true;
  stop_is_silent c : stops c = true -> expects_reply c = false;
}.

(** A service that is only called by one task at a time. *)
Fixpoint serve_all `{Service St Cmd Rep} (s : St) (commands : list Cmd) : option (list (option Rep) * St) :=
  match commands with
  | [] => Some ([], s)
  | c :: commands =>
      '(r, s) ← serve s c;
      '(rs, s) ← serve_all s commands;
      Some (r :: rs, s)
  end.

(** What a caller sees: the channel is closed, the command is sent and has no reply, a reply, the
    reply channel is dropped, or the caller did not wait any longer. *)
Inductive Outcome (Rep : Type) := SendFailed | Accepted | Replied (r : Rep) | Dropped | GaveUp.
Arguments SendFailed {_}. Arguments Accepted {_}. Arguments Replied {_}. Arguments Dropped {_}.
Arguments GaveUp {_}.

(** * The channel between handles and a service *)

Module Channel.
Section Channel.
Context `{Service St Cmd Rep}.

(** [service] is [None] once the loop has ended. [outcomes] are those of the calls that have
    returned; [capacity] is [None] for an unbounded channel. *)
Record t := {
  capacity : option nat;
  queue : list (nat * Cmd);
  service : option St;
  sent : list Cmd;
  outcomes : gmap nat (Outcome Rep);
  senders : bool;
}.

Definition new (capacity : option nat) (s : St) : t :=
  {| capacity := capacity; queue := []; service := Some s; sent := []; outcomes := ∅;
     senders := true |}.

Definition full (self : t) : bool :=
  match capacity self with Some n => (n <=? length (queue self))%nat | None => false end.

(** The outcome of a call is the first one. *)
Definition record (outcomes : gmap nat (Outcome Rep)) (id : nat) (o : Outcome Rep) : gmap nat (Outcome Rep) :=
  match outcomes !! id with Some _ => outcomes | None => <[id := o]> outcomes end.

(** The command enters the channel. *)
Definition send (self : t) (c : Cmd) : t :=
  let id := length (sent self) in
  {| capacity := capacity self; queue := queue self ++ [(id, c)]; service := service self;
     sent := sent self ++ [c];
     outcomes := if expects_reply c then outcomes self else <[id := Accepted]> (outcomes self);
     senders := senders self |}.

Definition reply (self : t) (queue : list (nat * Cmd)) (s : St) (id : nat) (r : option Rep) : t :=
  {| capacity := capacity self; queue := queue; service := Some s; sent := sent self;
     outcomes := match r with Some r => record (outcomes self) id (Replied r) | None => outcomes self end;
     senders := senders self |}.

(** The loop ends: the receiver is dropped, with the reply channels it holds. *)
Definition stop (self : t) (rest : list (nat * Cmd)) : t :=
  {| capacity := capacity self; queue := []; service := None; sent := sent self;
     outcomes := foldl (fun o '(id, _) => record o id Dropped) (outcomes self) rest;
     senders := senders self |}.

Definition set_outcomes (self : t) (o : gmap nat (Outcome Rep)) : t :=
  {| capacity := capacity self; queue := queue self; service := service self; sent := sent self;
     outcomes := o; senders := senders self |}.
Definition close (self : t) : t :=
  {| capacity := capacity self; queue := queue self; service := service self; sent := sent self;
     outcomes := outcomes self; senders := false |}.

(** A call sends its command while the channel is open and has room; a call to a service that
    has ended fails at once and is not an event. The service takes the next command, or ends when
    the last handle is dropped. A caller that does not wait any longer leaves its command behind. *)
Inductive Event := Call (c : Cmd) | Serve | GiveUp (id : nat) | DropHandles.

Definition step (self : t) (e : Event) : option t :=
  match e with
  | Call c =>
      match service self with
      | Some _ => if senders self && negb (full self) then Some (send self c) else None
      | None => None
      end
  | Serve =>
      s ← service self;
      match queue self with
      | (id, c) :: rest =>
          if stops c then Some (stop self rest)
          else '(r, s) ← serve s c; Some (reply self rest s id r)
      | [] => if senders self then None else Some (stop self [])
      end
  | GiveUp id =>
      c ← sent self !! id;
      if expects_reply c then Some (set_outcomes self (record (outcomes self) id GaveUp)) else None
  | DropHandles => Some (close self)
  end.

Fixpoint run (self : t) (events : list Event) : option t :=
  match events with
  | [] => Some self
  | e :: events => self ← step self e; run self events
  end.

(** ** Every call sees the service as if the calls were made one after the other *)
Lemma serve_all_snoc (s : St) l c rs s' r s'' :
  serve_all s l = Some (rs, s') -> serve s' c = Some (r, s'') ->
  serve_all s (l ++ [c]) = Some (rs ++ [r], s'').
Proof.
  revert s rs. induction l as [|x l IH]; intros s rs Hl Hc.
  - injection Hl as <- <-. cbn. by rewrite Hc.
  - cbn in *. destruct (serve s x) as [[r1 s1]|]; [|done]. cbn in *.
    destruct (serve_all s1 l) as [[rs1 s2]|] eqn:E; [|done]. injection Hl as <- <-.
    by rewrite (IH _ _ E Hc).
Qed.

Lemma serve_all_length (s : St) l rs s' : serve_all s l = Some (rs, s') -> length rs = length l.
Proof.
  revert s rs. induction l as [|x l IH]; intros s rs Hl; [by injection Hl as <- <-|]. cbn in Hl.
  destruct (serve s x) as [[r1 s1]|]; [|done]. cbn in Hl.
  destruct (serve_all s1 l) as [[rs1 s2]|] eqn:E; [|done]. injection Hl as <- <-. cbn. by rewrite (IH _ _ E).
Qed.

(** The commands of a queue, numbered from [k]. *)
Definition numbered (k : nat) (l : list Cmd) : list (nat * Cmd) := imap (fun i c => ((k + i)%nat, c)) l.

Lemma numbered_cons k c l : numbered k (c :: l) = (k, c) :: numbered (S k) l.
Proof.
  unfold numbered. rewrite imap_cons. f_equal; [by rewrite Nat.add_0_r|].
  apply imap_ext. intros i x _. cbn. by rewrite Nat.add_succ_r.
Qed.

Lemma numbered_app k l c : numbered k (l ++ [c]) = numbered k l ++ [((k + length l)%nat, c)].
Proof. unfold numbered. rewrite imap_app. cbn. by rewrite Nat.add_0_r. Qed.

Lemma numbered_lookup k l id c : (id, c) ∈ numbered k l <-> (k <= id)%nat /\ l !! (id - k)%nat = Some c.
Proof.
  unfold numbered. rewrite elem_of_lookup_imap. split.
  - intros (i & x & [= -> ->] & Hx). split; [lia|]. by replace (k + i - k)%nat with i by lia.
  - intros [Hk Hc]. exists (id - k)%nat, c. split; [f_equal; lia|done].
Qed.

Lemma numbered_commands k l : (numbered k l).*2 = l.
Proof. unfold numbered. rewrite fmap_imap. apply list_eq. intros i. rewrite list_lookup_imap. by destruct (l !! i). Qed.

Lemma queue_head k (l : list Cmd) id c rest :
  (id, c) :: rest = numbered k (drop k l) ->
  id = k /\ l !! k = Some c /\ rest = numbered (S k) (drop (S k) l).
Proof.
  destruct (drop k l) as [|c' l'] eqn:Hd; [done|]. rewrite numbered_cons. intros [= -> -> ->].
  assert (Hk : l !! k = Some c') by (by rewrite <- (Nat.add_0_r k), <- lookup_drop, Hd).
  split; [done|]. split; [done|]. rewrite (drop_S _ _ _ Hk) in Hd. by injection Hd as ->.
Qed.

Lemma queue_nil k (l : list Cmd) : [] = numbered k (drop k l) -> (k <= length l)%nat -> k = length l.
Proof.
  intros Hq Hk. assert (length (numbered k (drop k l)) = 0%nat) as H0 by (by rewrite <- Hq).
  unfold numbered in H0. rewrite length_imap, length_drop in H0. lia.
Qed.

Lemma record_lookup o id a id' :
  record o id a !! id' = if decide (id' = id) then Some (default a (o !! id)) else o !! id'.
Proof.
  unfold record. destruct (o !! id) eqn:E; destruct (decide (id' = id)) as [->|]; cbn;
    [done|done|by rewrite lookup_insert_eq|by rewrite lookup_insert_ne].
Qed.

(** The calls that wait in a queue that is dropped. *)
Lemma drop_lookup (rest : list (nat * Cmd)) o id :
  foldl (fun o '(id, _) => record o id Dropped) o rest !! id =
  if decide (id ∈ rest.*1) then Some (default Dropped (o !! id)) else o !! id.
Proof.
  revert o. induction rest as [|[j c] rest IH]; intros o; [done|]. cbn [foldl]. rewrite IH, record_lookup.
  destruct (decide (id = j)) as [->|Hne].
  - rewrite (decide_True (P := j ∈ ((j, c) :: rest).*1)) by (cbn; set_solver).
    destruct (decide _); destruct (o !! j); done.
  - destruct (decide (id ∈ rest.*1)), (decide (id ∈ ((j, c) :: rest).*1)); cbn in *; set_solver.
Qed.

(** What a call may have returned, given the replies so far. *)
Definition explained (self : t) (reps : list (option Rep)) (id : nat) (o : Outcome Rep) : Prop :=
  exists c, sent self !! id = Some c /\
  match o with
  | Replied r => reps !! id = Some (Some r)
  | Accepted => expects_reply c = false
  | GaveUp => expects_reply c = true
  | Dropped => expects_reply c = true /\ service self = None /\ (length reps < id)%nat
  | SendFailed => False
  end.

Record linear (s0 : St) (self : t) (reps : list (option Rep)) (s : St) : Prop := {
  lin_served : serve_all s0 (take (length reps) (sent self)) = Some (reps, s);
  lin_running : Forall (fun c => stops c = false) (take (length reps) (sent self));
  lin_bound : (length reps <= length (sent self))%nat;
  lin_service : match service self with
    | Some s' => s' = s /\ queue self = numbered (length reps) (drop (length reps) (sent self))
    | None => queue self = [] /\
        ((exists c, sent self !! length reps = Some c /\ stops c = true) \/
         length reps = length (sent self))
    end;
  lin_outcomes id o : outcomes self !! id = Some o -> explained self reps id o;
  lin_returned id c : sent self !! id = Some c ->
    expects_reply c = false \/ (id < length reps)%nat \/ service self = None ->
    is_Some (outcomes self !! id);
}.

(** A run of the service, up to a command. *)
Lemma serve_all_lookup (s : St) l reps s' id c :
  serve_all s l = Some (reps, s') -> l !! id = Some c ->
  exists q r q', serve_all s (take id l) = Some (take id reps, q) /\ serve q c = Some (r, q') /\ reps !! id = Some r.
Proof.
  revert s reps id. induction l as [|x l IH]; intros s reps id Hl Hc; [done|]. cbn in Hl.
  destruct (serve s x) as [[r1 s1]|] eqn:Hx; [|done]. cbn in Hl.
  destruct (serve_all s1 l) as [[rs1 s2]|] eqn:E; [|done]. injection Hl as <- <-. destruct id as [|id].
  - injection Hc as <-. by exists s, r1, s1.
  - destruct (IH _ _ _ E Hc) as (q & r & q' & Hq & Hs & Hr). exists q, r, q'. split_and!; [|done|done].
    cbn. rewrite Hx. cbn. by rewrite Hq.
Qed.

(** A command that the service has taken: the state it was handled in, its reply, and what the
    caller has of it. *)
Lemma linear_reply s0 self reps s id c :
  linear s0 self reps s -> (id < length reps)%nat -> sent self !! id = Some c ->
  exists q r q', serve_all s0 (take id (sent self)) = Some (take id reps, q) /\ serve q c = Some (r, q') /\
    reps !! id = Some r /\ stops c = false /\ (is_Some r <-> expects_reply c = true) /\
    match r with
    | Some rep => outcomes self !! id = Some (Replied rep) \/ outcomes self !! id = Some GaveUp
    | None => outcomes self !! id = Some Accepted
    end.
Proof.
  intros [Hs Hrun Hb Hserv Ho Hret] Hid Hc.
  assert (take (length reps) (sent self) !! id = Some c) as Ht by (by rewrite lookup_take_lt).
  destruct (serve_all_lookup _ _ _ _ _ _ Hs Ht) as (q & r & q' & Hq & Hx & Hr).
  rewrite take_take, Nat.min_l in Hq by lia. pose proof (Forall_lookup_1 _ _ _ _ Hrun Ht) as Hst. cbn in Hst.
  pose proof (serve_replies _ _ _ _ Hx Hst) as He. exists q, r, q'. split_and!; [done..|].
  destruct (Hret _ _ Hc) as [o Hout]; [by right; left|]. rewrite Hout.
  destruct (Ho _ _ Hout) as (c' & Hc' & Hexp). rewrite Hc in Hc'. injection Hc' as <-.
  assert (expects_reply c = true -> exists rep, r = Some rep) as Hsome by (intros Hx'; by apply He).
  assert (forall rep, r = Some rep -> expects_reply c = true) as Hx' by (intros rep ->; apply He; eauto).
  destruct o; [done| | | |].
  - destruct r; [|done]. specialize (Hx' _ eq_refl). congruence.
  - assert (r = Some r0) as -> by congruence. by left.
  - destruct Hexp as (_ & _ & Hlt). lia.
  - destruct (Hsome Hexp) as [rep ->]. by right.
Qed.

Lemma explained_mono self self' reps reps' id o :
  (forall i c, sent self !! i = Some c -> sent self' !! i = Some c) -> reps `prefix_of` reps' ->
  (service self = None -> service self' = None /\ reps' = reps) ->
  explained self reps id o -> explained self' reps' id o.
Proof.
  intros Hs Hr Hn (c & Hc & Ho). exists c. split; [by apply Hs|]. destruct o; try done.
  - by eapply prefix_lookup_Some.
  - destruct Ho as (He & Hnone & Hl). destruct (Hn Hnone) as [? ->]. done.
Qed.

Lemma new_linear n s0 : linear s0 (new n s0) [] s0.
Proof. split; cbn; done. Qed.

Lemma send_linear s0 self reps s c s' :
  service self = Some s' -> linear s0 self reps s -> linear s0 (send self c) reps s.
Proof.
  intros Hsome [Hs Hrun Hb Hserv Ho Hr]. rewrite Hsome in Hserv. destruct Hserv as [-> Hq].
  assert (Hpre : forall i x, sent self !! i = Some x -> (sent self ++ [c]) !! i = Some x)
    by (intros i x; apply lookup_app_l_Some).
  split; cbn [send sent service queue outcomes].
  - by rewrite take_app_le.
  - by rewrite take_app_le.
  - rewrite length_app. cbn. lia.
  - rewrite Hsome. split; [done|]. rewrite drop_app_le, numbered_app, Hq by done. do 3 f_equal.
    rewrite length_drop. lia.
  - intros id o Hid.
    assert (explained self reps id o \/ (id = length (sent self) /\ o = Accepted /\ expects_reply c = false)) as [He|(-> & -> & He)].
    { destruct (expects_reply c) eqn:Hc; [by left; apply Ho|].
      apply lookup_insert_Some in Hid as [[<- <-]|[_ Hid]]; [by right|left; by apply Ho]. }
    + eapply explained_mono; [..|exact He]; cbn; [done|done|by rewrite Hsome].
    + exists c. cbn. split; [by apply list_lookup_middle|done].
  - intros id x Hid Hcase. rewrite Hsome in Hcase.
    apply lookup_snoc_Some in Hid as [[Hl Hx]|[-> <-]].
    + assert (is_Some (outcomes self !! id)) as [o Hoo].
      { apply (Hr id x Hx). rewrite Hsome. done. }
      destruct (expects_reply c); [by eexists|]. rewrite lookup_insert_ne by lia. by eexists.
    + destruct Hcase as [->|[?|?]]; [by rewrite lookup_insert_eq; eexists|lia|done].
Qed.

Lemma reply_linear s0 self reps s id c rest r s' :
  service self = Some s -> queue self = (id, c) :: rest -> stops c = false ->
  serve s c = Some (r, s') -> linear s0 self reps s ->
  linear s0 (reply self rest s' id r) (reps ++ [r]) s'.
Proof.
  intros Hsome Hq0 Hst Hc [Hs Hrun Hb Hserv Ho Hr]. rewrite Hsome in Hserv. destruct Hserv as [_ Hq].
  rewrite Hq0 in Hq. apply queue_head in Hq as (-> & Hk & ->).
  pose proof (lookup_lt_Some _ _ _ Hk) as Hlt.
  pose proof (serve_replies s c r s' Hc Hst) as Hrep.
  split; cbn [reply sent service queue outcomes]; rewrite ?length_app; cbn [length].
  - rewrite Nat.add_1_r. rewrite (take_S_r _ _ _ Hk). by eapply serve_all_snoc.
  - rewrite Nat.add_1_r, (take_S_r _ _ _ Hk). apply Forall_app. auto.
  - lia.
  - split; [done|]. by rewrite Nat.add_1_r.
  - intros id o Hid.
    assert (explained self reps id o \/ (id = length reps /\ exists v, r = Some v /\ o = Replied v)) as [He|(-> & v & -> & ->)].
    { destruct r as [v|]; [|by left; apply Ho]. rewrite record_lookup in Hid.
      destruct (decide (id = length reps)) as [->|]; [|by left; apply Ho].
      destruct (outcomes self !! length reps) as [o'|] eqn:Hoo; cbn in Hid; injection Hid as <-;
        [left; by apply Ho|right; eauto]. }
    + eapply explained_mono; [..|exact He]; cbn; [done|by apply prefix_app_r|by rewrite Hsome].
    + exists c. cbn. split; [done|]. by rewrite list_lookup_middle.
  - intros id x Hid Hcase.
    assert (is_Some (outcomes self !! id) \/ (id = length reps /\ expects_reply x = true)) as [[o Hoo]|[-> He]].
    { destruct (expects_reply x) eqn:Hx; [|left; apply (Hr id x Hid); by left].
      destruct Hcase as [?|[Hl|?]]; [done| |done].
      destruct (decide (id = length reps)) as [->|]; [by right|].
      left. apply (Hr id x Hid). right. left. lia. }
    + destruct r as [v|]; [|by eexists]. rewrite record_lookup.
      destruct (decide _) as [->|]; by eexists.
    + assert (x = c) as -> by congruence.
      destruct (proj2 Hrep He) as [v ->]. rewrite record_lookup, decide_True by done. by eexists.
Qed.

(** The loop ends at a command that stops it, or at the end of the queue. *)
Lemma stop_linear s0 self reps s rest :
  service self = Some s -> linear s0 self reps s ->
  match queue self with (_, c) :: q => stops c = true /\ rest = q | [] => rest = [] end ->
  linear s0 (stop self rest) reps s.
Proof.
  intros Hsome [Hs Hrun Hb Hserv Ho Hr] Hcase. rewrite Hsome in Hserv. destruct Hserv as [_ Hq].
  assert (rest = numbered (S (length reps)) (drop (S (length reps)) (sent self)) /\
    ((exists c, sent self !! length reps = Some c /\ stops c = true) \/ length reps = length (sent self)))
    as [-> Hend].
  { destruct (queue self) as [|[id c] q].
    - apply queue_nil in Hq; [|done]. subst. rewrite drop_ge by lia. split; [done|by right].
    - destruct Hcase as [Hst ->]. apply queue_head in Hq as (_ & Hk & ->). split; [done|left; eauto]. }
  split; cbn [stop sent service queue outcomes]; [done..| | |].
  - done.
  - intros id o Hid. rewrite drop_lookup in Hid.
    destruct (decide (id ∈ _)) as [Hin|]; [|eapply explained_mono; [..|exact (Ho _ _ Hid)]; cbn; by rewrite ?Hsome].
    destruct (outcomes self !! id) as [o'|] eqn:E; cbn in Hid; injection Hid as <-;
      [eapply explained_mono; [..|exact (Ho _ _ E)]; cbn; by rewrite ?Hsome|].
    apply list_elem_of_fmap in Hin as ([j x] & -> & Hin). apply numbered_lookup in Hin as [Hl Hx].
    rewrite lookup_drop in Hx. replace (S (length reps) + (j - S (length reps)))%nat with j in Hx by lia.
    exists x. cbn in *. split; [done|]. split_and!; [|done|lia].
    destruct (expects_reply x) eqn:Ex; [done|]. destruct (Hr j x Hx (or_introl Ex)) as [? ?]. congruence.
  - intros id x Hid _. rewrite drop_lookup. destruct (decide (id ∈ _)) as [|Hout]; [by eexists|].
    apply (Hr id x Hid). destruct (expects_reply x) eqn:E; [right; left|by left].
    pose proof (lookup_lt_Some _ _ _ Hid).
    destruct (decide (id < length reps)%nat) as [|Hge]; [done|]. exfalso.
    destruct (decide (id = length reps)) as [->|].
    + destruct Hend as [(c & Hc & Hst)|]; [|lia]. assert (x = c) as -> by congruence.
      by rewrite (stop_is_silent c Hst) in E.
    + apply Hout, list_elem_of_fmap. exists (id, x). split; [done|]. apply numbered_lookup.
      split; [lia|]. rewrite lookup_drop. by replace (S (length reps) + (id - S (length reps)))%nat with id by lia.
Qed.

Lemma step_linear s0 self reps s e self' :
  linear s0 self reps s -> step self e = Some self' -> exists reps' s', linear s0 self' reps' s'.
Proof.
  intros Hlin Hstep. destruct e as [c| |id|]; cbn [step] in Hstep.
  - destruct (service self) eqn:Hs; [|done]. destruct (senders self && _); [|done].
    injection Hstep as <-. eauto using send_linear.
  - destruct (service self) as [s1|] eqn:Hs; [|done]. cbn in Hstep.
    assert (s1 = s) as -> by (destruct Hlin as [_ _ _ Hl _ _]; rewrite Hs in Hl; by destruct Hl).
    destruct (queue self) as [|[id c] rest] eqn:Hq.
    + destruct (senders self); [done|]. injection Hstep as <-. exists reps, s. eapply stop_linear; [done..|].
      by rewrite Hq.
    + destruct (stops c) eqn:Hst.
      * injection Hstep as <-. exists reps, s. eapply stop_linear; [done..|]. by rewrite Hq.
      * destruct (serve s c) as [[r s']|] eqn:Hc; [|done]. injection Hstep as <-. eauto using reply_linear.
  - destruct (sent self !! id) as [c|] eqn:Hc; [|done]. cbn in Hstep.
    destruct (expects_reply c) eqn:He; [|done]. injection Hstep as <-. exists reps, s.
    destruct Hlin as [Hs Hrun Hb Hserv Ho Hr]. split; cbn; [done..| |].
    + intros id' o. rewrite record_lookup. destruct (decide (id' = id)) as [->|]; [|apply Ho].
      intros [= <-]. destruct (outcomes self !! id) as [o|] eqn:Eo; [by apply Ho|]. by exists c.
    + intros id' c' Hc' Hcase. rewrite record_lookup. destruct (decide _); [by eexists|by apply (Hr id' c')].
  - injection Hstep as <-. exists reps, s. by destruct Hlin.
Qed.

Lemma calls_linearized_aux capacity s0 events self :
  run (new capacity s0) events = Some self -> exists reps s, linear s0 self reps s.
Proof.
  assert (Hgen : forall es x reps s, linear s0 x reps s -> run x es = Some self ->
            exists reps s, linear s0 self reps s).
  { induction es as [|e es IH]; intros x reps s Hl Hr; [injection Hr as <-; eauto|].
    cbn in Hr. destruct (step x e) as [x'|] eqn:Hx; [|done].
    destruct (step_linear _ _ _ _ _ _ Hl Hx) as (reps' & s' & Hl'). eauto. }
  apply Hgen with (reps := []) (s := s0), new_linear.
Qed.

(** However the calls of the handles and the turns of the service are interleaved, every call
    returns what the service would answer if the commands were handled one after the other in the
    order in which they were sent. A call that waits for its reply returns once the service has
    come to its command, or has ended; then it was answered, unless the caller gave up or the
    service ended before. *)
Theorem calls_linearized capacity s0 events self :
  run (new capacity s0) events = Some self ->
  exists reps s, serve_all s0 (take (length reps) (sent self)) = Some (reps, s) /\
    Forall (fun c => stops c = false) (take (length reps) (sent self)) /\
    (forall s', service self = Some s' -> s' = s) /\
    forall id c, sent self !! id = Some c ->
      match outcomes self !! id with
      | Some (Replied r) => reps !! id = Some (Some r)
      | Some Accepted => expects_reply c = false
      | Some GaveUp => expects_reply c = true
      | Some Dropped => expects_reply c = true /\ service self = None /\ (length reps < id)%nat
      | Some SendFailed => False
      | None => expects_reply c = true /\ is_Some (service self) /\ (length reps <= id)%nat
      end.
Proof.
  intros Hr. destruct (calls_linearized_aux _ _ _ _ Hr) as (reps & s & [Hs Hrun Hb Hserv Ho Hret]).
  exists reps, s. split; [done|]. split; [done|]. split.
  { intros s' Hs'. rewrite Hs' in Hserv. by destruct Hserv. }
  intros id c Hc. destruct (outcomes self !! id) as [o|] eqn:E.
  - destruct (Ho id o E) as (c' & Hc' & Hex). assert (c' = c) as -> by congruence. by destruct o.
  - destruct (expects_reply c) eqn:He; [|destruct (Hret id c Hc) as [? ?]; [by left|congruence]].
    split; [done|]. destruct (service self) eqn:Es; [|destruct (Hret id c Hc) as [? ?]; [by right; right|congruence]].
    split; [by eexists|]. destruct (decide (length reps <= id)%nat); [done|].
    destruct (Hret id c Hc) as [? ?]; [right; left; lia|congruence].
Qed.
End Channel.
End Channel.

(** * Methods of a handle *)

(** The command that a method sends, and what it returns for each outcome of the call; [None] if
    the outcome cannot be returned. *)
Record Method (Cmd Rep A : Type) := { command : Cmd; result : Outcome Rep -> option A }.
Arguments command {_ _ _}. Arguments result {_ _ _}.

(** [mpsc::error::SendError], which holds the command. *)
Inductive SendError (Cmd : Type) := NotSent (c : Cmd).
Arguments NotSent {_}.

(** Send and return; send and wait for the reply. *)
Definition tell {Cmd Rep} (c : Cmd) : Method Cmd Rep (unit + SendError Cmd) :=
  {| command := c;
     result o := match o with
                 | Accepted => Some (inl tt)
                 | SendFailed => Some (inr (NotSent c))
                 | _ => None
                 end |}.

Definition ask {Cmd Rep A E} (c : Cmd) (read : Rep -> option A) (send_error receive_error : E) :
    Method Cmd Rep (A + E) :=
  {| command := c;
     result o := match o with
                 | Replied r => inl <$> read r
                 | SendFailed => Some (inr send_error)
                 | Dropped => Some (inr receive_error)
                 | _ => None
                 end |}.

(** * The aggregator of logs *)

Inductive FlushError := FailedToSend | FailedToReceive.

Module LogsHandle.
Import LogsAggregator.

#[global] Instance service : Service t AggregatorCommand (list bytes).
Proof.
  refine {| serve self c := match c with
              | InsertBatch logs => Some (None, add_batch self logs)
              | GetBatches =>
                  '(batches, self) ← get_batches_loop (S (length (messages self))) self;
                  Some (Some batches, self)
              | Shutdown => Some (None, self)
              end;
            stops c := match c with Shutdown => true | _ => false end;
            expects_reply c := match c with GetBatches => true | _ => false end |}.
  - intros s [logs| |] r s' Hs Hst; [| |done].
    + injection Hs as <- <-. split; [by intros []|done].
    + destruct (get_batches_loop _ s) as [[b q]|]; [|done]. injection Hs as <- <-. by split; eauto.
  - by intros [].
Defined.

Abbreviation M := (Method AggregatorCommand (list bytes)).

Definition insert_batch (logs : list bytes) : M (unit + SendError AggregatorCommand) := tell (InsertBatch logs).
Definition get_batches : M (list bytes + FlushError) := ask GetBatches Some FailedToSend FailedToReceive.
Definition shutdown : M (unit + SendError AggregatorCommand) := tell Shutdown.

Definition new (max_batch_entries_size : nat) (max_content_size_bytes max_log_size_bytes : Z) :
    @Channel.t t AggregatorCommand (list bytes) :=
  Channel.new None (LogsAggregator.new max_batch_entries_size max_content_size_bytes max_log_size_bytes).
Definition default : @Channel.t t AggregatorCommand (list bytes) :=
  new MAX_BATCH_ENTRIES_SIZE MAX_CONTENT_SIZE_BYTES MAX_LOG_SIZE_BYTES.
End LogsHandle.

Lemma logs_serve_all_run l : forall s reps s',
  Forall (fun c => LogsHandle.service.(stops) c = false) l -> serve_all s l = Some (reps, s') ->
  LogsAggregator.run s l = Some (omap id reps, s').
Proof.
  induction l as [|c l IH]; intros s reps s' Hst Hl; [by injection Hl as <- <-|].
  apply Forall_cons in Hst as [Hc Hst]. cbn [serve_all] in Hl.
  destruct (serve s c) as [[r s1]|] eqn:Es; [|done]. cbn in Hl.
  destruct (serve_all s1 l) as [[rs s2]|] eqn:El; [|done]. injection Hl as <- <-.
  pose proof (IH _ _ _ Hst El) as IH1.
  destruct c as [logs| |]; cbn [serve LogsHandle.service] in Es; [injection Es as <- <-; exact IH1| |done]. cbn [LogsAggregator.run].
  destruct (get_batches_loop _ s) as [[b q]|]; [|done]. injection Es as <- <-. cbn. by rewrite IH1.
Qed.

(** C4: however many tasks insert logs and flush at the same time, and whether or not they wait
    for the answer, the service takes the commands in the order in which they entered the
    channel. Each flush it took has batches, which its caller was handed unless it gave up
    waiting; what it has not taken is in the channel, or is behind a shutdown. The batches, in
    the order of the calls, are consecutive pieces of the logs in the order in which they were
    inserted: each log of the commands it took is in one batch of one call or still queued. *)
Theorem concurrent_logs_exactly_once entries content size events self :
  Channel.run (LogsHandle.new entries content size) events = Some self ->
  exists (reps : list (option (list bytes))) s chunks,
    (length reps <= length (Channel.sent self))%nat /\
    serve_all (LogsAggregator.new entries content size) (take (length reps) (Channel.sent self)) = Some (reps, s) /\
    (forall id c, (id < length reps)%nat -> Channel.sent self !! id = Some c ->
       match c with
       | LogsAggregator.InsertBatch _ => reps !! id = Some None
       | LogsAggregator.GetBatches => exists batches, reps !! id = Some (Some batches) /\
           (Channel.outcomes self !! id = Some (Replied batches) \/ Channel.outcomes self !! id = Some GaveUp)
       | LogsAggregator.Shutdown => False
       end) /\
    (forall id batches, Channel.outcomes self !! id = Some (Replied batches) -> reps !! id = Some (Some batches)) /\
    match Channel.service self with
    | Some s' => s' = s /\ (Channel.queue self).*2 = drop (length reps) (Channel.sent self)
    | None => Channel.sent self !! length reps = Some LogsAggregator.Shutdown \/ length reps = length (Channel.sent self)
    end /\
    Forall2 (Forall2 (fun logs batch => batch = LogsAggregator.render logs)) chunks (omap id reps) /\
    mjoin (mjoin chunks) ++ LogsAggregator.messages s =
      LogsAggregator.inserted (take (length reps) (Channel.sent self)).
Proof.
  intros Hr. destruct (Channel.calls_linearized_aux _ _ _ _ Hr) as (reps & s & Hlin).
  pose proof Hlin as [Hs Hrun Hb Hserv Ho Hret]. pose proof (logs_serve_all_run _ _ _ _ Hrun Hs) as Hl.
  destruct (LogsAggregator.logs_service_spec (take (length reps) (Channel.sent self))
    (LogsAggregator.new entries content size) eq_refl) as (rs & s1 & chunks & Hl' & Hf & Hm).
  rewrite Hl in Hl'. injection Hl' as <- <-. exists reps, s, chunks. split_and!; [done|done| | | |done|done].
  - intros id c Hid Hc. destruct (Channel.linear_reply _ _ _ _ _ _ Hlin Hid Hc) as (q & r & q' & _ & _ & Hrep & Hst & He & Hout).
    destruct c as [logs| |]; [|destruct r as [batches|]; [by eauto|by destruct (proj2 He eq_refl)]|done].
    destruct r as [rep|]; [|done]. by specialize (proj1 He (mk_is_Some _ rep eq_refl)).
  - intros id batches Hid. by destruct (Ho _ _ Hid) as (c & _ & ?).
  - destruct (Channel.service self); [by destruct Hserv as [-> ->]; rewrite Channel.numbered_commands|].
    destruct Hserv as [_ [(c & Hc & Hst)|?]]; [left|by right]. by destruct c.
Qed.

(** * The aggregator of traces *)

Module TraceHandle.
Import TraceAggregator.
Section TraceHandle.
Context {Builder Generic : Type}.
Abbreviation info := (SendDataBuilderInfo Builder Generic).
Abbreviation Cmd := (@AggregatorCommand Builder Generic).

#[global] Instance service : Service (@t Builder Generic) Cmd (list (list info)).
Proof.
  refine {| serve self c := match c with
              | InsertPayload payload_info => Some (None, add self payload_info)
              | GetBatches =>
                  '(batches, self) ← get_batches_loop (S (length (queue self))) self;
                  Some (Some batches, self)
              | Clear => Some (None, clear self)
              | Shutdown => Some (None, self)
              end;
            stops c := match c with Shutdown => true | _ => false end;
            expects_reply c := match c with GetBatches => true | _ => false end |}.
  - intros s [i| | |] r s' Hs Hst; [| | |done].
    + injection Hs as <- <-. split; [by intros []|done].
    + destruct (get_batches_loop _ s) as [[b q]|]; [|done]. injection Hs as <- <-. by split; eauto.
    + injection Hs as <- <-. split; [by intros []|done].
  - by intros [].
Defined.

Abbreviation M := (Method Cmd (list (list info))).

Definition insert_payload (payload_info : info) : M (unit + SendError Cmd) := tell (InsertPayload payload_info).
Definition get_batches : M (list (list info) + FlushError) := ask GetBatches Some FailedToSend FailedToReceive.
Definition clear : M (unit + SendError Cmd) := tell Clear.
Definition shutdown : M (unit + SendError Cmd) := tell Shutdown.

Definition new (max_content_size_bytes : Z) : @Channel.t (@t Builder Generic) Cmd (list (list info)) :=
  Channel.new None (TraceAggregator.new max_content_size_bytes).
Definition default : @Channel.t (@t Builder Generic) Cmd (list (list info)) := new MAX_CONTENT_SIZE_BYTES.
End TraceHandle.
End TraceHandle.

(** * The deduplicator *)

Inductive DedupCommand := CheckAndAdd (key : DedupKey).
Inductive DedupError := DedupSendError | RecvError | Timeout.

Module DedupHandle.

#[global] Instance service : Service Deduper.t DedupCommand bool.
Proof.
  refine {| serve self c := let 'CheckAndAdd key := c in
              let '(was_added, self) := Deduper.check_and_add self key in Some (Some was_added, self);
            stops c := false; expects_reply c := true |}.
  - intros s [key] r s' Hs _. destruct (Deduper.check_and_add s key). injection Hs as <- <-. by split; eauto.
  - done.
Defined.

(** A caller with a timeout may give up. *)
Definition check_and_add (key : DedupKey) (timeout : option Z) : Method DedupCommand bool (bool + DedupError) :=
  {| command := CheckAndAdd key;
     result o := match o with
                 | Replied was_added => Some (inl was_added)
                 | SendFailed => Some (inr DedupSendError)
                 | Dropped => Some (inr RecvError)
                 | GaveUp => match timeout with Some _ => Some (inr Timeout) | None => None end
                 | Accepted => None
                 end |}.

Definition with_capacity (capacity : nat) : @Channel.t Deduper.t DedupCommand bool :=
  Channel.new None (Deduper.new capacity).
Definition new : @Channel.t Deduper.t DedupCommand bool := with_capacity 100.
End DedupHandle.

(** * The stats concentrator *)

Module ConcentratorHandle.
Section ConcentratorHandle.
Context `{Externals} {C Bucket : Type} `{ConcentratorOps C Bucket}.

#[global] Instance service :
  Service (@StatsService.t C) ConcentratorCommand (option (ClientStatsPayload Bucket)).
Proof using All.
  refine {| serve self c := let '(self, responses) := StatsService.step self c in Some (head responses, self);
            stops c := false;
            expects_reply c := match c with Flush _ _ => true | _ => false end |}.
  - intros s [md|span|force now] r s' Hs _; cbn in Hs.
    + injection Hs as <- <-. split; [by intros []|done].
    + injection Hs as <- <-. split; [by intros []|done].
    + destruct (StatsService.handle_flush s force now). injection Hs as <- <-. by split; eauto.
  - done.
Defined.

Inductive StatsError := SendStatsError | RecvStatsError.

(** The other methods are those of [StatsHandle], which remembers what it has sent. *)
Definition flush (force_flush : bool) (now : Z) :
    Method ConcentratorCommand (option (ClientStatsPayload Bucket)) (option (ClientStatsPayload Bucket) + StatsError) :=
  ask (Flush force_flush now) Some SendStatsError RecvStatsError.
End ConcentratorHandle.
End ConcentratorHandle.

(** * The invocation processor *)

Inductive ProcessorError := ChannelSend | ChannelReceive | ServiceShutdown.

Module ProcessorHandle.
Import InvocationProcessor.Processor.
Section ProcessorHandle.
Context `{Externals} `{Propagation SamplingPriority}.
Context {SortedTags : Type} (parse_tags : string -> option SortedTags) (ARCH : string) (size_of_Span : Z).

Abbreviation Cmd := (@ProcessorCommand SamplingPriority).
Abbreviation Rep := (@Reply SamplingPriority).

(** The commands that have a reply channel. *)
Definition replied (c : Cmd) : bool :=
  match c with
  | CPlatformRuntimeDone _ _ _ _ _ | CPlatformReport _ _ _ _ _ _ | GetReparentingInfo
  | UpdateReparenting _ | SetColdStartSpanTraceId _ => true
  | _ => false
  end.

Definition reply_of_kind (c : Cmd) (rep : option Rep) : Prop :=
  match c with
  | CPlatformRuntimeDone _ _ _ _ _ | CPlatformReport _ _ _ _ _ _ => rep = Some Acknowledged
  | GetReparentingInfo => exists infos, rep = Some (ReparentingInfoReply infos)
  | UpdateReparenting _ => exists contexts, rep = Some (ContextsToSend contexts)
  | SetColdStartSpanTraceId _ => exists id, rep = Some (ColdStartSpanId id)
  | _ => rep = None
  end.

Lemma step_reply_kind r (s : @t SamplingPriority SortedTags) c rep s' :
  step parse_tags ARCH size_of_Span r s c = Done (rep, s') -> reply_of_kind c rep.
Proof using All.
  destruct c; cbn [step reply_of_kind]; intros E; try (by injection E as <- _; eauto).
  all: try (destruct (Processor.update_reparenting _ _) in E); try (destruct (Processor.set_cold_start_span_trace_id _ _) in E);
    try (by injection E as <- _; eauto).
  all: unfold mbind, outcome_mbind, outcome_bind in E; case_match; by simplify_eq.
Qed.

Lemma reply_of_kind_replied c rep : reply_of_kind c rep -> is_Some rep <-> replied c = true.
Proof.
  destruct c; cbn [reply_of_kind replied]; intros Hk; first [subst rep|destruct Hk as [? ->]];
    (split; intros Hx; [destruct Hx; by simplify_eq|first [done|by eexists]]).
Qed.

(** A command comes with what the host reads when it is handled. *)
#[global] Instance service : Service (@t SamplingPriority SortedTags) (Readings * Cmd) Rep.
Proof using All.
  refine {| serve self c := match step parse_tags ARCH size_of_Span c.1 self c.2 with
                            | Done (reply, self) => Some (reply, self)
                            | Panic => None
                            end;
            stops c := match c.2 with Shutdown => true | _ => false end;
            expects_reply c := replied c.2 |}.
  - intros s [r c] rep s' Hs Hst. cbn [fst snd] in Hs.
    destruct (step parse_tags ARCH size_of_Span r s c) as [[rep1 s1]|] eqn:E; [|done].
    injection Hs as <- <-. eapply reply_of_kind_replied, step_reply_kind, E.
  - intros [r []] Hst; by cbn in *.
Defined.

(** The task behind the handle of [noop]. *)
Definition noop_reply (c : Cmd) : option Rep :=
  match c with
  | GetReparentingInfo => Some (ReparentingInfoReply [])
  | UpdateReparenting _ => Some (ContextsToSend [])
  | SetColdStartSpanTraceId _ => Some (ColdStartSpanId None)
  | CPlatformRuntimeDone _ _ _ _ _ | CPlatformReport _ _ _ _ _ _ => Some Acknowledged
  | _ => None
  end.

#[local] Instance noop : Service unit Cmd Rep.
Proof.
  refine {| serve _ c := Some (noop_reply c, tt); stops _ := false; expects_reply := replied |}.
  - intros [] c r [] [= <-] _. apply reply_of_kind_replied. destruct c; cbn; eauto.
  - done.
Defined.

Abbreviation M := (Method Cmd Rep).
Abbreviation Told := (unit + SendError Cmd)%type.

Definition on_invoke_event (request_id : string) : M Told := tell (InvokeEvent request_id).
Definition on_platform_init_start (time : Z) (runtime_version : option string) : M Told :=
  tell (CPlatformInitStart time runtime_version).
Definition on_platform_init_report (init_type : InitType) (duration_ms : f64) (timestamp : Z) : M Told :=
  tell (CPlatformInitReport init_type duration_ms timestamp).
Definition on_platform_restore_start (time : Z) : M Told := tell (CPlatformRestoreStart time).
Definition on_platform_restore_report (duration_ms : f64) (timestamp : Z) : M Told :=
  tell (CPlatformRestoreReport duration_ms timestamp).
Definition on_platform_start (request_id : string) (time : Z) : M Told := tell (CPlatformStart request_id time).

Definition acknowledged (r : Rep) : option unit := match r with Acknowledged => Some tt | _ => None end.
Definition reparenting_info (r : Rep) : option (list Buffer.ReparentingInfo) :=
  match r with ReparentingInfoReply infos => Some infos | _ => None end.
Definition contexts_to_send (r : Rep) := match r with ContextsToSend contexts => Some contexts | _ => None end.
Definition cold_start_span_id (r : Rep) : option (option Z) :=
  match r with ColdStartSpanId id => Some id | _ => None end.

Definition on_platform_runtime_done (request_id : string) (metrics : RuntimeDoneMetrics) (status : Status)
    (error_type : option string) (timestamp : Z) : M (unit + ProcessorError) :=
  ask (CPlatformRuntimeDone request_id metrics status error_type timestamp) acknowledged
    ChannelSend ChannelReceive.
Definition on_platform_report (request_id : string) (metrics : ReportMetrics) (timestamp : Z)
    (status : Status) (error_type : option string) (spans : option (list TelemetrySpan)) :
    M (unit + ProcessorError) :=
  ask (CPlatformReport request_id metrics timestamp status error_type spans) acknowledged
    ChannelSend ChannelReceive.
Definition on_universal_instrumentation_start (headers : gmap string string) (payload_value : Value)
    (request_id : option string) : M Told :=
  tell (UniversalInstrumentationStart headers payload_value request_id).
Definition record_dsm_consume_from_payload (request_id : string) (payload_value : Value) : M Told :=
  tell (RecordDsmConsumeFromPayload request_id payload_value).
Definition on_universal_instrumentation_end (headers : gmap string string) (payload_value : Value)
    (request_id : option string) : M Told :=
  tell (UniversalInstrumentationEnd headers payload_value request_id).
Definition add_reparenting (request_id : string) (span_id parent_id : Z) : M Told :=
  tell (AddReparenting request_id span_id parent_id).
Definition get_reparenting_info : M (list Buffer.ReparentingInfo + ProcessorError) :=
  ask GetReparentingInfo reparenting_info ChannelSend ChannelReceive.
Definition update_reparenting (infos : list Buffer.ReparentingInfo) : M _ :=
  ask (UpdateReparenting infos) contexts_to_send ChannelSend ChannelReceive.
Definition set_cold_start_span_trace_id (trace_id : Z) : M (option Z + ProcessorError) :=
  ask (SetColdStartSpanTraceId trace_id) cold_start_span_id ChannelSend ChannelReceive.
Definition add_tracer_span (span : Span) (client_computed_stats : bool) : M Told :=
  tell (AddTracerSpan span client_computed_stats).
Definition forward_durable_context (request_id execution_id execution_name : string)
    (first_invocation : option bool) (execution_status : option string) : M Told :=
  tell (ForwardDurableContext request_id execution_id execution_name first_invocation execution_status).
Definition on_out_of_memory_error (request_id : option string) (timestamp : Z) : M Told :=
  tell (OnOutOfMemoryError request_id timestamp).
Definition on_shutdown_event : M Told := tell OnShutdownEvent.
Definition send_ctx_spans context : M Told := tell (SendCtxSpans context).
Definition shutdown : M (unit + ProcessorError) :=
  {| command := Shutdown;
     result o := match o with
                 | Accepted => Some (inl tt)
                 | SendFailed => Some (inr ChannelSend)
                 | _ => None
                 end |}.

(** The method that sends a command. *)
Definition method_of (c : Cmd) : {A : Type & M A} :=
  match c with
  | InvokeEvent r => existT _ (on_invoke_event r)
  | CPlatformInitStart t v => existT _ (on_platform_init_start t v)
  | CPlatformInitReport i d t => existT _ (on_platform_init_report i d t)
  | CPlatformRestoreStart t => existT _ (on_platform_restore_start t)
  | CPlatformRestoreReport d t => existT _ (on_platform_restore_report d t)
  | CPlatformStart r t => existT _ (on_platform_start r t)
  | CPlatformRuntimeDone r m s e t => existT _ (on_platform_runtime_done r m s e t)
  | CPlatformReport r m t s e sp => existT _ (on_platform_report r m t s e sp)
  | UniversalInstrumentationStart h p r => existT _ (on_universal_instrumentation_start h p r)
  | RecordDsmConsumeFromPayload r p => existT _ (record_dsm_consume_from_payload r p)
  | UniversalInstrumentationEnd h p r => existT _ (on_universal_instrumentation_end h p r)
  | AddReparenting r s p => existT _ (add_reparenting r s p)
  | GetReparentingInfo => existT _ get_reparenting_info
  | UpdateReparenting infos => existT _ (update_reparenting infos)
  | SetColdStartSpanTraceId t => existT _ (set_cold_start_span_trace_id t)
  | AddTracerSpan s b => existT _ (add_tracer_span s b)
  | ForwardDurableContext r i n f s => existT _ (forward_durable_context r i n f s)
  | OnOutOfMemoryError r t => existT _ (on_out_of_memory_error r t)
  | OnShutdownEvent => existT _ on_shutdown_event
  | SendCtxSpans c => existT _ (send_ctx_spans c)
  | Shutdown => existT _ shutdown
  end.

Lemma processor_serve_all_run l : forall (s : @t SamplingPriority SortedTags) reps s',
  Forall (fun c => stops c = false) l -> serve_all s l = Some (reps, s') ->
  run parse_tags ARCH size_of_Span s l = Done (omap id reps, s').
Proof using All.
  induction l as [|[r c] l IH]; intros s reps s' Hst Hl; [by injection Hl as <- <-|].
  apply Forall_cons in Hst as [Hc Hst]. cbn [serve_all serve service fst snd] in Hl.
  destruct (Properties.run_cons parse_tags ARCH size_of_Span r c l s) as [(-> & _)|[_ ->]]; [done|].
  destruct (step parse_tags ARCH size_of_Span r s c) as [[rep s1]|]; [|done]. cbn in Hl |- *.
  destruct (serve_all s1 l) as [[rs s2]|] eqn:El; [|done]. injection Hl as <- <-.
  rewrite (IH _ _ _ Hst El). by destruct rep.
Qed.

(** The reply to a command is one its method reads. *)
Lemma reply_read c rep : reply_of_kind c (Some rep) -> is_Some (result (projT2 (method_of c)) (Replied rep)).
Proof. destruct c; cbn [reply_of_kind]; intros E; first [discriminate E|injection E as ->|destruct E as [? [= ->]]]; by eexists. Qed.

(** C21: the processor behind its handle is the sequential one. However the calls of the tasks
    that share it interleave, the commands it took are handled one at a time in the order in
    which they entered the channel: a call returns what one step of the processor answers in
    the state that the commands before it lead to, in the type of its method, unless the caller
    gave up; a call without a reply is accepted; what was not taken is in the channel. So the
    invocations that concurrent callers announced are each counted once. *)
Theorem concurrent_calls_sequential capacity resource cfg aws events
    (self : @Channel.t (@t SamplingPriority SortedTags) (Readings * Cmd) Rep) :
  let p0 := Processor.new resource cfg aws (Lambda.new true) in
  Channel.run (Channel.new capacity p0) events = Some self ->
  exists n replies p, (n <= length (Channel.sent self))%nat /\
    run parse_tags ARCH size_of_Span p0 (take n (Channel.sent self)) = Done (replies, p) /\
    match Channel.service self with
    | Some p' => p' = p /\ (Channel.queue self).*2 = drop n (Channel.sent self)
    | None => (exists r, Channel.sent self !! n = Some (r, Shutdown)) \/ n = length (Channel.sent self)
    end /\
    (forall id r c, (id < n)%nat -> Channel.sent self !! id = Some (r, c) ->
       exists replies' q reply q',
         run parse_tags ARCH size_of_Span p0 (take id (Channel.sent self)) = Done (replies', q) /\
         step parse_tags ARCH size_of_Span r q c = Done (reply, q') /\
         match reply with
         | Some rep => is_Some (result (projT2 (method_of c)) (Replied rep)) /\
             (Channel.outcomes self !! id = Some (Replied rep) \/ Channel.outcomes self !! id = Some GaveUp)
         | None => Channel.outcomes self !! id = Some Accepted
         end) /\
    (forall id rep, Channel.outcomes self !! id = Some (Replied rep) -> (id < n)%nat) /\
    (Properties.counted INVOCATIONS_METRIC p + Properties.held p =
       sum_list_with (Properties.invocations_of (is_managed_instance_mode aws))
         (Properties.received (take n (Channel.sent self))))%nat.
Proof using All.
  intros p0 Hr. destruct (Channel.calls_linearized_aux _ _ _ _ Hr) as (reps & p & Hlin).
  pose proof Hlin as [Hs Hrun Hb Hserv Ho Hret].
  pose proof (processor_serve_all_run _ _ _ _ Hrun Hs) as Hp.
  exists (length reps), (omap id reps), p. split_and!; [done|done| | | |].
  - destruct (Channel.service self); [by destruct Hserv as [-> ->]; rewrite Channel.numbered_commands|].
    destruct Hserv as [_ [([r c] & Hc & Hst)|?]]; [left|by right]. exists r. by destruct c.
  - intros id r c Hid Hc.
    destruct (Channel.linear_reply _ _ _ _ _ _ Hlin Hid Hc) as (q & rep & q' & Hq & Hx & _ & _ & _ & Hout).
    apply (Forall_take _ id) in Hrun. rewrite take_take, Nat.min_l in Hrun by lia.
    exists (omap (fun x => x) (take id reps)), q, rep, q'. split_and!; [by apply processor_serve_all_run| |].
    + cbn in Hx. destruct (step parse_tags ARCH size_of_Span r q c) as [[rep1 s1]|]; [|done]. by injection Hx as <- <-.
    + destruct rep as [rep|]; [|done]. split; [|done]. apply reply_read.
      cbn in Hx. destruct (step parse_tags ARCH size_of_Span r q c) as [[rep1 s1]|] eqn:E; [|done].
      injection Hx as -> <-. by eapply step_reply_kind.
  - intros id rep Hid. destruct (Ho _ _ Hid) as (c & _ & ?). by eapply lookup_lt_Some.
  - subst p0. destruct (Properties.run_accounts _ _ _ _ _ _ _ Hp) as [[Ha _ _ _ _] _].
    by rewrite (Ha eq_refl), Properties.counted_new.
Qed.
End ProcessorHandle.
End ProcessorHandle.

(** * Instances of the properties *)

Module ServicesSample.
(** Two calls are answered, and a third one waits when the service is shut down. *)
Definition events : list Channel.Event :=
  [Channel.Call (LogsAggregator.InsertBatch [b!"a"]%rust); Channel.Call LogsAggregator.GetBatches;
   Channel.Serve; Channel.Call (LogsAggregator.InsertBatch [b!"b"]%rust); Channel.Serve; Channel.Serve;
   Channel.Call LogsAggregator.GetBatches; Channel.Call LogsAggregator.Shutdown;
   Channel.Call LogsAggregator.GetBatches; Channel.Serve; Channel.Serve].
End ServicesSample.

Lemma calls_linearized_witness :
  match Channel.run (LogsHandle.new 10 100 100) ServicesSample.events with
  | Some self =>
      Channel.outcomes self !! 3%nat = Some (Replied [b!"[b]"]%rust) /\
      Channel.outcomes self !! 5%nat = Some Dropped /\
      exists reps, length reps = 4%nat /\ reps !! 3%nat = Some (Some [b!"[b]"]%rust)
  | None => False
  end.
Proof.
  destruct (Channel.run _ _) as [self|] eqn:Hr; [|vm_compute in Hr; discriminate].
  pose proof (Channel.calls_linearized None (LogsAggregator.new 10 100 100) ServicesSample.events self Hr) as Hl.
  vm_compute in Hr. injection Hr as <-. split; [reflexivity|]. split; [reflexivity|].
  destruct Hl as (reps & s & Hs & _ & _ & Hid). exists reps.
  pose proof (Hid 3%nat _ eq_refl) as H3. cbn in H3.
  pose proof (Hid 5%nat _ eq_refl) as (_ & _ & H5). split; [|exact H3].
  apply lookup_lt_Some in H3. lia.
Defined.

Lemma concurrent_logs_exactly_once_witness :
  match Channel.run (LogsHandle.new 10 100 100) ServicesSample.events with
  | Some self => exists reps s chunks, reps !! 1%nat = Some (Some [b!"[a]"]%rust) /\
      mjoin (mjoin chunks) ++ LogsAggregator.messages s =
        LogsAggregator.inserted (take (length (A := option (list bytes)) reps) (Channel.sent self))
  | None => False
  end.
Proof.
  destruct (Channel.run _ _) as [self|] eqn:Hr; [|vm_compute in Hr; discriminate].
  destruct (concurrent_logs_exactly_once 10 100 100 ServicesSample.events self Hr)
    as (reps & s & chunks & _ & _ & _ & Hid & _ & _ & Hm).
  exists reps, s, chunks. split; [|exact Hm]. apply Hid. vm_compute in Hr. by injection Hr as <-.
Defined.

Section Witnesses.
#[local] Existing Instances Sample.externals Sample.propagation.

(** Two tasks announce an invocation and ask for the spans to reparent. *)
Definition calls : list (@Channel.Event (Readings * @Processor.ProcessorCommand Z)) :=
  [Channel.Call (SampleRun.readings, Processor.InvokeEvent "a");
   Channel.Call (SampleRun.readings, Processor.GetReparentingInfo);
   Channel.Serve; Channel.Serve].

Lemma concurrent_calls_sequential_witness :
  let service := ProcessorHandle.service SampleRun.parse_tags "amd64" 200 in
  exists self, Channel.run (Channel.new (Some 100%nat) SampleRun.start) calls = Some self /\
    exists n replies p,
      Processor.run SampleRun.parse_tags "amd64" 200 SampleRun.start (take n (Channel.sent self)) = Done (replies, p) /\
      (1 < n)%nat.
Proof.
  intros service. destruct (Channel.run _ _) as [self|] eqn:Hr; [|vm_compute in Hr; discriminate Hr].
  exists self. split; [reflexivity|].
  destruct (ProcessorHandle.concurrent_calls_sequential SampleRun.parse_tags "amd64" 200 (Some 100%nat) None
    Sample.config SampleRun.aws calls self Hr) as (n & replies & p & _ & Hp & _ & _ & Hid & _).
  exists n, replies, p. split; [exact Hp|].
  assert (Channel.outcomes self !! 1%nat = Some (Replied (Processor.ReparentingInfoReply []))) as H1
    by (vm_compute in Hr; by injection Hr as <-).
  exact (Hid _ _ H1).
Defined.
End Witnesses.
