(* ===== verification/Servers.v ===== *)
(** The HTTP servers of the extension, from a request on the wire to its handler: the routers
    of the trace agent ([traces/trace_agent.rs]), of the lifecycle listener
    ([lifecycle/listener.rs]), of the Telemetry API listener
    ([extension/telemetry/listener.rs]), of the Runtime API proxy ([proxy/interceptor.rs]) and
    of the OTLP receiver ([otlp/agent.rs]), with the reading of a body under a limit
    ([http.rs]).

    The handlers are those of [TraceAgent], [RuntimeProxy], [ExtensionLoop] and [OtlpAgent]. What axum and
    tower-http do is [HttpOps]: which paths a pattern matches, and what the layer that limits
    bodies lets through, each with what its documentation says of it. A request with the
    method HEAD, which axum gives to the handler of GET, is written GET. *)
From S2P Require Import Prelude F64 Text DataStreams Aggregators SpanDedup Stitch ContextBuffer.
From S2P Require Import Triggers TriggerEvents Configuration SpanInferrer InvocationProcessor.
From S2P Require Import InvocationProperties Tags StatsConcentrator TraceProcessor AppSec TraceAgent.
From S2P Require Import Otlp OtlpAgent ExtensionLoop RuntimeProxy.
#[local] Open Scope Z_scope.

(** * Dispatch *)

(** A pattern without captures. *)
Definition literal (pattern : string) : bool :=
  forallb (fun c => negb (bool_decide (c = "{"%char))) (String.list_ascii_of_string pattern).

Definition captures (pattern : string) : nat :=
  length (filter (fun c => c = "{"%char) (String.list_ascii_of_string pattern)).

(** The length that a request announces. *)
Definition content_length (request : Request) : option Z :=
  h ← req_headers request !! "content-length"%string; h ← to_str h; parse_u64 h.

Class HttpOps := {
  (** the captures of a path *)
  match_path : string -> string -> option (list string);
  (** the captures of a pattern are in its order *)
  match_captures pattern path l : match_path pattern path = Some l -> length l = captures pattern;
  (** [RequestBodyLimitLayer]: the request that the service gets, unless it is refused *)
  body_limit : Z -> Request -> option Request;
  match_literal pattern path :
    literal pattern = true -> match_path pattern path = if decide (pattern = path) then Some [] else None;
  (** a request that announces more than the limit does not reach the service *)
  limit_refuses limit request len :
    content_length request = Some len -> limit < len -> body_limit limit request = None;
  limit_passes limit request :
    (forall len, content_length request = Some len -> len <= limit) -> is_Some (body_limit limit request);
  (** the layer changes nothing but that reading past the limit fails *)
  limit_reads limit request request' :
    body_limit limit request = Some request' ->
    req_headers request' = req_headers request /\
    req_body request' = match req_body request with
                        | Some body => if blen body <=? limit then Some body else None
                        | None => None
                        end;
}.

(** The route of a path, and whether it takes the method. *)
Inductive Dispatched {H : Type} :=
| Call (handler : H) (captures : list string)
| MethodNotAllowed (handler : H)
| NotFound.
Arguments Dispatched : clear implicits.

Definition takes (methods : option (list Method)) (method : Method) : bool :=
  match methods with Some l => bool_decide (method ∈ l) | None => true end.

Section Dispatch.
Context `{HttpOps} {R : Type} (path_of : R -> string) (methods_of : R -> option (list Method)).

Fixpoint dispatch (routes : list R) (method : Method) (path : string) : Dispatched R :=
  match routes with
  | [] => NotFound
  | route :: routes =>
      match match_path (path_of route) path with
      | Some captures =>
          if takes (methods_of route) method then Call route captures else MethodNotAllowed route
      | None => dispatch routes method path
      end
  end.

(** The first route with a path. *)
Definition endpoint (routes : list R) (path : string) : option R :=
  snd <$> list_find (fun r => path_of r = path) routes.

Lemma endpoint_cons r routes path :
  endpoint (r :: routes) path = if decide (path_of r = path) then Some r else endpoint routes path.
Proof using.
  unfold endpoint. cbn. destruct (decide _); [done|]. by destruct (list_find _ routes) as [[]|].
Qed.

Lemma endpoint_none routes path : endpoint routes path = None <-> path ∉ path_of <$> routes.
Proof using.
  induction routes as [|r routes IH]; [cbn; split; [set_solver|done]|].
  rewrite endpoint_cons, fmap_cons, not_elem_of_cons.
  destruct (decide _); [split; [done|intros [? _]; congruence]|]. rewrite IH.
  split; [intros Hn; split; [congruence|exact Hn]|intros [_ Hn]; exact Hn].
Qed.

Lemma dispatch_call routes method path r l :
  dispatch routes method path = Call r l ->
  r ∈ routes /\ match_path (path_of r) path = Some l /\ takes (methods_of r) method = true.
Proof.
  induction routes as [|r' routes IH]; [done|]. cbn [dispatch].
  destruct (match_path (path_of r') path) as [l'|] eqn:Hm.
  - destruct (takes (methods_of r') method) eqn:Ht; [|done]. intros [= <- <-]. split_and!; [by apply list_elem_of_here|done..].
  - intros (Hr & Hrest)%IH. split; [by apply list_elem_of_further|done].
Qed.

(** Where no pattern has a capture, a path goes to the route that has it. *)
Lemma dispatch_literal routes method path :
  Forall (fun r => literal (path_of r) = true) routes ->
  dispatch routes method path =
  match endpoint routes path with
  | Some r => if takes (methods_of r) method then Call r [] else MethodNotAllowed r
  | None => NotFound
  end.
Proof.
  induction 1 as [|r routes Hr _ IH]; [done|]. cbn [dispatch]. rewrite endpoint_cons, match_literal by done.
  by destruct (decide _).
Qed.
End Dispatch.

(** * Reading a body *)

(** The body that [Bytes::from_request] reads under the limit of [DefaultBodyLimit]; no
    limit where the layer is disabled. *)
Definition extract_request_body (limit : option Z) (request : Request) : option bytes :=
  match req_body request, limit with
  | Some body, Some limit => if blen body <=? limit then Some body else None
  | body, None => body
  | None, _ => None
  end.

Definition extract_request_body_or_empty (limit : option Z) (request : Request) : bytes :=
  default [] (extract_request_body limit request).

(** The request, as its handler reads it. *)
Definition read_under (limit : option Z) (request : Request) : Request :=
  {| req_headers := req_headers request; req_body := extract_request_body limit request |}.

Definition handler_not_found : Z := 404.

(** * The trace agent *)

(** A request as it arrives: the clock of the trace processor and the time since the epoch
    in nanoseconds are those at which its handler asks for them. *)
Record Incoming := {
  in_method : Method;
  in_path : string;
  in_request : Request;
  in_now : Z;
  in_nanos : Z;
}.

Module TraceServer.
Section TraceServer.
Context `{HttpOps} `{Externals} `{Propagation SamplingPriority} {SortedTags : Type}.
Context {W Obj : Type} `{WafOps W Obj} {P : Type} `{TraceSender P} `{TraceDecoders}.
Context {Bucket Fields : Type} (get_stats_from_request_body : bytes -> option (list (Z * Bucket) * Fields)).
Variable tags_iter : Tags -> list (TagName * TagValue).
Variable size_of_Span : Z.
Variable timely : nat -> bool.
Variable config : Config.
Variable tags_provider : Provider.

Abbreviation Agent_ := (@Agent SamplingPriority SortedTags W P).

(** What the states of the routers share: the channel to the stats forwarder may be closed. *)
Record t := {
  agent : Agent_;
  stats_tx : list (list (Z * Bucket) * Fields);
  stats_closed : bool;
  proxy_aggregator : ProxyAggregator.t (gmap string string);
}.

(** The methods [v04_traces], [v05_traces], [stats] and the proxies: each gives its part of
    the state to the handler. *)
Definition call (self : t) (i : Incoming) (request : Request) (handler : Handler) : outcome (Z * t) :=
  match handler with
  | Traces version =>
      '(status, agent) ← handle_traces tags_iter size_of_Span timely config tags_provider (agent self)
                           (in_now i) request version;
      Done (status, {| agent := agent; stats_tx := stats_tx self; stats_closed := stats_closed self;
                       proxy_aggregator := proxy_aggregator self |})
  | Stats =>
      let '(status, tx) := process_stats get_stats_from_request_body request (stats_tx self)
                             (stats_closed self) (in_nanos i) in
      Done (status, {| agent := agent self; stats_tx := tx; stats_closed := stats_closed self;
                       proxy_aggregator := proxy_aggregator self |})
  | Proxy backend_domain backend_path =>
      let '(status, proxies) := handle_proxy config (proxy_aggregator self) request backend_domain
                                  backend_path in
      Done (status, {| agent := agent self; stats_tx := stats_tx self; stats_closed := stats_closed self;
                       proxy_aggregator := proxies |})
  | Info => Done (200, self)
  end.

(** The layer is around every route of its router, and so before the choice of the method. *)
Definition limited (route : Route) (request : Request) : option Request :=
  match route_limit route with Some limit => body_limit limit request | None => Some request end.

(** The router answers a request. *)
Definition serve (self : t) (i : Incoming) : outcome (Z * t) :=
  match dispatch route_path route_methods make_router (in_method i) (in_path i) with
  | NotFound => Done (handler_not_found, self)
  | MethodNotAllowed route =>
      Done (if limited route (in_request i) then 405 else 413, self)
  | Call route _ =>
      match limited route (in_request i) with
      | None => Done (413, self)
      | Some request => call self i request (route_handler route)
      end
  end.

Fixpoint serve_all (self : t) (l : list Incoming) : outcome (list Z * t) :=
  match l with
  | [] => Done ([], self)
  | i :: l =>
      '(status, self) ← serve self i;
      '(statuses, self) ← serve_all self l;
      Done (status :: statuses, self)
  end.

(** ** Properties *)
Lemma routes_literal : Forall (fun r => literal (route_path r) = true) make_router.
Proof using. repeat (constructor; [reflexivity|]). constructor. Qed.

(** What an answer says was queued for an intake, and what for the stats aggregator. *)
Definition proxied (i : Incoming) (status : Z) : list (ProxyAggregator.ProxyRequest (gmap string string)) :=
  match route_handler <$> endpoint route_path make_router (in_path i), req_body (in_request i) with
  | Some (Proxy domain path), Some body =>
      if status =? 200 then
        [{| ProxyAggregator.headers := req_headers (in_request i); ProxyAggregator.body := body;
            ProxyAggregator.target_url :=
              ("https://" +:+ domain +:+ "." +:+ cfg_site config +:+ path)%string |}]
      else []
  | _, _ => []
  end.

Definition buffered (i : Incoming) (status : Z) : list (list (Z * Bucket) * Fields) :=
  match route_handler <$> endpoint route_path make_router (in_path i),
        req_body (in_request i) ≫= get_stats_from_request_body with
  | Some Stats, Some ((_, first_bucket) :: buckets, fields) =>
      if status =? 202 then [((Z.max 0 (in_nanos i), first_bucket) :: buckets, fields)] else []
  | _, _ => []
  end.

Definition is_traces (i : Incoming) : bool :=
  match route_handler <$> endpoint route_path make_router (in_path i) with
  | Some (Traces _) => true
  | _ => false
  end.

(** What one answer tells of the state. *)
Record told (self : t) (i : Incoming) (status : Z) (self' : t) : Prop := {
  told_proxied : ProxyAggregator.queue (proxy_aggregator self') =
                 ProxyAggregator.queue (proxy_aggregator self) ++ proxied i status;
  told_buffered : stats_tx self' = stats_tx self ++ buffered i status;
  told_agent : is_traces i = false -> agent self' = agent self;
  told_found : status = 404 <-> endpoint route_path make_router (in_path i) = None;
}.

(** An answer that adds nothing and is not [404]. *)
Lemma told_unchanged self i status r :
  endpoint route_path make_router (in_path i) = Some r -> status <> 404 -> status <> 200 -> status <> 202 ->
  told self i status self.
Proof using.
  intros Hr H404 H200 H202.
  split; unfold proxied, buffered; rewrite ?Hr; cbn.
  - rewrite (proj2 (Z.eqb_neq status 200) H200).
    by destruct (route_handler r), (req_body (in_request i)); rewrite ?app_nil_r.
  - rewrite (proj2 (Z.eqb_neq status 202) H202).
    by repeat case_match; rewrite ?app_nil_r.
  - done.
  - split; [done|discriminate].
Qed.

Lemma limited_reads route request request' :
  limited route request = Some request' ->
  req_headers request' = req_headers request /\
  (req_body request' = req_body request \/ req_body request' = None).
Proof using.
  unfold limited. destruct (route_limit route); [|intros [= ->]; auto].
  intros [Hh ->]%limit_reads. split; [done|].
  destruct (req_body request); [|by left]. destruct (_ <=? _); auto.
Qed.

Lemma handle_traces_status (self : Agent_) now request version status self' :
  handle_traces tags_iter size_of_Span timely config tags_provider self now request version =
    Done (status, self') -> status <> 404.
Proof using.
  unfold handle_traces. destruct (req_body request); [|by intros [= <- _]].
  destruct (too_large request); [by intros [= <- _]|].
  destruct (decode version _) as [[size traces]|]; [|by intros [= <- _]].
  destruct (prepare_traces _ _ _ _ _ _) as [traces' agent'].
  unfold mbind, outcome_mbind, outcome_bind.
  destruct (send_processed_traces _ _ _ _ _ _) as [[[appsec' sender] ok]|]; [|done].
  intros [= <- _]. by destruct ok.
Qed.

Lemma call_told self i request r status self' :
  endpoint route_path make_router (in_path i) = Some r -> limited r (in_request i) = Some request ->
  call self i request (route_handler r) = Done (status, self') -> told self i status self'.
Proof using.
  intros Hr [Hh Hb]%limited_reads Hc.
  destruct (route_handler r) as [version| |domain path|] eqn:Hk; cbn [call] in Hc.
  - unfold mbind, outcome_mbind, outcome_bind in Hc.
    destruct (handle_traces _ _ _ _ _ _ _ _ _) as [[st agent']|] eqn:Ht; [|done]. injection Hc as <- <-.
    apply handle_traces_status in Ht.
    split; unfold proxied, buffered, is_traces; rewrite ?Hr; cbn; rewrite ?Hk, ?app_nil_r; try done.
  - destruct (process_stats _ _ _ _ _) as [st tx] eqn:Hp. injection Hc as <- <-.
    unfold process_stats in Hp. destruct Hb as [Hb|Hb]; rewrite Hb in Hp.
    + split; unfold proxied, buffered; rewrite ?Hr; cbn; rewrite ?Hk, ?app_nil_r; cbn; try done.
      * destruct (req_body (in_request i)) as [body|]; cbn; [|by injection Hp as <- <-; rewrite app_nil_r].
        destruct (too_large request); [injection Hp as <- <-; destruct (get_stats_from_request_body body) as [[[|[]] ?]|]; by rewrite app_nil_r|].
        destruct (get_stats_from_request_body body) as [[[|[? b] l] fields]|];
          [by injection Hp as <- <-; rewrite app_nil_r| |by injection Hp as <- <-; rewrite app_nil_r].
        destruct (U64_MAX <? _); [by injection Hp as <- <-; rewrite app_nil_r|].
        by destruct (stats_closed self); injection Hp as <- <-; rewrite ?app_nil_r.
      * split; [|discriminate]. destruct (req_body (in_request i)) as [body|]; [|by injection Hp as <- _].
        repeat case_match; by injection Hp as <- _.
    + injection Hp as <- <-. destruct self. by apply (told_unchanged _ _ 400 r).
  - unfold handle_proxy in Hc. destruct Hb as [Hb|Hb]; rewrite Hb in Hc.
    + split; unfold proxied, buffered; rewrite ?Hr; cbn; rewrite ?Hk, ?app_nil_r; cbn;
        destruct (req_body (in_request i)) as [body|]; injection Hc as <- <-; cbn;
        rewrite ?Hh, ?app_nil_r; done.
    + injection Hc as <- <-. destruct self. by apply (told_unchanged _ _ 500 r).
  - injection Hc as <- <-.
    split; unfold proxied, buffered; rewrite ?Hr; cbn; rewrite ?Hk, ?app_nil_r; done.
Qed.

Lemma serve_told self i status self' : serve self i = Done (status, self') -> told self i status self'.
Proof using.
  unfold serve. rewrite (dispatch_literal _ _ _ _ _ routes_literal).
  destruct (endpoint route_path make_router (in_path i)) as [r|] eqn:Hr.
  - destruct (takes _ _); destruct (limited r (in_request i)) as [request|] eqn:Hl.
    + by apply call_told.
    + intros [= <- <-]. by apply (told_unchanged _ _ 413 r).
    + intros [= <- <-]. by apply (told_unchanged _ _ 405 r).
    + intros [= <- <-]. by apply (told_unchanged _ _ 413 r).
  - intros [= <- <-]. split; unfold proxied, buffered; rewrite ?Hr; cbn; rewrite ?app_nil_r; done.
Qed.

(** Behind the layer the handlers of traces and of stats refuse no length: the layer has
    answered such requests. *)
Lemma length_check_unreachable r request request' :
  r ∈ make_router -> route_limit r <> None -> limited r request = Some request' -> too_large request' = None.
Proof using.
  intros Hr Hlim Hl. unfold too_large. destruct (limited_reads _ _ _ Hl) as [-> _].
  assert (content_length request ≫= (fun l => if MAX_CONTENT_LENGTH <? l then Some l else None) = None) as Hc.
  { destruct (content_length request) as [len|] eqn:Hlen; [|done]. cbn.
    destruct (Z.ltb_spec MAX_CONTENT_LENGTH len); [|done]. exfalso.
    unfold limited in Hl. destruct (route_limit r) as [limit|] eqn:Hrl; [|done].
    assert (limit <= MAX_CONTENT_LENGTH).
    { cbn in Hr. repeat (apply elem_of_cons in Hr as [->|Hr]; [cbn in Hrl; by simplify_eq|]). by apply elem_of_nil in Hr. }
    rewrite (limit_refuses limit request len Hlen) in Hl by lia. done. }
  unfold content_length in Hc.
  destruct (req_headers request !! "content-length"%string) as [h|]; [|done]. cbn in Hc |- *.
  by destruct (to_str h).
Qed.

(** C16: the answers of the trace agent account for what it took. Over any sequence
    of requests, the queue of the proxied requests has grown by exactly the requests to a proxy
    endpoint that were answered [200], unchanged, in their order and for the intake of their
    endpoint on the site configured; the channel to the stats aggregator by exactly the stats
    that were answered [202], stamped with their time of arrival; what concerns traces is
    changed by requests to a traces endpoint only; and [404] is the answer to the paths that
    no route has and to no other. *)
Theorem answers_account_for_state l : forall self statuses self',
  serve_all self l = Done (statuses, self') ->
  ProxyAggregator.queue (proxy_aggregator self') =
    ProxyAggregator.queue (proxy_aggregator self) ++ mjoin (zip_with proxied l statuses) /\
  stats_tx self' = stats_tx self ++ mjoin (zip_with buffered l statuses) /\
  (forallb (fun i => negb (is_traces i)) l = true -> agent self' = agent self) /\
  Forall2 (fun i status => status = 404 <-> in_path i ∉ route_path <$> make_router) l statuses.
Proof using.
  induction l as [|i l IH]; intros self statuses self'; cbn [serve_all].
  { intros [= <- <-]. cbn. by rewrite !app_nil_r. }
  unfold mbind, outcome_mbind, outcome_bind.
  destruct (serve self i) as [[status self1]|] eqn:Hs; [|done]. apply serve_told in Hs as [Hp Hb Ha H404].
  destruct (serve_all self1 l) as [[statuses' self2]|] eqn:Hl; [|done]. intros [= <- <-].
  destruct (IH _ _ _ Hl) as (Hp' & Hb' & Ha' & H404'). cbn [zip_with mjoin list_join forallb].
  rewrite Hp', Hp, Hb', Hb, !app_assoc. split_and!; [done..| |].
  - intros [Hi Hf]%andb_prop. rewrite (Ha' Hf). apply Ha. by destruct (is_traces i).
  - constructor; [|done]. rewrite H404. apply endpoint_none.
Qed.
End TraceServer.
End TraceServer.

(** * The lifecycle listener *)

Definition HELLO_PATH : string := "/lambda/hello".
Definition START_INVOCATION_PATH : string := "/lambda/start-invocation".
Definition END_INVOCATION_PATH : string := "/lambda/end-invocation".
Definition LAMBDA_INVOCATION_MAX_PAYLOAD : Z := 6 * 1024 * 1024.

Module LifecycleServer.
Section LifecycleServer.
Context `{HttpOps} `{Externals} `{Propagation SamplingPriority} `{ProxyOps SamplingPriority}.

Inductive Handler := StartInvocation | EndInvocation | Hello.

Definition make_router : list (string * list Method * Handler) :=
  [(START_INVOCATION_PATH, [POST], StartInvocation);
   (END_INVOCATION_PATH, [POST], EndInvocation);
   (HELLO_PATH, [GET], Hello)].

(** The status, the headers of the response, and the tasks spawned. *)
Definition serve (config : Config) (i : Incoming) : Z * gmap string string * list Effect :=
  let request := read_under (Some LAMBDA_INVOCATION_MAX_PAYLOAD) (in_request i) in
  match dispatch (fun r => r.1.1) (fun r => Some r.1.2) make_router (in_method i) (in_path i) with
  | NotFound => (404, ∅, [])
  | MethodNotAllowed _ => (405, ∅, [])
  | Call (_, StartInvocation) _ =>
      let '(headers, effects) := handle_start_invocation config request in (200, headers, effects)
  | Call (_, EndInvocation) _ => (200, ∅, handle_end_invocation request)
  | Call (_, Hello) _ => (200, ∅, [])
  end.

Lemma routes_are_literal : Forall (fun r => literal r.1.1 = true) make_router.
Proof using. repeat (constructor; [reflexivity|]). constructor. Qed.

Definition ends_of (effects : list (@Effect SamplingPriority)) : list (@Effect SamplingPriority) :=
  filter (fun e => is_command ends_invocation e = true) effects.

(** A tracer that ends an invocation is heard whatever its body is: a post to the
    endpoint is answered [200] and becomes exactly one command to the processor, with the
    headers of the request and the body, which is empty where it is larger than Lambda's
    limit or could not be read. No other request ends an invocation. *)
Theorem end_of_invocation_heard config i :
  ends_of (serve config i).2 =
  if bool_decide (in_path i = END_INVOCATION_PATH /\ in_method i = POST)
  then [universal_instrumentation_end (req_headers (in_request i))
          (match req_body (in_request i) with
           | Some body => if blen body <=? LAMBDA_INVOCATION_MAX_PAYLOAD then body else []
           | None => []
           end)]
  else [].
Proof using.
  unfold serve. rewrite (dispatch_literal _ _ _ _ _ routes_are_literal).
  unfold make_router. rewrite !endpoint_cons. cbn [fst snd].
  destruct (decide (START_INVOCATION_PATH = in_path i)) as [<-|Hs].
  { rewrite bool_decide_eq_false_2 by (by intros [? _]). cbn [takes].
    by destruct (bool_decide _). }
  destruct (decide (END_INVOCATION_PATH = in_path i)) as [<-|He].
  { cbn [takes]. destruct (decide (in_method i = POST)) as [->|Hm].
    - rewrite !bool_decide_eq_true_2 by set_solver. cbn.
      unfold body_or_empty, extract_request_body, read_under; cbn.
      destruct (req_body (in_request i)) as [body|]; [|done]. cbn. by destruct (_ <=? _).
    - rewrite !bool_decide_eq_false_2 by set_solver. done. }
  rewrite bool_decide_eq_false_2 by (intros [? _]; congruence).
  destruct (decide (HELLO_PATH = in_path i)); cbn [endpoint]; [|done].
  cbn [takes]. by destruct (bool_decide _).
Qed.
End LifecycleServer.
End LifecycleServer.

(** * The listener of the Telemetry API *)

Definition MAX_BODY_BYTES : Z := 4 * 1024 * 1024.

Module TelemetryServer.
Section TelemetryServer.
Context `{HttpOps} {TelemetryEvent : Type}.
Context (from_events : bytes -> json_error + list TelemetryEvent) (from_ignored : bytes -> option json_error).

Definition make_router : list (string * list Method) := [("/"%string, [POST])].

(** The status, the events sent on, and what is held. *)
Definition serve (fragments : FragmentBuffer) (i : Incoming) (room : option nat) :
    Z * list TelemetryEvent * FragmentBuffer :=
  match dispatch fst (fun r => Some r.2) make_router (in_method i) (in_path i) with
  | NotFound => (handler_not_found, [], fragments)
  | MethodNotAllowed _ => (405, [], fragments)
  | Call _ _ =>
      handle from_events from_ignored fragments
        (extract_request_body (Some MAX_BODY_BYTES) (in_request i)) (in_now i) room
  end.

Fixpoint serve_all (fragments : FragmentBuffer) (l : list (Incoming * option nat)) :
    list Z * list TelemetryEvent * FragmentBuffer :=
  match l with
  | [] => ([], [], fragments)
  | (i, room) :: l =>
      let '(status, sent, fragments) := serve fragments i room in
      let '(statuses, sent', fragments) := serve_all fragments l in
      (status :: statuses, sent ++ sent', fragments)
  end.

(** The [maxBytes] of the buffering that the extension subscribes with. *)
Definition subscribed_max_bytes (destination_port : Z) (logs_enabled managed_instance_mode : bool) : option Z :=
  match value_get (subscription destination_port logs_enabled managed_instance_mode) "buffering"
        ≫= fun b => value_get b "maxBytes" with
  | Some (VNumber (PosInt n)) => Some n
  | _ => None
  end.

(** A post of the Telemetry API: at most twice [maxBytes] and the metadata. *)
Definition api_post (max_bytes metadata : Z) (i : Incoming) : Prop :=
  in_method i = POST /\ in_path i = "/"%string /\
  exists body, req_body (in_request i) = Some body /\ blen body <= 2 * max_bytes + metadata.

Lemma handle_bounded fragments body now room :
  bounded fragments -> bounded (handle from_events from_ignored fragments body now room).2.
Proof using.
  intros Hb. unfold handle. destruct body as [body|]; [|done].
  destruct (from_events body); [|done]. pose proof (stitch_bounded from_events from_ignored fragments body now).
  by destruct (stitch _ _ _ _ _) as [[] ?].
Qed.

Lemma handle_status fragments body now room :
  (handle from_events from_ignored fragments (Some body) now room).1.1 ∈ [200; 503].
Proof using.
  assert (forall events, (forward (TelemetryEvent := TelemetryEvent) room events).1 ∈ [200; 503]) as Hf.
  { intros events. unfold forward. destruct room; [destruct (_ <=? _)%nat|]; set_solver. }
  unfold handle. destruct (from_events body); [|apply Hf].
  destruct (stitch _ _ _ _ _) as [[] ?]; [apply Hf|set_solver..].
Qed.

Lemma serve_dispatched fragments i room :
  serve fragments i room =
  if decide ("/"%string = in_path i) then
    if takes (Some [POST]) (in_method i)
    then handle from_events from_ignored fragments
           (extract_request_body (Some MAX_BODY_BYTES) (in_request i)) (in_now i) room
    else (405, [], fragments)
  else (handler_not_found, [], fragments).
Proof using.
  unfold serve. rewrite dispatch_literal by by repeat constructor.
  unfold make_router. rewrite endpoint_cons. cbn [fst snd].
  destruct (decide _); [|done]. by destruct (takes _ _).
Qed.

Lemma serve_bounded fragments i room : bounded fragments -> bounded (serve fragments i room).2.
Proof using.
  intros Hb. rewrite serve_dispatched. destruct (decide _); [|done]. destruct (takes _ _); [|done].
  by apply handle_bounded.
Qed.

Lemma serve_accepts fragments i room max_bytes metadata :
  2 * max_bytes + metadata <= MAX_BODY_BYTES -> api_post max_bytes metadata i ->
  (serve fragments i room).1.1 ∈ [200; 503].
Proof using.
  intros Hm (Hpost & Hpath & body & Hb & Hlen). rewrite serve_dispatched, Hpath, Hpost. cbn [takes].
  rewrite decide_True, bool_decide_eq_true_2 by (done || set_solver).
  unfold extract_request_body. rewrite Hb, (proj2 (Z.leb_le _ _)) by lia. apply handle_status.
Qed.

(** C29: the limits of the telemetry listener fit each other. Whatever is sent to it, it
    never holds more than [MAX_FRAGMENT_BYTES] of a split payload; and no post that the
    Telemetry API makes under the buffering the extension subscribed with is too large for
    it, with two mebibytes left for metadata: it is answered [200], or [503] once the logs
    agent is gone. *)
Theorem telemetry_limits_fit port logs_enabled managed max_bytes metadata l : forall fragments statuses sent fragments',
  subscribed_max_bytes port logs_enabled managed = Some max_bytes -> metadata <= 2 * 1024 * 1024 ->
  bounded fragments -> serve_all fragments l = (statuses, sent, fragments') ->
  bounded fragments' /\
  Forall2 (fun p status => api_post max_bytes metadata p.1 -> status ∈ [200; 503]) l statuses.
Proof using.
  induction l as [|[i room] l IH]; intros fragments statuses sent fragments' Hmax Hmeta Hb; cbn [serve_all].
  { intros [= <- <- <-]. by split. }
  pose proof (serve_bounded fragments i room Hb) as Hb1.
  pose proof (serve_accepts fragments i room max_bytes metadata) as Hacc.
  destruct (serve fragments i room) as [[status sent1] fragments1].
  destruct (serve_all fragments1 l) as [[statuses' sent'] fragments2] eqn:Hl. intros [= <- <- <-].
  destruct (IH _ _ _ _ Hmax Hmeta Hb1 Hl) as [Hb2 Hf]. split; [done|]. constructor; [|done].
  apply Hacc. injection Hmax as <-. unfold MAX_BODY_BYTES. lia.
Qed.
End TelemetryServer.
End TelemetryServer.

(** * The proxy of the Runtime API *)

Module ProxyServer.
Section ProxyServer.
Context `{HttpOps} `{Externals} `{Propagation SamplingPriority} `{ProxyOps SamplingPriority}.

Inductive Handler := Passthrough | InvocationNext | InvocationResponse | InvocationError.

Definition make_router : list (string * list Method * Handler) :=
  [("/"%string, [GET], Passthrough);
   ("/{api_version}/runtime/invocation/next"%string, [GET], InvocationNext);
   ("/{api_version}/runtime/invocation/{request_id}/response"%string, [POST], InvocationResponse);
   ("/{api_version}/runtime/invocation/{request_id}/error"%string, [POST], InvocationError)].

(** A request of the runtime: its method, its path and its query. The parts that depend on
    how the runtime reads and writes are [read] and [sent]; [generated] is the id that the
    span of the invocation would get. *)
Record RuntimeRequest := {
  rr_method : Method;
  rr_path : string;
  rr_query : option string;
  rr_message : Message;
  rr_read : bool;
  rr_sent : bool;
  rr_generated : Z;
}.

Definition path_and_query (r : RuntimeRequest) : string :=
  match rr_query r with Some q => (rr_path r +:+ "?" +:+ q)%string | None => rr_path r end.

(** The Runtime API is its answer to a request with a method. The second capture of the last
    two patterns is the request id. *)
Definition serve (config : Config) (aws_config : ProxyConfig) (appsec : bool)
    (answer : Method -> string -> Message -> option (Z * Message)) (r : RuntimeRequest) :
    (Z * Message + Z) * list Effect :=
  let answer := answer (rr_method r) in
  let path := path_and_query r in
  let passthrough_proxy := (proxy_exchange aws_config answer path (rr_message r), []) in
  match dispatch (fun r => r.1.1) (fun r => Some r.1.2) make_router (rr_method r) (rr_path r) with
  | NotFound => passthrough_proxy
  | MethodNotAllowed _ => (inr 405, [])
  | Call (_, Passthrough) _ => passthrough_proxy
  | Call (_, InvocationNext) _ =>
      invocation_next_proxy config aws_config appsec (rr_generated r) (rr_read r) answer path (rr_message r)
  | Call (_, InvocationResponse) captures =>
      match captures with
      | [_; request_id] =>
          invocation_response_proxy aws_config appsec (rr_sent r) answer request_id path (rr_message r)
      | _ => (inr 500, [])
      end
  | Call (_, InvocationError) captures =>
      match captures with
      | [_; request_id] => invocation_error_proxy aws_config appsec answer request_id path (rr_message r)
      | _ => (inr 500, [])
      end
  end.

Lemma captured_pair pattern path l :
  match_path pattern path = Some l -> captures pattern = 2%nat -> exists a b, l = [a; b].
Proof using. intros Hm%match_captures Hc. rewrite Hc in Hm. destruct l as [|a [|b []]]; try done. eauto. Qed.

(** A task that gives a result to the App & API Protection processor. *)
Definition result_of (e : @Effect SamplingPriority) : option string :=
  match e with AppSecResult request_id _ => Some request_id | _ => None end.

Lemma next_exchange config aws_config appsec generated read answer path m :
  fst (invocation_next_proxy config aws_config appsec generated read answer path m) =
  proxy_exchange aws_config answer path m.
Proof using.
  unfold invocation_next_proxy, proxy_exchange.
  destruct (build_proxy_request aws_config path m) as [[uri m']|]; [|done].
  by destruct (answer uri m') as [[]|].
Qed.

Lemma no_result (effects : list Effect) :
  Forall (fun e => result_of e = None) effects -> forall request_id, Some request_id ∉ result_of <$> effects.
Proof using.
  intros Hf request_id (e & He & Hin)%list_elem_of_fmap. rewrite Forall_forall in Hf.
  rewrite (Hf e Hin) in He. done.
Qed.

Lemma next_no_result config aws_config appsec generated read answer path m request_id :
  Some request_id ∉
    result_of <$> snd (invocation_next_proxy config aws_config appsec generated read answer path m).
Proof using.
  apply no_result. unfold invocation_next_proxy, record_dsm_consume_from_invocation_next, lwa_invocation_next.
  destruct (build_proxy_request aws_config path m) as [[uri m']|]; [|constructor].
  destruct (answer uri m') as [[status response]|]; [|constructor]. cbn [snd]. destruct read; [|constructor].
  apply Forall_app. split; repeat case_match; by repeat constructor.
Qed.

(** The one result of a response or an error is under its request id. *)
Lemma ending_result aws_config appsec sent answer rid path m request_id :
  Some request_id ∈ result_of <$> snd (invocation_response_proxy aws_config appsec sent answer rid path m) \/
  Some request_id ∈ result_of <$> snd (invocation_error_proxy aws_config appsec answer rid path m) ->
  request_id = rid.
Proof using.
  unfold invocation_response_proxy, invocation_error_proxy, lwa_invocation_response. cbn [snd].
  intros [Hr|Hr]; repeat case_match; cbn in Hr; set_solver.
Qed.

(** C33: the runtime loses nothing by the proxy. Whatever route a request takes, its
    answer is the one of the Runtime API for the same method, path and query, unless the path
    is one that the proxy handles with another method, in which case the Runtime API does not
    see it. The result of an invocation is given to App & API Protection only on the paths of
    a response or an error, under the request id of the path. *)
Theorem runtime_requests_forwarded config aws_config appsec answer r :
  fst (serve config aws_config appsec answer r) =
    match dispatch (fun r => r.1.1) (fun r => Some r.1.2) make_router (rr_method r) (rr_path r) with
    | MethodNotAllowed _ => inr 405
    | _ => proxy_exchange aws_config (answer (rr_method r)) (path_and_query r) (rr_message r)
    end /\
  forall request_id, Some request_id ∈ result_of <$> snd (serve config aws_config appsec answer r) ->
    exists suffix version, suffix ∈ ["response"; "error"]%string /\ rr_method r = POST /\
      match_path ("/{api_version}/runtime/invocation/{request_id}/" +:+ suffix) (rr_path r) =
        Some [version; request_id].
Proof using.
  unfold serve.
  destruct (dispatch _ _ make_router (rr_method r) (rr_path r)) as [[[pattern methods] h] l|h|] eqn:Hd;
    [|split; [done|intros ? Hr; by apply elem_of_nil in Hr]..].
  apply dispatch_call in Hd as (Hin & Hm & Ht). cbn in Hin.
  repeat (apply elem_of_cons in Hin as [[= -> -> ->]|Hin]); [..|by apply elem_of_nil in Hin];
    cbn [fst snd] in Hm.
  - split; [done|]. intros ? Hr. by apply elem_of_nil in Hr.
  - split; [apply next_exchange|]. intros ? Hr. by apply next_no_result in Hr.
  - destruct (captured_pair _ _ _ Hm eq_refl) as (version & rid & ->). split; [done|].
    intros request_id Hr. pose proof (ending_result _ _ _ _ _ _ _ _ (or_introl Hr)) as ->.
    exists "response"%string, version. apply bool_decide_eq_true in Ht. set_solver.
  - destruct (captured_pair _ _ _ Hm eq_refl) as (version & rid & ->). split; [done|].
    intros request_id Hr. pose proof (ending_result _ _ false _ _ _ _ _ (or_intror Hr)) as ->.
    exists "error"%string, version. apply bool_decide_eq_true in Ht. set_solver.
Qed.
End ProxyServer.
End ProxyServer.

(** * The OTLP receiver *)

(** The limit of axum where no layer sets one. *)
Definition DEFAULT_BODY_LIMIT : Z := 2 * 1024 * 1024.

Module OtlpServer.
Section OtlpServer.
Context `{HttpOps} `{Externals} `{OtlpExternals} `{OtlpDecoders} {Sampler Uri : Type} `{TraceOps Sampler Uri}.
Context `{TraceDecoders}.
(** The encoders of the two answers: [prost] and [serde_json]. *)
Context (encode_success : OtlpEncoding -> option bytes) (encode_error : OtlpEncoding -> Z -> option bytes).
Abbreviation Pipe := (@Pipeline.t Sampler Uri).

(** The servers that [Agent::start] spawns, with their ports and the largest message of gRPC. *)
Inductive Listener := HttpListener (port : Z) | GrpcListener (port max_recv_msg_size : Z).

Definition start (config : Config) : list Listener :=
  option_list (HttpListener <$> http_port config) ++
  option_list ((fun port => GrpcListener port (resolve_grpc_max_msg_size config)) <$> grpc_port config).

(** A response: its status, the encoding of its content type unless it is plain text, and
    its body if it is not one. *)
Record Response := { rs_status : Z; rs_encoding : option OtlpEncoding; rs_body : option bytes }.

Definition otlp_error_response (status_code : Z) (encoding : OtlpEncoding) : Response :=
  match encode_error encoding status_code with
  | Some buf => {| rs_status := status_code; rs_encoding := Some encoding; rs_body := Some buf |}
  | None => {| rs_status := status_code; rs_encoding := None; rs_body := None |}
  end.

Definition otlp_success_response (encoding : OtlpEncoding) : Response :=
  match encode_success encoding with
  | Some buf => {| rs_status := 200; rs_encoding := Some encoding; rs_body := Some buf |}
  | None => {| rs_status := 500; rs_encoding := None; rs_body := None |}
  end.

Definition make_router : list (string * list Method) := [("/v1/traces"%string, [POST])].

(** The router of [start_http]: the status that the handler decides becomes a response. *)
Definition serve (config : Config) (tags_provider : Provider) (self : Pipe) (i : Incoming) :
    outcome (Response * Pipe) :=
  let plain status := {| rs_status := status; rs_encoding := None; rs_body := None |} in
  match dispatch fst (fun r => Some r.2) make_router (in_method i) (in_path i) with
  | NotFound => Done (plain handler_not_found, self)
  | MethodNotAllowed _ => Done (plain 405, self)
  | Call _ _ =>
      '(status, encoding, self) ←
        v1_traces self (in_now i) config tags_provider (read_under (Some DEFAULT_BODY_LIMIT) (in_request i));
      Done (if status =? 200 then otlp_success_response encoding else otlp_error_response status encoding, self)
  end.

(** The two protocols of the receiver agree. A request that a client posts in Protobuf,
    without headers about its tracer and within the limit of a body, leaves the pipeline as the
    same request does over gRPC, and is answered [200] exactly when that call succeeds. *)
Theorem otlp_protocols_agree config tags_provider self i body request :
  in_method i = POST -> in_path i = "/v1/traces"%string ->
  req_body (in_request i) = Some body -> blen body <= DEFAULT_BODY_LIMIT ->
  from_content_type (req_headers (in_request i) !! "content-type"%string ≫= to_str) = Protobuf ->
  header_tags_of (req_headers (in_request i)) = default_tags -> request_decode body = Some request ->
  encode_success Protobuf <> None ->
  match export self (in_now i) config tags_provider request (blen body) with
  | Done (self', ok) => exists response,
      serve config tags_provider self i = Done (response, self') /\ (rs_status response = 200 <-> ok = true)
  | Panic => serve config tags_provider self i = Panic
  end.
Proof using.
  intros Hm Hp Hb Hlen Hc Ht Hd He. unfold serve. rewrite dispatch_literal by by repeat constructor.
  unfold make_router. rewrite endpoint_cons, Hp, Hm. cbn [fst snd takes].
  rewrite decide_True, bool_decide_eq_true_2 by (done || set_solver).
  unfold v1_traces, read_under, extract_request_body. cbn [req_headers req_body].
  rewrite Hb, (proj2 (Z.leb_le _ _) Hlen), Hc, Ht. unfold Otlp.process, export. rewrite Hd.
  unfold mbind, outcome_mbind, outcome_bind.
  destruct (process_request config request) as [traces|]; [|done].
  unfold blen. destruct (process_and_send_traces _ _ _ _ _ _ _) as [[self' ok]|]; [|done].
  eexists. split; [reflexivity|]. unfold otlp_success_response, otlp_error_response.
  destruct ok; cbn; [destruct (encode_success Protobuf); done|]. by destruct (encode_error Protobuf 500).
Qed.

(** A larger body, which gRPC takes by default, is refused. *)
Lemma large_otlp_body_refused config tags_provider (self : Pipe) i body :
  in_method i = POST -> in_path i = "/v1/traces"%string ->
  req_body (in_request i) = Some body -> DEFAULT_BODY_LIMIT < blen body ->
  exists response, serve config tags_provider self i = Done (response, self) /\ rs_status response = 400.
Proof using.
  intros Hm Hp Hb Hlen. unfold serve. rewrite dispatch_literal by by repeat constructor.
  unfold make_router. rewrite endpoint_cons, Hp, Hm. cbn [fst snd takes].
  rewrite decide_True, bool_decide_eq_true_2 by (done || set_solver).
  unfold v1_traces, read_under, extract_request_body. cbn [req_headers req_body].
  rewrite Hb, (proj2 (Z.leb_gt _ _) Hlen). eexists. split; [reflexivity|].
  unfold otlp_error_response. by destruct (encode_error _ _).
Qed.
End OtlpServer.
End OtlpServer.

(** * Samples *)

Module ServerSample.

(** The segments of a path between its slashes. *)
Fixpoint segments (current : list ascii) (path : list ascii) : list string :=
  match path with
  | [] => [String.string_of_list_ascii (reverse current)]
  | c :: path =>
      if bool_decide (c = "/"%char) then String.string_of_list_ascii (reverse current) :: segments [] path
      else segments (c :: current) path
  end.

Fixpoint match_segments (pattern path : list string) : option (list string) :=
  match pattern, path with
  | [], [] => Some []
  | p :: pattern, s :: path =>
      if literal p then if bool_decide (p = s) then match_segments pattern path else None
      else cons s <$> match_segments pattern path
  | _, _ => None
  end.

Definition match_path (pattern path : string) : option (list string) :=
  if literal pattern then if decide (pattern = path) then Some [] else None
  else
    l ← match_segments (segments [] (String.list_ascii_of_string pattern))
          (segments [] (String.list_ascii_of_string path));
    if bool_decide (length l = captures pattern) then Some l else None.

Definition body_limit (limit : Z) (request : Request) : option Request :=
  if (match content_length request with Some len => limit <? len | None => false end) then None
  else Some (read_under (Some limit) request).

Lemma captures_literal pattern : literal pattern = true -> captures pattern = 0%nat.
Proof.
  unfold literal, captures. induction (String.list_ascii_of_string pattern) as [|c l IH]; [done|].
  cbn [forallb]. intros [Hc Hl]%andb_prop. rewrite filter_cons. destruct (decide (c = "{"%char)) as [->|]; [done|auto].
Qed.

#[export] Program Instance http_ops : HttpOps :=
  {| Servers.match_path := match_path; Servers.body_limit := body_limit |}.
Next Obligation.
  intros pattern path l. unfold match_path. destruct (literal pattern) eqn:Hl.
  - rewrite (captures_literal _ Hl). destruct (decide _); by intros [= <-].
  - destruct (match_segments _ _) as [l'|]; [|done]. cbn. case_bool_decide; by intros [= <-].
Qed.
Next Obligation. intros pattern path Hl. unfold match_path. by rewrite Hl. Qed.
Next Obligation.
  intros limit request len Hlen Hlt. unfold body_limit. by rewrite Hlen, (proj2 (Z.ltb_lt _ _) Hlt).
Qed.
Next Obligation.
  intros limit request Hle. unfold body_limit. destruct (content_length request) as [len|] eqn:Hlen; [|done].
  specialize (Hle len eq_refl). by rewrite (proj2 (Z.ltb_ge _ _)) by lia.
Qed.
Next Obligation.
  intros limit request request'. unfold body_limit.
  destruct (content_length request) as [len|]; [destruct (limit <? len); [done|]|]; intros [= <-];
    (split; [done|]; cbn; unfold extract_request_body; by destruct (req_body request)).
Qed.

Definition post (path : string) (body : bytes) : Incoming :=
  {| in_method := POST; in_path := path; in_now := 0; in_nanos := 5;
     in_request := {| req_headers := ∅; req_body := Some body |} |}.

(** Any body holds one bucket. *)
Definition one_bucket (body : bytes) : option (list (Z * bytes) * unit) := Some ([(1, body)], ()).

Definition server : @TraceServer.t Z string unit (list (list Span)) bytes unit :=
  {| TraceServer.agent := AgentSample.agent; TraceServer.stats_tx := []; TraceServer.stats_closed := false;
     TraceServer.proxy_aggregator := ProxyAggregator.default |}.

Definition profile : bytes := String.list_ascii_of_string "profile".
Definition stats : bytes := String.list_ascii_of_string "stats".

(** A profile, stats, and a path that no route has. *)
Definition requests : list Incoming :=
  [post PROFILING_ENDPOINT_PATH profile; post STATS_ENDPOINT_PATH stats; post "/unknown" profile].

Definition response : ProxyServer.RuntimeRequest :=
  {| ProxyServer.rr_method := POST; ProxyServer.rr_path := "/2018-06-01/runtime/invocation/a/response";
     ProxyServer.rr_query := None; ProxyServer.rr_message := ProxySample.get; ProxyServer.rr_read := true;
     ProxyServer.rr_sent := true; ProxyServer.rr_generated := 9 |}.
End ServerSample.

Section ServerWitnesses.
#[local] Existing Instances Sample.externals Sample.propagation AppSecSample.waf_ops AgentSample.decoders
  ServerSample.http_ops.
Import ServerSample.

Lemma answers_account_for_state_witness :
  exists self',
    TraceServer.serve_all one_bucket map_to_list 200 (fun _ => true) Sample.config TraceSample.provider server
      requests = Done ([200; 202; 404], self') /\
    ProxyAggregator.body <$> ProxyAggregator.queue (TraceServer.proxy_aggregator self') = [profile] /\
    TraceServer.stats_tx self' = [([(5, stats)], ())].
Proof.
  assert (exists self', TraceServer.serve_all one_bucket map_to_list 200 (fun _ => true) Sample.config
    TraceSample.provider server requests = Done ([200; 202; 404], self')) as [self' Hrun] by by eexists.
  exists self'. split; [exact Hrun|].
  destruct (TraceServer.answers_account_for_state one_bucket map_to_list 200 (fun _ => true) Sample.config
    TraceSample.provider requests server [200; 202; 404] self' Hrun) as (Hp & Hs & _).
  rewrite Hp, Hs. by split.
Defined.

Lemma telemetry_limits_fit_witness :
  exists statuses sent fragments,
    TelemetryServer.serve_all sample_events sample_ignored {| held := None |} [(post "/" sample_head, None)] =
      (statuses, sent, fragments) /\ bounded fragments /\ Forall (fun status => status ∈ [200; 503]) statuses.
Proof.
  destruct (TelemetryServer.serve_all sample_events sample_ignored {| held := None |}
    [(post "/" sample_head, None)]) as [[statuses sent] fragments] eqn:Hs.
  exists statuses, sent, fragments. split; [reflexivity|].
  destruct (TelemetryServer.telemetry_limits_fit sample_events sample_ignored 8999 true false (1024 * 1024) 0
    [(post "/" sample_head, None)] {| held := None |} statuses sent fragments eq_refl ltac:(lia) I Hs) as [Hb Hf].
  split; [exact Hb|]. inversion Hf as [|? ? ? ? Hi Hr]; subst. inversion Hr; subst.
  constructor; [|constructor]. apply Hi. split; [reflexivity|]. split; [reflexivity|].
  exists sample_head. split; [reflexivity|]. vm_compute. discriminate.
Defined.
End ServerWitnesses.

Section ProxyServerWitness.
#[local] Existing Instances ProxySample.experimental ProxySample.propagation ProxySample.proxy_ops
  ServerSample.http_ops.
Import ServerSample.

(** The response of an invocation reaches the Runtime API and App & API Protection. *)
Lemma runtime_requests_forwarded_witness :
  fst (ProxyServer.serve Sample.config ProxySample.aws_config true (fun _ => ProxySample.answer) response) =
    inl (200, build_forward_response ProxySample.invocation) /\
  exists suffix version, suffix ∈ ["response"; "error"]%string /\
    Servers.match_path ("/{api_version}/runtime/invocation/{request_id}/" +:+ suffix)
      (ProxyServer.rr_path response) = Some [version; "a"%string].
Proof.
  destruct (ProxyServer.runtime_requests_forwarded Sample.config ProxySample.aws_config true
    (fun _ => ProxySample.answer) response) as [Hf Hr].
  split; [rewrite Hf; reflexivity|].
  destruct (Hr "a"%string) as (suffix & version & Hs & _ & Hm); [vm_compute; left|].
  exists suffix, version. split; [exact Hs|exact Hm].
Defined.
End ProxyServerWitness.

Section OtlpServerWitness.
#[local] Existing Instances Sample.externals OtlpSample.otlp_externals TraceSample.ops ServerSample.http_ops.
Import ServerSample.

(** Every body is one resource, and the headers tell nothing of the tracer. *)
#[local] Instance one_resource : OtlpDecoders :=
  {| value_from_slice := fun _ => None; request_from_value := fun _ => None;
     request_decode := fun _ => Some [{| Otel.resource := Some OtlpSample.resource_of; Otel.scope_spans := [] |}] |}.
#[local] Instance no_tags : TraceDecoders :=
  {| header_tags_of := fun _ => default_tags; get_traces_from_request_body := fun _ => None;
     get_v05_traces_from_request_body := fun _ => None |}.

Definition spans : Incoming :=
  {| in_method := POST; in_path := "/v1/traces"; in_now := 0; in_nanos := 5;
     in_request := {| req_headers := {[ "content-type"%string := "application/x-protobuf"%string ]};
                      req_body := Some profile |} |}.

Lemma otlp_protocols_agree_witness :
  exists response,
    OtlpServer.serve (fun _ => Some []) (fun _ _ => Some []) Sample.config TraceSample.provider
      TraceSample.pipeline spans = Done (response, TraceSample.pipeline) /\
    (OtlpServer.rs_status response = 200 <-> false = true).
Proof.
  exact (OtlpServer.otlp_protocols_agree (fun _ => Some []) (fun _ _ => Some []) Sample.config
    TraceSample.provider TraceSample.pipeline spans profile
    [{| Otel.resource := Some OtlpSample.resource_of; Otel.scope_spans := [] |}]
    eq_refl eq_refl eq_refl ltac:(vm_compute; discriminate) eq_refl eq_refl eq_refl ltac:(discriminate)).
Defined.
End OtlpServerWitness.
