(* ===== verification/TestMode.v ===== *)
(** The test-mode binary ([bin/bottlecap-test-mode/main.rs]): the trace agent as a server of
    its own, with an endpoint that flushes.

    The flushes are tasks that interleave with each other, with the requests that the agent
    accepts and with the forwarder: [Flushes] is a machine whose events are the polls of
    those tasks. The forwarder is [TraceAgent.Forwarder], with its channel of requests; what a
    blocking flush reports is what [FlushingService] shows. *)
From S2P Require Import Prelude F64 Text FlushControl DataStreams Triggers TriggerEvents.
From S2P Require Import Configuration SpanInferrer InvocationProcessor InvocationProperties TraceAgent.
From stdpp Require Import pretty.
#[local] Open Scope Z_scope.

(** * Settings *)

Definition ENV_RECEIVER_PORT : string := "DD_APM_RECEIVER_PORT".
Definition TRACE_AGENT_PORT : Z := 8126.
Definition FLUSH_REQUEST_TIMEOUT : Z := 30 * 1000.
Definition SHUTDOWN_TIMEOUT : Z := 10 * 1000.

(** The port, or that the start fails. *)
Definition receiver_port (value : option string) : option Z :=
  match value with
  | None => Some TRACE_AGENT_PORT
  | Some value =>
      if bool_decide (value = EmptyString) then Some TRACE_AGENT_PORT
      else port ← parse_u16 value; if port =? 0 then None else Some port
  end.

Definition receiver_port_from_env `{Externals} : option Z := receiver_port (env_var ENV_RECEIVER_PORT).

(** [trace_stats_url_prefixed] is of libdatadog. *)
Definition stats_url_from_trace_intake (trace_stats_url_prefixed : bytes -> bytes) (apm_dd_url : bytes) : bytes :=
  trace_stats_url_prefixed (intake_base_url apm_dd_url).

(** The interval of the periodic driver, if there is one; [tokio] panics on an empty one. *)
Definition spawn_periodic_flush (strategy : FlushStrategy) (flush_timeout now : Z) :
    outcome (option Interval) :=
  match strategy with
  | Default => Done None
  | _ =>
      interval ← FlushControl.get_flush_interval (FlushControl.new strategy flush_timeout now);
      Done (Some interval)
  end.

(** The port the harness asked for is the port that is used. A number between
    1 and 65535 is taken as it is, an unset or empty variable is the default, and any port that
    is taken fits its sixteen bits and is not zero. *)
Theorem receiver_port_exact :
  (forall port, 1 <= port <= 65535 -> receiver_port (Some (pretty port)) = Some port) /\
  receiver_port None = Some 8126 /\ receiver_port (Some EmptyString) = Some 8126 /\
  forall value port, receiver_port value = Some port -> 1 <= port <= 65535.
Proof.
  split_and!; [|done|done|].
  - intros port Hp. unfold receiver_port. pose proof (parse_unsigned_pretty 65535 port ltac:(lia)) as Hd.
    rewrite bool_decide_eq_false_2 by (intros He; rewrite He in Hd; discriminate).
    unfold parse_u16. rewrite Hd. cbn. by rewrite (proj2 (Z.eqb_neq port 0)) by lia.
  - intros [value|] port; cbn; [|by intros [= <-]]. case_bool_decide; [by intros [= <-]|].
    destruct (parse_u16 value) as [n|] eqn:Hn; [|done]. cbn. destruct (Z.eqb_spec n 0); [done|].
    intros [= <-]. apply parse_unsigned_range in Hn; lia.
Qed.

(** * The endpoint *)

(** How the task of a flush ends: its result, its panic, or not within the time. *)
Inductive FlushEnd := Ended (lost : bool) | TaskFailed | TimedOut.

Definition flush_status (e : FlushEnd) : Z :=
  match e with
  | Ended false => 204
  | Ended true => 502
  | TaskFailed => 500
  | TimedOut => 504
  end.

(** * Flushes *)

Module Flushes.
Section Flushes.
Context {T : Type}.

(** [/flush] runs its flush in a task that a timeout or the loss of its client aborts; the
    periodic driver and the end of [main] await theirs. *)
Inductive Kind := Endpoint | Awaited.

(** [drain_and_flush]: waiting for the lock; holding it, before the request of the barrier is
    in its channel; waiting for the acknowledgement of the request with that number; in the
    flush; and its result. A flush has drained the aggregator at least once before it is over;
    what it drained is on its way. *)
Inductive Phase :=
| Waiting
| Locked
| AtBarrier (ticket : nat)
| Flushing (ticket : option nat) (drained : bool) (batch : list T)
| Finished (lost : bool) (ticket : option nat)
| Aborted.

(** The machine follows the payloads of one of the two forwarders, the one of the traces or the
    one of the stats: it is a [Forwarder.t]. The aggregator holds what reached it and was not drained.
    [acks] is how many payloads had been accepted at each acknowledgement, [polling] the
    tasks whose poll had begun when the token was cancelled and is not over. *)
Record t := {
  tasks : gmap nat (Kind * Phase);
  lock : option nat;
  cancelled : bool;
  polling : gset nat;
  forwarder : Forwarder.t T;
  acks : list nat;
  drained : nat;
  delivered : list T;
  lost : list T;
}.

Definition init : t :=
  {| tasks := ∅; lock := None; cancelled := false; polling := ∅; forwarder := Forwarder.init; acks := [];
     drained := 0; delivered := []; lost := [] |}.

(** The end of a flush has which payloads the intake took, and whether a flusher failed
    without having lost one. *)
Inductive Event :=
| Accept (payload : T)
| Poll (ok : bool)
| Start (id : nat) (kind : Kind)
| Acquire (id : nat)
| Request (id : nat)
| Barrier (id : nat)
| OtherFails (id : nat)
| Drain (id : nat)
| Sent (id : nat) (ok : T -> bool) (failed : bool)
| Abort (id : nat)
| Cancel (polling : gset nat)
| Yield (id : nat)
| Observe (id : nat).

Definition set_task (self : t) (id : nat) (task : Kind * Phase) : t :=
  {| tasks := <[id := task]> (tasks self); lock := lock self; cancelled := cancelled self; polling := polling self;
     forwarder := forwarder self; acks := acks self; drained := drained self;
     delivered := delivered self; lost := lost self |}.

Definition set_lock (self : t) (v : option nat) : t :=
  {| tasks := tasks self; lock := v; cancelled := cancelled self; polling := polling self;
     forwarder := forwarder self; acks := acks self; drained := drained self;
     delivered := delivered self; lost := lost self |}.

Definition set_forwarder (self : t) (f : Forwarder.t T) (acks : list nat) : t :=
  {| tasks := tasks self; lock := lock self; cancelled := cancelled self; polling := polling self;
     forwarder := f; acks := acks; drained := drained self;
     delivered := delivered self; lost := lost self |}.

Definition set_payloads (self : t) (drained : nat) (delivered lost : list T) : t :=
  {| tasks := tasks self; lock := lock self; cancelled := cancelled self; polling := polling self;
     forwarder := forwarder self; acks := acks self; drained := drained;
     delivered := delivered; lost := lost |}.

Definition holds (phase : Phase) : bool :=
  match phase with Locked | AtBarrier _ | Flushing _ _ _ => true | _ => false end.

Definition batch_of (phase : Phase) : list T :=
  match phase with Flushing _ _ batch => batch | _ => [] end.

(** What the aggregator holds. *)
Definition aggregated (self : t) : list T := drop (drained self) (Forwarder.aggregated (forwarder self)).

(** The numbers of the requests: those acknowledged and those in the channel. *)
Definition requests (f : Forwarder.t T) : list nat := Forwarder.acknowledged f ++ Forwarder.barrier_rx f.

Definition BARRIER_CHANNEL_BUFFER_SIZE : nat := 1.

Definition stopped (f : Forwarder.t T) : bool :=
  match Forwarder.phase f with Forwarder.Stopped => true | _ => false end.

(** A task that is dropped releases what it holds, and what it had drained is gone. *)
Definition drop_task (self : t) (id : nat) (kind : Kind) (phase phase' : Phase) : t :=
  let self := set_payloads self (drained self) (delivered self) (lost self ++ batch_of phase) in
  let self := if holds phase then set_lock self None else self in
  set_task self id (kind, phase').

(** The [select!] around a flush of the endpoint looks at the token first, at each poll; the
    polls in progress when the token is cancelled go on. *)
Definition polled (self : t) (id : nat) : option (Kind * Phase) :=
  '(kind, phase) ← tasks self !! id;
  match kind with
  | Endpoint => if cancelled self && bool_decide (id ∉ polling self) then None else Some (kind, phase)
  | Awaited => Some (kind, phase)
  end.

(** One event; [threads] is whether the runtime runs the others between two polls of the
    forwarder, [locking] whether the flushes share their lock. A request waits for room in its
    channel; it fails, as its acknowledgement does, once the forwarder has stopped, and with the
    one of the other forwarder ([try_join!]). *)
Definition step (threads locking : bool) (self : t) (e : Event) : option t :=
  match e with
  | Accept payload =>
      f ← Forwarder.step threads (forwarder self) (Forwarder.Accept payload);
      Some (set_forwarder self f (acks self))
  | Poll ok =>
      f ← Forwarder.step threads (forwarder self) (Forwarder.Poll ok);
      let acked := drop (length (Forwarder.acknowledged (forwarder self))) (Forwarder.acknowledged f) in
      Some (set_forwarder self f (acks self ++ ((fun _ => length (Forwarder.accepted f)) <$> acked)))
  | Start id kind =>
      match tasks self !! id with
      | Some _ => None
      | None => Some (set_task self id (kind, Waiting))
      end
  | Acquire id =>
      match polled self id with
      | Some (kind, Waiting) =>
          if locking && is_some (lock self) then None
          else Some (set_task (set_lock self (Some id)) id (kind, Locked))
      | _ => None
      end
  | Request id =>
      match polled self id with
      | Some (kind, Locked) =>
          if stopped (forwarder self) then Some (set_task self id (kind, Flushing None false []))
          else if (length (Forwarder.barrier_rx (forwarder self)) <? BARRIER_CHANNEL_BUFFER_SIZE)%nat then
            f ← Forwarder.step threads (forwarder self) Forwarder.WaitFor;
            Some (set_task (set_forwarder self f (acks self)) id
                    (kind, AtBarrier (length (requests (forwarder self)))))
          else None
      | _ => None
      end
  | Barrier id =>
      match polled self id with
      | Some (kind, AtBarrier ticket) =>
          if (ticket <? length (Forwarder.acknowledged (forwarder self)))%nat
          then Some (set_task self id (kind, Flushing (Some ticket) false []))
          else if stopped (forwarder self) then Some (set_task self id (kind, Flushing None false []))
          else None
      | _ => None
      end
  | OtherFails id =>
      match polled self id with
      | Some (kind, Locked) | Some (kind, AtBarrier _) => Some (set_task self id (kind, Flushing None false []))
      | _ => None
      end
  | Drain id =>
      match polled self id with
      | Some (kind, Flushing ticket _ batch) =>
          Some (set_task (set_payloads self (length (Forwarder.aggregated (forwarder self)))
                            (delivered self) (lost self)) id
                  (kind, Flushing ticket true (batch ++ aggregated self)))
      | _ => None
      end
  | Sent id ok failed =>
      match polled self id with
      | Some (kind, Flushing ticket true batch) =>
          let barrier_failed := negb (is_some ticket) in
          let undelivered := failed || existsb (fun payload => negb (ok payload)) batch in
          let self := set_payloads self (drained self)
                        (delivered self ++ filter (fun payload => ok payload = true) batch)
                        (lost self ++ filter (fun payload => ok payload <> true) batch) in
          Some (set_task (set_lock self None) id (kind, Finished (barrier_failed || undelivered) ticket))
      | _ => None
      end
  | Abort id =>
      match tasks self !! id with
      | Some (Endpoint, Finished _ _) | Some (Endpoint, Aborted) => None
      | Some (Endpoint, phase) => Some (drop_task self id Endpoint phase Aborted)
      | _ => None
      end
  | Cancel polled =>
      if cancelled self then Some self
      else if threads || bool_decide (polled = ∅) then
        Some {| tasks := tasks self; lock := lock self; cancelled := true;
                polling := polled ∩ dom (tasks self);
                forwarder := forwarder self; acks := acks self; drained := drained self;
                delivered := delivered self; lost := lost self |}
      else None
  | Yield id =>
      Some {| tasks := tasks self; lock := lock self; cancelled := cancelled self;
              polling := polling self ∖ {[id]};
              forwarder := forwarder self; acks := acks self; drained := drained self;
              delivered := delivered self; lost := lost self |}
  | Observe id =>
      if cancelled self && bool_decide (id ∉ polling self) then
        match tasks self !! id with
        | Some (Endpoint, Finished _ _) | Some (Endpoint, Aborted) => None
        | Some (Endpoint, phase) => Some (drop_task self id Endpoint phase (Finished true None))
        | _ => None
        end
      else None
  end.

Fixpoint run (threads locking : bool) (self : t) (events : list Event) : option t :=
  match events with
  | [] => Some self
  | e :: events => self ← step threads locking self e; run threads locking self events
  end.

(** ** The forwarder and its acknowledgements *)

(** What holds on every runtime: when a request is acknowledged, every payload accepted before
    the acknowledgement of the one before it is in the aggregator. *)
Record forwarder_ok (threads : bool) (f : Forwarder.t T) (acks : list nat) : Prop := {
  fo_prefix : Forwarder.aggregated f `prefix_of` Forwarder.accepted f;
  fo_accepted : Forwarder.phase f <> Forwarder.Stopped ->
    Forwarder.accepted f = Forwarder.aggregated f ++ Forwarder.rx f;
  fo_length : length acks = length (Forwarder.acknowledged f);
  fo_acks : Forall (fun n => (n <= length (Forwarder.accepted f))%nat) acks;
  fo_older k n : acks !! k = Some n -> (S k < length acks)%nat -> (n <= length (Forwarder.aggregated f))%nat;
  fo_empty : Forwarder.phase f = Forwarder.PollBarrier ->
    Forall (fun n => (n <= length (Forwarder.aggregated f))%nat) acks;
  fo_single : threads = false -> Forwarder.inv f;
}.

Lemma forwarder_init threads : forwarder_ok threads Forwarder.init [].
Proof. by split; cbn. Qed.

(** A payload or a request comes in. *)
Lemma forwarder_others threads f acks e f' :
  forwarder_ok threads f acks -> Forwarder.step threads f e = Some f' ->
  match e with Forwarder.Accept _ | Forwarder.WaitFor => True | _ => False end ->
  forwarder_ok threads f' acks /\ Forwarder.acknowledged f' = Forwarder.acknowledged f /\
  Forwarder.aggregated f' = Forwarder.aggregated f /\ Forwarder.accepted f `prefix_of` Forwarder.accepted f'.
Proof.
  intros [Hp Ha Hl Hk Ho He Hs] Hstep Hev.
  assert (threads = false -> Forwarder.inv f') as Hs'.
  { intros ->. by eapply Forwarder.step_inv; [apply Hs|]. }
  unfold Forwarder.step in Hstep. destruct e as [x| | |]; try done; destruct (_ && _); try done; injection Hstep as <-.
  - split_and!; cbn; [split; cbn; try done|done|done|by apply prefix_app_r].
    + by apply prefix_app_r.
    + intros Hph. by rewrite (Ha Hph), app_assoc.
    + eapply Forall_impl; [exact Hk|]. cbn. intros n Hn. rewrite length_app. lia.
  - by split_and!; cbn; [split|..].
Qed.

(** One poll of the forwarder; at most one request is acknowledged. *)
Lemma forwarder_poll threads f acks ok :
  forwarder_ok threads f acks ->
  exists acked, Forwarder.acknowledged (Forwarder.poll f ok) = Forwarder.acknowledged f ++ acked /\
    requests (Forwarder.poll f ok) = requests f /\
    Forwarder.accepted (Forwarder.poll f ok) = Forwarder.accepted f /\
    Forwarder.aggregated f `prefix_of` Forwarder.aggregated (Forwarder.poll f ok) /\
    forwarder_ok threads (Forwarder.poll f ok) (acks ++ ((fun _ => length (Forwarder.accepted f)) <$> acked)).
Proof.
  intros [Hp Ha Hl Hk Ho He Hs].
  assert (threads = false -> Forwarder.inv (Forwarder.poll f ok)) as Hs' by (intros Ht; by apply Forwarder.poll_inv, Hs).
  unfold requests, Forwarder.poll in *. destruct (Forwarder.phase f) eqn:Hph.
  - specialize (Ha ltac:(done)). destruct (Forwarder.rx f) as [|x rx'] eqn:Hrx.
    + exists []. cbn. rewrite !app_nil_r. split_and!; try done. rewrite app_nil_r in Ha. split; cbn; try done.
      * intros _. by rewrite app_nil_r.
      * intros _. by rewrite <- Ha.
    + exists []. cbn. rewrite !app_nil_r.
      assert (Forwarder.aggregated f `prefix_of` (if ok then Forwarder.aggregated f ++ [x] else Forwarder.aggregated f))
        as Hpre by (destruct ok; [by apply prefix_app_r|done]).
      split_and!; try done. split; cbn; try done.
      * destruct ok; [|done]. rewrite Ha. exists rx'. by rewrite <- app_assoc.
      * destruct ok; [|done]. intros _. by rewrite Ha, <- app_assoc.
      * intros k n Hkn Hlt. apply prefix_length in Hpre. specialize (Ho k n Hkn Hlt). lia.
      * by destruct ok.
  - specialize (He eq_refl). exists (option_list (head (Forwarder.barrier_rx f))).
    split_and!; cbn; try done.
    + rewrite <- app_assoc. f_equal. by destruct (Forwarder.barrier_rx f).
    + split; cbn; try done.
      * intros _. by apply Ha.
      * by rewrite !length_app, length_fmap, Hl.
      * apply Forall_app. split; [done|]. destruct (Forwarder.barrier_rx f); cbn; by repeat constructor.
      * intros k n Hkn Hlt. destruct (decide (k < length acks)%nat) as [Hlt'|Hge].
        -- rewrite lookup_app_l in Hkn by done. by eapply Forall_lookup in He; [|exact Hkn].
        -- exfalso. rewrite length_app, length_fmap in Hlt. apply lookup_lt_Some in Hkn.
           destruct (Forwarder.barrier_rx f); cbn in Hlt; lia.
  - exists []. cbn. rewrite !app_nil_r. split_and!; try done. by split; rewrite ?Hph.
Qed.

(** ** The invariant *)

(** What the holder of the lock has drained and not sent. *)
Definition in_flight (self : t) : list T :=
  match lock self ≫= fun id => tasks self !! id with Some (_, phase) => batch_of phase | None => [] end.

(** How many payloads were accepted before the request with a number was made, or, on a runtime
    that runs others between the polls of the forwarder, before the request before it was
    acknowledged. *)
Definition cover (threads : bool) (self : t) (ticket : nat) : nat :=
  if threads then match ticket with O => 0%nat | S k => default 0%nat (acks self !! k) end
  else default 0%nat (Forwarder.acknowledged (forwarder self) !! ticket).

Abbreviation accepted self := (Forwarder.accepted (forwarder self)).
Abbreviation acknowledged self := (Forwarder.acknowledged (forwarder self)).

(** What a phase says of the payloads. *)
Definition covers (threads : bool) (self : t) (phase : Phase) : Prop :=
  match phase with
  | Flushing (Some ticket) drained batch =>
      (ticket < length (acknowledged self))%nat /\
      (drained = true -> take (cover threads self ticket) (accepted self) ⊆+ delivered self ++ lost self ++ batch)
  | Finished false ticket => exists k, ticket = Some k /\
      (k < length (acknowledged self))%nat /\
      take (cover threads self k) (accepted self) ⊆+ delivered self ++ lost self
  | _ => True
  end.

(** The lock is held by the one task that is past it. *)
Definition lock_ok (tasks : gmap nat (Kind * Phase)) (lock : option nat) : Prop :=
  (forall id kind phase, tasks !! id = Some (kind, phase) -> holds phase = true -> lock = Some id) /\
  forall id, lock = Some id -> exists kind phase, tasks !! id = Some (kind, phase) /\ holds phase = true.

Record inv (threads : bool) (self : t) : Prop := {
  inv_forwarder : forwarder_ok threads (forwarder self) (acks self);
  inv_drained : (drained self <= length (Forwarder.aggregated (forwarder self)))%nat;
  inv_conserved : delivered self ++ lost self ++ in_flight self ≡ₚ
                  take (drained self) (Forwarder.aggregated (forwarder self));
  inv_lock : lock_ok (tasks self) (lock self);
  inv_covers id kind phase : tasks self !! id = Some (kind, phase) -> covers threads self phase;
}.

Lemma lock_keep tasks lock id kind phase kind' phase' :
  lock_ok tasks lock -> tasks !! id = Some (kind, phase) -> holds phase' = holds phase ->
  lock_ok (<[id := (kind', phase')]> tasks) lock.
Proof.
  intros [Hl Hh] Ht He. split.
  - intros id' k p Hp Hhp. destruct (decide (id' = id)) as [->|Hne].
    + rewrite lookup_insert_eq in Hp. injection Hp as <- <-. apply (Hl _ _ _ Ht). by rewrite <- He.
    + rewrite lookup_insert_ne in Hp by done. eauto.
  - intros id' Hid'. destruct (Hh _ Hid') as (k & p & Hp & Hhp).
    destruct (decide (id' = id)) as [->|Hne].
    + exists kind', phase'. rewrite lookup_insert_eq. split; [done|]. rewrite He. congruence.
    + exists k, p. by rewrite lookup_insert_ne by done.
Qed.

Lemma lock_fresh tasks lock id task :
  lock_ok tasks lock -> tasks !! id = None -> holds task.2 = false -> lock_ok (<[id := task]> tasks) lock.
Proof.
  intros [Hl Hh] Ht He. destruct task as [kind phase]. split.
  - intros id' k p Hp Hhp. destruct (decide (id' = id)) as [->|Hne].
    + rewrite lookup_insert_eq in Hp. injection Hp as <- <-. cbn in He. congruence.
    + rewrite lookup_insert_ne in Hp by done. eauto.
  - intros id' Hid'. destruct (Hh _ Hid') as (k & p & Hp & Hhp). exists k, p.
    by rewrite lookup_insert_ne by congruence.
Qed.

Lemma lock_acquire tasks id kind phase :
  lock_ok tasks None -> holds phase = true -> lock_ok (<[id := (kind, phase)]> tasks) (Some id).
Proof.
  intros [Hl Hh] He. split.
  - intros id' k p Hp Hhp. destruct (decide (id' = id)) as [->|Hne]; [done|].
    rewrite lookup_insert_ne in Hp by done. by specialize (Hl _ _ _ Hp Hhp).
  - intros id' [= <-]. exists kind, phase. by rewrite lookup_insert_eq.
Qed.

Lemma lock_release tasks lock id kind phase kind' phase' :
  lock_ok tasks lock -> tasks !! id = Some (kind, phase) -> holds phase = true -> holds phase' = false ->
  lock_ok (<[id := (kind', phase')]> tasks) None.
Proof.
  intros [Hl Hh] Ht He He'. split; [|done].
  intros id' k p Hp Hhp. destruct (decide (id' = id)) as [->|Hne].
  - rewrite lookup_insert_eq in Hp. injection Hp as <- <-. congruence.
  - rewrite lookup_insert_ne in Hp by done. pose proof (Hl _ _ _ Hp Hhp). pose proof (Hl _ _ _ Ht He). congruence.
Qed.

Lemma cover_bound threads self k :
  forwarder_ok threads (forwarder self) (acks self) -> (k < length (acknowledged self))%nat ->
  (cover threads self k <= length (Forwarder.aggregated (forwarder self)))%nat.
Proof.
  intros Hf Hk. unfold cover. destruct threads.
  - destruct k as [|k]; [lia|]. destruct (acks self !! k) as [n|] eqn:Hn; cbn; [|lia].
    eapply fo_older; [exact Hf|exact Hn|]. by rewrite (fo_length _ _ _ Hf).
  - destruct (lookup_lt_is_Some_2 _ _ Hk) as [n Hn]. rewrite Hn. cbn.
    pose proof (Forwarder.inv_acknowledged _ (fo_single _ _ _ Hf eq_refl)) as Ha.
    by eapply Forall_lookup in Ha; [|exact Hn].
Qed.

(** What a later state keeps. *)
Record later (self self' : t) : Prop := {
  later_accepted : accepted self `prefix_of` accepted self';
  later_acks : acks self `prefix_of` acks self';
  later_acknowledged : acknowledged self `prefix_of` acknowledged self';
  later_settled : delivered self ++ lost self ⊆+ delivered self' ++ lost self';
}.

Lemma cover_later threads self self' k :
  forwarder_ok threads (forwarder self) (acks self) -> later self self' -> (k < length (acknowledged self))%nat ->
  cover threads self' k = cover threads self k /\
  take (cover threads self' k) (accepted self') = take (cover threads self k) (accepted self).
Proof.
  intros Hf [[suffix Ha] Hacks Hackd _] Hk.
  assert (cover threads self' k = cover threads self k) as Hc.
  { unfold cover. destruct threads.
    - destruct k as [|k]; [done|]. rewrite <- (fo_length _ _ _ Hf) in Hk.
      destruct (lookup_lt_is_Some_2 (acks self) k ltac:(lia)) as [n Hn].
      by rewrite Hn, (prefix_lookup_Some _ _ _ _ Hn Hacks).
    - destruct (lookup_lt_is_Some_2 _ _ Hk) as [n Hn]. by rewrite Hn, (prefix_lookup_Some _ _ _ _ Hn Hackd). }
  split; [done|]. rewrite Hc, Ha. apply take_app_le.
  pose proof (cover_bound threads self k Hf Hk). pose proof (prefix_length _ _ (fo_prefix _ _ _ Hf)). lia.
Qed.

Lemma covers_later threads self self' phase :
  forwarder_ok threads (forwarder self) (acks self) -> later self self' ->
  covers threads self phase -> covers threads self' phase.
Proof.
  intros Hf Hl. pose proof (prefix_length _ _ (later_acknowledged _ _ Hl)) as Hlen.
  pose proof (later_settled _ _ Hl) as Hs. unfold covers.
  destruct phase as [| | |[ticket|] drained batch|[] ticket|]; try done.
  - intros [Hk Hc]. split; [lia|]. intros Hd. rewrite (proj2 (cover_later threads _ _ _ Hf Hl Hk)).
    specialize (Hc Hd). rewrite app_assoc in Hc |- *. etrans; [exact Hc|]. by apply submseteq_skips_r.
  - intros (k & -> & Hk & Hc). exists k. split; [done|]. split; [lia|].
    rewrite (proj2 (cover_later threads _ _ _ Hf Hl Hk)). by etrans.
Qed.

Lemma later_same self self' :
  forwarder self' = forwarder self -> acks self' = acks self -> delivered self' = delivered self ->
  lost self' = lost self -> later self self'.
Proof. intros Hf Ha Hd Hl. split; rewrite ?Hf, ?Ha, ?Hd, ?Hl; done. Qed.

(** Settling a batch, delivered or lost. *)
Lemma later_settling self self' delivered' lost' :
  forwarder self' = forwarder self -> acks self' = acks self ->
  delivered self' = delivered self ++ delivered' -> lost self' = lost self ++ lost' -> later self self'.
Proof.
  intros Hf Ha Hd Hl. split; rewrite ?Hf, ?Ha, ?Hd, ?Hl; [done..|].
  apply submseteq_app; apply submseteq_inserts_r; done.
Qed.

(** The phases of the other tasks are not changed, and they still hold later. *)
Lemma covers_insert threads self self' i k p :
  inv threads self -> later self self' -> tasks self' = <[i := (k, p)]> (tasks self) -> covers threads self' p ->
  forall id kind phase, tasks self' !! id = Some (kind, phase) -> covers threads self' phase.
Proof.
  intros [Hf _ _ _ Hc] Hl -> Hp id kind phase Ht. destruct (decide (id = i)) as [->|Hne].
  - rewrite lookup_insert_eq in Ht. by injection Ht as <- <-.
  - rewrite lookup_insert_ne in Ht by done. apply (covers_later threads self); eauto.
Qed.

Lemma in_flight_of threads self id kind phase :
  inv threads self -> tasks self !! id = Some (kind, phase) -> holds phase = true ->
  lock self = Some id /\ in_flight self = batch_of phase.
Proof.
  intros Hi Ht Hh. destruct (inv_lock _ _ Hi) as [Hl _]. specialize (Hl _ _ _ Ht Hh).
  split; [done|]. unfold in_flight. rewrite Hl. cbn. by rewrite Ht.
Qed.

(** A task that does not hold the lock does not matter for what is in flight. *)
Lemma in_flight_insert threads self id task :
  inv threads self -> (forall kind phase, tasks self !! id = Some (kind, phase) -> holds phase = false) ->
  in_flight (set_task self id task) = in_flight self.
Proof.
  intros Hi Hn. unfold in_flight. cbn. destruct (lock self) as [l|] eqn:Hl; [|done]. cbn.
  destruct (inv_lock _ _ Hi) as [_ Hh]. destruct (Hh _ Hl) as (k & p & Hp & Hhp).
  rewrite lookup_insert_ne; [done|]. intros <-. specialize (Hn _ _ Hp). congruence.
Qed.

Lemma polled_task self id kind phase : polled self id = Some (kind, phase) -> tasks self !! id = Some (kind, phase).
Proof.
  unfold polled. destruct (tasks self !! id) as [[[] p]|]; cbn; [destruct (_ && _)| |]; by intros [= <- <-].
Qed.

(** The forwarder moves on. *)
Lemma forwarder_inv threads self f acks' :
  inv threads self -> forwarder_ok threads f acks' ->
  Forwarder.aggregated (forwarder self) `prefix_of` Forwarder.aggregated f ->
  accepted self `prefix_of` Forwarder.accepted f -> acks self `prefix_of` acks' ->
  acknowledged self `prefix_of` Forwarder.acknowledged f -> inv threads (set_forwarder self f acks').
Proof.
  intros Hi Hf [suffix Hg] Ha Hk Hd. pose proof Hi as [Hf0 Hdr Hc Hl Hv]. split; [done|cbn..|].
  - rewrite Hg, length_app. lia.
  - by rewrite Hg, take_app_le.
  - done.
  - intros id kind phase Ht. by apply (covers_later threads self); [|split|eapply Hv].
Qed.

(** A task goes on with what it holds. *)
Lemma advance_inv threads self id kind phase phase' :
  inv threads self -> tasks self !! id = Some (kind, phase) -> holds phase' = holds phase ->
  batch_of phase' = batch_of phase -> covers threads self phase' -> inv threads (set_task self id (kind, phase')).
Proof.
  intros Hi Hp Hh Hb Hcov. pose proof Hi as [Hf Hd Hc Hk Hv]. split; [done|done| | |].
  - rewrite <- Hc. destruct (holds phase) eqn:Hhp.
    + destruct (in_flight_of _ _ _ _ _ Hi Hp Hhp) as [Hl Hin]. rewrite Hin.
      unfold in_flight. cbn. rewrite Hl. cbn. by rewrite lookup_insert_eq, Hb.
    + cbn. rewrite (in_flight_insert threads); [done..|]. intros ? ? Hq. congruence.
  - by apply (lock_keep _ _ _ _ _ _ _ Hk Hp).
  - eapply (covers_insert threads self); [done|by apply later_same|done|]. exact Hcov.
Qed.

Lemma start_inv threads self id kind :
  inv threads self -> tasks self !! id = None -> inv threads (set_task self id (kind, Waiting)).
Proof.
  intros Hi Ht. pose proof Hi as [Hf Hd Hc Hk Hv]. split; [done|done| | |].
  - rewrite (in_flight_insert threads); [done..|]. intros ? ? Hq. congruence.
  - by apply lock_fresh.
  - by eapply (covers_insert threads self); [|apply later_same| |].
Qed.

(** The lock goes to a task that waited for it. *)
Lemma acquire_inv threads self id kind :
  inv threads self -> tasks self !! id = Some (kind, Waiting) -> lock self = None ->
  inv threads (set_task (set_lock self (Some id)) id (kind, Locked)).
Proof.
  intros Hi Hp Hl. pose proof Hi as [Hf Hd Hc Hk Hv]. rewrite Hl in Hk. split; [done|done| | |].
  - unfold in_flight in Hc |- *. rewrite Hl in Hc. cbn in Hc |- *. by rewrite lookup_insert_eq.
  - by apply lock_acquire.
  - by eapply (covers_insert threads self); [|apply later_same| |].
Qed.

Lemma drain_inv threads self id kind ticket d batch :
  inv threads self -> tasks self !! id = Some (kind, Flushing ticket d batch) ->
  inv threads (set_task (set_payloads self (length (Forwarder.aggregated (forwarder self))) (delivered self) (lost self))
    id (kind, Flushing ticket true (batch ++ aggregated self))).
Proof.
  intros Hi Hp. destruct (in_flight_of _ _ _ _ _ Hi Hp eq_refl) as [Hl Hb].
  pose proof Hi as [Hf Hd Hc Hk Hv]. rewrite Hb in Hc. cbn in Hc.
  assert (delivered self ++ lost self ++ batch ++ aggregated self ≡ₚ Forwarder.aggregated (forwarder self)) as Hall.
  { rewrite <- (take_drop (drained self) (Forwarder.aggregated (forwarder self))), <- Hc. by rewrite <- !app_assoc. }
  split; [done|cbn; lia| | |].
  - unfold in_flight. cbn. rewrite Hl. cbn. rewrite lookup_insert_eq. cbn. by rewrite firstn_all.
  - by apply (lock_keep _ _ _ _ _ _ _ Hk Hp).
  - eapply (covers_insert threads self); [done|by apply later_same|done|]. cbn. destruct ticket as [k|]; [|done].
    destruct (Hv _ _ _ Hp) as [Hm _]. split; [done|]. intros _. cbn. rewrite Hall.
    change (cover threads _ k) with (cover threads self k).
    pose proof (cover_bound threads self k Hf Hm) as Hle. destruct (fo_prefix _ _ _ Hf) as [suffix Hs].
    rewrite Hs, take_app_le by done. apply sublist_submseteq, sublist_take.
Qed.

Lemma filter_settles (ok : T -> bool) (batch : list T) :
  filter (fun payload => ok payload = true) batch ++ filter (fun payload => ok payload <> true) batch ≡ₚ batch.
Proof.
  induction batch as [|x batch IH]; [done|]. rewrite !filter_cons.
  destruct (decide (ok x = true)) as [Hx|Hx].
  - rewrite decide_False by (by intros []). cbn. by rewrite IH.
  - rewrite decide_True by done. by rewrite <- Permutation_middle, IH.
Qed.

Lemma sent_inv threads self id ok failed kind ticket batch :
  inv threads self -> tasks self !! id = Some (kind, Flushing ticket true batch) ->
  inv threads (set_task (set_lock (set_payloads self (drained self)
    (delivered self ++ filter (fun payload => ok payload = true) batch)
    (lost self ++ filter (fun payload => ok payload <> true) batch)) None) id
    (kind, Finished (negb (is_some ticket) || failed) ticket)).
Proof.
  intros Hi Hp. destruct (in_flight_of _ _ _ _ _ Hi Hp eq_refl) as [Hl Hb].
  pose proof Hi as [Hf Hd Hc Hk Hv]. rewrite Hb in Hc. split; [done|done| | |].
  - unfold in_flight. cbn. rewrite <- Hc. cbn. rewrite <- (filter_settles ok batch) at 3. solve_Permutation.
  - by apply (lock_release _ _ _ _ _ _ _ Hk Hp).
  - eapply (covers_insert threads self); [done|by eapply later_settling|done|]. cbn.
    destruct (negb (is_some ticket) || failed) eqn:Hr; [done|].
    destruct ticket as [k|]; [|done]. exists k. destruct (Hv _ _ _ Hp) as [Hm Hcov]. split; [done|]. split; [done|].
    change (cover threads _ k) with (cover threads self k). cbn. rewrite (Hcov eq_refl).
    rewrite <- (filter_settles ok batch) at 1. apply Permutation_submseteq. solve_Permutation.
Qed.

(** A task that is dropped. *)
Lemma drop_inv threads self id phase phase' :
  inv threads self -> tasks self !! id = Some (Endpoint, phase) -> holds phase' = false ->
  (forall self, covers threads self phase') -> inv threads (drop_task self id Endpoint phase phase').
Proof.
  intros Hi Hp Hh' Hcov. pose proof Hi as [Hf Hd Hc Hk Hv]. unfold drop_task. destruct (holds phase) eqn:Hh.
  - destruct (in_flight_of _ _ _ _ _ Hi Hp Hh) as [Hl Hb]. rewrite Hb in Hc. split; [done|done| | |].
    + unfold in_flight. cbn. rewrite <- Hc. by rewrite app_nil_r.
    + by apply (lock_release _ _ _ _ _ _ _ Hk Hp).
    + eapply (covers_insert threads self); [done|eapply (later_settling _ _ [])|done|done]; [done..| |done].
      cbn. by rewrite app_nil_r.
  - assert (batch_of phase = []) as Hb by (by destruct phase). rewrite Hb, app_nil_r. split; [done|done| | |].
    + rewrite <- (in_flight_insert threads self id (Endpoint, phase') Hi) in Hc by (intros ? ? Hq; congruence). exact Hc.
    + apply (lock_keep _ _ _ _ _ _ _ Hk Hp). congruence.
    + by eapply (covers_insert threads self); [|apply later_same| |].
Qed.

(** What an event does to the forwarder: [set_forwarder] with a later one. *)
Lemma flush_step_inv threads self e self' :
  inv threads self -> step threads true self e = Some self' -> inv threads self'.
Proof.
  intros Hi. pose proof (inv_forwarder _ _ Hi) as Hf.
  destruct e as [payload|ok|id kind|id|id|id|id|id|id ok failed|id|now|id|id]; cbn [step].
  - destruct (Forwarder.step _ _ _) as [f|] eqn:Hs; [|done]. intros [= <-].
    destruct (forwarder_others _ _ _ _ _ Hf Hs I) as (Hf' & Hk & Hg & Ha).
    apply forwarder_inv; rewrite ?Hk, ?Hg; done.
  - intros [= <-]. destruct (forwarder_poll _ _ _ ok Hf) as (acked & Hk & _ & Ha & Hg & Hf').
    rewrite Hk, drop_app_length, Ha. apply forwarder_inv; rewrite ?Hk, ?Ha; try done; by apply prefix_app_r.
  - destruct (tasks self !! id) eqn:Ht; [done|]. intros [= <-]. by apply start_inv.
  - destruct (polled self id) as [[kind []]|] eqn:Hp; try done. apply polled_task in Hp.
    destruct (lock self) eqn:Hl; [done|]. intros [= <-]. by apply acquire_inv.
  - destruct (polled self id) as [[kind []]|] eqn:Hp; try done. apply polled_task in Hp.
    destruct (stopped _); [intros [= <-]; by eapply advance_inv|]. destruct (_ <? _)%nat; [|done].
    destruct (Forwarder.step _ _ _) as [f|] eqn:Hs; [|done]. intros [= <-].
    destruct (forwarder_others _ _ _ _ _ Hf Hs I) as (Hf' & Hk & Hg & Ha).
    eapply advance_inv; [|exact Hp|done..]. apply forwarder_inv; rewrite ?Hk, ?Hg; done.
  - destruct (polled self id) as [[kind [| |ticket| | |]]|] eqn:Hp; try done. apply polled_task in Hp.
    destruct (Nat.ltb_spec ticket (length (acknowledged self))).
    + intros [= <-]. by eapply advance_inv.
    + destruct (stopped _); [intros [= <-]; by eapply advance_inv|done].
  - destruct (polled self id) as [[kind []]|] eqn:Hp; try done; apply polled_task in Hp;
      intros [= <-]; by eapply advance_inv.
  - destruct (polled self id) as [[kind [| | |ticket d batch| |]]|] eqn:Hp; try done. apply polled_task in Hp.
    intros [= <-]. by eapply drain_inv.
  - destruct (polled self id) as [[kind [| | |ticket [] batch| |]]|] eqn:Hp; try done. apply polled_task in Hp.
    intros [= <-]. by eapply sent_inv.
  - destruct (tasks self !! id) as [[[] phase]|] eqn:Ht; [|done..].
    destruct phase eqn:Hphase; try done; intros [= <-]; by apply drop_inv.
  - destruct (cancelled self); [by intros [= <-]|]. destruct (_ || _); [|done]. intros [= <-]. by destruct Hi.
  - intros [= <-]. by destruct Hi.
  - destruct (_ && _); [|done].
    destruct (tasks self !! id) as [[[] phase]|] eqn:Ht; [|done..].
    destruct phase eqn:Hphase; try done; intros [= <-]; by apply drop_inv.
Qed.

Lemma init_inv threads : inv threads init.
Proof.
  split; cbn; [apply forwarder_init|lia|done| |done].
  split; [|done]. intros id kind phase Ht. by rewrite lookup_empty in Ht.
Qed.

Lemma run_inv threads events : forall self self',
  inv threads self -> run threads true self events = Some self' -> inv threads self'.
Proof.
  induction events as [|e events IH]; intros self self' Hi; cbn [run]; [by intros [= <-]|].
  destruct (step threads true self e) as [self1|] eqn:Hs; [|done]. cbn. intros Hr. eapply IH; [|done].
  by eapply flush_step_inv.
Qed.

(** ** What an answer confirms *)

Definition ticket_of (phase : Phase) : option nat :=
  match phase with
  | AtBarrier ticket => Some ticket
  | Flushing ticket _ _ | Finished _ ticket => ticket
  | _ => None
  end.

(** The requests of a task have numbers from [m] on. *)
Definition asks_from (m : nat) (phase : Phase) : Prop := forall k, ticket_of phase = Some k -> (m <= k)%nat.

(** The flush told its caller of a loss, or had none to tell. *)
Definition blamed (phase : Phase) : Prop := phase = Aborted \/ exists ticket, phase = Finished true ticket.

(** What has been appended was appended after what had been accepted. *)
Definition appended (n : nat) (l l' : list nat) : Prop :=
  l `prefix_of` l' /\ forall k m, l' !! k = Some m -> (length l <= k)%nat -> (n <= m)%nat.

Record facts (self self' : t) : Prop := {
  facts_accepted : accepted self `prefix_of` accepted self';
  facts_requests : appended (length (accepted self)) (requests (forwarder self)) (requests (forwarder self'));
  facts_acks : appended (length (accepted self)) (acks self) (acks self');
  facts_tickets id m : (m <= length (requests (forwarder self)))%nat ->
    (forall kind phase, tasks self !! id = Some (kind, phase) -> asks_from m phase) ->
    forall kind phase, tasks self' !! id = Some (kind, phase) -> asks_from m phase;
  facts_blamed id kind phase : tasks self !! id = Some (kind, phase) -> blamed phase ->
    tasks self' !! id = Some (kind, phase);
  facts_lost : lost self' = lost self \/
    exists id kind phase, tasks self' !! id = Some (kind, phase) /\ blamed phase;
}.

Lemma appended_refl n l : appended n l l.
Proof. split; [done|]. intros k m Hk%lookup_lt_Some Hle. lia. Qed.

Lemma appended_app n l l' : Forall (fun m => (n <= m)%nat) l' -> appended n l (l ++ l').
Proof.
  intros Hf. split; [by apply prefix_app_r|]. intros k m Hk Hle. rewrite lookup_app_r in Hk by done.
  by eapply Forall_lookup in Hf; [|exact Hk].
Qed.

Lemma appended_trans n n' l1 l2 l3 : (n <= n')%nat -> appended n l1 l2 -> appended n' l2 l3 -> appended n l1 l3.
Proof.
  intros Hn [Hp1 H1] [Hp2 H2]. split; [by etrans|]. intros k m Hk Hle.
  destruct (decide (k < length l2)%nat) as [Hlt|Hge].
  - destruct (lookup_lt_is_Some_2 _ _ Hlt) as [m' Hm']. pose proof (prefix_lookup_Some _ _ _ _ Hm' Hp2) as Hm.
    rewrite Hk in Hm. injection Hm as <-. by eapply H1.
  - specialize (H2 _ _ Hk). lia.
Qed.

(** The forwarder moves on, and no task. *)
Lemma forwarder_facts self f acks' :
  accepted self `prefix_of` Forwarder.accepted f ->
  appended (length (accepted self)) (requests (forwarder self)) (requests f) ->
  appended (length (accepted self)) (acks self) acks' -> facts self (set_forwarder self f acks').
Proof. intros Ha Hr Hk. split; cbn; eauto. Qed.

Lemma quiet_facts self self' :
  forwarder self' = forwarder self -> acks self' = acks self -> tasks self' = tasks self ->
  lost self' = lost self -> facts self self'.
Proof. intros Hf Hk Ht Hl. split; rewrite ?Hf, ?Hk, ?Ht; eauto using appended_refl. Qed.

(** A task goes on. *)
Lemma task_facts self self' i k p p' :
  forwarder self' = forwarder self -> acks self' = acks self ->
  tasks self !! i = Some (k, p) -> ~ blamed p -> tasks self' = <[i := (k, p')]> (tasks self) ->
  (forall m, (m <= length (requests (forwarder self)))%nat -> asks_from m p -> asks_from m p') ->
  (lost self' = lost self \/ blamed p') -> facts self self'.
Proof.
  intros Hf Hk Hp Hnb Ht Hn Hl. split; rewrite ?Hf, ?Hk, ?Ht; try done; try apply appended_refl.
  - intros id m Hle Hid kind phase. destruct (decide (id = i)) as [->|Hne].
    + rewrite lookup_insert_eq. intros [= <- <-]. eauto.
    + rewrite lookup_insert_ne by done. apply Hid.
  - intros id kind phase Hid Hb. rewrite lookup_insert_ne; [done|]. intros ->. congruence.
  - destruct Hl as [Hl|Hl]; [by left|]. right. exists i, k, p'. by rewrite lookup_insert_eq.
Qed.

Lemma not_blamed phase : (forall lost ticket, phase <> Finished lost ticket) -> phase <> Aborted -> ~ blamed phase.
Proof. intros Hf Ha [->|[ticket ->]]; [done|by eapply Hf]. Qed.

Lemma filter_all_ok (ok : T -> bool) batch :
  existsb (fun payload => negb (ok payload)) batch = false ->
  filter (fun payload => ok payload <> true) batch = [].
Proof.
  induction batch as [|x batch IH]; [done|]. cbn [existsb]. intros [Hx Hb]%orb_false_elim.
  rewrite filter_cons, decide_False; [auto|]. intros Hn. apply Hn. by destruct (ok x).
Qed.

Lemma drop_facts self id phase phase' self' :
  tasks self !! id = Some (Endpoint, phase) -> blamed phase' -> ticket_of phase' = None ->
  match phase with Finished _ _ | Aborted => None | _ => Some (drop_task self id Endpoint phase phase') end = Some self' ->
  facts self self'.
Proof.
  intros Hp Hb Ht Hs. assert (~ blamed phase) as Hnb by (intros [->|[m ->]]; done).
  assert (self' = drop_task self id Endpoint phase phase') as -> by (by destruct phase; simplify_eq).
  eapply (task_facts _ _ id Endpoint phase phase'); [| |done|done| | |by right];
    try (unfold drop_task; by destruct (holds phase)).
  intros m _ _ k Hk. congruence.
Qed.

(** The request of the barrier is new, and made after what was accepted. *)
Lemma request_facts threads self id kind f :
  tasks self !! id = Some (kind, Locked) -> Forwarder.step threads (forwarder self) Forwarder.WaitFor = Some f ->
  facts self (set_task (set_forwarder self f (acks self)) id (kind, AtBarrier (length (requests (forwarder self))))).
Proof.
  intros Hp Hs. unfold Forwarder.step in Hs. destruct (_ && _); [|done]. injection Hs as <-.
  split; cbn; [done| |apply appended_refl| | |by left].
  - unfold requests. cbn. rewrite app_assoc. apply appended_app. by constructor.
  - intros id' m Hle Hid kind' phase. destruct (decide (id' = id)) as [->|Hne].
    + rewrite lookup_insert_eq. intros [= <- <-] k [= <-]. exact Hle.
    + rewrite lookup_insert_ne by done. apply Hid.
  - intros id' kind' phase Hid Hb. rewrite lookup_insert_ne; [done|]. intros ->.
    assert (phase = Locked) as -> by congruence. by destruct Hb as [|[]].
Qed.

Ltac task_goes_on :=
  eapply task_facts; [done|done|done|by apply not_blamed|done|by intros ? _ Hm ? Hk; first [done|apply Hm]|by left].

Lemma facts_of_step threads self e self' :
  inv threads self -> step threads true self e = Some self' -> facts self self'.
Proof.
  intros Hi. pose proof (inv_forwarder _ _ Hi) as Hf.
  destruct e as [payload|ok|id kind|id|id|id|id|id|id ok failed|id|now|id|id]; cbn [step].
  - destruct (Forwarder.step _ _ _) as [f|] eqn:Hs; [|done]. intros [= <-].
    unfold Forwarder.step in Hs. destruct (_ && _); [|done]. injection Hs as <-.
    apply forwarder_facts; [by apply prefix_app_r|apply appended_refl..].
  - intros [= <-]. destruct (forwarder_poll _ _ _ ok Hf) as (acked & Hk & Hr & Ha & _ & _).
    rewrite Hk, drop_app_length, Ha. apply forwarder_facts; rewrite ?Hr, ?Ha; [done|apply appended_refl|].
    apply appended_app, Forall_fmap, Forall_true. intros n. cbn. unfold accepted. lia.
  - destruct (tasks self !! id) eqn:Ht; [done|]. intros [= <-].
    split; cbn; [done|apply appended_refl..| | |by left].
    + intros id' m Hn Hid kind' phase. destruct (decide (id' = id)) as [->|Hne].
      * rewrite lookup_insert_eq. by intros [= <- <-] k.
      * rewrite lookup_insert_ne by done. apply Hid.
    + intros id' kind' phase Hid _. rewrite lookup_insert_ne; [done|congruence].
  - destruct (polled self id) as [[kind []]|] eqn:Hp; try done. apply polled_task in Hp.
    destruct (_ && _); [done|]. intros [= <-]. task_goes_on.
  - destruct (polled self id) as [[kind []]|] eqn:Hp; try done. apply polled_task in Hp.
    destruct (stopped _); [intros [= <-]; task_goes_on|].
    destruct (_ <? _)%nat; [|done]. destruct (Forwarder.step _ _ _) as [f|] eqn:Hs; [|done]. intros [= <-].
    by eapply request_facts.
  - destruct (polled self id) as [[kind [| |ticket| | |]]|] eqn:Hp; try done. apply polled_task in Hp.
    destruct (_ <? _)%nat; [|destruct (stopped _); [|done]]; intros [= <-];
      task_goes_on.
  - destruct (polled self id) as [[kind []]|] eqn:Hp; try done; apply polled_task in Hp; intros [= <-]; task_goes_on.
  - destruct (polled self id) as [[kind [| | |ticket d batch| |]]|] eqn:Hp; try done. apply polled_task in Hp.
    intros [= <-]. task_goes_on.
  - destruct (polled self id) as [[kind [| | |ticket [] batch| |]]|] eqn:Hp; try done. apply polled_task in Hp.
    intros [= <-]. eapply task_facts; [done|done|done|by apply not_blamed|done|done|].
    destruct (negb (is_some ticket) || _) eqn:Hr; [right; right; eauto|left].
    apply orb_false_elim in Hr as [_ [_ Hr]%orb_false_elim]. cbn. by rewrite (filter_all_ok _ _ Hr), app_nil_r.
  - destruct (tasks self !! id) as [[[] phase]|] eqn:Ht; [|done..]. intros Hs.
    apply (drop_facts self id phase Aborted); [done|by left|done|by destruct phase].
  - destruct (cancelled self); [|destruct (_ || _); [|done]]; intros [= <-]; by apply quiet_facts.
  - intros [= <-]. by apply quiet_facts.
  - destruct (_ && _); [|done]. destruct (tasks self !! id) as [[[] phase]|] eqn:Ht; [|done..].
    intros Hs. apply (drop_facts self id phase (Finished true None)); [done|right; eauto|done|by destruct phase].
Qed.

Lemma facts_trans self1 self2 self3 : facts self1 self2 -> facts self2 self3 -> facts self1 self3.
Proof.
  intros [Ha1 Hr1 Hk1 Ht1 Hb1 Hl1] [Ha2 Hr2 Hk2 Ht2 Hb2 Hl2]. pose proof (prefix_length _ _ Ha1) as Hle.
  split; [by etrans|by eapply appended_trans..| |by eauto|].
  - intros id m Hm Hid. apply Ht2; [|by apply Ht1]. destruct Hr1 as [Hp _]. apply prefix_length in Hp. lia.
  - destruct Hl2 as [->|Hl2]; [|by right]. destruct Hl1 as [->|(id & kind & phase & Ht & Hb)]; [by left|].
    right. exists id, kind, phase. auto.
Qed.

Lemma run_facts threads events : forall self self',
  inv threads self -> run threads true self events = Some self' -> facts self self'.
Proof.
  induction events as [|e events IH]; intros self self' Hi; cbn [run]; [intros [= <-]; by apply quiet_facts|].
  destruct (step threads true self e) as [self1|] eqn:Hs; [|done]. cbn. intros Hr.
  eapply facts_trans; [by eapply facts_of_step|]. eapply IH; [|exact Hr]. by eapply flush_step_inv.
Qed.

(** A flush that began after a state and ended well: its request was made after that state. *)
Lemma later_ticket threads self0 self id kind ticket :
  inv threads self -> facts self0 self -> tasks self0 !! id = None ->
  tasks self !! id = Some (kind, Finished false ticket) ->
  exists k, ticket = Some k /\ ((length (requests (forwarder self0)) <= k)%nat /\ (k < length (acknowledged self))%nat) /\
    take (cover threads self k) (accepted self) ⊆+ delivered self ++ lost self.
Proof.
  intros Hi Hf Hn Ht. destruct (inv_covers _ _ Hi _ _ _ Ht) as (k & -> & Hk & Hc).
  exists k. split_and!; [done| |done|done].
  apply (facts_tickets _ _ Hf id _ (le_n _)) in Ht; [by apply Ht|]. intros ? ? Hs. congruence.
Qed.

(** What is covered is settled, and delivered when nobody was told of a loss. *)
Lemma settled threads before self0 self n :
  run threads true init before = Some self0 -> facts self0 self ->
  (length (accepted self0) <= n)%nat -> take n (accepted self) ⊆+ delivered self ++ lost self ->
  accepted self0 ⊆+ delivered self ++ lost self /\
  ((forall id kind phase, tasks self !! id = Some (kind, phase) -> ~ blamed phase) ->
   accepted self0 ⊆+ delivered self).
Proof.
  intros Hr0 Hf Hn Hc. pose proof (run_facts _ _ _ _ (init_inv threads) Hr0) as Hf0.
  assert (accepted self0 ⊆+ delivered self ++ lost self) as Hs.
  { etrans; [|exact Hc]. destruct (facts_accepted _ _ Hf) as [suffix ->].
    rewrite take_app_ge by done. by apply submseteq_inserts_r. }
  split; [exact Hs|]. intros Hnb. assert (lost self = []) as He; [|by rewrite He, app_nil_r in Hs].
  destruct (facts_lost _ _ (facts_trans _ _ _ Hf0 Hf)) as [->|(i & k & p & Hi & Hbl)]; [done|].
  by destruct (Hnb _ _ _ Hi).
Qed.

(** On a runtime that runs nothing between two polls of the forwarder, one flush confirms. *)
Theorem one_flush_confirms before after self0 self id kind ticket :
  run false true init before = Some self0 -> tasks self0 !! id = None ->
  run false true self0 after = Some self -> tasks self !! id = Some (kind, Finished false ticket) ->
  accepted self0 ⊆+ delivered self ++ lost self /\
  ((forall id' kind' phase, tasks self !! id' = Some (kind', phase) -> ~ blamed phase) ->
   accepted self0 ⊆+ delivered self).
Proof.
  intros Hr0 Hn Hr Ht. pose proof (run_inv _ _ _ _ (init_inv _) Hr0) as Hi0.
  pose proof (run_inv _ _ _ _ Hi0 Hr) as Hi. pose proof (run_facts _ _ _ _ Hi0 Hr) as Hf.
  destruct (later_ticket _ _ _ _ _ _ Hi Hf Hn Ht) as (k & -> & [Hge Hlt] & Hc).
  eapply settled; [exact Hr0|exact Hf| |exact Hc]. cbn [cover].
  destruct (lookup_lt_is_Some_2 _ _ Hlt) as [m Hm]. rewrite Hm. cbn.
  destruct (facts_requests _ _ Hf) as [_ Hnew]. eapply Hnew; [|exact Hge].
  by apply lookup_app_l_Some.
Qed.


(** One flush does not confirm: a payload that is accepted, and the barrier requested, after
    the forwarder found its queue empty and before it looks at the requests is not in the
    aggregator when the request is acknowledged, and the flush ends well without it. *)
Theorem one_flush_may_miss (payload : T) :
  exists self0 self, run true true init [Poll true; Accept payload] = Some self0 /\
    run true true self0 [Start 0 Endpoint; Acquire 0; Request 0; Poll true; Barrier 0; Drain 0;
      Sent 0 (fun _ => true) false] = Some self /\
    tasks self !! 0%nat = Some (Endpoint, Finished false (Some 0%nat)) /\
    accepted self0 = [payload] /\ delivered self = [] /\ lost self = [].
Proof. eexists _, _. split; [vm_compute; reflexivity|]. split; [vm_compute; reflexivity|]. by vm_compute. Qed.

(** Without the lock an answer confirms nothing: a flush that finds the aggregator empty
    succeeds while the payload is on its way in another one, which may still lose it. *)
Theorem lock_is_needed (payload : T) :
  exists self, run false false init
    [Accept payload; Poll true; Start 0 Awaited; Acquire 0; Request 0; Poll true; Poll true; Barrier 0; Drain 0;
     Start 1 Endpoint; Acquire 1; Request 1; Poll true; Poll true; Barrier 1; Drain 1;
     Sent 1 (fun _ => true) false] = Some self /\
    tasks self !! 1%nat = Some (Endpoint, Finished false (Some 1%nat)) /\
    accepted self = [payload] /\ delivered self = [] /\ lost self = [].
Proof. eexists. split; [vm_compute; reflexivity|]. by vm_compute. Qed.

(** ** The end of the process *)

(** The events of a task once it exists. *)
Definition concerns (id : nat) (e : Event) : bool :=
  match e with
  | Acquire i | Request i | Barrier i | OtherFails i | Drain i | Sent i _ _ | Abort i | Observe i => bool_decide (i = id)
  | _ => false
  end.

(** The token stays cancelled, no poll that began before is added, and the tasks keep their
    kind. *)
Definition winds_down (self self' : t) : Prop :=
  cancelled self' = true /\ polling self' ⊆ polling self /\
  (forall id kind phase, tasks self !! id = Some (kind, phase) -> exists phase', tasks self' !! id = Some (kind, phase')) /\
  (forall id, lock self' = Some id -> lock self = Some id \/ id ∈ polling self \/
     exists phase, tasks self' !! id = Some (Awaited, phase)).

Lemma winds_down_refl self : cancelled self = true -> winds_down self self.
Proof. intros Hc. split_and!; eauto. Qed.

Lemma winds_down_trans self1 self2 self3 : winds_down self1 self2 -> winds_down self2 self3 -> winds_down self1 self3.
Proof.
  intros (Hc1 & Hp1 & Ht1 & Hl1) (Hc2 & Hp2 & Ht2 & Hl2). split_and!; [done|by etrans| |].
  - intros id kind phase Ht. destruct (Ht1 _ _ _ Ht) as [phase' Ht']. eauto.
  - intros id Hl. destruct (Hl2 _ Hl) as [Hl'|[Hp|Ha]]; [|set_solver|by eauto].
    destruct (Hl1 _ Hl') as [?|[?|[phase Ha]]]; [by eauto..|]. destruct (Ht2 _ _ _ Ha) as [phase' Ha']. eauto.
Qed.

(** A task goes on, and the lock is kept or released. *)
Lemma task_winds_down self self' id kind phase phase' :
  cancelled self = true -> cancelled self' = true -> polling self' = polling self ->
  tasks self !! id = Some (kind, phase) -> tasks self' = <[id := (kind, phase')]> (tasks self) ->
  (lock self' = lock self \/ lock self' = None \/ lock self' = Some id /\ (kind = Awaited \/ id ∈ polling self)) ->
  winds_down self self'.
Proof.
  intros Hc Hc' Hp Ht Ht' Hl. unfold winds_down. rewrite Hp, Ht'. split_and!; [done..| |].
  - intros i k p Hi. destruct (decide (i = id)) as [->|Hne].
    + rewrite lookup_insert_eq. assert (k = kind) as -> by congruence. eauto.
    + rewrite lookup_insert_ne by done. eauto.
  - intros i Hi. destruct Hl as [<-|[Hl|[Hl Hk]]]; [by left|congruence|].
    right. assert (i = id) as -> by congruence. destruct Hk as [->|?]; [|by left].
    right. rewrite lookup_insert_eq. eauto.
Qed.

Lemma polled_kind self id kind phase :
  polled self id = Some (kind, phase) -> cancelled self = true -> kind = Awaited \/ id ∈ polling self.
Proof.
  unfold polled. intros Hp Hc. destruct (tasks self !! id) as [[[] p]|]; cbn in Hp; [|by injection Hp as <- <-; left|done].
  rewrite Hc in Hp. cbn in Hp. right.
  destruct (decide (id ∈ polling self)) as [Hi|Hi]; [done|]. by rewrite bool_decide_true in Hp.
Qed.

Lemma drop_winds_down self id phase phase' :
  cancelled self = true -> tasks self !! id = Some (Endpoint, phase) ->
  winds_down self (drop_task self id Endpoint phase phase').
Proof.
  intros Hc Ht. unfold drop_task. destruct (holds phase);
    (eapply task_winds_down; [done|done|done|exact Ht|done|]); cbn; auto.
Qed.

Lemma step_winds_down threads self e self' :
  cancelled self = true -> step threads true self e = Some self' -> winds_down self self'.
Proof.
  intros Hc. destruct e as [payload|ok|id kind|id|id|id|id|id|id ok failed|id|now|id|id]; cbn [step].
  - destruct (Forwarder.step _ _ _); [|done]. intros [= <-]. split_and!; cbn; eauto.
  - intros [= <-]. split_and!; cbn; eauto.
  - destruct (tasks self !! id) eqn:Ht; [done|]. intros [= <-]. split_and!; cbn; [done..| |by left].
    intros i k p Hi. exists p. rewrite lookup_insert_ne; [done|congruence].
  - destruct (polled self id) as [[kind []]|] eqn:Hp; try done. pose proof (polled_kind _ _ _ _ Hp Hc).
    apply polled_task in Hp. destruct (_ && _); [done|]. intros [= <-]. eapply task_winds_down; eauto.
  - destruct (polled self id) as [[kind []]|] eqn:Hp; try done. apply polled_task in Hp.
    destruct (stopped _); [intros [= <-]; by eapply task_winds_down; eauto|].
    destruct (_ <? _)%nat; [|done]. destruct (Forwarder.step _ _ _); [|done]. intros [= <-].
    by eapply task_winds_down; eauto.
  - destruct (polled self id) as [[kind [| |ticket| | |]]|] eqn:Hp; try done. apply polled_task in Hp.
    destruct (_ <? _)%nat; [|destruct (stopped _); [|done]]; intros [= <-]; by eapply task_winds_down; eauto.
  - destruct (polled self id) as [[kind []]|] eqn:Hp; try done; apply polled_task in Hp; intros [= <-];
      by eapply task_winds_down; eauto.
  - destruct (polled self id) as [[kind [| | |ticket d batch| |]]|] eqn:Hp; try done. apply polled_task in Hp.
    intros [= <-]. by eapply task_winds_down; eauto.
  - destruct (polled self id) as [[kind [| | |ticket [] batch| |]]|] eqn:Hp; try done. apply polled_task in Hp.
    intros [= <-]. by eapply task_winds_down; eauto.
  - destruct (tasks self !! id) as [[[] []]|] eqn:Ht; try done; intros [= <-]; by apply drop_winds_down.
  - rewrite Hc. intros [= <-]. by apply winds_down_refl.
  - intros [= <-]. split_and!; cbn; [done|set_solver|eauto..].
  - destruct (_ && _); [|done].
    destruct (tasks self !! id) as [[[] []]|] eqn:Ht; try done; intros [= <-]; by apply drop_winds_down.
Qed.

Lemma run_winds_down threads events : forall self self',
  cancelled self = true -> run threads true self events = Some self' -> winds_down self self'.
Proof.
  induction events as [|e events IH]; intros self self' Hc; cbn [run]; [intros [= <-]; by apply winds_down_refl|].
  destruct (step threads true self e) as [self1|] eqn:Hs; [|done]. cbn. intros Hr.
  apply step_winds_down in Hs; [|done]. eapply winds_down_trans; [exact Hs|]. by eapply IH; [apply Hs|].
Qed.

(** Past its poll, a flush of the endpoint that holds the lock can only be dropped. *)
Lemma cancelled_task_dropped threads self id phase e self' :
  cancelled self = true -> id ∉ polling self -> tasks self !! id = Some (Endpoint, phase) -> holds phase = true ->
  concerns id e = true -> step threads true self e = Some self' ->
  lock self' = None /\ lost self' = lost self ++ batch_of phase /\
  exists phase', tasks self' !! id = Some (Endpoint, phase') /\ blamed phase'.
Proof.
  intros Hc Hp Ht Hh He Hs.
  assert (polled self id = None) as Hnone.
  { unfold polled. rewrite Ht. cbn. rewrite Hc. cbn. by rewrite bool_decide_true. }
  assert (exists phase', self' = drop_task self id Endpoint phase phase' /\ blamed phase') as (phase' & -> & Hb).
  { destruct e as [| | |i|i|i|i|i|i ok failed|i| | |i]; try done; cbn in He; apply bool_decide_eq_true in He as ->;
      cbn [step] in Hs; rewrite ?Hnone, ?Ht in Hs; try done.
    - exists Aborted. split; [|by left]. destruct phase; try discriminate Hs; by injection Hs as <-.
    - rewrite Hc, bool_decide_true in Hs by done. exists (Finished true None).
      split; [|right; eauto]. destruct phase; try discriminate Hs; by injection Hs as <-. }
  unfold drop_task. rewrite Hh. cbn. rewrite lookup_insert_eq. eauto.
Qed.

(** C40: the end of the process is not stuck behind a request. Once the token is cancelled,
    the lock that a flush of the endpoint holds comes back: when the poll in progress is over,
    whatever happens to that flush next releases the lock, accounts what it had drained as lost
    and reports a loss or nothing, never a success; its next poll is such an event, and lets the
    final flush take the lock. And apart from the polls in progress at the cancellation no
    flush of the endpoint ever takes the lock again. *)
Theorem cancelled_flush_releases_lock threads events self id phase final :
  run threads true init events = Some self -> cancelled self = true ->
  tasks self !! id = Some (Endpoint, phase) -> lock self = Some id ->
  tasks self !! final = Some (Awaited, Waiting) ->
  (id ∉ polling self -> forall e self', concerns id e = true -> step threads true self e = Some self' ->
     lock self' = None /\ lost self' = lost self ++ batch_of phase /\
     exists phase', tasks self' !! id = Some (Endpoint, phase') /\ blamed phase') /\
  (exists self', run threads true self [Yield id; Observe id; Acquire final] = Some self' /\ lock self' = Some final) /\
  (forall events' self' i, run threads true self events' = Some self' -> lock self' = Some i ->
     i <> id -> i ∉ polling self -> exists phase', tasks self' !! i = Some (Awaited, phase')).
Proof.
  intros Hr Hc Ht Hl Hf. pose proof (run_inv _ _ _ _ (init_inv _) Hr) as Hi.
  destruct (inv_lock _ _ Hi) as [_ Hh]. destruct (Hh _ Hl) as (k & p & Hp & Hhp). rewrite Ht in Hp.
  injection Hp as <- <-. assert (final <> id) by congruence. split_and!.
  - intros Hnp e self' He Hs. by eapply cancelled_task_dropped.
  - eexists. cbn [run]. cbn [step]. cbn. rewrite Hc, Ht, bool_decide_true by set_solver. cbn.
    destruct phase; try done; unfold polled; cbn; rewrite lookup_insert_ne by done; rewrite Hf; by cbn.
  - intros events' self' i Hr' Hl' Hne Hnp. destruct (run_winds_down _ _ _ _ Hc Hr') as (_ & _ & _ & Hw).
    destruct (Hw _ Hl') as [?|[?|?]]; [congruence|done|done].
Qed.

End Flushes.
Arguments t : clear implicits.
Arguments Phase : clear implicits.
Arguments Event : clear implicits.
End Flushes.

(** * The process *)

(** How the listener ends after it was asked to: well, with an error, with a panic of its
    task, or not within [SHUTDOWN_TIMEOUT]. *)
Inductive ListenerEnd := ListenerOk | ListenerError | ListenerPanicked | ListenerLate.

(** What ends the wait of [main]: a signal, an error of the handler of signals, or the
    listener. *)
Inductive Woken := Signal | SignalError | ListenerStopped (e : ListenerEnd).

Inductive Action :=
| Bind (port : Z)
| StartPeriodic (interval : Interval)
| CancelAgent
| CancelFlushes
| AbortListener
| FinalFlush.

Definition await_listener_shutdown (e : ListenerEnd) : list Action :=
  match e with
  | ListenerLate => [CancelFlushes; AbortListener]
  | _ => []
  end.

(** What the process does, and whether it ends well. *)
Definition main `{Externals} (strategy : FlushStrategy) (flush_timeout now : Z) (woken : Woken)
    (listener_end : ListenerEnd) : outcome (list Action * bool) :=
  match receiver_port_from_env with
  | None => Done ([], false)
  | Some port =>
      periodic ← spawn_periodic_flush strategy flush_timeout now;
      let started := Bind port :: match periodic with Some i => [StartPeriodic i] | None => [] end in
      match woken with
      | Signal =>
          Done (started ++ [CancelAgent] ++ await_listener_shutdown listener_end ++ [FinalFlush], true)
      | SignalError | ListenerStopped _ => Done (started, false)
      end
  end.

(** The process ends well exactly when it was asked to end, and then its last
    action is the flush of what it has accepted, after the listener has been told to stop and
    has stopped or, if it does not within its time, after the flushes of the endpoint have been
    cancelled. Every strategy but the default one has a periodic flush. *)
Theorem test_mode_drains_last `{Externals} strategy flush_timeout now woken listener_end actions ok :
  main strategy flush_timeout now woken listener_end = Done (actions, ok) ->
  (ok = true <-> woken = Signal /\ is_Some receiver_port_from_env) /\
  (ok = true -> exists started, actions = started ++ [CancelAgent] ++ await_listener_shutdown listener_end ++ [FinalFlush]) /\
  (FinalFlush ∈ actions -> ok = true) /\
  (ok = true -> (exists i, StartPeriodic i ∈ actions) <-> strategy <> Default).
Proof.
  unfold main. destruct receiver_port_from_env as [port|].
  2: { intros [= <- <-]. split_and!; [split; [done|by intros [_ [? ?]]]|done|set_solver|done]. }
  unfold mbind at 1, outcome_mbind, outcome_bind.
  destruct (spawn_periodic_flush strategy flush_timeout now) as [periodic|] eqn:Hp; [|done].
  assert (is_Some periodic <-> strategy <> Default) as Hs.
  { unfold spawn_periodic_flush in Hp. destruct strategy; [by injection Hp as <-; split; [intros []|]|..];
      destruct (FlushControl.get_flush_interval _) as [i|]; try discriminate Hp; injection Hp as <-; by split. }
  destruct woken; intros [= <- <-];
    [|by split_and!; [split; [done|by intros [? _]]|done|destruct periodic; set_solver|done]..].
  split_and!; [by split| |done|].
  { intros _. by exists (Bind port :: match periodic with Some i => [StartPeriodic i] | None => [] end). }
  intros _. rewrite <- Hs. split.
  - intros [i Hi]. destruct periodic; [done|]. cbn in Hi. destruct listener_end; set_solver.
  - intros [i ->]. exists i. set_solver.
Qed.

(** * Samples *)

Section TestModeWitnesses.
Import Flushes.



(** A flush of the endpoint is at its barrier when the process ends. *)
Definition stuck : list (Event nat) :=
  [Accept 7%nat; Start 0 Endpoint; Acquire 0; Request 0; Cancel {[0%nat]}; Start 1 Awaited; Yield 0].

Lemma cancelled_flush_releases_lock_witness :
  exists self self', run true true init stuck = Some self /\
    run true true self [Yield 0; Observe 0; Acquire 1] = Some self' /\ lock self' = Some 1%nat /\
    forall e self1, concerns 0 e = true -> step true true self e = Some self1 -> lock self1 = None.
Proof.
  destruct (run true true init stuck) as [self|] eqn:H0; [|vm_compute in H0; discriminate H0].
  assert (cancelled self = true /\ tasks self !! 0%nat = Some (Endpoint, AtBarrier 0) /\
    lock self = Some 0%nat /\ tasks self !! 1%nat = Some (Awaited, Waiting) /\ polling self = ∅) as (Hc & Ht & Hl & Hf & Hp)
    by (vm_compute in H0; injection H0 as <-; by vm_compute).
  destruct (cancelled_flush_releases_lock true stuck self 0 (AtBarrier 0) 1 H0 Hc Ht Hl Hf) as (H1 & (self' & H2 & H3) & _).
  exists self, self'. split; [reflexivity|]. split; [exact H2|]. split; [exact H3|].
  intros e self1 He Hs. eapply H1; [|exact He|exact Hs]. rewrite Hp. apply not_elem_of_empty.
Defined.

Lemma test_mode_drains_last_witness :
  let _ := Sample.externals in
  exists actions ok, main Default 0 0 Signal ListenerLate = Done (actions, ok) /\ ok = true /\
    exists started, actions = started ++ [CancelAgent; CancelFlushes; AbortListener; FinalFlush].
Proof.
  intros externals. destruct (main Default 0 0 Signal ListenerLate) as [[actions ok]|] eqn:Hm; [|discriminate Hm].
  destruct (test_mode_drains_last Default 0 0 Signal ListenerLate actions ok Hm) as ([_ Hok] & Hs & _).
  exists actions, ok. split; [reflexivity|]. assert (ok = true) as Ht by (apply Hok; split; [reflexivity|by eexists]).
  split; [exact Ht|]. exact (Hs Ht).
Defined.
End TestModeWitnesses.
