(* ===== verification/Startup.v ===== *)
(** The start of the extension: [main], [extension_loop_active] up to its loop and
    [extension_loop_idle] of [bin/bottlecap/main.rs], and [startup.rs].

    What the start does is the list of the tasks it spawns, in their order, and how it goes
    on. A setting that the code refuses with [expect] is a panic. What the sandbox answers
    (the registration, the subscription), whether sockets can be bound and whether the
    libraries give their clients are the fields of [Attempts]. *)
From S2P Require Import Prelude F64 Text FlushControl DataStreams Aggregators Triggers TriggerEvents.
From S2P Require Import Configuration SpanInferrer InvocationProcessor InvocationProperties Tags.
From S2P Require Import StatsConcentrator TraceProcessor AppSec TraceAgent OtlpAgent ExtensionLoop.
From S2P Require Import RuntimeProxy Environment Logger.
From stdpp Require Import sorting.
#[local] Open Scope Z_scope.

(** * Logging *)

(** The directives of the filter; [debug] is the text of the level that [DD_LOG_LEVEL]
    names, if it names one. *)
Definition log_directives `{Externals} (debug : string -> option string) : string :=
  let log_level := default "Info"%string (debug (default "info"%string (env_var "DD_LOG_LEVEL"))) in
  let http_libraries_off := (fun target => (target +:+ "=off")%string) <$> HTTP_LIBRARY_TARGETS in
  (str_join "," http_libraries_off +:+ ",datadog-trace-mini-agent=off," +:+ log_level)%string.

(** * Data streams *)

Section Dsm.
Context `{Externals}.
Context (EXTENSION_VERSION : string).

Definition dsm_tags (config : Config) : list string :=
  merge_sort String.le ((fun kv => (kv.1 +:+ ":" +:+ kv.2)%string) <$> hash_iter (cfg_tags config)).

Definition dsm_processor (config : Config) (tags_provider : Provider) (apm_dd_url : bytes) :
    option DsmProcessor.t :=
  if dsm_consume_enabled config then
    Some (DsmProcessor.new
      (resolve_dsm_service (cfg_service config) (get_canonical_resource_name tags_provider))
      (default EmptyString (cfg_env config)) EXTENSION_VERSION (default EmptyString (cfg_version config))
      (dsm_tags config) apm_dd_url)
  else None.
End Dsm.

(** * Tasks *)

Inductive Task :=
| LogsAggregatorTask | LogsAgentTask | MetricsAggregatorTask | DogstatsdTask
| InvocationProcessorTask | StatsConcentratorTask | TraceAggregatorTask | SpanDedupTask
| TraceForwarderTask | StatsForwarderTask | TraceAgentTask | RuntimeProxyTask
| LifecycleListenerTask | TelemetryListenerTask | OtlpAgentTask.

#[export] Instance Task_eq_dec : EqDecision Task.
Proof. solve_decision. Defined.

(** The token that stops a task, if it has one. *)
Definition token_of (task : Task) : option BackgroundService :=
  match task with
  | LogsAgentTask => Some LogsAgent
  | DogstatsdTask => Some Dogstatsd
  | TraceAgentTask => Some TraceAgent
  | RuntimeProxyTask => Some RuntimeProxy
  | LifecycleListenerTask => Some LifecycleListener
  | TelemetryListenerTask => Some TelemetryListener
  | OtlpAgentTask => Some OtlpAgent
  | _ => None
  end.

(** What the start meets. *)
Record Attempts := {
  provider_prepared : bool;
  client_created : bool;
  register_joined : bool;
  registration : (string * option string) + ExtensionError;
  metrics_service_created : bool;
  proxy_started : bool;
  subscribed : bool;
}.

(** The settings of the clients, of the metrics intake and of the rules. *)
Record StartSettings := {
  client_settings : ClientConfig;
  dd_url_setting : string;
  url_setting : string;
  additional_endpoints : list (string * list string);
  replace_tags : option (list (string * string * string));
}.

(** How the start goes on: with the loop, which knows whether the proxy and the OTLP agent
    have been started, or without one. *)
Inductive Started :=
| LoopReady (proxy otlp : bool) (flush_strategy : FlushStrategy)
| SubscriptionFailed.

Section Startup.
Context `{Externals} `{ClientOps Pem Certificate}.
Context (dd_dd_url dd_url metrics_site : string -> bool).
Context {Regex : Type} (regex_new : string -> option Regex) (plain_replacement : string -> bool).
Context (config : Config) (settings : StartSettings) (aws_config : AwsConfig) (proxy_config : ProxyConfig).

Definition start_logs_agent : list Task := [LogsAggregatorTask; LogsAgentTask].

Definition start_dogstatsd (a : Attempts) : outcome (list MetricsFlusher * list Task) :=
  if metrics_service_created a then
    flushers ← start_metrics_flushers dd_dd_url dd_url metrics_site (dd_url_setting settings)
                 (url_setting settings) (cfg_site config) (additional_endpoints settings);
    Done (flushers, [MetricsAggregatorTask; DogstatsdTask])
  else Panic.

(** [TraceAgent::new] starts the two forwarders. *)
Definition build_trace_agent : outcome (list Task) :=
  _client ← trace_http_client (client_settings settings);
  _rules ← build_tag_replace_rules regex_new plain_replacement (replace_tags settings);
  Done [StatsConcentratorTask; TraceAggregatorTask; SpanDedupTask; TraceForwarderTask; StatsForwarderTask].

Definition start_trace_agent : outcome (list Task) :=
  tasks ← build_trace_agent;
  Done (tasks ++ [TraceAgentTask]).

Definition start_api_runtime_proxy (a : Attempts) : bool :=
  should_start_proxy config proxy_config && proxy_started a.

Definition start_otlp_agent : bool := should_enable_otlp_agent config.

(** The listener is started before the subscription, which may fail. *)
Definition setup_telemetry_client (a : Attempts) : list Task * bool := ([TelemetryListenerTask], subscribed a).

Definition spawned (started : bool) (task : Task) : list Task := if started then [task] else [].

(** [extension_loop_active] until its loop. The processors of data streams and of App & API
    Protection, and the propagator, start no task. *)
Definition extension_loop_active (a : Attempts) (configured_strategy : FlushStrategy) :
    outcome (list Task * Started) :=
  let logs := start_logs_agent in
  '(_, metrics) ← start_dogstatsd a;
  traces ← start_trace_agent;
  let proxy := start_api_runtime_proxy a in
  let '(telemetry, subscribed) := setup_telemetry_client a in
  let tasks := logs ++ metrics ++ [InvocationProcessorTask] ++ traces ++ spawned proxy RuntimeProxyTask ++
    [LifecycleListenerTask] ++ telemetry in
  if subscribed then
    let otlp := start_otlp_agent in
    Done (tasks ++ spawned otlp OtlpAgentTask,
          LoopReady proxy otlp (get_flush_strategy_for_mode aws_config configured_strategy))
  else Done (tasks, SubscriptionFailed).

(** How [main] goes on once it has registered. *)
Inductive MainEnd := MainError | Looping (s : Started) | Idle.

Definition main (a : Attempts) (configured_strategy : FlushStrategy) : outcome (list Task * MainEnd) :=
  if negb (provider_prepared a && client_created a && register_joined a) then Done ([], MainError)
  else
    match registration a with
    | inr _ => Done ([], MainError)
    | inl _ =>
        '(tasks, started) ← extension_loop_active a configured_strategy;
        Done (tasks, match started with SubscriptionFailed => Idle | _ => Looping started end)
    end.
End Startup.

(** [extension_loop_idle], over the answers of [/next]: the error it ends with, or none yet. *)
Fixpoint extension_loop_idle (answers : list (NextEventResponse + ExtensionError)) : option ExtensionError :=
  match answers with
  | [] => None
  | inl _ :: answers => extension_loop_idle answers
  | inr e :: _ => Some e
  end.

(** * Properties *)

Definition is_done {A} (o : outcome A) : bool := match o with Done _ => true | Panic => false end.
Definition is_inl {A B} (s : A + B) : bool := match s with inl _ => true | inr _ => false end.

(** The order in which the configured tags are iterated does not matter. *)
Lemma dsm_tags_sorted `{Externals} config :
  dsm_tags config ≡ₚ (fun kv => (kv.1 +:+ ":" +:+ kv.2)%string) <$> hash_iter (cfg_tags config) /\
  Sorted String.le (dsm_tags config).
Proof. split; [apply merge_sort_Permutation|apply Sorted_merge_sort; apply _]. Qed.

Section StartupProperties.
Context `{Externals} `{ClientOps Pem Certificate}.
Context (dd_dd_url dd_url metrics_site : string -> bool).
Context {Regex : Type} (regex_new : string -> option Regex) (plain_replacement : string -> bool).
Context (config : Config) (settings : StartSettings) (aws_config : AwsConfig) (proxy_config : ProxyConfig).

Abbreviation extension_loop_active_ := (extension_loop_active dd_dd_url dd_url metrics_site regex_new
  plain_replacement config settings aws_config proxy_config).
Abbreviation main_ := (main dd_dd_url dd_url metrics_site regex_new plain_replacement config settings
  aws_config proxy_config).

(** The tasks of the start, in their order. *)
Definition common_tasks (proxy : bool) : list Task :=
  [LogsAggregatorTask; LogsAgentTask; MetricsAggregatorTask; DogstatsdTask; InvocationProcessorTask;
   StatsConcentratorTask; TraceAggregatorTask; SpanDedupTask; TraceForwarderTask; StatsForwarderTask;
   TraceAgentTask] ++ spawned proxy RuntimeProxyTask ++ [LifecycleListenerTask; TelemetryListenerTask].

(** The settings that the start does not refuse by a panic. *)
Definition settings_accepted (a : Attempts) : bool :=
  metrics_service_created a &&
  is_done (start_metrics_flushers dd_dd_url dd_url metrics_site (dd_url_setting settings)
    (url_setting settings) (cfg_site config) (additional_endpoints settings)) &&
  is_done (trace_http_client (client_settings settings)) &&
  is_done (build_tag_replace_rules regex_new plain_replacement (replace_tags settings)).

Lemma active_spec a configured :
  extension_loop_active_ a configured =
  if settings_accepted a then
    let proxy := start_api_runtime_proxy config proxy_config a in
    Done (if subscribed a
          then (common_tasks proxy ++ spawned (start_otlp_agent config) OtlpAgentTask,
                LoopReady proxy (start_otlp_agent config) (get_flush_strategy_for_mode aws_config configured))
          else (common_tasks proxy, SubscriptionFailed))
  else Panic.
Proof.
  unfold settings_accepted, extension_loop_active, start_dogstatsd, start_trace_agent, build_trace_agent,
    setup_telemetry_client, mbind, outcome_mbind, outcome_bind.
  destruct (metrics_service_created a); [|done]. destruct (start_metrics_flushers _ _ _ _ _ _ _); [|done].
  destruct (trace_http_client _); [|done]. destruct (build_tag_replace_rules _ _ _); [|done]. unfold common_tasks.
  by destruct (start_api_runtime_proxy config proxy_config a), (subscribed a).
Qed.

(** How a start ends. If the client cannot be made or the registration fails,
    nothing is started. Otherwise the start panics exactly when a setting is refused; and if
    none is, the agents are started, and the extension goes into its loop exactly when the
    Telemetry API takes its subscription. If it does not, the extension only asks for events,
    while the agents that it has started, the trace agent, the listener of metrics and the
    lifecycle listener among them, go on accepting data that nothing flushes. *)
Lemma start_outcomes a configured :
  main_ a configured =
  if provider_prepared a && client_created a && register_joined a && is_inl (registration a) then
    if settings_accepted a then
      let proxy := start_api_runtime_proxy config proxy_config a in
      let otlp := start_otlp_agent config in
      Done (if subscribed a
            then (common_tasks proxy ++ spawned otlp OtlpAgentTask,
                  Looping (LoopReady proxy otlp (get_flush_strategy_for_mode aws_config configured)))
            else (common_tasks proxy, Idle))
    else Panic
  else Done ([], MainError).
Proof.
  unfold main, mbind, outcome_mbind, outcome_bind. rewrite active_spec.
  destruct (provider_prepared a && client_created a && register_joined a); cbn [negb]; [|done].
  destruct (registration a); [|done]. destruct (settings_accepted a); [|done]. by destruct (subscribed a).
Qed.

Lemma looping_tasks a configured tasks proxy otlp strategy :
  main_ a configured = Done (tasks, Looping (LoopReady proxy otlp strategy)) ->
  tasks = common_tasks proxy ++ spawned otlp OtlpAgentTask.
Proof.
  rewrite start_outcomes. destruct (_ && is_inl _); [|done]. destruct (settings_accepted a); [|done].
  cbv zeta. destruct (subscribed a); [|done]. by intros [= <- <- <- _].
Qed.

(** What a loop that has returned has stopped. *)
Definition stops {SamplingPriority : Type} (proxy otlp : bool) : list (@Action SamplingPriority) :=
  [ExtensionLoop.Cancel TelemetryListener; ExtensionLoop.Cancel LogsAgent] ++
  cancel_background_services proxy otlp ++ [ShutdownLogsAggregator; ShutdownTraceAggregator].

Lemma log_stops {SamplingPriority : Type} proxy otlp control inputs self (x : @Action SamplingPriority) :
  OnDemand.run proxy otlp (OnDemand.start control) inputs = Some self -> OnDemand.phase self = OnDemand.Returned ->
  OnDemandProperties.running x = false -> x <> AwaitHandles -> x <> FlushBlockingFinal ->
  x ∈ OnDemand.log self <-> x ∈ stops proxy otlp.
Proof.
  intros Hr Hp Hx Ha Hf.
  apply (OnDemandProperties.finished_log proxy otlp control inputs self Hr) in Hp as (pre & drained & -> & Hpre & Hd).
  rewrite Forall_forall in Hpre, Hd. unfold stops.
  assert (x ∉ pre) by (intros Hin%Hpre; by rewrite Hx in Hin).
  assert (x ∉ drained) by (intros Hin%Hd; by destruct x).
  assert (x <> ResetInterval) by (by intros ->). set_solver.
Qed.

(** C13: the tasks that have a token are stopped, and no others. However the loop on
    demand runs after a start, when it returns it has cancelled exactly the tokens of the
    tasks that the start has spawned, and shut down the two aggregators; no task
    was started twice. *)
Theorem started_tasks_stopped {SamplingPriority : Type} a configured tasks proxy otlp strategy control inputs self :
  main_ a configured = Done (tasks, Looping (LoopReady proxy otlp strategy)) ->
  OnDemand.run (SamplingPriority := SamplingPriority) proxy otlp (OnDemand.start control) inputs = Some self ->
  OnDemand.phase self = OnDemand.Returned ->
  NoDup tasks /\
  (forall service, ExtensionLoop.Cancel service ∈ OnDemand.log self <-> Some service ∈ token_of <$> tasks) /\
  (ShutdownLogsAggregator ∈ OnDemand.log self <-> LogsAggregatorTask ∈ tasks) /\
  (ShutdownTraceAggregator ∈ OnDemand.log self <-> TraceAggregatorTask ∈ tasks).
Proof.
  intros Hm Hr Hp. apply looping_tasks in Hm as ->. split_and!.
  - destruct proxy, otlp; by apply (bool_decide_unpack _).
  - intros service. rewrite (log_stops proxy otlp control inputs self _ Hr Hp) by done.
    unfold stops, cancel_background_services, common_tasks, spawned.
    destruct proxy, otlp, service; cbn; set_solver.
  - rewrite (log_stops proxy otlp control inputs self _ Hr Hp) by done. unfold stops, common_tasks. set_solver.
  - rewrite (log_stops proxy otlp control inputs self _ Hr Hp) by done. unfold stops, common_tasks. set_solver.
Qed.
End StartupProperties.

(** Only an error of [/next] ends the idle loop: an event, be it the shutdown, does not. *)
Lemma idle_ends_on_error answers e :
  extension_loop_idle answers = Some e <->
  exists (before : list NextEventResponse) after, answers = (inl <$> before) ++ inr e :: after.
Proof.
  split.
  - induction answers as [|[event|e'] answers IH]; cbn; [done| |intros [= ->]; by exists [], answers].
    intros (before & after & ->)%IH. by exists (event :: before), after.
  - intros (before & after & ->). by induction before.
Qed.

(** * Samples *)

Module StartSample.
Definition settings : StartSettings :=
  {| client_settings := {| Environment.flush_timeout := 30; skip_ssl_validation := false; http_protocol := None;
                           tls_cert_file := None; proxy_https := None |};
     dd_url_setting := EmptyString; url_setting := EmptyString; additional_endpoints := [];
     replace_tags := None |}.

Definition attempts : Attempts :=
  {| provider_prepared := true; client_created := true; register_joined := true;
     registration := inl ("id"%string, None); metrics_service_created := true; proxy_started := false;
     subscribed := true |}.
End StartSample.

Section StartupWitnesses.
#[local] Existing Instances Sample.externals ClientSample.ops.
Import StartSample.

Lemma started_tasks_stopped_witness :
  exists tasks strategy self,
    main (fun _ => true) (fun _ => true) (fun _ => true) (fun _ => Some ()) (fun _ => true) Sample.config settings
      SampleRun.aws ProxySample.aws_config attempts End_ = Done (tasks, Looping (LoopReady false false strategy)) /\
    LoopSample.loop LoopSample.inputs = Some self /\
    forall service, ExtensionLoop.Cancel service ∈ OnDemand.log self <-> Some service ∈ token_of <$> tasks.
Proof.
  destruct (LoopSample.loop LoopSample.inputs) as [self|] eqn:Hr; [|vm_compute in Hr; discriminate].
  assert (OnDemand.phase self = OnDemand.Returned) as Hp by (vm_compute in Hr; injection Hr as <-; reflexivity).
  eexists _, _, self. split; [reflexivity|]. split; [exact eq_refl|].
  exact (proj1 (proj2 (started_tasks_stopped (fun _ => true) (fun _ => true) (fun _ => true) (fun _ => Some ())
    (fun _ => true) Sample.config settings SampleRun.aws ProxySample.aws_config attempts End_ _ false false _
    LoopSample.control LoopSample.inputs self eq_refl Hr Hp))).
Defined.
End StartupWitnesses.
